(* ===== verification/_CoqProject ===== *)
-Q . S2P
Prelude.v
Memory.v
NgxBase.v
NgxRequestLine.v
NgxHeaderLine.v
NgxUri.v
NgxComplexUri.v
NgxPathSpec.v
NgxStatusLine.v
NgxChunked.v
HdInt.v
HdStatic.v
HdRing.v
HdTable.v
HdRepr.v
HdDeflate.v
HdInflate.v
HdDecode.v
HdSession.v
H2Buf.v
H2Frame.v
H2Wire.v
H2Headers.v
H2Lists.v
Resp.v
Ip4.v
Ip6.v
EthArp.v
EthArpInv.v
EthArpSpec.v
TcpBase.v
TcpOut.v
TcpPcb.v
TcpRecv.v
TcpFsm.v
TcpSample.v
TcpRecvInv.v
TcpRecvStep.v
TcpSendInv.v
TcpSpec.v
TcpFlow.v
TcpStates.v
NetBytes.v
DhcpMsg.v
DhcpReply.v
DhcpClient.v
DhcpWire.v
DhcpInv.v
DhcpSteps.v
DhcpParse.v
DhcpRun.v
DhcpTicks.v
DhcpSystem.v
DhcpSent.v
DhcpTold.v
DhcpLease.v
DhcpSample.v
DhcpSpec.v
DnsBase.v
DnsName.v
DnsClient.v
DnsParse.v
DnsNames.v
DnsMatch.v
DnsRecords.v
DnsReply.v
DnsQuery.v
DnsInv.v
DnsChange.v
DnsDraw.v
DnsSteps.v
DnsRun.v
DnsCalls.v
DnsRequests.v
DnsWait.v
DnsSystem.v
DnsExchange.v
DnsSample.v
DnsSpec.v
