(* ===== verification/Prelude.v ===== *)
(** Verification of the protocol code of this repository.

    The repository collects the protocol implementations that a course on
    networking reads. This library models the parts of them that are written
    as self-contained algorithms, line by line as Gallina functions, and proves
    what makes them correct.

    * The program and the files that model it

    nginx, HTTP/1.1 (src/http1-1/src/upstream/src/http/ngx_http_parse.c). Each
    parser is a state machine over the receive buffer that returns NGX_AGAIN
    when the buffer is used up and is called again when more has arrived.
    - NgxBase: the fields of [ngx_http_request_t] the parsers share, and the
      class [Resumable] with the general theorem on delivery in pieces.
    - NgxRequestLine: [ngx_http_parse_request_line].
    - NgxHeaderLine: [ngx_http_parse_header_line].
    - NgxUri: [ngx_http_parse_uri].
    - NgxComplexUri: [ngx_http_parse_complex_uri] with its two memories;
      NgxPathSpec: what it computes.
    - NgxStatusLine: [ngx_http_parse_status_line].
    - NgxChunked: [ngx_http_parse_chunked].
    One definition stands for one [case] of the switch; [step] is the switch,
    the function named like the C function is the loop with its labels.

    nghttp2, HPACK (src/http2/src/upstream/lib/nghttp2_hd.c).
    - HdInt: integers with a prefix. HdStatic: static table, tokens, hash.
      HdRing: the ring buffer. HdTable: entries, hash map, dynamic table, search.
    - HdRepr: the representations of RFC 7541, the specification between the
      encoder (HdDeflate) and the decoder (HdInflate; HdDecode has the proof
      that it implements the specification).
    - HdSession: an encoder and a decoder at the ends of a connection.

    nghttp2, frames (src/http2/src/upstream/lib/nghttp2_frame.c).
    - H2Buf: buffers and chains of buffers. H2Frame: the frames with a body of
      their own; H2Wire: their round trip. H2Headers: HEADERS, PUSH_PROMISE,
      CONTINUATION and padding, over the HPACK encoder. H2Lists: lists of
      headers and settings.

    Redis (src/custom-protocol/src/upstream/redis/src/resp_parser.c).
    - Resp: the parser of replies, which reports to callbacks that call it again.

    lwIP (src/ipv4-ipv6/src/upstream/src/core, src/arp-ndp/src/upstream/src).
    - Ip4: core/ipv4/ip4_addr.c. Ip6: core/ipv6/ip6_addr.c, which calls Ip4 for
      mapped addresses.
    - EthArp: core/ipv4/etharp.c and [ethernet_output] of netif/ethernet.c, the
      ARP cache, and the histories of calls to it. EthArpInv: its invariant and
      the fate of packet buffers. EthArpSpec: what it promises.

    lwIP, TCP (src/tcp/src/upstream/src/core, include/lwip).
    - TcpBase: sequence numbers, segments, [struct tcp_pcb] in four parts
      (receiver, sender, congestion, timers) and the variables of an input.
    - TcpOut: core/tcp_out.c, all of it. TcpPcb: what core/tcp.c does to one
      connection: windows, closing, aborting, both timers, refused data.
    - TcpRecv: [tcp_receive] of core/tcp_in.c with the queue of segments that
      are out of order and the selective acknowledgments. TcpFsm: the rest of
      core/tcp_in.c, options, [tcp_process] and [tcp_input], and [tcp_connect].
    - TcpRecvInv, TcpRecvStep: the receiver as a window over the stream of the
      other side. TcpSendInv: the queues of the sender. TcpSpec, TcpFlow,
      TcpStates: what is promised. TcpSample: a configuration for examples.

    lwIP, DHCP (src/dhcp/src/upstream/src/core/ipv4/dhcp.c).
    - DhcpMsg: messages and how they are written. DhcpReply: how the options of a
      reply are read. DhcpClient: the state machine, with one definition per
      function; the timers run over all interfaces, which share a control block.
    - DhcpWire: what is written is a list of options. DhcpInv, DhcpSteps, DhcpRun:
      the invariant of a client and every operation. DhcpSystem: all interfaces
      over any history of calls; DhcpSent: who sends a message, and when. DhcpParse: reading is safe; DhcpTold: and it is
      what the server wrote. DhcpTicks, DhcpLease: what time does, and the exchange.
      DhcpSpec: what is promised. DhcpSample: a configuration for examples.

    lwIP, DNS (src/dhcp/src/upstream/src/core/dns.c).
    - DnsBase: options, the outside, the variables of the file. DnsName: names in
      messages. DnsClient: requests, the table with its timer, queries, replies
      and local hosts; one definition per function, and one per loop.
    - DnsNames, DnsMatch, DnsRecords, DnsReply, DnsQuery: what is accepted as a name,
      a record and a reply, and what is written; DnsParse: reading ends, inside of
      the array of a name when the question is no longer than it.
    - DnsInv: the invariant, and the abstract changes that every operation is made
      of (a query begins, is sent again, is answered, an answer grows old, a request
      joins). DnsChange: the changes keep it. DnsDraw, DnsSteps, DnsRun, DnsCalls,
      DnsRequests: the operations are such changes. DnsWait: what time does.
    - DnsSystem: histories of calls, messages and seconds. DnsExchange: a request and
      its reply. DnsSpec: what is promised. DnsSample: a configuration for examples.

    This file holds what they share (integers of 8 to 64 bits, memory as a list
    of bytes, machines that are driven by bytes); Memory has reads and writes
    of several bytes, NetBytes the numbers in network order.

    * How the code is modelled

    Pointers are offsets into a list of bytes, NULL is [None]; an access
    outside of an object makes the result [None] (or [Fault] in NgxComplexUri),
    so that a theorem that a result is [Some] is a theorem of memory safety.
    Unsigned arithmetic wraps: [u8], [u32], [u64] stand where the code has the
    type. An allocation fails when the parameter [malloc_ok] says so. State is
    passed explicitly; errors are values.

    Loops are structural where the code consumes input, and have fuel
    otherwise. The fuel is always shown to be enough: for the nginx path
    [2 * (ue - us) + 3] steps (a byte is looked at once, or again after it was
    pushed back); 10 bytes for an HPACK integer; 64 doublings of the ring; the
    length of the table for evictions; [2 * len + 2] steps of the decoder on
    [len] bytes; the payload for ORIGIN and CONTINUATION; the length of the
    buffer for nested replies; for the ARP cache the size of the table; for IPv4
    five parts, 33 bits of a netmask, and the
    length of the text for a number; for IPv6 the length of the text, and 9
    steps for the zeros of "::"; for TCP the length of the options, the limit
    TCP_SND_QUEUELEN of the queue for the segments of one write, the buffers of a
    chain for data that is offered in parts, the number of bytes for the
    callbacks of acknowledgments; for DHCP the room for options that is padded, 64
    numbers of one option (of at most 255 bytes), the length of the reply for its
    options, and three areas of options; for DNS the bytes of a message for the
    labels of a name, the answers of a reply, 256 identifiers that are counted, and
    [rand_fuel] random ones.

    Code that is not in the repository is a class or a parameter with its
    documented behaviour as laws, and each class has an instance in the file
    that uses it, on which the examples run: [ngx_hash] and the width of
    [off_t] (nginx); [Bufs], [HuffmanCode], [HuffmanEncoder], [HuffmanDecoder],
    [Wire], [FrameBufs], [HeaderBufs], [PrioritySpec] and [Downcase] (nghttp2);
    [RespLib] (Redis); [Endian], [LwipMacros], [NetworkOrder] and, for the outcome
    of allocations and transmissions, [World] (lwIP). The options that select
    code of the ARP cache are the class [EtharpOptions]. For TCP they are
    [TcpOptions]; [TcpWorld] is allocation, routing, IP output and the clock, an
    oracle per call; [PbufLib] is pbuf.c; [TcpApp] is the application, whose
    callbacks may do anything to the connection. For DHCP the options are
    [DhcpOptions], pbuf.c is [DhcpPbufs], allocation, transmission and random
    numbers are [DhcpWorld]; [Acknowledged] is the set of addresses that a theorem
    speaks of. For DNS they are [DnsOptions], [DnsPbufs], [DnsText] (comparison of
    strings, written addresses) and [DnsWorld]; [DnsRandom] says that random numbers
    find a free identifier and a free port in the end, [DnsSizes] that the table has
    an entry for each request, which is the default; [Known] is what a theorem takes
    for a server and a reply. A failed LWIP_ASSERT is [None].

    * What is proved

    The nginx parsers: what is accepted is well formed and its pointers are in
    order (request_line_accepted, header_line_accepted); every well-formed
    input is accepted (request_line_complete, status_line_complete,
    chunk_header, last_chunk); the result does not depend on how the bytes
    arrive (the theorems named _delivery); the two readers of an URI agree
    (parse_uri_agrees); the path is the percent-decoded
    path without dot segments, inside of its memory
    (complex_uri_safe, complex_uri_path, complex_uri_no_traversal); the size of
    a chunk is the number that is written, and does not overflow (chunked_length).

    HPACK: integers and tables (hd_int_roundtrip, hd_int_resume, hd_int_sound,
    lookup_token_static, ring_deque, dynamic_table_refines,
    search_hd_table_correct); the encoder writes RFC 7541 and leaves sensitive
    headers alone (deflate_block_refines, sensitive_never_indexed); the decoder
    is total, safe and bounded (inflate_total_safe, inflate_session_bounded);
    what is encoded is what is decoded, over a whole connection
    (hpack_roundtrip). The last one, and headers_arrive, are about runs in which no
    allocation fails.

    Frames: round trips of every frame type (frame_roundtrip, headers_arrive,
    padding_roundtrip); exact copies and canonical order of header lists
    (nv_array_copy_exact, nv_array_sort_canonical).

    RESP: every reply, however nested, is read (resp_roundtrip).

    Addresses: netmasks (netmask_valid_iff), reading is total and safe
    (ip4_aton_total, ip6_aton_total), printing and reading are inverse, where
    printing an IPv6 address stays inside of it (ip4_text_roundtrip,
    ip6_text_roundtrip).

    ARP: over every history of calls, with any failures, the table is well
    formed and every reference to a packet is held or given back
    (arp_cache_invariant); an update stores the address, and gives up the
    least valuable entry (arp_update_binds); nothing stays for ever
    (arp_cache_expires); two nodes resolve an address (arp_exchange).

    DHCP: over every history of calls, messages and ticks that keeps to the rules of
    DhcpSystem ([expects]) and DhcpSpec ([linked]) no assertion fails, no buffer is overrun, timers and the count of users are right (dhcp_invariant); an
    interface has acknowledged addresses only (dhcp_addresses_acknowledged); all
    messages are those that the state of their sender asks for, and can be read
    (dhcp_messages_readable); any
    input is read safely (dhcp_parse_safe), and replies say what was written, across
    buffers and overloaded fields (dhcp_reply_read); offer and acknowledgment lead
    to the lease (dhcp_exchange), which ends when it is not renewed
    (dhcp_lease_expires); a client without an answer asks again (dhcp_asks_again).

    DNS: over every history of calls, messages (with a question that fits into a name)
    and seconds, and for callbacks that do not call the resolver, no assertion fails, no
    array is left, identifiers differ, and ports are closed with their last query
    (dns_invariant); every request is answered once (dns_answered_once), in bounded
    time (dns_told_in_time), with addresses that a server, or for a name of mDNS anybody,
    gave to its name (dns_addresses_vouched); only queries are sent (dns_queries). A query can be
    read, and its echo is taken (dns_query_echoed); exactly what is taken for
    its echo (dns_question_exact); what the reply says arrives (dns_exchange)
    and is kept for its time (dns_answer_kept).

    TCP: whatever parts of the stream arrive in whatever order, the application
    gets the stream, and no assertion fails (tcp_reassembly), and a part that
    begins at the next byte is received (tcp_receive_progress). What is sent
    lies in both windows and nothing is lost (tcp_output_in_window), a write is
    all or nothing as long as the segment size does not shrink under the last segment
    (tcp_write_all_or_nothing), an acknowledgment frees what it
    covers (ack_frees_exactly). The state machine makes the transitions of RFC
    793 only (tcp_process_transitions). Headers and options may hold anything
    (input_header_typed, tcp_parseopt_bounds).

    * What is not modelled

    Functions that only free memory, log or count references. Of nginx, the
    helpers at the end of ngx_http_parse.c ([ngx_http_parse_unsafe_uri],
    [ngx_http_arg], [ngx_http_split_args] and the header searches, which rest on
    string functions that are not in the repository), and the modules, the
    event loop and the process management, which are glue to operating system
    calls. Of nghttp2, the session and the streams, whose containers are not in
    the repository. Of lwIP's TCP, the lists of several connections (with [tcp_bind],
    [tcp_listen] and [tcp_new_port]), the connections that are given up for
    memory, oversized buffers, checksums that are computed while copying; the
    other protocols over pbufs, timers and netifs. Of its DHCP client, the file name
    of BOOTP (LWIP_DHCP_BOOTP_FILE) and the hooks; of its resolver, callbacks that
    make requests themselves (they are called before their own request is cleared, so
    that a request which they make can be lost), the static list of local hosts and servers that are
    set at compile time. Open
    vSwitch, Unbound, FRR, liburing, RDMA and the OpenSSL header. *)

From stdpp Require Export base numbers option list sets strings.
From Stdlib Require Export ZArith Lia ZifyBool Ascii.
Open Scope Z_scope.

(** * Generic tactics *)

(** [step_cases] splits every [match]/[if] of the goal and hypotheses and
    simplifies the resulting equations. *)
Ltac step_cases := repeat (case_match || simplify_eq/=).

(** Turns the boolean tests of the C conditions into linear arithmetic. *)
Ltac bool_lia := rewrite ?andb_true_iff, ?orb_true_iff, ?negb_true_iff in *; lia.

(** [lia] with division and [mod] by constants. *)
Ltac lia_mod := Z.div_mod_to_equations; lia.

(** * Record update

    [set_field eta proj v r] builds the record [r] with field [proj] replaced
    by [v]; [eta] is the eta-expansion of the record. *)
Ltac set_field eta proj v r :=
  let e := eval pattern proj in eta in
  match e with
  | ?F _ => let b := eval cbv beta in (F (fun _ => v) r) in exact b
  end.

(** * Machine integers *)


Definition u8 (x : Z) : Z := x mod 256.
Definition u16 (x : Z) : Z := x mod 65536.
Definition u32 (x : Z) : Z := x mod 4294967296.
Definition u64 (x : Z) : Z := x mod 18446744073709551616.

Lemma u8_small x : 0 <= x < 256 -> u8 x = x.
Proof. intros Hx. by apply Z.mod_small. Qed.
Lemma u16_small x : 0 <= x < 2 ^ 16 -> u16 x = x.
Proof. intros Hx. by apply Z.mod_small. Qed.
Lemma u32_small x : 0 <= x < 2 ^ 32 -> u32 x = x.
Proof. intros Hx. by apply Z.mod_small. Qed.

(** A byte is an integer in [0, 256). *)
Definition is_byte (x : Z) : Prop := 0 <= x < 256.

(** The bytes, to decide their properties by computation. *)
Definition all_bytes : list Z := Z.of_nat <$> seq 0 256.

Lemma all_bytes_spec ch : is_byte ch -> ch ∈ all_bytes.
Proof.
  intros H. unfold all_bytes. apply list_elem_of_fmap.
  exists (Z.to_nat ch). rewrite elem_of_seq. unfold is_byte in H. lia.
Qed.

(** A boolean property of bytes holds when it holds of the 256 bytes. *)
Lemma byte_forall (f : Z -> bool) :
  forallb f all_bytes = true -> forall ch, is_byte ch -> f ch = true.
Proof.
  intros H ch Hch. rewrite List.forallb_forall in H.
  by apply H, list_elem_of_In, all_bytes_spec.
Qed.

(** * Assertions *)

(** LWIP_ASSERT: the program stops when the condition is false. *)
Definition lwip_assert (b : bool) : option unit := if b then Some tt else None.

Lemma lwip_assert_true b : b = true -> lwip_assert b = Some tt.
Proof. by intros ->. Qed.

(** * Memory as a list of bytes, addressed by offset *)

(** A pointer: [None] is the null pointer, [Some o] an offset. *)
Abbreviation ptr := (option Z).

(** [*a]; [None] when the address is outside the object. *)
Definition load (m : list Z) (a : Z) : option Z :=
  if a <? 0 then None else m !! Z.to_nat a.

(** [*a = v]; [None] when the address is outside the object. *)
Definition store (m : list Z) (a : Z) (v : Z) : option (list Z) :=
  if (a <? 0) || (Z.of_nat (length m) <=? a) then None
  else Some (<[Z.to_nat a := v]> m).

(** The bytes of [m] at offsets [a, b). *)
Definition slice (m : list Z) (a b : Z) : list Z :=
  take (Z.to_nat (b - a)) (drop (Z.to_nat a) m).

Lemma slice_length m a b :
  0 <= a -> a <= b -> b <= Z.of_nat (length m) ->
  Z.of_nat (length (slice m a b)) = b - a.
Proof. intros. unfold slice. rewrite length_take, length_drop. lia. Qed.

Lemma slice_split m a b c :
  0 <= a -> a <= b -> b <= c ->
  slice m a c = slice m a b ++ slice m b c.
Proof.
  intros. unfold slice.
  replace (Z.to_nat (c - a)) with (Z.to_nat (b - a) + Z.to_nat (c - b))%nat by lia.
  rewrite <- take_take_drop, drop_drop.
  do 3 f_equal. lia.
Qed.

Lemma slice_nil m a b : b <= a -> slice m a b = [].
Proof. intros. unfold slice. by replace (Z.to_nat (b - a)) with 0%nat by lia. Qed.

Lemma slice_load m a b i :
  0 <= a -> a <= i < b -> slice m a b !! Z.to_nat (i - a) = load m i.
Proof.
  intros. unfold slice, load.
  destruct (i <? 0) eqn:E; [lia|].
  rewrite lookup_take_lt by lia. rewrite lookup_drop. f_equal; lia.
Qed.

(** * Byte-driven machines

    The parsers of the code are loops [for (p = pos; p < last; p++)] over a
    [switch (state)]: a step function either continues with a new state or
    leaves the loop with a result. *)
Section ByteMachine.
Context {S R : Type}.
Variable step : Z -> Z -> S -> S + R.

(** [inl (p, s)]: the input is exhausted at [p] in state [s];
    [inr (p, r)]: the loop was left at [p] with [r]. *)
Fixpoint run (p : Z) (bs : list Z) (s : S) : (Z * S) + (Z * R) :=
  match bs with
  | [] => inl (p, s)
  | ch :: bs' =>
      match step p ch s with
      | inl s' => run (p + 1) bs' s'
      | inr r => inr (p, r)
      end
  end.

Lemma run_app p bs1 bs2 s :
  run p (bs1 ++ bs2) s =
  match run p bs1 s with
  | inl (p', s') => run p' bs2 s'
  | inr x => inr x
  end.
Proof.
  revert p s. induction bs1 as [|ch bs1 IH]; intros p s; [done|]; simpl.
  destruct (step p ch s); [apply IH | done].
Qed.

Lemma run_exhausted p bs s p' s' :
  run p bs s = inl (p', s') -> p' = p + Z.of_nat (length bs).
Proof.
  revert p s. induction bs as [|ch bs IH]; intros p s; simpl.
  - intros [= <- <-]. lia.
  - destruct (step p ch s); [|done]. intros ->%IH. lia.
Qed.

Lemma run_left p bs s p' r :
  run p bs s = inr (p', r) -> p <= p' < p + Z.of_nat (length bs).
Proof.
  revert p s. induction bs as [|ch bs IH]; intros p s; simpl; [done|].
  destruct (step p ch s).
  - intros ?%IH. lia.
  - intros [= <- <-]. lia.
Qed.

Lemma run_left_step p bs s p' r :
  run p bs s = inr (p', r) -> exists ch s', ch ∈ bs /\ step p' ch s' = inr r.
Proof.
  revert p s. induction bs as [|ch bs IH]; intros p s; simpl; [done|].
  destruct (step p ch s) eqn:E.
  - intros (c & s' & Hc & Hs)%IH. exists c, s'. split; [by right | done].
  - intros [= <- <-]. exists ch, s. split; [by left | done].
Qed.

(** Invariant rule: [I p s] is kept by every step on a byte [ch] that the
    input holds at [p] ([P p ch]), and [Q p r] holds of every result with
    which the loop is left. *)
Lemma run_invariant (I : Z -> S -> Prop) (Q : Z -> R -> Prop) (P : Z -> Z -> Prop) :
  (forall p ch s, P p ch -> I p s ->
     match step p ch s with inl s' => I (p + 1) s' | inr r => Q p r end) ->
  forall bs p s,
    (forall i ch, bs !! i = Some ch -> P (p + Z.of_nat i) ch) -> I p s ->
    match run p bs s with inl (p', s') => I p' s' | inr (p', r) => Q p' r end.
Proof.
  intros Hstep bs. induction bs as [|ch bs IH]; intros p s HP HI; simpl; [done|].
  assert (Hch : P p ch) by (specialize (HP 0%nat ch); rewrite Z.add_0_r in HP; by apply HP).
  specialize (Hstep p ch s Hch HI).
  destruct (step p ch s); [apply IH; [|done] | done].
  intros i c Hi. specialize (HP (Datatypes.S i) c Hi).
  by replace (p + 1 + Z.of_nat i) with (p + Z.of_nat (Datatypes.S i)) by lia.
Qed.

(** A stretch of bytes on which the machine stays in one state. *)
Lemma run_stays p bs s :
  (forall q ch, ch ∈ bs -> step q ch s = inl s) ->
  run p bs s = inl (p + Z.of_nat (length bs), s).
Proof.
  revert p. induction bs as [|ch bs IH]; intros p H; simpl.
  - by rewrite Z.add_0_r.
  - rewrite H by left. rewrite IH by (intros; apply H; by right). f_equal. f_equal. lia.
Qed.
End ByteMachine.

(** The bytes of a slice are those of the memory. *)
Lemma slice_bytes m a b i ch :
  0 <= a -> slice m a b !! i = Some ch ->
  load m (a + Z.of_nat i) = Some ch /\ a + Z.of_nat i < b.
Proof.
  intros Ha Hi. pose proof (lookup_lt_Some _ _ _ Hi) as Hlt.
  unfold slice in Hlt. rewrite length_take in Hlt.
  split; [|lia].
  rewrite <- (slice_load m a b (a + Z.of_nat i)) by lia.
  rewrite <- Hi. f_equal. lia.
Qed.

(** The invariant rule for a loop over the bytes of a buffer. *)
Lemma run_slice_invariant {S R} (step : Z -> Z -> S -> S + R)
    (m : list Z) (I : Z -> S -> Prop) (Q : Z -> R -> Prop) pos last s :
  0 <= pos ->
  (forall p ch s, pos <= p < last -> load m p = Some ch -> I p s ->
     match step p ch s with inl s' => I (p + 1) s' | inr r => Q p r end) ->
  I pos s ->
  match run step pos (slice m pos last) s with
  | inl (p', s') => I p' s'
  | inr (p', r) => Q p' r
  end.
Proof.
  intros Hpos Hstep HI.
  apply (run_invariant step I Q (fun p ch => pos <= p < last /\ load m p = Some ch)).
  - intros p ch s0 [Hp Hl]. by apply Hstep.
  - intros i ch Hi. apply slice_bytes in Hi; [|done]. split; [lia | tauto].
  - done.
Qed.

(** The codes of the characters of a string. *)
Definition bytes_of_string (s : String.string) : list Z :=
  (fun c => Z.of_N (Ascii.N_of_ascii c)) <$> String.list_ascii_of_string s.

Lemma slice_snoc m a b c :
  0 <= a -> a <= b -> load m b = Some c ->
  slice m a (b + 1) = slice m a b ++ [c].
Proof.
  intros Ha Hab Hl. rewrite (slice_split m a b (b + 1)) by lia. f_equal.
  unfold slice, load in *. destruct (b <? 0) eqn:E; [lia|].
  replace (Z.to_nat (b + 1 - b)) with 1%nat by lia.
  by rewrite (drop_S _ c).
Qed.

Lemma load_in_bounds m i c : load m i = Some c -> 0 <= i < Z.of_nat (length m).
Proof.
  unfold load. destruct (i <? 0) eqn:E; [done|].
  intros Hi%lookup_lt_Some. lia.
Qed.
