(* ===== verification/Memory.v ===== *)
(** Regions of memory as lists of bytes: reads and writes of several bytes, with
    [None] for an access outside of the region, and how they act on a region
    that is put together from parts. *)

From S2P Require Export Prelude.
Open Scope Z_scope.

Module Memory.

(** The size of a region, in bytes. *)
Definition size (bs : list Z) : Z := Z.of_nat (length bs).

Lemma size_app (xs ys : list Z) : size (xs ++ ys) = size xs + size ys.
Proof. unfold size. rewrite length_app. lia. Qed.

Lemma size_nonneg (xs : list Z) : 0 <= size xs.
Proof. unfold size. lia. Qed.

Lemma size_cons x xs : size (x :: xs) = 1 + size xs.
Proof. unfold size. cbn [length]. lia. Qed.

(** [n] bytes are read at [off]; [None] is an access outside of the memory. *)
Definition fetch (m : list Z) (off n : Z) : option (list Z) :=
  if (off <? 0) || (n <? 0) || (size m <? off + n) then None else Some (slice m off (off + n)).

(** Bytes are written at [off]. *)
Definition poke (m : list Z) (off : Z) (bs : list Z) : option (list Z) :=
  if (off <? 0) || (size m <? off + size bs) then None
  else Some (take (Z.to_nat off) m ++ bs ++ drop (Z.to_nat (off + size bs)) m).

Lemma to_nat_size (xs : list Z) : Z.to_nat (size xs) = length xs.
Proof. unfold size. lia. Qed.

(** Memory has the shape [pre ++ mid ++ post]; [mid] is what is accessed. *)
Lemma poke_mid pre mid post bs off :
  off = size pre -> size mid = size bs -> poke (pre ++ mid ++ post) off bs = Some (pre ++ bs ++ post).
Proof.
  intros -> Hm. unfold poke. pose proof (size_nonneg pre). pose proof (size_nonneg post).
  rewrite !size_app. replace (_ <? 0) with false by lia. replace (_ <? _) with false by lia. cbn [orb].
  f_equal. rewrite to_nat_size, take_app_length. do 2 f_equal.
  rewrite <- Hm, <- size_app, to_nat_size, app_assoc. by rewrite drop_app_length.
Qed.

(** The last [k] bytes of a region. *)
Lemma split_back (l : list Z) k : 0 <= k <= size l -> exists a b, l = a ++ b /\ size b = k.
Proof.
  intros Hk. exists (take (length l - Z.to_nat k)%nat l), (drop (length l - Z.to_nat k)%nat l).
  split; [by rewrite take_drop|]. unfold size in *. rewrite length_drop. lia.
Qed.

Lemma split_front (l : list Z) k : 0 <= k <= size l -> exists a b, l = a ++ b /\ size a = k.
Proof.
  intros Hk. exists (take (Z.to_nat k) l), (drop (Z.to_nat k) l).
  split; [by rewrite take_drop|]. unfold size in *. rewrite length_take. lia.
Qed.

(** A write inside of a part of the memory. *)
Lemma poke_inner pre mid mid' post k bs off :
  off = size pre + k -> poke mid k bs = Some mid' -> poke (pre ++ mid ++ post) off bs = Some (pre ++ mid' ++ post).
Proof.
  intros -> Hp. unfold poke in Hp. destruct ((k <? 0) || (size mid <? k + size bs)) eqn:E; [done|].
  injection Hp as <-. apply orb_false_iff in E as [Hk Hs].
  destruct (split_front mid k) as (a & r & -> & Ha); [pose proof (size_nonneg bs); lia|].
  destruct (split_front r (size bs)) as (old & c & -> & Ho); [rewrite !size_app in Hs; pose proof (size_nonneg bs); lia|].
  assert (H1 : take (Z.to_nat k) (a ++ old ++ c) = a) by (rewrite <- Ha, to_nat_size; apply take_app_length).
  assert (H2 : drop (Z.to_nat (k + size bs)) (a ++ old ++ c) = c).
  { replace (k + size bs) with (size (a ++ old)) by (rewrite size_app; lia).
    rewrite to_nat_size, app_assoc. apply drop_app_length. }
  rewrite H1, H2.
  replace (pre ++ (a ++ old ++ c) ++ post) with ((pre ++ a) ++ old ++ (c ++ post)) by (by rewrite <- !app_assoc).
  rewrite (poke_mid (pre ++ a) old _ bs) by (rewrite ?size_app; lia). by rewrite <- !app_assoc.
Qed.

Lemma fetch_mid pre mid post off n :
  off = size pre -> n = size mid -> fetch (pre ++ mid ++ post) off n = Some mid.
Proof.
  intros -> ->. unfold fetch. pose proof (size_nonneg pre). pose proof (size_nonneg post).
  pose proof (size_nonneg mid).
  rewrite !size_app. replace (_ <? 0) with false by lia. replace (size mid <? 0) with false by lia.
  replace (_ <? _) with false by lia. cbn [orb]. f_equal. unfold slice.
  rewrite to_nat_size, drop_app_length. replace (Z.to_nat _) with (length mid) by (unfold size; lia).
  apply take_app_length.
Qed.

Lemma load_mid pre mid post off k x :
  off = size pre + k -> load mid k = Some x -> load (pre ++ mid ++ post) off = Some x.
Proof.
  intros -> Hl. pose proof (load_in_bounds _ _ _ Hl). unfold load in *.
  destruct (k <? 0) eqn:E; [done|]. pose proof (size_nonneg pre). replace (_ <? 0) with false by lia.
  replace (Z.to_nat (size pre + k)) with (length pre + Z.to_nat k)%nat by (unfold size in *; lia).
  rewrite lookup_app_r by lia. rewrite Nat.add_sub_swap, Nat.sub_diag by lia. by apply lookup_app_l_Some.
Qed.

(** The first [n] bytes of a region. *)
Lemma fetch_prefix mid post n : n = size mid -> fetch (mid ++ post) 0 n = Some mid.
Proof. intros ->. by apply (fetch_mid [] mid post). Qed.

Lemma fetch_inner pre mid post k n bs off :
  off = size pre + k -> fetch mid k n = Some bs -> fetch (pre ++ mid ++ post) off n = Some bs.
Proof.
  intros -> Hf. unfold fetch in Hf. destruct (_ || (size mid <? k + n)) eqn:E; [done|]. injection Hf as <-.
  destruct (split_front mid k) as (a & c & -> & Ha); [lia|]. rewrite size_app in E.
  destruct (split_front c n) as (b & c' & -> & Hb); [lia|].
  replace (pre ++ (a ++ b ++ c') ++ post) with ((pre ++ a) ++ b ++ (c' ++ post)) by (by rewrite <- !app_assoc).
  rewrite (fetch_mid (pre ++ a) b) by (rewrite ?size_app; lia). f_equal.
  pose proof (fetch_mid a b c' k n ltac:(lia) ltac:(lia)) as Hx. unfold fetch in Hx. clear E. destruct (_ || _ || _); [done|congruence].
Qed.
End Memory.
