(* ===== verification/NgxBase.v ===== *)
(** The part of [ngx_http_request_t] (src/http1-1/src/upstream/src/http/ngx_http_request.h)
    that the parsers of ngx_http_parse.c read and write, the return codes, and
    the [usual] character bitmap.

    Pointers into the receive buffer are offsets ([None] is NULL).  The three
    registers a parser saves between two deliveries of data ([state],
    [header_hash], [lowcase_index]) are kept apart from the other fields. *)

From Stdlib Require Export Sorting.Sorted.
From S2P Require Export Prelude.
Open Scope Z_scope.

(** A character constant of the C source, as its code. *)
Definition Z_of_ascii (c : ascii) : Z := Z.of_N (N_of_ascii c).
Notation "# c" :=
  (ltac:(let v := eval vm_compute in (Z_of_ascii c%char) in exact v))
  (at level 1, c at level 0, only parsing) : Z_scope.

Abbreviation CR := 13.
Abbreviation LF := 10.

(** Return codes. *)
Inductive rc :=
  | NGX_OK | NGX_AGAIN | NGX_ERROR | NGX_DONE | NGX_DECLINED
  | NGX_HTTP_PARSE_HEADER_DONE
  | NGX_HTTP_PARSE_INVALID_METHOD
  | NGX_HTTP_PARSE_INVALID_REQUEST
  | NGX_HTTP_PARSE_INVALID_VERSION
  | NGX_HTTP_PARSE_INVALID_09_METHOD
  | NGX_HTTP_PARSE_INVALID_HEADER.

#[export] Instance rc_eq_dec : EqDecision rc.
Proof. solve_decision. Defined.

(** Methods: bits of an [ngx_uint_t]. *)
Definition NGX_HTTP_UNKNOWN   : Z := 0x00000001.
Definition NGX_HTTP_GET       : Z := 0x00000002.
Definition NGX_HTTP_HEAD      : Z := 0x00000004.
Definition NGX_HTTP_POST      : Z := 0x00000008.
Definition NGX_HTTP_PUT       : Z := 0x00000010.
Definition NGX_HTTP_DELETE    : Z := 0x00000020.
Definition NGX_HTTP_MKCOL     : Z := 0x00000040.
Definition NGX_HTTP_COPY      : Z := 0x00000080.
Definition NGX_HTTP_MOVE      : Z := 0x00000100.
Definition NGX_HTTP_OPTIONS   : Z := 0x00000200.
Definition NGX_HTTP_PROPFIND  : Z := 0x00000400.
Definition NGX_HTTP_PROPPATCH : Z := 0x00000800.
Definition NGX_HTTP_LOCK      : Z := 0x00001000.
Definition NGX_HTTP_UNLOCK    : Z := 0x00002000.
Definition NGX_HTTP_PATCH     : Z := 0x00004000.
Definition NGX_HTTP_TRACE     : Z := 0x00008000.
Definition NGX_HTTP_CONNECT   : Z := 0x00010000.

Definition NGX_HTTP_LC_HEADER_LEN : Z := 32.

(** [ngx_str_t]: a length and a data pointer. *)
Record ngx_str := mkStr { str_len : Z; str_data : ptr }.

(** The fields of the request that the parsers set. *)
Record fields := mkFields {
  method : Z;
  http_version : Z;
  http_major : Z;       (* unsigned :16 *)
  http_minor : Z;       (* unsigned :16 *)
  complex_uri : bool;
  quoted_uri : bool;
  plus_in_uri : bool;
  empty_path_in_uri : bool;
  invalid_header : bool;
  uri_start : ptr;
  uri_end : ptr;
  uri_ext : ptr;
  args_start : ptr;
  request_start : ptr;
  request_end : ptr;
  method_end : ptr;
  schema_start : ptr;
  schema_end : ptr;
  host_start : ptr;
  host_end : ptr;
  port_end : ptr;
  http_protocol : ptr;  (* http_protocol.data *)
  header_name_start : ptr;
  header_name_end : ptr;
  header_start : ptr;
  header_end : ptr;
  lowcase_header : list Z
}.

Ltac fields_field proj v r :=
  set_field (fun r : fields => mkFields (method r) (http_version r) (http_major r)
    (http_minor r) (complex_uri r) (quoted_uri r) (plus_in_uri r) (empty_path_in_uri r)
    (invalid_header r) (uri_start r) (uri_end r) (uri_ext r) (args_start r)
    (request_start r) (request_end r) (method_end r) (schema_start r) (schema_end r)
    (host_start r) (host_end r) (port_end r) (http_protocol r) (header_name_start r)
    (header_name_end r) (header_start r) (header_end r) (lowcase_header r)) proj v r.

Definition set_method (v : Z) (r : fields) : fields := ltac:(fields_field method v r).
Definition set_http_version (v : Z) (r : fields) : fields := ltac:(fields_field http_version v r).
Definition set_http_major (v : Z) (r : fields) : fields := ltac:(fields_field http_major (u16 v) r).
Definition set_http_minor (v : Z) (r : fields) : fields := ltac:(fields_field http_minor (u16 v) r).
Definition set_complex_uri (r : fields) : fields := ltac:(fields_field complex_uri true r).
Definition set_quoted_uri (r : fields) : fields := ltac:(fields_field quoted_uri true r).
Definition set_plus_in_uri (r : fields) : fields := ltac:(fields_field plus_in_uri true r).
Definition set_empty_path_in_uri (r : fields) : fields := ltac:(fields_field empty_path_in_uri true r).
Definition set_invalid_header (v : bool) (r : fields) : fields := ltac:(fields_field invalid_header v r).
Definition set_uri_start (v : ptr) (r : fields) : fields := ltac:(fields_field uri_start v r).
Definition set_uri_end (v : ptr) (r : fields) : fields := ltac:(fields_field uri_end v r).
Definition set_uri_ext (v : ptr) (r : fields) : fields := ltac:(fields_field uri_ext v r).
Definition set_args_start (v : ptr) (r : fields) : fields := ltac:(fields_field args_start v r).
Definition set_request_start (v : ptr) (r : fields) : fields := ltac:(fields_field request_start v r).
Definition set_request_end (v : ptr) (r : fields) : fields := ltac:(fields_field request_end v r).
Definition set_method_end (v : ptr) (r : fields) : fields := ltac:(fields_field method_end v r).
Definition set_schema_start (v : ptr) (r : fields) : fields := ltac:(fields_field schema_start v r).
Definition set_schema_end (v : ptr) (r : fields) : fields := ltac:(fields_field schema_end v r).
Definition set_host_start (v : ptr) (r : fields) : fields := ltac:(fields_field host_start v r).
Definition set_host_end (v : ptr) (r : fields) : fields := ltac:(fields_field host_end v r).
Definition set_port_end (v : ptr) (r : fields) : fields := ltac:(fields_field port_end v r).
Definition set_http_protocol (v : ptr) (r : fields) : fields := ltac:(fields_field http_protocol v r).
Definition set_header_name_start (v : ptr) (r : fields) : fields := ltac:(fields_field header_name_start v r).
Definition set_header_name_end (v : ptr) (r : fields) : fields := ltac:(fields_field header_name_end v r).
Definition set_header_start (v : ptr) (r : fields) : fields := ltac:(fields_field header_start v r).
Definition set_header_end (v : ptr) (r : fields) : fields := ltac:(fields_field header_end v r).
Definition set_lowcase_header (v : list Z) (r : fields) : fields := ltac:(fields_field lowcase_header v r).

(** [r |> set_a v |> set_b w]: assignments in the order of the source. *)
Notation "r |> f" := (f r) (at level 48, left associativity, only parsing).

(** A request: the saved parser registers and the fields. *)
Record ngx_http_request := mkReq {
  state : Z;
  header_hash : Z;
  lowcase_index : Z;
  flds : fields
}.

(** Pointer arithmetic. *)
Definition padd (a : ptr) (d : Z) : ptr := (fun x => x + d) <$> a.

(** [a[i] == c] for a pointer [a] into the buffer [m]. *)
Definition byte_is (m : list Z) (a i c : Z) : bool :=
  match load m (a + i) with Some x => x =? c | None => false end.

(** [a[0] == c0 && a[1] == c1 && ...] *)
Fixpoint bytes_are (m : list Z) (a : Z) (cs : list Z) : bool :=
  match cs with
  | [] => true
  | c :: cs' => byte_is m a 0 c && bytes_are m (a + 1) cs'
  end.

(** ** The [usual] bitmap (not NGX_WIN32) *)
Definition usual : list Z :=
  [0x00000000; 0x7fff37d6; 0xffffffff; 0x7fffffff;
   0xffffffff; 0xffffffff; 0xffffffff; 0xffffffff].

(** [usual[ch >> 5] & (1U << (ch & 0x1f))] *)
Definition is_usual (ch : Z) : bool :=
  negb (Z.land (nth (Z.to_nat (Z.shiftr ch 5)) usual 0)
               (Z.shiftl 1 (Z.land ch 0x1f)) =? 0).

(** The bitmap denotes: every byte but the controls, space, ['#'], ['%'],
    ['+'], ['.'], ['/'], ['?'] and DEL. *)
Definition usual_spec (ch : Z) : bool :=
  (0x20 <? ch) && negb (ch =? #"#") && negb (ch =? #"%") && negb (ch =? #"+")
  && negb (ch =? #".") && negb (ch =? #"/") && negb (ch =? #"?") && negb (ch =? 0x7f).

Lemma is_usual_spec ch : is_byte ch -> is_usual ch = usual_spec ch.
Proof.
  intros H. apply eqb_prop. revert ch H. apply byte_forall. vm_compute. reflexivity.
Qed.

(** ** Hexadecimal digits and line ends *)

(** The value of a hexadecimal digit. *)
Definition hexval (c : Z) : option Z :=
  if (#"0" <=? c) && (c <=? #"9") then Some (c - #"0")
  else if (#"a" <=? c) && (c <=? #"f") then Some (c - #"a" + 10)
  else if (#"A" <=? c) && (c <=? #"F") then Some (c - #"A" + 10)
  else None.

(** The value as the code computes it, with [c = (u_char) (ch | 0x20)]. *)
Lemma hexval_tests c : is_byte c ->
  hexval c =
  if (48 <=? c) && (c <=? 57) then Some (c - 48)
  else if (97 <=? Z.lor c 0x20) && (Z.lor c 0x20 <=? 102) then Some (Z.lor c 0x20 - 97 + 10)
  else None.
Proof.
  intros Hc.
  set (g := fun c => if (48 <=? c) && (c <=? 57) then Some (c - 48)
    else if (97 <=? Z.lor c 0x20) && (Z.lor c 0x20 <=? 102) then Some (Z.lor c 0x20 - 97 + 10)
    else None).
  change (hexval c = g c). apply (bool_decide_eq_true (hexval c = g c)).
  revert c Hc. apply (byte_forall (fun c => bool_decide (hexval c = g c))).
  vm_compute. reflexivity.
Qed.

Lemma hexval_bounds c v : hexval c = Some v -> 0 <= v < 16.
Proof. unfold hexval. repeat case_match; intros; simplify_eq; lia. Qed.

Lemma hexval_byte c v : hexval c = Some v -> is_byte c.
Proof. unfold hexval, is_byte. repeat case_match; intros; simplify_eq; lia. Qed.

(** A line ends with LF or CR LF. *)
Definition eol_ok (eol : list Z) : Prop := eol = [LF] \/ eol = [CR; LF].

(** Text without line ends. *)
Definition no_eol (bs : list Z) : Prop := Forall (fun c => c <> CR /\ c <> LF) bs.

(** ** Delivery of the input in pieces

    A parser [parse a pos last] reads the buffer from [pos] to [last] and
    returns NGX_AGAIN when it needs more bytes; the caller calls it again with
    a larger [last] and the state and [pos] it saved.  [norm] is what is
    observed of a result: an error return does not save the parser registers
    or the position, so these depend on how the input was delivered. *)
Section Delivery.
Context {A B : Type}.
Variable parse : A -> Z -> Z -> rc * A * Z.
Variable norm : rc -> A -> Z -> B.

Definition observe (x : rc * A * Z) : rc * B :=
  let '(c, a, p) := x in (c, norm c a p).

(** One call per delivery, until the parser decides. *)
Fixpoint deliver (a : A) (pos : Z) (lasts : list Z) : rc * A * Z :=
  match lasts with
  | [] => (NGX_AGAIN, a, pos)
  | l :: ls =>
      match parse a pos l with
      | (NGX_AGAIN, a', pos') => deliver a' pos' ls
      | res => res
      end
  end.
End Delivery.

(** The interface the parsers promise to their callers: stopping at [mid] and
    resuming up to [last] is reading up to [last] at once, for every [last]
    within the [limit] bytes of the buffer; [ok] is the invariant of the saved
    state. *)
Class Resumable {A B : Type} (limit : Z) (ok : A -> Prop) (parse : A -> Z -> Z -> rc * A * Z)
    (norm : rc -> A -> Z -> B) : Prop := {
  norm_again : forall a p a' p',
    norm NGX_AGAIN a p = norm NGX_AGAIN a' p' -> a = a' /\ p = p';
  resume : forall a pos mid last,
    ok a -> 0 <= pos -> pos <= mid -> mid <= last -> last <= limit ->
    match parse a pos mid with
    | (NGX_AGAIN, a1, p1) =>
        ok a1 /\ p1 = mid /\
        observe norm (parse a1 p1 last) = observe norm (parse a pos last)
    | res => observe norm (parse a pos last) = observe norm res
    end
}.

(** Any increasing sequence of deliveries gives what one delivery gives. *)
Lemma deliver_once {A B} limit (ok : A -> Prop) (parse : A -> Z -> Z -> rc * A * Z)
    (norm : rc -> A -> Z -> B) `{!Resumable limit ok parse norm} ls a pos last :
  ok a -> 0 <= pos -> last <= limit -> (forall l, l ∈ ls -> pos <= l <= last) -> Sorted Z.le ls -> pos <= last ->
  observe norm (deliver parse a pos (ls ++ [last])) = observe norm (parse a pos last).
Proof.
  revert a pos. induction ls as [|l ls IH]; intros a pos Hok Hpos Hlim Hle Hsort Hlast; simpl.
  - by destruct (parse a pos last) as [[[] ?] ?].
  - assert (Hl : pos <= l <= last) by (apply Hle; by left).
    pose proof (resume (parse:=parse) (norm:=norm) a pos l last) as Hr.
    specialize (Hr Hok Hpos ltac:(lia) ltac:(lia) ltac:(lia)).
    destruct (parse a pos l) as [[[] a1] p1]; try done.
    destruct Hr as (Hok1 & -> & Hr). rewrite <- Hr.
    apply IH; [done|lia|lia| |by inversion Hsort|lia].
    apply Sorted_StronglySorted in Hsort; [|intros x y z; lia].
    inversion Hsort as [|? ? _ Hall]; subst.
    intros l' Hl'. split.
    + rewrite Forall_forall in Hall. by apply Hall.
    + apply Hle. by right.
Qed.

(** The fields of a zero-filled request, as allocated
    ([ngx_http_alloc_request]: the method is then set to NGX_HTTP_UNKNOWN). *)
Definition init_fields : fields :=
  mkFields NGX_HTTP_UNKNOWN 1000 0 0 false false false false false
    None None None None None None None None None None None None None
    None None None None (repeat 0 32).

Definition init_request : ngx_http_request := mkReq 0 0 0 init_fields.
