(* ===== verification/NgxRequestLine.v ===== *)
(** [ngx_http_parse_request_line]
    (src/http1-1/src/upstream/src/http/ngx_http_parse.c, lines 103-815): the
    HTTP request line state machine.  One definition per [case] of the switch,
    [step] is the switch, [ngx_http_parse_request_line] the loop with the
    [done] label and the saving of the state between deliveries. *)

From S2P Require Import NgxBase.
Open Scope Z_scope.

Module RequestLine.

Inductive sw :=
  | sw_start | sw_method | sw_spaces_before_uri
  | sw_schema | sw_schema_slash | sw_schema_slash_slash
  | sw_host_start | sw_host | sw_host_end | sw_host_ip_literal | sw_port
  | sw_after_slash_in_uri | sw_check_uri | sw_uri
  | sw_http_09 | sw_http_H | sw_http_HT | sw_http_HTT | sw_http_HTTP
  | sw_first_major_digit | sw_major_digit | sw_first_minor_digit | sw_minor_digit
  | sw_spaces_after_digit | sw_almost_done.

#[export] Instance sw_eq_dec : EqDecision sw.
Proof. solve_decision. Defined.

Definition all_sw : list sw :=
  [sw_start; sw_method; sw_spaces_before_uri; sw_schema; sw_schema_slash;
   sw_schema_slash_slash; sw_host_start; sw_host; sw_host_end; sw_host_ip_literal;
   sw_port; sw_after_slash_in_uri; sw_check_uri; sw_uri; sw_http_09; sw_http_H;
   sw_http_HT; sw_http_HTT; sw_http_HTTP; sw_first_major_digit; sw_major_digit;
   sw_first_minor_digit; sw_minor_digit; sw_spaces_after_digit; sw_almost_done].

(** The enumeration constants: [r->state] stores them as integers. *)
Definition sw_of_Z (z : Z) : option sw :=
  if z <? 0 then None else all_sw !! Z.to_nat z.

Definition Z_of_sw (s : sw) : Z :=
  match s with
  | sw_start => 0 | sw_method => 1 | sw_spaces_before_uri => 2 | sw_schema => 3
  | sw_schema_slash => 4 | sw_schema_slash_slash => 5 | sw_host_start => 6
  | sw_host => 7 | sw_host_end => 8 | sw_host_ip_literal => 9 | sw_port => 10
  | sw_after_slash_in_uri => 11 | sw_check_uri => 12 | sw_uri => 13
  | sw_http_09 => 14 | sw_http_H => 15 | sw_http_HT => 16 | sw_http_HTT => 17
  | sw_http_HTTP => 18 | sw_first_major_digit => 19 | sw_major_digit => 20
  | sw_first_minor_digit => 21 | sw_minor_digit => 22
  | sw_spaces_after_digit => 23 | sw_almost_done => 24
  end.

Lemma sw_of_Z_of_sw s : sw_of_Z (Z_of_sw s) = Some s.
Proof. by destruct s. Qed.

(** How a step leaves the loop: [goto done] or [return]. *)
Inductive exit :=
  | goto_done (r : fields)
  | return_ (c : rc) (r : fields).

Abbreviation outcome := ((sw * fields) + exit)%type.

Definition next (s : sw) (r : fields) : outcome := inl (s, r).
Definition done (r : fields) : outcome := inr (goto_done r).
Definition fail (c : rc) (r : fields) : outcome := inr (return_ c r).

Definition is_alpha (ch : Z) : bool :=
  let c := Z.lor ch 0x20 in (#"a" <=? c) && (c <=? #"z").
Definition is_digit (ch : Z) : bool := (#"0" <=? ch) && (ch <=? #"9").
(** [(ch < 'A' || ch > 'Z') && ch != '_' && ch != '-'] *)
Definition not_method_char (ch : Z) : bool :=
  ((ch <? #"A") || (#"Z" <? ch)) && negb (ch =? #"_") && negb (ch =? #"-").

Section Step.
Variable buf : list Z.

Definition on_start (p ch : Z) (r : fields) : outcome :=
  let r := r |> set_request_start (Some p) in
  if (ch =? CR) || (ch =? LF) then next sw_start r
  else if not_method_char ch then fail NGX_HTTP_PARSE_INVALID_METHOD r
  else next sw_method r.

(** The method recognised in the [len] bytes at [m]; [old] when none is. *)
Definition lookup_method (m len old : Z) : Z :=
  let str3Ocmp c0 c2 c3 :=
    byte_is buf m 0 c0 && byte_is buf m 2 c2 && byte_is buf m 3 c3 in
  if len =? 3 then
    if bytes_are buf m [#"G"; #"E"; #"T"] then NGX_HTTP_GET
    else if bytes_are buf m [#"P"; #"U"; #"T"] then NGX_HTTP_PUT
    else old
  else if len =? 4 then
    if byte_is buf m 1 #"O" then
      if str3Ocmp #"P" #"S" #"T" then NGX_HTTP_POST
      else if str3Ocmp #"C" #"P" #"Y" then NGX_HTTP_COPY
      else if str3Ocmp #"M" #"V" #"E" then NGX_HTTP_MOVE
      else if str3Ocmp #"L" #"C" #"K" then NGX_HTTP_LOCK
      else old
    else
      if bytes_are buf m [#"H"; #"E"; #"A"; #"D"] then NGX_HTTP_HEAD
      else old
  else if len =? 5 then
    if bytes_are buf m [#"M"; #"K"; #"C"; #"O"; #"L"] then NGX_HTTP_MKCOL
    else if bytes_are buf m [#"P"; #"A"; #"T"; #"C"; #"H"] then NGX_HTTP_PATCH
    else if bytes_are buf m [#"T"; #"R"; #"A"; #"C"; #"E"] then NGX_HTTP_TRACE
    else old
  else if len =? 6 then
    if bytes_are buf m [#"D"; #"E"; #"L"; #"E"; #"T"; #"E"] then NGX_HTTP_DELETE
    else if bytes_are buf m [#"U"; #"N"; #"L"; #"O"; #"C"; #"K"] then NGX_HTTP_UNLOCK
    else old
  else if len =? 7 then
    let old := if bytes_are buf m [#"O"; #"P"; #"T"; #"I"; #"O"; #"N"; #"S"]
               then NGX_HTTP_OPTIONS else old in
    if bytes_are buf m [#"C"; #"O"; #"N"; #"N"; #"E"; #"C"; #"T"]
    then NGX_HTTP_CONNECT else old
  else if len =? 8 then
    if bytes_are buf m [#"P"; #"R"; #"O"; #"P"; #"F"; #"I"; #"N"; #"D"]
    then NGX_HTTP_PROPFIND else old
  else if len =? 9 then
    if bytes_are buf m [#"P"; #"R"; #"O"; #"P"; #"P"; #"A"; #"T"; #"C"; #"H"]
    then NGX_HTTP_PROPPATCH else old
  else old.

(** [r->request_start] is set in state [sw_method]; a request forged with
    that state and a null pointer keeps its method. *)
Definition on_method (p ch : Z) (r : fields) : outcome :=
  if ch =? #" " then
    let r := r |> set_method_end (Some (p - 1)) in
    let r := match request_start r with
             | Some m => r |> set_method (lookup_method m (p - m) (method r))
             | None => r
             end in
    next sw_spaces_before_uri r
  else if not_method_char ch then fail NGX_HTTP_PARSE_INVALID_METHOD r
  else next sw_method r.

Definition on_spaces_before_uri (p ch : Z) (r : fields) : outcome :=
  if ch =? #"/" then next sw_after_slash_in_uri (r |> set_uri_start (Some p))
  else if is_alpha ch then next sw_schema (r |> set_schema_start (Some p))
  else if ch =? #" " then next sw_spaces_before_uri r
  else fail NGX_HTTP_PARSE_INVALID_REQUEST r.

Definition on_schema (p ch : Z) (r : fields) : outcome :=
  if is_alpha ch then next sw_schema r
  else if is_digit ch || (ch =? #"+") || (ch =? #"-") || (ch =? #".")
  then next sw_schema r
  else if ch =? #":" then next sw_schema_slash (r |> set_schema_end (Some p))
  else fail NGX_HTTP_PARSE_INVALID_REQUEST r.

(** A state that accepts exactly one character. *)
Definition expect (c : Z) (s : sw) (ch : Z) (r : fields) : outcome :=
  if ch =? c then next s r else fail NGX_HTTP_PARSE_INVALID_REQUEST r.

(** The ["/" from the schema] used as path when the URI has none. *)
Definition use_schema_slash (r : fields) : fields :=
  r |> set_uri_start (padd (schema_end r) 1)
    |> set_uri_end (padd (schema_end r) 2).

Definition on_host_end (p ch : Z) (r : fields) : outcome :=
  let r := r |> set_host_end (Some p) in
  if ch =? #":" then next sw_port r
  else if ch =? #"/" then next sw_after_slash_in_uri (r |> set_uri_start (Some p))
  else if ch =? #"?" then
    next sw_uri (r |> set_uri_start (Some p) |> set_args_start (Some (p + 1))
                   |> set_empty_path_in_uri)
  else if ch =? #" " then next sw_http_09 (use_schema_slash r)
  else fail NGX_HTTP_PARSE_INVALID_REQUEST r.

(** [sw_host] falls through to [sw_host_end]. *)
Definition on_host (p ch : Z) (r : fields) : outcome :=
  if is_alpha ch then next sw_host r
  else if is_digit ch || (ch =? #".") || (ch =? #"-") then next sw_host r
  else on_host_end p ch r.

(** [sw_host_start] falls through to [sw_host]. *)
Definition on_host_start (p ch : Z) (r : fields) : outcome :=
  let r := r |> set_host_start (Some p) in
  if ch =? #"[" then next sw_host_ip_literal r
  else on_host p ch r.

Definition on_host_ip_literal (p ch : Z) (r : fields) : outcome :=
  if is_digit ch then next sw_host_ip_literal r
  else if is_alpha ch then next sw_host_ip_literal r
  else if ch =? #":" then next sw_host_ip_literal r
  else if ch =? #"]" then next sw_host_end r
  else if bool_decide (ch ∈ [#"-"; #"."; #"_"; #"~"]) then next sw_host_ip_literal r
  else if bool_decide (ch ∈ [#"!"; #"$"; #"&"; #"'"; #"("; #")"; #"*"; #"+"; #","; #";"; #"="])
  then next sw_host_ip_literal r
  else fail NGX_HTTP_PARSE_INVALID_REQUEST r.

Definition on_port (p ch : Z) (r : fields) : outcome :=
  if is_digit ch then next sw_port r
  else if ch =? #"/" then
    next sw_after_slash_in_uri (r |> set_port_end (Some p) |> set_uri_start (Some p))
  else if ch =? #"?" then
    next sw_uri (r |> set_port_end (Some p) |> set_uri_start (Some p)
                   |> set_args_start (Some (p + 1)) |> set_empty_path_in_uri)
  else if ch =? #" " then
    next sw_http_09 (use_schema_slash (r |> set_port_end (Some p)))
  else fail NGX_HTTP_PARSE_INVALID_REQUEST r.

Definition is_ctl (ch : Z) : bool := (ch <? 0x20) || (ch =? 0x7f).

Definition on_after_slash_in_uri (p ch : Z) (r : fields) : outcome :=
  if is_usual ch then next sw_check_uri r
  else if ch =? #" " then next sw_http_09 (r |> set_uri_end (Some p))
  else if ch =? CR then
    next sw_almost_done (r |> set_uri_end (Some p) |> set_http_minor 9)
  else if ch =? LF then done (r |> set_uri_end (Some p) |> set_http_minor 9)
  else if ch =? #"." then next sw_uri (r |> set_complex_uri)
  else if ch =? #"%" then next sw_uri (r |> set_quoted_uri)
  else if ch =? #"/" then next sw_uri (r |> set_complex_uri)
  else if ch =? #"?" then next sw_uri (r |> set_args_start (Some (p + 1)))
  else if ch =? #"#" then next sw_uri (r |> set_complex_uri)
  else if ch =? #"+" then next sw_after_slash_in_uri (r |> set_plus_in_uri)
  else if is_ctl ch then fail NGX_HTTP_PARSE_INVALID_REQUEST r
  else next sw_check_uri r.

Definition on_check_uri (p ch : Z) (r : fields) : outcome :=
  if is_usual ch then next sw_check_uri r
  else if ch =? #"/" then next sw_after_slash_in_uri (r |> set_uri_ext None)
  else if ch =? #"." then next sw_check_uri (r |> set_uri_ext (Some (p + 1)))
  else if ch =? #" " then next sw_http_09 (r |> set_uri_end (Some p))
  else if ch =? CR then
    next sw_almost_done (r |> set_uri_end (Some p) |> set_http_minor 9)
  else if ch =? LF then done (r |> set_uri_end (Some p) |> set_http_minor 9)
  else if ch =? #"%" then next sw_uri (r |> set_quoted_uri)
  else if ch =? #"?" then next sw_uri (r |> set_args_start (Some (p + 1)))
  else if ch =? #"#" then next sw_uri (r |> set_complex_uri)
  else if ch =? #"+" then next sw_check_uri (r |> set_plus_in_uri)
  else if is_ctl ch then fail NGX_HTTP_PARSE_INVALID_REQUEST r
  else next sw_check_uri r.

Definition on_uri (p ch : Z) (r : fields) : outcome :=
  if is_usual ch then next sw_uri r
  else if ch =? #" " then next sw_http_09 (r |> set_uri_end (Some p))
  else if ch =? CR then
    next sw_almost_done (r |> set_uri_end (Some p) |> set_http_minor 9)
  else if ch =? LF then done (r |> set_uri_end (Some p) |> set_http_minor 9)
  else if ch =? #"#" then next sw_uri (r |> set_complex_uri)
  else if is_ctl ch then fail NGX_HTTP_PARSE_INVALID_REQUEST r
  else next sw_uri r.

Definition on_http_09 (p ch : Z) (r : fields) : outcome :=
  if ch =? #" " then next sw_http_09 r
  else if ch =? CR then next sw_almost_done (r |> set_http_minor 9)
  else if ch =? LF then done (r |> set_http_minor 9)
  else if ch =? #"H" then next sw_http_H (r |> set_http_protocol (Some p))
  else fail NGX_HTTP_PARSE_INVALID_REQUEST r.

Definition on_first_major_digit (ch : Z) (r : fields) : outcome :=
  if (ch <? #"1") || (#"9" <? ch) then fail NGX_HTTP_PARSE_INVALID_REQUEST r
  else
    let r := r |> set_http_major (ch - #"0") in
    if 1 <? http_major r then fail NGX_HTTP_PARSE_INVALID_VERSION r
    else next sw_major_digit r.

Definition on_major_digit (ch : Z) (r : fields) : outcome :=
  if ch =? #"." then next sw_first_minor_digit r
  else if (ch <? #"0") || (#"9" <? ch) then fail NGX_HTTP_PARSE_INVALID_REQUEST r
  else
    let r := r |> set_http_major (http_major r * 10 + (ch - #"0")) in
    if 1 <? http_major r then fail NGX_HTTP_PARSE_INVALID_VERSION r
    else next sw_major_digit r.

Definition on_first_minor_digit (ch : Z) (r : fields) : outcome :=
  if (ch <? #"0") || (#"9" <? ch) then fail NGX_HTTP_PARSE_INVALID_REQUEST r
  else next sw_minor_digit (r |> set_http_minor (ch - #"0")).

Definition on_minor_digit (ch : Z) (r : fields) : outcome :=
  if ch =? CR then next sw_almost_done r
  else if ch =? LF then done r
  else if ch =? #" " then next sw_spaces_after_digit r
  else if (ch <? #"0") || (#"9" <? ch) then fail NGX_HTTP_PARSE_INVALID_REQUEST r
  else if 99 <? http_minor r then fail NGX_HTTP_PARSE_INVALID_REQUEST r
  else next sw_minor_digit (r |> set_http_minor (http_minor r * 10 + (ch - #"0"))).

Definition on_spaces_after_digit (ch : Z) (r : fields) : outcome :=
  if ch =? #" " then next sw_spaces_after_digit r
  else if ch =? CR then next sw_almost_done r
  else if ch =? LF then done r
  else fail NGX_HTTP_PARSE_INVALID_REQUEST r.

Definition on_almost_done (p ch : Z) (r : fields) : outcome :=
  let r := r |> set_request_end (Some (p - 1)) in
  if ch =? LF then done r else fail NGX_HTTP_PARSE_INVALID_REQUEST r.

(** [switch (state)] *)
Definition step (p ch : Z) (x : sw * fields) : outcome :=
  let '(s, r) := x in
  match s with
  | sw_start => on_start p ch r
  | sw_method => on_method p ch r
  | sw_spaces_before_uri => on_spaces_before_uri p ch r
  | sw_schema => on_schema p ch r
  | sw_schema_slash => expect #"/" sw_schema_slash_slash ch r
  | sw_schema_slash_slash => expect #"/" sw_host_start ch r
  | sw_host_start => on_host_start p ch r
  | sw_host => on_host p ch r
  | sw_host_end => on_host_end p ch r
  | sw_host_ip_literal => on_host_ip_literal p ch r
  | sw_port => on_port p ch r
  | sw_after_slash_in_uri => on_after_slash_in_uri p ch r
  | sw_check_uri => on_check_uri p ch r
  | sw_uri => on_uri p ch r
  | sw_http_09 => on_http_09 p ch r
  | sw_http_H => expect #"T" sw_http_HT ch r
  | sw_http_HT => expect #"T" sw_http_HTT ch r
  | sw_http_HTT => expect #"P" sw_http_HTTP ch r
  | sw_http_HTTP => expect #"/" sw_first_major_digit ch r
  | sw_first_major_digit => on_first_major_digit ch r
  | sw_major_digit => on_major_digit ch r
  | sw_first_minor_digit => on_first_minor_digit ch r
  | sw_minor_digit => on_minor_digit ch r
  | sw_spaces_after_digit => on_spaces_after_digit ch r
  | sw_almost_done => on_almost_done p ch r
  end.

(** The code at the label [done]. *)
Definition at_done (p : Z) (r : fields) : rc * fields :=
  let r := match request_end r with
           | None => r |> set_request_end (Some p)
           | Some _ => r
           end in
  let r := r |> set_http_version (http_major r * 1000 + http_minor r) in
  if (http_version r =? 9) && negb (method r =? NGX_HTTP_GET)
  then (NGX_HTTP_PARSE_INVALID_09_METHOD, r)
  else (NGX_OK, r).

(** [pos] and [last] delimit the unread bytes of the buffer; the result is
    the return code, the request and the new [b->pos] (unchanged by an error
    return).  With a [state] outside of the enumeration the switch does
    nothing for every byte. *)
Definition ngx_http_parse_request_line (r : ngx_http_request) (pos last : Z)
    : rc * ngx_http_request * Z :=
  match sw_of_Z (state r) with
  | None => (NGX_AGAIN, r, Z.max pos last)
  | Some s =>
      match run step pos (slice buf pos last) (s, flds r) with
      | inl (p, (s', f)) =>
          (NGX_AGAIN, mkReq (Z_of_sw s') (header_hash r) (lowcase_index r) f, p)
      | inr (p, goto_done f) =>
          let '(c, f') := at_done p f in
          (c, mkReq (Z_of_sw sw_start) (header_hash r) (lowcase_index r) f', p + 1)
      | inr (p, return_ c f) =>
          (c, mkReq (state r) (header_hash r) (lowcase_index r) f, pos)
      end
  end.
End Step.

(** ** Delivery in pieces *)

(** The codes of the error returns inside the loop: they leave [b->pos] and
    [r->state] as they were. *)
Definition is_parse_error (c : rc) : bool :=
  match c with
  | NGX_HTTP_PARSE_INVALID_METHOD | NGX_HTTP_PARSE_INVALID_REQUEST
  | NGX_HTTP_PARSE_INVALID_VERSION => true
  | _ => false
  end.

Definition norm (c : rc) (r : ngx_http_request) (p : Z) : ngx_http_request * Z :=
  if is_parse_error c
  then (mkReq 0 (header_hash r) (lowcase_index r) (flds r), 0)
  else (r, p).

(** Unfolds the [case] bodies. *)
Ltac unfold_step :=
  unfold step, on_start, on_method, on_spaces_before_uri, on_schema, on_host_start,
    on_host, on_host_end, on_host_ip_literal, on_port, on_after_slash_in_uri,
    on_check_uri, on_uri, on_http_09, on_first_major_digit, on_major_digit,
    on_first_minor_digit, on_minor_digit, on_spaces_after_digit, on_almost_done,
    expect, next, done, fail in *.

Lemma step_return buf p ch x c f :
  step buf p ch x = inr (return_ c f) -> is_parse_error c = true.
Proof.
  destruct x as [s r]. intros H.
  destruct s; unfold_step; cbn zeta in H; repeat case_match; by simplify_eq.
Qed.

Lemma run_return buf p bs x p' c f :
  run (step buf) p bs x = inr (p', return_ c f) -> is_parse_error c = true.
Proof. by intros (ch & y & _ & Hy%step_return)%run_left_step. Qed.

#[export] Instance request_line_resumable buf :
  Resumable (Z.of_nat (length buf)) (fun _ => True) (ngx_http_parse_request_line buf) norm.
Proof.
  split; [by intros a p a' p' [= -> ->]|].
  intros r pos mid last _ Hpos Hmid Hlast Hlim. unfold ngx_http_parse_request_line.
  destruct (sw_of_Z (state r)) as [s|] eqn:Es; simpl.
  2: { rewrite Es. split; [done|]. split; [lia|]. simpl. do 2 f_equal. lia. }
  rewrite (slice_split buf pos mid last) by done. rewrite run_app.
  destruct (run (step buf) pos (slice buf pos mid) (s, flds r)) as [[p [s' f]]|[p [f|c f]]] eqn:E.
  - simpl. rewrite sw_of_Z_of_sw. apply run_exhausted in E.
    assert (p = mid) as -> by (pose proof (slice_length buf pos mid); lia).
    split; [done|].
    destruct (run (step buf) mid _ (s', f)) as [[? [? ?]]|[? [?|? ?]]] eqn:E2; simpl; try done.
    pose proof (run_return _ _ _ _ _ _ _ E2) as Hc. unfold norm. by rewrite Hc.
  - unfold at_done. repeat case_match; simplify_eq/=; done.
  - pose proof (run_return _ _ _ _ _ _ _ E) as Hc. by destruct c.
Qed.

(** ** What an accepted request line guarantees *)

(** Characters that may appear in a URI: no control, space or DEL. *)
Definition uri_char (c : Z) : bool := (0x20 <? c) && negb (c =? 0x7f).

(** Every byte of [buf] in [a, b) is there and satisfies [uri_char]. *)
Definition uri_bytes (buf : list Z) (a b : Z) : Prop :=
  forall i, a <= i < b -> exists c, load buf i = Some c /\ uri_char c = true.

Lemma uri_bytes_nil buf a b : b <= a -> uri_bytes buf a b.
Proof. intros ? i ?. lia. Qed.

Lemma uri_bytes_snoc buf a p c :
  uri_bytes buf a p -> load buf p = Some c -> uri_char c = true ->
  uri_bytes buf a (p + 1).
Proof.
  intros H Hl Hc i Hi. destruct (decide (i = p)) as [->|]; [by eauto | apply H; lia].
Qed.

Lemma uri_bytes_one buf p c :
  load buf p = Some c -> uri_char c = true -> uri_bytes buf p (p + 1).
Proof. intros. eapply uri_bytes_snoc; eauto using uri_bytes_nil. apply uri_bytes_nil. lia. Qed.

Lemma is_usual_uri_char c : is_usual c = true -> uri_char c = true.
Proof.
  intros H. destruct (decide (is_byte c)) as [Hc|Hc].
  - rewrite is_usual_spec in H by done. unfold usual_spec, uri_char in *. lia.
  - exfalso. revert H. unfold is_usual, is_byte in *.
    destruct (Z.ltb_spec c 0) as [Hn|Hn].
    + rewrite (Z.shiftr_div_pow2 c 5) by lia.
      replace (Z.to_nat (c / 2 ^ 5)) with 0%nat; [by cbn|].
      pose proof (Z.div_lt_upper_bound c (2 ^ 5) 0). lia.
    + rewrite nth_overflow; [by cbn|]. cbn [length usual].
      rewrite (Z.shiftr_div_pow2 c 5) by lia.
      pose proof (Z.div_le_lower_bound c (2 ^ 5) 8). lia.
Qed.

Create HintDb uri.
#[export] Hint Resolve uri_bytes_snoc uri_bytes_one is_usual_uri_char : uri.

(** A request before its line is parsed. *)
Definition fresh (f : fields) : Prop :=
  request_end f = None /\ http_major f = 0 /\ http_minor f = 0.

Section Accepted.
Variables (buf : list Z) (pos : Z).

Definition no_version (f : fields) := http_major f = 0 /\ http_minor f = 0.
Definition one_version (f : fields) := http_major f = 1 /\ 0 <= http_minor f <= 999.
Definition any_version (f : fields) :=
  (http_major f = 0 /\ http_minor f = 9) \/ one_version f.

(** The method was read and [p] is past it. *)
Definition has_method (f : fields) (p : Z) : Prop :=
  exists q e, request_start f = Some q /\ method_end f = Some e /\
    pos <= q /\ q <= e /\ e < p.

(** [d] characters of ["://"] were read. *)
Definition has_schema (d : Z) (f : fields) (p : Z) : Prop :=
  exists t, has_method f t /\ schema_end f = Some t /\ t + d <= p /\
    (d < 3 -> t + d = p) /\ (1 < d -> load buf (t + 1) = Some #"/").

(** A URI has been started at [u]. *)
Definition in_uri (f : fields) (p : Z) : Prop :=
  exists u c, has_method f u /\ uri_start f = Some u /\ u < p /\
    load buf u = Some c /\ (c = #"/" \/ c = #"?") /\ uri_bytes buf u p.

(** The URI ends at [v <= p]. *)
Definition has_uri (f : fields) (p : Z) : Prop :=
  exists u v c, has_method f u /\ uri_start f = Some u /\ uri_end f = Some v /\
    u < v /\ v <= p /\
    load buf u = Some c /\ (c = #"/" \/ c = #"?") /\ uri_bytes buf u v.

Definition inv (p : Z) (x : sw * fields) : Prop :=
  let '(s, f) := x in
  pos <= p /\ request_end f = None /\
  match s with
  | sw_start => no_version f
  | sw_method => no_version f /\ exists q, request_start f = Some q /\ pos <= q < p
  | sw_spaces_before_uri | sw_schema => no_version f /\ has_method f p
  | sw_schema_slash => no_version f /\ has_schema 1 f p
  | sw_schema_slash_slash => no_version f /\ has_schema 2 f p
  | sw_host_start | sw_host | sw_host_end | sw_host_ip_literal | sw_port =>
      no_version f /\ has_schema 3 f p
  | sw_after_slash_in_uri | sw_check_uri | sw_uri => no_version f /\ in_uri f p
  | sw_http_09 | sw_http_H | sw_http_HT | sw_http_HTT | sw_http_HTTP
  | sw_first_major_digit => no_version f /\ has_uri f p
  | sw_major_digit | sw_first_minor_digit =>
      http_major f = 1 /\ http_minor f = 0 /\ has_uri f p
  | sw_minor_digit | sw_spaces_after_digit => one_version f /\ has_uri f p
  | sw_almost_done => any_version f /\ has_uri f (p - 1)
  end.

(** At [done], with [p] the position of the line feed. *)
Definition at_lf (p : Z) (f : fields) : Prop :=
  any_version f /\ has_uri f p /\
  (forall z, request_end f = Some z -> z = p - 1 /\ has_uri f z).

Definition exit_inv (p : Z) (x : exit) : Prop :=
  match x with goto_done f => at_lf p f | return_ _ _ => True end.

Ltac destruct_inv :=
  unfold any_version, no_version, one_version, has_schema, in_uri, has_uri,
    has_method in *;
  repeat match goal with
  | H : exists _, _ |- _ => destruct H
  | H : _ /\ _ |- _ => destruct H
  end.

Ltac solve_uri_char :=
  first [by apply is_usual_uri_char | unfold uri_char, is_ctl in *; lia].
Ltac solve_buf :=
  match goal with
  | |- uri_bytes _ _ _ =>
      first [eapply uri_bytes_snoc; [eassumption..|solve_uri_char]
            |eapply uri_bytes_one; [eassumption|solve_uri_char]]
  | Hl : load ?b ?p = Some ?c |- load ?b ?i = Some _ =>
      replace i with p by lia; rewrite Hl; f_equal; lia
  end.

(** Establishes the invariant of the next state. *)
Ltac solve_inv :=
  cbn [inv exit_inv at_lf]; unfold at_lf; destruct_inv; cbn in *; simplify_eq;
  repeat match goal with
  | |- exists _, _ => eexists
  | |- _ /\ _ => split
  | |- forall _, _ => intros
  end;
  try match goal with |- _ = _ => first [eassumption | reflexivity] end;
  simplify_eq; try done;
  unfold u16 in *; rewrite ?Z.mod_small in * by lia; try lia;
  try solve_buf; eauto with lia.

Lemma on_method_inv p ch f :
  load buf p = Some ch -> inv p (sw_method, f) ->
  match on_method buf p ch f with inl x' => inv (p + 1) x' | inr e => exit_inv p e end.
Proof.
  intros Hl Hi. unfold on_method, next, fail. cbn in Hi. destruct_inv.
  repeat case_match; simplify_eq; solve_inv.
Qed.

Lemma use_schema_slash_inv f p :
  pos <= p -> request_end f = None -> no_version f -> has_schema 3 f p ->
  inv (p + 1) (sw_http_09, use_schema_slash f).
Proof.
  intros Hp Hre Hv (t & Hm & Ht & Hle & _ & Hl).
  specialize (Hl ltac:(lia)). unfold use_schema_slash. rewrite Ht. cbn.
  split; [lia|]. split; [done|]. split; [exact Hv|].
  exists (t + 1), (t + 2), #"/". destruct Hm as (q & e & ? & ? & ?).
  split; [exists q, e; cbn; intuition lia|].
  all: repeat split; auto with lia.
  replace (t + 2) with (t + 1 + 1) by lia. by eapply uri_bytes_one.
Qed.

Lemma step_inv p ch x :
  pos <= p -> load buf p = Some ch -> inv p x ->
  match step buf p ch x with
  | inl x' => inv (p + 1) x'
  | inr e => exit_inv p e
  end.
Proof.
  destruct x as [s f]. intros Hp Hl Hi.
  destruct s.
  2: by apply on_method_inv.
  all: unfold_step; cbn in Hi; destruct_inv; cbn zeta; repeat (case_match; simplify_eq); try exact I.
  all: try (apply use_schema_slash_inv).
  all: solve_inv.
Qed.
End Accepted.

(** The whole loop, from a fresh request. *)
Lemma run_inv buf pos last f :
  0 <= pos -> fresh f ->
  match run (step buf) pos (slice buf pos last) (sw_start, f) with
  | inl (p, x) => inv buf pos p x
  | inr (p, e) => exit_inv buf pos p e
  end.
Proof.
  intros Hpos (Hre & Hmaj & Hmin). apply run_slice_invariant; [done| |].
  - intros p ch s [? ?] ? ?. by apply step_inv.
  - cbn. unfold no_version. intuition lia.
Qed.

(** C1. for a fresh request, when the request line is accepted, the pointers
    the request is left with delimit, in this order and inside the delivered
    bytes, the method, the URI and the end of the line; the URI starts with
    '/' or '?' and holds no control character, space or DEL; and the version
    is HTTP/0.9 with method GET or 1.0 to 1.999. *)
Theorem request_line_accepted buf r pos last r' p' :
  state r = 0 -> fresh (flds r) -> 0 <= pos ->
  ngx_http_parse_request_line buf r pos last = (NGX_OK, r', p') ->
  exists q e u v z c,
    request_start (flds r') = Some q /\ method_end (flds r') = Some e /\
    uri_start (flds r') = Some u /\ uri_end (flds r') = Some v /\
    request_end (flds r') = Some z /\
    (pos <= q <= e /\ e < u < v /\ v <= z < p' /\ p' <= last) /\
    load buf u = Some c /\ (c = #"/" \/ c = #"?") /\ uri_bytes buf u v /\
    (http_version (flds r') = 9 /\ method (flds r') = NGX_HTTP_GET \/
     1000 <= http_version (flds r') <= 1999) /\
    state r' = 0.
Proof.
  intros Hs Hf Hpos. unfold ngx_http_parse_request_line. rewrite Hs.
  change (sw_of_Z 0) with (Some sw_start). cbn iota.
  pose proof (run_inv buf pos last (flds r) Hpos Hf) as Hinv.
  destruct (run _ _ _ _) as [[p [s' f]]|[p [f|c f]]] eqn:E; [done| |].
  2: { pose proof (run_return _ _ _ _ _ _ _ E) as Hc. by intros [= -> _ _]. }
  destruct (at_done p f) as [c f'] eqn:Ed. intros [= -> <- <-].
  assert (Hp : p < last).
  { apply run_left in E. unfold slice in E. rewrite length_take in E. lia. }
  clear E. destruct Hinv as (Hv & (u & v & c & Hm & Hu & Hw & ? & ? & ? & ? & ?) & Hz).
  destruct Hm as (q & e & ? & ? & ? & ? & ?).
  unfold at_done in Ed. unfold any_version, one_version in Hv.
  destruct (request_end f) as [z|] eqn:Ez.
  all: case_match; simplify_eq; cbn in *.
  - destruct (Hz z eq_refl) as (-> & u' & v' & c' & Hm' & Hu' & Hw' & ? & ? & _).
    simplify_eq. exists q, e, u, v, (p - 1), c. cbn. rewrite Ez. intuition lia.
  - exists q, e, u, v, p, c. cbn. intuition lia.
Qed.

Definition sample_line : list Z := bytes_of_string "GET /a?b HTTP/1.1" ++ [CR; LF].

Lemma request_line_accepted_witness :
  exists u v, uri_start (flds (ngx_http_parse_request_line sample_line init_request 0 19).1.2) = Some u /\
    uri_end (flds (ngx_http_parse_request_line sample_line init_request 0 19).1.2) = Some v /\
    uri_bytes sample_line u v.
Proof.
  destruct (request_line_accepted sample_line init_request 0 19
              (ngx_http_parse_request_line sample_line init_request 0 19).1.2 19)
    as (q & e & u & v & z & c & _ & _ & Hu & Hv & _ & _ & _ & _ & Hb & _);
    [reflexivity | by repeat split | lia | vm_compute; reflexivity |].
  by exists u, v.
Defined.

(** C2. delivering the request line in any increasing sequence of pieces, with
    the parser resumed after each NGX_AGAIN, gives the return code, the request
    and (unless an error stopped the parser) the position that parsing all of
    the bytes at once gives. *)
Theorem request_line_delivery buf r pos lasts last :
  0 <= pos <= last -> last <= Z.of_nat (length buf) ->
  (forall l, l ∈ lasts -> pos <= l <= last) -> Sorted Z.le lasts ->
  observe norm (deliver (ngx_http_parse_request_line buf) r pos (lasts ++ [last])) =
  observe norm (ngx_http_parse_request_line buf r pos last).
Proof. intros [? ?] ? ? ?. by apply (deliver_once (Z.of_nat (length buf)) (fun _ => True)); try apply _. Qed.

Lemma request_line_delivery_witness :
  observe norm (deliver (ngx_http_parse_request_line sample_line) init_request 0 ([2; 5; 7] ++ [19])) =
  observe norm (ngx_http_parse_request_line sample_line init_request 0 19).
Proof.
  apply request_line_delivery; [lia | by vm_compute | | repeat constructor; lia].
  intros l Hl. set_unfold in Hl. lia.
Defined.

(** ** Every origin-form request line is accepted *)

Definition method_table : list (list Z * Z) := Eval vm_compute in
  [(bytes_of_string "GET", NGX_HTTP_GET); (bytes_of_string "PUT", NGX_HTTP_PUT);
   (bytes_of_string "POST", NGX_HTTP_POST); (bytes_of_string "COPY", NGX_HTTP_COPY);
   (bytes_of_string "MOVE", NGX_HTTP_MOVE); (bytes_of_string "LOCK", NGX_HTTP_LOCK);
   (bytes_of_string "HEAD", NGX_HTTP_HEAD); (bytes_of_string "MKCOL", NGX_HTTP_MKCOL);
   (bytes_of_string "PATCH", NGX_HTTP_PATCH); (bytes_of_string "TRACE", NGX_HTTP_TRACE);
   (bytes_of_string "DELETE", NGX_HTTP_DELETE); (bytes_of_string "UNLOCK", NGX_HTTP_UNLOCK);
   (bytes_of_string "OPTIONS", NGX_HTTP_OPTIONS); (bytes_of_string "CONNECT", NGX_HTTP_CONNECT);
   (bytes_of_string "PROPFIND", NGX_HTTP_PROPFIND);
   (bytes_of_string "PROPPATCH", NGX_HTTP_PROPPATCH)].

(** The bytes [bs] are at [a]. *)
Definition holds (buf : list Z) (a : Z) (bs : list Z) : Prop :=
  forall i c, bs !! i = Some c -> load buf (a + Z.of_nat i) = Some c.

Lemma holds_cons buf a c bs :
  holds buf a (c :: bs) -> load buf a = Some c /\ holds buf (a + 1) bs.
Proof.
  intros H. split.
  - specialize (H 0%nat c eq_refl). by rewrite Z.add_0_r in H.
  - intros i c' Hi. specialize (H (S i) c' Hi). rewrite <- H. f_equal. lia.
Qed.

Lemma lookup_method_table buf m old name code :
  (name, code) ∈ method_table -> holds buf m name ->
  lookup_method buf m (Z.of_nat (length name)) old = code.
Proof.
  intros Hin H. unfold method_table in Hin.
  repeat (apply elem_of_cons in Hin as [[= -> ->]|Hin]); [..|by apply elem_of_nil in Hin].
  all: repeat (apply holds_cons in H as [? H]).
  all: cbn [length]; unfold lookup_method, bytes_are, byte_is.
  all: cbn [Z.of_nat Pos.of_succ_nat Pos.succ Z.eqb Pos.eqb].
  all: replace (m + 2) with (m + 1 + 1) by lia.
  all: replace (m + 3) with (m + 1 + 1 + 1) by lia.
  all: rewrite ?Z.add_0_r.
  all: repeat match goal with Hl : load _ _ = _ |- _ => rewrite !Hl; clear Hl end.
  all: done.
Qed.

(** A '/'-separated path: non-empty segments, then a last one that may be
    empty. *)
Fixpoint path_tail (segs : list (list Z)) (tl : list Z) : list Z :=
  match segs with
  | [] => tl
  | seg :: segs' => seg ++ #"/" :: path_tail segs' tl
  end.

Definition query_bytes (query : option (list Z)) : list Z :=
  match query with None => [] | Some q => #"?" :: q end.

Definition origin_form (segs : list (list Z)) (tl : list Z) (query : option (list Z)) : list Z :=
  [#"/"] ++ path_tail segs tl ++ query_bytes query.

Definition version_bytes (d : Z) : list Z :=
  [#"H"; #"T"; #"T"; #"P"; #"/"; #"1"; #"."; d; CR; LF].

Definition usual_bytes (bs : list Z) : Prop := Forall (fun c => is_usual c = true) bs.
Definition query_ok (bs : list Z) : Prop :=
  Forall (fun c => uri_char c = true /\ c <> #"#") bs.

Section Complete.
Variable buf : list Z.

Lemma run_usual p bs f s :
  usual_bytes bs -> s = sw_after_slash_in_uri \/ s = sw_check_uri ->
  exists s', run (step buf) p bs (s, f) = inl (p + Z.of_nat (length bs), (s', f)) /\
    (s' = sw_after_slash_in_uri \/ s' = sw_check_uri) /\
    (bs <> [] -> s' = sw_check_uri).
Proof.
  intros Hb Hs. destruct bs as [|c bs].
  { exists s. rewrite Z.add_0_r. split; [done|]. split; [done|congruence]. }
  apply Forall_cons in Hb as [Hc Hb]. exists sw_check_uri. split; [|auto].
  cbn [run]. replace (step buf p c (s, f)) with (inl (sw_check_uri, f) : outcome).
  2: { destruct Hs as [-> | ->]; cbn; unfold on_after_slash_in_uri, on_check_uri; by rewrite Hc. }
  rewrite run_stays.
  - do 2 f_equal. cbn [length]. lia.
  - intros q c' Hin. unfold usual_bytes in Hb. rewrite Forall_forall in Hb.
    cbn. unfold on_check_uri. by rewrite (Hb c' Hin).
Qed.

Lemma run_path_tail p segs tl f :
  uri_ext f = None -> Forall (fun s => s <> [] /\ usual_bytes s) segs -> usual_bytes tl ->
  exists s', run (step buf) p (path_tail segs tl) (sw_after_slash_in_uri, f) =
      inl (p + Z.of_nat (length (path_tail segs tl)), (s', f)) /\
    (s' = sw_after_slash_in_uri \/ s' = sw_check_uri).
Proof.
  intros Hx Hsegs Htl. revert p. induction Hsegs as [|seg segs [Hne Hu] _ IH]; intros p.
  { destruct (run_usual p tl f sw_after_slash_in_uri) as (s' & Hr & Hs' & _); eauto. }
  cbn [path_tail]. rewrite run_app.
  destruct (run_usual p seg f sw_after_slash_in_uri) as (s' & -> & _ & Hs'); [done|by left|].
  rewrite (Hs' Hne). cbn [app run].
  replace (step buf _ #"/" (sw_check_uri, f))
    with (inl (sw_after_slash_in_uri, f) : outcome).
  2: { cbn. unfold next. destruct f; cbn in *; by subst. }
  destruct (IH (p + Z.of_nat (length seg) + 1)) as (s2 & Hr & ?).
  exists s2. split; [|done]. rewrite Hr. do 2 f_equal.
  rewrite length_app. cbn [length]. lia.
Qed.

Lemma run_query p query f s :
  query_ok (default [] query) -> s = sw_after_slash_in_uri \/ s = sw_check_uri ->
  run (step buf) p (query_bytes query ++ [#" "]) (s, f) =
    inl (p + Z.of_nat (length (query_bytes query)) + 1,
         (sw_http_09, set_uri_end (Some (p + Z.of_nat (length (query_bytes query))))
                (match query with None => f | Some _ => set_args_start (Some (p + 1)) f end))).
Proof.
  intros Hq Hs. destruct query as [q|]; cbn [query_bytes].
  2: { destruct Hs as [-> | ->]; cbn; by rewrite Z.add_0_r. }
  cbn [app run].
  replace (step buf p #"?" (s, f))
    with (inl (sw_uri, set_args_start (Some (p + 1)) f) : outcome).
  2: { by destruct Hs as [-> | ->]. }
  rewrite run_app, run_stays.
  - cbn. do 3 f_equal; [|do 2 f_equal]; lia.
  - intros q' c Hc. unfold query_ok in Hq. rewrite Forall_forall in Hq.
    destruct (Hq c Hc) as [Hu Hh]. cbn. unfold on_uri, is_ctl, uri_char in *.
    destruct (is_usual c); [done|]. repeat (case_match; try lia). done.
Qed.

Lemma run_version p d f :
  no_version f -> #"0" <= d <= #"9" ->
  run (step buf) p (version_bytes d) (sw_http_09, f) =
  inr (p + 9, goto_done
    (f |> set_http_protocol (Some p) |> set_http_major 1 |> set_http_minor (d - #"0")
       |> set_request_end (Some (p + 8)))).
Proof.
  intros [Hmaj Hmin] Hd. unfold version_bytes.
  cbn [run step on_http_09 expect next Z.eqb Pos.eqb].
  replace (on_first_major_digit #"1" (set_http_protocol (Some p) f))
    with (next sw_major_digit (set_http_major 1 (set_http_protocol (Some p) f))) by done.
  cbn [run step next on_major_digit Z.eqb Pos.eqb].
  unfold on_first_minor_digit.
  destruct ((d <? #"0") || (#"9" <? d)) eqn:E; [lia|].
  cbn [run step next on_minor_digit on_almost_done Z.eqb Pos.eqb done].
  replace (p + 1 + 1 + 1 + 1 + 1 + 1 + 1 + 1 + 1) with (p + 9) by lia.
  by replace (p + 9 - 1) with (p + 8) by lia.
Qed.

Lemma run_method_name p c bs f :
  Forall (fun c => not_method_char c = false) (c :: bs) ->
  Forall (fun c => 32 < c) (c :: bs) ->
  run (step buf) p (c :: bs) (sw_start, f) =
  inl (p + Z.of_nat (length (c :: bs)), (sw_method, set_request_start (Some p) f)).
Proof.
  intros [Hc Hbs]%Forall_cons [Hs Hsp]%Forall_cons. cbn [run step]. unfold on_start.
  destruct ((c =? CR) || (c =? LF)) eqn:E; [lia|]. rewrite Hc. cbn [next].
  rewrite run_stays.
  - do 2 f_equal. cbn [length]. lia.
  - intros q c' Hin. rewrite Forall_forall in Hbs, Hsp.
    specialize (Hbs c' Hin). specialize (Hsp c' Hin). cbn. unfold on_method.
    destruct (c' =? #" ") eqn:E'; [lia|]. by rewrite Hbs.
Qed.

(** The method, one space and the '/' of the path. *)
Lemma run_method p name code f :
  (name, code) ∈ method_table -> holds buf p name ->
  run (step buf) p (name ++ [#" "; #"/"]) (sw_start, f) =
  inl (p + Z.of_nat (length name) + 2,
       (sw_after_slash_in_uri,
        f |> set_request_start (Some p)
          |> set_method_end (Some (p + Z.of_nat (length name) - 1))
          |> set_method code
          |> set_uri_start (Some (p + Z.of_nat (length name) + 1)))).
Proof.
  intros Hin Hh. rewrite run_app.
  assert (Hok : exists c bs, name = c :: bs /\
    Forall (fun c => not_method_char c = false) (c :: bs) /\ Forall (fun c => 32 < c) (c :: bs)).
  { unfold method_table in Hin.
    repeat (apply elem_of_cons in Hin as [[= -> ->]|Hin]); [..|by apply elem_of_nil in Hin].
    all: do 2 eexists; split; [reflexivity|]; split; repeat constructor. }
  destruct Hok as (c & bs & -> & Hm & Hs).
  rewrite run_method_name by done. cbn [run step]. unfold on_method.
  cbn [request_start set_request_start set_method_end Z.eqb Pos.eqb next].
  replace (p + Z.of_nat (length (c :: bs)) - p) with (Z.of_nat (length (c :: bs))) by lia.
  rewrite (lookup_method_table buf p _ (c :: bs) code) by done.
  cbn [step on_spaces_before_uri Z.eqb Pos.eqb next]. do 2 f_equal. lia.
Qed.

(** The line seen as the pieces above. *)
Lemma run_request_line p name code segs tl query d f :
  no_version f -> uri_ext f = None ->
  (name, code) ∈ method_table -> holds buf p name ->
  Forall (fun s => s <> [] /\ usual_bytes s) segs -> usual_bytes tl ->
  query_ok (default [] query) -> #"0" <= d <= #"9" ->
  let u := p + Z.of_nat (length name) + 1 in
  let a := u + 1 + Z.of_nat (length (path_tail segs tl)) in
  let v := a + Z.of_nat (length (query_bytes query)) in
  run (step buf) p
    (name ++ [#" "] ++ origin_form segs tl query ++ [#" "] ++ version_bytes d)
    (sw_start, f) =
  inr (v + 10, goto_done
    ((match query with None => fun x => x | Some _ => set_args_start (Some (a + 1)) end)
       (f |> set_request_start (Some p) |> set_method_end (Some (u - 2))
          |> set_method code |> set_uri_start (Some u))
       |> set_uri_end (Some v) |> set_http_protocol (Some (v + 1))
       |> set_http_major 1 |> set_http_minor (d - #"0")
       |> set_request_end (Some (v + 9)))).
Proof.
  intros Hv Hx Hin Hh Hsegs Htl Hq Hd u a v.
  replace (name ++ [#" "] ++ origin_form segs tl query ++ [#" "] ++ version_bytes d)
    with ((name ++ [#" "; #"/"]) ++ path_tail segs tl ++
          (query_bytes query ++ [#" "]) ++ version_bytes d)
    by (unfold origin_form; by rewrite <- !app_assoc).
  rewrite run_app, (run_method p name code) by done.
  rewrite run_app.
  match goal with |- context [(sw_after_slash_in_uri, ?f')] => set (f1 := f') end.
  destruct (run_path_tail (p + Z.of_nat (length name) + 2) segs tl f1) as (s1 & -> & Hs1);
    [done..|].
  rewrite run_app, (run_query _ query f1 s1) by done.
  rewrite run_version; [|by destruct query|done].
  replace (p + Z.of_nat (length name) + 2 + Z.of_nat (length (path_tail segs tl))) with a by lia.
  fold v. replace (v + 1 + 9) with (v + 10) by lia. replace (v + 1 + 8) with (v + 9) by lia.
  unfold f1. replace (p + Z.of_nat (length name) - 1) with (u - 2) by lia.
  by destruct query.
Qed.
End Complete.

(** for each of the sixteen methods, every origin-form target ('/' and
    segments of usual characters, with an optional query of URI characters
    other than '#') and every HTTP/1.d version, the line
    "METHOD target HTTP/1.d" CR LF is accepted, all of it is consumed, and the
    method, the URI, query and line boundaries and the version of the request
    are those of the line, with no flag of a complex or quoted URI raised. *)
Theorem request_line_complete buf r pos last name code segs tl query d :
  state r = 0 -> fresh (flds r) -> uri_ext (flds r) = None -> 0 <= pos ->
  (name, code) ∈ method_table ->
  Forall (fun s => s <> [] /\ usual_bytes s) segs -> usual_bytes tl ->
  query_ok (default [] query) -> #"0" <= d <= #"9" ->
  slice buf pos last =
    name ++ [#" "] ++ origin_form segs tl query ++ [#" "] ++ version_bytes d ->
  let u := pos + Z.of_nat (length name) + 1 in
  let a := u + 1 + Z.of_nat (length (path_tail segs tl)) in
  let v := u + Z.of_nat (length (origin_form segs tl query)) in
  exists f', ngx_http_parse_request_line buf r pos last =
      (NGX_OK, mkReq 0 (header_hash r) (lowcase_index r) f',
       pos + Z.of_nat (length (slice buf pos last))) /\
    method f' = code /\ http_version f' = 1000 + (d - #"0") /\
    request_start f' = Some pos /\ method_end f' = Some (u - 2) /\
    uri_start f' = Some u /\ uri_end f' = Some v /\ uri_ext f' = None /\
    args_start f' = (match query with Some _ => Some (a + 1) | None => args_start (flds r) end) /\
    request_end f' = Some (v + 9) /\
    complex_uri f' = complex_uri (flds r) /\ quoted_uri f' = quoted_uri (flds r).
Proof.
  intros Hs (Hre & Hver) Hx Hpos Hin Hsegs Htl Hq Hd Hslice u a v.
  assert (Hh : holds buf pos name).
  { intros i c Hi. eapply (slice_bytes buf pos last i c); [done|].
    rewrite Hslice. by apply lookup_app_l_Some. }
  assert (Hlen : v = a + Z.of_nat (length (query_bytes query))).
  { unfold v, a, origin_form. rewrite !length_app. cbn [length]. lia. }
  assert (Hend : pos + Z.of_nat (length (slice buf pos last)) = v + 10 + 1).
  { rewrite Hslice. unfold v, u. rewrite !length_app. cbn [length version_bytes]. lia. }
  rewrite Hend.
  unfold ngx_http_parse_request_line. rewrite Hs. change (sw_of_Z 0) with (Some sw_start).
  cbn iota. rewrite Hslice, (run_request_line buf pos name code segs tl query d) by done.
  cbn zeta. fold u. fold a. rewrite <- Hlen.
  unfold at_done. cbn [request_end set_request_end].
  assert (Hd' : u16 (d - #"0") = d - #"0") by (unfold u16; apply Z.mod_small; lia).
  destruct query as [q|]; cbn; rewrite Hd'; change (u16 1) with 1.
  all: destruct (_ =? 9) eqn:E9; [lia|]; cbn.
  all: eexists; split; [reflexivity|].
  all: cbn; repeat split; try lia; done.
Qed.

Lemma request_line_complete_witness :
  exists f', ngx_http_parse_request_line sample_line init_request 0 19 =
      (NGX_OK, mkReq 0 0 0 f', 19) /\ method f' = NGX_HTTP_GET /\ uri_end f' = Some 8.
Proof.
  destruct (request_line_complete sample_line init_request 0 19 (bytes_of_string "GET")
              NGX_HTTP_GET [] [#"a"] (Some [#"b"]) #"1")
    as (f' & H & Hm & _ & _ & _ & _ & Hv & _).
  all: try (by vm_compute).
  all: try (by repeat (constructor || lia)).
  all: try (by repeat split).
  exists f'. split; [exact H|]. by split.
Defined.

End RequestLine.
