(* ===== verification/NgxHeaderLine.v ===== *)
(** [ngx_http_parse_header_line]
    (src/http1-1/src/upstream/src/http/ngx_http_parse.c, lines 818-1093): the
    header line state machine, shared by requests and upstream responses.

    [ngx_hash] is a macro of the nginx core and a parameter here.
    [allow_underscores] is the argument of the function, [upstream] says
    whether [r->upstream] is set. *)

From S2P Require Import NgxBase.
Open Scope Z_scope.

Module HeaderLine.

Inductive sw :=
  | sw_start | sw_name | sw_space_before_value | sw_value | sw_space_after_value
  | sw_ignore_line | sw_almost_done | sw_header_almost_done.

Definition all_sw : list sw :=
  [sw_start; sw_name; sw_space_before_value; sw_value; sw_space_after_value;
   sw_ignore_line; sw_almost_done; sw_header_almost_done].

Definition sw_of_Z (z : Z) : option sw :=
  if z <? 0 then None else all_sw !! Z.to_nat z.

Definition Z_of_sw (s : sw) : Z :=
  match s with
  | sw_start => 0 | sw_name => 1 | sw_space_before_value => 2 | sw_value => 3
  | sw_space_after_value => 4 | sw_ignore_line => 5 | sw_almost_done => 6
  | sw_header_almost_done => 7
  end.

Lemma header_sw_of_Z s : sw_of_Z (Z_of_sw s) = Some s.
Proof. by destruct s. Qed.

(** [static u_char lowcase[]] *)
Definition letters : list Z := Eval vm_compute in bytes_of_string "abcdefghijklmnopqrstuvwxyz".
Definition digits : list Z := Eval vm_compute in bytes_of_string "0123456789".
Definition lowcase : list Z :=
  repeat 0 32
  ++ repeat 0 13 ++ [#"-"] ++ repeat 0 2 ++ digits ++ repeat 0 6
  ++ [0] ++ letters ++ repeat 0 5
  ++ [0] ++ letters ++ repeat 0 5
  ++ repeat 0 32 ++ repeat 0 32 ++ repeat 0 32 ++ repeat 0 32.

(** [lowcase[ch]] *)
Definition lowcase_of (ch : Z) : Z := nth (Z.to_nat ch) lowcase 0.
Arguments lowcase_of : simpl never.

(** The locals of the loop: [hash], [i], and the request. *)
Record locals := mkL { hash : Z; idx : Z; req : fields }.

Inductive exit :=
  | goto_done (l : locals)
  | goto_header_done (l : locals)
  | return_ (c : rc) (l : locals).

Abbreviation outcome := ((sw * locals) + exit)%type.

Definition next (s : sw) (l : locals) : outcome := inl (s, l).

(** An assignment to the request. *)
Definition upd (f : fields -> fields) (l : locals) : locals := mkL (hash l) (idx l) (f (req l)).

Section Step.
Variable ngx_hash : Z -> Z -> Z.
Variables allow_underscores upstream : bool.
Variable buf : list Z.

(** [hash = ngx_hash(0, c); r->lowcase_header[0] = c; i = 1] *)
Definition first_name_char (c : Z) (l : locals) : locals :=
  mkL (ngx_hash 0 c) 1 (set_lowcase_header (<[0%nat := c]> (lowcase_header (req l))) (req l)).

(** [hash = ngx_hash(hash, c); r->lowcase_header[i++] = c; i &= LEN - 1] *)
Definition next_name_char (c : Z) (l : locals) : locals :=
  mkL (ngx_hash (hash l) c) (Z.land (idx l + 1) (NGX_HTTP_LC_HEADER_LEN - 1))
      (set_lowcase_header (<[Z.to_nat (idx l) := c]> (lowcase_header (req l))) (req l)).

(** [hash = 0; i = 0; r->invalid_header = 1] *)
Definition invalid_first_char (l : locals) : locals :=
  mkL 0 0 (set_invalid_header true (req l)).

Definition on_start (p ch : Z) (l : locals) : outcome :=
  let l := upd (fun r => r |> set_header_name_start (Some p) |> set_invalid_header false) l in
  if ch =? CR then next sw_header_almost_done (upd (set_header_end (Some p)) l)
  else if ch =? LF then inr (goto_header_done (upd (set_header_end (Some p)) l))
  else
    let c := lowcase_of ch in
    if negb (c =? 0) then next sw_name (first_name_char c l)
    else if ch =? #"_" then
      if allow_underscores then next sw_name (first_name_char ch l)
      else next sw_name (invalid_first_char l)
    else if (ch <=? 0x20) || (ch =? 0x7f) || (ch =? #":") then
      inr (return_ NGX_HTTP_PARSE_INVALID_HEADER (upd (set_header_end (Some p)) l))
    else next sw_name (invalid_first_char l).

Definition on_name (p ch : Z) (l : locals) : outcome :=
  let c := lowcase_of ch in
  if negb (c =? 0) then next sw_name (next_name_char c l)
  else if ch =? #"_" then
    if allow_underscores then next sw_name (next_name_char ch l)
    else next sw_name (upd (set_invalid_header true) l)
  else if ch =? #":" then
    next sw_space_before_value (upd (set_header_name_end (Some p)) l)
  else if ch =? CR then
    next sw_almost_done
      (upd (fun r => r |> set_header_name_end (Some p) |> set_header_start (Some p)
                       |> set_header_end (Some p)) l)
  else if ch =? LF then
    inr (goto_done
      (upd (fun r => r |> set_header_name_end (Some p) |> set_header_start (Some p)
                       |> set_header_end (Some p)) l))
  (* IIS may send the duplicate "HTTP/1.1 ..." lines *)
  else if (ch =? #"/") && upstream
          && match header_name_start (req l) with
             | Some n => (p - n =? 4) && bytes_are buf n [#"H"; #"T"; #"T"; #"P"]
             | None => false
             end
  then next sw_ignore_line l
  else if (ch <=? 0x20) || (ch =? 0x7f) then
    inr (return_ NGX_HTTP_PARSE_INVALID_HEADER (upd (set_header_end (Some p)) l))
  else next sw_name (upd (set_invalid_header true) l).

Definition on_space_before_value (p ch : Z) (l : locals) : outcome :=
  if ch =? #" " then next sw_space_before_value l
  else if ch =? CR then
    next sw_almost_done
      (upd (fun r => r |> set_header_start (Some p) |> set_header_end (Some p)) l)
  else if ch =? LF then
    inr (goto_done
      (upd (fun r => r |> set_header_start (Some p) |> set_header_end (Some p)) l))
  else if ch =? 0 then
    inr (return_ NGX_HTTP_PARSE_INVALID_HEADER (upd (set_header_end (Some p)) l))
  else next sw_value (upd (set_header_start (Some p)) l).

Definition on_value (p ch : Z) (l : locals) : outcome :=
  if ch =? #" " then next sw_space_after_value (upd (set_header_end (Some p)) l)
  else if ch =? CR then next sw_almost_done (upd (set_header_end (Some p)) l)
  else if ch =? LF then inr (goto_done (upd (set_header_end (Some p)) l))
  else if ch =? 0 then
    inr (return_ NGX_HTTP_PARSE_INVALID_HEADER (upd (set_header_end (Some p)) l))
  else next sw_value l.

Definition on_space_after_value (p ch : Z) (l : locals) : outcome :=
  if ch =? #" " then next sw_space_after_value l
  else if ch =? CR then next sw_almost_done l
  else if ch =? LF then inr (goto_done l)
  else if ch =? 0 then
    inr (return_ NGX_HTTP_PARSE_INVALID_HEADER (upd (set_header_end (Some p)) l))
  else next sw_value l.

Definition on_ignore_line (ch : Z) (l : locals) : outcome :=
  if ch =? LF then next sw_start l else next sw_ignore_line l.

Definition on_almost_done (ch : Z) (l : locals) : outcome :=
  if ch =? LF then inr (goto_done l)
  else if ch =? CR then next sw_almost_done l
  else inr (return_ NGX_HTTP_PARSE_INVALID_HEADER l).

Definition on_header_almost_done (ch : Z) (l : locals) : outcome :=
  if ch =? LF then inr (goto_header_done l)
  else inr (return_ NGX_HTTP_PARSE_INVALID_HEADER l).

Definition step (p ch : Z) (x : sw * locals) : outcome :=
  let '(s, l) := x in
  match s with
  | sw_start => on_start p ch l
  | sw_name => on_name p ch l
  | sw_space_before_value => on_space_before_value p ch l
  | sw_value => on_value p ch l
  | sw_space_after_value => on_space_after_value p ch l
  | sw_ignore_line => on_ignore_line ch l
  | sw_almost_done => on_almost_done ch l
  | sw_header_almost_done => on_header_almost_done ch l
  end.

(** [header_done] saves only the state; an error return saves nothing. *)
Definition ngx_http_parse_header_line (r : ngx_http_request) (pos last : Z)
    : rc * ngx_http_request * Z :=
  match sw_of_Z (state r) with
  | None => (NGX_AGAIN, r, Z.max pos last)
  | Some s =>
      match run step pos (slice buf pos last)
              (s, mkL (header_hash r) (lowcase_index r) (flds r)) with
      | inl (p, (s', l)) =>
          (NGX_AGAIN, mkReq (Z_of_sw s') (hash l) (idx l) (req l), p)
      | inr (p, goto_done l) =>
          (NGX_OK, mkReq (Z_of_sw sw_start) (hash l) (idx l) (req l), p + 1)
      | inr (p, goto_header_done l) =>
          (NGX_HTTP_PARSE_HEADER_DONE,
           mkReq (Z_of_sw sw_start) (header_hash r) (lowcase_index r) (req l), p + 1)
      | inr (p, return_ c l) =>
          (c, mkReq (state r) (header_hash r) (lowcase_index r) (req l), pos)
      end
  end.
End Step.

(** ** Delivery in pieces *)

(** What a result tells: everything for NGX_OK and NGX_AGAIN; NGX_HTTP_PARSE_HEADER_DONE
    leaves the hash and index registers of the last NGX_AGAIN, and an error
    return also the state and position. *)
Definition norm (c : rc) (r : ngx_http_request) (p : Z) : ngx_http_request * Z :=
  match c with
  | NGX_OK | NGX_AGAIN => (r, p)
  | NGX_HTTP_PARSE_HEADER_DONE => (mkReq (state r) 0 0 (flds r), p)
  | _ => (mkReq 0 0 0 (flds r), 0)
  end.

Ltac unfold_step :=
  unfold step, on_start, on_name, on_space_before_value, on_value, on_space_after_value,
    on_ignore_line, on_almost_done, on_header_almost_done, next in *.

Lemma header_run_return h au up buf p bs x p' c l :
  run (step h au up buf) p bs x = inr (p', return_ c l) -> c = NGX_HTTP_PARSE_INVALID_HEADER.
Proof.
  intros (ch & [s l'] & _ & H)%run_left_step.
  destruct s; unfold_step; cbn zeta in H; repeat case_match; by simplify_eq.
Qed.

#[export] Instance header_line_resumable h au up buf :
  Resumable (Z.of_nat (length buf)) (fun _ => True) (ngx_http_parse_header_line h au up buf) norm.
Proof.
  split; [by intros a p a' p' [= -> ->]|].
  intros r pos mid last _ Hpos Hmid Hlast Hlim. unfold ngx_http_parse_header_line.
  destruct (sw_of_Z (state r)) as [s|] eqn:Es; simpl.
  2: { rewrite Es. split; [done|]. split; [lia|]. simpl. do 2 f_equal. lia. }
  rewrite (slice_split buf pos mid last) by done. rewrite run_app.
  destruct (run _ pos (slice buf pos mid) _) as [[p [s' l]]|[p [l|l|c l]]] eqn:E; try done.
  - simpl. rewrite header_sw_of_Z. apply run_exhausted in E.
    assert (p = mid) as -> by (pose proof (slice_length buf pos mid); lia).
    split; [done|]. split; [done|]. destruct l as [hh ii rq]. cbn [hash idx req].
    destruct (run _ mid _ (s', _)) as [[? [? ?]]|[? [?|?|? ?]]] eqn:E2; try done.
    apply header_run_return in E2 as ->. done.
  - apply header_run_return in E as ->. done.
Qed.

(** ** What an accepted header line guarantees *)

(** A character of a valid header name as the parser stores it. *)
Definition lc (c : Z) : Z := if lowcase_of c =? 0 then c else lowcase_of c.

Definition name_char (c : Z) : bool :=
  (0x20 <? c) && negb (c =? 0x7f) && negb (c =? #":").
Definition value_char (c : Z) : bool :=
  negb (c =? CR) && negb (c =? LF) && negb (c =? 0).

(** Every byte of [buf] in [a, b) is there and satisfies [f]. *)
Definition bytes_sat (f : Z -> bool) (buf : list Z) (a b : Z) : Prop :=
  forall i, a <= i < b -> exists c, load buf i = Some c /\ f c = true.

Lemma bytes_sat_nil f buf a b : b <= a -> bytes_sat f buf a b.
Proof. intros ? i ?. lia. Qed.

Lemma bytes_sat_snoc f buf a p c :
  bytes_sat f buf a p -> load buf p = Some c -> f c = true -> bytes_sat f buf a (p + 1).
Proof.
  intros H Hl Hc i Hi. destruct (decide (i = p)) as [->|]; [by eauto | apply H; lia].
Qed.

Lemma bytes_sat_one f buf p c :
  load buf p = Some c -> f c = true -> bytes_sat f buf p (p + 1).
Proof. intros. eapply bytes_sat_snoc; [apply bytes_sat_nil; lia|done..]. Qed.

Lemma bytes_sat_shrink f buf a b b' : bytes_sat f buf a b -> b' <= b -> bytes_sat f buf a b'.
Proof. intros H ? i ?. apply H. lia. Qed.

Lemma lowcase_of_name c : lowcase_of c <> 0 -> name_char c = true.
Proof.
  intros H. destruct (decide (is_byte c)) as [Hc|Hc].
  - assert (Hb : (lowcase_of c =? 0) || name_char c = true).
    { revert c Hc H. intros c Hc _. revert c Hc. apply byte_forall. vm_compute. reflexivity. }
    lia.
  - exfalso. apply H. unfold lowcase_of, is_byte in *.
    destruct (Z.ltb_spec c 0); [by replace (Z.to_nat c) with 0%nat by lia|].
    apply nth_overflow. change (length lowcase) with 256%nat. lia.
Qed.

Section Accepted.
Variable ngx_hash : Z -> Z -> Z.
Variables (au up : bool) (buf : list Z) (pos : Z).

(** Without the invalid mark, the registers describe the name [n, p): its
    hash, its length modulo 32, and its last 32 characters in lower case. *)
Definition name_regs (l : locals) (n p : Z) : Prop :=
  invalid_header (req l) = false ->
  hash l = foldl ngx_hash 0 (lc <$> slice buf n p) /\
  idx l = (p - n) mod 32 /\
  forall k c, n <= k < p -> p - 32 <= k -> load buf k = Some c ->
    lowcase_header (req l) !! Z.to_nat ((k - n) mod 32) = Some (lc c).

Definition regs_ok (l : locals) : Prop :=
  0 <= idx l < 32 /\ length (lowcase_header (req l)) = 32%nat.

Definition in_name (l : locals) (p : Z) : Prop :=
  exists n, header_name_start (req l) = Some n /\ pos <= n < p /\
    bytes_sat name_char buf n p /\ name_regs l n p.

Definition has_name (l : locals) (p : Z) : Prop :=
  exists n e, header_name_start (req l) = Some n /\ header_name_end (req l) = Some e /\
    pos <= n < e /\ e <= p /\ bytes_sat name_char buf n e /\ name_regs l n e.

(** The value starts at [s] and reaches [p]. *)
Definition in_value (l : locals) (p : Z) : Prop :=
  exists s, header_start (req l) = Some s /\ s < p /\ has_name l s /\
    bytes_sat value_char buf s p.

(** The value is [s, h), [h <= p]. *)
Definition has_value (l : locals) (p : Z) : Prop :=
  exists s h, header_start (req l) = Some s /\ header_end (req l) = Some h /\
    s <= h /\ h <= p /\ has_name l s /\ bytes_sat value_char buf s h.

Definition inv (p : Z) (x : sw * locals) : Prop :=
  let '(s, l) := x in
  pos <= p /\ regs_ok l /\
  match s with
  | sw_start | sw_ignore_line | sw_header_almost_done => True
  | sw_name => in_name l p
  | sw_space_before_value => has_name l p
  | sw_value => in_value l p
  | sw_space_after_value => in_value l p /\ has_value l p
  | sw_almost_done => has_value l p
  end.

Definition exit_inv (p : Z) (x : exit) : Prop :=
  match x with
  | goto_done l => regs_ok l /\ has_value l p
  | goto_header_done l | return_ _ l => regs_ok l
  end.

Lemma first_name_char_inv p ch c f l :
  pos <= p -> load buf p = Some ch -> name_char ch = true -> c = lc ch ->
  regs_ok l -> header_name_start (f (req l)) = Some p ->
  lowcase_header (f (req l)) = lowcase_header (req l) ->
  regs_ok (first_name_char ngx_hash c (upd f l)) /\
  in_name (first_name_char ngx_hash c (upd f l)) (p + 1).
Proof.
  intros Hp Hl Hn -> [Hi Hlen] Hs Hlc. cbn in *. split.
  { split; [cbn; lia|]. cbn. by rewrite length_insert, Hlc. }
  exists p. split; [done|]. split; [lia|]. split; [by eapply bytes_sat_one|].
  intros _. cbn. pose proof (load_in_bounds _ _ _ Hl).
  rewrite (slice_snoc buf p p ch), (slice_nil buf p p) by (done || lia).
  split; [done|]. split; [by replace (p + 1 - p) with 1 by lia|].
  intros k c Hk _ Hc. assert (k = p) as -> by lia. simplify_eq.
  replace ((p - p) mod 32) with 0 by (by rewrite Z.sub_diag).
  apply list_lookup_insert_eq. rewrite Hlc. lia.
Qed.

Lemma next_name_char_inv p ch c l :
  0 <= pos -> load buf p = Some ch -> name_char ch = true -> c = lc ch ->
  regs_ok l -> in_name l p ->
  regs_ok (next_name_char ngx_hash c l) /\ in_name (next_name_char ngx_hash c l) (p + 1).
Proof.
  intros Hp Hl Hn -> [Hi Hlen] (n & Hns & Hr & Hb & Hregs).
  assert (Hand : Z.land (idx l + 1) (NGX_HTTP_LC_HEADER_LEN - 1) = (idx l + 1) mod 32).
  { change (NGX_HTTP_LC_HEADER_LEN - 1) with (Z.ones 5). by rewrite Z.land_ones. }
  split.
  { split; cbn; [rewrite Hand; lia_mod|by rewrite length_insert]. }
  exists n. split; [done|]. split; [lia|]. split; [by eapply bytes_sat_snoc|].
  intros Hv. destruct (Hregs Hv) as (Hh & Hx & Hc). cbn. rewrite Hand.
  rewrite (slice_snoc buf n p ch) by (done || lia).
  rewrite fmap_app, foldl_app, <- Hh. split; [done|].
  split; [rewrite Hx; lia_mod|].
  intros k c Hk Hk' Hlk. destruct (decide (k = p)) as [->|Hne].
  - simplify_eq. rewrite <- Hx. apply list_lookup_insert_eq. lia.
  - rewrite list_lookup_insert_ne; [by apply Hc; [lia|lia|]|].
    rewrite Hx. lia_mod.
Qed.

(** A name character that marks the header as invalid. *)
Lemma invalid_name_char_inv p ch f l :
  load buf p = Some ch -> name_char ch = true -> in_name l p ->
  header_name_start (f (req l)) = header_name_start (req l) ->
  invalid_header (f (req l)) = true -> in_name (upd f l) (p + 1).
Proof.
  intros Hl Hn (n & Hns & Hr & Hb & _) Hs Hi. exists n. cbn. rewrite Hs.
  split; [done|]. split; [lia|]. split; [by eapply bytes_sat_snoc|].
  intros Hv. cbn in Hv. congruence.
Qed.

Lemma on_start_inv p ch l :
  0 <= pos <= p -> load buf p = Some ch -> regs_ok l ->
  match on_start ngx_hash au p ch l with
  | inl x => inv (p + 1) x
  | inr e => exit_inv p e
  end.
Proof.
  intros Hp Hl Hr. unfold on_start, next. cbn zeta.
  repeat (case_match; simplify_eq); cbn; try exact Hr; try (split_and!; [lia|exact Hr|done]).
  all: split; [lia|].
  - apply first_name_char_inv with (ch := ch); try done; [lia|apply lowcase_of_name; lia|].
    unfold lc. by rewrite (proj1 (negb_true_iff _)).
  - apply first_name_char_inv with (ch := ch); try done; [lia|..];
      assert (ch = 95) as -> by lia; done.
  - split; [split; [cbn; lia|apply Hr]|]. exists p. split; [done|]. split; [lia|].
    split; [|by intros ?]. eapply bytes_sat_one; [done|]. unfold name_char. lia.
  - split; [split; [cbn; lia|apply Hr]|]. exists p. split; [done|]. split; [lia|].
    split; [|by intros ?]. eapply bytes_sat_one; [done|]. unfold name_char. lia.
Qed.

Lemma on_name_inv p ch l :
  0 <= pos <= p -> load buf p = Some ch -> regs_ok l -> in_name l p ->
  match on_name ngx_hash au up buf p ch l with
  | inl x => inv (p + 1) x
  | inr e => exit_inv p e
  end.
Proof.
  intros Hp Hl Hr Hn.
  assert (Hnext : forall c, name_char ch = true -> c = lc ch ->
    regs_ok (next_name_char ngx_hash c l) /\ in_name (next_name_char ngx_hash c l) (p + 1)).
  { intros. eapply next_name_char_inv; eauto. lia. }
  assert (Hend : has_name (upd (set_header_name_end (Some p)) l) p).
  { destruct Hn as (n & Hs & ? & ? & ?). exists n, p. cbn. split_and!; auto; lia. }
  unfold on_name, next. cbn zeta.
  repeat (case_match; simplify_eq); cbn; try exact Hr; try (split_and!; [lia|exact Hr|done]).
  all: try (split; [lia|]).
  - apply Hnext; [apply lowcase_of_name; lia|]. unfold lc. by rewrite (proj1 (negb_true_iff _)).
  - apply Hnext; assert (ch = 95) as -> by lia; done.
  - split; [exact Hr|]. eapply invalid_name_char_inv; eauto. unfold name_char. lia.
  - split; [exact Hr|]. destruct Hend as (n & e & ? & ? & ? & ? & ? & ?).
    exists n, e. split_and!; auto; lia.
  - split; [exact Hr|]. exists p, p. cbn. split_and!; auto; try lia; try exact Hend.
    apply bytes_sat_nil; lia.
  - split; [exact Hr|]. eapply invalid_name_char_inv; eauto. unfold name_char. lia.
  - split; [exact Hr|]. eapply invalid_name_char_inv; eauto. unfold name_char. lia.
  - split; [exact Hr|]. exists p, p. cbn. split_and!; auto; try lia; try exact Hend.
    apply bytes_sat_nil; lia.
Qed.

(** Regions of the value under the pointer updates. *)
Lemma in_value_snoc p ch l :
  load buf p = Some ch -> value_char ch = true -> in_value l p -> in_value l (p + 1).
Proof.
  intros Hl Hc (s & ? & ? & ? & ?). exists s. split_and!; auto; [lia|].
  by eapply bytes_sat_snoc.
Qed.

Lemma in_value_end p l : in_value l p -> has_value (upd (set_header_end (Some p)) l) p.
Proof.
  intros (s & ? & ? & ? & ?). exists s, p. cbn. split_and!; auto; lia.
Qed.

Lemma in_value_set_end p v l : in_value l p -> in_value (upd (set_header_end v) l) p.
Proof. intros (s & ? & ? & ? & ?). exists s. cbn. split_and!; auto. Qed.

Lemma has_value_mono p q l : has_value l p -> p <= q -> has_value l q.
Proof. intros (s & h & ? & ? & ? & ? & ? & ?) ?. exists s, h. split_and!; auto; lia. Qed.

Lemma has_name_mono p q l : has_name l p -> p <= q -> has_name l q.
Proof. intros (s & h & ? & ? & ? & ? & ? & ?) ?. exists s, h. split_and!; auto; lia. Qed.

Lemma on_space_before_value_inv p ch l :
  load buf p = Some ch -> pos <= p -> regs_ok l -> has_name l p ->
  match on_space_before_value p ch l with
  | inl x => inv (p + 1) x
  | inr e => exit_inv p e
  end.
Proof.
  intros Hl Hp Hr Hn. unfold on_space_before_value, next.
  repeat (case_match; simplify_eq); cbn; try exact Hr; try (split; [lia|]); (split; [exact Hr|]).
  - eapply has_name_mono; [done|lia].
  - exists p, p. cbn. split_and!; auto; try lia. by apply bytes_sat_nil.
  - exists p. cbn. split_and!; auto; try lia. eapply bytes_sat_one; [done|].
    unfold value_char. lia.
  - exists p, p. cbn. split_and!; auto; try lia. by apply bytes_sat_nil.
Qed.

Lemma on_value_inv p ch l :
  load buf p = Some ch -> pos <= p -> regs_ok l -> in_value l p ->
  match on_value p ch l with inl x => inv (p + 1) x | inr e => exit_inv p e end.
Proof.
  intros Hl Hp Hr Hn. unfold on_value, next.
  repeat (case_match; simplify_eq); cbn; try exact Hr; try (split; [lia|]);
    (split; [exact Hr|]).
  - split; [|eapply has_value_mono; [by apply in_value_end|lia]].
    apply in_value_snoc with ch; [done|unfold value_char; lia|by apply in_value_set_end].
  - eapply has_value_mono; [by apply in_value_end|lia].
  - apply in_value_snoc with ch; [done|unfold value_char; lia|done].
  - by apply in_value_end.
Qed.

Lemma on_space_after_value_inv p ch l :
  load buf p = Some ch -> pos <= p -> regs_ok l -> in_value l p -> has_value l p ->
  match on_space_after_value p ch l with inl x => inv (p + 1) x | inr e => exit_inv p e end.
Proof.
  intros Hl Hp Hr Hi Hn. unfold on_space_after_value, next.
  repeat (case_match; simplify_eq); cbn; try exact Hr; try (split; [lia|]);
    (split; [exact Hr|]); try done.
  - split; [|eapply has_value_mono; [done|lia]].
    apply in_value_snoc with ch; [done|unfold value_char; lia|done].
  - eapply has_value_mono; [done|lia].
  - apply in_value_snoc with ch; [done|unfold value_char; lia|done].
Qed.

Lemma header_step_inv p ch x :
  0 <= pos <= p -> load buf p = Some ch -> inv p x ->
  match step ngx_hash au up buf p ch x with
  | inl x => inv (p + 1) x
  | inr e => exit_inv p e
  end.
Proof.
  destruct x as [s l]. intros Hp Hl (_ & Hr & Hs). destruct s; cbn [step].
  - by apply on_start_inv.
  - by apply on_name_inv.
  - apply on_space_before_value_inv; auto; lia.
  - apply on_value_inv; auto; lia.
  - destruct Hs. apply on_space_after_value_inv; auto; lia.
  - unfold on_ignore_line, next. destruct (ch =? LF); (split; [lia|by split]).
  - unfold on_almost_done, next. repeat (case_match; simplify_eq); cbn; try done.
    split_and!; [lia|done|]. eapply has_value_mono; [done|lia].
  - unfold on_header_almost_done. by destruct (ch =? LF).
Qed.
End Accepted.

(** C3. when a header line is accepted, its name is not empty and holds no
    control character, space, DEL or ':', its value holds no CR, LF or NUL, and
    both lie in this order inside the delivered bytes; the index into
    [lowcase_header] stays within its 32 bytes; and unless the header is marked
    invalid, [header_hash] is the hash of the lower-cased name and
    [lowcase_header] holds its last 32 characters in lower case. *)
Theorem header_line_accepted ngx_hash au up buf r pos last r' p' :
  state r = 0 -> 0 <= pos -> 0 <= lowcase_index r < 32 ->
  length (lowcase_header (flds r)) = 32%nat ->
  ngx_http_parse_header_line ngx_hash au up buf r pos last = (NGX_OK, r', p') ->
  exists n e s h,
    header_name_start (flds r') = Some n /\ header_name_end (flds r') = Some e /\
    header_start (flds r') = Some s /\ header_end (flds r') = Some h /\
    (pos <= n < e /\ e <= s <= h /\ h < p' <= last) /\
    bytes_sat name_char buf n e /\ bytes_sat value_char buf s h /\
    0 <= lowcase_index r' < 32 /\ length (lowcase_header (flds r')) = 32%nat /\
    (invalid_header (flds r') = false ->
     header_hash r' = foldl ngx_hash 0 (lc <$> slice buf n e) /\
     lowcase_index r' = (e - n) mod 32 /\
     forall k c, n <= k < e -> e - 32 <= k -> load buf k = Some c ->
       lowcase_header (flds r') !! Z.to_nat ((k - n) mod 32) = Some (lc c)).
Proof.
  intros Hs Hpos Hi Hlen. unfold ngx_http_parse_header_line. rewrite Hs.
  change (sw_of_Z 0) with (Some sw_start). cbn iota.
  pose proof (run_slice_invariant (step ngx_hash au up buf) buf
    (inv ngx_hash buf pos) (exit_inv ngx_hash buf pos) pos last
    (sw_start, mkL (header_hash r) (lowcase_index r) (flds r)) Hpos) as Hinv.
  destruct (run _ _ _ _) as [[p [s' l]]|[p [l|l|c l]]] eqn:E; try done.
  2: { apply header_run_return in E as ->. done. }
  intros [= <- <-].
  assert (Hp : p < last).
  { apply run_left in E. unfold slice in E. rewrite length_take in E. lia. }
  destruct Hinv as ([Hx Hl] & s & h & ? & ? & ? & ? & (n & e & ? & ? & ? & ? & ? & ?) & ?).
  - intros. apply header_step_inv; auto; lia.
  - split_and!; done || lia.
  - exists n, e, s, h. cbn. split_and!; auto; lia.
Qed.

Definition sample_hash (h c : Z) : Z := u64 (h * 31 + c).
Definition sample_header : list Z := bytes_of_string "Host: a b" ++ [CR; LF].

Lemma header_line_accepted_witness :
  let x := ngx_http_parse_header_line sample_hash false false sample_header init_request 0 11 in
  x.1.1 = NGX_OK /\
  exists s h, header_start (flds x.1.2) = Some s /\ header_end (flds x.1.2) = Some h /\
    bytes_sat value_char sample_header s h.
Proof.
  split; [reflexivity|].
  destruct (header_line_accepted sample_hash false false sample_header init_request 0 11
    (ngx_http_parse_header_line sample_hash false false sample_header init_request 0 11).1.2 11)
    as (n & e & s & h & _ & _ & Hs & Hh & _ & _ & Hv & _);
    [reflexivity | lia | cbn; lia | reflexivity | vm_compute; reflexivity |].
  by exists s, h.
Defined.

(** delivering header lines in any increasing sequence of pieces gives the
    result that parsing all of the bytes at once gives. *)
Theorem header_line_delivery ngx_hash au up buf r pos lasts last :
  0 <= pos <= last -> last <= Z.of_nat (length buf) ->
  (forall l, l ∈ lasts -> pos <= l <= last) -> Sorted Z.le lasts ->
  observe norm (deliver (ngx_http_parse_header_line ngx_hash au up buf) r pos (lasts ++ [last])) =
  observe norm (ngx_http_parse_header_line ngx_hash au up buf r pos last).
Proof. intros [? ?] ? ? ?. by apply (deliver_once (Z.of_nat (length buf)) (fun _ => True)); try apply _. Qed.

Lemma header_line_delivery_witness :
  observe norm (deliver (ngx_http_parse_header_line sample_hash false false sample_header)
                        init_request 0 ([3; 6] ++ [11])) =
  observe norm (ngx_http_parse_header_line sample_hash false false sample_header init_request 0 11).
Proof.
  apply header_line_delivery; [lia | by vm_compute | | repeat constructor; lia].
  intros l Hl. set_unfold in Hl. lia.
Defined.

End HeaderLine.
