(* ===== verification/NgxUri.v ===== *)
(** [ngx_http_parse_uri]
    (src/http1-1/src/upstream/src/http/ngx_http_parse.c, lines 1096-1244), not
    on NGX_WIN32: the check of a URI found by other means than a request
    line. *)

From S2P Require Import NgxBase NgxRequestLine.
Open Scope Z_scope.

Module ParseUri.

Inductive sw := sw_start | sw_after_slash_in_uri | sw_check_uri | sw_uri.

Abbreviation outcome := ((sw * fields) + (rc * fields))%type.

Definition next (s : sw) (r : fields) : outcome := inl (s, r).
Definition error (r : fields) : outcome := inr (NGX_ERROR, r).

Definition is_ctl_or_space (ch : Z) : bool := (ch <=? 0x20) || (ch =? 0x7f).

Definition on_start (ch : Z) (r : fields) : outcome :=
  if negb (ch =? #"/") then error r else next sw_after_slash_in_uri r.

Definition on_after_slash_in_uri (p ch : Z) (r : fields) : outcome :=
  if is_usual ch then next sw_check_uri r
  else if ch =? #"." then next sw_uri (r |> set_complex_uri)
  else if ch =? #"%" then next sw_uri (r |> set_quoted_uri)
  else if ch =? #"/" then next sw_uri (r |> set_complex_uri)
  else if ch =? #"?" then next sw_uri (r |> set_args_start (Some (p + 1)))
  else if ch =? #"#" then next sw_uri (r |> set_complex_uri)
  else if ch =? #"+" then next sw_after_slash_in_uri (r |> set_plus_in_uri)
  else if is_ctl_or_space ch then error r
  else next sw_check_uri r.

Definition on_check_uri (p ch : Z) (r : fields) : outcome :=
  if is_usual ch then next sw_check_uri r
  else if ch =? #"/" then next sw_after_slash_in_uri (r |> set_uri_ext None)
  else if ch =? #"." then next sw_check_uri (r |> set_uri_ext (Some (p + 1)))
  else if ch =? #"%" then next sw_uri (r |> set_quoted_uri)
  else if ch =? #"?" then next sw_uri (r |> set_args_start (Some (p + 1)))
  else if ch =? #"#" then next sw_uri (r |> set_complex_uri)
  else if ch =? #"+" then next sw_check_uri (r |> set_plus_in_uri)
  else if is_ctl_or_space ch then error r
  else next sw_check_uri r.

Definition on_uri (ch : Z) (r : fields) : outcome :=
  if is_usual ch then next sw_uri r
  else if ch =? #"#" then next sw_uri (r |> set_complex_uri)
  else if is_ctl_or_space ch then error r
  else next sw_uri r.

Definition step (p ch : Z) (x : sw * fields) : outcome :=
  let '(s, r) := x in
  match s with
  | sw_start => on_start ch r
  | sw_after_slash_in_uri => on_after_slash_in_uri p ch r
  | sw_check_uri => on_check_uri p ch r
  | sw_uri => on_uri ch r
  end.

(** [for (p = r->uri_start; p != r->uri_end; p++)]; [None] when the pointers
    do not delimit a region of the buffer. *)
Definition ngx_http_parse_uri (buf : list Z) (r : fields) : option (rc * fields) :=
  match uri_start r, uri_end r with
  | Some u, Some v =>
      if (0 <=? u) && (u <=? v) && (v <=? Z.of_nat (length buf)) then
        match run step u (slice buf u v) (sw_start, r) with
        | inl (_, (_, r')) => Some (NGX_OK, r')
        | inr (_, res) => Some res
        end
      else None
  | _, _ => None
  end.

(** ** Agreement with the request line parser *)

Definition to_rl (s : sw) : RequestLine.sw :=
  match s with
  | sw_start => RequestLine.sw_start
  | sw_after_slash_in_uri => RequestLine.sw_after_slash_in_uri
  | sw_check_uri => RequestLine.sw_check_uri
  | sw_uri => RequestLine.sw_uri
  end.

(** On a byte that does not end the URI of a request line, both machines make
    the same step. *)
Lemma step_agrees buf p ch s r :
  s <> sw_start -> ch <> #" " ->
  match step p ch (s, r) with
  | inl (s', r') => RequestLine.step buf p ch (to_rl s, r) = inl (to_rl s', r') /\ s' <> sw_start
  | inr (c, r') => c = NGX_ERROR /\
      forall s' r'', RequestLine.step buf p ch (to_rl s, r) = inl (s', r'') ->
        s' = RequestLine.sw_almost_done
  end.
Proof.
  intros Hs Hch. destruct s; try done; cbn [step to_rl RequestLine.step].
  all: unfold on_after_slash_in_uri, on_check_uri, on_uri, next, error.
  all: unfold RequestLine.on_after_slash_in_uri, RequestLine.on_check_uri,
    RequestLine.on_uri, RequestLine.next, RequestLine.done, RequestLine.fail,
    RequestLine.is_ctl, is_ctl_or_space.
  all: repeat (case_match; simplify_eq/=; try done; try lia).
  all: split; [done|]; intros ? ? Heq; by simplify_eq.
Qed.

(** After [sw_almost_done] the loop is left at the next byte. *)
Lemma almost_done_leaves buf p ch r :
  exists e, RequestLine.step buf p ch (RequestLine.sw_almost_done, r) = inr e.
Proof.
  cbn. unfold RequestLine.on_almost_done, RequestLine.done, RequestLine.fail.
  destruct (ch =? LF); by eexists.
Qed.

Lemma run_agrees buf p bs s r p' f' :
  s <> sw_start -> Forall (fun ch => ch <> #" ") bs ->
  run (RequestLine.step buf) p (bs ++ [#" "]) (to_rl s, r) =
    inl (p', (RequestLine.sw_http_09, f')) <->
  p' = p + Z.of_nat (length bs) + 1 /\
  exists s' r', run step p bs (s, r) = inl (p + Z.of_nat (length bs), (s', r')) /\
    f' = set_uri_end (Some (p + Z.of_nat (length bs))) r'.
Proof.
  intros Hs Hbs. revert p s r Hs. induction Hbs as [|ch bs Hch Hbs IH]; intros p s r Hs.
  - cbn [app run length]. rewrite !Z.add_0_r. destruct s; try done; cbn.
    all: split; [intros [= <- <-]; eauto|intros (-> & ? & ? & [= <- <-] & ->); done].
  - cbn [app run]. pose proof (step_agrees buf p ch s r Hs Hch) as Hst.
    destruct (step p ch (s, r)) as [[s1 r1]|[c r1]].
    + destruct Hst as [-> Hs1]. rewrite IH by done. cbn [length].
      replace (p + 1 + Z.of_nat (length bs)) with (p + Z.of_nat (S (length bs))) by lia.
      done.
    + destruct Hst as [-> Hst]. split; [|by intros (_ & ? & ? & ? & _)].
      destruct (RequestLine.step buf p ch (to_rl s, r)) as [[s2 r2]|e] eqn:E; [|done].
      rewrite (Hst s2 r2 eq_refl). destruct (bs ++ [#" "]) as [|c cs] eqn:Eb.
      { by apply app_nil in Eb as [_ ?]. }
      cbn [run]. destruct (almost_done_leaves buf (p + 1) c r2) as [e ->]. done.
Qed.

Ltac unfold_step :=
  unfold step, on_start, on_after_slash_in_uri, on_check_uri, on_uri, next, error in *.

(** The loop does not touch [uri_end]. *)
Lemma run_uri_end p bs s f p' s' f' :
  run step p bs (s, f) = inl (p', (s', f')) -> uri_end f' = uri_end f.
Proof.
  revert p s f. induction bs as [|c bs IH]; intros p s f; cbn [run].
  - by intros [= _ _ <-].
  - destruct (step p c (s, f)) as [[s1 f1]|] eqn:E; [|done]. intros ->%IH.
    destruct s; unfold_step; repeat (case_match; simplify_eq/=; try done).
Qed.

(** Leaving the loop is an error. *)
Lemma run_error p bs x p' c f :
  run step p bs x = inr (p', (c, f)) -> c = NGX_ERROR.
Proof.
  intros (ch & [s f'] & _ & E)%run_left_step.
  destruct s; unfold_step; repeat (case_match; simplify_eq/=); done.
Qed.

(** on a region that starts with '/' and is followed by a space,
    ngx_http_parse_uri accepts exactly the URIs that the request line parser
    reads up to the space, and leaves the same flags, extension and argument
    pointers. *)
Theorem parse_uri_agrees buf r u v f' :
  uri_start r = Some u -> uri_end r = Some v -> 0 <= u < v ->
  load buf u = Some #"/" -> load buf v = Some #" " ->
  Forall (fun ch => ch <> #" ") (slice buf u v) ->
  ngx_http_parse_uri buf r = Some (NGX_OK, f') <->
  run (RequestLine.step buf) (u + 1) (slice buf (u + 1) (v + 1))
    (RequestLine.sw_after_slash_in_uri, r) = inl (v + 1, (RequestLine.sw_http_09, f')).
Proof.
  intros Hu Hv Huv Hlu Hlv Hsp.
  pose proof (load_in_bounds _ _ _ Hlv) as Hb.
  rewrite (slice_snoc buf (u + 1) v #" ") by (done || lia).
  rewrite (slice_split buf u (u + 1) v) in Hsp by lia.
  apply Forall_app in Hsp as [_ Hsp].
  rewrite (run_agrees buf (u + 1) _ sw_after_slash_in_uri) by done.
  rewrite (slice_length buf (u + 1) v) by lia.
  replace (u + 1 + (v - (u + 1))) with v by lia.
  unfold ngx_http_parse_uri. rewrite Hu, Hv.
  destruct ((0 <=? u) && (u <=? v) && (v <=? Z.of_nat (length buf))) eqn:Eg; [|lia].
  rewrite (slice_split buf u (u + 1) v) by lia.
  rewrite (slice_snoc buf u u #"/"), (slice_nil buf u u) by (done || lia).
  cbn [app run step on_start Z.eqb Pos.eqb negb next].
  destruct (run step (u + 1) _ _) as [[p [s1 r1]]|[p [c r1]]] eqn:E.
  - pose proof (run_exhausted _ _ _ _ _ _ E) as Hp. rewrite (slice_length buf (u+1) v) in Hp by lia.
    apply run_uri_end in E. rewrite Hv in E.
    assert (Hid : set_uri_end (Some v) r1 = r1) by (destruct r1; cbn in *; by subst).
    split.
    + intros [= <-]. split; [lia|]. exists s1, r1. rewrite Hid. split; [|done].
      do 2 f_equal. lia.
    + intros (_ & s' & r' & [= _ _ <-] & ->). by rewrite Hid.
  - split; [|by intros (_ & ? & ? & ? & _)].
    apply run_error in E as ->. by intros [= ? _].
Qed.

Definition sample_uri : list Z := bytes_of_string "/a.b/c?d ".
Definition sample_uri_fields : fields :=
  set_uri_start (Some 0) (set_uri_end (Some 8) init_fields).

Lemma parse_uri_agrees_witness :
  exists f', ngx_http_parse_uri sample_uri sample_uri_fields = Some (NGX_OK, f') /\
  run (RequestLine.step sample_uri) 1 (slice sample_uri 1 9)
    (RequestLine.sw_after_slash_in_uri, sample_uri_fields) =
    inl (9, (RequestLine.sw_http_09, f')).
Proof.
  destruct (ngx_http_parse_uri sample_uri sample_uri_fields) as [[[] f']|] eqn:E;
    try (vm_compute in E; done).
  exists f'. split; [done|].
  apply (parse_uri_agrees sample_uri sample_uri_fields 0 8 f');
    [done | done | lia | done | done | repeat constructor; done | exact E].
Defined.

End ParseUri.
