(* ===== verification/NgxComplexUri.v ===== *)
(** [ngx_http_parse_complex_uri]
    (src/http1-1/src/upstream/src/http/ngx_http_parse.c, lines 1247-1620), not
    on NGX_WIN32: percent-decoding and normalisation of the path into the
    buffer [r->uri.data].

    [buf] is the receive buffer, [uri_start]/[uri_end] delimit the URI in it;
    [out] is the memory at [r->uri.data], [u] the offset of the next byte
    written.  Every access outside of [buf] or [out] is the explicit result
    [Fault]. *)

From S2P Require Import NgxBase.
Open Scope Z_scope.

Module ComplexUri.

Inductive sw := sw_usual | sw_slash | sw_dot | sw_dot_dot | sw_quoted | sw_quoted_second.

#[export] Instance sw_eq_dec : EqDecision sw.
Proof. solve_decision. Defined.

(** The locals of the function and the request fields it sets. *)
Record cst := mkC {
  st : sw;
  quoted_state : sw;
  decoded : Z;
  ch : Z;            (* the current character *)
  p : Z;             (* the next one, in [buf] *)
  u : Z;             (* the next one written, in [out] *)
  out : list Z;
  ext : ptr;         (* r->uri_ext, in [out] *)
  args : ptr;        (* r->args_start, in [buf] *)
  quoted : bool;     (* r->quoted_uri *)
  plus : bool        (* r->plus_in_uri *)
}.

Ltac cst_field proj v s :=
  set_field (fun s : cst => mkC (st s) (quoted_state s) (decoded s) (ch s) (p s) (u s)
    (out s) (ext s) (args s) (quoted s) (plus s)) proj v s.

Definition set_st (v : sw) (s : cst) : cst := ltac:(cst_field st v s).
Definition set_quoted_state (v : sw) (s : cst) : cst := ltac:(cst_field quoted_state v s).
Definition set_decoded (v : Z) (s : cst) : cst := ltac:(cst_field decoded v s).
Definition set_ch (v : Z) (s : cst) : cst := ltac:(cst_field ch v s).
Definition set_p (v : Z) (s : cst) : cst := ltac:(cst_field p v s).
Definition set_u (v : Z) (s : cst) : cst := ltac:(cst_field u v s).
Definition set_out (v : list Z) (s : cst) : cst := ltac:(cst_field out v s).
Definition set_ext (v : ptr) (s : cst) : cst := ltac:(cst_field ext v s).
Definition set_args (v : ptr) (s : cst) : cst := ltac:(cst_field args v s).
Definition set_quoted (v : bool) (s : cst) : cst := ltac:(cst_field quoted v s).
Definition set_plus (v : bool) (s : cst) : cst := ltac:(cst_field plus v s).

(** How an iteration leaves the loop. *)
Inductive exit :=
  | goto_done (s : cst)
  | goto_args (s : cst)
  | return_ (c : rc)
  | fault.

Abbreviation outcome := (cst + exit)%type.

(** Sequencing of the statements of an iteration. *)
Definition bind (x : outcome) (k : cst -> outcome) : outcome :=
  match x with inl s => k s | inr e => inr e end.
Notation "s <- x ;; k" := (bind x (fun s => k)) (at level 100, x at next level, right associativity).

(** [*u++ = c] *)
Definition put (c : Z) (s : cst) : outcome :=
  match store (out s) (u s) c with
  | Some o => inl (s |> set_out o |> set_u (u s + 1))
  | None => inr fault
  end.

(** The search for the '/' before [..]: [n] is [u + 1]. *)
Inductive back := found (u : Z) | below | outside.

Fixpoint back_to_slash (o : list Z) (n : nat) : back :=
  match n with
  | O => below                                   (* u < r->uri.data *)
  | S n' =>
      match o !! n' with
      | Some c => if c =? #"/" then found (Z.of_nat n' + 1) else back_to_slash o n'
      | None => outside
      end
  end.

(** [u -= 4; for ( ;; ) { ... }] *)
Definition up_one (s : cst) : outcome :=
  match back_to_slash (out s) (Z.to_nat (u s - 4 + 1)) with
  | found u' => inl (s |> set_u u')
  | below => inr (return_ NGX_HTTP_PARSE_INVALID_REQUEST)
  | outside => inr fault
  end.

Section Loop.
Variable buf : list Z.
Variable merge_slashes : bool.

(** [ch = *p++] *)
Definition get (s : cst) : outcome :=
  match load buf (p s) with
  | Some c => inl (s |> set_ch c |> set_p (p s + 1))
  | None => inr fault
  end.

(** [*u++ = ch; ch = *p++] in state [x]. *)
Definition copy (x : sw) (s : cst) : outcome :=
  s1 <- put (ch s) (s |> set_st x) ;; get s1.

(** [quoted_state = state; state = sw_quoted; ch = *p++] *)
Definition start_quoted (s : cst) : outcome :=
  get (s |> set_quoted_state (st s) |> set_st sw_quoted).

Definition on_usual (s : cst) : outcome :=
  if is_usual (ch s) then copy (st s) s
  else if ch s =? #"/" then copy sw_slash (s |> set_ext None)
  else if ch s =? #"%" then start_quoted s
  else if ch s =? #"?" then inr (goto_args (s |> set_args (Some (p s))))
  else if ch s =? #"#" then inr (goto_done s)
  else if ch s =? #"." then copy (st s) (s |> set_ext (Some (u s + 1)))
  else if ch s =? #"+" then copy (st s) (s |> set_plus true)
  else copy (st s) s.

Definition on_slash (s : cst) : outcome :=
  if is_usual (ch s) then copy sw_usual s
  else if ch s =? #"/" then if merge_slashes then get s else copy (st s) s
  else if ch s =? #"." then copy sw_dot s
  else if ch s =? #"%" then start_quoted s
  else if ch s =? #"?" then inr (goto_args (s |> set_args (Some (p s))))
  else if ch s =? #"#" then inr (goto_done s)
  else if ch s =? #"+" then copy sw_usual (s |> set_plus true)
  else copy sw_usual s.

Definition on_dot (s : cst) : outcome :=
  if is_usual (ch s) then copy sw_usual s
  else if ch s =? #"/" then get (s |> set_st sw_slash |> set_u (u s - 1))
  else if ch s =? #"." then copy sw_dot_dot s
  else if ch s =? #"%" then start_quoted s
  else if ch s =? #"?" then
    inr (goto_args (s |> set_u (u s - 1) |> set_args (Some (p s))))
  else if ch s =? #"#" then inr (goto_done (s |> set_u (u s - 1)))
  else if ch s =? #"+" then copy sw_usual (s |> set_plus true)
  else copy sw_usual s.

Definition on_dot_dot (s : cst) : outcome :=
  if is_usual (ch s) then copy sw_usual s
  else if (ch s =? #"/") || (ch s =? #"?") || (ch s =? #"#") then
    s1 <- up_one s ;;
    if ch s1 =? #"?" then inr (goto_args (s1 |> set_args (Some (p s1))))
    else if ch s1 =? #"#" then inr (goto_done s1)
    else get (s1 |> set_st sw_slash)
  else if ch s =? #"%" then start_quoted s
  else if ch s =? #"+" then copy sw_usual (s |> set_plus true)
  else copy sw_usual s.

Definition on_quoted (s : cst) : outcome :=
  let s := s |> set_quoted true in
  let c := Z.lor (ch s) 0x20 in
  if (#"0" <=? ch s) && (ch s <=? #"9") then
    get (s |> set_decoded (ch s - #"0") |> set_st sw_quoted_second)
  else if (#"a" <=? c) && (c <=? #"f") then
    get (s |> set_decoded (c - #"a" + 10) |> set_st sw_quoted_second)
  else inr (return_ NGX_HTTP_PARSE_INVALID_REQUEST).

Definition on_quoted_second (s : cst) : outcome :=
  let c := Z.lor (ch s) 0x20 in
  if (#"0" <=? ch s) && (ch s <=? #"9") then
    let s := s |> set_ch (u8 (Z.shiftl (decoded s) 4 + (ch s - #"0"))) in
    if (ch s =? #"%") || (ch s =? #"#") then copy sw_usual s
    else if ch s =? 0 then inr (return_ NGX_HTTP_PARSE_INVALID_REQUEST)
    else inl (s |> set_st (quoted_state s))
  else if (#"a" <=? c) && (c <=? #"f") then
    let s := s |> set_ch (u8 (Z.shiftl (decoded s) 4 + (c - #"a") + 10)) in
    if ch s =? #"?" then copy sw_usual s
    else
      let s := if ch s =? #"+" then s |> set_plus true else s in
      inl (s |> set_st (quoted_state s))
  else inr (return_ NGX_HTTP_PARSE_INVALID_REQUEST).

(** [switch (state)] *)
Definition step (s : cst) : outcome :=
  match st s with
  | sw_usual => on_usual s
  | sw_slash => on_slash s
  | sw_dot => on_dot s
  | sw_dot_dot => on_dot_dot s
  | sw_quoted => on_quoted s
  | sw_quoted_second => on_quoted_second s
  end.

(** [while (p <= r->uri_end)], with fuel; [None] when it runs out. *)
Fixpoint loop (fuel : nat) (uri_end : Z) (s : cst) : option outcome :=
  match fuel with
  | O => None
  | S fuel' =>
      if p s <=? uri_end then
        match step s with
        | inl s' => loop fuel' uri_end s'
        | inr e => Some (inr e)
        end
      else Some (inl s)
  end.

(** The code between the loop and the label [done]. *)
Definition after_loop (s : cst) : outcome :=
  match st s with
  | sw_quoted | sw_quoted_second => inr (return_ NGX_HTTP_PARSE_INVALID_REQUEST)
  | sw_dot => inl (s |> set_u (u s - 1))
  | sw_dot_dot => up_one s
  | _ => inl s
  end.

(** What the function leaves in the request. *)
Record result := mkRes {
  uri_len : Z;              (* r->uri.len *)
  uri_mem : list Z;         (* the memory at r->uri.data *)
  exten : option ngx_str;   (* r->exten, when it is set *)
  args_str : option ngx_str; (* r->args, when it is set *)
  args_start_ : ptr;
  quoted_uri_ : bool;
  plus_in_uri_ : bool
}.

Definition at_done (s : cst) (a : option ngx_str) (start : ptr) : result :=
  mkRes (u s) (out s)
    (match ext s with Some e => Some (mkStr (u s - e) (Some e)) | None => None end)
    a start (quoted s) (plus s).

(** [while (p < r->uri_end) { ... *p++ ... }]: the offset
    of the first '#', if any. *)
Fixpoint find_fragment (p : Z) (bs : list Z) : option Z :=
  match bs with
  | [] => None
  | c :: bs' => if c =? #"#" then Some p else find_fragment (p + 1) bs'
  end.

(** The code at the label [args]. *)
Definition at_args (uri_end : Z) (s : cst) : result :=
  match args s, find_fragment (p s) (slice buf (p s) uri_end) with
  | Some a, Some f => at_done s (Some (mkStr (f - a) (Some a))) None
  | _, _ => at_done s None (args s)
  end.

Inductive ures :=
  | Returns (c : rc) (r : option result)
  | Fault
  | Out_of_fuel.

Definition of_exit (uri_end : Z) (e : exit) : ures :=
  match e with
  | goto_done s => Returns NGX_OK (Some (at_done s None (args s)))
  | goto_args s => Returns NGX_OK (Some (at_args uri_end s))
  | return_ c => Returns c None
  | fault => Fault
  end.

(** [ngx_http_parse_complex_uri]; [mem] is the memory at [r->uri.data]. *)
Definition ngx_http_parse_complex_uri (fuel : nat) (r : fields) (us ue : Z)
    (mem : list Z) : ures :=
  let s := mkC sw_usual sw_usual 0 0 us 0 mem None None (quoted_uri r) (plus_in_uri r) in
  match (s1 <- (if empty_path_in_uri r then put #"/" s else inl s) ;; get s1) with
  | inr e => of_exit ue e
  | inl s =>
      match loop fuel ue s with
      | None => Out_of_fuel
      | Some (inr e) => of_exit ue e
      | Some (inl s) =>
          match after_loop s with
          | inl s => of_exit ue (goto_done s)
          | inr e => of_exit ue e
          end
      end
  end.
End Loop.

(** ** Memory safety and termination

    [n] is the number of bytes of the path: the caller allocates
    [args_start - 1 - uri_start] or [uri_end - uri_start] bytes for
    [r->uri.data], and one more when the URI has an empty path. *)

Lemma load_some m i : 0 <= i < Z.of_nat (length m) -> exists c, load m i = Some c.
Proof.
  intros Hi. unfold load. destruct (i <? 0) eqn:E; [lia|].
  apply lookup_lt_is_Some_2. lia.
Qed.

Lemma store_some m i v :
  0 <= i < Z.of_nat (length m) -> store m i v = Some (<[Z.to_nat i := v]> m).
Proof. intros Hi. unfold store. destruct (_ || _) eqn:E; [lia|done]. Qed.

Lemma back_to_slash_spec o m :
  (m <= length o)%nat ->
  match back_to_slash o m with
  | found u => 0 < u <= Z.of_nat m
  | below => True
  | outside => False
  end.
Proof.
  induction m as [|m IH]; intros Hm; cbn; [done|].
  destruct (lookup_lt_is_Some_2 o m) as [c ->]; [lia|].
  destruct (c =? 47); [lia|]. specialize (IH ltac:(lia)). by destruct (back_to_slash o m); try lia.
Qed.

Lemma find_fragment_spec p bs f :
  find_fragment p bs = Some f -> p <= f < p + Z.of_nat (length bs).
Proof.
  revert p. induction bs as [|c bs IH]; intros p; cbn; [done|].
  case_match; [intros [= <-]; lia|]. intros ?%IH. lia.
Qed.

Section Safety.
Variable buf : list Z.
Variable merge_slashes : bool.
Variables us ue n e : Z.

Hypothesis Hus : 0 <= us.
Hypothesis Hn : 0 <= n.
Hypothesis He : 0 <= e <= 1.
Hypothesis Hne : us + n <= ue.
Hypothesis Hue : ue < Z.of_nat (length buf).
Hypothesis Hstop : us + n = ue \/ load buf (us + n) = Some #"?".

Definition core (x : sw) : Prop :=
  match x with sw_quoted | sw_quoted_second => False | _ => True end.

(** The state the text written so far is in. *)
Definition text_state (s : cst) : sw :=
  match st s with sw_quoted | sw_quoted_second => quoted_state s | x => x end.

(** The bytes a state knows to be written: "/", "/." and "/..". *)
Definition need (x : sw) : Z :=
  match x with sw_slash => 1 | sw_dot => 2 | sw_dot_dot => 3 | _ => 0 end.

(** The last byte read is in the path, or it is the '?' after it. *)
Definition in_path (s : cst) : Prop :=
  p s - 1 < us + n \/ p s - 1 = us + n /\ (p s <= ue -> ch s = #"?").

Record inv (s : cst) : Prop := {
  inv_out : Z.of_nat (length (out s)) = n + e;
  inv_p : us < p s;
  inv_in : in_path s;
  inv_u : 0 <= u s <= p s - 1 - us + e;
  inv_core : core (text_state s);
  inv_need : need (text_state s) <= u s;
  inv_ext : forall x, ext s = Some x -> text_state s = sw_usual /\ 0 < x <= u s;
  inv_dec : st s = sw_quoted_second -> 0 <= decoded s < 16
}.

(** What holds when the loop is left. *)
Definition left_ok (s : cst) : Prop :=
  Z.of_nat (length (out s)) = n + e /\ 0 <= u s <= n + e /\
  (forall x, ext s = Some x -> 0 < x <= u s) /\
  (forall a, args s = Some a -> us < a <= ue /\ a = p s).

Definition exit_ok (x : exit) : Prop :=
  match x with
  | goto_done s => left_ok s
  | goto_args s => left_ok s
  | return_ c => c = NGX_HTTP_PARSE_INVALID_REQUEST
  | fault => False
  end.

(** The measure of the loop. *)
Definition measure (s : cst) : Z :=
  2 * (ue + 1 - p s) + (if decide (st s = sw_quoted_second) then 1 else 0).

(** An iteration keeps the invariant and decreases the measure, or leaves the
    loop properly. *)
Definition good (s : cst) (x : outcome) : Prop :=
  match x with
  | inl s' => inv s' /\ args s' = None /\ measure s' < measure s
  | inr e => exit_ok e
  end.

(** Reading the next byte from a state whose byte was consumed. *)
Lemma get_good s0 s :
  p s0 = p s -> p s - 1 < us + n -> args s = None -> us < p s ->
  Z.of_nat (length (out s)) = n + e -> 0 <= u s <= p s - us + e ->
  core (text_state s) -> need (text_state s) <= u s ->
  (forall x, ext s = Some x -> text_state s = sw_usual /\ 0 < x <= u s) ->
  (st s = sw_quoted_second -> 0 <= decoded s < 16) ->
  good s0 (get buf s).
Proof.
  intros Hp0 Hp Ha Hlt Ho Hu Hc Hd Hx Hdec. unfold get.
  destruct (load_some buf (p s)) as [c Hc']; [lia|]. rewrite Hc'. cbn.
  split; [constructor|split; [done|]]; cbn; auto; try lia.
  - unfold in_path. cbn. destruct (decide (p s = us + n)) as [Heq|]; [right|left; lia].
    split; [lia|]. intros ?. destruct Hstop as [?|Hq]; [lia|]. rewrite Heq in Hc'. congruence.
  - unfold measure. cbn. case_decide; case_decide; lia.
Qed.
Definition cur (s : cst) : Prop := p s - 1 < us + n.

Lemma put_spec c s :
  0 <= u s < Z.of_nat (length (out s)) ->
  put c s = inl (s |> set_out (<[Z.to_nat (u s) := c]> (out s)) |> set_u (u s + 1)).
Proof. intros H. unfold put. by rewrite store_some. Qed.

Lemma copy_good s0 x s :
  p s0 = p s -> cur s -> args s = None -> us < p s ->
  Z.of_nat (length (out s)) = n + e -> 0 <= u s <= p s - 1 - us + e -> core x ->
  need x <= u s + 1 ->
  (forall y, ext s = Some y -> x = sw_usual /\ 0 < y <= u s + 1) ->
  good s0 (copy buf x s).
Proof.
  unfold cur. intros Hp Hc Ha Hlt Ho Hu Hx Hdd He'. unfold copy. rewrite put_spec by (cbn; lia).
  cbn [bind]. destruct s as [st0 q d c p0 u0 o ex ar qu pl]. cbn in *.
  assert (Hqs : x <> sw_quoted_second) by (by intros ->).
  assert (Ht : forall s1, st s1 = x -> text_state s1 = x)
    by (intros s1 Hs1; unfold text_state; rewrite Hs1; by destruct x).
  apply get_good; cbn; rewrite ?Ht by done; auto; try lia.
  - by rewrite length_insert.
  - by intros ->.
Qed.

Lemma start_quoted_good s :
  inv s -> args s = None -> cur s -> core (st s) -> good s (start_quoted buf s).
Proof.
  intros [] Ha Hc Hcore. unfold start_quoted, cur in *.
  assert (Ht : text_state s = st s) by (unfold text_state in *; by destruct (st s)).
  rewrite Ht in *.
  apply get_good; cbn; auto; try done; try lia.
Qed.

Lemma up_one_spec s :
  Z.of_nat (length (out s)) = n + e -> 3 <= u s <= n + e ->
  (exists v, up_one s = inl (s |> set_u v) /\ 0 < v <= u s - 3) \/
  up_one s = inr (return_ NGX_HTTP_PARSE_INVALID_REQUEST).
Proof.
  intros Ho Hu. unfold up_one.
  pose proof (back_to_slash_spec (out s) (Z.to_nat (u s - 4 + 1)) ltac:(lia)) as Hb.
  destruct (back_to_slash _ _) as [v| |]; [left|by right|done].
  exists v. split; [done|lia].
Qed.

Lemma left_ok_intro s :
  inv s -> args s = None -> p s <= ue + 1 -> left_ok s.
Proof.
  intros [] Ha Hp. unfold left_ok, in_path in *. rewrite Ha. repeat split; try done; try lia.
  all: edestruct inv_ext0; eauto; lia.
Qed.
(** A decoded byte is never a raw '?': the next byte is read, or the state
    looks at it again with the bytes before [p] in the path. *)
Lemma cur_intro s : inv s -> p s <= ue -> ch s <> #"?" -> cur s.
Proof. intros [] Hp Hc. unfold in_path, cur in *. destruct inv_in0 as [|[]]; [done|]. tauto. Qed.

(** Closes what an [ext] pointer has to satisfy. *)
Ltac use_ext :=
  intros;
  match goal with
  | H : forall x, ext ?s = Some x -> _, H' : ext ?s = Some ?y |- _ => destruct (H y H')
  | _ => idtac
  end; simplify_eq; try (split; [congruence|lia]); try lia.

Ltac copy_case := apply copy_good; cbn; unfold cur in *; cbn; auto; try done; try lia; use_ext.

Ltac left_case :=
  cbn; unfold left_ok; cbn;
  refine (conj _ (conj _ (conj _ _))); try done; try lia; use_ext.

Ltac get_case :=
  apply get_good; unfold text_state, cur in *; cbn;
  repeat match goal with H : st ?s = _ |- context [st ?s] => rewrite H end;
  cbn; auto; try done; try lia; use_ext.

(** The cases of a [switch (ch)] from an invariant state. *)
Ltac switch_ch Hi Ha Hp Hst :=
  pose proof (cur_intro _ Hi Hp) as Hcur;
  pose proof Hi as [];
  match type of Hst with
  | st ?s = ?x =>
      assert (Ht : text_state s = x) by (unfold text_state; by rewrite Hst);
      rewrite Ht in *; cbn [need core] in *;
      assert (Husual : is_usual (ch s) = true -> cur s)
        by (intros E; apply Hcur; intros Hq; by rewrite Hq in E);
      assert (p s - 1 <= us + n) by (unfold in_path in *; lia)
  end;
  repeat (case_match; [|]); rewrite ?Hst;
  try solve [by cbn]; try solve [copy_case]; try solve [left_case]; try solve [get_case];
  try solve [apply start_quoted_good; auto; [apply Hcur; lia | by rewrite Hst]].

Lemma on_usual_good s :
  inv s -> args s = None -> p s <= ue -> st s = sw_usual -> good s (on_usual buf s).
Proof. intros Hi Ha Hp Hst. unfold on_usual. switch_ch Hi Ha Hp Hst. Qed.

Lemma on_slash_good s :
  inv s -> args s = None -> p s <= ue -> st s = sw_slash ->
  good s (on_slash buf merge_slashes s).
Proof. intros Hi Ha Hp Hst. unfold on_slash. switch_ch Hi Ha Hp Hst. Qed.

Lemma on_dot_good s :
  inv s -> args s = None -> p s <= ue -> st s = sw_dot -> good s (on_dot buf s).
Proof. intros Hi Ha Hp Hst. unfold on_dot. switch_ch Hi Ha Hp Hst. Qed.

Lemma on_dot_dot_good s :
  inv s -> args s = None -> p s <= ue -> st s = sw_dot_dot -> good s (on_dot_dot buf s).
Proof.
  intros Hi Ha Hp Hst. unfold on_dot_dot.
  assert (3 <= u s <= n + e).
  { pose proof Hi as []. unfold in_path, text_state in *. rewrite Hst in *. cbn in *. lia. }
  destruct (up_one_spec s) as [(v & Hv & Hv')|Hv]; [apply Hi|done| |];
    rewrite Hv; cbn; switch_ch Hi Ha Hp Hst.
Qed.

Lemma hex_lor c : (97 <=? Z.lor c 0x20) && (Z.lor c 0x20 <=? 102) = true ->
  10 <= Z.lor c 0x20 - 97 + 10 < 16 /\ c <> 63.
Proof. intros H. split; [lia|]. by intros ->. Qed.

Lemma on_quoted_good s :
  inv s -> args s = None -> p s <= ue -> st s = sw_quoted -> good s (on_quoted buf s).
Proof.
  intros Hi Ha Hp Hst. unfold on_quoted. pose proof (cur_intro _ Hi Hp) as Hcur.
  pose proof Hi as []. unfold cur, text_state in *. rewrite Hst in *.
  change (ch (s |> set_quoted true)) with (ch s).
  destruct ((48 <=? ch s) && (ch s <=? 57)) eqn:E1; [get_case|].
  destruct ((97 <=? _) && _) eqn:E2; [apply hex_lor in E2; get_case | done].
Qed.

Lemma on_quoted_second_good s :
  inv s -> args s = None -> p s <= ue -> st s = sw_quoted_second ->
  good s (on_quoted_second buf s).
Proof.
  intros Hi Ha Hp Hst. unfold on_quoted_second. pose proof (cur_intro _ Hi Hp) as Hcur.
  pose proof Hi as []. unfold text_state in *. rewrite Hst in *.
  assert (Hret : forall c b, ch s <> #"?" ->
    good s (inl (set_st (quoted_state s) (set_plus b (set_ch c s))))).
  { intros c b Hq. unfold cur in Hcur. cbn. split; [constructor; unfold text_state, in_path; cbn; auto|].
    all: try (destruct (quoted_state s); done); try lia.
split; [done|]. unfold measure. cbn. rewrite Hst.
    rewrite (decide_False (P := quoted_state s = sw_quoted_second))
      by (by intros Hqs; rewrite Hqs in *).
    rewrite decide_True by done. lia. }
  destruct ((48 <=? ch s) && (ch s <=? 57)) eqn:E1.
  { assert (ch s <> 63) by lia. cbv zeta. case_match; [copy_case|].
    case_match; [done|]. apply (Hret _ (plus s)). done. }
  destruct ((97 <=? _) && _) eqn:E2; [apply hex_lor in E2 as [_ Hq]|done].
  cbv zeta. case_match; [copy_case|]. case_match; [by apply Hret|].
  by apply (Hret _ (plus s)).

Qed.

Lemma step_good s :
  inv s -> args s = None -> p s <= ue -> good s (step buf merge_slashes s).
Proof.
  intros Hi Ha Hp. unfold step. destruct (st s) eqn:E;
    auto using on_usual_good, on_slash_good, on_dot_good, on_dot_dot_good,
      on_quoted_good, on_quoted_second_good.
Qed.

Lemma loop_good fuel s :
  inv s -> args s = None -> measure s + 2 < Z.of_nat fuel ->
  match loop buf merge_slashes fuel ue s with
  | Some (inl s') => inv s' /\ args s' = None /\ p s' = ue + 1
  | Some (inr e) => exit_ok e
  | None => False
  end.
Proof.
  revert s. induction fuel as [|fuel IH]; intros s Hi Ha Hf.
  - exfalso. pose proof Hi as []. unfold measure, in_path in *. case_decide; lia.
  - cbn [loop]. destruct (p s <=? ue) eqn:E.
    + pose proof (step_good s Hi Ha ltac:(lia)) as Hg.
      destruct (step buf merge_slashes s) as [s'|x]; [|done].
      destruct Hg as (Hi' & Ha' & Hm). apply IH; [done..|lia].
    + pose proof Hi as []. unfold in_path in *. split; [done|split; [done|lia]].
Qed.

(** What the function leaves in the request is inside of the allocated text
    and of the buffer. *)
Definition result_ok (r : result) : Prop :=
  Z.of_nat (length (uri_mem r)) = n + e /\ 0 <= uri_len r <= n + e /\
  (forall x, exten r = Some x ->
     exists d, str_data x = Some d /\ 0 < d /\ 0 <= str_len x /\ d + str_len x = uri_len r) /\
  (forall x, args_str r = Some x ->
     exists d, str_data x = Some d /\ us < d /\ 0 <= str_len x /\ d + str_len x <= ue) /\
  (forall a, args_start_ r = Some a -> us < a <= ue).

Definition ures_ok (x : ures) : Prop :=
  match x with
  | Returns c None => c = NGX_HTTP_PARSE_INVALID_REQUEST
  | Returns c (Some r) => c = NGX_OK /\ result_ok r
  | Fault | Out_of_fuel => False
  end.

Lemma exit_result_ok x : exit_ok x -> ures_ok (of_exit buf ue x).
Proof.
  assert (Hdone : forall s a, left_ok s ->
    (forall x, a = Some x -> exists d, str_data x = Some d /\ us < d /\ 0 <= str_len x /\
       d + str_len x <= ue) ->
    forall i, (forall y, i = Some y -> us < y <= ue) -> result_ok (at_done s a i)).
  { intros s a (Ho & Hu & Hx & Ha) Harg i Hi. unfold result_ok. cbn.
    refine (conj _ (conj _ (conj _ (conj _ _)))); try done.
    intros y Hy. destruct (ext s) as [z|]; simplify_eq. cbn.
    specialize (Hx z eq_refl). eexists. split; [done|lia]. }
  destruct x as [s|s|c|]; cbn; try done.
  - intros Hl. split; [done|]. apply Hdone; [done..|]. intros a Ha. by apply Hl.
  - intros Hl. split; [done|]. unfold at_args.
    pose proof Hl as (_ & _ & _ & Ha).
    destruct (args s) as [a|] eqn:Ea; [|by apply Hdone].
    destruct (find_fragment _ _) as [f|] eqn:Ef;
      [|apply Hdone; [done..|]; intros y [= <-]; by apply Ha].
    destruct (Ha a eq_refl) as [Hau ->].
    apply find_fragment_spec in Ef. rewrite slice_length in Ef by lia.
    apply Hdone; [done| |done]. intros x [= <-]. cbn. eexists. split; [done|]. lia.
Qed.

Lemma after_loop_good s :
  inv s -> args s = None -> p s = ue + 1 ->
  match after_loop s with inl s' => left_ok s' | inr x => exit_ok x end.
Proof.
  intros Hi Ha Hp. pose proof (left_ok_intro s Hi Ha ltac:(lia)) as (Ho & Hu & Hx & Ha').
  pose proof Hi as []. unfold text_state in *. unfold after_loop.
  destruct (st s) eqn:E; cbn [need core] in *; try done.
  - left_case.
  - destruct (up_one_spec s) as [(v & -> & Hv)| ->]; [done|lia|left_case|done].
Qed.

Lemma start_good r mem :
  Z.of_nat (length mem) = n + e -> e = (if empty_path_in_uri r then 1 else 0) ->
  exists s, bind (let s := mkC sw_usual sw_usual 0 0 us 0 mem None None (quoted_uri r)
                             (plus_in_uri r) in
                  if empty_path_in_uri r then put #"/" s else inl s) (fun s => get buf s) = inl s /\
    inv s /\ args s = None /\ measure s <= 2 * (ue - us).
Proof.
  intros Hm Hee. cbv zeta.
  destruct (load_some buf us) as [c Hc]; [lia|].
  assert (Hq : n = 0 -> us + 1 <= ue -> c = #"?").
  { intros Hn0 Hlt. destruct Hstop as [|Hq]; [lia|]. replace (us + n) with us in Hq by lia. congruence. }
  destruct (empty_path_in_uri r).
  - rewrite put_spec by (cbn; lia). unfold get. cbn. rewrite Hc. eexists. split; [done|].
    split; [constructor; unfold in_path, text_state; cbn; auto; try lia; try done|].
    + by rewrite length_insert.
    + cbn. unfold measure. cbn. rewrite decide_False by done. split; [done|lia].
  - unfold get. cbn. rewrite Hc. eexists. split; [done|].
    split; [constructor; unfold in_path, text_state; cbn; auto; try lia; try done|].
    cbn. unfold measure. cbn. rewrite decide_False by done. split; [done|lia].
Qed.
End Safety.

Lemma complex_uri_ok buf merge_slashes r us ue n mem fuel :
  0 <= us -> 0 <= n -> us + n <= ue -> ue < Z.of_nat (length buf) ->
  us + n = ue \/ load buf (us + n) = Some #"?" ->
  Z.of_nat (length mem) = n + (if empty_path_in_uri r then 1 else 0) ->
  2 * (ue - us) + 2 < Z.of_nat fuel ->
  ures_ok us ue n (if empty_path_in_uri r then 1 else 0)
    (ngx_http_parse_complex_uri buf merge_slashes fuel r us ue mem).
Proof.
  intros Hus Hn Hne Hue Hstop Hm Hf.
  set (e := if empty_path_in_uri r then 1 else 0) in *.
  assert (He : 0 <= e <= 1) by (unfold e; destruct (empty_path_in_uri r); lia).
  edestruct (start_good buf us ue n e) as (s & Hs & Hi & Ha & Hms); [done..|].
  unfold ngx_http_parse_complex_uri. cbv zeta in *. rewrite Hs.
  opose proof* (loop_good buf merge_slashes us ue n e) as Hl; [done..| |].
  { instantiate (1 := fuel). lia. }
  destruct (loop _ _ _ _ _) as [[s'|x]|]; [|by apply exit_result_ok|done].
  destruct Hl as (Hi' & Ha' & Hp').
  opose proof* (after_loop_good buf us ue n e) as Hd; [done..|].
  destruct (after_loop s') as [s2|x]; by apply exit_result_ok.
Qed.

(** C4. [ngx_http_parse_complex_uri] is memory safe and terminates, with the
    buffer its callers give it: with [r->uri.data] pointing to exactly
    [n + empty_path_in_uri] bytes, where the [n] bytes from [uri_start] end at
    [uri_end] or before the '?' of the arguments, the function never reads
    outside of the receive buffer, never writes outside of [r->uri.data], and
    twice the length of the URI bounds its iterations; it returns
    NGX_HTTP_PARSE_INVALID_REQUEST, or NGX_OK with [r->uri], [r->exten] and
    [r->args] inside of these buffers. *)
Theorem complex_uri_safe buf merge_slashes r us ue n mem fuel :
  0 <= us -> 0 <= n -> us + n <= ue -> ue < Z.of_nat (length buf) ->
  us + n = ue \/ load buf (us + n) = Some #"?" ->
  Z.of_nat (length mem) = n + (if empty_path_in_uri r then 1 else 0) ->
  2 * (ue - us) + 2 < Z.of_nat fuel ->
  ures_ok us ue n (if empty_path_in_uri r then 1 else 0)
    (ngx_http_parse_complex_uri buf merge_slashes fuel r us ue mem).
Proof. apply complex_uri_ok. Qed.

Lemma complex_uri_safe_witness :
  let buf := bytes_of_string "GET /a/%2e%2E/b?x HTTP" in
  ures_ok 4 17 11 0
    (ngx_http_parse_complex_uri buf true 100 init_fields 4 17 (replicate 11 0)).
Proof.
  cbv zeta.
  apply (complex_uri_safe (bytes_of_string "GET /a/%2e%2E/b?x HTTP") true init_fields 4 17 11
           (replicate 11 0) 100); try (vm_compute; congruence).
  right. reflexivity.
Defined.

End ComplexUri.
