(* ===== verification/NgxPathSpec.v ===== *)
(** What the path of a request means: the specification of
    [ComplexUri.ngx_http_parse_complex_uri] as "percent-decode, then remove the
    dot segments", and the proof that the single pass over the buffer of
    NgxComplexUri.v implements it. *)

From S2P Require Import NgxBase.
From S2P Require Import NgxComplexUri.
Import ComplexUri.
Open Scope Z_scope.

Module PathSpec.

(** ** The specification *)

(** Percent-decoding of the bytes before the first raw '?' or '#'; [None] on
    an invalid escape and on [%00]. *)
Fixpoint decode (bs : list Z) : option (list Z) :=
  match bs with
  | [] => Some []
  | c :: bs' =>
      if (c =? #"?") || (c =? #"#") then Some []
      else if c =? #"%" then
        match bs' with
        | h1 :: h2 :: bs'' =>
            match hexval h1, hexval h2 with
            | Some a, Some b =>
                if 16 * a + b =? 0 then None
                else cons (16 * a + b) <$> decode bs''
            | _, _ => None
            end
        | _ => None
        end
      else cons c <$> decode bs'
  end.

(** A path being read: its closed segments, the last one first, the current
    segment, and the text after the '.' that starts a file extension in it. *)
Record acc := mkAcc { segs : list (list Z); cur : list Z; dot : option (list Z) }.

(** [/seg/.../seg/] and [/seg/.../seg/cur] *)
Fixpoint render_segs (l : list (list Z)) : list Z :=
  match l with
  | [] => []
  | s :: l' => render_segs l' ++ #"/" :: s
  end.

Definition render (a : acc) : list Z := render_segs (segs a) ++ #"/" :: cur a.

Arguments render : simpl never.

(** The state that reads on a segment. *)
Definition state_of (c : list Z) : sw :=
  match c with
  | [] => sw_slash
  | [x] => if x =? #"." then sw_dot else sw_usual
  | [x; y] => if (x =? #".") && (y =? #".") then sw_dot_dot else sw_usual
  | _ => sw_usual
  end.

(** [..] removes the segment before it. *)
Definition pop (a : acc) : option acc :=
  match segs a with
  | [] => None
  | _ :: l => Some (mkAcc l [] None)
  end.

(** A '/' ends the current segment. *)
Definition close (merge : bool) (a : acc) : option acc :=
  match state_of (cur a) with
  | sw_slash => if merge then Some a else Some (mkAcc ([] :: segs a) [] (dot a))
  | sw_dot => Some (mkAcc (segs a) [] (dot a))
  | sw_dot_dot => pop a
  | _ => Some (mkAcc (cur a :: segs a) [] None)
  end.

(** Any other character extends it. *)
Definition extend (c : Z) (a : acc) : acc :=
  mkAcc (segs a) (cur a ++ [c])
    (match state_of (cur a) with
     | sw_usual => if c =? #"." then Some [] else ((fun t => t ++ [c]) <$> dot a)
     | _ => None
     end).

Definition feed (merge : bool) (a : acc) (c : Z) : option acc :=
  if c =? #"/" then close merge a else Some (extend c a).

Fixpoint feed_all (merge : bool) (a : acc) (cs : list Z) : option acc :=
  match cs with
  | [] => Some a
  | c :: cs' => a' ← feed merge a c; feed_all merge a' cs'
  end.

(** The end of the path ends the current segment too. *)
Definition finish (a : acc) : option acc :=
  match state_of (cur a) with
  | sw_dot => Some (mkAcc (segs a) [] None)
  | sw_dot_dot => pop a
  | _ => Some a
  end.

(** The normalised path and its extension, from the bytes after the first
    '/'. *)
Definition path_of (merge : bool) (bs : list Z) : option acc :=
  cs ← decode bs; a ← feed_all merge (mkAcc [] [] None) cs; finish a.

Definition path_text (merge : bool) (bs : list Z) : option (list Z) :=
  render <$> path_of merge bs.

Example path_text_ex :
  path_text true (bytes_of_string "a//b/%2e./c%2Ftxt%3f.x?y") =
  Some (bytes_of_string "/a/c/txt?.x").
Proof. vm_compute. reflexivity. Qed.

(** ** Text in the output memory *)

Definition text (s : cst) : list Z := take (Z.to_nat (u s)) (out s).

Lemma put_text c s s' :
  0 <= u s -> put c s = inl s' ->
  text s' = text s ++ [c] /\ u s' = u s + 1 /\ u s < Z.of_nat (length (out s)) /\
  s' = (s |> set_out (<[Z.to_nat (u s) := c]> (out s)) |> set_u (u s + 1)).
Proof.
  intros Hu. unfold put, store. destruct (_ || _) eqn:E; [done|]. intros [= <-].
  split; [|split; [done|split; [lia|done]]]. unfold text. cbn.
  replace (Z.to_nat (u s + 1)) with (S (Z.to_nat (u s))) by lia.
  rewrite (take_S_r _ _ c).
  - rewrite take_insert_ge by lia. done.
  - apply list_lookup_insert_eq. lia.
Qed.

Lemma take_prefix (o : list Z) n A B :
  take n o = A ++ B -> (length A <= n)%nat -> take (length A) o = A.
Proof.
  intros Ht Hn. rewrite <- (take_app_length A B) at 2. rewrite <- Ht, take_take.
  f_equal. lia.
Qed.

(** The search for '/' finds the last one of the text. *)
Lemma back_to_slash_found o T s :
  #"/" ∉ s -> take (length (T ++ #"/" :: s)) o = T ++ #"/" :: s ->
  back_to_slash o (length (T ++ #"/" :: s)) = found (Z.of_nat (length T) + 1).
Proof.
  induction s as [|c s IH] using rev_ind; intros Hs Ht.
  - rewrite length_app in *. cbn in *. rewrite Nat.add_1_r in *. cbn.
    assert (Hl : o !! length T = Some 47).
    { rewrite <- (lookup_take_lt o (S (length T))) by lia. rewrite Ht.
      by rewrite lookup_app_r, Nat.sub_diag by lia. }
    rewrite Hl. cbn. f_equal.
  - rewrite app_comm_cons, app_assoc in *. set (T' := T ++ 47 :: s) in *.
    rewrite length_app, Nat.add_1_r in *. cbn.
    assert (Hl : o !! length T' = Some c).
    { rewrite <- (lookup_take_lt o (S (length T'))) by lia. rewrite Ht.
      by rewrite lookup_app_r, Nat.sub_diag by lia. }
    rewrite Hl. rewrite elem_of_app, list_elem_of_singleton in Hs.
    destruct (c =? 47) eqn:E; [exfalso; apply Hs; right; lia|].
    apply IH; [tauto|]. apply (take_prefix _ (S (length T')) _ [c]); [done|lia].
Qed.

(** ** The simulation *)

(** The state the machine is in, with the text of [a] written. *)
Record sim (a : acc) (s : cst) : Prop := {
  sim_u : 0 <= u s <= Z.of_nat (length (out s));
  sim_text : text s = render a;
  sim_st : text_state s = state_of (cur a);
  sim_segs : Forall (fun x => #"/" ∉ x) (segs a);
  sim_cur : #"/" ∉ cur a;
  sim_ext : match ext s with
            | Some x => 0 <= x <= u s /\ dot a = Some (drop (Z.to_nat x) (text s))
            | None => dot a = None
            end;
  sim_dot : state_of (cur a) <> sw_usual -> dot a = None
}.

Lemma text_length s :
  0 <= u s <= Z.of_nat (length (out s)) -> Z.of_nat (length (text s)) = u s.
Proof. intros. unfold text. rewrite length_take. lia. Qed.

Lemma state_of_snoc c x :
  state_of (c ++ [x]) =
  match state_of c with
  | sw_slash => if x =? #"." then sw_dot else sw_usual
  | sw_dot => if x =? #"." then sw_dot_dot else sw_usual
  | _ => sw_usual
  end.
Proof.
  destruct c as [|a [|b [|d c]]]; cbn; [done| | |].
  - by destruct (a =? 46).
  - by destruct (_ && _).
  - by destruct c.
Qed.

Lemma state_of_inv c :
  match state_of c with
  | sw_slash => c = []
  | sw_dot => c = [#"."]
  | sw_dot_dot => c = [#"."; #"."]
  | sw_usual => True
  | _ => False
  end.
Proof.
  destruct c as [|a [|b [|d c]]]; cbn; try done.
  - destruct (a =? 46) eqn:E; [|done]. f_equal. lia.
  - destruct (_ && _) eqn:E; [|done]. f_equal; [lia|f_equal; lia].
Qed.

Lemma sim_no_ext a s : sim a s -> state_of (cur a) <> sw_usual -> ext s = None.
Proof.
  intros [] Hn. rewrite sim_dot0 in * by done. destruct (ext s); [|done].
  by destruct sim_ext0.
Qed.

(** [u] after the [..] of "/..": the segment before it is cut. *)
Lemma up_one_sim a s :
  sim a s -> text_state s = sw_dot_dot ->
  match up_one s with
  | inl s' => exists a' v, pop a = Some a' /\ s' = (s |> set_u v) /\ sim a' (s' |> set_st sw_slash)
  | inr e => e = return_ NGX_HTTP_PARSE_INVALID_REQUEST /\ pop a = None
  end.
Proof.
  intros Hs Hdd. pose proof Hs as [Hu Ht Hst Hsegs Hcur Hx Hd]. rewrite Hst in Hdd.
  pose proof (state_of_inv (cur a)) as Hc. pose proof (sim_no_ext a s Hs) as Hnx.
  rewrite Hdd in *.
  pose proof (text_length s Hu) as Hlen. rewrite Ht in Hlen.
  unfold up_one, pop. unfold render in *. rewrite Hc in *. destruct (segs a) as [|sg l] eqn:El.
  - cbn in Hlen. by replace (Z.to_nat (u s - 4 + 1)) with 0%nat by lia.
  - cbn [render_segs] in *. inversion Hsegs as [|? ? Hsg Hl]; subst.
    set (T := render_segs l) in *.
    rewrite !length_app in Hlen. cbn [length] in Hlen.
    replace (Z.to_nat (u s - 4 + 1)) with (length (T ++ #"/" :: sg)) by (rewrite length_app; cbn; lia).
    rewrite back_to_slash_found; [|done|].
    + eexists _, _. split; [done|]. split; [done|].
      constructor; cbn; try done; try lia; [|by apply not_elem_of_nil|by rewrite Hnx].
      unfold text, render in *. cbn. replace (Z.to_nat (Z.of_nat (length T) + 1))
        with (length (T ++ [47])) by (rewrite length_app; cbn; lia).
      apply (take_prefix _ (Z.to_nat (u s)) _ (sg ++ [47; 46; 46])).
      * rewrite Ht, <- !app_assoc. done.
      * rewrite length_app. cbn. lia.
    + apply (take_prefix _ (Z.to_nat (u s)) _ [47; 46; 46]); [done|].
      rewrite length_app. cbn. lia.
Qed.

Section Simulation.
Variable buf : list Z.
Variable merge_slashes : bool.

(** An outcome that stands for the next accumulator [a'] ([None]: an
    error). *)
Definition simulates (a' : option acc) (s : cst) (x : outcome) : Prop :=
  match x with
  | inl s' =>
      exists a1, a' = Some a1 /\ sim a1 s' /\ p s' = p s + 1 /\
        load buf (p s) = Some (ch s') /\ st s' = text_state s'
  | inr (return_ _) => a' = None
  | inr fault => True
  | inr _ => False
  end.

Definition core_state (x : sw) : bool :=
  match x with sw_quoted | sw_quoted_second => false | _ => true end.

Lemma core_text_state s : core_state (st s) = true -> text_state s = st s.
Proof. unfold text_state. by destruct (st s). Qed.

Lemma core_state_of c : core_state (state_of c) = true.
Proof. pose proof (state_of_inv c). by destruct (state_of c). Qed.

Lemma get_sim a s0 s :
  p s0 = p s -> sim a s -> core_state (st s) = true -> simulates (Some a) s0 (get buf s).
Proof.
  intros Hp Hs Hc. unfold get. destruct (load buf (p s)) eqn:E; [|done]. cbn.
  exists a. split; [done|]. rewrite Hp. split; [|split; [done|split; [done|]]].
  - destruct Hs, s. constructor; done.
  - unfold text_state. cbn. by destruct (st s).
Qed.

Lemma copy_sim a x s0 s :
  p s0 = p s -> 0 <= u s <= Z.of_nat (length (out s)) ->
  render a = text s ++ [ch s] -> x = state_of (cur a) ->
  Forall (fun x => #"/" ∉ x) (segs a) -> #"/" ∉ cur a ->
  match ext s with
  | Some x => 0 <= x <= u s + 1 /\ dot a = Some (drop (Z.to_nat x) (text s ++ [ch s]))
  | None => dot a = None
  end ->
  (x <> sw_usual -> dot a = None) ->
  simulates (Some a) s0 (copy buf x s).
Proof.
  intros Hp Hu Hr Hx Hsegs Hcur He Hd. unfold copy.
  destruct (put (ch s) (s |> set_st x)) as [s1|[]] eqn:E; cbn; try done.
  2-4: unfold put in E; by case_match.
  apply put_text in E as (Ht & Hu1 & Hlen & Heq); [|cbn; lia].
  assert (Hc : core_state x = true) by (rewrite Hx; apply core_state_of).
  change (text (set_st x s)) with (text s) in Ht. cbn in *.
  apply get_sim; subst s1; cbn in *; [done| |done].
  constructor; cbn; auto.
  - rewrite length_insert. lia.
  - congruence.
  - rewrite core_text_state; done.
  - rewrite Ht. done.
  - by rewrite <- Hx.
Qed.

(** Appending a character to the current segment. *)
Lemma copy_extend a x s0 s :
  sim a s0 -> ch s <> #"/" -> text s = text s0 -> p s0 = p s -> u s = u s0 ->
  length (out s) = length (out s0) ->
  x = state_of (cur a ++ [ch s]) ->
  ext s = match state_of (cur a) with
          | sw_usual => if ch s =? #"." then Some (u s + 1) else ext s0
          | _ => ext s0
          end ->
  simulates (Some (extend (ch s) a)) s0 (copy buf x s).
Proof.
  intros [Hu Ht Hst Hsegs Hcur Hx Hd] Hc Htx Hp Hus Ho Hxs He.
  pose proof (text_length s0 Hu) as Hlen.
  apply copy_sim; cbn; auto.
  - by rewrite Hus, Ho.
  - unfold render. cbn. rewrite Htx, Ht. unfold render. by rewrite <- app_assoc.
  - rewrite elem_of_app, list_elem_of_singleton. intros [?|?]; [done|congruence].
  - rewrite He. rewrite Htx.
    assert (Hext : match ext s0 with
      | Some x0 => 0 <= x0 <= u s0 + 1 /\
          (fun t => t ++ [ch s]) <$> dot a = Some (drop (Z.to_nat x0) (text s0 ++ [ch s]))
      | None => (fun t : list Z => t ++ [ch s]) <$> dot a = None
      end).
    { destruct (ext s0) as [y|]; [|by rewrite Hx]. destruct Hx as [Hy Hx]. split; [lia|].
      rewrite Hx. cbn. f_equal. rewrite drop_app_le by lia. done. }
    destruct (state_of (cur a)) eqn:Es; try (rewrite Hd in * by done; by destruct (ext s0) as [?|]; [destruct Hx|]).
    destruct (ch s =? 46); [|by rewrite Hus].
    split; [lia|]. rewrite drop_ge; [done|]. rewrite length_app. cbn. lia.
  - subst x. rewrite state_of_snoc. intros Hn.
    destruct (state_of (cur a)); try done; by destruct (ch s =? 46).
Qed.
(** No state looks at a character that is not handled by [usual], '/' or
    '.'. *)
Lemma usual_not c : is_usual c = true -> (c =? #"/") = false /\ (c =? #".") = false.
Proof. intros H. split; apply Z.eqb_neq; by intros ->. Qed.

(** Closes a case that copies a character into the current segment. *)
Ltac extend_case Hs Es :=
  match goal with |- simulates _ ?s0 (copy _ ?x ?s) => apply (copy_extend _ x s0 s) end;
  cbn; try done; try lia; try exact Hs;
  rewrite ?state_of_snoc, ?Es; try done;
  try match goal with
  | |- context [?c =? 46] => destruct (c =? 46) eqn:?; first [done | lia]
  end.

Lemma render_close a d : render (mkAcc (cur a :: segs a) [] d) = render a ++ [#"/"].
Proof. unfold render. cbn. by rewrite <- app_assoc. Qed.

(** Dropping the "." of "/.". *)
Lemma drop_dot a s s' :
  sim a s -> text_state s = sw_dot -> u s' = u s - 1 -> out s' = out s ->
  ext s' = ext s -> text_state s' = sw_slash -> sim (mkAcc (segs a) [] (dot a)) s'.
Proof.
  intros Hs Hst Hu' Ho Hx' Hst'. pose proof Hs as [Hu Ht Htst Hsegs Hcur Hx Hd].
  rewrite Hst in Htst. pose proof (state_of_inv (cur a)) as Hc. rewrite <- Htst in Hc.
  pose proof (text_length s Hu) as Hl. rewrite Ht in Hl. unfold render in *. rewrite Hc in *.
  rewrite length_app in Hl. cbn [length] in Hl.
  constructor; cbn; try done; try congruence.
  - rewrite Ho. lia.
  - unfold text, render in *. cbn. rewrite Hu', Ho.
    replace (Z.to_nat (u s - 1)) with (length (render_segs (segs a) ++ [47]))
      by (rewrite length_app; cbn; lia).
    apply (take_prefix _ (Z.to_nat (u s)) _ [46]); [by rewrite Ht, <- app_assoc|].
    rewrite length_app. cbn. lia.
  - by apply not_elem_of_nil.
  - rewrite Hx', (sim_no_ext a s); [by apply Hd|done|by rewrite Hc].
  - intros _. by apply Hd.
Qed.

(** One character of the decoded path, from any state. *)
Lemma feed_sim a s :
  sim a s -> st s = text_state s ->
  ch s <> #"%" -> ch s <> #"?" -> ch s <> #"#" ->
  simulates (feed merge_slashes a (ch s)) s (step buf merge_slashes s).
Proof.
  intros Hs Hst H1 H2 H3. pose proof Hs as [Hu Ht Htst Hsegs Hcur Hx Hd].
  pose proof (sim_no_ext a s Hs) as Hnx.
  rewrite Htst in Hst. unfold feed, step. rewrite Hst.
  pose proof (state_of_inv (cur a)) as Hinv. pose proof (usual_not (ch s)) as Hus.
  apply Z.eqb_neq in H1, H2, H3.
  destruct (state_of (cur a)) eqn:Es; try done.
  - unfold on_usual. rewrite H1, H2, H3, Hst.
    destruct (is_usual (ch s)); [destruct (Hus eq_refl) as [-> ?]; extend_case Hs Es|].
    destruct (ch s =? 47) eqn:E1.
    { unfold close. rewrite Es. apply copy_sim; cbn; try done.
      - change (text (set_ext None s)) with (text s).
        rewrite render_close, Ht. do 2 f_equal. lia.
      - by constructor.
      - by apply not_elem_of_nil. }
    destruct (ch s =? 46) eqn:E2; [extend_case Hs Es|].
    destruct (ch s =? 43); extend_case Hs Es.
  - unfold on_slash. rewrite H1, H2, H3, Hst.
    destruct (is_usual (ch s)); [destruct (Hus eq_refl) as [-> ?]; extend_case Hs Es|].
    destruct (ch s =? 47) eqn:E1.
    { unfold close. rewrite Es. destruct merge_slashes.
      - apply get_sim; [done..|by rewrite Hst].
      - apply copy_sim; cbn; try done.
        + rewrite Ht. replace (ch s) with 47 by lia.
          by rewrite <- (render_close a (dot a)), Hinv.
        + constructor; [by apply not_elem_of_nil|done].
        + by apply not_elem_of_nil.
        + rewrite Hnx by done. by apply Hd. }
    destruct (ch s =? 46) eqn:E2; [extend_case Hs Es|].
    destruct (ch s =? 43); extend_case Hs Es.
  - unfold on_dot. rewrite H1, H2, H3.
    destruct (is_usual (ch s)); [destruct (Hus eq_refl) as [-> ?]; extend_case Hs Es|].
    destruct (ch s =? 47) eqn:E1.
    { unfold close. rewrite Es. apply get_sim; [done| |done].
      eapply drop_dot; done. }
    destruct (ch s =? 46) eqn:E2; [extend_case Hs Es|].
    destruct (ch s =? 43); extend_case Hs Es.
  - unfold on_dot_dot. rewrite H1, H2, H3.
    destruct (is_usual (ch s)); [destruct (Hus eq_refl) as [-> ?]; extend_case Hs Es|].
    destruct (ch s =? 47) eqn:E1.
    { unfold close. rewrite Es. cbn [orb]. pose proof (up_one_sim a s Hs Htst) as Hup.
      destruct (up_one s) as [s1|e]; cbn [bind]; [|by destruct Hup as [-> ->]].
      destruct Hup as (a1 & v & -> & -> & Hs1). change (ch (set_u v s)) with (ch s).
      rewrite H2, H3. by apply get_sim. }
    cbn [orb]. destruct (ch s =? 43); extend_case Hs Es.
Qed.

Variable ue : Z.
Hypothesis buf_bytes : Forall is_byte buf.

(** What is left to read: the characters still to be fed. *)
Inductive stream (s : cst) : option (list Z) -> Prop :=
  | stream_raw :
      core_state (st s) = true -> load buf (p s - 1) = Some (ch s) ->
      stream s (decode (slice buf (p s - 1) ue))
  | stream_decoded :
      core_state (st s) = true -> p s <= ue ->
      ch s <> #"%" -> ch s <> #"?" -> ch s <> #"#" ->
      stream s (cons (ch s) <$> decode (slice buf (p s) ue))
  | stream_quoted :
      st s = sw_quoted -> load buf (p s - 1) = Some (ch s) ->
      stream s (decode (#"%" :: slice buf (p s - 1) ue))
  | stream_second h1 :
      st s = sw_quoted_second -> load buf (p s - 1) = Some (ch s) ->
      hexval h1 = Some (decoded s) ->
      stream s (decode (#"%" :: h1 :: slice buf (p s - 1) ue)).

(** The path that a stream completes. *)
Definition meaning (m : option (list Z)) (a : acc) : option acc :=
  cs ← m; a' ← feed_all merge_slashes a cs; finish a'.

(** The request fields show the path [a]. *)
Definition shows (a : acc) (s : cst) : Prop :=
  0 <= u s <= Z.of_nat (length (out s)) /\ text s = render a /\
  match ext s with
  | Some x => 0 <= x <= u s /\ dot a = Some (drop (Z.to_nat x) (text s))
  | None => dot a = None
  end.

Definition agrees (m : option acc) (e : exit) : Prop :=
  match e with
  | goto_done s | goto_args s => exists a, m = Some a /\ shows a s
  | return_ _ => m = None
  | fault => True
  end.

Lemma slice_cons m a b c :
  0 <= a < b -> load m a = Some c -> slice m a b = c :: slice m (a + 1) b.
Proof.
  intros Hab Hl. rewrite (slice_split m a (a + 1) b) by lia.
  rewrite (slice_snoc m a a c) by (done || lia). by rewrite slice_nil by lia.
Qed.

Lemma load_byte i c : load buf i = Some c -> is_byte c.
Proof.
  unfold load. case_match; [done|]. rewrite Forall_lookup in buf_bytes. apply buf_bytes.
Qed.

(** The end of the path, with [ext] and [text] of the machine. *)
Lemma finish_sim a s :
  sim a s -> st s = text_state s ->
  match after_loop s with
  | inl s' => agrees (finish a) (goto_done s')
  | inr e => agrees (finish a) e
  end.
Proof.
  intros Hs Hst. pose proof Hs as [Hu Ht Htst Hsegs Hcur Hx Hd].
  unfold after_loop, finish. rewrite Hst, Htst in *.
  destruct (state_of (cur a)) eqn:Es; try by (eexists; split).
  - pose proof (drop_dot a s (s |> set_u (u s - 1) |> set_st sw_slash) Hs Htst
      eq_refl eq_refl eq_refl eq_refl) as [Hu' Ht' _ _ _ Hx' _].
    cbn in *. eexists. split; [done|]. rewrite Hd in * by done. done.
  - pose proof (up_one_sim a s Hs Htst) as Hup.
    destruct (up_one s) as [s1|e]; [|by destruct Hup as [-> ->]].
    destruct Hup as (a1 & v & -> & -> & [Hu' Ht' _ _ _ Hx' _]). eexists. by split.
  - pose proof (state_of_inv (cur a)) as Hi. by rewrite Es in Hi.
  - pose proof (state_of_inv (cur a)) as Hi. by rewrite Es in Hi.
Qed.

Lemma meaning_cons c d a :
  meaning (cons c <$> d) a = a' ← feed merge_slashes a c; meaning d a'.
Proof. unfold meaning. destruct d; cbn; by destruct (feed _ _ _). Qed.

Lemma step_percent s :
  core_state (st s) = true -> ch s = #"%" -> step buf merge_slashes s = start_quoted buf s.
Proof.
  intros Hc Hch. unfold step. destruct (st s); try done;
    unfold on_usual, on_slash, on_dot, on_dot_dot; by rewrite Hch.
Qed.

(** A raw '?' or '#' ends the path. *)
Lemma step_end a s :
  sim a s -> st s = text_state s -> ch s = #"?" \/ ch s = #"#" ->
  match step buf merge_slashes s with
  | inl _ => False
  | inr e => agrees (finish a) e
  end.
Proof.
  intros Hs Hst Hch. pose proof (finish_sim a s Hs Hst) as Hf. unfold after_loop in Hf.
  pose proof Hs as []. unfold step. rewrite Hst, sim_st0 in *.
  pose proof (core_state_of (cur a)) as Hcore.
  destruct (state_of (cur a)); try done;
    unfold on_usual, on_slash, on_dot, on_dot_dot.
  1-3: by destruct Hch as [-> | ->].
  destruct (up_one s) as [s1|e] eqn:Eup; cbn [bind]; [|by destruct Hch as [-> | ->]].
  assert (Hc1 : ch s1 = ch s).
  { unfold up_one in Eup. by destruct (back_to_slash _ _); simplify_eq/=. }
  by destruct Hch as [Hch | Hch]; rewrite ?Hc1, Hch.
Qed.

(** How an iteration consumes the stream. *)
Definition consumes (m : option (list Z)) (a : acc) (x : outcome) : Prop :=
  match x with
  | inl s' => exists a' m', sim a' s' /\ stream s' m' /\ 0 < p s' /\ meaning m a = meaning m' a'
  | inr e => agrees (meaning m a) e
  end.

Lemma sim_core_st a s : sim a s -> core_state (st s) = true -> st s = text_state s.
Proof. intros _ H. symmetry. by apply core_text_state. Qed.

(** A character that was fed to the machine. *)
Lemma simulates_consumes c m a a' s x :
  feed merge_slashes a c = a' -> m = decode (slice buf (p s) ue) -> 0 < p s ->
  simulates a' s x -> consumes (cons c <$> m) a x.
Proof.
  intros <- -> Hp. destruct x as [s'|[]]; cbn; try done.
  - intros (a1 & Ha1 & Hs' & Hp' & Hl & Hst').
    exists a1, (decode (slice buf (p s' - 1) ue)). rewrite Hp'.
    replace (p s + 1 - 1) with (p s) by lia.
    split; [done|]. split; [|split; [lia|]].
    + replace (p s) with (p s' - 1) by lia. apply stream_raw.
      * rewrite Hst'. destruct Hs'. rewrite sim_st0. apply core_state_of.
      * rewrite Hp'. replace (p s + 1 - 1) with (p s) by lia. done.
    + rewrite meaning_cons, Ha1. done.
  - intros Ha. rewrite meaning_cons, Ha. done.
Qed.

Lemma step_raw a s :
  sim a s -> core_state (st s) = true -> load buf (p s - 1) = Some (ch s) -> 0 < p s <= ue ->
  consumes (decode (slice buf (p s - 1) ue)) a (step buf merge_slashes s).
Proof.
  intros Hs Hc Hl Hp. rewrite (slice_cons buf (p s - 1) ue (ch s)) by (done || lia).
  replace (p s - 1 + 1) with (p s) by lia. pose proof (sim_core_st a s Hs Hc) as Hst.
  cbn [decode]. destruct ((ch s =? 63) || (ch s =? 35)) eqn:E1.
  { pose proof (step_end a s Hs Hst ltac:(lia)) as He. by destruct (step _ _ _). }
  destruct (ch s =? 37) eqn:E2.
  - rewrite step_percent by (done || lia). unfold start_quoted, get. cbn.
    destruct (load buf (p s)) as [c|] eqn:El; [|done]. eexists a, _. split.
    { destruct Hs. constructor; try done. cbn. by rewrite <- Hst in sim_st0. }
    split; [eapply stream_quoted; cbn; [done|]|split; [cbn; lia|]].
    + by replace (p s + 1 - 1) with (p s) by lia.
    + cbn. by replace (p s + 1 - 1) with (p s) by lia.
  - eapply simulates_consumes; [done|done|lia|]. apply feed_sim; try done; lia.
Qed.

Lemma step_decoded a s :
  sim a s -> core_state (st s) = true -> 0 < p s ->
  ch s <> #"%" -> ch s <> #"?" -> ch s <> #"#" ->
  consumes (cons (ch s) <$> decode (slice buf (p s) ue)) a (step buf merge_slashes s).
Proof.
  intros Hs Hc Hp H1 H2 H3. eapply simulates_consumes; [done|done|lia|].
  apply feed_sim; try done. by apply (sim_core_st a).
Qed.

Lemma step_quoted a s :
  sim a s -> st s = sw_quoted -> load buf (p s - 1) = Some (ch s) -> 0 < p s <= ue ->
  consumes (decode (#"%" :: slice buf (p s - 1) ue)) a (step buf merge_slashes s).
Proof.
  intros Hs Hst Hl Hp. rewrite (slice_cons buf (p s - 1) ue (ch s)) by (done || lia).
  replace (p s - 1 + 1) with (p s) by lia.
  pose proof (hexval_tests (ch s) (load_byte _ _ Hl)) as Hh.
  unfold step. rewrite Hst. unfold on_quoted. cbv zeta. change (ch (set_quoted true s)) with (ch s).
  assert (Hnext : forall v, hexval (ch s) = Some v ->
    consumes (decode (37 :: ch s :: slice buf (p s) ue)) a
      (get buf (s |> set_quoted true |> set_decoded v |> set_st sw_quoted_second))).
  { intros v Hv. unfold get. cbn [p set_st set_decoded set_quoted]. 
    destruct (load buf (p s)) as [c|] eqn:El; [|done]. eexists a, _. split.
    { destruct Hs. constructor; try done. unfold text_state in *. rewrite Hst in sim_st0. done. }
    split; [eapply (stream_second _ (ch s)); cbn; [done| |done]|split; [cbn; lia|]].
    + by replace (p s + 1 - 1) with (p s) by lia.
    + by replace (p _ - 1) with (p s) by (cbn; lia). }
  destruct ((48 <=? ch s) && _); [by apply Hnext|].
  destruct ((97 <=? _) && _); [by apply Hnext|].
  cbn. rewrite Hh. by destruct (slice buf (p s) ue).
Qed.

(** An escaped character that is copied without looking at it. *)
Lemma copy_literal a c s :
  sim a s -> 0 < p s -> c <> #"/" -> c <> #"." ->
  consumes (cons c <$> decode (slice buf (p s) ue)) a (copy buf sw_usual (s |> set_ch c)).
Proof.
  intros Hs Hp Hc1 Hc2. assert (E1 : (c =? 47) = false) by lia. assert (E2 : (c =? 46) = false) by lia.
  eapply (simulates_consumes _ _ _ _ s); [done|done|done|]. unfold feed. rewrite E1.
  change c with (ch (set_ch c s)) at 1. apply copy_extend; try done; cbn.
  - rewrite state_of_snoc, E2. by destruct (state_of (cur a)).
  - rewrite E2. by destruct (state_of (cur a)).
Qed.

Lemma sim_set_ch a c s : sim a s -> sim a (s |> set_ch c).
Proof. by destruct 1. Qed.

Lemma sim_set_plus a b s : sim a s -> sim a (s |> set_plus b).
Proof. by destruct 1. Qed.

(** An escaped character that the saved state looks at. *)
Lemma redispatch a s :
  sim a s -> st s = sw_quoted_second -> 0 < p s <= ue ->
  ch s <> #"%" -> ch s <> #"?" -> ch s <> #"#" ->
  consumes (cons (ch s) <$> decode (slice buf (p s) ue)) a
    (inl (s |> set_st (quoted_state s))).
Proof.
  intros Hs Hst Hp H1 H2 H3. eexists a, _.
  assert (Hq : quoted_state s = state_of (cur a)).
  { destruct Hs. unfold text_state in *. by rewrite Hst in *. }
  pose proof (core_state_of (cur a)) as Hc. rewrite <- Hq in Hc.
  split; [|split; [|split; [cbn; lia|]]].
  - destruct Hs. constructor; try done. rewrite core_text_state; done.
  - apply stream_decoded; cbn; try done; lia.
  - done.
Qed.

Lemma step_second a h1 s :
  sim a s -> st s = sw_quoted_second -> load buf (p s - 1) = Some (ch s) -> 0 < p s <= ue ->
  hexval h1 = Some (decoded s) ->
  consumes (decode (#"%" :: h1 :: slice buf (p s - 1) ue)) a (step buf merge_slashes s).
Proof.
  intros Hs Hst Hl Hp Hh1. rewrite (slice_cons buf (p s - 1) ue (ch s)) by (done || lia).
  replace (p s - 1 + 1) with (p s) by lia.
  pose proof (hexval_tests (ch s) (load_byte _ _ Hl)) as Hh.
  pose proof (hexval_bounds _ _ Hh1) as Hd.
  unfold step. rewrite Hst. unfold on_quoted_second. cbv zeta.
  cbn [decode Z.eqb orb Pos.eqb]. rewrite Hh1.
  destruct ((48 <=? ch s) && _) eqn:E1; [|destruct ((97 <=? _) && _) eqn:E2].
  - rewrite Hh. set (v := 16 * decoded s + (ch s - 48)).
    replace (u8 _) with v by (unfold u8; rewrite Z.shiftl_mul_pow2, Z.mod_small; lia).
    cbn [ch set_ch]. destruct ((v =? 37) || (v =? 35)) eqn:E3.
    { replace (v =? 0) with false by lia. apply copy_literal; try done; lia. }
    destruct (v =? 0) eqn:E4; [done|].
    apply (redispatch a (set_ch v s)); try done; [by apply sim_set_ch|cbn; lia..].
  - rewrite Hh. set (v := 16 * decoded s + (Z.lor (ch s) 32 - 97 + 10)).
    replace (u8 _) with v by (unfold u8; rewrite Z.shiftl_mul_pow2, Z.mod_small; lia).
    cbn [ch set_ch]. replace (v =? 0) with false by lia.
    destruct (v =? 63) eqn:E3; [apply copy_literal; try done; lia|].
    destruct (v =? 43); [apply (redispatch a (set_plus true (set_ch v s)))|
      apply (redispatch a (set_ch v s))]; try done; cbn; try lia;
      auto using sim_set_plus, sim_set_ch.
  - by rewrite Hh.
Qed.

Lemma step_sim a s m :
  sim a s -> stream s m -> 0 < p s <= ue -> consumes m a (step buf merge_slashes s).
Proof.
  intros Hs [] Hp; eauto using step_raw, step_quoted, step_second.
  apply step_decoded; try done; lia.
Qed.

(** The loop and the code after it. *)
Definition final (x : option outcome) : exit :=
  match x with
  | Some (inl s) => match after_loop s with inl s' => goto_done s' | inr e => e end
  | Some (inr e) => e
  | None => fault
  end.

(** The stream is empty when the loop ends at [uri_end]. *)
Lemma stream_end a s m :
  sim a s -> stream s m -> ue < p s -> agrees (meaning m a) (final (Some (inl s))).
Proof.
  intros Hs Hm Hp. cbn [final]. destruct Hm as [Hc Hl| |Hst Hl|h1 Hst Hl Hh]; [|lia| |].
  - rewrite slice_nil by lia. pose proof (finish_sim a s Hs (sim_core_st a s Hs Hc)) as Hf.
    by destruct (after_loop s).
  - rewrite slice_nil by lia. unfold after_loop. by rewrite Hst.
  - rewrite slice_nil by lia. unfold after_loop. by rewrite Hst.
Qed.

Lemma loop_sim fuel a s m :
  sim a s -> stream s m -> 0 < p s ->
  agrees (meaning m a) (final (loop buf merge_slashes fuel ue s)).
Proof.
  revert a s m. induction fuel as [|fuel IH]; intros a s m Hs Hm Hp; [done|].
  cbn [loop]. destruct (p s <=? ue) eqn:E; [|apply stream_end; try done; lia].
  pose proof (step_sim a s m Hs Hm ltac:(lia)) as Hstep.
  destruct (step buf merge_slashes s) as [s'|e]; [|done].
  destruct Hstep as (a' & m' & Hs' & Hm' & Hp' & ->). by apply IH.
Qed.
End Simulation.


(** The bytes of a string of the request. *)
Definition str_text (m : list Z) (x : ngx_str) : list Z :=
  match str_data x with Some d => slice m d (d + str_len x) | None => [] end.

(** The function leaves [a] in the request, or rejects it. *)
Definition answers (m : option acc) (x : ures) : Prop :=
  match m with
  | None => x = Returns NGX_HTTP_PARSE_INVALID_REQUEST None
  | Some a =>
      exists r, x = Returns NGX_OK (Some r) /\
        slice (uri_mem r) 0 (uri_len r) = render a /\
        (str_text (uri_mem r) <$> exten r) = dot a
  end.

(** The start of the path: '/' or, for an empty path, the end of the URI or the
    '?' or '#' after it. *)
Definition path_start (buf : list Z) (r : fields) (us ue : Z) : Prop :=
  if empty_path_in_uri r
  then us = ue \/ load buf us = Some #"?" \/ load buf us = Some #"#"
  else us < ue /\ load buf us = Some #"/".

(** Its bytes, after the first '/'. *)
Definition path_bytes (buf : list Z) (r : fields) (us ue : Z) : list Z :=
  slice buf (if empty_path_in_uri r then us else us + 1) ue.

Lemma shows_answers buf us ue n k m e :
  agrees m e -> ures_ok us ue n k (of_exit buf ue e) -> answers m (of_exit buf ue e).
Proof.
  assert (Hshow : forall a s x y, shows a s ->
    exists r, Returns NGX_OK (Some (at_done s x y)) = Returns NGX_OK (Some r) /\
      slice (uri_mem r) 0 (uri_len r) = render a /\ (str_text (uri_mem r) <$> exten r) = dot a).
  { intros a s x y (Hu & Ht & Hx). eexists. split; [done|]. cbn.
    split; [unfold slice; by rewrite Z.sub_0_r|].
    destruct (ext s) as [z|]; [|done]. destruct Hx as [Hz ->]. cbn.
    unfold str_text, slice, text. cbn. rewrite skipn_firstn_comm. do 2 f_equal. lia. }
  destruct e as [s|s|c|]; cbn; intros Ha Hok; try done.
  - destruct Ha as (a & -> & Hs). by apply Hshow.
  - destruct Ha as (a & -> & Hs). unfold at_args, answers. repeat case_match; by apply Hshow.
  - by rewrite Ha, Hok.
Qed.

Section Start.
Variable buf : list Z.
Variable merge : bool.
Hypothesis buf_bytes : Forall is_byte buf.

Definition start0 (r : fields) (us : Z) (mem : list Z) : cst :=
  mkC sw_usual sw_usual 0 0 us 0 mem None None (quoted_uri r) (plus_in_uri r).

(** The first '/' leads to the empty path. *)
Lemma first_slash r us ue mem s0 fuel :
  load buf us = Some #"/" -> 0 <= us < ue -> get buf (start0 r us mem) = inl s0 ->
  agrees (path_of merge (slice buf (us + 1) ue)) (final (loop buf merge fuel ue s0)).
Proof.
  intros Hl Hus. unfold get. cbn. rewrite Hl. intros [= <-].
  destruct fuel as [|fuel]; [done|]. cbn [loop p set_p set_ch].
  destruct (_ <=? _) eqn:E; [|lia]. unfold step. cbn [st set_p set_ch start0].
  unfold on_usual. cbn [ch set_ch set_p].
  change (is_usual 47) with false. cbn [Z.eqb Pos.eqb].
  unfold copy. destruct (put _ _) as [s1|e] eqn:Eput; [|unfold put in Eput; by case_match; simplify_eq].
  apply put_text in Eput as (Ht & Hu & Hlen & Heq); [|done]. cbn in Ht, Hu, Hlen.
  cbn [bind]. unfold get. destruct (load buf (p s1)) as [c|] eqn:El; [|done].
  apply (loop_sim buf merge ue buf_bytes fuel (mkAcc [] [] None) _
           (decode (slice buf (us + 1) ue))).
  - subst s1. constructor; cbn in *; try done; try lia; [|by apply not_elem_of_nil].
    rewrite length_insert. lia.
  - replace (us + 1) with (p s1 + 1 - 1) by (subst s1; cbn; lia).
    apply (stream_raw buf ue (s1 |> set_ch c |> set_p (p s1 + 1))); cbn; [by subst s1|].
    by replace (p s1 + 1 - 1) with (p s1) by lia.
  - subst s1. cbn. lia.
Qed.

(** The empty path. *)
Lemma first_empty r us ue mem s0 fuel :
  us = ue \/ load buf us = Some #"?" \/ load buf us = Some #"#" -> 0 <= us <= ue ->
  bind (put #"/" (start0 r us mem)) (fun s => get buf s) = inl s0 ->
  agrees (path_of merge (slice buf us ue)) (final (loop buf merge fuel ue s0)).
Proof.
  intros Hend Hus. destruct (put _ _) as [s1|e] eqn:Eput; [|done]. cbn [bind].
  apply put_text in Eput as (Ht & Hu & Hlen & Heq); [|done]. cbn in Ht, Hu, Hlen.
  unfold get. destruct (load buf (p s1)) as [c|] eqn:El; [|done]. intros [= <-].
  assert (Hp : p s1 = us) by (by subst s1). rewrite Hp in *.
  set (s2 := s1 |> set_ch c |> set_p (us + 1)).
  assert (Hshow : shows (mkAcc [] [] None) s2).
  { subst s2 s1. unfold shows. cbn in *. split; [rewrite length_insert; lia|]. done. }
  destruct fuel as [|fuel]; [done|]. cbn [loop]. change (p s2) with (us + 1).
  destruct (us + 1 <=? ue) eqn:E.
  - destruct Hend as [|Hend]; [lia|].
    assert (Hc : c = 63 \/ c = 35) by (destruct Hend; [left|right]; congruence).
    rewrite (slice_cons buf us ue c) by (done || lia).
    unfold step. replace (st s2) with sw_usual by (by subst s2 s1). unfold on_usual.
    change (ch s2) with c. unfold path_of. cbn [decode].
    by destruct Hc as [-> | ->]; cbn; eexists.
  - rewrite slice_nil by lia. cbn [final]. unfold after_loop.
    replace (st s2) with sw_usual by (by subst s2 s1). by eexists.
Qed.
End Start.

Lemma complex_uri_answers buf merge_slashes r us ue n mem fuel :
  Forall is_byte buf -> 0 <= us -> 0 <= n -> us + n <= ue -> ue < Z.of_nat (length buf) ->
  us + n = ue \/ load buf (us + n) = Some #"?" ->
  Z.of_nat (length mem) = n + (if empty_path_in_uri r then 1 else 0) ->
  2 * (ue - us) + 2 < Z.of_nat fuel ->
  path_start buf r us ue ->
  answers (path_of merge_slashes (path_bytes buf r us ue))
    (ngx_http_parse_complex_uri buf merge_slashes fuel r us ue mem).
Proof.
  intros Hb Hus Hn Hne Hue Hstop Hm Hf Hstart.
  pose proof (complex_uri_ok buf merge_slashes r us ue n mem fuel Hus Hn Hne Hue Hstop Hm Hf) as Hok.
  unfold ngx_http_parse_complex_uri in *. fold (start0 r us mem) in *.
  destruct (bind _ _) as [s0|e] eqn:E0.
  - assert (Ha : agrees (path_of merge_slashes (path_bytes buf r us ue))
                   (final (loop buf merge_slashes fuel ue s0))).
    { unfold path_start, path_bytes in *. destruct (empty_path_in_uri r).
      - eapply first_empty; [done|lia|exact E0].
      - eapply first_slash; [done|apply Hstart|lia|exact E0]. }
    destruct (loop buf merge_slashes fuel ue s0) as [[s|e]|] eqn:El; [| |done].
    + cbn [final] in Ha.
      destruct (after_loop s) as [s'|e]; by eapply shows_answers.
    + by eapply shows_answers.
  - exfalso. set (k := if empty_path_in_uri r then 1 else 0) in *.
    assert (Hk : 0 <= k <= 1) by (unfold k; destruct (empty_path_in_uri r); lia).
    edestruct (start_good buf us ue n k) as (s & Hs & _); [done..|].
    unfold start0 in E0. cbv zeta in Hs. congruence.
Qed.

(** C5. The path of a request is what percent-decoding and the removal of
    dot segments make of it: whatever mix of escapes, slashes and dots is in
    the URI, the single in-place pass returns NGX_OK with [r->uri] equal to
    the rendering of the decoded segments ([..] cancelling the segment before
    it, escaped dots and slashes counting as plain ones, escaped '%', '#' and
    '?' as text), and it returns NGX_HTTP_PARSE_INVALID_REQUEST exactly when
    an escape is malformed or is [%00], or when [..] climbs above the root.
    [r->exten] is the text behind the last '.' of the last segment that starts
    an extension, and NULL when there is none: a '.' starts one when what
    stands in front of it in its segment is not empty, "." or ".." ('/a.b' has
    the extension 'b'; '/.htaccess' and '/...' have none). The path ends at
    the end of the buffer or at a '?', its memory is what [r->uri] gets, and
    [fuel] is above two steps for each byte. *)
Theorem complex_uri_path buf merge_slashes r us ue n mem fuel :
  Forall is_byte buf -> 0 <= us -> 0 <= n -> us + n <= ue -> ue < Z.of_nat (length buf) ->
  us + n = ue \/ load buf (us + n) = Some #"?" ->
  Z.of_nat (length mem) = n + (if empty_path_in_uri r then 1 else 0) ->
  2 * (ue - us) + 2 < Z.of_nat fuel ->
  path_start buf r us ue ->
  answers (path_of merge_slashes (path_bytes buf r us ue))
    (ngx_http_parse_complex_uri buf merge_slashes fuel r us ue mem).
Proof. apply complex_uri_answers. Qed.

(** An example of the buffer that both witnesses use. *)
Definition example_buf : list Z := bytes_of_string "GET /a/%2e%2E//b%2f.x/c.t%78t?x HTTP".

Lemma example_buf_bytes : Forall is_byte example_buf.
Proof.
  apply Forall_forall. intros x Hx. apply list_elem_of_In in Hx.
  vm_compute in Hx. unfold is_byte. decompose [or] Hx; lia.
Qed.

Lemma complex_uri_path_witness :
  exists r,
    ngx_http_parse_complex_uri example_buf true 200 init_fields 4 31 (replicate 25 0) =
      Returns NGX_OK (Some r) /\
    slice (uri_mem r) 0 (uri_len r) = bytes_of_string "/b/.x/c.txt" /\
    (str_text (uri_mem r) <$> exten r) = Some (bytes_of_string "txt").
Proof.
  apply (complex_uri_path example_buf true init_fields 4 31 25 (replicate 25 0) 200);
    try (vm_compute; congruence); try (right; reflexivity); try (split; reflexivity).
  apply example_buf_bytes.
Defined.

(** ** What the text of a path cannot be *)

(** The segments of a rendered path. *)
Definition segments (a : acc) : list (list Z) := cur a :: segs a.

Definition dot_segment (x : list Z) : bool :=
  match state_of x with sw_dot | sw_dot_dot => true | _ => false end.

Definition clean (merge : bool) (a : acc) : Prop :=
  Forall (fun x => dot_segment x = false /\ (#"/" ∉ x) /\ (merge = true -> x <> [])) (segs a) /\
  #"/" ∉ cur a.

Lemma feed_clean merge a c a' : clean merge a -> feed merge a c = Some a' -> clean merge a'.
Proof.
  intros [Hs Hc]. unfold feed, close. destruct (c =? 47) eqn:E.
  - pose proof (state_of_inv (cur a)) as Hi.
    destruct (state_of (cur a)) eqn:Es; try done.
    + intros [= <-]. split; cbn; [|by apply not_elem_of_nil]. constructor; [|done].
      unfold dot_segment. rewrite Es. repeat split; try done. intros _ H0. by rewrite H0 in Es.
    + destruct merge; intros [= <-]; [by split|]. split; cbn; [|by apply not_elem_of_nil].
      constructor; [|done]. split; [done|]. split; [by apply not_elem_of_nil|done].
    + intros [= <-]. split; cbn; [done|by apply not_elem_of_nil].
    + unfold pop. destruct (segs a); [done|]. intros [= <-].
      split; cbn; [by inversion Hs|by apply not_elem_of_nil].
  - intros [= <-]. split; cbn; [done|]. rewrite elem_of_app, list_elem_of_singleton.
    intros [?|?]; [done|lia].
Qed.

Lemma feed_all_clean merge cs a a' :
  clean merge a -> feed_all merge a cs = Some a' -> clean merge a'.
Proof.
  revert a. induction cs as [|c cs IH]; intros a Ha; cbn; [by intros [= <-]|].
  destruct (feed merge a c) as [a1|] eqn:E; [|done]. cbn. apply IH. by eapply feed_clean.
Qed.

Lemma path_of_clean merge bs a :
  path_of merge bs = Some a -> clean merge a /\ dot_segment (cur a) = false.
Proof.
  unfold path_of. destruct (decode bs) as [cs|]; [|done]. cbn.
  destruct (feed_all _ _ _) as [a1|] eqn:E; [|done]. cbn.
  assert (Ha1 : clean merge a1).
  { eapply feed_all_clean; [|exact E]. split; [constructor|by apply not_elem_of_nil]. }
  unfold finish, dot_segment. destruct Ha1 as [Hs Hc].
  destruct (state_of (cur a1)) eqn:Es; try (intros [= <-]; rewrite ?Es; by split).
  - intros [= <-]. split; [split; [done|by apply not_elem_of_nil]|done].
  - unfold pop. destruct (segs a1); [done|]. intros [= <-].
    split; [split|done]; cbn; [by inversion Hs|by apply not_elem_of_nil].
Qed.

(** The text between the '/' of a path. *)
Fixpoint split_slash (t : list Z) : list (list Z) :=
  match t with
  | [] => [[]]
  | c :: t' =>
      match split_slash t' with
      | s :: l => if c =? #"/" then [] :: s :: l else (c :: s) :: l
      | [] => []
      end
  end.

Lemma split_slash_app s t : #"/" ∉ s -> split_slash (s ++ #"/" :: t) = s :: split_slash t.
Proof.
  induction s as [|c s IH]; intros Hs; cbn.
  - assert (Hn : split_slash t <> []).
    { clear. induction t as [|c t IH]; cbn; [done|]. destruct (split_slash t); [done|]. by case_match. }
    by destruct (split_slash t).
  - rewrite not_elem_of_cons in Hs. destruct Hs as [Hc Hs]. cbn in IH. rewrite IH by done.
    by destruct (c =? 47) eqn:E; [lia|].
Qed.

Lemma split_slash_one s : #"/" ∉ s -> split_slash s = [s].
Proof.
  induction s as [|c s IH]; intros Hs; cbn; [done|].
  rewrite not_elem_of_cons in Hs. destruct Hs as [Hc Hs]. rewrite IH by done.
  by destruct (c =? 47) eqn:E; [lia|].
Qed.

Lemma split_slash_render l t :
  Forall (fun x => #"/" ∉ x) l ->
  split_slash (render_segs l ++ #"/" :: t) = [] :: rev l ++ split_slash t.
Proof.
  intros Hl. revert t. induction Hl as [|s l Hs _ IH]; intros t; cbn [render_segs rev].
  - apply (split_slash_app [] t). by apply not_elem_of_nil.
  - rewrite <- app_assoc, <- app_comm_cons, IH, split_slash_app by done. by rewrite <- app_assoc.
Qed.

(** C6. No accepted path climbs: when [ngx_http_parse_complex_uri] returns
    NGX_OK, [r->uri] starts with '/', none of its segments is "." or "..",
    and with [merge_slashes] none but the last is empty, so a location or a
    file name derived from it cannot leave the root, however the dots and
    slashes were escaped. *)
Theorem complex_uri_no_traversal buf merge_slashes r us ue n mem fuel res :
  Forall is_byte buf -> 0 <= us -> 0 <= n -> us + n <= ue -> ue < Z.of_nat (length buf) ->
  us + n = ue \/ load buf (us + n) = Some #"?" ->
  Z.of_nat (length mem) = n + (if empty_path_in_uri r then 1 else 0) ->
  2 * (ue - us) + 2 < Z.of_nat fuel ->
  path_start buf r us ue ->
  ngx_http_parse_complex_uri buf merge_slashes fuel r us ue mem = Returns NGX_OK (Some res) ->
  exists l x,
    split_slash (slice (uri_mem res) 0 (uri_len res)) = [] :: l ++ [x] /\
    (forall s, s ∈ l ++ [x] -> s <> bytes_of_string "." /\ s <> bytes_of_string "..") /\
    (merge_slashes = true -> [] ∉ l).
Proof.
  intros Hb Hus Hn Hne Hue Hstop Hm Hf Hstart Hres.
  pose proof (complex_uri_answers buf merge_slashes r us ue n mem fuel Hb Hus Hn Hne Hue Hstop Hm Hf Hstart) as Ha.
  rewrite Hres in Ha. destruct (path_of _ _) as [a|] eqn:Ep; [|done].
  destruct Ha as (r' & [= <-] & Ht & _). apply path_of_clean in Ep as [[Hs Hc] Hd].
  rewrite Forall_forall in Hs. exists (rev (segs a)), (cur a).
  assert (Hseg : forall s, dot_segment s = false ->
    s <> bytes_of_string "." /\ s <> bytes_of_string "..") by (intros s H0; split; by intros ->).
  split; [|split].
  - rewrite Ht. unfold render. rewrite split_slash_render, split_slash_one; [done|done|].
    rewrite Forall_forall. intros y Hy. by apply Hs.
  - intros s. rewrite elem_of_app, list_elem_of_singleton. intros [Hin| ->]; [|by apply Hseg].
    apply list_elem_of_In, in_rev, list_elem_of_In in Hin. apply Hseg, Hs, Hin.
  - intros Hmg Hin. apply list_elem_of_In, in_rev, list_elem_of_In in Hin.
    by destruct (Hs _ Hin) as (_ & _ & Hne0); [apply Hne0].
Qed.

Lemma complex_uri_no_traversal_witness :
  exists r,
    ngx_http_parse_complex_uri example_buf true 200 init_fields 4 31 (replicate 25 0) =
      Returns NGX_OK (Some r) /\
    exists l x, split_slash (slice (uri_mem r) 0 (uri_len r)) = [] :: l ++ [x] /\
      (forall s, s ∈ l ++ [x] -> s <> bytes_of_string "." /\ s <> bytes_of_string "..") /\
      (true = true -> [] ∉ l).
Proof.
  eexists. split; [vm_compute; reflexivity|].
  apply (complex_uri_no_traversal example_buf true init_fields 4 31 25 (replicate 25 0) 200);
    try (vm_compute; congruence); try (right; reflexivity); try (split; reflexivity).
  apply example_buf_bytes.
Defined.

End PathSpec.
