(* ===== verification/NgxStatusLine.v ===== *)
(** [ngx_http_parse_status_line]
    (src/http1-1/src/upstream/src/http/ngx_http_parse.c, lines 1623-1838): the
    status line of an upstream response, with [ngx_http_status_t] of
    ngx_http.h (lines 71-77). *)

From S2P Require Import NgxBase.
Open Scope Z_scope.

Module StatusLine.

Inductive sw :=
  | sw_start | sw_H | sw_HT | sw_HTT | sw_HTTP | sw_first_major_digit | sw_major_digit
  | sw_first_minor_digit | sw_minor_digit | sw_status | sw_space_after_status
  | sw_status_text | sw_almost_done.

Definition all_sw : list sw :=
  [sw_start; sw_H; sw_HT; sw_HTT; sw_HTTP; sw_first_major_digit; sw_major_digit;
   sw_first_minor_digit; sw_minor_digit; sw_status; sw_space_after_status;
   sw_status_text; sw_almost_done].

Definition sw_of_Z (z : Z) : option sw :=
  if z <? 0 then None else all_sw !! Z.to_nat z.

Definition Z_of_sw (s : sw) : Z :=
  match s with
  | sw_start => 0 | sw_H => 1 | sw_HT => 2 | sw_HTT => 3 | sw_HTTP => 4
  | sw_first_major_digit => 5 | sw_major_digit => 6 | sw_first_minor_digit => 7
  | sw_minor_digit => 8 | sw_status => 9 | sw_space_after_status => 10
  | sw_status_text => 11 | sw_almost_done => 12
  end.

Lemma status_sw_of_Z s : sw_of_Z (Z_of_sw s) = Some s.
Proof. by destruct s. Qed.

(** [ngx_http_status_t] *)
Record ngx_http_status_t := mkStatus {
  st_http_version : Z;
  code : Z;
  count : Z;
  start : ptr;
  end_ : ptr
}.

Definition init_status : ngx_http_status_t := mkStatus 0 0 0 None None.

(** The locals of the loop: the request and the status. *)
Record locals := mkL { req : fields; status : ngx_http_status_t }.

Inductive exit := goto_done (l : locals) | return_error (l : locals).

Abbreviation outcome := ((sw * locals) + exit)%type.

Definition next (s : sw) (l : locals) : outcome := inl (s, l).
Definition error (l : locals) : outcome := inr (return_error l).

Definition is_digit (ch : Z) : bool := negb ((ch <? #"0") || (#"9" <? ch)).

(** [case c: state = s; break; default: return NGX_ERROR;] *)
Definition expect (c : Z) (s : sw) (ch : Z) (l : locals) : outcome :=
  if ch =? c then next s l else error l.

Definition on_first_major_digit (ch : Z) (l : locals) : outcome :=
  if (ch <? #"1") || (#"9" <? ch) then error l
  else next sw_major_digit (mkL (req l |> set_http_major (ch - #"0")) (status l)).

Definition on_major_digit (ch : Z) (l : locals) : outcome :=
  if ch =? #"." then next sw_first_minor_digit l
  else if (ch <? #"0") || (#"9" <? ch) then error l
  else if 99 <? http_major (req l) then error l
  else next sw_major_digit
         (mkL (req l |> set_http_major (http_major (req l) * 10 + (ch - #"0"))) (status l)).

Definition on_first_minor_digit (ch : Z) (l : locals) : outcome :=
  if (ch <? #"0") || (#"9" <? ch) then error l
  else next sw_minor_digit (mkL (req l |> set_http_minor (ch - #"0")) (status l)).

Definition on_minor_digit (ch : Z) (l : locals) : outcome :=
  if ch =? #" " then next sw_status l
  else if (ch <? #"0") || (#"9" <? ch) then error l
  else if 99 <? http_minor (req l) then error l
  else next sw_minor_digit
         (mkL (req l |> set_http_minor (http_minor (req l) * 10 + (ch - #"0"))) (status l)).

(** [status->code] and [status->count] are 64-bit. *)
Definition on_status (p ch : Z) (l : locals) : outcome :=
  if ch =? #" " then next sw_status l
  else if (ch <? #"0") || (#"9" <? ch) then error l
  else
    let t := status l in
    let code' := u64 (code t * 10 + (ch - #"0")) in
    let count' := u64 (count t + 1) in
    if count' =? 3 then
      next sw_space_after_status
        (mkL (req l) (mkStatus (st_http_version t) code' count' (Some (p - 2)) (end_ t)))
    else next sw_status (mkL (req l) (mkStatus (st_http_version t) code' count' (start t) (end_ t))).

Definition on_space_after_status (ch : Z) (l : locals) : outcome :=
  if (ch =? #" ") || (ch =? #".") then next sw_status_text l
  else if ch =? CR then next sw_almost_done l
  else if ch =? LF then inr (goto_done l)
  else error l.

Definition on_status_text (ch : Z) (l : locals) : outcome :=
  if ch =? CR then next sw_almost_done l
  else if ch =? LF then inr (goto_done l)
  else next sw_status_text l.

Definition set_end (e : Z) (t : ngx_http_status_t) : ngx_http_status_t :=
  mkStatus (st_http_version t) (code t) (count t) (start t) (Some e).

Definition on_almost_done (p ch : Z) (l : locals) : outcome :=
  let l := mkL (req l) (set_end (p - 1) (status l)) in
  if ch =? LF then inr (goto_done l) else error l.

Definition step (p ch : Z) (x : sw * locals) : outcome :=
  let '(s, l) := x in
  match s with
  | sw_start => expect #"H" sw_H ch l
  | sw_H => expect #"T" sw_HT ch l
  | sw_HT => expect #"T" sw_HTT ch l
  | sw_HTT => expect #"P" sw_HTTP ch l
  | sw_HTTP => expect #"/" sw_first_major_digit ch l
  | sw_first_major_digit => on_first_major_digit ch l
  | sw_major_digit => on_major_digit ch l
  | sw_first_minor_digit => on_first_minor_digit ch l
  | sw_minor_digit => on_minor_digit ch l
  | sw_status => on_status p ch l
  | sw_space_after_status => on_space_after_status ch l
  | sw_status_text => on_status_text ch l
  | sw_almost_done => on_almost_done p ch l
  end.

(** The code at [done], at [p]. *)
Definition at_done (p : Z) (l : locals) : ngx_http_status_t :=
  let t := status l in
  let t := match end_ t with None => set_end p t | Some _ => t end in
  mkStatus (http_major (req l) * 1000 + http_minor (req l)) (code t) (count t) (start t) (end_ t).

Definition ngx_http_parse_status_line (buf : list Z) (r : ngx_http_request)
    (t : ngx_http_status_t) (pos last : Z) : rc * ngx_http_request * ngx_http_status_t * Z :=
  match sw_of_Z (state r) with
  | None => (NGX_AGAIN, r, t, Z.max pos last)
  | Some s =>
      match run step pos (slice buf pos last) (s, mkL (flds r) t) with
      | inl (p, (s', l)) =>
          (NGX_AGAIN, mkReq (Z_of_sw s') (header_hash r) (lowcase_index r) (req l), status l, p)
      | inr (p, goto_done l) =>
          (NGX_OK, mkReq (Z_of_sw sw_start) (header_hash r) (lowcase_index r) (req l),
           at_done p l, p + 1)
      | inr (p, return_error l) =>
          (NGX_ERROR, mkReq (state r) (header_hash r) (lowcase_index r) (req l), status l, pos)
      end
  end.

(** ** Delivery in pieces *)

(** The parser as the delivery interface sees it: the state is the request and
    the status. *)
Definition parse (buf : list Z) (a : ngx_http_request * ngx_http_status_t) (pos last : Z)
    : rc * (ngx_http_request * ngx_http_status_t) * Z :=
  let '(c, r, t, p) := ngx_http_parse_status_line buf a.1 a.2 pos last in (c, (r, t), p).

(** NGX_ERROR does not save the state and the position. *)
Definition norm (c : rc) (a : ngx_http_request * ngx_http_status_t) (p : Z) :=
  match c with
  | NGX_ERROR => (mkReq 0 (header_hash a.1) (lowcase_index a.1) (flds a.1), a.2, 0)
  | _ => (a.1, a.2, p)
  end.

#[export] Instance status_line_resumable buf :
  Resumable (Z.of_nat (length buf)) (fun _ => True) (parse buf) norm.
Proof.
  split; [by intros [? ?] p [? ?] p' [= -> -> ->]|].
  intros [r t] pos mid last _ Hpos Hmid Hlast Hlim. unfold parse, ngx_http_parse_status_line.
  cbn [fst snd]. destruct (sw_of_Z (state r)) as [s|] eqn:Es; simpl.
  2: { rewrite Es. split; [done|]. split; [lia|]. simpl. do 2 f_equal. lia. }
  rewrite (slice_split buf pos mid last) by done. rewrite run_app.
  destruct (run _ pos (slice buf pos mid) _) as [[p [s' l]]|[p [l|l]]] eqn:E; try done.
  simpl. rewrite status_sw_of_Z. apply run_exhausted in E.
  assert (p = mid) as -> by (pose proof (slice_length buf pos mid); lia).
  split; [done|]. split; [done|]. destruct l as [rq tt].
  by destruct (run _ mid _ _) as [[? [? ?]]|[? [?|?]]].
Qed.

(** The status line of a response is parsed the same however it arrives:
    for every increasing sequence of read events that ends at [last], the
    calls of [ngx_http_parse_status_line] that resume from the saved state
    end with the return code, the request, the status and the position of one
    call on the whole line. *)
Theorem status_line_delivery buf r t pos lasts last :
  0 <= pos <= last -> last <= Z.of_nat (length buf) ->
  (forall l, l ∈ lasts -> pos <= l <= last) -> Sorted Z.le lasts ->
  observe norm (deliver (parse buf) (r, t) pos (lasts ++ [last])) =
  observe norm (parse buf (r, t) pos last).
Proof. intros [? ?] ? ? ?. by apply (deliver_once (Z.of_nat (length buf)) (fun _ => True)); try apply _. Qed.

Definition sample_status : list Z := bytes_of_string "HTTP/1.1 404 Gone" ++ [CR; LF].

Lemma status_line_delivery_witness :
  observe norm (deliver (parse sample_status) (init_request, init_status) 0 ([3; 11] ++ [19])) =
  observe norm (parse sample_status (init_request, init_status) 0 19).
Proof.
  apply status_line_delivery; [lia | by vm_compute | | repeat constructor; lia].
  intros l Hl. set_unfold in Hl. lia.
Defined.

(** ** The lines that are accepted *)

Definition digit_list (ds : list Z) : Prop := Forall (fun c => #"0" <= c <= #"9") ds.

(** The number that digits denote. *)
Definition num (ds : list Z) : Z := foldl (fun n c => n * 10 + (c - #"0")) 0 ds.

(** The text after the code, with its separator, and the line end. *)
Definition rest_ok (rest : list Z) : Prop :=
  match rest with
  | [] => True
  | c :: text => (c = #" " \/ c = #".") /\ no_eol text
  end.

Definition http : list Z := Eval vm_compute in bytes_of_string "HTTP/".

Lemma run_http p l : run step p http (sw_start, l) = inl (p + 5, (sw_first_major_digit, l)).
Proof. cbn. do 2 f_equal. lia. Qed.

(** The value that further digits make of [n]. *)
Definition more (n : Z) (ds : list Z) : Z := foldl (fun n c => n * 10 + (c - #"0")) n ds.

Lemma run_major_tail p ds f t n :
  digit_list ds -> 0 <= n -> (n + 1) * 10 ^ Z.of_nat (length ds) <= 1000 ->
  run step p ds (sw_major_digit, mkL (f |> set_http_major n) t) =
  inl (p + Z.of_nat (length ds), (sw_major_digit, mkL (f |> set_http_major (more n ds)) t)).
Proof.
  intros Hd. revert p n. induction Hd as [|c ds Hc _ IH]; intros p n Hn Hb.
  - cbn. by rewrite Z.add_0_r.
  - cbn [length] in Hb. rewrite Nat2Z.inj_succ, Z.pow_succ_r in Hb by lia.
    assert (0 < 10 ^ Z.of_nat (length ds)) by (apply Z.pow_pos_nonneg; lia).
    assert (Hn99 : n <= 99) by nia.
    assert (Hu : u16 n = n) by (unfold u16; apply Z.mod_small; lia).
    cbn [run step]. unfold on_major_digit. cbn [req http_major set_http_major status]. rewrite Hu.
    replace (c =? 46) with false by lia. replace (_ || _) with false by lia.
    replace (99 <? n) with false by lia. unfold next. 
    change (set_http_major ?x (set_http_major n f)) with (set_http_major x f).
    rewrite IH by nia. cbn [more length foldl]. do 2 f_equal. lia.
Qed.

Lemma run_minor_tail p ds f t n :
  digit_list ds -> 0 <= n -> (n + 1) * 10 ^ Z.of_nat (length ds) <= 1000 ->
  run step p ds (sw_minor_digit, mkL (f |> set_http_minor n) t) =
  inl (p + Z.of_nat (length ds), (sw_minor_digit, mkL (f |> set_http_minor (more n ds)) t)).
Proof.
  intros Hd. revert p n. induction Hd as [|c ds Hc _ IH]; intros p n Hn Hb.
  - cbn. by rewrite Z.add_0_r.
  - cbn [length] in Hb. rewrite Nat2Z.inj_succ, Z.pow_succ_r in Hb by lia.
    assert (0 < 10 ^ Z.of_nat (length ds)) by (apply Z.pow_pos_nonneg; lia).
    assert (Hn99 : n <= 99) by nia.
    assert (Hu : u16 n = n) by (unfold u16; apply Z.mod_small; lia).
    cbn [run step]. unfold on_minor_digit. cbn [req http_minor set_http_minor status]. rewrite Hu.
    replace (c =? 32) with false by lia. replace (_ || _) with false by lia.
    replace (99 <? n) with false by lia. unfold next.
    change (set_http_minor ?x (set_http_minor n f)) with (set_http_minor x f).
    rewrite IH by nia. cbn [more length foldl]. do 2 f_equal. lia.
Qed.

(** A version number: a first digit, then at most two others. *)
Definition version_digits (first : Z) (ds : list Z) : Prop :=
  digit_list ds /\ first <= hd 0 ds /\ (1 <= length ds <= 3)%nat.

Lemma pow_bound c (ds : list Z) : #"0" <= c <= #"9" -> (length ds <= 2)%nat ->
  (c - #"0" + 1) * 10 ^ Z.of_nat (length ds) <= 1000.
Proof. intros Hc Hl. destruct ds as [|? [|? [|]]]; cbn in *; lia. Qed.

Lemma run_status_version p major minor f t :
  version_digits #"1" major -> version_digits #"0" minor ->
  run step p (major ++ [#"."] ++ minor ++ [#" "]) (sw_first_major_digit, mkL f t) =
  inl (p + Z.of_nat (length major + length minor + 2),
       (sw_status, mkL (f |> set_http_major (num major) |> set_http_minor (num minor)) t)).
Proof.
  intros (HM & HM1 & HMl) (Hm & Hm1 & Hml).
  destruct major as [|c major]; [cbn in HMl; lia|]. destruct minor as [|d minor]; [cbn in Hml; lia|].
  unfold digit_list in HM, Hm. rewrite Forall_cons in HM, Hm. cbn [hd length] in *.
  destruct HM as [Hc HM], Hm as [Hd Hm].
  cbn [app run step]. unfold on_first_major_digit. replace (_ || _) with false by lia.
  cbn [next req status]. rewrite run_app, run_major_tail; [|done|lia|apply pow_bound; lia].
  cbn [run step]. unfold on_major_digit. cbn [next Z.eqb Pos.eqb].
  cbn [run step]. unfold on_first_minor_digit. replace (_ || _) with false by lia.
  cbn [next req status]. rewrite run_app, run_minor_tail; [|done|lia|apply pow_bound; lia].
  cbn [run step]. unfold on_minor_digit. cbn [next Z.eqb Pos.eqb].
  cbn [more num foldl Z.mul Z.add]. do 2 f_equal. lia.
Qed.

(** Spaces, three digits: the code, and where it starts. *)
Lemma run_code p k a b c f :
  digit_list [a; b; c] ->
  run step p (repeat #" " k ++ [a; b; c]) (sw_status, mkL f init_status) =
  inl (p + Z.of_nat k + 3,
       (sw_space_after_status,
        mkL f (mkStatus 0 (num [a; b; c]) 3 (Some (p + Z.of_nat k)) None))).
Proof.
  intros Hd. unfold digit_list in Hd. repeat rewrite Forall_cons in Hd.
  destruct Hd as (Ha & Hb & Hc & _). rewrite run_app, run_stays.
  2: { intros q ch Hin. apply list_elem_of_In, repeat_spec in Hin. by subst ch. }
  rewrite repeat_length. cbn [run step]. unfold on_status. cbn [status count code init_status].
  replace (a =? 32) with false by lia. replace (_ || _) with false by lia.
  change (u64 (0 + 1)) with 1. cbn [Z.eqb Pos.eqb next run step].
  unfold on_status. cbn [status count code req st_http_version start end_].
  replace (b =? 32) with false by lia. replace (_ || _) with false by lia.
  change (u64 (1 + 1)) with 2. cbn [Z.eqb Pos.eqb next run step].
  unfold on_status. cbn [status count code req st_http_version start end_].
  replace (c =? 32) with false by lia. replace (_ || _) with false by lia.
  change (u64 (2 + 1)) with 3. cbn [Z.eqb Pos.eqb next run step].
  replace (p + Z.of_nat k + 1 + 1 - 2) with (p + Z.of_nat k) by lia.
  replace (u64 _) with (num [a; b; c]) by (unfold u64; cbn; lia_mod).
  do 2 f_equal. lia.
Qed.

Lemma run_text p t f rest :
  rest_ok rest ->
  exists s, run step p rest (sw_space_after_status, mkL f t) =
              inl (p + Z.of_nat (length rest), (s, mkL f t)) /\
    (s = sw_space_after_status \/ s = sw_status_text).
Proof.
  destruct rest as [|c text]; cbn [rest_ok].
  - intros _. exists sw_space_after_status. split; [|by left]. cbn. by rewrite Z.add_0_r.
  - intros [Hc Ht]. exists sw_status_text. split; [|by right]. cbn [run step].
    unfold on_space_after_status. replace (_ || _) with true by lia. cbn [next].
    rewrite run_stays; [cbn [length]; do 2 f_equal; lia|].
    intros q ch Hin. unfold no_eol in Ht. rewrite Forall_forall in Ht. destruct (Ht ch Hin).
    cbn [step]. unfold on_status_text.
    destruct (ch =? 13) eqn:E1; [lia|]. destruct (ch =? 10) eqn:E2; [lia|]. done.
Qed.

Lemma run_eol p eol s f t :
  eol_ok eol -> s = sw_space_after_status \/ s = sw_status_text -> end_ t = None ->
  exists t', run step p eol (s, mkL f t) =
    inr (p + Z.of_nat (length eol) - 1, goto_done (mkL f t')) /\
    at_done (p + Z.of_nat (length eol) - 1) (mkL f t') =
      mkStatus (http_major f * 1000 + http_minor f) (code t) (count t) (start t) (Some p).
Proof.
  intros He Hs Ht.
  destruct He as [-> | ->], Hs as [-> | ->]; cbn; eexists; (split; [f_equal; f_equal; lia|]);
    unfold at_done; cbn; rewrite ?Ht; cbn; repeat f_equal; lia.
Qed.

(** The value of version digits fits the 16-bit fields. *)
Lemma num_version first ds : version_digits first ds -> #"0" <= first -> 0 <= num ds < 1000.
Proof.
  intros (Hd & Hh & Hl) Hf. unfold digit_list in Hd.
  destruct ds as [|a [|b [|c [|]]]]; try (cbn in Hl; lia);
    repeat rewrite Forall_cons in Hd; destruct_and?; cbn in *; lia.
Qed.

(** Every status line is understood: "HTTP/", a major and a minor
    version of one to three digits, spaces, a three-digit code, an optional
    text after a space or a dot, and CR LF or LF is accepted from a cleared
    request and status; all of it is consumed, the code and the version are
    the values of the digits, [status->start] is the first digit of the code
    and [status->end] is the end of the line without its CR LF. *)
Theorem status_line_complete buf r pos last major minor k a b c rest eol :
  state r = 0 -> 0 <= pos ->
  version_digits #"1" major -> version_digits #"0" minor -> digit_list [a; b; c] ->
  rest_ok rest -> eol_ok eol ->
  slice buf pos last =
    http ++ (major ++ [#"."] ++ minor ++ [#" "]) ++ (repeat #" " k ++ [a; b; c]) ++ rest ++ eol ->
  let st := pos + 5 + Z.of_nat (length major + length minor + 2) + Z.of_nat k in
  let e := st + 3 + Z.of_nat (length rest) in
  exists r', ngx_http_parse_status_line buf r init_status pos last =
    (NGX_OK, r', mkStatus (num major * 1000 + num minor) (num [a; b; c]) 3 (Some st) (Some e),
     e + Z.of_nat (length eol)) /\ state r' = 0.
Proof.
  intros Hs Hpos HM Hm Hd Hrest Heol Hslice st e.
  unfold ngx_http_parse_status_line. rewrite Hs, Hslice. change (sw_of_Z 0) with (Some sw_start).
  cbn iota. rewrite run_app, run_http, run_app, run_status_version, run_app, run_code by done.
  fold st. rewrite run_app.
  match goal with |- context [mkL ?f ?t] => destruct (run_text (st + 3) t f rest Hrest) as (s & -> & Hs')
  end. fold e.
  match goal with |- context [mkL ?f ?t] =>
    destruct (run_eol e eol s f t Heol Hs' eq_refl) as (t' & -> & ->) end.
  cbn [http_major http_minor set_http_major set_http_minor code count start].
  apply num_version in HM, Hm; [|lia..].
  unfold u16. rewrite (Z.mod_small (num major) 65536), (Z.mod_small (num minor) 65536) by lia.
  replace (e + Z.of_nat (length eol) - 1 + 1) with (e + Z.of_nat (length eol)) by lia.
  eexists. split; [reflexivity|reflexivity].
Qed.

Lemma status_line_complete_witness :
  exists r', ngx_http_parse_status_line sample_status init_request init_status 0 19 =
    (NGX_OK, r', mkStatus 1001 404 3 (Some 9) (Some 17), 19) /\ state r' = 0.
Proof.
  apply (status_line_complete sample_status init_request 0 19 [#"1"] [#"1"] 0 #"4" #"0" #"4"
           (bytes_of_string " Gone") [CR; LF]);
    try (by vm_compute); try (by repeat split; repeat constructor);
    try (by right).
  all: cbn; repeat (split || constructor); try lia.
Defined.

End StatusLine.
