(* ===== verification/NgxChunked.v ===== *)
(** [ngx_http_parse_chunked]
    (src/http1-1/src/upstream/src/http/ngx_http_parse.c, lines 2144-2409), with
    [ngx_http_chunked_s] of ngx_http.h (lines 64-68): the framing of a chunked
    body.  The caller consumes the data bytes: it takes them off [ctx->size]
    before it calls the parser again. *)

From S2P Require Import NgxBase.
Open Scope Z_scope.

Module Chunked.

Inductive sw :=
  | sw_chunk_start | sw_chunk_size | sw_chunk_extension | sw_chunk_extension_almost_done
  | sw_chunk_data | sw_after_data | sw_after_data_almost_done | sw_last_chunk_extension
  | sw_last_chunk_extension_almost_done | sw_trailer | sw_trailer_almost_done
  | sw_trailer_header | sw_trailer_header_almost_done.

#[export] Instance sw_eq_dec : EqDecision sw.
Proof. solve_decision. Defined.

Definition all_sw : list sw :=
  [sw_chunk_start; sw_chunk_size; sw_chunk_extension; sw_chunk_extension_almost_done;
   sw_chunk_data; sw_after_data; sw_after_data_almost_done; sw_last_chunk_extension;
   sw_last_chunk_extension_almost_done; sw_trailer; sw_trailer_almost_done;
   sw_trailer_header; sw_trailer_header_almost_done].

Definition sw_of_Z (z : Z) : option sw :=
  if z <? 0 then None else all_sw !! Z.to_nat z.

Definition Z_of_sw (s : sw) : Z :=
  match s with
  | sw_chunk_start => 0 | sw_chunk_size => 1 | sw_chunk_extension => 2
  | sw_chunk_extension_almost_done => 3 | sw_chunk_data => 4 | sw_after_data => 5
  | sw_after_data_almost_done => 6 | sw_last_chunk_extension => 7
  | sw_last_chunk_extension_almost_done => 8 | sw_trailer => 9
  | sw_trailer_almost_done => 10 | sw_trailer_header => 11
  | sw_trailer_header_almost_done => 12
  end.

Lemma chunked_sw_of_Z s : sw_of_Z (Z_of_sw s) = Some s.
Proof. by destruct s. Qed.

(** [ngx_http_chunked_t]; [size] and [length] are [off_t]. *)
Record ngx_http_chunked_t := mkCtx { ctx_state : Z; size : Z; len : Z }.

(** How the loop is left. *)
Inductive exit :=
  | goto_data (s : sw) (sz : Z)   (* rc = NGX_OK; goto data *)
  | goto_done (sz : Z)
  | goto_invalid (sz : Z).

Abbreviation outcome := ((sw * Z) + exit)%type.

Definition next (s : sw) (sz : Z) : outcome := inl (s, sz).

Section Step.
(** [NGX_MAX_OFF_T_VALUE], from the generated configuration. *)
Variable MAX : Z.

Definition on_chunk_start (ch : Z) (sz : Z) : outcome :=
  let c := Z.lor ch 0x20 in
  if (#"0" <=? ch) && (ch <=? #"9") then next sw_chunk_size (ch - #"0")
  else if (#"a" <=? c) && (c <=? #"f") then next sw_chunk_size (c - #"a" + 10)
  else inr (goto_invalid sz).

Definition on_chunk_size (ch : Z) (sz : Z) : outcome :=
  let c := Z.lor ch 0x20 in
  if MAX / 16 <? sz then inr (goto_invalid sz)
  else if (#"0" <=? ch) && (ch <=? #"9") then next sw_chunk_size (sz * 16 + (ch - #"0"))
  else if (#"a" <=? c) && (c <=? #"f") then next sw_chunk_size (sz * 16 + (c - #"a" + 10))
  else if sz =? 0 then
    if ch =? CR then next sw_last_chunk_extension_almost_done sz
    else if ch =? LF then next sw_trailer sz
    else if (ch =? #";") || (ch =? #" ") || (ch =? 9) then next sw_last_chunk_extension sz
    else inr (goto_invalid sz)
  else
    if ch =? CR then next sw_chunk_extension_almost_done sz
    else if ch =? LF then next sw_chunk_data sz
    else if (ch =? #";") || (ch =? #" ") || (ch =? 9) then next sw_chunk_extension sz
    else inr (goto_invalid sz).

(** [case CR: state = cr; break; case LF: state = lf; break; default: state = other] *)
Definition line (cr lf other : sw) (ch sz : Z) : outcome :=
  if ch =? CR then next cr sz else if ch =? LF then next lf sz else next other sz.

(** [if (ch == LF) { state = s; break; } goto invalid] *)
Definition expect_lf (s : sw) (ch sz : Z) : outcome :=
  if ch =? LF then next s sz else inr (goto_invalid sz).

Definition on_after_data (ch sz : Z) : outcome :=
  if ch =? CR then next sw_after_data_almost_done sz
  else if ch =? LF then next sw_chunk_start sz
  else inr (goto_invalid sz).

Definition on_trailer (ch sz : Z) : outcome :=
  if ch =? CR then next sw_trailer_almost_done sz
  else if ch =? LF then inr (goto_done sz)
  else next sw_trailer_header sz.

Definition on_trailer_almost_done (ch sz : Z) : outcome :=
  if ch =? LF then inr (goto_done sz) else inr (goto_invalid sz).

Definition step (p ch : Z) (x : sw * Z) : outcome :=
  let '(s, sz) := x in
  match s with
  | sw_chunk_start => on_chunk_start ch sz
  | sw_chunk_size => on_chunk_size ch sz
  | sw_chunk_extension => line sw_chunk_extension_almost_done sw_chunk_data sw_chunk_extension ch sz
  | sw_chunk_extension_almost_done => expect_lf sw_chunk_data ch sz
  | sw_chunk_data => inr (goto_data sw_chunk_data sz)
  | sw_after_data => on_after_data ch sz
  | sw_after_data_almost_done => expect_lf sw_chunk_start ch sz
  | sw_last_chunk_extension =>
      line sw_last_chunk_extension_almost_done sw_trailer sw_last_chunk_extension ch sz
  | sw_last_chunk_extension_almost_done => expect_lf sw_trailer ch sz
  | sw_trailer => on_trailer ch sz
  | sw_trailer_almost_done => on_trailer_almost_done ch sz
  | sw_trailer_header => line sw_trailer_header_almost_done sw_trailer sw_trailer_header ch sz
  | sw_trailer_header_almost_done => expect_lf sw_trailer ch sz
  end.

(** The second [switch (state)]: [ctx->length]. *)
Definition length_of (s : sw) (sz : Z) : Z :=
  match s with
  | sw_chunk_start => 3
  | sw_chunk_size => 1 + (if sz =? 0 then 1 else sz + 4)
  | sw_chunk_extension | sw_chunk_extension_almost_done => 1 + sz + 4
  | sw_chunk_data => sz + 4
  | sw_after_data | sw_after_data_almost_done => 4
  | sw_last_chunk_extension | sw_last_chunk_extension_almost_done => 2
  | sw_trailer | sw_trailer_almost_done => 1
  | sw_trailer_header | sw_trailer_header_almost_done => 2
  end.

(** The code at the label [data]: return code, context, position. *)
Definition at_data (c : rc) (s : sw) (sz : Z) (ctx : ngx_http_chunked_t) (p : Z)
    : rc * ngx_http_chunked_t * Z :=
  if MAX - 5 <? sz then (NGX_ERROR, mkCtx (Z_of_sw s) sz (len ctx), p)
  else (c, mkCtx (Z_of_sw s) sz (length_of s sz), p).

(** [state = ctx->state; if (state == sw_chunk_data && ctx->size == 0) ...] *)
Definition entry_state (s : sw) (sz : Z) : sw :=
  if bool_decide (s = sw_chunk_data) && (sz =? 0) then sw_after_data else s.

(** [ctx->size] is written in place; [invalid] saves nothing else. *)
Definition ngx_http_parse_chunked (buf : list Z) (ctx : ngx_http_chunked_t) (pos last : Z)
    : rc * ngx_http_chunked_t * Z :=
  match sw_of_Z (ctx_state ctx) with
  | None => (NGX_AGAIN, ctx, Z.max pos last)
  | Some s =>
      match run step pos (slice buf pos last) (entry_state s (size ctx), size ctx) with
      | inl (p, (s', sz)) => at_data NGX_AGAIN s' sz ctx p
      | inr (p, goto_data s' sz) => at_data NGX_OK s' sz ctx p
      | inr (p, goto_done sz) => (NGX_DONE, mkCtx 0 sz (len ctx), p + 1)
      | inr (p, goto_invalid sz) => (NGX_ERROR, mkCtx (ctx_state ctx) sz (len ctx), pos)
      end
  end.
End Step.

Section Bounds.
Variable MAX : Z.
Hypothesis MAX_16 : MAX mod 16 = 15.
Hypothesis MAX_min : 15 <= MAX.

Definition in_range (sz : Z) : Prop := 0 <= sz <= MAX.

Lemma hex_digit ch :
  let c := Z.lor ch 0x20 in
  (#"a" <=? c) && (c <=? #"f") = true -> 10 <= c - #"a" + 10 < 16.
Proof. cbn. lia. Qed.

Definition exit_sz (x : exit) : Z :=
  match x with goto_data _ sz | goto_done sz | goto_invalid sz => sz end.

(** Every value that is assigned to [ctx->size] is an [off_t]. *)
Lemma step_in_range p ch s sz :
  in_range sz ->
  match step MAX p ch (s, sz) with inl (_, sz') => in_range sz' | inr x => in_range (exit_sz x) end.
Proof.
  unfold in_range. intros H.
  destruct s; cbn [step]; unfold on_chunk_start, on_chunk_size, line, expect_lf, on_after_data,
    on_trailer, on_trailer_almost_done, next; cbv zeta; repeat case_match; simplify_eq; cbn; try lia.
  all: pose proof (hex_digit ch); cbv zeta in *; try lia_mod.
Qed.

(** The invariant of the saved state: a size that is still read may be any
    [off_t]; a size that was read fits [length], and is not 0 when data
    follows. *)
Definition wf (s : sw) (sz : Z) : Prop :=
  in_range sz /\ (s <> sw_chunk_size -> sz <= MAX - 5) /\
  (s = sw_chunk_extension \/ s = sw_chunk_extension_almost_done \/ s = sw_chunk_data -> sz <> 0).

Lemma step_wf p ch s sz :
  wf s sz -> match step MAX p ch (s, sz) with inl (s', sz') => wf s' sz' | inr _ => True end.
Proof.
  intros (Hr & Hb & Hz). pose proof (step_in_range p ch s sz Hr) as Hstep.
  destruct (step MAX p ch (s, sz)) as [[s' sz']|] eqn:E; [|done]. split; [done|].
  unfold in_range in *.
  destruct s; cbn [step] in E; unfold on_chunk_start, on_chunk_size, line, expect_lf, on_after_data,
    on_trailer, on_trailer_almost_done, next in E; cbv zeta in E;
    repeat case_match; simplify_eq;
    (split; [intros Hne; try done|intros Hs; try (destruct Hs as [?|[?|?]]; done)]); try lia;
    try (by apply Hb); try (by (apply Hz; auto)).
  all: assert (MAX / 16 <= MAX - 5) by lia_mod; lia.
Qed.

Lemma run_wf p bs s sz :
  wf s sz ->
  match run (step MAX) p bs (s, sz) with inl (_, (s', sz')) => wf s' sz' | inr _ => True end.
Proof.
  intros H.
  pose proof (run_invariant (step MAX) (fun _ x => wf x.1 x.2) (fun _ _ => True) (fun _ _ => True)) as Hi.
  specialize (Hi ltac:(intros ? ? [? ?] _ Hw; pose proof (step_wf p0 ch s0 z Hw) as Hs;
    by destruct (step MAX p0 ch (s0, z)) as [[? ?]|]) bs p (s, sz) ltac:(done) H).
  by destruct (run _ _ _ _) as [[? [? ?]]|[? ?]].
Qed.

Definition ctx_ok (ctx : ngx_http_chunked_t) : Prop :=
  forall s, sw_of_Z (ctx_state ctx) = Some s -> wf (entry_state s (size ctx)) (size ctx).

(** What a result tells: an error drops the request, and NGX_DONE leaves in
    [ctx->length] the estimate of the call before. *)
Definition norm (c : rc) (ctx : ngx_http_chunked_t) (p : Z) : ngx_http_chunked_t * Z :=
  match c with
  | NGX_ERROR => (mkCtx 0 0 0, 0)
  | NGX_DONE => (mkCtx (ctx_state ctx) (size ctx) 0, p)
  | _ => (ctx, p)
  end.

Lemma entry_state_wf s sz : wf s sz -> entry_state s sz = s.
Proof.
  intros (_ & _ & Hz). unfold entry_state. case_bool_decide; [|done].
  destruct (sz =? 0) eqn:E; [|done]. exfalso. apply Hz; [auto|lia].
Qed.

#[export] Instance chunked_resumable buf :
  Resumable (Z.of_nat (length buf)) ctx_ok (ngx_http_parse_chunked MAX buf) norm.
Proof.
  split; [by intros a p a' p' [= -> ->]|].
  intros ctx pos mid last Hok Hpos Hmid Hlast Hlim. unfold ngx_http_parse_chunked.
  destruct (sw_of_Z (ctx_state ctx)) as [s|] eqn:Es; simpl.
  2: { rewrite Es. split; [done|]. split; [lia|]. simpl. do 2 f_equal. lia. }
  specialize (Hok s Es). set (e := entry_state s (size ctx)) in *.
  rewrite (slice_split buf pos mid last) by done. rewrite run_app.
  pose proof (run_wf pos (slice buf pos mid) e (size ctx) Hok) as Hwf.
  destruct (run _ pos (slice buf pos mid) _) as [[p [s' sz]]|[p [s' sz|sz|sz]]] eqn:E.
  - apply run_exhausted in E.
    assert (p = mid) as -> by (pose proof (slice_length buf pos mid); lia).
    unfold at_data at 1. destruct (MAX - 5 <? sz) eqn:El.
    + assert (s' = sw_chunk_size) as ->.
      { destruct Hwf as (_ & Hb & _). destruct (decide (s' = sw_chunk_size)); [done|].
        specialize (Hb n). lia. }
      destruct (slice buf mid last) as [|ch bs]; cbn [run].
      * unfold at_data. rewrite El. done.
      * cbn [step]. unfold on_chunk_size. replace (MAX / 16 <? sz) with true by lia_mod. done.
    + split; [|split; [done|]].
      * intros s2. cbn [ctx_state size]. rewrite chunked_sw_of_Z. intros [= <-].
        by rewrite entry_state_wf.
      * cbn [ctx_state size]. rewrite chunked_sw_of_Z, entry_state_wf by done.
        destruct (run _ mid _ _) as [[? [? ?]]|[? [?|?|?]]]; unfold at_data;
          try done; match goal with |- context [if ?b then _ else _] => by destruct b end.
  - unfold at_data. by destruct (MAX - 5 <? sz).
  - done.
  - done.
Qed.

(** ** The estimate of what is still to come *)

Lemma length_of_bounds s sz : 0 <= sz <= MAX - 5 -> 1 <= length_of s sz <= MAX.
Proof. intros. destruct s; cbn; try lia. destruct (sz =? 0); lia. Qed.

(** One byte takes at most one off the estimate; the last byte needs it to
    be 1, and data needs what is left of the chunk. *)
Lemma step_length p ch s sz :
  in_range sz ->
  match step MAX p ch (s, sz) with
  | inl (s', sz') => length_of s sz <= length_of s' sz' + 1
  | inr (goto_data s' sz') => s' = s /\ sz' = sz
  | inr (goto_done _) => length_of s sz = 1
  | inr (goto_invalid _) => True
  end.
Proof.
  unfold in_range. intros Hr.
  destruct s; cbn [step]; unfold on_chunk_start, on_chunk_size, line, expect_lf, on_after_data,
    on_trailer, on_trailer_almost_done, next; cbv zeta; repeat case_match; simplify_eq;
    cbn [length_of]; try done; try lia.
  all: rewrite ?H; repeat case_match; try lia.
Qed.

Lemma run_length p bs s sz :
  in_range sz ->
  match run (step MAX) p bs (s, sz) with
  | inl (p', (s', sz')) => length_of s sz <= length_of s' sz' + (p' - p)
  | inr (p', goto_data s' sz') => length_of s sz <= length_of s' sz' + (p' - p)
  | inr (p', goto_done _) => length_of s sz <= p' + 1 - p
  | inr (_, goto_invalid _) => True
  end.
Proof.
  intros Hr.
  pose proof (run_invariant (step MAX)
    (fun p' x => in_range x.2 /\ length_of s sz <= length_of x.1 x.2 + (p' - p))
    (fun p' x => match x with
                 | goto_data s' sz' => length_of s sz <= length_of s' sz' + (p' - p)
                 | goto_done _ => length_of s sz <= p' + 1 - p
                 | goto_invalid _ => True end) (fun _ _ => True)) as Hi.
  specialize (Hi ltac:(intros q ch [s1 z1] _ [Hr1 Hl1]; pose proof (step_length q ch s1 z1 Hr1);
    pose proof (step_in_range q ch s1 z1 Hr1); cbn [fst snd] in *;
    destruct (step MAX q ch (s1, z1)) as [[? ?]|[? ?|?|?]]; cbn [fst snd exit_sz] in *;
    intuition (subst; lia)) bs p (s, sz) ltac:(done) ltac:(split; [done|cbn; lia])).
  destruct (run _ _ _ _) as [[? [? ?]]|[? [? ?|?|?]]]; cbn [fst snd] in *; tauto.
Qed.

(** The sizes with which the loop is left. *)
Lemma run_sizes p bs s sz :
  wf s sz ->
  match run (step MAX) p bs (s, sz) with
  | inl _ => True
  | inr (_, goto_data s' sz') =>
      s' = sw_chunk_data /\ in_range sz' /\ sz' <> 0 /\ sz' <= MAX - 5
  | inr (_, (goto_done sz' | goto_invalid sz')) => in_range sz'
  end.
Proof.
  intros H.
  pose proof (run_invariant (step MAX) (fun _ x => wf x.1 x.2)
    (fun _ x => match x with
                | goto_data s' sz' => s' = sw_chunk_data /\ wf s' sz'
                | goto_done sz' | goto_invalid sz' => in_range sz'
                end) (fun _ _ => True)) as Hi.
  assert (Hs : forall q ch x, True -> wf x.1 x.2 ->
    match step MAX q ch x with
    | inl s' => wf s'.1 s'.2
    | inr (goto_data s' sz') => s' = sw_chunk_data /\ wf s' sz'
    | inr (goto_done sz' | goto_invalid sz') => in_range sz'
    end).
  { intros q ch [s1 z1] _ Hw. pose proof (step_wf q ch s1 z1 Hw).
    pose proof (step_in_range q ch s1 z1 (proj1 Hw)). pose proof (step_length q ch s1 z1 (proj1 Hw)).
    destruct (step MAX q ch (s1, z1)) as [[? ?]|[s' z'|?|?]] eqn:E; try done.
    destruct H2 as [-> ->]. split; [|done].
    destruct s1; cbn [step] in E; unfold on_chunk_start, on_chunk_size, line, expect_lf,
      on_after_data, on_trailer, on_trailer_almost_done, next in E; cbv zeta in E;
      repeat case_match; by simplify_eq. }
  specialize (Hi Hs bs p (s, sz) ltac:(done) H).
  destruct (run _ _ _ _) as [[? [? ?]]|[? [? ?|?|?]]]; try done.
  destruct Hi as (-> & Hr & Hb & Hz). repeat split; try apply Hr; [by apply Hz; auto|by apply Hb].
Qed.

End Bounds.

(** ** The size that is read *)

(** The digits at the front. *)
Fixpoint digits (bs : list Z) : list Z :=
  match bs with
  | ch :: bs => match hexval ch with Some v => v :: digits bs | None => [] end
  | [] => []
  end.

(** The number that digits continue [n] with, in base 16. *)
Definition number (n : Z) (vs : list Z) : Z := foldl (fun n v => 16 * n + v) n vs.

(** What follows the first LF. *)
Fixpoint behind_line (bs : list Z) : list Z :=
  match bs with
  | ch :: bs => if ch =? LF then bs else behind_line bs
  | [] => []
  end.

(** The size after the bytes [bs]: in the middle of the digits they continue it, at the
    start of a chunk and behind the line end after its data a new one begins; nothing
    else changes it. *)
Definition value_read (s : sw) (sz : Z) (bs : list Z) : Z :=
  let fresh bs := match digits bs with [] => sz | vs => number 0 vs end in
  match s with
  | sw_chunk_size => number sz (digits bs)
  | sw_chunk_start => fresh bs
  | sw_after_data | sw_after_data_almost_done => fresh (behind_line bs)
  | _ => sz
  end.

(** The states behind the digits. *)
Definition behind_size (s : sw) : Prop :=
  match s with sw_chunk_start | sw_chunk_size | sw_after_data | sw_after_data_almost_done => False | _ => True end.

Lemma behind_size_value s sz bs : behind_size s -> value_read s sz bs = sz.
Proof. by destruct s. Qed.

(** One byte, as long as the loop goes on. *)
Lemma step_value MAX p ch s sz s' sz' bs :
  is_byte ch -> step MAX p ch (s, sz) = inl (s', sz') -> value_read s' sz' bs = value_read s sz (ch :: bs).
Proof.
  intros Hch E. pose proof (hexval_tests ch Hch) as Hx.
  destruct s; cbn [step] in E; unfold on_chunk_start, on_chunk_size, line, expect_lf, on_after_data,
    on_trailer, on_trailer_almost_done, next in E; cbv zeta in E;
    cbn [value_read digits behind_line]; rewrite ?Hx; clear Hx; repeat case_match; simplify_eq; cbn [value_read]; try done; try lia.
  all: try by match goal with H : digits _ = _ |- _ => rewrite H end.
  all: unfold number; cbn [foldl]; f_equal; lia.
Qed.

Lemma run_value MAX p bs s sz :
  Forall is_byte bs ->
  match run (step MAX) p bs (s, sz) with
  | inl (_, (s', sz')) => sz' = value_read s sz bs
  | inr (p', goto_data s' sz') => sz' = value_read s sz (take (Z.to_nat (p' - p)) bs)
  | inr _ => True
  end.
Proof.
  intros Hb. revert p s sz. induction Hb as [|ch bs Hch Hb IH]; intros p s sz; cbn [run].
  - by destruct s.
  - destruct (step MAX p ch (s, sz)) as [[s1 sz1]|x] eqn:E.
    + specialize (IH (p + 1) s1 sz1). destruct (run (step MAX) (p + 1) bs (s1, sz1)) as [[p' [s' sz']]|[p' x]] eqn:Er.
      * by rewrite IH, (step_value _ _ _ _ _ _ _ _ Hch E).
      * destruct x as [s' sz'| |]; try done. apply run_left in Er. rewrite IH, (step_value _ _ _ _ _ _ _ _ Hch E).
        by replace (Z.to_nat (p' - p)) with (S (Z.to_nat (p' - (p + 1)))) by lia.
    + destruct x as [s' sz'| |]; try done. rewrite Z.sub_diag. cbn [Z.to_nat take].
      destruct s; cbn [step] in E; unfold on_chunk_start, on_chunk_size, line, expect_lf, on_after_data,
        on_trailer, on_trailer_almost_done, next in E; cbv zeta in E; repeat case_match; by simplify_eq.
Qed.

(** C7. The sizes are sound: whatever bytes arrive, a call leaves in [ctx->size] the value
    of the hexadecimal digits read so far (those of this call continue the number of the
    calls before; nothing else changes the size), without overflow; when the parser asks
    for more or for data, [ctx->length] is between 1 and NGX_MAX_OFF_T_VALUE, data is
    announced only with a positive size, and the estimate is a lower bound of the rest of
    the body: the bytes that a call reads and the estimate it leaves are never less than
    the estimate before, and no body ends before the estimate is used up. *)
Theorem chunked_length MAX buf ctx pos last :
  Forall is_byte buf -> MAX mod 16 = 15 -> 15 <= MAX -> ctx_ok MAX ctx -> 0 <= pos <= last ->
  last <= Z.of_nat (length buf) ->
  forall s, sw_of_Z (ctx_state ctx) = Some s ->
  let e := entry_state s (size ctx) in
  let before := length_of e (size ctx) in
  match ngx_http_parse_chunked MAX buf ctx pos last with
  | (NGX_AGAIN, ctx', p') =>
      p' = last /\ ctx_ok MAX ctx' /\ size ctx' = value_read e (size ctx) (slice buf pos last) /\
      0 <= size ctx' <= MAX - 5 /\ 1 <= len ctx' <= MAX /\ before <= (p' - pos) + len ctx'
  | (NGX_OK, ctx', p') =>
      pos <= p' < last /\ ctx_state ctx' = Z_of_sw sw_chunk_data /\
      size ctx' = value_read e (size ctx) (slice buf pos p') /\ 0 < size ctx' <= MAX - 5 /\
      len ctx' = size ctx' + 4 /\ before <= (p' - pos) + len ctx'
  | (NGX_DONE, ctx', p') => ctx_state ctx' = 0 /\ pos < p' <= last /\ before <= p' - pos
  | (c, ctx', _) => c = NGX_ERROR /\ in_range MAX (size ctx')
  end.
Proof.
  intros Hbytes H16 H15 Hok Hpos Hlast s Hs e before. unfold ngx_http_parse_chunked. rewrite Hs.
  specialize (Hok s Hs). fold e. fold e in Hok.
  pose proof (run_wf MAX H16 H15 pos (slice buf pos last) e (size ctx) Hok) as Hwf.
  pose proof (run_length MAX H16 H15 pos (slice buf pos last) e (size ctx) (proj1 Hok)) as Hlen.
  pose proof (run_sizes MAX H16 H15 pos (slice buf pos last) e (size ctx) Hok) as Hsz.
  pose proof (run_value MAX pos (slice buf pos last) e (size ctx) (Forall_take _ _ _ (Forall_drop _ _ _ Hbytes))) as Hval.
  pose proof (slice_length buf pos last ltac:(lia) ltac:(lia) Hlast) as Hsl.
  destruct (run _ pos _ _) as [[p [s' sz]]|[p x]] eqn:E.
  - apply run_exhausted in E. unfold at_data. destruct (MAX - 5 <? sz) eqn:El.
    + split; [done|]. apply Hwf.
    + pose proof (proj1 Hwf) as Hr. unfold in_range in Hr.
      pose proof (length_of_bounds MAX H15 s' sz ltac:(lia)).
      split; [lia|]. split; [|split; [exact Hval|cbn [size len]; lia]].
      intros s2. cbn [ctx_state size]. rewrite chunked_sw_of_Z. intros [= <-].
      by rewrite (entry_state_wf MAX).
  - apply run_left in E. unfold in_range in *.
    destruct x as [s' sz|sz|sz]; cbn [exit_sz] in *; [|cbn [ctx_state size]; lia|cbn [size]; by split].
    destruct Hsz as (-> & Hr & Hnz & Hb). unfold at_data.
    destruct (MAX - 5 <? sz) eqn:El; [lia|]. cbn [length_of] in Hlen.
    rewrite (slice_split buf pos p last) in Hval by lia.
    assert (Hp : Z.to_nat (p - pos) = length (slice buf pos p)) by (pose proof (slice_length buf pos p); lia).
    rewrite Hp, take_app_length in Hval. cbn [ctx_state size len length_of]. lia.
Qed.

Definition sample_chunked : list Z :=
  bytes_of_string "5;x" ++ [CR; LF] ++ bytes_of_string "hello" ++ [CR; LF] ++ bytes_of_string "0" ++
  [CR; LF; CR; LF].

Definition MAX64 : Z := 2 ^ 63 - 1.

Definition start_ctx : ngx_http_chunked_t := mkCtx 0 0 0.

Lemma start_ctx_ok : ctx_ok MAX64 start_ctx.
Proof.
  intros s [= <-]. unfold wf, in_range. cbn. repeat split; try (unfold MAX64; lia).
  intros [?|[?|?]]; done.
Qed.

Lemma chunked_sample_bytes : Forall is_byte sample_chunked.
Proof. repeat constructor; done. Qed.

Lemma chunked_length_witness :
  ctx_ok MAX64 start_ctx /\
  match ngx_http_parse_chunked MAX64 sample_chunked start_ctx 0 6 with
  | (NGX_OK, ctx', p') =>
      0 <= p' < 6 /\ ctx_state ctx' = 4 /\
      size ctx' = value_read sw_chunk_start 0 (slice sample_chunked 0 p') /\ 0 < size ctx' <= MAX64 - 5 /\
      len ctx' = size ctx' + 4 /\ 3 <= (p' - 0) + len ctx'
  | _ => False
  end.
Proof.
  split; [apply start_ctx_ok|].
  exact (chunked_length MAX64 sample_chunked start_ctx 0 6
    chunked_sample_bytes eq_refl ltac:(unfold MAX64; lia)
    start_ctx_ok ltac:(lia) ltac:(vm_compute; congruence) sw_chunk_start eq_refl).
Defined.

(** The framing of a body does not depend on how it arrives: for every
    increasing sequence of read events, the calls of
    [ngx_http_parse_chunked] that resume from the saved context end with the
    return code, the context and the position of one call on all the bytes;
    in particular a size that is too large is rejected either way. *)
Theorem chunked_delivery MAX buf ctx pos lasts last :
  MAX mod 16 = 15 -> 15 <= MAX -> ctx_ok MAX ctx ->
  0 <= pos <= last -> last <= Z.of_nat (length buf) ->
  (forall l, l ∈ lasts -> pos <= l <= last) -> Sorted Z.le lasts ->
  observe norm (deliver (ngx_http_parse_chunked MAX buf) ctx pos (lasts ++ [last])) =
  observe norm (ngx_http_parse_chunked MAX buf ctx pos last).
Proof.
  intros H16 H15 Hok [? ?] ? ? ?.
  by apply (deliver_once (Z.of_nat (length buf)) (ctx_ok MAX)); try apply chunked_resumable.
Qed.

Lemma chunked_delivery_witness :
  observe norm (deliver (ngx_http_parse_chunked MAX64 sample_chunked) start_ctx 0 ([1; 2] ++ [6])) =
  observe norm (ngx_http_parse_chunked MAX64 sample_chunked start_ctx 0 6).
Proof.
  apply chunked_delivery;
    [done | unfold MAX64; lia | apply start_ctx_ok | lia | vm_compute; congruence | | repeat constructor; lia].
  intros l Hl. set_unfold in Hl. lia.
Defined.

(** ** The frames of a body *)

(** The number that hexadecimal digits continue [n] with. *)
Fixpoint hexnum (n : Z) (ds : list Z) : option Z :=
  match ds with
  | [] => Some n
  | d :: ds' => v ← hexval d; hexnum (n * 16 + v) ds'
  end.

Lemma hexnum_ge n ds m : 0 <= n -> hexnum n ds = Some m -> n <= m.
Proof.
  revert n. induction ds as [|d ds IH]; intros n Hn; cbn; [by intros [= <-]|].
  destruct (hexval d) as [v|] eqn:E; [|done]. cbn. apply hexval_bounds in E.
  intros ?%IH; lia.
Qed.

(** An extension: what follows the size up to the end of the line. *)
Definition ext_ok (ext : list Z) : Prop :=
  match ext with
  | [] => True
  | c :: text => (c = #";" \/ c = #" " \/ c = 9) /\ no_eol text
  end.

(** The bytes that lead to the next chunk: none at the start, a line end after
    the data of a chunk. *)
Definition at_boundary (ctx : ngx_http_chunked_t) (pre : list Z) : Prop :=
  ctx_state ctx = Z_of_sw sw_chunk_start /\ pre = [] \/
  ctx_state ctx = Z_of_sw sw_chunk_data /\ size ctx = 0 /\ eol_ok pre.

Section Frames.
Variable MAX : Z.

Lemma run_digits p ds n m :
  0 <= n -> hexnum n ds = Some m -> m <= MAX / 16 ->
  run (step MAX) p ds (sw_chunk_size, n) = inl (p + Z.of_nat (length ds), (sw_chunk_size, m)).
Proof.
  revert p n. induction ds as [|d ds IH]; intros p n Hn Hm Hmax.
  - cbn in *. simplify_eq. by rewrite Z.add_0_r.
  - pose proof (hexnum_ge n (d :: ds) m Hn Hm). cbn [hexnum] in Hm.
    destruct (hexval d) as [v|] eqn:E; [|done]. cbn in Hm.
    pose proof (hexval_bounds d v E). rewrite hexval_tests in E by by eapply hexval_byte.
    cbn [run step]. unfold on_chunk_size. replace (MAX / 16 <? n) with false by lia.
    assert (Hgo : forall w, w = v -> run (step MAX) (p + 1) ds (sw_chunk_size, n * 16 + w) =
      inl (p + Z.of_nat (length (d :: ds)), (sw_chunk_size, m))).
    { intros w ->. rewrite IH by (done || lia). cbn [length]. do 2 f_equal. lia. }
    destruct ((48 <=? d) && _); [by apply Hgo; simplify_eq|].
    destruct ((97 <=? _) && _); [by apply Hgo; simplify_eq|done].
Qed.

Lemma run_size p d ds m :
  hexnum 0 (d :: ds) = Some m -> m <= MAX / 16 ->
  forall z, run (step MAX) p (d :: ds) (sw_chunk_start, z) =
    inl (p + Z.of_nat (length (d :: ds)), (sw_chunk_size, m)).
Proof.
  intros Hm Hmax z. cbn [hexnum] in Hm. destruct (hexval d) as [v|] eqn:E; [|done]. cbn in Hm.
  pose proof (hexval_bounds d v E). rewrite hexval_tests in E by by eapply hexval_byte.
  cbn [run step]. unfold on_chunk_start.
  assert (Hgo : forall w, w = v -> run (step MAX) (p + 1) ds (sw_chunk_size, w) =
    inl (p + Z.of_nat (length (d :: ds)), (sw_chunk_size, m))).
  { intros w ->. rewrite (run_digits _ ds v m) by (done || lia). cbn [length]. do 2 f_equal. lia. }
  destruct ((48 <=? d) && _); [by apply Hgo; simplify_eq|].
  destruct ((97 <=? _) && _); [by apply Hgo; simplify_eq|done].
Qed.

(** Text up to the end of its line. *)
Lemma run_line p text eol cr lf other sz :
  no_eol text -> eol_ok eol ->
  (forall q ch, step MAX q ch (other, sz) = line cr lf other ch sz) ->
  (forall q ch, step MAX q ch (cr, sz) = expect_lf lf ch sz) ->
  run (step MAX) p (text ++ eol) (other, sz) =
  inl (p + Z.of_nat (length (text ++ eol)), (lf, sz)).
Proof.
  intros Ht He Hother Hcr. rewrite run_app, run_stays.
  2: { intros q ch Hin. unfold no_eol in Ht. rewrite Forall_forall in Ht. destruct (Ht ch Hin).
       rewrite Hother. unfold line. destruct (ch =? 13) eqn:?; [lia|].
       by destruct (ch =? 10) eqn:?; [lia|]. }
  rewrite length_app. destruct He as [-> | ->]; cbn [run]; rewrite Hother; cbn [line Z.eqb Pos.eqb next].
  - do 2 f_equal. cbn. lia.
  - unfold line. cbn [Z.eqb Pos.eqb next]. rewrite Hcr. cbn. do 2 f_equal. lia.
Qed.

Lemma run_ext p ext eol n :
  ext_ok ext -> eol_ok eol -> n <= MAX / 16 ->
  run (step MAX) p (ext ++ eol) (sw_chunk_size, n) =
  inl (p + Z.of_nat (length (ext ++ eol)), (if n =? 0 then sw_trailer else sw_chunk_data, n)).
Proof.
  intros Hx He Hn. destruct ext as [|c text].
  - destruct He as [-> | ->]; cbn; unfold on_chunk_size; replace (MAX / 16 <? n) with false by lia;
      destruct (n =? 0) eqn:E; cbn; unfold expect_lf; cbn; do 2 f_equal; lia.
  - destruct Hx as [Hc Ht]. cbn [app run step]. unfold on_chunk_size.
    replace (MAX / 16 <? n) with false by lia.
    assert (Hd : (48 <=? c) && (c <=? 57) = false) by lia. rewrite Hd.
    assert (Hh : (97 <=? Z.lor c 32) && (Z.lor c 32 <=? 102) = false)
      by (by destruct Hc as [-> |[-> | ->]]). rewrite Hh.
    assert ((c =? 13) = false /\ (c =? 10) = false /\ (c =? 59) || (c =? 32) || (c =? 9) = true)
      as (-> & -> & ->) by lia.
    destruct (n =? 0); cbn [next];
      erewrite run_line by (done || reflexivity || apply Ht || apply He); cbn [length]; do 2 f_equal; lia.
Qed.

Lemma run_boundary ctx pre p s :
  at_boundary ctx pre -> sw_of_Z (ctx_state ctx) = Some s ->
  run (step MAX) p pre (entry_state s (size ctx), size ctx) =
  inl (p + Z.of_nat (length pre), (sw_chunk_start, size ctx)).
Proof.
  intros [[Hs ->]|(Hs & Hz & He)]; rewrite Hs, chunked_sw_of_Z; intros [= <-].
  - cbn. by rewrite Z.add_0_r.
  - unfold entry_state. rewrite Hz. cbn.
    destruct He as [-> | ->]; cbn; do 2 f_equal; lia.
Qed.

(** The lines of a trailer: not empty, each with its line end. *)
Definition trailer_lines (ls : list (list Z * list Z)) : Prop :=
  Forall (fun '(text, eol) => text <> [] /\ no_eol text /\ eol_ok eol) ls.

Definition trailer_bytes (ls : list (list Z * list Z)) : list Z :=
  flat_map (fun '(text, eol) => text ++ eol) ls.

Lemma run_trailers p ls sz :
  trailer_lines ls ->
  run (step MAX) p (trailer_bytes ls) (sw_trailer, sz) =
  inl (p + Z.of_nat (length (trailer_bytes ls)), (sw_trailer, sz)).
Proof.
  unfold trailer_lines. intros Hls. revert p.
  induction Hls as [|[text eol] ls (Hne & Ht & He) _ IH]; intros p; cbn [trailer_bytes flat_map].
  - cbn. by rewrite Z.add_0_r.
  - rewrite run_app, length_app. destruct text as [|c text]; [done|]. unfold no_eol in Ht.
    rewrite Forall_cons in Ht. destruct Ht as [[H1 H2] Ht]. cbn [app run step]. unfold on_trailer.
    destruct (c =? 13) eqn:?; [lia|]. destruct (c =? 10) eqn:?; [lia|]. cbn [next].
    erewrite run_line by (done || reflexivity). fold trailer_bytes. rewrite IH.
    unfold trailer_bytes. cbn [length]. do 2 f_equal. lia.
Qed.

Lemma run_end p eol sz :
  eol_ok eol ->
  run (step MAX) p eol (sw_trailer, sz) = inr (p + Z.of_nat (length eol) - 1, goto_done sz).
Proof. intros [-> | ->]; cbn; do 2 f_equal; lia. Qed.
End Frames.

(** Every chunk is announced with its size: from the start of a body or
    after the data of a chunk and its line end, a hexadecimal size [n] in
    upper or lower case, any leading zeros, an optional extension and a line
    end, followed by at least one byte, make the parser return NGX_OK at
    that byte with [ctx->size] equal to [n], for every [n] up to
    NGX_MAX_OFF_T_VALUE / 16. *)
Theorem chunk_header MAX buf ctx pos last pre ds ext eol x more n :
  15 <= MAX -> 0 <= pos -> at_boundary ctx pre ->
  ds <> [] -> hexnum 0 ds = Some n -> 0 < n <= MAX / 16 -> ext_ok ext -> eol_ok eol ->
  slice buf pos last = pre ++ ds ++ (ext ++ eol) ++ x :: more ->
  ngx_http_parse_chunked MAX buf ctx pos last =
  (NGX_OK, mkCtx (Z_of_sw sw_chunk_data) n (n + 4),
   pos + Z.of_nat (length (pre ++ ds ++ ext ++ eol))).
Proof.
  intros H15 Hpos Hb Hds Hn Hmax Hx He Hslice. unfold ngx_http_parse_chunked.
  destruct (sw_of_Z (ctx_state ctx)) as [s|] eqn:Es.
  2: { destruct Hb as [[Hs _]|[Hs _]]; by rewrite Hs, chunked_sw_of_Z in Es. }
  rewrite Hslice, run_app, (run_boundary MAX ctx pre pos s Hb Es), run_app.
  destruct ds as [|d ds]; [done|].
  rewrite (run_size MAX _ d ds n Hn ltac:(lia)), run_app, run_ext by (done || lia).
  replace (n =? 0) with false by lia. cbn [run step]. unfold at_data.
  replace (MAX - 5 <? n) with false by lia_mod. f_equal. rewrite !length_app. lia.
Qed.

Lemma chunk_header_witness :
  ngx_http_parse_chunked MAX64 sample_chunked start_ctx 0 6 = (NGX_OK, mkCtx 4 5 9, 5).
Proof.
  apply (chunk_header MAX64 sample_chunked start_ctx 0 6 [] [#"5"] [#";"; #"x"] [CR; LF] #"h" [] 5);
    try done; try (unfold MAX64; lia); try (by left); try (by right).
  split; [by left|]. by repeat constructor.
Defined.

(** Every body ends: the last chunk (a size that is 0, with or without
    an extension), any trailer lines and an empty line are consumed to the
    end with NGX_DONE, and the context is ready for the next body. *)
Theorem last_chunk MAX buf ctx pos last pre ds ext eol ls eol' :
  15 <= MAX -> 0 <= pos -> at_boundary ctx pre ->
  ds <> [] -> hexnum 0 ds = Some 0 -> ext_ok ext -> eol_ok eol -> trailer_lines ls -> eol_ok eol' ->
  slice buf pos last = pre ++ ds ++ (ext ++ eol) ++ trailer_bytes ls ++ eol' ->
  ngx_http_parse_chunked MAX buf ctx pos last =
  (NGX_DONE, mkCtx (Z_of_sw sw_chunk_start) 0 (len ctx),
   pos + Z.of_nat (length (slice buf pos last))).
Proof.
  intros H15 Hpos Hb Hds Hn Hx He Hls He' Hslice. unfold ngx_http_parse_chunked.
  destruct (sw_of_Z (ctx_state ctx)) as [s|] eqn:Es.
  2: { destruct Hb as [[Hs _]|[Hs _]]; by rewrite Hs, chunked_sw_of_Z in Es. }
  assert (0 <= MAX / 16) by lia_mod.
  rewrite Hslice, run_app, (run_boundary MAX ctx pre pos s Hb Es), run_app.
  destruct ds as [|d ds]; [done|].
  rewrite (run_size MAX _ d ds 0 Hn ltac:(lia)), run_app, run_ext by (done || lia).
  cbn [Z.eqb]. rewrite run_app, run_trailers, run_end by done.
  f_equal. rewrite !length_app. lia.
Qed.

Lemma last_chunk_witness :
  ngx_http_parse_chunked MAX64 sample_chunked (mkCtx 4 0 9) 10 17 =
    (NGX_DONE, mkCtx 0 0 9, 17).
Proof.
  apply (last_chunk MAX64 sample_chunked (mkCtx 4 0 9) 10 17 [CR; LF] [#"0"] [] [CR; LF] [] [CR; LF]);
    try done; try (unfold MAX64; lia); try (by right); try (by constructor).
  right. repeat split. by right.
Defined.

End Chunked.
