(* ===== verification/HdInt.v ===== *)
(** HPACK integers
    (src/http2/src/upstream/lib/nghttp2_hd.c): [count_encoded_length] (lines
    794-809), [encode_length] (811-834) and [decode_length] (853-915). *)

From S2P Require Export Prelude.
Open Scope Z_scope.

Module HdInt.

Definition UINT32_MAX : Z := 4294967295.

(** [for (; n >= 128; n >>= 7, ++len)]: a [size_t] leaves the loop after at
    most nine iterations. *)
Fixpoint count_loop (fuel : nat) (n len : Z) : Z :=
  match fuel with
  | O => len
  | S fuel' => if 128 <=? n then count_loop fuel' (Z.shiftr n 7) (len + 1) else len
  end.

Definition SIZE_FUEL : nat := 10.

Definition count_encoded_length (n prefix : Z) : Z :=
  let k := Z.shiftl 1 prefix - 1 in
  if n <? k then 1
  else count_loop SIZE_FUEL (n - k) 1 + 1.

(** The bytes after the first one. *)
Fixpoint encode_loop (fuel : nat) (n : Z) : list Z :=
  match fuel with
  | O => []
  | S fuel' =>
      if 128 <=? n then u8 (Z.lor (Z.shiftl 1 7) (Z.land n 0x7f)) :: encode_loop fuel' (Z.shiftr n 7)
      else [u8 n]
  end.

(** [b] is the byte at [*buf] on entry; the result is what is written from
    [buf] on. *)
Definition encode_length (b n prefix : Z) : list Z :=
  let k := Z.shiftl 1 prefix - 1 in
  let b := u8 (Z.land b (Z.lnot k)) in
  if n <? k then [u8 (Z.lor b n)]
  else u8 (Z.lor b k) :: encode_loop SIZE_FUEL (n - k).

(** The result of [decode_length]. *)
Inductive decoded :=
  | Decoded (res shift : Z) (fin : bool) (processed : Z)
  | Decoding_error
  | Read_outside.      (* [*in] with [in == last] *)

Fixpoint decode_loop (n shift pos : Z) (bs : list Z) : decoded :=
  match bs with
  | [] => Decoded n shift false pos
  | b :: bs' =>
      let add := Z.land b 0x7f in
      if 32 <=? shift then Decoding_error
      else if Z.shiftr UINT32_MAX shift <? add then Decoding_error
      else
        let add := u32 (Z.shiftl add shift) in
        if UINT32_MAX - add <? n then Decoding_error
        else
          let n := u32 (n + add) in
          if Z.land b 0x80 =? 0 then Decoded n shift true (pos + 1)
          else decode_loop n (shift + 7) (pos + 1) bs'
  end.

(** [bs] are the bytes of [in, last). *)
Definition decode_length (initial shift : Z) (bs : list Z) (prefix : Z) : decoded :=
  let k := u8 (Z.shiftl 1 prefix - 1) in
  if initial =? 0 then
    match bs with
    | [] => Read_outside
    | b :: bs' =>
        if negb (Z.land b k =? k) then Decoded (Z.land b k) 0 true 1
        else
          match bs' with
          | [] => Decoded k 0 false 1
          | _ => decode_loop k shift 1 bs'
          end
    end
  else decode_loop initial shift 0 bs.

(** ** The values of continuation bytes *)

Definition cont (b : Z) : bool := negb (Z.land b 0x80 =? 0).

(** The number that continuation bytes denote, least significant first. *)
Fixpoint value (bs : list Z) : Z :=
  match bs with
  | [] => 0
  | b :: bs' => Z.land b 0x7f + 128 * value bs'
  end.

Lemma land_7f b : Z.land b 0x7f = b mod 128.
Proof. apply (Z.land_ones b 7). lia. Qed.

Lemma value_nonneg bs : 0 <= value bs.
Proof. induction bs as [|b bs IH]; cbn [value]; [lia|]. rewrite land_7f. lia_mod. Qed.

Lemma shiftr_7 n : Z.shiftr n 7 = n / 128.
Proof. by rewrite Z.shiftr_div_pow2 by lia. Qed.

Lemma count_loop_encode fuel n len :
  0 <= n < 128 ^ Z.of_nat fuel -> (0 < fuel)%nat ->
  count_loop fuel n len + 1 = len + Z.of_nat (length (encode_loop fuel n)).
Proof.
  revert n len. induction fuel as [|fuel IH]; intros n len Hn Hf; [lia|].
  cbn [count_loop encode_loop]. destruct (128 <=? n) eqn:E; [|cbn; lia].
  rewrite Nat2Z.inj_succ, Z.pow_succ_r in Hn by lia.
  rewrite shiftr_7. cbn [length].
  assert (0 <= n / 128 < 128 ^ Z.of_nat fuel) by (split; [lia_mod|]; apply Z.div_lt_upper_bound; lia).
  destruct fuel as [|fuel]; [cbn in *; lia|]. rewrite IH by lia. lia.
Qed.

(** A boolean property of the 128 values of seven bits. *)
Lemma seven_bits (f : Z -> bool) :
  forallb (fun x => f x || (128 <=? x)) all_bytes = true -> forall x, 0 <= x < 128 -> f x = true.
Proof.
  intros H x Hx. assert (Hb : is_byte x) by (unfold is_byte; lia). 
  pose proof (byte_forall _ H x Hb) as Hf. apply orb_true_iff in Hf as [?|?]; [done|lia].
Qed.

(** The bytes of the loop: seven bits and the continuation bit. *)
Lemma cont_byte n : let b := u8 (Z.lor (Z.shiftl 1 7) (Z.land n 0x7f)) in
  Z.land b 0x7f = n mod 128 /\ cont b = true.
Proof.
  cbv zeta. rewrite (land_7f n).
  pose proof (seven_bits (fun x => (Z.land (u8 (Z.lor (Z.shiftl 1 7) x)) 0x7f =? x)
    && cont (u8 (Z.lor (Z.shiftl 1 7) x))) ltac:(vm_compute; reflexivity) (n mod 128) ltac:(lia_mod)) as H.
  apply andb_true_iff in H as [H1 H2]. split; [by apply Z.eqb_eq|done].
Qed.

Lemma last_byte n : 0 <= n < 128 ->
  Z.land (u8 n) 0x7f = n /\ cont (u8 n) = false.
Proof.
  intros Hn. pose proof (seven_bits (fun x => (Z.land (u8 x) 0x7f =? x) && negb (cont (u8 x)))
    ltac:(vm_compute; reflexivity) n Hn) as H.
  apply andb_true_iff in H as [H1 H2]. split; [by apply Z.eqb_eq|by apply negb_true_iff].
Qed.

(** The loop writes the digits of [n] in base 128, with the continuation bit on
    all but the last. *)
Lemma encode_loop_spec fuel n :
  0 <= n < 128 ^ Z.of_nat fuel -> (0 < fuel)%nat ->
  exists init last, encode_loop fuel n = init ++ [last] /\ value (init ++ [last]) = n /\
    Forall (fun b => cont b = true) init /\ cont last = false /\
    (init <> [] -> 128 ^ Z.of_nat (length init) <= n).
Proof.
  revert n. induction fuel as [|fuel IH]; intros n Hn Hf; [lia|].
  rewrite Nat2Z.inj_succ, Z.pow_succ_r in Hn by lia. cbn [encode_loop].
  destruct (128 <=? n) eqn:E.
  - assert (0 <= n / 128 < 128 ^ Z.of_nat fuel) by (split; [lia_mod|]; apply Z.div_lt_upper_bound; lia).
    destruct fuel as [|fuel]; [cbn in *; lia|].
    destruct (IH (n / 128)) as (init & last & Hl & Hv & Hc & Hlast & Hge); [done|lia|].
    rewrite shiftr_7, Hl. destruct (cont_byte n) as [Hb Hcb].
    eexists (_ :: init), last. split; [done|]. cbn [app value]. rewrite Hb, Hv.
    split; [lia_mod|]. split; [by constructor|]. split; [done|]. intros _. cbn [length].
    rewrite Nat2Z.inj_succ, Z.pow_succ_r by lia. destruct init as [|b init]; [cbn; lia|].
    specialize (Hge ltac:(done)). lia_mod.
  - destruct (last_byte n) as [Hb Hc]; [lia|]. exists [], (u8 n). cbn [app value].
    rewrite Hb. split; [done|]. split; [lia|]. by split; [constructor|split].
Qed.

(** ** What decoding computes *)

(** The addition of one byte's digit, with the checks as arithmetic. *)
Lemma decode_loop_cons n shift pos b bs :
  0 <= n <= UINT32_MAX -> 0 <= shift ->
  decode_loop n shift pos (b :: bs) =
  if (shift <? 32) && (n + Z.land b 0x7f * 2 ^ shift <=? UINT32_MAX) then
    if cont b then decode_loop (n + Z.land b 0x7f * 2 ^ shift) (shift + 7) (pos + 1) bs
    else Decoded (n + Z.land b 0x7f * 2 ^ shift) shift true (pos + 1)
  else Decoding_error.
Proof.
  intros Hn Hs. cbn [decode_loop]. rewrite land_7f. set (d := b mod 128).
  assert (Hd : 0 <= d < 128) by (unfold d; lia_mod).
  assert (Hp : 0 < 2 ^ shift) by (apply Z.pow_pos_nonneg; lia).
  destruct (32 <=? shift) eqn:E1; [by replace (shift <? 32) with false by lia|].
  replace (shift <? 32) with true by lia. cbn [andb].
  rewrite Z.shiftr_div_pow2, Z.shiftl_mul_pow2 by done.
  destruct (UINT32_MAX / 2 ^ shift <? d) eqn:E2.
  { destruct (n + d * 2 ^ shift <=? UINT32_MAX) eqn:E; [|done]. exfalso.
    assert (d <= UINT32_MAX / 2 ^ shift) by (apply Z.div_le_lower_bound; lia). lia. }
  assert (Hle : d * 2 ^ shift <= UINT32_MAX).
  { pose proof (Z.mul_div_le UINT32_MAX (2 ^ shift) ltac:(done)). nia. }
  unfold UINT32_MAX in *. unfold u32 at 1. rewrite Z.mod_small by lia.
  destruct (4294967295 - d * 2 ^ shift <? n) eqn:E3.
  { by replace (n + d * 2 ^ shift <=? 4294967295) with false by lia. }
  replace (n + d * 2 ^ shift <=? 4294967295) with true by lia.
  unfold u32. rewrite (Z.mod_small (d * 2 ^ shift)), Z.mod_small by lia.
  unfold cont. by destruct (Z.land b 128 =? 0).
Qed.

(** Digits that end are read to the number they denote. *)
Lemma decode_loop_complete init last rest n shift pos :
  Forall (fun b => cont b = true) init -> cont last = false -> 0 <= n -> 0 <= shift ->
  n + value (init ++ [last]) * 2 ^ shift <= UINT32_MAX ->
  shift + 7 * Z.of_nat (length init) < 32 ->
  decode_loop n shift pos (init ++ last :: rest) =
  Decoded (n + value (init ++ [last]) * 2 ^ shift) (shift + 7 * Z.of_nat (length init)) true
    (pos + Z.of_nat (length init) + 1).
Proof.
  intros Hc Hl. revert n shift pos. induction Hc as [|b init Hb _ IH]; intros n shift pos Hn Hs Hv Hlen.
  - cbn [app value] in *. pose proof (land_7f last). assert (0 <= Z.land last 127) by lia_mod.
    assert (0 <= Z.land last 127 * 2 ^ shift) by (apply Z.mul_nonneg_nonneg; lia).
    rewrite decode_loop_cons, Hl by lia.
    replace (shift <? 32) with true by (cbn in Hlen; lia).
    replace (_ <=? UINT32_MAX) with true by lia. cbn. f_equal; lia.
  - cbn [app value length] in *. pose proof (value_nonneg (init ++ [last])).
    pose proof (land_7f b). assert (0 <= Z.land b 127) by lia_mod.
    assert (Hp : 0 < 2 ^ shift) by (apply Z.pow_pos_nonneg; lia).
    assert (2 ^ (shift + 7) = 128 * 2 ^ shift) as Hp7 by (rewrite Z.pow_add_r by lia; lia).
    rewrite decode_loop_cons, Hb by nia.
    replace (shift <? 32) with true by lia.
    replace (_ <=? UINT32_MAX) with true by nia. cbn [andb].
    rewrite IH by (try rewrite Hp7; nia). rewrite Hp7. f_equal; [nia|lia|lia].
Qed.

(** Whatever is decoded is the number that the bytes read denote, and fits 32
    bits; an error means that it does not, or that there are too many bytes. *)
Lemma decode_loop_sound bs n shift pos :
  0 <= n <= UINT32_MAX -> 0 <= shift ->
  match decode_loop n shift pos bs with
  | Decoded m s fin c =>
      exists a b, bs = a ++ b /\ c = pos + Z.of_nat (length a) /\ m = n + value a * 2 ^ shift /\
        m <= UINT32_MAX /\
        if fin then exists init l, a = init ++ [l] /\ Forall (fun b => cont b = true) init /\
                      cont l = false /\ s = shift + 7 * Z.of_nat (length init)
        else b = [] /\ Forall (fun b => cont b = true) a /\ s = shift + 7 * Z.of_nat (length a)
  | Decoding_error =>
      exists a b, bs = a ++ b /\ a <> [] /\
        (UINT32_MAX < n + value a * 2 ^ shift \/ 32 <= shift + 7 * (Z.of_nat (length a) - 1))
  | Read_outside => False
  end.
Proof.
  revert n shift pos. induction bs as [|b bs IH]; intros n shift pos Hn Hs.
  - cbn. exists [], []. cbn. repeat split; try lia. by constructor.
  - rewrite decode_loop_cons by done. pose proof (land_7f b). assert (0 <= Z.land b 127) by lia_mod.
    assert (Hp : 0 < 2 ^ shift) by (apply Z.pow_pos_nonneg; lia).
    destruct ((shift <? 32) && _) eqn:E.
    + destruct (cont b) eqn:Hb.
      * specialize (IH (n + Z.land b 127 * 2 ^ shift) (shift + 7) (pos + 1) ltac:(lia) ltac:(lia)).
        assert (2 ^ (shift + 7) = 128 * 2 ^ shift) as Hp7 by (rewrite Z.pow_add_r by lia; lia).
        rewrite Hp7 in IH.
        destruct (decode_loop _ _ _ bs) as [m s fin c| |]; [| |done].
        -- destruct IH as (a & b' & -> & -> & Hm & Hmax & Hfin). exists (b :: a), b'.
           cbn [app value length]. split; [done|]. split; [lia|]. split; [nia|]. split; [done|].
           destruct fin.
           ++ destruct Hfin as (init & l & -> & Hi & Hl & ->). exists (b :: init), l.
              cbn [length]. split; [done|]. split; [by constructor|]. split; [done|lia].
           ++ destruct Hfin as (-> & Ha & ->). split; [done|]. split; [by constructor|lia].
        -- destruct IH as (a & b' & -> & Hne & Hor). exists (b :: a), b'. cbn [app value length].
           split; [done|]. split; [done|]. destruct Hor; [left; nia|right; lia].
      * exists [b], bs. cbn [app value length]. split; [done|]. split; [lia|]. split; [nia|].
        split; [lia|]. exists [], b. cbn. split; [done|]. split; [by constructor|]. split; [done|lia].
    + exists [b], bs. cbn [app value length]. split; [done|]. split; [done|].
      destruct (shift <? 32) eqn:E1; [left|right]; lia.
Qed.

(** Stopping in the middle of an integer and going on is reading it at once. *)
Lemma decode_loop_app bs1 bs2 n shift pos :
  decode_loop n shift pos (bs1 ++ bs2) =
  match decode_loop n shift pos bs1 with
  | Decoded m s false c => decode_loop m s c bs2
  | res => res
  end.
Proof.
  revert n shift pos. induction bs1 as [|b bs1 IH]; intros n shift pos; [done|].
  cbn [app decode_loop]. repeat (case_match; [done|]). apply IH.
Qed.

(** ** The first byte *)

Lemma prefix_ones prefix : 0 <= prefix -> Z.shiftl 1 prefix - 1 = Z.ones prefix.
Proof. intros. unfold Z.ones. lia. Qed.

Lemma prefix_k prefix : 1 <= prefix <= 8 ->
  0 < Z.shiftl 1 prefix - 1 < 256 /\ u8 (Z.shiftl 1 prefix - 1) = Z.shiftl 1 prefix - 1.
Proof.
  intros. assert (prefix = 1 \/ prefix = 2 \/ prefix = 3 \/ prefix = 4 \/ prefix = 5 \/
    prefix = 6 \/ prefix = 7 \/ prefix = 8) as Hc by lia.
  repeat (destruct Hc as [->|Hc]; [by vm_compute|]). subst. by vm_compute.
Qed.

(** The prefix bits hold [n], the others are those of [b]. *)
Lemma first_byte b n prefix :
  1 <= prefix <= 8 -> 0 <= n <= Z.shiftl 1 prefix - 1 ->
  let k := Z.shiftl 1 prefix - 1 in
  let f := u8 (Z.lor (u8 (Z.land b (Z.lnot k))) n) in
  Z.land f k = n /\ Z.land f (Z.lnot k) = Z.land (u8 b) (Z.lnot k).
Proof.
  intros Hp Hn. cbv zeta. rewrite !prefix_ones in * by lia.
  assert (Hu : forall x, u8 x = Z.land x (Z.ones 8)) by (intros; by rewrite Z.land_ones).
  assert (Hnb : forall i, 0 <= i -> prefix <= i -> Z.testbit n i = false).
  { intros i Hi Hpi. rewrite <- (Z.mod_small n (2 ^ prefix)).
    - rewrite Z.mod_pow2_bits_high; [done|lia].
    - rewrite Z.ones_equiv in Hn. lia. }
  rewrite !Hu.
  split; apply Z.bits_inj'; intros i Hi;
    rewrite ?Z.land_spec, ?Z.lor_spec, ?Z.land_spec, ?Z.lnot_spec, !Z.testbit_ones_nonneg by lia;
    destruct (Z.testbit b i), (Z.testbit n i) eqn:En; cbn;
    destruct (i <? prefix) eqn:E1, (i <? 8) eqn:E2; cbn; try done; try lia.
  all: by rewrite Hnb in En by lia.
Qed.

(** ** Properties *)

Lemma encode_decode b n prefix rest :
  1 <= prefix <= 8 -> 0 <= n <= UINT32_MAX ->
  let bs := encode_length b n prefix in
  let k := Z.shiftl 1 prefix - 1 in
  Z.of_nat (length bs) = count_encoded_length n prefix /\ 1 <= count_encoded_length n prefix <= 6 /\
  Z.land (hd 0 bs) (Z.lnot k) = Z.land (u8 b) (Z.lnot k) /\
  exists shift, decode_length 0 0 (bs ++ rest) prefix =
                  Decoded n shift true (count_encoded_length n prefix).
Proof.
  intros Hp Hn bs k. unfold bs, encode_length, count_encoded_length. cbv zeta. fold k.
  destruct (prefix_k prefix Hp) as [Hk Huk]. fold k in Hk, Huk. unfold UINT32_MAX in Hn.
  destruct (n <? k) eqn:E.
  - destruct (first_byte b n prefix Hp) as [H1 H2]; [fold k; lia|]. fold k in H1, H2.
    split; [done|]. split; [lia|]. split; [done|]. exists 0. cbn [app].
    unfold decode_length. fold k. rewrite Huk. cbn [Z.eqb]. rewrite H1.
    by replace (n =? k) with false by lia.
  - destruct (first_byte b k prefix Hp) as [H1 H2]; [fold k; lia|]. fold k in H1, H2.
    assert (128 ^ Z.of_nat SIZE_FUEL = 2 ^ 70) by reflexivity.
    destruct (encode_loop_spec SIZE_FUEL (n - k)) as (init & last & Hl & Hv & Hc & Hlast & Hge);
      [lia|unfold SIZE_FUEL; lia|].
    pose proof (count_loop_encode SIZE_FUEL (n - k) 1 ltac:(lia) ltac:(unfold SIZE_FUEL; lia)) as Hcnt.
    rewrite Hcnt, Hl. cbn [length hd]. rewrite length_app. cbn [length].
    assert (Hlen : (length init <= 4)%nat).
    { destruct init as [|b0 [|b1 [|b2 [|b3 [|b4 init]]]]]; cbn [length]; try lia.
      specialize (Hge ltac:(done)). cbn [length] in Hge. exfalso.
      assert (128 ^ 5 <= 128 ^ Z.of_nat (S (S (S (S (S (length init)))))))
        by (apply Z.pow_le_mono_r; lia). lia. }
    split; [lia|]. split; [lia|]. split; [done|].
    exists (0 + 7 * Z.of_nat (length init)). unfold decode_length. fold k. rewrite Huk. cbn [Z.eqb app].
    rewrite H1, Z.eqb_refl. cbn [negb].
    rewrite <- app_assoc. cbn [app].
    destruct (init ++ last :: rest) as [|x l] eqn:Ei; [by destruct init|]. rewrite <- Ei.
    rewrite decode_loop_complete; rewrite ?Hv; try done; try (unfold UINT32_MAX; lia).
    f_equal; lia.
Qed.

(** Five bytes are enough for lengths up to 2^28. *)
Lemma encode_length_short b n prefix :
  1 <= prefix <= 8 -> 0 <= n <= 2 ^ 28 -> Z.of_nat (length (encode_length b n prefix)) <= 5.
Proof.
  intros Hp Hn. destruct (prefix_k prefix Hp) as [Hk _]. unfold encode_length. cbv zeta.
  destruct (n <? _) eqn:E; [cbn; lia|]. cbn [length].
  destruct (encode_loop_spec SIZE_FUEL (n - (Z.shiftl 1 prefix - 1))) as (init & last & -> & _ & _ & _ & Hge);
    [change (128 ^ Z.of_nat SIZE_FUEL) with (2 ^ 70); lia|unfold SIZE_FUEL; lia|].
  rewrite length_app. cbn [length].
  assert (Z.of_nat (length init) <= 3); [|lia].
  destruct (decide (Z.of_nat (length init) <= 3)) as [?|Hl]; [done|].
  assert (128 ^ 4 <= 128 ^ Z.of_nat (length init)) by (apply Z.pow_le_mono_r; lia).
  assert (init <> []) as Hne by (by destruct init). specialize (Hge Hne). lia.
Qed.

(** C8. HPACK integers round trip: for every prefix length and every value
    up to UINT32_MAX, [encode_length] writes [count_encoded_length] bytes, at
    most 6, keeps the bits of the first byte above the prefix, and
    [decode_length] reads the value back from these bytes whatever follows
    them, and consumes exactly them. *)
Theorem hd_int_roundtrip b n prefix rest :
  1 <= prefix <= 8 -> 0 <= n <= UINT32_MAX ->
  let bs := encode_length b n prefix in
  let k := Z.shiftl 1 prefix - 1 in
  Z.of_nat (length bs) = count_encoded_length n prefix /\ 1 <= count_encoded_length n prefix <= 6 /\
  Z.land (hd 0 bs) (Z.lnot k) = Z.land (u8 b) (Z.lnot k) /\
  exists shift, decode_length 0 0 (bs ++ rest) prefix =
                  Decoded n shift true (count_encoded_length n prefix).
Proof. apply encode_decode. Qed.

Lemma hd_int_roundtrip_witness :
  encode_length 0x20 1337 5 = [0x3f; 154; 10] /\
  exists shift, decode_length 0 0 ([0x3f; 154; 10] ++ [7]) 5 = Decoded 1337 shift true 3.
Proof.
  split; [reflexivity|].
  exact (proj2 (proj2 (proj2 (hd_int_roundtrip 0x20 1337 5 [7] ltac:(lia) ltac:(unfold UINT32_MAX; lia))))).
Defined.

(** The state of an integer that is being read: before its first byte, or a
    value that is not 0. *)
Definition resumable (initial shift : Z) : Prop :=
  (initial = 0 -> shift = 0) /\ 0 <= initial <= UINT32_MAX /\ 0 <= shift.

Lemma decode_resume initial shift bs1 bs2 prefix :
  1 <= prefix <= 8 -> resumable initial shift -> bs1 <> [] -> bs2 <> [] ->
  match decode_length initial shift bs1 prefix with
  | Decoded n s false c =>
      c = Z.of_nat (length bs1) /\ resumable n s /\
      decode_length initial shift (bs1 ++ bs2) prefix =
        match decode_length n s bs2 prefix with
        | Decoded m t fin d => Decoded m t fin (c + d)
        | res => res
        end
  | res => decode_length initial shift (bs1 ++ bs2) prefix = res
  end.
Proof.
  intros Hp (Hz & Hi & Hs) H1 H2. destruct (prefix_k prefix Hp) as [Hk Huk].
  assert (Hpos : forall bs n s p d, decode_loop n s (p + d) bs =
    match decode_loop n s d bs with
    | Decoded m t fin e => Decoded m t fin (p + e) | res => res end).
  { clear. induction bs as [|b bs IH]; intros n s p d; [done|]. cbn [decode_loop].
    repeat (case_match; [done||(f_equal; lia)|]). rewrite <- Z.add_assoc. apply IH. }
  assert (Hgo : forall bs n s c, 0 < n <= UINT32_MAX -> 0 <= s -> bs ++ bs2 <> [] ->
    match decode_loop n s c bs with
    | Decoded n' s' false c' =>
        c' = c + Z.of_nat (length bs) /\ resumable n' s' /\
        decode_loop n s c (bs ++ bs2) =
          match decode_length n' s' bs2 prefix with
          | Decoded m t fin d => Decoded m t fin (c' + d) | res => res end
    | res => decode_loop n s c (bs ++ bs2) = res
    end).
  { intros bs n s c Hn Hs0 _. rewrite decode_loop_app.
    pose proof (decode_loop_sound bs n s c ltac:(lia) Hs0) as Hsd.
    destruct (decode_loop n s c bs) as [m t [|] e| |]; try done.
    destruct Hsd as (a & b & -> & -> & Hm & Hmax & -> & _ & ->). rewrite app_nil_r.
    pose proof (value_nonneg a). assert (0 < 2 ^ s) by (apply Z.pow_pos_nonneg; lia).
    assert (0 <= value a * 2 ^ s) by (apply Z.mul_nonneg_nonneg; lia).
    split; [done|]. split; [split; lia|]. unfold decode_length.
    replace (m =? 0) with false by lia. rewrite <- Hpos. f_equal. lia. }
  unfold decode_length in *. destruct (initial =? 0) eqn:E.
  - destruct bs1 as [|b bs1]; [done|]. cbn [app].
    rewrite Huk in *. destruct (negb (Z.land b _ =? _)); [done|]. rewrite (Hz ltac:(lia)).
    destruct bs1 as [|b1 bs1].
    + specialize (Hgo [] (Z.shiftl 1 prefix - 1) 0 1 ltac:(unfold UINT32_MAX; lia) ltac:(lia) H2).
      cbn [app decode_loop length] in *. destruct Hgo as (_ & Hr & Heq). split; [done|]. split; [done|].
      by destruct bs2.
    + specialize (Hgo (b1 :: bs1) (Z.shiftl 1 prefix - 1) 0 1 ltac:(unfold UINT32_MAX; lia) ltac:(lia)
        ltac:(done)).
      cbn [app] in *. destruct (decode_loop _ 0 1 (b1 :: bs1)) as [? ? [|] ?| |]; try done.
      destruct Hgo as (-> & Hr & Heq). split; [cbn; lia|]. by split.
  - specialize (Hgo bs1 initial shift 0 ltac:(lia) Hs ltac:(by destruct bs1)).
    destruct (decode_loop initial shift 0 bs1) as [? ? [|] ?| |]; try done.
Qed.

(** Integers can be split anywhere: when [decode_length] runs out of
    bytes, it consumed all of them, and calling it again with the value and
    the shift it returned and with the bytes that arrive later gives the
    result, the error, or the next partial value of one call on all the
    bytes. *)
Theorem hd_int_resume initial shift bs1 bs2 prefix :
  1 <= prefix <= 8 -> resumable initial shift -> bs1 <> [] -> bs2 <> [] ->
  match decode_length initial shift bs1 prefix with
  | Decoded n s false c =>
      c = Z.of_nat (length bs1) /\ resumable n s /\
      decode_length initial shift (bs1 ++ bs2) prefix =
        match decode_length n s bs2 prefix with
        | Decoded m t fin d => Decoded m t fin (c + d)
        | res => res
        end
  | res => decode_length initial shift (bs1 ++ bs2) prefix = res
  end.
Proof. apply decode_resume. Qed.

Lemma hd_int_resume_witness :
  2 = Z.of_nat (length [0x3f; 154]) /\ resumable 57 7 /\
  decode_length 0 0 ([0x3f; 154] ++ [10]) 5 =
    match decode_length 57 7 [10] 5 with
    | Decoded m t fin d => Decoded m t fin (2 + d)
    | res => res
    end.
Proof.
  exact (hd_int_resume 0 0 [0x3f; 154] [10] 5 ltac:(lia)
    ltac:(unfold resumable, UINT32_MAX; lia) ltac:(done) ltac:(done)).
Defined.

(** The number that the bytes of a whole integer denote. *)
Definition denotes (prefix : Z) (bs : list Z) (n : Z) : Prop :=
  let k := Z.shiftl 1 prefix - 1 in
  match bs with
  | [] => False
  | b :: bs' =>
      if Z.land b k =? k then
        n = k + value bs' /\
        exists init l, bs' = init ++ [l] /\ Forall (fun b => cont b = true) init /\ cont l = false
      else bs' = [] /\ n = Z.land b k
  end.

Lemma decode_sound bs prefix :
  1 <= prefix <= 8 -> bs <> [] ->
  match decode_length 0 0 bs prefix with
  | Decoded n _ fin c =>
      0 <= n <= UINT32_MAX /\ 1 <= c <= Z.of_nat (length bs) /\
      if fin then denotes prefix (take (Z.to_nat c) bs) n else c = Z.of_nat (length bs)
  | Decoding_error =>
      exists b a rest, bs = b :: a ++ rest /\ a <> [] /\
        (UINT32_MAX < Z.shiftl 1 prefix - 1 + value a \/ 5 < Z.of_nat (length a))
  | Read_outside => False
  end.
Proof.
  intros Hp Hbs. destruct (prefix_k prefix Hp) as [Hk Huk].
  destruct bs as [|b bs]; [done|]. unfold decode_length. rewrite Huk. cbn [Z.eqb].
  set (k := Z.shiftl 1 prefix - 1) in *.
  assert (Hle : 0 <= Z.land b k <= UINT32_MAX).
  { unfold k. rewrite prefix_ones, Z.land_ones by lia.
    pose proof (Z.mod_pos_bound b (2 ^ prefix) ltac:(apply Z.pow_pos_nonneg; lia)).
    assert (2 ^ prefix <= 2 ^ 8) by (apply Z.pow_le_mono_r; lia). unfold UINT32_MAX. lia. }
  destruct (Z.land b k =? k) eqn:E; cbn [negb].
  - assert (Hl : match decode_loop k 0 1 bs with
      | Decoded n _ fin c => 0 <= n <= UINT32_MAX /\ 1 <= c <= Z.of_nat (length (b :: bs)) /\
          if fin then denotes prefix (take (Z.to_nat c) (b :: bs)) n
          else c = Z.of_nat (length (b :: bs))
      | Decoding_error => exists b' a rest, b :: bs = b' :: a ++ rest /\ a <> [] /\
          (UINT32_MAX < k + value a \/ 5 < Z.of_nat (length a))
      | Read_outside => False
      end).
    { pose proof (decode_loop_sound bs k 0 1 ltac:(unfold UINT32_MAX; lia) ltac:(lia)) as Hs.
      destruct (decode_loop k 0 1 bs) as [n s fin c| |]; [| |done].
      - destruct Hs as (a & r & -> & -> & Hn & Hmax & Hfin). pose proof (value_nonneg a).
        cbn [length]. rewrite length_app. split; [lia|]. split; [lia|]. destruct fin.
        + destruct Hfin as (init & l & Ha & Hi & Hl & _).
          replace (Z.to_nat (1 + Z.of_nat (length a))) with (S (length a)) by lia.
          cbn [take]. rewrite take_app_length. unfold denotes. cbv zeta. fold k. rewrite E.
          split; [lia|]. by exists init, l.
        + destruct Hfin as (-> & _). cbn. lia.
      - destruct Hs as (a & r & -> & Hne & Hor). exists b, a, r. split; [done|]. split; [done|].
        destruct Hor; [left|right]; lia. }
    destruct bs; [|exact Hl]. cbn. unfold UINT32_MAX. lia.
  - split; [done|]. cbn [length]. split; [lia|]. change (Z.to_nat 1) with 1%nat.
    rewrite firstn_cons, firstn_O. unfold denotes. cbv zeta. fold k. by rewrite E.
Qed.

(** Decoding never wraps: on any bytes from the network, what
    [decode_length] accepts is at most UINT32_MAX, lies within the input, and
    is exactly the number that the consumed bytes denote in unbounded
    arithmetic; what it rejects has a prefix whose value exceeds UINT32_MAX or
    that has more than five continuation bytes; and it never reads outside of a
    non-empty input. *)
Theorem hd_int_sound bs prefix :
  1 <= prefix <= 8 -> bs <> [] ->
  match decode_length 0 0 bs prefix with
  | Decoded n _ fin c =>
      0 <= n <= UINT32_MAX /\ 1 <= c <= Z.of_nat (length bs) /\
      if fin then denotes prefix (take (Z.to_nat c) bs) n else c = Z.of_nat (length bs)
  | Decoding_error =>
      exists b a rest, bs = b :: a ++ rest /\ a <> [] /\
        (UINT32_MAX < Z.shiftl 1 prefix - 1 + value a \/ 5 < Z.of_nat (length a))
  | Read_outside => False
  end.
Proof. apply decode_sound. Qed.

Lemma hd_int_sound_witness :
  0 <= 1337 <= UINT32_MAX /\ 1 <= 3 <= 4 /\ denotes 5 [0x3f; 154; 10] 1337.
Proof. exact (hd_int_sound [0x3f; 154; 10; 7] 5 ltac:(lia) ltac:(done)). Defined.

(** Every call makes progress and stays in the input; an integer that is not
    finished can be resumed. *)
Lemma decode_progress initial shift bs prefix :
  1 <= prefix <= 8 -> resumable initial shift -> bs <> [] ->
  match decode_length initial shift bs prefix with
  | Decoded n s fin c =>
      0 <= n <= UINT32_MAX /\ 0 <= s /\ 1 <= c <= Z.of_nat (length bs) /\
      (fin = false -> c = Z.of_nat (length bs) /\ resumable n s)
  | Decoding_error => True
  | Read_outside => False
  end.
Proof.
  intros Hp Hr Hbs. pose proof (decode_resume initial shift bs [0] prefix Hp Hr Hbs ltac:(done)) as Hres.
  assert (Hs : match decode_length initial shift bs prefix with
    | Decoded n s fin c => 0 <= n <= UINT32_MAX /\ 0 <= s /\ 1 <= c <= Z.of_nat (length bs)
    | Decoding_error => True | Read_outside => False end).
  { destruct Hr as (Hz & Hi & Hs). unfold decode_length. destruct (prefix_k prefix Hp) as [Hk Huk].
    rewrite Huk. set (k := Z.shiftl 1 prefix - 1) in *.
    assert (Hgo : forall n sh pos l, 0 <= n <= UINT32_MAX -> 0 <= sh -> 0 <= pos -> 1 <= pos \/ l <> [] ->
      match decode_loop n sh pos l with
      | Decoded m t _ c => 0 <= m <= UINT32_MAX /\ 0 <= t /\ 1 <= c <= pos + Z.of_nat (length l)
      | Decoding_error => True | Read_outside => False end).
    { clear. intros n sh pos l Hn Hsh Hpos Hor. pose proof (decode_loop_sound l n sh pos Hn Hsh) as Hd.
      destruct (decode_loop n sh pos l) as [m t fin c| |]; try done.
      destruct Hd as (a & b & -> & -> & -> & Hm & Hfin). pose proof (value_nonneg a).
      assert (0 <= value a * 2 ^ sh) by (apply Z.mul_nonneg_nonneg; [done|apply Z.pow_nonneg; lia]).
      rewrite length_app. destruct fin.
      - destruct Hfin as (init & x & -> & _ & _ & ->). rewrite length_app. cbn [length]. lia.
      - destruct Hfin as (-> & _ & ->). rewrite app_nil_r in Hor. destruct a; cbn [length]; [|lia].
        destruct Hor; [lia|done]. }
    destruct bs as [|b bs]; [done|]. cbn [length]. destruct (initial =? 0).
    - destruct (negb _) eqn:E.
      + assert (0 <= Z.land b k <= k) by (unfold k; rewrite prefix_ones, Z.land_ones by lia;
          pose proof (Z.mod_pos_bound b (2 ^ prefix) ltac:(apply Z.pow_pos_nonneg; lia)); rewrite Z.ones_equiv; lia).
        unfold UINT32_MAX in *. lia.
      + destruct bs as [|b1 bs]; [unfold UINT32_MAX; cbn; lia|].
        specialize (Hgo k shift 1 (b1 :: bs) ltac:(unfold UINT32_MAX; lia) Hs ltac:(lia) ltac:(by left)).
        destruct (decode_loop _ _ _ _); try done. lia.
    - specialize (Hgo initial shift 0 (b :: bs) Hi Hs ltac:(lia) ltac:(by right)).
      destruct (decode_loop _ _ _ _); try done. }
  destruct (decode_length _ _ _ _) as [n s [|] c| |]; try done; destruct Hs as (? & ? & ?);
    (do 3 (split; [done|])); intros; [done|]. by destruct Hres as (? & ? & _).
Qed.

End HdInt.
