(* ===== verification/HdStatic.v ===== *)
(** The constant tables of HPACK
    (src/http2/src/upstream/lib/nghttp2_hd.c and nghttp2_hd.h): the static
    header table (lines 46-110), the tokens of well-known names
    ([lookup_token], lines 120-485) and the hash of names ([name_hash], lines
    516-527). *)

From S2P Require Export Prelude.
Open Scope Z_scope.

Module HdStatic.

Abbreviation B := bytes_of_string.

(** [nghttp2_token] *)
Definition NGHTTP2_TOKEN__AUTHORITY : Z := 0.
Definition NGHTTP2_TOKEN__METHOD : Z := 1.
Definition NGHTTP2_TOKEN__PATH : Z := 3.
Definition NGHTTP2_TOKEN__SCHEME : Z := 5.
Definition NGHTTP2_TOKEN__STATUS : Z := 7.
Definition NGHTTP2_TOKEN_ACCEPT_CHARSET : Z := 14.
Definition NGHTTP2_TOKEN_ACCEPT_ENCODING : Z := 15.
Definition NGHTTP2_TOKEN_ACCEPT_LANGUAGE : Z := 16.
Definition NGHTTP2_TOKEN_ACCEPT_RANGES : Z := 17.
Definition NGHTTP2_TOKEN_ACCEPT : Z := 18.
Definition NGHTTP2_TOKEN_ACCESS_CONTROL_ALLOW_ORIGIN : Z := 19.
Definition NGHTTP2_TOKEN_AGE : Z := 20.
Definition NGHTTP2_TOKEN_ALLOW : Z := 21.
Definition NGHTTP2_TOKEN_AUTHORIZATION : Z := 22.
Definition NGHTTP2_TOKEN_CACHE_CONTROL : Z := 23.
Definition NGHTTP2_TOKEN_CONTENT_DISPOSITION : Z := 24.
Definition NGHTTP2_TOKEN_CONTENT_ENCODING : Z := 25.
Definition NGHTTP2_TOKEN_CONTENT_LANGUAGE : Z := 26.
Definition NGHTTP2_TOKEN_CONTENT_LENGTH : Z := 27.
Definition NGHTTP2_TOKEN_CONTENT_LOCATION : Z := 28.
Definition NGHTTP2_TOKEN_CONTENT_RANGE : Z := 29.
Definition NGHTTP2_TOKEN_CONTENT_TYPE : Z := 30.
Definition NGHTTP2_TOKEN_COOKIE : Z := 31.
Definition NGHTTP2_TOKEN_DATE : Z := 32.
Definition NGHTTP2_TOKEN_ETAG : Z := 33.
Definition NGHTTP2_TOKEN_EXPECT : Z := 34.
Definition NGHTTP2_TOKEN_EXPIRES : Z := 35.
Definition NGHTTP2_TOKEN_FROM : Z := 36.
Definition NGHTTP2_TOKEN_HOST : Z := 37.
Definition NGHTTP2_TOKEN_IF_MATCH : Z := 38.
Definition NGHTTP2_TOKEN_IF_MODIFIED_SINCE : Z := 39.
Definition NGHTTP2_TOKEN_IF_NONE_MATCH : Z := 40.
Definition NGHTTP2_TOKEN_IF_RANGE : Z := 41.
Definition NGHTTP2_TOKEN_IF_UNMODIFIED_SINCE : Z := 42.
Definition NGHTTP2_TOKEN_LAST_MODIFIED : Z := 43.
Definition NGHTTP2_TOKEN_LINK : Z := 44.
Definition NGHTTP2_TOKEN_LOCATION : Z := 45.
Definition NGHTTP2_TOKEN_MAX_FORWARDS : Z := 46.
Definition NGHTTP2_TOKEN_PROXY_AUTHENTICATE : Z := 47.
Definition NGHTTP2_TOKEN_PROXY_AUTHORIZATION : Z := 48.
Definition NGHTTP2_TOKEN_RANGE : Z := 49.
Definition NGHTTP2_TOKEN_REFERER : Z := 50.
Definition NGHTTP2_TOKEN_REFRESH : Z := 51.
Definition NGHTTP2_TOKEN_RETRY_AFTER : Z := 52.
Definition NGHTTP2_TOKEN_SERVER : Z := 53.
Definition NGHTTP2_TOKEN_SET_COOKIE : Z := 54.
Definition NGHTTP2_TOKEN_STRICT_TRANSPORT_SECURITY : Z := 55.
Definition NGHTTP2_TOKEN_TRANSFER_ENCODING : Z := 56.
Definition NGHTTP2_TOKEN_USER_AGENT : Z := 57.
Definition NGHTTP2_TOKEN_VARY : Z := 58.
Definition NGHTTP2_TOKEN_VIA : Z := 59.
Definition NGHTTP2_TOKEN_WWW_AUTHENTICATE : Z := 60.
Definition NGHTTP2_TOKEN_TE : Z := 61.
Definition NGHTTP2_TOKEN_CONNECTION : Z := 62.
Definition NGHTTP2_TOKEN_KEEP_ALIVE : Z := 63.
Definition NGHTTP2_TOKEN_PROXY_CONNECTION : Z := 64.
Definition NGHTTP2_TOKEN_UPGRADE : Z := 65.
Definition NGHTTP2_TOKEN__PROTOCOL : Z := 66.
Definition NGHTTP2_TOKEN_PRIORITY : Z := 67.

(** [nghttp2_hd_static_entry] *)
Record static_entry := MAKE_STATIC_ENT {
  ent_name : list Z; ent_value : list Z; ent_token : Z; ent_hash : Z
}.

Definition NGHTTP2_STATIC_TABLE_LENGTH : Z := 61.

Definition static_table : list static_entry := Eval vm_compute in [
  MAKE_STATIC_ENT (B ":authority") (B "") 0 3153725150;
  MAKE_STATIC_ENT (B ":method") (B "GET") 1 695666056;
  MAKE_STATIC_ENT (B ":method") (B "POST") 1 695666056;
  MAKE_STATIC_ENT (B ":path") (B "/") 3 3292848686;
  MAKE_STATIC_ENT (B ":path") (B "/index.html") 3 3292848686;
  MAKE_STATIC_ENT (B ":scheme") (B "http") 5 2510477674;
  MAKE_STATIC_ENT (B ":scheme") (B "https") 5 2510477674;
  MAKE_STATIC_ENT (B ":status") (B "200") 7 4000288983;
  MAKE_STATIC_ENT (B ":status") (B "204") 7 4000288983;
  MAKE_STATIC_ENT (B ":status") (B "206") 7 4000288983;
  MAKE_STATIC_ENT (B ":status") (B "304") 7 4000288983;
  MAKE_STATIC_ENT (B ":status") (B "400") 7 4000288983;
  MAKE_STATIC_ENT (B ":status") (B "404") 7 4000288983;
  MAKE_STATIC_ENT (B ":status") (B "500") 7 4000288983;
  MAKE_STATIC_ENT (B "accept-charset") (B "") 14 3664010344;
  MAKE_STATIC_ENT (B "accept-encoding") (B "gzip, deflate") 15 3379649177;
  MAKE_STATIC_ENT (B "accept-language") (B "") 16 1979086614;
  MAKE_STATIC_ENT (B "accept-ranges") (B "") 17 1713753958;
  MAKE_STATIC_ENT (B "accept") (B "") 18 136609321;
  MAKE_STATIC_ENT (B "access-control-allow-origin") (B "") 19 2710797292;
  MAKE_STATIC_ENT (B "age") (B "") 20 742476188;
  MAKE_STATIC_ENT (B "allow") (B "") 21 2930878514;
  MAKE_STATIC_ENT (B "authorization") (B "") 22 2436257726;
  MAKE_STATIC_ENT (B "cache-control") (B "") 23 1355326669;
  MAKE_STATIC_ENT (B "content-disposition") (B "") 24 3889184348;
  MAKE_STATIC_ENT (B "content-encoding") (B "") 25 65203592;
  MAKE_STATIC_ENT (B "content-language") (B "") 26 24973587;
  MAKE_STATIC_ENT (B "content-length") (B "") 27 1308181789;
  MAKE_STATIC_ENT (B "content-location") (B "") 28 2302364718;
  MAKE_STATIC_ENT (B "content-range") (B "") 29 3555523146;
  MAKE_STATIC_ENT (B "content-type") (B "") 30 4244048277;
  MAKE_STATIC_ENT (B "cookie") (B "") 31 2007449791;
  MAKE_STATIC_ENT (B "date") (B "") 32 3564297305;
  MAKE_STATIC_ENT (B "etag") (B "") 33 113792960;
  MAKE_STATIC_ENT (B "expect") (B "") 34 2530896728;
  MAKE_STATIC_ENT (B "expires") (B "") 35 1049544579;
  MAKE_STATIC_ENT (B "from") (B "") 36 2513272949;
  MAKE_STATIC_ENT (B "host") (B "") 37 2952701295;
  MAKE_STATIC_ENT (B "if-match") (B "") 38 3597694698;
  MAKE_STATIC_ENT (B "if-modified-since") (B "") 39 2213050793;
  MAKE_STATIC_ENT (B "if-none-match") (B "") 40 2536202615;
  MAKE_STATIC_ENT (B "if-range") (B "") 41 2340978238;
  MAKE_STATIC_ENT (B "if-unmodified-since") (B "") 42 3794814858;
  MAKE_STATIC_ENT (B "last-modified") (B "") 43 3226950251;
  MAKE_STATIC_ENT (B "link") (B "") 44 232457833;
  MAKE_STATIC_ENT (B "location") (B "") 45 200649126;
  MAKE_STATIC_ENT (B "max-forwards") (B "") 46 1826162134;
  MAKE_STATIC_ENT (B "proxy-authenticate") (B "") 47 2709445359;
  MAKE_STATIC_ENT (B "proxy-authorization") (B "") 48 2686392507;
  MAKE_STATIC_ENT (B "range") (B "") 49 4208725202;
  MAKE_STATIC_ENT (B "referer") (B "") 50 3969579366;
  MAKE_STATIC_ENT (B "refresh") (B "") 51 3572655668;
  MAKE_STATIC_ENT (B "retry-after") (B "") 52 3336180598;
  MAKE_STATIC_ENT (B "server") (B "") 53 1085029842;
  MAKE_STATIC_ENT (B "set-cookie") (B "") 54 1848371000;
  MAKE_STATIC_ENT (B "strict-transport-security") (B "") 55 4138147361;
  MAKE_STATIC_ENT (B "transfer-encoding") (B "") 56 3719590988;
  MAKE_STATIC_ENT (B "user-agent") (B "") 57 606444526;
  MAKE_STATIC_ENT (B "vary") (B "") 58 1085005381;
  MAKE_STATIC_ENT (B "via") (B "") 59 1762798611;
  MAKE_STATIC_ENT (B "www-authenticate") (B "") 60 779865858
].

(** ** lookup_token

    [switch (namelen)], [switch (name[namelen - 1])], [memeq(prefix, name,
    namelen - 1)]: the lines of each group are tried in order. *)
Record token_case := mkCase { c_len : Z; c_last : Z; c_prefix : list Z; c_token : Z }.

(** Names of 2 to 7 bytes. *)
Definition tokens_2_7 : list token_case := Eval vm_compute in [
  mkCase 2 (nth 0 (B "e") 0) (B "t") NGHTTP2_TOKEN_TE;
  mkCase 3 (nth 0 (B "a") 0) (B "vi") NGHTTP2_TOKEN_VIA;
  mkCase 3 (nth 0 (B "e") 0) (B "ag") NGHTTP2_TOKEN_AGE;
  mkCase 4 (nth 0 (B "e") 0) (B "dat") NGHTTP2_TOKEN_DATE;
  mkCase 4 (nth 0 (B "g") 0) (B "eta") NGHTTP2_TOKEN_ETAG;
  mkCase 4 (nth 0 (B "k") 0) (B "lin") NGHTTP2_TOKEN_LINK;
  mkCase 4 (nth 0 (B "m") 0) (B "fro") NGHTTP2_TOKEN_FROM;
  mkCase 4 (nth 0 (B "t") 0) (B "hos") NGHTTP2_TOKEN_HOST;
  mkCase 4 (nth 0 (B "y") 0) (B "var") NGHTTP2_TOKEN_VARY;
  mkCase 5 (nth 0 (B "e") 0) (B "rang") NGHTTP2_TOKEN_RANGE;
  mkCase 5 (nth 0 (B "h") 0) (B ":pat") NGHTTP2_TOKEN__PATH;
  mkCase 5 (nth 0 (B "w") 0) (B "allo") NGHTTP2_TOKEN_ALLOW;
  mkCase 6 (nth 0 (B "e") 0) (B "cooki") NGHTTP2_TOKEN_COOKIE;
  mkCase 6 (nth 0 (B "r") 0) (B "serve") NGHTTP2_TOKEN_SERVER;
  mkCase 6 (nth 0 (B "t") 0) (B "accep") NGHTTP2_TOKEN_ACCEPT;
  mkCase 6 (nth 0 (B "t") 0) (B "expec") NGHTTP2_TOKEN_EXPECT;
  mkCase 7 (nth 0 (B "d") 0) (B ":metho") NGHTTP2_TOKEN__METHOD;
  mkCase 7 (nth 0 (B "e") 0) (B ":schem") NGHTTP2_TOKEN__SCHEME;
  mkCase 7 (nth 0 (B "e") 0) (B "upgrad") NGHTTP2_TOKEN_UPGRADE;
  mkCase 7 (nth 0 (B "h") 0) (B "refres") NGHTTP2_TOKEN_REFRESH;
  mkCase 7 (nth 0 (B "r") 0) (B "refere") NGHTTP2_TOKEN_REFERER;
  mkCase 7 (nth 0 (B "s") 0) (B ":statu") NGHTTP2_TOKEN__STATUS;
  mkCase 7 (nth 0 (B "s") 0) (B "expire") NGHTTP2_TOKEN_EXPIRES
].

(** Names of 8 to 13 bytes. *)
Definition tokens_8_13 : list token_case := Eval vm_compute in [
  mkCase 8 (nth 0 (B "e") 0) (B "if-rang") NGHTTP2_TOKEN_IF_RANGE;
  mkCase 8 (nth 0 (B "h") 0) (B "if-matc") NGHTTP2_TOKEN_IF_MATCH;
  mkCase 8 (nth 0 (B "n") 0) (B "locatio") NGHTTP2_TOKEN_LOCATION;
  mkCase 8 (nth 0 (B "y") 0) (B "priorit") NGHTTP2_TOKEN_PRIORITY;
  mkCase 9 (nth 0 (B "l") 0) (B ":protoco") NGHTTP2_TOKEN__PROTOCOL;
  mkCase 10 (nth 0 (B "e") 0) (B "keep-aliv") NGHTTP2_TOKEN_KEEP_ALIVE;
  mkCase 10 (nth 0 (B "e") 0) (B "set-cooki") NGHTTP2_TOKEN_SET_COOKIE;
  mkCase 10 (nth 0 (B "n") 0) (B "connectio") NGHTTP2_TOKEN_CONNECTION;
  mkCase 10 (nth 0 (B "t") 0) (B "user-agen") NGHTTP2_TOKEN_USER_AGENT;
  mkCase 10 (nth 0 (B "y") 0) (B ":authorit") NGHTTP2_TOKEN__AUTHORITY;
  mkCase 11 (nth 0 (B "r") 0) (B "retry-afte") NGHTTP2_TOKEN_RETRY_AFTER;
  mkCase 12 (nth 0 (B "e") 0) (B "content-typ") NGHTTP2_TOKEN_CONTENT_TYPE;
  mkCase 12 (nth 0 (B "s") 0) (B "max-forward") NGHTTP2_TOKEN_MAX_FORWARDS;
  mkCase 13 (nth 0 (B "d") 0) (B "last-modifie") NGHTTP2_TOKEN_LAST_MODIFIED;
  mkCase 13 (nth 0 (B "e") 0) (B "content-rang") NGHTTP2_TOKEN_CONTENT_RANGE;
  mkCase 13 (nth 0 (B "h") 0) (B "if-none-matc") NGHTTP2_TOKEN_IF_NONE_MATCH;
  mkCase 13 (nth 0 (B "l") 0) (B "cache-contro") NGHTTP2_TOKEN_CACHE_CONTROL;
  mkCase 13 (nth 0 (B "n") 0) (B "authorizatio") NGHTTP2_TOKEN_AUTHORIZATION;
  mkCase 13 (nth 0 (B "s") 0) (B "accept-range") NGHTTP2_TOKEN_ACCEPT_RANGES
].

(** Names of 14 to 27 bytes. *)
Definition tokens_14_27 : list token_case := Eval vm_compute in [
  mkCase 14 (nth 0 (B "h") 0) (B "content-lengt") NGHTTP2_TOKEN_CONTENT_LENGTH;
  mkCase 14 (nth 0 (B "t") 0) (B "accept-charse") NGHTTP2_TOKEN_ACCEPT_CHARSET;
  mkCase 15 (nth 0 (B "e") 0) (B "accept-languag") NGHTTP2_TOKEN_ACCEPT_LANGUAGE;
  mkCase 15 (nth 0 (B "g") 0) (B "accept-encodin") NGHTTP2_TOKEN_ACCEPT_ENCODING;
  mkCase 16 (nth 0 (B "e") 0) (B "content-languag") NGHTTP2_TOKEN_CONTENT_LANGUAGE;
  mkCase 16 (nth 0 (B "e") 0) (B "www-authenticat") NGHTTP2_TOKEN_WWW_AUTHENTICATE;
  mkCase 16 (nth 0 (B "g") 0) (B "content-encodin") NGHTTP2_TOKEN_CONTENT_ENCODING;
  mkCase 16 (nth 0 (B "n") 0) (B "content-locatio") NGHTTP2_TOKEN_CONTENT_LOCATION;
  mkCase 16 (nth 0 (B "n") 0) (B "proxy-connectio") NGHTTP2_TOKEN_PROXY_CONNECTION;
  mkCase 17 (nth 0 (B "e") 0) (B "if-modified-sinc") NGHTTP2_TOKEN_IF_MODIFIED_SINCE;
  mkCase 17 (nth 0 (B "g") 0) (B "transfer-encodin") NGHTTP2_TOKEN_TRANSFER_ENCODING;
  mkCase 18 (nth 0 (B "e") 0) (B "proxy-authenticat") NGHTTP2_TOKEN_PROXY_AUTHENTICATE;
  mkCase 19 (nth 0 (B "e") 0) (B "if-unmodified-sinc") NGHTTP2_TOKEN_IF_UNMODIFIED_SINCE;
  mkCase 19 (nth 0 (B "n") 0) (B "content-dispositio") NGHTTP2_TOKEN_CONTENT_DISPOSITION;
  mkCase 19 (nth 0 (B "n") 0) (B "proxy-authorizatio") NGHTTP2_TOKEN_PROXY_AUTHORIZATION;
  mkCase 25 (nth 0 (B "y") 0) (B "strict-transport-securit") NGHTTP2_TOKEN_STRICT_TRANSPORT_SECURITY;
  mkCase 27 (nth 0 (B "n") 0) (B "access-control-allow-origi") NGHTTP2_TOKEN_ACCESS_CONTROL_ALLOW_ORIGIN
].

Definition token_cases : list token_case := tokens_2_7 ++ tokens_8_13 ++ tokens_14_27.

(** [memeq(s, name, n)] with [n] the length of [s]. *)
Definition memeq (s name : list Z) : bool := bool_decide (take (length s) name = s).

Definition case_matches (name : list Z) (c : token_case) : bool :=
  (Z.of_nat (length name) =? c_len c)
  && (nth (length name - 1) name 0 =? c_last c)
  && memeq (c_prefix c) name.

Definition lookup_token (name : list Z) : Z :=
  match List.find (case_matches name) token_cases with
  | Some c => c_token c
  | None => -1
  end.

(** ** name_hash: 32-bit FNV-1a *)
Definition name_hash (name : list Z) : Z :=
  foldl (fun h c =>
    let h := Z.lxor h c in
    u32 (h + u32 (u32 (Z.shiftl h 1) + u32 (Z.shiftl h 4) + u32 (Z.shiftl h 7)
                  + u32 (Z.shiftl h 8) + u32 (Z.shiftl h 24)))) 2166136261 name.

(** ** The tables agree *)

Definition static_get (i : Z) : option static_entry :=
  if i <? 0 then None else static_table !! Z.to_nat i.

(** The name that a case matches. *)
Definition case_name (c : token_case) : list Z := c_prefix c ++ [c_last c].

Lemma case_matches_name name c :
  Z.of_nat (length (case_name c)) = c_len c -> case_matches name c = true -> name = case_name c.
Proof.
  unfold case_matches, memeq, case_name. rewrite length_app. cbn [length]. intros Hl Hm.
  apply andb_true_iff in Hm as [Hm Hp]. apply andb_true_iff in Hm as [Hn Hc].
  apply bool_decide_eq_true in Hp.
  destruct name as [|x init _] using rev_ind; [cbn in Hn; lia|].
  rewrite length_app in *. cbn [length] in *.
  assert (length init = length (c_prefix c)) as Hlen by lia.
  replace (length init + 1 - 1)%nat with (length init) in Hc by lia.
  rewrite app_nth2, Nat.sub_diag in Hc by lia. cbn in Hc.
  rewrite <- Hlen, take_app_length in Hp. subst init. f_equal. f_equal. lia.
Qed.

Lemma token_cases_ok :
  forallb (fun c => (Z.of_nat (length (case_name c)) =? c_len c)
    && (lookup_token (case_name c) =? c_token c) && (0 <=? c_token c)
    && ((60 <? c_token c)
        || bool_decide (ent_name <$> static_get (c_token c) = Some (case_name c)))) token_cases = true.
Proof. vm_compute. reflexivity. Qed.

Lemma static_table_ok :
  forallb (fun '(i, e) => (name_hash (ent_name e) =? ent_hash e)
    && (lookup_token (ent_name e) =? ent_token e) && (0 <=? ent_token e) && (ent_token e <=? i))
    (zip (Z.of_nat <$> seq 0 61) static_table) = true.
Proof. vm_compute. reflexivity. Qed.

Lemma lookup_token_found name :
  lookup_token name <> -1 ->
  exists c, c ∈ token_cases /\ name = case_name c /\ lookup_token name = c_token c.
Proof.
  intros H. pose proof token_cases_ok as Hok. rewrite List.forallb_forall in Hok.
  unfold lookup_token in *. destruct (List.find _ _) as [c|] eqn:E; [|done].
  apply List.find_some in E as [Hin Hm]. specialize (Hok c Hin). cbv beta in Hok.
  exists c. split; [by apply list_elem_of_In|]. split; [|done].
  apply case_matches_name; [|done]. do 3 apply andb_true_iff in Hok as [Hok _]. lia.
Qed.

Lemma static_get_ok i e :
  static_get i = Some e ->
  name_hash (ent_name e) = ent_hash e /\ lookup_token (ent_name e) = ent_token e /\
  0 <= ent_token e <= i /\ i <= 60.
Proof.
  unfold static_get. destruct (i <? 0) eqn:Ei; [done|]. intros He.
  pose proof (lookup_lt_Some _ _ _ He) as Hlt. change (length static_table) with 61%nat in Hlt.
  pose proof static_table_ok as Hok. rewrite List.forallb_forall in Hok.
  specialize (Hok (i, e)). cbv beta iota in Hok.
  assert (Hin : In (i, e) (zip (Z.of_nat <$> seq 0 61) static_table)).
  { apply list_elem_of_In, list_elem_of_lookup. exists (Z.to_nat i).
    rewrite lookup_zip_with, list_lookup_fmap, lookup_seq_lt by lia. cbn [fmap option_fmap option_map].
    cbn. rewrite He. cbn. do 2 f_equal. lia. }
  specialize (Hok Hin). lia.
Qed.

Lemma static_get_some i : 0 <= i <= 60 -> exists e, static_get i = Some e.
Proof.
  intros Hi. unfold static_get. destruct (i <? 0) eqn:E; [lia|].
  apply lookup_lt_is_Some_2. change (length static_table) with 61%nat. lia.
Qed.

Lemma lookup_token_hit name :
  0 <= lookup_token name <= NGHTTP2_TOKEN_WWW_AUTHENTICATE ->
  exists e, static_get (lookup_token name) = Some e /\ ent_name e = name.
Proof.
  intros Ht. destruct (lookup_token_found name) as (c & Hin & Hn & Hc); [lia|].
  pose proof token_cases_ok as Hok. rewrite List.forallb_forall in Hok.
  apply list_elem_of_In in Hin. specialize (Hok c Hin). cbv beta in Hok.
  apply andb_true_iff in Hok as [_ Hok]. change NGHTTP2_TOKEN_WWW_AUTHENTICATE with 60 in *.
  apply orb_true_iff in Hok as [Hok|Hok]; [lia|]. apply bool_decide_eq_true in Hok.
  rewrite <- Hc, <- Hn in Hok. destruct (static_get (lookup_token name)) as [e|] eqn:E; [|done].
  cbn in Hok. simplify_eq. by exists e.
Qed.

Lemma token_cases_inj :
  forallb (fun c => forallb (fun d => negb (c_token c =? c_token d)
    || bool_decide (case_name c = case_name d)) token_cases) token_cases = true.
Proof. vm_compute. reflexivity. Qed.

(** A token identifies its name. *)
Lemma lookup_token_inj a b : lookup_token a = lookup_token b -> lookup_token a <> -1 -> a = b.
Proof.
  intros Hab Ha. destruct (lookup_token_found a Ha) as (c & Hc & -> & Htc).
  rewrite Hab in Ha. destruct (lookup_token_found b Ha) as (d & Hd & -> & Htd).
  pose proof token_cases_inj as Hok. rewrite List.forallb_forall in Hok.
  apply list_elem_of_In in Hc, Hd. specialize (Hok c Hc). cbv beta in Hok.
  rewrite List.forallb_forall in Hok. specialize (Hok d Hd). cbv beta in Hok.
  apply orb_true_iff in Hok as [Hok|Hok]; [lia|]. by apply bool_decide_eq_true in Hok.
Qed.

(** The tables of HPACK agree: for every name, [lookup_token] returns
    the index of the first static entry that has this name when there is one,
    so a token up to NGHTTP2_TOKEN_WWW_AUTHENTICATE always indexes an entry of
    that very name, whose stored hash is the FNV-1a hash of the name. *)
Theorem lookup_token_static name :
  let t := lookup_token name in
  (0 <= t <= NGHTTP2_TOKEN_WWW_AUTHENTICATE ->
     exists e, static_get t = Some e /\ ent_name e = name /\ ent_token e = t /\
       ent_hash e = name_hash name) /\
  (forall i e, static_get i = Some e -> ent_name e = name ->
     0 <= t <= i /\ t <= NGHTTP2_TOKEN_WWW_AUTHENTICATE).
Proof.
  cbv zeta. change NGHTTP2_TOKEN_WWW_AUTHENTICATE with 60. split.
  - intros Ht. destruct (lookup_token_hit name Ht) as (e & He & Hn). exists e.
    destruct (static_get_ok _ _ He) as (H1 & H2 & _). subst name. by repeat split.
  - intros i e Hi <-. destruct (static_get_ok _ _ Hi) as (_ & -> & H3 & H4). lia.
Qed.

End HdStatic.
