(* ===== verification/HdRing.v ===== *)
(** The ring buffer under the dynamic table of HPACK
    (src/http2/src/upstream/lib/nghttp2_hd.c, lines 593-672): a power-of-two
    array of entry pointers that grows, is pushed at the front and popped at
    the back, and its refinement to a list.

    Memory comes from [nghttp2_mem], which is not part of the repository: a
    parameter [malloc_ok] says which allocation fails, by its number. *)

From S2P Require Export Prelude.
Open Scope Z_scope.

(** Return codes of the library. *)
Inductive hd_err :=
  | NGHTTP2_SUCCESS
  | NGHTTP2_ERR_NOMEM
  | NGHTTP2_ERR_HEADER_COMP
  | NGHTTP2_ERR_BUFFER_ERROR
  | NGHTTP2_ERR_INSUFF_BUFSIZE
  | NGHTTP2_ERR_INVALID_STATE.

#[export] Instance hd_err_eq_dec : EqDecision hd_err.
Proof. solve_decision. Defined.

(** The allocator: the number of calls so far. *)
Definition mem := nat.

Module HdRing.
Section Ring.
Context {E : Type}.
Variable malloc_ok : mem -> bool.

(** [nghttp2_hd_ringbuf]; a slot that was never written is [None]. *)
Record ringbuf := mkRing {
  buffer : list (option E);
  mask : Z;
  first : Z;
  len : Z
}.

(** [for (size = 1; size < bufsize; size <<= 1);]: a [size_t] is doubled at
    most 64 times. *)
Fixpoint size_loop (fuel : nat) (size bufsize : Z) : Z :=
  match fuel with
  | O => size
  | S fuel' => if size <? bufsize then size_loop fuel' (u64 (Z.shiftl size 1)) bufsize else size
  end.

Definition ring_size (bufsize : Z) : Z := size_loop 64 1 bufsize.

Definition hd_ringbuf_init (bufsize : Z) (m : mem) : hd_err * option ringbuf * mem :=
  let size := ring_size bufsize in
  if malloc_ok m then
    (NGHTTP2_SUCCESS, Some (mkRing (replicate (Z.to_nat size) None) (size - 1) 0 0), S m)
  else (NGHTTP2_ERR_NOMEM, None, S m).

Arguments ring_size : simpl never.

(** [None] stands for a failed assertion or a slot outside of the array. *)
Definition hd_ringbuf_get (r : ringbuf) (idx : Z) : option E :=
  if idx <? len r then
    mjoin (buffer r !! Z.to_nat (Z.land (u64 (first r + idx)) (mask r)))
  else None.

(** [for (i = 0; i < len; ++i) buffer[i] = hd_ringbuf_get(ringbuf, i)] *)
Definition copy_entries (r : ringbuf) (size : Z) : list (option E) :=
  ((fun i => hd_ringbuf_get r (Z.of_nat i)) <$> seq 0 (Z.to_nat (len r)))
  ++ replicate (Z.to_nat (size - len r)) None.

Definition hd_ringbuf_reserve (r : ringbuf) (bufsize : Z) (m : mem) : hd_err * ringbuf * mem :=
  if bufsize <=? mask r + 1 then (NGHTTP2_SUCCESS, r, m)
  else
    let size := ring_size bufsize in
    if malloc_ok m then
      (NGHTTP2_SUCCESS, mkRing (copy_entries r size) (size - 1) 0 (len r), S m)
    else (NGHTTP2_ERR_NOMEM, r, S m).

Definition hd_ringbuf_push_front (r : ringbuf) (ent : E) (m : mem) : hd_err * ringbuf * mem :=
  match hd_ringbuf_reserve r (u64 (len r + 1)) m with
  | (NGHTTP2_SUCCESS, r, m) =>
      let first' := u64 (first r - 1) in
      (NGHTTP2_SUCCESS,
       mkRing (<[Z.to_nat (Z.land first' (mask r)) := Some ent]> (buffer r)) (mask r) first'
              (u64 (len r + 1)), m)
  | (rv, r, m) => (rv, r, m)
  end.

(** [assert(len > 0); --len] *)
Definition hd_ringbuf_pop_back (r : ringbuf) : ringbuf :=
  mkRing (buffer r) (mask r) (first r) (len r - 1).

(** ** Refinement to a list *)

(** The entries, the front first. *)
Definition contents (r : ringbuf) : list (option E) :=
  (fun i => hd_ringbuf_get r (Z.of_nat i)) <$> seq 0 (Z.to_nat (len r)).

(** A well-formed ring holds the list [l]. *)
Record holds (r : ringbuf) (l : list E) : Prop := {
  holds_pow : exists j, 0 <= j <= 63 /\ mask r + 1 = 2 ^ j;
  holds_buffer : Z.of_nat (length (buffer r)) = mask r + 1;
  holds_first : 0 <= first r < 2 ^ 64;
  holds_len : len r = Z.of_nat (length l);
  holds_fit : len r <= mask r + 1;
  holds_get : forall i : nat, (i < length l)%nat -> hd_ringbuf_get r (Z.of_nat i) = l !! i
}.

(** The loop finds a power of two. *)
Lemma size_loop_pow fuel j bufsize :
  0 <= j -> bufsize <= 2 ^ 63 -> 63 <= j + Z.of_nat fuel -> j <= 63 -> (j = 0 \/ 2 ^ (j - 1) < bufsize) ->
  exists j', 0 <= j' <= 63 /\ size_loop fuel (2 ^ j) bufsize = 2 ^ j' /\ bufsize <= 2 ^ j' /\
    (j' = 0 \/ 2 ^ (j' - 1) < bufsize).
Proof.
  revert j. induction fuel as [|fuel IH]; intros j Hj Hb Hf Hj63 Hlow; cbn [size_loop].
  - exists j. replace j with 63 in * by lia. by repeat split.
  - destruct (2 ^ j <? bufsize) eqn:E0; [|exists j; repeat split; try done; lia].
    assert (Hlt : j < 63).
    { destruct (Z_lt_ge_dec j 63) as [|Hge]; [done|]. replace j with 63 in * by lia. lia. }
    assert (2 ^ (j + 1) = 2 * 2 ^ j) as Hp by (rewrite Z.pow_add_r by lia; lia).
    assert (2 ^ (j + 1) <= 2 ^ 63) by (apply Z.pow_le_mono_r; lia).
    replace (u64 (Z.shiftl (2 ^ j) 1)) with (2 ^ (j + 1)).
    + apply IH; try lia. right. by replace (j + 1 - 1) with j by lia; lia.
    + unfold u64. rewrite Z.shiftl_mul_pow2, Z.mod_small by lia. lia.
Qed.

Lemma ring_size_pow bufsize :
  bufsize <= 2 ^ 63 ->
  exists j, 0 <= j <= 63 /\ ring_size bufsize = 2 ^ j /\ bufsize <= 2 ^ j.
Proof.
  intros Hb. destruct (size_loop_pow 64 0 bufsize) as (j & Hj & Hs & Hle & _); try lia.
  by exists j.
Qed.

Lemma u64_mod a j : 0 <= j <= 63 -> u64 a mod 2 ^ j = a mod 2 ^ j.
Proof.
  intros Hj. unfold u64.
  change 18446744073709551616 with (2 ^ 64).
  replace 64 with (j + (64 - j)) by lia. rewrite Z.pow_add_r by lia.
  pose proof (Z.pow_pos_nonneg 2 j ltac:(lia) ltac:(lia)).
  pose proof (Z.pow_pos_nonneg 2 (64 - j) ltac:(lia) ltac:(lia)).
  rewrite Z.rem_mul_r by lia. rewrite (Z.mul_comm (2 ^ j)), Z.mod_add by lia.
  by rewrite Z.mod_mod by lia.
Qed.

(** The slot of an index. *)
Lemma slot_mod a m j : 0 <= j <= 63 -> m + 1 = 2 ^ j -> Z.land (u64 a) m = a mod 2 ^ j.
Proof.
  intros Hj Hm. replace m with (Z.ones j) by (rewrite Z.ones_equiv; lia).
  rewrite Z.land_ones by lia. by apply u64_mod.
Qed.

Lemma get_mod r j i :
  0 <= j <= 63 -> mask r + 1 = 2 ^ j -> i < len r ->
  hd_ringbuf_get r i = mjoin (buffer r !! Z.to_nat ((first r + i) mod 2 ^ j)).
Proof.
  intros Hj Hm Hi. unfold hd_ringbuf_get. replace (i <? len r) with true by lia.
  by rewrite (slot_mod _ _ j).
Qed.

Lemma init_holds bufsize m r m' :
  bufsize <= 2 ^ 63 -> hd_ringbuf_init bufsize m = (NGHTTP2_SUCCESS, Some r, m') -> holds r [].
Proof.
  intros Hb. unfold hd_ringbuf_init. destruct (malloc_ok m); [|done]. intros [= <- _].
  destruct (ring_size_pow bufsize Hb) as (j & Hj & Hs & _).
  pose proof (Z.pow_pos_nonneg 2 j ltac:(lia) ltac:(lia)).
  constructor; cbn; try lia; [exists j; lia|].
  rewrite length_replicate. lia.
Qed.

Lemma reserve_holds r l bufsize m :
  holds r l -> bufsize <= 2 ^ 63 -> Z.of_nat (length l) < bufsize ->
  match hd_ringbuf_reserve r bufsize m with
  | (NGHTTP2_SUCCESS, r', _) => holds r' l /\ bufsize <= mask r' + 1
  | (rv, r', _) => rv = NGHTTP2_ERR_NOMEM /\ r' = r
  end.
Proof.
  intros [Hpow Hbuf Hfirst Hlen Hfit Hget] Hb Hlb. unfold hd_ringbuf_reserve.
  destruct (bufsize <=? mask r + 1) eqn:E0; [by split; [constructor|lia]|].
  destruct (malloc_ok m); [|done].
  destruct (ring_size_pow bufsize Hb) as (j & Hj & Hs & Hle).
  pose proof (Z.pow_pos_nonneg 2 j ltac:(lia) ltac:(lia)). split; [|cbn; lia].
  constructor; cbn; try lia; [exists j; lia| |].
  - unfold copy_entries. rewrite length_app, length_fmap, length_seq, length_replicate. lia.
  - intros i Hi. rewrite (get_mod _ j) by (cbn; lia). cbn.
    replace (Z.to_nat ((0 + Z.of_nat i) mod 2 ^ j)) with i
      by (rewrite Z.mod_small by lia; lia).
    unfold copy_entries. rewrite lookup_app_l by (rewrite length_fmap, length_seq; lia).
    rewrite list_lookup_fmap, lookup_seq_lt by lia. cbn. by apply Hget.
Qed.

Lemma push_front_holds r l ent m :
  holds r l -> Z.of_nat (length l) < 2 ^ 63 ->
  match hd_ringbuf_push_front r ent m with
  | (NGHTTP2_SUCCESS, r', _) => holds r' (ent :: l)
  | (rv, r', _) => rv = NGHTTP2_ERR_NOMEM /\ r' = r
  end.
Proof.
  intros Hr Hl. unfold hd_ringbuf_push_front.
  assert (Hu : u64 (len r + 1) = len r + 1).
  { destruct Hr. unfold u64. rewrite Z.mod_small; lia. }
  rewrite Hu. pose proof (reserve_holds r l (len r + 1) m Hr) as Hres.
  destruct Hr as [_ _ _ Hlen _ _].
  destruct (hd_ringbuf_reserve r (len r + 1) m) as [[rv r'] m'].
  specialize (Hres ltac:(lia) ltac:(lia)).
  destruct rv; try (by destruct Hres).
  destruct Hres as [[(j & Hj & Hm) Hbuf Hfirst Hlen' Hfit' Hget] Hroom].
  pose proof (Z.pow_pos_nonneg 2 j ltac:(lia) ltac:(lia)) as Hpos.
  assert (Hul : u64 (len r' + 1) = len r' + 1) by (unfold u64; rewrite Z.mod_small; lia).
  rewrite Hul. rewrite (slot_mod _ _ j) by done.
  set (s0 := (first r' - 1) mod 2 ^ j).
  assert (Hs0 : 0 <= s0 < 2 ^ j) by (apply Z.mod_pos_bound; lia).
  constructor; cbn; try lia; [by exists j| |unfold u64; lia_mod|].
  { by rewrite length_insert. }
  intros i Hi. rewrite (get_mod _ j) by (cbn; lia). cbn.
  assert (Hslot : (u64 (first r' - 1) + Z.of_nat i) mod 2 ^ j = (s0 + Z.of_nat i) mod 2 ^ j).
  { unfold s0. rewrite <- (slot_mod (first r' - 1) (mask r') j), (slot_mod _ _ j) by done.
    rewrite <- (u64_mod (first r' - 1) j) by done. by rewrite Z.add_mod_idemp_l by lia. }
  rewrite Hslot. destruct i as [|i].
  - rewrite Z.add_0_r, Z.mod_small by lia. rewrite list_lookup_insert_eq by lia. done.
  - cbn [lookup list_lookup].
    rewrite list_lookup_insert_ne.
    + rewrite <- Hget by (cbn in Hi; lia). rewrite (get_mod _ j) by (cbn in Hi; lia || done).
      do 2 f_equal. unfold s0. rewrite Z.add_mod_idemp_l by lia. do 2 f_equal. lia.
    + intros Heq.
      assert (Hne : s0 = (s0 + Z.of_nat (S i)) mod 2 ^ j).
      { pose proof (Z.mod_pos_bound (s0 + Z.of_nat (S i)) (2 ^ j) Hpos). lia. }
      cbn in Hi. assert (Z.of_nat (S i) < 2 ^ j) by lia. 
      destruct (Z_lt_ge_dec (s0 + Z.of_nat (S i)) (2 ^ j)).
      * rewrite Z.mod_small in Hne by lia. lia.
      * rewrite <- (Z.mod_add _ (-1)), Z.mod_small in Hne by lia. lia.
Qed.

Lemma push_front_mem r ent m :
  let '(_, _, m') := hd_ringbuf_push_front r ent m in (m <= m')%nat.
Proof.
  unfold hd_ringbuf_push_front, hd_ringbuf_reserve. destruct (_ <=? _); [cbn; lia|].
  destruct (malloc_ok m); cbn; lia.
Qed.

Lemma pop_back_holds r l ent :
  holds r (l ++ [ent]) ->
  hd_ringbuf_get r (len r - 1) = Some ent /\ holds (hd_ringbuf_pop_back r) l.
Proof.
  intros [Hpow Hbuf Hfirst Hlen Hfit Hget]. rewrite length_app in *. cbn [length] in *. split.
  - specialize (Hget (length l) ltac:(lia)). rewrite lookup_app_r, Nat.sub_diag in Hget by lia.
    cbn in Hget. rewrite <- Hget. f_equal. lia.
  - constructor; cbn; try done; try lia. intros i Hi. specialize (Hget i ltac:(lia)).
    rewrite lookup_app_l in Hget by lia. rewrite <- Hget. unfold hd_ringbuf_get. cbn.
    replace (Z.of_nat i <? len r - 1) with true by lia.
    by replace (Z.of_nat i <? len r) with true by lia.
Qed.
End Ring.

(** The ring buffer is a deque: a fresh ring is empty; [get] returns the
    [i]-th entry from the front; a push either puts the entry at the front and
    keeps every other entry, through any growth of the array and wrap of
    [first], or fails with NGHTTP2_ERR_NOMEM and changes nothing; and a pop
    takes the last entry off. *)
Theorem ring_deque {E : Type} (malloc_ok : mem -> bool) (r : @ringbuf E) (l : list E) :
  holds r l -> Z.of_nat (length l) < 2 ^ 63 ->
  (forall i, 0 <= i -> hd_ringbuf_get r i = l !! Z.to_nat i) /\
  (forall ent m,
     match hd_ringbuf_push_front malloc_ok r ent m with
     | (NGHTTP2_SUCCESS, r', _) => holds r' (ent :: l)
     | (rv, r', _) => rv = NGHTTP2_ERR_NOMEM /\ r' = r
     end) /\
  (forall l' ent, l = l' ++ [ent] ->
     hd_ringbuf_get r (len r - 1) = Some ent /\ holds (hd_ringbuf_pop_back r) l').
Proof.
  intros Hr Hl. split; [|split].
  - intros i Hi. pose proof Hr as [_ _ _ Hlen _ Hget].
    destruct (Z_lt_ge_dec i (Z.of_nat (length l))).
    + rewrite <- Hget by lia. f_equal. lia.
    + rewrite lookup_ge_None_2 by lia. unfold hd_ringbuf_get. by replace (i <? len r) with false by lia.
  - intros ent m. by apply push_front_holds.
  - intros l' ent ->. by apply pop_back_holds.
Qed.

Definition sample_ring : @ringbuf nat := mkRing [Some 7%nat; None] 1 (2 ^ 64 - 2) 1.

Lemma sample_ring_holds : holds sample_ring [7%nat].
Proof.
  constructor; try done; [exists 1; done|]. intros i Hi. destruct i; [done|]. cbn in Hi. lia.
Qed.

Lemma ring_deque_witness :
  hd_ringbuf_get sample_ring 0 = Some 7%nat /\
  (let '(_, r, _) := hd_ringbuf_push_front (fun _ => true) sample_ring 8%nat 0%nat in holds r [8%nat; 7%nat]) /\
  holds (hd_ringbuf_pop_back sample_ring) [].
Proof.
  destruct (ring_deque (fun _ => true) sample_ring [7%nat] sample_ring_holds ltac:(cbn; lia))
    as (H1 & H2 & H3).
  split; [exact (H1 0 ltac:(lia))|]. split; [exact (H2 8%nat 0%nat)|].
  exact (proj2 (H3 [] 7%nat eq_refl)).
Defined.

End HdRing.
