(* ===== verification/HdTable.v ===== *)
(** The tables of HPACK
    (src/http2/src/upstream/lib/nghttp2_hd.c): entries (lines 487-514), the
    hash map of the deflater (529-591), the context with its dynamic table
    (674-690, 782-784, 1100-1164, 1223-1243), the search for an entry
    (1166-1221), and the lookup by index (1294-1325).

    Reference counts are not modelled: the contents of a name or value never
    change after it is made.  An entry carries the number of the allocation
    that made it, which stands for its address. *)

From S2P Require Export Memory HdStatic HdRing.
Export HdStatic HdRing.
Open Scope Z_scope.

Module HdTable.
Export Memory.

Definition NGHTTP2_HD_ENTRY_OVERHEAD : Z := 32.

(** The flags of a header are NGHTTP2_NV_FLAG_NONE or
    NGHTTP2_NV_FLAG_NO_INDEX: whether the latter is set. *)
Definition NGHTTP2_NV_FLAG_NONE : bool := false.
Definition NGHTTP2_NV_FLAG_NO_INDEX : bool := true.
Definition HD_MAP_SIZE : Z := 128.

(** [nghttp2_hd_nv] *)
Record hd_nv := mkNv { nv_name : list Z; nv_value : list Z; nv_token : Z; nv_flags : bool }.

(** [nghttp2_hd_entry], without the link of the hash map, and its address. *)
Record hd_entry := mkEntry { ent_nv : hd_nv; ent_seq : Z; ent_hash_ : Z; ent_addr : mem }.

(** [nghttp2_hd_map]: each chain as the list of its entries. *)
Abbreviation hd_map := (list (list hd_entry)).

Definition hd_map_init : hd_map := replicate (Z.to_nat HD_MAP_SIZE) [].

Definition bucket (hash : Z) : nat := Z.to_nat (Z.land hash (HD_MAP_SIZE - 1)).

(** Lower index is linked near the root. *)
Definition hd_map_insert (m : hd_map) (ent : hd_entry) : hd_map :=
  alter (fun chain => ent :: chain) (bucket (ent_hash_ ent)) m.

(** [for (; *dst; dst = &( *dst)->next) if ( *dst == ent) ...] *)
Fixpoint unlink (a : mem) (chain : list hd_entry) : list hd_entry :=
  match chain with
  | [] => []
  | e :: chain' => if bool_decide (ent_addr e = a) then chain' else e :: unlink a chain'
  end.

Definition hd_map_remove (m : hd_map) (ent : hd_entry) : hd_map :=
  alter (unlink (ent_addr ent)) (bucket (ent_hash_ ent)) m.

Definition name_eq (a : hd_nv) (name : list Z) : bool := bool_decide (nv_name a = name).
Definition value_eq (a : hd_nv) (value : list Z) : bool := bool_decide (nv_value a = value).

(** The walk of a chain: the first entry of that name, or the first that also
    has the value. *)
Fixpoint find_chain (chain : list hd_entry) (name value : list Z) (token hash : Z)
    (name_only : bool) (res : option hd_entry) : option hd_entry * bool :=
  match chain with
  | [] => (res, false)
  | p :: chain' =>
      if negb (token =? nv_token (ent_nv p))
         || ((token =? -1) && (negb (hash =? ent_hash_ p) || negb (name_eq (ent_nv p) name)))
      then find_chain chain' name value token hash name_only res
      else
        match res with
        | None =>
            if name_only then (Some p, false)
            else if value_eq (ent_nv p) value then (Some p, true)
            else find_chain chain' name value token hash name_only (Some p)
        | Some _ =>
            if value_eq (ent_nv p) value then (Some p, true)
            else find_chain chain' name value token hash name_only res
        end
  end.

Definition hd_map_find (m : hd_map) (name value : list Z) (token hash : Z) (name_only : bool)
    : option hd_entry * bool :=
  find_chain (nth (bucket hash) m []) name value token hash name_only None.

(** [nghttp2_hd_context] *)
Record hd_context := mkCtx {
  hd_table : @ringbuf hd_entry;
  hd_table_bufsize : Z;
  hd_table_bufsize_max : Z;
  next_seq : Z;
  bad : bool;
  ctx_mem : mem
}.

Definition entry_room (namelen valuelen : Z) : Z := NGHTTP2_HD_ENTRY_OVERHEAD + namelen + valuelen.

Definition nv_room (nv : hd_nv) : Z := entry_room (size (nv_name nv)) (size (nv_value nv)).

Arguments nv_room : simpl never.
Arguments u64 : simpl never.
Arguments u32 : simpl never.

(** The body of both eviction loops: the last entry is taken off. *)
Definition evict_last (ctx : hd_context) (map : option hd_map) : option (hd_context * option hd_map) :=
  ent ← hd_ringbuf_get (hd_table ctx) (len (hd_table ctx) - 1);
  Some (mkCtx (hd_ringbuf_pop_back (hd_table ctx))
          (u64 (hd_table_bufsize ctx - nv_room (ent_nv ent)))
          (hd_table_bufsize_max ctx) (next_seq ctx) (bad ctx) (ctx_mem ctx),
        (fun m => hd_map_remove m ent) <$> map).

(** [while (bufsize + room > bufsize_max && len > 0)]; [None] stands for a
    failed assertion or exhausted fuel. *)
Fixpoint evict_loop (fuel : nat) (room : Z) (ctx : hd_context) (map : option hd_map)
    : option (hd_context * option hd_map) :=
  if (hd_table_bufsize_max ctx <? u64 (hd_table_bufsize ctx + room)) && (0 <? len (hd_table ctx)) then
    match fuel with
    | O => None
    | S fuel' => '(ctx, map) ← evict_last ctx map; evict_loop fuel' room ctx map
    end
  else Some (ctx, map).

Definition evict (room : Z) (ctx : hd_context) (map : option hd_map)
    : option (hd_context * option hd_map) :=
  evict_loop (Z.to_nat (len (hd_table ctx))) room ctx map.

(** [hd_context_shrink_table_size] *)
Definition hd_context_shrink_table_size (ctx : hd_context) (map : option hd_map) :=
  evict 0 ctx map.

Section Add.
Variable malloc_ok : mem -> bool.

Definition hd_context_init (default_size : Z) (m : mem) : hd_err * option hd_context * mem :=
  match hd_ringbuf_init malloc_ok (default_size / NGHTTP2_HD_ENTRY_OVERHEAD) m with
  | (NGHTTP2_SUCCESS, Some r, m) =>
      (NGHTTP2_SUCCESS, Some (mkCtx r 0 default_size 0 false m), m)
  | (rv, _, m) => (rv, None, m)
  end.

Definition add_hd_table_incremental (ctx : hd_context) (nv : hd_nv) (map : option hd_map)
    (hash : Z) : option (hd_err * hd_context * option hd_map) :=
  let room := nv_room nv in
  match evict room ctx map with
  | None => None
  | Some (ctx, map) =>
  if hd_table_bufsize_max ctx <? room then Some (NGHTTP2_SUCCESS, ctx, map)
  else
    let m := ctx_mem ctx in
    if negb (malloc_ok m) then
      Some (NGHTTP2_ERR_NOMEM,
            mkCtx (hd_table ctx) (hd_table_bufsize ctx) (hd_table_bufsize_max ctx)
                  (next_seq ctx) (bad ctx) (S m), map)
    else
      let ent := mkEntry nv (next_seq ctx) hash m in
      match hd_ringbuf_push_front malloc_ok (hd_table ctx) ent (S m) with
      | (NGHTTP2_SUCCESS, r, m) =>
          Some (NGHTTP2_SUCCESS,
                mkCtx r (u64 (hd_table_bufsize ctx + room)) (hd_table_bufsize_max ctx)
                      (u32 (next_seq ctx + 1)) (bad ctx) m,
                (fun t => hd_map_insert t ent) <$> map)
      | (rv, r, m) =>
          Some (rv, mkCtx r (hd_table_bufsize ctx) (hd_table_bufsize_max ctx)
                      (next_seq ctx) (bad ctx) m, map)
      end
  end.
End Add.

(** ** Lookup by index *)

Definition INDEX_RANGE_VALID (ctx : hd_context) (idx : Z) : bool :=
  idx <? len (hd_table ctx) + NGHTTP2_STATIC_TABLE_LENGTH.

Definition get_max_index (ctx : hd_context) : Z :=
  len (hd_table ctx) + NGHTTP2_STATIC_TABLE_LENGTH.

(** [nghttp2_hd_table_get]; [None] when the assertion fails. *)
Definition nghttp2_hd_table_get (ctx : hd_context) (idx : Z) : option hd_nv :=
  if INDEX_RANGE_VALID ctx idx then
    if NGHTTP2_STATIC_TABLE_LENGTH <=? idx then
      ent_nv <$> hd_ringbuf_get (hd_table ctx) (idx - NGHTTP2_STATIC_TABLE_LENGTH)
    else
      (fun e => mkNv (ent_name e) (ent_value e) (ent_token e) NGHTTP2_NV_FLAG_NONE)
        <$> static_get idx
  else None.

(** [hd_get_table_entry]: the public lookup, from 1. *)
Definition hd_get_table_entry (ctx : hd_context) (idx : Z) : option hd_nv :=
  if idx =? 0 then None
  else if negb (INDEX_RANGE_VALID ctx (idx - 1)) then None
  else nghttp2_hd_table_get ctx (idx - 1).

(** ** Search *)

(** [search_result] *)
Record search_result := mkRes { index : Z; name_value_match : bool }.

(** [for (i = token; i <= WWW_AUTHENTICATE && static_table[i].token == token; ++i)] *)
Fixpoint search_static_loop (fuel : nat) (i : Z) (value : list Z) (token : Z) : search_result :=
  match fuel with
  | O => mkRes token false
  | S fuel' =>
      if i <=? NGHTTP2_TOKEN_WWW_AUTHENTICATE then
        match static_get i with
        | Some ent =>
            if ent_token ent =? token then
              if bool_decide (ent_value ent = value) then mkRes i true
              else search_static_loop fuel' (i + 1) value token
            else mkRes token false
        | None => mkRes token false
        end
      else mkRes token false
  end.

Definition search_static_table (value : list Z) (token : Z) (name_only : bool) : search_result :=
  if name_only then mkRes token false
  else search_static_loop (Z.to_nat NGHTTP2_STATIC_TABLE_LENGTH) token value token.

Definition search_hd_table (ctx : hd_context) (name value : list Z) (token : Z)
    (name_only : bool) (map : hd_map) (hash : Z) : search_result :=
  let '(ent, exact_match) := hd_map_find map name value token hash name_only in
  if negb exact_match && (0 <=? token) && (token <=? NGHTTP2_TOKEN_WWW_AUTHENTICATE) then
    search_static_table value token name_only
  else
    match ent with
    | None => mkRes (-1) false
    | Some ent =>
        mkRes (u32 (u32 (next_seq ctx - 1 - ent_seq ent) + NGHTTP2_STATIC_TABLE_LENGTH)) exact_match
    end.

(** ** The dynamic table as a list *)

Fixpoint rooms (l : list hd_entry) : Z :=
  match l with [] => 0 | e :: l' => nv_room (ent_nv e) + rooms l' end.

(** The longest prefix (the youngest entries) that fits in [budget]. *)
Fixpoint fits (budget : Z) (l : list hd_entry) : list hd_entry :=
  match l with
  | [] => []
  | e :: l' =>
      if nv_room (ent_nv e) <=? budget then e :: fits (budget - nv_room (ent_nv e)) l' else []
  end.

Lemma nv_room_ge nv : 32 <= nv_room nv.
Proof. unfold nv_room, entry_room, size, NGHTTP2_HD_ENTRY_OVERHEAD. lia. Qed.

(** The size of a table, RFC 7541, section 4.1: the lengths of names and values, and 32
    bytes for each entry. *)
Definition rfc_size (l : list hd_nv) : Z :=
  foldr (fun nv n => 32 + Z.of_nat (length (nv_name nv)) + Z.of_nat (length (nv_value nv)) + n) 0 l.

Lemma rooms_rfc l : rooms l = rfc_size (ent_nv <$> l).
Proof.
  induction l as [|e l IH]; [done|]. cbn. fold (rfc_size (ent_nv <$> l)). rewrite IH.
  unfold nv_room, entry_room, size, NGHTTP2_HD_ENTRY_OVERHEAD. done.
Qed.

Lemma rooms_app l1 l2 : rooms (l1 ++ l2) = rooms l1 + rooms l2.
Proof. induction l1 as [|e l1 IH]; cbn; [done|]. lia. Qed.

Lemma rooms_ge l : 32 * Z.of_nat (length l) <= rooms l.
Proof. induction l as [|e l IH]; cbn [length rooms]; [lia|]. pose proof (nv_room_ge (ent_nv e)). lia. Qed.

Lemma fits_all budget l : rooms l <= budget -> fits budget l = l.
Proof.
  revert budget. induction l as [|e l IH]; intros budget Hb; cbn in *; [done|].
  pose proof (rooms_ge l). replace (_ <=? budget) with true by lia. rewrite IH by lia. done.
Qed.

Lemma fits_snoc budget l e : budget < rooms (l ++ [e]) -> fits budget (l ++ [e]) = fits budget l.
Proof.
  revert budget. induction l as [|x l IH]; intros budget Hb; cbn in *.
  - by replace (_ <=? budget) with false by lia.
  - destruct (_ <=? budget); [|done]. rewrite IH by lia. done.
Qed.

Lemma fits_rooms budget l : rooms (fits budget l) <= Z.max 0 budget.
Proof.
  revert budget. induction l as [|e l IH]; intros budget; cbn; [lia|].
  destruct (_ <=? budget) eqn:E; cbn; [|lia]. pose proof (nv_room_ge (ent_nv e)).
  specialize (IH (budget - nv_room (ent_nv e))). lia.
Qed.

Lemma fits_prefix budget l : exists l2, l = fits budget l ++ l2.
Proof.
  revert budget. induction l as [|e l IH]; intros budget; cbn; [by exists []|].
  destruct (_ <=? budget); [|by exists (e :: l)].
  destruct (IH (budget - nv_room (ent_nv e))) as [l2 Hl]. exists l2.
  cbn. by f_equal.
Qed.

(** The hash map holds, in each bucket, the entries of that hash in the order
    of the table. *)
Definition in_bucket (b : nat) (l : list hd_entry) : list hd_entry :=
  filter (fun e => bucket (ent_hash_ e) = b) l.

Definition map_ok (m : hd_map) (l : list hd_entry) : Prop :=
  length m = Z.to_nat HD_MAP_SIZE /\
  forall b, (b < Z.to_nat HD_MAP_SIZE)%nat -> m !! b = Some (in_bucket b l).

Definition map_opt_ok (m : option hd_map) (l : list hd_entry) : Prop :=
  match m with None => True | Some m => map_ok m l end.

Lemma bucket_bound h : (bucket h < Z.to_nat HD_MAP_SIZE)%nat.
Proof.
  unfold bucket, HD_MAP_SIZE. change (128 - 1) with (Z.ones 7). rewrite Z.land_ones by lia.
  pose proof (Z.mod_pos_bound h (2 ^ 7)). lia.
Qed.

Lemma map_ok_init : map_ok hd_map_init [].
Proof.
  unfold map_ok, hd_map_init. split; [by rewrite length_replicate|]. intros b Hb. by rewrite lookup_replicate_2.
Qed.

Lemma map_ok_insert m l e : map_ok m l -> map_ok (hd_map_insert m e) (e :: l).
Proof.
  intros [Hl Hm]. split; [unfold hd_map_insert; by rewrite length_alter|].
  intros b Hb. unfold hd_map_insert, in_bucket.
  destruct (decide (bucket (ent_hash_ e) = b)) as [<-|Hne].
  - rewrite filter_cons_True, list_lookup_alter_eq, Hm by done. done.
  - rewrite filter_cons_False, list_lookup_alter_ne by done. by apply Hm.
Qed.

Lemma unlink_last a chain e :
  ent_addr e = a -> a ∉ (ent_addr <$> chain) -> unlink a (chain ++ [e]) = chain.
Proof.
  intros He. induction chain as [|x chain IH]; intros Hn; cbn.
  - by rewrite bool_decide_true.
  - rewrite fmap_cons, not_elem_of_cons in Hn. destruct Hn as [Hx Hn].
    rewrite bool_decide_false by congruence.
    f_equal. by apply IH.
Qed.

Lemma map_ok_remove m l e :
  map_ok m (l ++ [e]) -> NoDup (ent_addr <$> (l ++ [e])) -> map_ok (hd_map_remove m e) l.
Proof.
  intros [Hl Hm] Hnd. split; [unfold hd_map_remove; by rewrite length_alter|].
  rewrite fmap_app, NoDup_app in Hnd. destruct Hnd as (_ & Hnd & _).
  intros b Hb. specialize (Hm b Hb). unfold hd_map_remove, in_bucket in *. rewrite filter_app in Hm.
  destruct (decide (bucket (ent_hash_ e) = b)) as [<-|Hne].
  - rewrite list_lookup_alter_eq, Hm. cbn [fmap option_fmap option_map]. f_equal. rewrite filter_cons_True, filter_nil by done.
    apply unlink_last; [done|]. intros Hin.
    apply list_elem_of_fmap in Hin as (x & Hx & Hin). apply list_elem_of_filter in Hin as [_ Hin].
    apply (Hnd (ent_addr e)); [rewrite Hx; by apply list_elem_of_fmap_2|by left].
  - rewrite list_lookup_alter_ne, Hm by done. rewrite filter_cons_False, filter_nil, app_nil_r by done. done.
Qed.

(** ** Eviction *)

(** Sizes stay far from the ends of [size_t]. *)
Definition SIZE_LIMIT : Z := 2 ^ 62.

(** The table holds the entries [l], and its size is theirs. *)
Record base (ctx : hd_context) (l : list hd_entry) : Prop := {
  base_ring : holds (hd_table ctx) l;
  base_size : hd_table_bufsize ctx = rooms l;
  base_limit : rooms l <= SIZE_LIMIT;
  base_max : 0 <= hd_table_bufsize_max ctx <= SIZE_LIMIT
}.

(** The fields that eviction leaves alone. *)
Definition same_but_table (a b : hd_context) : Prop :=
  hd_table_bufsize_max b = hd_table_bufsize_max a /\ next_seq b = next_seq a /\
  bad b = bad a /\ ctx_mem b = ctx_mem a.

Lemma base_length ctx l : base ctx l -> Z.of_nat (length l) <= 2 ^ 57 /\ len (hd_table ctx) = Z.of_nat (length l).
Proof. intros [[] ? Hl ?]. pose proof (rooms_ge l). unfold SIZE_LIMIT in *. lia. Qed.

Lemma evict_loop_spec fuel room l ctx m :
  base ctx l -> 0 <= room <= SIZE_LIMIT -> length l = fuel ->
  NoDup (ent_addr <$> l) -> map_opt_ok m l ->
  exists ctx' m', evict_loop fuel room ctx m = Some (ctx', m') /\
    let l' := fits (hd_table_bufsize_max ctx - room) l in
    base ctx' l' /\ map_opt_ok m' l' /\ same_but_table ctx ctx' /\ (m' = None <-> m = None).
Proof.
  revert l ctx m. induction fuel as [|fuel IH]; intros l ctx m Hb Hroom Hl Hnd Hm.
  - destruct l; [|done]. pose proof (base_length _ _ Hb) as [_ Hlen]. cbn in Hlen. cbn [evict_loop].
    rewrite Hlen. rewrite andb_false_r. by exists ctx, m.
  - destruct l as [|e l _] using rev_ind; [done|].
    pose proof (base_length _ _ Hb) as [Hlb Hlen]. pose proof Hb as [Hr Hs Hlim Hmax].
    rewrite length_app in *. cbn [length] in *. pose proof (rooms_ge (l ++ [e])) as Hge.
    rewrite rooms_app in *. cbn [rooms] in *. pose proof (nv_room_ge (ent_nv e)). pose proof (rooms_ge l).
    unfold SIZE_LIMIT in *. cbn [evict_loop].
    replace (u64 (hd_table_bufsize ctx + room)) with (rooms l + nv_room (ent_nv e) + room)
      by (unfold u64; rewrite Z.mod_small by lia; lia).
    replace (0 <? len (hd_table ctx)) with true by lia. rewrite andb_true_r.
    destruct (hd_table_bufsize_max ctx <? _) eqn:E.
    + destruct (pop_back_holds _ _ _ Hr) as [Hget Hpop]. unfold evict_last. rewrite Hget. cbn [mbind option_bind].
      rewrite fits_snoc by (rewrite rooms_app; cbn [rooms]; lia).
      match goal with |- context [evict_loop fuel room ?c ?mm] => specialize (IH l c mm) end.
      destruct IH as (ctx' & m' & Hev & Hb' & Hm' & Hsame & Hnone).
      * constructor; cbn; try done; [|unfold SIZE_LIMIT; lia].
        unfold u64. rewrite Z.mod_small by lia. lia.
      * done.
      * lia.
      * rewrite fmap_app, NoDup_app in Hnd. tauto.
      * destruct m as [m|]; [|done]. cbn. by apply map_ok_remove.
      * exists ctx', m'. repeat (split; [done|]). rewrite Hnone. by destruct m.
    + rewrite fits_all by (rewrite rooms_app; cbn [rooms]; lia). by exists ctx, m.
Qed.

Lemma evict_spec room l ctx m :
  base ctx l -> 0 <= room <= SIZE_LIMIT -> NoDup (ent_addr <$> l) -> map_opt_ok m l ->
  exists ctx' m', evict room ctx m = Some (ctx', m') /\
    let l' := fits (hd_table_bufsize_max ctx - room) l in
    base ctx' l' /\ map_opt_ok m' l' /\ same_but_table ctx ctx' /\ (m' = None <-> m = None).
Proof.
  intros Hb ? ? ?. apply evict_loop_spec; try done. destruct (base_length _ _ Hb) as [_ ->]. lia.
Qed.

(** ** The invariant of a context *)

(** Entries are numbered backwards from [next_seq], their addresses differ and
    were given out before, and their tokens are those of their names. *)
Record entries_ok (ctx : hd_context) (l : list hd_entry) : Prop := {
  ents_addr : NoDup (ent_addr <$> l);
  ents_old : Forall (fun e => (ent_addr e < ctx_mem ctx)%nat) l;
  ents_seq : forall i e, l !! i = Some e -> ent_seq e = u32 (next_seq ctx - 1 - Z.of_nat i);
  ents_token : Forall (fun e => nv_token (ent_nv e) = lookup_token (nv_name (ent_nv e))) l;
  ents_next : 0 <= next_seq ctx < 2 ^ 32
}.

Record table_ok (ctx : hd_context) (l : list hd_entry) : Prop := {
  table_base : base ctx l;
  table_entries : entries_ok ctx l;
  table_fits : rooms l <= hd_table_bufsize_max ctx
}.

Lemma entries_prefix ctx ctx' l l1 l2 :
  entries_ok ctx l -> l = l1 ++ l2 -> next_seq ctx' = next_seq ctx -> (ctx_mem ctx <= ctx_mem ctx')%nat ->
  entries_ok ctx' l1.
Proof.
  intros [Ha Ho Hs Ht Hx] -> Hn Hm. constructor.
  - rewrite fmap_app, NoDup_app in Ha. tauto.
  - rewrite Forall_app in Ho. destruct Ho as [Ho _]. eapply Forall_impl; [exact Ho|]. cbn. lia.
  - intros i e Hi. rewrite Hn. apply Hs. by apply lookup_app_l_Some.
  - rewrite Forall_app in Ht. tauto.
  - by rewrite Hn.
Qed.

(** Shrinking keeps the youngest entries that fit the maximum. *)
Lemma shrink_spec l ctx m :
  base ctx l -> entries_ok ctx l -> map_opt_ok m l ->
  exists ctx' m', hd_context_shrink_table_size ctx m = Some (ctx', m') /\
    let l' := fits (hd_table_bufsize_max ctx) l in
    table_ok ctx' l' /\ map_opt_ok m' l' /\ same_but_table ctx ctx' /\ (m' = None <-> m = None).
Proof.
  intros Hb He Hm. destruct (evict_spec 0 l ctx m Hb) as (ctx' & m' & Hev & Hb' & Hm' & Hsame & Hn).
  { unfold SIZE_LIMIT. lia. } { apply He. } { done. }
  rewrite Z.sub_0_r in *. exists ctx', m'. split; [done|]. split; [|by split].
  destruct Hsame as (Hmax & Hseq & _ & Hmem). constructor; [done| |].
  - destruct (fits_prefix (hd_table_bufsize_max ctx) l) as [l2 Hl].
    eapply entries_prefix; [exact He|exact Hl|done|by rewrite Hmem].
  - rewrite Hmax. pose proof (fits_rooms (hd_table_bufsize_max ctx) l). destruct Hb as [_ _ _ ?]. lia.
Qed.

(** The entries after a new one: it and the youngest that fit beside it, or
    nothing when it is too large. *)
Definition added (max : Z) (ent : hd_entry) (l : list hd_entry) : list hd_entry :=
  if max <? nv_room (ent_nv ent) then [] else ent :: fits (max - nv_room (ent_nv ent)) l.

Lemma add_spec malloc_ok ctx nv m hash l :
  table_ok ctx l -> map_opt_ok m l -> nv_room nv <= SIZE_LIMIT -> nv_token nv = lookup_token (nv_name nv) ->
  exists rv ctx' m', add_hd_table_incremental malloc_ok ctx nv m hash = Some (rv, ctx', m') /\
    hd_table_bufsize_max ctx' = hd_table_bufsize_max ctx /\ bad ctx' = bad ctx /\
    (m' = None <-> m = None) /\
    match rv with
    | NGHTTP2_SUCCESS =>
        let l' := added (hd_table_bufsize_max ctx) (mkEntry nv (next_seq ctx) hash (ctx_mem ctx)) l in
        table_ok ctx' l' /\ map_opt_ok m' l'
    | rv =>
        rv = NGHTTP2_ERR_NOMEM /\
        let l' := fits (hd_table_bufsize_max ctx - nv_room nv) l in
        table_ok ctx' l' /\ map_opt_ok m' l'
    end.
Proof.
  intros [Hb He Hfit] Hm Hroom Htok. pose proof (nv_room_ge nv).
  destruct (evict_spec (nv_room nv) l ctx m Hb) as (c1 & m1 & Hev & Hb1 & Hm1 & Hsame & Hn);
    [lia|apply He|done|].
  unfold add_hd_table_incremental. rewrite Hev. destruct Hsame as (Hmax & Hseq & Hbad & Hmem).
  set (l1 := fits (hd_table_bufsize_max ctx - nv_room nv) l) in *.
  assert (Hr1 : rooms l1 <= Z.max 0 (hd_table_bufsize_max ctx - nv_room nv)) by apply fits_rooms.
  destruct Hb1 as [Hring Hsize Hlim Hmx].
  assert (He1 : forall c, next_seq c = next_seq ctx -> (ctx_mem ctx <= ctx_mem c)%nat -> entries_ok c l1).
  { intros c Hc1 Hc2. destruct (fits_prefix (hd_table_bufsize_max ctx - nv_room nv) l) as [l2 Hl].
    by eapply entries_prefix. }
  unfold added. cbn [ent_nv]. rewrite Hmax in *. fold l1.
  destruct (hd_table_bufsize_max ctx <? nv_room nv) eqn:E.
  { assert (l1 = []) as Hl1.
    { pose proof (rooms_ge l1). destruct l1; [done|]. cbn [length] in *. lia. }
    rewrite Hl1 in *. eexists _, _, _. split; [reflexivity|]. split; [lia|]. split; [done|]. split; [done|].
    split; [|done]. constructor; [constructor; rewrite ?Hmax; done|apply He1; [done|lia]|]. cbn. lia. }
  destruct (negb (malloc_ok (ctx_mem c1))).
  { eexists _, _, _. split; [reflexivity|]. cbn. split; [lia|]. split; [done|]. split; [done|].
    split; [done|]. split; [|done].
    constructor; [by constructor|apply He1; cbn; [done|lia]|cbn; lia]. }
  assert (Hlen : Z.of_nat (length l1) < 2 ^ 63).
  { pose proof (rooms_ge l1). unfold SIZE_LIMIT in *. lia. }
  pose proof (push_front_holds malloc_ok (hd_table c1) l1
    (mkEntry nv (next_seq c1) hash (ctx_mem c1)) (S (ctx_mem c1)) Hring Hlen) as Hpush.
  pose proof (push_front_mem malloc_ok (hd_table c1) (mkEntry nv (next_seq c1) hash (ctx_mem c1))
    (S (ctx_mem c1))) as Hpm.
  destruct (hd_ringbuf_push_front malloc_ok _ _ _) as [[rv r] m2].
  destruct rv; try (by destruct Hpush).
  - eexists _, _, _. split; [reflexivity|]. cbn. split; [lia|]. split; [done|].
    split; [rewrite <- Hn; by destruct m1|].
    assert (Hrooms : u64 (hd_table_bufsize c1 + nv_room nv) = rooms l1 + nv_room nv).
    { pose proof (rooms_ge l1). unfold u64, SIZE_LIMIT in *. rewrite Z.mod_small; lia. }
    split; [constructor|].
    + constructor; cbn; [by rewrite <- Hseq, <- Hmem|lia|unfold SIZE_LIMIT in *; lia|done].
    + pose proof (He1 ctx eq_refl ltac:(lia)) as [Ha1 Ho1 Hs1 Ht1 Hx1]. constructor; cbn.
      * constructor; [|done]. intros Hin. apply list_elem_of_fmap in Hin as (x & Hx & Hin).
        rewrite Forall_forall in Ho1. specialize (Ho1 x Hin). lia.
      * constructor; [cbn; lia|]. eapply Forall_impl; [exact Ho1|]. cbn. lia.
      * intros [|i] e Hi; cbn in Hi.
        -- simplify_eq. cbn. rewrite Hseq. unfold u32. lia_mod.
        -- rewrite (Hs1 i e Hi), Hseq. unfold u32. lia_mod.
      * by constructor.
      * unfold u32. lia_mod.
    + cbn. lia.
    + destruct m1 as [m1|]; [|done]. cbn.
      rewrite <- Hseq, <- Hmem. by apply map_ok_insert.
  - destruct Hpush as [_ ->]. eexists _, _, _. split; [reflexivity|]. cbn. split; [lia|].
    split; [done|]. split; [done|]. split; [done|]. split; [|done].
    constructor; [by constructor|apply He1; cbn; [done|lia]|cbn; lia].
Qed.

(** ** Lookup and search *)

(** The hash under which the deflater files a name. *)
Definition hash_of (name : list Z) : Z :=
  let token := lookup_token name in
  if token =? -1 then name_hash name
  else if token <=? NGHTTP2_TOKEN_WWW_AUTHENTICATE then
    match static_get token with Some e => ent_hash e | None => 0 end
  else 0.

(** The entries of the deflater are filed under [hash_of]. *)
Definition hashes_ok (l : list hd_entry) : Prop :=
  Forall (fun e => ent_hash_ e = hash_of (nv_name (ent_nv e))) l.

Lemma table_get_dynamic ctx l i e :
  base ctx l -> l !! i = Some e ->
  nghttp2_hd_table_get ctx (Z.of_nat i + NGHTTP2_STATIC_TABLE_LENGTH) = Some (ent_nv e).
Proof.
  intros Hb Hi. destruct (base_length _ _ Hb) as [_ Hlen]. pose proof (lookup_lt_Some _ _ _ Hi).
  unfold nghttp2_hd_table_get, INDEX_RANGE_VALID. rewrite Hlen.
  replace (_ <? _) with true by lia. replace (_ <=? _) with true by lia.
  rewrite Z.add_simpl_r. destruct Hb as [[] _ _ _]. rewrite holds_get0 by done. by rewrite Hi.
Qed.

Lemma table_get_static ctx l i e :
  base ctx l -> static_get i = Some e ->
  nghttp2_hd_table_get ctx i = Some (mkNv (ent_name e) (ent_value e) (ent_token e) NGHTTP2_NV_FLAG_NONE).
Proof.
  intros Hb Hi. destruct (base_length _ _ Hb) as [_ Hlen]. destruct (static_get_ok _ _ Hi) as (_ & _ & _ & Hle).
  unfold nghttp2_hd_table_get, INDEX_RANGE_VALID, NGHTTP2_STATIC_TABLE_LENGTH. rewrite Hlen.
  replace (_ <? _) with true by lia. replace (61 <=? i) with false by lia. by rewrite Hi.
Qed.

(** What a walk of a chain finds: an entry of the chain with that name, and
    with that value when it says so. *)
Definition found_in (chain : list hd_entry) (name value : list Z) (x : option hd_entry * bool) : Prop :=
  match x with
  | (Some p, exact) => p ∈ chain /\ nv_name (ent_nv p) = name /\
      (exact = true -> nv_value (ent_nv p) = value)
  | (None, exact) => exact = false
  end.

Lemma find_chain_found chain name value name_only res all :
  Forall (fun e => nv_token (ent_nv e) = lookup_token (nv_name (ent_nv e))) chain ->
  (forall e, e ∈ chain -> e ∈ all) ->
  match res with Some p => p ∈ all /\ nv_name (ent_nv p) = name | None => True end ->
  found_in all name value
    (find_chain chain name value (lookup_token name) (hash_of name) name_only res).
Proof.
  revert res. induction chain as [|p chain IH]; intros res Ht Hin Hres; cbn [find_chain].
  - destruct res as [p|]; [|done]. by destruct Hres.
  - rewrite Forall_cons in Ht. destruct Ht as [Htp Ht].
    assert (Hin' : forall e, e ∈ chain -> e ∈ all) by (intros e He; apply Hin; by right).
    destruct (_ || _) eqn:E; [by apply IH|].
    apply orb_false_iff in E as [E1 E2]. rewrite Htp in E1.
    assert (Hname : nv_name (ent_nv p) = name).
    { destruct (decide (lookup_token name = -1)) as [Hm|Hm].
      - rewrite Hm, Z.eqb_refl in E2. cbn [andb] in E2. apply orb_false_iff in E2 as [_ E2].
        unfold name_eq in E2. apply negb_false_iff, bool_decide_eq_true in E2. done.
      - symmetry. apply lookup_token_inj; [lia|done]. }
    assert (Hp : p ∈ all) by (apply Hin; by left).
    destruct res as [q|]; [|destruct name_only; [done|]];
      unfold value_eq; destruct (bool_decide (nv_value (ent_nv p) = value)) eqn:Ev.
    1, 3: apply bool_decide_eq_true in Ev; done.
    all: by apply IH.
Qed.

(** It finds the value when it is there and not only the name is asked for. *)
Lemma find_chain_complete chain name value res p :
  p ∈ chain -> nv_name (ent_nv p) = name -> nv_value (ent_nv p) = value ->
  nv_token (ent_nv p) = lookup_token name -> ent_hash_ p = hash_of name ->
  snd (find_chain chain name value (lookup_token name) (hash_of name) false res) = true.
Proof.
  intros Hp Hn Hv Ht Hh. revert res. induction chain as [|q chain IH]; intros res; [by apply elem_of_nil in Hp|].
  cbn [find_chain]. apply elem_of_cons in Hp as [<-|Hp].
  - rewrite Ht, Hh, !Z.eqb_refl. unfold name_eq, value_eq. rewrite Hn, Hv, !bool_decide_true by done.
    rewrite andb_false_r. cbn. by destruct res.
  - specialize (IH Hp). destruct (_ || _); [apply IH|]. destruct res as [r|]; destruct (value_eq _ _); try done; apply IH.
Qed.

Lemma search_static_loop_found fuel i value token e0 :
  0 <= token <= i -> static_get token = Some e0 -> ent_token e0 = token ->
  let r := search_static_loop fuel i value token in
  exists e, static_get (index r) = Some e /\ ent_token e = token /\
    (name_value_match r = true -> ent_value e = value).
Proof.
  intros Hi He0 Ht0. revert i Hi. induction fuel as [|fuel IH]; intros i Hi; cbn [search_static_loop].
  - by exists e0.
  - destruct (i <=? _) eqn:E1; [|by exists e0]. destruct (static_get i) as [e|] eqn:Ei; [|by exists e0].
    destruct (ent_token e =? token) eqn:E2; [|by exists e0].
    destruct (bool_decide _) eqn:E3; [|apply IH; lia].
    apply bool_decide_eq_true in E3. exists e. cbn [index name_value_match]. split; [done|]. split; [lia|done].
Qed.

Lemma search_static_complete :
  forallb (fun e => name_value_match (search_static_table (ent_value e) (ent_token e) false))
    static_table = true.
Proof. vm_compute. reflexivity. Qed.

Section Search.
Variables (ctx : hd_context) (l : list hd_entry) (map : hd_map).
Hypothesis Hok : table_ok ctx l.
Hypothesis Hmap : map_ok map l.
Hypothesis Hhash : hashes_ok l.
Hypothesis Hlen : Z.of_nat (length l) + 61 < 2 ^ 32.

(** The result describes an entry with that name. *)
Definition describes (name value : list Z) (r : search_result) : Prop :=
  exists nv, nghttp2_hd_table_get ctx (index r) = Some nv /\ nv_name nv = name /\
    0 <= index r < get_max_index ctx /\ (name_value_match r = true -> nv_value nv = value).

Lemma search_static_describes name value name_only :
  0 <= lookup_token name <= NGHTTP2_TOKEN_WWW_AUTHENTICATE ->
  describes name value (search_static_table value (lookup_token name) name_only).
Proof.
  intros Ht. destruct (lookup_token_hit name Ht) as (e0 & He0 & Hn0).
  destruct (static_get_ok _ _ He0) as (_ & Ht0 & _). rewrite Hn0 in Ht0.
  assert (Hall : forall r e, static_get (index r) = Some e -> ent_token e = lookup_token name ->
    (name_value_match r = true -> ent_value e = value) -> describes name value r).
  { intros r e He Hte Hv. destruct (static_get_ok _ _ He) as (_ & Htn & Hle & Hle').
    exists (mkNv (ent_name e) (ent_value e) (ent_token e) NGHTTP2_NV_FLAG_NONE).
    split; [by eapply table_get_static; [apply Hok|]|]. cbn. split.
    - apply lookup_token_inj; [by rewrite Htn|lia].
    - split; [|done]. unfold get_max_index, NGHTTP2_STATIC_TABLE_LENGTH.
      destruct (base_length _ _ (table_base _ _ Hok)) as [_ ->]. lia. }
  unfold search_static_table. destruct name_only; [by apply (Hall _ e0)|].
  destruct (search_static_loop_found (Z.to_nat NGHTTP2_STATIC_TABLE_LENGTH) (lookup_token name)
    value (lookup_token name) e0) as (e & He & Hte & Hv); [lia|done|done|].
  by apply (Hall _ e).
Qed.

Lemma find_found name value name_only :
  found_in l name value (hd_map_find map name value (lookup_token name) (hash_of name) name_only).
Proof.
  destruct Hmap as [Hml Hm]. pose proof (bucket_bound (hash_of name)) as Hb.
  unfold hd_map_find. rewrite (nth_lookup_Some _ _ _ _ (Hm _ Hb)).
  destruct Hok as [_ [_ _ _ Htok _] _].
  apply find_chain_found; [|by intros e [_ He]%list_elem_of_filter|done].
  rewrite Forall_forall in *. intros e [_ He]%list_elem_of_filter. by apply Htok.
Qed.

Lemma dynamic_describes name value p exact :
  p ∈ l -> nv_name (ent_nv p) = name -> (exact = true -> nv_value (ent_nv p) = value) ->
  describes name value
    (mkRes (u32 (u32 (next_seq ctx - 1 - ent_seq p) + NGHTTP2_STATIC_TABLE_LENGTH)) exact).
Proof.
  intros Hp Hn Hv. apply list_elem_of_lookup in Hp as [i Hi].
  destruct Hok as [Hb [_ _ Hseq _ Hnext] _]. pose proof (lookup_lt_Some _ _ _ Hi) as Hlt.
  rewrite (Hseq i p Hi).
  replace (u32 (u32 _ + _)) with (Z.of_nat i + NGHTTP2_STATIC_TABLE_LENGTH)
    by (unfold u32, NGHTTP2_STATIC_TABLE_LENGTH; lia_mod).
  exists (ent_nv p). cbn [index name_value_match]. split; [by eapply table_get_dynamic|].
  split; [done|]. split; [|done]. unfold get_max_index.
  destruct (base_length _ _ Hb) as [_ ->]. unfold NGHTTP2_STATIC_TABLE_LENGTH. lia.
Qed.

Lemma search_describes name value name_only :
  let r := search_hd_table ctx name value (lookup_token name) name_only map (hash_of name) in
  index r = -1 /\ name_value_match r = false \/ describes name value r.
Proof.
  cbv zeta. unfold search_hd_table. pose proof (find_found name value name_only) as Hf.
  destruct (hd_map_find _ _ _ _ _ _) as [ent exact]. 
  destruct (negb exact && _ && _) eqn:E; [right; apply search_static_describes; lia|].
  destruct ent as [p|]; [|left; cbn; done].
  destruct Hf as (Hp & Hn & Hv). right. by apply dynamic_describes.
Qed.

(** An entry with the name and the value is found. *)
Lemma search_complete name value idx nv :
  0 <= idx -> nghttp2_hd_table_get ctx idx = Some nv -> nv_name nv = name -> nv_value nv = value ->
  name_value_match (search_hd_table ctx name value (lookup_token name) false map (hash_of name)) = true.
Proof.
  intros Hidx Hget Hn Hv. unfold search_hd_table.
  destruct (hd_map_find _ _ _ _ _ _) as [ent exact] eqn:Ef. pose proof (find_found name value false) as Hf.
  rewrite Ef in Hf. destruct exact.
  { destruct ent as [p|]; [|by cbn in Hf]. rewrite andb_false_l. done. }
  unfold nghttp2_hd_table_get in Hget. destruct (INDEX_RANGE_VALID ctx idx) eqn:Ev; [|done].
  destruct (NGHTTP2_STATIC_TABLE_LENGTH <=? idx) eqn:Es.
  - exfalso. destruct Hok as [Hb [_ _ _ Htok _] _]. destruct (base_length _ _ Hb) as [_ Hl].
    unfold INDEX_RANGE_VALID in Ev. rewrite Hl in Ev.
    destruct (hd_ringbuf_get _ _) as [p|] eqn:Ep; [|done]. cbn in Hget. simplify_eq.
    destruct Hb as [[_ _ _ _ _ Hg] _ _ _].
    specialize (Hg (Z.to_nat (idx - NGHTTP2_STATIC_TABLE_LENGTH)) ltac:(lia)).
    rewrite Z2Nat.id, Ep in Hg by lia. symmetry in Hg. apply list_elem_of_lookup_2 in Hg.
    unfold hashes_ok in Hhash. rewrite Forall_forall in Htok, Hhash.
    destruct Hmap as [Hml Hm]. pose proof (bucket_bound (hash_of (nv_name (ent_nv p)))) as Hbk.
    unfold hd_map_find in Ef. rewrite (nth_lookup_Some _ _ _ _ (Hm _ Hbk)) in Ef.
    pose proof (find_chain_complete (in_bucket (bucket (hash_of (nv_name (ent_nv p)))) l)
      (nv_name (ent_nv p)) (nv_value (ent_nv p)) None p) as Hc.
    rewrite Ef in Hc. discriminate Hc; try done; [|by apply Htok|by apply Hhash].
    apply list_elem_of_filter. split; [by rewrite Hhash|done].
  - destruct (static_get idx) as [e|] eqn:Ee; [|done]. cbn in Hget. simplify_eq. cbn.
    destruct (static_get_ok _ _ Ee) as (_ & -> & Hle & Hle').
    unfold NGHTTP2_TOKEN_WWW_AUTHENTICATE.
    replace (0 <=? ent_token e) with true by lia. replace (ent_token e <=? 60) with true by lia.
    pose proof search_static_complete as Hc. rewrite List.forallb_forall in Hc. apply (Hc e).
    unfold static_get in Ee. destruct (idx <? 0); [done|]. apply list_elem_of_lookup_2 in Ee.
    by apply list_elem_of_In.
Qed.
End Search.

(** ** The dynamic table as RFC 7541 describes it *)

Fixpoint fits_nv (budget : Z) (l : list hd_nv) : list hd_nv :=
  match l with
  | [] => []
  | nv :: l' => if nv_room nv <=? budget then nv :: fits_nv (budget - nv_room nv) l' else []
  end.

(** The operations on a context: a new entry, and a new maximum size followed
    by [hd_context_shrink_table_size]. *)
Inductive table_op := Op_add (nv : hd_nv) (hash : Z) | Op_resize (max : Z).

(** An abstract table: the maximum size and the headers, the youngest first. *)
Definition spec_op (t : Z * list hd_nv) (op : table_op) : Z * list hd_nv :=
  let '(max, l) := t in
  match op with
  | Op_add nv _ => (max, if max <? nv_room nv then [] else nv :: fits_nv (max - nv_room nv) l)
  | Op_resize max' => (max', fits_nv max' l)
  end.

Definition set_max (max : Z) (ctx : hd_context) : hd_context :=
  mkCtx (hd_table ctx) (hd_table_bufsize ctx) max (next_seq ctx) (bad ctx) (ctx_mem ctx).

Definition exec_op (malloc_ok : mem -> bool) (ctx : hd_context) (map : option hd_map) (op : table_op)
    : option (hd_err * hd_context * option hd_map) :=
  match op with
  | Op_add nv hash => add_hd_table_incremental malloc_ok ctx nv map hash
  | Op_resize max =>
      '(ctx, map) ← hd_context_shrink_table_size (set_max max ctx) map;
      Some (NGHTTP2_SUCCESS, ctx, map)
  end.

(** Operations in sequence, until one fails. *)
Fixpoint exec_ops (malloc_ok : mem -> bool) (ctx : hd_context) (map : option hd_map)
    (ops : list table_op) : option (hd_err * hd_context * option hd_map) :=
  match ops with
  | [] => Some (NGHTTP2_SUCCESS, ctx, map)
  | op :: ops' =>
      match exec_op malloc_ok ctx map op with
      | Some (NGHTTP2_SUCCESS, ctx, map) => exec_ops malloc_ok ctx map ops'
      | res => res
      end
  end.

Definition op_ok (op : table_op) : Prop :=
  match op with
  | Op_add nv _ => nv_room nv <= SIZE_LIMIT /\ nv_token nv = lookup_token (nv_name nv)
  | Op_resize max => 0 <= max <= SIZE_LIMIT
  end.

Lemma fits_fmap budget l : ent_nv <$> fits budget l = fits_nv budget (ent_nv <$> l).
Proof.
  revert budget. induction l as [|e l IH]; intros budget; cbn; [done|].
  destruct (_ <=? budget); [|done]. cbn. by rewrite IH.
Qed.

Lemma added_fmap max ent l h :
  spec_op (max, ent_nv <$> l) (Op_add (ent_nv ent) h) = (max, ent_nv <$> added max ent l).
Proof. cbn. unfold added. destruct (_ <? _); [done|]. cbn. by rewrite fits_fmap. Qed.

(** The context implements the abstract table. *)
Definition implements (ctx : hd_context) (map : option hd_map) (t : Z * list hd_nv) : Prop :=
  hd_table_bufsize_max ctx = t.1 /\
  exists l, table_ok ctx l /\ map_opt_ok map l /\ ent_nv <$> l = t.2.

Lemma exec_op_ok malloc_ok ctx map t op :
  implements ctx map t -> op_ok op ->
  exists rv ctx' map', exec_op malloc_ok ctx map op = Some (rv, ctx', map') /\
    (map' = None <-> map = None) /\ bad ctx' = bad ctx /\
    match rv with
    | NGHTTP2_SUCCESS => implements ctx' map' (spec_op t op)
    | rv => rv = NGHTTP2_ERR_NOMEM
    end.
Proof.
  destruct t as [max lt]. intros (Hmax & l & Hok & Hmap & Hl) Hop. cbn in Hmax, Hl. subst max lt.
  destruct op as [nv hash|max]; cbn [exec_op spec_op].
  - destruct Hop as [Hroom Htok].
    destruct (add_spec malloc_ok ctx nv map hash l) as (rv & c & m & Hadd & Hm & Hb & Hn & Hrv); [done..|].
    exists rv, c, m. repeat (split; [done|]). destruct rv; try tauto.
    destruct Hrv as [Hok' Hmap']. split; [done|]. eexists. split; [exact Hok'|]. split; [done|].
    pose proof (added_fmap (hd_table_bufsize_max ctx) (mkEntry nv (next_seq ctx) hash (ctx_mem ctx)) l hash) as Ha.
    cbn in Ha |- *. by injection Ha.
  - destruct Hok as [[Hr Hs Hl _] He _].
    destruct (shrink_spec l (set_max max ctx) map) as (c & m & Hsh & Hok' & Hmap' & Hsame & Hn).
    + by constructor.
    + by destruct He.
    + done.
    + rewrite Hsh. cbn. exists NGHTTP2_SUCCESS, c, m. split; [done|]. split; [done|].
      destruct Hsame as (Hmax & _ & Hb & _). split; [done|]. split; [done|].
      eexists. split; [exact Hok'|]. split; [done|]. cbn. by rewrite fits_fmap.
Qed.

Lemma context_init_ok malloc_ok default_size m ctx m' :
  0 <= default_size <= SIZE_LIMIT ->
  hd_context_init malloc_ok default_size m = (NGHTTP2_SUCCESS, Some ctx, m') ->
  table_ok ctx [] /\ hd_table_bufsize_max ctx = default_size /\ bad ctx = false.
Proof.
  intros Hd. unfold hd_context_init.
  destruct (hd_ringbuf_init _ _ _) as [[[] [r|]] m1] eqn:E; try done. intros [= <- _].
  apply init_holds in E; [|unfold SIZE_LIMIT, NGHTTP2_HD_ENTRY_OVERHEAD in *; lia_mod].
  split; [|done]. constructor; [| |cbn; lia].
  - constructor; cbn; [done|done|unfold SIZE_LIMIT; lia|done].
  - constructor; cbn; [constructor|constructor|done|constructor|lia].
Qed.

(** C9. The dynamic table is the one of RFC 7541, section 4: from
    [hd_context_init], any sequence of additions and size changes leaves, when
    no allocation fails, exactly the headers of the abstract table (a new
    header first, then the youngest that fit with it; nothing when it is
    larger than the table), with [hd_table_bufsize] equal to their size and
    within the maximum, and every dynamic index gives its header; a failure is
    always NGHTTP2_ERR_NOMEM, and no assertion ever fails. *)
Theorem dynamic_table_refines malloc_ok default_size m ctx m' map ops :
  0 <= default_size <= SIZE_LIMIT ->
  hd_context_init malloc_ok default_size m = (NGHTTP2_SUCCESS, Some ctx, m') ->
  map = None \/ map = Some hd_map_init -> Forall op_ok ops ->
  exists rv ctx' map', exec_ops malloc_ok ctx map ops = Some (rv, ctx', map') /\
    match rv with
    | NGHTTP2_SUCCESS =>
        let '(max, l) := foldl spec_op (default_size, []) ops in
        hd_table_bufsize_max ctx' = max /\
        hd_table_bufsize ctx' = rfc_size l /\
        hd_table_bufsize ctx' <= max /\ get_max_index ctx' = Z.of_nat (length l) + 61 /\
        forall i nv, l !! i = Some nv -> nghttp2_hd_table_get ctx' (Z.of_nat i + 61) = Some nv
    | rv => rv = NGHTTP2_ERR_NOMEM
    end.
Proof.
  intros Hd Hinit Hmap Hops. apply context_init_ok in Hinit as (Hok & Hmax & _); [|done].
  assert (Himp : implements ctx map (default_size, [])).
  { split; [done|]. exists []. split; [done|]. split; [|done].
    destruct Hmap as [-> | ->]; [done|apply map_ok_init]. }
  clear Hok Hmax Hmap. generalize (default_size, @nil hd_nv) Himp. clear Himp Hd.
  revert ctx map. induction Hops as [|op ops Hop _ IH]; intros ctx map t Himp; cbn [exec_ops foldl].
  - exists NGHTTP2_SUCCESS, ctx, map. split; [done|]. destruct t as [max lt].
    destruct Himp as (Hmax & l & [Hb _ Hfit] & _ & Hl). cbn in *. subst max lt.
    destruct (base_length _ _ Hb) as [_ Hlen]. pose proof Hb as [_ Hs _ _].
    pose proof (rooms_rfc l) as Hr.
    split; [done|]. split; [congruence|]. split; [lia|]. split.
    + unfold get_max_index. rewrite Hlen, length_fmap. done.
    + intros i nv Hi. rewrite list_lookup_fmap in Hi. destruct (l !! i) as [e|] eqn:Ee; [|done].
      cbn in Hi. simplify_eq. by eapply table_get_dynamic.
  - destruct (exec_op_ok malloc_ok ctx map t op Himp Hop) as (rv & c & mp & -> & _ & _ & Hrv).
    destruct rv; try (by eexists _, _, _; split). by apply IH.
Qed.

Definition nv_of (n v : string) : hd_nv := mkNv (B n) (B v) (lookup_token (B n)) false.

Definition sample_ops : list table_op :=
  [Op_add (nv_of "x-a" "1") 0; Op_add (nv_of "age" "23") 0; Op_resize 40; Op_add (nv_of "via" "me") 0].

Lemma dynamic_table_refines_witness :
  exists ctx m' ctx' map',
    hd_context_init (fun _ => true) 4096 0%nat = (NGHTTP2_SUCCESS, Some ctx, m') /\
    exec_ops (fun _ => true) ctx (Some hd_map_init) sample_ops = Some (NGHTTP2_SUCCESS, ctx', map') /\
    hd_table_bufsize ctx' = 37 /\ nghttp2_hd_table_get ctx' 61 = Some (nv_of "via" "me").
Proof.
  eexists _, _, _, _. split; [vm_compute; reflexivity|]. split; [vm_compute; reflexivity|].
  destruct (dynamic_table_refines (fun _ => true) 4096 0%nat _ _ (Some hd_map_init) sample_ops
    ltac:(unfold SIZE_LIMIT; lia) eq_refl ltac:(by right)) as (rv & c & mp & He & Hrv).
  { unfold SIZE_LIMIT. repeat constructor; vm_compute; congruence. }
  assert (Hs : rv = NGHTTP2_SUCCESS) by (vm_compute in He; congruence). subst rv.
  assert (Hf : foldl spec_op (4096, []) sample_ops = (40, [nv_of "via" "me"])) by (vm_compute; reflexivity).
  rewrite Hf in Hrv. destruct Hrv as (_ & Hb & _ & _ & Hget). vm_compute in He. simplify_eq.
  split; [exact Hb|exact (Hget 0%nat _ eq_refl)].
Defined.

(** The encoder refers to the right entry: with a table of fewer than
    2^32 - 61 entries, any index that [search_hd_table] returns is valid and
    [nghttp2_hd_table_get] gives there a header of that name, and of that
    value when the match is said to be exact, however the entries collide in
    the map and however often [next_seq] wrapped; and when a static or dynamic
    entry with the name and the value exists, an exact match is found. *)
Theorem search_hd_table_correct ctx l map name value name_only :
  table_ok ctx l -> map_ok map l -> hashes_ok l -> Z.of_nat (length l) + 61 < 2 ^ 32 ->
  let r := search_hd_table ctx name value (lookup_token name) name_only map (hash_of name) in
  (index r = -1 /\ name_value_match r = false \/
   exists nv, nghttp2_hd_table_get ctx (index r) = Some nv /\ nv_name nv = name /\
     0 <= index r < get_max_index ctx /\ (name_value_match r = true -> nv_value nv = value)) /\
  (name_only = false ->
   (exists idx nv, 0 <= idx /\ nghttp2_hd_table_get ctx idx = Some nv /\
      nv_name nv = name /\ nv_value nv = value) ->
   name_value_match r = true).
Proof.
  intros Hok Hmap Hhash Hlen. split; [by eapply search_describes|].
  intros -> (idx & nv & Hidx & Hget & Hn & Hv). by eapply search_complete.
Qed.

(** A context with the entry "x-a: 1". *)
Definition sample_nv : hd_nv := nv_of "x-a" "1".
Definition sample_entry : hd_entry := mkEntry sample_nv 0 (hash_of (B "x-a")) 1%nat.
Definition sample_ctx : hd_context := mkCtx (mkRing [None; Some sample_entry] 1 (2 ^ 64 - 1) 1) 36 4096 1 false 2%nat.
Definition sample_map : hd_map := hd_map_insert hd_map_init sample_entry.

Lemma sample_ctx_ok : table_ok sample_ctx [sample_entry].
Proof.
  constructor.
  - constructor; [|done|by apply Z.leb_le|by split; apply Z.leb_le].
    constructor; [by exists 1|done|by split|done|done|].
    intros i Hi. destruct i; [done|]. cbn in Hi. lia.
  - constructor; [|constructor; [cbn; lia|constructor]| |constructor; [done|constructor]|by split].
    + cbn. apply NoDup_singleton.
    + intros [|i] e Hi; cbn in Hi; simplify_eq. done.
  - by apply Z.leb_le.
Qed.

Lemma search_hd_table_correct_witness :
  let r := search_hd_table sample_ctx (B "x-a") (B "1") (lookup_token (B "x-a")) false sample_map
             (hash_of (B "x-a")) in
  r = mkRes 61 true /\ nghttp2_hd_table_get sample_ctx 61 = Some sample_nv /\
  name_value_match r = true.
Proof.
  split; [vm_compute; reflexivity|]. split; [vm_compute; reflexivity|].
  apply (search_hd_table_correct sample_ctx [sample_entry] sample_map (B "x-a") (B "1") false).
  - apply sample_ctx_ok.
  - apply (map_ok_insert hd_map_init [] sample_entry), map_ok_init.
  - by constructor.
  - cbn. lia.
  - done.
  - exists 61, sample_nv. split; [lia|]. by split; [vm_compute|].
Defined.

End HdTable.
