(* ===== verification/HdRepr.v ===== *)
(** HPACK header field representations as RFC 7541 describes them: their
    bytes, and their effect on a decoder whose dynamic table is a list. The
    encoder (HdDeflate.v) and the decoder (HdInflate.v) of
    src/http2/src/upstream/lib/nghttp2_hd.c are proved against it. *)

From S2P Require Export HdInt HdTable.
Export HdInt HdTable.
Open Scope Z_scope.

(** The code of RFC 7541, appendix B: nghttp2_hd_huffman.c is not part of the
    repository. *)
Class HuffmanCode := { huff_code : list Z -> list Z }.

Module HdRepr.

(** [nghttp2_hd_indexing_mode] *)
Inductive indexing_mode :=
  | NGHTTP2_HD_WITH_INDEXING | NGHTTP2_HD_WITHOUT_INDEXING | NGHTTP2_HD_NEVER_INDEXING.

#[export] Instance indexing_mode_eq_dec : EqDecision indexing_mode.
Proof. solve_decision. Defined.

Definition pack_first_byte (mode : indexing_mode) : Z :=
  match mode with
  | NGHTTP2_HD_WITH_INDEXING => 0x40
  | NGHTTP2_HD_WITHOUT_INDEXING => 0
  | NGHTTP2_HD_NEVER_INDEXING => 0x10
  end.

Definition mode_prefix (mode : indexing_mode) : Z :=
  if decide (mode = NGHTTP2_HD_WITH_INDEXING) then 6 else 4.

(** A string literal: its content and whether it is Huffman coded. *)
Record hstring := mkStr { huff : bool; str : list Z }.

(** A representation; indices start at 0. *)
Inductive repr :=
  | Size_update (n : Z)
  | Indexed (i : Z)
  | Literal_indname (mode : indexing_mode) (i : Z) (v : hstring)
  | Literal_newname (mode : indexing_mode) (n v : hstring).

Section Repr.
Context `{HuffmanCode}.

Definition str_payload (s : hstring) : list Z := if huff s then huff_code (str s) else str s.

Definition str_bytes (s : hstring) : list Z :=
  encode_length (if huff s then 0x80 else 0) (size (str_payload s)) 7 ++ str_payload s.

Definition repr_bytes (r : repr) : list Z :=
  match r with
  | Size_update n => encode_length 0x20 n 5
  | Indexed i => encode_length 0x80 (i + 1) 7
  | Literal_indname mode i v =>
      encode_length (pack_first_byte mode) (i + 1) (mode_prefix mode) ++ str_bytes v
  | Literal_newname mode n v => pack_first_byte mode :: str_bytes n ++ str_bytes v
  end.

(** The representations that can be written and read: numbers are 32 bits
    wide and string literals at most [limit] bytes long. *)
Definition repr_ok (limit : Z) (r : repr) : Prop :=
  match r with
  | Size_update n => 0 <= n <= UINT32_MAX
  | Indexed i => 0 <= i < UINT32_MAX
  | Literal_indname _ i v => 0 <= i < UINT32_MAX /\ size (str_payload v) <= limit
  | Literal_newname _ n v => size (str_payload n) <= limit /\ size (str_payload v) <= limit
  end.

Definition is_header (r : repr) : bool :=
  match r with Size_update _ => false | _ => true end.
End Repr.

(** ** What representations mean *)

(** A table: its maximum size, and the headers, the youngest first. *)
Abbreviation table := (Z * list hd_nv)%type.

Definition spec_get (l : list hd_nv) (i : Z) : option hd_nv :=
  if i <? 0 then None
  else if i <? NGHTTP2_STATIC_TABLE_LENGTH then
    (fun e => mkNv (ent_name e) (ent_value e) (ent_token e) NGHTTP2_NV_FLAG_NONE) <$> static_get i
  else l !! Z.to_nat (i - NGHTTP2_STATIC_TABLE_LENGTH).

(** A literal's header: it goes to the table, or not, or is flagged so that it
    never will. *)
Definition spec_literal (t : table) (mode : indexing_mode) (name value : list Z) (token : Z)
    : table * hd_nv :=
  let nv := mkNv name value token (bool_decide (mode = NGHTTP2_HD_NEVER_INDEXING)) in
  (if decide (mode = NGHTTP2_HD_WITH_INDEXING) then spec_op t (Op_add nv 0) else t, nv).

(** The table after a representation, and the header that it stands for. *)
Definition spec_repr (t : table) (r : repr) : option (table * option hd_nv) :=
  match r with
  | Size_update n => Some (spec_op t (Op_resize n), None)
  | Indexed i => nv ← spec_get t.2 i; Some (t, Some nv)
  | Literal_indname mode i v =>
      nv ← spec_get t.2 i;
      let '(t, nv) := spec_literal t mode (nv_name nv) (str v) (nv_token nv) in Some (t, Some nv)
  | Literal_newname mode n v =>
      let '(t, nv) := spec_literal t mode (str n) (str v) (lookup_token (str n)) in Some (t, Some nv)
  end.

Fixpoint spec_reprs (t : table) (rs : list repr) : option (table * list hd_nv) :=
  match rs with
  | [] => Some (t, [])
  | r :: rs' =>
      '(t, nv) ← spec_repr t r;
      '(t, nvs) ← spec_reprs t rs';
      Some (t, match nv with Some nv => nv :: nvs | None => nvs end)
  end.

(** Shrinking twice is shrinking to the smaller size. *)
Lemma fits_nv_min a b l : fits_nv a (fits_nv b l) = fits_nv (Z.min a b) l.
Proof.
  revert a b. induction l as [|nv l IH]; intros a b; cbn; [done|].
  pose proof (nv_room_ge nv).
  destruct (nv_room nv <=? b) eqn:Eb.
  - cbn. destruct (nv_room nv <=? a) eqn:Ea; [|by replace (_ <=? Z.min a b) with false by lia].
    replace (nv_room nv <=? Z.min a b) with true by lia. f_equal. rewrite IH. f_equal. lia.
  - cbn. by replace (nv_room nv <=? Z.min a b) with false by lia.
Qed.

Lemma spec_reprs_app t rs1 rs2 :
  spec_reprs t (rs1 ++ rs2) =
    '(t, nvs1) ← spec_reprs t rs1; '(t, nvs2) ← spec_reprs t rs2; Some (t, nvs1 ++ nvs2).
Proof.
  revert t. induction rs1 as [|r rs1 IH]; intros t; cbn.
  - by destruct (spec_reprs t rs2) as [[]|].
  - destruct (spec_repr t r) as [[t1 nv]|]; [cbn|done]. rewrite IH.
    destruct (spec_reprs t1 rs1) as [[t2 nvs1]|]; [cbn|done].
    destruct (spec_reprs t2 rs2) as [[t3 nvs2]|]; [cbn|done]. by destruct nv.
Qed.

(** A context's lookup is the abstract one. *)
Lemma table_get_spec ctx l i :
  table_ok ctx l -> 0 <= i -> nghttp2_hd_table_get ctx i = spec_get (ent_nv <$> l) i.
Proof.
  intros [Hb _ _] Hi. destruct (base_length _ _ Hb) as [_ Hlen].
  unfold nghttp2_hd_table_get, INDEX_RANGE_VALID, spec_get, NGHTTP2_STATIC_TABLE_LENGTH. rewrite Hlen.
  replace (i <? 0) with false by lia. destruct (i <? 61) eqn:E.
  - replace (i <? Z.of_nat (length l) + 61) with true by lia. by replace (61 <=? i) with false by lia.
  - replace (61 <=? i) with true by lia. rewrite list_lookup_fmap.
    destruct (i <? Z.of_nat (length l) + 61) eqn:E2.
    + destruct Hb as [[_ _ _ _ _ Hg] _ _ _].
      specialize (Hg (Z.to_nat (i - 61)) ltac:(lia)).
      rewrite Z2Nat.id in Hg by lia. by rewrite Hg.
    + rewrite (lookup_ge_None_2 l) by lia. done.
Qed.

(** Every valid index has an entry. *)
Lemma table_get_some ctx l i :
  table_ok ctx l -> 0 <= i < get_max_index ctx -> exists nv, nghttp2_hd_table_get ctx i = Some nv.
Proof.
  intros Ht Hi. rewrite (table_get_spec _ _ _ Ht) by lia. destruct Ht as [Hb _ _].
  destruct (base_length _ _ Hb) as [_ Hlen]. unfold get_max_index in Hi. rewrite Hlen in Hi.
  unfold spec_get, NGHTTP2_STATIC_TABLE_LENGTH in *. replace (i <? 0) with false by lia.
  destruct (i <? 61) eqn:E.
  - destruct (static_get_some i) as [e ->]; [lia|]. by eexists.
  - rewrite list_lookup_fmap.
    destruct (lookup_lt_is_Some_2 l (Z.to_nat (i - 61))) as [e ->]; [lia|]. by eexists.
Qed.

(** The tokens in a table are those of the names. *)
Lemma spec_get_token ctx l i nv :
  table_ok ctx l -> spec_get (ent_nv <$> l) i = Some nv -> nv_token nv = lookup_token (nv_name nv).
Proof.
  intros [_ He _]. unfold spec_get. destruct (i <? 0); [done|].
  destruct (i <? NGHTTP2_STATIC_TABLE_LENGTH).
  - destruct (static_get i) as [e|] eqn:Ee; [|done]. cbn. intros [= <-]. cbn.
    by destruct (static_get_ok _ _ Ee) as (_ & -> & _).
  - rewrite list_lookup_fmap. destruct (l !! _) as [e|] eqn:El; [|done]. cbn. intros [= <-].
    destruct He as [_ _ _ Ht _]. rewrite Forall_forall in Ht. by eapply Ht, list_elem_of_lookup_2.
Qed.

(** Headers in tables are not flagged. *)
Lemma spec_get_flags l i nv :
  Forall (fun nv => nv_flags nv = NGHTTP2_NV_FLAG_NONE) l -> spec_get l i = Some nv ->
  nv_flags nv = NGHTTP2_NV_FLAG_NONE.
Proof.
  intros Hl. unfold spec_get. destruct (i <? 0); [done|]. destruct (i <? _).
  - destruct (static_get i); [|done]. cbn. by intros [= <-].
  - intros Hi. rewrite Forall_forall in Hl. by eapply Hl, list_elem_of_lookup_2.
Qed.

(** ** The bytes of representations *)

(** The first bytes and prefix lengths of the representations. *)
Definition first_bytes : list (Z * Z) :=
  [(0x20, 5); (0x80, 7); (0, 7); (0x40, 6); (0, 4); (0x10, 4)].

Lemma first_bytes_prefix first prefix : (first, prefix) ∈ first_bytes -> 1 <= prefix <= 8.
Proof.
  intros Hin. assert (Forall (fun fp => 1 <= fp.2 <= 8) first_bytes) as Hf by (repeat constructor; cbn; lia).
  rewrite Forall_forall in Hf. exact (Hf _ Hin).
Qed.

(** An encoded length is its first byte, which holds the prefix, and the rest. *)
Lemma encode_length_cons first prefix n :
  (first, prefix) ∈ first_bytes -> 0 <= n ->
  exists rest, encode_length first n prefix = first + Z.min n (2 ^ prefix - 1) :: rest.
Proof.
  intros Hin Hn.
  assert (Hall : forallb (fun fp => forallb (fun x =>
      (Z.shiftl 1 fp.2 - 1 <? x) ||
      (u8 (Z.lor (u8 (Z.land fp.1 (Z.lnot (Z.shiftl 1 fp.2 - 1)))) x) =? fp.1 + x)) all_bytes)
    first_bytes = true) by (vm_compute; reflexivity).
  pose proof (first_bytes_prefix _ _ Hin) as Hp.
  rewrite List.forallb_forall in Hall. apply list_elem_of_In, Hall in Hin. cbn [fst snd] in Hin.
  destruct (prefix_k prefix Hp) as [Hk _]. pose proof (prefix_ones prefix ltac:(lia)) as Ho.
  rewrite Z.ones_equiv in Ho. unfold encode_length. cbv zeta.
  replace (2 ^ prefix - 1) with (Z.shiftl 1 prefix - 1) by lia. set (k := Z.shiftl 1 prefix - 1) in *.
  assert (Hx : forall x, 0 <= x <= k -> u8 (Z.lor (u8 (Z.land first (Z.lnot k))) x) = first + x).
  { intros x Hx. pose proof (byte_forall _ Hin x ltac:(unfold is_byte; lia)) as Hb. cbn beta in Hb.
    fold k in Hb. lia. }
  destruct (n <? k) eqn:E.
  - rewrite Hx by lia. rewrite Z.min_l by lia. by eexists.
  - rewrite Hx by lia. rewrite Z.min_r by lia. by eexists.
Qed.

Section Sizes.
Context `{HuffmanCode}.

Lemma length_size first n prefix :
  (first, prefix) ∈ first_bytes -> 0 <= n <= UINT32_MAX ->
  size (encode_length first n prefix) <= 6.
Proof.
  intros Hf Hn. destruct (encode_decode first n prefix []) as (Hl & Hc & _);
    [by eapply first_bytes_prefix|done|]. unfold size. lia.
Qed.

Lemma str_bytes_size s :
  size (str_payload s) <= 2 ^ 28 -> size (str_bytes s) <= 5 + size (str_payload s).
Proof.
  intros Hs. unfold str_bytes, size at 1. rewrite length_app.
  pose proof (encode_length_short (if huff s then 0x80 else 0) (size (str_payload s)) 7 ltac:(lia)) as Hl.
  unfold size in *. lia.
Qed.

Lemma mode_first_bytes mode : (pack_first_byte mode, mode_prefix mode) ∈ first_bytes.
Proof. destruct mode; set_solver. Qed.

Lemma repr_bytes_size limit r :
  repr_ok limit r -> limit <= 2 ^ 28 ->
  size (repr_bytes r) <=
    match r with
    | Literal_indname _ _ v => 11 + size (str_payload v)
    | Literal_newname _ n v => 11 + size (str_payload n) + size (str_payload v)
    | _ => 6
    end.
Proof.
  intros Hr Hlim. destruct r as [n|i|mode i v|mode n v]; cbn [repr_ok repr_bytes] in *.
  - apply length_size; [set_solver|done].
  - apply length_size; [set_solver|lia].
  - destruct Hr as [Hi Hv]. pose proof (length_size _ (i + 1) _ (mode_first_bytes mode) ltac:(lia)).
    pose proof (str_bytes_size v ltac:(lia)). unfold size in *. rewrite length_app. lia.
  - destruct Hr as [Hn Hv]. pose proof (str_bytes_size n ltac:(lia)).
    pose proof (str_bytes_size v ltac:(lia)). unfold size in *. cbn [length]. rewrite length_app. lia.
Qed.
End Sizes.

(** A small code in the place of the Huffman code, for the examples: two
    leading letters w become one byte. *)
Definition sample_code : HuffmanCode := {|
  huff_code s := match s with
                 | 119 :: 119 :: s' => 0 :: s'
                 | _ => 1 :: s
                 end
|}.

End HdRepr.
