(* ===== verification/HdDeflate.v ===== *)
(** The HPACK encoder
    (src/http2/src/upstream/lib/nghttp2_hd.c): the emitters (lines 917-1098),
    the table size change (1245-1259), the choice of a representation
    (1327-1340, 1342-1438) and [nghttp2_hd_deflate_hd_bufs] (1440-1489).

    The output buffers ([nghttp2_bufs]) and the Huffman coder are not part of
    the repository: the classes [Bufs] and [HuffmanEncoder] state what the
    encoder uses of them. *)

From S2P Require Export HdRepr.
Export HdRepr.
Open Scope Z_scope.

(** ** Interfaces *)

(** The output buffers: appending either fails or appends. *)
Class Bufs (bufs : Type) := {
  bufs_data : bufs -> list Z;
  nghttp2_bufs_add : bufs -> list Z -> hd_err * bufs;
  nghttp2_bufs_addb : bufs -> Z -> hd_err * bufs;
  bufs_add_ok : forall b bs b',
    nghttp2_bufs_add b bs = (NGHTTP2_SUCCESS, b') -> bufs_data b' = bufs_data b ++ bs;
  bufs_addb_ok : forall b c b',
    nghttp2_bufs_addb b c = (NGHTTP2_SUCCESS, b') -> bufs_data b' = bufs_data b ++ [c]
}.

(** The Huffman encoder: the announced length of a string's code, and the
    function that appends it. *)
Class HuffmanEncoder (bufs : Type) `{Bufs bufs, HuffmanCode} := {
  nghttp2_hd_huff_encode_count : list Z -> Z;
  nghttp2_hd_huff_encode : bufs -> list Z -> hd_err * bufs;
  huff_count_ok : forall s, nghttp2_hd_huff_encode_count s = size (huff_code s);
  huff_encode_ok : forall b s b',
    nghttp2_hd_huff_encode b s = (NGHTTP2_SUCCESS, b') -> bufs_data b' = bufs_data b ++ huff_code s
}.

Module HdDeflate.

(** [nghttp2_nv] *)
Record nghttp2_nv := mkInNv { name : list Z; value : list Z; no_index : bool }.

(** [nghttp2_hd_deflater] *)
Record deflater := mkDeflater {
  d_ctx : hd_context;
  d_map : hd_map;
  deflate_hd_table_bufsize_max : Z;
  min_hd_table_bufsize_max : Z;
  notify_table_size_change : bool
}.

Definition set_d_ctx (ctx : hd_context) (map : hd_map) (d : deflater) : deflater :=
  mkDeflater ctx map (deflate_hd_table_bufsize_max d) (min_hd_table_bufsize_max d)
    (notify_table_size_change d).

Definition set_bad (ctx : hd_context) : hd_context :=
  mkCtx (hd_table ctx) (hd_table_bufsize ctx) (hd_table_bufsize_max ctx) (next_seq ctx) true (ctx_mem ctx).

(** [rv = x; if (rv != 0) return rv;] on the output buffers. *)
Definition emit_then {bufs} (x : hd_err * bufs) (f : bufs -> hd_err * bufs) : hd_err * bufs :=
  match x with
  | (NGHTTP2_SUCCESS, b) => f b
  | res => res
  end.

Notation "b <-- x ;; k" := (emit_then x (fun b => k))
  (at level 100, x at next level, k at level 200, right associativity).

Section Emit.
Context {bufs : Type} `{HuffmanEncoder bufs}.

(** [uint8_t sb[16]] *)
Definition SB_SIZE : Z := 16.

(** The common body: [sb[0] = first; encode_length(sb, n, prefix);
    nghttp2_bufs_add(bufs, sb, blocklen)]. *)
Definition emit_length (b : bufs) (first n prefix : Z) : hd_err * bufs :=
  let blocklen := count_encoded_length n prefix in
  if SB_SIZE <? blocklen then (NGHTTP2_ERR_HEADER_COMP, b)
  else nghttp2_bufs_add b (take (Z.to_nat blocklen) (encode_length first n prefix)).

Definition emit_table_size (b : bufs) (table_size : Z) : hd_err * bufs :=
  emit_length b 0x20 table_size 5.

Definition emit_indexed_block (b : bufs) (idx : Z) : hd_err * bufs :=
  emit_length b 0x80 (idx + 1) 7.

Definition emit_string (b : bufs) (str : list Z) : hd_err * bufs :=
  let enclen := nghttp2_hd_huff_encode_count str in
  let huffman := enclen <? size str in
  let enclen := if huffman then enclen else size str in
  b <-- emit_length b (if huffman then Z.shiftl 1 7 else 0) enclen 7;;
  if huffman then nghttp2_hd_huff_encode b str else nghttp2_bufs_add b str.

Definition emit_indname_block (b : bufs) (idx : Z) (nv : nghttp2_nv) (mode : indexing_mode)
    : hd_err * bufs :=
  let prefixlen := if decide (mode = NGHTTP2_HD_WITH_INDEXING) then 6 else 4 in
  b <-- emit_length b (pack_first_byte mode) (idx + 1) prefixlen;;
  emit_string b (value nv).

Definition emit_newname_block (b : bufs) (nv : nghttp2_nv) (mode : indexing_mode) : hd_err * bufs :=
  b <-- nghttp2_bufs_addb b (pack_first_byte mode);;
  b <-- emit_string b (name nv);;
  emit_string b (value nv).
End Emit.

(** [hd_deflate_decide_indexing] *)
Definition hd_deflate_decide_indexing (d : deflater) (nv : nghttp2_nv) (token : Z) : indexing_mode :=
  if (token =? NGHTTP2_TOKEN__PATH) || (token =? NGHTTP2_TOKEN_AGE)
     || (token =? NGHTTP2_TOKEN_CONTENT_LENGTH) || (token =? NGHTTP2_TOKEN_ETAG)
     || (token =? NGHTTP2_TOKEN_IF_MODIFIED_SINCE) || (token =? NGHTTP2_TOKEN_IF_NONE_MATCH)
     || (token =? NGHTTP2_TOKEN_LOCATION) || (token =? NGHTTP2_TOKEN_SET_COOKIE)
     || (u64 (hd_table_bufsize_max (d_ctx d) * 3) / 4 <? entry_room (size (name nv)) (size (value nv)))
  then NGHTTP2_HD_WITHOUT_INDEXING
  else NGHTTP2_HD_WITH_INDEXING.

Section Deflate.
Context {bufs : Type} `{HuffmanEncoder bufs}.
Variable malloc_ok : mem -> bool.

(** [nghttp2_hd_deflate_init2]; UINT32_MAX marks "no minimum". *)
Definition nghttp2_hd_deflate_init2 (default_size max_deflate_dynamic_table_size : Z) (m : mem)
    : hd_err * option deflater :=
  match hd_context_init malloc_ok default_size m with
  | (NGHTTP2_SUCCESS, Some ctx, _) =>
      let small := max_deflate_dynamic_table_size <? default_size in
      let ctx := if small then set_max max_deflate_dynamic_table_size ctx else ctx in
      (NGHTTP2_SUCCESS,
       Some (mkDeflater ctx hd_map_init max_deflate_dynamic_table_size UINT32_MAX small))
  | (rv, _, _) => (rv, None)
  end.

(** [nghttp2_hd_deflate_change_table_size] *)
Definition nghttp2_hd_deflate_change_table_size (d : deflater) (settings_max : Z) : option deflater :=
  let next_bufsize := Z.min settings_max (deflate_hd_table_bufsize_max d) in
  match hd_context_shrink_table_size (set_max next_bufsize (d_ctx d)) (Some (d_map d)) with
  | Some (ctx, Some map) =>
      Some (mkDeflater ctx map (deflate_hd_table_bufsize_max d)
              (Z.min (min_hd_table_bufsize_max d) next_bufsize) true)
  | _ => None
  end.

(** [nghttp2_rcbuf_new2]: an allocation. *)
Definition rcbuf_new2 (ctx : hd_context) : hd_err * hd_context :=
  (if malloc_ok (ctx_mem ctx) then NGHTTP2_SUCCESS else NGHTTP2_ERR_NOMEM,
   mkCtx (hd_table ctx) (hd_table_bufsize ctx) (hd_table_bufsize_max ctx) (next_seq ctx)
         (bad ctx) (S (ctx_mem ctx))).

(** The indexing part of [deflate_nv] once [hd_nv.name] is there: the copy of
    the value, and the new entry. *)
Definition deflate_add_named (d : deflater) (ctx : hd_context) (nm : list Z) (nv : nghttp2_nv)
    (token hash : Z) : option (hd_err * deflater) :=
  match rcbuf_new2 ctx with
  | (NGHTTP2_SUCCESS, ctx) =>
      let hd_nv := mkNv nm (value nv) token NGHTTP2_NV_FLAG_NONE in
      match add_hd_table_incremental malloc_ok ctx hd_nv (Some (d_map d)) hash with
      | Some (rv, ctx, Some map) =>
          Some (match rv with NGHTTP2_SUCCESS => NGHTTP2_SUCCESS | _ => NGHTTP2_ERR_HEADER_COMP end,
                set_d_ctx ctx map d)
      | _ => None
      end
  | (rv, ctx) => Some (rv, set_d_ctx ctx (d_map d) d)
  end.

(** The name is that of the entry at [idx], or a copy. *)
Definition deflate_add (d : deflater) (nv : nghttp2_nv) (token hash idx : Z)
    : option (hd_err * deflater) :=
  if idx =? -1 then
    match rcbuf_new2 (d_ctx d) with
    | (NGHTTP2_SUCCESS, ctx) => deflate_add_named d ctx (name nv) nv token hash
    | (rv, ctx) => Some (rv, set_d_ctx ctx (d_map d) d)
    end
  else
    e ← nghttp2_hd_table_get (d_ctx d) idx;
    deflate_add_named d (d_ctx d) (nv_name e) nv token hash.

Definition deflate_hash (nv : nghttp2_nv) (token : Z) : Z :=
  if token =? -1 then name_hash (name nv)
  else if token <=? NGHTTP2_TOKEN_WWW_AUTHENTICATE then
    match static_get token with Some e => ent_hash e | None => 0 end
  else 0.

Definition deflate_mode (d : deflater) (nv : nghttp2_nv) (token : Z) : indexing_mode :=
  if (token =? NGHTTP2_TOKEN_AUTHORIZATION)
     || ((token =? NGHTTP2_TOKEN_COOKIE) && (size (value nv) <? 20))
     || no_index nv
  then NGHTTP2_HD_NEVER_INDEXING
  else hd_deflate_decide_indexing d nv token.

(** [deflate_nv]; [None] stands for a failed assertion. *)
Definition deflate_nv (d : deflater) (b : bufs) (nv : nghttp2_nv) : option (hd_err * deflater * bufs) :=
  let token := lookup_token (name nv) in
  let hash := deflate_hash nv token in
  let mode := deflate_mode d nv token in
  let res := search_hd_table (d_ctx d) (name nv) (value nv) token
               (bool_decide (mode = NGHTTP2_HD_NEVER_INDEXING)) (d_map d) hash in
  let idx := index res in
  if name_value_match res then
    let '(rv, b) := emit_indexed_block b idx in Some (rv, d, b)
  else
    match (if decide (mode = NGHTTP2_HD_WITH_INDEXING) then deflate_add d nv token hash idx
           else Some (NGHTTP2_SUCCESS, d)) with
    | Some (NGHTTP2_SUCCESS, d) =>
        let '(rv, b) :=
          if idx =? -1 then emit_newname_block b nv mode else emit_indname_block b idx nv mode in
        Some (rv, d, b)
    | Some (rv, d) => Some (rv, d, b)
    | None => None
    end.

(** [for (i = 0; i < nvlen; ++i)] *)
Fixpoint deflate_nvs (d : deflater) (b : bufs) (nvs : list nghttp2_nv)
    : option (hd_err * deflater * bufs) :=
  match nvs with
  | [] => Some (NGHTTP2_SUCCESS, d, b)
  | nv :: nvs' =>
      match deflate_nv d b nv with
      | Some (NGHTTP2_SUCCESS, d, b) => deflate_nvs d b nvs'
      | res => res
      end
  end.

(** The context update at the start of a block. *)
Definition emit_size_updates (d : deflater) (b : bufs) : hd_err * deflater * bufs :=
  if notify_table_size_change d then
    let min := min_hd_table_bufsize_max d in
    let d := mkDeflater (d_ctx d) (d_map d) (deflate_hd_table_bufsize_max d) UINT32_MAX false in
    let '(rv, b) :=
      if min <? hd_table_bufsize_max (d_ctx d) then emit_table_size b min
      else (NGHTTP2_SUCCESS, b) in
    match rv with
    | NGHTTP2_SUCCESS =>
        let '(rv, b) := emit_table_size b (hd_table_bufsize_max (d_ctx d)) in (rv, d, b)
    | _ => (rv, d, b)
    end
  else (NGHTTP2_SUCCESS, d, b).

Definition fail (d : deflater) : deflater := set_d_ctx (set_bad (d_ctx d)) (d_map d) d.

(** [nghttp2_hd_deflate_hd_bufs] *)
Definition nghttp2_hd_deflate_hd_bufs (d : deflater) (b : bufs) (nvs : list nghttp2_nv)
    : option (hd_err * deflater * bufs) :=
  if bad (d_ctx d) then Some (NGHTTP2_ERR_HEADER_COMP, d, b)
  else
    match emit_size_updates d b with
    | (NGHTTP2_SUCCESS, d, b) =>
        match deflate_nvs d b nvs with
        | Some (NGHTTP2_SUCCESS, d, b) => Some (NGHTTP2_SUCCESS, d, b)
        | Some (rv, d, b) => Some (rv, fail d, b)
        | None => None
        end
    | (rv, d, b) => Some (rv, fail d, b)
    end.
End Deflate.

(** [nghttp2_hd_deflate_bound] *)
Definition nghttp2_hd_deflate_bound (nva : list nghttp2_nv) : Z :=
  foldl (fun n nv => n + (size (name nv) + size (value nv)))
    (12 + 6 * 2 * Z.of_nat (length nva)) nva.

(** ** Emission *)

Section EmitSpec.
Context {bufs : Type} `{HuffmanEncoder bufs}.

Lemma emit_length_all b first n prefix :
  (first, prefix) ∈ first_bytes -> 0 <= n <= UINT32_MAX ->
  emit_length b first n prefix = nghttp2_bufs_add b (encode_length first n prefix).
Proof.
  intros Hf Hn. destruct (encode_decode first n prefix []) as (Hl & Hc & _); [by eapply first_bytes_prefix|done|].
  unfold emit_length, SB_SIZE. replace (16 <? _) with false by lia.
  by rewrite take_ge by lia.
Qed.

(** An emitter either fails or appends [bs]. *)
Definition emits (b : bufs) (x : hd_err * bufs) (bs : list Z) : Prop :=
  x.1 = NGHTTP2_SUCCESS -> bufs_data x.2 = bufs_data b ++ bs.

Lemma emits_add b bs : emits b (nghttp2_bufs_add b bs) bs.
Proof. intros Hs. apply bufs_add_ok. rewrite <- Hs. apply surjective_pairing. Qed.

Lemma emits_length b first n prefix :
  (first, prefix) ∈ first_bytes -> 0 <= n <= UINT32_MAX ->
  emits b (emit_length b first n prefix) (encode_length first n prefix).
Proof. intros ? ?. rewrite emit_length_all by done. apply emits_add. Qed.

(** One emitter after another. *)
Lemma emits_then b x bs1 (f : bufs -> hd_err * bufs) bs2 :
  emits b x bs1 -> (forall b', emits b' (f b') bs2) ->
  emits b (emit_then x f) (bs1 ++ bs2).
Proof.
  intros Hx Hf. destruct x as [[] b']; try done. intros Hs. specialize (Hx eq_refl). cbn in Hx.
  cbn in *. rewrite (Hf b' Hs), Hx. by rewrite app_assoc.
Qed.

(** The encoder's choice between the two codings. *)
Definition enc_string (s : list Z) : hstring :=
  mkStr (nghttp2_hd_huff_encode_count s <? size s) s.

Lemma enc_string_payload s : size (str_payload (enc_string s)) <= size s.
Proof. unfold str_payload, enc_string. cbn. rewrite huff_count_ok. case_match; lia. Qed.

Lemma emits_string b s :
  size s <= UINT32_MAX -> emits b (emit_string b s) (str_bytes (enc_string s)).
Proof.
  intros Hs. pose proof (enc_string_payload s) as Hp. unfold str_bytes, emit_string.
  unfold str_payload, enc_string in *. cbn in *. rewrite huff_count_ok in *.
  destruct (size (huff_code s) <? size s) eqn:E.
  - apply emits_then.
    + apply emits_length; [set_solver|unfold size in *; lia].
    + intros b' Hok. apply huff_encode_ok. rewrite <- Hok. apply surjective_pairing.
  - apply emits_then.
    + apply emits_length; [set_solver|unfold size in *; lia].
    + intros b'. apply emits_add.
Qed.

Lemma emits_indexed b i :
  0 <= i -> i + 1 <= UINT32_MAX -> emits b (emit_indexed_block b i) (repr_bytes (Indexed i)).
Proof. intros ? ?. apply emits_length; [set_solver|lia]. Qed.

Lemma emits_indname b i nv mode :
  0 <= i -> i + 1 <= UINT32_MAX -> size (value nv) <= UINT32_MAX ->
  emits b (emit_indname_block b i nv mode)
    (repr_bytes (Literal_indname mode i (enc_string (value nv)))).
Proof.
  intros ? ? ?. apply emits_then.
  - apply emits_length; [apply mode_first_bytes|lia].
  - intros b'. by apply emits_string.
Qed.

Lemma emits_newname b nv mode :
  size (name nv) <= UINT32_MAX -> size (value nv) <= UINT32_MAX ->
  emits b (emit_newname_block b nv mode)
    (repr_bytes (Literal_newname mode (enc_string (name nv)) (enc_string (value nv)))).
Proof.
  intros ? ?. unfold emit_newname_block. apply (emits_then _ _ [pack_first_byte mode]).
  - intros Hs. apply bufs_addb_ok. rewrite <- Hs. apply surjective_pairing.
  - intros b'. apply emits_then; [by apply emits_string|]. intros b''. by apply emits_string.
Qed.
End EmitSpec.

(** ** The invariant of a deflater *)

Record deflater_ok (d : deflater) (l : list hd_entry) : Prop := {
  dfl_table : table_ok (d_ctx d) l;
  dfl_map : map_ok (d_map d) l;
  dfl_hashes : hashes_ok l;
  dfl_flags : Forall (fun e => nv_flags (ent_nv e) = NGHTTP2_NV_FLAG_NONE) l;
  dfl_max : hd_table_bufsize_max (d_ctx d) <= UINT32_MAX;
  dfl_min : 0 <= min_hd_table_bufsize_max d <= UINT32_MAX;
  dfl_cap : 0 <= deflate_hd_table_bufsize_max d
}.

(** What encoding headers leaves alone. *)
Definition same_params (d d' : deflater) : Prop :=
  hd_table_bufsize_max (d_ctx d') = hd_table_bufsize_max (d_ctx d) /\
  deflate_hd_table_bufsize_max d' = deflate_hd_table_bufsize_max d /\
  min_hd_table_bufsize_max d' = min_hd_table_bufsize_max d /\
  notify_table_size_change d' = notify_table_size_change d /\ bad (d_ctx d') = bad (d_ctx d).

(** The headers that must never be indexed. *)
Definition sensitive (nv : nghttp2_nv) : bool :=
  let token := lookup_token (name nv) in
  (token =? NGHTTP2_TOKEN_AUTHORIZATION)
  || ((token =? NGHTTP2_TOKEN_COOKIE) && (size (value nv) <? 20)) || no_index nv.

(** A header as the decoder reports it. *)
Definition header_of (nv : nghttp2_nv) : hd_nv :=
  mkNv (name nv) (value nv) (lookup_token (name nv)) (sensitive nv).

Definition nv_ok (limit : Z) (nv : nghttp2_nv) : Prop :=
  size (name nv) <= limit /\ size (value nv) <= limit.

Lemma mode_sensitive d nv :
  bool_decide (deflate_mode d nv (lookup_token (name nv)) = NGHTTP2_HD_NEVER_INDEXING) = sensitive nv.
Proof.
  unfold deflate_mode, sensitive. destruct (_ || no_index nv); [done|].
  unfold hd_deflate_decide_indexing. by destruct (_ || _).
Qed.

(** A search for the name only never reports a match of the value. *)
Lemma search_name_only ctx name value token map hash :
  name_value_match (search_hd_table ctx name value token true map hash) = false.
Proof.
  unfold search_hd_table, search_static_table, hd_map_find.
  assert (Hc : forall chain, (find_chain chain name value token hash true None).2 = false).
  { induction chain as [|e chain IH]; [done|]. cbn. by destruct (_ || _). }
  specialize (Hc (nth (bucket hash) map [])).
  destruct (find_chain _ _ _ _ _ _ _) as [ent exact]. cbn in Hc. subst exact.
  by repeat case_match.
Qed.

Lemma map_ok_same m l l' : map_ok m l -> l = l' -> map_ok m l'.
Proof. by intros ? <-. Qed.

Section DeflateSpec.
Context {bufs : Type} `{HuffmanEncoder bufs}.
Variable malloc_ok : mem -> bool.

Lemma rcbuf_new2_ok ctx l :
  table_ok ctx l ->
  let x := rcbuf_new2 malloc_ok ctx in
  table_ok x.2 l /\ hd_table_bufsize_max x.2 = hd_table_bufsize_max ctx /\ bad x.2 = bad ctx /\
    (x.1 = NGHTTP2_SUCCESS \/ x.1 = NGHTTP2_ERR_NOMEM).
Proof.
  intros [[] [Ha Ho] ?]. cbn. split; [|split; [done|split; [done|case_match; tauto]]].
  constructor; [by constructor| |done]. constructor; try done. cbn.
  eapply Forall_impl; [exact Ho|]. cbn. lia.
Qed.

(** A new header in the table of the deflater. *)
Lemma deflate_insert_ok d ctx l nv :
  deflater_ok d l -> table_ok ctx l -> hd_table_bufsize_max ctx = hd_table_bufsize_max (d_ctx d) ->
  bad ctx = bad (d_ctx d) ->
  nv_room nv <= SIZE_LIMIT -> nv_token nv = lookup_token (nv_name nv) ->
  nv_flags nv = NGHTTP2_NV_FLAG_NONE ->
  exists rv ctx' map', add_hd_table_incremental malloc_ok ctx nv (Some (d_map d)) (hash_of (nv_name nv))
      = Some (rv, ctx', Some map') /\
    exists l', deflater_ok (set_d_ctx ctx' map' d) l' /\ same_params d (set_d_ctx ctx' map' d) /\
    (rv = NGHTTP2_SUCCESS ->
       spec_op (hd_table_bufsize_max (d_ctx d), ent_nv <$> l) (Op_add nv 0)
         = (hd_table_bufsize_max (d_ctx d), ent_nv <$> l')).
Proof.
  intros [_ Hmap Hh Hf Hmx Hmn Hcap] Ht Hmax Hbad Hroom Htok Hfl.
  destruct (add_spec malloc_ok ctx nv (Some (d_map d)) (hash_of (nv_name nv)) l)
    as (rv & c & m & -> & Hcm & Hcb & Hm & Hrv); [done..|].
  destruct m as [m|]; [|by pose proof (proj1 Hm eq_refl)].
  exists rv, c, m. split; [done|].
  assert (Hpre : forall P budget, Forall P l -> Forall P (fits budget l)).
  { intros P budget Hl. destruct (fits_prefix budget l) as [l2 El]. rewrite El in Hl.
    by apply Forall_app in Hl as [? _]. }
  assert (Hgo : forall l', table_ok c l' /\ map_opt_ok (Some m) l' -> hashes_ok l' ->
    Forall (fun e => nv_flags (ent_nv e) = NGHTTP2_NV_FLAG_NONE) l' ->
    deflater_ok (set_d_ctx c m d) l' /\ same_params d (set_d_ctx c m d)).
  { intros l' [Ht' Hm'] Hh' Hf'. split; [constructor; cbn; try done; lia|].
    unfold same_params. cbn. rewrite Hcm, Hcb. tauto. }
  rewrite <- Hmax. destruct rv.
  - eexists. edestruct Hgo as [Hg1 Hg2]; [exact Hrv| | |split; [exact Hg1|split; [exact Hg2|]]].
    + unfold added. case_match; [constructor|]. constructor; [done|]. by apply Hpre.
    + unfold added. case_match; [constructor|]. constructor; [done|]. by apply Hpre.
    + intros _. by rewrite <- (added_fmap _ _ _ 0).
  - destruct Hrv as [_ Hrv]. eexists.
    edestruct Hgo as [Hg1 Hg2]; [exact Hrv|by apply Hpre|by apply Hpre|by split].
  - by destruct Hrv.
  - by destruct Hrv.
  - by destruct Hrv.
  - by destruct Hrv.
Qed.

(** The outcome of the indexing part. *)
Definition indexed (d : deflater) (l : list hd_entry) (nv : nghttp2_nv) (x : option (hd_err * deflater)) : Prop :=
  exists rv d' l', x = Some (rv, d') /\ deflater_ok d' l' /\ same_params d d' /\
    (rv = NGHTTP2_SUCCESS ->
     spec_op (hd_table_bufsize_max (d_ctx d), ent_nv <$> l)
         (Op_add (mkNv (name nv) (value nv) (lookup_token (name nv)) NGHTTP2_NV_FLAG_NONE) 0)
       = (hd_table_bufsize_max (d_ctx d), ent_nv <$> l')).

(** A context that differs from the deflater's in its allocations only. *)
Definition like (d : deflater) (l : list hd_entry) (ctx : hd_context) : Prop :=
  table_ok ctx l /\ hd_table_bufsize_max ctx = hd_table_bufsize_max (d_ctx d) /\ bad ctx = bad (d_ctx d).

Lemma like_rcbuf d l ctx :
  like d l ctx -> exists rv ctx', rcbuf_new2 malloc_ok ctx = (rv, ctx') /\ like d l ctx' /\
    (rv = NGHTTP2_SUCCESS \/ rv = NGHTTP2_ERR_NOMEM).
Proof.
  intros (Ht & Hm & Hb). destruct (rcbuf_new2_ok ctx l Ht) as (Ht' & Hm' & Hb' & Hrv).
  destruct (rcbuf_new2 malloc_ok ctx) as [rv c]. cbn in *. exists rv, c. split; [done|].
  split; [|done]. split; [done|]. split; congruence.
Qed.

Lemma indexed_failed d l nv ctx rv :
  deflater_ok d l -> like d l ctx -> rv <> NGHTTP2_SUCCESS ->
  indexed d l nv (Some (rv, set_d_ctx ctx (d_map d) d)).
Proof.
  intros Hd (Ht & Hm & Hb) Hrv. eexists _, _, l. split; [done|]. split.
  - destruct Hd. constructor; cbn; try done. by rewrite Hm.
  - split; [|done]. unfold same_params. cbn. by rewrite Hm, Hb.
Qed.

Lemma deflate_add_named_ok d l ctx nv :
  deflater_ok d l -> like d l ctx -> nv_ok UINT32_MAX nv ->
  indexed d l nv (deflate_add_named malloc_ok d ctx (name nv) nv (lookup_token (name nv)) (hash_of (name nv))).
Proof.
  intros Hd Hlike [Hn Hv]. unfold deflate_add_named.
  destruct (like_rcbuf _ _ _ Hlike) as (rv & c & -> & Hlike' & [-> | ->]); [|by apply indexed_failed].
  destruct Hlike' as (Ht & Hm & Hb).
  destruct (deflate_insert_ok d c l (mkNv (name nv) (value nv) (lookup_token (name nv)) NGHTTP2_NV_FLAG_NONE))
    as (rv & c' & m & Hadd & l' & Hl' & Hs' & Hspec); try done.
  { unfold nv_room, entry_room, NGHTTP2_HD_ENTRY_OVERHEAD, SIZE_LIMIT. cbn.
    unfold UINT32_MAX in *. lia. }
  cbn [nv_name] in Hadd. rewrite Hadd. eexists _, _, l'. split; [done|]. split; [done|].
  split; [done|]. intros Hrv. apply Hspec. by destruct rv.
Qed.

Lemma deflate_add_ok d nv idx l :
  deflater_ok d l -> nv_ok UINT32_MAX nv ->
  (idx <> -1 -> 0 <= idx /\ exists e, spec_get (ent_nv <$> l) idx = Some e /\ nv_name e = name nv) ->
  indexed d l nv (deflate_add malloc_ok d nv (lookup_token (name nv)) (hash_of (name nv)) idx).
Proof.
  intros Hd Hnv Hidx. pose proof Hd as [Ht _ _ _ _ _ _].
  assert (Hlike : like d l (d_ctx d)) by (split; [done|by split]).
  unfold deflate_add. destruct (idx =? -1) eqn:E.
  - destruct (like_rcbuf _ _ _ Hlike) as (rv & c & -> & Hlike' & [-> | ->]);
      [by apply deflate_add_named_ok|by apply indexed_failed].
  - destruct (Hidx ltac:(lia)) as (Hi & e & He & Hen).
    rewrite (table_get_spec _ _ _ Ht), He by lia. cbn. rewrite Hen. by apply deflate_add_named_ok.
Qed.

(** The outcome of encoding one header. *)
Definition encoded (limit : Z) (d : deflater) (l : list hd_entry) (b : bufs) (nv : nghttp2_nv)
    (x : option (hd_err * deflater * bufs)) : Prop :=
  exists rv d' b' l', x = Some (rv, d', b') /\ deflater_ok d' l' /\ same_params d d' /\
    (rv = NGHTTP2_SUCCESS -> exists r, repr_ok limit r /\ is_header r = true /\
      bufs_data b' = bufs_data b ++ repr_bytes r /\
      (limit <= 2 ^ 28 -> size (repr_bytes r) <= 12 + (size (name nv) + size (value nv))) /\
      spec_repr (hd_table_bufsize_max (d_ctx d), ent_nv <$> l) r
        = Some ((hd_table_bufsize_max (d_ctx d), ent_nv <$> l'), Some (header_of nv))).

Lemma spec_literal_indexed t nv mode :
  bool_decide (mode = NGHTTP2_HD_NEVER_INDEXING) = sensitive nv ->
  spec_literal t mode (name nv) (value nv) (lookup_token (name nv)) =
    (if decide (mode = NGHTTP2_HD_WITH_INDEXING)
     then spec_op t (Op_add (mkNv (name nv) (value nv) (lookup_token (name nv)) NGHTTP2_NV_FLAG_NONE) 0)
     else t, header_of nv).
Proof.
  intros Hs. unfold spec_literal, header_of. rewrite Hs. f_equal. destruct (decide _) as [->|]; [|done].
  by rewrite <- Hs.
Qed.

(** The literal written after the indexing part. *)
Lemma encoded_literal limit d l b nv mode idx d' l' :
  nv_ok limit nv -> limit <= UINT32_MAX -> deflater_ok d l -> deflater_ok d' l' -> same_params d d' ->
  bool_decide (mode = NGHTTP2_HD_NEVER_INDEXING) = sensitive nv ->
  (idx <> -1 -> 0 <= idx < UINT32_MAX /\
     exists e, spec_get (ent_nv <$> l) idx = Some e /\ nv_name e = name nv) ->
  (hd_table_bufsize_max (d_ctx d), ent_nv <$> l') =
    (if decide (mode = NGHTTP2_HD_WITH_INDEXING)
     then spec_op (hd_table_bufsize_max (d_ctx d), ent_nv <$> l)
            (Op_add (mkNv (name nv) (value nv) (lookup_token (name nv)) NGHTTP2_NV_FLAG_NONE) 0)
     else (hd_table_bufsize_max (d_ctx d), ent_nv <$> l)) ->
  encoded limit d l b nv
    (let '(rv, b) :=
       if idx =? -1 then emit_newname_block b nv mode else emit_indname_block b idx nv mode in
     Some (rv, d', b)).
Proof.
  intros [Hn Hv] Hlim Hd Hd' Hsame Hmode Hidx Hspec.
  pose proof (enc_string_payload (name nv)) as Hpn. pose proof (enc_string_payload (value nv)) as Hpv.
  destruct (idx =? -1) eqn:E.
  - pose proof (emits_newname b nv mode ltac:(lia) ltac:(lia)) as He.
    destruct (emit_newname_block b nv mode) as [rv b'].
    exists rv, d', b', l'. split; [done|]. split; [done|]. split; [done|]. intros ->.
    eexists (Literal_newname _ (enc_string _) (enc_string _)).
    assert (Hok : repr_ok limit (Literal_newname mode (enc_string (name nv)) (enc_string (value nv))))
      by (split; lia).
    split; [exact Hok|]. split; [done|]. split; [exact (He eq_refl)|]. split.
    + intros Hl. pose proof (repr_bytes_size _ _ Hok Hl). cbn in *. lia.
    + cbn [spec_repr enc_string str]. rewrite spec_literal_indexed by done. by rewrite <- Hspec.
  - destruct (Hidx ltac:(lia)) as (Hi & e & He & Hen).
    pose proof (emits_indname b idx nv mode ltac:(lia) ltac:(lia) ltac:(lia)) as Hem.
    destruct (emit_indname_block b idx nv mode) as [rv b'].
    exists rv, d', b', l'. split; [done|]. split; [done|]. split; [done|]. intros ->.
    assert (Hok : repr_ok limit (Literal_indname mode idx (enc_string (value nv)))) by (split; lia).
    eexists. split; [exact Hok|]. split; [done|]. split; [exact (Hem eq_refl)|]. split.
    + intros Hl. pose proof (repr_bytes_size _ _ Hok Hl). cbn in *. unfold size in *. lia.
    + cbn [spec_repr snd]. rewrite He. cbn [mbind option_bind enc_string str].
      pose proof Hd as [Ht _ _ _ _ _ _].
      rewrite (spec_get_token _ _ _ _ Ht He), Hen, spec_literal_indexed by done. by rewrite <- Hspec.
Qed.

Lemma table_short ctx l :
  table_ok ctx l -> hd_table_bufsize_max ctx <= UINT32_MAX -> Z.of_nat (length l) + 61 < 2 ^ 32.
Proof. intros [_ _ Hf] Hm. pose proof (rooms_ge l). unfold UINT32_MAX in *. lia. Qed.

(** One header: the search finds it, or its name, or nothing; in each case
    the representation written stands for the header, and the deflater's
    table moves with it. *)
Lemma deflate_nv_ok limit d l b nv :
  deflater_ok d l -> nv_ok limit nv -> limit <= UINT32_MAX ->
  encoded limit d l b nv (deflate_nv malloc_ok d b nv).
Proof.
  intros Hd Hnv Hlim. pose proof Hd as [Ht Hmap Hh Hfl Hmx _ _]. unfold deflate_nv.
  change (deflate_hash nv (lookup_token (name nv))) with (hash_of (name nv)).
  pose proof (mode_sensitive d nv) as Hmode. set (mode := deflate_mode d nv _) in *.
  rewrite Hmode.
  pose proof (table_short _ _ Ht Hmx) as Hshort.
  pose proof (search_describes _ _ _ Ht Hmap Hshort (name nv) (value nv) (sensitive nv)) as Hs.
  cbv zeta in Hs.
  assert (Hno : sensitive nv = true -> name_value_match (search_hd_table (d_ctx d) (name nv) (value nv)
    (lookup_token (name nv)) (sensitive nv) (d_map d) (hash_of (name nv))) = false)
    by (intros ->; apply search_name_only).
  set (res := search_hd_table _ _ _ _ _ _ _) in *.
  assert (Hidx : index res <> -1 -> 0 <= index res < UINT32_MAX /\
    exists e, spec_get (ent_nv <$> l) (index res) = Some e /\ nv_name e = name nv /\
      (name_value_match res = true -> nv_value e = value nv)).
  { intros Hne. destruct Hs as [[? _]|(e & He & Hn & Hi & Hv)]; [done|].
    rewrite (table_get_spec _ _ _ Ht) in He by lia. destruct Ht as [Hb _ _].
    destruct (base_length _ _ Hb) as [_ Hlen].
    unfold get_max_index, NGHTTP2_STATIC_TABLE_LENGTH, UINT32_MAX in *.
    split; [lia|]. by exists e. }
  destruct (name_value_match res) eqn:Em.
  - destruct Hidx as (Hi & e & He & Hen & Hev).
    { intros Hi. destruct Hs as [[_ ?]|(e & He & _ & Hi' & _)]; [done|]. lia. }
    pose proof (emits_indexed b (index res) ltac:(lia) ltac:(lia)) as Hem.
    destruct (emit_indexed_block b (index res)) as [rv b'].
    exists rv, d, b', l. split; [done|]. split; [done|]. split; [by unfold same_params|]. intros ->.
    assert (Hok : repr_ok limit (Indexed (index res))) by done.
    exists (Indexed (index res)). split; [done|]. split; [done|]. split; [exact (Hem eq_refl)|]. split.
    + intros Hl. pose proof (repr_bytes_size _ _ Hok Hl). cbn in *. unfold size in *. lia.
    + cbn [spec_repr snd]. rewrite He. cbn. do 3 f_equal.
      pose proof (spec_get_token _ _ _ _ Ht He) as Htok.
      pose proof (spec_get_flags (ent_nv <$> l) _ _ ltac:(by apply Forall_fmap) He) as Hf.
      assert (Hsf : sensitive nv = false) by (destruct (sensitive nv); [by discriminate Hno|done]).
      unfold header_of. rewrite Hsf, <- Hen, <- Htok, <- Hev by done. destruct e. cbn in *. by subst.
  - assert (Hi' : index res <> -1 -> 0 <= index res < UINT32_MAX /\
      exists e, spec_get (ent_nv <$> l) (index res) = Some e /\ nv_name e = name nv).
    { intros Hne. destruct (Hidx Hne) as (Hi & e & He & Hen & _). split; [done|]. by exists e. }
    destruct (decide (mode = NGHTTP2_HD_WITH_INDEXING)) as [Hwith|Hwith].
    + assert (Hadd : indexed d l nv (deflate_add malloc_ok d nv (lookup_token (name nv)) (hash_of (name nv)) (index res))).
      { apply deflate_add_ok; [done|unfold nv_ok in *; lia|]. intros Hne.
        destruct (Hi' Hne) as [Hr He]. split; [lia|exact He]. }
      destruct Hadd as (rv & d' & l' & -> & Hd' & Hs' & Hspec). destruct rv.
      2-6: eexists _, d', b, l'; by repeat (split; [done|]).
      apply (encoded_literal limit d l b nv mode (index res) d' l'); try done.
      rewrite decide_True by done. symmetry. by apply Hspec.
    + apply (encoded_literal limit d l b nv mode (index res) d l); try done.
      by rewrite decide_False.
Qed.

Lemma same_params_trans d1 d2 d3 : same_params d1 d2 -> same_params d2 d3 -> same_params d1 d3.
Proof. unfold same_params. intros (-> & -> & -> & -> & ->). tauto. Qed.

(** The room that [nghttp2_hd_deflate_bound] reserves for headers. *)
Fixpoint headers_bound (nvs : list nghttp2_nv) : Z :=
  match nvs with
  | [] => 0
  | nv :: nvs' => 12 + (size (name nv) + size (value nv)) + headers_bound nvs'
  end.

Lemma deflate_bound_sum nvs : nghttp2_hd_deflate_bound nvs = 12 + headers_bound nvs.
Proof.
  unfold nghttp2_hd_deflate_bound.
  assert (Hgo : forall n, foldl (fun n nv => n + (size (name nv) + size (value nv)))
    (n + 6 * 2 * Z.of_nat (length nvs)) nvs = n + headers_bound nvs); [|apply Hgo].
  induction nvs as [|nv nvs IH]; intros n; cbn [foldl headers_bound length]; [lia|].
  replace (n + 6 * 2 * Z.of_nat (S (length nvs)) + (size (name nv) + size (value nv)))
    with (n + (12 + (size (name nv) + size (value nv))) + 6 * 2 * Z.of_nat (length nvs)) by lia.
  rewrite IH. lia.
Qed.

Lemma deflate_nvs_ok limit nvs d l b :
  deflater_ok d l -> Forall (nv_ok limit) nvs -> limit <= UINT32_MAX ->
  exists rv d' b' l', deflate_nvs malloc_ok d b nvs = Some (rv, d', b') /\ deflater_ok d' l' /\
    same_params d d' /\
    (rv = NGHTTP2_SUCCESS -> exists rs, Forall (repr_ok limit) rs /\
      Forall (fun r => is_header r = true) rs /\ bufs_data b' = bufs_data b ++ concat (repr_bytes <$> rs) /\
      (limit <= 2 ^ 28 -> size (concat (repr_bytes <$> rs)) <= headers_bound nvs) /\
      spec_reprs (hd_table_bufsize_max (d_ctx d), ent_nv <$> l) rs
        = Some ((hd_table_bufsize_max (d_ctx d), ent_nv <$> l'), header_of <$> nvs)).
Proof.
  intros Hd Hnvs Hlim. revert d l b Hd. induction Hnvs as [|nv nvs Hnv _ IH]; intros d l b Hd; cbn [deflate_nvs].
  - exists NGHTTP2_SUCCESS, d, b, l. split; [done|]. split; [done|]. split; [by unfold same_params|].
    intros _. exists []. cbn. rewrite app_nil_r. by repeat (split; [done|]).
  - destruct (deflate_nv_ok limit d l b nv Hd Hnv Hlim) as (rv & d1 & b1 & l1 & -> & Hd1 & Hs1 & Hr).
    destruct rv.
    2-6: eexists _, d1, b1, l1; by repeat (split; [done|]).
    destruct (Hr eq_refl) as (r & Hok & Hh & Hb & Hsz & Hspec).
    destruct (IH d1 l1 b1 Hd1) as (rv & d2 & b2 & l2 & -> & Hd2 & Hs2 & Hrs).
    exists rv, d2, b2, l2. split; [done|]. split; [done|]. split; [by eapply same_params_trans|].
    intros ->. destruct (Hrs eq_refl) as (rs & Hoks & Hhs & Hbs & Hszs & Hspecs).
    exists (r :: rs). split; [by constructor|]. split; [by constructor|]. cbn [fmap list_fmap concat].
    split; [by rewrite Hbs, Hb, app_assoc|]. split.
    + intros Hl. specialize (Hsz Hl). specialize (Hszs Hl). unfold size in *. rewrite length_app.
      cbn [headers_bound]. unfold size. lia.
    + cbn [spec_reprs]. rewrite Hspec. cbn [mbind option_bind].
      destruct Hs1 as (Hm & _). rewrite Hm in Hspecs. rewrite Hspecs. done.
Qed.

(** ** Table sizes and blocks *)

(** The size updates with which the next block starts. *)
Definition size_updates (d : deflater) : list repr :=
  let max := hd_table_bufsize_max (d_ctx d) in
  if notify_table_size_change d then
    (if min_hd_table_bufsize_max d <? max then [Size_update (min_hd_table_bufsize_max d)] else [])
      ++ [Size_update max]
  else [].

(** The deflater's table is what the table [t] of the peer will be once it
    has read the pending size updates. *)
Definition follows (d : deflater) (l : list hd_entry) (t : table) : Prop :=
  let max := hd_table_bufsize_max (d_ctx d) in
  if notify_table_size_change d then ent_nv <$> l = fits_nv (Z.min (min_hd_table_bufsize_max d) max) t.2
  else t = (max, ent_nv <$> l).

Lemma size_updates_spec d l t :
  follows d l t -> spec_reprs t (size_updates d) = Some ((hd_table_bufsize_max (d_ctx d), ent_nv <$> l), []).
Proof.
  unfold follows, size_updates. cbv zeta. destruct t as [m t]. destruct (notify_table_size_change d).
  - cbn [snd]. intros ->. destruct (min_hd_table_bufsize_max d <? _) eqn:E; cbn.
    + rewrite fits_nv_min. do 4 f_equal. lia.
    + do 4 f_equal. lia.
  - by intros [= -> ->].
Qed.

(** One more size update after those of [pre]. *)
Lemma emit_size_snoc b0 pre (b : bufs) n rv b' :
  0 <= n <= UINT32_MAX -> emit_table_size b n = (rv, b') -> rv = NGHTTP2_SUCCESS ->
  bufs_data b = bufs_data b0 ++ concat (repr_bytes <$> pre) ->
  bufs_data b' = bufs_data b0 ++ concat (repr_bytes <$> pre ++ [Size_update n]) /\
  size (concat (repr_bytes <$> pre ++ [Size_update n])) <= 6 + size (concat (repr_bytes <$> pre)).
Proof.
  intros Hn He -> Hpre. pose proof (emits_length b 0x20 n 5 ltac:(set_solver) Hn) as Hem.
  unfold emit_table_size in He. rewrite He in Hem. specialize (Hem eq_refl). cbn [snd] in Hem.
  rewrite Hem, Hpre. rewrite fmap_app, concat_app. cbn [fmap list_fmap concat].
  rewrite app_nil_r, app_assoc. split; [done|].
  pose proof (length_size 0x20 n 5 ltac:(set_solver) Hn) as Hl.
  unfold size in *. rewrite length_app. cbn [repr_bytes]. lia.
Qed.

(** What a block does to the limits: the smallest size is forgotten once it
    is announced. *)
Definition same_limits (d d' : deflater) : Prop :=
  deflate_hd_table_bufsize_max d' = deflate_hd_table_bufsize_max d /\
  min_hd_table_bufsize_max d' =
    (if notify_table_size_change d then UINT32_MAX else min_hd_table_bufsize_max d).

Lemma emit_size_updates_ok d l b :
  deflater_ok d l ->
  exists rv d' b', emit_size_updates d b = (rv, d', b') /\ deflater_ok d' l /\
    hd_table_bufsize_max (d_ctx d') = hd_table_bufsize_max (d_ctx d) /\
    bad (d_ctx d') = bad (d_ctx d) /\ notify_table_size_change d' = false /\ same_limits d d' /\
    (rv = NGHTTP2_SUCCESS -> bufs_data b' = bufs_data b ++ concat (repr_bytes <$> size_updates d) /\
      size (concat (repr_bytes <$> size_updates d)) <= 12 /\ Forall (repr_ok 0) (size_updates d)).
Proof.
  intros Hd. unfold same_limits. pose proof Hd as [[[_ _ _ Hm0] _ _] Hmap Hh Hf Hmx Hmn Hcap].
  unfold emit_size_updates, size_updates.
  assert (Hz : size (concat (repr_bytes <$> [])) = 0) by done.
  destruct (notify_table_size_change d) eqn:En.
  - set (max := hd_table_bufsize_max (d_ctx d)) in *. set (min := min_hd_table_bufsize_max d) in *.
    cbn [d_ctx]. fold max.
    assert (Hd' : deflater_ok (mkDeflater (d_ctx d) (d_map d) (deflate_hd_table_bufsize_max d) UINT32_MAX false) l)
      by (destruct Hd; by constructor).
    destruct (min <? max) eqn:E.
    + destruct (emit_table_size b min) as [rv1 b1] eqn:E1. destruct rv1.
      2-6: by eexists _, _, b1.
      destruct (emit_size_snoc b [] b min _ b1 ltac:(lia) E1 eq_refl) as [Hb1 Hs1]; [by rewrite app_nil_r|].
      destruct (emit_table_size b1 max) as [rv b'] eqn:E2. eexists rv, _, b'.
      do 6 (split; [done|]). intros Hrv.
      destruct (emit_size_snoc b [Size_update min] b1 max _ b' ltac:(lia) E2 Hrv Hb1) as [Hb2 Hs2].
      split; [exact Hb2|]. split; [cbn [app] in *; lia|]. repeat constructor; lia.
    + destruct (emit_table_size b max) as [rv b'] eqn:E2. eexists rv, _, b'.
      do 6 (split; [done|]). intros Hrv.
      destruct (emit_size_snoc b [] b max _ b' ltac:(lia) E2 Hrv) as [Hb2 Hs2]; [by rewrite app_nil_r|].
      split; [exact Hb2|]. split; [cbn [app] in *; lia|]. repeat constructor; lia.
  - eexists NGHTTP2_SUCCESS, d, b. do 6 (split; [done|]). intros _.
    cbn. rewrite app_nil_r. by repeat split.
Qed.

(** A successful block: its representations, and what they stand for. *)
Definition block_of (limit : Z) (d : deflater) (nvs : list nghttp2_nv) (t t' : table) (bs : list Z) : Prop :=
  exists hs, let rs := size_updates d ++ hs in
    bs = concat (repr_bytes <$> rs) /\ Forall (repr_ok limit) rs /\ Forall (fun r => is_header r = true) hs /\
    spec_reprs t rs = Some (t', header_of <$> nvs).

Lemma deflate_block_ok limit d l b nvs t :
  deflater_ok d l -> bad (d_ctx d) = false -> follows d l t ->
  Forall (nv_ok limit) nvs -> 0 <= limit <= UINT32_MAX ->
  exists rv d' b' l', nghttp2_hd_deflate_hd_bufs malloc_ok d b nvs = Some (rv, d', b') /\
    deflater_ok d' l' /\ notify_table_size_change d' = false /\ same_limits d d' /\
    hd_table_bufsize_max (d_ctx d') = hd_table_bufsize_max (d_ctx d) /\
    match rv with
    | NGHTTP2_SUCCESS =>
        bad (d_ctx d') = false /\
        exists bs, bufs_data b' = bufs_data b ++ bs /\
          (limit <= 2 ^ 28 -> size bs <= nghttp2_hd_deflate_bound nvs) /\
          block_of limit d nvs t (hd_table_bufsize_max (d_ctx d'), ent_nv <$> l') bs
    | _ => bad (d_ctx d') = true
    end.
Proof.
  intros Hd Hbad Hfol Hnvs Hlim. unfold nghttp2_hd_deflate_hd_bufs. rewrite Hbad.
  assert (Hfail : forall d1 l1, deflater_ok d1 l1 -> deflater_ok (fail d1) l1).
  { intros d1 l1 [[[] [] ?] ? ? ? ? ? ?]. do 2 (constructor; try done). }
  destruct (emit_size_updates_ok d l b Hd) as (rv1 & d1 & b1 & -> & Hd1 & Hm1 & Hb1 & Hn1 & Hl1 & Hs1).
  destruct rv1.
  2-6: eexists _, (fail d1), b1, l; by (split; [done|]; split; [by apply Hfail|]).
  destruct (Hs1 eq_refl) as (Hdata1 & Hsz1 & Hok1).
  destruct (deflate_nvs_ok limit nvs d1 l b1 Hd1 Hnvs ltac:(lia)) as (rv & d2 & b2 & l2 & -> & Hd2 & Hp & Hrs).
  destruct Hp as (Hp1 & Hp2 & Hp3 & Hp4 & Hp5).
  assert (Hl2 : same_limits d d2) by (unfold same_limits in *; destruct Hl1; split; congruence).
  destruct rv.
  2-6: eexists _, (fail d2), b2, l2; (split; [done|]; split; [by apply Hfail|]); cbn; split;
    [congruence|split; [exact Hl2|by split; [congruence|]]].
  exists NGHTTP2_SUCCESS, d2, b2, l2. split; [done|]. split; [done|]. split; [congruence|]. split; [done|].
  split; [congruence|].
  split; [congruence|].
  destruct (Hrs eq_refl) as (rs & Hoks & Hhs & Hdata & Hsz & Hspec).
  exists (concat (repr_bytes <$> size_updates d ++ rs)). rewrite fmap_app, concat_app.
  split; [by rewrite Hdata, Hdata1, app_assoc|]. split.
  - intros Hl. specialize (Hsz Hl). rewrite deflate_bound_sum. unfold size in *. rewrite length_app. lia.
  - exists rs. cbv zeta. rewrite fmap_app, concat_app. split; [done|]. split.
    { apply Forall_app. split; [|done]. eapply Forall_impl; [exact Hok1|].
      intros r Hr. destruct r; cbn in *; lia. }
    split; [done|]. rewrite spec_reprs_app, (size_updates_spec _ _ _ Hfol).
    cbn [mbind option_bind]. rewrite Hm1 in Hspec. rewrite Hspec. cbn. congruence.
Qed.

(** A new maximum size from the settings of the peer. *)
Lemma deflate_change_ok d l n :
  deflater_ok d l -> 0 <= n <= UINT32_MAX ->
  let next := Z.min n (deflate_hd_table_bufsize_max d) in
  exists d', nghttp2_hd_deflate_change_table_size d n = Some d' /\ exists l',
    deflater_ok d' l' /\ ent_nv <$> l' = fits_nv next (ent_nv <$> l) /\
    hd_table_bufsize_max (d_ctx d') = next /\ bad (d_ctx d') = bad (d_ctx d) /\
    deflate_hd_table_bufsize_max d' = deflate_hd_table_bufsize_max d /\
    min_hd_table_bufsize_max d' = Z.min (min_hd_table_bufsize_max d) next /\
    notify_table_size_change d' = true.
Proof.
  intros [[[Hr Hs Hl Hm0] He Hft] Hmap Hh Hf Hmx Hmn Hcap] Hn next.
  destruct (shrink_spec l (set_max next (d_ctx d)) (Some (d_map d))) as (c & m & Hsh & Ht & Hm & Hsame & Hnone).
  - constructor; cbn; try done. unfold SIZE_LIMIT, UINT32_MAX in *. lia.
  - by destruct He.
  - done.
  - unfold nghttp2_hd_deflate_change_table_size. fold next. rewrite Hsh.
    destruct m as [m|]; [|by pose proof (proj1 Hnone eq_refl)].
    eexists. split; [done|]. eexists. destruct Hsame as (Hmax & _ & Hb & _).
    destruct (fits_prefix (hd_table_bufsize_max (set_max next (d_ctx d))) l) as [l2 El].
    split; [|split; [apply fits_fmap|by repeat (split; [done|])]].
    constructor; cbn in *; try done.
    + rewrite El in Hh. by apply Forall_app in Hh as [? _].
    + rewrite El in Hf. by apply Forall_app in Hf as [? _].
    + rewrite Hmax. unfold UINT32_MAX in *. lia.
    + lia.
Qed.

Lemma deflate_init_ok default_size cap m d :
  0 <= default_size <= UINT32_MAX -> 0 <= cap ->
  nghttp2_hd_deflate_init2 malloc_ok default_size cap m = (NGHTTP2_SUCCESS, Some d) ->
  deflater_ok d [] /\ bad (d_ctx d) = false /\ follows d [] (default_size, []) /\
  deflate_hd_table_bufsize_max d = cap /\ min_hd_table_bufsize_max d = UINT32_MAX /\
  hd_table_bufsize_max (d_ctx d) = Z.min default_size cap /\
  notify_table_size_change d = (cap <? default_size).
Proof.
  intros Hd Hc. unfold nghttp2_hd_deflate_init2.
  destruct (hd_context_init malloc_ok default_size m) as [[[] [ctx|]] m'] eqn:E; try done. intros [= <-].
  apply context_init_ok in E as (Ht & Hm & Hb); [|unfold SIZE_LIMIT, UINT32_MAX in *; lia].
  assert (Hctx : table_ok (if cap <? default_size then set_max cap ctx else ctx) []).
  { destruct (cap <? default_size) eqn:E; [|done]. destruct Ht as [[] [] ?]. constructor; cbn; [|by constructor|lia].
    constructor; cbn; try done. unfold SIZE_LIMIT, UINT32_MAX in *. lia. }
  destruct (cap <? default_size) eqn:E.
  all: split; [constructor; cbn; try done; try apply map_ok_init; try (by constructor); unfold UINT32_MAX in *; lia|].
  all: unfold follows; cbn; split; [done|]; rewrite ?Hm; repeat split; lia.
Qed.

(** C10. The encoder writes HPACK: in every state it reaches, encoding
    headers succeeds or reports an error after which the encoder refuses
    every further block (no assertion fails); on success the bytes appended
    are a sequence of representations, size updates first, that RFC 7541
    decodes, on the table that the encoder follows, to exactly the given
    headers, the sensitive ones flagged never to be indexed, and to the table
    that the encoder now has; and they are within [nghttp2_hd_deflate_bound]
    when no name or value is longer than 2^28 bytes. *)
Theorem deflate_block_refines limit d l b nvs t :
  deflater_ok d l -> bad (d_ctx d) = false -> follows d l t ->
  Forall (nv_ok limit) nvs -> 0 <= limit <= UINT32_MAX ->
  exists rv d' b' l', nghttp2_hd_deflate_hd_bufs malloc_ok d b nvs = Some (rv, d', b') /\
    deflater_ok d' l' /\ notify_table_size_change d' = false /\ same_limits d d' /\
    hd_table_bufsize_max (d_ctx d') = hd_table_bufsize_max (d_ctx d) /\
    match rv with
    | NGHTTP2_SUCCESS =>
        bad (d_ctx d') = false /\
        exists bs, bufs_data b' = bufs_data b ++ bs /\
          (limit <= 2 ^ 28 -> size bs <= nghttp2_hd_deflate_bound nvs) /\
          block_of limit d nvs t (hd_table_bufsize_max (d_ctx d'), ent_nv <$> l') bs
    | _ => bad (d_ctx d') = true
    end.
Proof. apply deflate_block_ok. Qed.

(** C11. Secrets stay out of the compression state: an authorization header,
    a cookie shorter than 20 bytes or a header the caller flagged leaves the
    whole state of the encoder unchanged, whatever the table holds, and is
    written as a never-indexed literal. *)
Theorem sensitive_never_indexed limit d l b nv :
  deflater_ok d l -> nv_ok limit nv -> limit <= UINT32_MAX -> sensitive nv = true ->
  exists rv b', deflate_nv malloc_ok d b nv = Some (rv, d, b') /\
    (rv = NGHTTP2_SUCCESS -> exists r,
      bufs_data b' = bufs_data b ++ repr_bytes r /\
      match r with
      | Literal_indname mode _ _ | Literal_newname mode _ _ => mode = NGHTTP2_HD_NEVER_INDEXING
      | _ => False
      end /\
      spec_repr (hd_table_bufsize_max (d_ctx d), ent_nv <$> l) r
        = Some ((hd_table_bufsize_max (d_ctx d), ent_nv <$> l), Some (header_of nv))).
Proof.
  intros Hd [Hn Hv] Hlim Hs. pose proof Hd as [Ht Hmap Hh Hfl Hmx _ _]. unfold deflate_nv.
  change (deflate_hash nv (lookup_token (name nv))) with (hash_of (name nv)).
  pose proof (mode_sensitive d nv) as Hmode. rewrite Hmode, Hs.
  rewrite Hs in Hmode. apply bool_decide_eq_true in Hmode. rewrite Hmode.
  pose proof (table_short _ _ Ht Hmx) as Hshort.
  pose proof (search_describes _ _ _ Ht Hmap Hshort (name nv) (value nv) true) as Hd1. cbv zeta in Hd1.
  pose proof (search_name_only (d_ctx d) (name nv) (value nv) (lookup_token (name nv)) (d_map d) (hash_of (name nv))) as Hno.
  set (res := search_hd_table _ _ _ _ _ _ _) in *. rewrite Hno. rewrite decide_False by done.
  assert (Hlit : spec_literal (hd_table_bufsize_max (d_ctx d), ent_nv <$> l) NGHTTP2_HD_NEVER_INDEXING
    (name nv) (value nv) (lookup_token (name nv)) = ((hd_table_bufsize_max (d_ctx d), ent_nv <$> l), header_of nv))
    by (by rewrite spec_literal_indexed).
  destruct (index res =? -1) eqn:E.
  - pose proof (emits_newname b nv NGHTTP2_HD_NEVER_INDEXING ltac:(lia) ltac:(lia)) as He.
    destruct (emit_newname_block b nv _) as [rv b']. exists rv, b'. split; [done|]. intros ->.
    eexists. split; [exact (He eq_refl)|]. split; [done|]. cbn [spec_repr enc_string str]. by rewrite Hlit.
  - destruct Hd1 as [[? _]|(e & He & Hen & Hi & _)]; [lia|].
    rewrite (table_get_spec _ _ _ Ht) in He by lia.
    assert (Hidx : index res + 1 <= UINT32_MAX).
    { destruct Ht as [Hb _ _]. destruct (base_length _ _ Hb) as [_ Hlen].
      unfold get_max_index, NGHTTP2_STATIC_TABLE_LENGTH, UINT32_MAX in *. lia. }
    pose proof (emits_indname b (index res) nv NGHTTP2_HD_NEVER_INDEXING ltac:(lia) Hidx ltac:(lia)) as Hem.
    destruct (emit_indname_block b (index res) nv _) as [rv b']. exists rv, b'. split; [done|]. intros ->.
    eexists. split; [exact (Hem eq_refl)|]. split; [done|]. cbn [spec_repr snd]. rewrite He.
    cbn [mbind option_bind enc_string str]. by rewrite (spec_get_token _ _ _ _ Ht He), Hen, Hlit.
Qed.
End DeflateSpec.


(** ** Instances for the examples

    Unbounded buffers, and the encoder of the small code. *)
Section Sample.
#[local, refine] Instance list_bufs : Bufs (list Z) := {
  bufs_data b := b;
  nghttp2_bufs_add b bs := (NGHTTP2_SUCCESS, b ++ bs);
  nghttp2_bufs_addb b c := (NGHTTP2_SUCCESS, b ++ [c]);
  bufs_add_ok := _; bufs_addb_ok := _
}.
Proof. all: congruence. Defined.

#[local] Existing Instance sample_code.

#[local, refine] Instance sample_encoder : HuffmanEncoder (list Z) := {
  nghttp2_hd_huff_encode_count s := size (huff_code s);
  nghttp2_hd_huff_encode b s := (NGHTTP2_SUCCESS, b ++ huff_code s);
  huff_count_ok := _; huff_encode_ok := _
}.
Proof. all: intros; cbn in *; congruence. Defined.

Definition sample_deflater : deflater :=
  mkDeflater (mkCtx (mkRing (replicate 128 None) 127 0 0) 0 4096 0 false 1%nat) hd_map_init 4096
    UINT32_MAX false.

Lemma sample_deflater_init :
  nghttp2_hd_deflate_init2 (fun _ => true) 4096 4096 0%nat = (NGHTTP2_SUCCESS, Some sample_deflater).
Proof. vm_compute. reflexivity. Qed.

Definition in_nv (n v : string) : nghttp2_nv := mkInNv (B n) (B v) false.

Definition sample_block : list nghttp2_nv :=
  [in_nv ":method" "GET"; in_nv "x-a" "www"; in_nv "x-a" "www"; in_nv "authorization" "secret"].

Lemma sample_block_ok : Forall (nv_ok 65536) sample_block.
Proof. by repeat constructor. Qed.

Lemma deflate_block_refines_witness :
  exists d' b', nghttp2_hd_deflate_hd_bufs (fun _ => true) sample_deflater [] sample_block
      = Some (NGHTTP2_SUCCESS, d', b') /\
    b' = [0x82; 0x40; 3; 120; 45; 97; 0x82; 0; 119; 0xbe; 0x1f; 8; 6; 115; 101; 99; 114; 101; 116] /\
    size b' <= nghttp2_hd_deflate_bound sample_block /\
    exists t, block_of 65536 sample_deflater sample_block (4096, []) t b'.
Proof.
  destruct (deflate_init_ok (fun _ => true) 4096 4096 0%nat sample_deflater
    ltac:(unfold UINT32_MAX; lia) ltac:(lia) sample_deflater_init) as (Hd & Hb & Hf & _).
  destruct (deflate_block_refines (fun _ => true) 65536 sample_deflater [] ([] : list Z) sample_block (4096, [])
    Hd Hb Hf sample_block_ok ltac:(unfold UINT32_MAX; lia)) as (rv & d' & b' & l' & Hx & _ & _ & _ & _ & Hrv).
  vm_compute in Hx. injection Hx as <- <- <-. eexists _, _. split; [vm_compute; reflexivity|]. split; [reflexivity|].
  destruct Hrv as (_ & bs & Hbs & Hsz & Hblk). cbn [bufs_data list_bufs app] in Hbs. rewrite <- Hbs in *.
  split; [apply Hsz; lia|]. by eexists.
Defined.

Lemma sensitive_never_indexed_witness :
  sensitive (in_nv "authorization" "secret") = true /\
  exists rv b', deflate_nv (fun _ => true) sample_deflater ([] : list Z) (in_nv "authorization" "secret")
    = Some (rv, sample_deflater, b').
Proof.
  split; [vm_compute; reflexivity|].
  destruct (deflate_init_ok (fun _ => true) 4096 4096 0%nat sample_deflater
    ltac:(unfold UINT32_MAX; lia) ltac:(lia) sample_deflater_init) as (Hd & _).
  destruct (sensitive_never_indexed (fun _ => true) 65536 sample_deflater [] ([] : list Z)
    (in_nv "authorization" "secret") Hd ltac:(by split) ltac:(unfold UINT32_MAX; lia)
    ltac:(vm_compute; reflexivity)) as (rv & b' & Hx & _).
  by exists rv, b'.
Defined.
End Sample.

End HdDeflate.
