(* ===== verification/HdInflate.v ===== *)
(** The HPACK decoder (src/http2/src/upstream/lib/nghttp2_hd.c): the state
    machine of [nghttp2_hd_inflate_hd_nv] (lines 1869-2236) with its readers
    (1628-1732) and the commits of a header (1738-1834), the table size change
    (1261-1292), and [nghttp2_hd_inflate_init] (725-759).

    The Huffman decoder is not part of the repository: the class
    [HuffmanDecoder] states what the code relies on. Reference counts and the
    release of memory are not modelled; an allocation can fail at any point. *)

From S2P Require Export HdRepr.
Export HdRepr.
Open Scope Z_scope.

(** The result of decoding a piece: an error, or the number of bytes read, the
    bytes written and the new state. Every byte of the piece is read, and at
    most two bytes are written for each: the buffers are allocated so. *)
Class HuffmanDecoder `{HuffmanCode} := {
  huff_decode_context : Type;
  nghttp2_hd_huff_decode_context_init : huff_decode_context;
  nghttp2_hd_huff_decode : huff_decode_context -> list Z -> bool ->
                           hd_err + (Z * list Z * huff_decode_context);
  nghttp2_hd_huff_decode_failure_state : huff_decode_context -> bool;
  huff_decode_error : forall c src fin,
    nghttp2_hd_huff_decode c src fin <> inl NGHTTP2_SUCCESS;
  huff_decode_reads : forall c src fin n out c',
    nghttp2_hd_huff_decode c src fin = inr (n, out, c') -> n = size src /\ size out <= 2 * size src;
  huff_decode_code : forall s, exists c',
    nghttp2_hd_huff_decode nghttp2_hd_huff_decode_context_init (huff_code s) true
      = inr (size (huff_code s), s, c') /\
    nghttp2_hd_huff_decode_failure_state c' = false
}.

Module HdInflate.

Definition NGHTTP2_HD_MAX_NV : Z := 65536.

(** [nghttp2_hd_opcode] *)
Inductive opcode_t :=
  | NGHTTP2_HD_OPCODE_NONE | NGHTTP2_HD_OPCODE_INDEXED | NGHTTP2_HD_OPCODE_NEWNAME
  | NGHTTP2_HD_OPCODE_INDNAME.

(** [nghttp2_hd_inflate_state] *)
Inductive state_t :=
  | NGHTTP2_HD_STATE_EXPECT_TABLE_SIZE | NGHTTP2_HD_STATE_INFLATE_START | NGHTTP2_HD_STATE_OPCODE
  | NGHTTP2_HD_STATE_READ_TABLE_SIZE | NGHTTP2_HD_STATE_READ_INDEX
  | NGHTTP2_HD_STATE_NEWNAME_CHECK_NAMELEN | NGHTTP2_HD_STATE_NEWNAME_READ_NAMELEN
  | NGHTTP2_HD_STATE_NEWNAME_READ_NAMEHUFF | NGHTTP2_HD_STATE_NEWNAME_READ_NAME
  | NGHTTP2_HD_STATE_CHECK_VALUELEN | NGHTTP2_HD_STATE_READ_VALUELEN
  | NGHTTP2_HD_STATE_READ_VALUEHUFF | NGHTTP2_HD_STATE_READ_VALUE.

#[export] Instance opcode_eq_dec : EqDecision opcode_t.
Proof. solve_decision. Defined.
#[export] Instance state_eq_dec : EqDecision state_t.
Proof. solve_decision. Defined.

(** [nghttp2_buf] around a reference counted buffer: the bytes written and the
    room. *)
Record buf := mkBuf { buf_bytes : list Z; buf_cap : Z }.

(** [nghttp2_hd_inflater]. A reference counted buffer is its bytes, once its
    length is set. *)
Record inflater {C : Type} := mkInflater {
  ctx : hd_context;
  huff_decode_ctx : C;
  namebuf : buf;
  valuebuf : buf;
  namercbuf : option (list Z);
  valuercbuf : option (list Z);
  left : Z;
  i_index : Z;
  settings_hd_table_bufsize_max : Z;
  min_hd_table_bufsize_max : Z;
  shift : Z;
  opcode : opcode_t;
  state : state_t;
  huffman_encoded : bool;
  index_required : bool;
  no_index : bool
}.
Arguments inflater : clear implicits.
Arguments mkInflater {C}.

Section Setters.
Context {C : Type}.
Definition set_ctx (v : hd_context) (s : inflater C) : inflater C :=
  mkInflater v (huff_decode_ctx s) (namebuf s) (valuebuf s) (namercbuf s) (valuercbuf s) (left s)
    (i_index s) (settings_hd_table_bufsize_max s) (min_hd_table_bufsize_max s) (shift s) (opcode s)
    (state s) (huffman_encoded s) (index_required s) (no_index s).
Definition set_huff_decode_ctx (v : C) (s : inflater C) : inflater C :=
  mkInflater (ctx s) v (namebuf s) (valuebuf s) (namercbuf s) (valuercbuf s) (left s) (i_index s)
    (settings_hd_table_bufsize_max s) (min_hd_table_bufsize_max s) (shift s) (opcode s) (state s)
    (huffman_encoded s) (index_required s) (no_index s).
Definition set_namebuf (v : buf) (s : inflater C) : inflater C :=
  mkInflater (ctx s) (huff_decode_ctx s) v (valuebuf s) (namercbuf s) (valuercbuf s) (left s) (i_index
    s) (settings_hd_table_bufsize_max s) (min_hd_table_bufsize_max s) (shift s) (opcode s) (state s)
    (huffman_encoded s) (index_required s) (no_index s).
Definition set_valuebuf (v : buf) (s : inflater C) : inflater C :=
  mkInflater (ctx s) (huff_decode_ctx s) (namebuf s) v (namercbuf s) (valuercbuf s) (left s) (i_index
    s) (settings_hd_table_bufsize_max s) (min_hd_table_bufsize_max s) (shift s) (opcode s) (state s)
    (huffman_encoded s) (index_required s) (no_index s).
Definition set_namercbuf (v : option (list Z)) (s : inflater C) : inflater C :=
  mkInflater (ctx s) (huff_decode_ctx s) (namebuf s) (valuebuf s) v (valuercbuf s) (left s) (i_index
    s) (settings_hd_table_bufsize_max s) (min_hd_table_bufsize_max s) (shift s) (opcode s) (state s)
    (huffman_encoded s) (index_required s) (no_index s).
Definition set_valuercbuf (v : option (list Z)) (s : inflater C) : inflater C :=
  mkInflater (ctx s) (huff_decode_ctx s) (namebuf s) (valuebuf s) (namercbuf s) v (left s) (i_index s)
    (settings_hd_table_bufsize_max s) (min_hd_table_bufsize_max s) (shift s) (opcode s) (state s)
    (huffman_encoded s) (index_required s) (no_index s).
Definition set_left (v : Z) (s : inflater C) : inflater C :=
  mkInflater (ctx s) (huff_decode_ctx s) (namebuf s) (valuebuf s) (namercbuf s) (valuercbuf s) v
    (i_index s) (settings_hd_table_bufsize_max s) (min_hd_table_bufsize_max s) (shift s) (opcode s)
    (state s) (huffman_encoded s) (index_required s) (no_index s).
Definition set_i_index (v : Z) (s : inflater C) : inflater C :=
  mkInflater (ctx s) (huff_decode_ctx s) (namebuf s) (valuebuf s) (namercbuf s) (valuercbuf s) (left
    s) v (settings_hd_table_bufsize_max s) (min_hd_table_bufsize_max s) (shift s) (opcode s) (state s)
    (huffman_encoded s) (index_required s) (no_index s).
Definition set_settings_max (v : Z) (s : inflater C) : inflater C :=
  mkInflater (ctx s) (huff_decode_ctx s) (namebuf s) (valuebuf s) (namercbuf s) (valuercbuf s) (left
    s) (i_index s) v (min_hd_table_bufsize_max s) (shift s) (opcode s) (state s) (huffman_encoded s)
    (index_required s) (no_index s).
Definition set_min_max (v : Z) (s : inflater C) : inflater C :=
  mkInflater (ctx s) (huff_decode_ctx s) (namebuf s) (valuebuf s) (namercbuf s) (valuercbuf s) (left
    s) (i_index s) (settings_hd_table_bufsize_max s) v (shift s) (opcode s) (state s) (huffman_encoded
    s) (index_required s) (no_index s).
Definition set_shift (v : Z) (s : inflater C) : inflater C :=
  mkInflater (ctx s) (huff_decode_ctx s) (namebuf s) (valuebuf s) (namercbuf s) (valuercbuf s) (left
    s) (i_index s) (settings_hd_table_bufsize_max s) (min_hd_table_bufsize_max s) v (opcode s) (state s)
    (huffman_encoded s) (index_required s) (no_index s).
Definition set_opcode (v : opcode_t) (s : inflater C) : inflater C :=
  mkInflater (ctx s) (huff_decode_ctx s) (namebuf s) (valuebuf s) (namercbuf s) (valuercbuf s) (left
    s) (i_index s) (settings_hd_table_bufsize_max s) (min_hd_table_bufsize_max s) (shift s) v (state s)
    (huffman_encoded s) (index_required s) (no_index s).
Definition set_state (v : state_t) (s : inflater C) : inflater C :=
  mkInflater (ctx s) (huff_decode_ctx s) (namebuf s) (valuebuf s) (namercbuf s) (valuercbuf s) (left
    s) (i_index s) (settings_hd_table_bufsize_max s) (min_hd_table_bufsize_max s) (shift s) (opcode s) v
    (huffman_encoded s) (index_required s) (no_index s).
Definition set_huffman_encoded (v : bool) (s : inflater C) : inflater C :=
  mkInflater (ctx s) (huff_decode_ctx s) (namebuf s) (valuebuf s) (namercbuf s) (valuercbuf s) (left
    s) (i_index s) (settings_hd_table_bufsize_max s) (min_hd_table_bufsize_max s) (shift s) (opcode s)
    (state s) v (index_required s) (no_index s).
Definition set_index_required (v : bool) (s : inflater C) : inflater C :=
  mkInflater (ctx s) (huff_decode_ctx s) (namebuf s) (valuebuf s) (namercbuf s) (valuercbuf s) (left
    s) (i_index s) (settings_hd_table_bufsize_max s) (min_hd_table_bufsize_max s) (shift s) (opcode s)
    (state s) (huffman_encoded s) v (no_index s).
Definition set_no_index (v : bool) (s : inflater C) : inflater C :=
  mkInflater (ctx s) (huff_decode_ctx s) (namebuf s) (valuebuf s) (namercbuf s) (valuercbuf s) (left
    s) (i_index s) (settings_hd_table_bufsize_max s) (min_hd_table_bufsize_max s) (shift s) (opcode s)
    (state s) (huffman_encoded s) (index_required s) v.
End Setters.

(** ** A monad for the decoder

    [Done] continues; [Fail] is [goto fail], [Almost_ok] is [goto almost_ok]
    with the bytes consumed in this turn of the loop; [Stuck] stands for a
    failed assertion, a null pointer, or an access outside of the input or of a
    buffer. *)
Inductive res (C A : Type) :=
  | Done (a : A) (s : inflater C)
  | Fail (rv : hd_err) (s : inflater C)
  | Almost_ok (n : Z) (s : inflater C)
  | Stuck.
Arguments Done {C A}.
Arguments Fail {C A}.
Arguments Almost_ok {C A}.
Arguments Stuck {C A}.

Definition M (C A : Type) : Type := inflater C -> res C A.

Definition ret {C A} (a : A) : M C A := fun s => Done a s.
Definition bind {C A B} (m : M C A) (f : A -> M C B) : M C B := fun s =>
  match m s with
  | Done a s => f a s
  | Fail rv s => Fail rv s
  | Almost_ok n s => Almost_ok n s
  | Stuck => Stuck
  end.
Definition gets {C A} (f : inflater C -> A) : M C A := fun s => Done (f s) s.
Definition modify {C} (f : inflater C -> inflater C) : M C () := fun s => Done () (f s).
Definition throw {C A} (rv : hd_err) : M C A := fun s => Fail rv s.
Definition goto_almost_ok {C A} (n : Z) : M C A := fun s => Almost_ok n s.
Definition stuck {C A} : M C A := fun _ => Stuck.

Notation "x <- m ;; k" := (bind m (fun x => k))
  (at level 100, m at next level, k at level 200, right associativity).
Notation "m ;;; k" := (bind m (fun _ => k)) (at level 100, k at level 200, right associativity).

(** What a turn of the loop does: go on, or return with a header. *)
Inductive turn := Go (n : Z) (busy : bool) | Emit (n : Z) (nv : hd_nv).

Section Inflate.
Context `{HuffmanDecoder}.
Variable malloc_ok : mem -> bool.
Abbreviation inflater := (inflater huff_decode_context).
Abbreviation M := (M huff_decode_context).

(** [*in] *)
Definition peek (bs : list Z) : M Z :=
  match bs with [] => stuck | b :: _ => ret b end.

(** [hd_inflate_set_huffman_encoded] *)
Definition hd_inflate_set_huffman_encoded (bs : list Z) : M () :=
  b <- peek bs;;
  modify (set_huffman_encoded (negb (Z.land b (Z.shiftl 1 7) =? 0))).

(** [hd_inflate_read_len]: the bytes read and [*rfin]. *)
Definition hd_inflate_read_len (bs : list Z) (prefix maxlen : Z) : M (Z * bool) :=
  l <- gets left;;
  sh <- gets shift;;
  match decode_length (u32 l) sh bs prefix with
  | Read_outside => stuck
  | Decoding_error => modify (set_shift 0);;; throw NGHTTP2_ERR_HEADER_COMP
  | Decoded out sh fin rv =>
      modify (set_shift sh);;;
      if maxlen <? out then throw NGHTTP2_ERR_HEADER_COMP
      else modify (set_left out);;; ret (rv, fin)
  end.

(** Appending to a buffer; outside of its room when it does not fit. *)
Definition buf_append (b : buf) (bs : list Z) : M buf :=
  if buf_cap b <? size (buf_bytes b) + size bs then stuck
  else ret (mkBuf (buf_bytes b ++ bs) (buf_cap b)).

(** [hd_inflate_read_huff], on the buffer that [getb] and [setb] access. *)
Definition hd_inflate_read_huff (getb : inflater -> buf) (setb : buf -> inflater -> inflater)
    (bs : list Z) : M Z :=
  l <- gets left;;
  hc <- gets huff_decode_ctx;;
  let fin := l <=? size bs in
  let src := if fin then take (Z.to_nat l) bs else bs in
  match nghttp2_hd_huff_decode hc src fin with
  | inl rv => throw rv
  | inr (readlen, out, hc) =>
      b <- gets getb;;
      b <- buf_append b out;;
      modify (setb b);;;
      modify (set_huff_decode_ctx hc);;;
      if nghttp2_hd_huff_decode_failure_state hc then throw NGHTTP2_ERR_HEADER_COMP
      else modify (set_left (u64 (l - readlen)));;; ret readlen
  end.

(** [hd_inflate_read] *)
Definition hd_inflate_read (getb : inflater -> buf) (setb : buf -> inflater -> inflater)
    (bs : list Z) : M Z :=
  l <- gets left;;
  let len := Z.min (size bs) l in
  b <- gets getb;;
  b <- buf_append b (take (Z.to_nat len) bs);;
  modify (setb b);;;
  modify (set_left (u64 (l - len)));;;
  ret len.

(** [*buf.last = 0]; the length of the reference counted buffer is set. *)
Definition terminate (getb : inflater -> buf) (setrc : option (list Z) -> inflater -> inflater) : M () :=
  b <- gets getb;;
  if buf_cap b <=? size (buf_bytes b) then stuck
  else modify (setrc (Some (buf_bytes b))).

(** [nghttp2_rcbuf_new] and [nghttp2_buf_wrap_init]; the content of the buffer
    is written before its length is set. *)
Definition rcbuf_new (setrc : option (list Z) -> inflater -> inflater)
    (setb : buf -> inflater -> inflater) (n : Z) : M () :=
  c <- gets ctx;;
  modify (set_ctx (mkCtx (hd_table c) (hd_table_bufsize c) (hd_table_bufsize_max c) (next_seq c)
                    (bad c) (S (ctx_mem c))));;;
  if malloc_ok (ctx_mem c) then modify (setrc (Some []));;; modify (setb (mkBuf [] n))
  else throw NGHTTP2_ERR_NOMEM.

(** [emit_header] of the entry at [index]. *)
Definition hd_inflate_commit_indexed : M hd_nv :=
  c <- gets ctx;;
  i <- gets i_index;;
  match nghttp2_hd_table_get c i with
  | None => stuck
  | Some nv => ret nv
  end.

(** [add_hd_table_incremental] with a null map, mapped to [err]. *)
Definition add_entry (nv : hd_nv) (err : hd_err -> hd_err) : M () :=
  c <- gets ctx;;
  match add_hd_table_incremental malloc_ok c nv None 0 with
  | Some (rv, c, _) =>
      modify (set_ctx c);;;
      match rv with NGHTTP2_SUCCESS => ret () | rv => throw (err rv) end
  | None => stuck
  end.

Definition hd_inflate_commit_newname : M hd_nv :=
  flags <- gets no_index;;
  name <- gets namercbuf;;
  value <- gets valuercbuf;;
  req <- gets index_required;;
  match name, value with
  | Some name, Some value =>
      let nv := mkNv name value (lookup_token name) flags in
      (if req then add_entry nv (fun rv => rv) else ret ());;;
      modify (set_namercbuf None);;;
      modify (set_valuercbuf None);;;
      ret nv
  | _, _ => stuck
  end.

Definition hd_inflate_commit_indname : M hd_nv :=
  c <- gets ctx;;
  i <- gets i_index;;
  flags <- gets no_index;;
  value <- gets valuercbuf;;
  req <- gets index_required;;
  match nghttp2_hd_table_get c i, value with
  | Some e, Some value =>
      let nv := mkNv (nv_name e) value (nv_token e) flags in
      (if req then add_entry nv (fun _ => NGHTTP2_ERR_NOMEM) else ret ());;;
      modify (set_valuercbuf None);;;
      ret nv
  | _, _ => stuck
  end.

(** ** The states of the machine *)

(** NGHTTP2_HD_STATE_INFLATE_START and NGHTTP2_HD_STATE_OPCODE: the kind of
    the next representation. *)
Definition on_opcode (bs : list Z) : M turn :=
  b <- peek bs;;
  st <- gets state;;
  n <- (if Z.land b 0xe0 =? 0x20 then
          if decide (st = NGHTTP2_HD_STATE_OPCODE) then throw NGHTTP2_ERR_HEADER_COMP
          else
            modify (set_opcode NGHTTP2_HD_OPCODE_INDEXED);;;
            modify (set_state NGHTTP2_HD_STATE_READ_TABLE_SIZE);;;
            ret 0
        else if negb (Z.land b 0x80 =? 0) then
          modify (set_opcode NGHTTP2_HD_OPCODE_INDEXED);;;
          modify (set_state NGHTTP2_HD_STATE_READ_INDEX);;;
          ret 0
        else
          let newname := (b =? 0x40) || (b =? 0) || (b =? 0x10) in
          (if newname then
             modify (set_opcode NGHTTP2_HD_OPCODE_NEWNAME);;;
             modify (set_state NGHTTP2_HD_STATE_NEWNAME_CHECK_NAMELEN)
           else
             modify (set_opcode NGHTTP2_HD_OPCODE_INDNAME);;;
             modify (set_state NGHTTP2_HD_STATE_READ_INDEX));;;
          modify (set_index_required (negb (Z.land b 0x40 =? 0)));;;
          modify (set_no_index (Z.land b 0xf0 =? 0x10));;;
          ret (if newname then 1 else 0));;
  modify (set_left 0);;;
  modify (set_shift 0);;;
  ret (Go n false).

Definition on_expect_table_size (bs : list Z) : M turn :=
  b <- peek bs;;
  if negb (Z.land b 0xe0 =? 0x20) then throw NGHTTP2_ERR_HEADER_COMP
  else on_opcode bs.

Definition on_read_table_size (bs : list Z) : M turn :=
  min <- gets min_hd_table_bufsize_max;;
  settings <- gets settings_hd_table_bufsize_max;;
  r <- hd_inflate_read_len bs 5 (Z.min min settings);;
  if negb r.2 then goto_almost_ok r.1
  else
    modify (set_min_max UINT32_MAX);;;
    c <- gets ctx;;
    l <- gets left;;
    match hd_context_shrink_table_size (set_max l c) None with
    | None => stuck
    | Some (c, _) =>
        modify (set_ctx c);;;
        modify (set_state NGHTTP2_HD_STATE_INFLATE_START);;;
        ret (Go r.1 false)
    end.

Definition on_read_index (bs : list Z) : M turn :=
  op <- gets opcode;;
  req <- gets index_required;;
  c <- gets ctx;;
  let prefixlen :=
    if decide (op = NGHTTP2_HD_OPCODE_INDEXED) then 7 else if req : bool then 6 else 4 in
  r <- hd_inflate_read_len bs prefixlen (get_max_index c);;
  if negb r.2 then goto_almost_ok r.1
  else
    l <- gets left;;
    if l =? 0 then throw NGHTTP2_ERR_HEADER_COMP
    else
      modify (set_i_index (l - 1));;;
      if decide (op = NGHTTP2_HD_OPCODE_INDEXED) then
        nv <- hd_inflate_commit_indexed;;
        modify (set_state NGHTTP2_HD_STATE_OPCODE);;;
        ret (Emit r.1 nv)
      else
        modify (set_state NGHTTP2_HD_STATE_CHECK_VALUELEN);;;
        ret (Go r.1 false).

(** NGHTTP2_HD_STATE_NEWNAME_READ_NAMELEN and NGHTTP2_HD_STATE_READ_VALUELEN:
    the length, and a buffer for that many bytes. *)
Definition on_read_strlen (setrc : option (list Z) -> inflater -> inflater)
    (setb : buf -> inflater -> inflater) (huff_state state : state_t) (busy : bool)
    (bs : list Z) : M turn :=
  r <- hd_inflate_read_len bs 7 NGHTTP2_HD_MAX_NV;;
  if negb r.2 then goto_almost_ok r.1
  else
    huffman <- gets huffman_encoded;;
    l <- gets left;;
    (if huffman : bool then
       modify (set_huff_decode_ctx nghttp2_hd_huff_decode_context_init);;;
       modify (set_state huff_state);;;
       rcbuf_new setrc setb (l * 2 + 1)
     else
       modify (set_state state);;;
       rcbuf_new setrc setb (l + 1));;;
    ret (Go r.1 busy).

(** NGHTTP2_HD_STATE_NEWNAME_CHECK_NAMELEN and NGHTTP2_HD_STATE_CHECK_VALUELEN *)
Definition on_check_strlen (next : state_t) (bs : list Z) : M () :=
  hd_inflate_set_huffman_encoded bs;;;
  modify (set_state next);;;
  modify (set_left 0);;;
  modify (set_shift 0).

Definition on_read_namelen : list Z -> M turn :=
  on_read_strlen set_namercbuf set_namebuf NGHTTP2_HD_STATE_NEWNAME_READ_NAMEHUFF
    NGHTTP2_HD_STATE_NEWNAME_READ_NAME false.

Definition on_read_valuelen : list Z -> M turn :=
  on_read_strlen set_valuercbuf set_valuebuf NGHTTP2_HD_STATE_READ_VALUEHUFF
    NGHTTP2_HD_STATE_READ_VALUE true.

(** NGHTTP2_HD_STATE_NEWNAME_READ_NAMEHUFF and NGHTTP2_HD_STATE_NEWNAME_READ_NAME *)
Definition on_read_name (huffman : bool) (bs : list Z) : M turn :=
  n <- (if huffman then hd_inflate_read_huff else hd_inflate_read) namebuf set_namebuf bs;;
  l <- gets left;;
  if negb (l =? 0) then goto_almost_ok n
  else
    terminate namebuf set_namercbuf;;;
    modify (set_state NGHTTP2_HD_STATE_CHECK_VALUELEN);;;
    ret (Go n false).

(** NGHTTP2_HD_STATE_READ_VALUEHUFF and NGHTTP2_HD_STATE_READ_VALUE *)
Definition on_read_value (huffman : bool) (bs : list Z) : M turn :=
  n <- (if huffman then hd_inflate_read_huff else hd_inflate_read) valuebuf set_valuebuf bs;;
  l <- gets left;;
  if negb (l =? 0) then goto_almost_ok n
  else
    terminate valuebuf set_valuercbuf;;;
    op <- gets opcode;;
    nv <- (if decide (op = NGHTTP2_HD_OPCODE_NEWNAME) then hd_inflate_commit_newname
           else hd_inflate_commit_indname);;
    modify (set_state NGHTTP2_HD_STATE_OPCODE);;;
    ret (Emit n nv).

(** One turn of the loop: [switch (inflater->state)]. *)
Definition step (bs : list Z) : M turn :=
  st <- gets state;;
  match st with
  | NGHTTP2_HD_STATE_EXPECT_TABLE_SIZE => on_expect_table_size bs
  | NGHTTP2_HD_STATE_INFLATE_START | NGHTTP2_HD_STATE_OPCODE => on_opcode bs
  | NGHTTP2_HD_STATE_READ_TABLE_SIZE => on_read_table_size bs
  | NGHTTP2_HD_STATE_READ_INDEX => on_read_index bs
  | NGHTTP2_HD_STATE_NEWNAME_CHECK_NAMELEN =>
      on_check_strlen NGHTTP2_HD_STATE_NEWNAME_READ_NAMELEN bs;;; on_read_namelen bs
  | NGHTTP2_HD_STATE_NEWNAME_READ_NAMELEN => on_read_namelen bs
  | NGHTTP2_HD_STATE_NEWNAME_READ_NAMEHUFF => on_read_name true bs
  | NGHTTP2_HD_STATE_NEWNAME_READ_NAME => on_read_name false bs
  | NGHTTP2_HD_STATE_CHECK_VALUELEN =>
      on_check_strlen NGHTTP2_HD_STATE_READ_VALUELEN bs;;; on_read_valuelen bs
  | NGHTTP2_HD_STATE_READ_VALUELEN => on_read_valuelen bs
  | NGHTTP2_HD_STATE_READ_VALUEHUFF => on_read_value true bs
  | NGHTTP2_HD_STATE_READ_VALUE => on_read_value false bs
  end.

(** What [nghttp2_hd_inflate_hd_nv] returns: an error, or the number of bytes
    consumed, the header with NGHTTP2_HD_INFLATE_EMIT, and whether
    NGHTTP2_HD_INFLATE_FINAL is set. *)
Inductive inflated := Inflate_error (rv : hd_err) | Inflated (n : Z) (nv : option hd_nv) (final : bool).

(** [fail:] *)
Definition fail (rv : hd_err) (s : inflater) : inflated * inflater :=
  let c := ctx s in
  (Inflate_error rv,
   set_ctx (mkCtx (hd_table c) (hd_table_bufsize c) (hd_table_bufsize_max c) (next_seq c) true
              (ctx_mem c)) s).

(** [for (; in != last || busy;)], and what follows it; [n] bytes were
    consumed so far, [bs] remain. *)
Fixpoint inflate_loop (fuel : nat) (in_final : bool) (n : Z) (bs : list Z) (busy : bool) (s : inflater)
    : option (inflated * inflater) :=
  if bool_decide (bs <> []) || busy then
    match fuel with
    | O => None
    | S fuel' =>
        match step bs s with
        | Done (Go k busy) s => inflate_loop fuel' in_final (n + k) (drop (Z.to_nat k) bs) busy s
        | Done (Emit k nv) s => Some (Inflated (n + k) (Some nv) false, s)
        | Fail rv s => Some (fail rv s)
        | Almost_ok k s =>
            if in_final then Some (fail NGHTTP2_ERR_HEADER_COMP s)
            else Some (Inflated (n + k) None false, s)
        | Stuck => None
        end
    end
  else if in_final && negb (bool_decide (state s = NGHTTP2_HD_STATE_OPCODE))
                   && negb (bool_decide (state s = NGHTTP2_HD_STATE_INFLATE_START))
  then Some (fail NGHTTP2_ERR_HEADER_COMP s)
  else Some (Inflated n None in_final, s).

(** A turn that goes on consumes bytes or ends a state that does not. *)
Definition inflate_fuel (bs : list Z) : nat := 2 * length bs + 2.

(** [nghttp2_hd_inflate_hd_nv] *)
Definition nghttp2_hd_inflate_hd_nv (s : inflater) (bs : list Z) (in_final : bool)
    : option (inflated * inflater) :=
  if bad (ctx s) then Some (Inflate_error NGHTTP2_ERR_HEADER_COMP, s)
  else inflate_loop (inflate_fuel bs) in_final 0 bs false s.

(** [nghttp2_hd_inflate_end_headers] *)
Definition nghttp2_hd_inflate_end_headers (s : inflater) : inflater :=
  set_state NGHTTP2_HD_STATE_INFLATE_START s.

(** [nghttp2_hd_inflate_init]; the stack's Huffman state is whatever it was. *)
Definition nghttp2_hd_inflate_init (default_size : Z) (hc : huff_decode_context) (m : mem)
    : hd_err * option inflater :=
  match hd_context_init malloc_ok default_size m with
  | (NGHTTP2_SUCCESS, Some c, _) =>
      (NGHTTP2_SUCCESS,
       Some (mkInflater c hc (mkBuf [] 0) (mkBuf [] 0) None None 0 0 default_size UINT32_MAX 0
               NGHTTP2_HD_OPCODE_NONE NGHTTP2_HD_STATE_INFLATE_START false false false))
  | (rv, _, _) => (rv, None)
  end.

(** [nghttp2_hd_inflate_change_table_size] *)
Definition nghttp2_hd_inflate_change_table_size (s : inflater) (n : Z) : option (hd_err * inflater) :=
  match state s with
  | NGHTTP2_HD_STATE_EXPECT_TABLE_SIZE | NGHTTP2_HD_STATE_INFLATE_START =>
      let s := set_settings_max n s in
      if n <? hd_table_bufsize_max (ctx s) then
        let s := set_min_max n (set_state NGHTTP2_HD_STATE_EXPECT_TABLE_SIZE s) in
        '(c, _) ← hd_context_shrink_table_size (set_max n (ctx s)) None;
        Some (NGHTTP2_SUCCESS, set_ctx c s)
      else Some (NGHTTP2_SUCCESS, s)
  | _ => Some (NGHTTP2_ERR_INVALID_STATE, s)
  end.
End Inflate.

(** ** Reasoning about the monad *)

Section Wp.
Context {C : Type}.
(** What holds when the loop is left through [fail] and [almost_ok]. *)
Variable F : inflater C -> Prop.
Variable E : Z -> inflater C -> Prop.

Definition wp {A} (m : M C A) (s : inflater C) (Q : A -> inflater C -> Prop) : Prop :=
  match m s with
  | Done a s => Q a s
  | Fail rv s => rv <> NGHTTP2_SUCCESS /\ F s
  | Almost_ok n s => E n s
  | Stuck => False
  end.

Lemma wp_bind {A B} (m : M C A) (f : A -> M C B) s Q :
  wp m s (fun a s => wp (f a) s Q) -> wp (bind m f) s Q.
Proof. unfold wp, bind. by destruct (m s). Qed.

Lemma wp_mono {A} (m : M C A) s (Q Q' : A -> inflater C -> Prop) :
  wp m s Q -> (forall a s, Q a s -> Q' a s) -> wp m s Q'.
Proof. unfold wp. destruct (m s); try done. intros Hq HQ. by apply HQ. Qed.

Lemma wp_ret {A} (a : A) s Q : Q a s -> wp (ret a) s Q.
Proof. done. Qed.
Lemma wp_gets {A} (f : inflater C -> A) s Q : Q (f s) s -> wp (gets f) s Q.
Proof. done. Qed.
Lemma wp_modify f s Q : Q tt (f s) -> wp (modify f) s Q.
Proof. done. Qed.
Lemma wp_throw {A} rv s (Q : A -> inflater C -> Prop) : rv <> NGHTTP2_SUCCESS -> F s -> wp (throw rv) s Q.
Proof. done. Qed.
Lemma wp_almost {A} n s (Q : A -> inflater C -> Prop) : E n s -> wp (goto_almost_ok n) s Q.
Proof. done. Qed.
End Wp.

(** Steps through the primitive operations. *)
Ltac wp_step :=
  lazymatch goal with
  | |- wp _ _ (bind _ _) _ _ => apply wp_bind
  | |- wp _ _ (ret _) _ _ => apply wp_ret
  | |- wp _ _ (gets _) _ _ => apply wp_gets
  | |- wp _ _ (modify _) _ _ => apply wp_modify
  end.
Ltac wp_steps := repeat wp_step.

(** ** The invariant of an inflater *)

Section Safety.
Context `{HuffmanDecoder}.
Variable malloc_ok : mem -> bool.
Abbreviation inflater := (inflater huff_decode_context).

(** The table holds [l], and is never larger than the size in the local
    settings. *)
Record table_within (c : hd_context) (settings min : Z) (l : list hd_entry) : Prop := {
  ti_table : table_ok c l;
  ti_max : hd_table_bufsize_max c <= settings;
  ti_settings : settings <= UINT32_MAX;
  ti_min : 0 <= min <= UINT32_MAX
}.

Definition table_inv (s : inflater) (l : list hd_entry) : Prop :=
  table_within (ctx s) (settings_hd_table_bufsize_max s) (min_hd_table_bufsize_max s) l.

(** A buffer has room for what is left to read ([k] bytes written for each
    byte read) and the terminator. *)
Definition buf_ok (k : Z) (b : buf) (l : Z) : Prop :=
  0 <= l /\ size (buf_bytes b) + k * l < buf_cap b <= 2 * NGHTTP2_HD_MAX_NV + 1.

Definition rcbuf_ok (rc : option (list Z)) : Prop :=
  exists bs, rc = Some bs /\ size bs <= 2 * NGHTTP2_HD_MAX_NV.

(** The name of the literal being read is there. *)
Definition name_ok (s : inflater) : Prop :=
  match opcode s with
  | NGHTTP2_HD_OPCODE_NEWNAME => rcbuf_ok (namercbuf s)
  | _ => 0 <= i_index s < get_max_index (ctx s)
  end.

Definition state_ok (s : inflater) : Prop :=
  match state s with
  | NGHTTP2_HD_STATE_EXPECT_TABLE_SIZE | NGHTTP2_HD_STATE_INFLATE_START
  | NGHTTP2_HD_STATE_OPCODE => True
  | NGHTTP2_HD_STATE_READ_TABLE_SIZE => resumable (left s) (shift s)
  | NGHTTP2_HD_STATE_READ_INDEX =>
      opcode s <> NGHTTP2_HD_OPCODE_NEWNAME /\ resumable (left s) (shift s)
  | NGHTTP2_HD_STATE_NEWNAME_CHECK_NAMELEN => opcode s = NGHTTP2_HD_OPCODE_NEWNAME
  | NGHTTP2_HD_STATE_NEWNAME_READ_NAMELEN =>
      opcode s = NGHTTP2_HD_OPCODE_NEWNAME /\ resumable (left s) (shift s)
  | NGHTTP2_HD_STATE_NEWNAME_READ_NAMEHUFF =>
      opcode s = NGHTTP2_HD_OPCODE_NEWNAME /\ buf_ok 2 (namebuf s) (left s)
  | NGHTTP2_HD_STATE_NEWNAME_READ_NAME =>
      opcode s = NGHTTP2_HD_OPCODE_NEWNAME /\ buf_ok 1 (namebuf s) (left s)
  | NGHTTP2_HD_STATE_CHECK_VALUELEN => name_ok s
  | NGHTTP2_HD_STATE_READ_VALUELEN => name_ok s /\ resumable (left s) (shift s)
  | NGHTTP2_HD_STATE_READ_VALUEHUFF => name_ok s /\ buf_ok 2 (valuebuf s) (left s)
  | NGHTTP2_HD_STATE_READ_VALUE => name_ok s /\ buf_ok 1 (valuebuf s) (left s)
  end.

Definition inv (s : inflater) (l : list hd_entry) : Prop := table_inv s l /\ state_ok s.

(** What is left to do in a state before bytes are consumed. *)
Definition rank (s : inflater) : Z :=
  match state s with
  | NGHTTP2_HD_STATE_EXPECT_TABLE_SIZE | NGHTTP2_HD_STATE_INFLATE_START | NGHTTP2_HD_STATE_OPCODE
  | NGHTTP2_HD_STATE_NEWNAME_READ_NAMEHUFF | NGHTTP2_HD_STATE_NEWNAME_READ_NAME => 1
  | _ => 0
  end.

(** The loop is entered with no input only to read an empty value. *)
Definition may_run (s : inflater) (bs : list Z) : Prop :=
  bs <> [] \/ state s = NGHTTP2_HD_STATE_READ_VALUEHUFF \/ state s = NGHTTP2_HD_STATE_READ_VALUE.

Definition failed (b : bool) (s : inflater) : Prop := bad (ctx s) = b /\ exists l, table_inv s l.

(** A turn on [bs] in a state of rank [r]. *)
Definition turn_ok (b : bool) (bs : list Z) (r : Z) (t : turn) (s : inflater) : Prop :=
  bad (ctx s) = b /\ exists l, inv s l /\
  match t with
  | Go n busy =>
      0 <= n <= size bs /\ 2 * (size bs - n) + rank s < 2 * size bs + r /\
      (busy = true -> may_run s [])
  | Emit n _ => 0 <= n <= size bs /\ state s = NGHTTP2_HD_STATE_OPCODE
  end.

Definition almost (b : bool) (bs : list Z) (n : Z) (s : inflater) : Prop :=
  bad (ctx s) = b /\ n = size bs /\ exists l, inv s l.

(** ** Each operation keeps the invariant *)

Section Turn.
Variables (b : bool) (bs : list Z).
Abbreviation WP := (wp (failed b) (almost b bs)).

Lemma read_len_wp s prefix maxlen (Q : Z * bool -> inflater -> Prop) :
  1 <= prefix <= 8 -> resumable (left s) (shift s) -> bs <> [] -> failed b s ->
  (forall out sh rv fin, 0 <= out <= maxlen -> out <= UINT32_MAX -> 1 <= rv <= size bs ->
     (fin = false -> rv = size bs /\ resumable out sh) ->
     Q (rv, fin) (set_left out (set_shift sh s))) ->
  WP (hd_inflate_read_len bs prefix maxlen) s Q.
Proof.
  intros Hp Hr Hbs Hf HQ. unfold hd_inflate_read_len. wp_steps.
  pose proof (decode_progress (left s) (shift s) bs prefix Hp Hr Hbs) as Hd.
  replace (u32 (left s)) with (left s)
    by (destruct Hr as (_ & ? & _); unfold u32, UINT32_MAX in *; rewrite Z.mod_small; lia).
  destruct (decode_length _ _ _ _) as [out sh fin rv| |]; [| |done].
  - destruct Hd as (Hout & Hsh & Hrv & Hfin). wp_steps. destruct (maxlen <? out) eqn:El.
    + by apply wp_throw.
    + wp_steps. apply HQ; [lia|lia|done|done].
  - wp_steps. by apply wp_throw.
Qed.

Lemma buf_append_wp s bf o Q :
  size (buf_bytes bf) + size o <= buf_cap bf ->
  Q (mkBuf (buf_bytes bf ++ o) (buf_cap bf)) s -> WP (buf_append bf o) s Q.
Proof. intros Hc HQ. unfold buf_append. replace (_ <? _) with false by lia. by wp_steps. Qed.

(** Accessors of the two buffers. *)
Definition lens (getb : inflater -> buf) (setb : buf -> inflater -> inflater) : Prop :=
  forall v s, getb (setb v s) = v /\ ctx (setb v s) = ctx s /\
    settings_hd_table_bufsize_max (setb v s) = settings_hd_table_bufsize_max s /\
    min_hd_table_bufsize_max (setb v s) = min_hd_table_bufsize_max s.

Lemma read_huff_wp s getb setb (Q : Z -> inflater -> Prop) :
  lens getb setb -> buf_ok 2 (getb s) (left s) -> failed b s ->
  (forall bf hc n, 0 <= n <= size bs -> buf_ok 2 bf (left s - n) -> 
     (left s - n <> 0 -> n = size bs) ->
     Q n (set_left (left s - n) (set_huff_decode_ctx hc (setb bf s)))) ->
  WP (hd_inflate_read_huff getb setb bs) s Q.
Proof.
  intros Hlens [Hl [Hcap Hmax]] Hf HQ. unfold hd_inflate_read_huff. wp_steps.
  set (src := if left s <=? size bs then take (Z.to_nat (left s)) bs else bs).
  assert (Hsrc : size src <= left s /\ size src <= size bs /\ (left s - size src <> 0 -> size src = size bs)).
  { unfold src. destruct (left s <=? size bs) eqn:El; unfold size in *.
    - rewrite length_take. lia.
    - lia. }
  destruct Hsrc as (Hs1 & Hs2 & Hs3).
  destruct (nghttp2_hd_huff_decode _ src _) as [rv|[[n out] hc]] eqn:Ed.
  { apply wp_throw; [|done]. intros ->. by eapply huff_decode_error. }
  destruct (huff_decode_reads _ _ _ _ _ _ Ed) as [-> Hout].
  assert (0 <= size src) by (unfold size; lia).
  wp_steps. apply buf_append_wp; [lia|]. wp_steps.
  destruct (nghttp2_hd_huff_decode_failure_state hc).
  - apply wp_throw; [done|]. destruct Hf as (Hb & l & Hl').
    destruct (Hlens (mkBuf (buf_bytes (getb s) ++ out) (buf_cap (getb s))) s) as (_ & Hc & Hse & Hmi).
    unfold failed, table_inv. cbn. rewrite Hc, Hse, Hmi. split; [done|]. by exists l.
  - wp_steps. replace (u64 (left s - size src)) with (left s - size src)
      by (unfold u64, size, NGHTTP2_HD_MAX_NV in *; rewrite Z.mod_small; lia).
    apply HQ; [lia| |done]. split; [lia|]. cbn. unfold size in *. rewrite length_app. lia.
Qed.

Lemma read_wp s getb setb (Q : Z -> inflater -> Prop) :
  buf_ok 1 (getb s) (left s) ->
  (forall bf n, 0 <= n <= size bs -> buf_ok 1 bf (left s - n) ->
     (left s - n <> 0 -> n = size bs) -> Q n (set_left (left s - n) (setb bf s))) ->
  WP (hd_inflate_read getb setb bs) s Q.
Proof.
  intros [Hl [Hcap Hmax]] HQ. unfold hd_inflate_read. wp_steps.
  set (n := Z.min (size bs) (left s)).
  assert (Hn : 0 <= n <= size bs /\ n <= left s) by (unfold n, size; lia).
  assert (Htk : size (take (Z.to_nat n) bs) = n) by (unfold size in *; rewrite length_take; lia).
  apply buf_append_wp; [lia|]. wp_steps.
  replace (u64 (left s - n)) with (left s - n)
    by (unfold u64, size, NGHTTP2_HD_MAX_NV in *; rewrite Z.mod_small; lia).
  apply HQ; [lia| |lia]. split; [lia|]. cbn. unfold size in *. rewrite length_app. lia.
Qed.

Lemma table_inv_bound s l e : table_inv s l -> e ∈ l -> nv_room (ent_nv e) <= UINT32_MAX.
Proof.
  intros [[_ _ Hf] Hm Hs _] He.
  assert (nv_room (ent_nv e) <= rooms l); [|lia].
  clear -He. induction He as [|e x l He IH]; cbn [rooms].
  - pose proof (rooms_ge l). lia.
  - pose proof (nv_room_ge (ent_nv x)). lia.
Qed.

(** A name in the tables is short. *)
Lemma spec_get_short s l i nv :
  table_inv s l -> spec_get (ent_nv <$> l) i = Some nv -> size (nv_name nv) <= UINT32_MAX.
Proof.
  intros Ht. unfold spec_get. destruct (i <? 0); [done|]. destruct (i <? _).
  - assert (Hall : forallb (fun e => size (ent_name e) <=? UINT32_MAX) static_table = true) by reflexivity.
    rewrite List.forallb_forall in Hall.
    unfold static_get. destruct (i <? 0); [done|]. destruct (static_table !! _) as [e|] eqn:Ee; [|done].
    cbn. intros [= <-]. cbn. apply list_elem_of_lookup_2, list_elem_of_In, Hall in Ee. lia.
  - rewrite list_lookup_fmap. destruct (l !! _) as [e|] eqn:Ee; [|done]. cbn. intros [= <-].
    apply list_elem_of_lookup_2 in Ee. pose proof (table_inv_bound _ _ _ Ht Ee) as Hb.
    unfold nv_room, entry_room, NGHTTP2_HD_ENTRY_OVERHEAD, size in *. lia.
Qed.

Lemma add_entry_wp s l nv err (Q : () -> inflater -> Prop) :
  table_inv s l -> bad (ctx s) = b -> size (nv_name nv) <= UINT32_MAX ->
  size (nv_value nv) <= UINT32_MAX -> nv_token nv = lookup_token (nv_name nv) ->
  (forall rv, rv <> NGHTTP2_SUCCESS -> err rv <> NGHTTP2_SUCCESS) ->
  (forall c l', table_within c (settings_hd_table_bufsize_max s) (min_hd_table_bufsize_max s) l' ->
     bad c = b -> Q tt (set_ctx c s)) ->
  WP (add_entry malloc_ok nv err) s Q.
Proof.
  intros [Ht Hm Hs Hmin] Hb Hn Hv Htok Herr HQ. unfold add_entry. wp_steps.
  destruct (add_spec malloc_ok (ctx s) nv None 0 l) as (rv & c & m & -> & Hcm & Hcb & _ & Hrv); try done.
  { unfold nv_room, entry_room, NGHTTP2_HD_ENTRY_OVERHEAD, SIZE_LIMIT, UINT32_MAX in *. lia. }
  wp_steps. destruct rv.
  - wp_steps. destruct Hrv as [Hrv _]. eapply HQ; [constructor; [exact Hrv|lia|done|done]|congruence].
  - apply wp_throw; [by apply Herr|]. destruct Hrv as (_ & Hrv & _).
    split; [cbn; congruence|]. eexists. constructor; cbn; [exact Hrv|lia|done|done].
  - by destruct Hrv.
  - by destruct Hrv.
  - by destruct Hrv.
  - by destruct Hrv.
Qed.

Lemma rcbuf_new_wp s l setrc setb n (Q : () -> inflater -> Prop) :
  table_inv s l -> bad (ctx s) = b ->
  (forall c, table_within c (settings_hd_table_bufsize_max s) (min_hd_table_bufsize_max s) l ->
     bad c = b -> hd_table c = hd_table (ctx s) -> Q tt (setb (mkBuf [] n) (setrc (Some []) (set_ctx c s)))) ->
  WP (rcbuf_new malloc_ok setrc setb n) s Q.
Proof.
  intros [[[] [Ha Ho] ?] Hm Hs Hmin] Hb HQ. unfold rcbuf_new. wp_steps.
  assert (Ht : table_within (mkCtx (hd_table (ctx s)) (hd_table_bufsize (ctx s))
    (hd_table_bufsize_max (ctx s)) (next_seq (ctx s)) (bad (ctx s)) (S (ctx_mem (ctx s))))
    (settings_hd_table_bufsize_max s) (min_hd_table_bufsize_max s) l).
  { constructor; cbn; try done. constructor; [by constructor| |done]. constructor; try done. cbn.
    eapply Forall_impl; [exact Ho|]. cbn. lia. }
  destruct (malloc_ok _).
  - wp_steps. by apply HQ.
  - apply wp_throw; [done|]. split; [done|]. by exists l.
Qed.

Lemma commit_indexed_wp s l (Q : hd_nv -> inflater -> Prop) :
  table_inv s l -> 0 <= i_index s < get_max_index (ctx s) -> (forall nv, Q nv s) ->
  WP hd_inflate_commit_indexed s Q.
Proof.
  intros [Ht _ _ _] Hi HQ. unfold hd_inflate_commit_indexed. wp_steps.
  destruct (table_get_some _ _ _ Ht Hi) as [nv ->]. by wp_steps.
Qed.

Lemma commit_newname_wp s l (Q : hd_nv -> inflater -> Prop) :
  table_inv s l -> bad (ctx s) = b -> rcbuf_ok (namercbuf s) -> rcbuf_ok (valuercbuf s) ->
  (forall nv c l', table_within c (settings_hd_table_bufsize_max s) (min_hd_table_bufsize_max s) l' ->
     bad c = b -> Q nv (set_valuercbuf None (set_namercbuf None (set_ctx c s)))) ->
  WP (hd_inflate_commit_newname malloc_ok) s Q.
Proof.
  intros Ht Hb (nm & Hn & Hnl) (v & Hv & Hvl) HQ. unfold hd_inflate_commit_newname. wp_steps.
  rewrite Hn, Hv. unfold NGHTTP2_HD_MAX_NV in *.
  wp_step. destruct (index_required s).
  - eapply add_entry_wp; try done; cbn; [unfold UINT32_MAX; lia|unfold UINT32_MAX; lia|].
    intros c l' Hc Hcb. wp_steps. by eapply HQ.
  - wp_steps. destruct s. by eapply HQ.
Qed.

Lemma commit_indname_wp s l (Q : hd_nv -> inflater -> Prop) :
  table_inv s l -> bad (ctx s) = b -> 0 <= i_index s < get_max_index (ctx s) -> rcbuf_ok (valuercbuf s) ->
  (forall nv c l', table_within c (settings_hd_table_bufsize_max s) (min_hd_table_bufsize_max s) l' ->
     bad c = b -> Q nv (set_valuercbuf None (set_ctx c s))) ->
  WP (hd_inflate_commit_indname malloc_ok) s Q.
Proof.
  intros Ht Hb Hi (v & Hv & Hvl) HQ. unfold hd_inflate_commit_indname. wp_steps.
  pose proof Ht as [Htab _ _ _]. destruct (table_get_some _ _ _ Htab Hi) as [nv Hnv].
  rewrite Hnv, Hv. rewrite (table_get_spec _ _ _ Htab) in Hnv by lia.
  unfold NGHTTP2_HD_MAX_NV in *. wp_step. destruct (index_required s).
  - eapply add_entry_wp; try done; cbn.
    + by eapply spec_get_short.
    + unfold UINT32_MAX; lia.
    + by eapply spec_get_token.
    + intros c l' Hc Hcb. wp_steps. by eapply HQ.
  - wp_steps. destruct s. by eapply HQ.
Qed.

(** ** Each state keeps the invariant *)

Lemma rank_bound (s : inflater) : 0 <= rank s <= 1.
Proof. unfold rank. destruct (state s); lia. Qed.

Lemma size_pos (x : list Z) : x <> [] -> 1 <= size x.
Proof. destruct x; [done|]. unfold size. cbn [length]. lia. Qed.

Lemma go_ok s l n busy r :
  bad (ctx s) = b -> inv s l -> 0 <= n <= size bs -> rank s - r < 2 * n ->
  (busy = true -> may_run s []) -> turn_ok b bs r (Go n busy) s.
Proof. intros. split; [done|]. exists l. split; [done|]. split; [done|]. split; [lia|done]. Qed.

Lemma resumable_0 : resumable 0 0.
Proof. split; [done|]. unfold UINT32_MAX. lia. Qed.

Lemma on_opcode_wp s l :
  table_inv s l -> bad (ctx s) = b -> bs <> [] -> WP (on_opcode bs) s (turn_ok b bs 1).
Proof.
  intros Ht Hb Hbs. pose proof (size_pos bs Hbs) as Hsz.
  unfold on_opcode, peek. destruct bs as [|x bs'] eqn:Ebs; [done|]. rewrite <- Ebs in *. wp_steps.
  assert (Hf : failed b s) by (split; [done|by exists l]). 
  destruct (Z.land x 0xe0 =? 0x20); [|destruct (negb (Z.land x 0x80 =? 0))].
  - destruct (decide _); [by apply wp_throw|]. wp_steps.
    by apply (go_ok _ l); cbn; try lia.
  - wp_steps. by apply (go_ok _ l); cbn; try lia.
  - destruct ((x =? 0x40) || (x =? 0) || (x =? 0x10)); wp_steps.
    + by apply (go_ok _ l); cbn; try lia.
    + by apply (go_ok _ l); cbn; try lia.
Qed.

Lemma on_read_table_size_wp s l :
  inv s l -> bad (ctx s) = b -> bs <> [] -> state s = NGHTTP2_HD_STATE_READ_TABLE_SIZE ->
  WP (on_read_table_size bs) s (turn_ok b bs 0).
Proof.
  intros [Ht Hst] Hb Hbs Hs. unfold state_ok in Hst. rewrite Hs in Hst.
  assert (Hf : failed b s) by (split; [done|by exists l]).
  unfold on_read_table_size. wp_steps. apply read_len_wp; [lia|done|done|done|].
  intros out sh rv fin Hout Hout32 Hrv Hfin. cbn [fst snd]. destruct fin; cbn [negb].
  - wp_steps. cbn [ctx left set_min_max set_left set_shift]. pose proof Ht as [[Hbase Hent Hfit] Hm Hse Hmi].
    destruct (shrink_spec l (set_max out (ctx s)) None) as (c & m & -> & Hc & _ & Hsame & _).
    { destruct Hbase. constructor; cbn; try done. unfold SIZE_LIMIT, UINT32_MAX in *. lia. }
    { by destruct Hent. }
    { done. }
    wp_steps. destruct Hsame as (Hcm & _ & Hcb & _). cbn in Hcm, Hcb.
    eapply go_ok; cbn; [congruence| |lia|lia|done].
    split; [|done]. constructor; cbn; [exact Hc|lia|done|unfold UINT32_MAX; lia].
  - apply wp_almost. destruct (Hfin eq_refl) as [-> Hr]. split; [done|]. split; [done|].
    exists l. split; [exact Ht|]. unfold state_ok. cbn. rewrite Hs. exact Hr.
Qed.

Lemma on_read_index_wp s l :
  inv s l -> bad (ctx s) = b -> bs <> [] -> state s = NGHTTP2_HD_STATE_READ_INDEX ->
  WP (on_read_index bs) s (turn_ok b bs 0).
Proof.
  intros [Ht Hst] Hb Hbs Hs. unfold state_ok in Hst. rewrite Hs in Hst. destruct Hst as [Hop Hr].
  assert (Hf : failed b s) by (split; [done|by exists l]).
  unfold on_read_index. wp_steps.
  apply read_len_wp; [repeat case_match; lia|done|done|done|].
  intros out sh rv fin Hout Hout32 Hrv Hfin. cbn [fst snd]. destruct fin; cbn [negb].
  - wp_steps. cbn [left set_left]. destruct (out =? 0) eqn:E0; [by apply wp_throw|]. wp_steps.
    destruct (decide (opcode s = NGHTTP2_HD_OPCODE_INDEXED)) as [Hi|Hi].
    + wp_step. eapply commit_indexed_wp; [exact Ht|cbn; lia|]. intros nv. wp_steps.
      split; [done|]. exists l. split; [by split|]. split; [lia|done].
    + wp_steps. apply (go_ok _ l); cbn; try done; try lia. split; [exact Ht|].
      cbn. unfold name_ok. cbn. destruct (opcode s); try done; lia.
  - apply wp_almost. destruct (Hfin eq_refl) as [-> Hr']. split; [done|]. split; [done|].
    exists l. split; [exact Ht|]. unfold state_ok. cbn. rewrite Hs. by split.
Qed.

(** The state after a string's length: a buffer of the right size. *)
Lemma on_read_strlen_wp s l setrc setb hst st busy (Q : turn -> inflater -> Prop) :
  table_inv s l -> bad (ctx s) = b -> resumable (left s) (shift s) -> bs <> [] ->
  (forall out sh, resumable out sh -> state_ok (set_left out (set_shift sh s))) ->
  (forall huff hc c out sh rv,
     table_within c (settings_hd_table_bufsize_max s) (min_hd_table_bufsize_max s) l ->
     bad c = b -> hd_table c = hd_table (ctx s) ->
     0 <= out <= NGHTTP2_HD_MAX_NV -> 1 <= rv <= size bs ->
     Q (Go rv busy)
       (setb (mkBuf [] (if huff : bool then out * 2 + 1 else out + 1)) (setrc (Some [])
         (set_ctx c (set_state (if huff then hst else st)
           (set_huff_decode_ctx hc (set_left out (set_shift sh s)))))))) ->
  WP (on_read_strlen malloc_ok setrc setb hst st busy bs) s Q.
Proof.
  intros Ht Hb Hr Hbs Halm HQ. unfold on_read_strlen. wp_steps.
  apply read_len_wp; [lia|done|done|split; [done|by exists l]|].
  intros out sh rv fin Hout Hout32 Hrv Hfin. cbn [fst snd]. destruct fin; cbn [negb].
  - wp_steps. cbn [huffman_encoded set_left set_shift left]. destruct (huffman_encoded s); wp_steps.
    + eapply rcbuf_new_wp; [exact Ht|done|]. intros c Hc Hcb Hct. wp_steps.
      by apply (HQ true).
    + eapply rcbuf_new_wp; [exact Ht|done|]. intros c Hc Hcb Hct. wp_steps.
      pose proof (HQ false (huff_decode_ctx s) c out sh rv Hc Hcb Hct Hout Hrv) as Hq.
      by destruct s.
  - apply wp_almost. destruct (Hfin eq_refl) as [-> Hr']. split; [done|]. split; [done|].
    exists l. split; [exact Ht|]. by apply Halm.
Qed.

Lemma buf_ok_new (huff : bool) out :
  0 <= out <= NGHTTP2_HD_MAX_NV ->
  buf_ok (if huff then 2 else 1) (mkBuf [] (if huff then out * 2 + 1 else out + 1)) out.
Proof.
  intros Ho. unfold buf_ok, size. cbn [buf_bytes buf_cap length]. destruct huff; lia.
Qed.

Lemma on_read_namelen_wp s l :
  inv s l -> bad (ctx s) = b -> bs <> [] -> state s = NGHTTP2_HD_STATE_NEWNAME_READ_NAMELEN ->
  WP (on_read_namelen malloc_ok bs) s (turn_ok b bs 0).
Proof.
  intros [Ht Hst] Hb Hbs Hs. unfold state_ok in Hst. rewrite Hs in Hst. destruct Hst as [Hop Hr].
  eapply on_read_strlen_wp; try done.
  - intros out sh Hr'. unfold state_ok. cbn. rewrite Hs. by split.
  - intros huff hc c out sh rv Hc Hcb _ Hout Hrv. apply (go_ok _ l); cbn; try done.
    + split; [exact Hc|]. pose proof (buf_ok_new huff out Hout). destruct huff; by split.
    + lia.
    + destruct huff; cbn; lia.
Qed.

Lemma on_read_valuelen_wp s l :
  inv s l -> bad (ctx s) = b -> bs <> [] -> state s = NGHTTP2_HD_STATE_READ_VALUELEN ->
  WP (on_read_valuelen malloc_ok bs) s (turn_ok b bs 0).
Proof.
  intros [Ht Hst] Hb Hbs Hs. unfold state_ok in Hst. rewrite Hs in Hst. destruct Hst as [Hop Hr].
  eapply on_read_strlen_wp; try done.
  - intros out sh Hr'. unfold state_ok. cbn. rewrite Hs. by split.
  - intros huff hc c out sh rv Hc Hcb Hct Hout Hrv. apply (go_ok _ l); cbn; try done.
    + split; [exact Hc|]. pose proof (buf_ok_new huff out Hout).
      assert (Hn : name_ok (set_ctx c s)).
      { unfold name_ok in *. cbn. unfold get_max_index in *. rewrite Hct. exact Hop. }
      destruct huff; by split.
    + lia.
    + destruct huff; cbn; lia.
    + intros _. right. destruct huff; [left|right]; done.
Qed.

Lemma on_check_strlen_wp s next (Q : () -> inflater -> Prop) :
  bs <> [] ->
  (forall h, Q tt (set_shift 0 (set_left 0 (set_state next (set_huffman_encoded h s))))) ->
  WP (on_check_strlen next bs) s Q.
Proof.
  intros Hbs HQ. unfold on_check_strlen, hd_inflate_set_huffman_encoded, peek.
  destruct bs; [done|]. wp_steps. apply HQ.
Qed.

Lemma terminate_wp s k getb setrc (Q : () -> inflater -> Prop) :
  buf_ok k (getb s) 0 -> (forall x, rcbuf_ok x -> Q tt (setrc x s)) -> WP (terminate getb setrc) s Q.
Proof.
  intros [_ Hb] HQ. unfold terminate. wp_steps.
  replace (_ <=? _) with false by lia. wp_steps. apply HQ. eexists. split; [done|]. lia.
Qed.

Lemma lens_name : lens namebuf set_namebuf.
Proof. done. Qed.
Lemma lens_value : lens valuebuf set_valuebuf.
Proof. done. Qed.

(** A string is read: the rest is still to come, or the buffer is full. *)
Lemma on_read_name_wp (huff : bool) s l :
  inv s l -> bad (ctx s) = b ->
  state s = (if huff then NGHTTP2_HD_STATE_NEWNAME_READ_NAMEHUFF else NGHTTP2_HD_STATE_NEWNAME_READ_NAME) ->
  WP (on_read_name huff bs) s (turn_ok b bs 1).
Proof.
  intros [Ht Hst] Hb Hs. unfold state_ok in Hst.
  assert (Hf : failed b s) by (split; [done|by exists l]).
  assert (Hgo : forall k bf hc n, 0 <= n <= size bs -> buf_ok k bf (left s - n) ->
    opcode s = NGHTTP2_HD_OPCODE_NEWNAME -> k = (if huff then 2 else 1) ->
    (left s - n <> 0 -> n = size bs) ->
    WP (l <- gets left;;
        if negb (l =? 0) then goto_almost_ok n
        else terminate namebuf set_namercbuf;;;
             modify (set_state NGHTTP2_HD_STATE_CHECK_VALUELEN);;;
             ret (Go n false))
      (set_left (left s - n) (set_huff_decode_ctx hc (set_namebuf bf s))) (turn_ok b bs 1)).
  { intros k bf hc n Hn Hbf Hop Hk Hleft. wp_steps. cbn [left set_left].
    destruct (left s - n =? 0) eqn:E0; cbn [negb].
    - wp_steps. apply (terminate_wp _ k).
      { cbn. by replace 0 with (left s - n) by lia. }
      intros x Hx. wp_steps. apply (go_ok _ l); cbn; try done.
      + split; [exact Ht|]. cbn. unfold name_ok. cbn. by rewrite Hop.
      + lia.
    - apply wp_almost. split; [done|]. split; [lia|]. exists l. split; [exact Ht|].
      unfold state_ok. cbn. rewrite Hs. destruct huff; subst k; by split. }
  rewrite Hs in Hst. unfold on_read_name. wp_step. destruct huff; destruct Hst as [Hop Hbuf].
  - apply read_huff_wp; try done. intros bf hc n Hn Hbf Hleft. by apply (Hgo 2).
  - apply read_wp; try done. intros bf n Hn Hbf Hleft.
    pose proof (Hgo 1 bf (huff_decode_ctx s) n Hn Hbf Hop eq_refl Hleft) as Hg. by destruct s.
Qed.

(** The end of a value: the header is committed. *)
Lemma commit_wp s l :
  table_inv s l -> bad (ctx s) = b -> name_ok s -> rcbuf_ok (valuercbuf s) ->
  forall n, 0 <= n <= size bs ->
  WP (op <- gets opcode;;
      nv <- (if decide (op = NGHTTP2_HD_OPCODE_NEWNAME) then hd_inflate_commit_newname malloc_ok
             else hd_inflate_commit_indname malloc_ok);;
      modify (set_state NGHTTP2_HD_STATE_OPCODE);;;
      ret (Emit n nv)) s (turn_ok b bs 0).
Proof.
  intros Ht Hb Hn Hv n Hnb. wp_step. wp_step. wp_step. unfold name_ok in Hn.
  destruct (decide (opcode s = NGHTTP2_HD_OPCODE_NEWNAME)) as [Hop|Hop].
  - rewrite Hop in Hn. eapply commit_newname_wp; [exact Ht|done|done|done|].
    intros nv c l' Hc Hcb. wp_steps. split; [exact Hcb|]. exists l'. split; [by split|]. by split.
  - assert (Hi : 0 <= i_index s < get_max_index (ctx s)) by (destruct (opcode s); done).
    eapply commit_indname_wp; [exact Ht|done|done|done|].
    intros nv c l' Hc Hcb. wp_steps. split; [exact Hcb|]. exists l'. split; [by split|]. by split.
Qed.

Lemma on_read_value_wp (huff : bool) s l :
  inv s l -> bad (ctx s) = b ->
  state s = (if huff then NGHTTP2_HD_STATE_READ_VALUEHUFF else NGHTTP2_HD_STATE_READ_VALUE) ->
  WP (on_read_value malloc_ok huff bs) s (turn_ok b bs 0).
Proof.
  intros [Ht Hst] Hb Hs. unfold state_ok in Hst.
  assert (Hf : failed b s) by (split; [done|by exists l]).
  assert (Hgo : forall k bf hc n, 0 <= n <= size bs -> buf_ok k bf (left s - n) ->
    name_ok s -> k = (if huff then 2 else 1) -> (left s - n <> 0 -> n = size bs) ->
    WP (l <- gets left;;
        if negb (l =? 0) then goto_almost_ok n
        else terminate valuebuf set_valuercbuf;;;
             op <- gets opcode;;
             nv <- (if decide (op = NGHTTP2_HD_OPCODE_NEWNAME) then hd_inflate_commit_newname malloc_ok
                    else hd_inflate_commit_indname malloc_ok);;
             modify (set_state NGHTTP2_HD_STATE_OPCODE);;;
             ret (Emit n nv))
      (set_left (left s - n) (set_huff_decode_ctx hc (set_valuebuf bf s))) (turn_ok b bs 0)).
  { intros k bf hc n Hn Hbf Hop Hk Hleft. wp_step. wp_step. cbn [left set_left].
    destruct (left s - n =? 0) eqn:E0; cbn [negb].
    - wp_step. apply (terminate_wp _ k).
      { cbn. by replace 0 with (left s - n) by lia. }
      intros x Hx. eapply commit_wp; [exact Ht|done|exact Hop|exact Hx|done].
    - apply wp_almost. split; [done|]. split; [lia|]. exists l. split; [exact Ht|].
      unfold state_ok. cbn. rewrite Hs. destruct huff; subst k; by split. }
  rewrite Hs in Hst. unfold on_read_value. wp_step. destruct huff; destruct Hst as [Hop Hbuf].
  - apply read_huff_wp; try done. intros bf hc n Hn Hbf Hleft. by apply (Hgo 2).
  - apply read_wp; try done. intros bf n Hn Hbf Hleft.
    pose proof (Hgo 1 bf (huff_decode_ctx s) n Hn Hbf Hop eq_refl Hleft) as Hg. by destruct s.
Qed.

Lemma step_wp s l :
  inv s l -> bad (ctx s) = b -> may_run s bs -> WP (step malloc_ok bs) s (turn_ok b bs (rank s)).
Proof.
  intros Hinv Hb Hrun. pose proof Hinv as [Ht Hst]. unfold step. wp_step. wp_step.
  assert (Hne : state s <> NGHTTP2_HD_STATE_READ_VALUEHUFF -> state s <> NGHTTP2_HD_STATE_READ_VALUE -> bs <> [])
    by (destruct Hrun as [?|[?|?]]; done).
  assert (Hf : failed b s) by (split; [done|by exists l]).
  unfold rank. unfold state_ok in Hst.
  destruct (state s) eqn:Es; try (assert (Hbs : bs <> []) by by apply Hne).
  - unfold on_expect_table_size, peek. destruct bs as [|x bs'] eqn:Ebs; [done|]. rewrite <- Ebs in *.
    wp_steps. destruct (negb _); [by apply wp_throw|]. by eapply on_opcode_wp.
  - by eapply on_opcode_wp.
  - by eapply on_opcode_wp.
  - by eapply on_read_table_size_wp.
  - by eapply on_read_index_wp.
  - wp_step. apply on_check_strlen_wp; [done|]. intros h. by apply (on_read_namelen_wp _ l).
  - by eapply on_read_namelen_wp.
  - by eapply on_read_name_wp.
  - by eapply on_read_name_wp.
  - wp_step. apply on_check_strlen_wp; [done|]. intros h. by apply (on_read_valuelen_wp _ l).
  - by eapply on_read_valuelen_wp.
  - by eapply on_read_value_wp.
  - by eapply on_read_value_wp.
Qed.
End Turn.

(** ** The loop *)

Definition boundary (s : inflater) : Prop :=
  state s = NGHTTP2_HD_STATE_OPCODE \/ state s = NGHTTP2_HD_STATE_INFLATE_START.

(** What a call returns after [n] bytes, with [bs] to read. *)
Definition result_ok (in_final : bool) (n : Z) (bs : list Z) (r : inflated) (s : inflater) : Prop :=
  (exists l, table_inv s l) /\
  match r with
  | Inflate_error rv => rv <> NGHTTP2_SUCCESS /\ bad (ctx s) = true
  | Inflated m nv final =>
      bad (ctx s) = false /\ (exists l, inv s l) /\ n <= m <= n + size bs /\
      match nv with
      | Some _ => final = false /\ state s = NGHTTP2_HD_STATE_OPCODE
      | None => m = n + size bs /\ final = in_final /\ (final = true -> boundary s)
      end
  end.

Lemma fail_ok in_final n bs rv s :
  rv <> NGHTTP2_SUCCESS -> (exists l, table_inv s l) ->
  result_ok in_final n bs (fail rv s).1 (fail rv s).2.
Proof.
  intros Hrv (l & [[[] [] ?] ? ? ?]). split; [|done]. exists l. constructor; cbn; try done.
Qed.

Lemma inflate_loop_ok fuel in_final n bs busy s l :
  inv s l -> bad (ctx s) = false -> (busy = true -> may_run s []) ->
  2 * size bs + rank s < Z.of_nat fuel ->
  exists r s', inflate_loop malloc_ok fuel in_final n bs busy s = Some (r, s') /\
    result_ok in_final n bs r s'.
Proof.
  revert n bs busy s l. induction fuel as [|fuel IH]; intros n bs busy s l Hinv Hb Hbusy Hfuel.
  { pose proof (rank_bound s). pose proof (size_nonneg bs). lia. }
  cbn [inflate_loop]. destruct (bool_decide (bs <> []) || busy) eqn:Erun.
  - assert (Hrun : may_run s bs).
    { destruct (bool_decide (bs <> [])) eqn:Ed; [left; by apply bool_decide_eq_true in Ed|].
      cbn in Erun. destruct (Hbusy Erun) as [?|?]; [done|by right]. }
    pose proof (step_wp false bs s l Hinv Hb Hrun) as Hw. unfold wp in Hw.
    destruct (step malloc_ok bs s) as [[k busy'|k nv] s'|rv s'|k s'|]; [| | | |done].
    + destruct Hw as (Hb' & l' & Hinv' & Hk & Hdec & Hbusy').
      assert (Hsz : size (drop (Z.to_nat k) bs) = size bs - k)
        by (unfold size in *; rewrite length_drop; lia).
      destruct (IH (n + k) (drop (Z.to_nat k) bs) busy' s' l') as (r & s2 & Hl & Hr); try done; [lia|].
      exists r, s2. split; [done|]. destruct Hr as [Ht Hr]. split; [done|].
      destruct r as [|m nv final]; [done|]. rewrite Hsz in Hr.
      destruct Hr as (Hb2 & Hi2 & Hm & Hnv). split; [done|]. split; [done|]. split; [lia|].
      destruct nv; [done|]. destruct Hnv as (-> & Hnv). split; [lia|done].
    + destruct Hw as (Hb' & l' & Hinv' & Hk & Hst). eexists _, s'. split; [done|].
      split; [exists l'; apply Hinv'|]. split; [done|]. split; [by exists l'|]. split; [lia|done].
    + destruct Hw as [Hrv [_ Hl]]. eexists _, _. split; [by rewrite (surjective_pairing (fail rv s'))|].
      by apply fail_ok.
    + destruct Hw as (Hb' & -> & l' & Hinv'). destruct in_final.
      * eexists _, _. split; [by rewrite (surjective_pairing (fail _ s'))|].
        apply fail_ok; [done|]. exists l'. apply Hinv'.
      * eexists _, s'. split; [done|]. split; [exists l'; apply Hinv'|]. split; [done|].
        split; [by exists l'|]. pose proof (size_nonneg bs). split; [lia|]. by split.
  - apply orb_false_iff in Erun as [Ebs _]. apply bool_decide_eq_false in Ebs.
    assert (bs = []) as -> by (destruct bs; [done|]; by destruct Ebs).
    destruct (in_final && _ && _) eqn:Ef.
    + eexists _, _. split; [by rewrite (surjective_pairing (fail _ s))|].
      apply fail_ok; [done|]. exists l. apply Hinv.
    + eexists _, s. split; [done|]. split; [exists l; apply Hinv|]. split; [done|].
      split; [by exists l|]. unfold size. cbn. split; [lia|]. split; [lia|]. split; [done|]. intros ->.
      unfold boundary. cbn in Ef.
      destruct (bool_decide (state s = NGHTTP2_HD_STATE_OPCODE)) eqn:E1;
        [left; by apply bool_decide_eq_true in E1|].
      destruct (bool_decide (state s = NGHTTP2_HD_STATE_INFLATE_START)) eqn:E2; [|done].
      right. by apply bool_decide_eq_true in E2.
Qed.

Lemma inflate_ok s l bs in_final :
  inv s l -> 
  exists r s', nghttp2_hd_inflate_hd_nv malloc_ok s bs in_final = Some (r, s') /\
    result_ok in_final 0 bs r s'.
Proof.
  intros Hinv. unfold nghttp2_hd_inflate_hd_nv. destruct (bad (ctx s)) eqn:Hb.
  - eexists _, s. split; [done|]. split; [exists l; apply Hinv|done].
  - eapply inflate_loop_ok; try done. pose proof (rank_bound s). unfold inflate_fuel, size. lia.
Qed.

(** The invariant between calls: after an error only the table is kept. *)
Definition ok (s : inflater) : Prop :=
  (exists l, table_inv s l) /\ (bad (ctx s) = false -> exists l, inv s l).

Lemma result_keeps in_final n bs r s : result_ok in_final n bs r s -> ok s.
Proof.
  intros [Ht Hr]. split; [done|]. intros Hb. destruct r; [by destruct Hr as [_ ?]; congruence|]. tauto.
Qed.

Lemma inflate_ok_bad s bs in_final :
  ok s -> exists r s', nghttp2_hd_inflate_hd_nv malloc_ok s bs in_final = Some (r, s') /\
    result_ok in_final 0 bs r s'.
Proof.
  intros [Ht Hi]. destruct (bad (ctx s)) eqn:Hb.
  - unfold nghttp2_hd_inflate_hd_nv. rewrite Hb. eexists _, s. split; [done|]. by split.
  - destruct (Hi eq_refl) as [l Hl]. by eapply inflate_ok.
Qed.

Lemma end_headers_ok s : ok s -> ok (nghttp2_hd_inflate_end_headers s).
Proof.
  intros [Ht Hi]. split; [exact Ht|]. intros Hb. destruct (Hi Hb) as (l & Hl & _). exists l. by split.
Qed.

(** A smaller size shrinks the table; the state must allow it. *)
Lemma inflate_change_ok s l n :
  table_inv s l -> 0 <= n <= UINT32_MAX ->
  exists rv s', nghttp2_hd_inflate_change_table_size s n = Some (rv, s') /\ bad (ctx s') = bad (ctx s) /\
    if bool_decide (state s = NGHTTP2_HD_STATE_EXPECT_TABLE_SIZE \/ state s = NGHTTP2_HD_STATE_INFLATE_START)
    then
      rv = NGHTTP2_SUCCESS /\ settings_hd_table_bufsize_max s' = n /\
      exists l', inv s' l' /\
      if n <? hd_table_bufsize_max (ctx s) then
        ent_nv <$> l' = fits_nv n (ent_nv <$> l) /\ hd_table_bufsize_max (ctx s') = n /\
        min_hd_table_bufsize_max s' = n /\ state s' = NGHTTP2_HD_STATE_EXPECT_TABLE_SIZE
      else l' = l /\ ctx s' = ctx s /\ min_hd_table_bufsize_max s' = min_hd_table_bufsize_max s /\
           state s' = state s
    else rv = NGHTTP2_ERR_INVALID_STATE /\ s' = s.
Proof.
  intros [[[Hr Hs Hl Hm0] He Hft] Hm Hse Hmin] Hn. unfold nghttp2_hd_inflate_change_table_size.
  assert (Hgo : exists rv s', (
      let s := set_settings_max n s in
      if n <? hd_table_bufsize_max (ctx s) then
        let s := set_min_max n (set_state NGHTTP2_HD_STATE_EXPECT_TABLE_SIZE s) in
        '(c, _) ← hd_context_shrink_table_size (set_max n (ctx s)) None;
        Some (NGHTTP2_SUCCESS, set_ctx c s)
      else Some (NGHTTP2_SUCCESS, s)) = Some (rv, s') /\ bad (ctx s') = bad (ctx s) /\
      (state s = NGHTTP2_HD_STATE_EXPECT_TABLE_SIZE \/ state s = NGHTTP2_HD_STATE_INFLATE_START ->
      rv = NGHTTP2_SUCCESS /\ settings_hd_table_bufsize_max s' = n /\
      exists l', inv s' l' /\
      if n <? hd_table_bufsize_max (ctx s) then
        ent_nv <$> l' = fits_nv n (ent_nv <$> l) /\ hd_table_bufsize_max (ctx s') = n /\
        min_hd_table_bufsize_max s' = n /\ state s' = NGHTTP2_HD_STATE_EXPECT_TABLE_SIZE
      else l' = l /\ ctx s' = ctx s /\ min_hd_table_bufsize_max s' = min_hd_table_bufsize_max s /\
           state s' = state s)).
  { cbn [ctx set_settings_max]. destruct (n <? hd_table_bufsize_max (ctx s)) eqn:En.
    - destruct (shrink_spec l (set_max n (ctx s)) None) as (c & m & Hsh & Ht & _ & Hsame & _).
      { constructor; cbn; try done. unfold SIZE_LIMIT, UINT32_MAX in *. lia. }
      { by destruct He. }
      { done. }
      cbn [ctx set_min_max set_state set_settings_max]. rewrite Hsh. cbn [mbind option_bind].
      destruct Hsame as (Hcm & _ & Hcb & _). eexists _, _. split; [done|]. split; [exact Hcb|].
      intros _. split; [done|]. split; [done|]. eexists. split.
      { split; [|done]. constructor; cbn in *; [exact Ht|lia|lia|lia]. }
      split; [apply fits_fmap|]. by split.
    - eexists _, _. split; [done|]. split; [done|]. intros Hst. split; [done|]. split; [done|].
      exists l. split; [|done]. split; [by constructor; cbn; try done; lia|].
      unfold state_ok. cbn. by destruct Hst as [-> | ->]. }
  destruct (bool_decide _) eqn:Eb.
  - apply bool_decide_eq_true in Eb. destruct Hgo as (rv & s' & Hx & Hb & Hrest). exists rv, s'.
    split; [|split; [done|by apply Hrest]]. by destruct Eb as [-> | ->].
  - apply bool_decide_eq_false in Eb. exists NGHTTP2_ERR_INVALID_STATE, s.
    split; [|done]. destruct (state s); try done; exfalso; apply Eb; tauto.
Qed.

Lemma inflate_init_ok default_size hc m s :
  0 <= default_size <= UINT32_MAX ->
  nghttp2_hd_inflate_init malloc_ok default_size hc m = (NGHTTP2_SUCCESS, Some s) ->
  inv s [] /\ bad (ctx s) = false /\ hd_table_bufsize_max (ctx s) = default_size /\
  settings_hd_table_bufsize_max s = default_size /\ min_hd_table_bufsize_max s = UINT32_MAX /\
  state s = NGHTTP2_HD_STATE_INFLATE_START.
Proof.
  intros Hd. unfold nghttp2_hd_inflate_init.
  destruct (hd_context_init malloc_ok default_size m) as [[[] [c|]] m'] eqn:E; try done. intros [= <-].
  apply context_init_ok in E as (Ht & Hm & Hb); [|unfold SIZE_LIMIT, UINT32_MAX in *; lia].
  split; [|done]. split; [|done]. constructor; cbn; [done|lia|lia|unfold UINT32_MAX; lia].
Qed.

(** ** Sessions *)

(** What an application does with a decoder. *)
Inductive event := Ev_inflate (bs : list Z) (in_final : bool) | Ev_end_headers | Ev_settings (n : Z).

Definition exec_event (s : inflater) (e : event) : option inflater :=
  match e with
  | Ev_inflate bs in_final => snd <$> nghttp2_hd_inflate_hd_nv malloc_ok s bs in_final
  | Ev_end_headers => Some (nghttp2_hd_inflate_end_headers s)
  | Ev_settings n => snd <$> nghttp2_hd_inflate_change_table_size s n
  end.

Fixpoint exec_events (s : inflater) (es : list event) : option inflater :=
  match es with
  | [] => Some s
  | e :: es' => s ← exec_event s e; exec_events s es'
  end.

Definition event_ok (e : event) : Prop :=
  match e with Ev_settings n => 0 <= n <= UINT32_MAX | _ => True end.

Lemma exec_event_ok s e : ok s -> event_ok e ->
  exists s', exec_event s e = Some s' /\ ok s' /\ (bad (ctx s) = true -> bad (ctx s') = true).
Proof.
  intros Hok He. destruct e as [bs fin| |n]; cbn [exec_event].
  - destruct (inflate_ok_bad s bs fin Hok) as (r & s' & Hx & Hr). rewrite Hx. exists s'. split; [done|].
    split; [by eapply result_keeps|]. intros Hb. unfold nghttp2_hd_inflate_hd_nv in Hx. rewrite Hb in Hx.
    by injection Hx as _ <-.
  - eexists. split; [done|]. split; [by apply end_headers_ok|done].
  - destruct Hok as [[l Ht] Hi]. destruct (inflate_change_ok s l n Ht He) as (rv & s' & -> & Hb & Hrest).
    exists s'. split; [done|]. split; [|congruence]. destruct (bool_decide _).
    + destruct Hrest as (_ & _ & l' & Hl' & _). split; [exists l'; apply Hl'|]. intros _. by exists l'.
    + destruct Hrest as [_ ->]. split; [by exists l|done].
Qed.

(** C12. The decoder is total and memory safe: whatever the state it was left
    in, whatever bytes arrive and wherever they are cut, and whichever
    allocation fails, [nghttp2_hd_inflate_hd_nv] returns (no assertion fails,
    no byte is read outside of the input, no name or value is written outside
    of its buffer, and the loop ends); it consumes at most the input; an error
    makes the decoder refuse all further input; without an error it consumed
    everything unless it reports a header; and NGHTTP2_HD_INFLATE_FINAL is
    reported only for the last piece and only between representations. *)
Theorem inflate_total_safe s bs in_final :
  ok s ->
  exists r s', nghttp2_hd_inflate_hd_nv malloc_ok s bs in_final = Some (r, s') /\ ok s' /\
    match r with
    | Inflate_error rv => rv <> NGHTTP2_SUCCESS /\ bad (ctx s') = true
    | Inflated n nv final =>
        bad (ctx s') = false /\ 0 <= n <= size bs /\
        match nv with
        | Some _ => final = false /\ state s' = NGHTTP2_HD_STATE_OPCODE
        | None => n = size bs /\ final = in_final /\ (final = true -> boundary s')
        end
    end.
Proof.
  intros Hok. destruct (inflate_ok_bad s bs in_final Hok) as (r & s' & Hx & Hr).
  exists r, s'. split; [done|]. split; [by eapply result_keeps|]. destruct Hr as [_ Hr].
  destruct r; [done|]. rewrite !Z.add_0_l in Hr. tauto.
Qed.

(** C13. The peer does not control the memory of the decoder: in any session
    from [nghttp2_hd_inflate_init], with any pieces of input, ends of blocks
    and changes of the local settings (32-bit values), and whichever allocation fails,
    nothing gets stuck; the entries that the dynamic table holds, as its indices give
    them, never take more than the size in the local settings, where an entry takes
    the length of its name, that of its value, and 32 bytes (RFC 7541, section 4.1);
    [hd_table_bufsize] is what they take; and the error state is never left. *)
Theorem inflate_session_bounded default_size hc m s es1 es2 :
  0 <= default_size <= UINT32_MAX ->
  nghttp2_hd_inflate_init malloc_ok default_size hc m = (NGHTTP2_SUCCESS, Some s) ->
  Forall event_ok (es1 ++ es2) ->
  exists s1 s2, exec_events s es1 = Some s1 /\ exec_events s1 es2 = Some s2 /\
    (exists l, len (hd_table (ctx s2)) = Z.of_nat (length l) /\
       (forall i nv, l !! i = Some nv -> nghttp2_hd_table_get (ctx s2) (Z.of_nat i + 61) = Some nv) /\
       hd_table_bufsize (ctx s2) = rfc_size l /\
       rfc_size l <= hd_table_bufsize_max (ctx s2) <= settings_hd_table_bufsize_max s2) /\
    (bad (ctx s1) = true -> bad (ctx s2) = true).
Proof.
  intros Hd Hinit Hes. apply inflate_init_ok in Hinit as (Hi & _); [|done].
  assert (Hall : forall es s, ok s -> Forall event_ok es ->
    exists s', exec_events s es = Some s' /\ ok s' /\ (bad (ctx s) = true -> bad (ctx s') = true)).
  { clear. induction es as [|e es IH]; intros s Hok Hes; cbn [exec_events]; [by exists s|].
    apply Forall_cons in Hes as [He Hes].
    destruct (exec_event_ok s e Hok He) as (s1 & -> & Hok1 & Hb1).
    destruct (IH s1 Hok1 Hes) as (s2 & Hx & Hok2 & Hb2). exists s2. cbn. split; [done|]. split; [done|]. tauto. }
  apply Forall_app in Hes as [He1 He2].
  assert (Hok : ok s) by (split; [exists []; apply Hi|intros _; by exists []]).
  destruct (Hall es1 s Hok He1) as (s1 & Hx1 & Hok1 & _).
  destruct (Hall es2 s1 Hok1 He2) as (s2 & Hx2 & [(l & [[Hb He Hf] Hm _ _]) _] & Hbad).
  exists s1, s2. split; [done|]. split; [done|]. destruct (base_length _ _ Hb) as [_ Hlen]. split; [|done].
  exists (ent_nv <$> l). rewrite length_fmap, <- rooms_rfc. split; [done|]. split; [|by destruct Hb].
  intros i nv Hnv. rewrite list_lookup_fmap in Hnv. destruct (l !! i) as [e|] eqn:Ee; [|done].
  cbn in Hnv. simplify_eq. by eapply table_get_dynamic.
Qed.
End Safety.

(** ** An instance for the examples: the decoder of the small code *)
Section Sample.
#[local] Existing Instance sample_code.

#[local, refine] Instance sample_decoder : HuffmanDecoder := {
  huff_decode_context := bool;
  nghttp2_hd_huff_decode_context_init := false;
  nghttp2_hd_huff_decode started src fin :=
    if started : bool then inr (size src, src, true)
    else
      match src with
      | 0 :: r => inr (size src, 119 :: 119 :: r, true)
      | 1 :: r => inr (size src, r, true)
      | [] => if fin : bool then inl NGHTTP2_ERR_HEADER_COMP else inr (0, [], false)
      | _ => inl NGHTTP2_ERR_HEADER_COMP
      end;
  nghttp2_hd_huff_decode_failure_state _ := false
}.
Proof.
  - intros. repeat case_match; done.
  - intros c src fin n out c' Hd. unfold size.
    repeat case_match; simplify_eq; cbn [length]; try done; split; try done; lia.
  - intros s. unfold huff_code, sample_code.
    repeat case_match; simplify_eq; exists true; by rewrite ?drop_0.
Defined.

Definition sample_ctx0 : hd_context := mkCtx (mkRing (replicate 128 None) 127 0 0) 0 4096 0 false 1%nat.

Definition sample_hc : @huff_decode_context sample_code sample_decoder := false.

Definition sample_inflater : inflater huff_decode_context :=
  mkInflater sample_ctx0 sample_hc (mkBuf [] 0) (mkBuf [] 0) None None 0 0 4096 UINT32_MAX 0
    NGHTTP2_HD_OPCODE_NONE NGHTTP2_HD_STATE_INFLATE_START false false false.

Lemma sample_inflater_init :
  nghttp2_hd_inflate_init (fun _ => true) 4096 sample_hc 0%nat
    = (NGHTTP2_SUCCESS, Some sample_inflater).
Proof. vm_compute. reflexivity. Qed.

Lemma sample_inflater_ok : ok sample_inflater.
Proof.
  destruct (inflate_init_ok (fun _ => true) 4096 sample_hc 0%nat sample_inflater
    ltac:(unfold UINT32_MAX; lia) sample_inflater_init) as (Hi & _).
  split; [exists []; apply Hi|intros _; by exists []].
Qed.

(** "x-a: www", with the value Huffman coded, cut in the middle of the value. *)
Lemma inflate_total_safe_witness :
  exists s', nghttp2_hd_inflate_hd_nv (fun _ => true) sample_inflater [0x40; 3; 120; 45; 97; 0x82; 0] false
      = Some (Inflated 7 None false, s') /\ ok s' /\ bad (ctx s') = false.
Proof.
  destruct (inflate_total_safe (fun _ => true) sample_inflater [0x40; 3; 120; 45; 97; 0x82; 0] false
    sample_inflater_ok) as (r & s' & Hx & Hok & Hr).
  vm_compute in Hx. injection Hx as <- <-. eexists. split; [vm_compute; reflexivity|].
  split; [exact Hok|]. by destruct Hr.
Defined.

Definition sample_events : list event :=
  [Ev_inflate [0x40; 3; 120; 45; 97; 0x82; 0] false; Ev_inflate [119] true; Ev_inflate [] true;
   Ev_end_headers; Ev_settings 10].

Lemma inflate_session_bounded_witness :
  exists s1 s2, exec_events (fun _ => true) sample_inflater sample_events = Some s1 /\
    len (hd_table (ctx s1)) = 0 /\
    exec_events (fun _ => true) s1 [Ev_inflate [0x82] true] = Some s2 /\ bad (ctx s2) = true /\
    exists l, len (hd_table (ctx s2)) = Z.of_nat (length l) /\
      (forall i nv, l !! i = Some nv -> nghttp2_hd_table_get (ctx s2) (Z.of_nat i + 61) = Some nv) /\
      hd_table_bufsize (ctx s2) = rfc_size l /\
      rfc_size l <= hd_table_bufsize_max (ctx s2) <= settings_hd_table_bufsize_max s2.
Proof.
  destruct (inflate_session_bounded (fun _ => true) 4096 sample_hc 0%nat sample_inflater
    sample_events [Ev_inflate [0x82] true] ltac:(unfold UINT32_MAX; lia) sample_inflater_init)
    as (s1 & s2 & H1 & H2 & Hb & _).
  { repeat constructor; unfold UINT32_MAX; lia. }
  exists s1, s2. split; [exact H1|]. vm_compute in H1. injection H1 as <-.
  split; [reflexivity|]. split; [exact H2|]. split; [|exact Hb]. vm_compute in H2. by injection H2 as <-.
Defined.
End Sample.

End HdInflate.
