(* ===== verification/HdDecode.v ===== *)
(** The HPACK decoder decodes HPACK: [nghttp2_hd_inflate_hd_nv] on the bytes of
    representations does what RFC 7541 says of these representations
    (HdRepr.v), when no allocation fails. *)

From S2P Require Export HdInflate.
Export HdInflate.
Open Scope Z_scope.

Module HdDecode.

Section Decode.
Context `{HuffmanDecoder}.
Variable malloc_ok : mem -> bool.
Hypothesis no_failure : forall m, malloc_ok m = true.
Abbreviation inflater := (inflater huff_decode_context).

(** ** Turns that succeed, and loops *)

Abbreviation does := (wp (fun _ : inflater => False) (fun _ _ => False)).

(** From here the loop returns, having consumed [k] more bytes. *)
Definition loops (in_final : bool) (bs : list Z) (busy : bool) (s : inflater)
    (P : Z -> option hd_nv -> bool -> inflater -> Prop) : Prop :=
  exists f0, forall f n, (f0 <= f)%nat ->
    exists k nv final s', inflate_loop malloc_ok f in_final n bs busy s = Some (Inflated (n + k) nv final, s') /\
      P k nv final s'.

Lemma loops_turn in_final bs busy s P :
  bs <> [] \/ busy = true ->
  does (step malloc_ok bs) s (fun t s' =>
    match t with
    | Go j busy' => loops in_final (drop (Z.to_nat j) bs) busy' s' (fun k => P (j + k))
    | Emit j nv => P j (Some nv) false s'
    end) ->
  loops in_final bs busy s P.
Proof.
  intros Hrun Hstep. unfold wp in Hstep.
  assert (Hb : bool_decide (bs <> []) || busy = true).
  { destruct Hrun as [Hne | ->]; [by rewrite bool_decide_true|by rewrite orb_true_r]. }
  destruct (step malloc_ok bs s) as [[j busy'|j nv] s'|rv s'|j s'|] eqn:Es; try (by destruct Hstep).
  - destruct Hstep as [f0 Hf]. exists (S f0). intros [|f] n Hle; [lia|]. cbn [inflate_loop].
    rewrite Hb, Es. destruct (Hf f (n + j) ltac:(lia)) as (k & nv & fl & s2 & Hl & HP).
    exists (j + k), nv, fl, s2. split; [|done]. rewrite Hl. do 3 f_equal. lia.
  - exists 1%nat. intros [|f] n Hle; [lia|]. cbn [inflate_loop]. rewrite Hb, Es. by eexists _, _, _, _.
Qed.

Lemma loops_mono in_final bs busy s P Q :
  loops in_final bs busy s P -> (forall k nv f s', P k nv f s' -> Q k nv f s') -> loops in_final bs busy s Q.
Proof.
  intros [f0 Hf] HPQ. exists f0. intros f n Hle. destruct (Hf f n Hle) as (k & nv & fl & s' & Hl & HP).
  exists k, nv, fl, s'. split; [done|]. by apply HPQ.
Qed.

(** The end of the input. *)
Lemma loops_end in_final s (P : Z -> option hd_nv -> bool -> inflater -> Prop) :
  (in_final = true -> boundary s) -> P 0 None in_final s -> loops in_final [] false s P.
Proof.
  intros Hb HP. exists 1%nat. intros [|f] n Hle; [lia|]. cbn [inflate_loop].
  exists 0, None, in_final, s. rewrite Z.add_0_r. split; [|done].
  destruct in_final; [|done]. destruct (Hb eq_refl) as [-> | ->]; done.
Qed.

(** ** The fuel of a call is enough *)

Lemma loop_more f f' in_final n bs busy s r :
  inflate_loop malloc_ok f in_final n bs busy s = Some r -> (f <= f')%nat ->
  inflate_loop malloc_ok f' in_final n bs busy s = Some r.
Proof.
  revert f' n bs busy s. induction f as [|f IH]; intros f' n bs busy s Hr Hle.
  - destruct f' as [|f']; [done|]. cbn [inflate_loop] in *.
    destruct (bool_decide (bs <> []) || busy); done.
  - destruct f' as [|f']; [lia|]. cbn [inflate_loop] in *.
    destruct (bool_decide (bs <> []) || busy); [|done].
    destruct (step malloc_ok bs s) as [[j b|j nv] s'|rv s'|j s'|]; try done. apply IH; [done|lia].
Qed.

Lemma loops_call in_final bs s P l :
  inv s l -> bad (ctx s) = false -> loops in_final bs false s P ->
  exists k nv final s', nghttp2_hd_inflate_hd_nv malloc_ok s bs in_final = Some (Inflated k nv final, s') /\
    P k nv final s'.
Proof.
  intros Hinv Hb [f0 Hf]. unfold nghttp2_hd_inflate_hd_nv. rewrite Hb.
  destruct (inflate_loop_ok malloc_ok (inflate_fuel bs) in_final 0 bs false s l Hinv Hb) as (r & s1 & Hl & _);
    [done|pose proof (rank_bound s); unfold inflate_fuel, size; lia|].
  destruct (Hf (Nat.max f0 (inflate_fuel bs)) 0 ltac:(lia)) as (k & nv & fl & s' & Hl' & HP).
  rewrite (loop_more _ (Nat.max f0 (inflate_fuel bs)) _ _ _ _ _ _ Hl) in Hl' by lia.
  injection Hl' as -> ->. rewrite Hl. by exists k, nv, fl, s'.
Qed.

(** ** Lengths and strings *)

Lemma drop_encoded (xs ys : list Z) : drop (Z.to_nat (size xs)) (xs ++ ys) = ys.
Proof. unfold size. rewrite Nat2Z.id. apply drop_app_length. Qed.

Lemma read_len_does first prefix n maxlen rest s (Q : Z * bool -> inflater -> Prop) :
  (first, prefix) ∈ first_bytes -> 0 <= n <= UINT32_MAX -> n <= maxlen -> left s = 0 -> shift s = 0 ->
  (forall sh, Q (size (encode_length first n prefix), true) (set_left n (set_shift sh s))) ->
  does (hd_inflate_read_len (encode_length first n prefix ++ rest) prefix maxlen) s Q.
Proof.
  intros Hf Hn Hmax Hl Hs HQ. unfold hd_inflate_read_len. wp_steps. rewrite Hl, Hs.
  destruct (encode_decode first n prefix rest) as (Hlen & _ & _ & sh & Hd);
    [by eapply first_bytes_prefix|done|].
  change (u32 0) with 0. rewrite Hd. wp_steps. replace (maxlen <? n) with false by lia. wp_steps.
  rewrite <- Hlen. apply HQ.
Qed.

(** What stays the same while a literal is read; [fr_name] is its new name. *)
Record frame := mkFrame {
  fr_l : list hd_entry; fr_max : Z; fr_settings : Z; fr_min : Z; fr_opcode : opcode_t; fr_required : bool;
  fr_no_index : bool; fr_index : Z; fr_name : option (list Z)
}.

Definition in_frame (f : frame) (s : inflater) : Prop :=
  table_within (ctx s) (fr_settings f) (fr_min f) (fr_l f) /\ hd_table_bufsize_max (ctx s) = fr_max f /\
  bad (ctx s) = false /\ settings_hd_table_bufsize_max s = fr_settings f /\
  min_hd_table_bufsize_max s = fr_min f /\ opcode s = fr_opcode f /\ index_required s = fr_required f /\
  no_index s = fr_no_index f /\ i_index s = fr_index f /\
  match fr_name f with Some nm => namercbuf s = Some nm | None => True end.

(** The buffer and the reference counted buffer of a name or a value. *)
Definition getb (v : bool) : inflater -> buf := if v then valuebuf else namebuf.
Definition setb (v : bool) : buf -> inflater -> inflater := if v then set_valuebuf else set_namebuf.
Definition getrc (v : bool) : inflater -> option (list Z) := if v then valuercbuf else namercbuf.
Definition setrc (v : bool) : option (list Z) -> inflater -> inflater :=
  if v then set_valuercbuf else set_namercbuf.

(** A name is read before there is one. *)
Definition reads (f : frame) (v : bool) : Prop := v = true \/ fr_name f = None.

Lemma in_frame_setrc f v x s : reads f v -> in_frame f s -> in_frame f (setrc v x s).
Proof.
  intros Hr Hf. unfold in_frame in *. destruct v; [exact Hf|]. destruct Hr as [?|Hn]; [done|].
  rewrite Hn in *. exact Hf.
Qed.

Lemma rcbuf_new_does f v n s (Q : () -> inflater -> Prop) :
  in_frame f s -> reads f v ->
  (forall c, in_frame f (setb v (mkBuf [] n) (setrc v (Some []) (set_ctx c s))) ->
     Q tt (setb v (mkBuf [] n) (setrc v (Some []) (set_ctx c s)))) ->
  does (rcbuf_new malloc_ok (setrc v) (setb v) n) s Q.
Proof.
  intros [[[Hb [Ha Ho Hq Htk Hn] Hf] Hm Hs Hmin] Hrest] Hr HQ. unfold rcbuf_new. wp_steps.
  rewrite no_failure. wp_steps. apply HQ.
  assert (Hfr : in_frame f (set_ctx (mkCtx (hd_table (ctx s)) (hd_table_bufsize (ctx s))
    (hd_table_bufsize_max (ctx s)) (next_seq (ctx s)) (bad (ctx s)) (S (ctx_mem (ctx s)))) s)).
  { split; [|exact Hrest]. constructor; [|done..]. destruct Hb. constructor; [by constructor| |done].
    constructor; try done. cbn. eapply Forall_impl; [exact Ho|]. cbn. lia. }
  pose proof (in_frame_setrc f v (Some []) _ Hr Hfr) as Hfr2. by destruct v.
Qed.

(** A string's length is read: its buffer is there. *)
Lemma read_strlen_does f v hst st busy h rest s (Q : turn -> inflater -> Prop) :
  in_frame f s -> reads f v -> left s = 0 -> shift s = 0 -> huffman_encoded s = huff h ->
  size (str_payload h) <= NGHTTP2_HD_MAX_NV ->
  (forall s', in_frame f s' -> state s' = (if huff h then hst else st) ->
     getb v s' = mkBuf [] (if huff h then size (str_payload h) * 2 + 1 else size (str_payload h) + 1) ->
     left s' = size (str_payload h) ->
     (huff h = true -> huff_decode_ctx s' = nghttp2_hd_huff_decode_context_init) ->
     Q (Go (size (encode_length (if huff h then 0x80 else 0) (size (str_payload h)) 7)) busy) s') ->
  does (on_read_strlen malloc_ok (setrc v) (setb v) hst st busy (str_bytes h ++ rest)) s Q.
Proof.
  intros Hf Hr Hl Hs Hh Hsz HQ. unfold on_read_strlen, str_bytes. rewrite <- app_assoc. wp_step.
  apply read_len_does; try done.
  { destruct (huff h); set_solver. }
  { unfold NGHTTP2_HD_MAX_NV, UINT32_MAX, size in *. lia. }
  intros sh. cbn [negb snd fst]. do 4 wp_step. cbn [huffman_encoded set_left set_shift left]. rewrite Hh.
  destruct (huff h); do 6 (try wp_step).
  - apply (rcbuf_new_does f); [exact Hf|done|]. intros c Hc. wp_steps. by destruct v; apply HQ.
  - apply (rcbuf_new_does f); [exact Hf|done|]. intros c Hc. wp_steps. by destruct v; apply HQ.
Qed.

Lemma check_strlen_does next h rest s (Q : () -> inflater -> Prop) :
  Q tt (set_shift 0 (set_left 0 (set_state next (set_huffman_encoded (huff h) s)))) ->
  does (on_check_strlen next (str_bytes h ++ rest)) s Q.
Proof.
  intros HQ. unfold on_check_strlen, hd_inflate_set_huffman_encoded, str_bytes.
  set (n := size (str_payload h)).
  destruct (encode_length_cons (if huff h then 0x80 else 0) 7 n) as [tl Ht];
    [destruct (huff h); set_solver|unfold n, size; lia|].
  rewrite Ht. cbn [app peek]. wp_steps.
  assert (Hx : 0 <= Z.min n (2 ^ 7 - 1) < 128) by (unfold n, size; lia).
  assert (Hbit : negb (Z.land ((if huff h then 128 else 0) + Z.min n (2 ^ 7 - 1)) (Z.shiftl 1 7) =? 0) = huff h).
  { pose proof (seven_bits (fun x => negb (Z.land (128 + x) (Z.shiftl 1 7) =? 0) &&
      (Z.land (0 + x) (Z.shiftl 1 7) =? 0)) ltac:(vm_compute; reflexivity) _ Hx) as Hb.
    cbn beta in Hb. apply andb_true_iff in Hb as [Hb1 Hb2].
    destruct (huff h); [exact Hb1|]. by rewrite Hb2. }
  rewrite Hbit. exact HQ.
Qed.

(** A string's bytes are read. *)
Lemma read_does f v h rest s (Q : Z -> inflater -> Prop) :
  in_frame f s -> left s = size (str_payload h) -> size (str_payload h) <= NGHTTP2_HD_MAX_NV ->
  getb v s = mkBuf [] (if huff h then size (str_payload h) * 2 + 1 else size (str_payload h) + 1) ->
  (huff h = true -> huff_decode_ctx s = nghttp2_hd_huff_decode_context_init) ->
  (forall s' cap, in_frame f s' -> left s' = 0 -> getb v s' = mkBuf (str h) cap -> size (str h) < cap ->
     Q (size (str_payload h)) s') ->
  does ((if huff h then hd_inflate_read_huff else hd_inflate_read) (getb v) (setb v) (str_payload h ++ rest)) s Q.
Proof.
  intros Hf Hl Hsz Hbuf Hhc HQ. unfold str_payload in *. destruct (huff h).
  - unfold hd_inflate_read_huff. wp_steps. rewrite Hl, (Hhc eq_refl).
    destruct (huff_decode_code (str h)) as (c' & Hd & Hfail).
    replace (size (huff_code (str h)) <=? size (huff_code (str h) ++ rest)) with true
      by (unfold size; rewrite length_app; lia).
    replace (take _ (huff_code (str h) ++ rest)) with (huff_code (str h))
      by (unfold size; by rewrite Nat2Z.id, take_app_length).
    rewrite Hd. wp_steps. rewrite Hbuf. unfold buf_append. cbn [buf_bytes buf_cap].
    destruct (huff_decode_reads _ _ _ _ _ _ Hd) as [_ Hout].
    replace (_ <? _) with false by (unfold size in *; cbn [length]; lia). wp_steps. rewrite Hfail. wp_steps.
    rewrite Z.sub_diag. change (u64 0) with 0.
    destruct v; (eapply HQ; [exact Hf|done|done|lia]).
  - unfold hd_inflate_read. wp_steps. rewrite Hl.
    replace (Z.min (size (str h ++ rest)) (size (str h))) with (size (str h))
      by (unfold size; rewrite length_app; lia).
    replace (take _ (str h ++ rest)) with (str h) by (unfold size; by rewrite Nat2Z.id, take_app_length).
    rewrite Hbuf. unfold buf_append. cbn [buf_bytes buf_cap].
    replace (_ <? _) with false by (unfold size in *; cbn [length]; lia). wp_steps.
    rewrite Z.sub_diag. change (u64 0) with 0.
    destruct v; (eapply HQ; [exact Hf|done|done|lia]).
Qed.

(** ** Committing a literal *)

(** The name of the literal, and its token. *)
Definition lit_name (f : frame) : option (list Z * Z) :=
  match fr_opcode f with
  | NGHTTP2_HD_OPCODE_NEWNAME => nm ← fr_name f; Some (nm, lookup_token nm)
  | _ => e ← spec_get (ent_nv <$> fr_l f) (fr_index f); Some (nv_name e, nv_token e)
  end.

(** The flags of the representation are those of [mode]. *)
Definition frame_mode (f : frame) (mode : indexing_mode) : Prop :=
  fr_required f = bool_decide (mode = NGHTTP2_HD_WITH_INDEXING) /\
  fr_no_index f = bool_decide (mode = NGHTTP2_HD_NEVER_INDEXING).

(** The decoder has the table [t] and did not fail. *)
Definition stands (s : inflater) (t : table) (settings min : Z) : Prop :=
  exists l, table_within (ctx s) settings min l /\ t = (hd_table_bufsize_max (ctx s), ent_nv <$> l) /\
    bad (ctx s) = false /\ settings_hd_table_bufsize_max s = settings /\ min_hd_table_bufsize_max s = min.

Lemma add_no_failure c nv l rv c' m :
  table_ok c l -> add_hd_table_incremental malloc_ok c nv None 0 = Some (rv, c', m) -> rv = NGHTTP2_SUCCESS.
Proof.
  intros _. unfold add_hd_table_incremental, hd_ringbuf_push_front, hd_ringbuf_reserve.
  destruct (evict _ c None) as [[c1 m1]|]; [|done]. rewrite !no_failure. cbn [negb].
  destruct (_ <? _); [by intros [= <- _ _]|]. destruct (_ <=? _); by intros [= <- _ _].
Qed.

Lemma add_entry_does f s nv err (Q : () -> inflater -> Prop) :
  in_frame f s -> size (nv_name nv) <= UINT32_MAX -> size (nv_value nv) <= UINT32_MAX ->
  nv_token nv = lookup_token (nv_name nv) ->
  (forall c, stands (set_ctx c s) (spec_op (fr_max f, ent_nv <$> fr_l f) (Op_add nv 0)) (fr_settings f) (fr_min f) ->
     Q tt (set_ctx c s)) ->
  does (add_entry malloc_ok nv err) s Q.
Proof.
  intros ([Ht Hm Hs Hmin] & Hmax & Hb & Hse & Hmi & _) Hn Hv Htok HQ. unfold add_entry. wp_steps.
  destruct (add_spec malloc_ok (ctx s) nv None 0 (fr_l f)) as (rv & c & m & Hadd & Hcm & Hcb & _ & Hrv); try done.
  { unfold nv_room, entry_room, NGHTTP2_HD_ENTRY_OVERHEAD, SIZE_LIMIT, UINT32_MAX in *. lia. }
  rewrite Hadd. apply (add_no_failure _ _ _ _ _ _ Ht) in Hadd as ->. wp_steps. destruct Hrv as [Hrv _].
  eapply HQ. eexists. split; [constructor; cbn; [exact Hrv|lia|done|done]|].
  cbn [ctx set_ctx]. split; [|split; [congruence|by split]].
  rewrite Hcm, <- (added_fmap _ _ _ 0), Hmax. done.
Qed.

(** A name in the frame is short. *)
Lemma lit_name_short f s name token :
  in_frame f s -> lit_name f = Some (name, token) ->
  (forall nm, fr_name f = Some nm -> size nm <= 2 * NGHTTP2_HD_MAX_NV) ->
  size name <= UINT32_MAX /\ token = lookup_token name.
Proof.
  intros (Ht & _ & _ & Hse & Hmi & _) Hl Hnm. unfold lit_name in Hl.
  assert (Hget : (e ← spec_get (ent_nv <$> fr_l f) (fr_index f); Some (nv_name e, nv_token e)) = Some (name, token) ->
    size name <= UINT32_MAX /\ token = lookup_token name).
  { destruct (spec_get _ _) as [e|] eqn:Ee; [|done]. cbn. intros [= <- <-]. split.
    - apply (spec_get_short s (fr_l f) (fr_index f)); [|done]. unfold table_inv. by rewrite Hse, Hmi.
    - destruct Ht as [Ht _ _ _]. by eapply spec_get_token. }
  destruct (fr_opcode f); try (by apply Hget).
  destruct (fr_name f) as [nm|]; [|done]. cbn in Hl. injection Hl as -> <-. split; [|done].
  specialize (Hnm name eq_refl). unfold NGHTTP2_HD_MAX_NV, UINT32_MAX in *. lia.
Qed.

Lemma commit_does f mode s name token value (Q : hd_nv -> inflater -> Prop) :
  in_frame f s -> frame_mode f mode -> lit_name f = Some (name, token) ->
  (fr_opcode f <> NGHTTP2_HD_OPCODE_NEWNAME -> 0 <= fr_index f) ->
  (forall nm, fr_name f = Some nm -> size nm <= 2 * NGHTTP2_HD_MAX_NV) ->
  valuercbuf s = Some value -> size value <= UINT32_MAX ->
  (forall s', let '(t, nv) := spec_literal (fr_max f, ent_nv <$> fr_l f) mode name value token in
     stands s' t (fr_settings f) (fr_min f) -> Q nv s') ->
  does (if decide (opcode s = NGHTTP2_HD_OPCODE_NEWNAME) then hd_inflate_commit_newname malloc_ok
        else hd_inflate_commit_indname malloc_ok) s Q.
Proof.
  intros Hf [Hreq Hni] Hl Hi Hnm Hv Hvs HQ. destruct (lit_name_short _ _ _ _ Hf Hl Hnm) as [Hns Htok].
  pose proof Hf as (Ht & Hmax & Hb & Hse & Hmi & Hop & Hrq & Hno & Hix & Hname).
  unfold spec_literal in HQ. rewrite <- Hni in HQ.
  assert (Hsame : mode <> NGHTTP2_HD_WITH_INDEXING -> forall s', ctx s' = ctx s ->
    settings_hd_table_bufsize_max s' = settings_hd_table_bufsize_max s ->
    min_hd_table_bufsize_max s' = min_hd_table_bufsize_max s ->
    Q (mkNv name value token (fr_no_index f)) s').
  { intros Hm s' Hc Hs1 Hs2. apply HQ. rewrite decide_False by done. exists (fr_l f). rewrite Hc, Hs1, Hs2.
    split; [done|]. split; [by rewrite Hmax|done]. }
  unfold lit_name in Hl.
  destruct (decide (opcode s = NGHTTP2_HD_OPCODE_NEWNAME)) as [Hnew|Hnew].
  - rewrite <- Hop, Hnew in Hl. destruct (fr_name f) as [nm|]; [|done]. cbn in Hl. simplify_eq.
    unfold hd_inflate_commit_newname. wp_steps. rewrite Hname, Hv, Hno, Hrq, Hreq. wp_step.
    destruct (decide (mode = NGHTTP2_HD_WITH_INDEXING)) as [Hm|Hm].
    + rewrite bool_decide_true by done. eapply add_entry_does; try done.
      intros c Hst. wp_steps. by apply HQ.
    + rewrite bool_decide_false by done. wp_steps. by apply Hsame.
  - assert (Hl' : (e ← spec_get (ent_nv <$> fr_l f) (fr_index f); Some (nv_name e, nv_token e)) = Some (name, token))
      by (rewrite <- Hop in Hl; by destruct (opcode s)).
    destruct (spec_get _ _) as [e|] eqn:Ee; [|done]. cbn in Hl'. injection Hl' as <- <-.
    unfold hd_inflate_commit_indname. wp_steps. destruct Ht as [Ht _ _ _].
    rewrite Hix, (table_get_spec _ _ _ Ht), Ee, Hv, Hno, Hrq, Hreq by (apply Hi; congruence). wp_step.
    destruct (decide (mode = NGHTTP2_HD_WITH_INDEXING)) as [Hm|Hm].
    + rewrite bool_decide_true by done. eapply add_entry_does; try done.
      intros c Hst. wp_steps. by apply HQ.
    + rewrite bool_decide_false by done. wp_steps. by apply Hsame.
Qed.

(** ** Strings in the loop *)

Lemma str_bytes_ne h rest : str_bytes h ++ rest <> [].
Proof.
  unfold str_bytes. destruct (encode_length_cons (if huff h then 0x80 else 0) 7 (size (str_payload h))) as [tl ->];
    [destruct (huff h); set_solver|unfold size; lia|done].
Qed.

Lemma str_bytes_split h rest :
  drop (Z.to_nat (size (encode_length (if huff h then 0x80 else 0) (size (str_payload h)) 7)))
    (str_bytes h ++ rest) = str_payload h ++ rest /\
  size (str_bytes h) = size (encode_length (if huff h then 0x80 else 0) (size (str_payload h)) 7)
    + size (str_payload h).
Proof.
  unfold str_bytes. rewrite <- app_assoc, drop_encoded. split; [done|].
  unfold size. rewrite length_app. lia.
Qed.

Lemma in_frame_check f s next h : 
  in_frame f s -> in_frame f (set_shift 0 (set_left 0 (set_state next (set_huffman_encoded h s)))).
Proof. exact (fun x => x). Qed.

(** The string's content, on whatever coding. *)
Lemma str_short h : size (str_payload h) <= NGHTTP2_HD_MAX_NV -> size (str h) <= 2 * NGHTTP2_HD_MAX_NV.
Proof.
  unfold str_payload, NGHTTP2_HD_MAX_NV. destruct (huff h); [|lia].
  destruct (huff_decode_code (str h)) as (c' & Hd & _). apply huff_decode_reads in Hd as [_ Hd]. lia.
Qed.

Definition with_name (nm : list Z) (f : frame) : frame :=
  mkFrame (fr_l f) (fr_max f) (fr_settings f) (fr_min f) (fr_opcode f) (fr_required f) (fr_no_index f)
    (fr_index f) (Some nm).

Lemma name_loops f h in_final rest s P :
  in_frame f s -> fr_name f = None -> state s = NGHTTP2_HD_STATE_NEWNAME_CHECK_NAMELEN ->
  size (str_payload h) <= NGHTTP2_HD_MAX_NV -> rest <> [] ->
  (forall s', in_frame (with_name (str h) f) s' -> state s' = NGHTTP2_HD_STATE_CHECK_VALUELEN ->
     loops in_final rest false s' (fun k => P (size (str_bytes h) + k))) ->
  loops in_final (str_bytes h ++ rest) false s P.
Proof.
  intros Hf Hnm Hst Hsz Hrest Hnext. destruct (str_bytes_split h rest) as [Hdrop Hsize].
  apply loops_turn; [left; apply str_bytes_ne|]. unfold step. wp_step. wp_step. rewrite Hst.
  apply wp_bind. apply check_strlen_does.
  apply (read_strlen_does f false); try done; [by right|].
  intros s1 Hf1 Hst1 Hb1 Hl1 Hh1. rewrite Hdrop.
  apply loops_turn; [left; by destruct (str_payload h)|]. unfold step. wp_step. wp_step. rewrite Hst1.
  match goal with |- wp _ _ _ _ ?Q => assert (Hgo : does (on_read_name (huff h) (str_payload h ++ rest)) s1 Q);
    [|by destruct (huff h)] end.
  unfold on_read_name. apply wp_bind.
  apply (read_does f false h rest s1); try done. intros s2 cap Hf2 Hl2 Hb2 Hcap. wp_steps.
  rewrite Hl2. cbn [Z.eqb negb]. unfold terminate. wp_steps. cbn [getb] in Hb2. rewrite Hb2. cbn [buf_cap buf_bytes].
  replace (cap <=? size (str h)) with false by lia. wp_steps.
  rewrite drop_encoded. eapply loops_mono; [apply Hnext|].
  - destruct Hf2 as (? & ? & ? & ? & ? & ? & ? & ? & ? & _). repeat (split; [done|]). done.
  - done.
  - intros k nv fl s' HP. rewrite Hsize in HP. by rewrite Z.add_assoc.
Qed.

Lemma value_loops f mode name token h in_final rest s (P : Z -> option hd_nv -> bool -> inflater -> Prop) :
  in_frame f s -> state s = NGHTTP2_HD_STATE_CHECK_VALUELEN ->
  frame_mode f mode -> lit_name f = Some (name, token) ->
  (fr_opcode f <> NGHTTP2_HD_OPCODE_NEWNAME -> 0 <= fr_index f) ->
  (forall nm, fr_name f = Some nm -> size nm <= 2 * NGHTTP2_HD_MAX_NV) ->
  size (str_payload h) <= NGHTTP2_HD_MAX_NV ->
  (forall s', let '(t, nv) := spec_literal (fr_max f, ent_nv <$> fr_l f) mode name (str h) token in
     stands s' t (fr_settings f) (fr_min f) -> state s' = NGHTTP2_HD_STATE_OPCODE ->
     P (size (str_bytes h)) (Some nv) false s') ->
  loops in_final (str_bytes h ++ rest) false s P.
Proof.
  intros Hf Hst Hmode Hlit Hi Hnm Hsz HP. destruct (str_bytes_split h rest) as [Hdrop Hsize].
  apply loops_turn; [left; apply str_bytes_ne|]. unfold step. wp_step. wp_step. rewrite Hst.
  apply wp_bind. apply check_strlen_does.
  apply (read_strlen_does f true); try done; [by left|].
  intros s1 Hf1 Hst1 Hb1 Hl1 Hh1. rewrite Hdrop. apply loops_turn; [by right|].
  unfold step. wp_step. wp_step. rewrite Hst1.
  match goal with |- wp _ _ _ _ ?Q => assert (Hgo : does (on_read_value malloc_ok (huff h) (str_payload h ++ rest)) s1 Q);
    [|by destruct (huff h)] end.
  unfold on_read_value. apply wp_bind.
  apply (read_does f true h rest s1); try done. intros s2 cap Hf2 Hl2 Hb2 Hcap. wp_step. wp_step.
  rewrite Hl2. cbn [Z.eqb negb]. unfold terminate. do 3 wp_step. cbn [getb] in Hb2. rewrite Hb2. cbn [buf_cap buf_bytes].
  replace (cap <=? size (str h)) with false by lia. do 4 wp_step.
  pose proof (str_short h Hsz) as Hsh.
  eapply (commit_does f mode _ name token (str h)); try done; [unfold NGHTTP2_HD_MAX_NV, UINT32_MAX in *; lia|].
  intros s3. specialize (HP (set_state NGHTTP2_HD_STATE_OPCODE s3)).
  destruct (spec_literal _ _ _ _ _) as [t nv]. intros Hstands. wp_steps. rewrite <- Hsize. by apply HP.
Qed.

(** ** Representations in the loop *)

(** The bits of a first byte. *)
Lemma first_byte_bits (g : Z -> bool) first k :
  0 <= first -> first + k < 256 ->
  forallb (fun x => g x || (x <? first) || (first + k <? x)) all_bytes = true ->
  forall x, 0 <= x <= k -> g (first + x) = true.
Proof.
  intros Hf Hk Hall x Hx. pose proof (byte_forall _ Hall (first + x) ltac:(unfold is_byte; lia)) as Hb.
  cbn beta in Hb. lia.
Qed.

(** Where a representation may start. *)
Definition may_start (s : inflater) : Prop :=
  state s = NGHTTP2_HD_STATE_INFLATE_START \/ state s = NGHTTP2_HD_STATE_OPCODE.

Lemma step_start bs s Q : may_start s -> does (on_opcode bs) s Q -> does (step malloc_ok bs) s Q.
Proof. intros Hs Hd. unfold step. wp_steps. by destruct Hs as [-> | ->]. Qed.

Lemma step_update x tl s Q :
  (Z.land x 0xe0 =? 0x20) = true ->
  state s = NGHTTP2_HD_STATE_INFLATE_START \/ state s = NGHTTP2_HD_STATE_EXPECT_TABLE_SIZE ->
  Q (Go 0 false) (set_shift 0 (set_left 0 (set_state NGHTTP2_HD_STATE_READ_TABLE_SIZE
    (set_opcode NGHTTP2_HD_OPCODE_INDEXED s)))) ->
  does (step malloc_ok (x :: tl)) s Q.
Proof.
  intros Hx Hst HQ.
  assert (Hgo : does (on_opcode (x :: tl)) s Q).
  { unfold on_opcode. cbn [peek]. wp_steps. rewrite Hx.
    rewrite decide_False by (destruct Hst as [-> | ->]; done). by wp_steps. }
  unfold step. wp_step. wp_step. destruct Hst as [-> | ->]; [done|].
  unfold on_expect_table_size. cbn [peek]. wp_steps. by rewrite Hx.
Qed.

Lemma size_update_loops n in_final rest s t settings min P :
  stands s t settings min -> state s = NGHTTP2_HD_STATE_INFLATE_START \/ state s = NGHTTP2_HD_STATE_EXPECT_TABLE_SIZE ->
  0 <= n <= Z.min min settings -> min <= UINT32_MAX -> 
  (forall s', stands s' (n, fits_nv n t.2) settings UINT32_MAX -> state s' = NGHTTP2_HD_STATE_INFLATE_START ->
     loops in_final rest false s' (fun k => P (size (repr_bytes (Size_update n)) + k))) ->
  loops in_final (repr_bytes (Size_update n) ++ rest) false s P.
Proof.
  intros (l & Ht & -> & Hb & Hse & Hmi) Hst Hn Hmin Hnext. cbn [repr_bytes snd] in *.
  destruct (encode_length_cons 0x20 5 n) as [tl Henc]; [set_solver|lia|].
  assert (Hx : (Z.land (0x20 + Z.min n (2 ^ 5 - 1)) 0xe0 =? 0x20) = true).
  { apply (first_byte_bits (fun x => Z.land x 0xe0 =? 0x20) 0x20 31); try lia. vm_compute. reflexivity. }
  apply loops_turn; [left; by rewrite Henc|]. rewrite Henc. cbn [app].
  apply step_update; [done|done|]. rewrite app_comm_cons, <- Henc.
  change (Z.to_nat 0) with 0%nat. rewrite drop_0.
  apply loops_turn; [left; by rewrite Henc|]. unfold step. wp_step. wp_step. cbn [state set_state set_left set_shift].
  unfold on_read_table_size. wp_steps. cbn [min_hd_table_bufsize_max settings_hd_table_bufsize_max].
  apply read_len_does; try done; [set_solver|lia|rewrite ?Hmi, ?Hse; cbn; rewrite ?Hmi, ?Hse; lia|].
  intros sh. cbn [negb snd fst]. wp_steps. cbn [ctx left set_min_max set_left set_shift set_state set_opcode].
  destruct Ht as [[Hbase Hent Hfit] Hm Hs32 Hmn].
  destruct (shrink_spec l (set_max n (ctx s)) None) as (c & m & -> & Hc & _ & Hsame & _).
  { destruct Hbase. constructor; cbn; try done. unfold SIZE_LIMIT, UINT32_MAX in *. lia. }
  { by destruct Hent. }
  { done. }
  wp_steps. destruct Hsame as (Hcm & _ & Hcb & _). cbn in Hcm, Hcb. rewrite drop_encoded.
  eapply loops_mono; [apply Hnext; [|done]|intros k nv fl s' HP; by rewrite Z.add_0_l].
  eexists. split; [constructor; cbn; [exact Hc|lia|done|unfold UINT32_MAX; lia]|].
  cbn. rewrite Hcm. split; [by rewrite fits_fmap|]. split; [congruence|by split].
Qed.

(** A header representation: its first byte. *)
Lemma step_indexed x tl s Q :
  may_start s -> (Z.land x 0xe0 =? 0x20) = false -> (Z.land x 0x80 =? 0) = false ->
  Q (Go 0 false) (set_shift 0 (set_left 0 (set_state NGHTTP2_HD_STATE_READ_INDEX
    (set_opcode NGHTTP2_HD_OPCODE_INDEXED s)))) ->
  does (step malloc_ok (x :: tl)) s Q.
Proof.
  intros Hst H1 H2 HQ. apply step_start; [done|]. unfold on_opcode. cbn [peek]. wp_steps.
  rewrite H1, H2. cbn [negb]. by wp_steps.
Qed.

Lemma step_literal x tl s (newname req ni : bool) Q :
  may_start s -> (Z.land x 0xe0 =? 0x20) = false -> (Z.land x 0x80 =? 0) = true ->
  (x =? 0x40) || (x =? 0) || (x =? 0x10) = newname ->
  negb (Z.land x 0x40 =? 0) = req -> (Z.land x 0xf0 =? 0x10) = ni ->
  Q (Go (if newname then 1 else 0) false)
    (set_shift 0 (set_left 0 (set_no_index ni (set_index_required req
      (if newname then set_state NGHTTP2_HD_STATE_NEWNAME_CHECK_NAMELEN (set_opcode NGHTTP2_HD_OPCODE_NEWNAME s)
       else set_state NGHTTP2_HD_STATE_READ_INDEX (set_opcode NGHTTP2_HD_OPCODE_INDNAME s)))))) ->
  does (step malloc_ok (x :: tl)) s Q.
Proof.
  intros Hst H1 H2 H3 H4 H5 HQ. apply step_start; [done|]. unfold on_opcode. cbn [peek]. wp_steps.
  rewrite H1, H2, H3. cbn [negb]. rewrite H4, H5. destruct newname; by wp_steps.
Qed.

Lemma indexed_loops i in_final rest s t settings min nv (P : Z -> option hd_nv -> bool -> inflater -> Prop) :
  stands s t settings min -> may_start s -> 0 <= i < UINT32_MAX -> spec_get t.2 i = Some nv ->
  (forall s', stands s' t settings min -> state s' = NGHTTP2_HD_STATE_OPCODE ->
     P (size (repr_bytes (Indexed i))) (Some nv) false s') ->
  loops in_final (repr_bytes (Indexed i) ++ rest) false s P.
Proof.
  intros (l & Ht & -> & Hb & Hse & Hmi) Hst Hi Hget HP. cbn [repr_bytes snd] in *.
  destruct (encode_length_cons 0x80 7 (i + 1)) as [tl Henc]; [set_solver|lia|].
  assert (Hx : (negb (Z.land (0x80 + Z.min (i + 1) (2 ^ 7 - 1)) 0xe0 =? 0x20) &&
    negb (Z.land (0x80 + Z.min (i + 1) (2 ^ 7 - 1)) 0x80 =? 0)) = true).
  { apply (first_byte_bits (fun x => negb (Z.land x 0xe0 =? 0x20) && negb (Z.land x 0x80 =? 0)) 0x80 127);
      try lia. vm_compute. reflexivity. }
  apply andb_true_iff in Hx as [Hx1%negb_true_iff Hx2%negb_true_iff].
  apply loops_turn; [left; by rewrite Henc|]. rewrite Henc. cbn [app].
  apply step_indexed; [done|done|done|]. rewrite app_comm_cons, <- Henc.
  change (Z.to_nat 0) with 0%nat. rewrite drop_0.
  apply loops_turn; [left; by rewrite Henc|]. unfold step. wp_step. wp_step. cbn [state set_state set_left set_shift].
  unfold on_read_index. wp_steps. cbn [opcode set_shift set_left set_state set_opcode ctx].
  rewrite !decide_True by done.
  assert (Hmax : i < get_max_index (ctx s)).
  { destruct Ht as [Ht _ _ _]. pose proof (table_get_spec _ _ _ Ht (proj1 Hi)) as Hg. rewrite Hget in Hg.
    unfold nghttp2_hd_table_get, INDEX_RANGE_VALID in Hg. unfold get_max_index.
    destruct (i <? _) eqn:E in Hg; [|done]. lia. }
  apply read_len_does; try done; [set_solver|lia|lia|].
  intros sh. cbn [negb snd fst]. wp_steps. cbn [left set_left].
  replace (i + 1 =? 0) with false by lia. rewrite decide_True by done.
  unfold hd_inflate_commit_indexed. wp_steps. pose proof Ht as [Htab _ _ _]. cbn. replace (i + 1 - 1) with i by lia.
  rewrite (table_get_spec _ _ _ Htab) by lia. rewrite Hget. wp_steps. rewrite Z.add_0_l.
  apply HP; [|done]. exists l. by repeat (split; [done|]).
Qed.

(** The tests on the first byte of a literal with an indexed name. *)
Definition indname_tests (mode : indexing_mode) (x : Z) : bool :=
  negb (Z.land x 0xe0 =? 0x20) && (Z.land x 0x80 =? 0)
  && negb ((x =? 0x40) || (x =? 0) || (x =? 0x10))
  && Bool.eqb (negb (Z.land x 0x40 =? 0)) (bool_decide (mode = NGHTTP2_HD_WITH_INDEXING))
  && Bool.eqb (Z.land x 0xf0 =? 0x10) (bool_decide (mode = NGHTTP2_HD_NEVER_INDEXING)).

Lemma indname_tests_all mode :
  forallb (fun x => indname_tests mode x || (x <? pack_first_byte mode + 1)
                    || (pack_first_byte mode + 2 ^ mode_prefix mode - 1 <? x)) all_bytes = true.
Proof. destruct mode; vm_compute; reflexivity. Qed.

Lemma indname_byte mode y :
  1 <= y <= 2 ^ mode_prefix mode - 1 ->
  let x := pack_first_byte mode + y in
  (Z.land x 0xe0 =? 0x20) = false /\ (Z.land x 0x80 =? 0) = true /\
  (x =? 0x40) || (x =? 0) || (x =? 0x10) = false /\
  negb (Z.land x 0x40 =? 0) = bool_decide (mode = NGHTTP2_HD_WITH_INDEXING) /\
  (Z.land x 0xf0 =? 0x10) = bool_decide (mode = NGHTTP2_HD_NEVER_INDEXING).
Proof.
  intros Hy x.
  assert (Hb : 0 <= pack_first_byte mode /\ pack_first_byte mode + 2 ^ mode_prefix mode - 1 < 256)
    by (destruct mode; vm_compute; intuition discriminate).
  pose proof (byte_forall _ (indname_tests_all mode) x ltac:(unfold is_byte, x; lia)) as Hx.
  apply orb_true_iff in Hx as [Hx|Hx]; [|unfold x in Hx; lia].
  apply orb_true_iff in Hx as [Hx|Hx]; [|unfold x in Hx; lia].
  unfold indname_tests in Hx. rewrite !andb_true_iff, !negb_true_iff in Hx.
  destruct Hx as [[[[? ?] ?] H1%Bool.eqb_prop] H2%Bool.eqb_prop]. tauto.
Qed.

Lemma indname_loops mode i h in_final rest s t settings min e t' nv
    (P : Z -> option hd_nv -> bool -> inflater -> Prop) :
  stands s t settings min -> may_start s -> 0 <= i < UINT32_MAX -> spec_get t.2 i = Some e ->
  size (str_payload h) <= NGHTTP2_HD_MAX_NV ->
  spec_literal t mode (nv_name e) (str h) (nv_token e) = (t', nv) ->
  (forall s', stands s' t' settings min -> state s' = NGHTTP2_HD_STATE_OPCODE ->
     P (size (repr_bytes (Literal_indname mode i h))) (Some nv) false s') ->
  loops in_final (repr_bytes (Literal_indname mode i h) ++ rest) false s P.
Proof.
  intros (l & Ht & -> & Hb & Hse & Hmi) Hst Hi Hget Hsz Hspec HP. cbn [repr_bytes snd] in *.
  assert (Hpos : 1 <= 2 ^ mode_prefix mode - 1) by (destruct mode; vm_compute; discriminate).
  destruct (encode_length_cons (pack_first_byte mode) (mode_prefix mode) (i + 1)) as [tl Henc];
    [apply mode_first_bytes|lia|].
  assert (Hy : 1 <= Z.min (i + 1) (2 ^ mode_prefix mode - 1) <= 2 ^ mode_prefix mode - 1)
    by (clear -Hpos Hi; lia).
  destruct (indname_byte mode _ Hy) as (H1 & H2 & H3 & H4 & H5).
  rewrite <- app_assoc. apply loops_turn; [left; by rewrite Henc|]. rewrite Henc. cbn [app].
  eapply step_literal; try done. cbn [Z.to_nat]. rewrite drop_0, app_comm_cons, <- Henc.
  apply loops_turn; [left; by rewrite Henc|]. unfold step. wp_step. wp_step. cbn [state set_state set_left set_shift set_no_index set_index_required].
  unfold on_read_index. wp_steps.
  cbn [opcode index_required set_shift set_left set_no_index set_index_required set_state set_opcode ctx].
  rewrite !decide_False by done.
  assert (Hmax : i < get_max_index (ctx s)).
  { destruct Ht as [Ht _ _ _]. pose proof (table_get_spec _ _ _ Ht (proj1 Hi)) as Hg. rewrite Hget in Hg.
    unfold nghttp2_hd_table_get, INDEX_RANGE_VALID in Hg. unfold get_max_index.
    destruct (i <? _) eqn:E in Hg; [|done]. lia. }
  replace (if bool_decide (mode = NGHTTP2_HD_WITH_INDEXING) then 6 else 4) with (mode_prefix mode) by (by destruct mode).
  apply read_len_does; try done; [apply mode_first_bytes|lia|lia|].
  intros sh. cbn [negb snd fst]. wp_steps. cbn [left set_left].
  replace (i + 1 =? 0) with false by lia. wp_steps. rewrite decide_False by done. wp_steps.
  rewrite drop_encoded.
  set (f := mkFrame l (hd_table_bufsize_max (ctx s)) settings min NGHTTP2_HD_OPCODE_INDNAME
    (bool_decide (mode = NGHTTP2_HD_WITH_INDEXING)) (bool_decide (mode = NGHTTP2_HD_NEVER_INDEXING)) i None).
  eapply (value_loops f mode (nv_name e) (nv_token e)); try done.
  - unfold in_frame. cbn. replace (i + 1 - 1) with i by lia. by repeat (split; [done|]).
  - unfold lit_name. cbn. by rewrite Hget.
  - cbn. lia.
  - intros s'. cbn [fr_max fr_l f]. rewrite Hspec. intros Hs' Hst'. cbn [fr_settings fr_min f] in Hs'.
    replace (0 + (size (encode_length (pack_first_byte mode) (i + 1) (mode_prefix mode)) + size (str_bytes h)))
      with (size (encode_length (pack_first_byte mode) (i + 1) (mode_prefix mode) ++ str_bytes h))
      by (unfold size; rewrite length_app; lia).
    by apply HP.
Qed.

Lemma newname_loops mode n h in_final rest s t settings min t' nv
    (P : Z -> option hd_nv -> bool -> inflater -> Prop) :
  stands s t settings min -> may_start s ->
  size (str_payload n) <= NGHTTP2_HD_MAX_NV -> size (str_payload h) <= NGHTTP2_HD_MAX_NV ->
  spec_literal t mode (str n) (str h) (lookup_token (str n)) = (t', nv) ->
  (forall s', stands s' t' settings min -> state s' = NGHTTP2_HD_STATE_OPCODE ->
     P (size (repr_bytes (Literal_newname mode n h))) (Some nv) false s') ->
  loops in_final (repr_bytes (Literal_newname mode n h) ++ rest) false s P.
Proof.
  intros (l & Ht & -> & Hb & Hse & Hmi) Hst Hn Hsz Hspec HP. cbn [repr_bytes snd app] in *.
  rewrite <- app_assoc. apply loops_turn; [by left|].
  eapply (step_literal _ _ _ true (bool_decide (mode = NGHTTP2_HD_WITH_INDEXING))
    (bool_decide (mode = NGHTTP2_HD_NEVER_INDEXING))); try done; try (by destruct mode).
  change (Z.to_nat 1) with 1%nat. rewrite skipn_cons, drop_0.
  set (f := mkFrame l (hd_table_bufsize_max (ctx s)) settings min NGHTTP2_HD_OPCODE_NEWNAME
    (bool_decide (mode = NGHTTP2_HD_WITH_INDEXING)) (bool_decide (mode = NGHTTP2_HD_NEVER_INDEXING))
    (i_index s) None).
  apply (name_loops f); try done; [apply str_bytes_ne|].
  intros s1 Hf1 Hst1.
  eapply (value_loops (with_name (str n) f) mode (str n) (lookup_token (str n))); try done.
  - intros nm [= <-]. by apply str_short.
  - intros s'. cbn [fr_max fr_l f with_name]. rewrite Hspec. intros Hs' Hst'. cbn [fr_settings fr_min f] in Hs'.
    replace (1 + (size (str_bytes n) + size (str_bytes h)))
      with (size (pack_first_byte mode :: str_bytes n ++ str_bytes h))
      by (unfold size; cbn [length]; rewrite length_app; lia).
    by apply HP.
Qed.

Lemma header_loops r in_final rest s t settings min t' nv
    (P : Z -> option hd_nv -> bool -> inflater -> Prop) :
  stands s t settings min -> may_start s -> is_header r = true -> repr_ok NGHTTP2_HD_MAX_NV r ->
  spec_repr t r = Some (t', Some nv) ->
  (forall s', stands s' t' settings min -> state s' = NGHTTP2_HD_STATE_OPCODE ->
     P (size (repr_bytes r)) (Some nv) false s') ->
  loops in_final (repr_bytes r ++ rest) false s P.
Proof.
  intros Hs Hst Hh Hok Hspec HP. destruct r as [n|i|mode i v|mode n v]; cbn [spec_repr repr_ok] in *; [done| | |].
  - destruct (spec_get t.2 i) as [e|] eqn:Hg; [|done]. injection Hspec as <- <-. by eapply indexed_loops.
  - destruct (spec_get t.2 i) as [e|] eqn:Hg; [|done]. cbn [mbind option_bind] in Hspec.
    destruct (spec_literal t mode (nv_name e) (str v) (nv_token e)) as [t1 nv1] eqn:El.
    injection Hspec as <- <-. destruct Hok. by eapply indname_loops.
  - destruct (spec_literal t mode (str n) (str v) (lookup_token (str n))) as [t1 nv1] eqn:El.
    injection Hspec as <- <-. destruct Hok. by eapply newname_loops.
Qed.

(** Size updates that the decoder accepts: the first one is at most the
    smallest size announced since the last block, all of them at most the
    current one. *)
Fixpoint updates_ok (settings min : Z) (ups : list repr) : Prop :=
  match ups with
  | [] => True
  | Size_update n :: ups' => 0 <= n <= Z.min min settings /\ updates_ok settings UINT32_MAX ups'
  | _ => False
  end.

(** A block may start: with a size update when the decoder expects one. *)
Definition may_begin (s : inflater) (ups : list repr) : Prop :=
  state s = NGHTTP2_HD_STATE_INFLATE_START \/
  state s = NGHTTP2_HD_STATE_EXPECT_TABLE_SIZE /\ ups <> [].

Lemma updates_loops ups in_final rest s t settings min t' nvs P :
  stands s t settings min -> may_begin s ups -> updates_ok settings min ups -> min <= UINT32_MAX ->
  spec_reprs t ups = Some (t', nvs) ->
  (forall s', stands s' t' settings (if decide (ups = []) then min else UINT32_MAX) ->
     state s' = NGHTTP2_HD_STATE_INFLATE_START ->
     loops in_final rest false s' (fun k => P (size (concat (repr_bytes <$> ups)) + k))) ->
  loops in_final (concat (repr_bytes <$> ups) ++ rest) false s P.
Proof.
  revert s t min P. induction ups as [|r ups IH]; intros s t min P Hs Hst Hup Hmin Hspec Hnext.
  - injection Hspec as -> <-. cbn [fmap list_fmap concat app]. rewrite decide_True in Hnext by done.
    destruct Hst as [Hst|[_ ?]]; [|done]. by apply (Hnext s).
  - destruct r as [n| | |]; [|done..]. destruct Hup as [Hn Hup]. rewrite decide_False in Hnext by done.
    cbn [spec_reprs spec_repr mbind option_bind] in Hspec.
    destruct (spec_reprs (spec_op t (Op_resize n)) ups) as [[t1 nvs1]|] eqn:Hs1; [|done].
    injection Hspec as <- <-. cbn [fmap list_fmap concat]. rewrite <- app_assoc.
    eapply size_update_loops; [done|destruct Hst as [?|[? _]]; auto|done|done|].
    intros s1 Hstands1 Hst1. eapply IH; [done|by left|done|lia|by destruct t|].
    intros s2 Hstands2 Hst2. eapply loops_mono; [apply Hnext; [|done]|].
    + by destruct (decide (ups = [])).
    + intros k nv fl s' HP. cbn [fmap list_fmap concat] in HP. rewrite size_app in HP. by rewrite Z.add_assoc.
Qed.

(** ** Decoding a block *)

(** How an application reads a block: it calls the decoder on what is left
    until the decoder says that this was the end, and collects the headers. *)
Fixpoint decode_block (fuel : nat) (s : inflater) (bs : list Z) : option (list hd_nv * inflater) :=
  match fuel with
  | O => None
  | S fuel' =>
      match nghttp2_hd_inflate_hd_nv malloc_ok s bs true with
      | Some (Inflated _ None true, s) => Some ([], nghttp2_hd_inflate_end_headers s)
      | Some (Inflated n (Some nv) false, s) =>
          '(nvs, s) ← decode_block fuel' s (drop (Z.to_nat n) bs); Some (nv :: nvs, s)
      | _ => None
      end
  end.

Definition starts (s : inflater) : Prop :=
  may_start s \/ state s = NGHTTP2_HD_STATE_EXPECT_TABLE_SIZE.

Lemma stands_inv s t settings min :
  stands s t settings min -> starts s -> exists l, inv s l /\ bad (ctx s) = false.
Proof.
  intros (l & Ht & _ & Hb & Hse & Hmi) Hst. exists l. split; [|done]. split.
  - unfold table_inv. by rewrite Hse, Hmi.
  - unfold state_ok. by destruct Hst as [[-> | ->]|Hst]; [| |rewrite Hst].
Qed.

(** What a call must do so that decoding [bs] gives [nvs] and ends well. *)
Definition call_gives (nvs : list hd_nv) (Q : inflater -> Prop) (fuel : nat) (bs : list Z)
    (k : Z) (nv : option hd_nv) (final : bool) (s : inflater) : Prop :=
  match nv with
  | None => final = true /\ nvs = [] /\ Q (nghttp2_hd_inflate_end_headers s)
  | Some nv => final = false /\ 0 <= k /\ exists nvs', nvs = nv :: nvs' /\
      exists s', decode_block fuel s (drop (Z.to_nat k) bs) = Some (nvs', s') /\ Q s'
  end.

Lemma decode_call nvs Q fuel bs s t settings min :
  stands s t settings min -> starts s -> loops true bs false s (call_gives nvs Q fuel bs) ->
  exists s', decode_block (S fuel) s bs = Some (nvs, s') /\ Q s'.
Proof.
  intros Hs Hst Hl. destruct (stands_inv _ _ _ _ Hs Hst) as (l & Hinv & Hb).
  destruct (loops_call true bs s _ l Hinv Hb Hl) as (k & nv & fl & s1 & Hx & Hg).
  cbn [decode_block]. rewrite Hx. destruct nv as [nv|].
  - destruct Hg as (-> & _ & nvs' & -> & s' & Hd & HQ). rewrite Hd. by exists s'.
  - destruct Hg as (-> & -> & HQ). by eexists.
Qed.

Lemma headers_loops hs fuel s t settings min t' nvs :
  stands s t settings min -> may_start s -> spec_reprs t hs = Some (t', nvs) ->
  Forall (fun r => is_header r = true) hs -> Forall (repr_ok NGHTTP2_HD_MAX_NV) hs ->
  (length hs <= fuel)%nat ->
  loops true (concat (repr_bytes <$> hs)) false s
    (call_gives nvs (fun s' => stands s' t' settings min /\ state s' = NGHTTP2_HD_STATE_INFLATE_START)
       fuel (concat (repr_bytes <$> hs))).
Proof.
  revert fuel s t nvs. induction hs as [|r hs IH]; intros fuel s t nvs Hs Hst Hspec Hh Hok Hf.
  - injection Hspec as <- <-. apply loops_end.
    + intros _. unfold boundary. by destruct Hst; auto.
    + split; [done|]. split; [done|]. split; [|done]. destruct Hs as (l & ? & ? & ? & ? & ?). by exists l.
  - apply Forall_cons in Hh as [Hr Hh]. apply Forall_cons in Hok as [Hrok Hok].
    cbn [spec_reprs] in Hspec. destruct (spec_repr t r) as [[t1 [nv|]]|] eqn:Er; cbn [mbind option_bind] in Hspec; try done.
    2: { destruct r; cbn in Hr, Er; [done| | |]; repeat case_match; simplify_eq.
         all: destruct (spec_get _ _); simplify_eq/=. }
    destruct (spec_reprs t1 hs) as [[t2 nvs2]|] eqn:Es; [|done]. injection Hspec as -> <-.
    destruct fuel as [|fuel]; [cbn [length] in Hf; lia|]. cbn [fmap list_fmap concat].
    eapply header_loops; try done. intros s1 Hs1 Hst1. split; [done|]. split; [unfold size; lia|]. exists nvs2. split; [done|].
    rewrite drop_encoded. eapply decode_call; [done|left; by right|].
    apply (IH fuel s1 t1); try done; [by right|cbn [length] in Hf; lia].
Qed.

(** A block of representations, size updates first. *)
Lemma block_decodes ups hs s t settings min t1 t' nvs fuel :
  stands s t settings min -> may_begin s ups -> updates_ok settings min ups -> min <= UINT32_MAX ->
  spec_reprs t ups = Some (t1, []) -> spec_reprs t1 hs = Some (t', nvs) ->
  Forall (fun r => is_header r = true) hs -> Forall (repr_ok NGHTTP2_HD_MAX_NV) hs ->
  (length hs < fuel)%nat ->
  exists s', decode_block fuel s (concat (repr_bytes <$> ups ++ hs)) = Some (nvs, s') /\
    stands s' t' settings (if decide (ups = []) then min else UINT32_MAX) /\
    state s' = NGHTTP2_HD_STATE_INFLATE_START.
Proof.
  intros Hs Hst Hup Hmin Hsu Hsh Hh Hok Hf. destruct fuel as [|fuel]; [lia|].
  apply (decode_call nvs (fun s' => stands s' t' settings (if decide (ups = []) then min else UINT32_MAX) /\
    state s' = NGHTTP2_HD_STATE_INFLATE_START) fuel _ s t settings min);
    [done|destruct Hst as [?|[? _]]; [by left; left|by right]|].
  rewrite fmap_app, concat_app. eapply updates_loops; try done.
  intros s1 Hs1 Hst1. eapply loops_mono; [eapply (headers_loops hs fuel); try done; [by left|lia]|].
  intros k nv fl s2. unfold call_gives. destruct nv as [nv|]; [|done].
  intros (Hfl & Hk & nvs' & Hnv & s3 & Hd & HQ). split; [done|]. split; [unfold size; lia|].
  exists nvs'. split; [done|]. exists s3. split; [|done].
  rewrite Z2Nat.inj_add by (unfold size; lia). by rewrite <- drop_drop, drop_encoded.
Qed.

End Decode.

End HdDecode.
