(* ===== verification/HdSession.v ===== *)
(** HPACK end to end: an encoder and a decoder of
    src/http2/src/upstream/lib/nghttp2_hd.c at the two ends of a connection.
    The peers exchange table sizes (SETTINGS_HEADER_TABLE_SIZE) and header
    blocks in any order; what the decoder reports is what the encoder was
    given. *)

From S2P Require Export HdDeflate HdDecode.
Export HdDeflate HdDecode.
Open Scope Z_scope.

Module HdSession.

Abbreviation enc_max d := (hd_table_bufsize_max (d_ctx d)).
Abbreviation enc_min := HdDeflate.min_hd_table_bufsize_max.
Abbreviation dec_min := HdInflate.min_hd_table_bufsize_max.
Abbreviation dec_settings := settings_hd_table_bufsize_max.

(** What happens on a connection: the decoding side announces a table size
    and both ends apply it, or the encoding side sends a block. *)
Inductive event := Settings (n : Z) | Block (nvs : list nghttp2_nv).

Section Session.
Context {bufs : Type} `{HuffmanEncoder bufs} `{!HuffmanDecoder}.
Variable malloc_ok : mem -> bool.
Hypothesis no_failure : forall m, malloc_ok m = true.
Abbreviation inflater := (inflater huff_decode_context).

(** The headers reported for each block, and whether the encoder succeeded to
    the end; [None] is a decoding error, or a failed assertion.  [b] is an
    empty output buffer. *)
Fixpoint session (b : bufs) (d : deflater) (s : inflater) (es : list event)
    : option (list (list hd_nv) * bool) :=
  match es with
  | [] => Some ([], true)
  | Settings n :: es =>
      d ← nghttp2_hd_deflate_change_table_size d n;
      '(rv, s) ← nghttp2_hd_inflate_change_table_size s n;
      if decide (rv = NGHTTP2_SUCCESS) then session b d s es else None
  | Block nvs :: es =>
      '(rv, d, b') ← nghttp2_hd_deflate_hd_bufs malloc_ok d b nvs;
      if decide (rv = NGHTTP2_SUCCESS) then
        let bs := bufs_data b' in
        '(out, s) ← decode_block malloc_ok (S (length bs)) s bs;
        '(outs, fin) ← session b d s es;
        Some (out :: outs, fin)
      else Some ([], false)
  end.

Definition event_ok (e : event) : Prop :=
  match e with
  | Settings n => 0 <= n <= UINT32_MAX
  | Block nvs => Forall (nv_ok NGHTTP2_HD_MAX_NV) nvs
  end.

(** The blocks that are sent, as the peer should see them. *)
Fixpoint blocks (es : list event) : list (list hd_nv) :=
  match es with
  | [] => []
  | Settings _ :: es => blocks es
  | Block nvs :: es => (header_of <$> nvs) :: blocks es
  end.

(** ** The two ends agree *)

Record linked (d : deflater) (s : inflater) (t : table) : Prop := {
  lk_enc : exists l, deflater_ok d l /\ follows d l t;
  lk_good : bad (d_ctx d) = false;
  lk_dec : stands s t (dec_settings s) (dec_min s);
  lk_max : enc_max d <= dec_settings s;
  lk_state : if notify_table_size_change d then may_begin s [Size_update 0]
             else state s = NGHTTP2_HD_STATE_INFLATE_START;
  lk_min : if notify_table_size_change d then
             Z.min (enc_min d) (enc_max d) = Z.min (enc_min d) (deflate_hd_table_bufsize_max d) /\
             Z.min (enc_min d) (enc_max d) <= dec_min s
           else enc_min d = UINT32_MAX /\ dec_min s = UINT32_MAX
}.

(** Both ends apply a new size; the encoder may use a smaller one. *)
Lemma linked_settings d s t n :
  linked d s t -> 0 <= n <= UINT32_MAX ->
  exists d' s' t', nghttp2_hd_deflate_change_table_size d n = Some d' /\
    nghttp2_hd_inflate_change_table_size s n = Some (NGHTTP2_SUCCESS, s') /\ linked d' s' t'.
Proof.
  intros [(l & Hd & Hfol) Hbad (l2 & Ht & Htab & Hb & _ & _) Hmax Hst Hmin] Hn.
  destruct (deflate_change_ok d l n Hd Hn) as (d' & Hx & l' & Hd' & Hl' & Hm' & Hb' & Hc' & Hmi' & Hno').
  destruct (inflate_change_ok s l2 n Ht Hn) as (rv & s' & Hy & Hbs & Hrest).
  rewrite bool_decide_true in Hrest.
  2: { destruct (notify_table_size_change d); [destruct Hst as [|[]]|]; auto. }
  destruct Hrest as (-> & Hse & l2' & [Ht' _] & Hcase).
  assert (Hfits : forall m, m <= n -> fits_nv m (ent_nv <$> l2') = fits_nv m t.2).
  { intros m Hm. rewrite Htab. cbn [snd]. destruct (n <? _); [|by destruct Hcase as [-> _]].
    destruct Hcase as [-> _]. rewrite fits_nv_min. f_equal. lia. }
  exists d', s', (hd_table_bufsize_max (ctx s'), ent_nv <$> l2'). split; [done|]. split; [done|].
  constructor; rewrite ?Hno', ?Hm', ?Hmi', ?Hc', ?Hse; [|congruence| |lia| |].
  - exists l'. split; [done|]. unfold follows. rewrite Hno', Hm', Hmi', Hl'. cbn [snd].
    rewrite Hfits by lia. unfold follows in Hfol. destruct (notify_table_size_change d).
    + rewrite Hfol, fits_nv_min. f_equal. lia.
    + destruct Hmin as [-> _]. rewrite Hfol. cbn [snd]. f_equal. lia.
  - exists l2'. split; [unfold table_inv in Ht'; by rewrite Hse in Ht'|]. by rewrite Hbs.
  - destruct (n <? hd_table_bufsize_max (ctx s)).
    + right. by destruct Hcase as (_ & _ & _ & ->).
    + destruct Hcase as (_ & _ & _ & Hcase). unfold may_begin. rewrite Hcase.
      by destruct (notify_table_size_change d); [|left].
  - split; [lia|]. destruct (n <? hd_table_bufsize_max (ctx s)).
    + destruct Hcase as (_ & _ & -> & _). lia.
    + destruct Hcase as (_ & _ & -> & _). destruct (notify_table_size_change d); lia.
Qed.

Lemma repr_bytes_ne r : repr_bytes r <> [].
Proof.
  assert (He : forall b n p, encode_length b n p <> []) by (intros; unfold encode_length; by case_match).
  destruct r as [n|i|mode i v|mode n v]; cbn [repr_bytes]; try apply He; [|done].
  intros [E _]%app_nil. by apply He in E.
Qed.

Lemma reprs_length rs : (length rs <= length (concat (repr_bytes <$> rs)))%nat.
Proof.
  induction rs as [|r rs IH]; [done|]. rewrite fmap_cons. cbn [concat length]. rewrite length_app.
  pose proof (repr_bytes_ne r). destruct (repr_bytes r); [done|]. cbn [length]. lia.
Qed.

(** The decoder accepts the size updates with which the block starts. *)
Lemma linked_updates d s t :
  linked d s t ->
  updates_ok (dec_settings s) (dec_min s) (size_updates d) /\ may_begin s (size_updates d) /\
  (if decide (size_updates d = []) then dec_min s else UINT32_MAX) = UINT32_MAX.
Proof.
  intros [(l & Hd & _) _ _ Hmax Hst Hmin]. destruct Hd as [Ht _ _ _ Hmx Hmn _].
  assert (Hpos : 0 <= enc_max d) by (destruct Ht as [[_ _ _ Hm0] _ _]; lia). unfold size_updates.
  destruct (notify_table_size_change d); [|by split; [|split; [by left|]]; destruct Hmin].
  assert (Hb : forall ups, ups <> [] -> may_begin s ups) by (intros ups ?; destruct Hst as [?|[? _]]; [by left|by right]).
  destruct (enc_min d <? enc_max d) eqn:E; cbn [app updates_ok].
  all: split; [lia|]; split; [by apply Hb|done].
Qed.

Lemma linked_block b d s t nvs :
  linked d s t -> Forall (nv_ok NGHTTP2_HD_MAX_NV) nvs -> bufs_data b = [] ->
  exists rv d' b', nghttp2_hd_deflate_hd_bufs malloc_ok d b nvs = Some (rv, d', b') /\
    (rv = NGHTTP2_SUCCESS -> exists s' t',
       decode_block malloc_ok (S (length (bufs_data b'))) s (bufs_data b') = Some (header_of <$> nvs, s') /\
       linked d' s' t').
Proof.
  intros Hl Hnvs Hb. pose proof (linked_updates _ _ _ Hl) as (Hup & Hbeg & Hmin').
  pose proof Hl as [(l & Hd & Hfol) Hbad Hdec Hmax Hst Hmin].
  destruct (deflate_block_ok malloc_ok NGHTTP2_HD_MAX_NV d l b nvs t Hd Hbad Hfol Hnvs) as
    (rv & d' & b' & l' & Hx & Hd' & Hno & [Hcap Hmi] & Hm & Hrv); [unfold NGHTTP2_HD_MAX_NV, UINT32_MAX; lia|].
  exists rv, d', b'. split; [done|]. intros ->. destruct Hrv as (Hbad' & bs & Hbs & _ & hs & Hcat & Hok & Hhs & Hspec).
  rewrite Hb in Hbs. cbn [app] in Hbs. rewrite Hbs. apply Forall_app in Hok as [_ Hok].
  rewrite spec_reprs_app, (size_updates_spec _ _ _ Hfol) in Hspec. cbn [mbind option_bind app] in Hspec.
  destruct (spec_reprs _ hs) as [[t2 nvs2]|] eqn:Hs2; [|done]. injection Hspec as -> ->.
  destruct (block_decodes malloc_ok no_failure (size_updates d) hs s t (dec_settings s) (dec_min s) _ _ _
    (S (length bs)) Hdec Hbeg Hup ltac:(destruct Hdec as (? & [] & _); lia) (size_updates_spec _ _ _ Hfol) Hs2 Hhs Hok)
    as (s' & Hdb & Hs' & Hst').
  { rewrite Hcat. pose proof (reprs_length (size_updates d ++ hs)) as Hlen. rewrite length_app in Hlen. lia. }
  rewrite <- Hcat in Hdb. eexists s', _. split; [exact Hdb|]. rewrite Hmin' in Hs'.
  assert (Hse : dec_settings s' = dec_settings s /\ dec_min s' = UINT32_MAX) by (by destruct Hs' as (? & _ & _ & _ & ? & ?)).
  destruct Hse as [Hse1 Hse2]. constructor; rewrite ?Hno, ?Hm, ?Hse1, ?Hse2; try done.
  - exists l'. split; [done|]. unfold follows. by rewrite Hno.
  - split; [|done]. rewrite Hmi. destruct (notify_table_size_change d); [done|by destruct Hmin].
Qed.

(** The ends as they are initialised. *)
Lemma linked_init default_size cap m1 hc m2 d s :
  0 <= default_size <= UINT32_MAX -> 0 <= cap ->
  nghttp2_hd_deflate_init2 malloc_ok default_size cap m1 = (NGHTTP2_SUCCESS, Some d) ->
  nghttp2_hd_inflate_init malloc_ok default_size hc m2 = (NGHTTP2_SUCCESS, Some s) ->
  linked d s (default_size, []).
Proof.
  intros Hdef Hcap Hd Hs.
  apply deflate_init_ok in Hd as (Hd & Hbd & Hfol & Hc & Hmi & Hmx & Hno); [|done..].
  apply inflate_init_ok in Hs as ((Hs & _) & Hbs & Hmax & Hset & Hmin & Hst); [|done].
  constructor; try done; [by exists []| |lia| |].
  - exists []. split; [exact Hs|]. by rewrite Hmax.
  - by destruct (notify_table_size_change d); [left|].
  - rewrite Hno, Hmi, Hmin, Hmx, Hc. destruct (cap <? default_size) eqn:E; unfold UINT32_MAX in *; lia.
Qed.

(** C14. HPACK round trips, as long as no allocation fails: for every exchange
    of table sizes and header blocks on a connection, in any order, with any
    limit on the encoder's table and any names and values of at most
    NGHTTP2_HD_MAX_NV bytes, the two ends never lose each other: no assertion
    fails and no decoder call reports an error, and the headers the decoder
    reports for each block are the headers given to the encoder, in order, with
    the sensitive ones flagged; either to the end, or until an output buffer
    refuses bytes. *)
Theorem hpack_roundtrip default_size cap m1 hc m2 b d s es :
  0 <= default_size <= UINT32_MAX -> 0 <= cap -> bufs_data b = [] ->
  nghttp2_hd_deflate_init2 malloc_ok default_size cap m1 = (NGHTTP2_SUCCESS, Some d) ->
  nghttp2_hd_inflate_init malloc_ok default_size hc m2 = (NGHTTP2_SUCCESS, Some s) ->
  Forall event_ok es ->
  exists outs fin, session b d s es = Some (outs, fin) /\
    if fin : bool then outs = blocks es else outs `prefix_of` blocks es.
Proof.
  intros Hdef Hcap Hb Hd Hs Hes.
  pose proof (linked_init _ _ _ _ _ _ _ Hdef Hcap Hd Hs) as Hl.
  clear -Hl Hes Hb no_failure. revert d s Hl. generalize (default_size, [] : list hd_nv).
  induction Hes as [|e es He Hes IH]; intros t d s Hl; cbn [session blocks].
  - by eexists _, true.
  - destruct e as [n|nvs]; cbn [session blocks].
    + destruct (linked_settings d s t n Hl He) as (d' & s' & t' & -> & -> & Hl'). cbn [mbind option_bind].
      rewrite decide_True by done. by eapply IH.
    + destruct (linked_block b d s t nvs Hl He Hb) as (rv & d' & b' & -> & Hrv). cbn [mbind option_bind].
      destruct (decide (rv = NGHTTP2_SUCCESS)) as [Hok|]; [|eexists _, false; split; [done|apply prefix_nil]].
      destruct (Hrv Hok) as (s' & t' & -> & Hl'). cbn [mbind option_bind].
      destruct (IH _ _ _ Hl') as (outs & fin & -> & Ho). cbn [mbind option_bind].
      eexists _, fin. split; [done|]. destruct fin; [by rewrite Ho|by apply prefix_cons].
Qed.
End Session.

Section Sample.
#[local] Existing Instances list_bufs sample_code sample_encoder sample_decoder.

(** Two sizes in a row, of which the first empties the table. *)
Definition sample_connection : list event :=
  [Block sample_block; Settings 0; Settings 100; Block sample_block; Block sample_block].

Lemma hpack_roundtrip_witness :
  session (fun _ => true) ([] : list Z) sample_deflater sample_inflater sample_connection
    = Some (blocks sample_connection, true) /\
  length (concat (blocks sample_connection)) = 12%nat.
Proof.
  split; [|reflexivity]. assert (Hb : bufs_data ([] : list Z) = []) by reflexivity.
  destruct (hpack_roundtrip (fun _ => true) (fun _ => eq_refl) 4096 4096 0%nat sample_hc 0%nat ([] : list Z)
    sample_deflater sample_inflater sample_connection ltac:(unfold UINT32_MAX; lia) ltac:(lia) Hb
    sample_deflater_init sample_inflater_init) as (outs & fin & Hx & Ho).
  { repeat (constructor; [unfold event_ok, UINT32_MAX; lia || by repeat constructor|]). constructor. }
  assert (fin = true) as -> by (vm_compute in Hx; by injection Hx).
  by rewrite Hx, Ho.
Defined.
End Sample.

End HdSession.
