(* ===== verification/H2Buf.v ===== *)
(** What src/http2/src/upstream/lib/nghttp2_frame.c writes to and reads from:
    the buffer [nghttp2_buf] (a region of memory with the positions [pos] and
    [last]), chains of such buffers and the big-endian integers.

    nghttp2_buf.h and nghttp2_helper.h are not part of the repository: the
    class [Wire] states what the code relies on. *)

From S2P Require Export HdDeflate.
Export HdDeflate.
Open Scope Z_scope.

(** Big-endian integers of 16 and 32 bits. *)
Class Wire := {
  nghttp2_put_uint16be : Z -> list Z;
  nghttp2_put_uint32be : Z -> list Z;
  nghttp2_get_uint16 : list Z -> Z;
  nghttp2_get_uint32 : list Z -> Z;
  put_uint16be_ok : forall n, 0 <= n < 2 ^ 16 -> nghttp2_put_uint16be n = [n / 2 ^ 8; n mod 2 ^ 8];
  put_uint32be_ok : forall n, 0 <= n < 2 ^ 32 ->
    nghttp2_put_uint32be n =
      [n / 2 ^ 24; (n / 2 ^ 16) mod 2 ^ 8; (n / 2 ^ 8) mod 2 ^ 8; n mod 2 ^ 8];
  get_uint16_ok : forall a b, is_byte a -> is_byte b -> nghttp2_get_uint16 [a; b] = a * 2 ^ 8 + b;
  get_uint32_ok : forall a b c d, is_byte a -> is_byte b -> is_byte c -> is_byte d ->
    nghttp2_get_uint32 [a; b; c; d] = a * 2 ^ 24 + b * 2 ^ 16 + c * 2 ^ 8 + d
}.

Module H2Buf.
Export Memory.

(** ** Buffers *)

(** [nghttp2_buf], as the code accesses it: the region from [begin] to [end];
    the pointers [pos] and [last] are offsets from [begin]. *)
Record nghttp2_buf := mkNbuf { buf_mem : list Z; buf_pos : Z; buf_last : Z }.

(** What is sent: the bytes from [pos] to [last]. *)
Definition sent (b : nghttp2_buf) : list Z := slice (buf_mem b) (buf_pos b) (buf_last b).

(** [buf->pos += k] *)
Definition move_pos (k : Z) (b : nghttp2_buf) : nghttp2_buf :=
  mkNbuf (buf_mem b) (buf_pos b + k) (buf_last b).

(** Bytes at [buf->pos + k]. *)
Definition put_pos (k : Z) (bs : list Z) (b : nghttp2_buf) : option nghttp2_buf :=
  m ← poke (buf_mem b) (buf_pos b + k) bs; Some (mkNbuf m (buf_pos b) (buf_last b)).

(** Bytes at [buf->last], which moves behind them. *)
Definition put_last (bs : list Z) (b : nghttp2_buf) : option nghttp2_buf :=
  m ← poke (buf_mem b) (buf_last b) bs; Some (mkNbuf m (buf_pos b) (buf_last b + size bs)).

(** A buffer with [h] bytes of room before its data and [r] behind. *)
Definition view (b : nghttp2_buf) (h : Z) (data : list Z) (r : Z) : Prop :=
  exists pre post, buf_mem b = pre ++ data ++ post /\ size pre = h /\ size post = r /\
    buf_pos b = h /\ buf_last b = h + size data.

Lemma view_sent b h data r : view b h data r -> sent b = data.
Proof.
  intros (pre & post & Hm & <- & _ & Hp & Hl). unfold sent. rewrite Hm, Hp, Hl.
  pose proof (fetch_mid pre data post _ _ eq_refl eq_refl) as Hf. unfold fetch in Hf.
  by destruct (_ || _); simplify_eq/=.
Qed.

Lemma view_room b h data r : view b h data r -> 0 <= h /\ 0 <= r.
Proof. intros (pre & post & _ & <- & <- & _). split; apply size_nonneg. Qed.

(** Bytes are added in front of the data: [pos] moves back first. *)
Lemma view_front b h data r bs :
  view b h data r -> size bs <= h ->
  exists b', put_pos 0 bs (move_pos (- size bs) b) = Some b' /\ view b' (h - size bs) (bs ++ data) r.
Proof.
  intros (pre & post & Hm & Hh & Hr & Hp & Hl) Hk. pose proof (size_nonneg bs).
  destruct (split_back pre (size bs)) as (pre1 & old & -> & Ho); [lia|].
  rewrite size_app in Hh. unfold put_pos, move_pos. cbn. rewrite Hm, <- app_assoc.
  rewrite (poke_mid pre1 old _ bs) by lia. cbn. eexists. split; [done|].
  exists pre1, post. cbn. rewrite !size_app, Hp, Hl, <- !app_assoc. by repeat (split; [done || lia|]); lia.
Qed.

Lemma view_back b h data r bs :
  view b h data r -> size bs <= r ->
  exists b', put_last bs b = Some b' /\ view b' h (data ++ bs) (r - size bs).
Proof.
  intros (pre & post & Hm & Hh & Hr & Hp & Hl) Hk. pose proof (size_nonneg bs).
  destruct (split_front post (size bs)) as (old & post1 & -> & Ho); [lia|].
  rewrite size_app in Hr. unfold put_last. rewrite Hm, app_assoc.
  rewrite (poke_mid (pre ++ data) old post1 bs) by (rewrite ?size_app; lia). cbn. eexists. split; [done|].
  exists pre, post1. cbn. rewrite !size_app, Hp, Hl, <- !app_assoc. by repeat (split; [done || lia|]); lia.
Qed.

(** Positions that are in order are all that a view asks for. *)
Lemma view_intro b :
  0 <= buf_pos b <= buf_last b -> buf_last b <= size (buf_mem b) ->
  view b (buf_pos b) (sent b) (size (buf_mem b) - buf_last b).
Proof.
  destruct b as [m p l]. cbn [buf_mem buf_pos buf_last]. intros Hp Hl.
  destruct (split_front m p) as (pre & post & -> & Hpre); [lia|]. rewrite size_app in *.
  destruct (split_front post (l - p)) as (data & tl & -> & Hd); [lia|]. rewrite size_app in *.
  assert (Hv : view (mkNbuf (pre ++ data ++ tl) p l) p data (size pre + (size data + size tl) - l)).
  { exists pre, tl. cbn. repeat split; lia. }
  by rewrite (view_sent _ _ _ _ Hv).
Qed.

(** ** Chains of buffers *)

(** [nghttp2_bufs]: the buffer [head], and those behind it up to [cur]. *)
Record nghttp2_bufs := mkBufs { head : nghttp2_buf; chain : list nghttp2_buf }.

(** nghttp2_buf.c is not part of the repository. What it adds goes to the
    current buffer as long as there is room; otherwise to further ones, each
    with room for a frame header in front. *)
Definition extends (b b' : nghttp2_buf) : Prop :=
  forall h data r, view b h data r -> exists more, view b' h (data ++ more) (r - size more).

(** Room for a header in front, and never more data than a frame can have. *)
Definition roomy (b : nghttp2_buf) : Prop :=
  exists h data r, view b h data r /\ 9 <= h /\ size data + r < 2 ^ 24.

Definition grows (b b' : nghttp2_bufs) : Prop :=
  extends (head b) (head b') /\ (Forall roomy (chain b) -> Forall roomy (chain b')).

Class FrameBufs `{Bufs nghttp2_bufs} := {
  nghttp2_buf_len : nghttp2_buf -> Z;
  nghttp2_buf_avail : nghttp2_buf -> Z;
  buf_len_ok : forall b, nghttp2_buf_len b = buf_last b - buf_pos b;
  buf_avail_ok : forall b, nghttp2_buf_avail b = size (buf_mem b) - buf_last b;
  bufs_data_sent : forall b, bufs_data b = sent (head b) ++ concat (sent <$> chain b);
  bufs_add_fits : forall h n data r bs h',
    view h n data r -> put_last bs h = Some h' -> nghttp2_bufs_add (mkBufs h []) bs = (NGHTTP2_SUCCESS, mkBufs h' []);
  bufs_add_grows : forall b bs rv b', nghttp2_bufs_add b bs = (rv, b') -> grows b b';
  bufs_addb_grows : forall b c rv b', nghttp2_bufs_addb b c = (rv, b') -> grows b b'
}.

Lemma view_len `{FrameBufs} b h data r :
  view b h data r -> nghttp2_buf_len b = size data /\ nghttp2_buf_avail b = r.
Proof.
  intros (pre & post & Hm & Hh & Hr & Hp & Hl). rewrite buf_len_ok, buf_avail_ok.
  rewrite Hm, Hp, Hl, !size_app. lia.
Qed.

#[export] Instance extends_preorder : PreOrder extends.
Proof.
  split.
  - intros b h data r Hv. exists []. rewrite app_nil_r. by replace (r - size []) with r by (unfold size; cbn; lia).
  - intros b1 b2 b3 H12 H23 h data r Hv. destruct (H12 _ _ _ Hv) as (m1 & Hv1).
    destruct (H23 _ _ _ Hv1) as (m2 & Hv2). exists (m1 ++ m2). rewrite size_app, app_assoc.
    by replace (r - (size m1 + size m2)) with (r - size m1 - size m2) by lia.
Qed.

#[export] Instance grows_preorder : PreOrder grows.
Proof.
  split; [intros b; split; [reflexivity|done]|].
  intros b1 b2 b3 [He1 Hf1] [He2 Hf2]. split; [by etrans|auto].
Qed.

(** ** Integers *)

Section Integers.
Context `{Wire}.

Lemma put16_size n : 0 <= n < 2 ^ 16 -> size (nghttp2_put_uint16be n) = 2.
Proof. intros Hn. by rewrite put_uint16be_ok. Qed.

Lemma put32_size n : 0 <= n < 2 ^ 32 -> size (nghttp2_put_uint32be n) = 4.
Proof. intros Hn. by rewrite put_uint32be_ok. Qed.

Lemma get_put16 n : 0 <= n < 2 ^ 16 -> nghttp2_get_uint16 (nghttp2_put_uint16be n) = n.
Proof.
  intros Hn. rewrite put_uint16be_ok by done. rewrite get_uint16_ok; unfold is_byte; lia_mod.
Qed.

Lemma get_put32 n : 0 <= n < 2 ^ 32 -> nghttp2_get_uint32 (nghttp2_put_uint32be n) = n.
Proof.
  intros Hn. rewrite put_uint32be_ok by done. rewrite get_uint32_ok; unfold is_byte; lia_mod.
Qed.
End Integers.

(** ** Instances for the examples

    Big-endian integers by division, and a single buffer that is never
    extended by another one. *)
Section Sample.
Definition sample_put16 (n : Z) : list Z := [n / 2 ^ 8; n mod 2 ^ 8].
Definition sample_put32 (n : Z) : list Z :=
  [n / 2 ^ 24; (n / 2 ^ 16) mod 2 ^ 8; (n / 2 ^ 8) mod 2 ^ 8; n mod 2 ^ 8].
Definition sample_get (bs : list Z) : Z := foldl (fun n b => n * 2 ^ 8 + b) 0 bs.

#[local, refine] Instance sample_wire : Wire := {
  nghttp2_put_uint16be := sample_put16; nghttp2_put_uint32be := sample_put32;
  nghttp2_get_uint16 := sample_get; nghttp2_get_uint32 := sample_get
}.
Proof. all: intros; unfold sample_get; cbn [foldl]; try done; lia. Defined.

Definition in_order (b : nghttp2_buf) : bool :=
  (0 <=? buf_pos b) && (buf_pos b <=? buf_last b) && (buf_last b <=? size (buf_mem b)).

Definition single_add (b : nghttp2_bufs) (bs : list Z) : hd_err * nghttp2_bufs :=
  match chain b with
  | [] =>
      if in_order (head b) then
        match put_last bs (head b) with
        | Some h => (NGHTTP2_SUCCESS, mkBufs h [])
        | None => (NGHTTP2_ERR_BUFFER_ERROR, b)
        end
      else (NGHTTP2_ERR_BUFFER_ERROR, b)
  | _ :: _ => (NGHTTP2_ERR_BUFFER_ERROR, b)
  end.

Definition single_data (b : nghttp2_bufs) : list Z := sent (head b) ++ concat (sent <$> chain b).

Lemma put_last_room b h data r bs b' : view b h data r -> put_last bs b = Some b' -> size bs <= r.
Proof.
  intros (pre & post & Hm & Hh & Hr & _ & Hl). unfold put_last, poke. rewrite Hm, Hl, !size_app.
  destruct (_ || (_ <? _)) eqn:E; [done|]. apply orb_false_iff in E as [_ E]. intros _. lia.
Qed.

Lemma single_add_ok b bs rv b' :
  single_add b bs = (rv, b') -> grows b b' /\ (rv = NGHTTP2_SUCCESS -> single_data b' = single_data b ++ bs).
Proof.
  assert (Hr : grows b b) by reflexivity.
  unfold single_add. destruct b as [h [|c cs]]; cbn [head chain]; [|by intros [= <- <-]].
  destruct (in_order h) eqn:E; [|by intros [= <- <-]].
  unfold in_order in E. rewrite !andb_true_iff in E.
  destruct (put_last bs h) as [h'|] eqn:Hp; [|by intros [= <- <-]]. intros [= <- <-].
  assert (Hback : forall n data r, view h n data r -> view h' n (data ++ bs) (r - size bs)).
  { intros n data r Hv. destruct (view_back _ _ _ _ bs Hv) as (h2 & Hx & Hv2);
      [by eapply put_last_room|congruence]. }
  split.
  - split; [|done]. intros n data r Hv. by eexists; apply Hback.
  - intros _. unfold single_data. cbn. rewrite !app_nil_r.
    exact (view_sent _ _ _ _ (Hback _ _ _ (view_intro h ltac:(lia) ltac:(lia)))).
Qed.

#[local, refine] Instance single_bufs : Bufs nghttp2_bufs := {
  bufs_data := single_data; nghttp2_bufs_add := single_add; nghttp2_bufs_addb b c := single_add b [c]
}.
Proof. all: intros b bs b' Hx; by apply single_add_ok in Hx as [_ Hx]; apply Hx. Defined.

#[local, refine] Instance single_frame_bufs : FrameBufs := {
  nghttp2_buf_len b := buf_last b - buf_pos b;
  nghttp2_buf_avail b := size (buf_mem b) - buf_last b;
  buf_len_ok b := eq_refl; buf_avail_ok b := eq_refl;
  bufs_data_sent b := eq_refl
}.
Proof.
  - intros h n data r bs h' Hv Hp. cbn. unfold single_add. cbn [chain head]. rewrite Hp.
    destruct (view_room _ _ _ _ Hv) as [Hn Hr]. destruct Hv as (pre & post & Hm & Hh & Hr' & Hpos & Hl).
    unfold in_order. rewrite Hm, Hpos, Hl, !size_app. pose proof (size_nonneg data).
    by replace ((0 <=? n) && (n <=? n + size data) && (n + size data <=? size pre + (size data + size post)))
      with true by lia.
  - intros b bs rv b' Hx. by apply single_add_ok in Hx as [Hx _].
  - intros b c rv b' Hx. by apply single_add_ok in Hx as [Hx _].
Defined.
End Sample.

End H2Buf.
