(* ===== verification/H2Frame.v ===== *)
(** The frames of HTTP/2 with a body of their own
    (src/http2/src/upstream/lib/nghttp2_frame.c): their initialisation (lines
    53-277), what they look like on the wire (37-51, 399-552, 597-938) and how
    they are read back.  HEADERS, PUSH_PROMISE, CONTINUATION and padding are in
    H2Headers.v.

    The constants are those of RFC 9113 and its extensions: nghttp2.h is not
    part of the repository. *)

From S2P Require Export H2Buf.
Export H2Buf.
Open Scope Z_scope.

Abbreviation NGHTTP2_FRAME_HDLEN := 9.
Abbreviation NGHTTP2_PRIORITY_SPECLEN := 5.
Abbreviation NGHTTP2_FRAME_SETTINGS_ENTRY_LENGTH := 6.
Abbreviation NGHTTP2_STREAM_ID_MASK := 0x7fffffff.
Abbreviation NGHTTP2_WINDOW_SIZE_INCREMENT_MASK := 0x7fffffff.

(** Frame types. *)
Abbreviation NGHTTP2_DATA := 0x0.
Abbreviation NGHTTP2_HEADERS := 0x1.
Abbreviation NGHTTP2_PRIORITY := 0x2.
Abbreviation NGHTTP2_RST_STREAM := 0x3.
Abbreviation NGHTTP2_SETTINGS := 0x4.
Abbreviation NGHTTP2_PUSH_PROMISE := 0x5.
Abbreviation NGHTTP2_PING := 0x6.
Abbreviation NGHTTP2_GOAWAY := 0x7.
Abbreviation NGHTTP2_WINDOW_UPDATE := 0x8.
Abbreviation NGHTTP2_CONTINUATION := 0x9.
Abbreviation NGHTTP2_ALTSVC := 0xa.
Abbreviation NGHTTP2_ORIGIN := 0xc.
Abbreviation NGHTTP2_PRIORITY_UPDATE := 0x10.

(** Flags. *)
Abbreviation NGHTTP2_FLAG_NONE := 0.
Abbreviation NGHTTP2_FLAG_END_HEADERS := 0x4.
Abbreviation NGHTTP2_FLAG_PADDED := 0x8.
Abbreviation NGHTTP2_FLAG_PRIORITY := 0x20.

Module H2Frame.

(** [nghttp2_frame_hd] *)
Record nghttp2_frame_hd := mkHd { hd_length : Z; hd_stream_id : Z; hd_type : Z; hd_flags : Z; hd_reserved : Z }.

(** [nghttp2_priority_spec] *)
Record nghttp2_priority_spec := mkPri { pri_stream_id : Z; pri_weight : Z; pri_exclusive : bool }.

(** A frame: every struct starts with the header. *)
Record frame {A : Type} := mkFrame { hd : nghttp2_frame_hd; body : A }.
Arguments frame : clear implicits.
Arguments mkFrame {A}.

Record nghttp2_settings_entry := mkEnt { settings_id : Z; iv_value : Z }.
Record goaway := mkGoaway { last_stream_id : Z; error_code : Z; opaque_data : list Z }.
Record nghttp2_ext_altsvc := mkAltsvc { altsvc_origin : list Z; altsvc_field_value : list Z }.
Record nghttp2_ext_priority_update := mkUpdate { update_stream_id : Z; update_field_value : list Z }.

Abbreviation nghttp2_priority := (frame nghttp2_priority_spec).
Abbreviation nghttp2_rst_stream := (frame Z).
Abbreviation nghttp2_settings := (frame (list nghttp2_settings_entry)).
Abbreviation nghttp2_ping := (frame (list Z)).
Abbreviation nghttp2_goaway := (frame goaway).
Abbreviation nghttp2_window_update := (frame Z).

(** What the functions return: 0, an error of the library, or the error code
    of the protocol that one of them returns. *)
Inductive frame_rv :=
  | Success
  | NGHTTP2_ERR_FRAME_SIZE_ERROR
  | NGHTTP2_FRAME_SIZE_ERROR
  | Err (e : hd_err).

(** ** Initialisation *)

Definition nghttp2_frame_hd_init (length type flags stream_id : Z) : nghttp2_frame_hd :=
  mkHd length stream_id type flags 0.

Definition nghttp2_frame_priority_init (stream_id : Z) (pri_spec : nghttp2_priority_spec) : nghttp2_priority :=
  mkFrame (nghttp2_frame_hd_init NGHTTP2_PRIORITY_SPECLEN NGHTTP2_PRIORITY NGHTTP2_FLAG_NONE stream_id) pri_spec.

Definition nghttp2_frame_rst_stream_init (stream_id error_code : Z) : nghttp2_rst_stream :=
  mkFrame (nghttp2_frame_hd_init 4 NGHTTP2_RST_STREAM NGHTTP2_FLAG_NONE stream_id) error_code.

Definition nghttp2_frame_settings_init (flags : Z) (iv : list nghttp2_settings_entry) : nghttp2_settings :=
  mkFrame (nghttp2_frame_hd_init (Z.of_nat (length iv) * NGHTTP2_FRAME_SETTINGS_ENTRY_LENGTH)
             NGHTTP2_SETTINGS flags 0) iv.

(** [opaque_data] may be null. *)
Definition nghttp2_frame_ping_init (flags : Z) (data : option (list Z)) : nghttp2_ping :=
  mkFrame (nghttp2_frame_hd_init 8 NGHTTP2_PING flags 0)
    (match data with Some d => take 8 d | None => replicate 8 0 end).

Definition nghttp2_frame_goaway_init (last_stream_id error_code : Z) (data : list Z) : nghttp2_goaway :=
  mkFrame (nghttp2_frame_hd_init (8 + size data) NGHTTP2_GOAWAY NGHTTP2_FLAG_NONE 0)
    (mkGoaway last_stream_id error_code data).

Definition nghttp2_frame_window_update_init (flags stream_id window_size_increment : Z) : nghttp2_window_update :=
  mkFrame (nghttp2_frame_hd_init 4 NGHTTP2_WINDOW_UPDATE flags stream_id) window_size_increment.

Definition nghttp2_frame_altsvc_init (stream_id : Z) (origin field_value : list Z) : frame nghttp2_ext_altsvc :=
  mkFrame (nghttp2_frame_hd_init (2 + size origin + size field_value) NGHTTP2_ALTSVC NGHTTP2_FLAG_NONE stream_id)
    (mkAltsvc origin field_value).

Definition nghttp2_frame_origin_init (ov : list (list Z)) : frame (list (list Z)) :=
  mkFrame (nghttp2_frame_hd_init (foldl (fun n o => n + (2 + size o)) 0 ov) NGHTTP2_ORIGIN NGHTTP2_FLAG_NONE 0) ov.

Definition nghttp2_frame_priority_update_init (stream_id : Z) (field_value : list Z)
    : frame nghttp2_ext_priority_update :=
  mkFrame (nghttp2_frame_hd_init (4 + size field_value) NGHTTP2_PRIORITY_UPDATE NGHTTP2_FLAG_NONE 0)
    (mkUpdate stream_id field_value).

(** ** The wire *)

(** nghttp2_priority_spec.c is not part of the repository. *)
Class PrioritySpec := {
  nghttp2_priority_spec_init : Z -> Z -> bool -> nghttp2_priority_spec;
  nghttp2_priority_spec_default_init : nghttp2_priority_spec;
  priority_spec_init_ok : forall stream_id weight exclusive,
    nghttp2_priority_spec_init stream_id weight exclusive = mkPri stream_id weight exclusive;
  priority_spec_default_ok : nghttp2_priority_spec_default_init = mkPri 0 16 false
}.

Section Wire.
Context `{Wire} `{PrioritySpec}.

(** The header of the frame at offset [o] of [m]. *)
Definition nghttp2_frame_pack_frame_hd (m : list Z) (o : Z) (h : nghttp2_frame_hd) : option (list Z) :=
  m ← poke m o (nghttp2_put_uint32be (u32 (Z.shiftl (hd_length h) 8)));
  m ← poke m (o + 3) [hd_type h];
  m ← poke m (o + 4) [hd_flags h];
  poke m (o + 5) (nghttp2_put_uint32be (u32 (hd_stream_id h))).

Definition nghttp2_frame_unpack_frame_hd (buf : list Z) : option nghttp2_frame_hd :=
  b ← fetch buf 0 4;
  type ← load buf 3;
  flags ← load buf 4;
  b' ← fetch buf 5 4;
  Some (mkHd (Z.shiftr (nghttp2_get_uint32 b) 8) (Z.land (nghttp2_get_uint32 b') NGHTTP2_STREAM_ID_MASK)
          type flags 0).

Definition nghttp2_frame_pack_priority_spec (m : list Z) (o : Z) (spec : nghttp2_priority_spec)
    : option (list Z) :=
  m ← poke m o (nghttp2_put_uint32be (u32 (pri_stream_id spec)));
  m ← (if pri_exclusive spec then b ← load m o; poke m o [Z.lor b 0x80] else Some m);
  poke m (o + 4) [u8 (pri_weight spec - 1)].

Definition nghttp2_frame_unpack_priority_spec (payload : list Z) : option nghttp2_priority_spec :=
  b ← fetch payload 0 4;
  b0 ← load payload 0;
  b4 ← load payload 4;
  Some (nghttp2_priority_spec_init (Z.land (nghttp2_get_uint32 b) NGHTTP2_STREAM_ID_MASK) (b4 + 1)
          (0 <? Z.land b0 0x80)).

(** [buf->pos -= NGHTTP2_FRAME_HDLEN; nghttp2_frame_pack_frame_hd(buf->pos, hd)] *)
Definition pack_hd (h : nghttp2_frame_hd) (b : nghttp2_buf) : option nghttp2_buf :=
  let b := move_pos (- NGHTTP2_FRAME_HDLEN) b in
  m ← nghttp2_frame_pack_frame_hd (buf_mem b) (buf_pos b) h;
  Some (mkNbuf m (buf_pos b) (buf_last b)).

(** What a header and a priority look like. *)
Definition hd_bytes (h : nghttp2_frame_hd) : list Z :=
  let l := hd_length h in
  let s := hd_stream_id h in
  [l / 2 ^ 16; (l / 2 ^ 8) mod 2 ^ 8; l mod 2 ^ 8; hd_type h; hd_flags h;
   s / 2 ^ 24; (s / 2 ^ 16) mod 2 ^ 8; (s / 2 ^ 8) mod 2 ^ 8; s mod 2 ^ 8].

Definition hd_ok (h : nghttp2_frame_hd) : Prop :=
  0 <= hd_length h < 2 ^ 24 /\ is_byte (hd_type h) /\ is_byte (hd_flags h) /\
  0 <= hd_stream_id h < 2 ^ 31 /\ hd_reserved h = 0.

Definition pri_bytes (p : nghttp2_priority_spec) : list Z :=
  let s := pri_stream_id p in
  [s / 2 ^ 24 + (if pri_exclusive p then 128 else 0); (s / 2 ^ 16) mod 2 ^ 8; (s / 2 ^ 8) mod 2 ^ 8; s mod 2 ^ 8;
   pri_weight p - 1].

Definition pri_ok (p : nghttp2_priority_spec) : Prop :=
  0 <= pri_stream_id p < 2 ^ 31 /\ 1 <= pri_weight p <= 256.

(** A read at a literal offset of a literal list. *)
Ltac fetch_at pre mid post off n :=
  let E := fresh in
  pose proof (fetch_mid pre mid post off n eq_refl eq_refl) as E; cbn [app] in E; cbn [app];
  rewrite E; clear E; cbn [mbind option_bind];
  repeat match goal with |- context [load ?l ?k] =>
    let v := eval cbv [load Z.ltb Z.compare Z.to_nat Pos.to_nat Pos.iter_op lookup list_lookup Init.Nat.add] in (load l k) in
    change (load l k) with v; cbn [mbind option_bind] end.

Lemma pack_frame_hd_mid pre old post h :
  hd_ok h -> size old = 9 ->
  nghttp2_frame_pack_frame_hd (pre ++ old ++ post) (size pre) h = Some (pre ++ hd_bytes h ++ post).
Proof.
  intros (Hl & _ & _ & Hs & _) Ho. unfold nghttp2_frame_pack_frame_hd, u32.
  rewrite Z.shiftl_mul_pow2 by lia. rewrite !Z.mod_small by lia. rewrite !put_uint32be_ok by lia.
  destruct old as [|o0 [|o1 [|o2 [|o3 [|o4 [|o5 [|o6 [|o7 [|o8 [|? ?]]]]]]]]]]; try done.
  2: { unfold size in Ho. cbn [length] in Ho. lia. }
  erewrite (poke_inner pre _ _ post 0); [|lia|reflexivity]. cbn [mbind option_bind].
  erewrite (poke_inner pre _ _ post 3); [|lia|reflexivity]. cbn [mbind option_bind].
  erewrite (poke_inner pre _ _ post 4); [|lia|reflexivity]. cbn [mbind option_bind].
  erewrite (poke_inner pre _ _ post 5); [|lia|reflexivity].
  do 2 f_equal. unfold hd_bytes.
  match goal with |- ?x ++ _ = _ =>
    let y := eval cbv -[Z.div Z.modulo Z.pow Z.mul hd_length hd_type hd_flags hd_stream_id] in x in change x with y end.
  repeat (f_equal; try lia_mod).
Qed.

Lemma unpack_hd_bytes h rest : hd_ok h -> nghttp2_frame_unpack_frame_hd (hd_bytes h ++ rest) = Some h.
Proof.
  intros (Hl & Ht & Hf & Hs & Hr). unfold nghttp2_frame_unpack_frame_hd, hd_bytes, is_byte in *.
  destruct h as [l s t f r]. cbn [hd_length hd_stream_id hd_type hd_flags hd_reserved] in *. subst r.
  fetch_at (@nil Z) [l / 2 ^ 16; (l / 2 ^ 8) mod 2 ^ 8; l mod 2 ^ 8; t]
    ([f; s / 2 ^ 24; (s / 2 ^ 16) mod 2 ^ 8; (s / 2 ^ 8) mod 2 ^ 8; s mod 2 ^ 8] ++ rest) 0 4.
  fetch_at [l / 2 ^ 16; (l / 2 ^ 8) mod 2 ^ 8; l mod 2 ^ 8; t; f]
    [s / 2 ^ 24; (s / 2 ^ 16) mod 2 ^ 8; (s / 2 ^ 8) mod 2 ^ 8; s mod 2 ^ 8] rest 5 4.
  rewrite !get_uint32_ok by (unfold is_byte in *; lia_mod). do 2 f_equal.
  - rewrite Z.shiftr_div_pow2 by lia. lia_mod.
  - change NGHTTP2_STREAM_ID_MASK with (Z.ones 31). rewrite Z.land_ones by lia. lia_mod.
Qed.

Lemma pack_priority_spec_mid pre old post p :
  pri_ok p -> size old = 5 ->
  nghttp2_frame_pack_priority_spec (pre ++ old ++ post) (size pre) p = Some (pre ++ pri_bytes p ++ post).
Proof.
  intros (Hs & Hw) Ho. unfold nghttp2_frame_pack_priority_spec, u32, u8, pri_bytes.
  rewrite !Z.mod_small by lia. rewrite put_uint32be_ok by lia.
  destruct old as [|o0 [|o1 [|o2 [|o3 [|o4 [|? ?]]]]]]; try done.
  2: { unfold size in Ho. cbn [length] in Ho. lia. }
  set (s := pri_stream_id p) in *.
  rewrite (poke_inner pre _ [s / 2 ^ 24; (s / 2 ^ 16) mod 2 ^ 8; (s / 2 ^ 8) mod 2 ^ 8; s mod 2 ^ 8; o4] post 0);
    [|lia|reflexivity]. cbn [mbind option_bind].
  destruct (pri_exclusive p).
  - rewrite (load_mid pre _ post _ 0 (s / 2 ^ 24)) by (done || lia). cbn [mbind option_bind].
    assert (Hor : Z.lor (s / 2 ^ 24) 0x80 = s / 2 ^ 24 + 128).
    { pose proof (byte_forall (fun x => (128 <=? x) || (Z.lor x 0x80 =? x + 128)) eq_refl (s / 2 ^ 24)
        ltac:(unfold is_byte; lia_mod)) as Hx. cbn beta in Hx. lia_mod. }
    rewrite (poke_inner pre _ [s / 2 ^ 24 + 128; (s / 2 ^ 16) mod 2 ^ 8; (s / 2 ^ 8) mod 2 ^ 8; s mod 2 ^ 8; o4] post 0);
      [|lia|by rewrite Hor]. cbn [mbind option_bind].
    by rewrite (poke_inner pre _ [s / 2 ^ 24 + 128; (s / 2 ^ 16) mod 2 ^ 8; (s / 2 ^ 8) mod 2 ^ 8; s mod 2 ^ 8;
      pri_weight p - 1] post 4); [|lia|].
  - cbn [mbind option_bind]. rewrite Z.add_0_r.
    by rewrite (poke_inner pre _ [s / 2 ^ 24; (s / 2 ^ 16) mod 2 ^ 8; (s / 2 ^ 8) mod 2 ^ 8; s mod 2 ^ 8;
      pri_weight p - 1] post 4); [|lia|].
Qed.

Lemma unpack_pri_bytes p rest : pri_ok p -> nghttp2_frame_unpack_priority_spec (pri_bytes p ++ rest) = Some p.
Proof.
  intros (Hs & Hw). unfold nghttp2_frame_unpack_priority_spec, pri_bytes.
  destruct p as [s w e]. cbn [pri_stream_id pri_weight pri_exclusive] in *.
  fetch_at (@nil Z) [s / 2 ^ 24 + (if e then 128 else 0); (s / 2 ^ 16) mod 2 ^ 8; (s / 2 ^ 8) mod 2 ^ 8; s mod 2 ^ 8]
    ([w - 1] ++ rest) 0 4.
  rewrite get_uint32_ok by (unfold is_byte; destruct e; lia_mod). rewrite priority_spec_init_ok. do 2 f_equal.
  - change NGHTTP2_STREAM_ID_MASK with (Z.ones 31). rewrite Z.land_ones by lia. destruct e; lia_mod.
  - lia.
  - pose proof (byte_forall (fun x => Bool.eqb (0 <? Z.land x 0x80) (128 <=? x)) eq_refl
      (s / 2 ^ 24 + (if e then 128 else 0)) ltac:(unfold is_byte; destruct e; lia_mod)) as Hx.
    apply Bool.eqb_prop in Hx. rewrite Hx. destruct e; lia_mod.
Qed.
End Wire.

(** ** Frames on the wire *)

Section Pack.
Context `{Wire} `{PrioritySpec} `{FrameBufs}.

(** [assert(bufs->head == bufs->cur)], then [f] on the buffer. *)
Definition on_head (b : nghttp2_bufs) (f : nghttp2_buf -> option nghttp2_buf) : option nghttp2_bufs :=
  match chain b with
  | [] => h ← f (head b); Some (mkBufs h [])
  | _ :: _ => None
  end.

(** [assert(nghttp2_buf_avail(buf) >= n)] *)
Definition assert_avail (n : Z) (buf : nghttp2_buf) : option nghttp2_buf :=
  if nghttp2_buf_avail buf <? n then None else Some buf.

Definition nghttp2_frame_pack_priority (b : nghttp2_bufs) (fr : nghttp2_priority) : option nghttp2_bufs :=
  on_head b (fun buf =>
    buf ← assert_avail NGHTTP2_PRIORITY_SPECLEN buf;
    buf ← pack_hd (hd fr) buf;
    m ← nghttp2_frame_pack_priority_spec (buf_mem buf) (buf_last buf) (body fr);
    Some (mkNbuf m (buf_pos buf) (buf_last buf + NGHTTP2_PRIORITY_SPECLEN))).

Definition nghttp2_frame_pack_rst_stream (b : nghttp2_bufs) (fr : nghttp2_rst_stream) : option nghttp2_bufs :=
  on_head b (fun buf =>
    buf ← assert_avail 4 buf;
    buf ← pack_hd (hd fr) buf;
    put_last (nghttp2_put_uint32be (body fr)) buf).

(** The entries at offset [o]. *)
Fixpoint nghttp2_frame_pack_settings_payload (m : list Z) (o : Z) (iv : list nghttp2_settings_entry)
    : option (list Z) :=
  match iv with
  | [] => Some m
  | e :: iv =>
      m ← poke m o (nghttp2_put_uint16be (u16 (settings_id e)));
      m ← poke m (o + 2) (nghttp2_put_uint32be (iv_value e));
      nghttp2_frame_pack_settings_payload m (o + NGHTTP2_FRAME_SETTINGS_ENTRY_LENGTH) iv
  end.

Definition nghttp2_frame_pack_settings (b : nghttp2_bufs) (fr : nghttp2_settings)
    : option (frame_rv * nghttp2_bufs) :=
  match chain b with
  | [] =>
      if nghttp2_buf_avail (head b) <? hd_length (hd fr) then Some (NGHTTP2_ERR_FRAME_SIZE_ERROR, b)
      else
        buf ← pack_hd (hd fr) (head b);
        m ← nghttp2_frame_pack_settings_payload (buf_mem buf) (buf_last buf) (body fr);
        Some (Success, mkBufs (mkNbuf m (buf_pos buf)
          (buf_last buf + NGHTTP2_FRAME_SETTINGS_ENTRY_LENGTH * Z.of_nat (length (body fr)))) [])
  | _ :: _ => None
  end.

Definition nghttp2_frame_pack_ping (b : nghttp2_bufs) (fr : nghttp2_ping) : option nghttp2_bufs :=
  on_head b (fun buf =>
    buf ← assert_avail 8 buf;
    buf ← pack_hd (hd fr) buf;
    put_last (take 8 (body fr)) buf).

Definition nghttp2_frame_pack_goaway (b : nghttp2_bufs) (fr : nghttp2_goaway)
    : option (frame_rv * nghttp2_bufs) :=
  b ← on_head b (fun buf =>
    buf ← pack_hd (hd fr) buf;
    buf ← put_last (nghttp2_put_uint32be (u32 (last_stream_id (body fr)))) buf;
    put_last (nghttp2_put_uint32be (error_code (body fr))) buf);
  Some (match nghttp2_bufs_add b (opaque_data (body fr)) with
        | (NGHTTP2_ERR_BUFFER_ERROR, b) => (NGHTTP2_ERR_FRAME_SIZE_ERROR, b)
        | (NGHTTP2_SUCCESS, b) => (Success, b)
        | (rv, b) => (Err rv, b)
        end).

Definition nghttp2_frame_pack_window_update (b : nghttp2_bufs) (fr : nghttp2_window_update)
    : option nghttp2_bufs :=
  on_head b (fun buf =>
    buf ← assert_avail 4 buf;
    buf ← pack_hd (hd fr) buf;
    put_last (nghttp2_put_uint32be (u32 (body fr))) buf).

(** [rv = nghttp2_bufs_add(bufs, bs); assert(rv == 0)] *)
Definition must_add (b : nghttp2_bufs) (bs : list Z) : option nghttp2_bufs :=
  match nghttp2_bufs_add b bs with (NGHTTP2_SUCCESS, b) => Some b | _ => None end.

(** [f] on the buffer of [bufs->head]. *)
Definition with_head (b : nghttp2_bufs) (f : nghttp2_buf -> option nghttp2_buf) : option nghttp2_bufs :=
  h ← f (head b); Some (mkBufs h (chain b)).

Definition nghttp2_frame_pack_altsvc (b : nghttp2_bufs) (fr : frame nghttp2_ext_altsvc) : option nghttp2_bufs :=
  let altsvc := body fr in
  b ← with_head b (fun buf =>
    buf ← assert_avail (2 + size (altsvc_origin altsvc) + size (altsvc_field_value altsvc)) buf;
    buf ← pack_hd (hd fr) buf;
    put_last (nghttp2_put_uint16be (u16 (size (altsvc_origin altsvc)))) buf);
  b ← must_add b (altsvc_origin altsvc);
  must_add b (altsvc_field_value altsvc).

Fixpoint pack_origins (ov : list (list Z)) (buf : nghttp2_buf) : option nghttp2_buf :=
  match ov with
  | [] => Some buf
  | o :: ov =>
      buf ← put_last (nghttp2_put_uint16be (u16 (size o))) buf;
      buf ← put_last o buf;
      pack_origins ov buf
  end.

Definition nghttp2_frame_pack_origin (b : nghttp2_bufs) (fr : frame (list (list Z)))
    : option (frame_rv * nghttp2_bufs) :=
  if nghttp2_buf_avail (head b) <? hd_length (hd fr) then Some (NGHTTP2_ERR_FRAME_SIZE_ERROR, b)
  else
    b ← with_head b (fun buf =>
      buf ← pack_hd (hd fr) buf;
      buf ← pack_origins (body fr) buf;
      if nghttp2_buf_len buf =? NGHTTP2_FRAME_HDLEN + hd_length (hd fr) then Some buf else None);
    Some (Success, b).

Definition nghttp2_frame_pack_priority_update (b : nghttp2_bufs) (fr : frame nghttp2_ext_priority_update)
    : option nghttp2_bufs :=
  let update := body fr in
  b ← with_head b (fun buf =>
    buf ← assert_avail (4 + size (update_field_value update)) buf;
    buf ← pack_hd (hd fr) buf;
    put_last (nghttp2_put_uint32be (u32 (update_stream_id update))) buf);
  must_add b (update_field_value update).
End Pack.

(** ** Reading payloads

    [payload] is the memory at the pointer that the functions are given; an
    allocation fails when [alloc] is false. *)

Section Unpack.
Context `{Wire} `{PrioritySpec}.

Definition nghttp2_frame_unpack_priority_payload (payload : list Z) : option nghttp2_priority_spec :=
  nghttp2_frame_unpack_priority_spec payload.

Definition nghttp2_frame_unpack_rst_stream_payload (payload : list Z) : option Z :=
  b ← fetch payload 0 4; Some (nghttp2_get_uint32 b).

Definition nghttp2_frame_unpack_settings_entry (payload : list Z) (o : Z) : option nghttp2_settings_entry :=
  b ← fetch payload o 2;
  b' ← fetch payload (o + 2) 4;
  Some (mkEnt (nghttp2_get_uint16 b) (nghttp2_get_uint32 b')).

(** [for (i = 0; i < *niv_ptr; ++i)] *)
Fixpoint unpack_entries (payload : list Z) (o : Z) (niv : nat) : option (list nghttp2_settings_entry) :=
  match niv with
  | O => Some []
  | S niv =>
      e ← nghttp2_frame_unpack_settings_entry payload o;
      iv ← unpack_entries payload (o + NGHTTP2_FRAME_SETTINGS_ENTRY_LENGTH) niv;
      Some (e :: iv)
  end.

Definition nghttp2_frame_unpack_settings_payload2 (alloc : bool) (payload : list Z) (payloadlen : Z)
    : option (frame_rv * list nghttp2_settings_entry) :=
  let niv := payloadlen / NGHTTP2_FRAME_SETTINGS_ENTRY_LENGTH in
  if niv =? 0 then Some (Success, [])
  else if negb alloc then Some (Err NGHTTP2_ERR_NOMEM, [])
  else iv ← unpack_entries payload 0 (Z.to_nat niv); Some (Success, iv).

Definition nghttp2_frame_unpack_ping_payload (payload : list Z) : option (list Z) := fetch payload 0 8.

Definition nghttp2_frame_unpack_goaway_payload (payload gift : list Z) : option goaway :=
  b ← fetch payload 0 4;
  b' ← fetch payload 4 4;
  Some (mkGoaway (Z.land (nghttp2_get_uint32 b) NGHTTP2_STREAM_ID_MASK) (nghttp2_get_uint32 b') gift).

Definition nghttp2_frame_unpack_goaway_payload2 (alloc : bool) (payload : list Z) (payloadlen : Z)
    : option (frame_rv * option goaway) :=
  let len := if 8 <? payloadlen then payloadlen - 8 else 0 in
  if len =? 0 then g ← nghttp2_frame_unpack_goaway_payload payload []; Some (Success, Some g)
  else if negb alloc then Some (Err NGHTTP2_ERR_NOMEM, None)
  else
    gift ← fetch payload 8 len;
    g ← nghttp2_frame_unpack_goaway_payload payload gift;
    Some (Success, Some g).

Definition nghttp2_frame_unpack_window_update_payload (payload : list Z) : option Z :=
  b ← fetch payload 0 4; Some (Z.land (nghttp2_get_uint32 b) NGHTTP2_WINDOW_SIZE_INCREMENT_MASK).

(** The result of unpacking ALTSVC points into the copy [buf] of the payload. *)
Record altsvc_ptrs := mkPtrs { origin_at : Z; origin_len : Z; field_at : Z; field_len : Z }.

Definition nghttp2_frame_unpack_altsvc_payload (origin_len payloadlen : Z) : altsvc_ptrs :=
  mkPtrs 0 origin_len origin_len (u64 (payloadlen - origin_len)).

Definition nghttp2_frame_unpack_altsvc_payload2 (alloc : bool) (payload : list Z) (payloadlen : Z)
    : option (frame_rv * option (list Z * altsvc_ptrs)) :=
  if payloadlen <? 2 then Some (NGHTTP2_FRAME_SIZE_ERROR, None)
  else
    b ← fetch payload 0 2;
    if negb alloc then Some (Err NGHTTP2_ERR_NOMEM, None)
    else
      buf ← fetch payload 2 (payloadlen - 2);
      Some (Success, Some (buf, nghttp2_frame_unpack_altsvc_payload (nghttp2_get_uint16 b) (payloadlen - 2))).

(** What the pointers show, when they stay inside of the copy. *)
Definition read_altsvc (x : list Z * altsvc_ptrs) : option nghttp2_ext_altsvc :=
  let '(buf, p) := x in
  o ← fetch buf (origin_at p) (origin_len p);
  f ← fetch buf (field_at p) (field_len p);
  Some (mkAltsvc o f).

(** The first pass over the origins: how many there are, and the memory that
    their text needs. [p] is what lies between the pointers [p] and [end];
    [fuel] bounds the iterations. *)
Fixpoint origin_count (fuel : nat) (p : list Z) (nov len : Z) : option (frame_rv + Z * Z) :=
  match fuel, p with
  | _, [] => Some (inr (nov, len))
  | O, _ => None
  | S fuel, _ =>
      if size p <? 2 then Some (inl NGHTTP2_ERR_FRAME_SIZE_ERROR)
      else
        b ← fetch p 0 2;
        let originlen := nghttp2_get_uint16 b in
        let p := drop 2 p in
        if originlen =? 0 then origin_count fuel p nov len
        else if size p <? originlen then Some (inl NGHTTP2_ERR_FRAME_SIZE_ERROR)
        else origin_count fuel (drop (Z.to_nat originlen) p) (nov + 1) (len + (originlen + 1))
  end.

(** The second pass: the origins are copied to [text] at [dst], each with a
    terminator, and the next of [nov] entries points to the copy. *)
Fixpoint origin_copy (fuel : nat) (p : list Z) (nov : Z) (text : list Z) (dst : Z) (ov : list (Z * Z))
    : option (list Z * list (Z * Z)) :=
  match fuel, p with
  | _, [] => Some (text, ov)
  | O, _ => None
  | S fuel, _ =>
      b ← fetch p 0 2;
      let originlen := nghttp2_get_uint16 b in
      let p := drop 2 p in
      if originlen =? 0 then origin_copy fuel p nov text dst ov
      else if nov <=? Z.of_nat (length ov) then None
      else
        o ← fetch p 0 originlen;
        text ← poke text dst o;
        text ← poke text (dst + originlen) [0];
        origin_copy fuel (drop (Z.to_nat originlen) p) nov text (dst + originlen + 1) (ov ++ [(dst, originlen)])
  end.

(** [garbage] is what [malloc] returns for the text: any bytes. *)
Definition nghttp2_frame_unpack_origin_payload (alloc : bool) (garbage : Z -> list Z) (payload : list Z)
    : option (frame_rv * option (list Z * list (Z * Z))) :=
  let fuel := length payload in
  r ← origin_count fuel payload 0 0;
  match r with
  | inl rv => Some (rv, None)
  | inr (nov, len) =>
      if nov =? 0 then Some (Success, Some ([], []))
      else if negb alloc then Some (Err NGHTTP2_ERR_NOMEM, None)
      else x ← origin_copy fuel payload nov (garbage len) 0 []; Some (Success, Some x)
  end.

(** The origins that the entries show. *)
Definition read_origins (x : list Z * list (Z * Z)) : option (list (list Z)) :=
  mapM (fun e => fetch x.1 e.1 e.2) x.2.

Definition nghttp2_frame_unpack_priority_update_payload (payload : list Z) (payloadlen : Z)
    : option nghttp2_ext_priority_update :=
  if payloadlen <? 4 then None
  else
    b ← fetch payload 0 4;
    f ← (if 4 <? payloadlen then fetch payload 4 (payloadlen - 4) else Some []);
    Some (mkUpdate (Z.land (nghttp2_get_uint32 b) NGHTTP2_STREAM_ID_MASK) f).
End Unpack.

(** ** What is written *)

Definition be16 (n : Z) : list Z := [n / 2 ^ 8; n mod 2 ^ 8].
Definition be32 (n : Z) : list Z := [n / 2 ^ 24; (n / 2 ^ 16) mod 2 ^ 8; (n / 2 ^ 8) mod 2 ^ 8; n mod 2 ^ 8].

Definition entry_bytes (e : nghttp2_settings_entry) : list Z := be16 (settings_id e) ++ be32 (iv_value e).

Section Written.
Context `{Wire} `{PrioritySpec} `{FrameBufs}.

Lemma pack_hd_view b h data r hdr :
  view b h data r -> 9 <= h -> hd_ok hdr ->
  exists b', pack_hd hdr b = Some b' /\ view b' (h - 9) (hd_bytes hdr ++ data) r.
Proof.
  intros (pre & post & Hm & Hh & Hr & Hp & Hl) Hk Hok.
  destruct (split_back pre 9) as (pre1 & old & -> & Ho); [lia|]. rewrite size_app in Hh.
  unfold pack_hd, move_pos. cbn [buf_mem buf_pos]. rewrite Hm, <- app_assoc, Hp.
  replace (h + - (9)) with (size pre1) by lia. rewrite pack_frame_hd_mid by done. cbn [mbind option_bind].
  eexists. split; [done|]. exists pre1, post. cbn [buf_mem buf_pos buf_last]. rewrite !size_app, Hl, <- !app_assoc.
  change (size (hd_bytes hdr)) with 9. by repeat (split; [done || lia|]); lia.
Qed.

(** The frame with header [hdr] and payload [pl], in front of room [r]. *)
Definition framed (b : nghttp2_bufs) (h r : Z) (hdr : nghttp2_frame_hd) (pl : list Z) : Prop :=
  chain b = [] /\ view (head b) (h - 9) (hd_bytes hdr ++ pl) (r - size pl).

(** A buffer for a frame: empty, with room for the header. *)
Definition empty_for (b : nghttp2_bufs) (h r : Z) : Prop := chain b = [] /\ view (head b) h [] r /\ 9 <= h.

(** With room for [n] bytes, [f] packs a frame: the header, then [pl]. *)
Definition writes (f : nghttp2_buf -> option nghttp2_buf) (n : Z) (hdr : nghttp2_frame_hd) (pl : list Z) : Prop :=
  forall b h r, view b h [] r -> 9 <= h -> n <= r ->
    exists b', f b = Some b' /\ view b' (h - 9) (hd_bytes hdr ++ pl) (r - size pl).

Lemma assert_avail_ok b h data r n : view b h data r -> n <= r -> assert_avail n b = Some b.
Proof.
  intros Hv Hn. unfold assert_avail. destruct (view_len _ _ _ _ Hv) as [_ ->].
  by replace (_ <? _) with false by lia.
Qed.

Lemma on_head_writes b f n h r hdr pl :
  empty_for b h r -> writes f n hdr pl -> n <= r -> exists b', on_head b f = Some b' /\ framed b' h r hdr pl.
Proof.
  intros (Hc & Hv & Hh) Hw Hs. unfold on_head. rewrite Hc.
  destruct (Hw _ _ _ Hv Hh Hs) as (h' & -> & Hv'). eexists. split; [done|]. by split.
Qed.

Lemma with_head_writes b f n h r hdr pl :
  empty_for b h r -> writes f n hdr pl -> n <= r -> exists b', with_head b f = Some b' /\ framed b' h r hdr pl.
Proof.
  intros (Hc & Hv & Hh) Hw Hs. unfold with_head. rewrite Hc.
  destruct (Hw _ _ _ Hv Hh Hs) as (h' & -> & Hv'). eexists. split; [done|]. by split.
Qed.

Lemma writes_assert f n hdr pl :
  writes f n hdr pl -> writes (fun buf => buf ← assert_avail n buf; f buf) n hdr pl.
Proof.
  intros Hf b h r Hv Hh Hr. rewrite (assert_avail_ok _ _ _ _ _ Hv Hr). cbn [mbind option_bind]. by apply Hf.
Qed.

(** The header, then more at [last]. *)
Lemma writes_hd k n hdr pl :
  hd_ok hdr ->
  (forall b h r, view b h (hd_bytes hdr) r -> n <= r ->
     exists b', k b = Some b' /\ view b' h (hd_bytes hdr ++ pl) (r - size pl)) ->
  writes (fun buf => buf ← pack_hd hdr buf; k buf) n hdr pl.
Proof.
  intros Hok Hk b h r Hv Hh Hr.
  destruct (pack_hd_view _ _ _ _ hdr Hv Hh Hok) as (b1 & -> & Hv1). cbn [mbind option_bind].
  rewrite app_nil_r in Hv1. by apply Hk.
Qed.

Lemma add_framed b h r hdr pl bs :
  framed b h r hdr pl -> size bs <= r - size pl ->
  exists b', nghttp2_bufs_add b bs = (NGHTTP2_SUCCESS, b') /\ framed b' h r hdr (pl ++ bs).
Proof.
  intros [Hc Hv] Hs. destruct (view_back _ _ _ _ bs Hv Hs) as (h' & Hp & Hv').
  destruct b as [hb cb]. cbn in Hc. subst cb. rewrite (bufs_add_fits _ _ _ _ _ _ Hv Hp). eexists. split; [done|].
  split; [done|]. cbn [head]. rewrite size_app, app_assoc. by replace (r - (size pl + size bs)) with (r - size pl - size bs) by lia.
Qed.

Lemma must_add_framed b h r hdr pl bs :
  framed b h r hdr pl -> size bs <= r - size pl ->
  exists b', must_add b bs = Some b' /\ framed b' h r hdr (pl ++ bs).
Proof.
  intros Hf Hs. destruct (add_framed _ _ _ _ _ _ Hf Hs) as (b' & Ha & Hf'). unfold must_add. rewrite Ha. by exists b'.
Qed.

Lemma put16_be n : 0 <= n < 2 ^ 16 -> nghttp2_put_uint16be (u16 n) = be16 n.
Proof. intros Hn. unfold u16. rewrite Z.mod_small by lia. by apply put_uint16be_ok. Qed.

Lemma put32_be n : 0 <= n < 2 ^ 32 -> nghttp2_put_uint32be n = be32 n.
Proof. by apply put_uint32be_ok. Qed.

Lemma put32_cast n : 0 <= n < 2 ^ 32 -> nghttp2_put_uint32be (u32 n) = be32 n.
Proof. intros Hn. unfold u32. rewrite Z.mod_small by lia. by apply put32_be. Qed.

Lemma settings_payload_mid pre old post iv :
  Forall (fun e => 0 <= settings_id e < 2 ^ 16 /\ 0 <= iv_value e < 2 ^ 32) iv ->
  size old = 6 * Z.of_nat (length iv) ->
  nghttp2_frame_pack_settings_payload (pre ++ old ++ post) (size pre) iv
    = Some (pre ++ concat (entry_bytes <$> iv) ++ post).
Proof.
  intros Hiv. revert pre old. induction Hiv as [|e iv [Hi Hv] _ IH]; intros pre old Ho.
  - destruct old; [done|]. rewrite size_cons in Ho. pose proof (size_nonneg old). cbn in Ho. lia.
  - cbn [nghttp2_frame_pack_settings_payload length] in *.
    destruct (split_front old 2) as (o1 & old1 & -> & Ho1); [lia|]. rewrite size_app in Ho.
    destruct (split_front old1 4) as (o2 & old2 & -> & Ho2); [lia|]. rewrite size_app in Ho.
    rewrite put16_be, put32_be by done.
    rewrite <- !app_assoc, (poke_mid pre o1 _ (be16 (settings_id e))) by done. cbn [mbind option_bind].
    rewrite (app_assoc pre), (poke_mid (pre ++ be16 (settings_id e)) o2 _ (be32 (iv_value e)))
      by (rewrite ?size_app; done). cbn [mbind option_bind].
    rewrite app_assoc.
    replace (size pre + 6) with (size ((pre ++ be16 (settings_id e)) ++ be32 (iv_value e)))
      by (rewrite !size_app; change (size (be16 (settings_id e))) with 2; change (size (be32 (iv_value e))) with 4; lia).
    rewrite IH by lia. rewrite fmap_cons. cbn [concat]. unfold entry_bytes. by rewrite <- !app_assoc.
Qed.
End Written.

(** ** ORIGIN payloads *)

Definition origin_bytes (o : list Z) : list Z := be16 (size o) ++ o.

(** The origins that are kept. *)
Definition kept (os : list (list Z)) : list (list Z) := filter (fun o => o <> []) os.

(** The text that the copies take, each with its terminator. *)
Definition text_of (os : list (list Z)) : list Z := concat ((fun o => o ++ [0]) <$> os).

Lemma text_cons o os : text_of (o :: os) = o ++ [0] ++ text_of os.
Proof. unfold text_of. rewrite fmap_cons. cbn [concat]. by rewrite <- app_assoc. Qed.

Lemma kept_cons o os : kept (o :: os) = if decide (o = []) then kept os else o :: kept os.
Proof.
  unfold kept. destruct (decide (o = [])) as [->|Hne]; [by rewrite filter_cons_False by (intros ?; done)|].
  by rewrite filter_cons_True.
Qed.

Section Origins.
Context `{Wire}.

Lemma get_be16 n : 0 <= n < 2 ^ 16 -> nghttp2_get_uint16 (be16 n) = n.
Proof. intros Hn. pose proof (get_put16 n Hn) as Hg. by rewrite put_uint16be_ok in Hg. Qed.

Lemma land_31 n : 0 <= n < 2 ^ 31 -> Z.land n 0x7fffffff = n.
Proof. intros Hn. change 0x7fffffff with (Z.ones 31). rewrite Z.land_ones by lia. by apply Z.mod_small. Qed.

Lemma get_be32 n : 0 <= n < 2 ^ 32 -> nghttp2_get_uint32 (be32 n) = n.
Proof. intros Hn. pose proof (get_put32 n Hn) as Hg. by rewrite put_uint32be_ok in Hg. Qed.

Lemma be16_of a b : is_byte a -> is_byte b -> be16 (nghttp2_get_uint16 [a; b]) = [a; b].
Proof. intros Ha Hb. rewrite get_uint16_ok by done. unfold be16, is_byte in *. do 2 f_equal; [lia_mod|f_equal; lia_mod]. Qed.

(** One origin in front. *)
Lemma origin_front o p : size o < 2 ^ 16 -> let q := origin_bytes o ++ p in
  (size q <? 2) = false /\ fetch q 0 2 = Some (be16 (size o)) /\ nghttp2_get_uint16 (be16 (size o)) = size o /\
  drop 2 q = o ++ p.
Proof.
  intros Ho q. pose proof (size_nonneg o). pose proof (size_nonneg p). unfold q, origin_bytes.
  rewrite !size_app. change (size (be16 (size o))) with 2. split; [lia|]. rewrite <- app_assoc.
  split; [by apply fetch_prefix|]. split; [by apply get_be16|done].
Qed.

Lemma drop_size (xs ys : list Z) : drop (Z.to_nat (size xs)) (xs ++ ys) = ys.
Proof. rewrite to_nat_size. apply drop_app_length. Qed.

Lemma origin_count_ok os fuel nov len :
  Forall (fun o => size o < 2 ^ 16) os -> (length (concat (origin_bytes <$> os)) <= fuel)%nat ->
  origin_count fuel (concat (origin_bytes <$> os)) nov len
    = Some (inr (nov + Z.of_nat (length (kept os)), len + size (text_of (kept os)))).
Proof.
  intros Hos. revert fuel nov len. induction Hos as [|o os Ho _ IH]; intros fuel nov len Hf.
  - replace (nov + _) with nov by (cbn; lia). replace (len + _) with len by (unfold size; cbn; lia). by destruct fuel.
  - rewrite fmap_cons in *. cbn [concat] in *.
    destruct (origin_front o (concat (origin_bytes <$> os)) Ho) as (Hs & Hfe & Hg & Hd).
    unfold origin_bytes at 1 in Hf. rewrite !length_app in Hf. change (length (be16 (size o))) with 2%nat in Hf.
    destruct fuel as [|fuel]; [lia|]. cbn [origin_count].
    destruct (origin_bytes o ++ _) as [|x q] eqn:Eq; [done|]. rewrite Hs, Hfe. cbn [mbind option_bind].
    rewrite Hg, Hd, kept_cons. destruct (decide (o = [])) as [->|Hne].
    + change (size [] =? 0) with true. cbv iota. cbn [app]. rewrite IH by lia. done.
    + assert (0 < size o) by (destruct o; [done|]; rewrite size_cons; pose proof (size_nonneg o); lia).
      replace (size o =? 0) with false by lia. rewrite size_app.
      pose proof (size_nonneg (concat (origin_bytes <$> os))). replace (_ <? _) with false by lia.
      rewrite drop_size, IH by lia. rewrite text_cons, !size_app. cbn [length]. change (size [0]) with 1.
      do 2 f_equal. f_equal; lia.
Qed.

(** What does not parse is no sequence of origins. *)
Lemma origin_count_error fuel p nov len :
  Forall is_byte p -> (length p <= fuel)%nat ->
  (exists os, Forall (fun o => size o < 2 ^ 16) os /\ p = concat (origin_bytes <$> os)) \/
  origin_count fuel p nov len = Some (inl NGHTTP2_ERR_FRAME_SIZE_ERROR).
Proof.
  revert p nov len. induction fuel as [|fuel IH]; intros p nov len Hp Hf.
  - left. exists []. split; [done|]. by destruct p; [|cbn in Hf; lia].
  - destruct p as [|a [|b p]]; [left; by exists []|by right|]. cbn [origin_count].
    apply Forall_cons in Hp as [Ha Hp]. apply Forall_cons in Hp as [Hb Hp].
    replace (size (a :: b :: p) <? 2) with false by (rewrite !size_cons; pose proof (size_nonneg p); lia).
    rewrite (fetch_prefix [a; b] p) by done. cbn [mbind option_bind]. set (n := nghttp2_get_uint16 [a; b]).
    assert (Hn : 0 <= n < 2 ^ 16) by (unfold n; rewrite get_uint16_ok by done; unfold is_byte in *; lia).
    assert (Hab : be16 n = [a; b]) by (by apply be16_of).
    rewrite !skipn_cons, drop_0. cbn [length] in Hf. destruct (n =? 0) eqn:E0.
    + destruct (IH p nov len Hp ltac:(lia)) as [(os & Hos & ->)|Hx]; [|by right].
      left. exists ([] :: os). split; [by constructor|]. rewrite fmap_cons. cbn [concat].
      assert (origin_bytes [] = [a; b]) as ->; [|done]. rewrite <- Hab. unfold origin_bytes. rewrite app_nil_r.
      f_equal. change (size []) with 0. lia.
    + destruct (size p <? n) eqn:E1; [by right|].
      destruct (split_front p n) as (o & p' & -> & Ho); [lia|]. rewrite <- Ho at 1. rewrite drop_size.
      apply Forall_app in Hp as [_ Hp]. rewrite length_app in Hf.
      destruct (IH p' (nov + 1) (len + (n + 1)) Hp ltac:(lia)) as [(os & Hos & ->)|Hx]; [|right; by rewrite <- Ho in *].
      left. exists (o :: os). split; [constructor; [lia|done]|]. rewrite fmap_cons. cbn [concat].
      assert (origin_bytes o = a :: b :: o) as ->; [|done]. unfold origin_bytes. by rewrite Ho, Hab.
Qed.

(** Where the entries point to. *)
Fixpoint entries_at (dst : Z) (os : list (list Z)) : list (Z * Z) :=
  match os with
  | [] => []
  | o :: os => (dst, size o) :: entries_at (dst + size o + 1) os
  end.

Lemma origin_copy_ok os fuel ov done rest nov :
  Forall (fun o => size o < 2 ^ 16) os -> (length (concat (origin_bytes <$> os)) <= fuel)%nat ->
  size rest = size (text_of (kept os)) -> nov = Z.of_nat (length ov + length (kept os)) ->
  origin_copy fuel (concat (origin_bytes <$> os)) nov (done ++ rest) (size done) ov
    = Some (done ++ text_of (kept os), ov ++ entries_at (size done) (kept os)).
Proof.
  intros Hos. revert fuel ov done rest. induction Hos as [|o os Ho _ IH]; intros fuel ov done rest Hf Hr Hn.
  - assert (rest = []) as -> by (destruct rest; [done|]; rewrite size_cons in Hr; pose proof (size_nonneg rest); change (size (text_of (kept []))) with 0 in Hr; lia).
    change (kept []) with (@nil (list Z)). cbn [entries_at]. rewrite !app_nil_r. by destruct fuel.
  - rewrite fmap_cons in *. cbn [concat] in *.
    destruct (origin_front o (concat (origin_bytes <$> os)) Ho) as (Hs & Hfe & Hg & Hd).
    unfold origin_bytes at 1 in Hf. rewrite !length_app in Hf. change (length (be16 (size o))) with 2%nat in Hf.
    destruct fuel as [|fuel]; [lia|]. cbn [origin_copy].
    destruct (origin_bytes o ++ _) as [|x q] eqn:Eq; [done|]. rewrite Hfe. cbn [mbind option_bind].
    rewrite Hg, Hd. rewrite kept_cons in *. destruct (decide (o = [])) as [->|Hne].
    + change (size [] =? 0) with true. cbv iota. cbn [app]. by apply IH; [lia|..].
    + assert (0 < size o) by (destruct o; [done|]; rewrite size_cons; pose proof (size_nonneg o); lia).
      replace (size o =? 0) with false by lia. cbn [length] in Hn. replace (nov <=? _) with false by lia.
      rewrite (fetch_prefix o) by done. cbn [mbind option_bind]. rewrite text_cons, !size_app in Hr. change (size [0]) with 1 in Hr.
      destruct (split_front rest (size o)) as (r1 & r2 & -> & H1); [pose proof (size_nonneg (text_of (kept os))); lia|].
      rewrite size_app in Hr. destruct (split_front r2 1) as (r3 & r4 & -> & H3); [pose proof (size_nonneg (text_of (kept os))); lia|].
      rewrite size_app in Hr.
      rewrite (poke_mid done r1 _ o) by done. cbn [mbind option_bind].
      rewrite (app_assoc done), (poke_mid (done ++ o) r3 r4 [0]) by (rewrite ?size_app; done). cbn [mbind option_bind].
      rewrite drop_size, app_assoc.
      replace (size done + size o + 1) with (size ((done ++ o) ++ [0])) by (rewrite !size_app; change (size [0]) with 1; lia).
      rewrite IH; [|lia|lia|rewrite length_app; cbn [length]; lia].
      rewrite text_cons. cbn [entries_at]. rewrite !size_app, <- !app_assoc. by change (size [0]) with 1.
Qed.

Lemma read_entries pre os :
  mapM (fun e => fetch (pre ++ text_of os) e.1 e.2) (entries_at (size pre) os) = Some os.
Proof.
  revert pre. induction os as [|o os IH]; intros pre; [done|]. cbn [entries_at mapM fst snd]. rewrite text_cons.
  rewrite (fetch_mid pre o) by done. cbn [mbind option_bind].
  replace (size pre + size o + 1) with (size (pre ++ o ++ [0])) by (rewrite !size_app; change (size [0]) with 1; lia).
  replace (pre ++ o ++ [0] ++ text_of os) with ((pre ++ o ++ [0]) ++ text_of os) by (by rewrite <- !app_assoc).
  by rewrite IH.
Qed.

(** Reading an ORIGIN payload. *)
Lemma unpack_origin_ok os garbage :
  Forall (fun o => size o < 2 ^ 16) os -> (forall n, 0 <= n -> size (garbage n) = n) ->
  exists x, nghttp2_frame_unpack_origin_payload true garbage (concat (origin_bytes <$> os)) = Some (Success, Some x) /\
    read_origins x = Some (kept os).
Proof.
  intros Hos Hg. unfold nghttp2_frame_unpack_origin_payload. rewrite origin_count_ok by done. cbn [mbind option_bind].
  rewrite !Z.add_0_l. destruct (Z.of_nat (length (kept os)) =? 0) eqn:E.
  - eexists. split; [done|]. destruct (kept os); [done|]. cbn [length] in E. lia.
  - cbn [negb]. pose proof (origin_copy_ok os (length (concat (origin_bytes <$> os))) [] []
      (garbage (size (text_of (kept os)))) _ Hos (le_n _) (Hg _ (size_nonneg _)) eq_refl) as Hc.
    cbn [app length] in Hc. change (size []) with 0 in Hc. rewrite Nat.add_0_l in Hc. rewrite Hc. cbn [mbind option_bind].
    eexists. split; [done|]. unfold read_origins. cbn [fst snd]. apply (read_entries []).
Qed.
End Origins.

(** Priorities as nghttp2 initialises them. *)
#[local] Instance sample_priority_spec : PrioritySpec := {
  nghttp2_priority_spec_init := mkPri; nghttp2_priority_spec_default_init := mkPri 0 16 false;
  priority_spec_init_ok _ _ _ := eq_refl; priority_spec_default_ok := eq_refl
}.

End H2Frame.
