(* ===== verification/H2Wire.v ===== *)
(** Every frame with a body of its own that
    src/http2/src/upstream/lib/nghttp2_frame.c can initialise is written to
    the wire and read back. *)

From S2P Require Export H2Frame.
Export H2Frame.
Open Scope Z_scope.

Module H2Wire.

(** [nghttp2_frame], a union: the frames of H2Frame.v. *)
Inductive any_frame :=
  | Priority (f : nghttp2_priority)
  | Rst_stream (f : nghttp2_rst_stream)
  | Settings (f : nghttp2_settings)
  | Ping (f : nghttp2_ping)
  | Goaway (f : nghttp2_goaway)
  | Window_update (f : nghttp2_window_update)
  | Altsvc (f : frame nghttp2_ext_altsvc)
  | Origin (f : frame (list (list Z)))
  | Priority_update (f : frame nghttp2_ext_priority_update).

Definition any_hd (f : any_frame) : nghttp2_frame_hd :=
  match f with
  | Priority f => hd f | Rst_stream f => hd f | Settings f => hd f | Ping f => hd f | Goaway f => hd f
  | Window_update f => hd f | Altsvc f => hd f | Origin f => hd f | Priority_update f => hd f
  end.

(** The payload, as the protocol describes it. *)
Definition payload (f : any_frame) : list Z :=
  match f with
  | Priority f => pri_bytes (body f)
  | Rst_stream f => be32 (body f)
  | Settings f => concat (entry_bytes <$> body f)
  | Ping f => body f
  | Goaway f => be32 (last_stream_id (body f)) ++ be32 (error_code (body f)) ++ opaque_data (body f)
  | Window_update f => be32 (body f)
  | Altsvc f => be16 (size (altsvc_origin (body f))) ++ altsvc_origin (body f) ++ altsvc_field_value (body f)
  | Origin f => concat ((fun o => be16 (size o) ++ o) <$> body f)
  | Priority_update f => be32 (update_stream_id (body f)) ++ update_field_value (body f)
  end.

(** A frame as the initialisation functions make it, with fields in the range
    of their types and no longer than a frame can be. *)
Inductive made : any_frame -> Prop :=
  | made_priority sid spec : 0 <= sid < 2 ^ 31 -> pri_ok spec ->
      made (Priority (nghttp2_frame_priority_init sid spec))
  | made_rst_stream sid code : 0 <= sid < 2 ^ 31 -> 0 <= code < 2 ^ 32 ->
      made (Rst_stream (nghttp2_frame_rst_stream_init sid code))
  | made_settings flags iv : is_byte flags ->
      Forall (fun e => 0 <= settings_id e < 2 ^ 16 /\ 0 <= iv_value e < 2 ^ 32) iv ->
      6 * Z.of_nat (length iv) < 2 ^ 24 ->
      made (Settings (nghttp2_frame_settings_init flags iv))
  | made_ping flags data : is_byte flags -> (forall d, data = Some d -> length d = 8%nat) ->
      made (Ping (nghttp2_frame_ping_init flags data))
  | made_goaway last code data : 0 <= last < 2 ^ 31 -> 0 <= code < 2 ^ 32 -> 8 + size data < 2 ^ 24 ->
      made (Goaway (nghttp2_frame_goaway_init last code data))
  | made_window_update flags sid n : is_byte flags -> 0 <= sid < 2 ^ 31 -> 0 <= n < 2 ^ 31 ->
      made (Window_update (nghttp2_frame_window_update_init flags sid n))
  | made_altsvc sid origin value : 0 <= sid < 2 ^ 31 -> size origin < 2 ^ 16 ->
      2 + size origin + size value < 2 ^ 24 ->
      made (Altsvc (nghttp2_frame_altsvc_init sid origin value))
  | made_origin ov : Forall (fun o => 0 < size o < 2 ^ 16) ov ->
      hd_length (hd (nghttp2_frame_origin_init ov)) < 2 ^ 24 ->
      made (Origin (nghttp2_frame_origin_init ov))
  | made_priority_update sid value : 0 <= sid < 2 ^ 31 -> 4 + size value < 2 ^ 24 ->
      made (Priority_update (nghttp2_frame_priority_update_init sid value)).

Section Send.
Context `{Wire} `{PrioritySpec} `{FrameBufs}.

(** The functions without a return value. *)
Definition returns (x : option nghttp2_bufs) : option (frame_rv * nghttp2_bufs) := b ← x; Some (Success, b).

(** Which function writes which frame. *)
Definition send (b : nghttp2_bufs) (f : any_frame) : option (frame_rv * nghttp2_bufs) :=
  match f with
  | Priority f => returns (nghttp2_frame_pack_priority b f)
  | Rst_stream f => returns (nghttp2_frame_pack_rst_stream b f)
  | Settings f => nghttp2_frame_pack_settings b f
  | Ping f => returns (nghttp2_frame_pack_ping b f)
  | Goaway f => nghttp2_frame_pack_goaway b f
  | Window_update f => returns (nghttp2_frame_pack_window_update b f)
  | Altsvc f => returns (nghttp2_frame_pack_altsvc b f)
  | Origin f => nghttp2_frame_pack_origin b f
  | Priority_update f => returns (nghttp2_frame_pack_priority_update b f)
  end.

(** A successful result, for the functions that return one. *)
Definition succeeded {A} (x : option (frame_rv * option A)) : option A :=
  match x with Some (Success, Some a) => Some a | _ => None end.

(** Which function reads which payload; all allocations succeed. *)
Definition receive_payload (garbage : Z -> list Z) (h : nghttp2_frame_hd) (pl : list Z) : option any_frame :=
  let len := hd_length h in
  let t := hd_type h in
  if t =? NGHTTP2_PRIORITY then
    x ← nghttp2_frame_unpack_priority_payload pl; Some (Priority (mkFrame h x))
  else if t =? NGHTTP2_RST_STREAM then
    x ← nghttp2_frame_unpack_rst_stream_payload pl; Some (Rst_stream (mkFrame h x))
  else if t =? NGHTTP2_SETTINGS then
    match nghttp2_frame_unpack_settings_payload2 true pl len with
    | Some (Success, iv) => Some (Settings (mkFrame h iv))
    | _ => None
    end
  else if t =? NGHTTP2_PING then
    x ← nghttp2_frame_unpack_ping_payload pl; Some (Ping (mkFrame h x))
  else if t =? NGHTTP2_GOAWAY then
    x ← succeeded (nghttp2_frame_unpack_goaway_payload2 true pl len); Some (Goaway (mkFrame h x))
  else if t =? NGHTTP2_WINDOW_UPDATE then
    x ← nghttp2_frame_unpack_window_update_payload pl; Some (Window_update (mkFrame h x))
  else if t =? NGHTTP2_ALTSVC then
    x ← succeeded (nghttp2_frame_unpack_altsvc_payload2 true pl len);
    x ← read_altsvc x; Some (Altsvc (mkFrame h x))
  else if t =? NGHTTP2_ORIGIN then
    x ← succeeded (nghttp2_frame_unpack_origin_payload true garbage pl);
    x ← read_origins x; Some (Origin (mkFrame h x))
  else if t =? NGHTTP2_PRIORITY_UPDATE then
    x ← nghttp2_frame_unpack_priority_update_payload pl len; Some (Priority_update (mkFrame h x))
  else None.

(** A frame from the wire, and what follows it. *)
Definition receive (garbage : Z -> list Z) (bs : list Z) : option (any_frame * list Z) :=
  h ← nghttp2_frame_unpack_frame_hd bs;
  pl ← fetch bs NGHTTP2_FRAME_HDLEN (hd_length h);
  f ← receive_payload garbage h pl;
  Some (f, drop (Z.to_nat (NGHTTP2_FRAME_HDLEN + hd_length h)) bs).

(** ** Writing *)

Lemma origins_length ov n :
  foldl (fun n o => n + (2 + size o)) n ov = n + size (concat ((fun o => be16 (size o) ++ o) <$> ov)).
Proof.
  revert n. induction ov as [|o ov IH]; intros n; [unfold size; cbn; lia|].
  rewrite fmap_cons. cbn [foldl concat]. rewrite IH, !size_app. change (size (be16 (size o))) with 2. lia.
Qed.

Lemma entries_length iv : size (concat (entry_bytes <$> iv)) = 6 * Z.of_nat (length iv).
Proof.
  induction iv as [|e iv IH]; [done|]. rewrite fmap_cons. cbn [concat length]. rewrite size_app, IH.
  change (size (entry_bytes e)) with 6. lia.
Qed.

Ltac simpl_frame :=
  cbn [any_hd payload hd body hd_length hd_type hd_flags hd_stream_id hd_reserved nghttp2_frame_hd_init
       nghttp2_frame_priority_init nghttp2_frame_rst_stream_init nghttp2_frame_settings_init
       nghttp2_frame_ping_init nghttp2_frame_goaway_init nghttp2_frame_window_update_init
       nghttp2_frame_altsvc_init nghttp2_frame_origin_init nghttp2_frame_priority_update_init
       last_stream_id error_code opaque_data altsvc_origin altsvc_field_value update_stream_id
       update_field_value] in *.

Lemma ping_data (data : option (list Z)) :
  (forall d, data = Some d -> length d = 8%nat) ->
  size (match data with Some d => take 8 d | None => replicate 8 0 end) = 8.
Proof.
  intros Hd. destruct data as [d|]; [|done]. unfold size. rewrite length_take, (Hd d eq_refl). done.
Qed.

(** The header announces the length of the payload. *)
Lemma made_hd f : made f -> hd_ok (any_hd f) /\ hd_length (any_hd f) = size (payload f).
Proof.
  intros Hf. destruct Hf as [sid spec Hs Hp|sid code Hs Hc|flags iv Hfl Hiv Hn|flags data Hfl Hd|last code data Hl Hc Hn
    |flags sid n Hfl Hs Hn|sid o v Hs Ho Hn|ov Hov Hn|sid v Hs Hn]; simpl_frame; unfold hd_ok, is_byte in *; simpl_frame.
  - split; [lia|done].
  - split; [lia|done].
  - rewrite entries_length. lia.
  - rewrite ping_data by done. lia.
  - rewrite !size_app. pose proof (size_nonneg data). split; [lia|]. unfold size, be32. cbn [length]. lia.
  - split; [lia|done].
  - rewrite !size_app. pose proof (size_nonneg o). pose proof (size_nonneg v). split; [lia|].
    change (size (be16 (size o))) with 2. lia.
  - rewrite origins_length in *. pose proof (size_nonneg (concat ((fun o => be16 (size o) ++ o) <$> ov))). lia.
  - rewrite !size_app. pose proof (size_nonneg v). split; [lia|]. change (size (be32 sid)) with 4. lia.
Qed.

(** What follows the header in each function. *)
Lemma origins_view ov b h data r :
  Forall (fun o => 0 < size o < 2 ^ 16) ov -> view b h data r ->
  size (concat ((fun o => be16 (size o) ++ o) <$> ov)) <= r ->
  exists b', pack_origins ov b = Some b' /\
    view b' h (data ++ concat ((fun o => be16 (size o) ++ o) <$> ov)) (r - size (concat ((fun o => be16 (size o) ++ o) <$> ov))).
Proof.
  intros Hov. revert b data r. induction Hov as [|o ov Ho _ IH]; intros b data r Hv Hr.
  - cbn. exists b. split; [done|]. rewrite app_nil_r. by replace (r - size []) with r by (unfold size; cbn; lia).
  - rewrite fmap_cons in *. cbn [concat pack_origins] in *. rewrite !size_app in Hr.
    change (size (be16 (size o))) with 2 in Hr. pose proof (size_nonneg (concat ((fun o => be16 (size o) ++ o) <$> ov))).
    rewrite put16_be by lia.
    destruct (view_back _ _ _ _ (be16 (size o)) Hv) as (b1 & -> & Hv1); [change (size (be16 (size o))) with 2; lia|].
    cbn [mbind option_bind].
    destruct (view_back _ _ _ _ o Hv1) as (b2 & -> & Hv2); [change (size (be16 (size o))) with 2; lia|].
    cbn [mbind option_bind].
    destruct (IH _ _ _ Hv2) as (b3 & -> & Hv3); [change (size (be16 (size o))) with 2; lia|].
    exists b3. split; [done|]. rewrite !size_app, <- !app_assoc in *.
    by replace (r - (size (be16 (size o)) + size o + size (concat ((fun o => be16 (size o) ++ o) <$> ov))))
      with (r - size (be16 (size o)) - size o - size (concat ((fun o => be16 (size o) ++ o) <$> ov))) by lia.
Qed.

Lemma priority_view p b h data r :
  pri_ok p -> view b h data r -> 5 <= r ->
  exists m, nghttp2_frame_pack_priority_spec (buf_mem b) (buf_last b) p = Some m /\
    view (mkNbuf m (buf_pos b) (buf_last b + 5)) h (data ++ pri_bytes p) (r - 5).
Proof.
  intros Hok (pre & post & Hm & Hh & Hr & Hp & Hl) Hs.
  destruct (split_front post 5) as (old & post1 & -> & Ho); [lia|]. rewrite size_app in Hr.
  rewrite Hm, Hl, <- Hh, <- size_app, app_assoc, pack_priority_spec_mid by done. eexists. split; [done|].
  exists pre, post1. cbn [buf_mem buf_pos buf_last]. rewrite !size_app, Hp, <- !app_assoc.
  change (size (pri_bytes p)) with 5. by repeat (split; [done || lia|]); lia.
Qed.

Lemma settings_view iv b h data r :
  Forall (fun e => 0 <= settings_id e < 2 ^ 16 /\ 0 <= iv_value e < 2 ^ 32) iv ->
  view b h data r -> size (concat (entry_bytes <$> iv)) <= r ->
  exists m, nghttp2_frame_pack_settings_payload (buf_mem b) (buf_last b) iv = Some m /\
    view (mkNbuf m (buf_pos b) (buf_last b + 6 * Z.of_nat (length iv))) h (data ++ concat (entry_bytes <$> iv))
      (r - size (concat (entry_bytes <$> iv))).
Proof.
  intros Hok (pre & post & Hm & Hh & Hr & Hp & Hl) Hs. rewrite entries_length in *.
  destruct (split_front post (6 * Z.of_nat (length iv))) as (old & post1 & -> & Ho); [lia|]. rewrite size_app in Hr.
  rewrite Hm, Hl, <- Hh, <- size_app, app_assoc, settings_payload_mid by done. eexists. split; [done|].
  exists pre, post1. cbn [buf_mem buf_pos buf_last]. rewrite !size_app, Hp, <- !app_assoc, entries_length.
  by repeat (split; [done || lia|]); lia.
Qed.

Lemma send_settings b h r fr :
  empty_for b h r -> hd_ok (hd fr) -> hd_length (hd fr) = size (concat (entry_bytes <$> body fr)) ->
  size (concat (entry_bytes <$> body fr)) <= r ->
  Forall (fun e => 0 <= settings_id e < 2 ^ 16 /\ 0 <= iv_value e < 2 ^ 32) (body fr) ->
  exists b', nghttp2_frame_pack_settings b fr = Some (Success, b') /\
    framed b' h r (hd fr) (concat (entry_bytes <$> body fr)).
Proof.
  intros (Hc & Hv & Hh) Hok Hlen Hr Hiv. unfold nghttp2_frame_pack_settings. rewrite Hc.
  destruct (view_len _ _ _ _ Hv) as [_ ->]. rewrite Hlen. replace (_ <? _) with false by lia.
  destruct (pack_hd_view _ _ _ _ _ Hv Hh Hok) as (b1 & -> & Hv1). cbn [mbind option_bind].
  destruct (settings_view _ _ _ _ _ Hiv Hv1 Hr) as (m & -> & Hv2). cbn [mbind option_bind].
  eexists. split; [done|]. split; [done|]. by rewrite app_nil_r in Hv2.
Qed.

Lemma put_view pl b h data r :
  view b h data r -> size pl <= r -> exists b', put_last pl b = Some b' /\ view b' h (data ++ pl) (r - size pl).
Proof. intros. by apply view_back. Qed.

Lemma returns_framed x h r hdr pl :
  (exists b', x = Some b' /\ framed b' h r hdr pl) -> exists b', returns x = Some (Success, b') /\ framed b' h r hdr pl.
Proof. intros (b' & -> & Hx). by exists b'. Qed.

Lemma send_goaway b h r last code data :
  let f := nghttp2_frame_goaway_init last code data in
  empty_for b h r -> hd_ok (hd f) -> 0 <= last < 2 ^ 31 -> 0 <= code < 2 ^ 32 -> 8 + size data <= r ->
  exists b', nghttp2_frame_pack_goaway b f = Some (Success, b') /\
    framed b' h r (hd f) (be32 last ++ be32 code ++ data).
Proof.
  intros f Hb Hok Hl Hc Hr. unfold nghttp2_frame_pack_goaway. pose proof (size_nonneg data).
  destruct (on_head_writes b (fun buf => buf ← pack_hd (hd f) buf;
    buf ← put_last (nghttp2_put_uint32be (u32 (last_stream_id (body f)))) buf;
    put_last (nghttp2_put_uint32be (error_code (body f))) buf) 8 h r (hd f) (be32 last ++ be32 code))
    as (b1 & -> & Hf); [done| |lia|].
  - apply writes_hd; [done|]. intros b1 h1 r1 Hv Hs. unfold f. simpl_frame.
    rewrite put32_cast, put32_be by lia.
    destruct (put_view (be32 last) _ _ _ _ Hv) as (b2 & -> & Hv2); [change (size (be32 last)) with 4; lia|].
    cbn [mbind option_bind]. change (size (be32 last)) with 4 in Hv2.
    destruct (put_view (be32 code) _ _ _ _ Hv2) as (b3 & -> & Hv3); [change (size (be32 code)) with 4; lia|].
    exists b3. split; [done|]. rewrite <- app_assoc in Hv3.
    change (size (be32 last ++ be32 code)) with 8. change (size (be32 code)) with 4 in Hv3.
    by replace (r1 - 8) with (r1 - 4 - 4) by lia.
  - cbn [mbind option_bind].
    destruct (add_framed _ _ _ _ _ data Hf) as (b2 & Ha & Hf2); [change (size (be32 last ++ be32 code)) with 8; lia|].
    unfold f in *. simpl_frame. rewrite Ha. exists b2. split; [done|]. by rewrite <- app_assoc in Hf2.
Qed.

(** A fixed part, and one or two fields behind it. *)
Lemma send_altsvc b h r sid o v :
  let f := nghttp2_frame_altsvc_init sid o v in
  empty_for b h r -> hd_ok (hd f) -> size o < 2 ^ 16 -> 2 + size o + size v <= r ->
  exists b', nghttp2_frame_pack_altsvc b f = Some b' /\ framed b' h r (hd f) (be16 (size o) ++ o ++ v).
Proof.
  intros f Hb Hok Ho Hr. unfold nghttp2_frame_pack_altsvc. pose proof (size_nonneg o). pose proof (size_nonneg v).
  destruct (with_head_writes b (fun buf =>
    buf ← assert_avail (2 + size (altsvc_origin (body f)) + size (altsvc_field_value (body f))) buf;
    buf ← pack_hd (hd f) buf;
    put_last (nghttp2_put_uint16be (u16 (size (altsvc_origin (body f))))) buf) (2 + size o + size v) h r (hd f)
    (be16 (size o))) as (b1 & -> & Hf); [done| |lia|].
  - apply writes_assert, writes_hd; [done|]. intros b1 h1 r1 Hv Hs. unfold f. simpl_frame.
    rewrite put16_be by lia. apply put_view; [done|]. change (size (be16 (size o))) with 2. lia.
  - cbn [mbind option_bind]. unfold f in *. simpl_frame.
    destruct (must_add_framed _ _ _ _ _ o Hf) as (b2 & -> & Hf2); [change (size (be16 (size o))) with 2; lia|].
    cbn [mbind option_bind].
    destruct (must_add_framed _ _ _ _ _ v Hf2) as (b3 & -> & Hf3);
      [rewrite size_app; change (size (be16 (size o))) with 2; lia|].
    exists b3. split; [done|]. by rewrite <- app_assoc in Hf3.
Qed.

Lemma send_priority_update b h r sid v :
  let f := nghttp2_frame_priority_update_init sid v in
  empty_for b h r -> hd_ok (hd f) -> 0 <= sid < 2 ^ 31 -> 4 + size v <= r ->
  exists b', nghttp2_frame_pack_priority_update b f = Some b' /\ framed b' h r (hd f) (be32 sid ++ v).
Proof.
  intros f Hb Hok Ho Hr. unfold nghttp2_frame_pack_priority_update. pose proof (size_nonneg v).
  destruct (with_head_writes b (fun buf =>
    buf ← assert_avail (4 + size (update_field_value (body f))) buf;
    buf ← pack_hd (hd f) buf;
    put_last (nghttp2_put_uint32be (u32 (update_stream_id (body f)))) buf) (4 + size v) h r (hd f) (be32 sid))
    as (b1 & -> & Hf); [done| |lia|].
  - apply writes_assert, writes_hd; [done|]. intros b1 h1 r1 Hv Hs. unfold f. simpl_frame.
    rewrite put32_cast by lia. apply put_view; [done|]. change (size (be32 sid)) with 4. lia.
  - cbn [mbind option_bind]. unfold f in *. simpl_frame.
    apply (must_add_framed _ _ _ _ _ v Hf). change (size (be32 sid)) with 4. lia.
Qed.

Lemma send_origin b h r ov :
  let f := nghttp2_frame_origin_init ov in
  empty_for b h r -> hd_ok (hd f) -> Forall (fun o => 0 < size o < 2 ^ 16) ov ->
  size (payload (Origin f)) <= r ->
  exists b', nghttp2_frame_pack_origin b f = Some (Success, b') /\ framed b' h r (hd f) (payload (Origin f)).
Proof.
  intros f Hb Hok Hov Hr. unfold nghttp2_frame_pack_origin. pose proof Hb as (Hc & Hv & Hh).
  destruct (view_len _ _ _ _ Hv) as [_ ->]. destruct (made_hd (Origin f)) as [_ Hlen];
    [apply made_origin; [done|apply Hok]|]. cbn [any_hd] in Hlen.
  rewrite Hlen. replace (_ <? _) with false by lia.
  destruct (with_head_writes b (fun buf => buf ← pack_hd (hd f) buf; buf ← pack_origins (body f) buf;
    if nghttp2_buf_len buf =? 9 + size (payload (Origin f)) then Some buf else None)
    (size (payload (Origin f))) h r (hd f) (payload (Origin f))) as (b1 & -> & Hf); [done| |done|by exists b1].
  apply writes_hd; [done|]. intros b1 h1 r1 Hv1 Hs1. unfold f in *. simpl_frame.
  destruct (origins_view ov _ _ _ _ Hov Hv1 Hs1) as (b2 & -> & Hv2). cbn [mbind option_bind].
  destruct (view_len _ _ _ _ Hv2) as [-> _]. rewrite size_app. change (size (hd_bytes _)) with 9.
  rewrite Z.eqb_refl. by exists b2.
Qed.

Lemma send_framed b h r f :
  made f -> empty_for b h r -> size (payload f) <= r ->
  exists b', send b f = Some (Success, b') /\ framed b' h r (any_hd f) (payload f).
Proof.
  intros Hf Hb Hr. destruct (made_hd f Hf) as [Hok Hlen].
  destruct Hf as [sid spec Hs Hp|sid code Hs Hc|flags iv Hfl Hiv Hn|flags data Hfl Hd|last code data Hl Hc Hn
    |flags sid n Hfl Hs Hn|sid o v Hs Ho Hn|ov Hov Hn|sid v Hs Hn]; cbn [send].
  - apply returns_framed, (on_head_writes b _ 5); [done| |done]. apply writes_assert, writes_hd; [done|].
    intros b1 h1 r1 Hv Hs1. destruct (priority_view spec _ _ _ _ Hp Hv Hs1) as (m & Hx & Hv'). simpl_frame.
    rewrite Hx. cbn [mbind option_bind]. by eexists.
  - apply returns_framed, (on_head_writes b _ 4); [done| |done]. apply writes_assert, writes_hd; [done|].
    intros b1 h1 r1 Hv Hs1. simpl_frame. rewrite put32_be by done. by apply put_view.
  - apply send_settings; try done.
  - simpl_frame. apply returns_framed, (on_head_writes b _ 8); [done| |by rewrite ping_data in Hr].
    apply writes_assert, writes_hd; [done|]. intros b1 h1 r1 Hv Hs1. simpl_frame.
    rewrite take_ge; [apply put_view; [done|by rewrite ping_data]|].
    pose proof (ping_data data Hd) as Hpd. unfold size in Hpd. lia.
  - simpl_frame. rewrite !size_app in Hr. change (size (be32 last)) with 4 in Hr. change (size (be32 code)) with 4 in Hr.
    apply send_goaway; try done. lia.
  - apply returns_framed, (on_head_writes b _ 4); [done| |done]. apply writes_assert, writes_hd; [done|].
    intros b1 h1 r1 Hv Hs1. simpl_frame. rewrite put32_cast by lia. by apply put_view.
  - simpl_frame. rewrite !size_app in Hr. change (size (be16 (size o))) with 2 in Hr.
    apply returns_framed, send_altsvc; try done. lia.
  - by apply send_origin.
  - simpl_frame. rewrite !size_app in Hr. change (size (be32 sid)) with 4 in Hr.
    apply returns_framed, send_priority_update; try done.
Qed.

(** ** Reading *)

Lemma entry_mid pre e post :
  0 <= settings_id e < 2 ^ 16 -> 0 <= iv_value e < 2 ^ 32 ->
  nghttp2_frame_unpack_settings_entry (pre ++ entry_bytes e ++ post) (size pre) = Some e.
Proof.
  intros Hi Hv. unfold nghttp2_frame_unpack_settings_entry, entry_bytes. rewrite <- app_assoc.
  rewrite (fetch_mid pre (be16 (settings_id e)) _ (size pre) 2) by reflexivity. cbn [mbind option_bind].
  rewrite app_assoc, (fetch_mid (pre ++ be16 (settings_id e)) (be32 (iv_value e)) _ (size pre + 2) 4)
    by (rewrite ?size_app; reflexivity).
  cbn [mbind option_bind]. rewrite get_be16, get_be32 by done. by destruct e.
Qed.

Lemma entries_mid pre iv :
  Forall (fun e => 0 <= settings_id e < 2 ^ 16 /\ 0 <= iv_value e < 2 ^ 32) iv ->
  unpack_entries (pre ++ concat (entry_bytes <$> iv)) (size pre) (length iv) = Some iv.
Proof.
  intros Hiv. revert pre. induction Hiv as [|e iv [Hi Hv] _ IH]; intros pre; [done|].
  rewrite fmap_cons. cbn [concat length unpack_entries]. rewrite entry_mid by done. cbn [mbind option_bind].
  rewrite app_assoc. replace (size pre + 6) with (size (pre ++ entry_bytes e))
    by (rewrite size_app; change (size (entry_bytes e)) with 6; lia).
  by rewrite IH.
Qed.

Lemma fetch_all pl n : n = size pl -> fetch pl 0 n = Some pl.
Proof. intros ->. pose proof (fetch_prefix pl [] _ eq_refl) as Hf. by rewrite app_nil_r in Hf. Qed.

Lemma get_be32_front n rest : 0 <= n < 2 ^ 32 ->
  (b ← fetch (be32 n ++ rest) 0 4; Some (nghttp2_get_uint32 b)) = Some n.
Proof. intros Hn. rewrite (fetch_prefix (be32 n)) by done. cbn [mbind option_bind]. by rewrite get_be32. Qed.

Lemma kept_all ov : Forall (fun o => 0 < size o < 2 ^ 16) ov -> kept ov = ov.
Proof.
  induction 1 as [|o ov Ho _ IH]; [done|]. rewrite kept_cons, IH.
  destruct (decide (o = [])) as [->|]; [unfold size in Ho; cbn in Ho; lia|done].
Qed.

Lemma receive_payload_made garbage f :
  made f -> (forall n, 0 <= n -> size (garbage n) = n) -> receive_payload garbage (any_hd f) (payload f) = Some f.
Proof.
  intros Hf Hg. destruct (made_hd f Hf) as [_ Hlen]. unfold receive_payload. rewrite Hlen. clear Hlen.
  destruct Hf as [sid spec Hs Hp|sid code Hs Hc|flags iv Hfl Hiv Hn|flags data Hfl Hd|last code data Hl Hc Hn
    |flags sid n Hfl Hs Hn|sid o v Hs Ho Hn|ov Hov Hn|sid v Hs Hn]; simpl_frame; cbn [Z.eqb Pos.eqb].
  - unfold nghttp2_frame_unpack_priority_payload. rewrite <- (app_nil_r (pri_bytes spec)).
    by rewrite unpack_pri_bytes.
  - unfold nghttp2_frame_unpack_rst_stream_payload. rewrite <- (app_nil_r (be32 code)).
    by rewrite get_be32_front.
  - unfold nghttp2_frame_unpack_settings_payload2. rewrite entries_length.
    replace (6 * Z.of_nat (length iv) / 6) with (Z.of_nat (length iv)) by lia_mod.
    destruct (Z.of_nat (length iv) =? 0) eqn:E; [destruct iv; [done|cbn [length] in E; lia]|].
    cbn [negb]. rewrite Nat2Z.id. pose proof (entries_mid [] iv Hiv) as Hx. cbn [app] in Hx.
    change (size []) with 0 in Hx. by rewrite Hx.
  - unfold nghttp2_frame_unpack_ping_payload. by rewrite fetch_all by (by rewrite ping_data).
  - unfold nghttp2_frame_unpack_goaway_payload2. rewrite !size_app.
    change (size (be32 last)) with 4. change (size (be32 code)) with 4. pose proof (size_nonneg data).
    assert (Hgo : forall g, nghttp2_frame_unpack_goaway_payload (be32 last ++ be32 code ++ data) g
      = Some (mkGoaway last code g)).
    { intros g. unfold nghttp2_frame_unpack_goaway_payload. rewrite (fetch_prefix (be32 last)) by done.
      cbn [mbind option_bind]. rewrite (fetch_mid (be32 last) (be32 code)) by done. cbn [mbind option_bind].
      by rewrite !get_be32, land_31 by lia. }
    destruct (8 <? 4 + (4 + size data)) eqn:E.
    + replace (_ =? 0) with false by lia. cbn [negb]. rewrite app_assoc.
      pose proof (fetch_mid (be32 last ++ be32 code) data [] 8 (4 + (4 + size data) - 8) eq_refl ltac:(lia)) as Hx.
      rewrite app_nil_r in Hx. rewrite Hx. cbn [mbind option_bind]. by rewrite <- app_assoc, Hgo.
    + assert (data = []) as -> by (destruct data; [done|]; rewrite size_cons in E; pose proof (size_nonneg data); lia).
      cbn [Z.eqb]. by rewrite Hgo.
  - unfold nghttp2_frame_unpack_window_update_payload. rewrite <- (app_nil_r (be32 n)).
    rewrite (fetch_prefix (be32 n)) by done. cbn [mbind option_bind]. by rewrite get_be32, land_31 by lia.
  - unfold nghttp2_frame_unpack_altsvc_payload2. rewrite !size_app. change (size (be16 (size o))) with 2.
    pose proof (size_nonneg o). pose proof (size_nonneg v). replace (_ <? 2) with false by lia.
    rewrite (fetch_prefix (be16 (size o))) by done. cbn [mbind option_bind negb].
    pose proof (fetch_mid (be16 (size o)) (o ++ v) [] 2 (2 + (size o + size v) - 2) eq_refl
      ltac:(rewrite size_app; lia)) as Hx.
    rewrite app_nil_r in Hx. rewrite Hx. cbn [mbind option_bind succeeded]. rewrite get_be16 by lia.
    unfold read_altsvc, nghttp2_frame_unpack_altsvc_payload. cbn [origin_at origin_len field_at field_len].
    rewrite (fetch_prefix o v) by done. cbn [mbind option_bind].
    pose proof (fetch_mid o v [] (size o) (u64 (2 + (size o + size v) - 2 - size o)) eq_refl) as Hy.
    rewrite app_nil_r in Hy. rewrite Hy; [done|]. unfold u64. rewrite Z.mod_small; lia.
  - destruct (unpack_origin_ok ov garbage) as (x & Hx & Hr);
      [eapply Forall_impl; [exact Hov|cbn; lia]|done|].
    unfold origin_bytes in Hx. rewrite Hx. cbn [succeeded mbind option_bind]. rewrite Hr. cbn [mbind option_bind].
    by rewrite kept_all.
  - unfold nghttp2_frame_unpack_priority_update_payload. rewrite size_app. change (size (be32 sid)) with 4.
    pose proof (size_nonneg v). replace (_ <? 4) with false by lia.
    rewrite (fetch_prefix (be32 sid)) by done. cbn [mbind option_bind]. rewrite get_be32, land_31 by lia.
    destruct (4 <? 4 + size v) eqn:E.
    + pose proof (fetch_mid (be32 sid) v [] 4 (4 + size v - 4) eq_refl ltac:(lia)) as Hx.
      rewrite app_nil_r in Hx. by rewrite Hx.
    + assert (v = []) as -> by (destruct v; [done|]; rewrite size_cons in E; pose proof (size_nonneg v); lia). done.
Qed.

(** C15. Frames round trip: every PRIORITY, RST_STREAM, SETTINGS, PING,
    GOAWAY, WINDOW_UPDATE, ALTSVC, ORIGIN and PRIORITY_UPDATE frame that the
    initialisation functions make, with fields in the range of their types, no
    empty entry in an ORIGIN frame (the reader drops these, so that a frame
    with one is not given back) and a payload that fits into a frame, is packed
    into any empty buffer with 9 bytes in front and room for the payload
    without a failed assertion or an access outside of the buffer; the buffer
    then holds the 9 bytes of the header, with the length of the payload, and
    the payload; and unpacking these bytes, whatever follows them, gives the
    frame back and leaves what follows, when the allocations of the reader
    (SETTINGS, GOAWAY, ALTSVC, ORIGIN) succeed. *)
Theorem frame_roundtrip b h r f garbage rest :
  made f -> empty_for b h r -> size (payload f) <= r -> (forall n, 0 <= n -> size (garbage n) = n) ->
  exists b', send b f = Some (Success, b') /\ chain b' = [] /\
    sent (head b') = hd_bytes (any_hd f) ++ payload f /\
    hd_length (any_hd f) = size (payload f) /\
    receive garbage (sent (head b') ++ rest) = Some (f, rest).
Proof.
  intros Hf Hb Hr Hg. destruct (made_hd f Hf) as [Hok Hlen].
  destruct (send_framed b h r f Hf Hb Hr) as (b' & Hs & Hc & Hv). exists b'. split; [done|]. split; [done|].
  rewrite (view_sent _ _ _ _ Hv). split; [done|]. split; [done|].
  unfold receive. rewrite <- app_assoc, unpack_hd_bytes by done. cbn [mbind option_bind].
  rewrite (fetch_mid (hd_bytes (any_hd f)) (payload f)) by done. cbn [mbind option_bind].
  rewrite receive_payload_made by done. cbn [mbind option_bind].
  replace (9 + hd_length (any_hd f)) with (size (hd_bytes (any_hd f) ++ payload f))
    by (rewrite size_app, Hlen; reflexivity).
  by rewrite app_assoc, drop_size.
Qed.
End Send.

(** ** Example

    A GOAWAY frame in a buffer of 9 bytes for the header and 20 behind. *)
Section Sample.
#[local] Existing Instances sample_wire sample_priority_spec single_bufs single_frame_bufs.

Definition sample_bufs : nghttp2_bufs := mkBufs (mkNbuf (replicate 29 0) 9 9) [].
Definition sample_frame : any_frame := Goaway (nghttp2_frame_goaway_init 7 11 [98; 121; 101]).
Definition sample_garbage (n : Z) : list Z := replicate (Z.to_nat n) 0.

Lemma frame_roundtrip_witness :
  exists b', send sample_bufs sample_frame = Some (Success, b') /\
    sent (head b') = [0; 0; 11; 7; 0; 0; 0; 0; 0; 0; 0; 0; 7; 0; 0; 0; 11; 98; 121; 101] /\
    receive sample_garbage (sent (head b') ++ [1; 2]) = Some (sample_frame, [1; 2]).
Proof.
  destruct (frame_roundtrip sample_bufs 9 20 sample_frame sample_garbage [1; 2]) as (b' & Hs & _ & Hb & _ & Hr).
  - apply made_goaway; unfold size; cbn; lia.
  - split; [done|]. split; [|lia]. exists (replicate 9 0), (replicate 20 0). by repeat split.
  - unfold size. cbn. lia.
  - intros n Hn. unfold sample_garbage, size. rewrite length_replicate. lia.
  - exists b'. split; [exact Hs|]. split; [rewrite Hb; reflexivity|exact Hr].
Defined.
End Sample.

End H2Wire.
