(* ===== verification/H2Headers.v ===== *)
(** HEADERS and PUSH_PROMISE with their CONTINUATION frames, and padding
    (src/http2/src/upstream/lib/nghttp2_frame.c): the initialisation (lines
    62-77, 113-123, 181-195), [frame_pack_headers_shared] (305-359),
    [nghttp2_frame_pack_headers] (361-397) and
    [nghttp2_frame_pack_push_promise] (554-587), their counterparts for
    reading (421-431, 589-595), and [nghttp2_frame_add_pad] (1145-1214).

    The header block is compressed by the HPACK encoder of HdDeflate.v into
    the buffers of the frame, which may grow into further buffers: a reader
    that follows RFC 9113 and the HPACK decoder of HdInflate.v get the headers
    back. *)

From S2P Require Export HdSession H2Frame.
Export HdSession H2Buf H2Frame.
Open Scope Z_scope.

(** What the frames with a header block rely on, besides [FrameBufs]: the
    length of the data, and a Huffman encoder that only adds to the buffers. *)
Class HeaderBufs {B : Bufs nghttp2_bufs} {C : HuffmanCode} {E : HuffmanEncoder nghttp2_bufs} := {
  nghttp2_bufs_len : nghttp2_bufs -> Z;
  bufs_len_ok : forall b, nghttp2_bufs_len b = size (bufs_data b);
  huff_encode_grows : forall b s, grows b (nghttp2_hd_huff_encode b s).2
}.

Module H2Headers.

(** [nghttp2_headers], [nghttp2_push_promise] *)
Record headers := mkHeaders { pri_spec : nghttp2_priority_spec; padlen : Z; nva : list nghttp2_nv; cat : Z }.
Record push_promise := mkPush { promised_stream_id : Z; push_padlen : Z; push_nva : list nghttp2_nv }.

Abbreviation nghttp2_headers := (frame headers).
Abbreviation nghttp2_push_promise := (frame push_promise).

Definition set_length (n : Z) (h : nghttp2_frame_hd) : nghttp2_frame_hd :=
  mkHd n (hd_stream_id h) (hd_type h) (hd_flags h) (hd_reserved h).
Definition set_type (t : Z) (h : nghttp2_frame_hd) : nghttp2_frame_hd :=
  mkHd (hd_length h) (hd_stream_id h) t (hd_flags h) (hd_reserved h).
Definition set_flags (f : Z) (h : nghttp2_frame_hd) : nghttp2_frame_hd :=
  mkHd (hd_length h) (hd_stream_id h) (hd_type h) f (hd_reserved h).

(** [flags & flag] *)
Definition has_flag (h : nghttp2_frame_hd) (flag : Z) : bool := negb (Z.land (hd_flags h) flag =? 0).

Definition nghttp2_frame_priority_len (flags : Z) : Z :=
  if negb (Z.land flags NGHTTP2_FLAG_PRIORITY =? 0) then NGHTTP2_PRIORITY_SPECLEN else 0.

Definition nghttp2_frame_headers_payload_nv_offset (fr : nghttp2_headers) : Z :=
  nghttp2_frame_priority_len (hd_flags (hd fr)).

Section Headers.
Context `{Wire} `{PrioritySpec} {B : Bufs nghttp2_bufs} `{!FrameBufs} `{!HuffmanCode}
  `{!HuffmanEncoder nghttp2_bufs} `{!HeaderBufs}.
Variable malloc_ok : mem -> bool.

(** [pri_spec] may be null. *)
Definition nghttp2_frame_headers_init (flags stream_id cat : Z) (pri : option nghttp2_priority_spec)
    (nva : list nghttp2_nv) : nghttp2_headers :=
  mkFrame (nghttp2_frame_hd_init 0 NGHTTP2_HEADERS flags stream_id)
    (mkHeaders (match pri with Some p => p | None => nghttp2_priority_spec_default_init end) 0 nva cat).

Definition nghttp2_frame_push_promise_init (flags stream_id promised_stream_id : Z)
    (nva : list nghttp2_nv) : nghttp2_push_promise :=
  mkFrame (nghttp2_frame_hd_init 0 NGHTTP2_PUSH_PROMISE flags stream_id) (mkPush promised_stream_id 0 nva).

(** The length of a DATA frame is not known yet. *)
Definition nghttp2_frame_data_init (flags stream_id : Z) : frame Z :=
  mkFrame (nghttp2_frame_hd_init 0 NGHTTP2_DATA flags stream_id) 0.

Definition nghttp2_frame_extension_init {A} (type flags stream_id : Z) (payload : A) : frame A :=
  mkFrame (nghttp2_frame_hd_init 0 type flags stream_id) payload.

(** The frame header in front of what the buffer holds. *)
Definition pack_buf (h : nghttp2_frame_hd) (buf : nghttp2_buf) : option nghttp2_buf :=
  pack_hd (set_length (nghttp2_buf_len buf) h) buf.

(** The buffers behind the first one: only the last has END_HEADERS. *)
Fixpoint pack_continuations (h : nghttp2_frame_hd) (cs : list nghttp2_buf) : option (list nghttp2_buf) :=
  match cs with
  | [] => Some []
  | buf :: cs' =>
      buf ← pack_buf (match cs' with [] => set_flags NGHTTP2_FLAG_END_HEADERS h | _ => h end) buf;
      cs' ← pack_continuations h cs';
      Some (buf :: cs')
  end.

Definition frame_pack_headers_shared (b : nghttp2_bufs) (frame_hd : nghttp2_frame_hd)
    : option (frame_rv * nghttp2_bufs) :=
  let h := match chain b with
           | [] => frame_hd
           | _ => set_flags (u8 (Z.land (hd_flags frame_hd) (Z.lnot NGHTTP2_FLAG_END_HEADERS))) frame_hd
           end in
  buf ← pack_buf h (head b);
  cs ← pack_continuations (set_flags NGHTTP2_FLAG_NONE (set_type NGHTTP2_CONTINUATION h)) (chain b);
  Some (Success, mkBufs buf cs).

(** [buf->pos += nv_offset; buf->last = buf->pos; nghttp2_hd_deflate_hd_bufs(..);
    buf->pos -= nv_offset], with the assertion before. *)
Definition deflate_behind (nv_offset : Z) (d : deflater) (b : nghttp2_bufs) (nva : list nghttp2_nv)
    : option (hd_err * deflater * nghttp2_bufs) :=
  match chain b with
  | [] =>
      let pos := buf_pos (head b) + nv_offset in
      '(rv, d, b) ← nghttp2_hd_deflate_hd_bufs malloc_ok d (mkBufs (mkNbuf (buf_mem (head b)) pos pos) []) nva;
      Some (match rv with NGHTTP2_ERR_BUFFER_ERROR => NGHTTP2_ERR_HEADER_COMP | _ => rv end, d,
            mkBufs (move_pos (- nv_offset) (head b)) (chain b))
  | _ :: _ => None
  end.

(** [f(buf->pos)] on the first buffer. *)
Definition at_pos (f : list Z -> Z -> option (list Z)) (b : nghttp2_bufs) : option nghttp2_bufs :=
  m ← f (buf_mem (head b)) (buf_pos (head b));
  Some (mkBufs (mkNbuf m (buf_pos (head b)) (buf_last (head b))) (chain b)).

Definition nghttp2_frame_pack_headers (b : nghttp2_bufs) (fr : nghttp2_headers) (d : deflater)
    : option (frame_rv * nghttp2_bufs * nghttp2_headers * deflater) :=
  let nv_offset := nghttp2_frame_headers_payload_nv_offset fr in
  '(rv, d, b) ← deflate_behind nv_offset d b (nva (body fr));
  match rv with
  | NGHTTP2_SUCCESS =>
      b ← (if has_flag (hd fr) NGHTTP2_FLAG_PRIORITY
           then at_pos (fun m o => nghttp2_frame_pack_priority_spec m o (pri_spec (body fr))) b
           else Some b);
      let fr := mkFrame (set_length (nghttp2_bufs_len b) (hd fr))
                  (mkHeaders (pri_spec (body fr)) 0 (nva (body fr)) (cat (body fr))) in
      '(rv, b) ← frame_pack_headers_shared b (hd fr);
      Some (rv, b, fr, d)
  | _ => Some (Err rv, b, fr, d)
  end.

Definition nghttp2_frame_pack_push_promise (b : nghttp2_bufs) (fr : nghttp2_push_promise) (d : deflater)
    : option (frame_rv * nghttp2_bufs * nghttp2_push_promise * deflater) :=
  let nv_offset := 4 in
  '(rv, d, b) ← deflate_behind nv_offset d b (push_nva (body fr));
  match rv with
  | NGHTTP2_SUCCESS =>
      b ← at_pos (fun m o => poke m o (nghttp2_put_uint32be (u32 (promised_stream_id (body fr))))) b;
      let fr := mkFrame (set_length (nghttp2_bufs_len b) (hd fr))
                  (mkPush (promised_stream_id (body fr)) 0 (push_nva (body fr))) in
      '(rv, b) ← frame_pack_headers_shared b (hd fr);
      Some (rv, b, fr, d)
  | _ => Some (Err rv, b, fr, d)
  end.

(** The part of a payload before the header block; the list of headers is
    empty until the block is decoded. *)
Definition nghttp2_frame_unpack_headers_payload (h : nghttp2_frame_hd) (padlen cat : Z) (payload : list Z)
    : option nghttp2_headers :=
  p ← (if has_flag h NGHTTP2_FLAG_PRIORITY then nghttp2_frame_unpack_priority_spec payload
       else Some nghttp2_priority_spec_default_init);
  Some (mkFrame h (mkHeaders p padlen [] cat)).

Definition nghttp2_frame_unpack_push_promise_payload (h : nghttp2_frame_hd) (padlen : Z) (payload : list Z)
    : option nghttp2_push_promise :=
  b ← fetch payload 0 4;
  Some (mkFrame h (mkPush (Z.land (nghttp2_get_uint32 b) NGHTTP2_STREAM_ID_MASK) padlen [])).
End Headers.

(** ** What a reader sees

    RFC 9113: a HEADERS or PUSH_PROMISE frame without END_HEADERS is followed
    by CONTINUATION frames of the same stream, the last one with END_HEADERS. *)
Section Read.
Context `{Wire}.

Definition read_frame (bs : list Z) : option (nghttp2_frame_hd * list Z * list Z) :=
  h ← nghttp2_frame_unpack_frame_hd bs;
  pl ← fetch bs NGHTTP2_FRAME_HDLEN (hd_length h);
  Some (h, pl, drop (Z.to_nat (NGHTTP2_FRAME_HDLEN + hd_length h)) bs).

Fixpoint read_continuations (fuel : nat) (sid : Z) (bs : list Z) : option (list Z * list Z) :=
  match fuel with
  | O => None
  | S fuel =>
      '(h, pl, bs) ← read_frame bs;
      if (hd_type h =? NGHTTP2_CONTINUATION) && (hd_stream_id h =? sid) then
        if has_flag h NGHTTP2_FLAG_END_HEADERS then Some (pl, bs)
        else '(pl', bs) ← read_continuations fuel sid bs; Some (pl ++ pl', bs)
      else None
  end.

(** The first header, the payload with the whole block, and what follows. *)
Definition read_block (bs : list Z) : option (nghttp2_frame_hd * list Z * list Z) :=
  '(h, pl, rest) ← read_frame bs;
  if has_flag h NGHTTP2_FLAG_END_HEADERS then Some (h, pl, rest)
  else '(pl', rest) ← read_continuations (length rest) (hd_stream_id h) rest; Some (h, pl ++ pl', rest).
End Read.

(** ** The encoder only adds to the buffers *)
Section Grow.
Context {B : Bufs nghttp2_bufs} `{!FrameBufs} `{!HuffmanCode} `{!HuffmanEncoder nghttp2_bufs} `{!HeaderBufs}.
Variable malloc_ok : mem -> bool.

Lemma add_grows b bs : grows b (nghttp2_bufs_add b bs).2.
Proof. destruct (nghttp2_bufs_add b bs) eqn:E. by eapply bufs_add_grows. Qed.

Lemma addb_grows b c : grows b (nghttp2_bufs_addb b c).2.
Proof. destruct (nghttp2_bufs_addb b c) eqn:E. by eapply bufs_addb_grows. Qed.

Lemma then_grows (b : nghttp2_bufs) x f : grows b x.2 -> (forall b1, grows b1 (f b1).2) -> grows b (emit_then x f).2.
Proof. intros Hx Hf. destruct x as [[] b1]; cbn in *; try done. by etrans. Qed.

Lemma emit_length_grows b first n prefix : grows b (emit_length b first n prefix).2.
Proof. unfold emit_length. case_match; [reflexivity|apply add_grows]. Qed.

Create HintDb grows.
#[local] Hint Resolve add_grows addb_grows huff_encode_grows emit_length_grows : grows.

Lemma emit_string_grows b s : grows b (emit_string b s).2.
Proof. apply then_grows; [|intros b1; case_match]; auto with grows. Qed.

#[local] Hint Resolve emit_string_grows : grows.

Lemma emit_indname_grows b idx nv mode : grows b (emit_indname_block b idx nv mode).2.
Proof. apply then_grows; auto with grows. Qed.

Lemma emit_newname_grows b nv mode : grows b (emit_newname_block b nv mode).2.
Proof. apply then_grows; [|intros; apply then_grows]; auto with grows. Qed.

Lemma deflate_nv_grows d b nv rv d' b' : deflate_nv malloc_ok d b nv = Some (rv, d', b') -> grows b b'.
Proof.
  unfold deflate_nv. set (res := search_hd_table _ _ _ _ _ _ _). clearbody res. destruct (name_value_match res).
  - pose proof (emit_length_grows b 0x80 (index res + 1) 7) as Hg.
    unfold emit_indexed_block. destruct (emit_length _ _ _ _) as [rv1 b1]. by intros [= <- <- <-].
  - destruct (if decide _ then _ else _) as [[[] d1]|]; intros Hx; simplify_eq/=; try reflexivity.
    pose proof (emit_newname_grows b nv (deflate_mode d nv (lookup_token (name nv)))).
    pose proof (emit_indname_grows b (index res) nv (deflate_mode d nv (lookup_token (name nv)))).
    destruct (index res =? -1);
      [destruct (emit_newname_block _ _ _)|destruct (emit_indname_block _ _ _ _)]; by simplify_eq/=.
Qed.

Lemma deflate_nvs_grows nvs d b rv d' b' : deflate_nvs malloc_ok d b nvs = Some (rv, d', b') -> grows b b'.
Proof.
  revert d b. induction nvs as [|nv nvs IH]; intros d b; cbn [deflate_nvs]; [by intros [= <- <- <-]|].
  destruct (deflate_nv malloc_ok d b nv) as [[[rv1 d1] b1]|] eqn:E; [|done].
  apply deflate_nv_grows in E. destruct rv1; intros Hx; simplify_eq; try done. etrans; [exact E|by eapply IH].
Qed.

Lemma size_updates_grows d b : grows b (emit_size_updates d b).2.
Proof.
  unfold emit_size_updates. destruct (notify_table_size_change d); [|reflexivity].
  set (d1 := mkDeflater _ _ _ _ _). pose proof (emit_length_grows b 0x20 (min_hd_table_bufsize_max d) 5) as Hmin.
  assert (Hu : forall b1, grows b1 (emit_table_size b1 (hd_table_bufsize_max (d_ctx d1))).2)
    by (intros; apply emit_length_grows).
  destruct (_ <? _).
  - unfold emit_table_size in *. destruct (emit_length b _ _ _) as [[] b1]; cbn in *; try done.
    specialize (Hu b1). destruct (emit_length b1 _ _ _). cbn in *. by etrans.
  - specialize (Hu b). destruct (emit_table_size b _). by cbn in *.
Qed.

Lemma deflate_grows d b nvs rv d' b' :
  nghttp2_hd_deflate_hd_bufs malloc_ok d b nvs = Some (rv, d', b') -> grows b b'.
Proof.
  unfold nghttp2_hd_deflate_hd_bufs. destruct (bad (d_ctx d)); [by intros [= <- <- <-]|].
  pose proof (size_updates_grows d b) as Hu. destruct (emit_size_updates d b) as [[[] d1] b1]; cbn in Hu;
    try by intros [= <- <- <-].
  destruct (deflate_nvs malloc_ok d1 b1 nvs) as [[[rv2 d2] b2]|] eqn:E; [|done]. apply deflate_nvs_grows in E.
  destruct rv2; intros Hx; simplify_eq; by etrans.
Qed.
End Grow.

(** ** The frames of a header block *)

(** The bytes of CONTINUATION frames with the payloads [pls]. *)
Fixpoint continuations (sid : Z) (pls : list (list Z)) : list Z :=
  match pls with
  | [] => []
  | pl :: pls' =>
      hd_bytes (mkHd (size pl) sid NGHTTP2_CONTINUATION (match pls' with [] => NGHTTP2_FLAG_END_HEADERS | _ => 0 end) 0)
        ++ pl ++ continuations sid pls'
  end.

Definition fits_frame (pl : list Z) : Prop := size pl < 2 ^ 24.

Section Frames.
Context `{Wire} `{PrioritySpec} {B : Bufs nghttp2_bufs} `{!FrameBufs}.

Lemma pack_buf_view b h data r hdr :
  view b h data r -> 9 <= h -> hd_ok (set_length (size data) hdr) ->
  exists b', pack_buf hdr b = Some b' /\ view b' (h - 9) (hd_bytes (set_length (size data) hdr) ++ data) r.
Proof.
  intros Hv Hh Hok. unfold pack_buf. destruct (view_len _ _ _ _ Hv) as [-> _]. by apply pack_hd_view.
Qed.

Lemma continuation_ok sid pl (last : bool) :
  0 <= sid < 2 ^ 31 -> fits_frame pl ->
  hd_ok (mkHd (size pl) sid NGHTTP2_CONTINUATION (if last then NGHTTP2_FLAG_END_HEADERS else 0) 0).
Proof.
  intros Hs Hf. unfold hd_ok, is_byte. cbn [hd_length hd_type hd_flags hd_stream_id hd_reserved].
  pose proof (size_nonneg pl). unfold fits_frame in Hf. destruct last; lia.
Qed.

Lemma pack_continuations_sent h cs :
  0 <= hd_stream_id h < 2 ^ 31 -> hd_type h = NGHTTP2_CONTINUATION -> hd_flags h = NGHTTP2_FLAG_NONE ->
  hd_reserved h = 0 -> Forall roomy cs ->
  exists cs', pack_continuations h cs = Some cs' /\ Forall fits_frame (sent <$> cs) /\
    concat (sent <$> cs') = continuations (hd_stream_id h) (sent <$> cs).
Proof.
  intros Hs Ht Hf Hr. induction 1 as [|b cs (n & data & r & Hv & Hn & Hd) _ (cs' & IH & Hfit & Hsent)]; [by exists []|].
  rewrite !fmap_cons. cbn [pack_continuations continuations]. rewrite (view_sent _ _ _ _ Hv).
  pose proof (view_room _ _ _ _ Hv) as [_ Hr0]. pose proof (continuation_ok (hd_stream_id h) data
    (match cs with [] => true | _ => false end) Hs ltac:(unfold fits_frame; lia)) as Hok.
  assert (Hhd : set_length (size data) (match cs with [] => set_flags NGHTTP2_FLAG_END_HEADERS h | _ => h end)
    = mkHd (size data) (hd_stream_id h) NGHTTP2_CONTINUATION (if match cs with [] => true | _ => false end
        then NGHTTP2_FLAG_END_HEADERS else 0) 0).
  { unfold set_length, set_flags. destruct cs; cbn; by rewrite Ht, ?Hf, Hr. }
  destruct (pack_buf_view b n data r (match cs with [] => set_flags NGHTTP2_FLAG_END_HEADERS h | _ => h end) Hv Hn)
    as (b' & -> & Hv'); [by rewrite Hhd|].
  cbn [mbind option_bind]. rewrite IH. cbn [mbind option_bind]. eexists. split; [done|].
  split; [constructor; [unfold fits_frame; lia|done]|].
  rewrite fmap_cons. cbn [concat]. rewrite Hsent, (view_sent _ _ _ _ Hv'), Hhd, <- app_assoc. by destruct cs.
Qed.

Lemma read_frame_ok h pl rest :
  hd_ok h -> hd_length h = size pl -> read_frame (hd_bytes h ++ pl ++ rest) = Some (h, pl, rest).
Proof.
  intros Hok Hl. unfold read_frame. rewrite unpack_hd_bytes by done. cbn [mbind option_bind].
  rewrite (fetch_mid (hd_bytes h) pl) by done. cbn [mbind option_bind].
  replace (9 + hd_length h) with (size (hd_bytes h ++ pl)) by (rewrite size_app, Hl; reflexivity).
  by rewrite app_assoc, drop_size.
Qed.

Lemma read_continuations_ok fuel sid pls rest :
  0 <= sid < 2 ^ 31 -> Forall fits_frame pls -> pls <> [] -> (length pls <= fuel)%nat ->
  read_continuations fuel sid (continuations sid pls ++ rest) = Some (concat pls, rest).
Proof.
  intros Hs Hf. revert fuel. induction Hf as [|pl pls Hpl Hf IH]; intros fuel Hne Hfuel; [done|].
  destruct fuel as [|fuel]; [cbn in Hfuel; lia|]. cbn [read_continuations continuations concat].
  rewrite <- !app_assoc. pose proof (continuation_ok sid pl (match pls with [] => true | _ => false end) Hs Hpl) as Hok.
  rewrite read_frame_ok by (done || by destruct pls). cbn [mbind option_bind]. unfold has_flag.
  cbn [hd_type hd_stream_id hd_flags]. rewrite !Z.eqb_refl. cbn [andb]. destruct pls as [|pl2 pls].
  - cbn. by rewrite app_nil_r.
  - change (negb (Z.land 0 4 =? 0)) with false. cbn iota. rewrite IH by (done || cbn in *; lia). done.
Qed.

Lemma continuations_length sid pls : (length pls <= length (continuations sid pls))%nat.
Proof.
  induction pls as [|pl pls IH]; [done|]. cbn [continuations length]. rewrite !length_app. unfold hd_bytes.
  cbn [length]. lia.
Qed.

(** What the first frame's header becomes. *)
Definition first_hd (h : nghttp2_frame_hd) (more : bool) (n : Z) : nghttp2_frame_hd :=
  set_length n (if more then set_flags (u8 (Z.land (hd_flags h) (Z.lnot NGHTTP2_FLAG_END_HEADERS))) h else h).

Lemma clear_end_headers f :
  is_byte f -> is_byte (u8 (Z.land f (Z.lnot 4))) /\ Z.land (u8 (Z.land f (Z.lnot 4))) 4 = 0.
Proof.
  intros Hf. pose proof (byte_forall (fun f => let g := u8 (Z.land f (Z.lnot 4)) in
    (0 <=? g) && (g <? 256) && (Z.land g 4 =? 0)) eq_refl f Hf) as Hx. cbn beta zeta in Hx. unfold is_byte. lia.
Qed.

Lemma first_hd_ok h more n : hd_ok (set_length n h) -> hd_ok (first_hd h more n).
Proof.
  intros Hok. unfold first_hd. destruct more; [|done]. destruct Hok as (? & ? & Hf & ? & ?).
  by destruct (clear_end_headers _ Hf).
Qed.

(** The frames that are sent are read back as one block. *)
Lemma headers_shared_ok b h data r frame_hd :
  view (head b) h data r -> 9 <= h -> hd_ok (set_length (size data) frame_hd) -> Forall roomy (chain b) ->
  has_flag frame_hd NGHTTP2_FLAG_END_HEADERS = true ->
  exists b', frame_pack_headers_shared b frame_hd = Some (Success, b') /\
    forall rest, read_block (sent (head b') ++ concat (sent <$> chain b') ++ rest)
      = Some (first_hd frame_hd (bool_decide (chain b <> [])) (size data), data ++ concat (sent <$> chain b), rest).
Proof.
  intros Hv Hh Hok Hch Hend. unfold frame_pack_headers_shared.
  set (h1 := match chain b with [] => _ | _ => _ end).
  assert (Hh1 : set_length (size data) h1 = first_hd frame_hd (bool_decide (chain b <> [])) (size data))
    by (unfold h1; by destruct (chain b)).
  pose proof (first_hd_ok _ (bool_decide (chain b <> [])) _ Hok) as Hok1. rewrite <- Hh1 in *.
  assert (Hids : hd_stream_id h1 = hd_stream_id frame_hd /\ hd_reserved h1 = 0)
    by (unfold h1; destruct Hok as (_ & _ & _ & _ & Hr); cbn in Hr; by destruct (chain b)).
  destruct Hids as [Hsid Hres].
  destruct (pack_buf_view (head b) h data r h1 Hv Hh Hok1) as (b1 & -> & Hv1). cbn [mbind option_bind].
  assert (Hs : 0 <= hd_stream_id h1 < 2 ^ 31) by (rewrite Hsid; by destruct Hok as (_ & _ & _ & ? & _)).
  destruct (pack_continuations_sent (set_flags NGHTTP2_FLAG_NONE (set_type NGHTTP2_CONTINUATION h1)) (chain b))
    as (cs & -> & Hfit & Hsent); try done. cbn [mbind option_bind].
  eexists. split; [done|]. intros rest. cbn [head chain]. rewrite Hsent, (view_sent _ _ _ _ Hv1), <- app_assoc.
  unfold read_block. rewrite read_frame_ok by done. cbn [mbind option_bind].
  destruct (chain b) as [|c cs'].
  - cbn. unfold has_flag in *. unfold h1. cbn. rewrite Hend. by rewrite app_nil_r.
  - assert (Hclr : has_flag (set_length (size data) h1) NGHTTP2_FLAG_END_HEADERS = false).
    { unfold has_flag, h1. cbn [set_length set_flags hd_flags]. destruct Hok as (_ & _ & Hf & _).
      destruct (clear_end_headers _ Hf) as [_ Hc]. cbn [set_length hd_flags] in Hc. by rewrite Hc. }
    rewrite Hclr. cbn [set_length hd_stream_id set_flags set_type].
    rewrite read_continuations_ok; [done|by rewrite <- ?Hsid|done|done|].
    rewrite length_app. pose proof (continuations_length (hd_stream_id h1) (sent <$> c :: cs')). lia.
Qed.
End Frames.

(** ** Headers arrive *)
Section Arrive.
Context `{Wire} `{PrioritySpec} {B : Bufs nghttp2_bufs} `{!FrameBufs} `{!HuffmanCode}
  `{!HuffmanEncoder nghttp2_bufs} `{!HeaderBufs} `{!HuffmanDecoder}.
Variable malloc_ok : mem -> bool.
Hypothesis no_failure : forall m, malloc_ok m = true.

(** Bytes in front of the data become part of it. *)
Lemma view_take_front b h data r k :
  view b h data r -> 0 <= k <= h ->
  exists old, size old = k /\ view (move_pos (- k) b) (h - k) (old ++ data) r.
Proof.
  intros (pre & post & Hm & Hh & Hr & Hp & Hl) Hk.
  destruct (split_back pre k) as (pre1 & old & -> & Ho); [lia|]. rewrite size_app in Hh. exists old. split; [done|].
  exists pre1, post. cbn. rewrite Hm, size_app, <- !app_assoc. by repeat (split; [done || lia|]); lia.
Qed.

(** The first bytes of the data are written over. *)
Lemma at_pos_view b h old new data r f :
  view (head b) h (old ++ data) r -> size new = size old ->
  (forall pre post, f (pre ++ old ++ post) (size pre) = Some (pre ++ new ++ post)) ->
  exists b', at_pos f b = Some b' /\ view (head b') h (new ++ data) r /\ chain b' = chain b.
Proof.
  intros (pre & post & Hm & Hh & Hr & Hp & Hl) Hs Hf. unfold at_pos. rewrite Hm, Hp, <- Hh, <- app_assoc, Hf.
  eexists. split; [done|]. split; [|done]. exists pre, post. cbn. rewrite <- app_assoc, !size_app in *.
  rewrite Hl. by repeat (split; [done || lia|]); lia.
Qed.

(** The compressed block behind [k] bytes that are left free. *)
Lemma deflate_behind_ok d s t b h r k nva :
  linked d s t -> Forall (nv_ok NGHTTP2_HD_MAX_NV) nva -> chain b = [] -> view (head b) h [] r ->
  0 <= k <= r -> r < 2 ^ 24 ->
  exists rv d' b', deflate_behind malloc_ok k d b nva = Some (rv, d', b') /\
    Forall roomy (chain b') /\
    (rv = NGHTTP2_SUCCESS -> exists old more s' t', size old = k /\
      view (head b') h (old ++ more) (r - k - size more) /\ size (old ++ more) < 2 ^ 24 /\
      let bs := more ++ concat (sent <$> chain b') in
      decode_block malloc_ok (S (length bs)) s bs = Some (header_of <$> nva, s') /\ linked d' s' t').
Proof.
  intros Hl Hnv Hc Hv Hk Hr. unfold deflate_behind. rewrite Hc.
  set (b1 := mkBufs _ []).
  assert (Hv1 : view (head b1) (h + k) [] (r - k)).
  { destruct Hv as (pre & post & Hm & Hh & Hr' & Hp & _). destruct (split_front post k) as (o & post1 & -> & Ho); [lia|].
    rewrite size_app in Hr'. exists (pre ++ o), post1. cbn. rewrite Hm, Hp, size_app, <- app_assoc. cbn.
    repeat (split; [done || lia|]). unfold size. cbn. lia. }
  destruct (linked_block malloc_ok no_failure b1 d s t nva Hl Hnv) as (rv & d' & b2 & Hx & Hrv).
  { rewrite bufs_data_sent, (view_sent _ _ _ _ Hv1). done. }
  rewrite Hx. cbn [mbind option_bind]. apply deflate_grows in Hx as [Hg Hcs].
  destruct (Hg _ _ _ Hv1) as (more & Hv2). cbn [app] in Hv2. do 3 eexists. split; [done|]. cbn [chain head].
  split; [by apply Hcs|]. intros Hs. assert (rv = NGHTTP2_SUCCESS) as -> by (by destruct rv).
  destruct (Hrv eq_refl) as (s' & t' & Hd & Hl'). rewrite bufs_data_sent, (view_sent _ _ _ _ Hv2) in Hd.
  pose proof (view_room _ _ _ _ Hv) as [Hh0 _]. pose proof (view_room _ _ _ _ Hv2) as [_ Hr2].
  destruct (view_take_front _ _ _ _ k Hv2) as (old & Ho & Hv3); [lia|]. exists old, more, s', t'. split; [done|].
  replace (h + k - k) with h in Hv3 by lia. split; [done|]. split; [rewrite size_app; lia|done].
Qed.

(** Everything [b'] holds, and [rest] behind it, is read as one block of the
    type and stream of [h] with the payload [prefix] and the compressed [nva];
    both ends stay linked. *)
Definition arrives (b' : nghttp2_bufs) (h h' : nghttp2_frame_hd) (prefix : list Z) (nva : list nghttp2_nv)
    (d' : deflater) (s : inflater huff_decode_context) : Prop :=
  hd_type h' = hd_type h /\ hd_stream_id h' = hd_stream_id h /\
  has_flag h' NGHTTP2_FLAG_PRIORITY = has_flag h NGHTTP2_FLAG_PRIORITY /\
  exists bs s' t',
    (forall rest, read_block (sent (head b') ++ concat (sent <$> chain b') ++ rest) = Some (h', prefix ++ bs, rest)) /\
    decode_block malloc_ok (S (length bs)) s bs = Some (header_of <$> nva, s') /\ linked d' s' t'.

Lemma first_hd_keeps h more n :
  is_byte (hd_flags h) ->
  hd_type (first_hd h more n) = hd_type h /\ hd_stream_id (first_hd h more n) = hd_stream_id h /\
  has_flag (first_hd h more n) NGHTTP2_FLAG_PRIORITY = has_flag h NGHTTP2_FLAG_PRIORITY.
Proof.
  intros Hf. unfold first_hd, has_flag. destruct more; [|done].
  pose proof (byte_forall (fun f => Z.land (u8 (Z.land f (Z.lnot 4))) 0x20 =? Z.land f 0x20) eq_refl _ Hf) as Hx.
  cbn in *. apply Z.eqb_eq in Hx. by rewrite Hx.
Qed.

(** What the two functions do after the compression: [put] writes the part in
    front of the block. *)
Lemma block_arrives d' s' t' b h old more r prefix put frame_hd n nva s :
  view (head b) h (old ++ more) r -> 9 <= h -> size prefix = size old -> size (old ++ more) < 2 ^ 24 ->
  Forall roomy (chain b) -> hd_ok frame_hd -> has_flag frame_hd NGHTTP2_FLAG_END_HEADERS = true ->
  (forall b1, view (head b1) h (old ++ more) r ->
     exists b2, put b1 = Some b2 /\ view (head b2) h (prefix ++ more) r /\ chain b2 = chain b1) ->
  (let bs := more ++ concat (sent <$> chain b) in
   decode_block malloc_ok (S (length bs)) s bs = Some (header_of <$> nva, s') /\ linked d' s' t') ->
  exists b2 b', put b = Some b2 /\ frame_pack_headers_shared b2 (set_length (n b2) frame_hd) = Some (Success, b') /\
    exists h', arrives b' frame_hd h' prefix nva d' s.
Proof.
  intros Hv Hh Hp Hfit Hch Hok Hend Hput [Hd Hl]. destruct (Hput b Hv) as (b2 & Hx & Hv2 & Hc2).
  assert (Hsz : size (prefix ++ more) = size (old ++ more)) by (rewrite !size_app; lia).
  destruct (headers_shared_ok b2 h (prefix ++ more) r (set_length (n b2) frame_hd)) as (b' & Hs & Hr); try done.
  { destruct Hok as (_ & ?). pose proof (size_nonneg (prefix ++ more)). split; [cbn; lia|done]. }
  { by rewrite Hc2. }
  exists b2, b'. split; [done|]. split; [done|]. eexists.
  assert (Hf : is_byte (hd_flags (set_length (n b2) frame_hd))) by (by destruct Hok as (_ & _ & ? & _)).
  destruct (first_hd_keeps _ (bool_decide (chain b2 <> [])) (size (prefix ++ more)) Hf) as (Ht & Hi & Hpr).
  split; [exact Ht|]. split; [exact Hi|]. split; [exact Hpr|].
  exists (more ++ concat (sent <$> chain b)), s', t'. split; [|done].
  intros rest. rewrite Hr, Hc2, <- app_assoc. done.
Qed.

(** What is in front of the block of a HEADERS frame. *)
Definition headers_prefix (fr : nghttp2_headers) : list Z :=
  if has_flag (hd fr) NGHTTP2_FLAG_PRIORITY then pri_bytes (pri_spec (body fr)) else [].

(** C16. Headers arrive: [nghttp2_frame_pack_headers], given an encoder that
    is in step with a decoder, writes a HEADERS frame, followed by
    CONTINUATION frames when the compressed block does not fit, without a
    failed assertion or an access outside of its buffers. When it succeeds, a
    reader that joins the frames as RFC 9113 says, whatever follows them,
    finds the type, the stream and the priority of the frame, and the decoder
    turns the joined block into the headers that were sent and is in step with
    the encoder again. Conditions: no allocation fails; names and values have
    at most NGHTTP2_HD_MAX_NV bytes (the decoder refuses longer ones); the
    frame has the flag END_HEADERS, a header in the range of its types and, with
    the flag PRIORITY, a valid priority, the default one otherwise; the
    buffers are empty, with at least 9 bytes in front and with room for the
    priority but for less than 2^24 bytes in the first one. *)
Theorem headers_arrive d s t b h r fr c :
  linked d s t -> chain b = [] -> view (head b) h [] r -> 9 <= h -> r < 2 ^ 24 ->
  nghttp2_frame_headers_payload_nv_offset fr <= r ->
  hd_ok (hd fr) -> hd_type (hd fr) = NGHTTP2_HEADERS -> has_flag (hd fr) NGHTTP2_FLAG_END_HEADERS = true ->
  (if has_flag (hd fr) NGHTTP2_FLAG_PRIORITY then pri_ok (pri_spec (body fr))
   else pri_spec (body fr) = nghttp2_priority_spec_default_init) ->
  Forall (nv_ok NGHTTP2_HD_MAX_NV) (nva (body fr)) ->
  exists rv b' fr' d', nghttp2_frame_pack_headers malloc_ok b fr d = Some (rv, b', fr', d') /\
    (rv = Success -> exists h', arrives b' (hd fr) h' (headers_prefix fr) (nva (body fr)) d' s /\
       forall bs, nghttp2_frame_unpack_headers_payload h' 0 c (headers_prefix fr ++ bs)
         = Some (mkFrame h' (mkHeaders (pri_spec (body fr)) 0 [] c))).
Proof.
  intros Hl Hc Hv Hh Hr Hoff Hok Hty Hend Hpri Hnv.
  assert (Hoff0 : 0 <= nghttp2_frame_headers_payload_nv_offset fr).
  { unfold nghttp2_frame_headers_payload_nv_offset, nghttp2_frame_priority_len. destruct (negb _); lia. }
  unfold nghttp2_frame_pack_headers.
  destruct (deflate_behind_ok d s t b h r _ (nva (body fr)) Hl Hnv Hc Hv (conj Hoff0 Hoff) Hr)
    as (rv & d' & b1 & -> & Hch & Hrv). cbn [mbind option_bind].
  destruct rv; try (eexists _, _, _, _; split; [done|]; done).
  destruct (Hrv eq_refl) as (old & more & s' & t' & Hold & Hv1 & Hfit & Hdec).
  assert (Hsz : size (headers_prefix fr) = size old).
  { unfold headers_prefix. rewrite Hold. unfold nghttp2_frame_headers_payload_nv_offset, nghttp2_frame_priority_len, has_flag.
    by destruct (negb _). }
  destruct (block_arrives d' s' t' b1 h old more _ (headers_prefix fr) (fun b => if has_flag (hd fr) NGHTTP2_FLAG_PRIORITY
      then at_pos (fun m o => nghttp2_frame_pack_priority_spec m o (pri_spec (body fr))) b else Some b)
    (hd fr) nghttp2_bufs_len (nva (body fr)) s Hv1 Hh Hsz Hfit Hch Hok Hend) as (b2 & b' & -> & Hs & h' & Ha); [|done|].
  { intros b3 Hv3. unfold headers_prefix in *. destruct (has_flag (hd fr) NGHTTP2_FLAG_PRIORITY).
    - eapply at_pos_view; [exact Hv3|done|]. intros pre post. by apply pack_priority_spec_mid.
    - exists b3. assert (old = []) as ->; [|done]. destruct old; [done|]. rewrite size_cons in Hsz.
      pose proof (size_nonneg old). unfold size in Hsz at 1. cbn in Hsz. lia. }
  cbn [mbind option_bind hd body]. rewrite Hs. cbn [mbind option_bind]. do 4 eexists. split; [done|]. intros _.
  exists h'. split; [exact Ha|]. intros bs. unfold nghttp2_frame_unpack_headers_payload, headers_prefix.
  destruct Ha as (_ & _ & -> & _). destruct (has_flag (hd fr) NGHTTP2_FLAG_PRIORITY).
  - by rewrite unpack_pri_bytes.
  - cbn [mbind option_bind app]. by rewrite Hpri.
Qed.

(** PUSH_PROMISE frames arrive like HEADERS. *)
Theorem push_promise_arrives d s t b h r fr :
  linked d s t -> chain b = [] -> view (head b) h [] r -> 9 <= h -> 4 <= r -> r < 2 ^ 24 ->
  hd_ok (hd fr) -> hd_type (hd fr) = NGHTTP2_PUSH_PROMISE -> has_flag (hd fr) NGHTTP2_FLAG_END_HEADERS = true ->
  0 <= promised_stream_id (body fr) < 2 ^ 31 -> Forall (nv_ok NGHTTP2_HD_MAX_NV) (push_nva (body fr)) ->
  exists rv b' fr' d', nghttp2_frame_pack_push_promise malloc_ok b fr d = Some (rv, b', fr', d') /\
    (rv = Success -> exists h', arrives b' (hd fr) h' (be32 (promised_stream_id (body fr))) (push_nva (body fr)) d' s /\
       forall bs, nghttp2_frame_unpack_push_promise_payload h' 0 (be32 (promised_stream_id (body fr)) ++ bs)
         = Some (mkFrame h' (mkPush (promised_stream_id (body fr)) 0 []))).
Proof.
  intros Hl Hc Hv Hh Hr4 Hr Hok Hty Hend Hid Hnv. unfold nghttp2_frame_pack_push_promise.
  destruct (deflate_behind_ok d s t b h r 4 (push_nva (body fr)) Hl Hnv Hc Hv ltac:(lia) Hr)
    as (rv & d' & b1 & -> & Hch & Hrv). cbn [mbind option_bind].
  destruct rv; try (eexists _, _, _, _; split; [done|]; done).
  destruct (Hrv eq_refl) as (old & more & s' & t' & Hold & Hv1 & Hfit & Hdec).
  set (prefix := be32 (promised_stream_id (body fr))). assert (Hsz : size prefix = size old) by (by rewrite Hold).
  destruct (block_arrives d' s' t' b1 h old more _ prefix
      (at_pos (fun m o => poke m o (nghttp2_put_uint32be (u32 (promised_stream_id (body fr))))))
    (hd fr) nghttp2_bufs_len (push_nva (body fr)) s Hv1 Hh Hsz Hfit Hch Hok Hend) as (b2 & b' & -> & Hs & h' & Ha); [|done|].
  { intros b3 Hv3. eapply at_pos_view; [exact Hv3|done|]. intros pre post. rewrite put32_cast by lia.
    apply poke_mid; [done|]. by rewrite Hold. }
  cbn [mbind option_bind hd body]. rewrite Hs. cbn [mbind option_bind]. do 4 eexists. split; [done|]. intros _.
  exists h'. split; [exact Ha|]. intros bs. unfold nghttp2_frame_unpack_push_promise_payload, prefix.
  rewrite (fetch_prefix (be32 _)) by done. cbn [mbind option_bind]. by rewrite get_be32, land_31 by lia.
Qed.
End Arrive.
(** ** Padding *)

Definition nghttp2_frame_trail_padlen (h : nghttp2_frame_hd) (padlen : Z) : Z :=
  if padlen =? 0 then 0 else padlen - (if has_flag h NGHTTP2_FLAG_PADDED then 1 else 0).

Section Pad.
Context `{Wire}.

(** The header moves back by one byte; [framehd_only] leaves the rest to the
    caller. *)
Definition frame_set_pad (buf : nghttp2_buf) (padlen : Z) (framehd_only : bool) : option nghttp2_buf :=
  hdr ← fetch (buf_mem buf) (buf_pos buf) NGHTTP2_FRAME_HDLEN;
  let pos := buf_pos buf - 1 in
  m ← poke (buf_mem buf) pos hdr;
  flags ← load m (pos + 4);
  m ← poke m (pos + 4) [Z.lor flags NGHTTP2_FLAG_PADDED];
  b ← fetch m pos 4;
  type ← load m (pos + 3);
  let newlen := Z.shiftr (nghttp2_get_uint32 b) 8 + padlen in
  m ← poke m pos (nghttp2_put_uint32be (u32 (Z.shiftl newlen 8 + type)));
  if framehd_only then Some (mkNbuf m pos (buf_last buf))
  else
    let trail_padlen := padlen - 1 in
    m ← poke m (pos + NGHTTP2_FRAME_HDLEN) [u8 trail_padlen];
    m ← poke m (buf_last buf) (replicate (Z.to_nat trail_padlen) 0);
    Some (mkNbuf m pos (buf_last buf + trail_padlen)).

Definition pad_hd (padlen : Z) (h : nghttp2_frame_hd) : nghttp2_frame_hd :=
  set_flags (Z.lor (hd_flags h) NGHTTP2_FLAG_PADDED) (set_length (hd_length h + padlen) h).

Definition nghttp2_frame_add_pad `{FrameBufs} (b : nghttp2_bufs) (h : nghttp2_frame_hd) (padlen : Z)
    (framehd_only : bool) : option (nghttp2_bufs * nghttp2_frame_hd) :=
  if padlen =? 0 then Some (b, h)
  else if nghttp2_buf_avail (head b) <? padlen - 1 then None
  else
    buf ← frame_set_pad (head b) padlen framehd_only;
    Some (mkBufs buf (chain b), pad_hd padlen h).

(** What a padded payload holds: the length of the trailing padding, and what
    is between the two. *)
Definition unpad (h : nghttp2_frame_hd) (payload : list Z) : option (list Z) :=
  if has_flag h NGHTTP2_FLAG_PADDED then
    p ← load payload 0;
    let trail := nghttp2_frame_trail_padlen h (p + 1) in
    if size payload - 1 <? trail then None else Some (slice payload 1 (size payload - trail))
  else Some payload.

Lemma pad_flags f : is_byte f -> is_byte (Z.lor f 8) /\ Z.land (Z.lor f 8) 8 = 8.
Proof.
  intros Hf. pose proof (byte_forall (fun f => let g := Z.lor f 8 in (0 <=? g) && (g <? 256) && (Z.land g 8 =? 8))
    eq_refl f Hf) as Hx. cbn beta zeta in Hx. unfold is_byte. lia.
Qed.

(** The ten bytes in front of the payload. *)
Lemma pad_header_mid pre x post h padlen (last : Z) :
  hd_ok h -> 0 <= padlen -> hd_length h + padlen < 2 ^ 24 ->
  frame_set_pad (mkNbuf (pre ++ [x] ++ hd_bytes h ++ post) (size pre + 1) last) padlen true
    = Some (mkNbuf (pre ++ hd_bytes (pad_hd padlen h) ++ [hd_stream_id h mod 2 ^ 8] ++ post) (size pre) last).
Proof.
  intros (Hl & Ht & Hf & Hs & _) Hp Hlen. unfold frame_set_pad. cbn [buf_mem buf_pos buf_last].
  destruct (pad_flags _ Hf) as [Hf8 _]. unfold is_byte in Ht.
  rewrite app_assoc, (fetch_mid (pre ++ [x]) (hd_bytes h)) by (rewrite ?size_app; reflexivity). cbn [mbind option_bind].
  replace (size pre + 1 - 1) with (size pre) by lia.
  replace ((pre ++ [x]) ++ hd_bytes h ++ post) with (pre ++ (x :: hd_bytes h) ++ post) by (by rewrite <- app_assoc).
  unfold hd_bytes. set (l := hd_length h) in *. set (s := hd_stream_id h) in *. set (t := hd_type h) in *.
  set (f := hd_flags h) in *.
  erewrite (poke_inner pre _ _ post 0); [|lia|reflexivity]. cbn [mbind option_bind].
  match goal with |- context [pre ++ ?m ++ post] =>
    let m' := eval cbv -[Z.div Z.modulo Z.pow Z.mul l s t f] in m in change m with m' end.
  rewrite (load_mid pre _ post _ 4 f) by (done || lia). cbn [mbind option_bind].
  erewrite (poke_inner pre _ _ post 4); [|lia|reflexivity]. cbn [mbind option_bind].
  match goal with |- context [pre ++ ?m ++ post] =>
    let m' := eval cbv -[Z.div Z.modulo Z.pow Z.mul Z.lor l s t f] in m in change m with m' end.
  erewrite (fetch_inner pre _ post 0 4); [|lia|reflexivity]. cbn [mbind option_bind].
  rewrite (load_mid pre _ post _ 3 t) by (done || lia). cbn [mbind option_bind].
  match goal with |- context [nghttp2_get_uint32 ?m] =>
    let m' := eval cbv -[Z.div Z.modulo Z.pow Z.mul Z.lor l s t f] in m in change m with m' end.
  rewrite get_uint32_ok by (unfold is_byte; lia_mod). rewrite Z.shiftr_div_pow2 by lia.
  replace ((l / 2 ^ 16 * 2 ^ 24 + (l / 2 ^ 8) mod 2 ^ 8 * 2 ^ 16 + l mod 2 ^ 8 * 2 ^ 8 + t) / 2 ^ 8) with l by lia_mod.
  rewrite Z.shiftl_mul_pow2 by lia. unfold u32. rewrite (Z.mod_small ((l + padlen) * 2 ^ 8 + t)) by lia. rewrite put_uint32be_ok by lia.
  set (n := l + padlen) in *. set (w := n * 2 ^ 8 + t).
  erewrite (poke_inner pre _ _ post 0); [|lia|reflexivity]. cbn [mbind option_bind]. do 2 f_equal.
  unfold pad_hd, set_flags, set_length. cbn [hd_length hd_stream_id hd_type hd_flags]. fold l s t f n.
  f_equal. match goal with |- ?x ++ _ = _ =>
    let y := eval cbv -[Z.div Z.modulo Z.pow Z.mul Z.lor l s t f n w] in x in change x with y end.
  cbn [app]. subst w. repeat (f_equal; try lia_mod).
Qed.

(** The header first, then the length and the padding. *)
Lemma set_pad_full buf padlen :
  frame_set_pad buf padlen false =
    (b ← frame_set_pad buf padlen true;
     m ← poke (buf_mem b) (buf_pos b + NGHTTP2_FRAME_HDLEN) [u8 (padlen - 1)];
     m ← poke m (buf_last b) (replicate (Z.to_nat (padlen - 1)) 0);
     Some (mkNbuf m (buf_pos b) (buf_last b + (padlen - 1)))).
Proof.
  unfold frame_set_pad. destruct (fetch _ _ _) as [hdr|]; [|done]. cbn [mbind option_bind].
  destruct (poke (buf_mem buf) _ hdr) as [m|]; [|done]. cbn [mbind option_bind].
  destruct (load m _) as [f|]; [|done]. cbn [mbind option_bind].
  destruct (poke m _ _) as [m1|]; [|done]. cbn [mbind option_bind].
  destruct (fetch m1 _ _) as [b|]; [|done]. cbn [mbind option_bind].
  destruct (load m1 _) as [t|]; [|done]. cbn [mbind option_bind].
  by destruct (poke m1 _ _).
Qed.

Definition pad_payload (padlen : Z) (pl : list Z) : list Z :=
  [padlen - 1] ++ pl ++ replicate (Z.to_nat (padlen - 1)) 0.

Lemma size_zeros n : 0 <= n -> size (replicate (Z.to_nat n) 0) = n.
Proof. intros. unfold size. rewrite length_replicate. lia. Qed.

Lemma set_pad_view buf h hdr pl r padlen :
  view buf h (hd_bytes hdr ++ pl) r -> 1 <= h -> hd_ok hdr -> 1 <= padlen <= 256 -> padlen - 1 <= r ->
  hd_length hdr + padlen < 2 ^ 24 ->
  exists buf', frame_set_pad buf padlen false = Some buf' /\
    view buf' (h - 1) (hd_bytes (pad_hd padlen hdr) ++ pad_payload padlen pl) (r - (padlen - 1)).
Proof.
  intros (pre & post & Hm & Hh & Hr & Hp & Hl) Hh1 Hok Hpad Hroom Hlen. rewrite set_pad_full.
  destruct (split_back pre 1) as (pre1 & old & -> & Ho); [lia|]. rewrite size_app in Hh.
  destruct old as [|x [|? ?]]; try done. 2: { unfold size in Ho. cbn [length] in Ho. lia. }
  destruct (split_front post (padlen - 1)) as (tl & post1 & -> & Htl); [lia|]. rewrite size_app in Hr.
  destruct buf as [m p l]. cbn [buf_mem buf_pos buf_last] in *. rewrite Hm, Hp.
  replace h with (size pre1 + 1) by (rewrite <- Hh; reflexivity).
  replace ((pre1 ++ [x]) ++ (hd_bytes hdr ++ pl) ++ tl ++ post1) with (pre1 ++ [x] ++ hd_bytes hdr ++ pl ++ tl ++ post1)
    by (by rewrite <- !app_assoc).
  rewrite pad_header_mid by (done || lia). cbn [mbind option_bind buf_mem buf_pos buf_last].
  set (H9 := hd_bytes (pad_hd padlen hdr)). assert (Hs9 : size H9 = 9) by done.
  rewrite app_assoc, (poke_mid (pre1 ++ H9) [_] _ [u8 (padlen - 1)]) by (rewrite ?size_app, ?Hs9; done || lia).
  cbn [mbind option_bind]. rewrite (app_assoc _ [u8 _]), (app_assoc _ pl).
  rewrite (poke_mid (((pre1 ++ H9) ++ [u8 (padlen - 1)]) ++ pl) tl).
  2: { rewrite Hl, !size_app, Hs9. change (size (hd_bytes hdr)) with 9. rewrite <- Hh.
       change (size [x]) with 1. change (size [_]) with 1. lia. }
  2: { rewrite size_zeros; lia. }
  cbn [mbind option_bind]. eexists. split; [done|]. exists pre1, post1. cbn [buf_mem buf_pos buf_last].
  unfold u8, pad_payload. rewrite Z.mod_small by lia. rewrite !size_app, size_zeros, <- !app_assoc by lia.
  change (size [_]) with 1. rewrite Hs9, Hl, size_app. change (size (hd_bytes hdr)) with 9. change (size [x]) with 1 in Hh.
  split; [done|]. lia.
Qed.

(** Padding round trips: for a packed frame with a byte of room in front
    and [padlen - 1] behind, [nghttp2_frame_add_pad] stays inside of the
    buffer, and what it leaves is read as one frame with the PADDED flag and a
    length that counts the padding; taking away the padding that its first
    byte announces, as [nghttp2_frame_trail_padlen] computes it, gives the old
    payload. *)
Theorem padding_roundtrip `{FrameBufs} b h r hdr pl frame_hd padlen rest :
  view (head b) h (hd_bytes hdr ++ pl) r -> 1 <= h -> hd_ok hdr -> hd_length hdr = size pl ->
  1 <= padlen <= 256 -> padlen - 1 <= r -> hd_length hdr + padlen < 2 ^ 24 ->
  exists b', nghttp2_frame_add_pad b frame_hd padlen false = Some (b', pad_hd padlen frame_hd) /\
    chain b' = chain b /\
    exists pl', read_frame (sent (head b') ++ rest) = Some (pad_hd padlen hdr, pl', rest) /\
      has_flag (pad_hd padlen hdr) NGHTTP2_FLAG_PADDED = true /\ size pl' = size pl + padlen /\
      unpad (pad_hd padlen hdr) pl' = Some pl.
Proof.
  intros Hv Hh Hok Hpl Hp Hr Hlen. unfold nghttp2_frame_add_pad. replace (padlen =? 0) with false by lia.
  destruct (view_len _ _ _ _ Hv) as [_ ->]. replace (_ <? _) with false by lia.
  destruct (set_pad_view _ _ _ _ _ _ Hv Hh Hok Hp Hr Hlen) as (buf & -> & Hv'). cbn [mbind option_bind].
  eexists. split; [done|]. split; [done|]. cbn [head]. rewrite (view_sent _ _ _ _ Hv'), <- app_assoc.
  destruct Hok as (Hl & Ht & Hf & Hs & Hres). destruct (pad_flags _ Hf) as [Hf8 Hpf].
  assert (Hsz : size (pad_payload padlen pl) = size pl + padlen).
  { unfold pad_payload. rewrite !size_app, size_zeros by lia. change (size [_]) with 1. lia. }
  exists (pad_payload padlen pl). rewrite read_frame_ok.
  2: { unfold hd_ok, pad_hd, set_flags, set_length, is_byte in *.
       cbn [hd_length hd_type hd_flags hd_stream_id hd_reserved]. lia. }
  2: { rewrite Hsz, <- Hpl. done. }
  assert (Hflag : has_flag (pad_hd padlen hdr) 8 = true) by (unfold has_flag; cbn; by rewrite Hpf).
  split; [done|]. split; [done|]. split; [done|].
  unfold unpad, nghttp2_frame_trail_padlen. rewrite Hflag, Hsz. cbn [load pad_payload app].
  change (load (padlen - 1 :: pl ++ replicate (Z.to_nat (padlen - 1)) 0) 0) with (Some (padlen - 1)).
  cbn [mbind option_bind]. pose proof (size_nonneg pl).
  replace (padlen - 1 + 1 =? 0) with false by lia. replace (_ <? _) with false by lia. f_equal.
  pose proof (fetch_mid [padlen - 1] pl (replicate (Z.to_nat (padlen - 1)) 0) 1 (size pl) eq_refl eq_refl) as Hx.
  unfold fetch in Hx. cbn [app] in Hx. destruct (_ || _ || _); [done|].
  by replace (size pl + padlen - (padlen - 1 + 1 - 1)) with (1 + size pl) by lia; injection Hx.
Qed.
End Pad.

(** ** Example

    Buffers of 16 bytes behind the first one, each with 10 bytes of room in
    front, and the encoder of the small code. *)
Section Sample.
#[local] Existing Instances sample_wire sample_priority_spec sample_code sample_decoder.

Definition fresh : nghttp2_buf := mkNbuf (replicate 26 0) 10 10.

(** A byte behind the last buffer, or in a new one. *)
Fixpoint put_byte (h : nghttp2_buf) (cs : list nghttp2_buf) (c : Z) : option (nghttp2_buf * list nghttp2_buf) :=
  match cs with
  | c2 :: cs => '(c2, cs) ← put_byte c2 cs c; Some (h, c2 :: cs)
  | [] =>
      if in_order h then
        match put_last [c] h with
        | Some h => Some (h, [])
        | None => b ← put_last [c] fresh; Some (h, [b])
        end
      else None
  end.

Fixpoint chain_add (b : nghttp2_bufs) (bs : list Z) : hd_err * nghttp2_bufs :=
  match bs with
  | [] => (NGHTTP2_SUCCESS, b)
  | c :: bs =>
      match put_byte (head b) (chain b) c with
      | Some (h, cs) => chain_add (mkBufs h cs) bs
      | None => (NGHTTP2_ERR_BUFFER_ERROR, b)
      end
  end.

Lemma put_in_order h bs h' :
  in_order h = true -> put_last bs h = Some h' -> extends h h' /\ sent h' = sent h ++ bs.
Proof.
  intros Hi Hp. unfold in_order in Hi. pose proof (view_intro h ltac:(lia) ltac:(lia)) as Hv.
  assert (Hx : forall n data r, view h n data r -> view h' n (data ++ bs) (r - size bs)).
  { intros n data r Hv1. pose proof (put_last_room _ _ _ _ _ _ Hv1 Hp).
    destruct (view_back _ _ _ _ bs Hv1) as (h2 & Hp2 & Hv2); [done|congruence]. }
  split; [intros n data r Hv1; eexists; by apply Hx|]. exact (view_sent _ _ _ _ (Hx _ _ _ Hv)).
Qed.

Lemma put_byte_ok c cs h h' cs' :
  put_byte h cs c = Some (h', cs') ->
  grows (mkBufs h cs) (mkBufs h' cs') /\ single_data (mkBufs h' cs') = single_data (mkBufs h cs) ++ [c].
Proof.
  unfold single_data. cbn [head chain]. revert h h' cs'. induction cs as [|c2 cs IH]; intros h h' cs'; cbn [put_byte].
  - destruct (in_order h) eqn:Hi; [|done]. destruct (put_last [c] h) as [h1|] eqn:Hp.
    + intros [= <- <-]. destruct (put_in_order _ _ _ Hi Hp) as [He Hs]. split; [by split|]. cbn. by rewrite Hs, !app_nil_r.
    + destruct (put_last [c] fresh) as [b|] eqn:Hb; [|done]. intros [= <- <-].
      destruct (view_back fresh 10 [] 16 [c]) as (b' & Hb' & Hv); [|unfold size; cbn; lia|].
      { exists (replicate 10 0), (replicate 16 0). by repeat split. }
      assert (b' = b) as -> by congruence. rewrite fmap_cons. cbn. rewrite (view_sent _ _ _ _ Hv), !app_nil_r.
      split; [|done]. split; [reflexivity|]. intros _. constructor; [|done]. exists 10, [c], (16 - size [c]).
      split; [exact Hv|]. unfold size. cbn. lia.
  - destruct (put_byte c2 cs c) as [[c2' cs1]|] eqn:Hp; [|done]. intros [= <- <-].
    destruct (IH _ _ _ Hp) as [[He Hf] Hs]. cbn [head chain] in *. rewrite !fmap_cons. cbn [concat]. split.
    + split; [reflexivity|]. cbn [chain]. intros [(n & data & r & Hv & Hn & Hd) Hcs]%Forall_cons.
      constructor; [|by apply Hf]. destruct (He _ _ _ Hv) as (more & Hv'). exists n, (data ++ more), (r - size more).
      split; [done|]. rewrite size_app. lia.
    + by rewrite Hs, !app_assoc.
Qed.

Lemma chain_add_ok bs b rv b' :
  chain_add b bs = (rv, b') -> grows b b' /\ (rv = NGHTTP2_SUCCESS -> single_data b' = single_data b ++ bs).
Proof.
  revert b. induction bs as [|c bs IH]; intros b; cbn [chain_add].
  - intros [= <- <-]. split; [reflexivity|]. by rewrite app_nil_r.
  - destruct (put_byte (head b) (chain b) c) as [[h cs]|] eqn:Hp; [|by intros [= <- <-]].
    intros Hx. destruct (IH _ Hx) as [Hg Hs]. apply put_byte_ok in Hp as [Hg1 Hs1]. destruct b as [h0 cs0].
    cbn [head chain] in *. split; [by etrans|]. intros Hrv. rewrite (Hs Hrv), Hs1, <- app_assoc. done.
Qed.

Lemma chain_add_fits bs h n data r h' :
  view h n data r -> put_last bs h = Some h' -> chain_add (mkBufs h []) bs = (NGHTTP2_SUCCESS, mkBufs h' []).
Proof.
  intros Hv Hp. pose proof (put_last_room _ _ _ _ _ _ Hv Hp) as Hr. revert h data r Hv Hp Hr.
  induction bs as [|c bs IH]; intros h data r Hv Hp Hr; pose proof Hv as (pre & post & Hm & Hh & Hsr & Hpos & Hl).
  all: destruct h as [m p l]; cbn [buf_mem buf_pos buf_last] in *; subst m p r; cbn [chain_add head chain].
  - unfold put_last in Hp. cbn [buf_mem buf_last buf_pos] in Hp.
    rewrite app_assoc, (poke_mid (pre ++ data) [] post []) in Hp by (rewrite ?size_app; done || lia).
    injection Hp as <-. rewrite <- app_assoc. do 3 f_equal. unfold size. cbn. lia.
  - rewrite size_cons in Hr. pose proof (size_nonneg bs). destruct post as [|o post]; [unfold size in Hr; cbn in Hr; lia|].
    rewrite size_cons in Hr. destruct (split_front post (size bs)) as (old & post1 & -> & Ho); [lia|].
    assert (Hin : in_order (mkNbuf (pre ++ data ++ o :: old ++ post1) n l) = true).
    { unfold in_order. cbn [buf_mem buf_pos buf_last]. rewrite !size_app. pose proof (size_nonneg pre).
      pose proof (size_nonneg data). pose proof (size_nonneg (o :: old ++ post1)). lia. }
    cbn [put_byte]. rewrite Hin. unfold put_last in *. cbn [buf_mem buf_last buf_pos] in *.
    assert (Hl2 : l = size (pre ++ data)) by (rewrite size_app; lia). rewrite app_assoc in *.
    rewrite (poke_mid (pre ++ data) [o] (old ++ post1) [c]) by done.
    change (o :: old ++ post1) with ((o :: old) ++ post1) in Hp.
    rewrite (poke_mid (pre ++ data) (o :: old) post1 (c :: bs)) in Hp by (rewrite ?size_cons; done || lia).
    cbn [mbind option_bind] in *. injection Hp as <-. change (size [c]) with 1.
    set (h1 := mkNbuf ((pre ++ data) ++ [c] ++ old ++ post1) n (l + 1)).
    assert (Hv1 : view h1 n (data ++ [c]) (size (old ++ post1))).
    { exists pre, (old ++ post1). cbn. rewrite <- !app_assoc, !size_app. change (size [c]) with 1. repeat split; lia. }
    eapply IH; [exact Hv1| |rewrite size_app; pose proof (size_nonneg post1); lia].
    unfold h1, put_last. cbn [buf_mem buf_pos buf_last]. rewrite (app_assoc _ [c]).
    rewrite (poke_mid ((pre ++ data) ++ [c]) old post1 bs); [|rewrite size_app, Hl2; reflexivity|done].
    cbn [mbind option_bind]. rewrite <- !app_assoc. do 2 f_equal. rewrite size_cons. lia.
Qed.

#[local, refine] Instance chain_bufs : Bufs nghttp2_bufs := {
  bufs_data := single_data; nghttp2_bufs_add := chain_add; nghttp2_bufs_addb b c := chain_add b [c]
}.
Proof. all: intros b bs b' Hx; by apply chain_add_ok in Hx as [_ Hx]; apply Hx. Defined.

#[local, refine] Instance chain_frame_bufs : FrameBufs := {
  nghttp2_buf_len b := buf_last b - buf_pos b;
  nghttp2_buf_avail b := size (buf_mem b) - buf_last b;
  buf_len_ok b := eq_refl; buf_avail_ok b := eq_refl; bufs_data_sent b := eq_refl;
  bufs_add_fits h n data r bs h' := chain_add_fits bs h n data r h'
}.
Proof.
  - intros b bs rv b' Hx. by apply chain_add_ok in Hx as [Hx _].
  - intros b c rv b' Hx. by apply chain_add_ok in Hx as [Hx _].
Defined.

#[local, refine] Instance chain_encoder : HuffmanEncoder nghttp2_bufs := {
  nghttp2_hd_huff_encode_count s := size (huff_code s);
  nghttp2_hd_huff_encode b s := chain_add b (huff_code s);
  huff_count_ok s := eq_refl
}.
Proof. intros b s b' Hx. by apply chain_add_ok in Hx as [_ Hx]; apply Hx. Defined.

#[local, refine] Instance chain_header_bufs : HeaderBufs := {
  nghttp2_bufs_len b := size (single_data b); bufs_len_ok b := eq_refl
}.
Proof. intros b s. cbn. destruct (chain_add _ _) eqn:E. by apply chain_add_ok in E as [E _]. Defined.

(** 19 bytes of headers, of which the first buffer holds 8. *)
Definition sample_headers_bufs : nghttp2_bufs := mkBufs (mkNbuf (replicate 18 0) 10 10) [].
Definition sample_headers : nghttp2_headers :=
  nghttp2_frame_headers_init NGHTTP2_FLAG_END_HEADERS 1 0 None sample_block.

Lemma sample_view : view (head sample_headers_bufs) 10 [] 8.
Proof. exists (replicate 10 0), (replicate 8 0). by repeat split. Qed.

Lemma headers_arrive_witness :
  exists b' fr' d' h' bs s',
    nghttp2_frame_pack_headers (fun _ => true) sample_headers_bufs sample_headers sample_deflater
      = Some (Success, b', fr', d') /\ length (chain b') = 1%nat /\
    read_block (sent (head b') ++ concat (sent <$> chain b') ++ [1; 2; 3]) = Some (h', bs, [1; 2; 3]) /\
    decode_block (fun _ => true) (S (length bs)) sample_inflater bs = Some (header_of <$> sample_block, s').
Proof.
  pose proof (linked_init (fun _ => true) 4096 4096 0%nat sample_hc 0%nat sample_deflater sample_inflater
    ltac:(unfold UINT32_MAX; lia) ltac:(lia) sample_deflater_init sample_inflater_init) as Hl.
  destruct (headers_arrive (fun _ => true) (fun _ => eq_refl) sample_deflater sample_inflater _ sample_headers_bufs
    10 8 sample_headers 0 Hl eq_refl sample_view ltac:(lia) ltac:(lia) ltac:(vm_compute; discriminate)) as
    (rv & b' & fr' & d' & Hp & Hrv); [|done..|exact sample_block_ok|].
  { by repeat split; cbn; lia. }
  assert (Hx : rv = Success /\ length (chain b') = 1%nat)
    by (split; vm_compute in Hp; injection Hp; intros; subst; reflexivity).
  destruct Hx as [-> Hch]. destruct (Hrv eq_refl) as (h' & Ha & _).
  destruct Ha as (_ & _ & _ & bs & s' & t' & Hr & Hd & _).
  exists b', fr', d', h', bs, s'. by repeat split.
Defined.

(** Three bytes of DATA, padded by five. *)
Definition sample_data_hd : nghttp2_frame_hd := mkHd 3 1 NGHTTP2_DATA 0 0.
Definition sample_data_bufs : nghttp2_bufs :=
  mkBufs (mkNbuf ([0] ++ hd_bytes sample_data_hd ++ [7; 8; 9] ++ replicate 4 255) 1 13) [].

Lemma padding_roundtrip_witness :
  exists b', nghttp2_frame_add_pad sample_data_bufs sample_data_hd 5 false = Some (b', pad_hd 5 sample_data_hd) /\
    sent (head b') = [0; 0; 8; 0; 8; 0; 0; 0; 1] ++ [4; 7; 8; 9; 0; 0; 0; 0] /\
    exists pl', unpad (pad_hd 5 sample_data_hd) pl' = Some [7; 8; 9].
Proof.
  destruct (padding_roundtrip sample_data_bufs 1 4 sample_data_hd [7; 8; 9] sample_data_hd 5 []) as
    (b' & Hp & _ & pl' & _ & _ & _ & Hu); try done; try lia.
  - exists [0], (replicate 4 255). by repeat split.
  - exists b'. split; [exact Hp|]. split; [|by exists pl']. vm_compute in Hp. injection Hp as <-. reflexivity.
Defined.
End Sample.
End H2Headers.
