(* ===== verification/H2Lists.v ===== *)
(** Header lists and settings
    (src/http2/src/upstream/lib/nghttp2_frame.c): the copy of settings (lines
    940-958), the comparison, sorting and copy of header lists (960-1102) and
    the check of settings (1104-1143). *)

From stdpp Require Import sorting.
From S2P Require Export H2Frame.
Export H2Buf H2Frame.
Open Scope Z_scope.

(** nghttp2_helper.c is not part of the repository: ASCII letters become
    lower case, in place. *)
Definition lower (c : Z) : Z := if (65 <=? c) && (c <=? 90) then c + 32 else c.

Class Downcase := {
  nghttp2_downcase : list Z -> list Z;
  downcase_ok : forall s, nghttp2_downcase s = lower <$> s
}.

Module H2Lists.

(** ** Settings *)

Abbreviation NGHTTP2_SETTINGS_HEADER_TABLE_SIZE := 0x1.
Abbreviation NGHTTP2_SETTINGS_ENABLE_PUSH := 0x2.
Abbreviation NGHTTP2_SETTINGS_MAX_CONCURRENT_STREAMS := 0x3.
Abbreviation NGHTTP2_SETTINGS_INITIAL_WINDOW_SIZE := 0x4.
Abbreviation NGHTTP2_SETTINGS_MAX_FRAME_SIZE := 0x5.
Abbreviation NGHTTP2_SETTINGS_MAX_HEADER_LIST_SIZE := 0x6.
Abbreviation NGHTTP2_SETTINGS_ENABLE_CONNECT_PROTOCOL := 0x8.
Abbreviation NGHTTP2_SETTINGS_NO_RFC7540_PRIORITIES := 0x9.
Abbreviation NGHTTP2_MAX_WINDOW_SIZE := 0x7fffffff.
Abbreviation NGHTTP2_MAX_FRAME_SIZE_MIN := 0x4000.
Abbreviation NGHTTP2_MAX_FRAME_SIZE_MAX := 0xffffff.

(** One iteration: [true] when the loop goes on. *)
Definition entry_check (e : nghttp2_settings_entry) : bool :=
  let value := iv_value e in
  if settings_id e =? NGHTTP2_SETTINGS_HEADER_TABLE_SIZE then true
  else if settings_id e =? NGHTTP2_SETTINGS_MAX_CONCURRENT_STREAMS then true
  else if settings_id e =? NGHTTP2_SETTINGS_ENABLE_PUSH then
    negb (negb (value =? 0) && negb (value =? 1))
  else if settings_id e =? NGHTTP2_SETTINGS_INITIAL_WINDOW_SIZE then
    negb (NGHTTP2_MAX_WINDOW_SIZE <? value)
  else if settings_id e =? NGHTTP2_SETTINGS_MAX_FRAME_SIZE then
    negb ((value <? NGHTTP2_MAX_FRAME_SIZE_MIN) || (NGHTTP2_MAX_FRAME_SIZE_MAX <? value))
  else if settings_id e =? NGHTTP2_SETTINGS_MAX_HEADER_LIST_SIZE then true
  else if settings_id e =? NGHTTP2_SETTINGS_ENABLE_CONNECT_PROTOCOL then
    negb (negb (value =? 0) && negb (value =? 1))
  else if settings_id e =? NGHTTP2_SETTINGS_NO_RFC7540_PRIORITIES then
    negb (negb (value =? 0) && negb (value =? 1))
  else true.

Fixpoint nghttp2_iv_check (iv : list nghttp2_settings_entry) : bool :=
  match iv with
  | [] => true
  | e :: iv => if entry_check e then nghttp2_iv_check iv else false
  end.

(** [None] is NULL: nothing to copy, or no memory. *)
Definition nghttp2_frame_iv_copy (alloc : bool) (iv : list nghttp2_settings_entry)
    : option (list nghttp2_settings_entry) :=
  match iv with [] => None | _ => if alloc then Some iv else None end.

(** ** Comparison *)

(** [nghttp2_nv]; a null pointer comes with the length 0. *)
Record nghttp2_nv := mkNV { name : list Z; value : list Z; flags : Z }.

Abbreviation NGHTTP2_NV_FLAG_NO_COPY_NAME := 0x2.
Abbreviation NGHTTP2_NV_FLAG_NO_COPY_VALUE := 0x4.

(** The sign of [memcmp(a, b, n)]; both have at least [n] bytes. *)
Fixpoint memcmp (a b : list Z) (n : nat) : comparison :=
  match n, a, b with
  | S n, x :: a, y :: b => match x ?= y with Eq => memcmp a b n | c => c end
  | _, _, _ => Eq
  end.

(** The sign of the result. *)
Definition bytes_compar (a b : list Z) : comparison :=
  if size a =? size b then memcmp a b (length a)
  else if size a <? size b then
    match memcmp a b (length a) with Eq => Lt | rv => rv end
  else
    match memcmp a b (length b) with Eq => Gt | rv => rv end.

Definition nghttp2_nv_compare_name (lhs rhs : nghttp2_nv) : comparison :=
  bytes_compar (name lhs) (name rhs).

Definition nv_compar (a b : nghttp2_nv) : comparison :=
  match bytes_compar (name a) (name b) with
  | Eq => bytes_compar (value a) (value b)
  | rv => rv
  end.

Definition nghttp2_nv_equal (a b : nghttp2_nv) : bool :=
  if negb (size (name a) =? size (name b)) || negb (size (value a) =? size (value b)) then false
  else if negb (bool_decide (memcmp (name a) (name b) (length (name a)) = Eq)) then false
  else if negb (bool_decide (memcmp (value a) (value b) (length (value a)) = Eq)) then false
  else true.

(** [qsort] of the C library: a sorted permutation, elements that compare
    equal in any order. *)
Definition qsort {A} (cmp : A -> A -> comparison) (l l' : list A) : Prop :=
  l ≡ₚ l' /\ Sorted (fun a b => cmp a b <> Gt) l'.

Definition nghttp2_nv_array_sort (nva nva' : list nghttp2_nv) : Prop := qsort nv_compar nva nva'.

(** ** Copies *)

(** Where a copied string is: in the memory of the list that was copied, or at
    an offset of the new memory. *)
Inductive place := Shared (s : list Z) | At (off len : Z).

Record nv_copy := mkCopy { copy_name : place; copy_value : place; copy_flags : Z }.

Definition no_copy (nv : nghttp2_nv) (flag : Z) : bool := negb (Z.land (flags nv) flag =? 0).

(** The memory that the strings need. *)
Fixpoint copy_len (nva : list nghttp2_nv) (buflen : Z) : Z :=
  match nva with
  | [] => buflen
  | nv :: nva =>
      let buflen := if no_copy nv NGHTTP2_NV_FLAG_NO_COPY_NAME then buflen else buflen + (size (name nv) + 1) in
      let buflen := if no_copy nv NGHTTP2_NV_FLAG_NO_COPY_VALUE then buflen else buflen + (size (value nv) + 1) in
      copy_len nva buflen
  end.

Section Copy.
Context `{Downcase}.

(** A string is copied to [data], with a terminator. *)
Definition copy_string (s : list Z) (m : list Z) (data : Z) : option (list Z) :=
  m ← (if size s =? 0 then Some m else poke m data s);
  poke m (data + size s) [0].

(** [nghttp2_downcase(data, len)] *)
Definition downcase_at (m : list Z) (data len : Z) : option (list Z) :=
  s ← fetch m data len; poke m data (nghttp2_downcase s).

Fixpoint copy_loop (nva : list nghttp2_nv) (m : list Z) (data : Z) : option (list Z * list nv_copy) :=
  match nva with
  | [] => Some (m, [])
  | nv :: nva =>
      '(m, n, data) ←
        (if no_copy nv NGHTTP2_NV_FLAG_NO_COPY_NAME then Some (m, Shared (name nv), data)
         else m ← copy_string (name nv) m data;
              m ← downcase_at m data (size (name nv));
              Some (m, At data (size (name nv)), data + (size (name nv) + 1)));
      '(m, v, data) ←
        (if no_copy nv NGHTTP2_NV_FLAG_NO_COPY_VALUE then Some (m, Shared (value nv), data)
         else m ← copy_string (value nv) m data;
              Some (m, At data (size (value nv)), data + (size (value nv) + 1)));
      '(m, ps) ← copy_loop nva m data;
      Some (m, mkCopy n v (flags nv) :: ps)
  end.

(** [malloc] returns any bytes. The new memory is the array of structs and
    the strings behind it: [m] is the latter. *)
Definition nghttp2_nv_array_copy (alloc : bool) (garbage : Z -> list Z) (nva : list nghttp2_nv)
    : option (frame_rv * option (list Z * list nv_copy)) :=
  match nva with
  | [] => Some (Success, None)
  | _ =>
      if negb alloc then Some (Err NGHTTP2_ERR_NOMEM, None)
      else x ← copy_loop nva (garbage (copy_len nva 0)) 0; Some (Success, Some x)
  end.
End Copy.

(** What a reader of the copy sees. *)
Definition read_place (m : list Z) (p : place) : option (list Z) :=
  match p with Shared s => Some s | At off len => fetch m off len end.

Definition read_copy (m : list Z) (c : nv_copy) : option nghttp2_nv :=
  n ← read_place m (copy_name c); v ← read_place m (copy_value c); Some (mkNV n v (copy_flags c)).

(** ** Copies are exact *)

(** What a list entry puts into the memory, and what its copy shows. *)
Definition copied (nv : nghttp2_nv) : list Z :=
  (if no_copy nv NGHTTP2_NV_FLAG_NO_COPY_NAME then [] else (lower <$> name nv) ++ [0]) ++
  (if no_copy nv NGHTTP2_NV_FLAG_NO_COPY_VALUE then [] else value nv ++ [0]).

Definition text (nva : list nghttp2_nv) : list Z := concat (copied <$> nva).

Definition copy_of (nv : nghttp2_nv) : nghttp2_nv :=
  mkNV (if no_copy nv NGHTTP2_NV_FLAG_NO_COPY_NAME then name nv else lower <$> name nv) (value nv) (flags nv).

Lemma size_fmap (f : Z -> Z) s : size (f <$> s) = size s.
Proof. unfold size. by rewrite length_fmap. Qed.

Lemma nv_text_cons nv nva : text (nv :: nva) = copied nv ++ text nva.
Proof. done. Qed.

Lemma copy_len_ok nva n : copy_len nva n = n + size (text nva).
Proof.
  revert n. induction nva as [|nv nva IH]; intros n; [unfold size; cbn; lia|].
  cbn [copy_len]. rewrite IH, nv_text_cons, size_app. unfold copied. rewrite size_app.
  destruct (no_copy nv NGHTTP2_NV_FLAG_NO_COPY_NAME), (no_copy nv NGHTTP2_NV_FLAG_NO_COPY_VALUE);
    rewrite ?size_app, ?size_fmap; change (size [0]) with 1; change (size []) with 0; lia.
Qed.

Section CopyOk.
Context `{Downcase}.

Lemma copy_string_mid s pre old post :
  size old = size s + 1 -> copy_string s (pre ++ old ++ post) (size pre) = Some (pre ++ (s ++ [0]) ++ post).
Proof.
  intros Ho. pose proof (size_nonneg s). unfold copy_string.
  destruct (split_front old (size s)) as (o1 & o2 & -> & Ho1); [lia|]. rewrite size_app in Ho.
  assert (Hp : (if size s =? 0 then Some (pre ++ (o1 ++ o2) ++ post) else poke (pre ++ (o1 ++ o2) ++ post) (size pre) s)
    = Some (pre ++ s ++ o2 ++ post)).
  { rewrite <- app_assoc. destruct (size s =? 0) eqn:E; [|by apply poke_mid].
    destruct s; [|rewrite size_cons in E; pose proof (size_nonneg s); lia].
    destruct o1; [done|]. rewrite size_cons in Ho1. pose proof (size_nonneg o1). change (size []) with 0 in *. lia. }
  rewrite Hp. cbn [mbind option_bind]. rewrite app_assoc, (poke_mid (pre ++ s) o2 post [0]); [by rewrite <- !app_assoc| |].
  - by rewrite size_app.
  - change (size [0]) with 1. lia.
Qed.

Lemma downcase_mid s pre post :
  downcase_at (pre ++ s ++ post) (size pre) (size s) = Some (pre ++ (lower <$> s) ++ post).
Proof.
  unfold downcase_at. rewrite (fetch_mid pre s) by done. cbn [mbind option_bind]. rewrite downcase_ok.
  apply poke_mid; [done|]. by rewrite size_fmap.
Qed.

(** One field of one entry. *)
Lemma field_mid (shared : bool) (f : list Z -> list Z) s pre old post (put : list Z -> Z -> option (list Z)) :
  size old = size (if shared then [] else f s ++ [0]) -> (forall x, size (f x) = size x) ->
  (forall pre old post, size old = size s + 1 -> put (pre ++ old ++ post) (size pre) = Some (pre ++ (f s ++ [0]) ++ post)) ->
  exists p, (if shared then Some (pre ++ old ++ post, Shared s, size pre)
     else m ← put (pre ++ old ++ post) (size pre); Some (m, At (size pre) (size s), size pre + (size s + 1)))
    = Some (pre ++ (if shared then [] else f s ++ [0]) ++ post, p, size (pre ++ (if shared then [] else f s ++ [0]))) /\
    forall rest, read_place (pre ++ (if shared then [] else f s ++ [0]) ++ rest) p
      = Some (if shared then s else f s).
Proof.
  intros Ho Hf Hput. destruct shared.
  - exists (Shared s). rewrite app_nil_r. split; [|done]. destruct old; [done|].
    rewrite size_cons in Ho. pose proof (size_nonneg old). change (size []) with 0 in *. lia.
  - exists (At (size pre) (size s)). rewrite size_app, Hf in Ho. change (size [0]) with 1 in Ho. rewrite Hput by done.
    cbn [mbind option_bind]. rewrite !size_app, Hf. split; [done|]. intros rest. cbn [read_place].
    rewrite <- app_assoc. by apply fetch_mid; rewrite ?Hf.
Qed.

Lemma copy_loop_ok nva pre old :
  size old = size (text nva) ->
  exists ps, copy_loop nva (pre ++ old) (size pre) = Some (pre ++ text nva, ps) /\
    mapM (read_copy (pre ++ text nva)) ps = Some (copy_of <$> nva).
Proof.
  revert pre old. induction nva as [|nv nva IH]; intros pre old Ho.
  - destruct old; [|rewrite size_cons in Ho; pose proof (size_nonneg old); change (size (text [])) with 0 in *; lia].
    by exists [].
  - rewrite nv_text_cons, size_app in Ho. unfold copied in *. rewrite size_app in Ho.
    set (n := no_copy nv NGHTTP2_NV_FLAG_NO_COPY_NAME) in *. set (v := no_copy nv NGHTTP2_NV_FLAG_NO_COPY_VALUE) in *.
    set (nt := if n then [] else (lower <$> name nv) ++ [0]) in *. set (vt := if v then [] else value nv ++ [0]) in *.
    assert (Htext : text (nv :: nva) = nt ++ vt ++ text nva) by (rewrite nv_text_cons; unfold copied; fold n v nt vt; by rewrite <- app_assoc).
    pose proof (size_nonneg nt). pose proof (size_nonneg vt). pose proof (size_nonneg (text nva)).
    destruct (split_front old (size nt)) as (o1 & old1 & -> & Ho1); [lia|]. rewrite size_app in Ho.
    destruct (split_front old1 (size vt)) as (o2 & o3 & -> & Ho2); [lia|]. rewrite size_app in Ho.
    destruct (field_mid n (fmap lower) (name nv) pre o1 (o2 ++ o3) (fun m data =>
      m ← copy_string (name nv) m data; downcase_at m data (size (name nv)))) as (p1 & Hx1 & Hr1).
    { done. } { intros. apply size_fmap. }
    { intros pr o po Hs. rewrite copy_string_mid by done. cbn [mbind option_bind]. rewrite <- app_assoc.
      rewrite downcase_mid. by rewrite <- app_assoc. }
    destruct (field_mid v id (value nv) (pre ++ nt) o2 o3 (copy_string (value nv))) as (p2 & Hx2 & Hr2).
    { done. } { done. } { intros. by apply copy_string_mid. }
    destruct (IH ((pre ++ nt) ++ vt) o3 ltac:(lia)) as (ps & Hx & Hr).
    exists (mkCopy p1 p2 (flags nv) :: ps). cbn [copy_loop]. fold n v. fold nt in Hx1, Hr1. change (id (value nv)) with (value nv) in Hx2, Hr2. fold vt in Hx2, Hr2.
    split.
    + transitivity ('(m, n0, data) ← (if n then Some (pre ++ o1 ++ o2 ++ o3, Shared (name nv), size pre)
          else m ← (m ← copy_string (name nv) (pre ++ o1 ++ o2 ++ o3) (size pre);
            downcase_at m (size pre) (size (name nv)));
            Some (m, At (size pre) (size (name nv)), size pre + (size (name nv) + 1)));
        '(m, v0, data) ← (if v then Some (m, Shared (value nv), data)
          else m ← copy_string (value nv) m data; Some (m, At data (size (value nv)), data + (size (value nv) + 1)));
        '(m, ps) ← copy_loop nva m data; Some (m, mkCopy n0 v0 (flags nv) :: ps)).
      { destruct n; [done|]. by destruct (copy_string (name nv) _ _) as [m|]; [cbn [mbind option_bind]|]. }
      rewrite Hx1. cbn [mbind option_bind]. rewrite (app_assoc pre nt), Hx2. cbn [mbind option_bind].
      rewrite (app_assoc _ vt), Hx. cbn [mbind option_bind]. f_equal. f_equal. by rewrite Htext, <- !app_assoc.
    + rewrite fmap_cons, Htext. cbn [mapM]. specialize (Hr2 (text nva)). rewrite <- app_assoc in Hr2.
      assert (Ha : ((pre ++ nt) ++ vt) ++ text nva = pre ++ nt ++ vt ++ text nva) by (by rewrite <- !app_assoc).
      rewrite Ha in Hr.
      assert (Hc : read_copy (pre ++ nt ++ vt ++ text nva) (mkCopy p1 p2 (flags nv)) = Some (copy_of nv)).
      { unfold read_copy. cbn [copy_name copy_value copy_flags]. rewrite Hr1. cbn [mbind option_bind].
        rewrite Hr2. unfold copy_of. fold n. by destruct n, v. }
      rewrite Hc. cbn [mbind option_bind]. by rewrite Hr.
Qed.

(** Copies of header lists are exact: for every list, whatever the
    caller lets the copy share, [nghttp2_nv_array_copy] writes inside of the
    memory it allocates, fills it completely with the terminated strings, and
    the copy shows the same headers, with the names that were copied in lower
    case. *)
Theorem nv_array_copy_exact garbage nva :
  nva <> [] -> (forall n, 0 <= n -> size (garbage n) = n) ->
  exists m ps, nghttp2_nv_array_copy true garbage nva = Some (Success, Some (m, ps)) /\
    m = text nva /\ size m = copy_len nva 0 /\ mapM (read_copy m) ps = Some (copy_of <$> nva).
Proof.
  intros Hne Hg. pose proof (copy_len_ok nva 0) as Hl. rewrite Z.add_0_l in Hl. pose proof (size_nonneg (text nva)).
  destruct (copy_loop_ok nva [] (garbage (copy_len nva 0))) as (ps & Hx & Hr); [rewrite Hg; lia|].
  exists (text nva), ps. unfold nghttp2_nv_array_copy. cbn [app negb] in *. change (size []) with 0 in Hx.
  destruct nva; [done|]. by rewrite Hx.
Qed.
End CopyOk.

(** ** The order of headers *)

(** The lexicographic order of strings. *)
Fixpoint lex (a b : list Z) : comparison :=
  match a, b with
  | [], [] => Eq
  | [], _ => Lt
  | _, [] => Gt
  | x :: a, y :: b => match x ?= y with Eq => lex a b | c => c end
  end.

Lemma memcmp_lex a b :
  (match memcmp a b (length a `min` length b) with
   | Eq => (Z.of_nat (length a) ?= Z.of_nat (length b))
   | c => c
   end) = lex a b.
Proof.
  revert b. induction a as [|x a IH]; intros [|y b]; [done..|]. cbn [length Nat.min memcmp lex].
  destruct (x ?= y); [|done|done]. rewrite <- IH. destruct (memcmp _ _ _); [|done|done].
  destruct (Z.compare_spec (Z.of_nat (S (length a))) (Z.of_nat (S (length b)))),
    (Z.compare_spec (Z.of_nat (length a)) (Z.of_nat (length b))); done || lia.
Qed.

Lemma bytes_compar_lex a b : bytes_compar a b = lex a b.
Proof.
  rewrite <- memcmp_lex. unfold bytes_compar, size.
  destruct (_ =? _) eqn:E; [|destruct (_ <? _) eqn:E2].
  - replace (length a `min` length b)%nat with (length a) by lia. apply Z.eqb_eq in E. rewrite E, Z.compare_refl.
    by destruct (memcmp _ _ _).
  - replace (length a `min` length b)%nat with (length a) by lia.
    apply Z.ltb_lt in E2. by destruct (memcmp _ _ _).
  - replace (length a `min` length b)%nat with (length b) by lia.
    assert (Hgt : (Z.of_nat (length a) ?= Z.of_nat (length b)) = Gt) by (apply Z.compare_gt_iff; lia).
    rewrite Hgt. by destruct (memcmp _ _ _).
Qed.

Lemma lex_antisym a b : lex b a = CompOpp (lex a b).
Proof.
  revert b. induction a as [|x a IH]; intros [|y b]; [done..|]. cbn. rewrite Z.compare_antisym, IH.
  by destruct (x ?= y).
Qed.

Lemma lex_eq a b : lex a b = Eq <-> a = b.
Proof.
  split; [|intros ->; induction b as [|y b IH]; [done|]; cbn; by rewrite Z.compare_refl].
  revert b. induction a as [|x a IH]; intros [|y b]; cbn; try done. destruct (x ?= y) eqn:E; try done.
  apply Z.compare_eq in E as ->. intros Hx. f_equal. by apply IH.
Qed.

Lemma lex_trans a b c : lex a b <> Gt -> lex b c <> Gt -> lex a c <> Gt.
Proof.
  revert b c. induction a as [|x a IH]; intros [|y b] [|z c]; cbn; try done.
  destruct (Z.compare_spec x y) as [->|Hxy|Hxy]; [|intros _|done].
  - destruct (y ?= z); [apply IH|done|done].
  - destruct (Z.compare_spec y z) as [<-|Hyz|Hyz]; [|intros _|done].
    all: intros; by rewrite (proj2 (Z.compare_lt_iff _ _)) by lia.
Qed.

Definition nv_pair (nv : nghttp2_nv) : list Z * list Z := (name nv, value nv).

Definition le_pair (p q : list Z * list Z) : Prop :=
  match lex p.1 q.1 with Eq => lex p.2 q.2 | c => c end <> Gt.

Lemma nv_compar_pair a b : nv_compar a b <> Gt <-> le_pair (nv_pair a) (nv_pair b).
Proof. unfold nv_compar, le_pair. by rewrite !bytes_compar_lex. Qed.

#[export] Instance le_pair_trans : Transitive le_pair.
Proof.
  intros [n1 v1] [n2 v2] [n3 v3]. unfold le_pair. cbn. intros H12 H23.
  pose proof (lex_trans n1 n2 n3) as Ht. destruct (lex n1 n2) eqn:E12; [| |done].
  - apply lex_eq in E12 as ->. destruct (lex n2 n3); [by apply (lex_trans _ v2)|done|done].
  - destruct (lex n1 n3) eqn:E13; [|done|].
    + apply lex_eq in E13 as ->. rewrite lex_antisym, E12 in H23. done.
    + exfalso. apply Ht; [done| |done]. by destruct (lex n2 n3).
Qed.

#[export] Instance le_pair_antisym : AntiSymm (=) le_pair.
Proof.
  intros [n1 v1] [n2 v2]. unfold le_pair. cbn. rewrite (lex_antisym n1 n2), (lex_antisym v1 v2).
  destruct (lex n1 n2) eqn:E; cbn; [|done..]. apply lex_eq in E as ->.
  destruct (lex v1 v2) eqn:E; cbn; [|done..]. by apply lex_eq in E as ->.
Qed.

Lemma sorted_pairs l : Sorted (fun a b => nv_compar a b <> Gt) l -> Sorted le_pair (nv_pair <$> l).
Proof.
  induction 1 as [|a l Hl IH Ha]; [constructor|]. rewrite fmap_cons. constructor; [done|].
  destruct Ha as [|b l Hab]; constructor. by apply nv_compar_pair.
Qed.

Lemma memcmp_eq a b : size a = size b -> memcmp a b (length a) = Eq <-> a = b.
Proof.
  intros Hs. rewrite <- lex_eq, <- bytes_compar_lex. unfold bytes_compar. rewrite Hs, Z.eqb_refl.
  done.
Qed.

Lemma nv_equal_ok a b : nghttp2_nv_equal a b = true <-> nv_pair a = nv_pair b.
Proof.
  unfold nghttp2_nv_equal, nv_pair. split.
  - destruct (_ || _) eqn:E; [done|]. destruct (bool_decide (_ = Eq)) eqn:En; [|done]. cbn [negb].
    destruct (bool_decide (memcmp (value a) _ _ = Eq)) eqn:Ev; [|done]. intros _.
    apply bool_decide_eq_true in En, Ev. apply memcmp_eq in En, Ev; [by rewrite En, Ev|lia..].
  - intros [= -> ->]. rewrite !Z.eqb_refl. cbn [negb orb].
    by rewrite !bool_decide_true by (by apply memcmp_eq).
Qed.

(** Sorting is canonical: when two header lists hold the same headers,
    in any order and with any flags, every result of [nghttp2_nv_array_sort]
    on the one is equal, header by header under [nghttp2_nv_equal], to every
    result on the other, and is ordered by name and then by value. *)
Theorem nv_array_sort_canonical l1 l2 s1 s2 :
  nv_pair <$> l1 ≡ₚ nv_pair <$> l2 -> nghttp2_nv_array_sort l1 s1 -> nghttp2_nv_array_sort l2 s2 ->
  Forall2 (fun a b => nghttp2_nv_equal a b = true) s1 s2 /\ StronglySorted le_pair (nv_pair <$> s1).
Proof.
  intros Hl [Hp1 Hs1] [Hp2 Hs2]. apply sorted_pairs in Hs1, Hs2.
  split; [|by apply Sorted_StronglySorted; [exact _|]].
  assert (Heq : nv_pair <$> s1 = nv_pair <$> s2).
  { apply (Sorted_unique le_pair); [done..|]. by rewrite <- Hp1, <- Hp2. }
  clear -Heq. revert s2 Heq. induction s1 as [|a s1 IH]; intros [|b s2] Heq; try done.
  rewrite !fmap_cons in Heq. apply (inj2 cons) in Heq as [Hab Heq]. constructor; [by apply nv_equal_ok|by apply IH].
Qed.

(** ** Examples *)
Section Sample.
#[local] Instance sample_downcase : Downcase := {
  nghttp2_downcase s := lower <$> s; downcase_ok _ := eq_refl
}.

(** "Ab: c", copied, and a shared name. *)
Definition sample_list : list nghttp2_nv := [mkNV [65; 98] [99] 0; mkNV [90] [67] NGHTTP2_NV_FLAG_NO_COPY_NAME].

Lemma nv_array_copy_exact_witness :
  exists m ps, nghttp2_nv_array_copy true (fun n => replicate (Z.to_nat n) 7) sample_list = Some (Success, Some (m, ps)) /\
    m = [97; 98; 0; 99; 0; 67; 0] /\
    mapM (read_copy m) ps = Some [mkNV [97; 98] [99] 0; mkNV [90] [67] NGHTTP2_NV_FLAG_NO_COPY_NAME].
Proof.
  destruct (nv_array_copy_exact (fun n => replicate (Z.to_nat n) 7) sample_list) as (m & ps & Hx & Hm & _ & Hr).
  - done.
  - intros n Hn. unfold size. rewrite length_replicate. lia.
  - exists m, ps. split; [exact Hx|]. split; [rewrite Hm; reflexivity|exact Hr].
Defined.

Lemma nv_array_sort_canonical_witness :
  Forall2 (fun a b => nghttp2_nv_equal a b = true)
    [mkNV [97] [1] 0; mkNV [97] [1; 2] 3; mkNV [98] [] 0] [mkNV [97] [1] 3; mkNV [97] [1; 2] 0; mkNV [98] [] 1].
Proof.
  refine (proj1 (nv_array_sort_canonical [mkNV [98] [] 0; mkNV [97] [1; 2] 3; mkNV [97] [1] 0]
    [mkNV [97] [1; 2] 0; mkNV [98] [] 1; mkNV [97] [1] 3] _ _ _ _ _)).
  - cbn. apply perm_swap.
  - split; [|by repeat constructor]. etrans; [apply perm_swap|]. etrans; [|apply perm_swap].
    etrans; [apply perm_skip, perm_swap|]. done.
  - split; [|by repeat constructor]. etrans; [apply perm_skip, perm_swap|]. apply perm_swap.
Defined.
End Sample.
End H2Lists.
