(* ===== verification/Resp.v ===== *)
(** The parser of RESP replies
    (src/custom-protocol/src/upstream/redis/src/resp_parser.c and
    resp_parser.h): one step, [parseReply], reports a reply to a callback of
    the user, who reads the elements of a collection by calling [parseReply]
    again, as the comment at the top of the file says.

    [string2ll] and the printing of doubles belong to the rest of Redis, which
    is not part of the repository: the class [RespLib] states what the parser
    relies on. *)

From S2P Require Export Memory.
Export Memory.
Open Scope Z_scope.

(** Decimal numbers, as the protocol writes them. *)
Fixpoint digits (fuel : nat) (n : Z) : list Z :=
  match fuel with
  | O => []
  | S fuel => if n <? 10 then [48 + n] else digits fuel (n / 10) ++ [48 + n mod 10]
  end.

Definition dec (n : Z) : list Z := if n <? 0 then 45 :: digits 20 (- n) else digits 20 n.

(** Text that a line can hold. *)
Definition is_text (s : list Z) : Prop := Forall (fun c => c <> 13 /\ c <> 0) s.

Abbreviation MAX_LONG_DOUBLE_CHARS := 5120.

Class RespLib := {
  string2ll : list Z -> option Z;
  double : Type;
  zero : double;
  strtod : list Z -> double;
  print_double : double -> list Z;
  string2ll_ok : forall n, - 2 ^ 63 <= n < 2 ^ 63 -> string2ll (dec n) = Some n;
  strtod_ok : forall d, strtod (print_double d) = d;
  print_double_ok : forall d, is_text (print_double d) /\ size (print_double d) <= MAX_LONG_DOUBLE_CHARS
}.

Module Resp.

(** ** One reply *)

(** The callbacks with what they are given, but for [proto] and [proto_len]. A
    string is an offset and a length. *)
Inductive callback `{RespLib} :=
  | null_array_callback
  | null_bulk_string_callback
  | bulk_string_callback (str len : Z)
  | error_callback (str len : Z)
  | simple_str_callback (str len : Z)
  | long_callback (val : Z)
  | array_callback (len : Z)
  | set_callback (len : Z)
  | map_callback (len : Z)
  | bool_callback (val : bool)
  | double_callback (val : double)
  | big_number_callback (str len : Z)
  | verbatim_string_callback (format str len : Z)
  | attribute_callback (len : Z)
  | null_callback
  | error.

Section Parse.
Context `{RespLib}.

(** The reply buffer, with the zero at its end. *)
Variable m : list Z.

(** [strchr(a, c)]; [None] when it is NULL, or when the buffer has no zero. *)
Fixpoint strchr_from (s : list Z) (a c : Z) : option Z :=
  match s with
  | [] => None
  | x :: s => if x =? c then Some a else if x =? 0 then None else strchr_from s (a + 1) c
  end.

Definition strchr (a c : Z) : option Z := strchr_from (drop (Z.to_nat a) m) a c.

(** [string2ll(proto+1, p-proto-1, &n)]; its result is not looked at: [None]
    is a use of [n] that was not set. *)
Definition number (proto p : Z) : option Z := s ← fetch m (proto + 1) (p - proto - 1); string2ll s.

Definition parseBulk (proto : Z) : option (callback * Z) :=
  p ← strchr (proto + 1) 13;
  let curr_location := p + 2 in
  bulklen ← number proto p;
  if bulklen =? -1 then Some (null_bulk_string_callback, curr_location)
  else
    let str := curr_location in
    let curr_location := curr_location + bulklen + 2 in
    Some (bulk_string_callback str (u64 bulklen), curr_location).

Definition parseSimpleString (proto : Z) : option (callback * Z) :=
  p ← strchr (proto + 1) 13; Some (simple_str_callback (proto + 1) (p - proto - 1), p + 2).

Definition parseError (proto : Z) : option (callback * Z) :=
  p ← strchr (proto + 1) 13; Some (error_callback (proto + 1) (p - proto - 1), p + 2).

Definition parseLong (proto : Z) : option (callback * Z) :=
  p ← strchr (proto + 1) 13; val ← number proto p; Some (long_callback val, p + 2).

Definition parseAttributes (proto : Z) : option (callback * Z) :=
  p ← strchr (proto + 1) 13; len ← number proto p; Some (attribute_callback (u64 len), p + 2).

Definition parseVerbatimString (proto : Z) : option (callback * Z) :=
  p ← strchr (proto + 1) 13;
  let curr_location := p + 2 in
  bulklen ← number proto p;
  let format := curr_location in
  let curr_location := curr_location + bulklen + 2 in
  Some (verbatim_string_callback format (format + 4) (u64 (bulklen - 4)), curr_location).

Definition parseBigNumber (proto : Z) : option (callback * Z) :=
  p ← strchr (proto + 1) 13; Some (big_number_callback (proto + 1) (p - proto - 1), p + 2).

Definition parseNull (proto : Z) : option (callback * Z) :=
  p ← strchr (proto + 1) 13; Some (null_callback, p + 2).

Definition parseDouble (proto : Z) : option (callback * Z) :=
  p ← strchr (proto + 1) 13;
  let len := p - proto - 1 in
  d ← (if len <=? MAX_LONG_DOUBLE_CHARS then s ← fetch m (proto + 1) len; Some (strtod s) else Some zero);
  Some (double_callback d, p + 2).

Definition parseBool (proto : Z) : option (callback * Z) :=
  p ← strchr (proto + 1) 13; c ← load m (proto + 1); Some (bool_callback (c =? 116), p + 2).

Definition parseArray (proto : Z) : option (callback * Z) :=
  p ← strchr (proto + 1) 13;
  len ← number proto p;
  if len =? -1 then Some (null_array_callback, p + 2) else Some (array_callback (u64 len), p + 2).

Definition parseSet (proto : Z) : option (callback * Z) :=
  p ← strchr (proto + 1) 13; len ← number proto p; Some (set_callback (u64 len), p + 2).

Definition parseMap (proto : Z) : option (callback * Z) :=
  p ← strchr (proto + 1) 13; len ← number proto p; Some (map_callback (u64 len), p + 2).

(** C_OK is [true]. *)
Definition ok (x : option (callback * Z)) : option (bool * callback * Z) := '(cb, p) ← x; Some (true, cb, p).

(** [parseReply]; the location stays where it is after an error. *)
Definition parseReply (curr_location : Z) : option (bool * callback * Z) :=
  c ← load m curr_location;
  if c =? 36 then ok (parseBulk curr_location)
  else if c =? 43 then ok (parseSimpleString curr_location)
  else if c =? 45 then ok (parseError curr_location)
  else if c =? 58 then ok (parseLong curr_location)
  else if c =? 42 then ok (parseArray curr_location)
  else if c =? 126 then ok (parseSet curr_location)
  else if c =? 37 then ok (parseMap curr_location)
  else if c =? 35 then ok (parseBool curr_location)
  else if c =? 44 then ok (parseDouble curr_location)
  else if c =? 95 (* _ *) then ok (parseNull curr_location)
  else if c =? 40 then ok (parseBigNumber curr_location)
  else if c =? 61 then ok (parseVerbatimString curr_location)
  else if c =? 124 then ok (parseAttributes curr_location)
  else Some (false, error, curr_location).
End Parse.

(** ** Values *)

(** Replies as a tree. The elements of a map are keys and values in turn; an
    attribute comes with the reply it belongs to. *)
Section Values.
Context `{RespLib}.

Unset Elimination Schemes.
Inductive value :=
  | Null_array
  | Null_bulk
  | Bulk (s : list Z)
  | Error (s : list Z)
  | Simple (s : list Z)
  | Long (n : Z)
  | Array (vs : list value)
  | Set_ (vs : list value)
  | Map (vs : list value)
  | Bool (b : bool)
  | Double (d : double)
  | Big (s : list Z)
  | Verbatim (format s : list Z)
  | Attribute (vs : list value) (v : value)
  | Null.
Set Elimination Schemes.

(** Induction over the elements of collections. *)
Definition collection (v : value) : option (list value) :=
  match v with Array vs | Set_ vs | Map vs => Some vs | _ => None end.

Lemma value_ind (P : value -> Prop) :
  (forall v, collection v = None -> (forall vs w, v <> Attribute vs w) -> P v) ->
  (forall vs, Forall P vs -> P (Array vs) /\ P (Set_ vs) /\ P (Map vs)) ->
  (forall vs w, Forall P vs -> P w -> P (Attribute vs w)) ->
  forall v, P v.
Proof.
  intros Hleaf Hcoll Hattr. fix IH 1. intros v.
  assert (Hall : forall vs, Forall P vs) by (fix IHs 1; intros [|w vs]; constructor; [apply IH|apply IHs]).
  destruct v; try (by apply Hleaf); try (by apply Hcoll). by apply Hattr.
Defined.

(** ** The reader

    What the callbacks do: strings are copied from the buffer, and for a
    collection [parseReply] is called as many times as it has elements. *)
Section Read.
Variable m : list Z.

Fixpoint read_n (read : Z -> option (value * Z)) (n : nat) (pos : Z) : option (list value * Z) :=
  match n with
  | O => Some ([], pos)
  | S n => '(v, pos) ← read pos; '(vs, pos) ← read_n read n pos; Some (v :: vs, pos)
  end.

Fixpoint read_value (fuel : nat) (pos : Z) : option (value * Z) :=
  match fuel with
  | O => None
  | S fuel =>
      '(_, cb, pos) ← parseReply m pos;
      let elements n := read_n (read_value fuel) (Z.to_nat n) pos in
      match cb with
      | null_array_callback => Some (Null_array, pos)
      | null_bulk_string_callback => Some (Null_bulk, pos)
      | bulk_string_callback str len => s ← fetch m str len; Some (Bulk s, pos)
      | error_callback str len => s ← fetch m str len; Some (Error s, pos)
      | simple_str_callback str len => s ← fetch m str len; Some (Simple s, pos)
      | long_callback val => Some (Long val, pos)
      | array_callback len => '(vs, pos) ← elements len; Some (Array vs, pos)
      | set_callback len => '(vs, pos) ← elements len; Some (Set_ vs, pos)
      | map_callback len => '(vs, pos) ← elements (2 * len); Some (Map vs, pos)
      | bool_callback val => Some (Bool val, pos)
      | double_callback val => Some (Double val, pos)
      | big_number_callback str len => s ← fetch m str len; Some (Big s, pos)
      | verbatim_string_callback format str len =>
          f ← fetch m format 3; s ← fetch m str len; Some (Verbatim f s, pos)
      | attribute_callback len =>
          '(vs, pos) ← elements (2 * len); '(v, pos) ← read_value fuel pos; Some (Attribute vs v, pos)
      | null_callback => Some (Null, pos)
      | error => None
      end
  end.
End Read.

(** ** The protocol *)

Definition CRLF : list Z := [13; 10].

Definition line (c : Z) (s : list Z) : list Z := [c] ++ s ++ CRLF.

Definition count (vs : list value) : Z := Z.of_nat (length vs).

Fixpoint encode (v : value) : list Z :=
  match v with
  | Null_array => line 42 (dec (-1))
  | Null_bulk => line 36 (dec (-1))
  | Bulk s => line 36 (dec (size s)) ++ s ++ CRLF
  | Error s => line 45 s
  | Simple s => line 43 s
  | Long n => line 58 (dec n)
  | Array vs => line 42 (dec (count vs)) ++ concat (encode <$> vs)
  | Set_ vs => line 126 (dec (count vs)) ++ concat (encode <$> vs)
  | Map vs => line 37 (dec (count vs / 2)) ++ concat (encode <$> vs)
  | Bool b => line 35 [if b then 116 else 102]
  | Double d => line 44 (print_double d)
  | Big s => line 40 s
  | Verbatim f s => line 61 (dec (size s + 4)) ++ f ++ [58] ++ s ++ CRLF
  | Attribute vs w => line 124 (dec (count vs / 2)) ++ concat (encode <$> vs) ++ encode w
  | Null => line 95 []
  end.

Fixpoint depth (v : value) : nat :=
  match v with
  | Array vs | Set_ vs | Map vs => S (foldr max 0%nat (depth <$> vs))
  | Attribute vs w => S (max (foldr max 0%nat (depth <$> vs)) (depth w))
  | _ => 1%nat
  end.

(** Lines hold text, numbers and lengths fit into 64 bits, and maps have a
    value for each key. *)
Fixpoint wf (v : value) : Prop :=
  let all vs := foldr and True (wf <$> vs) in
  match v with
  | Bulk s => size s < 2 ^ 63
  | Error s | Simple s | Big s => is_text s
  | Long n => - 2 ^ 63 <= n < 2 ^ 63
  | Array vs | Set_ vs => count vs < 2 ^ 63 /\ all vs
  | Map vs => count vs < 2 ^ 63 /\ count vs mod 2 = 0 /\ all vs
  | Verbatim f s => length f = 3%nat /\ size s + 4 < 2 ^ 63
  | Attribute vs w => count vs < 2 ^ 63 /\ count vs mod 2 = 0 /\ all vs /\ wf w
  | _ => True
  end.
End Values.

(** ** Lines *)

Lemma is_text_app s t : is_text s -> is_text t -> is_text (s ++ t).
Proof. apply Forall_app_2. Qed.

Lemma digits_text fuel n : 0 <= n -> is_text (digits fuel n).
Proof.
  revert n. induction fuel as [|fuel IH]; intros n Hn; [constructor|]. cbn [digits].
  destruct (n <? 10) eqn:E; [by constructor; [lia|constructor]|].
  apply is_text_app; [apply IH; lia_mod|]. constructor; [lia_mod|constructor].
Qed.

Lemma dec_text n : is_text (dec n).
Proof.
  unfold dec. destruct (n <? 0) eqn:E; [constructor; [lia|]|]; apply digits_text; lia.
Qed.

Section Line.
Context `{RespLib}.
Variables (pre : list Z) (c : Z) (s post : list Z).
Abbreviation m := (pre ++ line c s ++ post).

Lemma line_load : load m (size pre) = Some c.
Proof. apply (load_mid pre (line c s) post _ 0); [lia|done]. Qed.

Lemma strchr_text t a rest : is_text t -> strchr_from (t ++ 13 :: rest) a 13 = Some (a + size t).
Proof.
  intros Ht. revert a. induction Ht as [|x t [Hx Hx0] _ IH]; intros a.
  - cbn. by rewrite Z.add_0_r.
  - cbn [app strchr_from]. replace (x =? 13) with false by lia. replace (x =? 0) with false by lia.
    rewrite IH, size_cons. f_equal. lia.
Qed.

Lemma line_strchr : is_text s -> strchr m (size pre + 1) 13 = Some (size pre + 1 + size s).
Proof.
  intros Hs. unfold strchr, line. replace (size pre + 1) with (size (pre ++ [c])) by (rewrite size_app; reflexivity).
  rewrite <- !app_assoc, (app_assoc pre), to_nat_size, drop_app_length. by apply strchr_text.
Qed.

Lemma line_text n : n = size pre + 1 + size s - size pre - 1 -> fetch m (size pre + 1) n = Some s.
Proof.
  intros ->. unfold line. rewrite <- !app_assoc, (app_assoc pre).
  apply fetch_mid; [by rewrite size_app|lia].
Qed.

Lemma line_number n : s = dec n -> - 2 ^ 63 <= n < 2 ^ 63 -> number m (size pre) (size pre + 1 + size s) = Some n.
Proof. intros Hs Hn. unfold number. rewrite line_text by done. cbn [mbind option_bind]. rewrite Hs. by apply string2ll_ok. Qed.

Lemma line_end : size pre + 1 + size s + 2 = size (pre ++ line c s).
Proof. unfold line. rewrite !size_app. change (size [c]) with 1. change (size CRLF) with 2. lia. Qed.
End Line.

(** ** Replies arrive *)
Section RoundTrip.
Context `{RespLib}.

(** What [parseReply] does at a line, when the rest of the callback is [k]. *)
Ltac at_line pre c t post :=
  unfold parseReply; rewrite (line_load pre c t post); cbn [mbind option_bind Z.eqb Pos.eqb];
  unfold parseBulk, parseSimpleString, parseError, parseLong, parseArray, parseSet, parseMap, parseBool,
    parseDouble, parseNull, parseBigNumber, parseVerbatimString, parseAttributes;
  rewrite (line_strchr pre c t post); cbn [mbind option_bind]; pose proof (line_end pre c t) as Hend.

Lemma reply_number pre c n post : - 2 ^ 63 <= n < 2 ^ 63 ->
  number (pre ++ line c (dec n) ++ post) (size pre) (size pre + 1 + size (dec n)) = Some n.
Proof. by apply line_number. Qed.

Lemma u64_small n : 0 <= n < 2 ^ 63 -> u64 n = n.
Proof. intros. unfold u64. apply Z.mod_small. lia. Qed.

(** A reply and all of its elements are read, with what is behind them. *)
Definition reads (v : value) : Prop :=
  wf v -> forall fuel pre post, (depth v <= fuel)%nat ->
  read_value (pre ++ encode v ++ post) fuel (size pre) = Some (v, size (pre ++ encode v)).

Lemma reads_elements vs fuel pre post :
  Forall reads vs -> foldr and True (wf <$> vs) -> (foldr max 0%nat (depth <$> vs) <= fuel)%nat ->
  read_n (read_value (pre ++ concat (encode <$> vs) ++ post) fuel) (length vs) (size pre)
    = Some (vs, size (pre ++ concat (encode <$> vs))).
Proof.
  intros Hr. revert pre. induction Hr as [|v vs Hv _ IH]; intros pre Hwf Hd; [by rewrite app_nil_r|].
  rewrite !fmap_cons in *. cbn [concat foldr length read_n] in *. destruct Hwf as [Hw Hws].
  rewrite <- !app_assoc, Hv by (done || lia). cbn [mbind option_bind].
  rewrite app_assoc, IH by (done || lia). cbn [mbind option_bind]. by rewrite <- app_assoc.
Qed.

Lemma reads_leaf v : collection v = None -> (forall vs w, v <> Attribute vs w) -> reads v.
Proof.
  intros Hc Ha Hwf [|fuel] pre post Hf; [destruct v; cbn in Hf; lia|].
  destruct v; try done; cbn [read_value encode wf] in *; rewrite <- ?app_assoc; try (by destruct (Ha vs v)).
  - at_line pre 42 (dec (-1)) post; [|apply dec_text]. rewrite reply_number by lia. cbn [ok mbind option_bind Z.eqb Pos.eqb]. by rewrite Hend.
  - at_line pre 36 (dec (-1)) post; [|apply dec_text]. rewrite reply_number by lia. cbn [ok mbind option_bind Z.eqb Pos.eqb]. by rewrite Hend.
  - pose proof (size_nonneg s). at_line pre 36 (dec (size s)) (s ++ CRLF ++ post); [|apply dec_text].
    rewrite reply_number by lia. cbn [mbind option_bind]. replace (size s =? -1) with false by lia. cbn [ok mbind option_bind].
    rewrite Hend, u64_small by lia. rewrite (app_assoc pre), fetch_mid by done. cbn [mbind option_bind].
    do 2 f_equal. rewrite !size_app. change (size CRLF) with 2. lia.
  - at_line pre 45 s post; [|done]. cbn [ok mbind option_bind]. rewrite line_text by done. by rewrite Hend.
  - at_line pre 43 s post; [|done]. cbn [ok mbind option_bind]. rewrite line_text by done. by rewrite Hend.
  - at_line pre 58 (dec n) post; [|apply dec_text]. rewrite reply_number by lia. cbn [ok mbind option_bind]. by rewrite Hend.
  - at_line pre 35 [if b then 116 else 102] post; [|by constructor; [destruct b|constructor]].
    assert (Hl : load (pre ++ line 35 [if b then 116 else 102] ++ post) (size pre + 1) = Some (if b then 116 else 102))
      by (apply (load_mid pre (line 35 [_]) post _ 1); [lia|done]).
    rewrite Hl. cbn [ok mbind option_bind]. rewrite Hend. by destruct b.
  - pose proof (print_double_ok d) as [Ht Hl]. at_line pre 44 (print_double d) post; [|done].
    replace (_ <=? _) with true by lia. rewrite line_text by done. cbn [ok mbind option_bind].
    by rewrite Hend, strtod_ok.
  - at_line pre 40 s post; [|done]. cbn [ok mbind option_bind]. rewrite line_text by done. by rewrite Hend.
  - destruct Hwf as [Hfm Hs]. pose proof (size_nonneg s). assert (Hf3 : size format = 3) by (unfold size; lia).
    at_line pre 61 (dec (size s + 4)) (format ++ [58] ++ s ++ CRLF ++ post); [|apply dec_text].
    rewrite reply_number by lia. cbn [ok mbind option_bind]. rewrite Hend. set (l := line 61 _).
    replace (u64 (size s + 4 - 4)) with (size s) by (rewrite u64_small; lia).
    rewrite (app_assoc pre), (fetch_mid (pre ++ l) format _ (size (pre ++ l)) 3) by (done || lia). cbn [mbind option_bind].
    rewrite (app_assoc (pre ++ l)), (app_assoc _ [58]), (fetch_mid (((pre ++ l) ++ format) ++ [58]) s).
    2: { rewrite !size_app, Hf3. change (size [58]) with 1. lia. } 2: done.
    cbn [mbind option_bind]. do 2 f_equal. rewrite !size_app, Hf3.
    change (size [58]) with 1. change (size CRLF) with 2. lia.
  - at_line pre 95 (@nil Z) post; [|constructor]. cbn [ok mbind option_bind]. by rewrite Hend.
Qed.

(** A length, and the elements behind it. *)
Lemma reads_counted pre c n vs fuel post :
  0 <= n < 2 ^ 63 -> Forall reads vs -> foldr and True (wf <$> vs) ->
  (foldr max 0%nat (depth <$> vs) <= fuel)%nat ->
  let m := pre ++ (line c (dec n) ++ concat (encode <$> vs)) ++ post in
  read_n (read_value m fuel) (length vs) (size pre + 1 + size (dec n) + 2)
    = Some (vs, size (pre ++ line c (dec n) ++ concat (encode <$> vs))).
Proof.
  intros Hn Hvs Hwf Hf m. unfold m. rewrite (line_end pre c), <- app_assoc, !(app_assoc pre).
  by apply reads_elements.
Qed.

Lemma count_nat (vs : list value) : Z.to_nat (count vs) = length vs.
Proof. unfold count. apply Nat2Z.id. Qed.

Lemma count_half n k : 0 <= n -> n mod 2 = 0 -> k = Z.to_nat n -> Z.to_nat (2 * (n / 2)) = k.
Proof. intros Hn Hm ->. f_equal. lia_mod. Qed.

Lemma reads_value v : reads v.
Proof.
  apply (value_ind reads); [exact reads_leaf|intros vs Hvs|intros vs w Hvs Hw].
  - assert (Hnn : 0 <= count vs) by (unfold count; lia).
    split; [|split]; intros Hwf [|fuel] pre post Hf; cbn [depth] in Hf; try lia; cbn [read_value encode wf] in *.
    + destruct Hwf as [Hn Hws]. pose proof (reads_counted pre 42 (count vs) vs fuel post ltac:(lia) Hvs Hws ltac:(lia)) as Hr.
      rewrite <- app_assoc in Hr |- *. at_line pre 42 (dec (count vs)) (concat (encode <$> vs) ++ post); [|apply dec_text].
      rewrite reply_number by lia. cbn [mbind option_bind]. replace (count vs =? -1) with false by lia.
      cbn [ok mbind option_bind]. rewrite u64_small by lia. rewrite count_nat. by rewrite Hr.
    + destruct Hwf as [Hn Hws]. pose proof (reads_counted pre 126 (count vs) vs fuel post ltac:(lia) Hvs Hws ltac:(lia)) as Hr.
      rewrite <- app_assoc in Hr |- *. at_line pre 126 (dec (count vs)) (concat (encode <$> vs) ++ post); [|apply dec_text].
      rewrite reply_number by lia. cbn [ok mbind option_bind]. rewrite u64_small by lia. rewrite count_nat.
      by rewrite Hr.
    + destruct Hwf as (Hn & Hm & Hws). assert (Hh : 0 <= count vs / 2 < 2 ^ 63) by lia_mod.
      pose proof (reads_counted pre 37 (count vs / 2) vs fuel post Hh Hvs Hws ltac:(lia)) as Hr.
      rewrite <- app_assoc in Hr |- *. at_line pre 37 (dec (count vs / 2)) (concat (encode <$> vs) ++ post); [|apply dec_text].
      rewrite reply_number by lia. cbn [ok mbind option_bind]. rewrite u64_small by lia.
      rewrite (count_half (count vs) (length vs)) by (done || (unfold count; lia)). by rewrite Hr.
  - intros Hwf [|fuel] pre post Hf; cbn [depth] in Hf; [lia|]; cbn [read_value encode wf] in *.
    assert (Hnn : 0 <= count vs) by (unfold count; lia).
    destruct Hwf as (Hn & Hm & Hws & Hww). assert (Hh : 0 <= count vs / 2 < 2 ^ 63) by lia_mod.
    pose proof (reads_counted pre 124 (count vs / 2) vs fuel (encode w ++ post) Hh Hvs Hws ltac:(lia)) as Hr.
    rewrite <- !app_assoc in Hr. rewrite <- !app_assoc.
    at_line pre 124 (dec (count vs / 2)) (concat (encode <$> vs) ++ encode w ++ post); [|apply dec_text].
    rewrite reply_number by lia. cbn [ok mbind option_bind]. rewrite u64_small by lia.
    rewrite (count_half (count vs) (length vs)) by (done || (unfold count; lia)). rewrite Hr. cbn [mbind option_bind].
    set (l := line 124 _) in *. set (es := concat _) in *.
    replace (pre ++ l ++ es ++ encode w ++ post) with ((pre ++ l ++ es) ++ encode w ++ post) by (by rewrite <- !app_assoc).
    rewrite Hw by (done || lia). cbn [mbind option_bind]. by rewrite <- !app_assoc.
Qed.

(** The length of the encoding is enough fuel. *)
Lemma line_length c t : (3 <= length (line c t))%nat.
Proof. unfold line, CRLF. rewrite !length_app. cbn. lia. Qed.

Lemma depths_length vs :
  Forall (fun v => (depth v <= length (encode v))%nat) vs ->
  (foldr max 0%nat (depth <$> vs) <= length (concat (encode <$> vs)))%nat.
Proof.
  induction 1 as [|v vs Hv _ IH]; [done|]. rewrite !fmap_cons. cbn [foldr concat]. rewrite length_app. lia.
Qed.

Lemma depth_length v : (depth v <= length (encode v))%nat.
Proof.
  apply (value_ind (fun v => (depth v <= length (encode v))%nat)).
  - intros w Hc Ha. destruct w; try done; try (by destruct (Ha vs w)); cbn [depth encode]; rewrite ?length_app;
      match goal with |- context [length (line ?c ?t)] => pose proof (line_length c t) end; lia.
  - intros vs Hvs%depths_length. cbn [depth encode]. rewrite !length_app.
    pose proof (line_length 42 (dec (count vs))). pose proof (line_length 126 (dec (count vs))).
    pose proof (line_length 37 (dec (count vs / 2))). lia.
  - intros vs w Hvs%depths_length Hw. cbn [depth encode]. rewrite !length_app.
    pose proof (line_length 124 (dec (count vs / 2))). lia.
Qed.

(** C17. Replies arrive: for every reply of the protocol, nested to any
    depth, in front of anything else in the buffer, calling [parseReply] as
    its callbacks ask for it reads the whole reply, never looks outside of the
    buffer, reports every value as it was sent, and stops right behind the
    reply. *)
Theorem resp_roundtrip v rest :
  wf v -> read_value (encode v ++ rest) (length (encode v ++ rest)) 0 = Some (v, size (encode v)).
Proof.
  intros Hwf. pose proof (depth_length v) as Hd.
  apply (reads_value v Hwf (length (encode v ++ rest)) [] rest). rewrite length_app. lia.
Qed.
End RoundTrip.

(** ** Example *)
Section Sample.

Definition undigits (s : list Z) : Z := foldl (fun n c => 10 * n + (c - 48)) 0 s.

Definition undec (s : list Z) : Z :=
  match s with 45 :: s => - undigits s | _ => undigits s end.

Lemma undigits_digits fuel n : 0 <= n < 10 ^ Z.of_nat fuel -> undigits (digits fuel n) = n.
Proof.
  revert n. induction fuel as [|fuel IH]; intros n Hn; [cbn in *; lia|]. cbn [digits].
  rewrite Nat2Z.inj_succ, Z.pow_succ_r in Hn by lia. destruct (n <? 10) eqn:E; [unfold undigits; cbn; lia|].
  unfold undigits in *. rewrite foldl_app, IH by lia_mod. cbn [foldl]. lia_mod.
Qed.

Lemma undec_dec n : - 2 ^ 63 <= n < 2 ^ 63 -> undec (dec n) = n.
Proof.
  intros Hn. unfold dec. destruct (n <? 0) eqn:E; cbn [undec].
  - change (undec (45 :: digits 20 (- n))) with (- undigits (digits 20 (- n))). rewrite undigits_digits; cbn; lia.
  - assert (Hd : forall fuel k, 0 <= k -> undec (digits fuel k) = undigits (digits fuel k)).
    { intros fuel k Hk. destruct (digits fuel k) as [|c s] eqn:Ed; [done|].
      assert (Hc : 48 <= c).
      { assert (Ha : Forall (fun c => 48 <= c) (digits fuel k)).
        { clear Ed. revert k Hk. induction fuel as [|fuel IH]; intros k Hk; [constructor|]. cbn [digits].
          destruct (k <? 10); [repeat constructor; lia|]. apply Forall_app. split; [apply IH; lia_mod|].
          repeat constructor; lia_mod. }
        rewrite Ed in Ha. by apply Forall_cons in Ha as [? _]. }
      unfold undec. destruct (Z.eq_dec c 45) as [->|]; [lia|].
      destruct c as [|p|p]; try lia. repeat (destruct p as [p|p|]; try done || lia). }
    rewrite Hd by lia. apply undigits_digits. cbn. lia.
Qed.

(** Numbers in decimal; two doubles are enough. *)
#[local, refine] Instance sample_lib : RespLib := {
  string2ll s := Some (undec s); double := bool; zero := false;
  strtod s := bool_decide (s = [49]); print_double d := if d then [49] else [48]
}.
Proof.
  - intros n Hn. by rewrite undec_dec.
  - by intros [].
  - intros d. split; [destruct d; repeat constructor; lia|by destruct d].
Defined.

(** An array with a carriage return in a string, a map, an attribute and an
    empty set. *)
Definition sample_value : value :=
  Array [Bulk [97; 13]; Map [Simple [107]; Long (-12)]; Attribute [Error [120]; Null] (Bool true); Double true;
         Set_ []; Null_array; Verbatim [116; 120; 116] [104; 105]].

Lemma resp_roundtrip_witness :
  wf sample_value /\ size (encode sample_value) = 66 /\
  read_value (encode sample_value ++ [43; 0]) 68 0 = Some (sample_value, 66).
Proof.
  assert (Hwf : wf sample_value).
  { cbn. unfold count. cbn. repeat split; try lia; try done; repeat constructor; lia. }
  split; [exact Hwf|]. split; [reflexivity|]. exact (resp_roundtrip sample_value [43; 0] Hwf).
Defined.
End Sample.
End Resp.
