(* ===== verification/Ip4.v ===== *)
(** IPv4 addresses of lwIP
    (src/ipv4-ipv6/src/upstream/src/core/ipv4/ip4_addr.c): broadcast addresses
    (lines 57-85), netmasks (92-113), and the text form of an address: its
    reading (115-258) and printing (260-321).

    The byte order, the classification of characters and the comparison of
    networks are macros of headers that are not part of the repository: the
    classes [Endian] and [LwipMacros] state what they do. *)

From S2P Require Export Memory.
Export Memory.
Open Scope Z_scope.

(** Big-endian bytes of a 32-bit number. *)
Definition be32 (n : Z) : list Z := [n / 2 ^ 24; (n / 2 ^ 16) mod 2 ^ 8; (n / 2 ^ 8) mod 2 ^ 8; n mod 2 ^ 8].

(** How a 32-bit number lies in memory; [lwip_htonl] makes that big-endian. *)
Class Endian := {
  lwip_htonl : Z -> Z;
  mem_bytes : Z -> list Z;
  htonl_bytes : forall n, 0 <= n < 2 ^ 32 -> mem_bytes (lwip_htonl n) = be32 n;
  htonl_range : forall n, 0 <= n < 2 ^ 32 -> 0 <= lwip_htonl n < 2 ^ 32;
  htonl_htonl : forall n, 0 <= n < 2 ^ 32 -> lwip_htonl (lwip_htonl n) = n;
  htonl_zero : lwip_htonl 0 = 0
}.

(** 16-bit numbers in network order. *)
Class NetworkOrder := {
  lwip_htons : Z -> Z;
  htons_inj : forall x y, 0 <= x < 2 ^ 16 -> 0 <= y < 2 ^ 16 -> lwip_htons x = lwip_htons y -> x = y
}.

Class LwipMacros := {
  lwip_isdigit : Z -> bool;
  lwip_isxdigit : Z -> bool;
  lwip_islower : Z -> bool;
  lwip_isspace : Z -> bool;
  ip4_addr_netcmp : Z -> Z -> Z -> bool;
  isdigit_ok : forall c, lwip_isdigit c = (48 <=? c) && (c <=? 57);
  isxdigit_ok : forall c,
    lwip_isxdigit c = lwip_isdigit c || ((97 <=? c) && (c <=? 102)) || ((65 <=? c) && (c <=? 70));
  islower_ok : forall c, lwip_islower c = (97 <=? c) && (c <=? 122);
  isspace_ok : forall c, lwip_isspace c = (c =? 32) || ((9 <=? c) && (c <=? 13));
  netcmp_ok : forall a b mask, ip4_addr_netcmp a b mask = (Z.land a mask =? Z.land b mask)
}.

Module Ip4.

Abbreviation IPADDR_ANY := 0.
Abbreviation IPADDR_BROADCAST := 0xffffffff.
Abbreviation IPADDR_NONE := 0xffffffff.
Abbreviation NETIF_FLAG_BROADCAST := 0x02.

(** What is used of [struct netif]. *)
Record netif := mkNetif { netif_flags : Z; netif_ip4_addr : Z; netif_ip4_netmask : Z }.

(** [~x] *)
Definition not32 (x : Z) : Z := u32 (Z.lnot x).

Section Ip4.
Context `{Endian} `{LwipMacros}.

Definition ip4_addr_isbroadcast_u32 (addr : Z) (netif : netif) : bool :=
  if (not32 addr =? IPADDR_ANY) || (addr =? IPADDR_ANY) then true
  else if Z.land (netif_flags netif) NETIF_FLAG_BROADCAST =? 0 then false
  else if addr =? netif_ip4_addr netif then false
  else if ip4_addr_netcmp addr (netif_ip4_addr netif) (netif_ip4_netmask netif)
          && (Z.land addr (not32 (netif_ip4_netmask netif))
              =? Z.land IPADDR_BROADCAST (not32 (netif_ip4_netmask netif)))
  then true
  else false.

(** ** Netmasks *)

(** [for (mask = 1UL << 31; mask != 0; mask >>= 1)]: the first loop ends at the
    first zero, the second one at a one behind it. *)
Fixpoint first_zero (fuel : nat) (nm mask : Z) : option Z :=
  match fuel with
  | O => None
  | S fuel =>
      if mask =? 0 then Some mask
      else if Z.land nm mask =? 0 then Some mask
      else first_zero fuel nm (Z.shiftr mask 1)
  end.

Fixpoint no_more_ones (fuel : nat) (nm mask : Z) : option bool :=
  match fuel with
  | O => None
  | S fuel =>
      if mask =? 0 then Some true
      else if negb (Z.land nm mask =? 0) then Some false
      else no_more_ones fuel nm (Z.shiftr mask 1)
  end.

Definition ip4_addr_netmask_valid (netmask : Z) : option bool :=
  let nm_hostorder := lwip_htonl netmask in
  mask ← first_zero 33 nm_hostorder (Z.shiftl 1 31);
  no_more_ones 33 nm_hostorder mask.

(** ** Reading

    The text is the memory [m]; [cp] is an offset, [c] the character there. *)
Section Aton.
Variable m : list Z.

(** [c = *++cp] *)
Definition next (cp : Z) : option (Z * Z) := c ← load m (cp + 1); Some (cp + 1, c).

Fixpoint number_loop (fuel : nat) (base cp c val : Z) : option (Z * Z * Z) :=
  match fuel with
  | O => None
  | S fuel =>
      if lwip_isdigit c then
        if (base =? 8) && (8 <=? u32 (c - 48)) then Some (cp, c, val)
        else
          let val := u32 (u32 (val * base) + u32 (c - 48)) in
          '(cp, c) ← next cp; number_loop fuel base cp c val
      else if (base =? 16) && lwip_isxdigit c then
        let val := Z.lor (u32 (Z.shiftl val 4)) (u32 (c + 10 - (if lwip_islower c then 97 else 65))) in
        '(cp, c) ← next cp; number_loop fuel base cp c val
      else Some (cp, c, val)
  end.

(** The prefix that selects the base. *)
Definition base_prefix (cp c : Z) : option (Z * Z * Z) :=
  if c =? 48 then
    '(cp, c) ← next cp;
    if (c =? 120) || (c =? 88) then '(cp, c) ← next cp; Some (cp, c, 16)
    else Some (cp, c, 8)
  else Some (cp, c, 10).

(** The outer loop; [Some None] is [return 0]. The result is [parts], [val]
    and the character behind. *)
Fixpoint parts_loop (fuel : nat) (cp c : Z) (parts : list Z) : option (option (list Z * Z * Z)) :=
  match fuel with
  | O => None
  | S fuel =>
      if negb (lwip_isdigit c) then Some None
      else
        '(cp, c, base) ← base_prefix cp c;
        '(cp, c, val) ← number_loop (S (length m)) base cp c 0;
        if c =? 46 then
          if (3 <=? length parts)%nat then Some None
          else '(cp, c) ← next cp; parts_loop fuel cp c (parts ++ [val])
        else Some (Some (parts, val, c))
  end.

(** The address of the parts; [None] is [return 0]. *)
Definition concoct (parts : list Z) (val : Z) : option Z :=
  match parts with
  | [] => Some val
  | [p0] =>
      if 0xffffff <? val then None
      else if 0xff <? p0 then None
      else Some (Z.lor val (u32 (Z.shiftl p0 24)))
  | [p0; p1] =>
      if 0xffff <? val then None
      else if (0xff <? p0) || (0xff <? p1) then None
      else Some (Z.lor val (Z.lor (u32 (Z.shiftl p0 24)) (u32 (Z.shiftl p1 16))))
  | [p0; p1; p2] =>
      if 0xff <? val then None
      else if (0xff <? p0) || (0xff <? p1) || (0xff <? p2) then None
      else Some (Z.lor val (Z.lor (Z.lor (u32 (Z.shiftl p0 24)) (u32 (Z.shiftl p1 16))) (u32 (Z.shiftl p2 8))))
  | _ => None
  end.

(** [Some None] is the result 0, [Some (Some addr)] the result 1. *)
Definition ip4addr_aton (cp : Z) : option (option Z) :=
  c ← load m cp;
  r ← parts_loop 5 cp c [];
  match r with
  | None => Some None
  | Some (parts, val, c) =>
      if negb (c =? 0) && negb (lwip_isspace c) then Some None
      else Some (val ← concoct parts val; Some (lwip_htonl val))
  end.

Definition ipaddr_addr (cp : Z) : option Z :=
  r ← ip4addr_aton cp; Some (match r with Some addr => addr | None => IPADDR_NONE end).
End Aton.

(** ** Printing *)

(** [do { .. } while ( *ap)]: the digits of a byte, last one first, in [inv]. *)
Fixpoint inv_loop (fuel : nat) (ap : Z) (inv : list Z) : option (list Z) :=
  match fuel with
  | O => None
  | S fuel =>
      let rem := ap mod 10 in
      let ap := ap / 10 in
      if (3 <=? length inv)%nat then None
      else let inv := inv ++ [48 + rem] in if ap =? 0 then Some inv else inv_loop fuel ap inv
  end.

(** [if (len++ >= buflen) return NULL; *rp++ = c;]: [Some None] is NULL. *)
Definition put (buflen c : Z) (s : list Z * Z * Z) : option (option (list Z * Z * Z)) :=
  let '(buf, rp, len) := s in
  if buflen <=? len then Some None
  else buf ← store buf rp c; Some (Some (buf, rp + 1, len + 1)).

Definition and_then {A B} (x : option (option A)) (f : A -> option (option B)) : option (option B) :=
  r ← x; match r with Some a => f a | None => Some None end.

(** [while (i--)] *)
Fixpoint put_inv (buflen : Z) (inv : list Z) (i : nat) (s : list Z * Z * Z) : option (option (list Z * Z * Z)) :=
  match i with
  | O => Some (Some s)
  | S i => c ← inv !! i; and_then (put buflen c s) (put_inv buflen inv i)
  end.

(** [for (n = 0; n < 4; n++)], over the bytes at [ap]. *)
Fixpoint bytes_loop (buflen : Z) (ap : list Z) (s : list Z * Z * Z) : option (option (list Z * Z * Z)) :=
  match ap with
  | [] => Some (Some s)
  | b :: ap =>
      inv ← inv_loop 4 b [];
      and_then (put_inv buflen inv (length inv) s) (fun s =>
      and_then (put buflen 46 s) (fun s => bytes_loop buflen ap s))
  end.

Definition ip4addr_ntoa_r (addr : Z) (buf : list Z) (buflen : Z) : option (option (list Z)) :=
  and_then (bytes_loop buflen (mem_bytes addr) (buf, 0, 0)) (fun '(buf, rp, _) =>
    buf ← store buf (rp - 1) 0; Some (Some buf)).

Abbreviation IP4ADDR_STRLEN_MAX := 16.

(** [ip4addr_ntoa], with the contents of its static buffer. *)
Definition ip4addr_ntoa (addr : Z) (str : list Z) : option (option (list Z)) :=
  ip4addr_ntoa_r addr str IP4ADDR_STRLEN_MAX.
End Ip4.

(** ** Netmasks are ones, then zeros *)

(** The mask of the highest of [n] bits. *)
Definition mask_of (n : nat) : Z := match n with O => 0 | S k => 2 ^ Z.of_nat k end.

Lemma mask_half n : Z.shiftr (mask_of (S n)) 1 = mask_of n.
Proof.
  destruct n as [|n]; [done|]. cbn [mask_of]. rewrite Nat2Z.inj_succ, Z.pow_succ_r, Z.shiftr_div_pow2 by lia.
  change (2 ^ 1) with 2. rewrite Z.mul_comm. by apply Z.div_mul.
Qed.

Lemma land_mask nm n : Z.land nm (mask_of (S n)) = 0 <-> Z.testbit nm (Z.of_nat n) = false.
Proof.
  cbn [mask_of]. split.
  - intros Hl. assert (Hb : Z.testbit (Z.land nm (2 ^ Z.of_nat n)) (Z.of_nat n) = false) by (by rewrite Hl, Z.bits_0).
    by rewrite Z.land_spec, Z.pow2_bits_true, andb_true_r in Hb by lia.
  - intros Hb. apply Z.bits_inj. intros i. rewrite Z.land_spec, Z.bits_0.
    destruct (Z.eq_dec i (Z.of_nat n)) as [->|Hi]; [by rewrite Hb|].
    rewrite (Z.pow2_bits_false (Z.of_nat n) i) by lia. apply andb_false_r.
Qed.

Lemma first_zero_ok nm n :
  exists k, (k <= n)%nat /\ first_zero (S n) nm (mask_of n) = Some (mask_of k) /\
    (forall i, Z.of_nat k <= i < Z.of_nat n -> Z.testbit nm i = true) /\
    (k = O \/ Z.testbit nm (Z.of_nat k - 1) = false).
Proof.
  induction n as [|n (k & Hk & Hx & Hones & Hz)]; [exists 0%nat; repeat split; [done|lia|by left]|].
  cbn [first_zero]. assert (Hne : mask_of (S n) <> 0) by (apply Z.pow_nonzero; lia).
  replace (mask_of (S n) =? 0) with false by lia. destruct (Z.land nm (mask_of (S n)) =? 0) eqn:E.
  - apply Z.eqb_eq, land_mask in E. exists (S n). repeat split; [done|lia|right].
    by replace (Z.of_nat (S n) - 1) with (Z.of_nat n) by lia.
  - exists k. rewrite mask_half. split; [lia|]. split; [exact Hx|]. split; [|done]. intros i Hi.
    destruct (Z.eq_dec i (Z.of_nat n)) as [->|]; [|apply Hones; lia].
    destruct (Z.testbit nm (Z.of_nat n)) eqn:Hb; [done|]. apply land_mask in Hb. lia.
Qed.

Lemma no_more_ones_ok nm n fuel :
  (n < fuel)%nat -> exists b, no_more_ones fuel nm (mask_of n) = Some b /\
    (b = true <-> forall i, 0 <= i < Z.of_nat n -> Z.testbit nm i = false).
Proof.
  revert fuel. induction n as [|n IH]; intros [|fuel] Hf; try lia; cbn [no_more_ones].
  - exists true. split; [done|]. split; [lia|done].
  - assert (Hne : mask_of (S n) <> 0) by (apply Z.pow_nonzero; lia).
    replace (mask_of (S n) =? 0) with false by lia. destruct (Z.land nm (mask_of (S n)) =? 0) eqn:E; cbn [negb].
    + apply Z.eqb_eq, land_mask in E. rewrite mask_half. destruct (IH fuel ltac:(lia)) as (b & -> & Hb).
      exists b. split; [done|]. rewrite Hb. split; intros Hz i Hi; [|apply Hz; lia].
      destruct (Z.eq_dec i (Z.of_nat n)) as [->|]; [done|apply Hz; lia].
    + exists false. split; [done|]. split; [done|]. intros Hz.
      assert (Hb : Z.testbit nm (Z.of_nat n) = false) by (apply Hz; lia). apply land_mask in Hb. lia.
Qed.

(** The bits of a netmask with [32 - k] ones. *)
Lemma netmask_bits k i : 0 <= k <= 32 -> 0 <= i -> Z.testbit (2 ^ 32 - 2 ^ k) i = (k <=? i) && (i <? 32).
Proof.
  intros Hk Hi. replace (2 ^ 32 - 2 ^ k) with (Z.shiftl (Z.ones (32 - k)) k).
  - rewrite Z.shiftl_spec by lia. destruct (k <=? i) eqn:E; cbn [andb].
    + destruct (i <? 32) eqn:E2; [apply Z.ones_spec_low; lia|apply Z.ones_spec_high; lia].
    + apply Z.testbit_neg_r. lia.
  - rewrite Z.shiftl_mul_pow2, Z.ones_equiv, Z.mul_pred_l, <- Z.pow_add_r by lia. by replace (32 - k + k) with 32 by lia.
Qed.

Lemma high_bits nm i : 0 <= nm < 2 ^ 32 -> 32 <= i -> Z.testbit nm i = false.
Proof.
  intros Hn Hi. destruct (Z.eq_dec nm 0) as [->|]; [apply Z.bits_0|]. apply Z.bits_above_log2; [lia|].
  apply Z.log2_lt_pow2; [lia|]. pose proof (Z.pow_le_mono_r 2 32 i). lia.
Qed.

Section NetmaskOk.
Context `{Endian}.

(** Netmasks: [ip4_addr_netmask_valid] ends, and accepts exactly the 33
    numbers that are ones followed by zeros. *)
Theorem netmask_valid_iff nm :
  0 <= nm < 2 ^ 32 ->
  exists b, ip4_addr_netmask_valid nm = Some b /\
    (b = true <-> exists k, 0 <= k <= 32 /\ lwip_htonl nm = 2 ^ 32 - 2 ^ k).
Proof.
  intros Hnm. unfold ip4_addr_netmask_valid. pose proof (htonl_range nm Hnm) as Hr. set (x := lwip_htonl nm) in *.
  change (Z.shiftl 1 31) with (mask_of 32). destruct (first_zero_ok x 32) as (k & Hk & -> & Hones & Hz).
  cbn [mbind option_bind]. destruct (no_more_ones_ok x k 33 ltac:(lia)) as (b & -> & Hb). exists b. split; [done|].
  rewrite Hb. split.
  - intros Hlow. exists (Z.of_nat k). split; [lia|]. apply Z.bits_inj'. intros i Hi. rewrite netmask_bits by lia.
    destruct (Z.of_nat k <=? i) eqn:E; cbn [andb]; [|apply Hlow; lia].
    destruct (i <? 32) eqn:E2; [apply Hones; lia|apply high_bits; lia].
  - intros (k' & Hk' & Hx) i Hi. rewrite Hx, netmask_bits by lia.
    destruct Hz as [->|Hz]; [lia|]. rewrite Hx, netmask_bits in Hz by lia. lia.
Qed.
End NetmaskOk.

(** ** Text is read safely *)
Section AtonOk.
Context `{Endian} `{LwipMacros}.

(** [cp] points to [c] in a string that ends at [e]. *)
Definition in_string (m : list Z) (e cp c : Z) : Prop := 0 <= cp <= e /\ load m cp = Some c /\ load m e = Some 0.

Lemma load_inside m i e : load m e = Some 0 -> 0 <= i <= e -> exists c, load m i = Some c.
Proof.
  intros He Hi. apply load_in_bounds in He. unfold load. replace (i <? 0) with false by lia.
  apply lookup_lt_is_Some. lia.
Qed.

(** Another character can be read behind one that is not the terminator. *)
Lemma next_ok m e cp c :
  in_string m e cp c -> c <> 0 -> exists c', next m cp = Some (cp + 1, c') /\ in_string m e (cp + 1) c'.
Proof.
  intros (Hcp & Hc & He) Hne. assert (cp <> e) by congruence.
  destruct (load_inside m (cp + 1) e He ltac:(lia)) as (c' & Hc'). exists c'. unfold next. rewrite Hc'.
  split; [done|]. split; [lia|done].
Qed.

Lemma digit_nonzero c : lwip_isdigit c = true -> c <> 0.
Proof. rewrite isdigit_ok. lia. Qed.

Lemma xdigit_nonzero c : lwip_isxdigit c = true -> c <> 0.
Proof. rewrite isxdigit_ok, isdigit_ok. lia. Qed.

Lemma u32_range n : 0 <= u32 n < 2 ^ 32.
Proof. unfold u32. lia_mod. Qed.

Lemma lor_range a b : 0 <= a < 2 ^ 32 -> 0 <= b < 2 ^ 32 -> 0 <= Z.lor a b < 2 ^ 32.
Proof.
  intros Ha Hb. split; [apply Z.lor_nonneg; lia|]. destruct (Z.eq_dec (Z.lor a b) 0) as [->|Hne]; [lia|].
  assert (0 <= Z.lor a b) by (apply Z.lor_nonneg; lia). apply Z.log2_lt_pow2; [lia|]. rewrite Z.log2_lor by lia.
  assert (Hl : forall x, 0 <= x < 2 ^ 32 -> Z.log2 x < 32).
  { intros x Hx. destruct (Z.eq_dec x 0) as [->|]; [done|]. apply Z.log2_lt_pow2; lia. }
  pose proof (Hl a Ha). pose proof (Hl b Hb). lia.
Qed.

Lemma number_loop_ok m e base fuel cp c val :
  in_string m e cp c -> e - cp < Z.of_nat fuel -> 0 <= val < 2 ^ 32 ->
  exists cp' c' val', number_loop m fuel base cp c val = Some (cp', c', val') /\ in_string m e cp' c' /\
    cp <= cp' /\ 0 <= val' < 2 ^ 32.
Proof.
  revert cp c val. induction fuel as [|fuel IH]; intros cp c val Hs Hf Hv; [destruct Hs as [? _]; lia|].
  cbn [number_loop]. destruct (lwip_isdigit c) eqn:Ed.
  - destruct (_ && _); [by exists cp, c, val|].
    destruct (next_ok _ _ _ _ Hs (digit_nonzero _ Ed)) as (c' & -> & Hs'). cbn [mbind option_bind].
    destruct (IH (cp + 1) c' (u32 (u32 (val * base) + u32 (c - 48))) Hs' ltac:(lia) (u32_range _)) as (cp2 & c2 & v2 & Hx & Hs2 & Hle & Hr).
    exists cp2, c2, v2. split; [exact Hx|]. split; [done|]. split; [lia|done].
  - destruct ((base =? 16) && lwip_isxdigit c) eqn:Ex; [|by exists cp, c, val].
    apply andb_true_iff in Ex as [_ Ex].
    destruct (next_ok _ _ _ _ Hs (xdigit_nonzero _ Ex)) as (c' & -> & Hs'). cbn [mbind option_bind].
    set (val1 := Z.lor _ _). assert (Hv1 : 0 <= val1 < 2 ^ 32) by (apply lor_range; apply u32_range).
    destruct (IH (cp + 1) c' val1 Hs' ltac:(lia) Hv1) as
      (cp2 & c2 & v2 & Hx & Hs2 & Hle & Hr).
    exists cp2, c2, v2. split; [exact Hx|]. split; [done|]. split; [lia|done].
Qed.

Lemma base_prefix_ok m e cp c :
  in_string m e cp c -> exists cp' c' base, base_prefix m cp c = Some (cp', c', base) /\ in_string m e cp' c'.
Proof.
  intros Hs. unfold base_prefix. destruct (c =? 48) eqn:E; [|by exists cp, c, 10].
  destruct (next_ok _ _ _ _ Hs ltac:(lia)) as (c1 & -> & Hs1). cbn [mbind option_bind].
  destruct (_ || _) eqn:Ex; [|by eexists _, _, _].
  destruct (next_ok _ _ _ _ Hs1 ltac:(lia)) as (c2 & -> & Hs2). cbn [mbind option_bind]. by eexists _, _, _.
Qed.

Lemma parts_loop_ok m e fuel cp c parts :
  in_string m e cp c -> (length parts <= 3 /\ 3 < length parts + fuel)%nat ->
  exists r, parts_loop m fuel cp c parts = Some r /\
    forall ps val c', r = Some (ps, val, c') -> (length ps <= 3)%nat /\ 0 <= val < 2 ^ 32.
Proof.
  revert cp c parts. induction fuel as [|fuel IH]; intros cp c parts Hs Hf; [lia|]. cbn [parts_loop].
  destruct (lwip_isdigit c) eqn:Ed; cbn [negb]; [|by exists None].
  destruct (base_prefix_ok m e cp c Hs) as (cp1 & c1 & base & -> & Hs1). cbn [mbind option_bind].
  assert (Hfu : e - cp1 < Z.of_nat (S (length m))) by (destruct Hs1 as (? & _ & He); apply load_in_bounds in He; lia).
  destruct (number_loop_ok m e base _ cp1 c1 0 Hs1 Hfu ltac:(lia)) as (cp2 & c2 & val & -> & Hs2 & _ & Hv).
  cbn [mbind option_bind]. destruct (c2 =? 46) eqn:Ec.
  - destruct (3 <=? length parts)%nat eqn:El; [by exists None|]. apply Nat.leb_gt in El.
    destruct (next_ok _ _ _ _ Hs2 ltac:(lia)) as (c3 & -> & Hs3). cbn [mbind option_bind].
    apply IH; [done|]. rewrite length_app. cbn [length]. lia.
  - eexists. split; [done|]. intros ps v c' [= <- <- <-]. by split; [lia|].
Qed.

Lemma concoct_range parts val a : 0 <= val < 2 ^ 32 -> concoct parts val = Some a -> 0 <= a < 2 ^ 32.
Proof.
  intros Hv Hx. unfold concoct in Hx. destruct parts as [|p0 [|p1 [|p2 [|? ?]]]]; [by injection Hx as <-|..|done].
  all: repeat (match type of Hx with (if ?b then _ else _) = _ => destruct b; [done|] end); injection Hx as <-;
    repeat apply lor_range; (done || apply u32_range).
Qed.

(** The parser ends on every string, inside of it. *)
Lemma aton_ok m cp e :
  0 <= cp <= e -> load m e = Some 0 ->
  exists r, ip4addr_aton m cp = Some r /\ forall a, r = Some a -> 0 <= a < 2 ^ 32.
Proof.
  intros Hcp He. destruct (load_inside m cp e He Hcp) as (c & Hc). unfold ip4addr_aton. rewrite Hc.
  cbn [mbind option_bind]. destruct (parts_loop_ok m e 5 cp c []) as (r & -> & Hr); [by split|cbn; lia|].
  cbn [mbind option_bind]. destruct r as [[[ps val] c']|]; [|by exists None].
  destruct (Hr _ _ _ eq_refl) as [_ Hv]. destruct (_ && _); [by exists None|]. eexists. split; [done|].
  intros a Ha. destruct (concoct ps val) as [v|] eqn:E; [|done]. injection Ha as <-. apply htonl_range.
  by eapply concoct_range.
Qed.
(** Reading is total and safe: on every string that ends with a zero,
    whatever it holds, [ip4addr_aton] ends without looking behind the zero,
    and an address it accepts is a number of 32 bits. *)
Theorem ip4_aton_total m cp e :
  0 <= cp <= e -> load m e = Some 0 ->
  exists r, ip4addr_aton m cp = Some r /\ forall a, r = Some a -> 0 <= a < 2 ^ 32.
Proof. apply aton_ok. Qed.
End AtonOk.

(** ** Addresses survive printing and reading *)

(** A byte in decimal. *)
Definition byte_dec (b : Z) : list Z :=
  if b <? 10 then [48 + b]
  else if b <? 100 then [48 + b / 10; 48 + b mod 10]
  else [48 + b / 100; 48 + b / 10 mod 10; 48 + b mod 10].

Definition text (v : Z) : list Z :=
  match be32 v with
  | [a; b; c; d] => byte_dec a ++ [46] ++ byte_dec b ++ [46] ++ byte_dec c ++ [46] ++ byte_dec d
  | _ => []
  end.

Lemma inv_loop_ok b : is_byte b -> inv_loop 4 b [] = Some (rev (byte_dec b)).
Proof.
  intros Hb. pose proof (byte_forall (fun b => bool_decide (inv_loop 4 b [] = Some (rev (byte_dec b)))) eq_refl b Hb) as Hx.
  by apply bool_decide_eq_true in Hx.
Qed.

Section Print.
Variable buflen : Z.

(** Several characters at once. *)
Fixpoint puts (t : list Z) (s : list Z * Z * Z) : option (option (list Z * Z * Z)) :=
  match t with [] => Some (Some s) | c :: t => and_then (put buflen c s) (puts t) end.

Lemma and_then_assoc {A B C} (x : option (option A)) (f : A -> option (option B)) (g : B -> option (option C)) :
  and_then (and_then x f) g = and_then x (fun a => and_then (f a) g).
Proof. by destruct x as [[]|]. Qed.

Lemma and_then_ext {A B} (x : option (option A)) (f g : A -> option (option B)) :
  (forall a, f a = g a) -> and_then x f = and_then x g.
Proof. intros Hfg. destruct x as [[a|]|]; [apply Hfg|done..]. Qed.

Lemma puts_app t1 t2 s : puts (t1 ++ t2) s = and_then (puts t1 s) (puts t2).
Proof.
  revert s. induction t1 as [|c t1 IH]; intros s; [done|]. cbn [app puts]. rewrite and_then_assoc.
  apply and_then_ext, IH.
Qed.

Lemma put_inv_puts inv i s : (i <= length inv)%nat -> put_inv buflen inv i s = puts (rev (take i inv)) s.
Proof.
  revert s. induction i as [|i IH]; intros s Hi; [done|].
  destruct (lookup_lt_is_Some_2 inv i) as [c Hc]; [lia|].
  cbn [put_inv]. rewrite Hc. cbn [mbind option_bind]. rewrite (take_S_r _ _ _ Hc), rev_app_distr. cbn [rev app puts].
  apply and_then_ext. intros s'. apply IH. lia.
Qed.

Lemma bytes_loop_puts ap s :
  Forall is_byte ap -> bytes_loop buflen ap s = puts (concat ((fun b => byte_dec b ++ [46]) <$> ap)) s.
Proof.
  intros Hap. revert s. induction Hap as [|b ap Hb _ IH]; intros s; [done|].
  rewrite fmap_cons. cbn [bytes_loop concat]. rewrite inv_loop_ok by done. cbn [mbind option_bind].
  rewrite put_inv_puts, firstn_all, rev_involutive, <- app_assoc, puts_app by done.
  apply and_then_ext. intros s'. cbn [app puts]. apply and_then_ext. intros s2. apply IH.
Qed.

Lemma store_mid pre x post v : store (pre ++ x :: post) (size pre) v = Some (pre ++ v :: post).
Proof.
  unfold store. rewrite length_app. cbn [length]. pose proof (size_nonneg pre). unfold size in *.
  replace (_ || _) with false by lia. rewrite Nat2Z.id, insert_app_r_alt by lia. by rewrite Nat.sub_diag.
Qed.

(** Either all of it fits, or the answer is NULL and nothing was written
    outside of the buffer. *)
Lemma puts_ok t pre rest :
  size pre + size rest = buflen ->
  puts t (pre ++ rest, size pre, size pre) =
    if size t <=? size rest
    then Some (Some (pre ++ t ++ drop (length t) rest, size (pre ++ t), size (pre ++ t)))
    else Some None.
Proof.
  revert pre rest. induction t as [|c t IH]; intros pre rest Hb; cbn [puts].
  - pose proof (size_nonneg rest). replace (size [] <=? size rest) with true by (unfold size in *; cbn; lia).
    cbn [length drop app]. by rewrite app_nil_r.
  - rewrite size_cons. pose proof (size_nonneg t). cbn [put]. destruct rest as [|x rest].
    + change (size []) with 0 in *. replace (buflen <=? size pre) with true by lia.
      replace (1 + size t <=? 0) with false by lia. done.
    + rewrite size_cons in *. pose proof (size_nonneg rest). replace (buflen <=? size pre) with false by lia.
      rewrite store_mid. cbn [mbind option_bind and_then].
      assert (Hp : size (pre ++ [c]) = size pre + 1) by (by rewrite size_app).
      specialize (IH (pre ++ [c]) rest ltac:(lia)). rewrite Hp, <- app_assoc in IH. cbn [app] in IH. rewrite IH.
      replace (1 + size t <=? 1 + size rest) with (size t <=? size rest) by lia. cbn [length drop].
      by rewrite <- !app_assoc.
Qed.
End Print.

Lemma be32_bytes v : 0 <= v < 2 ^ 32 -> Forall is_byte (be32 v).
Proof. intros Hv. unfold be32, is_byte. repeat constructor; lia_mod. Qed.

Lemma dots_text v : concat ((fun b => byte_dec b ++ [46]) <$> be32 v) = text v ++ [46].
Proof. unfold text, be32. cbn [fmap list_fmap concat]. by rewrite <- !app_assoc. Qed.

Lemma text_size v : 0 <= v < 2 ^ 32 -> 7 <= size (text v) <= 15.
Proof.
  intros Hv. pose proof (be32_bytes v Hv) as Hb. unfold text, be32 in *. cbn beta iota in *. rewrite !Forall_cons in Hb.
  assert (Hl : forall x, is_byte x -> 1 <= size (byte_dec x) <= 3).
  { intros x Hx. unfold byte_dec. repeat case_match; unfold size; cbn; lia. }
  destruct Hb as (Ha%Hl & Hb%Hl & Hc%Hl & Hd%Hl & _). rewrite !size_app. change (size [46]) with 1. lia.
Qed.

Section RoundTrip.
Context `{Endian} `{LwipMacros}.

Lemma ntoa_ok v buf :
  0 <= v < 2 ^ 32 ->
  ip4addr_ntoa_r (lwip_htonl v) buf (size buf) =
    if size (text v) <? size buf
    then Some (Some (text v ++ [0] ++ drop (S (length (text v))) buf))
    else Some None.
Proof.
  intros Hv. unfold ip4addr_ntoa_r. rewrite htonl_bytes, bytes_loop_puts, dots_text by (done || by apply be32_bytes).
  pose proof (puts_ok (size buf) (text v ++ [46]) [] buf ltac:(unfold size; cbn; lia)) as Hp.
  cbn [app] in Hp. change (size []) with 0 in Hp. rewrite Hp, size_app. change (size [46]) with 1.
  destruct (size (text v) <? size buf) eqn:E.
  - replace (_ <=? _) with true by lia. cbn [and_then mbind option_bind].
    replace (size (text v) + 1 - 1) with (size (text v)) by lia. rewrite <- app_assoc. cbn [app].
    rewrite store_mid. cbn [mbind option_bind]. rewrite length_app. cbn [length].
    by replace (length (text v) + 1)%nat with (S (length (text v))) by lia.
  - replace (_ <=? _) with false by lia. done.
Qed.

(** The character behind [pre]. *)
Definition first (ds : list Z) (x : Z) : Z := match ds with [] => x | c :: _ => c end.

Lemma load_first pre ds x post : load (pre ++ ds ++ x :: post) (size pre) = Some (first ds x).
Proof. destruct ds as [|c ds]; [apply (load_mid pre [x] post _ 0)|apply (load_mid pre (c :: ds) (x :: post) _ 0)]; done || lia. Qed.

Lemma next_first pre c ds x post :
  next (pre ++ (c :: ds) ++ x :: post) (size pre) = Some (size (pre ++ [c]), first ds x).
Proof.
  unfold next. rewrite size_app. change (size [c]) with 1.
  pose proof (load_first (pre ++ [c]) ds x post) as Hl. rewrite <- app_assoc, size_app in Hl.
  change (size [c]) with 1 in Hl. cbn [app] in *. by rewrite Hl.
Qed.

Definition decimal (val : Z) (ds : list Z) : Z := foldl (fun v c => u32 (u32 (v * 10) + u32 (c - 48))) val ds.

Lemma number_loop_digits ds pre x post fuel val :
  Forall (fun c => lwip_isdigit c = true) ds -> lwip_isdigit x = false -> (length ds < fuel)%nat ->
  number_loop (pre ++ ds ++ x :: post) fuel 10 (size pre) (first ds x) val
    = Some (size (pre ++ ds), x, decimal val ds).
Proof.
  intros Hds Hx. revert pre fuel val. induction Hds as [|c ds Hc _ IH]; intros pre [|fuel] val Hf;
    cbn [length] in Hf; try lia; cbn [number_loop first].
  - rewrite Hx. cbn [Z.eqb Pos.eqb andb]. by rewrite app_nil_r.
  - rewrite Hc. cbn [Z.eqb Pos.eqb andb]. rewrite next_first. cbn [mbind option_bind].
    specialize (IH (pre ++ [c]) fuel (u32 (u32 (val * 10) + u32 (c - 48))) ltac:(lia)).
    rewrite <- !app_assoc in IH. cbn [app] in *. exact IH.
Qed.

Lemma byte_dec_ok b :
  is_byte b -> Forall (fun c => lwip_isdigit c = true) (byte_dec b) /\ decimal 0 (byte_dec b) = b /\
    exists c ds, byte_dec b = c :: ds /\ (c = 48 -> ds = [] /\ b = 0).
Proof.
  intros Hb. pose proof (byte_forall (fun b => forallb (fun c => (48 <=? c) && (c <=? 57)) (byte_dec b) &&
    (decimal 0 (byte_dec b) =? b) && match byte_dec b with
      | c :: ds => negb (c =? 48) || bool_decide (ds = [] /\ b = 0) | [] => false end) eq_refl b Hb) as Hx.
  cbn beta in Hx. rewrite !andb_true_iff in Hx. destruct Hx as [[Hd He] Hf].
  split; [|split; [lia|]].
  - apply Forall_forall. intros c Hc. rewrite isdigit_ok. rewrite forallb_forall in Hd. by apply Hd, list_elem_of_In.
  - destruct (byte_dec b) as [|c ds]; [done|]. exists c, ds. split; [done|]. intros ->. by apply bool_decide_eq_true in Hf.
Qed.

(** A number of the text form: one iteration of the outer loop. *)
Lemma number_byte pre b x post :
  is_byte b -> x = 46 \/ x = 0 ->
  let m := pre ++ byte_dec b ++ x :: post in
  lwip_isdigit (first (byte_dec b) x) = true /\
  exists cp c base, base_prefix m (size pre) (first (byte_dec b) x) = Some (cp, c, base) /\
    number_loop m (S (length m)) base cp c 0 = Some (size (pre ++ byte_dec b), x, b).
Proof.
  intros Hb Hx m. destruct (byte_dec_ok b Hb) as (Hds & Hv & c & ds & Hcd & Hz).
  assert (Hxd : lwip_isdigit x = false) by (rewrite isdigit_ok; lia).
  assert (Hxx : lwip_isxdigit x = false) by (rewrite isxdigit_ok, Hxd; lia).
  split; [rewrite Hcd in *; by apply Forall_cons in Hds as [? _]|].
  assert (Hc : first (byte_dec b) x = c) by (by rewrite Hcd). unfold base_prefix. rewrite Hc. destruct (c =? 48) eqn:E.
  - destruct (Hz ltac:(lia)) as [-> ->]. unfold m. rewrite Hcd, next_first. cbn [mbind option_bind first].
    replace ((x =? 120) || (x =? 88)) with false by lia. do 3 eexists. split; [done|].
    cbn [number_loop]. by rewrite Hxd, Hxx, andb_false_r.
  - do 3 eexists. split; [done|]. rewrite <- Hc. unfold m.
    rewrite number_loop_digits; [by rewrite Hv|done..|]. rewrite !length_app. cbn [length]. lia.
Qed.

(** One number and the dot behind it. *)
Lemma parts_step pre b post fuel parts :
  is_byte b -> (length parts < 3)%nat ->
  parts_loop (pre ++ byte_dec b ++ 46 :: post) (S fuel) (size pre) (first (byte_dec b) 46) parts
    = ('(cp, c) ← next (pre ++ byte_dec b ++ 46 :: post) (size (pre ++ byte_dec b));
       parts_loop (pre ++ byte_dec b ++ 46 :: post) fuel cp c (parts ++ [b])).
Proof.
  intros Hb Hp. destruct (number_byte pre b 46 post Hb (or_introl eq_refl)) as (Hd & cp & c & base & Hpre & Hnum).
  cbn [parts_loop]. rewrite Hd. cbn [negb]. rewrite Hpre. cbn [mbind option_bind]. rewrite Hnum. cbn [mbind option_bind].
  cbn [Z.eqb Pos.eqb]. by replace (3 <=? length parts)%nat with false by (symmetry; apply Nat.leb_gt; lia).
Qed.

Lemma parts_last pre b post fuel parts :
  is_byte b ->
  parts_loop (pre ++ byte_dec b ++ 0 :: post) (S fuel) (size pre) (first (byte_dec b) 0) parts = Some (Some (parts, b, 0)).
Proof.
  intros Hb. destruct (number_byte pre b 0 post Hb (or_intror eq_refl)) as (Hd & cp & c & base & Hpre & Hnum).
  cbn [parts_loop]. rewrite Hd. cbn [negb]. rewrite Hpre. cbn [mbind option_bind]. by rewrite Hnum.
Qed.

(** Numbers side by side. *)
Lemma lor_shift x y k : 0 <= k -> 0 <= x < 2 ^ k -> Z.lor x (Z.shiftl y k) = x + y * 2 ^ k.
Proof.
  intros Hk Hx. rewrite <- Z.shiftl_mul_pow2 by done.
  assert (Hl : Z.land x (Z.shiftl y k) = 0).
  { apply Z.bits_inj'. intros i Hi. rewrite Z.land_spec, Z.bits_0, Z.shiftl_spec by done.
    destruct (Z.lt_ge_cases i k); [rewrite (Z.testbit_neg_r y) by lia; apply andb_false_r|].
    destruct (Z.eq_dec x 0) as [->|]; [by rewrite Z.bits_0|]. rewrite Z.bits_above_log2; [done|lia|].
    apply Z.lt_le_trans with k; [apply Z.log2_lt_pow2; lia|done]. }
  rewrite <- Z.lxor_lor by done. symmetry. by apply Z.add_nocarry_lxor.
Qed.

Lemma concoct_bytes a b c d :
  is_byte a -> is_byte b -> is_byte c -> is_byte d ->
  concoct [a; b; c] d = Some (a * 2 ^ 24 + b * 2 ^ 16 + c * 2 ^ 8 + d).
Proof.
  unfold is_byte. intros Ha Hb Hc Hd. cbn [concoct]. replace (255 <? d) with false by lia.
  replace ((255 <? a) || (255 <? b) || (255 <? c)) with false by lia. f_equal.
  assert (Hu : forall x k, 0 <= x < 256 -> 0 <= k <= 24 -> u32 (Z.shiftl x k) = Z.shiftl x k).
  { intros x k Hx Hk. unfold u32. rewrite Z.shiftl_mul_pow2 by lia. apply Z.mod_small.
    assert (2 ^ k <= 2 ^ 24) by (apply Z.pow_le_mono_r; lia). pose proof (Z.pow_pos_nonneg 2 k). nia. }
  rewrite !Hu by lia.
  rewrite (Z.lor_comm (Z.lor _ _)), (Z.lor_comm (Z.shiftl a 24)), !Z.lor_assoc.
  rewrite (lor_shift d c 8) by lia. rewrite (lor_shift _ b 16) by lia. rewrite lor_shift by lia. lia.
Qed.

Lemma aton_text pre v rest :
  0 <= v < 2 ^ 32 -> ip4addr_aton (pre ++ text v ++ 0 :: rest) (size pre) = Some (Some (lwip_htonl v)).
Proof.
  intros Hv. pose proof (be32_bytes v Hv) as Hb. unfold text, be32 in *. cbn beta iota in *.
  set (a := v / 2 ^ 24) in *. set (b := (v / 2 ^ 16) mod 2 ^ 8) in *. set (c := (v / 2 ^ 8) mod 2 ^ 8) in *.
  set (d := v mod 2 ^ 8) in *. rewrite !Forall_cons in Hb. destruct Hb as (Ha & Hb & Hc & Hd & _).
  set (p1 := pre ++ byte_dec a ++ [46]). set (p2 := p1 ++ byte_dec b ++ [46]). set (p3 := p2 ++ byte_dec c ++ [46]).
  set (m := pre ++ _ ++ 0 :: rest). set (t3 := byte_dec d ++ 0 :: rest). set (t2 := byte_dec c ++ 46 :: t3).
  set (t1 := byte_dec b ++ 46 :: t2).
  assert (E0 : m = pre ++ byte_dec a ++ 46 :: t1) by (unfold m, t1, t2, t3; by rewrite <- !app_assoc).
  assert (E1 : m = p1 ++ t1) by (rewrite E0; unfold p1; by rewrite <- !app_assoc).
  assert (E2 : m = p2 ++ t2) by (rewrite E1; unfold p2, t1; by rewrite <- !app_assoc).
  assert (E3 : m = p3 ++ t3) by (rewrite E2; unfold p3, t2; by rewrite <- !app_assoc).
  assert (Hdot : forall p x y ds post, m = p ++ byte_dec x ++ 46 :: ds ++ y :: post ->
    next m (size (p ++ byte_dec x)) = Some (size (p ++ byte_dec x ++ [46]), first ds y)).
  { intros p x y ds post ->. pose proof (next_first (p ++ byte_dec x) 46 ds y post) as Hn.
    rewrite <- !app_assoc in Hn. exact Hn. }
  unfold ip4addr_aton. pose proof (load_first pre (byte_dec a) 46 t1) as Hl. rewrite <- E0 in Hl.
  rewrite Hl. cbn [mbind option_bind].
  pose proof (parts_step pre a t1 4 [] Ha ltac:(cbn; lia)) as S0. rewrite <- E0 in S0. rewrite S0.
  rewrite (Hdot pre a 46 (byte_dec b) t2) by exact E0. cbn [mbind option_bind app].
  pose proof (parts_step p1 b t2 3 [a] Hb ltac:(cbn; lia)) as S1. fold t1 in S1.
  rewrite <- E1 in S1. fold p1. rewrite S1. rewrite (Hdot p1 b 46 (byte_dec c) t3) by exact E1.
  cbn [mbind option_bind app].
  pose proof (parts_step p2 c t3 2 [a; b] Hc ltac:(cbn; lia)) as S2. fold t2 in S2.
  rewrite <- E2 in S2. fold p2. rewrite S2. rewrite (Hdot p2 c 0 (byte_dec d) rest) by exact E2.
  cbn [mbind option_bind app].
  pose proof (parts_last p3 d rest 1 [a; b; c] Hd) as S3. fold t3 in S3. rewrite <- E3 in S3.
  fold p3. rewrite S3. cbn [mbind option_bind]. change (negb (0 =? 0) && negb (lwip_isspace 0)) with false. cbn iota.
  rewrite concoct_bytes by done. cbn [mbind option_bind]. do 3 f_equal. unfold a, b, c, d. lia_mod.
Qed.

(** C18. Addresses survive: for every address and every buffer,
    [ip4addr_ntoa_r] writes nothing outside of the buffer; it answers NULL
    exactly when the text and its terminator do not fit, which never happens
    with 16 bytes, and otherwise leaves the dotted decimal text, which
    [ip4addr_aton] turns back into the address. *)
Theorem ip4_text_roundtrip v buf :
  0 <= v < 2 ^ 32 ->
  size (text v) <= 15 /\
  if size (text v) <? size buf
  then exists buf', ip4addr_ntoa_r (lwip_htonl v) buf (size buf) = Some (Some buf') /\ size buf' = size buf /\
    firstn (S (length (text v))) buf' = text v ++ [0] /\ ip4addr_aton buf' 0 = Some (Some (lwip_htonl v))
  else ip4addr_ntoa_r (lwip_htonl v) buf (size buf) = Some None.
Proof.
  intros Hv. split.
  - by apply text_size.
  - rewrite ntoa_ok by done. destruct (size (text v) <? size buf) eqn:E; [|done].
    eexists. split; [done|]. split; [|split].
    + rewrite !size_app. change (size [0]) with 1. unfold size in *. rewrite length_drop. lia.
    + rewrite app_assoc. replace (S (length (text v))) with (length (text v ++ [0])) by (rewrite length_app; cbn; lia).
      by rewrite take_app_length.
    + by apply (aton_text []).
Qed.
End RoundTrip.

(** ** Examples, on a little-endian machine *)
Section Sample.
Definition swap32 (n : Z) : Z :=
  n mod 2 ^ 8 * 2 ^ 24 + (n / 2 ^ 8) mod 2 ^ 8 * 2 ^ 16 + (n / 2 ^ 16) mod 2 ^ 8 * 2 ^ 8 + n / 2 ^ 24.

Lemma swap32_bytes n : 0 <= n < 2 ^ 32 -> rev (be32 (swap32 n)) = be32 n /\ 0 <= swap32 n < 2 ^ 32 /\ swap32 (swap32 n) = n.
Proof.
  intros Hn. set (a := n / 2 ^ 24). set (b := (n / 2 ^ 16) mod 2 ^ 8). set (c := (n / 2 ^ 8) mod 2 ^ 8).
  set (d := n mod 2 ^ 8).
  assert (Hb : 0 <= a < 256 /\ 0 <= b < 256 /\ 0 <= c < 256 /\ 0 <= d < 256) by (unfold a, b, c, d; lia_mod).
  assert (Hsum : n = a * 2 ^ 24 + b * 2 ^ 16 + c * 2 ^ 8 + d) by (unfold a, b, c, d; lia_mod).
  assert (Hs : swap32 n = d * 2 ^ 24 + c * 2 ^ 16 + b * 2 ^ 8 + a) by done. rewrite Hs. clearbody a b c d.
  assert (E1 : (d * 2 ^ 24 + c * 2 ^ 16 + b * 2 ^ 8 + a) / 2 ^ 24 = d) by lia_mod.
  assert (E2 : ((d * 2 ^ 24 + c * 2 ^ 16 + b * 2 ^ 8 + a) / 2 ^ 16) mod 2 ^ 8 = c) by lia_mod.
  assert (E3 : ((d * 2 ^ 24 + c * 2 ^ 16 + b * 2 ^ 8 + a) / 2 ^ 8) mod 2 ^ 8 = b) by lia_mod.
  assert (E4 : (d * 2 ^ 24 + c * 2 ^ 16 + b * 2 ^ 8 + a) mod 2 ^ 8 = a) by lia_mod.
  assert (F1 : n / 2 ^ 24 = a) by lia_mod. assert (F2 : (n / 2 ^ 16) mod 2 ^ 8 = b) by lia_mod.
  assert (F3 : (n / 2 ^ 8) mod 2 ^ 8 = c) by lia_mod. assert (F4 : n mod 2 ^ 8 = d) by lia_mod.
  split; [|split; [lia|]].
  - unfold be32. by rewrite E1, E2, E3, E4, F1, F2, F3, F4.
  - unfold swap32. rewrite E1, E2, E3, E4. lia.
Qed.

#[local, refine] Instance little_endian : Endian := { lwip_htonl := swap32; mem_bytes n := rev (be32 n) }.
Proof. 1-3: intros n Hn; by destruct (swap32_bytes n Hn) as (? & ? & ?). reflexivity. Defined.

#[local] Instance sample_macros : LwipMacros := {
  lwip_isdigit c := (48 <=? c) && (c <=? 57);
  lwip_isxdigit c := (48 <=? c) && (c <=? 57) || ((97 <=? c) && (c <=? 102)) || ((65 <=? c) && (c <=? 70));
  lwip_islower c := (97 <=? c) && (c <=? 122);
  lwip_isspace c := (c =? 32) || ((9 <=? c) && (c <=? 13));
  ip4_addr_netcmp a b mask := Z.land a mask =? Z.land b mask;
  isdigit_ok c := eq_refl; isxdigit_ok c := eq_refl; islower_ok c := eq_refl; isspace_ok c := eq_refl;
  netcmp_ok a b mask := eq_refl
}.

(** 255.255.240.0 *)
Lemma netmask_valid_iff_witness : ip4_addr_netmask_valid 0x00f0ffff = Some true.
Proof.
  destruct (netmask_valid_iff 0x00f0ffff ltac:(lia)) as (b & Hx & Hb). rewrite Hx. f_equal. apply Hb.
  exists 12. split; [lia|reflexivity].
Defined.

(** 0x7f.1, a loopback address. *)
Lemma ip4_aton_total_witness :
  ip4addr_aton [48; 120; 55; 102; 46; 49; 0] 0 = Some (Some 0x0100007f) /\ 0 <= 0x0100007f < 2 ^ 32.
Proof.
  destruct (ip4_aton_total [48; 120; 55; 102; 46; 49; 0] 0 6 ltac:(lia) eq_refl) as (r & Hx & Hr).
  vm_compute in Hx. injection Hx as <-. split; [reflexivity|]. by apply Hr.
Defined.

(** 192.168.0.10 *)
Lemma ip4_text_roundtrip_witness :
  exists buf', ip4addr_ntoa 0x0a00a8c0 (replicate 16 7) = Some (Some buf') /\
    firstn 13 buf' = [49; 57; 50; 46; 49; 54; 56; 46; 48; 46; 49; 48; 0] /\
    ip4addr_aton buf' 0 = Some (Some 0x0a00a8c0).
Proof.
  destruct (ip4_text_roundtrip 0xc0a8000a (replicate 16 7) ltac:(lia)) as [_ Hx].
  change (size (text 0xc0a8000a) <? size (replicate 16 7)) with true in Hx. cbn iota in Hx.
  destruct Hx as (buf' & Hn & _ & Ht & Ha). exists buf'. split; [exact Hn|]. split; [exact Ht|exact Ha].
Defined.

(** A number that does not fit into 32 bits is taken modulo [2 ^ 32]: the text
    "4294967297" is accepted as 0.0.0.1. *)
Lemma aton_wraps :
  ip4addr_aton [52; 50; 57; 52; 57; 54; 55; 50; 57; 55; 0] 0 = Some (Some (lwip_htonl 1)).
Proof. vm_compute. reflexivity. Qed.
End Sample.
End Ip4.
