(* ===== verification/Ip6.v ===== *)
(** IPv6 addresses of lwIP
    (src/ipv4-ipv6/src/upstream/src/core/ipv6/ip6_addr.c, with LWIP_IPV4 and
    without LWIP_IPV6_SCOPES, so that an address is its four words): the
    reading (lines 61-195) and printing (197-341) of their text form. *)

From S2P Require Export Ip4.
Export Ip4.
Open Scope Z_scope.

Module Ip6.

Section Ip6.
Context `{Endian} `{LwipMacros}.

(** ** Reading *)

(** The parser's variables: the words of [addr], which may be NULL,
    [addr_index], [current_block_index] and [current_block_value]. *)
Record blocks := mkBlocks { words : option (list Z); addr_index : Z; block_index : Z; block_value : Z }.

Section Aton.
Variable m : list Z.

(** The first loop: the blocks that "::" stands for, and whether an IPv4
    address may follow; [Some None] is [return 0]. *)
Fixpoint count_loop (fuel : nat) (s zero_blocks : Z) : option (option (Z * bool)) :=
  match fuel with
  | O => None
  | S fuel =>
      c ← load m s;
      if c =? 0 then Some (Some (zero_blocks, false))
      else if c =? 58 then count_loop fuel (s + 1) (u32 (zero_blocks - 1))
      else if c =? 46 then
        if (zero_blocks =? 5) || (zero_blocks =? 2) then Some (Some (u32 (zero_blocks - 1), true))
        else Some None
      else if negb (lwip_isxdigit c) then Some (Some (zero_blocks, false))
      else count_loop fuel (s + 1) zero_blocks
  end.

(** The current block goes into its half of a word. *)
Definition flush (b : blocks) : option blocks :=
  match words b with
  | None => Some b
  | Some ws =>
      if Z.odd (block_index b) then
        w ← load ws (addr_index b);
        ws ← store ws (addr_index b) (Z.lor w (block_value b));
        Some (mkBlocks (Some ws) (addr_index b + 1) (block_index b) (block_value b))
      else
        ws ← store ws (addr_index b) (u32 (Z.shiftl (block_value b) 16));
        Some (mkBlocks (Some ws) (addr_index b) (block_index b) (block_value b))
  end.

(** [while (zero_blocks > 0)]; [Some (false, b)] is [return 0]. *)
Fixpoint zero_loop (fuel : nat) (b : blocks) (zero_blocks : Z) : option (bool * blocks) :=
  match fuel with
  | O => None
  | S fuel =>
      if negb (0 <? zero_blocks) then Some (true, b)
      else
        b ← (if Z.odd (block_index b) then
               Some (mkBlocks (words b) (addr_index b + 1) (block_index b) (block_value b))
             else match words b with
                  | None => Some b
                  | Some ws => ws ← store ws (addr_index b) 0;
                               Some (mkBlocks (Some ws) (addr_index b) (block_index b) (block_value b))
                  end);
        let b := mkBlocks (words b) (addr_index b) (block_index b + 1) (block_value b) in
        if 7 <? block_index b then Some (false, b) else zero_loop fuel b (u32 (zero_blocks - 1))
  end.

(** How the second loop ends: with a [return], at
    [fix_byte_order_and_return], or at its end. *)
Inductive outcome := Return (r : bool) (b : blocks) | Fix (b : blocks) | Done (b : blocks).

(** The value of a hexadecimal digit. *)
Definition hex_value (c : Z) : Z :=
  if lwip_isdigit c then u32 (c - 48) else u32 (10 + (if lwip_islower c then c - 97 else c - 65)).

(** What a colon at [s] does: the next position, or the end. *)
Definition on_colon (s : Z) (b : blocks) (zero_blocks : Z) (check_ipv4_mapped : bool)
    : option (outcome + Z * blocks * Z) :=
  b ← flush b;
  let b := mkBlocks (words b) (addr_index b) (block_index b + 1) (block_value b) in
  ret ← (if check_ipv4_mapped && (block_index b =? 6) then ip4addr_aton m (s + 1) else Some None);
  match ret, words b with
  | Some ip4, Some ws =>
      ws ← store ws 3 (lwip_htonl ip4);
      Some (inl (Fix (mkBlocks (Some ws) (addr_index b) (block_index b + 1) (block_value b))))
  | Some _, None => Some (inl (Return true b))
  | None, _ =>
      let b := mkBlocks (words b) (addr_index b) (block_index b) 0 in
      if 7 <? block_index b then Some (inl (Return false b))
      else
        c1 ← load m (s + 1);
        if c1 =? 58 then
          c2 ← load m (s + 2);
          if c2 =? 58 then Some (inl (Return false b))
          else
            '(go, b) ← zero_loop 9 b zero_blocks;
            Some (if go : bool then inr (s + 2, b, 0) else inl (Return false b))
        else Some (inr (s + 1, b, zero_blocks))
  end.

Fixpoint block_loop (fuel : nat) (s : Z) (b : blocks) (zero_blocks : Z) (check_ipv4_mapped : bool)
    : option outcome :=
  match fuel with
  | O => None
  | S fuel =>
      c ← load m s;
      if c =? 0 then Some (Done b)
      else if c =? 58 then
        r ← on_colon s b zero_blocks check_ipv4_mapped;
        match r with
        | inl o => Some o
        | inr (s, b, zero_blocks) => block_loop fuel s b zero_blocks check_ipv4_mapped
        end
      else if lwip_isxdigit c then
        block_loop fuel (s + 1)
          (mkBlocks (words b) (addr_index b) (block_index b)
             (u32 (u32 (Z.shiftl (block_value b) 4) + hex_value c))) zero_blocks check_ipv4_mapped
      else Some (Done b)
  end.

(** [fix_byte_order_and_return] *)
Definition finish (b : blocks) : bool * option (list Z) :=
  (block_index b =? 7, option_map (List.map lwip_htonl) (words b)).

(** The result, and the words of the address. *)
Definition ip6addr_aton (cp : Z) (addr : option (list Z)) : option (bool * option (list Z)) :=
  r ← count_loop (S (length m)) cp 8;
  match r with
  | None => Some (false, addr)
  | Some (zero_blocks, check_ipv4_mapped) =>
      o ← block_loop (S (length m)) cp (mkBlocks addr 0 0 0) zero_blocks check_ipv4_mapped;
      match o with
      | Return r b => Some (r, words b)
      | Fix b => Some (finish b)
      | Done b => b ← flush b; Some (finish b)
      end
  end.
End Aton.

(** ** Printing *)

Definition lwip_xchar (i : Z) : Z := if i <? 10 then 48 + i else 65 + i - 10.

(** [buf[i++] = c; if (i >= buflen) return NULL;]: [Some None] is NULL. *)
Definition put6 (buflen c : Z) (s : list Z * Z) : option (option (list Z * Z)) :=
  let '(buf, i) := s in
  buf ← store buf i c;
  if buflen <=? i + 1 then Some None else Some (Some (buf, i + 1)).

(** The 16 bits of block [k]. *)
Definition get_block (addr : list Z) (k : Z) : option Z :=
  w ← load addr (Z.shiftr k 1);
  let v := lwip_htonl w in
  Some (Z.land (if Z.land k 1 =? 0 then Z.shiftr v 16 else v) 0xffff).

(** The block behind block [k], as the code looks for it. *)
Definition get_next_block (addr : list Z) (k : Z) : option Z :=
  w ← load addr (Z.shiftr (k + 1) 1);
  let v := lwip_htonl w in
  Some (Z.land (if Z.land k 1 =? 1 then Z.shiftr v 16 else v) 0xffff).

(** The digits of a block, without leading zeros. *)
Definition put_digits (buflen v : Z) (s : list Z * Z) : option (option (list Z * Z)) :=
  let n3 := Z.shiftr (Z.land v 0xf000) 12 in
  let n2 := Z.shiftr (Z.land v 0xf00) 8 in
  let n1 := Z.shiftr (Z.land v 0xf0) 4 in
  let zero_flag := Z.land v 0xf000 =? 0 in
  and_then (if zero_flag then Some (Some s) else put6 buflen (lwip_xchar n3) s) (fun s =>
  let skip := (Z.land v 0xf00 =? 0) && zero_flag in
  and_then (if skip then Some (Some s) else put6 buflen (lwip_xchar n2) s) (fun s =>
  let zero_flag := zero_flag && skip in
  let skip := (Z.land v 0xf0 =? 0) && zero_flag in
  and_then (if skip then Some (Some s) else put6 buflen (lwip_xchar n1) s) (fun s =>
  put6 buflen (lwip_xchar (Z.land v 0xf)) s))).

(** The loop over the blocks from [k] on, of which there are [todo];
    [empty_block_flag] is 0, 1 or 2. *)
Fixpoint print_loop (buflen : Z) (addr : list Z) (todo : nat) (k empty_block_flag : Z) (s : list Z * Z)
    : option (option (list Z * Z)) :=
  match todo with
  | O => Some (Some s)
  | S todo =>
      let print empty_block_flag :=
        v ← get_block addr k;
        and_then (if 0 <? k then put6 buflen 58 s else Some (Some s)) (fun s =>
        and_then (put_digits buflen v s) (fun s => print_loop buflen addr todo (k + 1) empty_block_flag s)) in
      v ← get_block addr k;
      if v =? 0 then
        if (k =? 7) && (empty_block_flag =? 1) then put6 buflen 58 s
        else if empty_block_flag =? 0 then
          next ← get_next_block addr k;
          if next =? 0 then and_then (put6 buflen 58 s) (print_loop buflen addr todo (k + 1) 1)
          else print 0
        else if empty_block_flag =? 1 then print_loop buflen addr todo (k + 1) 1 s
        else print empty_block_flag
      else print (if empty_block_flag =? 1 then 2 else empty_block_flag)
  end.

Definition ip6_addr_isipv4mappedipv6 (addr : list Z) : option bool :=
  w0 ← load addr 0; w1 ← load addr 1; w2 ← load addr 2;
  Some ((w0 =? 0) && (w1 =? 0) && (w2 =? lwip_htonl 0x0000FFFF)).

(** "::FFFF:", with its terminator. *)
Definition IP4MAPPED_HEADER : list Z := [58; 58; 70; 70; 70; 70; 58; 0].

Definition ip6addr_ntoa_r (addr buf : list Z) (buflen : Z) : option (option (list Z)) :=
  mapped ← ip6_addr_isipv4mappedipv6 addr;
  if mapped : bool then
    if buflen <? size IP4MAPPED_HEADER then Some None
    else
      buf ← poke buf 0 IP4MAPPED_HEADER;
      w3 ← load addr 3;
      let n := length IP4MAPPED_HEADER in
      and_then (ip4addr_ntoa_r w3 (drop (n - 1) buf) (buflen - size IP4MAPPED_HEADER + 1)) (fun buf_ip4 =>
      Some (Some (take (n - 1) buf ++ buf_ip4)))
  else
    and_then (print_loop buflen addr 8 0 0 (buf, 0)) (fun '(buf, i) => buf ← store buf i 0; Some (Some buf)).

Definition ip6addr_ntoa (addr str : list Z) : option (option (list Z)) := ip6addr_ntoa_r addr str 40.
End Ip6.

(** ** The text of an address *)

Definition is_block (b : Z) : Prop := 0 <= b < 2 ^ 16.

(** Two blocks in a word, each; an odd block is the high half of the last one. *)
Fixpoint pack (bs : list Z) : list Z :=
  match bs with
  | [] => []
  | [b] => [b * 2 ^ 16]
  | b1 :: b2 :: bs => (b1 * 2 ^ 16 + b2) :: pack bs
  end.

(** Hexadecimal digits without leading zeros. *)
Definition hex (v : Z) : list Z :=
  let n3 := v / 2 ^ 12 in let n2 := v / 2 ^ 8 mod 16 in let n1 := v / 2 ^ 4 mod 16 in let n0 := v mod 16 in
  (if n3 =? 0 then [] else [lwip_xchar n3]) ++
  (if (n3 =? 0) && (n2 =? 0) then [] else [lwip_xchar n2]) ++
  (if (n3 =? 0) && (n2 =? 0) && (n1 =? 0) then [] else [lwip_xchar n1]) ++ [lwip_xchar n0].

Lemma hex_size v : 1 <= size (hex v) <= 4.
Proof. unfold hex. cbn zeta. repeat case_match; unfold size; cbn; lia. Qed.

(** Blocks, each behind a colon; and blocks with colons between them. *)
Fixpoint tail_text (bs : list Z) : list Z := match bs with [] => [] | b :: bs => 58 :: hex b ++ tail_text bs end.

Definition join (bs : list Z) : list Z := match bs with [] => [] | b :: bs => hex b ++ tail_text bs end.

(** What follows inside of a run of zeros. *)
Fixpoint skip_text (bs : list Z) : list Z :=
  match bs with
  | [] => []
  | b :: bs' => if b =? 0 then match bs' with [] => [58] | _ => skip_text bs' end else tail_text bs
  end.

(** The text before the first run; [None] when the code looks behind the
    address. *)
Fixpoint start_text (first : bool) (bs : list Z) : option (list Z) :=
  match bs with
  | [] => Some []
  | b :: bs' =>
      let print := t ← start_text false bs'; Some ((if first then [] else [58]) ++ hex b ++ t) in
      if b =? 0 then
        match bs' with
        | [] => None
        | b2 :: _ => if b2 =? 0 then Some (58 :: skip_text bs') else print
        end
      else print
  end.

(** The text is the blocks, or has one run of zeros left out. *)
Lemma skip_text_shape bs :
  exists n post, bs = replicate n 0 ++ post /\
    (post = [] \/ exists b post', post = b :: post' /\ b <> 0) /\
    (bs <> [] -> skip_text bs = 58 :: join post).
Proof.
  induction bs as [|b bs (n & post & -> & Hpost & IH)]; [exists 0%nat, []; repeat split; [by left|done]|].
  cbn [skip_text]. destruct (b =? 0) eqn:E.
  - assert (b = 0) as -> by lia. exists (S n), post. split; [done|]. split; [done|]. intros _.
    destruct (replicate n 0 ++ post) as [|x l] eqn:El; [|by apply IH].
    apply app_nil in El as [_ ->]. done.
  - exists 0%nat, (b :: replicate n 0 ++ post). split; [done|]. split; [right; eexists _, _; split; [done|lia]|]. done.
Qed.

Lemma start_text_shape bs t :
  start_text true bs = Some t ->
  t = join bs \/
  exists pre n post, bs = pre ++ replicate n 0 ++ post /\ (2 <= n)%nat /\ t = join pre ++ [58; 58] ++ join post.
Proof.
  assert (Hgen : forall first t, start_text first bs = Some t ->
    t = (if first then join bs else tail_text bs) \/
    exists pre n post, bs = pre ++ replicate n 0 ++ post /\ (2 <= n)%nat /\
      t = (if first then join pre else tail_text pre) ++ [58; 58] ++ join post); [|by apply (Hgen true)].
  clear t. induction bs as [|b bs IH]; intros first t; cbn [start_text].
  - intros [= <-]. left. by destruct first.
  - assert (Hprint : (t' ← start_text false bs; Some ((if first then [] else [58]) ++ hex b ++ t')) = Some t ->
      t = (if first then join (b :: bs) else tail_text (b :: bs)) \/
      exists pre n post, b :: bs = pre ++ replicate n 0 ++ post /\ (2 <= n)%nat /\
        t = (if first then join pre else tail_text pre) ++ [58; 58] ++ join post).
    { destruct (start_text false bs) as [t'|] eqn:Et; [|done]. intros [= <-].
      destruct (IH false t' Et) as [->|(pre & n & post & -> & Hn & ->)]; [left; by destruct first|].
      right. exists (b :: pre), n, post. split; [done|]. split; [done|]. destruct first; cbn; by rewrite <- !app_assoc. }
    destruct (b =? 0) eqn:E; [|exact Hprint]. destruct bs as [|b2 bs]; [done|].
    destruct (b2 =? 0) eqn:E2; [|exact Hprint]. intros Ht. clear Hprint IH.
    destruct (skip_text_shape (b2 :: bs)) as (n & post & Hbs & Hpost & Hs).
    rewrite Hs in Ht by done. injection Ht as <-. right. exists [], (S n), post.
    assert (Hn : (1 <= n)%nat).
    { destruct n; [|lia]. cbn in Hbs. destruct Hpost as [->|(x & p & -> & Hx)]; [done|]. injection Hbs as -> _. lia. }
    split; [cbn; rewrite Hbs; f_equal; lia|]. split; [lia|]. by destruct first.
Qed.

(** ** What is printed *)
Section Print.
Context `{Endian} `{LwipMacros}.

(** The words of an address, of its eight blocks. *)
Definition addr_of (bs : list Z) : list Z := List.map lwip_htonl (pack bs).

Lemma word_range a b : is_block a -> is_block b -> 0 <= a * 2 ^ 16 + b < 2 ^ 32.
Proof. unfold is_block. lia. Qed.

Lemma high_half a b : is_block a -> is_block b -> Z.land (Z.shiftr (a * 2 ^ 16 + b) 16) 0xffff = a.
Proof.
  unfold is_block. intros Ha Hb. rewrite Z.shiftr_div_pow2 by lia. change 0xffff with (Z.ones 16).
  rewrite Z.land_ones by lia. lia_mod.
Qed.

Lemma low_half a b : is_block a -> is_block b -> Z.land (a * 2 ^ 16 + b) 0xffff = b.
Proof. unfold is_block. intros Ha Hb. change 0xffff with (Z.ones 16). rewrite Z.land_ones by lia. lia_mod. Qed.

Lemma get_block_word addr k a b x :
  load addr (Z.shiftr k 1) = Some (lwip_htonl (a * 2 ^ 16 + b)) -> is_block a -> is_block b ->
  x = (if Z.land k 1 =? 0 then a else b) -> x = (if Z.land (k - 1) 1 =? 1 then a else b) ->
  get_block addr k = Some x /\ get_next_block addr (k - 1) = Some x.
Proof.
  intros Hl Ha Hb -> Hx. unfold get_block, get_next_block. replace (k - 1 + 1) with k by lia. rewrite Hx at 2. rewrite Hl.
  cbn [mbind option_bind]. rewrite htonl_htonl by (by apply word_range).
  split; [destruct (Z.land k 1 =? 0)|destruct (Z.land (k - 1) 1 =? 1)]; by rewrite ?high_half, ?low_half.
Qed.

Lemma get_block_ok bs k b :
  Forall is_block bs -> length bs = 8%nat -> bs !! k = Some b ->
  get_block (addr_of bs) (Z.of_nat k) = Some b /\ get_next_block (addr_of bs) (Z.of_nat k - 1) = Some b.
Proof.
  intros Hbs Hlen Hk. do 9 (destruct bs as [|? bs]; try done). rewrite !Forall_cons in Hbs.
  destruct_and! Hbs. unfold addr_of. cbn [pack List.map].
  do 8 (destruct k as [|k]; [injection Hk as <-; eapply get_block_word; reflexivity || done|]). done.
Qed.

(** There is none behind the last one. *)
Lemma get_next_block_last bs : length bs = 8%nat -> get_next_block (addr_of bs) 7 = None.
Proof. intros Hlen. by do 9 (destruct bs as [|? bs]; try done). Qed.

Section Puts.
Variable buflen : Z.

Fixpoint puts6 (t : list Z) (s : list Z * Z) : option (option (list Z * Z)) :=
  match t with [] => Some (Some s) | c :: t => and_then (put6 buflen c s) (puts6 t) end.

Lemma puts6_app t1 t2 s : puts6 (t1 ++ t2) s = and_then (puts6 t1 s) (puts6 t2).
Proof.
  revert s. induction t1 as [|c t1 IH]; intros s; [done|]. cbn [app puts6]. rewrite and_then_assoc.
  apply and_then_ext, IH.
Qed.

Lemma puts6_cons_app c t1 t2 s : puts6 (c :: t1 ++ t2) s = and_then (puts6 (c :: t1) s) (puts6 t2).
Proof. apply (puts6_app (c :: t1)). Qed.

Lemma puts6_ok t pre rest :
  size pre + size rest = buflen -> 1 <= size rest ->
  puts6 t (pre ++ rest, size pre) =
    if size t <? size rest
    then Some (Some (pre ++ t ++ drop (length t) rest, size (pre ++ t)))
    else Some None.
Proof.
  revert pre rest. induction t as [|c t IH]; intros pre rest Hb Hr; cbn [puts6].
  - replace (size [] <? size rest) with true by (unfold size in *; cbn; lia).
    cbn [length drop app]. by rewrite app_nil_r.
  - rewrite size_cons. pose proof (size_nonneg t). cbn [put6]. destruct rest as [|x rest].
    { change (size []) with 0 in *. lia. }
    rewrite size_cons in *. rewrite store_mid. cbn [mbind option_bind and_then].
    assert (Hp : size (pre ++ [c]) = size pre + 1) by (by rewrite size_app).
    destruct (buflen <=? size pre + 1) eqn:E; cbn [and_then mbind option_bind].
    + replace (1 + size t <? 1 + size rest) with false by lia. done.
    + specialize (IH (pre ++ [c]) rest ltac:(lia) ltac:(lia)). rewrite Hp, <- app_assoc in IH. cbn [app] in IH. rewrite IH.
      replace (1 + size t <? 1 + size rest) with (size t <? size rest) by lia. cbn [length drop].
      by rewrite <- !app_assoc.
Qed.

(** The digits of a block. *)
Lemma nibble v k : 0 <= k -> Z.shiftr (Z.land v (Z.shiftl 15 k)) k = v / 2 ^ k mod 16.
Proof.
  intros Hk. rewrite Z.shiftr_land, Z.shiftr_shiftl_l, Z.sub_diag by lia. change (Z.shiftl 15 0) with (Z.ones 4).
  rewrite Z.land_ones, Z.shiftr_div_pow2 by lia. done.
Qed.

Lemma nibble_zero v k : 0 <= k -> (Z.land v (Z.shiftl 15 k) =? 0) = (v / 2 ^ k mod 16 =? 0).
Proof.
  intros Hk. rewrite <- nibble by done. apply eq_true_iff_eq. rewrite !Z.eqb_eq.
  split; [by intros ->; apply Z.shiftr_0_l|]. intros Hz. apply Z.bits_inj'. intros i Hi. rewrite Z.bits_0.
  destruct (Z.lt_ge_cases i k).
  - rewrite Z.land_spec, Z.shiftl_spec, (Z.testbit_neg_r 15) by lia. apply andb_false_r.
  - assert (Hb : Z.testbit (Z.shiftr (Z.land v (Z.shiftl 15 k)) k) (i - k) = false) by (by rewrite Hz, Z.bits_0).
    rewrite Z.shiftr_spec in Hb by lia. by replace (i - k + k) with i in Hb by lia.
Qed.

Lemma put_digits_ok v s : is_block v -> put_digits buflen v s = puts6 (hex v) s.
Proof.
  unfold is_block. intros Hv. unfold put_digits, hex. cbn beta zeta.
  change 0xf000 with (Z.shiftl 15 12). change 0xf00 with (Z.shiftl 15 8). change 0xf0 with (Z.shiftl 15 4).
  rewrite !nibble, !nibble_zero by lia.
  assert (E3 : v / 2 ^ 12 mod 16 = v / 2 ^ 12) by (apply Z.mod_small; lia_mod). rewrite E3.
  change (Z.land v 0xf) with (Z.land v (Z.ones 4)). rewrite Z.land_ones by lia. change (v mod 2 ^ 4) with (v mod 16).
  set (n3 := v / 2 ^ 12). set (n2 := v / 2 ^ 8 mod 16). set (n1 := v / 2 ^ 4 mod 16). set (n0 := v mod 16).
  destruct (n3 =? 0), (n2 =? 0), (n1 =? 0); cbn [andb app puts6 and_then mbind option_bind].
  all: repeat (destruct (put6 _ _ _) as [[]|]; cbn [and_then mbind option_bind]); done.
Qed.
End Puts.

(** The loop prints the texts of the specification. *)
Section Loop.
Variable bs : list Z.
Variable buflen : Z.
Hypothesis Hbs : Forall is_block bs.
Hypothesis Hlen : length bs = 8%nat.

(** The separator and the digits of a block. *)
Lemma print_block k b todo flag s :
  bs !! k = Some b ->
  and_then (if 0 <? Z.of_nat k then put6 buflen 58 s else Some (Some s)) (fun s =>
    and_then (put_digits buflen b s) (fun s => print_loop buflen (addr_of bs) todo (Z.of_nat k + 1) flag s)) =
  and_then (puts6 buflen ((if (k =? 0)%nat then [] else [58]) ++ hex b) s)
    (print_loop buflen (addr_of bs) todo (Z.of_nat (S k)) flag).
Proof.
  intros Hb. pose proof (Forall_lookup_1 _ _ _ _ Hbs Hb) as Hblock. replace (Z.of_nat k + 1) with (Z.of_nat (S k)) by lia.
  rewrite puts6_app, and_then_assoc. destruct k as [|k]; cbn [Nat.eqb puts6].
  - cbn [and_then mbind option_bind]. change (0 <? Z.of_nat 0) with false. cbn iota. cbn [and_then mbind option_bind].
    by rewrite put_digits_ok.
  - replace (0 <? Z.of_nat (S k)) with true by lia. rewrite and_then_assoc. apply and_then_ext. intros s1.
    cbn [and_then mbind option_bind]. by rewrite put_digits_ok.
Qed.

Lemma print_tail k todo s :
  (0 < k)%nat -> (k + todo = 8)%nat ->
  print_loop buflen (addr_of bs) todo (Z.of_nat k) 2 s = puts6 buflen (tail_text (drop k bs)) s.
Proof.
  revert k s. induction todo as [|todo IH]; intros k s Hk Ht; [by rewrite drop_ge by lia|].
  destruct (lookup_lt_is_Some_2 bs k) as [b Hb]; [lia|].
  rewrite (drop_S _ _ _ Hb). cbn [print_loop tail_text]. destruct (get_block_ok bs _ b Hbs Hlen Hb) as [-> _].
  cbn [mbind option_bind Z.eqb Pos.eqb]. rewrite andb_false_r, print_block by done.
  rewrite puts6_cons_app. replace (k =? 0)%nat with false by (symmetry; apply Nat.eqb_neq; lia).
  destruct (b =? 0); apply and_then_ext; intros s1; apply IH; lia.
Qed.

Lemma print_skip k todo s :
  (0 < k)%nat -> (k + todo = 8)%nat ->
  print_loop buflen (addr_of bs) todo (Z.of_nat k) 1 s = puts6 buflen (skip_text (drop k bs)) s.
Proof.
  revert k s. induction todo as [|todo IH]; intros k s Hk Ht; [by rewrite drop_ge by lia|].
  destruct (lookup_lt_is_Some_2 bs k) as [b Hb]; [lia|].
  rewrite (drop_S _ _ _ Hb). cbn [print_loop skip_text]. destruct (get_block_ok bs _ b Hbs Hlen Hb) as [-> _].
  cbn [mbind option_bind Z.eqb Pos.eqb]. rewrite andb_true_r, print_block by done.
  destruct (b =? 0) eqn:E.
  - destruct todo as [|todo].
    + rewrite (drop_ge bs (S k)) by lia. replace (Z.of_nat k =? 7) with true by lia. cbn [puts6].
      by destruct (put6 _ _ _) as [[]|].
    + replace (Z.of_nat k =? 7) with false by lia. replace (Z.of_nat k + 1) with (Z.of_nat (S k)) by lia.
      rewrite IH by lia. destruct (lookup_lt_is_Some_2 bs (S k)) as [b' Hb']; [lia|]. by rewrite (drop_S _ _ _ Hb').
  - cbn [tail_text]. rewrite puts6_cons_app.
    replace (k =? 0)%nat with false by (symmetry; apply Nat.eqb_neq; lia).
    apply and_then_ext. intros s1. apply print_tail; lia.
Qed.

(** A fault is the look behind the last block, after the text before it. *)
Definition starts (k todo : nat) (r : option (list Z)) (f : list Z * Z -> option (option (list Z * Z))) : Prop :=
  match r with
  | Some t => forall s, f s = puts6 buflen t s
  | None => exists t, size t <= 5 * Z.of_nat todo - 5 /\ forall s, f s = and_then (puts6 buflen t s) (fun _ => None)
  end.

Lemma starts_ext k todo r f g : (forall s, g s = f s) -> starts k todo r f -> starts k todo r g.
Proof.
  intros Hfg. destruct r as [t|]; cbn [starts]; [intros Hf s; by rewrite Hfg|].
  intros (t & Ht & Hf). exists t. split; [done|]. intros s. by rewrite Hfg.
Qed.

Lemma starts_print k todo b r f :
  starts (S k) todo r f ->
  starts k (S todo) (t ← r; Some ((if (k =? 0)%nat then [] else [58]) ++ hex b ++ t))
    (fun s => and_then (puts6 buflen ((if (k =? 0)%nat then [] else [58]) ++ hex b) s) f).
Proof.
  set (p := (if (k =? 0)%nat then [] else [58]) ++ hex b).
  assert (Hp : size p <= 5) by (unfold p; rewrite size_app; pose proof (hex_size b); destruct (k =? 0)%nat; unfold size in *; cbn; lia).
  destruct r as [t|]; cbn [starts mbind option_bind].
  - intros Hf s. rewrite app_assoc. fold p. rewrite puts6_app. apply and_then_ext, Hf.
  - intros (t & Hsize & Hf). exists (p ++ t). split; [rewrite size_app; lia|]. intros s.
    rewrite puts6_app, and_then_assoc. apply and_then_ext, Hf.
Qed.

Lemma print_start k todo :
  (k + todo = 8)%nat ->
  starts k todo (start_text (k =? 0)%nat (drop k bs)) (print_loop buflen (addr_of bs) todo (Z.of_nat k) 0).
Proof.
  revert k. induction todo as [|todo IH]; intros k Ht; [by rewrite drop_ge by lia|].
  destruct (lookup_lt_is_Some_2 bs k) as [b Hb]; [lia|]. rewrite (drop_S _ _ _ Hb). cbn [start_text].
  pose proof (starts_print k todo b _ _ (IH (S k) ltac:(lia))) as Hprint. cbn [Nat.eqb] in Hprint.
  assert (Hloop : forall s, print_loop buflen (addr_of bs) (S todo) (Z.of_nat k) 0 s =
    let print := and_then (puts6 buflen ((if (k =? 0)%nat then [] else [58]) ++ hex b) s)
                   (print_loop buflen (addr_of bs) todo (Z.of_nat (S k)) 0) in
    if b =? 0 then
      next ← get_next_block (addr_of bs) (Z.of_nat k);
      if next =? 0 then and_then (put6 buflen 58 s) (print_loop buflen (addr_of bs) todo (Z.of_nat k + 1) 1) else print
    else print).
  { intros s. cbn [print_loop]. destruct (get_block_ok bs _ b Hbs Hlen Hb) as [-> _].
    cbn [mbind option_bind Z.eqb Pos.eqb]. by rewrite andb_false_r, print_block. }
  cbv zeta in Hloop. destruct (b =? 0) eqn:E; [|exact (starts_ext _ _ _ _ _ Hloop Hprint)].
  destruct todo as [|todo].
  - rewrite (drop_ge bs (S k)) by lia. exists []. split; [done|]. intros s. rewrite Hloop.
    replace (Z.of_nat k) with 7 by lia. by rewrite get_next_block_last.
  - destruct (lookup_lt_is_Some_2 bs (S k)) as [b2 Hb2]; [lia|]. destruct (get_block_ok bs _ b2 Hbs Hlen Hb2) as [_ Hnext].
    replace (Z.of_nat (S k) - 1) with (Z.of_nat k) in Hnext by lia. rewrite Hnext in Hloop. cbn [mbind option_bind] in Hloop.
    rewrite (drop_S _ _ _ Hb2) in *. destruct (b2 =? 0) eqn:E2; [|exact (starts_ext _ _ _ _ _ Hloop Hprint)].
    intros s. rewrite Hloop. cbn [puts6]. apply and_then_ext. intros s1.
    replace (Z.of_nat k + 1) with (Z.of_nat (S k)) by lia. rewrite print_skip by lia. by rewrite (drop_S _ _ _ Hb2).
Qed.
End Loop.
End Print.
(** The text is at most 39 characters long. *)
Lemma tail_size bs : size (tail_text bs) <= 5 * size bs.
Proof.
  induction bs as [|b bs IH]; [done|]. cbn [tail_text]. rewrite !size_cons, size_app. pose proof (hex_size b). lia.
Qed.

Lemma skip_size bs : size (skip_text bs) <= 5 * size bs.
Proof.
  induction bs as [|b bs IH]; [done|]. cbn [skip_text]. destruct (b =? 0); [|apply tail_size]. rewrite size_cons.
  destruct bs; [unfold size in *; cbn; lia|lia].
Qed.

Lemma start_size bs first t :
  start_text first bs = Some t -> bs <> [] -> size t <= 5 * size bs - (if first then 1 else 0).
Proof.
  revert first t. induction bs as [|b bs IH]; intros first t; [done|]. cbn [start_text]. intros Ht _.
  assert (Hprint : forall t, (t' ← start_text false bs; Some ((if first then [] else [58]) ++ hex b ++ t')) = Some t ->
    size t <= 5 * size (b :: bs) - (if first then 1 else 0)).
  { intros t0. rewrite size_cons. pose proof (hex_size b). destruct bs as [|b2 bs].
    - intros [= <-]. rewrite !size_app. destruct first; unfold size in *; cbn; lia.
    - destruct (start_text false (b2 :: bs)) as [t'|] eqn:Et; [|done]. intros [= <-].
      specialize (IH false t' Et ltac:(done)). rewrite !size_app.
      assert (size (if first then [] else [58]) = if first then 0 else 1) as -> by (by destruct first).
      cbn iota in IH. destruct first; lia. }
  destruct (b =? 0); [|by apply Hprint]. destruct bs as [|b2 bs]; [done|]. destruct (b2 =? 0); [|by apply Hprint].
  assert (t = 58 :: skip_text (b2 :: bs)) as -> by congruence. pose proof (skip_size (b2 :: bs)).
  rewrite size_cons, (size_cons b). destruct first; lia.
Qed.

(** ** What is read *)
Section Read.
Context `{Endian} `{LwipMacros}.

(** The state with the blocks [bs] stored, and [v] read of the next one. *)
Definition st (ws : list Z) (bs : list Z) (v : Z) : blocks :=
  mkBlocks (Some (pack bs ++ drop (length (pack bs)) ws)) (Z.of_nat (length bs / 2)) (Z.of_nat (length bs)) v.

(** The last block of [bs] has been read but not stored. *)
Definition pend (ws : list Z) (bs : list Z) : blocks := st ws (removelast bs) (List.last bs 0).

Lemma pend_snoc ws bs v : pend ws (bs ++ [v]) = st ws bs v.
Proof. unfold pend. by rewrite removelast_last, last_last. Qed.

Lemma pack_app k bs l :
  length bs = (2 * k)%nat -> pack (bs ++ l) = pack bs ++ pack l /\ length (pack bs) = k.
Proof.
  revert bs. induction k as [|k IH]; intros bs Hbs; [by destruct bs|].
  destruct bs as [|b1 [|b2 bs]]; try (cbn in Hbs; lia). destruct (IH bs) as [He Hl]; [cbn in Hbs; lia|].
  cbn [pack app length]. by rewrite He, Hl.
Qed.

(** An even number of blocks, or one more. *)
Lemma even_or_odd (bs : list Z) :
  exists k, length bs = (2 * k)%nat \/ exists bs' a, bs = bs' ++ [a] /\ length bs' = (2 * k)%nat.
Proof.
  destruct (Nat.Even_or_Odd (length bs)) as [[k Hk]|[k Hk]]; exists k; [by left|right].
  destruct bs as [|a bs' _] using rev_ind; [cbn in Hk; lia|]. exists bs', a. split; [done|].
  rewrite length_app in Hk. cbn in Hk. lia.
Qed.

Lemma st_even ws bs k v :
  length bs = (2 * k)%nat ->
  st ws bs v = mkBlocks (Some (pack bs ++ drop k ws)) (size (pack bs)) (Z.of_nat (2 * k)) v /\ size (pack bs) = Z.of_nat k.
Proof.
  intros Hbs. destruct (pack_app k bs [] Hbs) as [_ Hl]. unfold st, size. rewrite Hbs, Hl. split; [|done].
  f_equal. rewrite Nat.mul_comm, Nat.div_mul; lia.
Qed.

Lemma st_odd ws bs a k v :
  length bs = (2 * k)%nat ->
  st ws (bs ++ [a]) v = mkBlocks (Some (pack bs ++ a * 2 ^ 16 :: drop (S k) ws)) (size (pack bs)) (Z.of_nat (2 * k) + 1) v.
Proof.
  intros Hbs. destruct (pack_app k bs [a] Hbs) as [He Hl]. unfold st, size. rewrite He, !length_app, Hl, Hbs. cbn [length pack].
  rewrite <- app_assoc. cbn [app]. replace (k + 1)%nat with (S k) by lia. f_equal; [|lia]. f_equal.
  rewrite Nat.mul_comm, Nat.div_add_l; cbn; lia.
Qed.

Lemma flush_ok ws bs v x :
  length ws = 4%nat -> (length bs <= 7)%nat -> is_block v ->
  exists b, flush (st ws bs v) = Some b /\ block_index b = Z.of_nat (length bs) /\
    mkBlocks (words b) (addr_index b) (block_index b + 1) x = st ws (bs ++ [v]) x.
Proof.
  unfold is_block. intros Hw Hbs Hv. destruct (even_or_odd bs) as (k & [Hk|(bs' & a & -> & Hk)]).
  - destruct (st_even ws bs k v Hk) as [-> Hs]. unfold flush. cbn [words block_index addr_index block_value].
    replace (Z.odd _) with false by (rewrite Nat2Z.inj_mul; symmetry; by rewrite Z.odd_mul).
    destruct (lookup_lt_is_Some_2 ws k) as [w Hwk]; [lia|]. rewrite (drop_S _ _ _ Hwk), store_mid. cbn [mbind option_bind].
    eexists. split; [done|]. split; [cbn; lia|]. cbn [words block_index addr_index]. rewrite (st_odd _ _ _ k) by done.
    unfold u32. rewrite Z.shiftl_mul_pow2, Z.mod_small by lia. done.
  - rewrite length_app in Hbs. cbn [length] in Hbs. rewrite (st_odd _ _ _ k) by done. unfold flush.
    cbn [words block_index addr_index block_value].
    replace (Z.odd _) with true by (rewrite Nat2Z.inj_mul, Z.odd_add, Z.odd_mul; done).
    rewrite (load_mid (pack bs') [a * 2 ^ 16] (drop (S k) ws) _ 0 (a * 2 ^ 16)) by (done || lia). cbn [mbind option_bind].
    rewrite store_mid. cbn [mbind option_bind]. eexists. split; [done|]. rewrite length_app, Hk. cbn [length].
    split; [cbn [block_index]; lia|]. cbn [words block_index addr_index].
    destruct (st_even ws ((bs' ++ [a]) ++ [v]) (S k) x) as [-> Hs]; [rewrite !length_app, Hk; cbn; lia|].
    destruct (pack_app k bs' [a; v] Hk) as [He Hl]. rewrite <- app_assoc in *. cbn [app] in *. rewrite He in *. cbn [pack] in *.
    rewrite Hs, <- app_assoc. cbn [app].
    rewrite Z.lor_comm, <- Z.shiftl_mul_pow2, lor_shift, Z.shiftl_mul_pow2, Z.add_comm by lia.
    f_equal; unfold size; lia.
Qed.

(** Blocks of zeros. *)
Lemma zero_loop_ok ws n bs v fuel :
  length ws = 4%nat -> (length bs + n <= 7)%nat -> (n < fuel)%nat ->
  zero_loop fuel (st ws bs v) (Z.of_nat n) = Some (true, st ws (bs ++ replicate n 0) v).
Proof.
  revert bs fuel. induction n as [|n IH]; intros bs [|fuel] Hw Hbs Hf; try lia; cbn [zero_loop].
  - cbn. by rewrite app_nil_r.
  - replace (0 <? Z.of_nat (S n)) with true by lia. cbn [negb].
    assert (Hu : u32 (Z.of_nat (S n) - 1) = Z.of_nat n) by (unfold u32; rewrite Z.mod_small; lia). rewrite Hu.
    specialize (IH (bs ++ [0]) fuel Hw ltac:(rewrite length_app; cbn; lia) ltac:(lia)).
    rewrite <- app_assoc in IH. cbn [app replicate] in *. rewrite <- IH. clear IH.
    destruct (even_or_odd bs) as (k & [Hk|(bs' & a & -> & Hk)]).
    + destruct (st_even ws bs k v Hk) as [-> Hs]. cbn [words block_index addr_index block_value].
      replace (Z.odd _) with false by (rewrite Nat2Z.inj_mul; symmetry; by rewrite Z.odd_mul).
      destruct (lookup_lt_is_Some_2 ws k) as [w Hwk]; [lia|]. rewrite (drop_S _ _ _ Hwk), store_mid. cbn [mbind option_bind].
      rewrite (st_odd _ _ _ k) by done. cbn [words block_index addr_index block_value].
      replace (7 <? _) with false by lia. done.
    + rewrite length_app in Hbs. cbn [length] in Hbs. rewrite (st_odd _ _ _ k) by done.
      cbn [words block_index addr_index block_value].
      replace (Z.odd _) with true by (rewrite Nat2Z.inj_mul, Z.odd_add, Z.odd_mul; done). cbn [mbind option_bind].
      cbn [words block_index addr_index block_value]. replace (7 <? _) with false by lia. f_equal.
      destruct (st_even ws ((bs' ++ [a]) ++ [0]) (S k) v) as [-> Hs]; [rewrite !length_app, Hk; cbn; lia|].
      destruct (pack_app k bs' [a; 0] Hk) as [He Hl]. rewrite <- app_assoc in *. cbn [app] in *. rewrite He in *. cbn [pack] in *.
      rewrite Hs, <- app_assoc. cbn [app]. f_equal; [|unfold size; lia..]. by rewrite Z.add_0_r.
Qed.

(** Digits. *)
Lemma xchar_ok n :
  0 <= n < 16 -> let c := lwip_xchar n in
  lwip_isxdigit c = true /\ hex_value c = n /\ c <> 0 /\ c <> 58 /\ c <> 46.
Proof.
  intros Hn. cbv zeta. unfold lwip_xchar, hex_value, u32. rewrite isxdigit_ok, isdigit_ok, islower_ok.
  destruct (n <? 10) eqn:E; repeat split; try lia.
  - replace ((48 <=? 48 + n) && (48 + n <=? 57)) with true by lia. rewrite Z.mod_small; lia.
  - replace ((48 <=? 65 + n - 10) && (65 + n - 10 <=? 57)) with false by lia.
    replace ((97 <=? 65 + n - 10) && (65 + n - 10 <=? 122)) with false by lia. rewrite Z.mod_small; lia.
Qed.

Definition is_xchar (c : Z) : Prop := exists n, 0 <= n < 16 /\ c = lwip_xchar n.

Definition read_hex (val : Z) (ds : list Z) : Z := foldl (fun v c => u32 (u32 (Z.shiftl v 4) + hex_value c)) val ds.

Lemma read_digit v n ds :
  0 <= v < 2 ^ 12 -> 0 <= n < 16 -> read_hex v (lwip_xchar n :: ds) = read_hex (v * 16 + n) ds.
Proof.
  intros Hv Hn. unfold read_hex. cbn [foldl]. f_equal. destruct (xchar_ok n Hn) as (_ & -> & _). unfold u32.
  rewrite Z.shiftl_mul_pow2, (Z.mod_small (v * 2 ^ 4)) by lia. apply Z.mod_small. lia.
Qed.

Lemma hex_ok v : is_block v -> Forall is_xchar (hex v) /\ read_hex 0 (hex v) = v.
Proof.
  unfold is_block. intros Hv. unfold hex. cbn zeta.
  set (n3 := v / 2 ^ 12). set (n2 := v / 2 ^ 8 mod 16). set (n1 := v / 2 ^ 4 mod 16). set (n0 := v mod 16).
  assert (Hn : (0 <= n3 < 16 /\ 0 <= n2 < 16 /\ 0 <= n1 < 16 /\ 0 <= n0 < 16) /\ v = ((n3 * 16 + n2) * 16 + n1) * 16 + n0)
    by (unfold n3, n2, n1, n0; lia_mod). destruct Hn as [(H3 & H2' & H1' & H0') Hsum]. clearbody n3 n2 n1 n0.
  assert (Hc : forall n, 0 <= n < 16 -> is_xchar (lwip_xchar n)) by (intros n Hn'; by exists n).
  destruct (n3 =? 0) eqn:E3, (n2 =? 0) eqn:E2, (n1 =? 0) eqn:E1; cbn [andb app].
  all: split; [repeat (apply Forall_cons; split; [by apply Hc|]); by apply Forall_nil|].
  all: rewrite !read_digit by lia; cbn [read_hex foldl]; lia.
Qed.

Lemma digits_read ws bs ds pre post fuel val z chk :
  Forall is_xchar ds ->
  block_loop (pre ++ ds ++ post) (length ds + fuel) (size pre) (st ws bs val) z chk
    = block_loop (pre ++ ds ++ post) fuel (size (pre ++ ds)) (st ws bs (read_hex val ds)) z chk.
Proof.
  intros Hds. revert pre val. induction Hds as [|c ds (n & Hn & ->) _ IH]; intros pre val; [by rewrite app_nil_r|].
  destruct (xchar_ok n Hn) as (Hx & Hv & H1 & H2' & _). cbn [length Nat.add block_loop].
  rewrite (load_mid pre (lwip_xchar n :: ds) post _ 0 (lwip_xchar n)) by (done || lia). cbn [mbind option_bind].
  replace (lwip_xchar n =? 0) with false by lia. replace (lwip_xchar n =? 58) with false by lia. rewrite Hx.
  specialize (IH (pre ++ [lwip_xchar n]) (u32 (u32 (Z.shiftl val 4) + hex_value (lwip_xchar n)))).
  rewrite <- !app_assoc in IH. cbn [app] in *. rewrite size_app in IH. exact IH.
Qed.

(** A block's digits at [pre]; then a colon that is followed by another block. *)
Lemma block_read ws bs b pre post fuel z chk :
  is_block b ->
  block_loop (pre ++ hex b ++ post) (length (hex b) + fuel) (size pre) (st ws bs 0) z chk
    = block_loop (pre ++ hex b ++ post) fuel (size (pre ++ hex b)) (st ws bs b) z chk.
Proof. intros Hb. destruct (hex_ok b Hb) as [Hx Hv]. by rewrite digits_read, Hv. Qed.

Lemma hex_first b : is_block b -> exists c ds, hex b = c :: ds /\ is_xchar c.
Proof.
  intros Hb. destruct (hex_ok b Hb) as [Hx _]. pose proof (hex_size b) as Hs.
  destruct (hex b) as [|c ds]; [change (size []) with 0 in Hs; lia|].
  exists c, ds. apply Forall_cons in Hx as [Hx _]. done.
Qed.

Lemma colon_read ws bs v b pre post z :
  length ws = 4%nat -> (length bs < 7)%nat -> is_block v -> is_block b ->
  on_colon (pre ++ 58 :: hex b ++ post) (size pre) (st ws bs v) z false
    = Some (inr (size (pre ++ [58]), st ws (bs ++ [v]) 0, z)).
Proof.
  intros Hw Hbs Hv Hb. unfold on_colon. destruct (flush_ok ws bs v 0 Hw ltac:(lia) Hv) as (b' & -> & Hi & Hst).
  cbn [mbind option_bind]. cbn [words addr_index block_index block_value andb mbind option_bind]. rewrite Hi in *.
  destruct (hex_first b Hb) as (c & ds & Hc & n & Hn & ->). destruct (xchar_ok n Hn) as (_ & _ & _ & H2' & _).
  replace (7 <? _) with false by lia. rewrite Hc.
  assert (Hl : load (pre ++ 58 :: (lwip_xchar n :: ds) ++ post) (size pre + 1) = Some (lwip_xchar n))
    by (by apply (load_mid pre (58 :: lwip_xchar n :: ds) post _ 1)). rewrite Hl. cbn [mbind option_bind].
  replace (lwip_xchar n =? 58) with false by lia. rewrite size_app. change (size [58]) with 1. by rewrite Hst.
Qed.

(** Blocks behind a block. *)
Lemma tail_read ws bs v post pre rest fuel z :
  length ws = 4%nat -> (length bs + length post <= 7)%nat -> is_block v -> Forall is_block post ->
  block_loop (pre ++ tail_text post ++ rest) (length (tail_text post) + fuel) (size pre) (st ws bs v) z false
    = block_loop (pre ++ tail_text post ++ rest) fuel (size (pre ++ tail_text post)) (pend ws (bs ++ v :: post)) z false.
Proof.
  intros Hw Hlen Hv Hpost. revert bs v pre Hlen Hv. induction Hpost as [|b post Hb _ IH]; intros bs v pre Hlen Hv.
  - cbn. rewrite app_nil_r, pend_snoc. done.
  - cbn [length] in Hlen. cbn [tail_text]. cbn [app length Nat.add block_loop].
    rewrite (load_mid pre (58 :: hex b ++ tail_text post) rest _ 0 58) by (done || lia). cbn [mbind option_bind Z.eqb Pos.eqb].
    rewrite <- app_assoc, colon_read by (done || lia). cbn [mbind option_bind]. rewrite length_app, <- Nat.add_assoc.
    pose proof (block_read ws (bs ++ [v]) b (pre ++ [58]) (tail_text post ++ rest) (length (tail_text post) + fuel) z false Hb) as Hx.
    rewrite <- !app_assoc in Hx. cbn [app] in Hx. rewrite Hx.
    specialize (IH (bs ++ [v]) b (pre ++ 58 :: hex b)). rewrite length_app in IH. cbn [length] in IH.
    specialize (IH ltac:(lia) Hb). rewrite <- !app_assoc in IH. cbn [app] in *. rewrite <- ?app_assoc in *. exact IH.
Qed.

(** Blocks with colons between them, where a block starts. *)
Definition after (ws bs post : list Z) : blocks := match post with [] => st ws bs 0 | _ => pend ws (bs ++ post) end.

Lemma join_read ws bs post pre rest fuel z :
  length ws = 4%nat -> (length bs + length post <= 8)%nat -> Forall is_block post ->
  block_loop (pre ++ join post ++ rest) (length (join post) + fuel) (size pre) (st ws bs 0) z false
    = block_loop (pre ++ join post ++ rest) fuel (size (pre ++ join post)) (after ws bs post) z false.
Proof.
  intros Hw Hlen Hpost. destruct Hpost as [|b post Hb Hpost]; [by rewrite app_nil_r|].
  cbn [join length after] in *. rewrite <- app_assoc, length_app, <- Nat.add_assoc, block_read by done.
  pose proof (tail_read ws bs b post (pre ++ hex b) rest fuel z Hw ltac:(lia) Hb Hpost) as Hx.
  rewrite <- !app_assoc in Hx. exact Hx.
Qed.

(** Two colons in a row. *)
Lemma double_read ws bs v n post pre rest :
  length ws = 4%nat -> (length bs + 1 + n <= 7)%nat -> is_block v -> Forall is_block post ->
  on_colon (pre ++ 58 :: 58 :: join post ++ 0 :: rest) (size pre) (st ws bs v) (Z.of_nat n) false
    = Some (inr (size (pre ++ [58; 58]), st ws ((bs ++ [v]) ++ replicate n 0) 0, 0)).
Proof.
  intros Hw Hbs Hv Hpost. unfold on_colon. destruct (flush_ok ws bs v 0 Hw ltac:(lia) Hv) as (b' & -> & Hi & Hst).
  cbn [mbind option_bind]. cbn [words addr_index block_index block_value andb mbind option_bind]. rewrite Hi in *.
  replace (7 <? _) with false by lia.
  assert (Hl : load (pre ++ 58 :: 58 :: join post ++ 0 :: rest) (size pre + 1) = Some 58)
    by (by apply (load_mid pre [58; 58] (join post ++ 0 :: rest) _ 1)).
  rewrite Hl. cbn [mbind option_bind Z.eqb Pos.eqb]. clear Hl.
  assert (Hl : exists c, load (pre ++ 58 :: 58 :: join post ++ 0 :: rest) (size pre + 2) = Some c /\ c <> 58).
  { destruct Hpost as [|b post Hb _]; [exists 0; split; [by apply (load_mid pre [58; 58; 0] rest _ 2)|done]|].
    destruct (hex_first b Hb) as (c & ds & Hc & n' & Hn & ->). destruct (xchar_ok n' Hn) as (_ & _ & _ & H2' & _).
    exists (lwip_xchar n'). split; [|done]. cbn [join]. rewrite Hc, <- !app_assoc.
    by apply (load_mid pre [58; 58; lwip_xchar n'] (ds ++ tail_text post ++ 0 :: rest) _ 2). }
  destruct Hl as (c & -> & Hc). cbn [mbind option_bind]. replace (c =? 58) with false by lia. rewrite Hst.
  rewrite zero_loop_ok by (rewrite ?length_app; cbn [length]; lia). cbn [mbind option_bind]. by rewrite size_app.
Qed.

(** Colons are counted. *)
Fixpoint colons (t : list Z) : nat := match t with [] => 0 | c :: t => (if c =? 58 then 1 else 0) + colons t end.

Lemma count_read t pre post fuel z :
  Forall (fun c => is_xchar c \/ c = 58) t -> Z.of_nat (colons t) <= z <= 8 ->
  count_loop (pre ++ t ++ post) (length t + fuel) (size pre) z
    = count_loop (pre ++ t ++ post) fuel (size (pre ++ t)) (z - Z.of_nat (colons t)).
Proof.
  intros Ht. revert pre z. induction Ht as [|c t Hc _ IH]; intros pre z Hz.
  - cbn. rewrite app_nil_r. f_equal. lia.
  - cbn [length Nat.add count_loop]. rewrite (load_mid pre (c :: t) post _ 0 c) by (done || lia). cbn [mbind option_bind].
    cbn [colons] in *. specialize (IH (pre ++ [c])). rewrite <- !app_assoc, size_app in IH. cbn [app] in *.
    change (size [c]) with 1 in IH. destruct Hc as [(n & Hn & ->)| ->].
    + destruct (xchar_ok n Hn) as (Hx & _ & H0' & H58 & H46). replace (lwip_xchar n =? 0) with false by lia.
      replace (lwip_xchar n =? 58) with false in * by lia. replace (lwip_xchar n =? 46) with false by lia. rewrite Hx.
      cbn [negb]. rewrite IH by lia. done.
    + cbn [Z.eqb Pos.eqb] in *. assert (Hu : u32 (z - 1) = z - 1) by (unfold u32; rewrite Z.mod_small; lia). rewrite Hu.
      rewrite IH by lia. f_equal. lia.
Qed.

Definition text_char (c : Z) : Prop := is_xchar c \/ c = 58.

Lemma colons_app t1 t2 : colons (t1 ++ t2) = (colons t1 + colons t2)%nat.
Proof. induction t1 as [|c t1 IH]; [done|]. cbn [app colons]. rewrite IH. lia. Qed.

Lemma hex_text b : is_block b -> Forall text_char (hex b) /\ colons (hex b) = 0%nat.
Proof.
  intros Hb. destruct (hex_ok b Hb) as [Hx _]. induction Hx as [|c t (n & Hn & ->) _ [IH1 IH2]]; [done|].
  split; [apply Forall_cons; split; [left; by exists n|done]|]. destruct (xchar_ok n Hn) as (_ & _ & _ & H58 & _).
  cbn [colons]. by replace (lwip_xchar n =? 58) with false by lia.
Qed.

Lemma tail_text_chars bs : Forall is_block bs -> Forall text_char (tail_text bs) /\ colons (tail_text bs) = length bs.
Proof.
  induction 1 as [|b bs Hb _ [IH1 IH2]]; [done|]. destruct (hex_text b Hb) as [Hx Hc]. cbn [tail_text colons length].
  rewrite colons_app, Hc, IH2. split; [|done]. apply Forall_cons. split; [by right|]. by apply Forall_app.
Qed.

Lemma join_chars bs : Forall is_block bs -> Forall text_char (join bs) /\ colons (join bs) = (length bs - 1)%nat.
Proof.
  intros Hbs. destruct Hbs as [|b bs Hb Hbs]; [done|]. destruct (hex_text b Hb) as [Hx Hc].
  destruct (tail_text_chars bs Hbs) as [Ht Hct]. cbn [join length]. rewrite colons_app, Hc, Hct.
  split; [by apply Forall_app|lia].
Qed.

(** The end of the text. *)
Lemma count_end m fuel s z : load m s = Some 0 -> count_loop m (S fuel) s z = Some (Some (z, false)).
Proof. intros Hl. cbn [count_loop]. by rewrite Hl. Qed.

Lemma block_end m fuel s b z chk : load m s = Some 0 -> block_loop m (S fuel) s b z chk = Some (Done b).
Proof. intros Hl. cbn [block_loop]. by rewrite Hl. Qed.

Lemma finish_ok ws bs v :
  length ws = 4%nat -> length bs = 7%nat -> is_block v ->
  (b ← flush (st ws bs v); Some (finish b)) = Some (true, Some (addr_of (bs ++ [v]))).
Proof.
  intros Hw Hbs Hv. destruct (flush_ok ws bs v 0 Hw ltac:(lia) Hv) as (b & -> & Hi & Hst). cbn [mbind option_bind].
  unfold finish. rewrite Hi, Hbs. apply (f_equal words) in Hst. cbn [words] in Hst. rewrite Hst. unfold st. cbn [words option_map].
  destruct (pack_app 4 (bs ++ [v]) []) as [_ Hl]; [rewrite length_app, Hbs; done|]. rewrite Hl, drop_ge by lia.
  by rewrite app_nil_r.
Qed.

(** Reading is the count of the colons, the loop over the blocks, and the end. *)
Lemma aton_read t rest ws bs :
  length ws = 4%nat -> Forall is_block bs -> length bs = 8%nat -> Forall text_char t -> (colons t <= 8)%nat ->
  (forall k, exists k' z', block_loop (t ++ 0 :: rest) (length t + S k) 0 (st ws [] 0) (Z.of_nat (8 - colons t)) false
     = block_loop (t ++ 0 :: rest) (S k') (size t) (pend ws bs) z' false) ->
  ip6addr_aton (t ++ 0 :: rest) 0 (Some ws) = Some (true, Some (addr_of bs)).
Proof.
  intros Hw Hbs Hlen Ht Hc Hloop. unfold ip6addr_aton.
  replace (S (length (t ++ 0 :: rest))) with (length t + S (S (length rest)))%nat by (rewrite length_app; cbn; lia).
  pose proof (count_read t [] (0 :: rest) (S (S (length rest))) 8 Ht ltac:(lia)) as Hcount. cbn [app] in Hcount.
  change (size []) with 0 in Hcount. rewrite Hcount. clear Hcount.
  assert (Hl : load (t ++ 0 :: rest) (size t) = Some 0) by (by apply (load_mid t [0] rest _ 0); [lia|]).
  rewrite count_end by done. cbn [mbind option_bind]. replace (8 - Z.of_nat (colons t)) with (Z.of_nat (8 - colons t)) by lia.
  destruct (Hloop (S (length rest))) as (k' & z' & Hx). change (mkBlocks (Some ws) 0 0 0) with (st ws [] 0).
  rewrite Hx, block_end by done. cbn [mbind option_bind].
  destruct bs as [|v bs _] using rev_ind; [done|]. rewrite pend_snoc. rewrite length_app in Hlen. cbn in Hlen.
  apply Forall_app in Hbs as [_ Hv]. apply Forall_cons in Hv as [Hv _]. apply finish_ok; (done || lia).
Qed.

Lemma aton_join bs rest ws :
  length ws = 4%nat -> Forall is_block bs -> length bs = 8%nat ->
  ip6addr_aton (join bs ++ 0 :: rest) 0 (Some ws) = Some (true, Some (addr_of bs)).
Proof.
  intros Hw Hbs Hlen. destruct (join_chars bs Hbs) as [Ht Hc]. apply aton_read; [done..|lia|]. intros k.
  exists k, (Z.of_nat (8 - colons (join bs))).
  pose proof (join_read ws [] bs [] (0 :: rest) (S k) (Z.of_nat (8 - colons (join bs))) Hw ltac:(cbn; lia) Hbs) as Hx.
  cbn [app] in Hx. change (size []) with 0 in Hx. rewrite Hx. by destruct bs.
Qed.

(** A block without digits is zero. *)
Definition or_zero (bs : list Z) : list Z := if bool_decide (bs = []) then [0] else bs.

Lemma after_pend ws bs post : after ws bs post = pend ws (bs ++ or_zero post).
Proof. destruct post; [|done]. symmetry. apply pend_snoc. Qed.

Lemma fill_gap pre n post :
  (2 <= n)%nat ->
  or_zero pre ++ replicate (n - (if bool_decide (pre = []) then 1 else 0) - (if bool_decide (post = []) then 1 else 0)) 0
    ++ or_zero post = pre ++ replicate n 0 ++ post.
Proof.
  intros Hn. destruct n as [|[|n]]; try lia. unfold or_zero.
  destruct pre as [|b1 pre], post as [|b2 post]; repeat case_bool_decide; simplify_eq; cbn [Nat.sub app]; rewrite ?Nat.sub_0_r;
    cbn [replicate app]; rewrite ?app_nil_r, <- ?replicate_S_end; done.
Qed.

(** The loop over a text that leaves blocks out: [n] zeros of [bs]. *)
Lemma gap_loop pre n post rest ws t k :
  t = join pre ++ [58; 58] ++ join post ->
  length ws = 4%nat -> Forall is_block pre -> Forall is_block post -> (2 <= n)%nat -> (length pre + n + length post = 8)%nat ->
  (8 - colons t = n - (if bool_decide (pre = []) then 1 else 0) - (if bool_decide (post = []) then 1 else 0))%nat ->
  block_loop (t ++ 0 :: rest) (length t + S k) 0 (st ws [] 0) (Z.of_nat (8 - colons t)) false
    = block_loop (t ++ 0 :: rest) (S (S k)) (size t) (pend ws (pre ++ replicate n 0 ++ post)) 0 false.
Proof.
  intros -> Hw Hpre Hpost Hn Hlen ->. set (z := (n - _ - _)%nat).
  assert (Hfirst : exists p v, is_block v /\ after ws [] pre = st ws p v /\ p ++ [v] = (if bool_decide (pre = []) then [0] else pre)).
  { destruct pre as [|v p _] using rev_ind; [exists [], 0; done|]. exists p, v. apply Forall_app in Hpre as [_ Hv].
    apply Forall_cons in Hv as [Hv _]. split; [done|]. rewrite bool_decide_false by (by destruct p).
    split; [|done]. unfold after. destruct (p ++ [v]) eqn:E; [by destruct p|]. rewrite <- E. apply pend_snoc. }
  destruct Hfirst as (p & v & Hv & Hafter & Hp).
  assert (Hpl : (length p + 1 = if bool_decide (pre = []) then 1 else length pre)%nat).
  { apply (f_equal length) in Hp. rewrite length_app in Hp. cbn [length] in Hp. rewrite Hp. by case_bool_decide. }
  pose proof (join_read ws [] pre [] ([58; 58] ++ join post ++ 0 :: rest) (S (length (join post) + S (S k))) (Z.of_nat z)
    Hw ltac:(cbn; lia) Hpre) as Hx. cbn [app] in Hx. change (size []) with 0 in Hx.
  replace (length (join pre ++ [58%Z; 58%Z] ++ join post) + S k)%nat
    with (length (join pre) + S (length (join post) + S (S k)))%nat by (rewrite !length_app; cbn [length]; lia).
  rewrite <- !app_assoc. cbn [app]. rewrite Hx, Hafter. clear Hx.
  set (r := block_loop _ _ _ (pend _ _) _ _). cbn [block_loop].
  rewrite (load_mid (join pre) [58] (58 :: join post ++ 0 :: rest) _ 0 58) by (done || lia). cbn [mbind option_bind Z.eqb Pos.eqb].
  rewrite double_read; [|done| |done..].
  2: { destruct pre, post; cbn in *; lia. }
  cbn [mbind option_bind].
  pose proof (join_read ws ((p ++ [v]) ++ replicate z 0) post (join pre ++ [58; 58]) (0 :: rest) (S (S k)) 0 Hw) as Hx.
  rewrite <- !app_assoc in Hx. cbn [app] in Hx. rewrite <- !app_assoc. cbn [app].
  rewrite Hx; [|rewrite !length_app; cbn [length]; rewrite length_replicate; destruct pre, post; cbn in *; lia|done].
  subst r. f_equal. rewrite after_pend. change (p ++ v :: replicate z 0) with (p ++ [v] ++ replicate z 0).
  rewrite (app_assoc p), Hp, <- app_assoc. f_equal. by apply fill_gap.
Qed.

(** Without the blocks that are left out. *)
Lemma aton_gap pre n post rest ws :
  length ws = 4%nat -> Forall is_block pre -> Forall is_block post -> (2 <= n)%nat -> (length pre + n + length post = 8)%nat ->
  ip6addr_aton ((join pre ++ [58; 58] ++ join post) ++ 0 :: rest) 0 (Some ws)
    = Some (true, Some (addr_of (pre ++ replicate n 0 ++ post))).
Proof.
  intros Hw Hpre Hpost Hn Hlen. destruct (join_chars pre Hpre) as [Ht1 Hc1]. destruct (join_chars post Hpost) as [Ht2 Hc2].
  set (t := join pre ++ [58; 58] ++ join post).
  assert (Hc : (8 - colons t = n - (if bool_decide (pre = []) then 1 else 0) - (if bool_decide (post = []) then 1 else 0))%nat).
  { unfold t. rewrite !colons_app, Hc1, Hc2. cbn [colons Z.eqb Pos.eqb]. destruct pre, post; cbn in *; lia. }
  assert (Hcle : (colons t <= 8)%nat).
  { unfold t. rewrite !colons_app, Hc1, Hc2. cbn [colons Z.eqb Pos.eqb]. destruct pre, post; cbn in *; lia. }
  apply aton_read; [done| | | |done|].
  - apply Forall_app. split; [done|]. apply Forall_app. split; [|done]. apply Forall_replicate. unfold is_block. lia.
  - rewrite !length_app, length_replicate. lia.
  - unfold t. apply Forall_app. split; [done|]. apply Forall_app. split; [|done]. repeat constructor; by right.
  - intros k. exists (S k), 0. apply gap_loop; done || lia.
Qed.

(** ** IPv4 addresses in IPv6 addresses *)

Definition mapped_text (v : Z) : list Z := [58; 58; 70; 70; 70; 70; 58] ++ text v.

Lemma byte_dec_chars b : is_byte b -> Forall text_char (byte_dec b) /\ colons (byte_dec b) = 0%nat.
Proof.
  intros Hb. destruct (byte_dec_ok b Hb) as (Hds & _). induction Hds as [|c ds Hc _ [IH1 IH2]]; [done|].
  rewrite isdigit_ok in Hc. split.
  - apply Forall_cons. split; [left; exists (c - 48)|done]. split; [lia|]. unfold lwip_xchar.
    replace (c - 48 <? 10) with true by lia. lia.
  - cbn [colons]. by replace (c =? 58) with false by lia.
Qed.

Lemma count_mapped v rest :
  0 <= v < 2 ^ 32 ->
  count_loop (mapped_text v ++ 0 :: rest) (S (length (mapped_text v ++ 0 :: rest))) 0 8 = Some (Some (4, true)).
Proof.
  intros Hv. pose proof (be32_bytes v Hv) as Hb. unfold mapped_text, text, be32 in *. cbn beta iota in *.
  apply Forall_cons in Hb as [Ha _]. destruct (byte_dec_chars _ Ha) as [Ht Hc].
  set (a := byte_dec (v / 2 ^ 24)) in *. set (t := [58; 58; 70; 70; 70; 70; 58] ++ a).
  match goal with |- context [a ++ ?u] => set (l := u) end.
  assert (Hm : exists l', (([58; 58; 70; 70; 70; 70; 58] ++ a ++ l) ++ 0 :: rest) = t ++ 46 :: l').
  { eexists. unfold t, l. rewrite <- !app_assoc. cbn [app]. reflexivity. }
  destruct Hm as [l' ->]. pose proof (count_read t [] (46 :: l') (S (S (length l'))) 8) as Hx. cbn [app] in Hx.
  change (size []) with 0 in Hx.
  replace (S (length (t ++ 46 :: l'))) with (length t + S (S (length l')))%nat by (rewrite length_app; cbn; lia).
  assert (Hct : colons t = 3%nat) by (unfold t; rewrite colons_app, Hc; done). rewrite Hct in Hx.
  assert (Htt : Forall text_char t).
  { apply Forall_app. split; [|exact Ht].
    repeat (constructor; [first [right; reflexivity | left; exists 15; split; [lia|reflexivity]]|]). constructor. }
  rewrite Hx by (done || lia). clearbody t. cbn [count_loop].
  assert (Hl : load (t ++ 46 :: l') (size t) = Some 46) by (by apply (load_mid t [46] l' _ 0); [lia|]).
  by rewrite Hl.
Qed.

Lemma aton_mapped v rest w0 w1 w2 w3 :
  0 <= v < 2 ^ 32 ->
  ip6addr_aton (mapped_text v ++ 0 :: rest) 0 (Some [w0; w1; w2; w3])
    = Some (true, Some [lwip_htonl 0; lwip_htonl 0; lwip_htonl 0xffff; lwip_htonl v]).
Proof.
  intros Hv. unfold ip6addr_aton. rewrite count_mapped by done. cbn [mbind option_bind].
  set (m := mapped_text v ++ 0 :: rest). set (ws := [w0; w1; w2; w3]).
  assert (Hfuel : exists f k, S (length m) = S f /\ f = (4 + S k)%nat).
  { exists (length m), (length m - 5)%nat. split; [done|]. unfold m. cbn. lia. }
  destruct Hfuel as (f & k & -> & Hf). cbn [block_loop].
  assert (H1 : load m 0 = Some 58) by reflexivity. rewrite H1. cbn [mbind option_bind Z.eqb Pos.eqb].
  assert (H2 : on_colon m 0 (mkBlocks (Some ws) 0 0 0) 4 true = Some (inr (2, st ws [0; 0; 0; 0; 0] 0, 0))) by reflexivity.
  rewrite H2. cbn [mbind option_bind].
  pose proof (digits_read ws [0; 0; 0; 0; 0] [70; 70; 70; 70] [58; 58] (58 :: text v ++ 0 :: rest) (S k) 0 0 true) as Hx.
  change ([58; 58] ++ [70; 70; 70; 70] ++ 58 :: text v ++ 0 :: rest) with m in Hx.
  change (length [70%Z; 70%Z; 70%Z; 70%Z] + S k)%nat with (4 + S k)%nat in Hx. change (size [58; 58]) with 2 in Hx.
  rewrite Hf, Hx; clear f Hf Hx.
  2: { repeat (constructor; [exists 15; split; [lia|reflexivity]|]). constructor. }
  assert (Hv4 : read_hex 0 [70; 70; 70; 70] = 0xffff).
  { change [70; 70; 70; 70] with [lwip_xchar 15; lwip_xchar 15; lwip_xchar 15; lwip_xchar 15]. by rewrite !read_digit by lia. }
  rewrite Hv4. change (size ([58; 58] ++ [70; 70; 70; 70])) with 6. cbn [block_loop].
  assert (H3 : load m 6 = Some 58) by reflexivity. rewrite H3. cbn [mbind option_bind Z.eqb Pos.eqb].
  unfold on_colon. destruct (flush_ok ws [0; 0; 0; 0; 0] 0xffff 0) as (b & -> & Hi & Hst);
    [done|cbn; lia|unfold is_block; lia|]. cbn [mbind option_bind]. rewrite Hi in *.
  cbn [words addr_index block_index block_value].
  change (true && (Z.of_nat (length [0; 0; 0; 0; 0]) + 1 =? 6)) with true. cbn iota.
  pose proof (aton_text [58; 58; 70; 70; 70; 70; 58] v rest Hv) as Ha.
  change ([58; 58; 70; 70; 70; 70; 58] ++ text v ++ 0 :: rest) with m in Ha. change (6 + 1) with (size [58; 58; 70; 70; 70; 70; 58]).
  rewrite Ha. cbn [mbind option_bind].
  apply (f_equal words) in Hst. cbn [words] in Hst. rewrite Hst.
  change (words (st ws ([0; 0; 0; 0; 0] ++ [65535]) 0)) with (Some [0; 0; 0xffff; w3]). cbn iota.
  change (store [0; 0; 0xffff; w3] 3 ?x) with (Some [0; 0; 0xffff; x]). cbn [mbind option_bind].
  unfold finish. cbn [words block_index option_map List.map].
  change (Z.of_nat (length [0; 0; 0; 0; 0]) + 1 + 1 =? 7) with true. rewrite (htonl_htonl (lwip_htonl v)); [done|].
  by apply htonl_range.
Qed.
End Read.
(** ** Addresses survive *)
Section RoundTrip.
Context `{Endian} `{LwipMacros}.

Definition is_address (addr : list Z) : Prop := length addr = 4%nat /\ Forall (fun w => 0 <= w < 2 ^ 32) addr.

(** The eight blocks of an address. *)
Definition blocks_of (addr : list Z) : list Z :=
  concat ((fun w => [lwip_htonl w / 2 ^ 16; lwip_htonl w mod 2 ^ 16]) <$> addr).

Lemma blocks_ok addr :
  is_address addr -> length (blocks_of addr) = 8%nat /\ Forall is_block (blocks_of addr) /\ addr_of (blocks_of addr) = addr.
Proof.
  intros [Hlen Hw]. do 5 (destruct addr as [|? addr]; try done). clear Hlen. rewrite !Forall_cons in Hw. destruct_and! Hw.
  unfold blocks_of, is_block, addr_of. cbn [fmap list_fmap concat app length pack List.map].
  assert (Hr : forall w, 0 <= w < 2 ^ 32 ->
    (0 <= lwip_htonl w / 2 ^ 16 < 2 ^ 16 /\ 0 <= lwip_htonl w mod 2 ^ 16 < 2 ^ 16) /\
    lwip_htonl (lwip_htonl w / 2 ^ 16 * 2 ^ 16 + lwip_htonl w mod 2 ^ 16) = w).
  { intros w Hw. pose proof (htonl_range w Hw). split; [lia_mod|].
    replace (_ * 2 ^ 16 + _) with (lwip_htonl w) by lia_mod. by apply htonl_htonl. }
  split; [done|]. split; [|by rewrite !(fun w Hw => proj2 (Hr w Hw))].
  repeat (constructor; [by apply Hr|]). constructor.
Qed.

(** The code looks behind the address: its last block is zero, and there is no
    run of zeros that ends the search earlier. *)
Definition looks_behind (bs : list Z) : Prop :=
  List.last bs 1 = 0 /\ forall i, bs !! i = Some 0 -> bs !! S i <> Some 0.

Lemma looks_behind_cons b b2 bs :
  looks_behind (b :: b2 :: bs) <-> ~ (b = 0 /\ b2 = 0) /\ looks_behind (b2 :: bs).
Proof.
  unfold looks_behind. change (List.last (b :: b2 :: bs) 1) with (List.last (b2 :: bs) 1). split.
  - intros [Hl Hz]. split; [intros [-> ->]; by apply (Hz 0%nat)|]. split; [done|]. intros i. apply (Hz (S i)).
  - intros (Hb & Hl & Hz). split; [done|]. intros [|i]; [|apply Hz]. cbn. intros [= ->] [= ->]. by apply Hb.
Qed.

Lemma start_text_none first bs : start_text first bs = None <-> looks_behind bs.
Proof.
  revert first. induction bs as [|b [|b2 bs] IH]; intros first.
  - split; [done|by intros [? _]].
  - cbn [start_text mbind option_bind]. unfold looks_behind. cbn [List.last]. destruct (b =? 0) eqn:E.
    + split; [intros _|done]. split; [lia|]. by intros [|i].
    + split; [done|]. intros [Hl _]. lia.
  - rewrite looks_behind_cons, <- (IH false). set (r := start_text false (b2 :: bs)).
    change (start_text first (b :: b2 :: bs)) with
      (let print := t ← r; Some ((if first then [] else [58]) ++ hex b ++ t) in
       if b =? 0 then if b2 =? 0 then Some (58 :: skip_text (b2 :: bs)) else print else print). cbv zeta.
    assert (Hr : (t ← r; Some ((if first then [] else [58]) ++ hex b ++ t)) = None <-> r = None) by (by destruct r).
    destruct (b =? 0) eqn:E; [destruct (b2 =? 0) eqn:E2|]; rewrite ?Hr; split; try (intros; done || lia).
    all: try (intros [Hn _]; exfalso; apply Hn; lia). all: try (intros [_ ?]; done). all: intros; split; [lia|done].
Qed.

Lemma print_ok addr buf :
  is_address addr -> 1 <= size buf ->
  match start_text true (blocks_of addr) with
  | Some t => size t <= 39 /\
      and_then (print_loop (size buf) addr 8 0 0 (buf, 0)) (fun '(buf, i) => buf ← store buf i 0; Some (Some buf)) =
        if size t <? size buf then Some (Some (t ++ [0] ++ drop (S (length t)) buf)) else Some None
  | None => exists k, 0 <= k <= 39 /\
      and_then (print_loop (size buf) addr 8 0 0 (buf, 0)) (fun '(buf, i) => buf ← store buf i 0; Some (Some buf)) =
        if k <? size buf then None else Some None
  end.
Proof.
  intros Ha Hbuf. destruct (blocks_ok addr Ha) as (Hlen & Hbs & Hof).
  pose proof (print_start (blocks_of addr) (size buf) Hbs Hlen 0 8 eq_refl) as Hs. rewrite Hof in Hs.
  change (drop 0 (blocks_of addr)) with (blocks_of addr) in Hs. cbn [Nat.eqb] in Hs.
  change (Z.of_nat 0) with 0 in Hs.
  assert (Hputs : forall t, puts6 (size buf) t (buf, 0) = if size t <? size buf then Some (Some (t ++ drop (length t) buf, size t)) else Some None).
  { intros t. apply (puts6_ok (size buf) t [] buf); [done|lia]. }
  destruct (start_text true (blocks_of addr)) as [t|] eqn:Et; cbn [starts] in Hs.
  - pose proof (start_size _ _ _ Et) as Hsize. unfold size in Hsize at 2. rewrite Hlen in Hsize.
    assert (Hne : blocks_of addr <> []) by (intros Hn; by rewrite Hn in Hlen). specialize (Hsize Hne). cbn iota in Hsize.
    split; [lia|]. rewrite Hs, Hputs.
    destruct (size t <? size buf) eqn:E; [|done]. cbn [and_then mbind option_bind].
    destruct (drop (length t) buf) as [|x l] eqn:Ed.
    { apply (f_equal length) in Ed. rewrite length_drop in Ed. unfold size in E. cbn in Ed. lia. }
    rewrite store_mid. cbn [mbind option_bind]. do 3 f_equal. cbn [app].
    replace (S (length t)) with (length t + 1)%nat by lia. by rewrite <- drop_drop, Ed.
  - destruct Hs as (t & Ht & Hs). exists (size t). split; [pose proof (size_nonneg t); lia|]. rewrite Hs, Hputs.
    by destruct (size t <? size buf).
Qed.

(** The text of an address; there is none when the code looks behind it. *)
Definition is_mapped (addr : list Z) : Prop := exists w3, addr = [0; 0; lwip_htonl 0xffff; w3].

Lemma mapped_ok addr :
  is_address addr -> exists b, ip6_addr_isipv4mappedipv6 addr = Some b /\ (b = true <-> is_mapped addr).
Proof.
  intros [Hlen _]. destruct addr as [|w0 [|w1 [|w2 [|w3 [|? addr]]]]]; try done.
  exists ((w0 =? 0) && (w1 =? 0) && (w2 =? lwip_htonl 0xffff)). split; [reflexivity|].
  rewrite !andb_true_iff, !Z.eqb_eq. split; [intros [[-> ->] ->]; by exists w3|]. by intros (w & [= -> -> -> ->]).
Qed.

Lemma ntoa_mapped w3 buf :
  0 <= w3 < 2 ^ 32 -> let t := mapped_text (lwip_htonl w3) in
  ip6addr_ntoa_r [0; 0; lwip_htonl 0xffff; w3] buf (size buf) =
    if size t <? size buf then Some (Some (t ++ [0] ++ drop (S (length t)) buf)) else Some None.
Proof.
  intros Hw t. pose proof (htonl_range w3 Hw) as Hv. pose proof (text_size _ Hv) as Ht.
  assert (Htl : size t = 7 + size (text (lwip_htonl w3))) by (unfold t, mapped_text; by rewrite size_app).
  unfold ip6addr_ntoa_r. change (ip6_addr_isipv4mappedipv6 _) with (Some (lwip_htonl 0xffff =? lwip_htonl 0xffff)).
  rewrite Z.eqb_refl. cbn [mbind option_bind]. change (size IP4MAPPED_HEADER) with 8.
  destruct (size buf <? 8) eqn:E; [by replace (size t <? size buf) with false by lia|].
  destruct (split_front buf 8) as (b & rest & -> & Hb); [lia|].
  pose proof (poke_mid [] b rest IP4MAPPED_HEADER 0 eq_refl Hb) as Hp. cbn [app] in Hp. rewrite Hp. cbn [mbind option_bind].
  change (load [0; 0; lwip_htonl 0xffff; w3] 3) with (Some w3). cbn [mbind option_bind].
  change (drop (length IP4MAPPED_HEADER - 1) (IP4MAPPED_HEADER ++ rest)) with (0 :: rest).
  change (take (length IP4MAPPED_HEADER - 1) (IP4MAPPED_HEADER ++ rest)) with [58; 58; 70; 70; 70; 70; 58].
  rewrite size_app in *. replace (size b + size rest - 8 + 1) with (size (0 :: rest)) by (rewrite size_cons; lia).
  rewrite <- (htonl_htonl w3) at 1 by done. rewrite ntoa_ok by done. rewrite size_cons.
  destruct (size (text (lwip_htonl w3)) <? 1 + size rest) eqn:E2; cbn [and_then mbind option_bind].
  - replace (size t <? size b + size rest) with true by lia. unfold t, mapped_text. do 2 f_equal. rewrite <- !app_assoc.
    do 3 f_equal. rewrite length_app. cbn [length Nat.add drop].
    rewrite (drop_app_ge b) by (unfold size in Hb; lia). f_equal. unfold size in Hb. lia.
  - by replace (size t <? size b + size rest) with false by lia.
Qed.

Lemma text_fits t (buf : list Z) : size t < size buf -> size (t ++ [0] ++ drop (S (length t)) buf) = size buf.
Proof. intros Ht. rewrite !size_app. change (size [0]) with 1. unfold size in *. rewrite length_drop. lia. Qed.

Lemma start_text_read addr t rest ws :
  is_address addr -> length ws = 4%nat -> start_text true (blocks_of addr) = Some t ->
  ip6addr_aton (t ++ 0 :: rest) 0 (Some ws) = Some (true, Some addr).
Proof.
  intros Ha Hw Ht. destruct (blocks_ok addr Ha) as (Hlen & Hbs & Hof).
  destruct (start_text_shape _ _ Ht) as [->|(pre & n & post & Hb & Hn & ->)].
  - rewrite aton_join by done. by rewrite Hof.
  - rewrite Hb in *. apply Forall_app in Hbs as [Hpre Hpost]. apply Forall_app in Hpost as [_ Hpost].
    rewrite !length_app, length_replicate in Hlen.
    rewrite (aton_gap _ n) by (done || lia). by rewrite Hof.
Qed.

Lemma mapped_read w3 rest ws :
  0 <= w3 < 2 ^ 32 -> length ws = 4%nat ->
  ip6addr_aton (mapped_text (lwip_htonl w3) ++ 0 :: rest) 0 (Some ws) = Some (true, Some [0; 0; lwip_htonl 0xffff; w3]).
Proof.
  intros Hw3 Hws. destruct ws as [|x0 [|x1 [|x2 [|x3 [|? ws]]]]]; try done.
  rewrite aton_mapped by (by apply htonl_range). by rewrite htonl_zero, htonl_htonl.
Qed.

Lemma mapped_not_behind w3 : ~ looks_behind (blocks_of [0; 0; lwip_htonl 0xffff; w3]).
Proof.
  unfold blocks_of. cbn [fmap list_fmap]. rewrite htonl_zero. intros [_ Hz]. by apply (Hz 0%nat).
Qed.

(** With an empty buffer the first digit, or colon, is written outside. *)
Lemma put_digits_empty v : put_digits 0 v ([], 0) = None.
Proof.
  unfold put_digits. cbv zeta. destruct (Z.land v 0xf000 =? 0); [|done]. cbn [and_then mbind option_bind andb].
  destruct (Z.land v 0xf00 =? 0); [|done]. cbn [and_then mbind option_bind andb]. by destruct (Z.land v 0xf0 =? 0).
Qed.

Lemma print_loop_empty addr todo : print_loop 0 addr (S todo) 0 0 ([], 0) = None.
Proof.
  cbn [print_loop].
  assert (Hp : forall v k, and_then (put_digits 0 v ([], 0)) k = @None (option (list Z * Z))) by (intros v k; by rewrite put_digits_empty).
  destruct (get_block addr 0) as [v|]; [|done]. cbn [mbind option_bind Z.ltb Z.compare].
  destruct (v =? 0); [|exact (Hp v _)]. cbn [Z.eqb andb].
  destruct (get_next_block addr 0) as [next|]; [|done]. cbn [mbind option_bind]. destruct (next =? 0); [done|exact (Hp v _)].
Qed.

Lemma ntoa_empty addr : is_address addr -> ~ is_mapped addr -> ip6addr_ntoa_r addr [] 0 = None.
Proof.
  intros Ha Hm. destruct (mapped_ok addr Ha) as ([|] & Hmap & Hb); [by destruct Hm; apply Hb|].
  unfold ip6addr_ntoa_r. rewrite Hmap. cbn [mbind option_bind]. by rewrite print_loop_empty.
Qed.

(** C19. IPv6 addresses survive: for every address and every buffer of at
    least one byte, [ip6addr_ntoa_r] either leaves a text in the buffer, which
    [ip6addr_aton] turns back into the address, or it answers NULL, which never
    happens with 40 bytes, or it reads behind the address, which happens with
    40 bytes exactly when the last of the eight blocks is zero and no two
    blocks in a row are. (With an empty buffer the first character of
    an address that is not mapped is written behind it before the length is
    looked at, see ntoa_empty.) *)
Theorem ip6_text_roundtrip addr buf :
  is_address addr -> 1 <= size buf ->
  match ip6addr_ntoa_r addr buf (size buf) with
  | Some (Some buf') => size buf' = size buf /\ ~ looks_behind (blocks_of addr) /\
      forall ws, length ws = 4%nat -> ip6addr_aton buf' 0 (Some ws) = Some (true, Some addr)
  | Some None => size buf < 40
  | None => looks_behind (blocks_of addr)
  end.
Proof.
  intros Ha Hbuf. destruct (mapped_ok addr Ha) as (mapped & Hmap & Hm). destruct mapped.
  - destruct (proj1 Hm eq_refl) as [w3 ->]. clear Hm. destruct Ha as [_ Hw]. rewrite !Forall_cons in Hw. destruct_and! Hw.
    rewrite ntoa_mapped by done. destruct (_ <? size buf) eqn:E; [|unfold mapped_text in E].
    + split; [apply text_fits; lia|]. split; [apply mapped_not_behind|]. intros ws Hws. by apply mapped_read.
    + rewrite size_app in E. pose proof (text_size (lwip_htonl w3) ltac:(by apply htonl_range)).
      change (size [58; 58; 70; 70; 70; 70; 58]) with 7 in E. lia.
  - unfold ip6addr_ntoa_r. rewrite Hmap. cbn [mbind option_bind]. pose proof (print_ok addr buf Ha Hbuf) as Hp.
    destruct (start_text true (blocks_of addr)) as [t|] eqn:Et.
    + destruct Hp as [Ht ->]. destruct (size t <? size buf) eqn:E; [|lia]. split; [apply text_fits; lia|].
      split; [rewrite <- (start_text_none true), Et; done|]. intros ws Hws. by apply start_text_read.
    + destruct Hp as (k & Hk & ->). destruct (k <? size buf) eqn:E; [by apply (start_text_none true)|lia].
Qed.
End RoundTrip.
(** ** Text is read safely *)
Section AtonOk.
Context `{Endian} `{LwipMacros}.

(** Words are kept when there are any. *)
Definition like (addr ws : option (list Z)) : Prop :=
  match addr, ws with
  | Some _, Some ws => length ws = 4%nat
  | None, None => True
  | _, _ => False
  end.

(** The parser's variables are in step. *)
Definition in_step (addr : option (list Z)) (b : blocks) : Prop :=
  like addr (words b) /\ 0 <= block_index b <= 7 /\ (addr <> None -> addr_index b = block_index b / 2).

Lemma load_word (ws : list Z) i : length ws = 4%nat -> 0 <= i < 4 -> exists w, load ws i = Some w.
Proof. intros Hw Hi. unfold load. replace (i <? 0) with false by lia. apply lookup_lt_is_Some. lia. Qed.

Lemma store_word (ws : list Z) i x : length ws = 4%nat -> 0 <= i < 4 -> exists ws', store ws i x = Some ws' /\ length ws' = 4%nat.
Proof.
  intros Hw Hi. unfold store. replace (_ || _) with false by lia. eexists. split; [done|]. by rewrite length_insert.
Qed.

Lemma odd_half n : Z.odd n = true -> (n + 1) / 2 = n / 2 + 1.
Proof. intros Ho. rewrite (Zdiv2_odd_eqn n), Ho, Z.div2_div. lia_mod. Qed.

Lemma even_half n : Z.odd n = false -> (n + 1) / 2 = n / 2.
Proof. intros Ho. rewrite (Zdiv2_odd_eqn n), Ho, Z.div2_div. lia_mod. Qed.

Lemma flush_in_step addr b :
  in_step addr b ->
  exists b', flush b = Some b' /\ block_index b' = block_index b /\ like addr (words b') /\
    (addr <> None -> addr_index b' = (block_index b + 1) / 2).
Proof.
  intros (Hl & Hi & Ha). unfold flush. destruct (words b) as [ws|] eqn:Ew.
  2: { exists b. rewrite Ew. repeat split; [done|]. by destruct addr. }
  destruct addr as [addr|]; [|done]. specialize (Ha ltac:(done)). cbn [like] in Hl.
  assert (Hr : 0 <= addr_index b < 4) by (rewrite Ha; lia_mod). destruct (Z.odd (block_index b)) eqn:Eo.
  - destruct (load_word ws _ Hl Hr) as (w & ->). cbn [mbind option_bind].
    destruct (store_word ws _ (Z.lor w (block_value b)) Hl Hr) as (ws' & -> & Hl'). eexists. split; [done|].
    cbn. repeat split; [done|]. intros _. rewrite odd_half by done. lia.
  - destruct (store_word ws _ (u32 (Z.shiftl (block_value b) 16)) Hl Hr) as (ws' & -> & Hl'). eexists. split; [done|].
    cbn. repeat split; [done|]. intros _. by rewrite even_half.
Qed.

Lemma zero_loop_in_step addr fuel b z :
  in_step addr b -> 8 - block_index b < Z.of_nat fuel ->
  exists r b', zero_loop fuel b z = Some (r, b') /\ like addr (words b') /\ (r = true -> in_step addr b').
Proof.
  revert b z. induction fuel as [|fuel IH]; intros b z Hs Hf; [destruct Hs; lia|]. cbn [zero_loop].
  destruct (negb (0 <? z)); [exists true, b; split; [done|]; split; [by destruct Hs|done]|]. destruct Hs as (Hl & Hi & Ha).
  match goal with |- context [mbind _ ?x] => assert (Hx : exists b', x = Some b' /\ block_index b' = block_index b /\ like addr (words b') /\
    (addr <> None -> addr_index b' = (block_index b + 1) / 2)) end.
  { destruct (Z.odd (block_index b)) eqn:Eo.
    - eexists. split; [done|]. cbn. repeat split; [done|]. intros Hne. by rewrite odd_half, Ha.
    - destruct (words b) as [ws|] eqn:Ew.
      + destruct addr as [addr|]; [|done]. specialize (Ha ltac:(done)). cbn [like] in Hl.
        destruct (store_word ws (addr_index b) 0 Hl) as (ws' & -> & Hl'); [rewrite Ha; lia_mod|]. eexists. split; [done|].
        cbn. repeat split; [done|]. intros _. by rewrite even_half.
      + exists b. rewrite Ew. repeat split; [done|]. by destruct addr. }
  destruct Hx as (b' & -> & Hi' & Hl' & Ha'). cbn [mbind option_bind block_index].
  destruct (7 <? block_index b' + 1) eqn:E; [exists false; eexists; by split|]. apply IH; [|cbn; lia].
  split; [done|]. cbn. rewrite Hi' in *. split; [lia|done].
Qed.

(** Every outcome has an address of four words. *)
Definition outcome_like (addr : option (list Z)) (o : outcome) : Prop :=
  match o with Return _ b | Fix b => like addr (words b) | Done b => in_step addr b end.

Lemma on_colon_in_step addr m e s b z chk :
  in_string m e s 58 -> in_step addr b ->
  exists r, on_colon m s b z chk = Some r /\
    match r with
    | inl o => outcome_like addr o
    | inr (s', b', _) => s < s' /\ in_step addr b' /\ exists c, in_string m e s' c
    end.
Proof.
  intros Hs Hb. unfold on_colon. destruct (flush_in_step addr b Hb) as (b' & -> & Hi & Hl & Ha). cbn [mbind option_bind].
  destruct Hb as (_ & Hr & _). rewrite Hi. cbn [words addr_index block_index block_value].
  destruct (next_ok m e s 58 Hs ltac:(lia)) as (c1 & Hn & Hs1). unfold next in Hn.
  destruct (load m (s + 1)) as [x|] eqn:Hl1; [|done]. injection Hn as ->.
  assert (Hret : exists ret, (if chk && (block_index b + 1 =? 6) then ip4addr_aton m (s + 1) else Some None) = Some ret /\
    (ret <> None -> block_index b + 1 = 6)).
  { destruct (chk && _) eqn:E; [|by exists None]. destruct Hs1 as (Hb1 & _ & He).
    destruct (aton_ok m (s + 1) e Hb1 He) as (r & -> & _). exists r. split; [done|]. intros _. lia. }
  destruct Hret as (ret & -> & Hsix). cbn [mbind option_bind].
  destruct ret as [ip4|]; [destruct (words b') as [ws|]|].
  - destruct addr as [addr|]; [|done]. destruct (store_word ws 3 (lwip_htonl ip4) Hl ltac:(lia)) as (ws' & -> & Hl').
    cbn [mbind option_bind]. by eexists.
  - by eexists.
  - destruct (7 <? block_index b + 1) eqn:E7; [by eexists|]. destruct (c1 =? 58) eqn:E1.
    + destruct (next_ok m e (s + 1) c1 Hs1 ltac:(lia)) as (c2 & Hn & Hs2). unfold next in Hn.
      replace (s + 1 + 1) with (s + 2) in * by lia. destruct (load m (s + 2)) as [y|]; [|done]. injection Hn as ->.
      cbn [mbind option_bind]. destruct (c2 =? 58); [by eexists|].
      match goal with |- context [zero_loop 9 ?b0 _] => destruct (zero_loop_in_step addr 9 b0 z) as (go & b2 & -> & Hl2 & Hb2) end.
      { split; [done|]. cbn. split; [lia|done]. } { cbn. lia. }
      cbn [mbind option_bind]. destruct go; eexists; (split; [done|]); [|done]. split; [lia|]. split; [by apply Hb2|by exists c2].
    + eexists. split; [done|]. cbn. split; [lia|]. split; [|by exists c1]. split; [done|]. cbn. split; [lia|done].
Qed.

Lemma block_loop_in_step addr m e fuel s c b z chk :
  in_string m e s c -> in_step addr b -> e - s < Z.of_nat fuel ->
  exists o, block_loop m fuel s b z chk = Some o /\ outcome_like addr o.
Proof.
  revert s c b z. induction fuel as [|fuel IH]; intros s c b z Hs Hb Hf; [destruct Hs; lia|]. cbn [block_loop].
  pose proof Hs as (_ & -> & _). cbn [mbind option_bind]. destruct (c =? 0) eqn:E0; [by eexists|].
  destruct (c =? 58) eqn:E58.
  - assert (c = 58) as -> by lia. destruct (on_colon_in_step addr m e s b z chk Hs Hb) as (r & -> & Hr).
    cbn [mbind option_bind]. destruct r as [o|[[s' b'] z']]; [by eexists|]. destruct Hr as (Hlt & Hb' & c' & Hs').
    apply (IH _ _ _ _ Hs' Hb'). lia.
  - destruct (lwip_isxdigit c); [|by eexists]. destruct (next_ok m e s c Hs ltac:(lia)) as (c1 & _ & Hs1).
    apply (IH _ _ _ _ Hs1); [exact Hb|lia].
Qed.

Lemma count_loop_ends m e fuel s c z :
  in_string m e s c -> e - s < Z.of_nat fuel -> exists r, count_loop m fuel s z = Some r.
Proof.
  revert s c z. induction fuel as [|fuel IH]; intros s c z Hs Hf; [destruct Hs; lia|]. cbn [count_loop].
  pose proof Hs as (_ & -> & _). cbn [mbind option_bind]. destruct (c =? 0) eqn:E0; [by eexists|].
  destruct (next_ok m e s c Hs ltac:(lia)) as (c1 & _ & Hs1).
  destruct (c =? 58); [apply (IH _ _ _ Hs1); lia|]. destruct (c =? 46); [destruct (_ || _); by eexists|].
  destruct (negb _); [by eexists|]. apply (IH _ _ _ Hs1). lia.
Qed.

(** Reading is total and safe: on every string that ends with a zero,
    whatever it holds, and with an address or NULL, [ip6addr_aton] ends, reads
    nothing behind the zero and writes nothing but the four words. *)
Theorem ip6_aton_total m cp e addr :
  0 <= cp <= e -> load m e = Some 0 -> like addr addr ->
  exists r addr', ip6addr_aton m cp addr = Some (r, addr') /\ like addr addr'.
Proof.
  intros Hcp He Hl. destruct (load_inside m cp e He Hcp) as (c & Hc).
  assert (Hs : in_string m e cp c) by (by split). pose proof (load_in_bounds _ _ _ He) as Hb. unfold ip6addr_aton.
  destruct (count_loop_ends m e (S (length m)) cp c 8 Hs ltac:(lia)) as (r & ->). cbn [mbind option_bind].
  destruct r as [[z chk]|]; [|by eexists _, _]. assert (Hin : in_step addr (mkBlocks addr 0 0 0)) by (split; [done|split; [cbn; lia|done]]).
  destruct (block_loop_in_step addr m e (S (length m)) cp c _ z chk Hs Hin ltac:(lia)) as (o & -> & Ho). cbn [mbind option_bind].
  assert (Hfix : forall b, like addr (words b) -> like addr (snd (finish b))).
  { intros b Hw. unfold finish. cbn [snd]. destruct addr, (words b); try done. cbn in *. by rewrite length_map. }
  destruct o as [r b|b|b]; cbn [outcome_like] in Ho.
  - by eexists _, _.
  - destruct (finish b) as [r a] eqn:Ef. eexists _, _. split; [done|]. specialize (Hfix b Ho). by rewrite Ef in Hfix.
  - destruct (flush_in_step addr b Ho) as (b' & -> & _ & Hw & _). cbn [mbind option_bind].
    destruct (finish b') as [r a] eqn:Ef. eexists _, _. split; [done|]. specialize (Hfix b' Hw). by rewrite Ef in Hfix.
Qed.
End AtonOk.
(** ** Examples, on a little-endian machine *)
Section Sample.
#[local] Existing Instances little_endian sample_macros.

(** 2001:db8::1 *)
Lemma ip6_text_roundtrip_witness :
  exists buf', ip6addr_ntoa [0xb80d0120; 0; 0; 0x01000000] (replicate 40 7) = Some (Some buf') /\
    firstn 12 buf' = [50; 48; 48; 49; 58; 68; 66; 56; 58; 58; 49; 0] /\
    ip6addr_aton buf' 0 (Some [1; 2; 3; 4]) = Some (true, Some [0xb80d0120; 0; 0; 0x01000000]).
Proof.
  assert (Ha : is_address [0xb80d0120; 0; 0; 0x01000000]) by (split; [done|repeat (constructor; [lia|]); constructor]).
  pose proof (ip6_text_roundtrip [0xb80d0120; 0; 0; 0x01000000] (replicate 40 7) Ha ltac:(vm_compute; done)) as Hx.
  unfold ip6addr_ntoa. change 40 with (size (replicate 40 7)).
  destruct (ip6addr_ntoa_r _ _ _) as [[buf'|]|] eqn:E in Hx; vm_compute in E; [|done..].
  destruct Hx as (_ & _ & Hr). injection E as <-. eexists. split; [vm_compute; reflexivity|].
  split; [reflexivity|]. by apply Hr.
Defined.

(** "1:2::" and a stray character, without a place for the address. *)
Lemma ip6_aton_total_witness :
  ip6addr_aton [49; 58; 50; 58; 58; 33; 0] 0 None = Some (true, None).
Proof.
  destruct (ip6_aton_total [49; 58; 50; 58; 58; 33; 0] 0 6 None ltac:(lia) eq_refl I) as (r & addr' & Hx & Hl).
  rewrite Hx. vm_compute in Hx. by injection Hx as <- <-.
Defined.

(** 1:2:3:4:5:6:7:0 is read past its end. *)
Lemma ntoa_reads_behind :
  ip6addr_ntoa [0x02000100; 0x04000300; 0x06000500; 0x00000700] (replicate 40 7) = None.
Proof. vm_compute. reflexivity. Qed.
End Sample.
End Ip6.
