(* ===== verification/EthArp.v ===== *)
(** The ARP cache of lwIP
    (src/arp-ndp/src/upstream/src/core/ipv4/etharp.c, lines 63-1212): the table
    of addresses with its timer, the packets that wait for an address, the
    answers to requests; and [ethernet_output]
    (src/arp-ndp/src/upstream/src/netif/ethernet.c, lines 267-318).

    The options that select code at compile time are values, so that all of
    them are covered ([EtharpOptions]); fixed are LWIP_IPV4 and LWIP_ARP on,
    LWIP_NETIF_HWADDRHINT, LWIP_AUTOIP, LWIP_DHCP, ETHARP_SUPPORT_VLAN,
    LWIP_DEBUG, the statistics and the hooks off.

    Memory pools, packet buffers and drivers are not part of the repository: an
    external call has a number, and oracles say how the call with this number
    ends. What is done to packet buffers and what is sent is kept as a list of
    events. A result [None] is a failed LWIP_ASSERT or an access outside of the
    table or to an interface that does not exist. *)

From S2P Require Export Ip4.
Export Ip4.
Open Scope Z_scope.

(** Compile-time options. *)
Class EtharpOptions := {
  ARP_TABLE_SIZE : Z;
  ARP_MAXAGE : Z;
  ARP_QUEUEING : bool;
  ARP_QUEUE_LEN : Z;
  ETHARP_SUPPORT_STATIC_ENTRIES : bool;
  ETHARP_TABLE_MATCH_NETIF : bool;
  table_size_ok : 0 < ARP_TABLE_SIZE <= 0x7fff;
  maxage_ok : 0 < ARP_MAXAGE < 2 ^ 16;
  queue_len_ok : 0 <= ARP_QUEUE_LEN < 2 ^ 32
}.

Module EthArp.

Abbreviation ARP_MAXPENDING := 5.
Abbreviation ETHARP_FLAG_TRY_HARD := 1.
Abbreviation ETHARP_FLAG_FIND_ONLY := 2.
Abbreviation ETHARP_FLAG_STATIC_ENTRY := 4.
Abbreviation ARP_REQUEST := 1.
Abbreviation ARP_REPLY := 2.
Abbreviation ETHTYPE_IP := 0x0800.
Abbreviation ETHTYPE_ARP := 0x0806.
Abbreviation LWIP_IANA_HWTYPE_ETHERNET := 1.
Abbreviation ETH_HWADDR_LEN := 6.

Abbreviation ERR_OK := 0.
Abbreviation ERR_MEM := (-1).
Abbreviation ERR_BUF := (-2).
Abbreviation ERR_RTE := (-4).
Abbreviation ERR_VAL := (-6).
Abbreviation ERR_ARG := (-16).

Inductive etharp_state :=
  | ETHARP_STATE_EMPTY | ETHARP_STATE_PENDING | ETHARP_STATE_STABLE
  | ETHARP_STATE_STABLE_REREQUESTING_1 | ETHARP_STATE_STABLE_REREQUESTING_2 | ETHARP_STATE_STATIC.

#[global] Instance etharp_state_eq : EqDecision etharp_state.
Proof. solve_decision. Defined.

(** [state >= ETHARP_STATE_STABLE] *)
Definition stable (s : etharp_state) : bool :=
  match s with ETHARP_STATE_EMPTY | ETHARP_STATE_PENDING => false | _ => true end.

(** A packet buffer: one of the callers', a copy, or an ARP packet, with the
    number of the call that made it. *)
Inductive pbuf := Given (id : Z) | Copied (call : nat) | Made (call : nat).

#[global] Instance pbuf_eq : EqDecision pbuf.
Proof. solve_decision. Defined.

(** A packet of a caller: for each buffer of the chain whether it has to be
    copied ([PBUF_NEEDS_COPY]). *)
Record packet := mkPacket { packet_pbuf : pbuf; needs_copy : list bool }.

(** An interface: its addresses, and the fields that broadcast addresses
    depend on. Interfaces are known by their address, a number. *)
Record interface := mkInterface { hwaddr : list Z; netif_ip4_gw : Z; netif : Ip4.netif }.

Record etharp_entry := mkEntry {
  q : list pbuf; ipaddr : Z; e_netif : option Z; ethaddr : list Z; ctime : Z; state : etharp_state
}.

Record etharp_hdr := mkHdr {
  hwtype : Z; proto : Z; hwlen : Z; protolen : Z; opcode : Z;
  shwaddr : list Z; sipaddr : Z; dhwaddr : list Z; dipaddr : Z
}.

Inductive event :=
  | Ref (p : pbuf)
  | Free (p : pbuf)
  | Clone (from p : pbuf)
  | Alloc (p : pbuf)
  | Receive (p : pbuf)
  | Send (netif : Z) (p : pbuf) (arp : option etharp_hdr) (src dst : list Z) (eth_type : Z).

Record arp := mkArp {
  arp_table : list etharp_entry;
  etharp_cached_entry : Z;
  netifs : Z -> option interface;
  calls : nat;
  events : list event
}.

(** What is outside of the repository: the outcome of the external calls, the
    routing table, and macros of headers. *)
Class World := {
  pbuf_alloc_ok : nat -> bool;
  pbuf_clone_ok : nat -> bool;
  pbuf_add_header_ok : nat -> bool;
  memp_malloc_ok : nat -> bool;
  linkoutput : nat -> Z;
  ip4_route : Z -> option Z;
  ip4_addr_ismulticast : Z -> bool;
  ip4_addr_islinklocal : Z -> bool
}.

Section EthArp.
Context `{Endian} `{LwipMacros} {Opt : EtharpOptions} {N : NetworkOrder} {W : World}.

Definition ethbroadcast : list Z := [0xff; 0xff; 0xff; 0xff; 0xff; 0xff].
Definition ethzero : list Z := [0; 0; 0; 0; 0; 0].

Definition ARP_AGE_REREQUEST_USED_UNICAST : Z := ARP_MAXAGE - 30.
Definition ARP_AGE_REREQUEST_USED_BROADCAST : Z := ARP_MAXAGE - 15.

Definition log (e : event) (a : arp) : arp :=
  mkArp (arp_table a) (etharp_cached_entry a) (netifs a) (calls a) (events a ++ [e]).

(** The number of an external call. *)
Definition call (a : arp) : nat * arp :=
  (calls a, mkArp (arp_table a) (etharp_cached_entry a) (netifs a) (S (calls a)) (events a)).

Definition set_table (t : list etharp_entry) (a : arp) : arp :=
  mkArp t (etharp_cached_entry a) (netifs a) (calls a) (events a).

(** [arp_table[i]] *)
Definition entry_at (a : arp) (i : Z) : option etharp_entry :=
  if i <? 0 then None else arp_table a !! Z.to_nat i.

Definition set_entry (i : Z) (e : etharp_entry) (a : arp) : option arp :=
  if (i <? 0) || (ARP_TABLE_SIZE <=? i) then None else Some (set_table (<[Z.to_nat i := e]> (arp_table a)) a).

Definition set_q (l : list pbuf) (e : etharp_entry) : etharp_entry :=
  mkEntry l (ipaddr e) (e_netif e) (ethaddr e) (ctime e) (state e).
Definition set_state (s : etharp_state) (e : etharp_entry) : etharp_entry :=
  mkEntry (q e) (ipaddr e) (e_netif e) (ethaddr e) (ctime e) s.
Definition set_ctime (t : Z) (e : etharp_entry) : etharp_entry :=
  mkEntry (q e) (ipaddr e) (e_netif e) (ethaddr e) t (state e).
Definition set_netif (n : option Z) (e : etharp_entry) : etharp_entry :=
  mkEntry (q e) (ipaddr e) n (ethaddr e) (ctime e) (state e).
Definition set_ipaddr (ip : Z) (e : etharp_entry) : etharp_entry :=
  mkEntry (q e) ip (e_netif e) (ethaddr e) (ctime e) (state e).
Definition set_ethaddr (mac : list Z) (e : etharp_entry) : etharp_entry :=
  mkEntry (q e) (ipaddr e) (e_netif e) mac (ctime e) (state e).

(** ** Sending *)

Definition ethernet_output (nif : Z) (p : pbuf) (hdr : option etharp_hdr) (src dst : list Z) (eth_type : Z) (a : arp)
    : option (Z * arp) :=
  let '(n, a) := call a in
  dev ← netifs a nif;
  if negb (pbuf_add_header_ok n) then Some (ERR_BUF, a)
  else
    _ ← lwip_assert (size (hwaddr dev) =? ETH_HWADDR_LEN);
    Some (linkoutput n, log (Send nif p hdr src dst eth_type) a).

Definition etharp_raw (nif : Z) (ethsrc_addr ethdst_addr hwsrc_addr : list Z) (ipsrc_addr : Z) (hwdst_addr : list Z)
    (ipdst_addr opcode : Z) (a : arp) : option (Z * arp) :=
  let '(n, a) := call a in
  if negb (pbuf_alloc_ok n) then Some (ERR_MEM, a)
  else
    let p := Made n in
    let a := log (Alloc p) a in
    dev ← netifs a nif;
    _ ← lwip_assert (size (hwaddr dev) =? ETH_HWADDR_LEN);
    let hdr := mkHdr (lwip_htons LWIP_IANA_HWTYPE_ETHERNET) (lwip_htons ETHTYPE_IP) ETH_HWADDR_LEN 4
                 (lwip_htons opcode) hwsrc_addr ipsrc_addr hwdst_addr ipdst_addr in
    '(_, a) ← ethernet_output nif p (Some hdr) ethsrc_addr ethdst_addr ETHTYPE_ARP a;
    Some (ERR_OK, log (Free p) a).

Definition etharp_request_dst (nif : Z) (ipaddr : Z) (hw_dst_addr : list Z) (a : arp) : option (Z * arp) :=
  n ← netifs a nif;
  etharp_raw nif (hwaddr n) hw_dst_addr (hwaddr n) (netif_ip4_addr (netif n)) ethzero ipaddr ARP_REQUEST a.

Definition etharp_request (nif : Z) (ipaddr : Z) (a : arp) : option (Z * arp) :=
  etharp_request_dst nif ipaddr ethbroadcast a.

(** ** The table *)

Definition etharp_free_entry (i : Z) (a : arp) : option arp :=
  e ← entry_at a i;
  let a := foldl (fun a p => log (Free p) a) a (q e) in
  set_entry i (set_state ETHARP_STATE_EMPTY (set_q [] e)) a.

(** The timer's work on entry [i]. *)
Definition tmr_entry (i : Z) (a : arp) : option arp :=
  e ← entry_at a i;
  if negb (bool_decide (state e = ETHARP_STATE_EMPTY))
     && (negb ETHARP_SUPPORT_STATIC_ENTRIES || negb (bool_decide (state e = ETHARP_STATE_STATIC)))
  then
    let e := set_ctime (u16 (ctime e + 1)) e in
    a ← set_entry i e a;
    if (ARP_MAXAGE <=? ctime e) || (bool_decide (state e = ETHARP_STATE_PENDING) && (ARP_MAXPENDING <=? ctime e))
    then etharp_free_entry i a
    else
      match state e with
      | ETHARP_STATE_STABLE_REREQUESTING_1 => set_entry i (set_state ETHARP_STATE_STABLE_REREQUESTING_2 e) a
      | ETHARP_STATE_STABLE_REREQUESTING_2 => set_entry i (set_state ETHARP_STATE_STABLE e) a
      | ETHARP_STATE_PENDING => n ← e_netif e; '(_, a) ← etharp_request n (ipaddr e) a; Some a
      | _ => Some a
      end
  else Some a.

(** [for (i = 0; i < ARP_TABLE_SIZE; ++i)] *)
Fixpoint for_entries (f : Z -> arp -> option arp) (todo : nat) (i : Z) (a : arp) : option arp :=
  match todo with
  | O => Some a
  | S todo => a ← f i a; for_entries f todo (i + 1) a
  end.

Definition etharp_tmr (a : arp) : option arp := for_entries tmr_entry (Z.to_nat ARP_TABLE_SIZE) 0 a.

(** The candidates of [etharp_find_entry] and their ages. *)
Record candidates := mkCandidates {
  empty : Z; old_stable : Z; old_pending : Z; old_queue : Z; age_stable : Z; age_pending : Z; age_queue : Z
}.

(** Entry [i] matches. *)
Definition matches (ip : option Z) (nif : option Z) (e : etharp_entry) : bool :=
  match ip with
  | None => false
  | Some ip =>
      (ip =? ipaddr e) &&
      (negb ETHARP_TABLE_MATCH_NETIF || match nif with None => true | Some _ => bool_decide (nif = e_netif e) end)
  end.

(** The sweep over the table: the index of a match, or the candidates. *)
Definition sweep_entry (ip : option Z) (nif : option Z) (i : Z) (e : etharp_entry) (c : candidates) : Z + candidates :=
  let s := state e in
  if (empty c =? ARP_TABLE_SIZE) && bool_decide (s = ETHARP_STATE_EMPTY)
  then inr (mkCandidates i (old_stable c) (old_pending c) (old_queue c) (age_stable c) (age_pending c) (age_queue c))
  else if negb (bool_decide (s = ETHARP_STATE_EMPTY)) then
    if matches ip nif e then inl i
    else if bool_decide (s = ETHARP_STATE_PENDING) then
      if negb (bool_decide (q e = [])) then
        if age_queue c <=? ctime e
        then inr (mkCandidates (empty c) (old_stable c) (old_pending c) i (age_stable c) (age_pending c) (ctime e))
        else inr c
      else
        if age_pending c <=? ctime e
        then inr (mkCandidates (empty c) (old_stable c) i (old_queue c) (age_stable c) (ctime e) (age_queue c))
        else inr c
    else if stable s then
      if negb ETHARP_SUPPORT_STATIC_ENTRIES || negb (bool_decide (s = ETHARP_STATE_STATIC)) then
        if age_stable c <=? ctime e
        then inr (mkCandidates (empty c) i (old_pending c) (old_queue c) (ctime e) (age_pending c) (age_queue c))
        else inr c
      else inr c
    else inr c
  else inr c.

Fixpoint sweep (ip : option Z) (nif : option Z) (es : list etharp_entry) (i : Z) (c : candidates) : Z + candidates :=
  match es with
  | [] => inr c
  | e :: es =>
      match sweep_entry ip nif i e c with
      | inl i => inl i
      | inr c => sweep ip nif es (i + 1) c
      end
  end.

Definition no_candidates : candidates :=
  mkCandidates ARP_TABLE_SIZE ARP_TABLE_SIZE ARP_TABLE_SIZE ARP_TABLE_SIZE 0 0 0.

(** The entry to use, freed when it is not an empty one; [Some None] is ERR_MEM. *)
Definition recycle (c : candidates) (a : arp) : option (option (Z * arp)) :=
  if empty c <? ARP_TABLE_SIZE then Some (Some (empty c, a))
  else
    r ← (if old_stable c <? ARP_TABLE_SIZE then
           e ← entry_at a (old_stable c); _ ← lwip_assert (bool_decide (q e = [])); Some (Some (old_stable c))
         else if old_pending c <? ARP_TABLE_SIZE then Some (Some (old_pending c))
         else if old_queue c <? ARP_TABLE_SIZE then Some (Some (old_queue c))
         else Some None);
    match r with
    | None => Some None
    | Some i => _ ← lwip_assert (i <? ARP_TABLE_SIZE); a ← etharp_free_entry i a; Some (Some (i, a))
    end.

Definition etharp_find_entry (ip : option Z) (flags : Z) (nif : option Z) (a : arp) : option (Z * arp) :=
  match sweep ip nif (arp_table a) 0 no_candidates with
  | inl i => Some (i, a)
  | inr c =>
      if negb (Z.land flags ETHARP_FLAG_FIND_ONLY =? 0)
         || ((empty c =? ARP_TABLE_SIZE) && (Z.land flags ETHARP_FLAG_TRY_HARD =? 0))
      then Some (ERR_MEM, a)
      else
        r ← recycle c a;
        match r with
        | None => Some (ERR_MEM, a)
        | Some (i, a) =>
            _ ← lwip_assert (i <? ARP_TABLE_SIZE);
            e ← entry_at a i;
            _ ← lwip_assert (bool_decide (state e = ETHARP_STATE_EMPTY));
            let e := match ip with Some ip => set_ipaddr ip e | None => e end in
            let e := set_ctime 0 e in
            let e := if ETHARP_TABLE_MATCH_NETIF then set_netif nif e else e in
            a ← set_entry i e a;
            Some (i, a)
        end
  end.

(** ** Updates *)

(** The queued packets [l] of entry [i] are sent: [while (arp_table[i].q != NULL)]. *)
Fixpoint send_queue (nif : Z) (i : Z) (src mac : list Z) (l : list pbuf) (a : arp) : option arp :=
  match l with
  | [] => Some a
  | p :: l =>
      e ← entry_at a i;
      a ← set_entry i (set_q l e) a;
      '(_, a) ← ethernet_output nif p None src mac ETHTYPE_IP a;
      send_queue nif i src mac l (log (Free p) a)
  end.

(** No unicast address. *)
Definition not_unicast (ip : Z) (n : interface) : bool :=
  (ip =? 0) || ip4_addr_isbroadcast_u32 ip (netif n) || ip4_addr_ismulticast ip.

Definition etharp_update_arp_entry (nif : Z) (ip : Z) (mac : list Z) (flags : Z) (a : arp) : option (Z * arp) :=
  n ← netifs a nif;
  _ ← lwip_assert (size (hwaddr n) =? ETH_HWADDR_LEN);
  if not_unicast ip n then Some (ERR_ARG, a)
  else
    '(i, a) ← etharp_find_entry (Some ip) flags (Some nif) a;
    if i <? 0 then Some (i, a)
    else
      e ← entry_at a i;
      if ETHARP_SUPPORT_STATIC_ENTRIES && (Z.land flags ETHARP_FLAG_STATIC_ENTRY =? 0)
         && bool_decide (state e = ETHARP_STATE_STATIC)
      then Some (ERR_VAL, a)
      else
        let s := if ETHARP_SUPPORT_STATIC_ENTRIES && negb (Z.land flags ETHARP_FLAG_STATIC_ENTRY =? 0)
                 then ETHARP_STATE_STATIC else ETHARP_STATE_STABLE in
        a ← set_entry i (set_ctime 0 (set_ethaddr mac (set_netif (Some nif) (set_state s e)))) a;
        a ← send_queue nif i (hwaddr n) mac (q e) a;
        Some (ERR_OK, a).

Definition etharp_add_static_entry (ip : Z) (mac : list Z) (a : arp) : option (Z * arp) :=
  match ip4_route ip with
  | None => Some (ERR_RTE, a)
  | Some nif => etharp_update_arp_entry nif ip mac (Z.lor ETHARP_FLAG_TRY_HARD ETHARP_FLAG_STATIC_ENTRY) a
  end.

Definition etharp_remove_static_entry (ip : Z) (a : arp) : option (Z * arp) :=
  '(i, a) ← etharp_find_entry (Some ip) ETHARP_FLAG_FIND_ONLY None a;
  if i <? 0 then Some (i, a)
  else
    e ← entry_at a i;
    if negb (bool_decide (state e = ETHARP_STATE_STATIC)) then Some (ERR_ARG, a)
    else a ← etharp_free_entry i a; Some (ERR_OK, a).

Definition cleanup_entry (nif : Z) (i : Z) (a : arp) : option arp :=
  e ← entry_at a i;
  if negb (bool_decide (state e = ETHARP_STATE_EMPTY)) && bool_decide (e_netif e = Some nif)
  then etharp_free_entry i a else Some a.

Definition etharp_cleanup_netif (nif : Z) (a : arp) : option arp :=
  for_entries (cleanup_entry nif) (Z.to_nat ARP_TABLE_SIZE) 0 a.

(** The index with the two addresses, or -1. *)
Definition etharp_find_addr (nif : option Z) (ip : Z) (a : arp) : option (option (Z * list Z * Z) * arp) :=
  '(i, a) ← etharp_find_entry (Some ip) ETHARP_FLAG_FIND_ONLY nif a;
  if i <? 0 then Some (None, a)
  else
    e ← entry_at a i;
    Some (if stable (state e) then Some (i, ethaddr e, ipaddr e) else None, a).

Definition etharp_get_entry (i : Z) (a : arp) : option (option (Z * option Z * list Z)) :=
  if ARP_TABLE_SIZE <=? i then Some None
  else
    e ← entry_at a i;
    Some (if stable (state e) then Some (ipaddr e, e_netif e, ethaddr e) else None).

(** ** Packets from the network *)

Definition etharp_input (p : pbuf) (hdr : etharp_hdr) (nif : Z) (a : arp) : option arp :=
  n ← netifs a nif;
  if negb (hwtype hdr =? lwip_htons LWIP_IANA_HWTYPE_ETHERNET) || negb (hwlen hdr =? ETH_HWADDR_LEN)
     || negb (protolen hdr =? 4) || negb (proto hdr =? lwip_htons ETHTYPE_IP)
  then Some (log (Free p) a)
  else
    let my_ip := netif_ip4_addr (netif n) in
    let for_us := if my_ip =? 0 then false else dipaddr hdr =? my_ip in
    '(_, a) ← etharp_update_arp_entry nif (sipaddr hdr) (shwaddr hdr)
                (if for_us then ETHARP_FLAG_TRY_HARD else ETHARP_FLAG_FIND_ONLY) a;
    a ← (if (opcode hdr =? lwip_htons ARP_REQUEST) && for_us then
           '(_, a) ← etharp_raw nif (hwaddr n) (shwaddr hdr) (hwaddr n) my_ip (shwaddr hdr) (sipaddr hdr) ARP_REPLY a;
           Some a
         else Some a);
    Some (log (Free p) a).

(** ** Packets to the network *)

Definition NETIF_ADDR_IDX_MAX : Z := if 0x7f <? ARP_TABLE_SIZE then 0x7fff else 0x7f.

(** A packet waits in the queue of entry [i]. *)
Definition enqueue (i : Z) (p : pbuf) (a : arp) : option (Z * arp) :=
  e ← entry_at a i;
  if ARP_QUEUEING then
    let '(n, a) := call a in
    if memp_malloc_ok n then
      let qlen := Z.of_nat (length (q e)) in
      let l := q e ++ [p] in
      if negb (ARP_QUEUE_LEN =? 0) && (ARP_QUEUE_LEN <=? qlen) then
        match l with
        | [] => None
        | old :: l => a ← set_entry i (set_q l e) a; Some (ERR_OK, log (Free old) a)
        end
      else a ← set_entry i (set_q l e) a; Some (ERR_OK, a)
    else Some (ERR_MEM, log (Free p) a)
  else
    let a := foldl (fun a p => log (Free p) a) a (q e) in
    a ← set_entry i (set_q [p] e) a;
    Some (ERR_OK, a).

(** [q] or a copy of it waits. *)
Definition queue_packet (i : Z) (pk : packet) (a : arp) : option (Z * arp) :=
  if existsb id (needs_copy pk) then
    let '(n, a) := call a in
    if pbuf_clone_ok n then enqueue i (Copied n) (log (Clone (packet_pbuf pk) (Copied n)) a)
    else Some (ERR_MEM, a)
  else enqueue i (packet_pbuf pk) (log (Ref (packet_pbuf pk)) a).

Definition set_cached (i : Z) (a : arp) : arp := mkArp (arp_table a) i (netifs a) (calls a) (events a).

(** The request that [etharp_query] sends, with [is_new_entry]; a packet's
    fate is [deliver]'s. *)
Definition query_request (nif : Z) (ip : Z) (i : Z) (is_new_entry : bool) (a : arp) : option (Z * arp) :=
  '(result, a) ← etharp_request nif ip a;
  if result =? ERR_OK then
    e ← entry_at a i;
    if bool_decide (state e = ETHARP_STATE_PENDING) && negb is_new_entry
    then a ← set_entry i (set_ctime 0 e) a; Some (result, a)
    else Some (result, a)
  else Some (result, a).

Definition deliver (nif : Z) (n : interface) (i : Z) (pk : packet) (result : Z) (a : arp) : option (Z * arp) :=
  e ← entry_at a i;
  if stable (state e) then
    ethernet_output nif (packet_pbuf pk) None (hwaddr n) (ethaddr e) ETHTYPE_IP (set_cached i a)
  else if bool_decide (state e = ETHARP_STATE_PENDING) then queue_packet i pk a
  else Some (result, a).

Definition etharp_query (nif : Z) (ip : Z) (pk : option packet) (a : arp) : option (Z * arp) :=
  n ← netifs a nif;
  if not_unicast ip n then Some (ERR_ARG, a)
  else
    '(i, a) ← etharp_find_entry (Some ip) ETHARP_FLAG_TRY_HARD (Some nif) a;
    if i <? 0 then Some (i, a)
    else
      _ ← lwip_assert (i <? NETIF_ADDR_IDX_MAX);
      e ← entry_at a i;
      let is_new_entry := bool_decide (state e = ETHARP_STATE_EMPTY) in
      a ← (if is_new_entry then set_entry i (set_netif (Some nif) (set_state ETHARP_STATE_PENDING e)) a else Some a);
      '(result, a) ← (if is_new_entry || bool_decide (pk = None) then query_request nif ip i is_new_entry a
                      else Some (ERR_MEM, a));
      match pk with
      | None => Some (result, a)
      | Some pk => deliver nif n i pk result a
      end.

Definition etharp_output_to_arp_index (nif : Z) (pk : packet) (arp_idx : Z) (a : arp) : option (Z * arp) :=
  e ← entry_at a arp_idx;
  _ ← lwip_assert (stable (state e));
  n ← netifs a nif;
  a ← (if bool_decide (state e = ETHARP_STATE_STABLE) then
         if ARP_AGE_REREQUEST_USED_BROADCAST <=? ctime e then
           '(r, a) ← etharp_request nif (ipaddr e) a;
           if r =? ERR_OK then set_entry arp_idx (set_state ETHARP_STATE_STABLE_REREQUESTING_1 e) a else Some a
         else if ARP_AGE_REREQUEST_USED_UNICAST <=? ctime e then
           '(r, a) ← etharp_request_dst nif (ipaddr e) (ethaddr e) a;
           if r =? ERR_OK then set_entry arp_idx (set_state ETHARP_STATE_STABLE_REREQUESTING_1 e) a else Some a
         else Some a
       else Some a);
  ethernet_output nif (packet_pbuf pk) None (hwaddr n) (ethaddr e) ETHTYPE_IP a.

(** The hardware address of a multicast group. *)
Definition mcastaddr (ip : Z) : list Z :=
  [1; 0; 0x5e; Z.land (nth 1 (mem_bytes ip) 0) 0x7f; nth 2 (mem_bytes ip) 0; nth 3 (mem_bytes ip) 0].

(** Where a packet to [ip] goes next; [None] is ERR_RTE. *)
Definition next_hop (n : interface) (ip : Z) : option Z :=
  if negb (ip4_addr_netcmp ip (netif_ip4_addr (netif n)) (netif_ip4_netmask (netif n)))
     && negb (ip4_addr_islinklocal ip)
  then if negb (netif_ip4_gw n =? 0) then Some (netif_ip4_gw n) else None
  else Some ip.

(** A stable entry for [dst]. *)
Definition hit (nif : Z) (dst : Z) (e : etharp_entry) : bool :=
  stable (state e) && (negb ETHARP_TABLE_MATCH_NETIF || bool_decide (e_netif e = Some nif)) && (dst =? ipaddr e).

Fixpoint find_hit (nif : Z) (dst : Z) (es : list etharp_entry) (i : Z) : option Z :=
  match es with
  | [] => None
  | e :: es => if hit nif dst e then Some i else find_hit nif dst es (i + 1)
  end.

Definition etharp_output (nif : Z) (pk : packet) (ip : Z) (a : arp) : option (Z * arp) :=
  n ← netifs a nif;
  let send dest := ethernet_output nif (packet_pbuf pk) None (hwaddr n) dest ETHTYPE_IP a in
  if ip4_addr_isbroadcast_u32 ip (netif n) then send ethbroadcast
  else if ip4_addr_ismulticast ip then send (mcastaddr ip)
  else
    match next_hop n ip with
    | None => Some (ERR_RTE, a)
    | Some dst_addr =>
        c ← entry_at a (etharp_cached_entry a);
        if hit nif dst_addr c then etharp_output_to_arp_index nif pk (etharp_cached_entry a) a
        else
          match find_hit nif dst_addr (arp_table a) 0 with
          | Some i => etharp_output_to_arp_index nif pk i (set_cached i a)
          | None => etharp_query nif dst_addr (Some pk) a
          end
    end.

(** ** Histories *)

(** What the rest of the stack does: the calls, and interfaces that come, change
    and go; [netif_remove] takes an interface down, which calls
    [etharp_cleanup_netif]. A packet that arrives brings its reference. *)
Inductive operation :=
  | Timer
  | Output (nif : Z) (pk : packet) (ip : Z)
  | Query (nif : Z) (ip : Z) (pk : option packet)
  | Input (p : pbuf) (hdr : etharp_hdr) (nif : Z)
  | AddStatic (ip : Z) (mac : list Z)
  | RemoveStatic (ip : Z)
  | SetInterface (nif : Z) (n : interface)
  | RemoveInterface (nif : Z).

Definition set_netifs (f : Z -> option interface) (a : arp) : arp :=
  mkArp (arp_table a) (etharp_cached_entry a) f (calls a) (events a).

Definition perform (o : operation) (a : arp) : option arp :=
  match o with
  | Timer => etharp_tmr a
  | Output nif pk ip => '(_, a) ← etharp_output nif pk ip a; Some a
  | Query nif ip pk => '(_, a) ← etharp_query nif ip pk a; Some a
  | Input p hdr nif => etharp_input p hdr nif (log (Receive p) a)
  | AddStatic ip mac => '(_, a) ← etharp_add_static_entry ip mac a; Some a
  | RemoveStatic ip => '(_, a) ← etharp_remove_static_entry ip a; Some a
  | SetInterface nif n => Some (set_netifs (fun k => if k =? nif then Some n else netifs a k) a)
  | RemoveInterface nif =>
      a ← etharp_cleanup_netif nif a;
      Some (set_netifs (fun k => if k =? nif then None else netifs a k) a)
  end.

Definition empty_entry : etharp_entry := mkEntry [] 0 None ethzero 0 ETHARP_STATE_EMPTY.

(** The table in the program's zeroed memory. *)
Definition initial : arp := mkArp (replicate (Z.to_nat ARP_TABLE_SIZE) empty_entry) 0 (fun _ => None) 0 [].
End EthArp.
End EthArp.
