(* ===== verification/EthArpInv.v ===== *)
(** Invariants of the ARP cache: whatever the stack calls and whichever
    external calls fail, no assertion of etharp.c fails and the table stays
    well formed. *)

From S2P Require Export EthArp.
Export EthArp.
Open Scope Z_scope.

Module EthArpInv.
Section Inv.
Context `{Endian} `{LwipMacros} {Opt : EtharpOptions} {N : NetworkOrder} {W : World}.

(** ** What an entry is *)

Inductive kind := Unused | Resolved | Waiting | Queueing | Static.

#[local] Instance kind_eq : EqDecision kind.
Proof. solve_decision. Defined.

Definition kind_of (e : etharp_entry) : kind :=
  match state e with
  | ETHARP_STATE_EMPTY => Unused
  | ETHARP_STATE_PENDING => if bool_decide (q e = []) then Waiting else Queueing
  | ETHARP_STATE_STATIC => if ETHARP_SUPPORT_STATIC_ENTRIES then Static else Resolved
  | _ => Resolved
  end.

Definition used (e : etharp_entry) : Prop := state e <> ETHARP_STATE_EMPTY.

(** Two entries for one address. *)
Definition same_key (e1 e2 : etharp_entry) : Prop :=
  ipaddr e1 = ipaddr e2 /\ (ETHARP_TABLE_MATCH_NETIF = true -> e_netif e1 = e_netif e2).

(** How many packets may wait. *)
Definition queue_ok (l : list pbuf) : Prop :=
  if ARP_QUEUEING then ARP_QUEUE_LEN <> 0 -> Z.of_nat (length l) <= ARP_QUEUE_LEN else Z.of_nat (length l) <= 1.

Record entry_ok (nf : Z -> option interface) (e : etharp_entry) : Prop := {
  ok_queue : q e <> [] -> state e = ETHARP_STATE_PENDING;
  ok_length : queue_ok (q e);
  ok_netif : used e -> exists n, e_netif e = Some n /\ is_Some (nf n);
  ok_pending : state e = ETHARP_STATE_PENDING -> ctime e < ARP_MAXPENDING;
  ok_age : used e -> state e <> ETHARP_STATE_STATIC -> ctime e < ARP_MAXAGE;
  ok_ctime : 0 <= ctime e;
  ok_static : state e = ETHARP_STATE_STATIC -> ETHARP_SUPPORT_STATIC_ENTRIES = true
}.

Definition unique (t : list etharp_entry) : Prop :=
  forall i j e1 e2, t !! i = Some e1 -> t !! j = Some e2 -> used e1 -> used e2 -> same_key e1 e2 -> i = j.

Record good (a : arp) : Prop := {
  good_size : Z.of_nat (length (arp_table a)) = ARP_TABLE_SIZE;
  good_cached : 0 <= etharp_cached_entry a < ARP_TABLE_SIZE;
  good_netifs : forall k n, netifs a k = Some n -> size (hwaddr n) = ETH_HWADDR_LEN;
  good_entries : forall i e, arp_table a !! i = Some e -> entry_ok (netifs a) e;
  good_unique : unique (arp_table a)
}.

(** Only events happen. *)
Definition quiet (a a' : arp) : Prop :=
  arp_table a' = arp_table a /\ etharp_cached_entry a' = etharp_cached_entry a /\ netifs a' = netifs a.

Lemma quiet_good a a' : quiet a a' -> good a -> good a'.
Proof. intros (Ht & Hc & Hn) [? ? ? ? ?]. split; rewrite ?Ht, ?Hc, ?Hn; done. Qed.

Lemma quiet_refl a : quiet a a.
Proof. done. Qed.

Lemma quiet_trans a b c : quiet a b -> quiet b c -> quiet a c.
Proof. intros (? & ? & ?) (? & ? & ?). repeat split; congruence. Qed.

Lemma log_quiet e a : quiet a (log e a).
Proof. done. Qed.

Lemma frees_quiet l a : quiet a (foldl (fun a p => log (Free p) a) a l).
Proof.
  revert a. induction l as [|p l IH]; intros a; [done|]. cbn [foldl].
  by apply quiet_trans with (log (Free p) a); [|apply IH].
Qed.

Lemma frees_events l a : events (foldl (fun a p => log (Free p) a) a l) = events a ++ (Free <$> l).
Proof.
  revert a. induction l as [|p l IH]; intros a; [by rewrite app_nil_r|]. cbn [foldl]. rewrite IH. cbn. by rewrite <- app_assoc.
Qed.

(** ** Entries of the table *)

Lemma entry_at_Some a i e :
  entry_at a i = Some e <-> 0 <= i /\ arp_table a !! Z.to_nat i = Some e.
Proof.
  unfold entry_at. destruct (i <? 0) eqn:E; split; try done; try (intros [? ?]; lia || done). intros. split; [lia|done].
Qed.

Lemma entry_in_range a i : good a -> 0 <= i < ARP_TABLE_SIZE -> exists e, entry_at a i = Some e.
Proof.
  intros Hg Hi. pose proof (good_size a Hg). destruct (lookup_lt_is_Some_2 (arp_table a) (Z.to_nat i)) as [e He]; [lia|].
  exists e. apply entry_at_Some. split; [lia|done].
Qed.

Lemma entry_range a i e : good a -> entry_at a i = Some e -> 0 <= i < ARP_TABLE_SIZE.
Proof.
  intros Hg [Hi He]%entry_at_Some. pose proof (good_size a Hg). apply lookup_lt_Some in He. lia.
Qed.

Lemma set_entry_Some a i e :
  0 <= i < ARP_TABLE_SIZE -> set_entry i e a = Some (set_table (<[Z.to_nat i := e]> (arp_table a)) a).
Proof. intros Hi. unfold set_entry. by replace (_ || _) with false by lia. Qed.

(** An entry is replaced: by an unused one, by one for the same address, or by
    one for an address that no other entry is for. *)
Lemma good_set a i e0 e :
  good a -> entry_at a i = Some e0 -> entry_ok (netifs a) e ->
  (used e -> forall j e1, arp_table a !! j = Some e1 -> j <> Z.to_nat i -> used e1 -> ~ same_key e e1) ->
  good (set_table (<[Z.to_nat i := e]> (arp_table a)) a).
Proof.
  intros Hg [Hi He0]%entry_at_Some Hok Hkey. destruct Hg as [Hs Hc Hn He Hu].
  pose proof (lookup_lt_Some _ _ _ He0) as Hlt. split; cbn; try done.
  - by rewrite length_insert.
  - intros j e1. destruct (decide (j = Z.to_nat i)) as [->|Hj].
    + rewrite list_lookup_insert_eq by done. by intros [= <-].
    + rewrite list_lookup_insert_ne by done. apply He.
  - intros j k e1 e2 H1 H2 Hu1 Hu2 Hk. destruct (decide (j = Z.to_nat i)) as [->|Hj], (decide (k = Z.to_nat i)) as [->|Hk'];
      [done|..].
    + rewrite list_lookup_insert_eq in H1 by done. rewrite list_lookup_insert_ne in H2 by done. injection H1 as ->.
      by destruct (Hkey Hu1 k e2 H2 Hk' Hu2).
    + rewrite list_lookup_insert_ne in H1 by done. rewrite list_lookup_insert_eq in H2 by done. injection H2 as ->.
      destruct (Hkey Hu2 j e1 H1 Hj Hu1). destruct Hk as [? Hk]. split; [done|]. intros Hm. by rewrite Hk.
    + rewrite list_lookup_insert_ne in H1, H2 by done. by apply (Hu j k e1 e2).
Qed.

(** The other entries are for other addresses. *)
Lemma good_other a i e0 e j e1 :
  good a -> entry_at a i = Some e0 -> used e0 -> ipaddr e = ipaddr e0 ->
  (ETHARP_TABLE_MATCH_NETIF = true -> e_netif e = e_netif e0) ->
  arp_table a !! j = Some e1 -> j <> Z.to_nat i -> used e1 -> ~ same_key e e1.
Proof.
  intros Hg [_ He0]%entry_at_Some Hu0 Hip Hnet H1 Hj Hu1 [Hk Hm]. apply Hj.
  apply (good_unique a Hg j (Z.to_nat i) e1 e0); try done. split; [congruence|]. intros Hmm. rewrite <- Hm, Hnet; done.
Qed.

(** ** Sending changes nothing but the events *)

(** The interface is there, with an Ethernet address. *)
Definition alive (nf : Z -> option interface) (nif : Z) : Prop :=
  exists n, nf nif = Some n /\ size (hwaddr n) = ETH_HWADDR_LEN.

Lemma good_alive a nif : good a -> is_Some (netifs a nif) -> alive (netifs a) nif.
Proof. intros Hg [n Hn]. exists n. split; [done|]. by apply (good_netifs a Hg nif). Qed.

Lemma alive_assert n : size (hwaddr n) = ETH_HWADDR_LEN -> lwip_assert (size (hwaddr n) =? ETH_HWADDR_LEN) = Some tt.
Proof. by intros ->. Qed.

Lemma ethernet_output_quiet nif p hdr src dst ty a :
  alive (netifs a) nif -> exists r a', ethernet_output nif p hdr src dst ty a = Some (r, a') /\ quiet a a'.
Proof.
  intros (n & Hn & Hs). unfold ethernet_output. cbn [call netifs]. rewrite Hn. cbn [mbind option_bind].
  destruct (negb _); [by eexists _, _|]. rewrite (alive_assert n Hs). by eexists _, _.
Qed.

Lemma etharp_raw_quiet nif s1 d1 s2 ip1 d2 ip2 op a :
  alive (netifs a) nif -> exists r a', etharp_raw nif s1 d1 s2 ip1 d2 ip2 op a = Some (r, a') /\ quiet a a'.
Proof.
  intros Ha. pose proof Ha as (n & Hn & Hs). unfold etharp_raw. cbn [call netifs log]. destruct (negb _); [by eexists _, _|].
  rewrite Hn. cbn [mbind option_bind]. rewrite (alive_assert n Hs). cbn [mbind option_bind].
  match goal with |- context [ethernet_output nif ?p ?h ?s ?d ?t ?a0] =>
    destruct (ethernet_output_quiet nif p h s d t a0 Ha) as (r & a' & -> & Hq) end.
  cbn [mbind option_bind]. by eexists _, _.
Qed.

Lemma etharp_request_dst_quiet nif ip mac a :
  alive (netifs a) nif -> exists r a', etharp_request_dst nif ip mac a = Some (r, a') /\ quiet a a'.
Proof. intros Ha. pose proof Ha as (n & Hn & _). unfold etharp_request_dst. rewrite Hn. by apply etharp_raw_quiet. Qed.

Lemma etharp_request_quiet nif ip a :
  alive (netifs a) nif -> exists r a', etharp_request nif ip a = Some (r, a') /\ quiet a a'.
Proof. apply etharp_request_dst_quiet. Qed.

Lemma ethernet_output_silent nif p hdr src dst ty a r b : ethernet_output nif p hdr src dst ty a = Some (r, b) -> quiet a b.
Proof.
  unfold ethernet_output. cbn [call netifs]. destruct (netifs a nif); cbn [mbind option_bind]; [|done].
  destruct (negb _); [by intros [= _ <-]|]. destruct (lwip_assert _); [|done]. by intros [= _ <-].
Qed.

Lemma etharp_request_dst_silent nif ip mac a r b : etharp_request_dst nif ip mac a = Some (r, b) -> quiet a b.
Proof.
  unfold etharp_request_dst, etharp_raw. cbn [call netifs log]. destruct (netifs a nif); cbn [mbind option_bind]; [|done].
  destruct (negb _); [by intros [= _ <-]|]. destruct (lwip_assert _); cbn [mbind option_bind]; [|done].
  destruct (ethernet_output _ _ _ _ _ _ _) as [[r' c]|] eqn:Eo; cbn [mbind option_bind]; [|done].
  intros [= _ <-]. exact (ethernet_output_silent _ _ _ _ _ _ _ _ _ Eo).
Qed.

(** ** Every operation ends well *)

(** The operation ends, and leaves a good table and the same interfaces. *)
Definition safe (a : arp) (r : option arp) : Prop := exists a', r = Some a' /\ good a' /\ netifs a' = netifs a.

Definition safe_with {A} (a : arp) (r : option (A * arp)) : Prop :=
  exists x a', r = Some (x, a') /\ good a' /\ netifs a' = netifs a.

Lemma good_log e a : good a -> good (log e a).
Proof. by apply quiet_good. Qed.

Lemma safe_refl a : good a -> safe a (Some a).
Proof. intros Hg. by exists a. Qed.

Lemma safe_log a b e : safe a (Some b) -> safe a (Some (log e b)).
Proof. intros (c & [= <-] & Hg & Hn). exists (log e b). split; [done|]. split; [by apply good_log|done]. Qed.

Lemma safe_with_refl {A} (x : A) a b : good b -> netifs b = netifs a -> safe_with a (Some (x, b)).
Proof. intros Hg Hn. by exists x, b. Qed.

Lemma safe_bind {A} a (r : option (A * arp)) f :
  safe_with a r -> (forall x a', good a' -> netifs a' = netifs a -> safe a' (f x a')) ->
  safe a ('(x, a') ← r; f x a').
Proof.
  intros (x & a' & -> & Hg & Hn) Hf. cbn. destruct (Hf x a' Hg Hn) as (b & Hb & Hgb & Hnb).
  exists b. rewrite Hb, Hnb, Hn. done.
Qed.

(** An entry that stays for the same address. *)
Lemma set_entry_safe a i e0 e :
  good a -> entry_at a i = Some e0 -> entry_ok (netifs a) e ->
  (used e -> used e0 /\ ipaddr e = ipaddr e0 /\ (ETHARP_TABLE_MATCH_NETIF = true -> e_netif e = e_netif e0)) ->
  safe a (set_entry i e a).
Proof.
  intros Hg He0 Hok Hk. pose proof (entry_range a i e0 Hg He0) as Hr. rewrite set_entry_Some by done.
  eexists. split; [done|]. split; [|done]. apply good_set with e0; [done..|].
  intros Hu j e1 H1 Hj Hu1. destruct (Hk Hu) as (Hu0 & Hip & Hnet). by apply (good_other a i e0 e j e1).
Qed.

Lemma entry_at_ok a i e : good a -> entry_at a i = Some e -> entry_ok (netifs a) e.
Proof. intros Hg [_ He]%entry_at_Some. by apply (good_entries a Hg _ _ He). Qed.

Definition freed (e : etharp_entry) : etharp_entry := set_state ETHARP_STATE_EMPTY (set_q [] e).

Lemma queue_ok_nil : queue_ok [].
Proof. unfold queue_ok. pose proof queue_len_ok. destruct ARP_QUEUEING; cbn; lia. Qed.

Lemma freed_ok nf e : entry_ok nf e -> entry_ok nf (freed e).
Proof. intros Ho. split; cbn; try done. - apply queue_ok_nil. - apply (ok_ctime _ _ Ho). Qed.

Lemma etharp_free_entry_eq a i e :
  entry_at a i = Some e -> 0 <= i < ARP_TABLE_SIZE ->
  exists b, quiet a b /\ etharp_free_entry i a = set_entry i (freed e) b.
Proof.
  intros He Hr. unfold etharp_free_entry. rewrite He. cbn [mbind option_bind]. eexists. split; [apply frees_quiet|done].
Qed.

Lemma quiet_entry a b i : quiet a b -> entry_at b i = entry_at a i.
Proof. intros (Ht & _). unfold entry_at. by rewrite Ht. Qed.

Lemma set_entry_quiet_safe a b i e0 e :
  quiet a b -> good a -> entry_at a i = Some e0 -> entry_ok (netifs a) e ->
  (used e -> used e0 /\ ipaddr e = ipaddr e0 /\ (ETHARP_TABLE_MATCH_NETIF = true -> e_netif e = e_netif e0)) ->
  safe a (set_entry i e b).
Proof.
  intros Hq Hg He0 Hok Hk. pose proof Hq as (_ & _ & Hn).
  destruct (set_entry_safe b i e0 e) as (a' & -> & Hg' & Hn'); rewrite ?Hn, ?(quiet_entry _ _ _ Hq); try done.
  - by apply (quiet_good a).
  - exists a'. by rewrite Hn', Hn.
Qed.

Lemma etharp_free_entry_safe a i e : good a -> entry_at a i = Some e -> safe a (etharp_free_entry i a).
Proof.
  intros Hg He. destruct (etharp_free_entry_eq a i e He (entry_range a i e Hg He)) as (b & Hq & ->).
  apply (set_entry_quiet_safe a b i e); [done..| |]. - apply freed_ok, (entry_at_ok a i e Hg He). - intros Hu. by exfalso; apply Hu.
Qed.

Lemma for_entries_safe f todo i a :
  (forall i a, good a -> 0 <= i < ARP_TABLE_SIZE -> safe a (f i a)) ->
  good a -> 0 <= i -> i + Z.of_nat todo <= ARP_TABLE_SIZE -> safe a (for_entries f todo i a).
Proof.
  intros Hf. revert i a. induction todo as [|todo IH]; intros i a Hg Hi Ht; [by exists a|]. cbn [for_entries].
  destruct (Hf i a Hg ltac:(lia)) as (a1 & -> & Hg1 & Hn1). cbn [mbind option_bind].
  destruct (IH (i + 1) a1 Hg1 ltac:(lia) ltac:(lia)) as (a2 & -> & Hg2 & Hn2). exists a2. by rewrite Hn2.
Qed.

Lemma quiet_safe {A} a (r : option (A * arp)) :
  good a -> (exists x a', r = Some (x, a') /\ quiet a a') -> safe_with a r.
Proof. intros Hg (x & a' & -> & Hq). exists x, a'. split; [done|]. split; [by apply (quiet_good a)|]. by destruct Hq as (_ & _ & ?). Qed.

(** The timer. *)
Lemma tmr_entry_safe i a : good a -> 0 <= i < ARP_TABLE_SIZE -> safe a (tmr_entry i a).
Proof.
  intros Hg Hi. destruct (entry_in_range a i Hg Hi) as [e He]. pose proof (entry_at_ok a i e Hg He) as Hok.
  unfold tmr_entry. rewrite He. cbn [mbind option_bind]. destruct (_ && _) eqn:Eu; [|by exists a].
  assert (Hu : used e /\ state e <> ETHARP_STATE_STATIC).
  { apply andb_true_iff in Eu as [Eu Es]. rewrite negb_true_iff, bool_decide_eq_false in Eu. split; [done|]. intros Hs.
    rewrite (ok_static _ _ Hok Hs), Hs in Es. done. }
  clear Eu. destruct Hu as [Hu Hns]. pose proof (ok_age _ _ Hok Hu Hns) as Hage. pose proof (ok_ctime _ _ Hok) as H0'. pose proof maxage_ok.
  assert (Hinc : u16 (ctime e + 1) = ctime e + 1) by (unfold u16; rewrite Z.mod_small; lia). rewrite Hinc.
  set (e1 := set_ctime (ctime e + 1) e). change (ctime e1) with (ctime e + 1). change (state e1) with (state e).
  set (a1 := set_table (<[Z.to_nat i := e1]> (arp_table a)) a).
  rewrite (set_entry_Some a i e1) by done. fold a1. cbn [mbind option_bind].
  assert (He1 : entry_at a1 i = Some e1).
  { apply entry_at_Some. split; [lia|]. cbn. apply entry_at_Some in He as [_ He]. by eapply list_lookup_insert_eq, lookup_lt_Some. }
  assert (Htwice : forall b e2, quiet a1 b -> set_entry i e2 b = set_entry i e2 (mkArp (arp_table a) (etharp_cached_entry b) (netifs b) (calls b) (events b))).
  { intros b e2 (Ht & _). rewrite !set_entry_Some by done. unfold set_table. cbn. rewrite Ht. unfold a1. cbn. by rewrite list_insert_insert_eq. }
  destruct (_ || _) eqn:Ex.
  - destruct (etharp_free_entry_eq a1 i e1 He1 Hi) as (b & Hq & ->). rewrite Htwice by done.
    apply (set_entry_quiet_safe a _ i e); [|done..| |by intros Hf; exfalso; apply Hf].
    + destruct Hq as (? & ? & ?). done.
    + split; cbn; try done; [apply queue_ok_nil|lia].
  - apply orb_false_iff in Ex as [Ex Ep].
    assert (Hstable : forall s, stable s = true -> s <> ETHARP_STATE_STATIC -> stable (state e) = true -> safe a (set_entry i (set_state s e1) a1)).
    { intros s Hs Hss Hst. rewrite Htwice by done. apply (set_entry_quiet_safe a _ i e); [done..| |done].
      destruct Hok as [Hq Hl Hnet Hp Ha _ _]. split; cbn; try done.
      - intros Hne. rewrite Hq in Hst by done. done.
      - intros _. by apply Hnet.
      - by intros ->.
      - lia.
      - lia. }
    assert (Hsame : good a1).
    { apply good_set with e; [done..| |].
      - destruct Hok as [Hq Hl Hnet Hp Ha _ Hst]. split; cbn; try done; [|lia..]. intros Hpe. rewrite Hpe, bool_decide_true in Ep by done. lia.
      - intros _ j e2 Hj2 Hj Hu2. by apply (good_other a i e e1 j e2). }
    destruct (state e) eqn:Es; try (exists a1; done); [|by apply Hstable..].
    destruct (ok_netif _ _ Hok Hu) as (n & Hen & Hn). change (e_netif e1) with (e_netif e). rewrite Hen. cbn [mbind option_bind].
    destruct (etharp_request_quiet n (ipaddr e1) a1 (good_alive a n Hg Hn)) as (r & a2 & -> & Hq). cbn [mbind option_bind]. exists a2.
    split; [done|]. split; [by apply (quiet_good a1)|]. by destruct Hq as (_ & _ & ->).
Qed.

Lemma etharp_tmr_safe a : good a -> safe a (etharp_tmr a).
Proof. intros Hg. apply for_entries_safe; [apply tmr_entry_safe|done|done|]. pose proof table_size_ok. lia. Qed.

Lemma etharp_cleanup_netif_safe nif a : good a -> safe a (etharp_cleanup_netif nif a).
Proof.
  intros Hg. apply for_entries_safe; [|done|done|pose proof table_size_ok; lia]. clear a Hg. intros i a Hg Hi.
  destruct (entry_in_range a i Hg Hi) as [e He]. unfold cleanup_entry. rewrite He. cbn [mbind option_bind].
  destruct (_ && _); [by apply (etharp_free_entry_safe a i e)|by exists a].
Qed.

(** ** The search for an entry *)

(** [idx] is the oldest entry of a kind, of the age [age]; the size of the
    table stands for none. *)
Definition oldest (k : kind) (t : list etharp_entry) (idx age : Z) : Prop :=
  (idx = ARP_TABLE_SIZE /\ age = 0 /\ forall i e, t !! i = Some e -> kind_of e <> k) \/
  (exists e, 0 <= idx /\ t !! Z.to_nat idx = Some e /\ kind_of e = k /\ ctime e = age /\
    forall i e', t !! i = Some e' -> kind_of e' = k -> ctime e' <= age).

Lemma lookup_snoc {A} (l : list A) x i y :
  (l ++ [x]) !! i = Some y -> l !! i = Some y \/ (i = length l /\ y = x).
Proof.
  intros Hl. apply lookup_app_Some in Hl as [Hl|[Hle Hl]]; [by left|right].
  destruct (i - length l)%nat eqn:E; [|by destruct n]. injection Hl as ->. split; [lia|done].
Qed.

Lemma lookup_snoc_last {A} (l : list A) x : (l ++ [x]) !! length l = Some x.
Proof. by rewrite lookup_app_r, Nat.sub_diag by done. Qed.

Lemma oldest_keep k t idx age e :
  oldest k t idx age -> 0 <= ctime e -> (kind_of e = k -> ctime e < age) -> oldest k (t ++ [e]) idx age.
Proof.
  intros [(-> & -> & Hn)|(e0 & Hi & He0 & Hk & Ha & Hold)] Hc He.
  - left. repeat split. intros i e1 [H1|[_ ->]]%lookup_snoc; [by apply (Hn i)|]. intros Hk. specialize (He Hk). lia.
  - right. exists e0. split; [done|]. split; [by apply lookup_app_l_Some|]. repeat split; [done..|].
    intros i e1 [H1|[_ ->]]%lookup_snoc Hk1; [by apply (Hold i)|]. specialize (He Hk1). lia.
Qed.

Lemma oldest_new k t idx age e :
  oldest k t idx age -> kind_of e = k -> age <= ctime e -> oldest k (t ++ [e]) (Z.of_nat (length t)) (ctime e).
Proof.
  intros Ho Hk Ha. right. exists e. split; [lia|]. rewrite Nat2Z.id. split; [apply lookup_snoc_last|]. repeat split; [done|].
  intros i e1 [H1|[_ ->]]%lookup_snoc Hk1; [|lia].
  destruct Ho as [(_ & _ & Hn)|(_ & _ & _ & _ & _ & Hold)]; [by destruct (Hn i e1)|]. specialize (Hold i e1 H1 Hk1). lia.
Qed.

(** [idx] is an unused entry, if there is one. *)
Definition vacant (t : list etharp_entry) (idx : Z) : Prop :=
  (idx = ARP_TABLE_SIZE /\ forall i e, t !! i = Some e -> used e) \/
  (exists e, 0 <= idx < ARP_TABLE_SIZE /\ t !! Z.to_nat idx = Some e /\ state e = ETHARP_STATE_EMPTY).

Record swept (t : list etharp_entry) (c : candidates) : Prop := {
  swept_empty : vacant t (empty c);
  swept_stable : oldest Resolved t (old_stable c) (age_stable c);
  swept_pending : oldest Waiting t (old_pending c) (age_pending c);
  swept_queue : oldest Queueing t (old_queue c) (age_queue c)
}.

Lemma swept_nil : swept [] no_candidates.
Proof. split; left; repeat split; by intros i e. Qed.

Lemma vacant_keep t idx e : vacant t idx -> (idx = ARP_TABLE_SIZE -> used e) -> vacant (t ++ [e]) idx.
Proof.
  intros [(-> & Hn)|(e0 & Hi & He0 & Hs)] Hu.
  - left. split; [done|]. intros i e1 [H1|[_ ->]]%lookup_snoc; [by apply (Hn i)|by apply Hu].
  - right. exists e0. split; [done|]. split; [by apply lookup_app_l_Some|done].
Qed.

Lemma sweep_step ip nif t c e nf :
  swept t c -> entry_ok nf e -> Z.of_nat (length t) < ARP_TABLE_SIZE ->
  match sweep_entry ip nif (Z.of_nat (length t)) e c with
  | inl i => i = Z.of_nat (length t) /\ used e /\ matches ip nif e = true
  | inr c' => swept (t ++ [e]) c' /\ (used e -> matches ip nif e = false)
  end.
Proof.
  intros [He Hs Hp Hq] Hok Ht. pose proof (ok_ctime _ _ Hok) as Hc. pose proof (ok_static _ _ Hok) as Hst.
  assert (Hkeep : forall k idx age, oldest k t idx age -> kind_of e <> k -> oldest k (t ++ [e]) idx age)
    by (intros k idx age Ho Hk; by apply oldest_keep).
  assert (Hvac : used e -> vacant (t ++ [e]) (empty c)) by (intros Hu; by apply vacant_keep).
  unfold sweep_entry, used, kind_of in *. destruct (bool_decide (state e = ETHARP_STATE_EMPTY)) eqn:Ee.
  - apply bool_decide_eq_true in Ee. rewrite Ee in *. cbn [negb andb]. rewrite andb_true_r.
    destruct (empty c =? ARP_TABLE_SIZE) eqn:Ec; (split; [|done]); split; cbn; auto.
    + right. exists e. split; [lia|]. rewrite Nat2Z.id. split; [apply lookup_snoc_last|done].
    + apply vacant_keep; [done|lia].
  - apply bool_decide_eq_false in Ee. cbn [negb]. rewrite andb_false_r. destruct (matches ip nif e) eqn:Em; [done|].
    assert (Hold : forall k idx age, kind_of e = k -> oldest k t idx age ->
      (if age <=? ctime e then oldest k (t ++ [e]) (Z.of_nat (length t)) (ctime e) else oldest k (t ++ [e]) idx age)).
    { intros k idx age Hk Ho. destruct (age <=? ctime e) eqn:Ea; [apply oldest_new with idx age; (done || lia)|].
      apply oldest_keep; [done..|lia]. }
    unfold kind_of in Hold.
    destruct (state e) eqn:Es; try done; cbn [stable]; rewrite ?bool_decide_true, ?bool_decide_false by done.
    + destruct (bool_decide (q e = [])) eqn:Eq; cbn [negb].
      * specialize (Hold _ _ _ eq_refl Hp). destruct (age_pending c <=? ctime e); (split; [|done]); split; cbn; auto.
      * specialize (Hold _ _ _ eq_refl Hq). destruct (age_queue c <=? ctime e); (split; [|done]); split; cbn; auto.
    + rewrite orb_true_r. specialize (Hold _ _ _ eq_refl Hs). destruct (age_stable c <=? ctime e); (split; [|done]); split; cbn; auto.
    + rewrite orb_true_r. specialize (Hold _ _ _ eq_refl Hs). destruct (age_stable c <=? ctime e); (split; [|done]); split; cbn; auto.
    + rewrite orb_true_r. specialize (Hold _ _ _ eq_refl Hs). destruct (age_stable c <=? ctime e); (split; [|done]); split; cbn; auto.
    + rewrite Hst in * by done. cbn. split; [|done]. split; cbn; auto.
Qed.

Lemma sweep_ok ip nif es t c nf :
  swept t c -> Forall (entry_ok nf) es -> Z.of_nat (length t + length es) <= ARP_TABLE_SIZE ->
  match sweep ip nif es (Z.of_nat (length t)) c with
  | inl i => exists e, 0 <= i /\ (t ++ es) !! Z.to_nat i = Some e /\ used e /\ matches ip nif e = true
  | inr c' => swept (t ++ es) c' /\ forall e, e ∈ es -> used e -> matches ip nif e = false
  end.
Proof.
  intros Hs Hes. revert t c Hs. induction Hes as [|e es He _ IH]; intros t c Hs Hl.
  - cbn. rewrite app_nil_r. split; [done|]. intros e Hx. by apply elem_of_nil in Hx.
  - cbn [sweep]. cbn [length] in Hl. pose proof (sweep_step ip nif t c e nf Hs He ltac:(lia)) as Hx.
    destruct (sweep_entry _ _ _ _ _) as [i|c'].
    + destruct Hx as (-> & Hu & Hm). exists e. split; [lia|]. rewrite Nat2Z.id. split; [|done].
      by rewrite lookup_app_r, Nat.sub_diag by done.
    + destruct Hx as [Hs' Hm]. specialize (IH (t ++ [e]) c' Hs'). rewrite length_app in IH. cbn [length] in IH.
      replace (Z.of_nat (length t + 1)) with (Z.of_nat (length t) + 1) in IH by lia. rewrite <- app_assoc in IH.
      specialize (IH ltac:(lia)). destruct (sweep _ _ _ _ _) as [i|c2]; [exact IH|]. destruct IH as [IH1 IH2].
      split; [exact IH1|]. intros e1 [->|Hin]%elem_of_cons; [done|by apply IH2].
Qed.

(** The order in which entries are given up. *)
Definition rank (k : kind) : nat :=
  match k with Unused => 0 | Resolved => 1 | Waiting => 2 | Queueing => 3 | Static => 4 end.

(** [e0] is the entry of the table to use: none is less destructive to give
    up, or of the same kind and older. *)
Definition choice (t : list etharp_entry) (e0 : etharp_entry) : Prop :=
  kind_of e0 <> Static /\
  forall i e, t !! i = Some e -> (rank (kind_of e0) <= rank (kind_of e))%nat /\
    (kind_of e = kind_of e0 -> kind_of e0 <> Unused -> ctime e <= ctime e0).

Definition try_hard (flags : Z) : bool := negb (Z.land flags ETHARP_FLAG_TRY_HARD =? 0).
Definition find_only (flags : Z) : bool := negb (Z.land flags ETHARP_FLAG_FIND_ONLY =? 0).

(** The entry as [etharp_find_entry] leaves it when it is a new one. *)
Definition new_entry (ip : Z) (nif : option Z) (e0 : etharp_entry) : etharp_entry :=
  mkEntry [] ip (if ETHARP_TABLE_MATCH_NETIF then nif else e_netif e0) (ethaddr e0) 0 ETHARP_STATE_EMPTY.

Lemma kind_unused e : kind_of e = Unused <-> state e = ETHARP_STATE_EMPTY.
Proof. unfold kind_of. destruct (state e); repeat case_match; split; done. Qed.

Lemma vacant_none t idx : vacant t idx -> ARP_TABLE_SIZE <= idx -> forall i e, t !! i = Some e -> kind_of e <> Unused.
Proof.
  intros [(_ & Hn)|(e0 & Hi & _)] Hs i e He Hk; [|lia]. by apply (Hn i e He), kind_unused.
Qed.

Lemma oldest_none k t idx age :
  oldest k t idx age -> Z.of_nat (length t) <= ARP_TABLE_SIZE -> ARP_TABLE_SIZE <= idx ->
  forall i e, t !! i = Some e -> kind_of e <> k.
Proof.
  intros [(_ & _ & Hn)|(e0 & Hi & He0 & _)] Hl Hs i e He; [by apply (Hn i)|].
  apply lookup_lt_Some in He0. lia.
Qed.

Lemma oldest_some k t idx age :
  oldest k t idx age -> idx < ARP_TABLE_SIZE ->
  exists e0, 0 <= idx /\ t !! Z.to_nat idx = Some e0 /\ kind_of e0 = k /\
    forall i e, t !! i = Some e -> kind_of e = k -> ctime e <= ctime e0.
Proof.
  intros [(-> & _)|(e0 & Hi & He0 & Hk & Ha & Hold)] Hs; [lia|]. exists e0. repeat split; try done.
  intros i e He Hke. rewrite Ha. by apply (Hold i).
Qed.

(** What [recycle] does with the candidates of the whole table. *)
Lemma recycle_ok a c :
  good a -> swept (arp_table a) c ->
  (exists i e0 b, recycle c a = Some (Some (i, b)) /\ entry_at a i = Some e0 /\ choice (arp_table a) e0 /\
    events b = events a ++ (Free <$> q e0) /\ etharp_cached_entry b = etharp_cached_entry a /\ netifs b = netifs a /\
    arp_table b = <[Z.to_nat i := freed e0]> (arp_table a)) \/
  (recycle c a = Some None /\ forall i e, arp_table a !! i = Some e -> kind_of e = Static).
Proof.
  intros Hg [He Hs Hp Hq]. pose proof (good_size a Hg) as Hsize. unfold recycle.
  destruct (empty c <? ARP_TABLE_SIZE) eqn:Ee.
  - left. destruct He as [(Hx & _)|(e0 & Hi & He0 & Hst)]; [lia|]. exists (empty c), e0, a.
    split; [done|]. assert (Hat : entry_at a (empty c) = Some e0) by (by apply entry_at_Some; split; [lia|]).
    pose proof (entry_at_ok a _ _ Hg Hat) as Hok. apply kind_unused in Hst as Hk. split; [done|].
    assert (Hq0 : q e0 = []) by (destruct (q e0) eqn:E; [done|]; rewrite (ok_queue _ _ Hok) in Hst by (by rewrite E); done).
    split; [|rewrite Hq0, app_nil_r; repeat split].
    + unfold choice. rewrite Hk. split; [done|]. intros i e _. split; [cbn; lia|done].
    + rewrite list_insert_id; [done|]. rewrite He0. f_equal. destruct e0; cbn in *. by rewrite Hq0, Hst.
  - pose proof (vacant_none _ _ He ltac:(lia)) as Hnone.
    assert (Hfree : forall i e0, entry_at a i = Some e0 -> choice (arp_table a) e0 ->
      exists b, (_ ← lwip_assert (i <? ARP_TABLE_SIZE); a ← etharp_free_entry i a; Some (Some (i, a))) = Some (Some (i, b)) /\
        events b = events a ++ (Free <$> q e0) /\ etharp_cached_entry b = etharp_cached_entry a /\ netifs b = netifs a /\
        arp_table b = <[Z.to_nat i := freed e0]> (arp_table a)).
    { intros i e0 Hat _. pose proof (entry_range a i e0 Hg Hat) as Hr. unfold lwip_assert.
      replace (i <? ARP_TABLE_SIZE) with true by lia. cbn [mbind option_bind]. unfold etharp_free_entry. rewrite Hat.
      cbn [mbind option_bind]. rewrite set_entry_Some by done. cbn [mbind option_bind]. eexists. split; [done|]. cbn.
      destruct (frees_quiet (q e0) a) as (-> & -> & ->). by rewrite frees_events. }
    assert (Hchoose : forall k idx age, oldest k (arp_table a) idx age -> idx < ARP_TABLE_SIZE -> k <> Static -> k <> Unused ->
      (forall i e, arp_table a !! i = Some e -> (rank k <= rank (kind_of e))%nat) ->
      exists e0, entry_at a idx = Some e0 /\ kind_of e0 = k /\ choice (arp_table a) e0).
    { intros k idx age Ho Hi Hns Hnu Hrank. destruct (oldest_some _ _ _ _ Ho Hi) as (e0 & H0i & He0 & Hk & Hold).
      exists e0. split; [by apply entry_at_Some|]. split; [done|]. split; [by rewrite Hk|]. intros i e Hie. rewrite Hk.
      split; [by apply (Hrank i)|]. intros Hke _. by apply (Hold i). }
    destruct (old_stable c <? ARP_TABLE_SIZE) eqn:Es; [|destruct (old_pending c <? ARP_TABLE_SIZE) eqn:Ep;
      [|destruct (old_queue c <? ARP_TABLE_SIZE) eqn:Eq]].
    + left. destruct (Hchoose _ _ _ Hs ltac:(lia)) as (e0 & Hat & Hk & Hch); [done..| |].
      { intros i e Hie. specialize (Hnone i e Hie). destruct (kind_of e); cbn; (done || lia). }
      destruct (Hfree _ _ Hat Hch) as (b & Hb & Hrest). exists (old_stable c), e0, b. rewrite Hat. cbn [mbind option_bind].
      assert (Hq0 : q e0 = []).
      { destruct (q e0) eqn:E; [done|]. exfalso. pose proof (entry_at_ok a _ _ Hg Hat) as Hok.
        unfold kind_of in Hk. rewrite (ok_queue _ _ Hok) in Hk by (by rewrite E). by rewrite E in Hk. }
      rewrite bool_decide_true by done. cbn [lwip_assert mbind option_bind]. done.
    + pose proof (oldest_none _ _ _ _ Hs ltac:(lia) ltac:(lia)) as Hnos. left.
      destruct (Hchoose _ _ _ Hp ltac:(lia)) as (e0 & Hat & Hk & Hch); [done..| |].
      { intros i e Hie. specialize (Hnone i e Hie). specialize (Hnos i e Hie). destruct (kind_of e); cbn; (done || lia). }
      destruct (Hfree _ _ Hat Hch) as (b & Hb & Hrest). by exists (old_pending c), e0, b.
    + pose proof (oldest_none _ _ _ _ Hs ltac:(lia) ltac:(lia)) as Hnos. pose proof (oldest_none _ _ _ _ Hp ltac:(lia) ltac:(lia)) as Hnop.
      left. destruct (Hchoose _ _ _ Hq ltac:(lia)) as (e0 & Hat & Hk & Hch); [done..| |].
      { intros i e Hie. specialize (Hnone i e Hie). specialize (Hnos i e Hie). specialize (Hnop i e Hie).
        destruct (kind_of e); cbn; (done || lia). }
      destruct (Hfree _ _ Hat Hch) as (b & Hb & Hrest). by exists (old_queue c), e0, b.
    + right. split; [done|]. intros i e Hie. specialize (Hnone i e Hie).
      pose proof (oldest_none _ _ _ _ Hs ltac:(lia) ltac:(lia) i e Hie) as H1'.
      pose proof (oldest_none _ _ _ _ Hp ltac:(lia) ltac:(lia) i e Hie) as H2'.
      pose proof (oldest_none _ _ _ _ Hq ltac:(lia) ltac:(lia) i e Hie) as H3'. by destruct (kind_of e).
Qed.

(** The three ways [etharp_find_entry] can end. *)
Inductive found (ip : Z) (flags : Z) (nif : option Z) (a : arp) : Z -> arp -> Prop :=
  | found_match i e :
      entry_at a i = Some e -> used e -> matches (Some ip) nif e = true ->
      found ip flags nif a i a
  | found_none :
      (forall i e, arp_table a !! i = Some e -> used e -> matches (Some ip) nif e = false) ->
      (find_only flags = false -> try_hard flags = true -> forall i e, arp_table a !! i = Some e -> kind_of e = Static) ->
      found ip flags nif a ERR_MEM a
  | found_new i e0 b :
      find_only flags = false ->
      (forall i e, arp_table a !! i = Some e -> used e -> matches (Some ip) nif e = false) ->
      entry_at a i = Some e0 -> choice (arp_table a) e0 ->
      (try_hard flags = false -> kind_of e0 = Unused) ->
      arp_table b = <[Z.to_nat i := new_entry ip nif e0]> (arp_table a) ->
      etharp_cached_entry b = etharp_cached_entry a -> netifs b = netifs a ->
      events b = events a ++ (Free <$> q e0) ->
      found ip flags nif a i b.

Lemma etharp_find_entry_ok ip flags nif a :
  good a -> exists i b, etharp_find_entry (Some ip) flags nif a = Some (i, b) /\ found ip flags nif a i b.
Proof.
  intros Hg. pose proof (good_size a Hg) as Hsize.
  assert (Hall : Forall (entry_ok (netifs a)) (arp_table a)).
  { apply Forall_lookup. intros i e. apply (good_entries a Hg). }
  pose proof (sweep_ok (Some ip) nif (arp_table a) [] no_candidates (netifs a) swept_nil Hall ltac:(cbn; lia)) as Hs.
  cbn [app length] in Hs. change (Z.of_nat 0) with 0 in Hs. unfold etharp_find_entry.
  destruct (sweep _ _ _ _ _) as [i|c].
  - destruct Hs as (e & Hi & He & Hu & Hm). exists i, a. split; [done|]. apply found_match with e; [|done..]. by apply entry_at_Some.
  - destruct Hs as [Hs Hm]. assert (Hno : forall i e, arp_table a !! i = Some e -> used e -> matches (Some ip) nif e = false).
    { intros i e He. by apply Hm, list_elem_of_lookup_2 with i. }
    change (negb (Z.land flags ETHARP_FLAG_FIND_ONLY =? 0)) with (find_only flags).
    destruct (find_only flags) eqn:Ef; cbn [orb].
    { exists ERR_MEM, a. split; [done|]. by apply found_none; [|rewrite Ef]. }
    destruct ((empty c =? ARP_TABLE_SIZE) && (Z.land flags ETHARP_FLAG_TRY_HARD =? 0)) eqn:Eh.
    { exists ERR_MEM, a. split; [done|]. apply found_none; [done|]. unfold try_hard. intros _ Ht.
      apply andb_true_iff in Eh as [_ Eh]. by rewrite Eh in Ht. }
    destruct (recycle_ok a c Hg Hs) as [(i & e0 & b & -> & Hat & Hch & Hev & Hca & Hnf & Htab)|[-> Hst]].
    2: { exists ERR_MEM, a. split; [done|]. by apply found_none. }
    pose proof (entry_range a i e0 Hg Hat) as Hr. cbn [mbind option_bind]. unfold lwip_assert.
    replace (i <? ARP_TABLE_SIZE) with true by lia. cbn [mbind option_bind].
    assert (Hatb : entry_at b i = Some (freed e0)).
    { apply entry_at_Some. rewrite Htab. split; [lia|]. apply list_lookup_insert_eq. lia. }
    rewrite Hatb. cbn [mbind option_bind]. change (state (freed e0)) with ETHARP_STATE_EMPTY. rewrite bool_decide_true by done.
    cbn [mbind option_bind]. rewrite set_entry_Some by done. cbn [mbind option_bind]. eexists i, _. split; [done|].
    apply found_new with e0; cbn; rewrite ?Htab; try done.
    + intros Ht. apply andb_false_iff in Eh as [Eh|Eh].
      * destruct (swept_empty _ _ Hs) as [(Hx & _)|(e1 & Hi1 & He1 & Hs1)]; [lia|]. apply kind_unused in Hs1.
        destruct Hch as [_ Hch]. destruct (Hch _ _ He1) as [Hrank _]. rewrite Hs1 in Hrank. destruct (kind_of e0); cbn in Hrank; (done || lia).
      * unfold try_hard in Ht. by rewrite Eh in Ht.
    + rewrite list_insert_insert_eq. f_equal. unfold new_entry, freed. by destruct ETHARP_TABLE_MATCH_NETIF.
Qed.

(** The new entry is good. *)
Lemma found_good ip flags nif a i b :
  good a -> found ip flags nif a i b -> good b /\ netifs b = netifs a.
Proof.
  intros Hg Hf. destruct Hf as [i e _ _ _|_ _|i e0 b _ _ Hat _ _ Ht Hc Hn _]; [done..|]. split; [|done].
  pose proof (entry_at_ok a i e0 Hg Hat) as Hok.
  assert (Hgs : good (set_table (<[Z.to_nat i := new_entry ip nif e0]> (arp_table a)) a)).
  { apply good_set with e0; [done..| |].
    - split; cbn; try done. apply queue_ok_nil.
    - intros Hu. by exfalso; apply Hu. }
  by apply (quiet_good _ b) in Hgs.
Qed.

(** An entry is for an address. *)
Definition for_key (ip : Z) (nif : Z) (e : etharp_entry) : Prop :=
  ipaddr e = ip /\ (ETHARP_TABLE_MATCH_NETIF = true -> e_netif e = Some nif).

Lemma matches_key ip nif e : matches (Some ip) (Some nif) e = true <-> for_key ip nif e.
Proof.
  unfold matches, for_key. rewrite andb_true_iff, orb_true_iff, negb_true_iff, bool_decide_eq_true, Z.eqb_eq.
  destruct ETHARP_TABLE_MATCH_NETIF; (split; [intros [-> [?|?]]; done|]); intros [-> Hm]; (split; [done|]); auto.
  right. symmetry. by apply Hm.
Qed.

Lemma same_key_for ip nif e1 e2 : for_key ip nif e1 -> for_key ip nif e2 -> same_key e1 e2.
Proof. intros [Hi1 Hn1] [Hi2 Hn2]. split; [congruence|]. intros Hm. by rewrite Hn1, Hn2. Qed.

(** Afterwards the entry is the only one for its address. *)
Lemma found_only ip flags nif a i b :
  good a -> found ip flags (Some nif) a i b -> 0 <= i ->
  exists e, entry_at b i = Some e /\ for_key ip nif e /\
    forall j e1, arp_table b !! j = Some e1 -> j <> Z.to_nat i -> used e1 -> ~ for_key ip nif e1.
Proof.
  intros Hg Hf Hi. destruct Hf as [i e He Hu Hm|_ _|i e0 b _ Hno Hat _ _ Ht _ _ _]; [|lia|].
  - apply matches_key in Hm. exists e. split; [done|]. split; [done|]. intros j e1 H1' Hj Hu1 Hk.
    apply entry_at_Some in He as [_ He]. apply Hj, (good_unique a Hg _ _ e1 e); [done..|]. by apply (same_key_for ip nif).
  - pose proof (entry_range a i e0 Hg Hat) as Hr. pose proof (good_size a Hg). exists (new_entry ip (Some nif) e0). split; [|split].
    + apply entry_at_Some. rewrite Ht. split; [done|]. apply list_lookup_insert_eq. lia.
    + split; [done|]. cbn. by intros ->.
    + intros j e1 H1' Hj Hu1 Hk%matches_key. rewrite Ht, list_lookup_insert_ne in H1' by done. by rewrite (Hno j e1) in Hk.
Qed.

(** ** Waiting packets are sent *)

(** What is done with the packets [l]: each is sent, unless there is no room for
    a header, and then given up; the packets go in order. *)
Inductive flushed (nif : Z) (src mac : list Z) : list pbuf -> list event -> Prop :=
  | flushed_nil : flushed nif src mac [] []
  | flushed_sent p l evs :
      flushed nif src mac l evs -> flushed nif src mac (p :: l) (Send nif p None src mac ETHTYPE_IP :: Free p :: evs)
  | flushed_lost p l evs k :
      pbuf_add_header_ok k = false -> flushed nif src mac l evs -> flushed nif src mac (p :: l) (Free p :: evs).

Lemma send_queue_ok nif i src mac l a e :
  alive (netifs a) nif -> 0 <= i < ARP_TABLE_SIZE -> entry_at a i = Some e -> q e = l ->
  exists b evs, send_queue nif i src mac l a = Some b /\ arp_table b = <[Z.to_nat i := set_q [] e]> (arp_table a) /\
    etharp_cached_entry b = etharp_cached_entry a /\ netifs b = netifs a /\
    events b = events a ++ evs /\ flushed nif src mac l evs.
Proof.
  intros (n & Hn & Hsz) Hi He Hq. revert a e Hn He Hq. induction l as [|p l IH]; intros a e Hn He Hq; cbn [send_queue].
  - exists a, []. rewrite app_nil_r. split; [done|]. split; [|split; [done|split; [done|split; [done|constructor]]]].
    apply entry_at_Some in He as [_ He]. rewrite list_insert_id; [done|]. rewrite He. destruct e. cbn in *. by rewrite Hq.
  - rewrite He. cbn [mbind option_bind]. rewrite set_entry_Some by done. cbn [mbind option_bind].
    unfold ethernet_output. cbn [call netifs set_table]. rewrite Hn. cbn [mbind option_bind].
    set (a1 := set_table (<[Z.to_nat i := set_q l e]> (arp_table a)) a).
    apply entry_at_Some in He as [Hi0 He]. pose proof (lookup_lt_Some _ _ _ He) as Hlt.
    assert (Hstep : forall c, arp_table c = arp_table a1 -> etharp_cached_entry c = etharp_cached_entry a -> netifs c = netifs a ->
      exists b evs, send_queue nif i src mac l c = Some b /\ arp_table b = <[Z.to_nat i := set_q [] e]> (arp_table a) /\
        etharp_cached_entry b = etharp_cached_entry a /\ netifs b = netifs a /\
        events b = events c ++ evs /\ flushed nif src mac l evs).
    { intros c Ht Hc Hnc. destruct (IH c (set_q l e)) as (b & evs & -> & Htb & Hcb & Hnb & Hev & Hfl).
      - by rewrite Hnc.
      - apply entry_at_Some. rewrite Ht. split; [done|]. by apply list_lookup_insert_eq.
      - done.
      - exists b, evs. split; [done|]. rewrite Htb, Ht. cbn. rewrite list_insert_insert_eq. by rewrite Hcb, Hnb, Hc, Hnc. }
    rewrite (alive_assert n Hsz). destruct (negb _) eqn:Eh; cbn [mbind option_bind].
    + match goal with |- context [send_queue _ _ _ _ _ ?c] => destruct (Hstep c eq_refl eq_refl eq_refl) as (b & evs & -> & Htb & Hcb & Hnb & Hev & Hfl) end.
      exists b, (Free p :: evs). repeat split; try done; [|by apply flushed_lost with (calls a); [by apply negb_true_iff in Eh|]]. rewrite Hev. cbn. by rewrite <- app_assoc.
    + match goal with |- context [send_queue _ _ _ _ _ ?c] => destruct (Hstep c eq_refl eq_refl eq_refl) as (b & evs & -> & Htb & Hcb & Hnb & Hev & Hfl) end.
      exists b, (Send nif p None src mac ETHTYPE_IP :: Free p :: evs). repeat split; try done; [|by constructor].
      rewrite Hev. cbn. by rewrite <- !app_assoc.
Qed.

(** ** Updates *)

(** An entry that has just been resolved. *)
Definition resolved (nif : Z) (mac : list Z) (s : etharp_state) (e : etharp_entry) : etharp_entry :=
  mkEntry [] (ipaddr e) (Some nif) mac 0 s.

Definition is_static_flag (flags : Z) : bool :=
  ETHARP_SUPPORT_STATIC_ENTRIES && negb (Z.land flags ETHARP_FLAG_STATIC_ENTRY =? 0).

Definition update_state (flags : Z) : etharp_state :=
  if is_static_flag flags then ETHARP_STATE_STATIC else ETHARP_STATE_STABLE.

Inductive updated (nif : Z) (n : interface) (ip : Z) (mac : list Z) (flags : Z) (a : arp) : Z -> arp -> Prop :=
  | updated_arg : not_unicast ip n = true -> updated nif n ip mac flags a ERR_ARG a
  | updated_mem :
      not_unicast ip n = false -> found ip flags (Some nif) a ERR_MEM a -> updated nif n ip mac flags a ERR_MEM a
  | updated_val i e :
      not_unicast ip n = false -> found ip flags (Some nif) a i a -> entry_at a i = Some e ->
      state e = ETHARP_STATE_STATIC -> is_static_flag flags = false -> updated nif n ip mac flags a ERR_VAL a
  | updated_ok i c e evs b :
      not_unicast ip n = false -> found ip flags (Some nif) a i c -> entry_at c i = Some e ->
      (state e = ETHARP_STATE_STATIC -> is_static_flag flags = true) ->
      arp_table b = <[Z.to_nat i := resolved nif mac (update_state flags) e]> (arp_table c) ->
      etharp_cached_entry b = etharp_cached_entry a -> netifs b = netifs a ->
      events b = events c ++ evs -> flushed nif (hwaddr n) mac (q e) evs ->
      updated nif n ip mac flags a ERR_OK b.

Lemma etharp_update_ok nif n ip mac flags a :
  good a -> netifs a nif = Some n ->
  exists r b, etharp_update_arp_entry nif ip mac flags a = Some (r, b) /\ updated nif n ip mac flags a r b.
Proof.
  intros Hg Hn. unfold etharp_update_arp_entry. rewrite Hn. cbn [mbind option_bind].
  rewrite (proj2 (Z.eqb_eq _ _) (good_netifs a Hg nif n Hn)). cbn [lwip_assert mbind option_bind].
  destruct (not_unicast ip n) eqn:Eu; [by eexists _, _; split; [|apply updated_arg]|].
  destruct (etharp_find_entry_ok ip flags (Some nif) a Hg) as (i & c & -> & Hf). cbn [mbind option_bind].
  destruct (found_good _ _ _ _ _ _ Hg Hf) as [Hgc Hnc]. destruct (i <? 0) eqn:Ei.
  - assert (i = ERR_MEM /\ c = a) as [-> ->].
    { destruct Hf as [i e He _ _| |i e0 b _ _ He]; [|done|]; apply entry_at_Some in He as [? _]; lia. }
    eexists _, _. split; [done|]. by apply updated_mem.
  - destruct (found_only _ _ _ _ _ _ Hg Hf ltac:(lia)) as (e & He & Hkey & Honly). rewrite He. cbn [mbind option_bind].
    pose proof (entry_range c i e Hgc He) as Hr.
    change (Z.land flags ETHARP_FLAG_STATIC_ENTRY =? 0) with (Z.land flags 4 =? 0).
    assert (Hval : ETHARP_SUPPORT_STATIC_ENTRIES && (Z.land flags 4 =? 0) && bool_decide (state e = ETHARP_STATE_STATIC) = true ->
      state e = ETHARP_STATE_STATIC /\ is_static_flag flags = false).
    { rewrite !andb_true_iff, bool_decide_eq_true. intros [[Hs Hz] Hst]. split; [done|]. unfold is_static_flag.
      by rewrite Hz, andb_false_r. }
    destruct (_ && bool_decide _) eqn:Ev.
    + destruct (Hval eq_refl) as [Hst Hfl]. assert (c = a) as ->.
      { destruct Hf as [| |i e0 b _ _ _ _ _ Ht]; [done..|]. exfalso. apply entry_at_Some in He as [_ He].
        rewrite Ht, list_lookup_insert_eq in He; [by injection He as <-|]. pose proof (good_size a Hg). lia. }
      eexists _, _. split; [done|]. by apply (updated_val _ _ _ _ _ _ i e).
    + rewrite set_entry_Some by done. cbn [mbind option_bind]. set (s := if _ && _ then _ else _).
      set (e1 := set_ctime 0 (set_ethaddr mac (set_netif (Some nif) (set_state s e)))).
      set (c1 := set_table (<[Z.to_nat i := e1]> (arp_table c)) c).
      assert (Hc1 : entry_at c1 i = Some e1).
      { apply entry_at_Some. split; [lia|]. apply list_lookup_insert_eq. pose proof (good_size c Hgc). lia. }
      destruct (send_queue_ok nif i (hwaddr n) mac (q e) c1 e1) as (b & evs & -> & Htb & Hcb & Hnb & Hev & Hfl); [|done..|].
      { exists n. split; [cbn; congruence|]. by apply (good_netifs a Hg nif). }
      cbn [mbind option_bind]. eexists _, _. split; [done|]. apply (updated_ok _ _ _ _ _ _ i c e evs); try done.
      * intros Hst. unfold is_static_flag. destruct ETHARP_SUPPORT_STATIC_ENTRIES eqn:Es; cbn [andb] in *.
        -- rewrite Hst, bool_decide_true, andb_true_r in Ev by done. by rewrite Ev.
        -- by rewrite (ok_static _ _ (entry_at_ok c i e Hgc He) Hst) in Es.
      * rewrite Htb. unfold c1, set_table. cbn. by rewrite list_insert_insert_eq.
      * rewrite Hcb. cbn. by destruct Hf.
      * by rewrite Hnb.
Qed.

Lemma updated_good nif n ip mac flags a r b :
  good a -> netifs a nif = Some n -> updated nif n ip mac flags a r b -> good b /\ netifs b = netifs a.
Proof.
  intros Hg Hn Hu. destruct Hu as [|_ _|i e _ _ _ _ _|i c e evs b _ Hf He Hst Htb Hcb Hnb _ _]; [done..|]. split; [|done].
  destruct (found_good _ _ _ _ _ _ Hg Hf) as [Hgc Hnc]. pose proof (entry_range c i e Hgc He) as Hr.
  destruct (found_only _ _ _ _ _ _ Hg Hf ltac:(lia)) as (e' & He' & Hkey & Honly). assert (e' = e) as -> by congruence.
  set (e1 := resolved nif mac (update_state flags) e) in *.
  assert (Hgs : good (set_table (<[Z.to_nat i := e1]> (arp_table c)) c)).
  { apply good_set with e; [done..| |].
    - pose proof maxage_ok. split; cbn; try done; try lia.
      + apply queue_ok_nil.
      + intros _. exists nif. rewrite Hnc, Hn. done.
      + unfold update_state, is_static_flag. destruct ETHARP_SUPPORT_STATIC_ENTRIES; [done|]. by cbn.
    - intros _ j e2 H2' Hj Hu2 [Hk1 Hk2]. apply (Honly j e2 H2' Hj Hu2). destruct Hkey as [Hip _].
      split; [cbn in Hk1; congruence|]. intros Hm. by rewrite <- Hk2. }
  apply (quiet_good _ b) in Hgs; [done|]. split; [done|]. split; [|cbn; congruence]. cbn. rewrite Hcb. by destruct Hf.
Qed.

Lemma etharp_update_safe nif ip mac flags a :
  good a -> is_Some (netifs a nif) -> safe_with a (etharp_update_arp_entry nif ip mac flags a).
Proof.
  intros Hg [n Hn]. destruct (etharp_update_ok nif n ip mac flags a Hg Hn) as (r & b & -> & Hu). exists r, b.
  split; [done|]. by apply (updated_good nif n ip mac flags a r).
Qed.

(** ** The other operations *)

Lemma safe_with_bind {A B} a (r : option (A * arp)) (f : A -> arp -> option (B * arp)) :
  safe_with a r -> (forall x a', good a' -> netifs a' = netifs a -> safe_with a' (f x a')) ->
  safe_with a ('(x, a') ← r; f x a').
Proof.
  intros (x & a' & -> & Hg & Hn) Hf. cbn. destruct (Hf x a' Hg Hn) as (y & b & Hb & Hgb & Hnb).
  exists y, b. rewrite Hb, Hnb, Hn. done.
Qed.

Lemma safe_drop {A} a (r : option (A * arp)) : safe_with a r -> safe a ('(_, a') ← r; Some a').
Proof. intros (x & a' & -> & Hg & Hn). by exists a'. Qed.

(** A new state, age or queue of an entry. *)
Lemma touch_safe a i e0 e :
  good a -> entry_at a i = Some e0 -> used e0 -> ipaddr e = ipaddr e0 -> e_netif e = e_netif e0 ->
  entry_ok (netifs a) e -> safe a (set_entry i e a).
Proof. intros Hg He Hu Hip Hnet Hok. apply (set_entry_safe a i e0 e); [done..|]. intros _. by rewrite Hip, Hnet. Qed.

Lemma etharp_add_static_entry_safe ip mac a :
  good a -> (forall nif, ip4_route ip = Some nif -> is_Some (netifs a nif)) -> safe_with a (etharp_add_static_entry ip mac a).
Proof.
  intros Hg Hr. unfold etharp_add_static_entry. destruct (ip4_route ip) as [nif|]; [|by exists ERR_RTE, a].
  apply etharp_update_safe; [done|by apply Hr].
Qed.

(** A search that does not create an entry. *)
Lemma find_only_ok ip nif a :
  good a -> exists i, etharp_find_entry (Some ip) ETHARP_FLAG_FIND_ONLY nif a = Some (i, a) /\
    (i = ERR_MEM /\ (forall j e, arp_table a !! j = Some e -> used e -> matches (Some ip) nif e = false) \/
     exists e, entry_at a i = Some e /\ 0 <= i /\ used e /\ matches (Some ip) nif e = true).
Proof.
  intros Hg. destruct (etharp_find_entry_ok ip ETHARP_FLAG_FIND_ONLY nif a Hg) as (i & b & Hx & Hf).
  destruct Hf as [i e He Hu Hm|Hno _|i e0 b Hfo]; [| |done].
  - exists i. split; [done|]. right. exists e. pose proof (entry_range a i e Hg He). by split; [|split; [lia|]].
  - exists ERR_MEM. split; [done|]. by left.
Qed.

Lemma etharp_remove_static_entry_safe ip a : good a -> safe_with a (etharp_remove_static_entry ip a).
Proof.
  intros Hg. unfold etharp_remove_static_entry.
  destruct (find_only_ok ip None a Hg) as (i & -> & [[-> _]|(e & He & Hi & _)]); cbn [mbind option_bind]; [by eexists _, _|].
  replace (i <? 0) with false by lia. rewrite He. cbn [mbind option_bind]. destruct (negb _); [by eexists _, _|].
  destruct (etharp_free_entry_safe a i e Hg He) as (b & -> & Hgb & Hnb). by eexists _, _.
Qed.

Lemma etharp_input_safe p hdr nif a : good a -> is_Some (netifs a nif) -> safe a (etharp_input p hdr nif a).
Proof.
  intros Hg Hs. pose proof Hs as [n Hn]. unfold etharp_input. rewrite Hn. cbn [mbind option_bind].
  destruct (_ || _); [by apply safe_log, safe_refl|]. set (fu := if _ =? 0 then _ else _).
  apply (safe_bind a _ _ (etharp_update_safe nif _ _ _ a Hg Hs)). intros _ a1 Hg1 Hn1. destruct (_ && fu).
  - destruct (etharp_raw_quiet nif (hwaddr n) (shwaddr hdr) (hwaddr n) (netif_ip4_addr (netif n)) (shwaddr hdr) (sipaddr hdr) ARP_REPLY a1)
      as (r & a2 & -> & Hq); [by apply good_alive; [|rewrite Hn1]|]. cbn [mbind option_bind].
    apply safe_log. exists a2. split; [done|]. split; [by apply (quiet_good a1)|]. by destruct Hq as (_ & _ & ?).
  - by apply safe_log, safe_refl.
Qed.

(** A packet is added to the queue of a pending entry. *)
Lemma enqueue_length l p :
  queue_ok l -> ARP_QUEUEING = true ->
  (negb (ARP_QUEUE_LEN =? 0) && (ARP_QUEUE_LEN <=? Z.of_nat (length l)) = false -> queue_ok (l ++ [p])) /\
  (negb (ARP_QUEUE_LEN =? 0) && (ARP_QUEUE_LEN <=? Z.of_nat (length l)) = true -> forall old l', l ++ [p] = old :: l' -> queue_ok l').
Proof.
  unfold queue_ok. intros Hl Hquse. rewrite Hquse in *. rewrite length_app. cbn [length]. pose proof queue_len_ok. split.
  - intros Hx Hne. specialize (Hl Hne). replace (ARP_QUEUE_LEN =? 0) with false in Hx by lia. cbn [negb andb] in Hx. lia.
  - intros Hx old l' Heq Hne. specialize (Hl Hne). apply (f_equal length) in Heq. rewrite length_app in Heq. cbn [length] in Heq. lia.
Qed.

Lemma pending_ok nf e l :
  entry_ok nf e -> state e = ETHARP_STATE_PENDING -> queue_ok l -> entry_ok nf (set_q l e).
Proof. intros [Hq Hl Hnet Hp Ha Hc Hst] Hs Hok. by split. Qed.

Lemma enqueue_safe i p a e :
  good a -> entry_at a i = Some e -> state e = ETHARP_STATE_PENDING -> safe_with a (enqueue i p a).
Proof.
  intros Hg He Hs. pose proof (entry_at_ok a i e Hg He) as Hok. assert (Hu : used e) by (unfold used; by rewrite Hs).
  unfold enqueue. rewrite He. cbn [mbind option_bind]. destruct ARP_QUEUEING eqn:Eq.
  - cbn [call]. set (a1 := mkArp _ _ _ _ _).
    assert (Hg1 : good a1) by (by apply (quiet_good a)). destruct (memp_malloc_ok _); [|apply safe_with_refl; [by apply good_log|done]].
    destruct (enqueue_length (q e) p (ok_length _ _ Hok) Eq) as [Hl1 Hl2].
    assert (Hset : forall l, queue_ok l -> safe a1 (set_entry i (set_q l e) a1)).
    { intros l Hl. apply (touch_safe a1 i e); try done. by apply pending_ok. }
    destruct (negb (ARP_QUEUE_LEN =? 0) && _) eqn:El.
    + destruct (q e ++ [p]) as [|old l] eqn:Ea; [by destruct (q e)|].
      destruct (Hset l (Hl2 eq_refl old l eq_refl)) as (b & -> & Hgb & Hnb). apply safe_with_refl; [by apply good_log|done].
    + destruct (Hset _ (Hl1 eq_refl)) as (b & -> & Hgb & Hnb). by eexists _, _.
  - pose proof (frees_quiet (q e) a) as Hqt. set (b := foldl _ a (q e)) in *.
    destruct (set_entry_quiet_safe a b i e (set_q [p] e)) as (c & -> & Hgc & Hnc); try done; [|by eexists _, _].
    apply pending_ok; [done..|]. unfold queue_ok. by rewrite Eq.
Qed.

Lemma queue_packet_safe i pk a e :
  good a -> entry_at a i = Some e -> state e = ETHARP_STATE_PENDING -> safe_with a (queue_packet i pk a).
Proof.
  intros Hg He Hs. unfold queue_packet. destruct (existsb _ _).
  - cbn [call]. set (a1 := mkArp _ _ _ _ _). assert (Hg1 : good a1) by (by apply (quiet_good a)).
    destruct (pbuf_clone_ok _); [|by apply safe_with_refl]. apply (enqueue_safe i _ (log _ a1) e); [by apply good_log|done..].
  - apply (enqueue_safe i _ (log _ a) e); [by apply good_log|done..].
Qed.

Lemma set_cached_good i a : good a -> 0 <= i < ARP_TABLE_SIZE -> good (set_cached i a).
Proof. intros [] ?. by split. Qed.

Lemma deliver_safe nif n i pk r a e :
  good a -> netifs a nif = Some n -> entry_at a i = Some e -> safe_with a (deliver nif n i pk r a).
Proof.
  intros Hg Hn He. unfold deliver. rewrite He. cbn [mbind option_bind]. destruct (stable (state e)) eqn:Es.
  - pose proof (entry_range a i e Hg He) as Hr. apply (quiet_safe (set_cached i a)); [by apply set_cached_good|].
    apply ethernet_output_quiet. apply (good_alive a); [done|]. by rewrite Hn.
  - destruct (bool_decide _) eqn:Ep; [|by eexists _, _]. apply bool_decide_eq_true in Ep. by apply (queue_packet_safe i pk a e).
Qed.

(** A new entry is marked as pending. *)
Definition pending_entry (nif : Z) (e : etharp_entry) : etharp_entry := set_netif (Some nif) (set_state ETHARP_STATE_PENDING e).

Lemma found_unused ip flags nif a i b e :
  good a -> found ip flags nif a i b -> entry_at b i = Some e -> state e = ETHARP_STATE_EMPTY ->
  exists e0, e = new_entry ip nif e0 /\ find_only flags = false /\ entry_at a i = Some e0 /\ choice (arp_table a) e0 /\
    events b = events a ++ (Free <$> q e0) /\ arp_table b = <[Z.to_nat i := e]> (arp_table a) /\
    (forall j e1, arp_table a !! j = Some e1 -> used e1 -> matches (Some ip) nif e1 = false).
Proof.
  intros Hg Hf He Hs. destruct Hf as [i e' He' Hu _|_ _|i e0 b Hfo Hno Hat Hch _ Ht _ _ Hev].
  - assert (e' = e) as -> by congruence. done.
  - by apply entry_at_Some in He as [? _].
  - pose proof (entry_range a i e0 Hg Hat) as Hr. pose proof (good_size a Hg).
    assert (e = new_entry ip nif e0) as ->.
    { apply entry_at_Some in He as [_ He]. rewrite Ht, list_lookup_insert_eq in He by lia. congruence. }
    by exists e0.
Qed.

Lemma mark_pending_safe ip flags nif a i b e :
  good a -> is_Some (netifs a nif) -> found ip flags (Some nif) a i b -> 0 <= i -> entry_at b i = Some e ->
  state e = ETHARP_STATE_EMPTY -> safe b (set_entry i (pending_entry nif e) b).
Proof.
  intros Hg Hn Hf Hi He Hs. destruct (found_good _ _ _ _ _ _ Hg Hf) as [Hgb Hnb].
  destruct (found_only _ _ _ _ _ _ Hg Hf Hi) as (e' & He' & Hkey & Honly). assert (e' = e) as -> by congruence.
  destruct (found_unused _ _ _ _ _ _ _ Hg Hf He Hs) as (e0 & -> & _).
  rewrite set_entry_Some by (by apply (entry_range b i (new_entry ip (Some nif) e0))). eexists. split; [done|]. split; [|done].
  apply good_set with (new_entry ip (Some nif) e0); [done..| |].
  - pose proof maxage_ok. split; cbn; try done; try lia; [apply queue_ok_nil|]. intros _. exists nif. by rewrite Hnb.
  - intros _ j e1 H1' Hj Hu1 [Hk1 Hk2]. apply (Honly j e1 H1' Hj Hu1). split; [by rewrite <- Hk1|]. intros Hm. by rewrite <- Hk2.
Qed.

Lemma query_request_safe nif ip i new a e :
  good a -> is_Some (netifs a nif) -> entry_at a i = Some e ->
  exists r b, query_request nif ip i new a = Some (r, b) /\ good b /\ netifs b = netifs a /\ exists e', entry_at b i = Some e'.
Proof.
  intros Hg Hn He. unfold query_request. destruct (etharp_request_quiet nif ip a (good_alive a nif Hg Hn)) as (r & b & -> & Hq). cbn [mbind option_bind].
  pose proof (quiet_good _ _ Hq Hg) as Hgb. pose proof Hq as (_ & _ & Hnb). pose proof He as Heb. rewrite <- (quiet_entry a b i Hq) in Heb.
  destruct (r =? ERR_OK); [|by eauto 8]. rewrite Heb. cbn [mbind option_bind]. destruct (_ && _) eqn:Ep; [|by eauto 8].
  apply andb_true_iff in Ep as [Ep _]. apply bool_decide_eq_true in Ep. pose proof (entry_at_ok b i e Hgb Heb) as Hok.
  destruct (touch_safe b i e (set_ctime 0 e)) as (c & Hc & Hgc & Hnc); try done.
  - unfold used. by rewrite Ep.
  - pose proof maxage_ok. destruct Hok. split; cbn; done || lia.
  - rewrite Hc. cbn [mbind option_bind]. eexists r, c. split; [done|]. split; [done|]. split; [congruence|].
    apply entry_in_range; [done|]. by apply (entry_range a i e).
Qed.

Lemma idx_max : ARP_TABLE_SIZE <= NETIF_ADDR_IDX_MAX.
Proof. pose proof table_size_ok. unfold NETIF_ADDR_IDX_MAX. destruct (0x7f <? ARP_TABLE_SIZE) eqn:E; lia. Qed.

Lemma etharp_query_safe nif ip pk a : good a -> is_Some (netifs a nif) -> safe_with a (etharp_query nif ip pk a).
Proof.
  intros Hg Hs. pose proof Hs as [n Hn]. unfold etharp_query. rewrite Hn. cbn [mbind option_bind].
  destruct (not_unicast ip n); [by apply safe_with_refl|].
  destruct (etharp_find_entry_ok ip ETHARP_FLAG_TRY_HARD (Some nif) a Hg) as (i & b & -> & Hf). cbn [mbind option_bind].
  destruct (found_good _ _ _ _ _ _ Hg Hf) as [Hgb Hnb]. destruct (i <? 0) eqn:Ei; [by apply safe_with_refl|].
  destruct (found_only _ _ _ _ _ _ Hg Hf ltac:(lia)) as (e & He & _ & _). pose proof (entry_range b i e Hgb He) as Hr.
  unfold lwip_assert. pose proof idx_max. replace (i <? NETIF_ADDR_IDX_MAX) with true by lia. cbn [mbind option_bind].
  rewrite He. cbn [mbind option_bind]. set (new := bool_decide (state e = ETHARP_STATE_EMPTY)).
  assert (Hmark : exists c e1, (if new then set_entry i (pending_entry nif e) b else Some b) = Some c /\ good c /\
    netifs c = netifs a /\ entry_at c i = Some e1).
  { destruct new eqn:Enew.
    - apply bool_decide_eq_true in Enew.
      destruct (mark_pending_safe ip ETHARP_FLAG_TRY_HARD nif a i b e Hg Hs Hf ltac:(lia) He Enew) as (c & Hc & Hgc & Hnc).
      destruct (entry_in_range c i Hgc Hr) as [e1 He1]. exists c, e1. split; [done|]. split; [done|]. split; [congruence|done].
    - by exists b, e. }
  unfold pending_entry in Hmark. destruct Hmark as (c & e1 & -> & Hgc & Hnc & He1). cbn [mbind option_bind].
  assert (Hreq : exists r d e2, (if new || bool_decide (pk = None) then query_request nif ip i new c else Some (ERR_MEM, c)) = Some (r, d) /\
    good d /\ netifs d = netifs a /\ entry_at d i = Some e2).
  { destruct (new || _).
    - destruct (query_request_safe nif ip i new c e1 Hgc) as (r & d & -> & Hgd & Hnd & e2 & He2); [by rewrite Hnc|done|].
      exists r, d, e2. split; [done|]. split; [done|]. split; [congruence|done].
    - by exists ERR_MEM, c, e1. }
  destruct Hreq as (r & d & e2 & -> & Hgd & Hnd & He2). cbn [mbind option_bind]. destruct pk as [pk|]; [|by apply safe_with_refl].
  destruct (deliver_safe nif n i pk r d e2) as (x & f & -> & Hgf & Hnf); [done|by rewrite Hnd|done|].
  apply safe_with_refl; [done|congruence].
Qed.

Lemma etharp_output_to_arp_index_safe nif pk i a e :
  good a -> is_Some (netifs a nif) -> entry_at a i = Some e -> stable (state e) = true ->
  safe_with a (etharp_output_to_arp_index nif pk i a).
Proof.
  intros Hg Hs He Hst. pose proof Hs as [n Hn]. unfold etharp_output_to_arp_index. rewrite He. cbn [mbind option_bind].
  rewrite Hst, Hn. cbn [lwip_assert mbind option_bind]. pose proof (entry_at_ok a i e Hg He) as Hok.
  assert (Hu : used e) by (intros Hx; by rewrite Hx in Hst).
  assert (Hreq : forall mac, state e = ETHARP_STATE_STABLE -> safe a ('(r, a) ← etharp_request_dst nif (ipaddr e) mac a;
    (if r =? ERR_OK then set_entry i (set_state ETHARP_STATE_STABLE_REREQUESTING_1 e) a else Some a))).
  { intros mac Hse. destruct (etharp_request_dst_quiet nif (ipaddr e) mac a (good_alive a nif Hg Hs)) as (r & b & -> & Hq). cbn [mbind option_bind].
    destruct (r =? ERR_OK).
    - apply (set_entry_quiet_safe a b i e); [done..| |done]. destruct Hok as [Hqu Hl Hnet Hp Ha Hc _]. split; cbn; try done.
      + intros Hne. by rewrite Hqu in Hse by done.
      + intros _. by apply Hnet.
      + intros _ _. apply Ha; [done|]. by rewrite Hse.
    - exists b. split; [done|]. split; [by apply (quiet_good a)|]. by destruct Hq as (_ & _ & ?). }
  assert (Hstep : safe a (if bool_decide (state e = ETHARP_STATE_STABLE) then
      if ARP_AGE_REREQUEST_USED_BROADCAST <=? ctime e then '(r, a) ← etharp_request nif (ipaddr e) a;
        (if r =? ERR_OK then set_entry i (set_state ETHARP_STATE_STABLE_REREQUESTING_1 e) a else Some a)
      else if ARP_AGE_REREQUEST_USED_UNICAST <=? ctime e then '(r, a) ← etharp_request_dst nif (ipaddr e) (ethaddr e) a;
        (if r =? ERR_OK then set_entry i (set_state ETHARP_STATE_STABLE_REREQUESTING_1 e) a else Some a)
      else Some a
    else Some a)).
  { destruct (bool_decide _) eqn:Es; [apply bool_decide_eq_true in Es|by apply safe_refl].
    repeat case_match; [by apply Hreq..|by apply safe_refl]. }
  destruct Hstep as (b & -> & Hgb & Hnb). cbn [mbind option_bind].
  destruct (ethernet_output_quiet nif (packet_pbuf pk) None (hwaddr n) (ethaddr e) ETHTYPE_IP b) as (r & c & -> & Hq); [by apply good_alive; [|rewrite Hnb]|].
  exists r, c. split; [done|]. split; [by apply (quiet_good b)|]. destruct Hq as (_ & _ & ->). done.
Qed.

Lemma find_hit_ok nif dst es i j :
  find_hit nif dst es i = Some j -> i <= j /\ exists e, es !! Z.to_nat (j - i) = Some e /\ hit nif dst e = true.
Proof.
  revert i. induction es as [|e es IH]; intros i; [done|]. cbn [find_hit]. destruct (hit nif dst e) eqn:Eh.
  - intros [= ->]. split; [lia|]. exists e. by rewrite Z.sub_diag.
  - intros (Hi & e' & He' & Hh)%IH. split; [lia|]. exists e'. split; [|done].
    by replace (Z.to_nat (j - i)) with (S (Z.to_nat (j - (i + 1)))) by lia.
Qed.

Lemma etharp_output_safe nif pk ip a : good a -> is_Some (netifs a nif) -> safe_with a (etharp_output nif pk ip a).
Proof.
  intros Hg Hs. pose proof Hs as [n Hn]. unfold etharp_output. rewrite Hn. cbn [mbind option_bind].
  destruct (ip4_addr_isbroadcast_u32 _ _); [apply quiet_safe; [done|by apply ethernet_output_quiet, good_alive]|].
  destruct (ip4_addr_ismulticast ip); [apply quiet_safe; [done|by apply ethernet_output_quiet, good_alive]|].
  destruct (next_hop n ip) as [dst|]; [|by apply safe_with_refl].
  destruct (entry_in_range a (etharp_cached_entry a) Hg (good_cached a Hg)) as [c Hc]. rewrite Hc. cbn [mbind option_bind].
  assert (Hhit : forall e, hit nif dst e = true -> stable (state e) = true).
  { intros e He. unfold hit in He. rewrite !andb_true_iff in He. by destruct He as [[? _] _]. }
  destruct (hit nif dst c) eqn:Ec; [apply (etharp_output_to_arp_index_safe _ _ _ _ c); [done..|by apply Hhit]|].
  destruct (find_hit nif dst (arp_table a) 0) as [i|] eqn:Ef; [|by apply etharp_query_safe].
  destruct (find_hit_ok _ _ _ _ _ Ef) as (Hi & e & He & Hh). rewrite Z.sub_0_r in He.
  assert (Hat : entry_at a i = Some e) by (by apply entry_at_Some). pose proof (entry_range a i e Hg Hat) as Hr.
  apply (etharp_output_to_arp_index_safe nif pk i (set_cached i a) e); [by apply set_cached_good|done|done|by apply Hhit].
Qed.

(** ** Histories *)

(** The interfaces that an operation names exist, and have Ethernet addresses. *)
Definition valid (o : operation) (a : arp) : Prop :=
  match o with
  | Output nif _ _ | Query nif _ _ | Input _ _ nif => is_Some (netifs a nif)
  | AddStatic ip _ => forall nif, ip4_route ip = Some nif -> is_Some (netifs a nif)
  | SetInterface _ n => size (hwaddr n) = ETH_HWADDR_LEN
  | Timer | RemoveStatic _ | RemoveInterface _ => True
  end.

(** An interface may come or change at any time; one that goes has no entries. *)
Lemma set_interface_good nif n a : good a -> size (hwaddr n) = ETH_HWADDR_LEN ->
  good (set_netifs (fun k => if k =? nif then Some n else netifs a k) a).
Proof.
  intros [Hsz Hc Hn He Hu] Hh. split; cbn; try done.
  - intros k n'. destruct (k =? nif); [by intros [= <-]|apply Hn].
  - intros i e Hi. destruct (He i e Hi) as [Hq Hl Hnet Hp Ha Hct Hst]. split; try done. intros Hus.
    destruct (Hnet Hus) as (k & Hk & Hs). exists k. split; [done|]. destruct (k =? nif); [done|done].
Qed.

Definition no_entries (nif : Z) (a : arp) (upto : Z) : Prop :=
  forall i e, Z.of_nat i < upto -> arp_table a !! i = Some e -> used e -> e_netif e <> Some nif.

Lemma cleanup_no_entries nif todo i a b :
  good a -> 0 <= i -> i + Z.of_nat todo = ARP_TABLE_SIZE -> no_entries nif a i ->
  for_entries (cleanup_entry nif) todo i a = Some b -> no_entries nif b ARP_TABLE_SIZE.
Proof.
  revert i a. induction todo as [|todo IH]; intros i a Hg Hi Ht Hno; cbn [for_entries].
  - intros [= <-]. by replace ARP_TABLE_SIZE with i by lia.
  - destruct (entry_in_range a i Hg ltac:(lia)) as [e He].
    assert (Hce : cleanup_entry nif i a = if negb (bool_decide (state e = ETHARP_STATE_EMPTY)) && bool_decide (e_netif e = Some nif)
      then etharp_free_entry i a else Some a) by (unfold cleanup_entry; by rewrite He). rewrite Hce. clear Hce.
    destruct (_ && _) eqn:Ec.
    + destruct (etharp_free_entry_eq a i e He ltac:(lia)) as (c & Hq & Hx).
      destruct (etharp_free_entry_safe a i e Hg He) as (d & Hd & Hgd & _). rewrite Hd. cbn [mbind option_bind].
      apply (IH (i + 1) d Hgd); [lia..|]. rewrite Hx, set_entry_Some in Hd by lia. injection Hd as <-. cbn.
      destruct Hq as (Hqt & _). intros k e1 Hk H1' Hu1. cbn in H1'. rewrite Hqt in H1'.
      destruct (decide (k = Z.to_nat i)) as [->|Hki].
      * rewrite list_lookup_insert_eq in H1'; [injection H1' as <-; by exfalso; apply Hu1|]. pose proof (good_size a Hg). lia.
      * rewrite list_lookup_insert_ne in H1' by done. apply (Hno k e1); [lia|done..].
    + cbn [mbind option_bind]. apply (IH (i + 1) a Hg); [lia..|]. intros k e1 Hk H1' Hu1.
      destruct (decide (k = Z.to_nat i)) as [->|Hki]; [|apply (Hno k e1); [lia|done..]].
      apply entry_at_Some in He as [_ He]. assert (e1 = e) as -> by congruence. intros Hnet.
      rewrite Hnet, (bool_decide_true (Some nif = Some nif)), andb_true_r in Ec by done. rewrite bool_decide_false in Ec by done. done.
Qed.

Lemma perform_good o a : good a -> valid o a -> exists b, perform o a = Some b /\ good b.
Proof.
  intros Hg Hv. destruct o as [|nif pk ip|nif ip pk|p hdr nif|ip mac|ip|nif n|nif]; cbn [perform valid] in *.
  - destruct (etharp_tmr_safe a Hg) as (b & -> & Hgb & _). by exists b.
  - destruct (etharp_output_safe nif pk ip a Hg Hv) as (r & b & -> & Hgb & _). by exists b.
  - destruct (etharp_query_safe nif ip pk a Hg Hv) as (r & b & -> & Hgb & _). by exists b.
  - destruct (etharp_input_safe p hdr nif (log (Receive p) a)) as (b & -> & Hgb & _); [by apply good_log|done|by exists b].
  - destruct (etharp_add_static_entry_safe ip mac a Hg Hv) as (r & b & -> & Hgb & _). by exists b.
  - destruct (etharp_remove_static_entry_safe ip a Hg) as (r & b & -> & Hgb & _). by exists b.
  - eexists. split; [done|]. by apply set_interface_good.
  - destruct (etharp_cleanup_netif_safe nif a Hg) as (b & Hb & Hgb & Hnb). rewrite Hb. cbn [mbind option_bind].
    eexists. split; [done|]. pose proof table_size_ok.
    assert (Hno : no_entries nif b ARP_TABLE_SIZE).
    { apply (cleanup_no_entries nif (Z.to_nat ARP_TABLE_SIZE) 0 a b); [done|lia|lia| |done]. intros i e Hi. lia. }
    destruct Hgb as [Hsz Hc Hn He Hu]. split; cbn; try done.
    + intros k n'. destruct (k =? nif); [done|]. apply Hn.
    + intros i e Hi. destruct (He i e Hi) as [Hq Hl Hnet Hp Ha Hct Hst]. split; try done. intros Hus.
      destruct (Hnet Hus) as (k & Hk & Hs). exists k. split; [done|].
      destruct (k =? nif) eqn:Ek; [|done]. exfalso. apply (Hno i e); [|done..|].
      * apply lookup_lt_Some in Hi. lia.
      * rewrite Hk. f_equal. lia.
Qed.

Lemma initial_good : good initial.
Proof.
  pose proof table_size_ok. pose proof maxage_ok. split; cbn; try done; try lia.
  - rewrite length_replicate. lia.
  - intros i e [-> _]%lookup_replicate. split; cbn; try done. apply queue_ok_nil.
  - intros i j e1 e2 [-> _]%lookup_replicate _ Hu. by exfalso; apply Hu.
Qed.

(** ** Packets are neither lost nor freed twice *)

(** The references to [p] that an event takes. *)
Definition weight (p : pbuf) (e : event) : Z :=
  match e with
  | Ref x | Alloc x | Receive x | Clone _ x => if bool_decide (x = p) then 1 else 0
  | Free x => if bool_decide (x = p) then -1 else 0
  | Send _ _ _ _ _ _ => 0
  end.

Definition sum (l : list Z) : Z := foldr Z.add 0 l.

Definition balance (p : pbuf) (evs : list event) : Z := sum (weight p <$> evs).

(** How often [p] is in a queue, and in the queues of the table. *)
Definition copies (p : pbuf) (l : list pbuf) : Z := sum ((fun x => if bool_decide (x = p) then 1 else 0) <$> l).

Definition waiting (p : pbuf) (t : list etharp_entry) : Z := sum ((fun e => copies p (q e)) <$> t).

(** The references that are held for nothing. *)
Definition debt (p : pbuf) (a : arp) : Z := balance p (events a) - waiting p (arp_table a).

Lemma sum_app l1 l2 : sum (l1 ++ l2) = sum l1 + sum l2.
Proof. unfold sum. induction l1 as [|x l1 IH]; cbn; [done|]. rewrite IH. lia. Qed.

Lemma sum_insert {A} (f : A -> Z) l i x y : l !! i = Some x -> sum (f <$> <[i := y]> l) = sum (f <$> l) - f x + f y.
Proof.
  unfold sum. revert i. induction l as [|z l IH]; intros [|i] Hx; try done; cbn in *.
  - injection Hx as ->. lia.
  - rewrite IH by done. lia.
Qed.

Lemma balance_app p l1 l2 : balance p (l1 ++ l2) = balance p l1 + balance p l2.
Proof. unfold balance. by rewrite fmap_app, sum_app. Qed.

Lemma copies_app p l1 l2 : copies p (l1 ++ l2) = copies p l1 + copies p l2.
Proof. unfold copies. by rewrite fmap_app, sum_app. Qed.

Lemma copies_cons p x l : copies p (x :: l) = (if bool_decide (x = p) then 1 else 0) + copies p l.
Proof. done. Qed.

Lemma balance_cons p e l : balance p (e :: l) = weight p e + balance p l.
Proof. done. Qed.

Lemma balance_frees p l : balance p (Free <$> l) = - copies p l.
Proof.
  induction l as [|x l IH]; [done|]. rewrite fmap_cons, copies_cons, balance_cons, IH. cbn [weight].
  destruct (bool_decide (x = p)); lia.
Qed.

Lemma debt_log p e a : debt p (log e a) = debt p a + weight p e.
Proof.
  unfold debt. change (events (log e a)) with (events a ++ [e]). change (arp_table (log e a)) with (arp_table a).
  rewrite balance_app, balance_cons. change (balance p []) with 0. lia.
Qed.

Lemma debt_set p i e0 e a b :
  entry_at a i = Some e0 -> set_entry i e a = Some b -> debt p b = debt p a + copies p (q e0) - copies p (q e).
Proof.
  intros [_ He]%entry_at_Some. unfold set_entry. destruct (_ || _); [done|]. intros [= <-]. unfold debt, waiting.
  cbn [events arp_table set_table]. rewrite (sum_insert _ _ _ _ _ He). lia.
Qed.

Lemma debt_quiet p a b evs : arp_table b = arp_table a -> events b = events a ++ evs -> debt p b = debt p a + balance p evs.
Proof. intros Ht He. unfold debt. rewrite Ht, He, balance_app. lia. Qed.

Lemma ethernet_output_debt p nif x hdr src dst ty a r b : ethernet_output nif x hdr src dst ty a = Some (r, b) -> debt p b = debt p a.
Proof.
  unfold ethernet_output. cbn [call]. destruct (netifs _ nif); cbn; [|done]. destruct (negb _); [by intros [= _ <-]|].
  destruct (lwip_assert _); cbn [mbind option_bind]; intros [= _ <-].
  rewrite debt_log. cbn. apply Z.add_0_r.
Qed.

Lemma etharp_raw_debt p nif s1 d1 s2 ip1 d2 ip2 op a r b : etharp_raw nif s1 d1 s2 ip1 d2 ip2 op a = Some (r, b) -> debt p b = debt p a.
Proof.
  unfold etharp_raw. cbn [call]. destruct (negb _); [by intros [= _ <-]|].
  destruct (netifs _ nif); cbn [mbind option_bind]; [|done]. destruct (lwip_assert _); cbn [mbind option_bind]; [|done].
  destruct (ethernet_output _ _ _ _ _ _ _) as [[r' c]|] eqn:Eo; cbn; [|done]. intros [= _ <-].
  apply (ethernet_output_debt p) in Eo. rewrite debt_log, Eo, debt_log. cbn [weight].
  change (debt p (mkArp (arp_table a) (etharp_cached_entry a) (netifs a) (S (calls a)) (events a))) with (debt p a).
  destruct (bool_decide _); lia.
Qed.

Lemma etharp_request_dst_debt p nif ip mac a r b : etharp_request_dst nif ip mac a = Some (r, b) -> debt p b = debt p a.
Proof. unfold etharp_request_dst. destruct (netifs a nif); cbn; [|done]. apply etharp_raw_debt. Qed.

Lemma etharp_free_entry_debt p i a b : etharp_free_entry i a = Some b -> debt p b = debt p a.
Proof.
  unfold etharp_free_entry. destruct (entry_at a i) as [e|] eqn:He; cbn; [|done]. intros Hs.
  set (c := foldl _ a (q e)) in *. destruct (frees_quiet (q e) a) as (Ht & _).
  assert (Hec : entry_at c i = Some e) by (unfold entry_at, c in *; by rewrite Ht).
  rewrite (debt_set p _ _ _ _ _ Hec Hs). rewrite (debt_quiet p a c (Free <$> q e) Ht (frees_events _ _)), balance_frees.
  cbn. change (copies p []) with 0. lia.
Qed.

(** A step that keeps the queue of the entry. *)
Lemma debt_keep p i e0 e a b : set_entry i e a = Some b -> entry_at a i = Some e0 -> q e = q e0 -> debt p b = debt p a.
Proof. intros Hs He Hq. rewrite (debt_set p _ _ _ _ _ He Hs), Hq. lia. Qed.

Lemma for_entries_debt p f todo i a b :
  (forall i a b, f i a = Some b -> debt p b = debt p a) -> for_entries f todo i a = Some b -> debt p b = debt p a.
Proof.
  intros Hf. revert i a. induction todo as [|todo IH]; intros i a; cbn [for_entries]; [by intros [= <-]|].
  destruct (f i a) as [c|] eqn:Ef; cbn; [|done]. intros Hx%IH. rewrite Hx. by apply (Hf i).
Qed.

Lemma entry_at_set a i e b : set_entry i e a = Some b -> 0 <= i < ARP_TABLE_SIZE /\ forall e0, entry_at a i = Some e0 -> entry_at b i = Some e.
Proof.
  unfold set_entry. destruct (_ || _) eqn:E; [done|]. intros [= <-]. split; [lia|]. intros e0 [Hi He]%entry_at_Some.
  apply entry_at_Some. split; [done|]. cbn. by eapply list_lookup_insert_eq, lookup_lt_Some.
Qed.

Lemma tmr_entry_debt p i a b : tmr_entry i a = Some b -> debt p b = debt p a.
Proof.
  unfold tmr_entry. destruct (entry_at a i) as [e|] eqn:He; cbn [mbind option_bind]; [|done]. destruct (_ && _); [|by intros [= <-]].
  set (e1 := set_ctime _ e). destruct (set_entry i e1 a) as [c|] eqn:Es; cbn [mbind option_bind]; [|done].
  pose proof (debt_keep p _ _ _ _ _ Es He eq_refl) as Hc. destruct (entry_at_set _ _ _ _ Es) as [_ Hat]. specialize (Hat e He).
  destruct (_ || _); [intros Hx%(etharp_free_entry_debt p); congruence|].
  destruct (state e1); try (by intros [= <-]).
  - destruct (e_netif e1); cbn [mbind option_bind]; [|done].
    destruct (etharp_request _ _ _) as [[r d]|] eqn:Er; cbn [mbind option_bind]; [|done]. intros [= <-].
    by rewrite (etharp_request_dst_debt p _ _ _ _ _ _ Er).
  - intros Hx. by rewrite (debt_keep p _ _ _ _ _ Hx Hat eq_refl).
  - intros Hx. by rewrite (debt_keep p _ _ _ _ _ Hx Hat eq_refl).
Qed.

Lemma recycle_debt p c a i b : recycle c a = Some (Some (i, b)) -> debt p b = debt p a.
Proof.
  unfold recycle. destruct (_ <? _); [by intros [= _ <-]|]. destruct (if _ <? _ then _ else _) as [[k|]|]; cbn; try done.
  destruct (lwip_assert _); cbn; [|done]. destruct (etharp_free_entry k a) as [d|] eqn:Ef; cbn; [|done].
  intros [= _ <-]. by apply (etharp_free_entry_debt p k).
Qed.

Lemma etharp_find_entry_debt p ip flags nif a i b : etharp_find_entry ip flags nif a = Some (i, b) -> debt p b = debt p a.
Proof.
  unfold etharp_find_entry. destruct (sweep _ _ _ _ _) as [k|c]; [by intros [= _ <-]|]. destruct (_ || _); [by intros [= _ <-]|].
  destruct (recycle c a) as [[[k d]|]|] eqn:Er; cbn [mbind option_bind]; [|by intros [= _ <-]|done].
  destruct (lwip_assert _); cbn [mbind option_bind]; [|done].
  destruct (entry_at d k) as [e|] eqn:He; cbn [mbind option_bind]; [|done]. destruct (lwip_assert _); cbn [mbind option_bind]; [|done].
  destruct (set_entry _ _ d) as [f|] eqn:Es; cbn [mbind option_bind]; [|done]. intros [= _ <-].
  rewrite <- (recycle_debt p _ _ _ _ Er). apply (debt_keep p _ _ _ _ _ Es He). by destruct ip, ETHARP_TABLE_MATCH_NETIF.
Qed.

Lemma flushed_balance p nif src mac l evs : flushed nif src mac l evs -> balance p evs = - copies p l.
Proof.
  induction 1 as [|x l evs _ IH|x l evs k _ _ IH]; [done|..]; rewrite copies_cons, !balance_cons, IH; cbn [weight];
    destruct (bool_decide (x = p)); lia.
Qed.

Lemma updated_debt p nif n ip mac flags a r b :
  good a -> updated nif n ip mac flags a r b -> debt p b = debt p a.
Proof.
  intros Hg Hu. destruct Hu as [| | |i c e evs b _ Hf He _ Htb _ _ Hev Hfl]; [done..|].
  destruct (found_good _ _ _ _ _ _ Hg Hf) as [Hgc _]. pose proof (entry_range c i e Hgc He) as Hr.
  assert (Hc : debt p c = debt p a).
  { destruct Hf as [| |i e0 c _ _ Hat _ _ Ht _ _ Hev0]; [done..|]. apply entry_at_Some in Hat as [_ Hat].
    unfold debt, waiting. rewrite Ht, Hev0, (sum_insert _ _ _ _ _ Hat), balance_app, balance_frees. cbn [q new_entry].
    change (copies p []) with 0. lia. }
  rewrite <- Hc. apply entry_at_Some in He as [_ He]. unfold debt, waiting.
  rewrite Htb, Hev, (sum_insert _ _ _ _ _ He), balance_app, (flushed_balance p _ _ _ _ _ Hfl). cbn [q resolved].
  change (copies p []) with 0. lia.
Qed.

Lemma etharp_update_debt p nif ip mac flags a r b :
  good a -> etharp_update_arp_entry nif ip mac flags a = Some (r, b) -> debt p b = debt p a.
Proof.
  intros Hg Hx. destruct (netifs a nif) as [n|] eqn:Hn; [|by unfold etharp_update_arp_entry in Hx; rewrite Hn in Hx].
  destruct (etharp_update_ok nif n ip mac flags a Hg Hn) as (r' & b' & Hx' & Hu). rewrite Hx in Hx'. injection Hx' as <- <-.
  by apply (updated_debt p nif n ip mac flags a r).
Qed.

(** The table takes over the reference to a packet that it queues. *)
Lemma enqueue_debt p i x a r b :
  enqueue i x a = Some (r, b) -> debt p b = debt p a - (if bool_decide (x = p) then 1 else 0).
Proof.
  unfold enqueue. destruct (entry_at a i) as [e|] eqn:He; cbn [mbind option_bind]; [|done]. destruct ARP_QUEUEING.
  - cbn [call]. set (a1 := mkArp _ _ _ _ _). assert (Ha1 : debt p a1 = debt p a) by done. rewrite <- Ha1.
    assert (He1 : entry_at a1 i = Some e) by done. clearbody a1. destruct (memp_malloc_ok _).
    2: { intros [= _ <-]. rewrite debt_log. cbn [weight]. destruct (bool_decide _); lia. }
    assert (Hl : copies p (q e ++ [x]) = copies p (q e) + if bool_decide (x = p) then 1 else 0).
    { rewrite copies_app, copies_cons. change (copies p []) with 0. lia. }
    destruct (_ && _).
    + destruct (q e ++ [x]) as [|old l] eqn:Eq; [done|]. destruct (set_entry _ _ a1) as [c|] eqn:Es; cbn [mbind option_bind]; [|done].
      intros [= _ <-]. rewrite debt_log, (debt_set p _ _ _ _ _ He1 Es). cbn [q set_q weight]. rewrite copies_cons in Hl.
      destruct (bool_decide (old = p)); lia.
    + destruct (set_entry _ _ a1) as [c|] eqn:Es; cbn [mbind option_bind]; [|done].
      intros [= _ <-]. rewrite (debt_set p _ _ _ _ _ He1 Es). cbn [q set_q]. lia.
  - set (c := foldl _ a (q e)). destruct (frees_quiet (q e) a) as (Ht & _). fold c in Ht.
    assert (Hec : entry_at c i = Some e) by (unfold entry_at in *; by rewrite Ht).
    destruct (set_entry _ _ c) as [d|] eqn:Es; cbn [mbind option_bind]; [|done]. intros [= _ <-].
    rewrite (debt_set p _ _ _ _ _ Hec Es), (debt_quiet p a c (Free <$> q e) Ht (frees_events _ _)), balance_frees.
    cbn [q set_q]. rewrite copies_cons. change (copies p []) with 0. lia.
Qed.

Lemma queue_packet_debt p i pk a r b : queue_packet i pk a = Some (r, b) -> debt p b = debt p a.
Proof.
  unfold queue_packet. destruct (existsb _ _).
  - cbn [call]. destruct (pbuf_clone_ok _); [|by intros [= _ <-]]. intros ->%(enqueue_debt p). rewrite debt_log. cbn [weight].
    change (debt p (mkArp _ _ _ _ _)) with (debt p a). lia.
  - intros ->%(enqueue_debt p). rewrite debt_log. cbn [weight]. lia.
Qed.

Lemma deliver_debt p nif n i pk r0 a r b : deliver nif n i pk r0 a = Some (r, b) -> debt p b = debt p a.
Proof.
  unfold deliver. destruct (entry_at a i) as [e|] eqn:He; cbn [mbind option_bind]; [|done].
  destruct (stable _); [by intros ->%(ethernet_output_debt p)|]. destruct (bool_decide _); [apply queue_packet_debt|by intros [= _ <-]].
Qed.

Lemma etharp_query_debt p nif ip pk a r b : etharp_query nif ip pk a = Some (r, b) -> debt p b = debt p a.
Proof.
  unfold etharp_query. destruct (netifs a nif) as [n|]; cbn [mbind option_bind]; [|done].
  destruct (not_unicast _ _); [by intros [= _ <-]|].
  destruct (etharp_find_entry _ _ _ a) as [[i c]|] eqn:Ef; cbn [mbind option_bind]; [|done].
  rewrite <- (etharp_find_entry_debt p _ _ _ _ _ _ Ef). clear Ef a. destruct (i <? 0); [by intros [= _ <-]|].
  destruct (lwip_assert _); cbn [mbind option_bind]; [|done]. destruct (entry_at c i) as [e|] eqn:He; cbn [mbind option_bind]; [|done].
  set (new := bool_decide _). destruct (if new then _ else Some c) as [d|] eqn:Ed; cbn [mbind option_bind]; [|done].
  assert (Hd : debt p d = debt p c) by (destruct new; [by apply (debt_keep p _ _ _ _ _ Ed He)|by injection Ed as <-]).
  rewrite <- Hd. clear Ed Hd He. destruct (if new || _ then _ else _) as [[r1 f]|] eqn:Er; cbn [mbind option_bind]; [|done].
  assert (Hf : debt p f = debt p d).
  { destruct (new || _); [|by injection Er as _ <-]. unfold query_request in Er.
    destruct (etharp_request _ _ d) as [[r2 g]|] eqn:Eq; cbn [mbind option_bind] in Er; [|done].
    apply (etharp_request_dst_debt p) in Eq. rewrite <- Eq. destruct (_ =? _); [|by injection Er as _ <-].
    destruct (entry_at g i) as [e1|] eqn:He1; cbn [mbind option_bind] in Er; [|done]. destruct (_ && _); [|by injection Er as _ <-].
    destruct (set_entry _ _ g) as [h|] eqn:Es; cbn [mbind option_bind] in Er; [|done]. injection Er as _ <-.
    by apply (debt_keep p _ _ _ _ _ Es He1). }
  rewrite <- Hf. destruct pk as [pk|]; [apply deliver_debt|by intros [= _ <-]].
Qed.

Lemma etharp_output_to_arp_index_debt p nif pk i a r b : etharp_output_to_arp_index nif pk i a = Some (r, b) -> debt p b = debt p a.
Proof.
  unfold etharp_output_to_arp_index. destruct (entry_at a i) as [e|] eqn:He; cbn [mbind option_bind]; [|done].
  destruct (lwip_assert _); cbn [mbind option_bind]; [|done]. destruct (netifs a nif) as [n|] eqn:Hn; cbn [mbind option_bind]; [|done].
  match goal with |- context [mbind _ ?x] => destruct x as [c|] eqn:Ec end; cbn [mbind option_bind]; [|done].
  intros ->%(ethernet_output_debt p).
  assert (Hreq : forall mac, ('(r, a) ← etharp_request_dst nif (ipaddr e) mac a;
    (if r =? ERR_OK then set_entry i (set_state ETHARP_STATE_STABLE_REREQUESTING_1 e) a else Some a)) = Some c -> debt p c = debt p a).
  { intros mac. destruct (etharp_request_dst nif (ipaddr e) mac a) as [[r2 g]|] eqn:Eq; cbn [mbind option_bind]; [|done].
    pose proof (etharp_request_dst_debt p _ _ _ _ _ _ Eq) as Hg. rewrite <- Hg. destruct (_ =? _); [|by intros [= <-]].
    pose proof (etharp_request_dst_silent _ _ _ _ _ _ Eq) as Hq. intros Es. apply (debt_keep p _ e _ _ _ Es); [|done]. by rewrite (quiet_entry _ _ _ Hq). }
  destruct (bool_decide _); [|by injection Ec as <-]. destruct (_ <=? _); [by apply (Hreq ethbroadcast)|].
  destruct (_ <=? _); [by apply (Hreq (ethaddr e))|by injection Ec as <-].
Qed.

Lemma etharp_output_debt p nif pk ip a r b : etharp_output nif pk ip a = Some (r, b) -> debt p b = debt p a.
Proof.
  unfold etharp_output. destruct (netifs a nif) as [n|]; cbn [mbind option_bind]; [|done].
  destruct (ip4_addr_isbroadcast_u32 _ _); [apply ethernet_output_debt|]. destruct (ip4_addr_ismulticast _); [apply ethernet_output_debt|].
  destruct (next_hop _ _) as [dst|]; [|by intros [= _ <-]].
  destruct (entry_at a _) as [c|]; cbn [mbind option_bind]; [|done].
  destruct (hit _ _ c); [apply etharp_output_to_arp_index_debt|].
  destruct (find_hit _ _ _ _) as [i|]; [|apply etharp_query_debt]. intros ->%(etharp_output_to_arp_index_debt p). done.
Qed.

Lemma etharp_input_debt p x hdr nif a b :
  good a -> etharp_input x hdr nif a = Some b -> debt p b = debt p a - (if bool_decide (x = p) then 1 else 0).
Proof.
  intros Hg. unfold etharp_input. destruct (netifs a nif) as [n|]; cbn [mbind option_bind]; [|done].
  assert (Hfree : forall c, debt p (log (Free x) c) = debt p c - (if bool_decide (x = p) then 1 else 0)).
  { intros c. rewrite debt_log. cbn [weight]. destruct (bool_decide _); lia. }
  destruct (_ || _); [by intros [= <-]|]. set (fu := if _ =? 0 then _ else _).
  destruct (etharp_update_arp_entry _ _ _ _ a) as [[r c]|] eqn:Eu; cbn [mbind option_bind]; [|done].
  rewrite <- (etharp_update_debt p _ _ _ _ _ _ _ Hg Eu). destruct (_ && fu); cbn [mbind option_bind].
  - destruct (etharp_raw _ _ _ _ _ _ _ _ c) as [[r2 d]|] eqn:Er; cbn [mbind option_bind]; [|done]. intros [= <-].
    by rewrite Hfree, (etharp_raw_debt p _ _ _ _ _ _ _ _ _ _ _ Er).
  - by intros [= <-].
Qed.

Lemma perform_debt p o a b : good a -> perform o a = Some b -> debt p b = debt p a.
Proof.
  intros Hg. destruct o as [|nif pk ip|nif ip pk|x hdr nif|ip mac|ip|nif n|nif]; cbn [perform].
  - apply for_entries_debt. intros. by apply (tmr_entry_debt p i).
  - destruct (etharp_output _ _ _ a) as [[r c]|] eqn:Eo; cbn; [|done]. intros [= <-]. by apply (etharp_output_debt p nif pk ip a r).
  - destruct (etharp_query _ _ _ a) as [[r c]|] eqn:Eo; cbn; [|done]. intros [= <-]. by apply (etharp_query_debt p nif ip pk a r).
  - intros Hx%(etharp_input_debt p); [|by apply good_log]. rewrite Hx, debt_log. cbn [weight]. destruct (bool_decide _); lia.
  - destruct (etharp_add_static_entry _ _ a) as [[r c]|] eqn:Eo; cbn; [|done]. intros [= <-].
    unfold etharp_add_static_entry in Eo. destruct (ip4_route ip) as [nif|]; [|by injection Eo as _ <-].
    by apply (etharp_update_debt p nif ip mac (Z.lor 1 4) a r).
  - destruct (etharp_remove_static_entry _ a) as [[r c]|] eqn:Eo; cbn; [|done]. intros [= <-].
    unfold etharp_remove_static_entry in Eo.
    destruct (etharp_find_entry _ _ _ a) as [[i d]|] eqn:Ef; cbn [mbind option_bind] in Eo; [|done].
    rewrite <- (etharp_find_entry_debt p _ _ _ _ _ _ Ef). destruct (i <? 0); [by injection Eo as _ <-|].
    destruct (entry_at d i); cbn [mbind option_bind] in Eo; [|done]. destruct (negb _); [by injection Eo as _ <-|].
    destruct (etharp_free_entry i d) as [f|] eqn:Ee; cbn [mbind option_bind] in Eo; [|done]. injection Eo as _ <-.
    by apply (etharp_free_entry_debt p i).
  - by intros [= <-].
  - destruct (etharp_cleanup_netif nif a) as [c|] eqn:Ec; cbn; [|done]. intros [= <-]. change (debt p (set_netifs _ c)) with (debt p c).
    apply (for_entries_debt p) in Ec; [done|]. intros i d f. unfold cleanup_entry.
    destruct (entry_at d i); cbn [mbind option_bind]; [|done]. destruct (_ && _); [apply etharp_free_entry_debt|by intros [= <-]].
Qed.

(** ** Reachable states *)

Inductive reachable : arp -> Prop :=
  | reachable_initial : reachable initial
  | reachable_step o a b : reachable a -> valid o a -> perform o a = Some b -> reachable b.

Lemma reachable_good a : reachable a -> good a.
Proof.
  induction 1 as [|o a b _ IH Hv Hp]; [apply initial_good|]. destruct (perform_good o a IH Hv) as (b' & Hb & Hg). congruence.
Qed.

Lemma reachable_debt p a : reachable a -> debt p a = 0.
Proof.
  induction 1 as [|o a b Hr IH Hv Hp].
  - unfold debt, balance, waiting, initial. cbn [events arp_table fmap list_fmap sum foldr].
    generalize (Z.to_nat ARP_TABLE_SIZE). intros n. induction n as [|n IHn]; [done|]. cbn in *. exact IHn.
  - rewrite (perform_debt p o a b (reachable_good a Hr) Hp). exact IH.
Qed.
End Inv.
End EthArpInv.
