(* ===== verification/EthArpSpec.v ===== *)
(** What the ARP cache of lwIP promises: its invariant, what an update does on
    every branch, that entries and waiting packets do not stay for ever, and
    that an address is resolved when two nodes talk to each other. *)

From S2P Require Export EthArpInv.
Export EthArpInv.
Open Scope Z_scope.

Module EthArpSpec.
Section Spec.
Context `{Endian} `{LwipMacros} {Opt : EtharpOptions} {N : NetworkOrder} {W : World}.

(** Of every packet, as many references are not given back as wait in the
    queues. *)
Definition settled (a : arp) : Prop := forall p, balance p (events a) = waiting p (arp_table a).

(** C20. The table is always well formed: whatever the stack calls, in any
    order, whichever allocation or transmission fails, and for every choice of
    the options, no assertion of the code fails and no access is outside of the
    table or to an interface that is gone; no two entries are for one address;
    packets wait only on pending entries, at most ARP_QUEUE_LEN of them;
    entries are younger than their limits; and every packet whose reference was
    taken and not given back is in exactly the queues that hold it. *)
Theorem arp_cache_invariant a :
  reachable a ->
  good a /\
  (forall o, valid o a -> exists b, perform o a = Some b /\ reachable b) /\
  settled a.
Proof.
  intros Hr. pose proof (reachable_good a Hr) as Hg. split; [done|]. split.
  - intros o Hv. destruct (perform_good o a Hg Hv) as (b & Hb & _). exists b. split; [done|]. by apply (reachable_step o a).
  - intros p. pose proof (reachable_debt p a Hr) as Hd. unfold debt in Hd. lia.
Qed.

(** ** Updates *)

Lemma find_addr_ok nif ip i e b :
  good b -> entry_at b i = Some e -> used e -> for_key ip nif e -> stable (state e) = true ->
  etharp_find_addr (Some nif) ip b = Some (Some (i, ethaddr e, ip), b).
Proof.
  intros Hg He Hu Hk Hs. unfold etharp_find_addr.
  destruct (find_only_ok ip (Some nif) b Hg) as (i' & -> & [[-> Hno]|(e' & He' & Hi & Hu' & Hm)]); cbn [mbind option_bind].
  - apply matches_key in Hk. apply entry_at_Some in He as [_ He]. by rewrite (Hno _ _ He Hu) in Hk.
  - apply matches_key in Hm. pose proof (entry_range b i e Hg He) as Hr. replace (i' <? 0) with false by lia.
    assert (i' = i) as ->.
    { apply entry_at_Some in He as [_ He], He' as [_ He'].
      pose proof (good_unique b Hg _ _ _ _ He' He Hu' Hu (same_key_for ip nif _ _ Hm Hk)). lia. }
    assert (e' = e) as -> by congruence. rewrite He. cbn [mbind option_bind]. rewrite Hs. destruct Hk as [-> _]. done.
Qed.

(** The entry of an address that has just been learnt. *)
Definition learnt (nif ip : Z) (mac : list Z) (flags : Z) : etharp_entry :=
  mkEntry [] ip (Some nif) mac 0 (update_state flags).

(** How a new or known address gets its entry, [e0] before. *)
Definition placed (nif : Z) (n : interface) (ip : Z) (mac : list Z) (flags : Z) (a b : arp) (e0 : etharp_entry) : Prop :=
  (used e0 /\ for_key ip nif e0 /\ (state e0 = ETHARP_STATE_STATIC -> is_static_flag flags = true) /\
   exists evs, events b = events a ++ evs /\ flushed nif (hwaddr n) mac (q e0) evs) \/
  ((forall j e1, arp_table a !! j = Some e1 -> used e1 -> ~ for_key ip nif e1) /\
   find_only flags = false /\ choice (arp_table a) e0 /\ (try_hard flags = false -> ~ used e0) /\
   events b = events a ++ (Free <$> q e0)).

Definition update_failed (nif : Z) (n : interface) (ip : Z) (flags : Z) (a : arp) (r : Z) : Prop :=
  (r = ERR_ARG /\ not_unicast ip n = true) \/
  (r = ERR_MEM /\ (forall j e1, arp_table a !! j = Some e1 -> used e1 -> ~ for_key ip nif e1) /\
   (find_only flags = false -> try_hard flags = true -> forall j e1, arp_table a !! j = Some e1 -> kind_of e1 = Static)) \/
  (r = ERR_VAL /\ is_static_flag flags = false /\
   exists j e1, arp_table a !! j = Some e1 /\ for_key ip nif e1 /\ state e1 = ETHARP_STATE_STATIC).

Lemma update_binds nif n ip mac flags a :
  good a -> netifs a nif = Some n ->
  exists r b, etharp_update_arp_entry nif ip mac flags a = Some (r, b) /\
    (r = ERR_OK /\ (exists i e0, entry_at a i = Some e0 /\ placed nif n ip mac flags a b e0 /\
        arp_table b = <[Z.to_nat i := learnt nif ip mac flags]> (arp_table a) /\
        etharp_find_addr (Some nif) ip b = Some (Some (i, mac, ip), b)) \/
     b = a /\ update_failed nif n ip flags a r).
Proof.
  intros Hg Hn.
  destruct (etharp_update_ok nif n ip mac flags a Hg Hn) as (r & b & Hx & Hu). exists r, b. split; [done|].
  pose proof (updated_good _ _ _ _ _ _ _ _ Hg Hn Hu) as [Hgb _].
  destruct Hu as [Hna|Hun Hf|i e Hun Hf He Hst Hfl|i c e evs b Hun Hf He Hst Htb Hcb Hnb Hev Hfl].
  - right. split; [done|]. by left.
  - right. split; [done|]. right. left. split; [done|]. inversion Hf as [i e He|Hno Hall|]; subst.
    + by apply entry_at_Some in He as [? _].
    + split; [|done]. intros j e1 H1' Hu1 Hk%matches_key. by rewrite (Hno j e1) in Hk.
    + match goal with Hx : entry_at a ERR_MEM = _ |- _ => by apply entry_at_Some in Hx as [? _] end.
  - right. split; [done|]. right. right. split; [done|]. split; [done|].
    pose proof (entry_range a i e Hg He) as Hi. destruct (found_only _ _ _ _ _ _ Hg Hf ltac:(lia)) as (e' & He' & Hk & _).
    assert (e' = e) as -> by congruence. apply entry_at_Some in He as [_ He]. by exists (Z.to_nat i), e.
  - left. split; [done|]. destruct (found_good _ _ _ _ _ _ Hg Hf) as [Hgc _]. pose proof (entry_range c i e Hgc He) as Hi.
    destruct (found_only _ _ _ _ _ _ Hg Hf ltac:(lia)) as (e' & He' & Hk & _). assert (e' = e) as -> by congruence.
    assert (Hl : resolved nif mac (update_state flags) e = learnt nif ip mac flags) by (unfold resolved, learnt; by destruct Hk as [-> _]).
    rewrite Hl in Htb.
    assert (Hfind : etharp_find_addr (Some nif) ip b = Some (Some (i, mac, ip), b)).
    { apply (find_addr_ok nif ip i (learnt nif ip mac flags) b Hgb); [|unfold used, learnt, update_state; cbn; by case_match|done|
        unfold learnt, update_state; cbn; by case_match].
      apply entry_at_Some. split; [lia|]. rewrite Htb. apply list_lookup_insert_eq. pose proof (good_size c Hgc). lia. }
    inversion Hf as [i' e1 He1 Hu1 Hm|Hno Hall|i' e0 c' Hfo Hno Hat Hch Hth Ht Hc' Hn' Hev0]; subst.
    + exists i, e. split; [done|]. split; [|done]. left. split; [congruence|]. split; [done|]. split; [done|]. by exists evs.
    + lia.
    + exists i, e0. split; [done|]. split; [|split; [by rewrite Htb, Ht, list_insert_insert_eq|done]]. right.
      split; [intros j e1 H1' Hu1 Hk1%matches_key; by rewrite (Hno j e1) in Hk1|]. split; [done|]. split; [done|].
      split; [intros Ht0; apply Hth in Ht0; apply kind_unused in Ht0; intros Hu0; by apply Hu0|].
      assert (e = new_entry ip (Some nif) e0) as ->.
      { apply entry_at_Some in He as [_ He]. rewrite Ht, list_lookup_insert_eq in He; [congruence|].
        pose proof (entry_range a i e0 Hg Hat). pose proof (good_size a Hg). lia. }
      cbn [q new_entry] in Hfl. inversion Hfl; subst. by rewrite Hev, app_nil_r.
Qed.

(** An update does what it says: it either reports an error and changes
    nothing (no unicast address; the address is unknown and no entry can be
    used; the entry is a static one), or afterwards the address is found with
    its new hardware address, every other entry is what it was except for the
    one that was given up, and the packets that waited for the address were
    sent there in order. The entry that is given up for a new address is an
    unused one if there is one, else the oldest resolved one, else the oldest
    pending one without packets, else the oldest one with packets; never a
    static one. *)
Theorem arp_update_binds nif n ip mac flags a :
  reachable a -> netifs a nif = Some n ->
  exists r b, etharp_update_arp_entry nif ip mac flags a = Some (r, b) /\
    (r = ERR_OK /\ (exists i e0, entry_at a i = Some e0 /\ placed nif n ip mac flags a b e0 /\
        arp_table b = <[Z.to_nat i := learnt nif ip mac flags]> (arp_table a) /\
        etharp_find_addr (Some nif) ip b = Some (Some (i, mac, ip), b)) \/
     b = a /\ update_failed nif n ip flags a r).
Proof. intros Hr. apply update_binds. by apply reachable_good. Qed.

(** ** The timer *)

(** What a tick makes of an entry. *)
Definition aged (e : etharp_entry) : etharp_entry :=
  if negb (bool_decide (state e = ETHARP_STATE_EMPTY))
     && (negb ETHARP_SUPPORT_STATIC_ENTRIES || negb (bool_decide (state e = ETHARP_STATE_STATIC)))
  then
    let e := set_ctime (u16 (ctime e + 1)) e in
    if (ARP_MAXAGE <=? ctime e) || (bool_decide (state e = ETHARP_STATE_PENDING) && (ARP_MAXPENDING <=? ctime e))
    then freed e
    else
      match state e with
      | ETHARP_STATE_STABLE_REREQUESTING_1 => set_state ETHARP_STATE_STABLE_REREQUESTING_2 e
      | ETHARP_STATE_STABLE_REREQUESTING_2 => set_state ETHARP_STATE_STABLE e
      | _ => e
      end
  else e.

Lemma tmr_entry_aged i a b e :
  entry_at a i = Some e -> 0 <= i < ARP_TABLE_SIZE -> tmr_entry i a = Some b ->
  arp_table b = <[Z.to_nat i := aged e]> (arp_table a).
Proof.
  intros He Hi. unfold tmr_entry, aged. rewrite He. cbn [mbind option_bind]. pose proof He as [_ Hl]%entry_at_Some.
  destruct (_ && _); [|intros [= <-]; by rewrite list_insert_id]. set (e1 := set_ctime _ e). cbv zeta.
  rewrite set_entry_Some by done. cbn [mbind option_bind]. set (c := set_table _ a).
  assert (Hc : entry_at c i = Some e1).
  { apply entry_at_Some. split; [lia|]. by eapply list_lookup_insert_eq, lookup_lt_Some. }
  assert (Hset : forall f d, set_entry i f c = Some d -> arp_table d = <[Z.to_nat i := f]> (arp_table a)).
  { intros f d. rewrite set_entry_Some by done. intros [= <-]. unfold c, set_table. cbn. by rewrite list_insert_insert_eq. }
  destruct (_ || _).
  - destruct (etharp_free_entry_eq c i e1 Hc Hi) as (d & (Hd & _) & ->). rewrite set_entry_Some by done. intros [= <-].
    unfold set_table. cbn. rewrite Hd. unfold c, set_table. cbn. by rewrite list_insert_insert_eq.
  - destruct (state e1); try (by intros [= <-]); try apply Hset.
    destruct (e_netif e1) as [n|]; cbn [mbind option_bind]; [|done].
    unfold etharp_request. destruct (etharp_request_dst _ _ _ _) as [[r d]|] eqn:Er; cbn [mbind option_bind]; [|done].
    intros [= <-]. by destruct (etharp_request_dst_silent _ _ _ _ _ _ Er) as (-> & _).
Qed.

Lemma for_entries_aged todo i a b :
  good a -> 0 <= i -> i + Z.of_nat todo = ARP_TABLE_SIZE -> for_entries tmr_entry todo i a = Some b ->
  arp_table b = take (Z.to_nat i) (arp_table a) ++ (aged <$> drop (Z.to_nat i) (arp_table a)).
Proof.
  revert i a. induction todo as [|todo IH]; intros i a Hg Hi Ht; cbn [for_entries]; pose proof (good_size a Hg) as Hs.
  - intros [= <-]. rewrite drop_ge, take_ge by lia. by rewrite app_nil_r.
  - destruct (entry_in_range a i Hg ltac:(lia)) as [e He]. destruct (tmr_entry_safe i a Hg ltac:(lia)) as (c & Hc & Hgc & _).
    rewrite Hc. cbn [mbind option_bind]. intros Hb. rewrite (IH (i + 1) c Hgc ltac:(lia) ltac:(lia) Hb).
    rewrite (tmr_entry_aged i a c e He ltac:(lia) Hc). apply entry_at_Some in He as [_ He]. pose proof (lookup_lt_Some _ _ _ He).
    replace (Z.to_nat (i + 1)) with (S (Z.to_nat i)) by lia. rewrite drop_insert_lt by lia.
    rewrite (drop_S (arp_table a) e (Z.to_nat i) He), fmap_cons.
    rewrite (take_S_r _ _ (aged e)) by (apply list_lookup_insert_eq; lia). rewrite take_insert_ge by lia. by rewrite <- app_assoc.
Qed.

(** A tick ages every entry. *)
Lemma tmr_aged a b : good a -> etharp_tmr a = Some b -> arp_table b = aged <$> arp_table a.
Proof.
  intros Hg Hb. pose proof table_size_ok. apply (for_entries_aged _ 0 a b Hg) in Hb; [done|lia|lia].
Qed.

Fixpoint ticks (k : nat) (a : arp) : option arp :=
  match k with O => Some a | S k => a ← ticks k a; etharp_tmr a end.

(** Neither unused nor static. *)
Definition dynamic (e : etharp_entry) : Prop := used e /\ state e <> ETHARP_STATE_STATIC.

Lemma aged_dynamic nf e : entry_ok nf e -> dynamic (aged e) -> dynamic e /\ ctime (aged e) = ctime e + 1.
Proof.
  intros Hok. pose proof (ok_ctime _ _ Hok). pose proof maxage_ok. unfold aged, dynamic, used.
  destruct (_ && _) eqn:Eu; cbv zeta.
  - apply andb_true_iff in Eu as [Eu Es]. rewrite negb_true_iff, bool_decide_eq_false in Eu.
    assert (Hns : state e <> ETHARP_STATE_STATIC).
    { intros Hst. by rewrite (ok_static _ _ Hok Hst), Hst in Es. }
    pose proof (ok_age _ _ Hok Eu Hns). assert (Hu : u16 (ctime e + 1) = ctime e + 1) by (unfold u16; rewrite Z.mod_small; lia).
    clear Es. rewrite Hu. set (x := ctime e + 1). destruct (_ || _); [intros [Hx _]; by exfalso; apply Hx|].
    intros _. split; [done|]. change (state (set_ctime x e)) with (state e). by destruct (state e).
  - intros [Hx Hs]. exfalso. rewrite bool_decide_false in Eu by done. rewrite (bool_decide_false _ Hs), orb_true_r in Eu. done.
Qed.

Lemma ticks_ok k a :
  good a -> exists b, ticks k a = Some b /\ good b /\
    forall i e, arp_table b !! i = Some e -> dynamic e -> Z.of_nat k <= ctime e.
Proof.
  intros Hg. induction k as [|k (b & Hb & Hgb & Hage)]; cbn [ticks].
  - exists a. split; [done|]. split; [done|]. intros i e He _. apply (ok_ctime _ _ (good_entries a Hg i e He)).
  - rewrite Hb. cbn [mbind option_bind]. destruct (etharp_tmr_safe b Hgb) as (c & Hc & Hgc & _). exists c. split; [done|].
    split; [done|]. intros i e He Hd. rewrite (tmr_aged b c Hgb Hc), list_lookup_fmap in He.
    destruct (arp_table b !! i) as [e0|] eqn:He0; [|done]. injection He as <-.
    destruct (aged_dynamic _ _ (good_entries b Hgb i e0 He0) Hd) as [Hd0 ->]. specialize (Hage i e0 He0 Hd0). lia.
Qed.

Lemma waiting_none p t : Forall (fun e => q e = []) t -> waiting p t = 0.
Proof. unfold waiting. induction 1 as [|e t He _ IH]; [done|]. rewrite fmap_cons, He. cbn. exact IH. Qed.

(** C21. Nothing stays for ever: when the timer runs and nothing else happens,
    after ARP_MAXPENDING ticks no entry is pending any more and every packet
    that waited has been freed, and after ARP_MAXAGE ticks only static entries
    are left. *)
Theorem arp_cache_expires a k :
  reachable a ->
  exists b, ticks k a = Some b /\
    (ARP_MAXPENDING <= Z.of_nat k ->
      (forall i e, arp_table b !! i = Some e -> state e <> ETHARP_STATE_PENDING /\ q e = []) /\
      forall p, balance p (events b) = 0) /\
    (ARP_MAXAGE <= Z.of_nat k -> forall i e, arp_table b !! i = Some e -> used e -> state e = ETHARP_STATE_STATIC).
Proof.
  intros Hr. pose proof (reachable_good a Hr) as Hg. destruct (ticks_ok k a Hg) as (b & Hb & Hgb & Hage). exists b.
  assert (Hrb : reachable b).
  { clear Hage Hgb. revert b Hb. induction k as [|k IH]; intros b; cbn [ticks]; [by intros [= <-]|].
    destruct (ticks k a) as [c|]; cbn [mbind option_bind]; [|done]. intros Hb. by apply (reachable_step Timer c b (IH c eq_refl)). }
  split; [done|]. split.
  - intros Hk. assert (Hnone : forall i e, arp_table b !! i = Some e -> state e <> ETHARP_STATE_PENDING /\ q e = []).
    { intros i e He. pose proof (good_entries b Hgb i e He) as Hok.
      assert (Hnp : state e <> ETHARP_STATE_PENDING).
      { intros Hp. pose proof (ok_pending _ _ Hok Hp). assert (dynamic e) as Hd by (split; unfold used; by rewrite Hp).
        specialize (Hage i e He Hd). lia. }
      split; [done|]. destruct (q e) eqn:Eq; [done|]. exfalso. apply Hnp, (ok_queue _ _ Hok). by rewrite Eq. }
    split; [done|]. intros p. pose proof (reachable_debt p b Hrb) as Hd. unfold debt in Hd.
    assert (Hw : waiting p (arp_table b) = 0); [|lia].
    assert (Hall : Forall (fun e => q e = []) (arp_table b)) by (apply Forall_lookup; intros i e He; by apply (Hnone i e)).
    by apply waiting_none.
  - intros Hk i e He Hu. destruct (decide (state e = ETHARP_STATE_STATIC)) as [|Hns]; [done|exfalso].
    pose proof (ok_age _ _ (good_entries b Hgb i e He) Hu Hns). specialize (Hage i e He ltac:(done)). lia.
Qed.

(** ** An address is resolved *)

(** Every external call succeeds. *)
Record works : Prop := {
  works_alloc : forall n, pbuf_alloc_ok n = true;
  works_clone : forall n, pbuf_clone_ok n = true;
  works_header : forall n, pbuf_add_header_ok n = true;
  works_memp : forall n, memp_malloc_ok n = true;
  works_link : forall n, linkoutput n = ERR_OK
}.

(** The message that [etharp_raw] sends. *)
Definition message (op : Z) (hwsrc : list Z) (ipsrc : Z) (hwdst : list Z) (ipdst : Z) : etharp_hdr :=
  mkHdr (lwip_htons LWIP_IANA_HWTYPE_ETHERNET) (lwip_htons ETHTYPE_IP) ETH_HWADDR_LEN 4 (lwip_htons op) hwsrc ipsrc hwdst ipdst.

Definition request (n : interface) (ip : Z) : etharp_hdr :=
  message ARP_REQUEST (hwaddr n) (netif_ip4_addr (netif n)) ethzero ip.

Lemma etharp_raw_works nif s1 d1 s2 ip1 d2 ip2 op a :
  works -> alive (netifs a) nif ->
  exists b, etharp_raw nif s1 d1 s2 ip1 d2 ip2 op a = Some (ERR_OK, b) /\ quiet a b /\
    exists x, events b = events a ++ [Alloc x; Send nif x (Some (message op s2 ip1 d2 ip2)) s1 d1 ETHTYPE_ARP; Free x].
Proof.
  intros Hw (n & Hn & Hs). unfold etharp_raw. cbn [call netifs log]. rewrite (works_alloc Hw), Hn. cbn [negb mbind option_bind].
  rewrite (alive_assert n Hs). unfold ethernet_output. cbn [call netifs log mbind option_bind]. rewrite Hn. cbn [mbind option_bind].
  rewrite (works_header Hw), (alive_assert n Hs). cbn [negb mbind option_bind]. eexists. split; [done|]. split; [done|]. exists (Made (calls a)). cbn. by rewrite <- !app_assoc.
Qed.

(** A packet waits on an entry without packets. *)
Lemma queue_packet_works i pk a e :
  works -> good a -> entry_at a i = Some e -> q e = [] ->
  exists b p evs, queue_packet i pk a = Some (ERR_OK, b) /\ arp_table b = <[Z.to_nat i := set_q [p] e]> (arp_table a) /\
    netifs b = netifs a /\ events b = events a ++ evs /\
    (p = packet_pbuf pk \/ Clone (packet_pbuf pk) p ∈ events b).
Proof.
  intros Hw Hg He Hq. pose proof (entry_range a i e Hg He) as Hi. pose proof queue_len_ok.
  assert (Henq : forall p c, arp_table c = arp_table a -> netifs c = netifs a ->
    exists b, enqueue i p c = Some (ERR_OK, b) /\ arp_table b = <[Z.to_nat i := set_q [p] e]> (arp_table a) /\
      netifs b = netifs a /\ events b = events c).
  { intros p c Ht Hn. unfold enqueue. assert (Hec : entry_at c i = Some e) by (unfold entry_at in *; by rewrite Ht).
    rewrite Hec. cbn [mbind option_bind]. rewrite Hq. cbn [foldl app length call]. destruct ARP_QUEUEING.
    - rewrite (works_memp Hw). replace (negb (ARP_QUEUE_LEN =? 0) && (ARP_QUEUE_LEN <=? Z.of_nat 0)) with false by lia.
      rewrite set_entry_Some by done. cbn [mbind option_bind]. eexists. split; [done|]. cbn. by rewrite Ht.
    - rewrite set_entry_Some by done. cbn [mbind option_bind]. eexists. split; [done|]. cbn. by rewrite Ht. }
  unfold queue_packet. destruct (existsb _ _).
  - cbn [call]. rewrite (works_clone Hw).
    match goal with |- context [enqueue i ?p ?c] => destruct (Henq p c eq_refl eq_refl) as (b & -> & Ht & Hn & Hev) end.
    eexists b, _, _. split; [done|]. split; [done|]. split; [done|]. split; [by rewrite Hev|]. right. rewrite Hev. cbn.
    apply elem_of_app. right. by left.
  - match goal with |- context [enqueue i ?p ?c] => destruct (Henq p c eq_refl eq_refl) as (b & -> & Ht & Hn & Hev) end.
    eexists b, _, _. split; [done|]. split; [done|]. split; [done|]. split; [by rewrite Hev|]. by left.
Qed.

(** Nothing is known about an address, and there is room for it. *)
Definition unknown (nif ip : Z) (a : arp) : Prop :=
  (forall i e, arp_table a !! i = Some e -> used e -> ~ for_key ip nif e) /\
  exists i e, arp_table a !! i = Some e /\ kind_of e <> Static.

Lemma query_unknown nif n ip pk a :
  works -> good a -> netifs a nif = Some n -> not_unicast ip n = false -> unknown nif ip a ->
  exists i mac p b, etharp_query nif ip (Some pk) a = Some (ERR_OK, b) /\
    entry_at b i = Some (mkEntry [p] ip (Some nif) mac 0 ETHARP_STATE_PENDING) /\ netifs b = netifs a /\ good b /\
    (exists x, Send nif x (Some (request n ip)) (hwaddr n) ethbroadcast ETHTYPE_ARP ∈ events b) /\
    (p = packet_pbuf pk \/ Clone (packet_pbuf pk) p ∈ events b).
Proof.
  intros Hw Hg Hn Hun [Hno (k & ek & Hk & Hks)].
  destruct (etharp_query_safe nif ip (Some pk) a Hg ltac:(by rewrite Hn)) as (r & z & Hz & Hgz & _). revert Hz.
  unfold etharp_query. rewrite Hn. cbn [mbind option_bind]. rewrite Hun.
  destruct (etharp_find_entry_ok ip ETHARP_FLAG_TRY_HARD (Some nif) a Hg) as (i & b & -> & Hf). cbn [mbind option_bind].
  destruct (found_good _ _ _ _ _ _ Hg Hf) as [Hgb Hnb].
  inversion Hf as [i' e He Hu Hm|Hno' Hall|i' e0 b' Hfo Hno' Hat Hch Hth Ht Hc' Hn' Hev0]; subst.
  { apply matches_key in Hm. apply entry_at_Some in He as [_ He]. by destruct (Hno _ _ He Hu). }
  { by destruct (Hks (Hall eq_refl eq_refl k ek Hk)). }
  pose proof (entry_range a i e0 Hg Hat) as Hi. pose proof (good_size a Hg) as Hsz. pose proof idx_max.
  replace (i <? 0) with false by lia. unfold lwip_assert. replace (i <? NETIF_ADDR_IDX_MAX) with true by lia. cbn [mbind option_bind].
  assert (Heb : entry_at b i = Some (new_entry ip (Some nif) e0)).
  { apply entry_at_Some. split; [lia|]. rewrite Ht. apply list_lookup_insert_eq. lia. }
  rewrite Heb. cbn [mbind option_bind]. rewrite (bool_decide_true (state (new_entry _ _ _) = _)) by done. cbn [orb].
  rewrite set_entry_Some by done. cbn [mbind option_bind].
  set (e1 := set_netif _ (set_state _ (new_entry _ _ _))). set (c := set_table _ b).
  assert (Hec : entry_at c i = Some e1).
  { apply entry_at_Some. split; [lia|]. apply list_lookup_insert_eq. pose proof (good_size b Hgb). lia. }
  destruct (mark_pending_safe ip ETHARP_FLAG_TRY_HARD nif a i b _ Hg ltac:(by rewrite Hn) Hf ltac:(lia) Heb eq_refl) as (c' & Hc1 & Hgc & Hnc).
  rewrite set_entry_Some in Hc1 by done. injection Hc1 as Hc1. assert (c' = c) as -> by exact (eq_sym Hc1). clear Hc1.
  unfold query_request, etharp_request, etharp_request_dst. rewrite Hnc, Hnb, Hn. cbn [mbind option_bind].
  destruct (etharp_raw_works nif (hwaddr n) ethbroadcast (hwaddr n) (netif_ip4_addr (netif n)) ethzero ip ARP_REQUEST c Hw)
    as (d & -> & Hq & x & Hevd); [by apply good_alive; [|rewrite Hnc, Hnb, Hn]|]. cbn [mbind option_bind]. change (ERR_OK =? ERR_OK) with true. cbn iota.
  pose proof Hec as Hed. rewrite <- (quiet_entry c d i Hq) in Hed. rewrite Hed. cbn [mbind option_bind]. rewrite andb_false_r.
  cbn [mbind option_bind]. unfold deliver. rewrite Hed. cbn [mbind option_bind].
  change (stable (state e1)) with false. cbn iota. change (state e1) with ETHARP_STATE_PENDING. rewrite bool_decide_true by done.
  destruct (queue_packet_works i pk d e1 Hw (quiet_good _ _ Hq Hgc) Hed eq_refl) as (f & p & evs & -> & Htf & Hnf & Hevf & Hp).
  cbn [mbind option_bind]. intros [= <- <-]. exists i, (ethaddr e0), p, f. split; [done|].
  destruct Hq as (Htd & _ & Hnd). split; [|split; [congruence|split; [done|split; [|done]]]].
  - apply entry_at_Some. split; [lia|]. rewrite Htf, list_lookup_insert_eq; [done|]. rewrite Htd. pose proof (good_size c Hgc). lia.
  - exists x. rewrite Hevf, Hevd. apply elem_of_app. left. apply elem_of_app. right. right. left.
Qed.

(** A packet to an unknown neighbour asks for its address. *)
Lemma output_unknown nif n ip pk a :
  works -> good a -> netifs a nif = Some n -> not_unicast ip n = false -> next_hop n ip = Some ip -> unknown nif ip a ->
  etharp_output nif pk ip a = etharp_query nif ip (Some pk) a.
Proof.
  intros Hw Hg Hn Hun Hnext [Hno _]. unfold etharp_output. rewrite Hn. cbn [mbind option_bind].
  unfold not_unicast in Hun. apply orb_false_iff in Hun as [Hun ->]. apply orb_false_iff in Hun as [_ ->]. rewrite Hnext.
  assert (Hmiss : forall i e, arp_table a !! i = Some e -> hit nif ip e = false).
  { intros i e He. destruct (hit nif ip e) eqn:Eh; [exfalso|done]. unfold hit in Eh. rewrite !andb_true_iff in Eh.
    destruct Eh as [[Hs Hm] Hip]. apply (Hno i e He); [intros Hx; by rewrite Hx in Hs|]. split; [lia|]. intros Hmn.
    rewrite Hmn in Hm. cbn [negb orb] in Hm. by apply bool_decide_eq_true in Hm. }
  destruct (entry_in_range a (etharp_cached_entry a) Hg (good_cached a Hg)) as [c Hc]. rewrite Hc. cbn [mbind option_bind].
  apply entry_at_Some in Hc as [_ Hc]. rewrite (Hmiss _ _ Hc).
  destruct (find_hit nif ip (arp_table a) 0) as [i|] eqn:Ef; [|done].
  destruct (find_hit_ok _ _ _ _ _ Ef) as (_ & e & He & Hh). by rewrite (Hmiss _ _ He) in Hh.
Qed.

(** A well-formed message is looked at. *)
Lemma input_message x op hwsrc ipsrc hwdst ipdst nif n a :
  netifs a nif = Some n ->
  let for_us := if netif_ip4_addr (netif n) =? 0 then false else ipdst =? netif_ip4_addr (netif n) in
  etharp_input x (message op hwsrc ipsrc hwdst ipdst) nif a =
    ('(_, a) ← etharp_update_arp_entry nif ipsrc hwsrc (if for_us then ETHARP_FLAG_TRY_HARD else ETHARP_FLAG_FIND_ONLY) a;
     a ← (if (lwip_htons op =? lwip_htons ARP_REQUEST) && for_us then
            '(_, a) ← etharp_raw nif (hwaddr n) hwsrc (hwaddr n) (netif_ip4_addr (netif n)) hwsrc ipsrc ARP_REPLY a; Some a
          else Some a);
     Some (log (Free x) a)).
Proof. intros Hn. unfold etharp_input. rewrite Hn. cbn [mbind option_bind message hwtype hwlen protolen proto]. by rewrite !Z.eqb_refl. Qed.

(** The node that is asked answers. *)
Lemma input_request x n nA nif a :
  works -> good a -> netifs a nif = Some n -> netif_ip4_addr (netif n) <> 0 ->
  exists b y, etharp_input x (request nA (netif_ip4_addr (netif n))) nif a = Some b /\
    Send nif y (Some (message ARP_REPLY (hwaddr n) (netif_ip4_addr (netif n)) (hwaddr nA) (netif_ip4_addr (netif nA))))
      (hwaddr n) (hwaddr nA) ETHTYPE_ARP ∈ events b.
Proof.
  intros Hw Hg Hn Hip. unfold request. rewrite (input_message _ _ _ _ _ _ _ n) by done. cbv zeta.
  replace (netif_ip4_addr (netif n) =? 0) with false by lia. rewrite !Z.eqb_refl. cbn [andb].
  destruct (etharp_update_safe nif (netif_ip4_addr (netif nA)) (hwaddr nA) ETHARP_FLAG_TRY_HARD a Hg ltac:(by rewrite Hn)) as (r & c & -> & Hgc & Hnc).
  cbn [mbind option_bind].
  destruct (etharp_raw_works nif (hwaddr n) (hwaddr nA) (hwaddr n) (netif_ip4_addr (netif n)) (hwaddr nA) (netif_ip4_addr (netif nA)) ARP_REPLY c Hw)
    as (d & -> & _ & y & Hev); [by apply good_alive; [|rewrite Hnc, Hn]|]. cbn [mbind option_bind]. eexists _, y. split; [done|]. cbn. rewrite Hev.
  rewrite !elem_of_app. left. right. right. left.
Qed.

(** The answer releases the packet. *)
Lemma input_reply x n nif ip mac i p macold a :
  works -> good a -> netifs a nif = Some n -> not_unicast ip n = false ->
  entry_at a i = Some (mkEntry [p] ip (Some nif) macold 0 ETHARP_STATE_PENDING) ->
  exists b, etharp_input x (message ARP_REPLY mac ip (hwaddr n) (netif_ip4_addr (netif n))) nif a = Some b /\
    Send nif p None (hwaddr n) mac ETHTYPE_IP ∈ events b /\
    etharp_find_addr (Some nif) ip b = Some (Some (i, mac, ip), b).
Proof.
  intros Hw Hg Hn Hun He. rewrite (input_message _ _ _ _ _ _ _ n) by done. cbv zeta. set (fu := if _ =? 0 then _ else _).
  set (flags := if fu then _ else _). set (e := mkEntry _ _ _ _ _ _) in He.
  assert (Hop : (lwip_htons ARP_REPLY =? lwip_htons ARP_REQUEST) = false).
  { apply Z.eqb_neq. intros Hx. by apply htons_inj in Hx; [|lia..]. }
  rewrite Hop. cbn [andb]. assert (Hk : for_key ip nif e) by (split; done). assert (Hu : used e) by done.
  destruct (update_binds nif n ip mac flags a Hg Hn) as (r & b & Hb & Hcase). rewrite Hb. cbn [mbind option_bind].
  pose proof He as [_ Hei]%entry_at_Some. destruct Hcase as [(-> & i' & e0 & He0 & Hpl & Htb & Hfind)|(_ & Hfail)].
  - destruct Hpl as [(Hu0 & Hk0 & _ & evs & Hev & Hfl)|(Hno & _)]; [|by destruct (Hno _ _ Hei Hu)].
    pose proof (entry_range a i e Hg He). pose proof (entry_range a i' e0 Hg He0). apply entry_at_Some in He0 as [_ He0].
    assert (i' = i) as ->.
    { pose proof (good_unique a Hg _ _ _ _ He0 Hei Hu0 Hu (same_key_for ip nif _ _ Hk0 Hk)). lia. }
    assert (e0 = e) as -> by congruence. eexists. split; [done|]. split.
    + cbn. rewrite Hev, !elem_of_app. left. right. cbn [q e] in Hfl.
      inversion Hfl as [|p' l evs' Hr|p' l evs' k Hbad]; subst; [by left|]. by rewrite (works_header Hw) in Hbad.
    + destruct (etharp_update_safe nif ip mac flags a Hg ltac:(by rewrite Hn)) as (r & b' & Hb' & Hgb & _).
      assert (b' = b) as -> by congruence.
      apply (find_addr_ok nif ip i (learnt nif ip mac flags)); [by apply good_log| |unfold used, learnt, update_state; cbn; by case_match|done|
        unfold learnt, update_state; cbn; by case_match].
      apply entry_at_Some. split; [lia|]. cbn. rewrite Htb. apply list_lookup_insert_eq. pose proof (good_size a Hg). lia.
  - exfalso. destruct Hfail as [[_ Hx]|[(_ & Hno & _)|(_ & _ & j & e1 & He1 & Hk1 & Hs1)]]; [congruence|by destruct (Hno _ _ Hei Hu)|].
    assert (Hu1 : used e1) by (unfold used; by rewrite Hs1).
    pose proof (good_unique a Hg _ _ _ _ He1 Hei Hu1 Hu (same_key_for ip nif _ _ Hk1 Hk)) as ->.
    assert (e1 = e) as -> by congruence. done.
Qed.
End Spec.

Section Exchange.
Context `{Endian} `{LwipMacros} {Opt : EtharpOptions} {N : NetworkOrder} {WA WB : World}.

(** C22. Addresses are resolved: when a node A sends a packet to an address on
    its network that it knows nothing about, then, as long as allocations and
    transmissions succeed, it broadcasts a request; any node B with that
    address answers the request to A; and when the answer arrives, A sends the
    packet (or the copy it made of it) to the hardware address of B and knows
    this address from then on. *)
Theorem arp_exchange (a b : arp) ifA ifB nA nB pk pA pB :
  @works WA -> @works WB ->
  reachable (W := WA) a -> netifs a ifA = Some nA ->
  reachable (W := WB) b -> netifs b ifB = Some nB ->
  let ipB := netif_ip4_addr (netif nB) in
  not_unicast (W := WA) ipB nA = false -> next_hop (W := WA) nA ipB = Some ipB -> unknown ifA ipB a ->
  exists a1 req b1 rep a2 x y i p,
    etharp_output (W := WA) ifA pk ipB a = Some (ERR_OK, a1) /\
    Send ifA x (Some req) (hwaddr nA) ethbroadcast ETHTYPE_ARP ∈ events a1 /\
    etharp_input (W := WB) pB req ifB b = Some b1 /\
    Send ifB y (Some rep) (hwaddr nB) (hwaddr nA) ETHTYPE_ARP ∈ events b1 /\
    etharp_input (W := WA) pA rep ifA a1 = Some a2 /\
    (p = packet_pbuf pk \/ Clone (packet_pbuf pk) p ∈ events a1) /\
    Send ifA p None (hwaddr nA) (hwaddr nB) ETHTYPE_IP ∈ events a2 /\
    etharp_find_addr (Some ifA) ipB a2 = Some (Some (i, hwaddr nB, ipB), a2).
Proof.
  intros HwA HwB Hra HnA Hrb HnB ipB Hun Hnext Hunk.
  pose proof (reachable_good a Hra) as Hga. pose proof (reachable_good b Hrb) as Hgb.
  assert (Hip : ipB <> 0) by (unfold not_unicast in Hun; rewrite !orb_false_iff in Hun; lia).
  pose proof (output_unknown (W := WA) ifA nA ipB pk a HwA Hga HnA Hun Hnext Hunk) as Hout.
  destruct (query_unknown (W := WA) ifA nA ipB pk a HwA Hga HnA Hun Hunk) as (i & mac & p & a1 & Hq & He & Hn1 & Hg1 & (x & Hreq) & Hp).
  destruct (input_request (W := WB) pB nB nA ifB b HwB Hgb HnB Hip) as (b1 & y & HinB & Hrep).
  rewrite <- Hn1 in HnA.
  destruct (input_reply (W := WA) pA nA ifA ipB (hwaddr nB) i p mac a1 HwA Hg1 HnA Hun He) as (a2 & HinA & Hsend & Hfind).
  exists a1, (request nA ipB), b1, (message ARP_REPLY (hwaddr nB) ipB (hwaddr nA) (netif_ip4_addr (netif nA))), a2, x, y, i, p.
  rewrite Hout. done.
Qed.
End Exchange.

(** ** Examples, on a little-endian machine *)
Section Sample.
#[local] Existing Instances little_endian sample_macros.

#[local, refine] Instance sample_options : EtharpOptions := {
  ARP_TABLE_SIZE := 3; ARP_MAXAGE := 300; ARP_QUEUEING := true; ARP_QUEUE_LEN := 2;
  ETHARP_SUPPORT_STATIC_ENTRIES := true; ETHARP_TABLE_MATCH_NETIF := true
}.
Proof. all: lia. Defined.

#[local, refine] Instance sample_order : NetworkOrder := { lwip_htons x := x mod 2 ^ 8 * 2 ^ 8 + x / 2 ^ 8 }.
Proof. intros x y Hx Hy. lia_mod. Defined.

#[local] Instance sample_world : World := {
  pbuf_alloc_ok _ := true; pbuf_clone_ok _ := true; pbuf_add_header_ok _ := true; memp_malloc_ok _ := true;
  linkoutput _ := 0; ip4_route _ := None;
  ip4_addr_ismulticast ip := Z.land ip 0xf0 =? 0xe0; ip4_addr_islinklocal ip := Z.land ip 0xffff =? 0xfea9
}.

(** 192.168.0.1 and 192.168.0.2 *)
Definition node (k : Z) : interface := mkInterface [2; 0; 0; 0; 0; k] 0 (mkNetif 2 (k * 2 ^ 24 + 0xa8c0) 0x00ffffff).

(** An interface comes up. *)
Definition up (k : Z) : option arp := perform (SetInterface 1 (node k)) initial.

(** A packet for 192.168.0.2 waits. *)
Definition asked : option arp := a ← up 1; perform (Output 1 (mkPacket (Given 7) [false]) 0x0200a8c0) a.

Lemma up_reachable k a : up k = Some a -> reachable a.
Proof. intros Ha. by apply (reachable_step (SetInterface 1 (node k)) initial); [constructor|reflexivity|]. Qed.

Lemma asked_reachable a : asked = Some a -> reachable a.
Proof.
  unfold asked. destruct (up 1) as [b|] eqn:Hb; [|done]. cbn [mbind option_bind]. intros Ha.
  apply (reachable_step (Output 1 (mkPacket (Given 7) [false]) 0x0200a8c0) b a); [by apply (up_reachable 1)| |done].
  injection Hb as <-. cbn. done.
Qed.

Lemma arp_cache_invariant_witness :
  exists a, asked = Some a /\ good a /\ balance (Given 7) (events a) = 1 /\ waiting (Given 7) (arp_table a) = 1.
Proof.
  destruct asked as [a|] eqn:Ha; [|by vm_compute in Ha]. exists a. split; [done|].
  destruct (arp_cache_invariant a (asked_reachable a Ha)) as (Hg & _ & Hb). split; [done|]. rewrite Hb.
  assert (Hw : waiting (Given 7) (arp_table a) = 1) by (vm_compute in Ha; injection Ha as <-; reflexivity). by split.
Defined.

(** An answer for 192.168.0.2 without a request. *)
Lemma arp_update_binds_witness :
  exists a b i, up 1 = Some a /\ etharp_update_arp_entry 1 0x0200a8c0 [2; 0; 0; 0; 0; 2] ETHARP_FLAG_TRY_HARD a = Some (ERR_OK, b) /\
    etharp_find_addr (Some 1) 0x0200a8c0 b = Some (Some (i, [2; 0; 0; 0; 0; 2], 0x0200a8c0), b).
Proof.
  destruct (up 1) as [a|] eqn:Ha; [|done]. exists a. pose proof (up_reachable 1 a Ha) as Hr.
  assert (Hn : netifs a 1 = Some (node 1)) by (by injection Ha as <-).
  destruct (arp_update_binds 1 (node 1) 0x0200a8c0 [2; 0; 0; 0; 0; 2] ETHARP_FLAG_TRY_HARD a Hr Hn) as (r & b & Hx & Hc).
  destruct Hc as [(-> & i & e0 & _ & _ & _ & Hf)|(_ & Hfail)]; [by exists b, i|].
  exfalso. injection Ha as <-. vm_compute in Hx. injection Hx as <- _. destruct Hfail as [[? _]|[[? _]|[? _]]]; done.
Defined.

Lemma arp_cache_expires_witness :
  exists a b, asked = Some a /\ ticks 5 a = Some b /\ balance (Given 7) (events b) = 0.
Proof.
  destruct asked as [a|] eqn:Ha; [|by vm_compute in Ha]. exists a.
  destruct (arp_cache_expires a 5 (asked_reachable a Ha)) as (b & Hb & H5 & _). exists b.
  split; [done|]. split; [done|]. by apply H5.
Defined.

(** 192.168.0.1 sends to 192.168.0.2. *)
Lemma arp_exchange_witness :
  exists a a1 a2 b b1 req rep i, up 1 = Some a /\ up 2 = Some b /\
    etharp_output 1 (mkPacket (Given 7) [false]) 0x0200a8c0 a = Some (ERR_OK, a1) /\
    etharp_input (Given 8) req 1 b = Some b1 /\ etharp_input (Given 9) rep 1 a1 = Some a2 /\
    etharp_find_addr (Some 1) 0x0200a8c0 a2 = Some (Some (i, [2; 0; 0; 0; 0; 2], 0x0200a8c0), a2).
Proof.
  destruct (up 1) as [a|] eqn:Ha; [|done]. destruct (up 2) as [b|] eqn:Hb; [|done].
  assert (Hw : works) by (by split). assert (HnA : netifs a 1 = Some (node 1)) by (by injection Ha as <-).
  assert (HnB : netifs b 1 = Some (node 2)) by (by injection Hb as <-).
  assert (Hunk : unknown 1 0x0200a8c0 a).
  { injection Ha as <-. split; [|exists 0%nat, empty_entry; split; [reflexivity|done]].
    intros i e [-> _]%lookup_replicate Hu. by exfalso; apply Hu. }
  destruct (arp_exchange a b 1 1 (node 1) (node 2) (mkPacket (Given 7) [false]) (Given 9) (Given 8) Hw Hw
    (up_reachable 1 a Ha) HnA (up_reachable 2 b Hb) HnB eq_refl eq_refl Hunk)
    as (a1 & req & b1 & rep & a2 & _ & _ & i & _ & H1 & _ & H2 & _ & H3 & _ & _ & H4).
  by exists a, a1, a2, b, b1, req, rep, i.
Defined.
End Sample.
End EthArpSpec.
