(* ===== verification/TcpBase.v ===== *)
(** The TCP of lwIP (src/tcp/src/upstream/src): sequence numbers, segments, the
    connection, and the state that the functions of core/tcp_in.c, core/tcp_out.c
    and core/tcp.c share.

    Sources: include/lwip/priv/tcp_priv.h, include/lwip/tcp.h,
    include/lwip/prot/tcp.h, core/tcp.c.

    The options that select code are the class [TcpOptions]. Fixed are LWIP_TCP,
    TCP_QUEUE_OOSEQ and LWIP_CALLBACK_API on; TCP_OVERSIZE, TCP_CHECKSUM_ON_COPY,
    TCP_CALCULATE_EFF_SEND_MSS, TCP_LISTEN_BACKLOG, LWIP_ND6_TCP_REACHABILITY_HINTS,
    LWIP_TCP_PCB_NUM_EXT_ARGS and the hooks off.

    Fields of headers are kept in host order: [lwip_ntohl (lwip_htonl x)] is [x].
    A packet buffer is its chain of payloads; references to it are not counted.
    An external call has a number, and oracles say how the call with this number
    ends ([TcpWorld]). A result [None] is a failed LWIP_ASSERT or the use of a NULL
    pointer. *)

From S2P Require Export Ip4.
Export Ip4.
Open Scope Z_scope.

(** ** Sequence numbers *)

Module TcpSeq.

(** [(s32_t)x] and [(s16_t)x] *)
Definition s32 (x : Z) : Z := (x + 2 ^ 31) mod 2 ^ 32 - 2 ^ 31.
Definition s16 (x : Z) : Z := (x + 2 ^ 15) mod 2 ^ 16 - 2 ^ 15.

Definition TCP_SEQ_LT (a b : Z) : bool := s32 (u32 (a - b)) <? 0.
Definition TCP_SEQ_LEQ (a b : Z) : bool := s32 (u32 (a - b)) <=? 0.
Definition TCP_SEQ_GT (a b : Z) : bool := 0 <? s32 (u32 (a - b)).
Definition TCP_SEQ_GEQ (a b : Z) : bool := 0 <=? s32 (u32 (a - b)).
Definition TCP_SEQ_BETWEEN (a b c : Z) : bool := TCP_SEQ_GEQ a b && TCP_SEQ_LEQ a c.

(** Numbers that are less than 2^31 apart are compared as they should be. *)
Definition near (a b : Z) : Prop := - 2 ^ 31 < a - b < 2 ^ 31.

Lemma s32_diff a b : near a b -> s32 (u32 (u32 a - u32 b)) = a - b.
Proof. unfold near, s32, u32. intros H. lia_mod. Qed.

Lemma s32_diff_r a b : near a b -> s32 (u32 (u32 a - b)) = a - b.
Proof. unfold near, s32, u32. intros H. lia_mod. Qed.

Lemma s32_diff_l a b : near a b -> s32 (u32 (a - u32 b)) = a - b.
Proof. unfold near, s32, u32. intros H. lia_mod. Qed.

End TcpSeq.
Export TcpSeq.

(** ** Options and the outside *)

Class TcpOptions := {
  LWIP_WND_SCALE : bool;
  TCP_RCV_SCALE : Z;
  TCP_WND : Z;
  TCP_MSS : Z;
  INITIAL_MSS : Z;
  TCP_SND_BUF : Z;
  TCP_SND_QUEUELEN : Z;
  TCP_MAXRTX : Z;
  TCP_SYNMAXRTX : Z;
  TCP_WND_UPDATE_THRESHOLD : Z;
  TCP_TTL : Z;
  TCP_SLOW_INTERVAL : Z;
  LWIP_TCP_SACK_OUT : bool;
  LWIP_TCP_MAX_SACK_NUM : nat;
  LWIP_TCP_TIMESTAMPS : bool;
  TCP_OOSEQ_BYTES_LIMIT : option Z;
  TCP_OOSEQ_PBUFS_LIMIT : option Z;
  rcv_scale_ok : 0 <= TCP_RCV_SCALE <= 14;
  wnd_ok : 0 < TCP_WND <= if LWIP_WND_SCALE then Z.shiftl 0xffff TCP_RCV_SCALE else 0xffff;
  mss_ok : 0 < TCP_MSS < 2 ^ 16
}.

(** What is outside of the repository: allocations, the network, the clock;
    whether a buffer that is not copied lies behind the last one ([rom_contiguous]). *)
Class TcpWorld := {
  pbuf_alloc_ok : nat -> bool;
  pbuf_add_header_ok : nat -> bool;
  tcp_seg_malloc_ok : nat -> bool;
  segment_busy : nat -> bool;
  route : nat -> option Z;
  ip_netif_get_local_ip : Z -> Z -> option Z;
  rom_contiguous : nat -> bool;
  ip_output_if : nat -> Z;
  sys_now : nat -> Z
}.

(** The application: its callbacks may call the functions of the connection, and
    say with ERR_ABRT that they aborted it. *)
Class TcpApp (tcp chain : Type) := {
  on_connected : tcp -> option (Z * tcp);
  on_accept : tcp -> option (Z * tcp);
  on_recv : option chain -> tcp -> option (Z * tcp);
  on_sent : Z -> tcp -> option (Z * tcp);
  on_poll : tcp -> option (Z * tcp)
}.

(** The functions on packet buffers that are used: [pbuf_realloc] cuts a chain to a
    length, [pbuf_cat] joins two, [pbuf_remove_header] removes the first bytes of
    one buffer, [pbuf_split_64k] divides a chain behind its first 64 kB, and may
    give the flag PBUF_FLAG_TCP_FIN to the second part too. *)
Class PbufLib := {
  pbuf_realloc : list (list Z) -> Z -> list (list Z);
  pbuf_cat : list (list Z) -> list (list Z) -> list (list Z);
  pbuf_remove_header : list Z -> Z -> list Z;
  pbuf_split_64k : list (list Z) -> list (list Z) * list (list Z);
  split_copies_fin : bool;
  realloc_data : forall p n, 0 <= n <= size (concat p) -> concat (pbuf_realloc p n) = take (Z.to_nat n) (concat p);
  cat_chain : forall p q, pbuf_cat p q = p ++ q;
  remove_header_data : forall b n, 0 <= n <= size b -> pbuf_remove_header b n = drop (Z.to_nat n) b;
  split_shorter : forall p, (length (pbuf_split_64k p).2 < Nat.max 1 (length p))%nat;
  split_data : forall p, concat (pbuf_split_64k p).1 ++ concat (pbuf_split_64k p).2 = concat p
}.

Module Tcp.

Abbreviation TCP_FIN := 0x01.
Abbreviation TCP_SYN := 0x02.
Abbreviation TCP_RST := 0x04.
Abbreviation TCP_PSH := 0x08.
Abbreviation TCP_ACK := 0x10.
Abbreviation TCP_FLAGS := 0x3f.
Abbreviation TCP_HLEN := 20.
Abbreviation TCP_MAX_OPTION_BYTES := 40.

Abbreviation TF_ACK_DELAY := 0x01.
Abbreviation TF_ACK_NOW := 0x02.
Abbreviation TF_INFR := 0x04.
Abbreviation TF_CLOSEPEND := 0x08.
Abbreviation TF_RXCLOSED := 0x10.
Abbreviation TF_FIN := 0x20.
Abbreviation TF_NODELAY := 0x40.
Abbreviation TF_NAGLEMEMERR := 0x80.
Abbreviation TF_WND_SCALE := 0x0100.
Abbreviation TF_TIMESTAMP := 0x0400.
Abbreviation TF_RTO := 0x0800.
Abbreviation TF_SACK := 0x1000.

Abbreviation TF_RESET := 0x08.
Abbreviation TF_CLOSED := 0x10.
Abbreviation TF_GOT_FIN := 0x20.

Abbreviation TF_SEG_OPTS_MSS := 0x01.
Abbreviation TF_SEG_OPTS_TS := 0x02.
Abbreviation TF_SEG_OPTS_WND_SCALE := 0x08.
Abbreviation TF_SEG_OPTS_SACK_PERM := 0x10.

Abbreviation ERR_OK := 0.
Abbreviation ERR_MEM := (-1).
Abbreviation ERR_BUF := (-2).
Abbreviation ERR_RTE := (-4).
Abbreviation ERR_VAL := (-6).
Abbreviation ERR_CONN := (-11).
Abbreviation ERR_ABRT := (-13).
Abbreviation ERR_RST := (-14).

Inductive tcp_state :=
  | CLOSED | LISTEN | SYN_SENT | SYN_RCVD | ESTABLISHED | FIN_WAIT_1 | FIN_WAIT_2
  | CLOSE_WAIT | CLOSING | LAST_ACK | TIME_WAIT.

#[global] Instance tcp_state_eq : EqDecision tcp_state.
Proof. solve_decision. Defined.

(** The states are numbered in the order of their names, [tcp_state_str]. *)
Definition state_num (s : tcp_state) : Z :=
  match s with
  | CLOSED => 0 | LISTEN => 1 | SYN_SENT => 2 | SYN_RCVD => 3 | ESTABLISHED => 4 | FIN_WAIT_1 => 5
  | FIN_WAIT_2 => 6 | CLOSE_WAIT => 7 | CLOSING => 8 | LAST_ACK => 9 | TIME_WAIT => 10
  end.

(** The list that a connection is on, if it is on one, or its memory is free. *)
Inductive pcb_place := Unlisted | Bound | Active | TimeWait | Freed.

#[global] Instance pcb_place_eq : EqDecision pcb_place.
Proof. solve_decision. Defined.

(** A chain of packet buffers, their payloads. *)
Abbreviation chain := (list (list Z)).
Definition tot_len (p : chain) : Z := size (concat p).
Definition pbuf_clen (p : chain) : Z := Z.of_nat (length p).

(** A segment on a queue; of its header the sequence number and the flags. *)
Record tcp_seg := mkSeg { seg_p : chain; seg_len : Z; seg_flags : Z; seg_seqno : Z; seg_hflags : Z }.

Definition TCPH_FLAGS (seg : tcp_seg) : Z := Z.land (seg_hflags seg) TCP_FLAGS.
Definition TCPH_SET_FLAG (f : Z) (seg : tcp_seg) : tcp_seg :=
  mkSeg (seg_p seg) (seg_len seg) (seg_flags seg) (seg_seqno seg) (Z.lor (seg_hflags seg) f).
Definition TCPH_FLAGS_SET (f : Z) (seg : tcp_seg) : tcp_seg :=
  mkSeg (seg_p seg) (seg_len seg) (seg_flags seg) (seg_seqno seg)
    (Z.lor (Z.land (seg_hflags seg) (Z.lnot TCP_FLAGS)) f).
Definition set_seg_p (p : chain) (seg : tcp_seg) : tcp_seg :=
  mkSeg p (seg_len seg) (seg_flags seg) (seg_seqno seg) (seg_hflags seg).
Definition set_seg_len (len : Z) (seg : tcp_seg) : tcp_seg :=
  mkSeg (seg_p seg) len (seg_flags seg) (seg_seqno seg) (seg_hflags seg).
Definition set_seg_seqno (seqno : Z) (seg : tcp_seg) : tcp_seg :=
  mkSeg (seg_p seg) (seg_len seg) (seg_flags seg) seqno (seg_hflags seg).

(** [flags & f] *)
Definition has (f flags : Z) : bool := negb (Z.land flags f =? 0).

Definition TCP_TCPLEN (seg : tcp_seg) : Z :=
  seg_len seg + (if has (Z.lor TCP_FIN TCP_SYN) (TCPH_FLAGS seg) then 1 else 0).

(** [struct tcp_pcb]: the receiving side; refused data has the flag PBUF_FLAG_TCP_FIN. *)
Record receiver := mkReceiver {
  rcv_nxt : Z; rcv_wnd : Z; rcv_ann_wnd : Z; rcv_ann_right_edge : Z; rcv_sacks : list (Z * Z);
  ooseq : list tcp_seg; refused_data : option (chain * bool); rcv_scale : Z; ts_lastacksent : Z; ts_recent : Z
}.

Ltac up_rx proj v r :=
  set_field (fun x : receiver => mkReceiver (rcv_nxt x) (rcv_wnd x) (rcv_ann_wnd x) (rcv_ann_right_edge x)
     (rcv_sacks x) (ooseq x) (refused_data x) (rcv_scale x) (ts_lastacksent x) (ts_recent x)) proj v r.

Definition set_rcv_nxt (v : Z) (r : receiver) : receiver := ltac:(up_rx rcv_nxt v r).
Definition set_rcv_wnd (v : Z) (r : receiver) : receiver := ltac:(up_rx rcv_wnd v r).
Definition set_rcv_ann_wnd (v : Z) (r : receiver) : receiver := ltac:(up_rx rcv_ann_wnd v r).
Definition set_rcv_ann_right_edge (v : Z) (r : receiver) : receiver := ltac:(up_rx rcv_ann_right_edge v r).
Definition set_rcv_sacks (v : list (Z * Z)) (r : receiver) : receiver := ltac:(up_rx rcv_sacks v r).
Definition set_ooseq (v : list tcp_seg) (r : receiver) : receiver := ltac:(up_rx ooseq v r).
Definition set_refused_data (v : option (chain * bool)) (r : receiver) : receiver := ltac:(up_rx refused_data v r).
Definition set_rcv_scale (v : Z) (r : receiver) : receiver := ltac:(up_rx rcv_scale v r).
Definition set_ts_lastacksent (v : Z) (r : receiver) : receiver := ltac:(up_rx ts_lastacksent v r).
Definition set_ts_recent (v : Z) (r : receiver) : receiver := ltac:(up_rx ts_recent v r).

(** [struct tcp_pcb]: the sending side. *)
Record sender := mkSender {
  mss : Z; lastack : Z; snd_nxt : Z; snd_wl1 : Z; snd_wl2 : Z; snd_lbb : Z; snd_wnd : Z; snd_wnd_max : Z;
  snd_buf : Z; snd_queuelen : Z; unsent : list tcp_seg; unacked : list tcp_seg; snd_scale : Z
}.

Ltac up_tx proj v r :=
  set_field (fun x : sender => mkSender (mss x) (lastack x) (snd_nxt x) (snd_wl1 x) (snd_wl2 x) (snd_lbb x)
     (snd_wnd x) (snd_wnd_max x) (snd_buf x) (snd_queuelen x) (unsent x) (unacked x) (snd_scale x)) proj v r.

Definition set_mss (v : Z) (r : sender) : sender := ltac:(up_tx mss v r).
Definition set_lastack (v : Z) (r : sender) : sender := ltac:(up_tx lastack v r).
Definition set_snd_nxt (v : Z) (r : sender) : sender := ltac:(up_tx snd_nxt v r).
Definition set_snd_wl1 (v : Z) (r : sender) : sender := ltac:(up_tx snd_wl1 v r).
Definition set_snd_wl2 (v : Z) (r : sender) : sender := ltac:(up_tx snd_wl2 v r).
Definition set_snd_lbb (v : Z) (r : sender) : sender := ltac:(up_tx snd_lbb v r).
Definition set_snd_wnd (v : Z) (r : sender) : sender := ltac:(up_tx snd_wnd v r).
Definition set_snd_wnd_max (v : Z) (r : sender) : sender := ltac:(up_tx snd_wnd_max v r).
Definition set_snd_buf (v : Z) (r : sender) : sender := ltac:(up_tx snd_buf v r).
Definition set_snd_queuelen (v : Z) (r : sender) : sender := ltac:(up_tx snd_queuelen v r).
Definition set_unsent (v : list tcp_seg) (r : sender) : sender := ltac:(up_tx unsent v r).
Definition set_unacked (v : list tcp_seg) (r : sender) : sender := ltac:(up_tx unacked v r).
Definition set_snd_scale (v : Z) (r : sender) : sender := ltac:(up_tx snd_scale v r).

(** [struct tcp_pcb]: congestion control. *)
Record congestion := mkCongestion {
  dupacks : Z; cwnd : Z; ssthresh : Z; rto_end : Z; bytes_acked : Z
}.

Ltac up_cc proj v r :=
  set_field (fun x : congestion => mkCongestion (dupacks x) (cwnd x) (ssthresh x) (rto_end x) (bytes_acked x)) proj v r.

Definition set_dupacks (v : Z) (r : congestion) : congestion := ltac:(up_cc dupacks v r).
Definition set_cwnd (v : Z) (r : congestion) : congestion := ltac:(up_cc cwnd v r).
Definition set_ssthresh (v : Z) (r : congestion) : congestion := ltac:(up_cc ssthresh v r).
Definition set_rto_end (v : Z) (r : congestion) : congestion := ltac:(up_cc rto_end v r).
Definition set_bytes_acked (v : Z) (r : congestion) : congestion := ltac:(up_cc bytes_acked v r).

(** [struct tcp_pcb]: timers and counters. *)
Record timers := mkTimers {
  polltmr : Z; pollinterval : Z; tmr : Z; rtime : Z; rttest : Z; rtseq : Z; sa : Z; sv : Z; rto : Z; nrtx : Z;
  keep_idle : Z; keep_cnt_sent : Z; persist_cnt : Z; persist_backoff : Z; persist_probe : Z
}.

Ltac up_tim proj v r :=
  set_field (fun x : timers => mkTimers (polltmr x) (pollinterval x) (tmr x) (rtime x) (rttest x) (rtseq x)
     (sa x) (sv x) (rto x) (nrtx x) (keep_idle x) (keep_cnt_sent x) (persist_cnt x) (persist_backoff x)
     (persist_probe x)) proj v r.

Definition set_polltmr (v : Z) (r : timers) : timers := ltac:(up_tim polltmr v r).
Definition set_pollinterval (v : Z) (r : timers) : timers := ltac:(up_tim pollinterval v r).
Definition set_tmr (v : Z) (r : timers) : timers := ltac:(up_tim tmr v r).
Definition set_rtime (v : Z) (r : timers) : timers := ltac:(up_tim rtime v r).
Definition set_rttest (v : Z) (r : timers) : timers := ltac:(up_tim rttest v r).
Definition set_rtseq (v : Z) (r : timers) : timers := ltac:(up_tim rtseq v r).
Definition set_sa (v : Z) (r : timers) : timers := ltac:(up_tim sa v r).
Definition set_sv (v : Z) (r : timers) : timers := ltac:(up_tim sv v r).
Definition set_rto (v : Z) (r : timers) : timers := ltac:(up_tim rto v r).
Definition set_nrtx (v : Z) (r : timers) : timers := ltac:(up_tim nrtx v r).
Definition set_keep_idle (v : Z) (r : timers) : timers := ltac:(up_tim keep_idle v r).
Definition set_keep_cnt_sent (v : Z) (r : timers) : timers := ltac:(up_tim keep_cnt_sent v r).
Definition set_persist_cnt (v : Z) (r : timers) : timers := ltac:(up_tim persist_cnt v r).
Definition set_persist_backoff (v : Z) (r : timers) : timers := ltac:(up_tim persist_backoff v r).
Definition set_persist_probe (v : Z) (r : timers) : timers := ltac:(up_tim persist_probe v r).

(** The connection. *)
Record tcp_pcb := mkPcb {
  state : tcp_state; flags : Z; local_ip : Z; remote_ip : Z; local_port : Z; remote_port : Z;
  place : pcb_place; has_listener : bool; so_keepalive : bool; rx : receiver; tx : sender; cc : congestion;
  tim : timers
}.

Ltac up_pcb proj v r :=
  set_field (fun x : tcp_pcb => mkPcb (state x) (flags x) (local_ip x) (remote_ip x) (local_port x)
     (remote_port x) (place x) (has_listener x) (so_keepalive x) (rx x) (tx x) (cc x) (tim x)) proj v r.

Definition set_state (v : tcp_state) (r : tcp_pcb) : tcp_pcb := ltac:(up_pcb state v r).
Definition set_flags (v : Z) (r : tcp_pcb) : tcp_pcb := ltac:(up_pcb flags v r).
Definition set_local_ip (v : Z) (r : tcp_pcb) : tcp_pcb := ltac:(up_pcb local_ip v r).
Definition set_remote_ip (v : Z) (r : tcp_pcb) : tcp_pcb := ltac:(up_pcb remote_ip v r).
Definition set_local_port (v : Z) (r : tcp_pcb) : tcp_pcb := ltac:(up_pcb local_port v r).
Definition set_remote_port (v : Z) (r : tcp_pcb) : tcp_pcb := ltac:(up_pcb remote_port v r).
Definition set_place (v : pcb_place) (r : tcp_pcb) : tcp_pcb := ltac:(up_pcb place v r).
Definition set_has_listener (v : bool) (r : tcp_pcb) : tcp_pcb := ltac:(up_pcb has_listener v r).
Definition set_so_keepalive (v : bool) (r : tcp_pcb) : tcp_pcb := ltac:(up_pcb so_keepalive v r).
Definition set_rx (v : receiver) (r : tcp_pcb) : tcp_pcb := ltac:(up_pcb rx v r).
Definition set_tx (v : sender) (r : tcp_pcb) : tcp_pcb := ltac:(up_pcb tx v r).
Definition set_cc (v : congestion) (r : tcp_pcb) : tcp_pcb := ltac:(up_pcb cc v r).
Definition set_tim (v : timers) (r : tcp_pcb) : tcp_pcb := ltac:(up_pcb tim v r).

Definition in_rx (f : receiver -> receiver) (p : tcp_pcb) : tcp_pcb := set_rx (f (rx p)) p.
Definition in_tx (f : sender -> sender) (p : tcp_pcb) : tcp_pcb := set_tx (f (tx p)) p.
Definition in_cc (f : congestion -> congestion) (p : tcp_pcb) : tcp_pcb := set_cc (f (cc p)) p.
Definition in_tim (f : timers -> timers) (p : tcp_pcb) : tcp_pcb := set_tim (f (tim p)) p.

Definition tcp_set_flags (f : Z) (p : tcp_pcb) : tcp_pcb := set_flags (u16 (Z.lor (flags p) f)) p.
Definition tcp_clear_flags (f : Z) (p : tcp_pcb) : tcp_pcb := set_flags (Z.land (flags p) (Z.land (Z.lnot f) 0xffff)) p.

Definition tcp_ack_now (p : tcp_pcb) : tcp_pcb := tcp_set_flags TF_ACK_NOW p.
Definition tcp_ack (p : tcp_pcb) : tcp_pcb :=
  if has TF_ACK_DELAY (flags p) then tcp_ack_now (tcp_clear_flags TF_ACK_DELAY p) else tcp_set_flags TF_ACK_DELAY p.

(** A segment that is handed to IP; the options are its words. *)
Record tcp_out := mkOut {
  o_src : Z; o_dst : Z; o_src_port : Z; o_dst_port : Z; o_seqno : Z; o_ackno : Z; o_flags : Z; o_wnd : Z;
  o_opts : list Z; o_data : list Z
}.

(** The segment that arrives: the variables that [tcp_input] sets; [optbytes] are
    the options and [optbehind] is what lies in memory behind them. *)
Record arrival := mkArrival {
  inseg : tcp_seg; in_seqno : Z; in_ackno : Z; in_flags : Z; in_wnd : Z; tcplen : Z; optbytes : list Z; optbehind : Z -> Z;
  recv_data : option chain; recv_flags : Z; recv_acked : Z
}.

Ltac up_ins proj v r :=
  set_field (fun x : arrival => mkArrival (inseg x) (in_seqno x) (in_ackno x) (in_flags x) (in_wnd x) (tcplen x)
     (optbytes x) (optbehind x) (recv_data x) (recv_flags x) (recv_acked x)) proj v r.

Definition set_inseg (v : tcp_seg) (a : arrival) : arrival := ltac:(up_ins inseg v a).
Definition set_in_seqno (v : Z) (a : arrival) : arrival := ltac:(up_ins in_seqno v a).
Definition set_tcplen (v : Z) (a : arrival) : arrival := ltac:(up_ins tcplen (u16 v) a).
Definition set_recv_data (v : option chain) (a : arrival) : arrival := ltac:(up_ins recv_data v a).
Definition set_recv_flags (v : Z) (a : arrival) : arrival := ltac:(up_ins recv_flags v a).
Definition set_recv_acked (v : Z) (a : arrival) : arrival := ltac:(up_ins recv_acked v a).
Definition add_recv_flags (v : Z) (a : arrival) : arrival := set_recv_flags (Z.lor (recv_flags a) v) a.

Record tcp := mkTcp {
  pcb : tcp_pcb; ins : arrival; tcp_ticks : Z; tcp_input_pcb : bool; calls : nat; sent : list tcp_out
}.

Definition on_pcb (f : tcp_pcb -> tcp_pcb) (s : tcp) : tcp :=
  mkTcp (f (pcb s)) (ins s) (tcp_ticks s) (tcp_input_pcb s) (calls s) (sent s).
Definition on_ins (f : arrival -> arrival) (s : tcp) : tcp :=
  mkTcp (pcb s) (f (ins s)) (tcp_ticks s) (tcp_input_pcb s) (calls s) (sent s).

(** The number of an external call. *)
Definition call (s : tcp) : nat * tcp :=
  (calls s, mkTcp (pcb s) (ins s) (tcp_ticks s) (tcp_input_pcb s) (S (calls s)) (sent s)).

Definition send (o : tcp_out) (s : tcp) : tcp :=
  mkTcp (pcb s) (ins s) (tcp_ticks s) (tcp_input_pcb s) (calls s) (sent s ++ [o]).

Section Macros.
Context {Opt : TcpOptions}.

(** [tcpwnd_size_t] *)
Definition tcpwnd (x : Z) : Z := if LWIP_WND_SCALE then u32 x else u16 x.
Definition TCPWND_MIN16 (x : Z) : Z := if LWIP_WND_SCALE then u16 (Z.min x 0xffff) else x.
Definition TCP_WND_MAX (p : tcp_pcb) : Z :=
  if LWIP_WND_SCALE then tcpwnd (if has TF_WND_SCALE (flags p) then TCP_WND else TCPWND_MIN16 TCP_WND) else TCP_WND.
Definition RCV_WND_SCALE (p : tcp_pcb) (wnd : Z) : Z :=
  if LWIP_WND_SCALE then Z.shiftr wnd (rcv_scale (rx p)) else wnd.
Definition SND_WND_SCALE (p : tcp_pcb) (wnd : Z) : Z :=
  if LWIP_WND_SCALE then Z.shiftl wnd (snd_scale (tx p)) else wnd.

(** An increment that stays at the largest window. *)
Definition TCP_WND_INC (wnd inc : Z) : Z := if wnd <=? tcpwnd (wnd + inc) then tcpwnd (wnd + inc) else tcpwnd (-1).

Definition LWIP_TCP_OPT_LENGTH (f : Z) : Z :=
  (if has TF_SEG_OPTS_MSS f then 4 else 0)
  + (if has TF_SEG_OPTS_TS f then if LWIP_TCP_TIMESTAMPS then 12 else 0 else 0)
  + (if has TF_SEG_OPTS_WND_SCALE f then if LWIP_WND_SCALE then 4 else 0 else 0)
  + (if has TF_SEG_OPTS_SACK_PERM f then if LWIP_TCP_SACK_OUT then 4 else 0 else 0).

(** An entry of the list of blocks is valid when it is not empty. *)
Definition LWIP_TCP_SACK_VALID (e : Z * Z) : bool := negb (e.1 =? e.2).
End Macros.
End Tcp.
