(* ===== verification/TcpOut.v ===== *)
(** Output of the TCP of lwIP (src/tcp/src/upstream/src/core/tcp_out.c): segments
    are made of data, put on queues, handed to IP and put on queues again when
    they have to be sent another time. *)

From S2P Require Export TcpBase.
Export Tcp.
Open Scope Z_scope.

Module TcpOut.
Section TcpOut.
Context {Opt : TcpOptions} {Wd : TcpWorld} {Pb : PbufLib} {N : NetworkOrder}.

(** ** Segments *)

(** The chain [p] is without header and options, which are [optlen] bytes. *)
Definition tcp_create_segment (p : chain) (hdrflags seqno optflags : Z) (s : tcp) : option tcp_seg * tcp :=
  let '(n, s) := call s in
  if negb (tcp_seg_malloc_ok n) || negb (pbuf_add_header_ok n) then (None, s)
  else (Some (mkSeg p (u16 (tot_len p)) optflags (u32 seqno) hdrflags), s).

(** ** Options *)

Definition tcp_build_timestamp_option (n : nat) (p : tcp_pcb) : list Z := [0x0101080A; sys_now n; ts_recent (rx p)].

Fixpoint count_sacks (l : list (Z * Z)) (optlen : Z) : nat :=
  match l with
  | [] => 0
  | e :: l => if (optlen <=? TCP_MAX_OPTION_BYTES) && LWIP_TCP_SACK_VALID e then S (count_sacks l (u8 (optlen + 8))) else 0
  end.

Definition tcp_get_num_sacks (p : tcp_pcb) (optlen : Z) : nat :=
  if LWIP_TCP_SACK_OUT && has TF_SACK (flags p) then count_sacks (rcv_sacks (rx p)) (u8 (optlen + 12)) else 0.

Definition tcp_build_sack_option (p : tcp_pcb) (num_sacks : nat) : list Z :=
  u32 (0x01010500 + 2 + Z.of_nat num_sacks * 8) :: concat ((fun e => [e.1; e.2]) <$> take num_sacks (rcv_sacks (rx p))).

Definition tcp_build_wnd_scale_option : list Z := [Z.lor 0x01030300 TCP_RCV_SCALE].

Definition TCP_BUILD_MSS_OPTION (m : Z) : Z := Z.lor 0x02040000 (Z.land m 0xffff).

(** ** Segments without data *)

Definition tcp_output_alloc_header_common (ackno seqno src dst src_port dst_port f wnd : Z) (data : list Z) (s : tcp)
    : option tcp_out * tcp :=
  let '(n, s) := call s in
  if pbuf_alloc_ok n then (Some (mkOut src dst src_port dst_port seqno ackno f wnd [] data), s) else (None, s).

Definition tcp_output_alloc_header (seqno : Z) (data : list Z) (s : tcp) : option tcp_out * tcp :=
  let p := pcb s in
  let '(o, s) := tcp_output_alloc_header_common (rcv_nxt (rx p)) seqno (local_ip p) (remote_ip p) (local_port p)
                   (remote_port p) TCP_ACK (TCPWND_MIN16 (RCV_WND_SCALE p (rcv_ann_wnd (rx p)))) data s in
  match o with
  | Some o => (Some o, on_pcb (in_rx (fun r => set_rcv_ann_right_edge (u32 (rcv_nxt r + rcv_ann_wnd r)) r)) s)
  | None => (None, s)
  end.

(** [p] is the connection, if there is one. *)
Definition tcp_output_fill_options (p : option tcp_pcb) (optflags : Z) (num_sacks : nat) (o : tcp_out) (s : tcp)
    : tcp_out * tcp :=
  let '(n, s) := call s in
  let ts := match p with
            | Some p => if LWIP_TCP_TIMESTAMPS && has TF_SEG_OPTS_TS optflags then tcp_build_timestamp_option n p else []
            | None => []
            end in
  let sacks := match p with
               | Some p => if LWIP_TCP_SACK_OUT && (0 <? Z.of_nat num_sacks) then tcp_build_sack_option p num_sacks else []
               | None => []
               end in
  (mkOut (o_src o) (o_dst o) (o_src_port o) (o_dst_port o) (o_seqno o) (o_ackno o) (o_flags o) (o_wnd o)
     (o_opts o ++ ts ++ sacks) (o_data o), s).

Definition tcp_output_control_segment (o : tcp_out) (s : tcp) : Z * tcp :=
  let '(n, s) := call s in
  match route n with
  | None => (ERR_RTE, s)
  | Some _ => (ip_output_if n, send o s)
  end.

(** A reset; [p] is the connection, if there is one. The window is converted
    twice. *)
Definition tcp_rst (p : option tcp_pcb) (seqno ackno local_ip remote_ip local_port remote_port : Z) (s : tcp) : tcp :=
  let wnd := if LWIP_WND_SCALE then lwip_htons (Z.land (Z.shiftr TCP_WND TCP_RCV_SCALE) 0xffff) else lwip_htons TCP_WND in
  let '(o, s) := tcp_output_alloc_header_common ackno seqno local_ip remote_ip local_port remote_port
                   (Z.lor TCP_RST TCP_ACK) wnd [] s in
  match o with
  | None => s
  | Some o =>
      let '(o, s) := tcp_output_fill_options p 0 0 o s in
      let '(_, s) := tcp_output_control_segment o s in s
  end.

Definition tcp_send_empty_ack (s : tcp) : Z * tcp :=
  let p := pcb s in
  let optflags := if LWIP_TCP_TIMESTAMPS && has TF_TIMESTAMP (flags p) then TF_SEG_OPTS_TS else 0 in
  let num_sacks := tcp_get_num_sacks p (LWIP_TCP_OPT_LENGTH optflags) in
  let '(o, s) := tcp_output_alloc_header (snd_nxt (tx p)) [] s in
  match o with
  | None => (ERR_BUF, on_pcb (tcp_set_flags (Z.lor TF_ACK_DELAY TF_ACK_NOW)) s)
  | Some o =>
      let '(o, s) := tcp_output_fill_options (Some (pcb s)) optflags num_sacks o s in
      let s := if LWIP_TCP_TIMESTAMPS then on_pcb (in_rx (fun r => set_ts_lastacksent (rcv_nxt r) r)) s else s in
      let '(err, s) := tcp_output_control_segment o s in
      (err, on_pcb (if err =? ERR_OK then tcp_clear_flags (Z.lor TF_ACK_DELAY TF_ACK_NOW)
                    else tcp_set_flags (Z.lor TF_ACK_DELAY TF_ACK_NOW)) s)
  end.

Definition tcp_keepalive (s : tcp) : Z * tcp :=
  let '(o, s) := tcp_output_alloc_header (u32 (snd_nxt (tx (pcb s)) - 1)) [] s in
  match o with
  | None => (ERR_MEM, s)
  | Some o =>
      let '(o, s) := tcp_output_fill_options (Some (pcb s)) 0 0 o s in
      tcp_output_control_segment o s
  end.

Definition set_o_flags (f : Z) (o : tcp_out) : tcp_out :=
  mkOut (o_src o) (o_dst o) (o_src_port o) (o_dst_port o) (o_seqno o) (o_ackno o) f (o_wnd o) (o_opts o) (o_data o).

Definition tcp_zero_window_probe (s : tcp) : Z * tcp :=
  match unsent (tx (pcb s)) with
  | [] => (ERR_OK, s)
  | seg :: _ =>
      let s := on_pcb (in_tim (fun t => if persist_probe t <? 0xff then set_persist_probe (persist_probe t + 1) t else t)) s in
      let is_fin := has TCP_FIN (TCPH_FLAGS seg) && (seg_len seg =? 0) in
      let data := if is_fin then [] else take 1 (drop (Z.to_nat (tot_len (seg_p seg) - seg_len seg)) (concat (seg_p seg))) in
      let '(o, s) := tcp_output_alloc_header (seg_seqno seg) data s in
      match o with
      | None => (ERR_MEM, s)
      | Some o =>
          let o := if is_fin then set_o_flags (Z.lor TCP_ACK TCP_FIN) o else o in
          let nxt := u32 (seg_seqno seg + 1) in
          let s := on_pcb (in_tx (fun t => if TCP_SEQ_LT (snd_nxt t) nxt then set_snd_nxt nxt t else t)) s in
          let '(o, s) := tcp_output_fill_options (Some (pcb s)) 0 0 o s in
          tcp_output_control_segment o s
      end
  end.

(** ** Sending what is queued *)

Definition tcp_output_segment (seg : tcp_seg) (s : tcp) : Z * tcp :=
  let '(n, s) := call s in
  if segment_busy n then (ERR_OK, s)
  else
    let p := pcb s in
    let wnd := if LWIP_WND_SCALE && has TF_SEG_OPTS_WND_SCALE (seg_flags seg) then TCPWND_MIN16 (rcv_ann_wnd (rx p))
               else TCPWND_MIN16 (RCV_WND_SCALE p (rcv_ann_wnd (rx p))) in
    let opts :=
      (if has TF_SEG_OPTS_MSS (seg_flags seg) then [TCP_BUILD_MSS_OPTION TCP_MSS] else [])
      ++ (if LWIP_TCP_TIMESTAMPS && has TF_SEG_OPTS_TS (seg_flags seg) then tcp_build_timestamp_option n p else [])
      ++ (if LWIP_WND_SCALE && has TF_SEG_OPTS_WND_SCALE (seg_flags seg) then tcp_build_wnd_scale_option else [])
      ++ (if LWIP_TCP_SACK_OUT && has TF_SEG_OPTS_SACK_PERM (seg_flags seg) then [0x01010402] else []) in
    let o := mkOut (local_ip p) (remote_ip p) (local_port p) (remote_port p) (seg_seqno seg) (rcv_nxt (rx p))
               (TCPH_FLAGS seg) wnd opts (concat (seg_p seg)) in
    let s := on_pcb (in_rx (fun r =>
               let r := set_rcv_ann_right_edge (u32 (rcv_nxt r + rcv_ann_wnd r)) r in
               if LWIP_TCP_TIMESTAMPS then set_ts_lastacksent (rcv_nxt r) r else r)) s in
    let s := on_pcb (in_tim (fun t =>
               let t := if rtime t <? 0 then set_rtime 0 t else t in
               if rttest t =? 0 then set_rtseq (seg_seqno seg) (set_rttest (tcp_ticks s) t) else t)) s in
    (ip_output_if n, send o s).

(** [tcp_do_output_nagle] *)
Definition tcp_do_output_nagle (p : tcp_pcb) : bool :=
  bool_decide (unacked (tx p) = []) || has (Z.lor TF_NODELAY TF_INFR) (flags p)
  || match unsent (tx p) with
     | [] => false
     | [seg] => mss (tx p) <=? seg_len seg
     | _ => true
     end
  || (TCPWND_MIN16 (snd_buf (tx p)) =? 0) || (TCP_SND_QUEUELEN <=? snd_queuelen (tx p)).

(** [seg] is put before the first one of the list that is not before it. *)
Fixpoint insert_sorted (seg : tcp_seg) (l : list tcp_seg) : list tcp_seg :=
  match l with
  | [] => [seg]
  | cur :: l' => if TCP_SEQ_LT (seg_seqno cur) (seg_seqno seg) then cur :: insert_sorted seg l' else seg :: l
  end.

(** A segment that was sent waits for its acknowledgment. *)
Definition put_unacked (seg : tcp_seg) (l : list tcp_seg) : list tcp_seg :=
  match last l with
  | None => [seg]
  | Some useg => if TCP_SEQ_LT (seg_seqno seg) (seg_seqno useg) then insert_sorted seg l else l ++ [seg]
  end.

(** The segment does not fit into the window [wnd]. *)
Definition too_far (wnd : Z) (p : tcp_pcb) (seg : tcp_seg) : bool :=
  wnd <? u32 (seg_seqno seg - lastack (tx p) + seg_len seg).

(** The loop over the queue [l] of unsent segments; the error with which the
    function is left, if it is. *)
Fixpoint output_loop (wnd : Z) (l : list tcp_seg) (s : tcp) : option (option Z * tcp) :=
  match l with
  | [] => Some (None, s)
  | seg :: l =>
      if too_far wnd (pcb s) seg then Some (None, s)
      else
        _ ← lwip_assert (negb (has TCP_RST (TCPH_FLAGS seg)));
        if negb (tcp_do_output_nagle (pcb s)) && negb (has (Z.lor TF_NAGLEMEMERR TF_FIN) (flags (pcb s))) then Some (None, s)
        else
          let syn_sent := bool_decide (state (pcb s) = SYN_SENT) in
          let seg := if syn_sent then seg else TCPH_SET_FLAG TCP_ACK seg in
          let s := on_pcb (in_tx (set_unsent (seg :: l))) s in
          let '(err, s) := tcp_output_segment seg s in
          if negb (err =? ERR_OK) then Some (Some err, on_pcb (tcp_set_flags TF_NAGLEMEMERR) s)
          else
            let s := on_pcb (in_tx (set_unsent l)) s in
            let s := if syn_sent then s else on_pcb (tcp_clear_flags (Z.lor TF_ACK_DELAY TF_ACK_NOW)) s in
            let nxt := u32 (seg_seqno seg + TCP_TCPLEN seg) in
            let s := on_pcb (in_tx (fun t => if TCP_SEQ_LT (snd_nxt t) nxt then set_snd_nxt nxt t else t)) s in
            let s := if 0 <? TCP_TCPLEN seg then on_pcb (in_tx (fun t => set_unacked (put_unacked seg (unacked t)) t)) s else s in
            output_loop wnd l s
  end.

Definition output_done (s : tcp) : Z * tcp := (ERR_OK, on_pcb (tcp_clear_flags TF_NAGLEMEMERR) s).

(** The local address is known, or is that of the interface. *)
Definition know_local_ip (nif : Z) (s : tcp) : option tcp :=
  if local_ip (pcb s) =? 0 then
    ip ← ip_netif_get_local_ip nif (remote_ip (pcb s)); Some (on_pcb (set_local_ip ip) s)
  else Some s.

Definition tcp_output (s : tcp) : option (Z * tcp) :=
  _ ← lwip_assert (negb (bool_decide (state (pcb s) = LISTEN)));
  if tcp_input_pcb s then Some (ERR_OK, s)
  else
    let wnd := Z.min (snd_wnd (tx (pcb s))) (cwnd (cc (pcb s))) in
    match unsent (tx (pcb s)) with
    | [] => Some (if has TF_ACK_NOW (flags (pcb s)) then tcp_send_empty_ack s else output_done s)
    | seg :: _ =>
        let '(n, s) := call s in
        match route n with
        | None => Some (ERR_RTE, s)
        | Some nif =>
            match know_local_ip nif s with
            | None => Some (ERR_RTE, s)
            | Some s =>
                if too_far wnd (pcb s) seg then
                  let p := pcb s in
                  let s := if (wnd =? snd_wnd (tx p)) && bool_decide (unacked (tx p) = []) && (persist_backoff (tim p) =? 0)
                           then on_pcb (in_tim (fun t => set_persist_probe 0 (set_persist_backoff 1 (set_persist_cnt 0 t)))) s
                           else s in
                  Some (if has TF_ACK_NOW (flags (pcb s)) then tcp_send_empty_ack s else output_done s)
                else
                  let s := on_pcb (in_tim (set_persist_backoff 0)) s in
                  '(r, s) ← output_loop wnd (unsent (tx (pcb s))) s;
                  Some (match r with Some err => (err, s) | None => output_done s end)
            end
        end
    end.
(** ** Sending again *)

(** The loop over the unacknowledged segments: one of them is busy. *)
Fixpoint some_busy (l : list tcp_seg) (s : tcp) : bool * tcp :=
  match l with
  | [] => (false, s)
  | _ :: l => let '(n, s) := call s in if segment_busy n then (true, s) else some_busy l s
  end.

Definition tcp_rexmit_rto_prepare (s : tcp) : Z * tcp :=
  match last (unacked (tx (pcb s))) with
  | None => (ERR_VAL, s)
  | Some seg =>
      let '(busy, s) := some_busy (unacked (tx (pcb s))) s in
      if busy then (ERR_VAL, s)
      else
        let s := on_pcb (in_tx (fun t => set_unacked [] (set_unsent (unacked t ++ unsent t) t))) s in
        let s := on_pcb (tcp_set_flags TF_RTO) s in
        let s := on_pcb (in_cc (set_rto_end (u32 (seg_seqno seg + TCP_TCPLEN seg)))) s in
        (ERR_OK, on_pcb (in_tim (set_rttest 0)) s)
  end.

(** One more retransmission. *)
Definition count_rexmit (t : timers) : timers := if nrtx t <? 0xff then set_nrtx (nrtx t + 1) t else t.

Definition tcp_rexmit_rto_commit (s : tcp) : option tcp :=
  '(_, s) ← tcp_output (on_pcb (in_tim count_rexmit) s); Some s.

Definition tcp_rexmit_rto (s : tcp) : option tcp :=
  let '(r, s) := tcp_rexmit_rto_prepare s in
  if r =? ERR_OK then tcp_rexmit_rto_commit s else Some s.

Definition tcp_rexmit (s : tcp) : Z * tcp :=
  match unacked (tx (pcb s)) with
  | [] => (ERR_VAL, s)
  | seg :: l =>
      let '(n, s) := call s in
      if segment_busy n then (ERR_VAL, s)
      else
        let s := on_pcb (in_tx (fun t => set_unsent (insert_sorted seg (unsent t)) (set_unacked l t))) s in
        (ERR_OK, on_pcb (in_tim (fun t => set_rttest 0 (count_rexmit t))) s)
  end.

Definition tcp_rexmit_fast (s : tcp) : tcp :=
  if negb (bool_decide (unacked (tx (pcb s)) = [])) && negb (has TF_INFR (flags (pcb s))) then
    let '(r, s) := tcp_rexmit s in
    if r =? ERR_OK then
      let m := mss (tx (pcb s)) in
      let half := Z.min (cwnd (cc (pcb s))) (snd_wnd (tx (pcb s))) / 2 in
      let th := if half <? 2 * m then tcpwnd (2 * m) else half in
      let s := on_pcb (in_cc (fun c => set_cwnd (tcpwnd (th + 3 * m)) (set_ssthresh th c))) s in
      on_pcb (in_tim (set_rtime 0)) (on_pcb (tcp_set_flags TF_INFR) s)
    else s
  else s.

(** ** New segments *)

Definition add_queuelen (n : Z) (t : sender) : sender := set_snd_queuelen (u16 (snd_queuelen t + n)) t.

Definition queue_not_empty (s : tcp) : bool :=
  negb (bool_decide (unacked (tx (pcb s)) = [])) || negb (bool_decide (unsent (tx (pcb s)) = [])).

(** The options of a SYN or FIN. *)
Definition enqueue_optflags (f : Z) (p : tcp_pcb) : Z :=
  let syn_rcvd := bool_decide (state p = SYN_RCVD) in
  Z.lor
    (if has TCP_SYN f then
       Z.lor (Z.lor TF_SEG_OPTS_MSS
         (if LWIP_WND_SCALE && (negb syn_rcvd || has TF_WND_SCALE (flags p)) then TF_SEG_OPTS_WND_SCALE else 0))
         (if LWIP_TCP_SACK_OUT && (negb syn_rcvd || has TF_SACK (flags p)) then TF_SEG_OPTS_SACK_PERM else 0)
     else 0)
    (if LWIP_TCP_TIMESTAMPS && (has TF_TIMESTAMP (flags p) || (has TCP_SYN f && negb syn_rcvd)) then TF_SEG_OPTS_TS else 0).

Definition tcp_enqueue_flags (f : Z) (s : tcp) : option (Z * tcp) :=
  _ ← lwip_assert (has (Z.lor TCP_SYN TCP_FIN) f);
  let optflags := enqueue_optflags f (pcb s) in
  let '(n, s) := call s in
  if negb (pbuf_alloc_ok n) then Some (ERR_MEM, on_pcb (tcp_set_flags TF_NAGLEMEMERR) s)
  else
    let '(seg, s) := tcp_create_segment [[]] f (snd_lbb (tx (pcb s))) optflags s in
    match seg with
    | None => Some (ERR_MEM, on_pcb (tcp_set_flags TF_NAGLEMEMERR) s)
    | Some seg =>
        _ ← lwip_assert (seg_len seg =? 0);
        let s := on_pcb (in_tx (fun t => set_unsent (unsent t ++ [seg]) t)) s in
        let s := on_pcb (in_tx (fun t => set_snd_lbb (u32 (snd_lbb t + 1)) t)) s in
        let s := if has TCP_FIN f then on_pcb (tcp_set_flags TF_FIN) s else s in
        let s := on_pcb (in_tx (add_queuelen (pbuf_clen (seg_p seg)))) s in
        _ ← lwip_assert ((snd_queuelen (tx (pcb s)) =? 0) || queue_not_empty s);
        Some (ERR_OK, s)
    end.

(** The last element of a list is changed. *)
Fixpoint on_last {A} (f : A -> A) (l : list A) : list A :=
  match l with
  | [] => []
  | [x] => [f x]
  | x :: l => x :: on_last f l
  end.

Definition tcp_send_fin (s : tcp) : option (Z * tcp) :=
  match last (unsent (tx (pcb s))) with
  | Some seg =>
      if has (Z.lor (Z.lor TCP_SYN TCP_FIN) TCP_RST) (TCPH_FLAGS seg) then tcp_enqueue_flags TCP_FIN s
      else
        let s := on_pcb (in_tx (fun t => set_unsent (on_last (TCPH_SET_FLAG TCP_FIN) (unsent t)) t)) s in
        Some (ERR_OK, on_pcb (tcp_set_flags TF_FIN) s)
  | None => tcp_enqueue_flags TCP_FIN s
  end.

(** The first unsent segment is cut; the second half gets PSH and FIN, which the
    first half keeps, since TCPH_SET_FLAG only sets flags. *)
Definition tcp_split_unsent_seg (split : Z) (s : tcp) : option (Z * tcp) :=
  match unsent (tx (pcb s)) with
  | [] => Some (ERR_MEM, s)
  | useg :: l =>
      _ ← lwip_assert (negb (split =? 0));
      if seg_len useg <=? split then Some (ERR_OK, s)
      else
        _ ← lwip_assert (split <=? mss (tx (pcb s)));
        _ ← lwip_assert (0 <? seg_len useg);
        let remainder := seg_len useg - split in
        let '(n, s) := call s in
        if negb (pbuf_alloc_ok n) then Some (ERR_MEM, s)
        else
          let offset := tot_len (seg_p useg) - seg_len useg + split in
          let data := take (Z.to_nat remainder) (drop (Z.to_nat offset) (concat (seg_p useg))) in
          if negb (size data =? remainder) then Some (ERR_MEM, s)
          else
            let f := TCPH_FLAGS useg in
            let split_flags := Z.land f (Z.lnot (Z.lor TCP_PSH TCP_FIN)) in
            let remainder_flags := Z.land f (Z.lor TCP_PSH TCP_FIN) in
            let '(seg, s) := tcp_create_segment [data] remainder_flags (seg_seqno useg + split) (seg_flags useg) s in
            match seg with
            | None => Some (ERR_MEM, s)
            | Some seg =>
                let p := pbuf_realloc (seg_p useg) (tot_len (seg_p useg) - remainder) in
                let useg' := TCPH_SET_FLAG split_flags (set_seg_len (u16 (seg_len useg - remainder)) (set_seg_p p useg)) in
                let s := on_pcb (in_tx (fun t => add_queuelen (pbuf_clen (seg_p seg))
                           (add_queuelen (pbuf_clen p) (add_queuelen (- pbuf_clen (seg_p useg)) t)))) s in
                Some (ERR_OK, on_pcb (in_tx (set_unsent (useg' :: seg :: l))) s)
            end
  end.

(** ** Data *)

Abbreviation TCP_WRITE_FLAG_COPY := 0x01.
Abbreviation TCP_WRITE_FLAG_MORE := 0x02.
Abbreviation TCP_SNDQUEUELEN_OVERFLOW := 0xfffc.

Definition tcp_write_checks (len : Z) (s : tcp) : option (Z * tcp) :=
  let p := pcb s in
  if negb (bool_decide (state p ∈ [ESTABLISHED; CLOSE_WAIT; SYN_SENT; SYN_RCVD])) then Some (ERR_CONN, s)
  else if len =? 0 then Some (ERR_OK, s)
  else if snd_buf (tx p) <? len then Some (ERR_MEM, on_pcb (tcp_set_flags TF_NAGLEMEMERR) s)
  else if Z.min TCP_SND_QUEUELEN (TCP_SNDQUEUELEN_OVERFLOW + 1) <=? snd_queuelen (tx p)
  then Some (ERR_MEM, on_pcb (tcp_set_flags TF_NAGLEMEMERR) s)
  else
    _ ← lwip_assert (Bool.eqb (queue_not_empty s) (negb (snd_queuelen (tx p) =? 0)));
    Some (ERR_OK, s).

(** A chain grows by a buffer, or its last buffer does. *)
Definition extend_last (data : list Z) (p : chain) : chain := on_last (fun b => b ++ data) p.

(** Phase 2: bytes that fit behind the last unsent segment; the new chain of
    this segment with the number of buffers that it grew by, [None] when there
    is no memory. *)
Definition write_concat (copy : bool) (data : list Z) (last_p : chain) (s : tcp) : option (chain * Z) * tcp :=
  let '(n, s) := call s in
  if copy then (if pbuf_alloc_ok n then (Some (pbuf_cat last_p [data], 1), s) else (None, s))
  else if rom_contiguous n then (Some (extend_last data last_p, 0), s)
  else if pbuf_alloc_ok n then (Some (pbuf_cat last_p [data], 1), s) else (None, s).

(** Phase 3: the segments for the rest of the data, with the length of the
    queues; [None] when there is no memory. Every segment makes the queue longer,
    so that its limit bounds the steps. *)
Fixpoint write_segments (fuel : nat) (copy : bool) (max_len optflags : Z) (data : list Z) (pos queuelen : Z) (queue : list tcp_seg)
    (s : tcp) : option (option (list tcp_seg * Z) * tcp) :=
  match data with
  | [] => Some (Some (queue, queuelen), s)
  | _ =>
      match fuel with
      | O => None
      | S fuel =>
          let seglen := Z.min (size data) max_len in
          let bytes := take (Z.to_nat seglen) data in
          let '(n, s) := call s in
          let '(m, s) := call s in
          if negb (pbuf_alloc_ok n) || (negb copy && negb (pbuf_alloc_ok m)) then Some (None, s)
          else
            let p := if copy then [bytes] else pbuf_cat [[]] [bytes] in
            let queuelen := u16 (queuelen + pbuf_clen p) in
            if Z.min TCP_SND_QUEUELEN TCP_SNDQUEUELEN_OVERFLOW <? queuelen then Some (None, s)
            else
              let '(seg, s) := tcp_create_segment p 0 (snd_lbb (tx (pcb s)) + pos) optflags s in
              match seg with
              | None => Some (None, s)
              | Some seg =>
                  write_segments fuel copy max_len optflags (drop (Z.to_nat seglen) data) (pos + seglen) queuelen (queue ++ [seg]) s
              end
      end
  end.

Definition write_ts (p : tcp_pcb) : bool := LWIP_TCP_TIMESTAMPS && has TF_TIMESTAMP (flags p).

(** The length of a segment: not more than half the largest window. *)
Definition write_mss (p : tcp_pcb) : Z :=
  let small := Z.min (mss (tx p)) (TCPWND_MIN16 (snd_wnd_max (tx p) / 2)) in
  let mss_local := if small =? 0 then mss (tx p) else small in
  if write_ts p then Z.max mss_local 11 else mss_local.

(** What the last unsent segment takes of that. *)
Definition seg_used (seg : tcp_seg) : Z := seg_len seg + LWIP_TCP_OPT_LENGTH (seg_flags seg).

(** How much goes behind the last unsent segment. *)
Definition write_room (len : Z) (p : tcp_pcb) : option Z :=
  match last (unsent (tx p)) with
  | None => Some 0
  | Some seg =>
      _ ← lwip_assert (seg_used seg <=? write_mss p);
      let space := write_mss p - seg_used seg in
      Some (if (0 <? len) && (0 <? space) && (0 <? seg_len seg) then Z.min space len else 0)
  end.

(** The label "memerr". *)
Definition write_memerr (s : tcp) : option (Z * tcp) :=
  _ ← lwip_assert ((snd_queuelen (tx (pcb s)) =? 0) || queue_not_empty s);
  Some (ERR_MEM, on_pcb (tcp_set_flags TF_NAGLEMEMERR) s).

(** Nothing can fail any more: the data is put on the queue, [seglen] bytes of it
    in the chain [p] of the last segment; the last segment that was touched gets
    PSH. *)
Definition write_commit (len seglen : Z) (p : chain) (more : bool) (queue : list tcp_seg) (queuelen : Z) (x : sender) : sender :=
  let old := if 0 <? seglen then on_last (fun seg => set_seg_len (u16 (seg_len seg + seglen)) (set_seg_p p seg)) (unsent x)
             else unsent x in
  let touched := (0 <? seglen) || negb (bool_decide (queue = [])) in
  let l := if touched && negb more then on_last (TCPH_SET_FLAG TCP_PSH) (old ++ queue) else old ++ queue in
  set_snd_queuelen queuelen (set_snd_buf (tcpwnd (snd_buf x - len)) (set_snd_lbb (u32 (snd_lbb x + len)) (set_unsent l x))).

(** Data is accepted as a whole, or not at all. *)
Definition tcp_write (arg : list Z) (apiflags : Z) (s : tcp) : option (Z * tcp) :=
  let len := size arg in
  '(err, s) ← tcp_write_checks len s;
  if negb (err =? ERR_OK) then Some (err, s)
  else
    let x := tx (pcb s) in
    let optflags := if write_ts (pcb s) then TF_SEG_OPTS_TS else 0 in
    let max_len := u16 (write_mss (pcb s) - LWIP_TCP_OPT_LENGTH optflags) in
    let copy := has TCP_WRITE_FLAG_COPY apiflags in
    let more := has TCP_WRITE_FLAG_MORE apiflags in
    seglen ← write_room len (pcb s);
    let last_p := match last (unsent x) with Some seg => seg_p seg | None => [] end in
    let '(r, s) := if 0 <? seglen then write_concat copy (take (Z.to_nat seglen) arg) last_p s else (Some (last_p, 0), s) in
    match r with
    | None => write_memerr s
    | Some (p, grown) =>
        '(q, s) ← write_segments (S (S (S (Z.to_nat TCP_SND_QUEUELEN)))) copy max_len optflags (drop (Z.to_nat seglen) arg) seglen
                    (u16 (snd_queuelen x + grown)) [] s;
        match q with
        | None => write_memerr s
        | Some (queue, queuelen) =>
            let s := on_pcb (in_tx (write_commit len seglen p more queue queuelen)) s in
            _ ← lwip_assert ((queuelen =? 0) || queue_not_empty s);
            Some (ERR_OK, s)
        end
    end.
End TcpOut.
End TcpOut.
