(* ===== verification/TcpPcb.v ===== *)
(** One connection of the TCP of lwIP (src/tcp/src/upstream/src/core/tcp.c): its
    window, its end, and what the timers do to it. *)

From S2P Require Export TcpOut.
Export TcpOut.
Open Scope Z_scope.

Module TcpPcb.

Abbreviation ERR_INPROGRESS := (-5).
Abbreviation TCP_FIN_WAIT_TIMEOUT := 20000.
Abbreviation TCP_SYN_RCVD_TIMEOUT := 20000.
Abbreviation TCP_OOSEQ_TIMEOUT := 6.
Abbreviation TCP_MSL := 60000.
Abbreviation TCP_KEEPIDLE_DEFAULT := 7200000.
Abbreviation TCP_KEEPINTVL_DEFAULT := 75000.
Abbreviation TCP_MAXIDLE := (9 * 75000).

Section TcpPcb.
Context {Opt : TcpOptions} {Wd : TcpWorld} {Pb : PbufLib} {N : NetworkOrder} {App : TcpApp tcp chain}.

Definition tcp_backoff : list Z := [1; 2; 3; 4; 5; 6; 7; 7; 7; 7; 7; 7; 7].
Definition tcp_persist_backoff : list Z := [3; 6; 12; 24; 48; 96; 120].

(** ** The window *)

(** How much more would be announced. *)
Definition tcp_update_rcv_ann_wnd (p : tcp_pcb) : option (Z * tcp_pcb) :=
  let r := rx p in
  let new_right_edge := u32 (rcv_nxt r + rcv_wnd r) in
  if TCP_SEQ_GEQ new_right_edge (rcv_ann_right_edge r + Z.min (TCP_WND / 2) (mss (tx p)))
  then Some (u32 (new_right_edge - rcv_ann_right_edge r), in_rx (set_rcv_ann_wnd (rcv_wnd r)) p)
  else if TCP_SEQ_GT (rcv_nxt r) (rcv_ann_right_edge r) then Some (0, in_rx (set_rcv_ann_wnd 0) p)
  else
    let new_rcv_ann_wnd := u32 (rcv_ann_right_edge r - rcv_nxt r) in
    _ ← lwip_assert (LWIP_WND_SCALE || (new_rcv_ann_wnd <=? 0xffff));
    Some (0, in_rx (set_rcv_ann_wnd (tcpwnd new_rcv_ann_wnd)) p).

(** The same inside of the state. *)
Definition update_ann_wnd (s : tcp) : option tcp :=
  '(_, p) ← tcp_update_rcv_ann_wnd (pcb s); Some (on_pcb (fun _ => p) s).

Definition tcp_recved (len : Z) (s : tcp) : option tcp :=
  _ ← lwip_assert (negb (bool_decide (state (pcb s) = LISTEN)));
  let p := pcb s in
  let wnd := tcpwnd (rcv_wnd (rx p) + len) in
  let wnd := if (TCP_WND_MAX p <? wnd) || (wnd <? rcv_wnd (rx p)) then TCP_WND_MAX p else wnd in
  '(wnd_inflation, p) ← tcp_update_rcv_ann_wnd (in_rx (set_rcv_wnd wnd) p);
  let s := on_pcb (fun _ => p) s in
  if TCP_WND_UPDATE_THRESHOLD <=? wnd_inflation then '(_, s) ← tcp_output (on_pcb tcp_ack_now s); Some s
  else Some s.

(** ** The end *)

Definition tcp_free_ooseq (p : tcp_pcb) : tcp_pcb :=
  if bool_decide (ooseq (rx p) = []) then p
  else in_rx (fun r =>
         let r := set_ooseq [] r in
         if LWIP_TCP_SACK_OUT then set_rcv_sacks (replicate LWIP_TCP_MAX_SACK_NUM (0, 0)) r else r) p.

Definition tcp_pcb_purge (p : tcp_pcb) : tcp_pcb :=
  if bool_decide (state p ∈ [CLOSED; TIME_WAIT; LISTEN]) then p
  else
    let p := tcp_free_ooseq (in_rx (set_refused_data None) p) in
    in_tx (fun t => set_unacked [] (set_unsent [] t)) (in_tim (set_rtime (-1)) p).

Definition tcp_pcb_remove (s : tcp) : option tcp :=
  let s := on_pcb (fun p => tcp_pcb_purge (set_place Unlisted p)) s in
  s ← (if negb (bool_decide (state (pcb s) ∈ [TIME_WAIT; LISTEN])) && has TF_ACK_DELAY (flags (pcb s))
       then '(_, s) ← tcp_output (on_pcb tcp_ack_now s); Some s else Some s);
  _ ← lwip_assert (bool_decide (state (pcb s) = LISTEN)
        || (bool_decide (unsent (tx (pcb s)) = []) && bool_decide (unacked (tx (pcb s)) = [])
            && bool_decide (ooseq (rx (pcb s)) = [])));
  Some (on_pcb (fun p => set_local_port 0 (set_state CLOSED p)) s).

Definition tcp_free (s : tcp) : option tcp :=
  _ ← lwip_assert (negb (bool_decide (state (pcb s) = LISTEN)));
  Some (on_pcb (set_place Freed) s).

Definition rst_of_pcb (local_port : Z) (p : tcp_pcb) (seqno ackno : Z) (s : tcp) : tcp :=
  tcp_rst (Some p) seqno ackno (local_ip p) (remote_ip p) local_port (remote_port p) s.

Definition tcp_abandon (reset : bool) (s : tcp) : option tcp :=
  _ ← lwip_assert (negb (bool_decide (state (pcb s) = LISTEN)));
  if bool_decide (state (pcb s) = TIME_WAIT) then s ← tcp_pcb_remove s; tcp_free s
  else
    let p0 := pcb s in
    s ← (if bool_decide (state p0 = CLOSED) then
           Some (if local_port p0 =? 0 then s else on_pcb (set_place Unlisted) s)
         else tcp_pcb_remove s);
    let s := if reset && negb (bool_decide (state p0 = CLOSED))
             then rst_of_pcb (local_port p0) (pcb s) (snd_nxt (tx p0)) (rcv_nxt (rx p0)) s else s in
    tcp_free s.

Definition tcp_abort (s : tcp) : option tcp := tcp_abandon true s.

Definition tcp_trigger_input_pcb_close (s : tcp) : tcp := on_ins (add_recv_flags TF_CLOSED) s.

Definition tcp_close_shutdown_fin (s : tcp) : option (Z * tcp) :=
  match match state (pcb s) with
        | SYN_RCVD | ESTABLISHED => Some FIN_WAIT_1
        | CLOSE_WAIT => Some LAST_ACK
        | _ => None
        end with
  | None => Some (ERR_OK, s)
  | Some next =>
      '(err, s) ← tcp_send_fin s;
      if err =? ERR_OK then '(_, s) ← tcp_output (on_pcb (set_state next) s); Some (err, s)
      else if err =? ERR_MEM then Some (ERR_OK, on_pcb (tcp_set_flags TF_CLOSEPEND) s)
      else Some (err, s)
  end.

(** A listening connection has another type; it is not closed here. *)
Definition tcp_close_shutdown (rst_on_unacked_data : bool) (s : tcp) : option (Z * tcp) :=
  let p := pcb s in
  if rst_on_unacked_data && bool_decide (state p ∈ [ESTABLISHED; CLOSE_WAIT])
     && (negb (bool_decide (refused_data (rx p) = None)) || negb (rcv_wnd (rx p) =? TCP_WND_MAX p))
  then
    _ ← lwip_assert (has TF_RXCLOSED (flags p));
    let s := rst_of_pcb (local_port p) p (snd_nxt (tx p)) (rcv_nxt (rx p)) s in
    let s := on_pcb (fun p => set_place Unlisted (tcp_pcb_purge p)) s in
    if tcp_input_pcb s then Some (ERR_OK, tcp_trigger_input_pcb_close s)
    else s ← tcp_free s; Some (ERR_OK, s)
  else
    match state p with
    | CLOSED => s ← tcp_free (if local_port p =? 0 then s else on_pcb (set_place Unlisted) s); Some (ERR_OK, s)
    | LISTEN => None
    | SYN_SENT => s ← tcp_pcb_remove s; s ← tcp_free s; Some (ERR_OK, s)
    | _ => tcp_close_shutdown_fin s
    end.

Definition tcp_close (s : tcp) : option (Z * tcp) :=
  let s := if bool_decide (state (pcb s) = LISTEN) then s else on_pcb (tcp_set_flags TF_RXCLOSED) s in
  tcp_close_shutdown true s.

Definition tcp_shutdown (shut_rx shut_tx : bool) (s : tcp) : option (Z * tcp) :=
  if bool_decide (state (pcb s) = LISTEN) then Some (ERR_CONN, s)
  else
    let s := if shut_rx then on_pcb (tcp_set_flags TF_RXCLOSED) s else s in
    if shut_rx && shut_tx then tcp_close_shutdown true s
    else
      let s := if shut_rx then on_pcb (in_rx (set_refused_data None)) s else s in
      if shut_tx then
        if bool_decide (state (pcb s) ∈ [SYN_RCVD; ESTABLISHED; CLOSE_WAIT]) then tcp_close_shutdown shut_rx s
        else Some (ERR_CONN, s)
      else Some (ERR_OK, s).

(** ** The timers *)

Definition ticks_since (s : tcp) : Z := u32 (tcp_ticks s - tmr (tim (pcb s))).

(** The time-out is over. *)
Definition rto_backoff (p : tcp_pcb) : timers :=
  let t := tim p in
  let t := if bool_decide (state p = SYN_SENT) then t
           else
             let shift := nth (Z.to_nat (Z.min (nrtx t) 12)) tcp_backoff 0 in
             set_rto (s16 (Z.min (Z.shiftl (Z.shiftr (sa t) 3 + sv t) shift) 0x7fff)) t in
  set_rtime 0 t.

Definition reduce_cwnd (p : tcp_pcb) : congestion :=
  let m := mss (tx p) in
  let half := Z.shiftr (Z.min (cwnd (cc p)) (snd_wnd (tx p))) 1 in
  let th := if half <? tcpwnd (Z.shiftl m 1) then tcpwnd (Z.shiftl m 1) else half in
  set_bytes_acked 0 (set_cwnd m (set_ssthresh th (cc p))).

(** The window is closed, or too small for the first segment: a probe, or a part
    of the segment; whether it is time for a longer interval. *)
Definition persist_send (s : tcp) : option (bool * tcp) :=
  let t := tx (pcb s) in
  if snd_wnd t =? 0 then
    let '(err, s) := tcp_zero_window_probe s in Some (err =? ERR_OK, s)
  else
    '(err, s) ← tcp_split_unsent_seg (u16 (snd_wnd t)) s;
    if err =? ERR_OK then '(err, s) ← tcp_output s; Some (negb (err =? ERR_OK), s) else Some (true, s).

Definition persist_timer (s : tcp) : option (bool * tcp) :=
  let p := pcb s in
  _ ← lwip_assert (bool_decide (unacked (tx p) = []));
  _ ← lwip_assert (negb (bool_decide (unsent (tx p) = [])));
  if TCP_MAXRTX <=? persist_probe (tim p) then Some (true, s)
  else
    backoff_cnt ← tcp_persist_backoff !! Z.to_nat (persist_backoff (tim p) - 1);
    let s := on_pcb (in_tim (fun t => if persist_cnt t <? backoff_cnt then set_persist_cnt (persist_cnt t + 1) t else t)) s in
    if persist_cnt (tim (pcb s)) <? backoff_cnt then Some (false, s)
    else
      '(next_slot, s) ← persist_send s;
      Some (false,
        if (next_slot : bool) then
          on_pcb (in_tim (fun t =>
            let t := set_persist_cnt 0 t in
            if persist_backoff t <? 7 then set_persist_backoff (persist_backoff t + 1) t else t)) s
        else s).

Definition rexmit_timer (s : tcp) : option tcp :=
  let s := on_pcb (in_tim (fun t => if (0 <=? rtime t) && (rtime t <? 0x7fff) then set_rtime (rtime t + 1) t else t)) s in
  if rto (tim (pcb s)) <=? rtime (tim (pcb s)) then
    let '(r, s) := tcp_rexmit_rto_prepare s in
    if (r =? ERR_OK) || (bool_decide (unacked (tx (pcb s)) = []) && negb (bool_decide (unsent (tx (pcb s)) = []))) then
      let s := on_pcb (fun p => set_tim (rto_backoff p) p) s in
      tcp_rexmit_rto_commit (on_pcb (fun p => set_cc (reduce_cwnd p) p) s)
    else Some s
  else Some s.

(** The first part of the slow timer: whether the connection is given up. *)
Definition retransmission (s : tcp) : option (bool * tcp) :=
  let p := pcb s in
  if bool_decide (state p = SYN_SENT) && (TCP_SYNMAXRTX <=? nrtx (tim p)) then Some (true, s)
  else if TCP_MAXRTX <=? nrtx (tim p) then Some (true, s)
  else if 0 <? persist_backoff (tim p) then persist_timer s
  else s ← rexmit_timer s; Some (false, s).

(** A probe of an idle connection: it is given up and reset. *)
Definition keepalive (s : tcp) : bool * tcp :=
  let p := pcb s in
  if so_keepalive p && bool_decide (state p ∈ [ESTABLISHED; CLOSE_WAIT]) then
    if (keep_idle (tim p) + TCP_MAXIDLE) / TCP_SLOW_INTERVAL <? ticks_since s then (true, s)
    else if (keep_idle (tim p) + keep_cnt_sent (tim p) * TCP_KEEPINTVL_DEFAULT) / TCP_SLOW_INTERVAL <? ticks_since s then
      let '(err, s) := tcp_keepalive s in
      (false, if err =? ERR_OK then on_pcb (in_tim (fun t => set_keep_cnt_sent (u8 (keep_cnt_sent t + 1)) t)) s else s)
    else (false, s)
  else (false, s).

(** The slow timer, for one active connection. *)
Definition slowtmr_active (s : tcp) : option tcp :=
  _ ← lwip_assert (negb (bool_decide (state (pcb s) ∈ [CLOSED; LISTEN; TIME_WAIT])));
  '(gone1, s) ← retransmission s;
  let gone2 := bool_decide (state (pcb s) = FIN_WAIT_2) && has TF_RXCLOSED (flags (pcb s))
               && (TCP_FIN_WAIT_TIMEOUT / TCP_SLOW_INTERVAL <? ticks_since s) in
  let '(reset, s) := keepalive s in
  let s := if u32 (u32 (rto (tim (pcb s))) * TCP_OOSEQ_TIMEOUT) <=? ticks_since s then on_pcb tcp_free_ooseq s else s in
  let gone3 := bool_decide (state (pcb s) = SYN_RCVD) && (TCP_SYN_RCVD_TIMEOUT / TCP_SLOW_INTERVAL <? ticks_since s) in
  let gone4 := bool_decide (state (pcb s) = LAST_ACK) && (2 * TCP_MSL / TCP_SLOW_INTERVAL <? ticks_since s) in
  if gone1 || gone2 || reset || gone3 || gone4 then
    let s := on_pcb (fun p => set_place Unlisted (tcp_pcb_purge p)) s in
    let p := pcb s in
    tcp_free (if reset then rst_of_pcb (local_port p) p (snd_nxt (tx p)) (rcv_nxt (rx p)) s else s)
  else
    let s := on_pcb (in_tim (fun t => set_polltmr (u8 (polltmr t + 1)) t)) s in
    if pollinterval (tim (pcb s)) <=? polltmr (tim (pcb s)) then
      '(err, s) ← on_poll (on_pcb (in_tim (set_polltmr 0)) s);
      if (err =? ERR_OK) && bool_decide (place (pcb s) = Active) then '(_, s) ← tcp_output s; Some s else Some s
    else Some s.

(** The slow timer, for one connection in TIME_WAIT. *)
Definition slowtmr_timewait (s : tcp) : option tcp :=
  _ ← lwip_assert (bool_decide (state (pcb s) = TIME_WAIT));
  if 2 * TCP_MSL / TCP_SLOW_INTERVAL <? ticks_since s
  then tcp_free (on_pcb (fun p => set_place Unlisted (tcp_pcb_purge p)) s)
  else Some s.

(** The application is told of the end of the data. *)
Definition event_closed (s : tcp) : option (Z * tcp) :=
  on_recv None
    (on_pcb (fun p => if rcv_wnd (rx p) =? TCP_WND_MAX p then p else in_rx (fun r => set_rcv_wnd (tcpwnd (rcv_wnd r + 1)) r) p) s).

(** What is offered to the application at once, and the rest. *)
Definition split_64k (data : chain) : chain * chain := if LWIP_WND_SCALE then pbuf_split_64k data else (data, []).

(** What was refused is kept as a whole. *)
Definition join_64k (front rest : chain) : chain := if bool_decide (rest = []) then front else pbuf_cat front rest.

(** Data that the application refused before is offered again. *)
Fixpoint process_refused (fuel : nat) (s : tcp) : option (Z * tcp) :=
  match fuel, refused_data (rx (pcb s)) with
  | S fuel, Some (data, fin) =>
      let '(front, rest) := split_64k data in
      let last := bool_decide (rest = []) in
      let refused := if last then None else Some (rest, split_copies_fin && fin) in
      '(err, s) ← on_recv (Some front) (on_pcb (in_rx (set_refused_data refused)) s);
      if err =? ERR_OK then
        '(err, s) ← (if fin && last then event_closed s else Some (ERR_OK, s));
        if (err : Z) =? ERR_ABRT then Some (ERR_ABRT, s)
        else if LWIP_WND_SCALE then process_refused fuel s else Some (ERR_OK, s)
      else if err =? ERR_ABRT then Some (ERR_ABRT, s)
      else Some (ERR_INPROGRESS, on_pcb (in_rx (set_refused_data (Some (join_64k front rest, fin)))) s)
  | O, Some _ => None
  | _, None => Some (ERR_OK, s)
  end.

Definition tcp_process_refused_data (s : tcp) : option (Z * tcp) :=
  match refused_data (rx (pcb s)) with
  | Some (data, _) => process_refused (S (length data)) s
  | None => Some (ERR_OK, s)
  end.

Definition fasttmr_active (s : tcp) : option tcp :=
  s ← (if has TF_ACK_DELAY (flags (pcb s)) then
         '(_, s) ← tcp_output (on_pcb tcp_ack_now s);
         Some (on_pcb (tcp_clear_flags (Z.lor TF_ACK_DELAY TF_ACK_NOW)) s)
       else Some s);
  s ← (if has TF_CLOSEPEND (flags (pcb s)) then
         '(_, s) ← tcp_close_shutdown_fin (on_pcb (tcp_clear_flags TF_CLOSEPEND) s); Some s
       else Some s);
  if bool_decide (refused_data (rx (pcb s)) = None) then Some s
  else '(_, s) ← tcp_process_refused_data s; Some s.
End TcpPcb.
End TcpPcb.
