(* ===== verification/TcpRecv.v ===== *)
(** Input of the TCP of lwIP (src/tcp/src/upstream/src/core/tcp_in.c): a segment
    for a connection acknowledges data, and brings data, in order or not.

    [tcp_receive] is its two parts [receive_ack] and [receive_data]. *)

From S2P Require Export TcpPcb.
Export TcpPcb.
Open Scope Z_scope.

Module TcpRecv.
Section TcpRecv.
Context {Opt : TcpOptions} {Wd : TcpWorld} {Pb : PbufLib} {N : NetworkOrder}.

(** ** Blocks of the selective acknowledgment *)

(** The array [rcv_sacks] has its valid entries first. *)
Definition pad_sacks (l : list (Z * Z)) : list (Z * Z) := l ++ replicate (LWIP_TCP_MAX_SACK_NUM - length l)%nat (0, 0).

(** The entries before the first one that is not valid. *)
Fixpoint valid_sacks (l : list (Z * Z)) : list (Z * Z) :=
  match l with
  | [] => []
  | e :: l => if LWIP_TCP_SACK_VALID e then e :: valid_sacks l else []
  end.

Definition tcp_add_sack (left right : Z) (p : tcp_pcb) : tcp_pcb :=
  if negb (has TF_SACK (flags p)) || negb (TCP_SEQ_LT left right) then p
  else
    let keep := filter (fun e : Z * Z => TCP_SEQ_LEQ e.2 left || TCP_SEQ_LEQ right e.1) (valid_sacks (rcv_sacks (rx p))) in
    in_rx (set_rcv_sacks (take LWIP_TCP_MAX_SACK_NUM (pad_sacks ((left, right) :: keep)))) p.

Definition tcp_remove_sacks_lt (seq : Z) (p : tcp_pcb) : tcp_pcb :=
  let keep := filter (fun e : Z * Z => TCP_SEQ_GT e.2 seq) (valid_sacks (rcv_sacks (rx p))) in
  in_rx (set_rcv_sacks (pad_sacks ((fun e : Z * Z => (if TCP_SEQ_LT e.1 seq then seq else e.1, e.2)) <$> keep))) p.

Definition tcp_remove_sacks_gt (seq : Z) (p : tcp_pcb) : tcp_pcb :=
  let keep := filter (fun e : Z * Z => TCP_SEQ_LT e.1 seq) (valid_sacks (rcv_sacks (rx p))) in
  in_rx (set_rcv_sacks (pad_sacks ((fun e : Z * Z => (e.1, if TCP_SEQ_GT e.2 seq then seq else e.2)) <$> keep))) p.

(** [LWIP_TCP_SACK_VALID(pcb, 0)] *)
Definition sack0_valid (p : tcp_pcb) : bool :=
  match rcv_sacks (rx p) with e :: _ => LWIP_TCP_SACK_VALID e | [] => false end.

Definition set_sack0 (e : Z * Z) (r : receiver) : receiver :=
  set_rcv_sacks (match rcv_sacks r with _ :: l => e :: l | [] => [] end) r.

(** ** Acknowledgments *)

(** The window that the other side announces. *)
Definition ack_window (a : arrival) (p : tcp_pcb) : tcp_pcb :=
  let t := tx p in
  if TCP_SEQ_LT (snd_wl1 t) (in_seqno a)
     || ((snd_wl1 t =? in_seqno a) && TCP_SEQ_LT (snd_wl2 t) (in_ackno a))
     || ((snd_wl2 t =? in_ackno a) && (snd_wnd t <? u32 (SND_WND_SCALE p (in_wnd a))))
  then
    let wnd := tcpwnd (SND_WND_SCALE p (in_wnd a)) in
    in_tx (fun t => set_snd_wl2 (in_ackno a) (set_snd_wl1 (in_seqno a)
                      (set_snd_wnd_max (if snd_wnd_max t <? wnd then wnd else snd_wnd_max t) (set_snd_wnd wnd t)))) p
  else p.

(** Clauses 2 to 5 of a duplicate acknowledgment. *)
Definition is_dupack (right_wnd_edge : Z) (s : tcp) : bool :=
  let p := pcb s in
  (tcplen (ins s) =? 0) && (u32 (snd_wl2 (tx p) + snd_wnd (tx p)) =? right_wnd_edge) && (0 <=? rtime (tim p))
  && (lastack (tx p) =? in_ackno (ins s)).

Definition ack_dup (right_wnd_edge : Z) (s : tcp) : tcp :=
  if is_dupack right_wnd_edge s then
    let s := on_pcb (in_cc (fun c => if dupacks c <? u8 (dupacks c + 1) then set_dupacks (dupacks c + 1) c else c)) s in
    let m := mss (tx (pcb s)) in
    let s := if 3 <? dupacks (cc (pcb s)) then on_pcb (in_cc (fun c => set_cwnd (TCP_WND_INC (cwnd c) m) c)) s else s in
    if 3 <=? dupacks (cc (pcb s)) then tcp_rexmit_fast s else s
  else on_pcb (in_cc (set_dupacks 0)) s.

(** The segments that [ackno] acknowledges leave the list; [other] is the other
    queue. The result has the length of the queues and the bytes acknowledged. *)
Fixpoint tcp_free_acked_segments (ackno : Z) (l other : list tcp_seg) (queuelen acked : Z) : option (list tcp_seg * Z * Z) :=
  match l with
  | [] => Some ([], queuelen, acked)
  | seg :: l' =>
      if TCP_SEQ_LEQ (seg_seqno seg + TCP_TCPLEN seg) ackno then
        let clen := pbuf_clen (seg_p seg) in
        _ ← lwip_assert (clen <=? queuelen);
        let queuelen := u16 (queuelen - clen) in
        _ ← lwip_assert ((queuelen =? 0) || negb (bool_decide (l' = [])) || negb (bool_decide (other = [])));
        tcp_free_acked_segments ackno l' other queuelen (tcpwnd (acked + seg_len seg))
      else Some (l, queuelen, acked)
  end.

(** Slow start, or congestion avoidance. *)
Definition ack_cwnd (acked m : Z) (rto_phase : bool) (c : congestion) : congestion :=
  if cwnd c <? ssthresh c then
    let num_seg := if rto_phase then 1 else 2 in
    set_cwnd (TCP_WND_INC (cwnd c) (Z.min acked (tcpwnd (num_seg * m)))) c
  else
    let c := set_bytes_acked (TCP_WND_INC (bytes_acked c) acked) c in
    if cwnd c <=? bytes_acked c
    then set_cwnd (TCP_WND_INC (cwnd c) m) (set_bytes_acked (tcpwnd (bytes_acked c - cwnd c)) c) else c.

(** The retransmission of what was in flight is over. *)
Definition rto_done (p : tcp_pcb) : bool :=
  match unacked (tx p), unsent (tx p) with
  | [], [] => true
  | [], seg :: _ => TCP_SEQ_LEQ (rto_end (cc p)) (seg_seqno seg)
  | seg :: _, _ => TCP_SEQ_LEQ (rto_end (cc p)) (seg_seqno seg)
  end.

(** The end of a fast retransmission. *)
Definition leave_recovery (p : tcp_pcb) : tcp_pcb :=
  if has TF_INFR (flags p)
  then in_cc (fun c => set_bytes_acked 0 (set_cwnd (ssthresh c) c)) (tcp_clear_flags TF_INFR p) else p.

Definition ack_new (s : tcp) : option tcp :=
  let ackno := in_ackno (ins s) in
  let s := on_pcb leave_recovery s in
  let s := on_pcb (in_tim (fun t => set_rto (s16 (Z.shiftr (sa t) 3 + sv t)) (set_nrtx 0 t))) s in
  let acked := tcpwnd (ackno - lastack (tx (pcb s))) in
  let s := on_pcb (fun p => in_tx (set_lastack ackno) (in_cc (set_dupacks 0) p)) s in
  let s := if state_num ESTABLISHED <=? state_num (state (pcb s))
           then on_pcb (fun p => in_cc (ack_cwnd acked (mss (tx p)) (has TF_RTO (flags p))) p) s else s in
  '(unacked', queuelen, acked) ← tcp_free_acked_segments ackno (unacked (tx (pcb s))) (unsent (tx (pcb s)))
                                   (snd_queuelen (tx (pcb s))) (recv_acked (ins s));
  '(unsent', queuelen, acked) ← tcp_free_acked_segments ackno (unsent (tx (pcb s))) unacked' queuelen acked;
  let s := on_ins (set_recv_acked acked) s in
  let s := on_pcb (in_tx (fun t => set_snd_queuelen queuelen (set_unsent unsent' (set_unacked unacked' t)))) s in
  let s := on_pcb (in_tim (fun t => set_polltmr 0 (set_rtime (if bool_decide (unacked' = []) then -1 else 0) t))) s in
  let s := on_pcb (in_tx (fun t => set_snd_buf (tcpwnd (snd_buf t + acked)) t)) s in
  Some (if has TF_RTO (flags (pcb s)) && rto_done (pcb s) then on_pcb (tcp_clear_flags TF_RTO) s else s).

(** The estimate of the round-trip time, in Van Jacobson's integers. *)
Definition rtt_estimate (ticks : Z) (t : timers) : timers :=
  let m := s16 (ticks - rttest t) in
  let m := s16 (m - Z.shiftr (sa t) 3) in
  let sa' := s16 (sa t + m) in
  let m := if m <? 0 then s16 (- m) else m in
  let m := s16 (m - Z.shiftr (sv t) 2) in
  let sv' := s16 (sv t + m) in
  set_rttest 0 (set_rto (s16 (Z.shiftr sa' 3 + sv')) (set_sv sv' (set_sa sa' t))).

Definition receive_ack (s : tcp) : option tcp :=
  if has TCP_ACK (in_flags (ins s)) then
    let ackno := in_ackno (ins s) in
    let right_wnd_edge := u32 (snd_wnd (tx (pcb s)) + snd_wl2 (tx (pcb s))) in
    let s := on_pcb (ack_window (ins s)) s in
    s ← (if TCP_SEQ_LEQ ackno (lastack (tx (pcb s))) then Some (ack_dup right_wnd_edge s)
         else if TCP_SEQ_BETWEEN ackno (lastack (tx (pcb s)) + 1) (snd_nxt (tx (pcb s))) then ack_new s
         else Some (tcp_send_empty_ack s).2);
    Some (if negb (rttest (tim (pcb s)) =? 0) && TCP_SEQ_LT (rtseq (tim (pcb s))) ackno
          then on_pcb (in_tim (rtt_estimate (tcp_ticks s))) s else s)
  else Some s.

(** ** Segments out of order *)

Definition trim_seg (len : Z) (seg : tcp_seg) : tcp_seg :=
  set_seg_p (pbuf_realloc (seg_p seg) (u16 len)) (set_seg_len (u16 len) seg).

Definition option_list {A} (o : option A) : list A := match o with Some x => [x] | None => [] end.

(** Segments that [cseg] covers are dropped; it takes over their FIN. *)
Fixpoint drop_covered (seqno : Z) (cseg : tcp_seg) (next : list tcp_seg) : tcp_seg * list tcp_seg :=
  match next with
  | [] => (cseg, [])
  | n :: next' =>
      if TCP_SEQ_GEQ (seqno + seg_len cseg) (seg_seqno n + seg_len n) then
        drop_covered seqno (if has TCP_FIN (TCPH_FLAGS n) then TCPH_SET_FLAG TCP_FIN cseg else cseg) next'
      else (cseg, next)
  end.

(** The new queue from [cseg] on, which is put in front of [next]. *)
Definition tcp_oos_insert_segment (seqno : Z) (cseg : tcp_seg) (next : list tcp_seg) : list tcp_seg :=
  if has TCP_FIN (TCPH_FLAGS cseg) then [cseg]
  else
    let '(cseg, next) := drop_covered seqno cseg next in
    match next with
    | n :: _ => if TCP_SEQ_GT (seqno + seg_len cseg) (seg_seqno n) then trim_seg (seg_seqno n - seqno) cseg :: next
                else cseg :: next
    | [] => [cseg]
    end.

Definition tcp_seg_copy (seg : tcp_seg) (s : tcp) : option tcp_seg * tcp :=
  let '(n, s) := call s in (if tcp_seg_malloc_ok n then Some seg else None, s).

(** The segment [prev] ends where [seqno] begins, or before. *)
Definition trim_prev (seqno : Z) (prev : tcp_seg) : tcp_seg :=
  if TCP_SEQ_GT (seg_seqno prev + seg_len prev) seqno then trim_seg (seqno - seg_seqno prev) prev else prev.

Definition right_edge (p : tcp_pcb) : Z := u32 (rcv_nxt (rx p) + rcv_wnd (rx p)).

(** The last segment of the queue does not overrun the window. *)
Definition trim_to_window (cseg : tcp_seg) (s : tcp) : option (tcp_seg * tcp) :=
  let seqno := in_seqno (ins s) in
  if TCP_SEQ_GT (tcplen (ins s) + seqno) (right_edge (pcb s)) then
    let cseg := if has TCP_FIN (TCPH_FLAGS cseg) then TCPH_FLAGS_SET (Z.land (TCPH_FLAGS cseg) (Z.lnot TCP_FIN)) cseg else cseg in
    let cseg := trim_seg (right_edge (pcb s) - seqno) cseg in
    let s := on_ins (set_tcplen (TCP_TCPLEN cseg)) s in
    _ ← lwip_assert (u32 (seqno + tcplen (ins s)) =? right_edge (pcb s));
    Some (cseg, s)
  else Some (cseg, s).

(** The new segment belongs between [prev] and [next]. *)
Definition goes_before (seqno : Z) (prev : option tcp_seg) (next : tcp_seg) : bool :=
  match prev with
  | None => TCP_SEQ_LT seqno (seg_seqno next)
  | Some pv => TCP_SEQ_BETWEEN seqno (seg_seqno pv + 1) (seg_seqno next - 1)
  end.

(** The left edge of the block moves over a hole behind [prev]. *)
Definition move_sackbeg (prev : option tcp_seg) (next : tcp_seg) (sackbeg : Z) : Z :=
  match prev with
  | Some pv => if u32 (seg_seqno pv + seg_len pv) =? seg_seqno next then sackbeg else seg_seqno next
  | None => sackbeg
  end.

(** The new segment follows the last one. *)
Definition append_last (next : tcp_seg) (s : tcp) : option (list tcp_seg * list tcp_seg * tcp) :=
  if has TCP_FIN (TCPH_FLAGS next) then Some ([next], [], s)
  else
    let '(c, s) := tcp_seg_copy (inseg (ins s)) s in
    match c with
    | Some cseg => '(cseg, s) ← trim_to_window cseg s; Some ([trim_prev (in_seqno (ins s)) next], [cseg], s)
    | None => Some ([next], [], s)
    end.

(** The walk over the queue: the segments before the place of the new one, those
    from there on, the left edge of the block. *)
Fixpoint ooseq_walk (prev : option tcp_seg) (l : list tcp_seg) (sackbeg : Z) (s : tcp)
    : option (list tcp_seg * list tcp_seg * Z * tcp) :=
  let seqno := in_seqno (ins s) in
  match l with
  | [] => Some (option_list prev, [], sackbeg, s)
  | next :: l' =>
      if seqno =? seg_seqno next then
        if seg_len next <? seg_len (inseg (ins s)) then
          let '(c, s) := tcp_seg_copy (inseg (ins s)) s in
          Some (option_list prev, match c with Some cseg => tcp_oos_insert_segment seqno cseg l | None => l end, sackbeg, s)
        else Some (option_list prev, l, sackbeg, s)
      else if goes_before seqno prev next then
        let '(c, s) := tcp_seg_copy (inseg (ins s)) s in
        match c with
        | Some cseg => Some (trim_prev seqno <$> option_list prev, tcp_oos_insert_segment seqno cseg l, sackbeg, s)
        | None => Some (option_list prev, l, sackbeg, s)
        end
      else
        let sackbeg := move_sackbeg prev next sackbeg in
        if bool_decide (l' = []) && TCP_SEQ_GT seqno (seg_seqno next) then
          '(before, after, s) ← append_last next s; Some (option_list prev ++ before, after, sackbeg, s)
        else
          '(before, after, sackbeg, s) ← ooseq_walk (Some next) l' sackbeg s;
          Some (option_list prev ++ before, after, sackbeg, s)
  end.

(** The right edge of a block: segments that touch each other. *)
Fixpoint sack_end (sackend : Z) (l : list tcp_seg) : Z :=
  match l with
  | [] => sackend
  | n :: l => if sackend =? seg_seqno n then sack_end (u32 (sackend + seg_len n)) l else sackend
  end.

Definition sack_after_insert (before after : list tcp_seg) (sackbeg : Z) (p : tcp_pcb) : tcp_pcb :=
  if LWIP_TCP_SACK_OUT && has TF_SACK (flags p) then
    match after with
    | [] => p
    | n :: _ =>
        tcp_add_sack (move_sackbeg (last before) n sackbeg) (sack_end (seg_seqno n) after) p
    end
  else p.

(** The part of the queue within the limits, and the segment that is beyond. *)
Fixpoint ooseq_within (blen qlen : Z) (l : list tcp_seg) : list tcp_seg * option tcp_seg :=
  match l with
  | [] => ([], None)
  | next :: l =>
      let blen := u32 (blen + tot_len (seg_p next)) in
      let qlen := u16 (qlen + pbuf_clen (seg_p next)) in
      if match TCP_OOSEQ_BYTES_LIMIT with Some m => m <? blen | None => false end
         || match TCP_OOSEQ_PBUFS_LIMIT with Some m => m <? qlen | None => false end
      then ([], Some next)
      else let '(l, r) := ooseq_within blen qlen l in (next :: l, r)
  end.

Definition ooseq_limit (p : tcp_pcb) : tcp_pcb :=
  let '(l, beyond) := ooseq_within 0 0 (ooseq (rx p)) in
  match beyond with
  | None => p
  | Some next =>
      let p := if LWIP_TCP_SACK_OUT && has TF_SACK (flags p) then tcp_remove_sacks_gt (seg_seqno next) p else p in
      in_rx (set_ooseq l) p
  end.

(** The first segment of the queue. *)
Definition ooseq_first (s : tcp) : tcp :=
  let seg := inseg (ins s) in
  let seqno := in_seqno (ins s) in
  let '(c, s) := tcp_seg_copy seg s in
  let s := on_pcb (in_rx (set_ooseq (option_list c))) s in
  if LWIP_TCP_SACK_OUT && has TF_SACK (flags (pcb s))
  then on_pcb (in_rx (set_sack0 (seqno, u32 (seqno + seg_len seg)))) s else s.

Definition out_of_sequence (s : tcp) : option tcp :=
  s ← match ooseq (rx (pcb s)) with
      | [] => Some (ooseq_first s)
      | first :: _ =>
          let sackbeg := if TCP_SEQ_LT (in_seqno (ins s)) (seg_seqno first) then in_seqno (ins s) else seg_seqno first in
          '(before, after, sackbeg, s) ← ooseq_walk None (ooseq (rx (pcb s))) sackbeg s;
          let s := on_pcb (in_rx (set_ooseq (before ++ after))) s in
          Some (on_pcb (sack_after_insert before after sackbeg) s)
      end;
  Some (tcp_send_empty_ack (on_pcb ooseq_limit s)).2.

(** ** Data in order *)

(** The first [off] bytes of a chain are gone; no buffer is. *)
Fixpoint trim_chain (off : Z) (p : chain) : option chain :=
  match p with
  | [] => None
  | b :: p => if size b <? off then p ← trim_chain (off - size b) p; Some ([] :: p) else Some (pbuf_remove_header b off :: p)
  end.

(** What was received before is cut off. *)
Definition trim_front (s : tcp) : option tcp :=
  let a := ins s in
  let nxt := rcv_nxt (rx (pcb s)) in
  if TCP_SEQ_BETWEEN nxt (in_seqno a + 1) (in_seqno a + tcplen a - 1) then
    let off := u32 (nxt - in_seqno a) in
    _ ← lwip_assert (off <? 0xffff);
    _ ← lwip_assert (off <=? tot_len (seg_p (inseg a)));
    p ← trim_chain off (seg_p (inseg a));
    let seg := set_seg_seqno nxt (set_seg_p p (set_seg_len (u16 (seg_len (inseg a) - off)) (inseg a))) in
    Some (on_ins (fun a => set_in_seqno nxt (set_inseg seg a)) s)
  else Some (if TCP_SEQ_LT (in_seqno a) nxt then on_pcb tcp_ack_now s else s).

(** The length of a segment with SYN is one less than its share of the window. *)
Definition cut_inseg (len : Z) (seg : tcp_seg) : tcp_seg :=
  let len := if has TCP_SYN (TCPH_FLAGS seg) then len - 1 else len in trim_seg len seg.

(** The end of the segment is cut to the window. *)
Definition cut_to_window (s : tcp) : option tcp :=
  let s := on_ins (fun a => set_tcplen (TCP_TCPLEN (inseg a)) a) s in
  let wnd := rcv_wnd (rx (pcb s)) in
  if wnd <? tcplen (ins s) then
    let seg := inseg (ins s) in
    let seg := if has TCP_FIN (TCPH_FLAGS seg) then TCPH_FLAGS_SET (Z.land (TCPH_FLAGS seg) (Z.lnot TCP_FIN)) seg else seg in
    _ ← lwip_assert (negb LWIP_WND_SCALE || (wnd <=? 0xffff));
    let seg := cut_inseg wnd seg in
    let s := on_ins (fun a => set_tcplen (TCP_TCPLEN seg) (set_inseg seg a)) s in
    _ ← lwip_assert (u32 (in_seqno (ins s) + tcplen (ins s)) =? right_edge (pcb s));
    Some s
  else Some s.

(** Queued segments that the new one covers are dropped; it takes over their FIN. *)
Fixpoint absorb_covered (seqno : Z) (seg : tcp_seg) (len : Z) (l : list tcp_seg) : tcp_seg * Z * list tcp_seg :=
  match l with
  | [] => (seg, len, [])
  | next :: l' =>
      if TCP_SEQ_GEQ (seqno + len) (seg_seqno next + seg_len next) then
        if has TCP_FIN (TCPH_FLAGS next) && negb (has TCP_SYN (TCPH_FLAGS seg)) then
          let seg := TCPH_SET_FLAG TCP_FIN seg in absorb_covered seqno seg (u16 (TCP_TCPLEN seg)) l'
        else absorb_covered seqno seg len l'
      else (seg, len, l)
  end.

(** The queue is adjusted to the segment, and the segment to the queue. *)
Definition adjust_ooseq (s : tcp) : option tcp :=
  match ooseq (rx (pcb s)) with
  | [] => Some s
  | l =>
      let a := ins s in
      if has TCP_FIN (TCPH_FLAGS (inseg a)) then Some (on_pcb (in_rx (set_ooseq [])) s)
      else
        let '(seg, len, l) := absorb_covered (in_seqno a) (inseg a) (tcplen a) l in
        let s := on_pcb (in_rx (set_ooseq l)) s in
        let s := on_ins (fun a => set_tcplen len (set_inseg seg a)) s in
        match l with
        | next :: _ =>
            if TCP_SEQ_GT (in_seqno a + len) (seg_seqno next) then
              let seg := cut_inseg (u16 (seg_seqno next - in_seqno a)) seg in
              let s := on_ins (fun a => set_tcplen (TCP_TCPLEN seg) (set_inseg seg a)) s in
              _ ← lwip_assert (u32 (in_seqno a + tcplen (ins s)) =? seg_seqno next);
              Some s
            else Some s
        | [] => Some s
        end
  end.

(** A segment of [len] bytes of the sequence is received: the window shrinks. *)
Definition advance (nxt len : Z) (s : tcp) : option tcp :=
  let s := on_pcb (in_rx (set_rcv_nxt nxt)) s in
  _ ← lwip_assert (len <=? rcv_wnd (rx (pcb s)));
  update_ann_wnd (on_pcb (in_rx (fun r => set_rcv_wnd (rcv_wnd r - len) r)) s).

(** The data of a segment is added to that for the application. *)
Definition pass_up (p : chain) (a : arrival) : arrival :=
  if 0 <? tot_len p
  then set_recv_data (Some (match recv_data a with Some d => pbuf_cat d p | None => p end)) a
  else a.

(** Queued segments that are in sequence now. *)
Fixpoint dequeue (l : list tcp_seg) (s : tcp) : option tcp :=
  match l with
  | [] => Some s
  | cseg :: l =>
      let nxt := rcv_nxt (rx (pcb s)) in
      if seg_seqno cseg =? nxt then
        let s := on_ins (set_in_seqno (seg_seqno cseg)) s in
        s ← advance (u32 (nxt + TCP_TCPLEN cseg)) (TCP_TCPLEN cseg) s;
        let s := on_ins (pass_up (seg_p cseg)) s in
        let s := if has TCP_FIN (TCPH_FLAGS cseg) then
                   on_pcb (fun p => if bool_decide (state p = ESTABLISHED) then set_state CLOSE_WAIT p else p)
                     (on_ins (add_recv_flags TF_GOT_FIN) s)
                 else s in
        dequeue l (on_pcb (in_rx (set_ooseq l)) s)
      else Some s
  end.

(** Blocks before the queue are forgotten. *)
Definition sack_after_dequeue (p : tcp_pcb) : tcp_pcb :=
  if LWIP_TCP_SACK_OUT && has TF_SACK (flags p) then
    match ooseq (rx p) with
    | first :: _ => tcp_remove_sacks_lt (seg_seqno first) p
    | [] => if sack0_valid p then in_rx (set_rcv_sacks (pad_sacks [])) p else p
    end
  else p.

Definition in_sequence (s : tcp) : option tcp :=
  s ← cut_to_window s;
  s ← adjust_ooseq s;
  let a := ins s in
  s ← advance (u32 (in_seqno a + tcplen a)) (tcplen a) s;
  let s := on_ins (fun a => if 0 <? tot_len (seg_p (inseg a)) then set_recv_data (Some (seg_p (inseg a))) a else a) s in
  let s := if has TCP_FIN (TCPH_FLAGS (inseg a)) then on_ins (add_recv_flags TF_GOT_FIN) s else s in
  s ← dequeue (ooseq (rx (pcb s))) s;
  let s := on_pcb tcp_ack (on_pcb sack_after_dequeue s) in
  Some (if LWIP_TCP_SACK_OUT && sack0_valid (pcb s) then (tcp_send_empty_ack s).2 else s).

(** ** A segment for a connection *)

(** The number of the segment is in the window. *)
Definition in_window (s : tcp) : bool :=
  let r := rx (pcb s) in TCP_SEQ_BETWEEN (in_seqno (ins s)) (rcv_nxt r) (rcv_nxt r + rcv_wnd r - 1).

Definition receive_text (s : tcp) : option tcp :=
  s ← trim_front s;
  if in_window s then
    if rcv_nxt (rx (pcb s)) =? in_seqno (ins s) then in_sequence s else out_of_sequence s
  else Some (tcp_send_empty_ack s).2.

Definition receive_data (s : tcp) : option tcp :=
  if (0 <? tcplen (ins s)) && (state_num (state (pcb s)) <? state_num CLOSE_WAIT) then receive_text s
  else Some (if in_window s then s else on_pcb tcp_ack_now s).

Definition tcp_receive (s : tcp) : option tcp :=
  _ ← lwip_assert (state_num ESTABLISHED <=? state_num (state (pcb s)));
  s ← receive_ack s; receive_data s.
End TcpRecv.
End TcpRecv.
