(* ===== verification/TcpFsm.v ===== *)
(** The state machine of the TCP of lwIP (src/tcp/src/upstream/src/core/tcp_in.c):
    options, [tcp_process], the connections that wait or listen, and [tcp_input];
    from core/tcp.c how a connection begins. *)

From S2P Require Export TcpRecv.
Export TcpRecv.
Open Scope Z_scope.

Module TcpFsm.

Abbreviation ERR_ISCONN := (-10).
Section TcpFsm.
Context {Opt : TcpOptions} {Wd : TcpWorld} {Pb : PbufLib} {N : NetworkOrder} {App : TcpApp tcp chain}.

(** ** Options *)

Abbreviation LWIP_TCP_OPT_EOL := 0.
Abbreviation LWIP_TCP_OPT_NOP := 1.
Abbreviation LWIP_TCP_OPT_MSS := 2.
Abbreviation LWIP_TCP_OPT_WS := 3.
Abbreviation LWIP_TCP_OPT_SACK_PERM := 4.
Abbreviation LWIP_TCP_OPT_TS := 8.

(** [tcp_get_next_optbyte], for the index [i]: it does not look at the length. *)
Definition optbyte (a : arrival) (i : Z) : Z :=
  match optbytes a !! Z.to_nat i with Some b => b | None => optbehind a i end.

(** The length byte behind [i] says [len], and the option ends in time. *)
Definition opt_len_ok (a : arrival) (i len : Z) : bool :=
  (optbyte a (i + 1) =? len) && (i + len <=? size (optbytes a)).

Definition opt_mss (a : arrival) (i : Z) (p : tcp_pcb) : tcp_pcb :=
  let m := Z.lor (u16 (Z.shiftl (optbyte a (i + 2)) 8)) (optbyte a (i + 3)) in
  in_tx (set_mss (if (TCP_MSS <? m) || (m =? 0) then TCP_MSS else m)) p.

Definition opt_ws (a : arrival) (i : Z) (p : tcp_pcb) : option tcp_pcb :=
  if has TCP_SYN (in_flags a) && negb (has TF_WND_SCALE (flags p)) then
    let p := in_tx (set_snd_scale (Z.min (optbyte a (i + 2)) 14)) p in
    let p := tcp_set_flags TF_WND_SCALE (in_rx (set_rcv_scale TCP_RCV_SCALE) p) in
    _ ← lwip_assert (rcv_wnd (rx p) =? TCPWND_MIN16 TCP_WND);
    _ ← lwip_assert (rcv_ann_wnd (rx p) =? TCPWND_MIN16 TCP_WND);
    Some (in_rx (fun r => set_rcv_wnd TCP_WND (set_rcv_ann_wnd TCP_WND r)) p)
  else Some p.

(** The four bytes are in network order. *)
Definition opt_ts (a : arrival) (i : Z) (p : tcp_pcb) : tcp_pcb :=
  let v := Z.lor (Z.lor (Z.lor (Z.shiftl (optbyte a (i + 2)) 24) (Z.shiftl (optbyte a (i + 3)) 16))
                        (Z.shiftl (optbyte a (i + 4)) 8)) (optbyte a (i + 5)) in
  if has TCP_SYN (in_flags a) then tcp_set_flags TF_TIMESTAMP (in_rx (set_ts_recent v) p)
  else if TCP_SEQ_BETWEEN (ts_lastacksent (rx p)) (in_seqno a) (in_seqno a + tcplen a) then in_rx (set_ts_recent v) p
  else p.

(** The loop from the index [i] on. *)
Fixpoint parse_options (fuel : nat) (a : arrival) (i : Z) (p : tcp_pcb) : option tcp_pcb :=
  if size (optbytes a) <=? i then Some p
  else
    match fuel with
    | O => None
    | S fuel =>
        let opt := optbyte a i in
        if opt =? LWIP_TCP_OPT_EOL then Some p
        else if opt =? LWIP_TCP_OPT_NOP then parse_options fuel a (i + 1) p
        else if opt =? LWIP_TCP_OPT_MSS then
          if opt_len_ok a i 4 then parse_options fuel a (i + 4) (opt_mss a i p) else Some p
        else if LWIP_WND_SCALE && (opt =? LWIP_TCP_OPT_WS) then
          if opt_len_ok a i 3 then p ← opt_ws a i p; parse_options fuel a (i + 3) p else Some p
        else if LWIP_TCP_TIMESTAMPS && (opt =? LWIP_TCP_OPT_TS) then
          if opt_len_ok a i 10 then parse_options fuel a (i + 10) (opt_ts a i p) else Some p
        else if LWIP_TCP_SACK_OUT && (opt =? LWIP_TCP_OPT_SACK_PERM) then
          if opt_len_ok a i 2 then
            parse_options fuel a (i + 2) (if has TCP_SYN (in_flags a) then tcp_set_flags TF_SACK p else p)
          else Some p
        else
          let data := optbyte a (i + 1) in
          if data <? 2 then Some p else parse_options fuel a (i + data) p
    end.

Definition tcp_parseopt (s : tcp) : option tcp :=
  p ← parse_options (length (optbytes (ins s))) (ins s) 0 (pcb s); Some (on_pcb (fun _ => p) s).

(** ** The state machine *)

Definition LWIP_TCP_CALC_INITIAL_CWND (m : Z) : Z := tcpwnd (Z.min (4 * m) (Z.max (2 * m) 4380)).

(** A reset that answers the segment; its addresses are those of the connection. *)
Definition rst_reply (s : tcp) : tcp :=
  let a := ins s in
  let p := pcb s in
  tcp_rst (Some p) (in_ackno a) (u32 (in_seqno a + tcplen a)) (local_ip p) (remote_ip p) (local_port p) (remote_port p) s.

Definition process_rst (s : tcp) : option (Z * tcp) :=
  let a := ins s in
  let p := pcb s in
  let nxt := rcv_nxt (rx p) in
  let acceptable := if bool_decide (state p = SYN_SENT) then in_ackno a =? snd_nxt (tx p) else in_seqno a =? nxt in
  if acceptable then
    _ ← lwip_assert (negb (bool_decide (state p = CLOSED)));
    Some (ERR_RST, on_pcb (tcp_clear_flags TF_ACK_DELAY) (on_ins (add_recv_flags TF_RESET) s))
  else
    Some (ERR_OK,
      if negb (bool_decide (state p = SYN_SENT)) && TCP_SEQ_BETWEEN (in_seqno a) nxt (nxt + rcv_wnd (rx p))
      then on_pcb tcp_ack_now s else s).

(** The segment with our SYN is acknowledged. *)
Definition drop_syn (t : sender) : option sender :=
  match unacked t, unsent t with
  | _ :: l, _ => Some (set_unacked l t)
  | [], _ :: l => Some (set_unsent l t)
  | [], [] => None
  end.

Definition process_syn_sent (s : tcp) : option (Z * tcp) :=
  let a := ins s in
  let f := in_flags a in
  if has TCP_ACK f && has TCP_SYN f && (in_ackno a =? u32 (lastack (tx (pcb s)) + 1)) then
    let nxt := u32 (in_seqno a + 1) in
    let s := on_pcb (in_rx (fun r => set_rcv_ann_right_edge nxt (set_rcv_nxt nxt r))) s in
    let s := on_pcb (in_tx (fun t => set_snd_wl1 (u32 (in_seqno a - 1)) (set_snd_wnd_max (in_wnd a)
                              (set_snd_wnd (in_wnd a) (set_lastack (in_ackno a) t))))) s in
    let s := on_pcb (fun p => in_cc (set_cwnd (LWIP_TCP_CALC_INITIAL_CWND (mss (tx p)))) (set_state ESTABLISHED p)) s in
    _ ← lwip_assert (0 <? snd_queuelen (tx (pcb s)));
    t ← drop_syn (set_snd_queuelen (snd_queuelen (tx (pcb s)) - 1) (tx (pcb s)));
    let s := on_pcb (set_tx t) s in
    let s := on_pcb (in_tim (fun tm => if bool_decide (unacked t = []) then set_rtime (-1) tm else set_nrtx 0 (set_rtime 0 tm))) s in
    '(err, s) ← on_connected s;
    if err =? ERR_ABRT then Some (ERR_ABRT, s) else Some (ERR_OK, on_pcb tcp_ack_now s)
  else if has TCP_ACK f then
    let s := rst_reply s in
    if nrtx (tim (pcb s)) <? TCP_SYNMAXRTX then s ← tcp_rexmit_rto (on_pcb (in_tim (set_rtime 0)) s); Some (ERR_OK, s)
    else Some (ERR_OK, s)
  else Some (ERR_OK, s).

(** FIN arrived: the connection leaves for [next], and acknowledges at once. *)
Definition got_fin (s : tcp) : bool := has TF_GOT_FIN (recv_flags (ins s)).

Definition passive_close (s : tcp) : tcp :=
  if got_fin s then on_pcb (set_state CLOSE_WAIT) (on_pcb tcp_ack_now s) else s.

(** Everything that was sent is acknowledged, our FIN too. *)
Definition all_acked (s : tcp) : bool :=
  has TCP_ACK (in_flags (ins s)) && (in_ackno (ins s) =? snd_nxt (tx (pcb s))) && bool_decide (unsent (tx (pcb s)) = []).

Definition enter_time_wait (p : tcp_pcb) : tcp_pcb := set_place TimeWait (set_state TIME_WAIT (tcp_pcb_purge p)).

Definition process_syn_rcvd (s : tcp) : option (Z * tcp) :=
  let a := ins s in
  if has TCP_ACK (in_flags a) then
    if TCP_SEQ_BETWEEN (in_ackno a) (lastack (tx (pcb s)) + 1) (snd_nxt (tx (pcb s))) then
      let s := on_pcb (set_state ESTABLISHED) s in
      '(err, s) ← (if has_listener (pcb s) then on_accept s else Some (ERR_VAL, s));
      if negb ((err : Z) =? ERR_OK) then
        s ← (if err =? ERR_ABRT then Some s else tcp_abort s); Some (ERR_ABRT, s)
      else
        s ← tcp_receive s;
        let s := on_ins (fun a => if recv_acked a =? 0 then a else set_recv_acked (recv_acked a - 1) a) s in
        let s := on_pcb (fun p => in_cc (set_cwnd (LWIP_TCP_CALC_INITIAL_CWND (mss (tx p)))) p) s in
        Some (ERR_OK, passive_close s)
    else Some (ERR_OK, rst_reply s)
  else if has TCP_SYN (in_flags a) && (in_seqno a =? u32 (rcv_nxt (rx (pcb s)) - 1)) then Some (ERR_OK, (tcp_rexmit s).2)
  else Some (ERR_OK, s).

Definition process_fin_wait_1 (s : tcp) : option tcp :=
  s ← tcp_receive s;
  Some (if got_fin s then
          let s' := on_pcb tcp_ack_now s in
          on_pcb (if all_acked s then enter_time_wait else set_state CLOSING) s'
        else if all_acked s then on_pcb (set_state FIN_WAIT_2) s else s).

Definition process_state (s : tcp) : option (Z * tcp) :=
  match state (pcb s) with
  | SYN_SENT => process_syn_sent s
  | SYN_RCVD => process_syn_rcvd s
  | CLOSE_WAIT | ESTABLISHED => s ← tcp_receive s; Some (ERR_OK, passive_close s)
  | FIN_WAIT_1 => s ← process_fin_wait_1 s; Some (ERR_OK, s)
  | FIN_WAIT_2 =>
      s ← tcp_receive s;
      Some (ERR_OK, if got_fin s then on_pcb enter_time_wait (on_pcb tcp_ack_now s) else s)
  | CLOSING =>
      s ← tcp_receive s;
      Some (ERR_OK, if all_acked s then on_pcb enter_time_wait s else s)
  | LAST_ACK =>
      s ← tcp_receive s;
      Some (ERR_OK, if all_acked s then on_ins (add_recv_flags TF_CLOSED) s else s)
  | CLOSED | LISTEN | TIME_WAIT => Some (ERR_OK, s)
  end.

Definition tcp_process (s : tcp) : option (Z * tcp) :=
  let f := in_flags (ins s) in
  if has TCP_RST f then process_rst s
  else if has TCP_SYN f && negb (bool_decide (state (pcb s) ∈ [SYN_SENT; SYN_RCVD])) then Some (ERR_OK, on_pcb tcp_ack_now s)
  else
    let s := if has TF_RXCLOSED (flags (pcb s)) then s else on_pcb (in_tim (set_tmr (tcp_ticks s))) s in
    let s := on_pcb (in_tim (fun t => set_persist_probe 0 (set_keep_cnt_sent 0 t))) s in
    s ← tcp_parseopt s;
    process_state s.

Definition tcp_timewait_input (s : tcp) : option tcp :=
  let a := ins s in
  let nxt := rcv_nxt (rx (pcb s)) in
  if has TCP_RST (in_flags a) then Some s
  else if has TCP_SYN (in_flags a) && TCP_SEQ_BETWEEN (in_seqno a) nxt (nxt + rcv_wnd (rx (pcb s))) then Some (rst_reply s)
  else
    let s := if negb (has TCP_SYN (in_flags a)) && has TCP_FIN (in_flags a) then on_pcb (in_tim (set_tmr (tcp_ticks s))) s else s in
    if 0 <? tcplen a then '(_, s) ← tcp_output (on_pcb tcp_ack_now s); Some s else Some s.

(** ** A connection begins *)

(** [tcp_alloc], when there is memory; the default interval of the polls is 0. *)
Definition new_pcb (ticks : Z) : tcp_pcb :=
  mkPcb CLOSED 0 0 0 0 0 Unlisted false false
    (mkReceiver 0 (TCPWND_MIN16 TCP_WND) (TCPWND_MIN16 TCP_WND) 0 (replicate LWIP_TCP_MAX_SACK_NUM (0, 0)) [] None 0 0 0)
    (mkSender INITIAL_MSS 0 0 0 0 0 0 0 TCP_SND_BUF 0 [] [] 0)
    (mkCongestion 0 1 TCP_SND_BUF 0 0)
    (mkTimers 0 0 ticks (-1) 0 0 0 (3000 / TCP_SLOW_INTERVAL) (3000 / TCP_SLOW_INTERVAL) 0 TCP_KEEPIDLE_DEFAULT 0 0 0 0).

(** The static number grows with the clock. *)
Definition tcp_next_iss (iss ticks : Z) : Z := u32 (iss + ticks).

(** [new_port] is the result of [tcp_new_port], [iss] that of [tcp_next_iss]. *)
Definition tcp_connect (ipaddr port new_port iss : Z) (s : tcp) : option (Z * tcp) :=
  if negb (bool_decide (state (pcb s) = CLOSED)) then Some (ERR_ISCONN, s)
  else
    let s := on_pcb (fun p => set_remote_port port (set_remote_ip ipaddr p)) s in
    let '(n, s) := call s in
    match route n with
    | None => Some (ERR_RTE, s)
    | Some nif =>
        match know_local_ip nif s with
        | None => Some (ERR_RTE, s)
        | Some s =>
            let old_local_port := local_port (pcb s) in
            let local_port := if old_local_port =? 0 then new_port else old_local_port in
            if local_port =? 0 then Some (ERR_BUF, s)
            else
              let s := on_pcb (set_local_port local_port) s in
              let s := on_pcb (in_rx (fun r => set_rcv_ann_right_edge 0 (set_rcv_ann_wnd (TCPWND_MIN16 TCP_WND)
                                (set_rcv_wnd (TCPWND_MIN16 TCP_WND) (set_rcv_nxt 0 r))))) s in
              let before := u32 (iss - 1) in
              let s := on_pcb (in_tx (fun t => set_mss INITIAL_MSS (set_snd_wnd TCP_WND (set_snd_lbb before
                                (set_snd_wl2 before (set_lastack before (set_snd_nxt iss t))))))) s in
              let s := on_pcb (in_cc (set_cwnd 1)) s in
              '(ret, s) ← tcp_enqueue_flags TCP_SYN s;
              if ret =? ERR_OK then
                '(_, s) ← tcp_output (on_pcb (fun p => set_place Active (set_state SYN_SENT p)) s); Some (ret, s)
              else Some (ret, s)
        end
    end.

(** The connection of a SYN that reaches a listener on [lport]. *)
Definition passive_pcb (lport keepalive dst src sport iss : Z) (a : arrival) (ticks : Z) : tcp_pcb :=
  let p := new_pcb ticks in
  let nxt := u32 (in_seqno a + 1) in
  let p := set_remote_port sport (set_local_port lport (set_remote_ip src (set_local_ip dst p))) in
  let p := in_rx (fun r => set_rcv_ann_right_edge nxt (set_rcv_nxt nxt r)) (set_state SYN_RCVD p) in
  let p := in_tx (fun t => set_snd_wl1 (u32 (in_seqno a - 1)) (set_snd_lbb iss (set_lastack iss
             (set_snd_nxt iss (set_snd_wl2 iss t))))) p in
  set_place Active (set_so_keepalive (negb (keepalive =? 0)) (set_has_listener true p)).

(** A segment for a listener; the new connection is the result's. The application
    is not told when there is no memory. *)
Definition tcp_listen_input (alloc_ok : bool) (lport keepalive dst src dport sport iss : Z) (s : tcp) : option tcp :=
  let a := ins s in
  let f := in_flags a in
  if has TCP_RST f then Some s
  else if has TCP_ACK f then Some (tcp_rst None (in_ackno a) (u32 (in_seqno a + tcplen a)) dst src dport sport s)
  else if has TCP_SYN f then
    if negb alloc_ok then Some s
    else
      let s := on_pcb (fun _ => passive_pcb lport keepalive dst src sport iss a (tcp_ticks s)) s in
      s ← tcp_parseopt s;
      let s := on_pcb (in_tx (fun t => set_snd_wnd_max (in_wnd a) (set_snd_wnd (in_wnd a) t))) s in
      '(rc, s) ← tcp_enqueue_flags (Z.lor TCP_SYN TCP_ACK) s;
      if rc =? ERR_OK then '(_, s) ← tcp_output s; Some s else tcp_abandon false s
  else Some s.

(** ** A segment arrives *)

Definition byte_at (b : list Z) (i : nat) : Z := nth i b 0.
Definition rd16 (b : list Z) (i : nat) : Z := byte_at b i * 2 ^ 8 + byte_at b (i + 1).
Definition rd32 (b : list Z) (i : nat) : Z := rd16 b i * 2 ^ 16 + rd16 b (i + 2).

(** The options and the chain behind them; [None] when the packet is dropped. *)
Definition split_options (hdrlen : Z) (p : chain) : option (option (list Z * chain)) :=
  match p with
  | [] => None
  | b :: rest =>
      let optlen := hdrlen - TCP_HLEN in
      if hdrlen <=? size b then
        Some (Some (take (Z.to_nat optlen) (drop 20 b), pbuf_remove_header b hdrlen :: rest))
      else
        let opt1 := pbuf_remove_header b TCP_HLEN in
        let opt2len := optlen - size opt1 in
        match rest with
        | [] => None
        | b2 :: rest =>
            if size b2 <? opt2len then Some None
            else Some (Some (opt1 ++ take (Z.to_nat opt2len) b2, pbuf_remove_header opt1 (size opt1) :: pbuf_remove_header b2 opt2len :: rest))
        end
  end.

Record header := mkHeader { h_src : Z; h_dest : Z; h_arrival : arrival }.

(** The first part of [tcp_input]: the checks of the header. [unicast] and [chksum]
    are the results of the address and checksum functions, [behind] is what
    lies behind the options. *)
Definition input_header (unicast : bool) (chksum : Z) (behind : Z -> Z) (p : chain) : option (option header) :=
  match p with
  | [] => None
  | b :: _ =>
      let hdrlen := 4 * Z.shiftr (byte_at b 12) 4 in
      if size b <? TCP_HLEN then Some None
      else if negb unicast || negb (chksum =? 0) then Some None
      else if (hdrlen <? TCP_HLEN) || (tot_len p <? hdrlen) then Some None
      else
        r ← split_options hdrlen p;
        match r with
        | None => Some None
        | Some (opts, q) =>
            let f := Z.land (byte_at b 13) TCP_FLAGS in
            let len := tot_len q in
            let len' := if has (Z.lor TCP_FIN TCP_SYN) f then u16 (len + 1) else len in
            if len' <? len then Some None
            else
              let seg := mkSeg q len 0 (rd32 b 4) (rd16 b 12) in
              Some (Some (mkHeader (rd16 b 0) (rd16 b 2)
                (mkArrival seg (rd32 b 4) (rd32 b 8) f (rd16 b 14) len' opts behind None 0 0)))
        end
  end.

Definition set_input_pcb (b : bool) (s : tcp) : tcp := mkTcp (pcb s) (ins s) (tcp_ticks s) b (calls s) (sent s).

(** The label "aborted". *)
Definition aborted (s : tcp) : tcp := on_ins (set_recv_data None) (set_input_pcb false s).

Definition tcp_input_delayed_close (s : tcp) : option (bool * tcp) :=
  if has TF_CLOSED (recv_flags (ins s)) then s ← tcp_pcb_remove s; s ← tcp_free s; Some (true, s) else Some (false, s).

(** The callback takes 16 bits, so that it may be called more than once. *)
Fixpoint event_sent (fuel : nat) (acked : Z) (s : tcp) : option (bool * tcp) :=
  if acked <=? 0 then Some (false, s)
  else
    match fuel with
    | O => None
    | S fuel =>
        let acked16 := if LWIP_WND_SCALE then Z.min acked 0xffff else acked in
        '(err, s) ← on_sent acked16 s;
        if err =? ERR_ABRT then Some (true, s) else event_sent fuel (acked - acked16) s
    end.

(** The data is handed over, 64 kB at a time; whether the connection was aborted. *)
Fixpoint event_recv (fuel : nat) (s : tcp) : option (bool * tcp) :=
  match fuel, recv_data (ins s) with
  | S fuel, Some data =>
      let '(front, rest) := split_64k data in
      _ ← lwip_assert (bool_decide (refused_data (rx (pcb s)) = None));
      if has TF_RXCLOSED (flags (pcb s)) then s ← tcp_abort s; Some (true, s)
      else
        '(err, s) ← on_recv (Some front) s;
        if err =? ERR_ABRT then Some (true, s)
        else if err =? ERR_OK then
          let s := on_ins (set_recv_data (if bool_decide (rest = []) then None else Some rest)) s in
          if LWIP_WND_SCALE then event_recv fuel s else Some (false, s)
        else Some (false, on_pcb (in_rx (set_refused_data (Some (join_64k front rest, false)))) s)
  | O, Some _ => None
  | _, None => Some (false, s)
  end.

(** The end of the data is told, or noted in the data that was refused. *)
Definition event_fin (s : tcp) : option (bool * tcp) :=
  if got_fin s then
    match refused_data (rx (pcb s)) with
    | Some (data, _) => Some (false, on_pcb (in_rx (set_refused_data (Some (data, true)))) s)
    | None => '(err, s) ← event_closed s; Some ((err : Z) =? ERR_ABRT, s)
    end
  else Some (false, s).

(** What follows [tcp_process]; the application may abort at each step. *)
Definition input_deliver (s : tcp) : option tcp :=
  let acked := recv_acked (ins s) in
  '(stop, s) ← event_sent (Z.to_nat acked) acked s;
  if (stop : bool) then Some (aborted s)
  else
    '(stop, s) ← tcp_input_delayed_close (if 0 <? acked then on_ins (set_recv_acked 0) s else s);
    if (stop : bool) then Some (aborted s)
    else
      '(stop, s) ← event_recv (S (length (default [] (recv_data (ins s))))) s;
      if (stop : bool) then Some (aborted s)
      else
        '(stop, s) ← event_fin s;
        if (stop : bool) then Some (aborted s)
        else
          '(stop, s) ← tcp_input_delayed_close (set_input_pcb false s);
          if (stop : bool) then Some (aborted s) else '(_, s) ← tcp_output s; Some (aborted s).

(** A segment for an active connection. *)
Definition input_active (s : tcp) : option tcp :=
  '(err, s) ← tcp_process_refused_data s;
  if ((err : Z) =? ERR_ABRT) || (negb (bool_decide (refused_data (rx (pcb s)) = None)) && (0 <? tcplen (ins s))) then
    Some (aborted (if rcv_ann_wnd (rx (pcb s)) =? 0 then (tcp_send_empty_ack s).2 else s))
  else
    '(err, s) ← tcp_process (set_input_pcb true s);
    if err =? ERR_ABRT then Some (aborted s)
    else if has TF_RESET (recv_flags (ins s)) then s ← tcp_pcb_remove s; s ← tcp_free s; Some (aborted s)
    else input_deliver s.

(** The connection that the segment is for. *)
Definition for_pcb (h : header) (dst src : Z) (p : tcp_pcb) : bool :=
  (remote_port p =? h_src h) && (local_port p =? h_dest h) && (remote_ip p =? src) && (local_ip p =? dst).

(** [tcp_input], when one connection is known; listeners are apart. *)
Definition tcp_input (unicast : bool) (chksum : Z) (behind : Z -> Z) (dst src : Z) (p : chain) (s : tcp) : option tcp :=
  h ← input_header unicast chksum behind p;
  match h with
  | None => Some s
  | Some h =>
      let a := h_arrival h in
      let s := on_ins (fun _ => a) s in
      if bool_decide (place (pcb s) = Active) && for_pcb h dst src (pcb s) then
        _ ← lwip_assert (negb (bool_decide (state (pcb s) ∈ [CLOSED; TIME_WAIT; LISTEN])));
        input_active s
      else if bool_decide (place (pcb s) = TimeWait) && for_pcb h dst src (pcb s) then
        _ ← lwip_assert (bool_decide (state (pcb s) = TIME_WAIT));
        tcp_timewait_input s
      else if has TCP_RST (in_flags a) then Some s
      else Some (tcp_rst None (in_ackno a) (u32 (in_seqno a + tcplen a)) dst src (h_dest h) (h_src h) s)
  end.
End TcpFsm.
End TcpFsm.
