(* ===== verification/TcpSample.v ===== *)
(** A configuration of the TCP of lwIP, and a connection, at which the theorems
    are tried: lwipopts.h with a window of 4096 bytes, segments of 4 bytes,
    selective acknowledgments, and an outside in which nothing fails. *)

From S2P Require Export TcpFsm.
Export TcpFsm.
Open Scope Z_scope.

Module TcpSample.

Definition sample_options : TcpOptions.
Proof.
  refine {|
    LWIP_WND_SCALE := false; TCP_RCV_SCALE := 0; TCP_WND := 4096; TCP_MSS := 4; INITIAL_MSS := 4;
    TCP_SND_BUF := 64; TCP_SND_QUEUELEN := 16; TCP_MAXRTX := 12; TCP_SYNMAXRTX := 6; TCP_WND_UPDATE_THRESHOLD := 1024;
    TCP_TTL := 255; TCP_SLOW_INTERVAL := 500; LWIP_TCP_SACK_OUT := true; LWIP_TCP_MAX_SACK_NUM := 4;
    LWIP_TCP_TIMESTAMPS := false; TCP_OOSEQ_BYTES_LIMIT := None; TCP_OOSEQ_PBUFS_LIMIT := None
  |}; lia.
Defined.

(** The call with number 6, an allocation, fails in [tight_world]. *)
Definition sample_world : TcpWorld := {|
  pbuf_alloc_ok := fun _ => true; pbuf_add_header_ok := fun _ => true; tcp_seg_malloc_ok := fun _ => true;
  segment_busy := fun _ => false; route := fun _ => Some 1; ip_netif_get_local_ip := fun _ _ => Some 0x0a000001;
  rom_contiguous := fun _ => false; ip_output_if := fun _ => 0; sys_now := fun n => Z.of_nat n
|}.

Definition tight_world : TcpWorld := {|
  pbuf_alloc_ok := fun n => negb (Nat.eqb n 6); pbuf_add_header_ok := fun _ => true; tcp_seg_malloc_ok := fun _ => true;
  segment_busy := fun _ => false; route := fun _ => Some 1; ip_netif_get_local_ip := fun _ _ => Some 0x0a000001;
  rom_contiguous := fun _ => false; ip_output_if := fun _ => 0; sys_now := fun n => Z.of_nat n
|}.

Definition sample_pbuf : PbufLib.
Proof.
  refine {|
    pbuf_realloc := fun p n => [take (Z.to_nat n) (concat p)];
    pbuf_cat := fun p q => p ++ q;
    pbuf_remove_header := fun b n => drop (Z.to_nat n) b;
    pbuf_split_64k := fun p => (p, []);
    split_copies_fin := true
  |}.
  - intros p n _. cbn. by rewrite app_nil_r.
  - done.
  - done.
  - intros p. cbn. lia.
  - intros p. cbn. by rewrite app_nil_r.
Defined.

Definition sample_order : NetworkOrder.
Proof. refine {| lwip_htons := fun x => x |}. done. Defined.

Definition quiet_app : TcpApp tcp chain := {|
  on_connected := fun s => Some (0, s); on_accept := fun s => Some (0, s); on_recv := fun _ s => Some (0, s);
  on_sent := fun _ s => Some (0, s); on_poll := fun s => Some (0, s)
|}.

#[local] Existing Instances sample_options sample_pbuf sample_order quiet_app.

(** No segment arrived. *)
Definition no_seg : tcp_seg := mkSeg [] 0 0 0 0.
Definition no_arrival : arrival := mkArrival no_seg 0 0 0 0 0 [] (fun _ => 0) None 0 0.

(** A connection in [st] that expects the byte with number [nxt]; the next byte
    that it sends has the number 1000. *)
Definition sample_tcp (st : tcp_state) (nxt : Z) (unsent unacked : list tcp_seg) : tcp :=
  let p := new_pcb 0 in
  let p := set_place Active (set_state st (set_remote_port 80 (set_local_port 4097 (set_remote_ip 0x0a000002 (set_local_ip 0x0a000001 p))))) in
  let p := in_rx (fun r => set_rcv_nxt nxt (set_rcv_ann_right_edge (u32 (nxt + 4096)) r)) p in
  let count := foldr (fun seg n => pbuf_clen (seg_p seg) + n) 0 (unacked ++ unsent) in
  let p := in_tx (fun x => set_lastack 1000 (set_snd_nxt 1000 (set_snd_lbb 1000 (set_snd_wnd 4096 (set_snd_wnd_max 4096
    (set_unsent unsent (set_unacked unacked (set_snd_queuelen count x)))))))) p in
  mkTcp (in_cc (set_cwnd 4096) p) no_arrival 0 false 0 [].

(** A segment of data that arrives. *)
Definition data_arrival (seqno : Z) (fin : bool) (data : list Z) : arrival :=
  let f := Z.lor TCP_ACK (if fin then TCP_FIN else 0) in
  mkArrival (mkSeg [data] (size data) 0 seqno f) seqno 1000 f 4096 (size data + if fin then 1 else 0) [] (fun _ => 0) None 0 0.
End TcpSample.
