(* ===== verification/TcpRecvInv.v ===== *)
(** The receiving side of the TCP of lwIP: what the queue of segments out of
    order holds, and that every step of [tcp_receive] keeps it.

    [D] is the stream that the other side sends, [isn] the number of its first
    byte: byte [k] has the number [u32 (isn + k)], and FIN comes behind the last. *)

From S2P Require Export TcpFsm.
Export TcpFsm.
Open Scope Z_scope.

Module TcpRecvInv.

(** ** Numbers that are near each other *)

Lemma u32_add_l a b : u32 (u32 a + b) = u32 (a + b).
Proof. unfold u32. apply Zplus_mod_idemp_l. Qed.

Lemma u32_add_r a b : u32 (a + u32 b) = u32 (a + b).
Proof. unfold u32. apply Zplus_mod_idemp_r. Qed.

Lemma u32_sub_l a b : u32 (u32 a - b) = u32 (a - b).
Proof. unfold u32. apply Zminus_mod_idemp_l. Qed.

Lemma u32_sub_r a b : u32 (a - u32 b) = u32 (a - b).
Proof. unfold u32. apply Zminus_mod_idemp_r. Qed.

(** [x] is a number for the position [a]. *)
Definition stands (x a : Z) : Prop := u32 x = u32 a.

Lemma stands_u32 a : stands (u32 a) a.
Proof. unfold stands, u32. by rewrite Z.mod_mod. Qed.

Lemma stands_add x a c : stands x a -> stands (x + c) (a + c).
Proof. unfold stands. intros H. by rewrite <- u32_add_l, H, u32_add_l. Qed.

Lemma stands_sub x a c : stands x a -> stands (x - c) (a - c).
Proof. unfold stands. intros H. by rewrite <- u32_sub_l, H, u32_sub_l. Qed.

Lemma stands_plus x a y b : stands x a -> stands y b -> stands (x + y) (a + b).
Proof. unfold stands. intros H1 H2. by rewrite <- u32_add_l, <- u32_add_r, H1, H2, u32_add_l, u32_add_r. Qed.

Lemma stands_self x : stands x x.
Proof. done. Qed.

Lemma stands_diff x a y b : stands x a -> stands y b -> near a b -> s32 (u32 (x - y)) = a - b.
Proof.
  unfold stands. intros Hx Hy Hn. rewrite <- u32_sub_l, <- u32_sub_r, Hx, Hy. by apply s32_diff.
Qed.

Section Compare.
Context (x a y b : Z) (Hx : stands x a) (Hy : stands y b) (Hn : near a b).

Lemma seq_lt : TCP_SEQ_LT x y = (a <? b).
Proof. unfold TCP_SEQ_LT. rewrite (stands_diff x a y b) by done. lia. Qed.

Lemma seq_leq : TCP_SEQ_LEQ x y = (a <=? b).
Proof. unfold TCP_SEQ_LEQ. rewrite (stands_diff x a y b) by done. lia. Qed.

Lemma seq_gt : TCP_SEQ_GT x y = (b <? a).
Proof. unfold TCP_SEQ_GT. rewrite (stands_diff x a y b) by done. lia. Qed.

Lemma seq_geq : TCP_SEQ_GEQ x y = (b <=? a).
Proof. unfold TCP_SEQ_GEQ. rewrite (stands_diff x a y b) by done. lia. Qed.

Lemma seq_eq : u32 x = x -> u32 y = y -> (x =? y) = (a =? b).
Proof.
  unfold stands, near in *. intros Ex Ey. rewrite Ex in Hx. rewrite Ey in Hy.
  clear Ex Ey. unfold u32 in *. revert Hx Hy Hn. lia_mod.
Qed.
End Compare.

Lemma seq_between x a y b z c :
  stands x a -> stands y b -> stands z c -> near a b -> near a c ->
  TCP_SEQ_BETWEEN x y z = (b <=? a) && (a <=? c).
Proof. intros. unfold TCP_SEQ_BETWEEN. by rewrite (seq_geq x a y b), (seq_leq x a z c). Qed.

Lemma u32_u32 a : u32 (u32 a) = u32 a.
Proof. unfold u32. by rewrite Z.mod_mod. Qed.

(** ** Chains *)

Lemma size_take (l : list Z) n : 0 <= n <= size l -> size (take (Z.to_nat n) l) = n.
Proof. intros. unfold size in *. rewrite length_take. lia. Qed.

Lemma size_drop (l : list Z) n : 0 <= n <= size l -> size (drop (Z.to_nat n) l) = size l - n.
Proof. intros. unfold size in *. rewrite length_drop. lia. Qed.

Section Chains.
Context {Pb : PbufLib}.

Lemma trim_chain_data off p :
  0 < off <= tot_len p -> exists p', trim_chain off p = Some p' /\ concat p' = drop (Z.to_nat off) (concat p).
Proof.
  unfold tot_len. revert off. induction p as [|b p IH]; intros off H; cbn [concat] in *; [done || (unfold size in H; cbn in H; lia)|].
  rewrite size_app in H. cbn [trim_chain]. destruct (size b <? off) eqn:E.
  - destruct (IH (off - size b)) as (p' & -> & Hp'); [lia|]. cbn. eexists. split; [done|]. cbn [concat app].
    rewrite Hp', drop_app_ge by (unfold size in *; lia). f_equal. unfold size in *. lia.
  - eexists. split; [done|]. cbn [concat]. rewrite remove_header_data by (pose proof (size_nonneg b); lia).
    rewrite drop_app_le by (unfold size in *; lia). done.
Qed.
End Chains.

Section Stream.
Context {Opt : TcpOptions} {Wd : TcpWorld} {Pb : PbufLib} {N : NetworkOrder}.
Context (D : list Z) (isn : Z).

(** [m] bytes of the stream from position [k] on. *)
Definition bytes (k m : Z) : list Z := take (Z.to_nat m) (drop (Z.to_nat k) D).

Definition fin (seg : tcp_seg) : bool := has TCP_FIN (TCPH_FLAGS seg).

(** The segment is the part of the stream that begins at [k]. *)
Record seg_at (seg : tcp_seg) (k : Z) : Prop := {
  at_seq : seg_seqno seg = u32 (isn + k);
  at_pos : 0 <= k;
  at_len : 0 <= seg_len seg < 0xffff;
  at_end : k + seg_len seg <= size D;
  at_data : concat (seg_p seg) = bytes k (seg_len seg);
  at_syn : has TCP_SYN (TCPH_FLAGS seg) = false;
  at_fin : fin seg = true -> k + seg_len seg = size D
}.

(** The share of the sequence: FIN counts as one. *)
Definition seq_len (seg : tcp_seg) : Z := seg_len seg + (if fin seg then 1 else 0).

(** The queue [l] from position [lo] on, within the window that ends at [R]. *)
Inductive queue_at (R : Z) : Z -> list tcp_seg -> Prop :=
  | queue_nil lo : queue_at R lo []
  | queue_cons lo seg k l :
      seg_at seg k -> lo <= k -> 0 < seq_len seg -> k + seq_len seg <= R -> (fin seg = true -> l = []) ->
      queue_at R (k + seg_len seg) l -> queue_at R lo (seg :: l).

Lemma queue_weaken R lo lo' l : lo' <= lo -> queue_at R lo l -> queue_at R lo' l.
Proof. intros H Hq. destruct Hq; econstructor; eauto; lia. Qed.

Lemma queue_mono R R' lo l : R <= R' -> queue_at R lo l -> queue_at R' lo l.
Proof. intros H Hq. induction Hq; [constructor|]. econstructor; eauto; lia. Qed.

(** *** Flags *)

Lemma has_lor f g x : has (Z.lor f g) x = has f x || has g x.
Proof.
  unfold has. rewrite <- negb_andb. f_equal. rewrite Z.land_lor_distr_r.
  destruct (Z.eqb_spec (Z.land x f) 0) as [->|Hf], (Z.eqb_spec (Z.land x g) 0) as [->|Hg]; cbn [andb].
  - done.
  - rewrite Z.lor_0_l. lia.
  - rewrite Z.lor_0_r. lia.
  - apply Z.eqb_neq. intros E. apply Z.lor_eq_0_iff in E. tauto.
Qed.

Lemma tcplen_seq seg k : seg_at seg k -> TCP_TCPLEN seg = seq_len seg.
Proof. intros H. unfold TCP_TCPLEN, seq_len. rewrite has_lor, (at_syn _ _ H), orb_false_r. done. Qed.

Lemma set_flag_has f g seg : has g (TCPH_FLAGS (TCPH_SET_FLAG f seg)) = has g (TCPH_FLAGS seg) || has g (Z.land f TCP_FLAGS).
Proof.
  unfold TCPH_FLAGS, TCPH_SET_FLAG, has. cbn [seg_hflags]. rewrite Z.land_lor_distr_l, Z.land_lor_distr_l.
  destruct (Z.eqb_spec (Z.land (Z.land (seg_hflags seg) TCP_FLAGS) g) 0) as [->|H1]; cbn [negb orb].
  - by rewrite Z.lor_0_l.
  - apply negb_true_iff, Z.eqb_neq. intros E. apply Z.lor_eq_0_iff in E. tauto.
Qed.

Lemma set_fin_fin seg : fin (TCPH_SET_FLAG TCP_FIN seg) = true.
Proof. unfold fin. rewrite set_flag_has. apply orb_true_r. Qed.

(** A segment that ends with the stream may get FIN. *)
Lemma set_fin_at seg k : seg_at seg k -> k + seg_len seg = size D -> seg_at (TCPH_SET_FLAG TCP_FIN seg) k.
Proof.
  intros [] He. split; cbn [TCPH_SET_FLAG seg_seqno seg_len seg_p]; try done.
  by rewrite set_flag_has, at_syn0.
Qed.

(** *** Trimming *)

Lemma bytes_take k m m' : 0 <= m' <= m -> bytes k m' = take (Z.to_nat m') (bytes k m).
Proof. intros H. unfold bytes. rewrite take_take. f_equal. lia. Qed.

Lemma bytes_drop k m o : 0 <= k -> 0 <= o <= m -> drop (Z.to_nat o) (bytes k m) = bytes (k + o) (m - o).
Proof.
  intros Hk H. unfold bytes. replace (Z.to_nat m) with (Z.to_nat o + Z.to_nat (m - o))%nat by lia.
  rewrite <- take_drop_commute, drop_drop. do 2 f_equal. lia.
Qed.

Lemma bytes_app k m m' : 0 <= k -> 0 <= m -> 0 <= m' -> bytes k (m + m') = bytes k m ++ bytes (k + m) m'.
Proof.
  intros. unfold bytes. replace (Z.to_nat (m + m')) with (Z.to_nat m + Z.to_nat m')%nat by lia.
  rewrite <- take_take_drop, drop_drop. do 3 f_equal. lia.
Qed.

Lemma size_bytes k m : 0 <= k -> 0 <= m -> k + m <= size D -> size (bytes k m) = m.
Proof. intros. unfold bytes, size in *. rewrite length_take, length_drop. lia. Qed.

Lemma trim_seg_at seg k len :
  seg_at seg k -> 0 <= len <= seg_len seg -> fin seg = false ->
  seg_at (trim_seg len seg) k /\ seg_len (trim_seg len seg) = len /\ fin (trim_seg len seg) = false.
Proof.
  intros [] Hl Hf. unfold trim_seg. rewrite u16_small by lia.
  split; [|done]. split; cbn [set_seg_p set_seg_len seg_seqno seg_len seg_p]; try done; try lia.
  - rewrite realloc_data by (rewrite at_data0, size_bytes; lia). rewrite at_data0. symmetry. apply bytes_take. lia.
  - change (fin seg = true -> k + len = size D). rewrite Hf. done.
Qed.

(** *** The place of a new segment *)

Lemma seq_len_fin seg : seq_len seg = seg_len seg + 1 /\ fin seg = true \/ seq_len seg = seg_len seg /\ fin seg = false.
Proof. unfold seq_len. destruct (fin seg); lia. Qed.

Ltac near_lia := unfold near; repeat match goal with H : seg_at _ _ |- _ => pose proof (at_len _ _ H); pose proof (at_pos _ _ H); pose proof (at_end _ _ H); revert H end; intros; lia.

Lemma pos_inj j k : u32 (isn + j) = u32 (isn + k) -> near j k -> j = k.
Proof. unfold u32, near. lia_mod. Qed.

Lemma stands_seq seg k : seg_at seg k -> stands (seg_seqno seg) (isn + k).
Proof. intros H. rewrite (at_seq _ _ H). apply stands_u32. Qed.

Lemma stands_end seg k : seg_at seg k -> stands (seg_seqno seg + seg_len seg) (isn + (k + seg_len seg)).
Proof. intros H. rewrite Z.add_assoc. by apply stands_add, stands_seq. Qed.

(** What is left of the queue behind a segment that ends at [e]: it begins
    after [k], and ends after [e]. *)
Definition left_over (R k e : Z) (l : list tcp_seg) : Prop :=
  match l with
  | [] => True
  | n :: _ => exists k', seg_at n k' /\ k < k' /\ e < k' + seg_len n /\ queue_at R k' l
  end.

Lemma drop_covered_at R lo k cseg next :
  seg_at cseg k -> fin cseg = false -> queue_at R lo next -> k <= lo -> R - k < 2 ^ 31 ->
  k + seg_len cseg <= R ->
  (forall n l, next = n :: l -> seg_seqno n = u32 (isn + k) -> seg_len n <= seg_len cseg) ->
  exists c next', drop_covered (u32 (isn + k)) cseg next = (c, next') /\
    seg_at c k /\ seg_len c = seg_len cseg /\ k + seq_len c <= R /\ (fin c = true -> next' = []) /\
    left_over R k (k + seg_len cseg) next'.
Proof.
  intros Hc Hf Hq. revert cseg Hc Hf. induction Hq as [lo|lo seg j l Hs Hlo Hpos HR Hl Hq IH]; intros cseg Hc Hf Hk Hn HcR Hh; cbn [drop_covered].
  { eexists cseg, []. split_and!; try done. unfold seq_len. rewrite Hf. lia. }
  pose proof (seq_len_fin seg) as Hseq. pose proof (at_end _ _ Hs). pose proof (at_len _ _ Hs). pose proof (at_len _ _ Hc).
  rewrite (seq_geq _ (isn + (k + seg_len cseg)) _ (isn + (j + seg_len seg))) by
    (rewrite ?Z.add_assoc; first [apply stands_add, stands_u32 | apply stands_add, stands_seq; done | near_lia]).
  destruct (_ <=? _) eqn:E.
  - change (has TCP_FIN (TCPH_FLAGS seg)) with (fin seg). destruct (fin seg) eqn:Ef.
    + rewrite (Hl eq_refl). pose proof (at_fin _ _ Hs Ef). pose proof (at_end _ _ Hc). cbn [drop_covered].
      eexists _, []. split_and!; [done|apply set_fin_at; [done|lia]|done| |done|done].
      unfold seq_len. rewrite set_fin_fin. cbn [TCPH_SET_FLAG seg_len]. lia.
    + apply IH; try done; try lia. intros n l' -> En. destruct Hseq as [[_ ?]|[Hq' _]]; [done|].
      inversion Hq as [|? ? j' ? Hn' ? ? ? ? ?]; subst. pose proof (seq_len_fin n). pose proof (at_len _ _ Hn').
      assert (j' = k) by (apply pos_inj; [rewrite <- En; symmetry; apply (at_seq _ _ Hn')|unfold near; lia]). lia.
  - eexists cseg, (seg :: l). split_and!; try done; [unfold seq_len; rewrite Hf; lia|congruence|]. exists j. split_and!; [done| |lia|].
    + destruct (decide (j = k)) as [->|]; [specialize (Hh seg l eq_refl (at_seq _ _ Hs))|]; lia.
    + econstructor; eauto; lia.
Qed.

(** The length between two numbers, in 16 bits. *)
Lemma u16_diff x a y b : stands x a -> stands y b -> u16 (x - y) = u16 (a - b).
Proof. unfold stands, u32, u16. intros Hx Hy. revert Hx Hy. lia_mod. Qed.

Lemma trim_seg_diff x a y b seg : stands x a -> stands y b -> trim_seg (x - y) seg = trim_seg (a - b) seg.
Proof. intros Hx Hy. unfold trim_seg. by rewrite (u16_diff x a y b). Qed.

Lemma queue_one R lo seg k : seg_at seg k -> lo <= k -> 0 < seq_len seg -> k + seq_len seg <= R -> queue_at R lo [seg].
Proof. intros. econstructor; eauto. constructor. Qed.

Lemma insert_at R lo k cseg next :
  seg_at cseg k -> 0 < seq_len cseg -> k + seq_len cseg <= R -> lo <= k -> queue_at R k next -> R - k < 2 ^ 31 ->
  (forall n l, next = n :: l -> seg_seqno n = u32 (isn + k) -> seg_len n <= seg_len cseg) ->
  queue_at R lo (tcp_oos_insert_segment (u32 (isn + k)) cseg next).
Proof.
  intros Hc Hpos HR Hlo Hq Hn Hh. unfold tcp_oos_insert_segment.
  change (has TCP_FIN (TCPH_FLAGS cseg)) with (fin cseg). destruct (fin cseg) eqn:Ef; [by eapply queue_one|].
  pose proof (seq_len_fin cseg) as Hsl. pose proof (at_len _ _ Hc).
  destruct (drop_covered_at R k k cseg next) as (c & next' & -> & Hc' & Hlen & HR' & Hfin & Hleft); try done; [lia..|].
  assert (0 < seq_len c) by (pose proof (seq_len_fin c); destruct Hsl as [[_ ?]|]; [congruence|lia]).
  destruct next' as [|n next']; [by eapply queue_one|]. destruct Hleft as (k' & Hn' & Hk' & He & Hq').
  assert (Hcf : fin c = false) by (destruct (fin c); [by specialize (Hfin eq_refl)|done]).
  inversion Hq' as [|? ? k'' ? Hn'' ? ? ? ? ?]; subst. pose proof (seq_len_fin n).
  assert (k'' = k') as -> by (apply pos_inj; [rewrite <- (at_seq _ _ Hn''); apply (at_seq _ _ Hn')|pose proof (at_len _ _ Hn''); unfold near; lia]).
  pose proof (at_len _ _ Hn'). rewrite Hlen.
  rewrite (seq_gt _ (isn + (k + seg_len cseg)) _ (isn + k')) by
    (rewrite ?Z.add_assoc; first [apply stands_add, stands_u32 | apply stands_seq; done | unfold near; lia]).
  destruct (_ <? _) eqn:E.
  - rewrite (trim_seg_diff _ (isn + k') _ (isn + k)) by (apply stands_u32 || by apply stands_seq).
    destruct (trim_seg_at c k (isn + k' - (isn + k))) as (Ht & Htl & Htf); [done|lia|done|].
    pose proof (seq_len_fin (trim_seg (isn + k' - (isn + k)) c)) as Hx. rewrite Htf, Htl in Hx.
    apply (queue_cons R lo _ k); try lia; [done|]. rewrite Htl.
    apply (queue_weaken R k'); [lia|done].
  - apply (queue_cons R lo _ k); try done; try lia. apply (queue_weaken R k'); [lia|done].
Qed.

(** A segment is cut where the next one begins. *)
Lemma trim_prev_at R lo j k seg l :
  seg_at seg j -> lo <= j -> 0 < seq_len seg -> j + seq_len seg <= R -> fin seg = false -> j < k -> near j k ->
  near (j + seg_len seg) k -> queue_at R k l -> queue_at R lo (trim_prev (u32 (isn + k)) seg :: l).
Proof.
  intros Hs Hlo Hp HR Hf Hjk Hn1 Hn2 Hq. unfold trim_prev. pose proof (seq_len_fin seg). pose proof (at_len _ _ Hs).
  rewrite (seq_gt _ (isn + (j + seg_len seg)) _ (isn + k)) by
    (first [by apply stands_end | apply stands_u32 | unfold near in *; lia]).
  destruct (_ <? _) eqn:E.
  - rewrite (trim_seg_diff _ (isn + k) _ (isn + j)) by (apply stands_u32 || by apply stands_seq).
    destruct (trim_seg_at seg j (isn + k - (isn + j))) as (Ht & Htl & Htf); [done|lia|done|].
    pose proof (seq_len_fin (trim_seg (isn + k - (isn + j)) seg)) as Hx. rewrite Htf, Htl in Hx.
    apply (queue_cons R lo _ j); try lia; [done|]. rewrite Htl.
    apply (queue_weaken R k); [lia|done].
  - apply (queue_cons R lo _ j); try done; try lia. apply (queue_weaken R k); [lia|done].
Qed.

(** *** The walk over the queue *)

(** Only external calls were made. *)
Definition with_calls (n : nat) (s : tcp) : tcp := mkTcp (pcb s) (ins s) (tcp_ticks s) (tcp_input_pcb s) n (sent s).

(** The segment that arrives is the part of the stream at [k], and fits into
    the window that ends at [R]. *)
Record arrives (R k : Z) (s : tcp) : Prop := {
  arr_seg : seg_at (inseg (ins s)) k;
  arr_seq : in_seqno (ins s) = u32 (isn + k);
  arr_len : tcplen (ins s) = seq_len (inseg (ins s));
  arr_pos : 0 < seq_len (inseg (ins s));
  arr_fits : k + seq_len (inseg (ins s)) <= R
}.

Lemma arrives_calls R k s n : arrives R k s -> arrives R k (with_calls n s).
Proof. by intros []. Qed.

Lemma trim_to_window_fits R k s c :
  arrives R k s -> right_edge (pcb s) = u32 (isn + R) -> R - k < 2 ^ 31 -> trim_to_window c s = Some (c, s).
Proof.
  intros [] HR Hn. unfold trim_to_window. rewrite HR, arr_seq0, arr_len0, Z.add_comm.
  rewrite (seq_gt _ (isn + (k + seq_len (inseg (ins s)))) _ (isn + R)).
  - by replace (_ <? _) with false by lia.
  - rewrite Z.add_assoc. apply stands_add, stands_u32.
  - apply stands_u32.
  - unfold near. lia.
Qed.

Lemma queue_front R lo pv l :
  queue_at R lo (pv :: l) -> exists j, seg_at pv j /\ lo <= j /\ 0 < seq_len pv /\ j + seq_len pv <= R /\
    (fin pv = true -> l = []) /\ queue_at R (j + seg_len pv) l.
Proof. intros H. inversion H; subst. eauto 10. Qed.

Lemma queue_behind R lo l : queue_at R lo l -> l <> [] -> lo <= R.
Proof. intros Hq Hl. destruct Hq as [|? ? ? ? Hs]; [done|]. lia. Qed.

(** A queue behind a segment that ends before it. *)
Lemma queue_prefix R lo j k prev l :
  (forall pv, prev = Some pv -> exists i, seg_at pv i /\ lo <= i < k /\ i + seg_len pv <= j
      /\ i + seq_len pv <= R /\ 0 < seq_len pv /\ fin pv = false) ->
  lo <= j -> queue_at R j l -> queue_at R lo (option_list prev ++ l).
Proof.
  intros Hp Hj Hq. destruct prev as [pv|]; [|by apply (queue_weaken R j)].
  destruct (Hp pv eq_refl) as (i & ? & ? & ? & ? & ? & Hf). cbn [option_list app].
  apply (queue_cons R lo _ i); try done; [lia|congruence|]. by apply (queue_weaken R j).
Qed.

Lemma goes_before_at R lo k j prev next :
  seg_at next j -> lo <= j -> lo <= k -> j <= R -> k < R -> R - lo < 2 ^ 31 -> k <> j ->
  (forall pv, prev = Some pv -> exists i, seg_at pv i /\ lo <= i < k /\ i + seg_len pv <= j
      /\ i + seq_len pv <= R /\ 0 < seq_len pv /\ fin pv = false) ->
  goes_before (u32 (isn + k)) prev next = (k <? j).
Proof.
  intros Hj Hlj Hlk HjR HkR Hn Hkj Hpv. unfold goes_before. destruct prev as [pv|].
  - destruct (Hpv pv eq_refl) as (i & Hi & Hik & Hend & _). pose proof (at_len _ _ Hi).
    assert (H1 : stands (seg_seqno pv + 1) (isn + i + 1)) by (by apply stands_add, stands_seq).
    assert (H2 : stands (seg_seqno next - 1) (isn + j - 1)) by (by apply stands_sub, stands_seq).
    rewrite (seq_between _ (isn + k) _ _ _ _ (stands_u32 _) H1 H2) by (unfold near; lia). lia.
  - rewrite (seq_lt _ (isn + k) _ (isn + j)) by (apply stands_u32 || (by apply stands_seq) || (unfold near; lia)). lia.
Qed.

Lemma append_last_at R k j lo next s :
  arrives R k s -> right_edge (pcb s) = u32 (isn + R) -> lo <= j -> j < k -> R - j < 2 ^ 31 ->
  seg_at next j -> 0 < seq_len next -> j + seq_len next <= R ->
  exists before after n, append_last next s = Some (before, after, with_calls n s) /\ queue_at R j (before ++ after).
Proof.
  intros Ha HR Hlo Hjk Hn Hj Hp HjR. unfold append_last. change (has TCP_FIN (TCPH_FLAGS next)) with (fin next).
  pose proof Ha as [Hs Hseq Htl Hpos Hfit]. pose proof (at_len _ _ Hj). pose proof (seq_len_fin next).
  destruct (fin next) eqn:Ef; [eexists _, _, (calls s); split; [by destruct s|by eapply queue_one]|].
  unfold tcp_seg_copy. cbn [call]. destruct (tcp_seg_malloc_ok _).
  - rewrite (trim_to_window_fits R k (with_calls (S (calls s)) s)) by (done || by apply arrives_calls || lia).
    cbn. rewrite Hseq. eexists _, _, (S (calls s)). split; [done|].
    apply (trim_prev_at R j j k); try done; try lia; try (unfold near; lia). by apply (queue_one R k _ k).
  - eexists _, _, (S (calls s)). split; [done|]. by apply (queue_one R j _ j).
Qed.

(** The queue before and from the place of the new segment. *)
Lemma walk_at R k l : forall prev lo sackbeg s,
  arrives R k s -> right_edge (pcb s) = u32 (isn + R) -> lo <= k -> R - lo < 2 ^ 31 ->
  queue_at R lo (option_list prev ++ l) -> (forall pv, prev = Some pv -> exists j, seg_at pv j /\ lo <= j < k) ->
  exists before after sackbeg' n,
    ooseq_walk prev l sackbeg s = Some (before, after, sackbeg', with_calls n s) /\ queue_at R lo (before ++ after).
Proof.
  induction l as [|next l IH]; intros prev lo sackbeg s Ha HR Hlo Hn Hq Hprev.
  { exists (option_list prev), [], sackbeg, (calls s). by destruct s. }
  pose proof Ha as [Hs Hseq Htl Hpos Hfit].
  assert (Hnext : exists j, seg_at next j /\ lo <= j /\ 0 < seq_len next /\ j + seq_len next <= R /\ (fin next = true -> l = []) /\
    queue_at R (j + seg_len next) l /\ (forall pv, prev = Some pv -> exists i, seg_at pv i /\ lo <= i < k /\ i + seg_len pv <= j
      /\ i + seq_len pv <= R /\ 0 < seq_len pv /\ fin pv = false)).
  { destruct prev as [pv|]; cbn [option_list app] in Hq.
    - apply queue_front in Hq as (i & Hi & ? & ? & ? & Hf & Hq). apply queue_front in Hq as (j & ? & ? & ? & ? & ? & ?).
      exists j. pose proof (at_len _ _ Hi). split_and!; try done; [lia|]. intros ? [= <-]. exists i.
      destruct (Hprev pv eq_refl) as (i' & Hi' & ?).
      assert (i' = i) as -> by (apply pos_inj; [rewrite <- (at_seq _ _ Hi'); apply (at_seq _ _ Hi)|unfold near; lia]).
      split_and!; try done; try lia. destruct (fin pv); [by specialize (Hf eq_refl)|done].
    - apply queue_front in Hq as (j & ? & ? & ? & ? & ? & ?). exists j. split_and!; done. }
  destruct Hnext as (j & Hj & Hlj & Hpj & HjR & Hfj & Hql & Hpv).
  pose proof (at_len _ _ Hj).
  assert (Hk : queue_at R j (next :: l)) by (by apply (queue_cons R j _ j)).
  cbn [ooseq_walk]. rewrite Hseq, (at_seq _ _ Hj).
  rewrite (seq_eq _ (isn + k) _ (isn + j)) by (apply stands_u32 || apply u32_u32 || (unfold near; lia)).
  destruct (isn + k =? isn + j) eqn:Ekj.
  { (* the same number *)
    assert (j = k) as -> by lia. destruct (seg_len next <? seg_len (inseg (ins s))) eqn:El.
    - unfold tcp_seg_copy. cbn [call]. eexists _, _, sackbeg, (S (calls s)). split; [done|].
      apply (queue_prefix R lo k k prev); [done|lia|].
      destruct (tcp_seg_malloc_ok _); [|done]. apply insert_at; try done; try lia.
      intros n' l' [= <- <-] _. lia.
    - eexists _, _, sackbeg, (calls s). split; [by destruct s|]. by apply (queue_prefix R lo k k prev). }
  rewrite (goes_before_at R lo k j prev next) by (done || lia).
  destruct (k <? j) eqn:Eb.
  { (* between two *)
    assert (Hkj : k < j) by lia.
    unfold tcp_seg_copy. cbn [call]. destruct (tcp_seg_malloc_ok _).
    - eexists _, _, sackbeg, (S (calls s)). split; [done|].
      assert (Hins : queue_at R k (tcp_oos_insert_segment (u32 (isn + k)) (inseg (ins s)) (next :: l))).
      { apply insert_at; try done; try lia.
        - apply (queue_cons R k _ j); try done; lia.
        - intros n' l' [= <- <-] E. rewrite (at_seq _ _ Hj) in E. apply pos_inj in E; [lia|unfold near; lia]. }
      destruct prev as [pv|]; [|by apply (queue_weaken R k)].
      destruct (Hpv pv eq_refl) as (i & Hi & Hik & Hend & ? & ? & ?). pose proof (at_len _ _ Hi). cbn [option_list fmap list_fmap app].
      apply (trim_prev_at R lo i k); try done; try lia; unfold near; lia.
    - eexists _, _, sackbeg, (S (calls s)). split; [done|]. by apply (queue_prefix R lo j k prev). }
  assert (Hjk : j < k) by lia.
  destruct (bool_decide (l = []) && _) eqn:El.
  - (* behind the last *)
    apply andb_true_iff in El as [->%bool_decide_eq_true _].
    destruct (append_last_at R k j lo next s) as (b & a & n & -> & Hba); try done; try lia.
    cbn. eexists _, _, _, n. split; [done|]. rewrite <- app_assoc. by apply (queue_prefix R lo j k prev).
  - destruct (IH (Some next) j (move_sackbeg prev next sackbeg) s) as (b & a & sb & n & -> & Hba); try done; try lia.
    + intros pv [= <-]. exists j. split; [done|lia].
    + cbn. eexists _, _, sb, n. split; [done|]. rewrite <- app_assoc. by apply (queue_prefix R lo j k prev).
Qed.
End Stream.
End TcpRecvInv.
