(* ===== verification/TcpRecvStep.v ===== *)
(** The receiving side of the TCP of lwIP: one segment of the stream arrives. *)

From S2P Require Export TcpRecvInv.
Export TcpRecvInv.
Open Scope Z_scope.

Module TcpRecvStep.
Section Step.
Context {Opt : TcpOptions} {Wd : TcpWorld} {Pb : PbufLib} {N : NetworkOrder}.
Context (D : list Z) (isn : Z).

#[local] Abbreviation seg_at := (seg_at D isn).
#[local] Abbreviation queue_at := (queue_at D isn).
#[local] Abbreviation bytes := (bytes D).
#[local] Abbreviation r s := (rx (pcb s)).

(** The largest window. *)
Definition wnd_max : Z := if LWIP_WND_SCALE then 2 ^ 30 - 2 ^ 14 else 0xffff.

(** The next byte is that at [n]; the window ends at [R], and at [e] as far as
    the other side knows. *)
Record recv_core (n R : Z) (s : tcp) : Prop := {
  rc_nxt : rcv_nxt (r s) = u32 (isn + n);
  rc_pos : 0 <= n <= size D + 1;
  rc_wnd : rcv_wnd (r s) = R - n;
  rc_max : 0 <= R - n <= TCP_WND_MAX (pcb s);
  rc_ann : 0 <= rcv_ann_wnd (r s) <= R - n;
  rc_edge : exists e, rcv_ann_right_edge (r s) = u32 (isn + e) /\ e <= R /\ R - e < 2 ^ 31;
  rc_mss : 0 <= mss (tx (pcb s)) < 2 ^ 16
}.

Definition recv_inv (n R : Z) (s : tcp) : Prop := recv_core n R s /\ queue_at R (n + 1) (ooseq (r s)).

(** What is not about received data leaves the receiver as it is; a segment that
    is sent tells the other side of the window. *)
Record keeps (s s' : tcp) : Prop := {
  kp_nxt : rcv_nxt (r s') = rcv_nxt (r s);
  kp_wnd : rcv_wnd (r s') = rcv_wnd (r s);
  kp_ann : rcv_ann_wnd (r s') = rcv_ann_wnd (r s);
  kp_ooseq : ooseq (r s') = ooseq (r s);
  kp_edge : rcv_ann_right_edge (r s') = rcv_ann_right_edge (r s)
            \/ rcv_ann_right_edge (r s') = u32 (rcv_nxt (r s) + rcv_ann_wnd (r s));
  kp_mss : mss (tx (pcb s')) = mss (tx (pcb s));
  kp_state : state (pcb s') = state (pcb s);
  kp_data : recv_data (ins s') = recv_data (ins s);
  kp_flags : recv_flags (ins s') = recv_flags (ins s);
  kp_seg : inseg (ins s') = inseg (ins s) /\ in_seqno (ins s') = in_seqno (ins s) /\ tcplen (ins s') = tcplen (ins s);
  kp_input : tcp_input_pcb s' = tcp_input_pcb s;
  kp_max : TCP_WND_MAX (pcb s') = TCP_WND_MAX (pcb s)
}.

Lemma keeps_refl s : keeps s s.
Proof. split; auto. Qed.

Lemma keeps_trans a b c : keeps a b -> keeps b c -> keeps a c.
Proof.
  intros [] []. split; try congruence.
  - destruct kp_edge0 as [E|E], kp_edge1 as [E'|E']; rewrite ?E', ?E, ?kp_nxt0, ?kp_ann0; auto.
  - destruct kp_seg0 as (? & ? & ?), kp_seg1 as (? & ? & ?). split_and!; congruence.
Qed.

Lemma wnd_max_small : wnd_max < 2 ^ 30.
Proof. unfold wnd_max. destruct LWIP_WND_SCALE; lia. Qed.

Lemma TCP_WND_MAX_le p : TCP_WND_MAX p <= wnd_max.
Proof.
  pose proof wnd_ok. pose proof rcv_scale_ok. unfold TCP_WND_MAX, wnd_max, tcpwnd, TCPWND_MIN16. destruct LWIP_WND_SCALE; [|lia].
  assert (Hs : Z.shiftl 65535 TCP_RCV_SCALE <= 2 ^ 30 - 2 ^ 14).
  { rewrite Z.shiftl_mul_pow2 by lia. assert (2 ^ TCP_RCV_SCALE <= 2 ^ 14) by (apply Z.pow_le_mono_r; lia). lia. }
  destruct (has _ _).
  - unfold u32. rewrite Z.mod_small; lia.
  - assert (0 <= u16 (Z.min TCP_WND 65535) < 65536) by (unfold u16; apply Z.mod_pos_bound; lia).
    unfold u32. rewrite Z.mod_small; lia.
Qed.

Lemma core_small n R s : recv_core n R s -> 0 <= R - n < 2 ^ 30.
Proof. intros H. pose proof (rc_max _ _ _ H). pose proof (TCP_WND_MAX_le (pcb s)). pose proof wnd_max_small. lia. Qed.

(** A flag that is not touched. *)
Lemma has_set_flags f g p : Z.land f g = 0 -> Z.land g 0xffff = g -> has g (flags (tcp_set_flags f p)) = has g (flags p).
Proof.
  intros H1 H2. unfold has, tcp_set_flags. cbn [flags set_flags]. do 2 f_equal. unfold u16. change 65536 with (2 ^ 16).
  rewrite <- Z.land_ones by lia. apply Z.bits_inj'. intros i Hi.
  apply (f_equal (fun x => Z.testbit x i)) in H1, H2. revert H1 H2. change (Z.ones 16) with 0xffff.
  rewrite !Z.land_spec, Z.lor_spec, Z.bits_0. destruct (Z.testbit f i), (Z.testbit g i), (Z.testbit 65535 i), (Z.testbit (flags p) i); done.
Qed.

Lemma has_clear_flags f g p : Z.land f g = 0 -> Z.land g 0xffff = g -> has g (flags (tcp_clear_flags f p)) = has g (flags p).
Proof.
  intros H1 H2. unfold has, tcp_clear_flags. cbn [flags set_flags]. do 2 f_equal. apply Z.bits_inj'. intros i Hi.
  apply (f_equal (fun x => Z.testbit x i)) in H1, H2. revert H1 H2.
  rewrite !Z.land_spec, Z.lnot_spec, Z.bits_0 by done. destruct (Z.testbit f i), (Z.testbit g i), (Z.testbit 65535 i), (Z.testbit (flags p) i); done.
Qed.

Lemma max_flags p q : has TF_WND_SCALE (flags q) = has TF_WND_SCALE (flags p) -> TCP_WND_MAX q = TCP_WND_MAX p.
Proof. intros E. unfold TCP_WND_MAX. by rewrite E. Qed.

Lemma core_ext n R s s' :
  r s' = r s -> tx (pcb s') = tx (pcb s) -> flags (pcb s') = flags (pcb s) -> recv_core n R s -> recv_core n R s'.
Proof. intros E1 E2 E3 []. split; rewrite ?E1, ?E2; try done. by rewrite (max_flags (pcb s)) by (by rewrite E3). Qed.

Lemma keeps_core n R s s' : keeps s s' -> recv_core n R s -> recv_core n R s'.
Proof.
  intros [] Hc. pose proof (core_small _ _ _ Hc). destruct Hc as [? ? ? ? ? (e & He & ? & ?) ?]. split; try congruence; try lia.
  destruct kp_edge0 as [E|E]; rewrite E.
  - exists e. auto.
  - exists (n + rcv_ann_wnd (r s)). rewrite rc_nxt0, u32_add_l, Z.add_assoc. split; [done|]. lia.
Qed.

Lemma keeps_inv n R s s' : keeps s s' -> recv_inv n R s -> recv_inv n R s'.
Proof. intros H [Hc Hq]. split; [by apply (keeps_core n R s)|]. by rewrite (kp_ooseq _ _ H). Qed.

(** *** Segments without data *)

Lemma output_control_keeps o s : keeps s (tcp_output_control_segment o s).2.
Proof. unfold tcp_output_control_segment. cbn [call]. destruct (route _); split; auto. Qed.

Lemma fill_options_keeps p f n o s : keeps s (tcp_output_fill_options p f n o s).2.
Proof. split; auto. Qed.

Lemma alloc_header_keeps seqno data s : keeps s (tcp_output_alloc_header seqno data s).2.
Proof.
  unfold tcp_output_alloc_header, tcp_output_alloc_header_common. cbn [call]. destruct (pbuf_alloc_ok _); split; auto.
Qed.

Lemma set_flags_keeps f s : Z.land f TF_WND_SCALE = 0 -> keeps s (on_pcb (tcp_set_flags f) s).
Proof. intros H. split; auto. apply max_flags. by apply has_set_flags. Qed.

Lemma clear_flags_keeps f s : Z.land f TF_WND_SCALE = 0 -> keeps s (on_pcb (tcp_clear_flags f) s).
Proof. intros H. split; auto. apply max_flags. by apply has_clear_flags. Qed.

Lemma send_empty_ack_keeps s : keeps s (tcp_send_empty_ack s).2.
Proof.
  unfold tcp_send_empty_ack.
  destruct (tcp_output_alloc_header _ _ s) as [[o|] s1] eqn:E1; pose proof (alloc_header_keeps (snd_nxt (tx (pcb s))) [] s) as H1;
    rewrite E1 in H1; cbn [snd] in *.
  - destruct (tcp_output_fill_options _ _ _ o s1) as [o2 s2] eqn:E2.
    assert (H2 : keeps s1 s2) by (apply (f_equal snd) in E2; cbn [snd] in E2; rewrite <- E2; apply fill_options_keeps).
    set (s3 := if LWIP_TCP_TIMESTAMPS then _ else s2).
    assert (H3 : keeps s2 s3) by (unfold s3; destruct LWIP_TCP_TIMESTAMPS; split; auto).
    destruct (tcp_output_control_segment o2 s3) as [err s4] eqn:E4.
    pose proof (output_control_keeps o2 s3) as H4. rewrite E4 in H4. cbn [snd] in *.
    apply (keeps_trans _ s1), (keeps_trans _ s2), (keeps_trans _ s3), (keeps_trans _ s4); try done.
    destruct (err =? ERR_OK); [by apply clear_flags_keeps|by apply set_flags_keeps].
  - apply (keeps_trans _ s1); [done|by apply set_flags_keeps].
Qed.

(** *** The window *)

Lemma update_ann_wnd_at n R e p :
  rcv_nxt (rx p) = u32 (isn + n) -> rcv_wnd (rx p) = R - n -> 0 <= R - n <= wnd_max ->
  rcv_ann_right_edge (rx p) = u32 (isn + e) -> e <= R -> R - e < 2 ^ 31 -> 0 <= mss (tx p) < 2 ^ 16 ->
  exists v infl, tcp_update_rcv_ann_wnd p = Some (infl, in_rx (set_rcv_ann_wnd v) p) /\ 0 <= v <= R - n.
Proof.
  intros En Ew Hm Ee He Hb Hmss. unfold tcp_update_rcv_ann_wnd. rewrite En, Ew, Ee.
  pose proof wnd_max_small. pose proof wnd_ok.
  assert (Hmin : 0 <= Z.min (TCP_WND / 2) (mss (tx p)) < 2 ^ 16) by (pose proof (Z.div_pos TCP_WND 2); lia).
  rewrite (seq_geq _ (isn + R) _ (isn + e + Z.min (TCP_WND / 2) (mss (tx p)))); cycle 1.
  { rewrite u32_add_l. replace (isn + n + (R - n)) with (isn + R) by lia. apply stands_u32. }
  { apply stands_add, stands_u32. }
  { unfold near. lia. }
  destruct (_ <=? _) eqn:E1; [eexists _, _; split; [done|lia]|].
  rewrite (seq_gt _ (isn + n) _ (isn + e)) by (apply stands_u32 || (unfold near; lia)).
  destruct (_ <? _) eqn:E2; [eexists 0, _; split; [done|lia]|].
  rewrite u32_sub_l, u32_sub_r. replace (isn + e - (isn + n)) with (e - n) by lia.
  assert (Hen : u32 (e - n) = e - n) by (unfold u32; apply Z.mod_small; lia). rewrite Hen.
  unfold wnd_max in Hm. destruct LWIP_WND_SCALE eqn:Ews; cbn [orb].
  - cbn. eexists _, _. split; [done|]. unfold tcpwnd. rewrite Ews, Hen. lia.
  - replace (e - n <=? 65535) with true by lia. cbn. eexists _, _. split; [done|].
    unfold tcpwnd. rewrite Ews, u16_small by lia. lia.
Qed.

(** [len] more bytes are received. *)
Definition advanced (nxt wnd v : Z) (s : tcp) : tcp :=
  on_pcb (in_rx (fun r => set_rcv_ann_wnd v (set_rcv_wnd wnd (set_rcv_nxt nxt r)))) s.

Lemma advanced_core n n' R v s :
  recv_core n R s -> n <= n' <= R -> n' <= size D + 1 -> 0 <= v <= R - n' ->
  recv_core n' R (advanced (u32 (isn + n')) (R - n') v s).
Proof.
  intros [] Hn Hs Hv. set (s' := advanced _ _ v s).
  assert (E1 : TCP_WND_MAX (pcb s') = TCP_WND_MAX (pcb s)) by done.
  assert (E2 : rcv_ann_wnd (r s') = v) by done.
  split; rewrite ?E1, ?E2; done || lia.
Qed.

Lemma advance_at n len R s :
  recv_core n R s -> 0 <= len <= R - n -> n + len <= size D + 1 ->
  exists v, advance (u32 (isn + (n + len))) len s = Some (advanced (u32 (isn + (n + len))) (R - (n + len)) v s) /\
    0 <= v <= R - (n + len).
Proof.
  intros Hc Hl Hs. destruct Hc as [En ? Ew Hm Ha (e & Ee & He & Hb) Hmss]. pose proof (TCP_WND_MAX_le (pcb s)).
  unfold advance, update_ann_wnd.
  set (s1 := on_pcb (in_rx (set_rcv_nxt _)) s). change (rcv_wnd (r s1)) with (rcv_wnd (r s)). rewrite Ew.
  replace (len <=? R - n) with true by lia. cbn [lwip_assert mbind option_bind].
  set (s2 := on_pcb (in_rx (fun r => set_rcv_wnd (rcv_wnd r - len) r)) s1).
  assert (E2 : rcv_wnd (r s2) = R - (n + len)) by (change (rcv_wnd (r s2)) with (rcv_wnd (r s) - len); lia).
  destruct (update_ann_wnd_at (n + len) R e (pcb s2)) as (v & infl & -> & Hv); try done; try lia.
  exists v. split; [|done]. cbn [mbind option_bind]. unfold advanced. by rewrite <- E2.
Qed.

(** *** What is passed up *)

(** The bytes of the stream between two positions; the last one may be behind FIN. *)
Definition chunk (n n' : Z) : list Z := bytes n (Z.min n' (size D) - n).

Definition data (s : tcp) : list Z := concat (default [] (recv_data (ins s))).

Record received (n n' R : Z) (s s' : tcp) : Prop := {
  rv_core : recv_core n' R s';
  rv_le : n <= n';
  rv_data : data s' = data s ++ chunk n n';
  rv_fin : got_fin s' = got_fin s || (n <=? size D) && (size D <? n')
}.

Lemma chunk_nil n : chunk n n = [].
Proof. unfold chunk, bytes. by replace (Z.to_nat _) with 0%nat by lia. Qed.

Lemma chunk_app a b c : 0 <= a -> a <= b -> b <= c -> chunk a b ++ chunk b c = chunk a c.
Proof.
  intros. unfold chunk. destruct (Z.le_gt_cases b (size D)).
  - rewrite Z.min_l by lia. replace (Z.min c (size D) - a) with ((b - a) + (Z.min c (size D) - b)) by lia.
    rewrite bytes_app by lia. by replace (a + (b - a)) with b by lia.
  - rewrite !Z.min_r by lia. replace (bytes b (size D - b)) with (@nil Z); [by rewrite app_nil_r|].
    unfold bytes. by replace (Z.to_nat (size D - b)) with 0%nat by lia.
Qed.

Lemma chunk_seg seg n : seg_at seg n -> chunk n (n + seq_len seg) = concat (seg_p seg).
Proof.
  intros H. rewrite (at_data _ _ _ _ H). unfold chunk. f_equal.
  pose proof (at_end _ _ _ _ H). pose proof (at_len _ _ _ _ H). pose proof (at_fin _ _ _ _ H).
  pose proof (seq_len_fin seg) as [[-> Hf]|[-> Hf]]; [specialize (H2 Hf)|]; lia.
Qed.

Lemma received_refl n R s : recv_core n R s -> received n n R s s.
Proof. intros H. split; [done|lia|by rewrite chunk_nil, app_nil_r|]. destruct (got_fin s); [done|]. cbn [orb]. lia. Qed.

Lemma received_trans n1 n2 n3 R a b c :
  0 <= n1 -> received n1 n2 R a b -> received n2 n3 R b c -> received n1 n3 R a c.
Proof.
  intros Hn [C1 L1 D1 F1] [C2 L2 D2 F2]. split; [done|lia| |].
  - rewrite D2, D1, <- app_assoc. by rewrite chunk_app.
  - rewrite F2, F1. destruct (got_fin a); [done|]. cbn [orb]. lia.
Qed.

(** What only keeps the receiver receives nothing. *)
Lemma received_keeps n n' R a b c : received n n' R a b -> keeps b c -> received n n' R a c.
Proof.
  intros [C L Hd F] H. split; [by apply (keeps_core n' R b)|done| |].
  - rewrite <- Hd. unfold data. by rewrite (kp_data _ _ H).
  - rewrite <- F. unfold got_fin. by rewrite (kp_flags _ _ H).
Qed.

Lemma pass_up_data p a : concat (default [] (recv_data (pass_up p a))) = concat (default [] (recv_data a)) ++ concat p.
Proof.
  unfold pass_up. destruct (0 <? tot_len p) eqn:E.
  - cbn. destruct (recv_data a) as [d|]; [|done]. cbn. by rewrite cat_chain, concat_app.
  - unfold tot_len, size in E. destruct (concat p); [by rewrite app_nil_r|cbn in E; lia].
Qed.

Lemma got_fin_add s : got_fin (on_ins (add_recv_flags TF_GOT_FIN) s) = true.
Proof.
  unfold got_fin, has. cbn. rewrite Z.land_lor_distr_l. change (Z.land 32 32) with 32.
  apply negb_true_iff, Z.eqb_neq. intros E. apply Z.lor_eq_0_iff in E. lia.
Qed.

(** One segment that begins at [n] is taken. *)
Definition taken (seg : tcp_seg) (wnd v : Z) (l : list tcp_seg) (s : tcp) : tcp :=
  let s := advanced (u32 (rcv_nxt (r s) + TCP_TCPLEN seg)) wnd v (on_ins (set_in_seqno (seg_seqno seg)) s) in
  let s := on_ins (pass_up (seg_p seg)) s in
  let s := if has TCP_FIN (TCPH_FLAGS seg) then
             on_pcb (fun p => if bool_decide (state p = ESTABLISHED) then set_state CLOSE_WAIT p else p)
               (on_ins (add_recv_flags TF_GOT_FIN) s)
           else s in
  on_pcb (in_rx (set_ooseq l)) s.

Lemma taken_received seg n R v l s :
  recv_core n R s -> seg_at seg n -> n + seq_len seg <= R -> 0 <= v <= R - (n + seq_len seg) ->
  received n (n + seq_len seg) R s (taken seg (R - (n + seq_len seg)) v l s).
Proof.
  intros Hc Hs HR Hv. pose proof (at_len _ _ _ _ Hs). pose proof (at_end _ _ _ _ Hs). pose proof (at_fin _ _ _ _ Hs) as Hfin.
  pose proof (seq_len_fin seg) as Hsl. change (has TCP_FIN (TCPH_FLAGS seg)) with (fin seg) in *.
  set (s1 := advanced (u32 (isn + (n + seq_len seg))) (R - (n + seq_len seg)) v s).
  assert (Hc1 : recv_core (n + seq_len seg) R s1).
  { apply (advanced_core n); try done; lia. }
  unfold taken. rewrite (tcplen_seq _ _ _ _ Hs), (rc_nxt _ _ _ Hc), u32_add_l, <- Z.add_assoc.
  change (has TCP_FIN (TCPH_FLAGS seg)) with (fin seg).
  split; [|lia| |].
  - apply (core_ext _ _ (on_pcb (in_rx (set_ooseq l)) s1)); try (destruct Hc1; split; assumption).
    all: destruct (fin seg); [|done]; cbn [pcb on_pcb on_ins]; unfold in_rx at 1; cbn [rx tx set_rx]; by destruct (bool_decide _).
  - rewrite (chunk_seg seg n Hs). 
    transitivity (concat (default [] (recv_data (pass_up (seg_p seg) (set_in_seqno (seg_seqno seg) (ins s)))))).
    + by destruct (fin seg).
    + by rewrite pass_up_data.
  - destruct Hsl as [[El Ef]|[El Ef]]; rewrite Ef.
    + specialize (Hfin Ef). replace (_ && _) with true by lia. rewrite orb_true_r.
      match goal with |- got_fin (on_pcb _ (on_pcb _ ?x)) = _ => apply (got_fin_add (on_ins (pass_up (seg_p seg)) (on_ins (set_in_seqno (seg_seqno seg)) s))) end.
    + replace (_ && _) with false by lia. rewrite orb_false_r. unfold got_fin. cbn. unfold pass_up.
      by destruct (0 <? tot_len (seg_p seg)).
Qed.

Lemma dequeue_step seg n R l s :
  recv_core n R s -> seg_at seg n -> n + seq_len seg <= R ->
  exists v, dequeue (seg :: l) s = dequeue l (taken seg (R - (n + seq_len seg)) v l s) /\ 0 <= v <= R - (n + seq_len seg).
Proof.
  intros Hc Hs HR. pose proof (at_len _ _ _ _ Hs). pose proof (at_end _ _ _ _ Hs). pose proof (seq_len_fin seg).
  cbn [dequeue]. rewrite (at_seq _ _ _ _ Hs), (rc_nxt _ _ _ Hc), Z.eqb_refl, (tcplen_seq _ _ _ _ Hs).
  set (s0 := on_ins (set_in_seqno _) s). assert (Hs0 : recv_core n R s0) by (destruct Hc; split; assumption).
  destruct (advance_at n (seq_len seg) R s0 Hs0) as (v & Hadv & Hv); [lia|lia|].
  exists v. split; [|done]. rewrite u32_add_l, <- Z.add_assoc, Hadv. cbn [mbind option_bind].
  unfold taken. by rewrite (tcplen_seq _ _ _ _ Hs), (rc_nxt _ _ _ Hc), u32_add_l, <- Z.add_assoc, (at_seq _ _ _ _ Hs).
Qed.

Lemma dequeue_at l : forall n R s,
  recv_core n R s -> queue_at R n l -> ooseq (r s) = l ->
  exists n' s', dequeue l s = Some s' /\ received n n' R s s' /\ queue_at R (n' + 1) (ooseq (r s')) /\
    (forall seg l', l = seg :: l' -> seg_at seg n -> n + seq_len seg <= n').
Proof.
  induction l as [|seg l IH]; intros n R s Hc Hq Ho.
  { exists n, s. split_and!; try done; [by apply received_refl|]. rewrite Ho. constructor. }
  apply queue_front in Hq as (k & Hs & Hk & Hpos & HR & Hf & Hq).
  pose proof (at_len _ _ _ _ Hs). pose proof (at_end _ _ _ _ Hs). pose proof (seq_len_fin seg).
  pose proof (core_small _ _ _ Hc). pose proof (rc_pos _ _ _ Hc).
  destruct (decide (k = n)) as [->|Hkn].
  - destruct (dequeue_step seg n R l s Hc Hs HR) as (v & -> & Hv).
    pose proof (taken_received seg n R v l s Hc Hs HR Hv) as Ht.
    destruct (IH (n + seq_len seg) R (taken seg (R - (n + seq_len seg)) v l s)) as (n' & s' & -> & Hr & Hq' & _).
    + apply (rv_core _ _ _ _ _ Ht).
    + destruct (fin seg) eqn:Ef; [rewrite (Hf eq_refl); constructor|]. apply (queue_weaken _ _ R (n + seg_len seg)); [|done].
      destruct H1 as [[_ ?]|[-> _]]; [congruence|lia].
    + done.
    + exists n', s'. pose proof (rv_le _ _ _ _ _ Hr). split_and!; try done; [|intros; simplify_eq; lia].
      by apply (received_trans n (n + seq_len seg) n' R s (taken seg (R - (n + seq_len seg)) v l s) s'); [lia| |].
  - cbn [dequeue]. rewrite (at_seq _ _ _ _ Hs), (rc_nxt _ _ _ Hc).
    destruct (_ =? _) eqn:E; [apply Z.eqb_eq in E; apply pos_inj in E; [done|unfold near; lia]|].
    exists n, s. split_and!; try done; [by apply received_refl| |].
    + rewrite Ho. apply (queue_cons _ _ R _ _ k); try done; lia.
    + intros seg' l' [= <- <-] Hs'. assert (k = n) as -> by (apply pos_inj with isn; [rewrite <- (at_seq _ _ _ _ Hs), <- (at_seq _ _ _ _ Hs'); done|unfold near; lia]). done.
Qed.

(** *** A segment in sequence *)

#[local] Abbreviation arrives := (arrives D isn).

(** The segment and what is about it change, not what was passed up. *)
Definition same_up (s s' : tcp) : Prop := recv_data (ins s') = recv_data (ins s) /\ recv_flags (ins s') = recv_flags (ins s).

Lemma u16_seq_len seg k : seg_at seg k -> u16 (seq_len seg) = seq_len seg.
Proof. intros H. pose proof (at_len _ _ _ _ H). pose proof (seq_len_fin seg). apply u16_small. lia. Qed.

(** FIN is removed. *)
Lemma clear_fin_at seg k :
  seg_at seg k -> let seg' := TCPH_FLAGS_SET (Z.land (TCPH_FLAGS seg) (Z.lnot TCP_FIN)) seg in
  seg_at seg' k /\ fin seg' = false /\ seg_len seg' = seg_len seg.
Proof.
  intros [] seg'.
  assert (Ef : fin seg' = false).
  { unfold fin, has, seg', TCPH_FLAGS, TCPH_FLAGS_SET. cbn [seg_hflags]. apply negb_false_iff, Z.eqb_eq.
    apply Z.bits_inj'. intros i Hi. rewrite !Z.land_spec, Z.lor_spec, !Z.land_spec, !Z.lnot_spec, Z.bits_0 by done.
    destruct (Z.testbit (seg_hflags seg) i), (Z.testbit 63 i) eqn:E1, (Z.testbit 1 i) eqn:E2; try done. }
  assert (Es : has TCP_SYN (TCPH_FLAGS seg') = false).
  { unfold has, seg', TCPH_FLAGS, TCPH_FLAGS_SET in *. cbn [seg_hflags]. apply negb_false_iff, Z.eqb_eq in at_syn0. apply negb_false_iff, Z.eqb_eq.
    apply Z.bits_inj'. intros i Hi. apply (f_equal (fun x => Z.testbit x i)) in at_syn0. revert at_syn0.
    rewrite !Z.land_spec, Z.lor_spec, !Z.land_spec, !Z.lnot_spec, Z.bits_0 by done.
    destruct (Z.testbit (seg_hflags seg) i), (Z.testbit 63 i) eqn:E1, (Z.testbit 2 i) eqn:E2; try done; cbn; by rewrite ?andb_false_r. }
  split; [|done]. split; try done. by rewrite Ef.
Qed.

Lemma cut_to_window_at n R s :
  recv_core n R s -> n < R -> seg_at (inseg (ins s)) n -> in_seqno (ins s) = u32 (isn + n) -> 0 < seq_len (inseg (ins s)) ->
  exists s1, cut_to_window s = Some s1 /\ pcb s1 = pcb s /\ same_up s s1 /\ arrives R n s1 /\
    n + seq_len (inseg (ins s1)) = Z.min (n + seq_len (inseg (ins s))) R.
Proof.
  intros Hc HnR Hs Hseq Hpos. unfold cut_to_window.
  set (s0 := on_ins (fun a => set_tcplen (TCP_TCPLEN (inseg a)) a) s).
  assert (E0 : tcplen (ins s0) = seq_len (inseg (ins s))).
  { change (tcplen (ins s0)) with (u16 (TCP_TCPLEN (inseg (ins s)))). rewrite (tcplen_seq _ _ _ _ Hs). by apply (u16_seq_len _ n). }
  change (pcb s0) with (pcb s). rewrite E0, (rc_wnd _ _ _ Hc). change (inseg (ins s0)) with (inseg (ins s)).
  destruct (R - n <? seq_len (inseg (ins s))) eqn:E; cycle 1.
  { exists s0. split_and!; try done; [|change (inseg (ins s0)) with (inseg (ins s)); lia].
    split; try done. change (inseg (ins s0)) with (inseg (ins s)). lia. }
  change (has TCP_FIN (TCPH_FLAGS (inseg (ins s)))) with (fin (inseg (ins s))).
  set (seg1 := if fin (inseg (ins s)) then _ else _).
  assert (H1 : seg_at seg1 n /\ fin seg1 = false /\ seg_len seg1 = seg_len (inseg (ins s))).
  { unfold seg1. destruct (fin (inseg (ins s))) eqn:Ef; [by apply clear_fin_at|done]. }
  destruct H1 as (H1 & Hf1 & Hl1). pose proof (at_len _ _ _ _ Hs). pose proof (seq_len_fin (inseg (ins s))).
  replace (R - n <=? 65535) with true by lia. rewrite orb_true_r. cbn [lwip_assert mbind option_bind].
  unfold cut_inseg. rewrite (at_syn _ _ _ _ H1).
  destruct (trim_seg_at D isn seg1 n (R - n) H1) as (H2 & Hl2 & Hf2); [lia|done|].
  set (seg2 := trim_seg (R - n) seg1) in *. rewrite (tcplen_seq _ _ _ _ H2).
  assert (E2 : seq_len seg2 = R - n) by (destruct (seq_len_fin seg2) as [[_ ?]|[? _]]; [congruence|lia]).
  set (s1 := on_ins (fun a => set_tcplen (seq_len seg2) (set_inseg seg2 a)) s0).
  assert (E1 : tcplen (ins s1) = R - n) by (change (tcplen (ins s1)) with (u16 (seq_len seg2)); rewrite (u16_seq_len seg2 n); done).
  change (in_seqno (ins s1)) with (in_seqno (ins s)). rewrite E1, Hseq, u32_add_l. unfold right_edge.
  change (pcb s1) with (pcb s). rewrite (rc_nxt _ _ _ Hc), (rc_wnd _ _ _ Hc), u32_add_l, Z.eqb_refl. cbn [lwip_assert mbind option_bind].
  exists s1. split_and!; try done; [|change (inseg (ins s1)) with seg2; lia].
  split; try done; change (inseg (ins s1)) with seg2; try done; lia.
Qed.

Lemma absorb_drop R lo seg k l :
  seg_at seg k -> fin seg = false -> queue_at R lo l ->
  absorb_covered (u32 (isn + k)) seg (seg_len seg) l =
  (let '(c, l') := drop_covered (u32 (isn + k)) seg l in (c, seq_len c, l')).
Proof.
  intros Hs Hf Hq. revert Hf. induction Hq as [|lo n j l Hn Hlo Hpos HR Hl Hq IH]; intros Hf; cbn [absorb_covered drop_covered].
  - destruct (seq_len_fin seg) as [[_ ?]|[-> _]]; [congruence|done].
  - destruct (TCP_SEQ_GEQ _ _).
    + rewrite (at_syn _ _ _ _ Hs), andb_true_r. change (has TCP_FIN (TCPH_FLAGS n)) with (fin n).
      destruct (fin n) eqn:Ef; [|by apply IH]. rewrite (Hl eq_refl). cbn [absorb_covered drop_covered].
      pose proof (at_len _ _ _ _ Hs). f_equal. f_equal.
      assert (E : TCP_TCPLEN (TCPH_SET_FLAG TCP_FIN seg) = seq_len (TCPH_SET_FLAG TCP_FIN seg)).
      { unfold TCP_TCPLEN, seq_len. rewrite has_lor. unfold fin. rewrite !set_flag_has, (at_syn _ _ _ _ Hs). by rewrite orb_false_r. }
      rewrite E. unfold seq_len. rewrite set_fin_fin. cbn [TCPH_SET_FLAG seg_len]. apply u16_small. lia.
    + destruct (seq_len_fin seg) as [[_ ?]|[-> _]]; [congruence|done].
Qed.

(** After the adjustment the queue begins behind the segment, or where it ends;
    what the segment brought is still there. *)
Lemma adjust_ooseq_at n R s :
  recv_core n R s -> arrives R n s -> queue_at R (n + 1) (ooseq (r s)) ->
  exists s', adjust_ooseq s = Some s' /\ recv_core n R s' /\ same_up s s' /\ arrives R n s' /\
    queue_at R (n + seq_len (inseg (ins s'))) (ooseq (r s')) /\
    (n + seq_len (inseg (ins s)) <= n + seq_len (inseg (ins s')) \/
     exists seg l k, ooseq (r s') = seg :: l /\ seg_at seg k /\ k = n + seq_len (inseg (ins s'))
                     /\ n + seq_len (inseg (ins s)) <= k + seq_len seg).
Proof.
  intros Hc Ha Hq. pose proof Ha as [Hs Hseq Hlen Hpos HR]. unfold adjust_ooseq.
  pose proof (at_len _ _ _ _ Hs). pose proof (at_end _ _ _ _ Hs). pose proof (core_small _ _ _ Hc).
  destruct (ooseq (r s)) as [|q0 ql] eqn:Eo.
  { exists s. split_and!; try done; [rewrite Eo; constructor|lia]. }
  change (has TCP_FIN (TCPH_FLAGS (inseg (ins s)))) with (fin (inseg (ins s))).
  destruct (fin (inseg (ins s))) eqn:Ef.
  { exists (on_pcb (in_rx (set_ooseq [])) s). split_and!; try done; [by destruct Hc|constructor|left; change (inseg (ins (on_pcb (in_rx (set_ooseq [])) s))) with (inseg (ins s)); lia]. }
  assert (Esl : seq_len (inseg (ins s)) = seg_len (inseg (ins s))) by (destruct (seq_len_fin (inseg (ins s))) as [[_ ?]|[? _]]; congruence).
  rewrite Hseq, Hlen, Esl, (absorb_drop R (n + 1) _ n (q0 :: ql)) by done.
  destruct (drop_covered_at D isn R (n + 1) n (inseg (ins s)) (q0 :: ql)) as (c & l & -> & Hc' & Hcl & HcR & Hcf & Hleft); try done; try lia.
  { intros n0 l0 [= <- <-] E. apply queue_front in Hq as (j & Hj & Hlj & ? & ? & _). rewrite (at_seq _ _ _ _ Hj) in E.
    apply pos_inj in E; [lia|unfold near; lia]. }
  pose proof (seq_len_fin c) as Hsc.
  set (s1 := on_ins (fun a => set_tcplen (seq_len c) (set_inseg c a)) (on_pcb (in_rx (set_ooseq l)) s)).
  assert (Hc1 : recv_core n R s1) by (by destruct Hc).
  assert (Ha1 : arrives R n s1).
  { split; try done; change (inseg (ins s1)) with c; try lia. apply (u16_seq_len c n Hc'). }
  destruct l as [|q1 l].
  { exists s1. split_and!; try done; [constructor|]. left. change (inseg (ins s1)) with c. lia. }
  destruct Hleft as (k & Hk & Hnk & Hend & Hql).
  assert (Ecf : fin c = false) by (destruct (fin c); [by specialize (Hcf eq_refl)|done]).
  assert (Ecl : seq_len c = seg_len c) by (destruct Hsc as [[_ ?]|[? _]]; congruence).
  apply queue_front in Hql as (k' & Hk' & ? & ? & HkR & Hf1 & Hql).
  assert (k' = k) as -> by (apply pos_inj with isn; [rewrite <- (at_seq _ _ _ _ Hk), <- (at_seq _ _ _ _ Hk'); done|unfold near; lia]).
  pose proof (seq_len_fin q1) as Hsq. pose proof (at_len _ _ _ _ Hk).
  rewrite (seq_gt _ (isn + (n + seq_len c)) _ (isn + k)); cycle 1.
  { rewrite Z.add_assoc. apply stands_add, stands_u32. }
  { by apply stands_seq with D. }
  { unfold near. lia. }
  destruct (_ <? _) eqn:E; cycle 1.
  { exists s1. split_and!; try done; change (inseg (ins s1)) with c; [|left; lia].
    apply (queue_cons _ _ R _ _ k); try done; lia. }
  assert (Ediff : u16 (seg_seqno q1 - u32 (isn + n)) = k - n).
  { pose proof (at_len _ _ _ _ Hc'). rewrite (u16_diff _ (isn + k) _ (isn + n)) by (by apply stands_seq with D || apply stands_u32).
    rewrite u16_small; lia. }
  rewrite Ediff. unfold cut_inseg. rewrite (at_syn _ _ _ _ Hc').
  destruct (trim_seg_at D isn c n (k - n) Hc') as (Ht & Htl & Htf); [lia|done|].
  set (c2 := trim_seg (k - n) c) in *. rewrite (tcplen_seq _ _ _ _ Ht).
  assert (E2 : seq_len c2 = k - n) by (destruct (seq_len_fin c2) as [[_ ?]|[? _]]; congruence).
  set (s2 := on_ins (fun a => set_tcplen (seq_len c2) (set_inseg c2 a)) s1).
  assert (Et : tcplen (ins s2) = k - n) by (change (tcplen (ins s2)) with (u16 (seq_len c2)); rewrite (u16_seq_len c2 n); done).
  rewrite Et, u32_add_l. replace (isn + n + (k - n)) with (isn + k) by lia. rewrite <- (at_seq _ _ _ _ Hk), Z.eqb_refl.
  cbn [lwip_assert mbind option_bind]. exists s2. change (inseg (ins s2)) with c2.
  split_and!; try done.
  - by destruct Hc.
  - split; try done; change (inseg (ins s2)) with c2; lia || done.
  - apply (queue_cons _ _ R _ _ k); try done; lia.
  - right. exists q1, l, k. split_and!; try done; lia.
Qed.

(** Only the blocks change. *)
Lemma sacks_keeps f s : f (pcb s) = pcb s \/ (exists v, f (pcb s) = in_rx (set_rcv_sacks v) (pcb s)) -> keeps s (on_pcb f s).
Proof. intros H. split; cbn [pcb on_pcb]; destruct H as [E|[v E]]; rewrite ?E; auto. Qed.

Lemma sack_after_dequeue_keeps s : keeps s (on_pcb sack_after_dequeue s).
Proof.
  apply sacks_keeps. unfold sack_after_dequeue, tcp_remove_sacks_lt.
  destruct (_ && _); [|by left]. destruct (ooseq _); [|eauto]. destruct (sack0_valid _); eauto.
Qed.

Lemma tcp_ack_keeps s : keeps s (on_pcb tcp_ack s).
Proof.
  destruct (has TF_ACK_DELAY (flags (pcb s))) eqn:E.
  - replace (on_pcb tcp_ack s) with (on_pcb tcp_ack_now (on_pcb (tcp_clear_flags TF_ACK_DELAY) s)).
    + apply (keeps_trans _ (on_pcb (tcp_clear_flags TF_ACK_DELAY) s)); [by apply clear_flags_keeps|by apply (set_flags_keeps TF_ACK_NOW)].
    + unfold on_pcb. cbn [pcb]. f_equal. unfold tcp_ack. by rewrite E.
  - replace (on_pcb tcp_ack s) with (on_pcb (tcp_set_flags TF_ACK_DELAY) s); [by apply set_flags_keeps|].
    unfold on_pcb. f_equal. unfold tcp_ack. by rewrite E.
Qed.

(** The segment itself is taken: the window moves, its data and FIN are passed up. *)
Lemma pass_inseg_at n R v s s3 :
  recv_core n R s -> arrives R n s -> recv_data (ins s) = None -> 0 <= v <= R - (n + seq_len (inseg (ins s))) ->
  s3 = (let s := advanced (u32 (isn + (n + seq_len (inseg (ins s))))) (R - (n + seq_len (inseg (ins s)))) v s in
        let f := fin (inseg (ins s)) in
        let s := on_ins (fun a => if 0 <? tot_len (seg_p (inseg a)) then set_recv_data (Some (seg_p (inseg a))) a else a) s in
        if f then on_ins (add_recv_flags TF_GOT_FIN) s else s) ->
  received n (n + seq_len (inseg (ins s))) R s s3 /\ ooseq (r s3) = ooseq (r s).
Proof.
  intros Hc [Hs Hseq Hlen Hpos HR] Hd Hv ->. pose proof (at_len _ _ _ _ Hs). pose proof (at_end _ _ _ _ Hs).
  pose proof (seq_len_fin (inseg (ins s))) as Hsl. pose proof (at_fin _ _ _ _ Hs) as Hfin.
  set (s1 := advanced _ _ v s).
  assert (Hc1 : recv_core (n + seq_len (inseg (ins s))) R s1) by (apply (advanced_core n); try done; lia).
  cbv zeta. change (fin (inseg (ins s1))) with (fin (inseg (ins s))).
  split; [|by destruct (fin _)]. split; [by destruct (fin _); destruct Hc1|lia| |].
  - rewrite (chunk_seg _ n Hs). unfold data at 2. rewrite Hd. cbn [default concat app].
    transitivity (concat (default [] (recv_data (if 0 <? tot_len (seg_p (inseg (ins s))) then set_recv_data (Some (seg_p (inseg (ins s)))) (ins s) else ins s)))).
    + by destruct (fin (inseg (ins s))).
    + unfold tot_len, size. destruct (0 <? _) eqn:E; [done|]. rewrite Hd. cbn. by destruct (concat (seg_p (inseg (ins s)))).
  - destruct Hsl as [[El Ef]|[El Ef]]; rewrite Ef.
    + specialize (Hfin Ef). replace (_ && _) with true by lia. rewrite orb_true_r. apply got_fin_add.
    + replace (_ && _) with false by lia. rewrite orb_false_r. unfold got_fin. cbn.
      by destruct (0 <? tot_len (seg_p (inseg (ins s)))).
Qed.

Lemma in_sequence_at n R s :
  recv_inv n R s -> n < R -> seg_at (inseg (ins s)) n -> in_seqno (ins s) = u32 (isn + n) -> 0 < seq_len (inseg (ins s)) ->
  recv_data (ins s) = None ->
  exists n' s', in_sequence s = Some s' /\ received n n' R s s' /\ queue_at R (n' + 1) (ooseq (r s')) /\
    Z.min (n + seq_len (inseg (ins s))) R <= n'.
Proof.
  intros [Hc Hq] HnR Hs Hseq Hpos Hd. unfold in_sequence.
  destruct (cut_to_window_at n R s) as (s1 & -> & Ep & [Ed1 Ef1] & Ha1 & Hmin); try done.
  assert (Hc1 : recv_core n R s1) by (apply (core_ext _ _ s); by rewrite ?Ep). cbn [mbind option_bind].
  destruct (adjust_ooseq_at n R s1) as (s2 & -> & Hc2 & [Ed2 Ef2] & Ha2 & Hq2 & Hprog); try done; [by rewrite Ep|].
  cbn [mbind option_bind]. set (len := seq_len (inseg (ins s2))) in *.
  pose proof Ha2 as [Hs2 Hseq2 Hlen2 Hpos2 HR2]. pose proof (at_end _ _ _ _ Hs2). pose proof (seq_len_fin (inseg (ins s2))).
  pose proof (at_len _ _ _ _ Hs2).
  assert (Etl : tcplen (ins s2) = len) by done. rewrite Etl, Hseq2, u32_add_l, <- Z.add_assoc.
  destruct (advance_at n len R s2 Hc2) as (v & -> & Hv); [lia|lia|]. cbn [mbind option_bind].
  destruct (pass_inseg_at n R v s2 _ Hc2 Ha2 ltac:(congruence) Hv eq_refl) as [Hr3 Eo3].
  cbv zeta in Hr3, Eo3. change (has TCP_FIN (TCPH_FLAGS (inseg (ins s2)))) with (fin (inseg (ins s2))).
  fold len in Hr3, Eo3. match goal with |- context[dequeue _ ?x] => set (s3 := x) in * end.
  change (received n (n + len) R s2 s3) in Hr3. change (ooseq (r s3) = ooseq (r s2)) in Eo3.
  destruct (dequeue_at (ooseq (r s3)) (n + len) R s3) as (n' & s4 & -> & Hr4 & Hq4 & Hhead); try done.
  { apply (rv_core _ _ _ _ _ Hr3). }
  { by rewrite Eo3. }
  cbn [mbind option_bind].
  assert (Hr : received n n' R s s4).
  { pose proof (rc_pos _ _ _ Hc). pose proof (received_trans n (n + len) n' R s2 s3 s4 ltac:(lia) Hr3 Hr4) as [C L X Y]. split; try done.
    - rewrite X. unfold data. congruence.
    - rewrite Y. unfold got_fin. congruence. }
  assert (Hge : Z.min (n + seq_len (inseg (ins s))) R <= n').
  { pose proof (rv_le _ _ _ _ _ Hr4). destruct Hprog as [|(q1 & l & k & Eq & Hk & -> & ?)]; [lia|].
    specialize (Hhead q1 l ltac:(congruence) Hk). lia. }
  set (s5 := on_pcb tcp_ack (on_pcb sack_after_dequeue s4)).
  assert (K5 : keeps s4 s5) by (apply (keeps_trans _ (on_pcb sack_after_dequeue s4)); [apply sack_after_dequeue_keeps|apply tcp_ack_keeps]).
  set (s6 := if LWIP_TCP_SACK_OUT && sack0_valid (pcb s5) then _ else s5).
  assert (K6 : keeps s4 s6) by (apply (keeps_trans _ s5); [done|]; unfold s6; destruct (_ && _); [apply send_empty_ack_keeps|apply keeps_refl]).
  exists n', s6. split_and!; try done; [by apply (received_keeps n n' R s s4)|by rewrite (kp_ooseq _ _ K6)].
Qed.

(** *** A segment out of sequence *)

Lemma within_at R l : forall lo b q, queue_at R lo l -> queue_at R lo (ooseq_within b q l).1.
Proof.
  induction l as [|seg l IH]; intros lo b q Hq; cbn [ooseq_within]; [done|].
  destruct (_ || _); [constructor|].
  apply queue_front in Hq as (k & Hs & ? & ? & ? & Hf & Hq).
  specialize (IH _ (u32 (b + tot_len (seg_p seg))) (u16 (q + pbuf_clen (seg_p seg))) Hq).
  destruct (ooseq_within _ _ l) as [l' o] eqn:E. cbn [fst] in *.
  apply (queue_cons _ _ R _ _ k); try done. intros Ef. rewrite (Hf Ef) in E. cbn in E. congruence.
Qed.

(** The queue is replaced; nothing is received. *)
Definition requeued (n R : Z) (s s' : tcp) : Prop :=
  recv_inv n R s' /\ recv_data (ins s') = recv_data (ins s) /\ recv_flags (ins s') = recv_flags (ins s).

Lemma requeued_keeps n R a b c : requeued n R a b -> keeps b c -> requeued n R a c.
Proof.
  intros (Hi & Hd & Hf) H. split_and!; [by apply (keeps_inv n R b)| |].
  - rewrite <- Hd. apply (kp_data _ _ H).
  - rewrite <- Hf. apply (kp_flags _ _ H).
Qed.

Lemma ooseq_limit_shape p :
  ooseq_limit p = p \/
  (exists f, ooseq_limit p = in_rx (fun r => set_ooseq (ooseq_within 0 0 (ooseq (rx p))).1 (f r)) p /\
     (f = id \/ exists v, f = set_rcv_sacks v)).
Proof.
  unfold ooseq_limit. destruct (ooseq_within 0 0 _) as [l [next|]]; [|by left]. right. cbn [fst].
  destruct (_ && _); [|by exists id; split; [|left]].
  unfold tcp_remove_sacks_gt. eexists (set_rcv_sacks _). split; [done|]. right. by eexists.
Qed.

Lemma ooseq_limit_requeued n R a s : requeued n R a s -> requeued n R a (on_pcb ooseq_limit s).
Proof.
  intros ([Hc Hq] & Hd & Hf). pose proof (within_at R (ooseq (r s)) (n + 1) 0 0 Hq) as Hw.
  destruct (ooseq_limit_shape (pcb s)) as [E|(f & E & Hfs)].
  - replace (on_pcb ooseq_limit s) with s; [done|]. unfold on_pcb. rewrite E. by destruct s.
  - assert (Es : on_pcb ooseq_limit s = on_pcb (in_rx (fun r0 => set_ooseq (ooseq_within 0 0 (ooseq (r s))).1 (f r0))) s)
      by (unfold on_pcb; by rewrite E).
    rewrite Es. split_and!; try done. destruct Hfs as [->|[v ->]]; (split; [by destruct Hc|done]).
Qed.

Lemma sack_after_insert_keeps b a sb s : keeps s (on_pcb (sack_after_insert b a sb) s).
Proof.
  apply sacks_keeps. unfold sack_after_insert, tcp_add_sack. destruct (_ && _); [|by left].
  destruct a as [|n a]; [by left|]. destruct (_ || _); [by left|]. eauto.
Qed.

Lemma ooseq_first_requeued n R k s :
  recv_core n R s -> arrives R k s -> n < k -> requeued n R s (ooseq_first s).
Proof.
  intros Hc [Hs Hseq Hlen Hpos HR] Hnk. unfold ooseq_first, tcp_seg_copy. cbn [call].
  set (l := option_list _).
  assert (Hl : queue_at R (n + 1) l).
  { unfold l. destruct (tcp_seg_malloc_ok _); [|constructor]. apply (queue_one _ _ R _ _ k); try done; lia. }
  match goal with |- context[on_pcb (in_rx (set_ooseq l)) ?x] => set (s1 := on_pcb (in_rx (set_ooseq l)) x) end.
  assert (H1 : requeued n R s s1) by (split_and!; try done; split; [by destruct Hc|done]).
  destruct (_ && _); [|done]. apply (requeued_keeps n R s s1); [done|]. split; auto.
Qed.

Lemma out_of_sequence_at n R k s :
  recv_inv n R s -> arrives R k s -> n < k -> exists s', out_of_sequence s = Some s' /\ requeued n R s s'.
Proof.
  intros [Hc Hq] Ha Hnk. pose proof (core_small _ _ _ Hc). unfold out_of_sequence.
  assert (Hre : right_edge (pcb s) = u32 (isn + R)).
  { unfold right_edge. rewrite (rc_nxt _ _ _ Hc), (rc_wnd _ _ _ Hc), u32_add_l. f_equal. lia. }
  assert (Hfin : forall s1, requeued n R s s1 -> requeued n R s (tcp_send_empty_ack (on_pcb ooseq_limit s1)).2).
  { intros s1 H1. eapply requeued_keeps; [by apply ooseq_limit_requeued|apply send_empty_ack_keeps]. }
  destruct (ooseq (r s)) as [|first l] eqn:Eo.
  { cbn [mbind option_bind]. eexists. split; [done|]. by apply Hfin, (ooseq_first_requeued n R k). }
  rewrite <- Eo in *. set (sackbeg := if TCP_SEQ_LT _ _ then _ else _).
  destruct (walk_at D isn R k (ooseq (r s)) None (n + 1) sackbeg s) as (b & a & sb & m & Ew & Hba); try done; try lia.
  rewrite Ew. cbn [mbind option_bind]. eexists. split; [done|]. apply Hfin.
  set (s1 := on_pcb (in_rx (set_ooseq (b ++ a))) (with_calls m s)).
  apply (requeued_keeps n R s s1); [|apply sack_after_insert_keeps].
  split_and!; try done. split; [by destruct Hc|done].
Qed.

(** *** Any segment *)

(** A part of the stream arrives. One that is ahead fits into the window, or is
    beyond it as a whole, like the probe of a closed window. *)
Record incoming (n R k : Z) (a : arrival) : Prop := {
  inc_seg : seg_at (inseg a) k;
  inc_seq : in_seqno a = u32 (isn + k);
  inc_len : tcplen a = seq_len (inseg a);
  inc_pos : 0 < seq_len (inseg a);
  inc_near : n - k <= 2 ^ 30 /\ k - R < 2 ^ 29;
  inc_fits : k <= n \/ k + seq_len (inseg a) <= R \/ R <= k;
  inc_new : recv_data a = None /\ recv_flags a = 0
}.

Lemma in_window_at n R k s :
  recv_core n R s -> in_seqno (ins s) = u32 (isn + k) -> n - k <= 2 ^ 30 -> k - R < 2 ^ 29 ->
  in_window s = (n <=? k) && (k <? R).
Proof.
  intros Hc Hs H1 H2. pose proof (core_small _ _ _ Hc). unfold in_window.
  rewrite Hs, (rc_nxt _ _ _ Hc), (rc_wnd _ _ _ Hc).
  assert (Hz : stands (u32 (isn + n) + (R - n) - 1) (isn + R - 1)).
  { replace (isn + R - 1) with (isn + n + (R - n) - 1) by lia. apply stands_sub, stands_add, stands_u32. }
  rewrite (seq_between _ (isn + k) _ (isn + n) _ _ (stands_u32 _) (stands_u32 _) Hz) by (unfold near; lia). lia.
Qed.

(** The first part of a segment that was received before is cut off. *)
Lemma trim_front_at n R k s :
  recv_inv n R s -> incoming n R k (ins s) ->
  (n <= k /\ trim_front s = Some s) \/
  (k + seq_len (inseg (ins s)) <= n /\ trim_front s = Some (on_pcb tcp_ack_now s)) \/
  (k < n < k + seq_len (inseg (ins s)) /\
   exists s1, trim_front s = Some s1 /\ pcb s1 = pcb s /\ same_up s s1 /\ seg_at (inseg (ins s1)) n /\
     in_seqno (ins s1) = u32 (isn + n) /\ n + seq_len (inseg (ins s1)) = k + seq_len (inseg (ins s))).
Proof.
  intros [Hc Hq] [Hs Hseq Hlen Hpos [Hn1 Hn2] Hfits [Hd _]]. pose proof (core_small _ _ _ Hc).
  pose proof (at_len _ _ _ _ Hs). pose proof (at_end _ _ _ _ Hs). pose proof (seq_len_fin (inseg (ins s))) as Hsl.
  pose proof (at_fin _ _ _ _ Hs) as Hfin. pose proof (at_pos _ _ _ _ Hs).
  set (len := seq_len (inseg (ins s))) in *. unfold trim_front. rewrite (rc_nxt _ _ _ Hc), Hseq, Hlen.
  assert (Hst1 : stands (u32 (isn + k) + 1) (isn + k + 1)) by apply stands_add, stands_u32.
  assert (Hst2 : stands (u32 (isn + k) + len - 1) (isn + k + len - 1)) by apply stands_sub, stands_add, stands_u32.
  rewrite (seq_between _ (isn + n) _ _ _ _ (stands_u32 _) Hst1 Hst2) by (unfold near; lia).
  rewrite (seq_lt _ (isn + k) _ (isn + n)) by (apply stands_u32 || (unfold near; lia)).
  destruct (_ && _) eqn:E; cycle 1.
  { destruct (Z.le_gt_cases n k); [left; by replace (_ <? _) with false by lia|].
    right; left. replace (_ <? _) with true by lia. split; [lia|done]. }
  right; right. split; [lia|].
  assert (Eoff : u32 (u32 (isn + n) - u32 (isn + k)) = n - k).
  { rewrite u32_sub_l, u32_sub_r. replace (isn + n - (isn + k)) with (n - k) by lia. unfold u32. apply Z.mod_small. lia. }
  rewrite Eoff. replace (n - k <? 65535) with true by lia.
  assert (Etl : tot_len (seg_p (inseg (ins s))) = seg_len (inseg (ins s))) by (unfold tot_len; rewrite (at_data _ _ _ _ Hs); apply size_bytes; lia).
  rewrite Etl. replace (n - k <=? seg_len (inseg (ins s))) with true by lia. cbn [lwip_assert mbind option_bind].
  destruct (trim_chain_data (n - k) (seg_p (inseg (ins s)))) as (p & -> & Hp); [lia|]. cbn [mbind option_bind].
  eexists. split; [done|]. rewrite u16_small by lia.
  set (seg' := set_seg_seqno _ _).
  assert (Hfl : fin seg' = fin (inseg (ins s))) by done.
  assert (El : seg_len seg' = seg_len (inseg (ins s)) - (n - k)) by done.
  split_and!; try done.
  - change (inseg _) with seg'. split; try done; rewrite ?El; try lia.
    + change (concat (seg_p seg')) with (concat p). rewrite Hp, (at_data _ _ _ _ Hs), bytes_drop by lia. f_equal; lia.
    + apply (at_syn _ _ _ _ Hs).
  - change (inseg _) with seg'. unfold len, seq_len. rewrite Hfl, El. lia.
Qed.

Lemma receive_text_at n R k s :
  recv_inv n R s -> incoming n R k (ins s) ->
  exists n' s', receive_text s = Some s' /\ received n n' R s s' /\ queue_at R (n' + 1) (ooseq (r s')) /\
    (k <= n -> Z.min (k + seq_len (inseg (ins s))) R <= n').
Proof.
  intros Hi Hinc. pose proof Hi as [Hc Hq]. pose proof Hinc as [Hs Hseq Hlen Hpos [Hn1 Hn2] Hfits [Hd _]].
  pose proof (core_small _ _ _ Hc). unfold receive_text.
  assert (Hkeep : forall s1, keeps s s1 -> received n n R s s1 /\ queue_at R (n + 1) (ooseq (r s1))).
  { intros s1 K. split; [apply (received_keeps n n R s s); [by apply received_refl|done]|by rewrite (kp_ooseq _ _ K)]. }
  assert (Hout : forall s1, keeps s s1 -> in_window s1 = false ->
    (if in_window s1 then if rcv_nxt (r s1) =? in_seqno (ins s1) then in_sequence s1 else out_of_sequence s1
     else Some (tcp_send_empty_ack s1).2) = Some (tcp_send_empty_ack s1).2 /\ keeps s (tcp_send_empty_ack s1).2).
  { intros s1 K ->. split; [done|]. apply (keeps_trans _ s1); [done|apply send_empty_ack_keeps]. }
  destruct (trim_front_at n R k s Hi Hinc) as [[Hnk ->]|[[Hkn ->]|[Hkn (s1 & -> & Ep & [Ed Ef] & Hs1 & Hseq1 & Hend)]]]; cbn [mbind option_bind].
  - pose proof (in_window_at n R k s Hc Hseq ltac:(lia) Hn2) as Hw. destruct (decide (k < R)) as [HkR|HkR].
    + rewrite Hw. replace (_ && _) with true by lia. rewrite (rc_nxt _ _ _ Hc), Hseq.
      rewrite (seq_eq _ (isn + n) _ (isn + k)) by (apply stands_u32 || apply u32_u32 || (unfold near; lia)).
      destruct (_ =? _) eqn:E.
      * assert (k = n) as -> by lia. destruct (in_sequence_at n R s) as (n' & s' & -> & Hr & Hq' & Hge); try done. eauto 10.
      * assert (Ha : arrives R k s) by (split; try done; lia).
        destruct (out_of_sequence_at n R k s Hi Ha) as (s' & -> & [Hc' Hq'] & Hd' & Hf'); [lia|].
        exists n, s'. split_and!; try done; [|lia]. split; [done|lia| |].
        -- unfold data. by rewrite Hd', chunk_nil, app_nil_r.
        -- unfold got_fin. rewrite Hf'. destruct (has _ _); [done|]. cbn [orb]. lia.
    + destruct (Hout s (keeps_refl s)) as [-> K]; [rewrite Hw; lia|].
      exists n. eexists. split_and!; [done|by apply Hkeep|by apply Hkeep|lia].
  - assert (K1 : keeps s (on_pcb tcp_ack_now s)) by (by apply (set_flags_keeps TF_ACK_NOW)).
    destruct (Hout _ K1) as [-> K].
    { rewrite (in_window_at n R k); try done; try lia. by apply (keeps_core n R s). }
    exists n. eexists. split_and!; [done|by apply Hkeep|by apply Hkeep|lia].
  - assert (Hi1 : recv_inv n R s1) by (split; [apply (core_ext _ _ s); by rewrite ?Ep|by rewrite Ep]).
    pose proof (proj1 Hi1) as Hc1. pose proof (rc_pos _ _ _ Hc).
    destruct (decide (n < R)) as [HnR|HnR].
    + rewrite (in_window_at n R n s1 Hc1 Hseq1) by lia. replace (_ && _) with true by lia.
      rewrite (rc_nxt _ _ _ Hc1), Hseq1, Z.eqb_refl.
      destruct (in_sequence_at n R s1) as (n' & s' & -> & [C L X Y] & Hq' & Hge); try done; [lia|congruence|].
      exists n', s'. split_and!; try done; [|lia]. split; try done.
      * rewrite X. unfold data. congruence.
      * rewrite Y. unfold got_fin. congruence.
    + rewrite (in_window_at n R n s1 Hc1 Hseq1) by lia. replace (_ && _) with false by lia.
      eexists n, _. split; [done|]. pose proof (send_empty_ack_keeps s1) as K.
      pose proof (keeps_inv n R _ _ K Hi1) as [C' Q']. split_and!; try done; [|lia]. split; try done.
      * unfold data. by rewrite (kp_data _ _ K), Ed, chunk_nil, app_nil_r.
      * unfold got_fin. rewrite (kp_flags _ _ K), Ef. destruct (has _ _); [done|]. cbn [orb]. lia.
Qed.
End Step.
End TcpRecvStep.
