(* ===== verification/TcpSendInv.v ===== *)
(** The sending side of the TCP of lwIP: the queues of segments stay counted,
    what is sent leaves the receiver as it is, and acknowledged segments leave. *)

From S2P Require Export TcpRecvStep.
Export TcpRecvStep.
Open Scope Z_scope.

Module TcpSendInv.
Section Send.
Context {Opt : TcpOptions} {Wd : TcpWorld} {Pb : PbufLib} {N : NetworkOrder}.

#[local] Abbreviation r s := (rx (pcb s)).
#[local] Abbreviation t s := (tx (pcb s)).

(** The packet buffers of a queue. *)
Fixpoint pbufs (l : list tcp_seg) : Z := match l with [] => 0 | seg :: l => pbuf_clen (seg_p seg) + pbufs l end.

(** A segment that may wait on a queue. *)
Definition sendable (seg : tcp_seg) : Prop := 0 < TCP_TCPLEN seg /\ has TCP_RST (TCPH_FLAGS seg) = false.

Record queues_ok (x : sender) : Prop := {
  qo_len : snd_queuelen x = pbufs (unacked x) + pbufs (unsent x);
  qo_max : snd_queuelen x < 2 ^ 16;
  qo_unacked : Forall sendable (unacked x);
  qo_unsent : Forall sendable (unsent x)
}.

Lemma pbufs_nonneg l : 0 <= pbufs l.
Proof. induction l as [|seg l IH]; cbn; [done|]. unfold pbuf_clen. lia. Qed.

Lemma pbufs_app l1 l2 : pbufs (l1 ++ l2) = pbufs l1 + pbufs l2.
Proof. induction l1 as [|seg l1 IH]; cbn; [done|]. lia. Qed.

#[global] Instance pbufs_perm : Proper (Permutation ==> eq) pbufs.
Proof.
  intros l1 l2 H. induction H as [|x l1 l2 H IH|x y l|]; cbn; try done.
  - lia.
  - lia.
  - congruence.
Qed.

Lemma insert_sorted_perm seg l : insert_sorted seg l ≡ₚ seg :: l.
Proof.
  induction l as [|x l IH]; cbn [insert_sorted]; [done|]. destruct (TCP_SEQ_LT _ _); [|done].
  rewrite IH. constructor.
Qed.

Lemma put_unacked_perm seg l : put_unacked seg l ≡ₚ seg :: l.
Proof.
  unfold put_unacked. destruct (last l) as [u|] eqn:E; [|by apply last_None in E as ->].
  destruct (TCP_SEQ_LT _ _); [apply insert_sorted_perm|by rewrite Permutation_app_comm].
Qed.

(** ** The receiver *)

Lemma keeps_pcb f s :
  rx (f (pcb s)) = r s -> mss (tx (f (pcb s))) = mss (t s) -> state (f (pcb s)) = state (pcb s) ->
  has TF_WND_SCALE (flags (f (pcb s))) = has TF_WND_SCALE (flags (pcb s)) -> keeps s (on_pcb f s).
Proof. intros E1 E2 E3 E4. split; cbn [pcb on_pcb]; rewrite ?E1; auto. by apply max_flags. Qed.

Lemma output_segment_keeps seg s : keeps s (tcp_output_segment seg s).2 /\ t (tcp_output_segment seg s).2 = t s.
Proof.
  unfold tcp_output_segment. cbn [call]. destruct (segment_busy _); [split; [split; auto|done]|].
  split; [|done]. cbn [snd]. split; cbn; auto; destruct LWIP_TCP_TIMESTAMPS; cbn; auto.
Qed.

(** The next number to send grows. *)
Definition bump (nxt : Z) (x : sender) : sender := if TCP_SEQ_LT (snd_nxt x) nxt then set_snd_nxt nxt x else x.

Lemma bump_fields nxt x : mss (bump nxt x) = mss x /\ unacked (bump nxt x) = unacked x /\ unsent (bump nxt x) = unsent x /\
  snd_queuelen (bump nxt x) = snd_queuelen x.
Proof. unfold bump. by destruct (TCP_SEQ_LT _ _). Qed.

Lemma sendable_ack seg : sendable seg -> sendable (TCPH_SET_FLAG TCP_ACK seg).
Proof.
  intros [H1 H2]. split.
  - unfold TCP_TCPLEN in *. rewrite set_flag_has. by rewrite orb_false_r.
  - rewrite set_flag_has, H2. done.
Qed.

(** A segment is moved from the queue of unsent segments to the other one. *)
Lemma move_segment_ok seg l x nxt :
  queues_ok x -> unsent x = seg :: l ->
  forall seg', seg_p seg' = seg_p seg -> sendable seg' ->
  queues_ok (set_unacked (put_unacked seg' (unacked x)) (bump nxt (set_unsent l x))).
Proof.
  intros [Hlen Hmax Ha Hu] El seg' Ep Hs. rewrite El in *. destruct (bump_fields nxt (set_unsent l x)) as (_ & _ & Eu & Eq).
  apply Forall_cons in Hu as [_ Hu]. split; cbn [set_unacked unacked unsent snd_queuelen]; rewrite ?Eq, ?Eu; try done.
  - rewrite put_unacked_perm. cbn [snd_queuelen set_unsent unsent pbufs] in *. rewrite Ep. change (unacked (set_unsent l x)) with (unacked x). lia.
  - rewrite put_unacked_perm. by constructor.
Qed.

(** One segment was sent. *)
Definition sent_one (seg : tcp_seg) (l : list tcp_seg) (s : tcp) : tcp :=
  let s := on_pcb (in_tx (set_unsent l)) s in
  let s := if bool_decide (state (pcb s) = SYN_SENT) then s else on_pcb (tcp_clear_flags (Z.lor TF_ACK_DELAY TF_ACK_NOW)) s in
  let s := on_pcb (in_tx (bump (u32 (seg_seqno seg + TCP_TCPLEN seg)))) s in
  on_pcb (in_tx (fun x => set_unacked (put_unacked seg (unacked x)) x)) s.

Lemma sent_one_keeps seg l s : keeps s (sent_one seg l s).
Proof.
  unfold sent_one. set (s1 := on_pcb (in_tx (set_unsent l)) s).
  set (s2 := if bool_decide (state (pcb s1) = SYN_SENT) then s1 else _).
  assert (K1 : keeps s s1) by (apply keeps_pcb; done).
  assert (K2 : keeps s1 s2) by (unfold s2; destruct (bool_decide _); [apply keeps_refl|by apply clear_flags_keeps]).
  apply (keeps_trans _ s1), (keeps_trans _ s2); [done..|].
  eapply keeps_trans; apply keeps_pcb; try done. unfold in_tx, set_tx. cbn [tx].
  apply (bump_fields (u32 (seg_seqno seg + TCP_TCPLEN seg)) (t s2)).
Qed.

Lemma sent_one_tx seg l s :
  t (sent_one seg l s) = set_unacked (put_unacked seg (unacked (t s))) (bump (u32 (seg_seqno seg + TCP_TCPLEN seg)) (set_unsent l (t s))).
Proof.
  unfold sent_one. destruct (bool_decide _); unfold bump;
    cbn [pcb on_pcb tx in_tx set_tx tcp_clear_flags set_flags]; by destruct (TCP_SEQ_LT _ _).
Qed.

Lemma output_loop_at wnd l : forall s,
  queues_ok (t s) -> unsent (t s) = l ->
  exists res s', output_loop wnd l s = Some (res, s') /\ keeps s s' /\ queues_ok (t s').
Proof.
  induction l as [|seg l IH]; intros s Hq El; cbn [output_loop].
  { exists None, s. split_and!; [done|apply keeps_refl|done]. }
  pose proof Hq as [Hlen Hmax Ha Hu]. rewrite El in Hu. apply Forall_cons in Hu as [Hs Hu].
  destruct (too_far _ _ _); [exists None, s; split_and!; [done|apply keeps_refl|done]|].
  rewrite (proj2 Hs). cbn [negb lwip_assert mbind option_bind].
  destruct (negb (tcp_do_output_nagle _) && _); [exists None, s; split_and!; [done|apply keeps_refl|done]|].
  set (seg' := if bool_decide (state (pcb s) = SYN_SENT) then seg else TCPH_SET_FLAG TCP_ACK seg).
  assert (Ep : seg_p seg' = seg_p seg) by (unfold seg'; by destruct (bool_decide _)).
  assert (Hs' : sendable seg') by (unfold seg'; destruct (bool_decide _); [done|by apply sendable_ack]).
  set (s1 := on_pcb (in_tx (set_unsent (seg' :: l))) s).
  assert (K1 : keeps s s1) by (apply keeps_pcb; done).
  assert (Hq1 : queues_ok (t s1)).
  { split; try done; [|by constructor]. change (snd_queuelen (t s1)) with (snd_queuelen (t s)). rewrite Hlen, El.
    change (unsent (t s1)) with (seg' :: l). cbn [pbufs]. by rewrite Ep. }
  destruct (output_segment_keeps seg' s1) as [K2 E2]. destruct (tcp_output_segment seg' s1) as [err s2] eqn:Eo. cbn [snd] in *.
  destruct (negb (err =? ERR_OK)).
  { exists (Some err), (on_pcb (tcp_set_flags TF_NAGLEMEMERR) s2). split_and!; [done| |by rewrite <- E2 in Hq1].
    apply (keeps_trans _ s1), (keeps_trans _ s2); [done..|]. by apply set_flags_keeps. }
  assert (Hpos : (0 <? TCP_TCPLEN seg') = true) by (destruct Hs'; lia). rewrite Hpos.
  match goal with |- context[output_loop wnd l ?x] => replace x with (sent_one seg' l s2) end; cycle 1.
  { unfold sent_one. change (state (pcb (on_pcb (in_tx (set_unsent l)) s2))) with (state (pcb s2)). rewrite (kp_state _ _ K2).
    change (state (pcb s1)) with (state (pcb s)). by destruct (bool_decide _). }
  destruct (IH (sent_one seg' l s2)) as (res & s' & -> & K & Hq').
  { rewrite sent_one_tx, E2. eapply (move_segment_ok seg' l); done. }
  { rewrite sent_one_tx, E2. exact (proj1 (proj2 (proj2 (bump_fields _ (set_unsent l (t s1)))))). }
  exists res, s'. split_and!; try done.
  apply (keeps_trans _ s1), (keeps_trans _ s2), (keeps_trans _ (sent_one seg' l s2)); try done. apply sent_one_keeps.
Qed.

Lemma send_empty_ack_tx s : t (tcp_send_empty_ack s).2 = t s.
Proof.
  unfold tcp_send_empty_ack, tcp_output_alloc_header, tcp_output_alloc_header_common, tcp_output_control_segment.
  cbn [call]. destruct (pbuf_alloc_ok _); [|done]. unfold tcp_output_fill_options. cbn [call].
  destruct LWIP_TCP_TIMESTAMPS; destruct (route _); cbn; by repeat case_match.
Qed.

Lemma tcp_output_at s :
  queues_ok (t s) -> state (pcb s) <> LISTEN -> exists err s', tcp_output s = Some (err, s') /\ keeps s s' /\ queues_ok (t s').
Proof.
  intros Hq Hl. unfold tcp_output. rewrite bool_decide_eq_false_2 by done. cbn [negb lwip_assert mbind option_bind].
  destruct (tcp_input_pcb s); [eexists _, s; split_and!; [done|apply keeps_refl|done]|].
  assert (Hend : forall s1, keeps s s1 -> queues_ok (t s1) ->
    exists err s', Some (if has TF_ACK_NOW (flags (pcb s1)) then tcp_send_empty_ack s1 else output_done s1) = Some (err, s') /\
      keeps s s' /\ queues_ok (t s')).
  { intros s1 K1 H1. destruct (has _ _).
    - eexists _, _. split_and!; [by rewrite <- surjective_pairing|apply (keeps_trans _ s1); [done|apply send_empty_ack_keeps]|by rewrite send_empty_ack_tx].
    - eexists _, _. split_and!; [done|apply (keeps_trans _ s1); [done|by apply clear_flags_keeps]|done]. }
  destruct (unsent (t s)) as [|seg l] eqn:El; [apply Hend; [apply keeps_refl|done]|]. cbn [call].
  set (s1 := mkTcp _ _ _ _ _ _). assert (K1 : keeps s s1) by (split; auto).
  destruct (route _) as [nif|]; [|by eexists _, s1].
  unfold know_local_ip. set (o := if local_ip (pcb s1) =? 0 then _ else _).
  assert (Ho : o = None \/ exists s2, o = Some s2 /\ keeps s s2 /\ t s2 = t s).
  { unfold o. destruct (_ =? 0); [|right; by exists s1]. destruct (ip_netif_get_local_ip _ _) as [ip|]; cbn; [|by left].
    right. eexists. split_and!; [done|apply (keeps_trans _ s1); [done|by apply keeps_pcb]|done]. }
  destruct Ho as [->|(s2 & -> & K2 & E2)]; [by eexists _, s1|].
  destruct (too_far _ _ _).
  - destruct (_ && _); [|by apply Hend; rewrite ?E2].
    apply Hend; [|by rewrite <- E2 in Hq]. apply (keeps_trans _ s2); [done|by apply keeps_pcb].
  - set (s3 := on_pcb (in_tim (set_persist_backoff 0)) s2). assert (K3 : keeps s s3) by (apply (keeps_trans _ s2); [done|by apply keeps_pcb]).
    destruct (output_loop_at (Z.min (snd_wnd (t s)) (cwnd (cc (pcb s)))) (unsent (t s3)) s3) as (res & s4 & E4 & K4 & Hq4); [by rewrite <- E2 in Hq|done|].
    change (pcb s1) with (pcb s) in *. rewrite E4. cbn [mbind option_bind].
    destruct res as [err|]; eexists _, _; (split_and!; [done| |done]).
    + by apply (keeps_trans _ s3).
    + apply (keeps_trans _ s3), (keeps_trans _ s4); [done..|by apply clear_flags_keeps].
Qed.

(** ** Acknowledgments *)

(** A segment is acknowledged as a whole. *)
Definition acked (ackno : Z) (seg : tcp_seg) : bool := TCP_SEQ_LEQ (seg_seqno seg + TCP_TCPLEN seg) ackno.

(** The queue without the acknowledged segments at its front, and those. *)
Fixpoint unacked_rest (ackno : Z) (l : list tcp_seg) : list tcp_seg :=
  match l with
  | [] => []
  | seg :: l' => if acked ackno seg then unacked_rest ackno l' else l
  end.

Fixpoint acked_front (ackno : Z) (l : list tcp_seg) : list tcp_seg :=
  match l with
  | [] => []
  | seg :: l' => if acked ackno seg then seg :: acked_front ackno l' else []
  end.

Lemma acked_split ackno l : acked_front ackno l ++ unacked_rest ackno l = l.
Proof. induction l as [|seg l IH]; cbn; [done|]. destruct (acked ackno seg); [|done]. cbn. by rewrite IH. Qed.

(** The bytes of segments, counted like [recv_acked]. *)
Definition count_bytes (l : list tcp_seg) (n : Z) : Z := foldl (fun n seg => tcpwnd (n + seg_len seg)) n l.

Lemma free_acked_at ackno other l : forall q n,
  q = pbufs l + pbufs other -> q < 2 ^ 16 ->
  tcp_free_acked_segments ackno l other q n =
    Some (unacked_rest ackno l, pbufs (unacked_rest ackno l) + pbufs other, count_bytes (acked_front ackno l) n).
Proof.
  induction l as [|seg l IH]; intros q n Hq Hm; cbn [tcp_free_acked_segments unacked_rest acked_front]; [by subst q|].
  unfold acked. destruct (TCP_SEQ_LEQ _ _); [|by subst q]. cbn [pbufs] in Hq.
  pose proof (pbufs_nonneg l). pose proof (pbufs_nonneg other).
  assert (0 <= pbuf_clen (seg_p seg)) by (unfold pbuf_clen; lia).
  replace (pbuf_clen (seg_p seg) <=? q) with true by lia. rewrite u16_small by lia. cbn [lwip_assert mbind option_bind].
  assert (Ha : (q - pbuf_clen (seg_p seg) =? 0) || negb (bool_decide (l = [])) || negb (bool_decide (other = [])) = true).
  { do 2 case_bool_decide; rewrite ?orb_true_r; try done. subst. cbn in *. lia. }
  rewrite Ha. cbn [lwip_assert mbind option_bind]. rewrite IH by lia. done.
Qed.

Lemma rest_sendable ackno l : Forall sendable l -> Forall sendable (unacked_rest ackno l).
Proof. intros H. rewrite <- (acked_split ackno l), Forall_app in H. tauto. Qed.

Lemma rest_pbufs ackno l : pbufs (unacked_rest ackno l) <= pbufs l.
Proof. rewrite <- (acked_split ackno l) at 2. rewrite pbufs_app. pose proof (pbufs_nonneg (acked_front ackno l)). lia. Qed.

Lemma ins_keeps f s :
  recv_data (f (ins s)) = recv_data (ins s) -> recv_flags (f (ins s)) = recv_flags (ins s) ->
  inseg (f (ins s)) = inseg (ins s) /\ in_seqno (f (ins s)) = in_seqno (ins s) /\ tcplen (f (ins s)) = tcplen (ins s) ->
  keeps s (on_ins f s).
Proof. intros. split; auto. Qed.

(** What an acknowledgment of new data does to the queues. *)
Lemma ack_new_at s :
  queues_ok (t s) -> exists s', ack_new s = Some s' /\ keeps s s' /\ queues_ok (t s') /\
    unacked (t s') = unacked_rest (in_ackno (ins s)) (unacked (t s)) /\
    unsent (t s') = unacked_rest (in_ackno (ins s)) (unsent (t s)) /\
    lastack (t s') = in_ackno (ins s) /\
    recv_acked (ins s') = count_bytes (acked_front (in_ackno (ins s)) (unacked (t s)) ++ acked_front (in_ackno (ins s)) (unsent (t s))) (recv_acked (ins s)) /\
    snd_buf (t s') = tcpwnd (snd_buf (t s) + recv_acked (ins s')).
Proof.
  intros [Hlen Hmax Ha Hu]. unfold ack_new. set (ackno := in_ackno (ins s)).
  set (s1 := on_pcb leave_recovery s).
  assert (K1 : keeps s s1).
  { apply keeps_pcb; unfold leave_recovery; destruct (has TF_INFR _); try done. by apply has_clear_flags. }
  assert (E1 : t s1 = t s) by (unfold s1, leave_recovery; cbn [pcb on_pcb]; by destruct (has TF_INFR _)).
  set (s2 := on_pcb (in_tim (fun t => set_rto (s16 (Z.shiftr (sa t) 3 + sv t)) (set_nrtx 0 t))) s1).
  assert (K2 : keeps s1 s2) by (by apply keeps_pcb). assert (E2 : t s2 = t s1) by done.
  set (s3 := on_pcb (fun p => in_tx (set_lastack ackno) (in_cc (set_dupacks 0) p)) s2).
  assert (K3 : keeps s2 s3) by (by apply keeps_pcb). assert (E3 : t s3 = set_lastack ackno (t s2)) by done.
  set (s4 := if state_num ESTABLISHED <=? state_num (state (pcb s3)) then _ else s3).
  assert (K4 : keeps s3 s4) by (unfold s4; destruct (_ <=? _); [by apply keeps_pcb|apply keeps_refl]).
  assert (E4 : t s4 = t s3) by (unfold s4; by destruct (_ <=? _)).
  assert (I4 : ins s4 = ins s) by (unfold s4; by destruct (_ <=? _)).
  assert (Et : t s4 = set_lastack ackno (t s)) by (by rewrite E4, E3, E2, E1).
  rewrite Et, I4. cbn [unacked unsent snd_queuelen set_lastack].
  rewrite (free_acked_at ackno (unsent (t s)) (unacked (t s))) by done. cbn [mbind option_bind].
  rewrite (free_acked_at ackno (unacked_rest ackno (unacked (t s))) (unsent (t s))) by (pose proof (rest_pbufs ackno (unacked (t s))); lia).
  cbn [mbind option_bind]. set (u := unacked_rest ackno (unacked (t s))). set (v := unacked_rest ackno (unsent (t s))).
  set (n := count_bytes _ _). set (s5 := on_ins (set_recv_acked n) s4).
  assert (K5 : keeps s4 s5) by (by apply ins_keeps).
  set (s6 := on_pcb (in_tx (fun x => set_snd_queuelen (pbufs v + pbufs u) (set_unsent v (set_unacked u x)))) s5).
  assert (K6 : keeps s5 s6) by (by apply keeps_pcb).
  set (s7 := on_pcb (in_tim (fun x => set_polltmr 0 (set_rtime (if bool_decide (u = []) then -1 else 0) x))) s6).
  assert (K7 : keeps s6 s7) by (by apply keeps_pcb).
  set (s8 := on_pcb (in_tx (fun x => set_snd_buf (tcpwnd (snd_buf x + n)) x)) s7).
  assert (K8 : keeps s7 s8) by (by apply keeps_pcb).
  set (s9 := if has TF_RTO (flags (pcb s8)) && rto_done (pcb s8) then _ else s8).
  assert (K9 : keeps s8 s9) by (unfold s9; destruct (_ && _); [by apply clear_flags_keeps|apply keeps_refl]).
  assert (T9 : t s9 = t s8) by (unfold s9; by destruct (_ && _)).
  assert (I9 : ins s9 = ins s8) by (unfold s9; by destruct (_ && _)).
  exists s9. rewrite T9, I9. split; [done|]. split.
  { eapply keeps_trans; [exact K1|]. eapply keeps_trans; [exact K2|]. eapply keeps_trans; [exact K3|]. eapply keeps_trans; [exact K4|].
    eapply keeps_trans; [exact K5|]. eapply keeps_trans; [exact K6|]. eapply keeps_trans; [exact K7|]. by eapply keeps_trans; [exact K8|]. }
  split_and!; try done.
  - pose proof (rest_pbufs ackno (unacked (t s))). pose proof (rest_pbufs ackno (unsent (t s))).
    split; [|change (pbufs v + pbufs u < 2 ^ 16); unfold u, v; lia|by apply rest_sendable|by apply rest_sendable].
    change (pbufs v + pbufs u = pbufs u + pbufs v). lia.
  - change (lastack (t s8)) with (lastack (t s4)). by rewrite Et.
  - change (recv_acked (ins s8)) with n. unfold n, count_bytes. by rewrite foldl_app.
  - change (snd_buf (t s8)) with (tcpwnd (snd_buf (t s4) + n)). by rewrite Et.
Qed.

(** ** Sending again *)

Lemma rexmit_at s : queues_ok (t s) -> keeps s (tcp_rexmit s).2 /\ queues_ok (t (tcp_rexmit s).2).
Proof.
  intros Hq. pose proof Hq as [Hlen Hmax Ha Hu]. unfold tcp_rexmit. destruct (unacked (t s)) as [|seg l] eqn:El; [split; [apply keeps_refl|done]|].
  cbn [call]. destruct (segment_busy _); [split; [split; auto|done]|]. cbn [snd].
  apply Forall_cons in Ha as [Hs Ha]. split.
  - set (s1 := mkTcp _ _ _ _ _ _). apply (keeps_trans _ s1); [split; auto|]. eapply keeps_trans; by apply keeps_pcb.
  - split; cbn [pcb on_pcb tx in_tx set_tx in_tim set_tim snd_queuelen unacked unsent set_unsent set_unacked]; try done.
    + rewrite insert_sorted_perm, Hlen. cbn [pbufs]. lia.
    + rewrite insert_sorted_perm. by constructor.
Qed.

Lemma rexmit_fast_at s : queues_ok (t s) -> keeps s (tcp_rexmit_fast s) /\ queues_ok (t (tcp_rexmit_fast s)).
Proof.
  intros Hq. unfold tcp_rexmit_fast. destruct (_ && _); [|split; [apply keeps_refl|done]].
  destruct (rexmit_at s Hq) as [K Hq1]. destruct (tcp_rexmit s) as [res s1]. cbn [snd] in *.
  destruct (res =? ERR_OK); [|done]. split; [|done].
  apply (keeps_trans _ s1); [done|]. 
  eapply keeps_trans; [|by apply keeps_pcb]. eapply keeps_trans; [|by apply (set_flags_keeps TF_INFR)]. by apply keeps_pcb.
Qed.

Lemma ack_dup_at edge s : queues_ok (t s) -> keeps s (ack_dup edge s) /\ queues_ok (t (ack_dup edge s)).
Proof.
  intros Hq. unfold ack_dup. destruct (is_dupack edge s); [|split; [by apply keeps_pcb|done]].
  set (s1 := on_pcb (in_cc _) s). assert (K1 : keeps s s1) by (by apply keeps_pcb).
  set (s2 := if 3 <? dupacks (cc (pcb s1)) then _ else s1).
  assert (K2 : keeps s1 s2) by (unfold s2; destruct (_ <? _); [by apply keeps_pcb|apply keeps_refl]).
  assert (Hq2 : queues_ok (t s2)) by (unfold s2; by destruct (_ <? _)).
  assert (K : keeps s s2) by (by apply (keeps_trans _ s1)).
  destruct (_ <=? _); [|done]. destruct (rexmit_fast_at s2 Hq2). split; [by apply (keeps_trans _ s2)|done].
Qed.

(** The first part of [tcp_receive] leaves the receiver as it is. *)
Lemma receive_ack_at s : queues_ok (t s) -> exists s', receive_ack s = Some s' /\ keeps s s' /\ queues_ok (t s').
Proof.
  intros Hq. unfold receive_ack. destruct (has TCP_ACK _); [|exists s; split_and!; [done|apply keeps_refl|done]].
  set (s1 := on_pcb (ack_window (ins s)) s).
  assert (K1 : keeps s s1) by (apply keeps_pcb; unfold ack_window; destruct (_ || _); done).
  assert (Hq1 : queues_ok (t s1)) by (unfold s1, ack_window; cbn [pcb on_pcb]; destruct (_ || _); [destruct Hq; by split|done]).
  set (o := if TCP_SEQ_LEQ _ _ then _ else _).
  assert (Ho : exists s2, o = Some s2 /\ keeps s1 s2 /\ queues_ok (t s2)).
  { unfold o. destruct (TCP_SEQ_LEQ _ _); [eexists; split; [done|by apply ack_dup_at]|].
    destruct (TCP_SEQ_BETWEEN _ _ _); [destruct (ack_new_at s1 Hq1) as (s2 & E & K & H & _); eauto|].
    eexists. split_and!; [done|apply send_empty_ack_keeps|by rewrite send_empty_ack_tx]. }
  destruct Ho as (s2 & -> & K2 & Hq2). cbn [mbind option_bind].
  eexists. split; [done|]. assert (K : keeps s s2) by (by apply (keeps_trans _ s1)).
  destruct (_ && _); [|done]. split; [|done]. apply (keeps_trans _ s2); [done|by apply keeps_pcb].
Qed.

(** ** The sender while data is received *)

(** The sending side is as it was; FIN may close the other direction. *)
Record sender_same (s s' : tcp) : Prop := {
  ss_tx : tx (pcb s') = tx (pcb s);
  ss_state : state (pcb s') = state (pcb s) \/ (state (pcb s) = ESTABLISHED /\ state (pcb s') = CLOSE_WAIT /\ got_fin s' = true);
  ss_fin : got_fin s = true -> got_fin s' = true;
  ss_flags : in_flags (ins s') = in_flags (ins s) /\ in_ackno (ins s') = in_ackno (ins s)
}.

(** Neither the sender nor the state is touched. *)
Ltac same_tac := split; [try done|left; try done|try done|try done].

Lemma same_refl s : sender_same s s.
Proof. same_tac. Qed.

Lemma same_trans a b c : sender_same a b -> sender_same b c -> sender_same a c.
Proof.
  intros [E1 H1 F1 [I1 J1]] [E2 H2 F2 [I2 J2]]. split; [congruence| |auto|split; congruence].
  destruct H1 as [H1|(H1 & H1' & H1f)], H2 as [H2|(H2 & H2' & H2f)].
  - left; congruence.
  - right; split_and!; congruence.
  - right; split_and!; [congruence..|auto].
  - congruence.
Qed.

Lemma send_empty_ack_same s : sender_same s (tcp_send_empty_ack s).2.
Proof.
  pose proof (send_empty_ack_keeps s) as K. split; [apply send_empty_ack_tx|left; apply (kp_state _ _ K)| |].
  - unfold got_fin. by rewrite (kp_flags _ _ K).
  - unfold tcp_send_empty_ack, tcp_output_alloc_header, tcp_output_alloc_header_common, tcp_output_control_segment.
    cbn [call]. destruct (pbuf_alloc_ok _); [|done]. unfold tcp_output_fill_options. cbn [call].
    destruct LWIP_TCP_TIMESTAMPS; destruct (route _); cbn; by repeat case_match.
Qed.

Lemma update_same p infl q : tcp_update_rcv_ann_wnd p = Some (infl, q) -> tx q = tx p /\ state q = state p.
Proof. unfold tcp_update_rcv_ann_wnd. intros H. repeat case_match; simplify_option_eq; auto. Qed.

Lemma advance_same nxt len s s' : advance nxt len s = Some s' -> sender_same s s'.
Proof.
  unfold advance, update_ann_wnd. intros H. destruct (lwip_assert _); [|done]. cbn [mbind option_bind] in H.
  destruct (tcp_update_rcv_ann_wnd _) as [[infl q]|] eqn:E; [|done]. cbn [mbind option_bind] in H.
  injection H as <-. apply update_same in E as [E1 E2]. by same_tac.
Qed.

Lemma dequeue_same l : forall s s', dequeue l s = Some s' -> sender_same s s'.
Proof.
  induction l as [|seg l IH]; intros s s' H; cbn [dequeue] in H; [injection H as <-; apply same_refl|].
  destruct (_ =? _); [|injection H as <-; apply same_refl].
  destruct (advance _ _ _) as [s1|] eqn:E; [|done]. cbn [mbind option_bind] in H. apply advance_same in E.
  assert (E0 : sender_same s (on_ins (set_in_seqno (seg_seqno seg)) s)) by same_tac.
  apply IH in H. eapply same_trans; [exact E0|]. eapply same_trans; [exact E|]. eapply same_trans; [|exact H].
  destruct (has TCP_FIN _).
  - split.
    + cbn [pcb on_pcb on_ins tx in_rx set_rx]. by destruct (bool_decide _).
    + cbn [pcb on_pcb on_ins tx in_rx set_rx state]. destruct (bool_decide _) eqn:Es; [right|by left].
      apply bool_decide_eq_true in Es. split_and!; [done|done|]. apply (got_fin_add (on_ins (pass_up (seg_p seg)) s1)).
    + intros _. apply (got_fin_add (on_ins (pass_up (seg_p seg)) s1)).
    + cbn. unfold pass_up. by destruct (0 <? tot_len (seg_p seg)).
  - same_tac; unfold got_fin; cbn; unfold pass_up; by destruct (0 <? tot_len (seg_p seg)).
Qed.

Lemma trim_front_same s s' : trim_front s = Some s' -> sender_same s s'.
Proof. unfold trim_front. intros H. repeat case_match; simplify_option_eq; same_tac. Qed.

Lemma cut_to_window_same s s' : cut_to_window s = Some s' -> sender_same s s'.
Proof. unfold cut_to_window. intros H. case_match; simplify_option_eq; same_tac. Qed.

Lemma adjust_ooseq_same s s' : adjust_ooseq s = Some s' -> sender_same s s'.
Proof.
  unfold adjust_ooseq. intros H. destruct (ooseq _) as [|q l]; [injection H as <-; apply same_refl|].
  destruct (has TCP_FIN _); [injection H as <-; same_tac|].
  destruct (absorb_covered _ _ _ _) as [[seg len] [|next l']]; [injection H as <-; same_tac|].
  destruct (TCP_SEQ_GT _ _); simplify_option_eq; same_tac.
Qed.

Lemma in_sequence_same s s' : in_sequence s = Some s' -> sender_same s s'.
Proof.
  unfold in_sequence. intros H.
  destruct (cut_to_window s) as [s1|] eqn:E1; [|done]. cbn [mbind option_bind] in H. apply cut_to_window_same in E1.
  destruct (adjust_ooseq s1) as [s2|] eqn:E2; [|done]. cbn [mbind option_bind] in H. apply adjust_ooseq_same in E2.
  destruct (advance _ _ s2) as [s3|] eqn:E3; [|done]. cbn [mbind option_bind] in H. apply advance_same in E3.
  destruct (dequeue _ _) as [s4|] eqn:E4; [|done]. cbn [mbind option_bind] in H. injection H as <-. apply dequeue_same in E4.
  eapply same_trans; [exact E1|]. eapply same_trans; [exact E2|]. eapply same_trans; [exact E3|].
  eapply same_trans; [|eapply same_trans; [exact E4|]].
  - destruct (has TCP_FIN _).
    + split; [done|by left|intros _; apply got_fin_add|cbn; by destruct (0 <? tot_len _)].
    + same_tac; unfold got_fin; cbn; by destruct (0 <? tot_len _).
  - set (s5 := on_pcb tcp_ack _). assert (H5 : sender_same s4 s5).
    { same_tac; unfold s5, sack_after_dequeue, tcp_ack, tcp_remove_sacks_lt; cbn [pcb on_pcb]; repeat case_match; done. }
    destruct (_ && _); [|done]. eapply same_trans; [exact H5|apply send_empty_ack_same].
Qed.

Lemma trim_to_window_same c s c' s' : trim_to_window c s = Some (c', s') -> sender_same s s'.
Proof. unfold trim_to_window. intros H. case_match; simplify_option_eq; same_tac. Qed.

Lemma append_last_same next s b a s' : append_last next s = Some (b, a, s') -> sender_same s s'.
Proof.
  unfold append_last, tcp_seg_copy. intros H. cbn [call] in H. destruct (has _ _); [simplify_option_eq; apply same_refl|].
  destruct (tcp_seg_malloc_ok _); [|simplify_option_eq; same_tac].
  destruct (trim_to_window _ _) as [[c s1]|] eqn:E; [|done]. cbn [mbind option_bind] in H. simplify_option_eq.
  apply trim_to_window_same in E. eapply same_trans; [|exact E]. same_tac.
Qed.

Lemma walk_same l : forall prev sb s b a sb' s', ooseq_walk prev l sb s = Some (b, a, sb', s') -> sender_same s s'.
Proof.
  induction l as [|next l IH]; intros prev sb s b a sb' s' H; cbn [ooseq_walk] in H; [simplify_option_eq; apply same_refl|].
  destruct (_ =? _).
  { destruct (_ <? _); unfold tcp_seg_copy in H; cbn [call] in H; simplify_option_eq; same_tac. }
  destruct (goes_before _ _ _).
  { unfold tcp_seg_copy in H; cbn [call] in H. destruct (tcp_seg_malloc_ok _); simplify_option_eq; same_tac. }
  destruct (bool_decide _ && _).
  - destruct (append_last next s) as [[[b' a'] s1]|] eqn:E; [|done]. cbn in H. simplify_option_eq. by apply append_last_same in E.
  - destruct (ooseq_walk (Some next) l _ s) as [[[[b' a'] sb1] s1]|] eqn:E; [|done]. cbn in H. simplify_option_eq. by eapply IH.
Qed.

Lemma out_of_sequence_same s s' : out_of_sequence s = Some s' -> sender_same s s'.
Proof.
  unfold out_of_sequence. intros H. set (o := match ooseq _ with [] => _ | _ => _ end) in H.
  assert (Ho : forall s1, o = Some s1 -> sender_same s s1).
  { intros s1 E. unfold o in E. destruct (ooseq _).
    - injection E as <-. unfold ooseq_first, tcp_seg_copy. cbn [call]. destruct (_ && _); same_tac.
    - destruct (ooseq_walk _ _ _ _) as [[[[b a] sb] s2]|] eqn:Ew; [|done]. cbn [mbind option_bind] in E. injection E as <-.
      apply walk_same in Ew. eapply same_trans; [exact Ew|].
      same_tac; unfold sack_after_insert, tcp_add_sack; cbn [pcb on_pcb]; repeat case_match; done. }
  destruct o as [s1|]; [|done]. cbn [mbind option_bind] in H. injection H as <-.
  apply (same_trans _ s1); [by apply Ho|]. apply (same_trans _ (on_pcb ooseq_limit s1)); [|apply send_empty_ack_same].
  same_tac; unfold ooseq_limit, tcp_remove_sacks_gt; cbn [pcb on_pcb]; repeat case_match; done.
Qed.

Lemma receive_data_same s s' : receive_data s = Some s' -> sender_same s s'.
Proof.
  unfold receive_data, receive_text. intros H. destruct (_ && _).
  - destruct (trim_front s) as [s1|] eqn:E; [|done]. cbn [mbind option_bind] in H. apply trim_front_same in E.
    eapply same_trans; [exact E|]. destruct (in_window s1).
    + destruct (_ =? _); [by apply in_sequence_same|by apply out_of_sequence_same].
    + injection H as <-. apply send_empty_ack_same.
  - injection H as <-. destruct (in_window s); same_tac.
Qed.
End Send.
End TcpSendInv.
