(* ===== verification/TcpSpec.v ===== *)
(** What the TCP of lwIP promises: the stream that the other side sends reaches
    the application, and acknowledgments, retransmissions and the state machine
    do what they should. *)

From S2P Require Export TcpSendInv.
From S2P Require Import TcpSample.
Export TcpSendInv.
Import TcpSample.
Open Scope Z_scope.

Module TcpSpec.
Section Receiver.
Context {Opt : TcpOptions} {Wd : TcpWorld} {Pb : PbufLib} {N : NetworkOrder}.
Context (D : list Z) (isn : Z).

#[local] Abbreviation recv_inv := (recv_inv D isn).
#[local] Abbreviation chunk := (chunk D).
#[local] Abbreviation incoming := (incoming D isn).

(** The connection is well formed: the next byte is that at [n], the window
    ends at [R]. *)
Record good (n R : Z) (s : tcp) : Prop := {
  g_recv : recv_inv n R s;
  g_queues : queues_ok (tx (pcb s));
  g_state : 4 <= state_num (state (pcb s))
}.

Lemma keeps_incoming n R k s s' : keeps s s' -> incoming n R k (ins s) -> incoming n R k (ins s').
Proof. intros K []. destruct (kp_seg _ _ K) as (E1 & E2 & E3). split; rewrite ?E1, ?E2, ?E3, ?(kp_data _ _ K), ?(kp_flags _ _ K); done. Qed.

Lemma incoming_data n R k s : incoming n R k (ins s) -> data s = [] /\ got_fin s = false.
Proof. intros H. destruct (inc_new _ _ _ _ _ _ H) as [E1 E2]. unfold data, got_fin. by rewrite E1, E2. Qed.

Lemma same_state s s' : sender_same s s' -> 4 <= state_num (state (pcb s)) -> 4 <= state_num (state (pcb s')).
Proof. intros [_ [E|(_ & E & _)] _ _] H; rewrite E; [done|cbn; lia]. Qed.

Lemma receive_data_at n R k s :
  recv_inv n R s -> incoming n R k (ins s) ->
  exists n' s', receive_data s = Some s' /\ received D isn n n' R s s' /\ queue_at D isn R (n' + 1) (ooseq (rx (pcb s'))) /\
    (state_num (state (pcb s)) < 7 -> k <= n -> Z.min (k + seq_len (inseg (ins s))) R <= n').
Proof.
  intros Hi Hinc. unfold receive_data. rewrite (inc_len _ _ _ _ _ _ Hinc). pose proof (inc_pos _ _ _ _ _ _ Hinc).
  replace (0 <? _) with true by lia. cbn [andb]. change (state_num CLOSE_WAIT) with 7. destruct (_ <? 7) eqn:E.
  - destruct (receive_text_at D isn n R k s Hi Hinc) as (n' & s' & -> & Hr & Hq & Hp). eauto 10.
  - eexists n, _. split; [done|]. set (s1 := if in_window s then _ else _).
    assert (K : keeps s s1) by (unfold s1; destruct (in_window s); [apply keeps_refl|by apply (set_flags_keeps TF_ACK_NOW)]).
    split_and!; [|by rewrite (kp_ooseq _ _ K); apply Hi|lia].
    apply (received_keeps D isn n n R s s); [|done]. apply received_refl, Hi.
Qed.

(** A segment of the stream is processed without a failed assertion. *)
Lemma tcp_receive_at n R k s :
  good n R s -> incoming n R k (ins s) ->
  exists n' s', tcp_receive s = Some s' /\ good n' R s' /\ n <= n' /\ data s' = chunk n n' /\
    got_fin s' = (n <=? size D) && (size D <? n') /\
    (state_num (state (pcb s)) < 7 -> k <= n -> Z.min (k + seq_len (inseg (ins s))) R <= n').
Proof.
  intros [Hi Hq Hst] Hinc. unfold tcp_receive. change (state_num ESTABLISHED) with 4. replace (4 <=? _) with true by lia.
  cbn [lwip_assert mbind option_bind]. destruct (receive_ack_at s Hq) as (s1 & -> & K & Hq1). cbn [mbind option_bind].
  pose proof (keeps_incoming n R k s s1 K Hinc) as Hinc1. destruct (incoming_data n R k s1 Hinc1) as [Ed Ef].
  destruct (receive_data_at n R k s1 (keeps_inv D isn n R s s1 K Hi) Hinc1) as (n' & s2 & E2 & [Hc Hle Hd Hf] & Hq2 & Hp).
  exists n', s2. pose proof (receive_data_same s1 s2 E2) as Hs. pose proof (ss_tx _ _ Hs) as Et.
  split_and!; try done.
  - split; [done|by rewrite Et|]. apply (same_state s1 s2); [done|]. by rewrite (kp_state _ _ K).
  - by rewrite Hd, Ed.
  - by rewrite Hf, Ef.
  - rewrite <- (kp_state _ _ K), <- (proj1 (kp_seg _ _ K)). done.
Qed.

(** ** The application reads *)

Lemma tcp_recved_at n R len s :
  good n R s -> 0 <= len < 2 ^ 16 -> s32 (u32 (rcv_nxt (rx (pcb s)) - rcv_ann_right_edge (rx (pcb s)))) <= 2 ^ 30 ->
  exists R' s', tcp_recved len s = Some s' /\ R <= R' /\ good n R' s'.
Proof.
  intros [[Hc Hq] Hqs Hst] Hlen Hedge. pose proof (core_small D isn n R s Hc). pose proof (TCP_WND_MAX_le (pcb s)).
  pose proof wnd_max_small. destruct Hc as [En Hpos Ew Hm Ha (e & Ee & He & Hb) Hmss].
  unfold tcp_recved. rewrite bool_decide_eq_false_2 by (intros E; rewrite E in Hst; cbn in Hst; lia).
  cbn [negb lwip_assert mbind option_bind]. rewrite Ew.
  set (w := if _ || _ then TCP_WND_MAX (pcb s) else _).
  assert (Hw : R - n <= w <= TCP_WND_MAX (pcb s)) by (unfold w; destruct (_ || _) eqn:E; lia).
  clearbody w. set (p := in_rx (set_rcv_wnd w) (pcb s)).
  rewrite En, Ee, (stands_diff _ (isn + n) _ (isn + e)) in Hedge by (apply stands_u32 || (unfold near; lia)).
  destruct (update_ann_wnd_at isn n (n + w) e p) as (v & infl & -> & Hv); try done; try lia.
  { change (rcv_wnd (rx p)) with w. lia. }
  cbn [mbind option_bind]. set (s1 := on_pcb (fun _ => in_rx (set_rcv_ann_wnd v) p) s).
  assert (G1 : good n (n + w) s1).
  { split; [split|done|done].
    - split; try done.
      + change (rcv_wnd (rx (pcb s1))) with w. lia.
      + change (TCP_WND_MAX (pcb s1)) with (TCP_WND_MAX (pcb s)). lia.
      + exists e. split_and!; [done|lia|lia].
    - apply (queue_mono D isn R); [lia|done]. }
  destruct (_ <=? infl).
  - set (s2 := on_pcb tcp_ack_now s1). assert (K2 : keeps s1 s2) by (by apply (set_flags_keeps TF_ACK_NOW)).
    destruct (tcp_output_at s2) as (err & s3 & -> & K3 & Hq3); [done|intros E; change (state (pcb s2)) with (state (pcb s)) in E; rewrite E in Hst; cbn in Hst; lia|].
    cbn [mbind option_bind]. exists (n + w), s3. split_and!; [done|lia|].
    pose proof (keeps_trans _ _ _ K2 K3) as K. split; [by apply (keeps_inv D isn n _ s1), G1|done|]. by rewrite (kp_state _ _ K).
  - exists (n + w), s1. split_and!; [done|lia|done].
Qed.

(** ** A conversation *)

(** A segment arrives, or the application takes [len] bytes. *)
Inductive event := Arrive (a : arrival) | Read (len : Z).

(** The data that is passed up, and whether the end of the data is. *)
Definition step (ev : event) (s : tcp) : option (list Z * bool * tcp) :=
  match ev with
  | Arrive a => s ← tcp_receive (on_ins (fun _ => a) s); Some (data s, got_fin s, s)
  | Read len => s ← tcp_recved len s; Some ([], false, s)
  end.

Fixpoint run (evs : list event) (s : tcp) : option (list Z * bool * tcp) :=
  match evs with
  | [] => Some ([], false, s)
  | ev :: evs =>
      '(d1, f1, s) ← step ev s;
      '(d2, f2, s) ← run evs s;
      Some (d1 ++ d2, f1 || f2, s)
  end.

(** The other side sends parts of the stream, in any order and as often as it
    likes; the application reads what it got. *)
Definition obeys_now (n : Z) (ev : event) (s : tcp) : Prop :=
  match ev with
  | Arrive a => exists k, incoming n (n + rcv_wnd (rx (pcb s))) k a
  | Read len => 0 <= len < 2 ^ 16 /\ s32 (u32 (rcv_nxt (rx (pcb s)) - rcv_ann_right_edge (rx (pcb s)))) <= 2 ^ 30
  end.

Fixpoint obeys (n : Z) (evs : list event) (s : tcp) : Prop :=
  match evs with
  | [] => True
  | ev :: evs => obeys_now n ev s /\
      forall d f s', step ev s = Some (d, f, s') -> obeys (n + size d + (if f then 1 else 0)) evs s'
  end.

(** What is passed up tells how far the stream was received. *)
Lemma chunk_size n n' f :
  0 <= n -> n <= n' -> n' <= size D + 1 -> f = (n <=? size D) && (size D <? n') -> n + size (chunk n n') + (if f then 1 else 0) = n'.
Proof.
  intros Hn Hle Hmax ->. unfold TcpRecvStep.chunk. destruct (Z.le_gt_cases n (size D)).
  - rewrite size_bytes by lia. replace (n <=? size D) with true by lia. cbn [andb]. destruct (_ <? _) eqn:E; lia.
  - replace (n <=? size D) with false by lia. cbn [andb]. unfold bytes. replace (Z.to_nat _) with 0%nat by lia. rewrite take_0. change (size []) with 0. lia.
Qed.

Lemma step_at n R ev s :
  good n R s -> obeys_now n ev s ->
  exists n' R' d f s', step ev s = Some (d, f, s') /\ good n' R' s' /\ n <= n' /\ d = chunk n n' /\
    f = (n <=? size D) && (size D <? n').
Proof.
  intros G Ho. pose proof (g_recv _ _ _ G) as [Hc _]. destruct ev as [a|len]; cbn [step obeys_now] in *.
  - destruct Ho as [k Hk]. rewrite (rc_wnd _ _ _ _ _ Hc) in Hk. replace (n + (R - n)) with R in Hk by lia.
    destruct (tcp_receive_at n R k (on_ins (fun _ => a) s)) as (n' & s' & -> & G' & Hle & Hd & Hf & _).
    + destruct G as [[Hc' Hq] ? ?]. split; try done. by split; [destruct Hc'|].
    + done.
    + cbn [mbind option_bind]. exists n', R, (data s'), (got_fin s'), s'. auto.
  - destruct Ho as [Hl He]. destruct (tcp_recved_at n R len s G Hl He) as (R' & s' & -> & _ & G'). cbn [mbind option_bind].
    exists n, R', [], false, s'. split_and!; try done; try lia; by rewrite chunk_nil.
Qed.

Lemma run_at evs : forall n R s,
  good n R s -> obeys n evs s ->
  exists n' R' d f s', run evs s = Some (d, f, s') /\ good n' R' s' /\ n <= n' /\ d = chunk n n' /\
    f = (n <=? size D) && (size D <? n').
Proof.
  induction evs as [|ev evs IH]; intros n R s G Ho; cbn [run].
  { exists n, R, [], false, s. split_and!; try done; try lia; by rewrite chunk_nil. }
  destruct Ho as [Hnow Hthen]. destruct (step_at n R ev s G Hnow) as (n1 & R1 & d1 & f1 & s1 & E1 & G1 & Hle1 & Hd1 & Hf1).
  pose proof (rc_pos _ _ _ _ _ (proj1 (g_recv _ _ _ G))) as Hn. pose proof (rc_pos _ _ _ _ _ (proj1 (g_recv _ _ _ G1))) as Hn1.
  specialize (Hthen _ _ _ E1). rewrite Hd1, (chunk_size n n1 f1) in Hthen by (done || lia).
  rewrite E1. cbn [mbind option_bind].
  destruct (IH n1 R1 s1 G1 Hthen) as (n2 & R2 & d2 & f2 & s2 & -> & G2 & Hle2 & Hd2 & Hf2). cbn [mbind option_bind].
  exists n2, R2, (d1 ++ d2), (f1 || f2), s2. split_and!; try done; [lia| |].
  - rewrite Hd1, Hd2. apply chunk_app; lia.
  - rewrite Hf1, Hf2. lia.
Qed.

(** C36. TCP: whatever parts of its stream the other side sends, in whatever
    order and however often, as long as a part that is ahead fits into the
    window, and whatever the application reads: [tcp_receive] and
    [tcp_recved] never fail an assertion, the data that is passed up is exactly
    the next bytes of the stream, in order and each once, and the end of the
    data is reported exactly when all of them were. *)
Theorem tcp_reassembly evs n R s :
  good n R s -> obeys n evs s ->
  exists n' R' d f s', run evs s = Some (d, f, s') /\ good n' R' s' /\ n <= n' /\
    d = bytes D n (Z.min n' (size D) - n) /\ f = (n <=? size D) && (size D <? n').
Proof. apply run_at. Qed.

(** TCP: a part of the stream that begins at or before the next byte is
    received up to its end, or to that of the window, and so is what waited on
    the queue behind it: the stream makes progress. *)
Theorem tcp_receive_progress n R k s :
  good n R s -> incoming n R k (ins s) -> state_num (state (pcb s)) < state_num CLOSE_WAIT -> k <= n ->
  exists n' s', tcp_receive s = Some s' /\ good n' R s' /\ Z.min (k + seq_len (inseg (ins s))) R <= n' /\
    data s' = bytes D n (Z.min n' (size D) - n).
Proof.
  intros G Hinc Hst Hk. destruct (tcp_receive_at n R k s G Hinc) as (n' & s' & -> & G' & Hle & Hd & _ & Hp).
  exists n', s'. auto.
Qed.
End Receiver.

(** ** Witnesses *)

#[local] Existing Instances sample_options sample_world sample_pbuf sample_order.

(** Eight bytes, whose second half is a segment of its own with the end of the
    data; the sequence numbers wrap behind the third. *)
Definition sample_stream : list Z := [71; 69; 84; 32; 47; 10; 13; 10].
Definition sample_isn : Z := 0xfffffffd.

(** The second half arrives first, then the first half twice, once with a byte of the second. *)
Definition sample_talk : list event :=
  [Arrive (data_arrival 1 true [47; 10; 13; 10]); Arrive (data_arrival sample_isn false [71; 69; 84; 32; 47]);
   Read 5; Arrive (data_arrival sample_isn false [71; 69; 84; 32])].

Ltac at_position := constructor; try done; cbn; try lia; try discriminate.
Ltac arrives_at k :=
  exists k; constructor; [at_position|done|done|done|vm_compute; split; [discriminate|done]|vm_compute; intuition discriminate|done].

Lemma sample_good : good sample_stream sample_isn 0 4096 (sample_tcp ESTABLISHED sample_isn [] []).
Proof.
  split; [split; [split|]|split|].
  - by vm_compute.
  - by vm_compute.
  - by vm_compute.
  - by vm_compute.
  - by vm_compute.
  - exists 4096. by vm_compute.
  - by vm_compute.
  - constructor.
  - by vm_compute.
  - by vm_compute.
  - constructor.
  - constructor.
  - by vm_compute.
Qed.

Lemma tcp_reassembly_witness :
  obeys sample_stream sample_isn 0 sample_talk (sample_tcp ESTABLISHED sample_isn [] []) /\
  exists s', run sample_talk (sample_tcp ESTABLISHED sample_isn [] []) = Some (sample_stream, true, s').
Proof.
  assert (Ho : obeys sample_stream sample_isn 0 sample_talk (sample_tcp ESTABLISHED sample_isn [] [])).
  { split; [arrives_at 4|]. intros d f s' E. vm_compute in E. injection E as <- <- <-.
    split; [arrives_at 0|]. intros d f s' E. vm_compute in E. injection E as <- <- <-.
    split; [by vm_compute|]. intros d f s' E. vm_compute in E. injection E as <- <- <-.
    split; [arrives_at 0|]. done. }
  split; [done|].
  destruct (tcp_reassembly sample_stream sample_isn sample_talk 0 4096 _ sample_good Ho) as (n' & R' & d & f & s' & E & _).
  assert (Ec : fst <$> run sample_talk (sample_tcp ESTABLISHED sample_isn [] []) = Some (sample_stream, true)) by by vm_compute.
  exists s'. rewrite E in Ec |- *. by injection Ec as -> ->.
Defined.

Lemma tcp_receive_progress_witness :
  let s := on_ins (fun _ => data_arrival sample_isn false [71; 69; 84; 32]) (sample_tcp ESTABLISHED sample_isn [] []) in
  exists n' s', tcp_receive s = Some s' /\ 4 <= n' /\ data s' = bytes sample_stream 0 (Z.min n' 8 - 0).
Proof.
  intros s.
  destruct (tcp_receive_progress sample_stream sample_isn 0 4096 0 s) as (n' & s' & E & _ & Hn & Hd).
  - destruct sample_good as [[[] ?] ? ?]. split; [split; [by split|done]|done|done].
  - constructor; [at_position|done|done|done|vm_compute; split; [discriminate|done]|vm_compute; intuition discriminate|done].
  - by vm_compute.
  - done.
  - exists n', s'. done.
Defined.
End TcpSpec.
