(* ===== verification/TcpFlow.v ===== *)
(** The sending side of the TCP of lwIP: [tcp_output] keeps to the window and
    loses nothing, [tcp_write] accepts all or nothing. *)

From S2P Require Export TcpSpec.
From S2P Require Import TcpSample.
Export TcpSpec.
Import TcpSample.
Open Scope Z_scope.

Module TcpFlow.
Section Flow.
Context {Opt : TcpOptions} {Wd : TcpWorld} {Pb : PbufLib} {N : NetworkOrder}.

#[local] Abbreviation t s := (tx (pcb s)).

(** What a segment is for the other side: where it begins, what it brings, and
    its length in the sequence; ACK and PSH may be set later. *)
Definition key (seg : tcp_seg) : Z * chain * Z * bool * bool :=
  (seg_seqno seg, seg_p seg, seg_len seg, has TCP_SYN (TCPH_FLAGS seg), has TCP_FIN (TCPH_FLAGS seg)).

(** The segments that wait to be acknowledged or sent. *)
Definition waiting (x : sender) : list (Z * chain * Z * bool * bool) := key <$> unacked x ++ unsent x.

Lemma key_ack seg : key (TCPH_SET_FLAG TCP_ACK seg) = key seg.
Proof. unfold key. rewrite !set_flag_has. cbn [TCPH_SET_FLAG seg_seqno seg_p seg_len]. by rewrite !orb_false_r. Qed.

(** What was handed to IP from [s] to [s']: segments of the queue [l] that end
    within [wnd] bytes from the oldest byte that is not acknowledged, and
    segments without data. *)
Definition within (wnd la : Z) (l : list tcp_seg) (o : tcp_out) : Prop :=
  o_data o = [] \/
  exists seg, seg ∈ l /\ o_seqno o = seg_seqno seg /\ o_data o = concat (seg_p seg) /\ u32 (seg_seqno seg - la + seg_len seg) <= wnd.

Definition emitted (wnd la : Z) (l : list tcp_seg) (s s' : tcp) : Prop :=
  exists outs, sent s' = sent s ++ outs /\ Forall (within wnd la l) outs.

Lemma emitted_refl wnd la l s s' : sent s' = sent s -> emitted wnd la l s s'.
Proof. intros E. exists []. split; [by rewrite app_nil_r|constructor]. Qed.

Lemma emitted_trans wnd la l a b c : emitted wnd la l a b -> emitted wnd la l b c -> emitted wnd la l a c.
Proof. intros (x & E1 & H1) (y & E2 & H2). exists (x ++ y). rewrite E2, E1, app_assoc. split; [done|by apply Forall_app]. Qed.

Lemma emitted_cons wnd la seg l s s' : emitted wnd la l s s' -> emitted wnd la (seg :: l) s s'.
Proof.
  intros (x & E & H). exists x. split; [done|]. eapply Forall_impl; [exact H|].
  intros o [Ho|(g & Hg & ?)]; [by left|]. right. exists g. split; [by right|done].
Qed.

Lemma empty_ack_emitted wnd la l s : emitted wnd la l s (tcp_send_empty_ack s).2.
Proof.
  unfold tcp_send_empty_ack, tcp_output_alloc_header, tcp_output_alloc_header_common, tcp_output_control_segment.
  cbn [call]. destruct (pbuf_alloc_ok _); [|by apply emitted_refl]. unfold tcp_output_fill_options. cbn [call].
  destruct LWIP_TCP_TIMESTAMPS; destruct (route _); cbn; (destruct (_ =? _) || idtac);
    first [by apply emitted_refl | eexists [_]; split; [reflexivity|constructor; [by left|constructor]]].
Qed.

Lemma output_segment_emitted wnd la seg seg' l s :
  seg_seqno seg' = seg_seqno seg -> seg_p seg' = seg_p seg -> u32 (seg_seqno seg - la + seg_len seg) <= wnd -> seg ∈ l ->
  emitted wnd la l s (tcp_output_segment seg' s).2.
Proof.
  intros E1 E2 Hw Hin. unfold tcp_output_segment. cbn [call]. destruct (segment_busy _); [by apply emitted_refl|].
  eexists [_]. split; [cbn; reflexivity|]. constructor; [|constructor]. right. exists seg. cbn. by rewrite E1, E2.
Qed.

Lemma sent_one_sent seg l s : sent (sent_one seg l s) = sent s.
Proof. unfold sent_one. by destruct (bool_decide _). Qed.

Lemma sent_one_waiting seg l s s0 :
  t s = set_unsent (seg :: l) s0 -> waiting (t (sent_one seg l s)) ≡ₚ waiting (t s).
Proof.
  intros E. rewrite sent_one_tx, E. unfold waiting.
  set (x := bump _ _). assert (Eu : unsent x = l) by apply (bump_fields _ (set_unsent l (set_unsent (seg :: l) s0))).
  change (unsent (set_unacked _ x)) with (unsent x). rewrite Eu.
  change (unacked (set_unacked ?u x)) with u. change (unacked (set_unsent _ s0)) with (unacked s0).
  rewrite put_unacked_perm. change (unsent (set_unsent (seg :: l) s0)) with (seg :: l).
  by rewrite <- app_comm_cons, Permutation_middle.
Qed.

(** The loop over the queue: nothing is lost, and what is sent is in the window. *)
Lemma output_loop_flow wnd l : forall s,
  unsent (t s) = l -> Forall sendable l ->
  forall res s', output_loop wnd l s = Some (res, s') ->
  waiting (t s') ≡ₚ waiting (t s) /\ lastack (t s') = lastack (t s) /\ emitted wnd (lastack (t s)) l s s'.
Proof.
  induction l as [|seg l IH]; intros s El Hl res s' H; cbn [output_loop] in H.
  { injection H as <- <-. split_and!; try done. by apply emitted_refl. }
  apply Forall_cons in Hl as [Hs Hl].
  destruct (too_far wnd (pcb s) seg) eqn:Ew; [injection H as <- <-; split_and!; try done; by apply emitted_refl|].
  destruct (lwip_assert _); [|done]. cbn [mbind option_bind] in H.
  destruct (negb (tcp_do_output_nagle _) && _); [injection H as <- <-; split_and!; try done; by apply emitted_refl|].
  set (seg' := if bool_decide (state (pcb s) = SYN_SENT) then seg else TCPH_SET_FLAG TCP_ACK seg) in H.
  assert (Ek : key seg' = key seg) by (unfold seg'; destruct (bool_decide _); [done|apply key_ack]).
  assert (Ep : seg_p seg' = seg_p seg /\ seg_seqno seg' = seg_seqno seg) by (unfold seg'; by destruct (bool_decide _)).
  assert (Hs' : sendable seg') by (unfold seg'; destruct (bool_decide _); [done|by apply sendable_ack]).
  set (s1 := on_pcb (in_tx (set_unsent (seg' :: l))) s) in H.
  assert (W1 : waiting (t s1) ≡ₚ waiting (t s)).
  { unfold waiting. change (unacked (t s1)) with (unacked (t s)). change (unsent (t s1)) with (seg' :: l). rewrite El.
    rewrite !fmap_app, !fmap_cons. by rewrite Ek. }
  assert (Hem : emitted wnd (lastack (t s)) (seg :: l) s (tcp_output_segment seg' s1).2).
  { destruct (output_segment_emitted wnd (lastack (t s)) seg seg' (seg :: l) s1) as (x & Ex & Hx);
      [apply Ep|apply Ep|unfold too_far in Ew; lia|by left|]. by exists x. }
  destruct (output_segment_keeps seg' s1) as [K2 E2]. destruct (tcp_output_segment seg' s1) as [err s2]. cbn [snd] in *.
  destruct (negb (err =? ERR_OK)).
  { injection H as <- <-. change (t (on_pcb (tcp_set_flags TF_NAGLEMEMERR) s2)) with (t s2). rewrite E2. split_and!; try done. }
  assert (Hpos : (0 <? TCP_TCPLEN seg') = true) by (destruct Hs'; lia). rewrite Hpos in H.
  match type of H with output_loop wnd l ?x = _ => replace x with (sent_one seg' l s2) in H end; cycle 1.
  { unfold sent_one. change (state (pcb (on_pcb (in_tx (set_unsent l)) s2))) with (state (pcb s2)). rewrite (kp_state _ _ K2).
    change (state (pcb s1)) with (state (pcb s)). by destruct (bool_decide _). }
  assert (El2 : lastack (t (sent_one seg' l s2)) = lastack (t s)).
  { rewrite sent_one_tx, E2. unfold bump. by destruct (TCP_SEQ_LT _ _). }
  destruct (IH (sent_one seg' l s2)) with (res := res) (s' := s') as (W3 & L3 & M3); try done.
  { rewrite sent_one_tx, E2. exact (proj1 (proj2 (proj2 (bump_fields _ (set_unsent l (t s1)))))). }
  rewrite El2 in L3, M3. split_and!; try done.
  - rewrite W3, <- W1, (sent_one_waiting seg' l s2 (t s)) by (by rewrite E2). by rewrite E2.
  - apply (emitted_trans _ _ _ s s2); [done|]. apply emitted_cons. destruct M3 as (x & Ex & Hx). exists x. by rewrite Ex, sent_one_sent.
Qed.

(** C37. TCP: [tcp_output] sends segments of its queue, unchanged, and only such
    as end within the smaller of the announced and the congestion window, counted
    from the oldest byte that is not acknowledged; every other segment it sends is
    without data. No segment leaves the queues: what waits to be acknowledged or
    sent is the same as before. *)
Theorem tcp_output_in_window s err s' :
  queues_ok (t s) -> tcp_output s = Some (err, s') ->
  emitted (Z.min (snd_wnd (t s)) (cwnd (cc (pcb s)))) (lastack (t s)) (unsent (t s)) s s' /\ waiting (t s') ≡ₚ waiting (t s).
Proof.
  intros Hq. unfold tcp_output. destruct (lwip_assert _); [|done]. cbn [mbind option_bind].
  set (wnd := Z.min _ _). set (la := lastack (t s)).
  destruct (tcp_input_pcb s); [intros [= <- <-]; split; [by apply emitted_refl|done]|].
  assert (Hend : forall s1, sent s1 = sent s -> t s1 = t s ->
    Some (if has TF_ACK_NOW (flags (pcb s1)) then tcp_send_empty_ack s1 else output_done s1) = Some (err, s') ->
    emitted wnd la (unsent (t s)) s s' /\ waiting (t s') ≡ₚ waiting (t s)).
  { intros s1 Es Et H. destruct (has _ _).
    - apply (inj Some), (f_equal snd) in H. cbn [snd] in H. rewrite <- H, send_empty_ack_tx, Et. split; [|done].
      destruct (empty_ack_emitted wnd la (unsent (t s)) s1) as (x & Ex & Hx). exists x. by rewrite Ex, Es.
    - injection H as <- <-. split; [by apply emitted_refl|]. by rewrite <- Et. }
  destruct (unsent (t s)) as [|seg l'] eqn:El; [by apply Hend|]. cbn [call].
  set (s1 := mkTcp _ _ _ _ _ _). destruct (route _) as [nif|]; [|intros [= <- <-]; split; [by apply emitted_refl|done]].
  destruct (know_local_ip nif s1) as [s2|] eqn:Ek; [|intros [= <- <-]; split; [by apply emitted_refl|done]].
  assert (H2 : sent s2 = sent s /\ t s2 = t s /\ unacked (t s2) = unacked (t s)).
  { unfold know_local_ip in Ek. destruct (local_ip (pcb s1) =? 0); [|by injection Ek as <-].
    destruct (ip_netif_get_local_ip _ _); [|done]. by injection Ek as <-. }
  destruct H2 as (Es2 & Et2 & _). destruct (too_far _ _ _).
  - destruct (_ && _); by apply Hend.
  - intros H. set (s3 := on_pcb (in_tim (set_persist_backoff 0)) s2) in H.
    change (unsent (t s3)) with (unsent (t s2)) in H. rewrite Et2, El in H. change (wnd) with (Z.min (snd_wnd (t s)) (cwnd (cc (pcb s)))) in H.
    destruct (output_loop _ (seg :: l') s3) as [[res s4]|] eqn:Eo; [|done]. cbn [mbind option_bind] in H.
    apply output_loop_flow in Eo as (W & L & M); cycle 1.
    { change (t s3) with (t s2). by rewrite Et2. }
    { rewrite <- El. apply (qo_unsent _ Hq). }
    change (t s3) with (t s2) in *. rewrite Et2 in *.
    assert (Hs' : sent s' = sent s4 /\ t s' = t s4) by (destruct res; injection H as <- <-; done).
    destruct Hs' as [Es' Et']. rewrite Et'. split; [|done]. destruct M as (x & Ex & Hx). exists x. rewrite Es', Ex. change (sent s3) with (sent s2). by rewrite Es2.
Qed.

(** ** Acknowledgments *)

Lemma acked_front_all ackno l : Forall (fun seg => TCP_SEQ_LEQ (seg_seqno seg + TCP_TCPLEN seg) ackno = true) (acked_front ackno l).
Proof.
  induction l as [|seg l IH]; cbn; [constructor|]. destruct (acked ackno seg) eqn:E; [by constructor|constructor].
Qed.

(** What an acknowledgment takes from the queues. *)
Definition taken_by (ackno : Z) (x : sender) : list tcp_seg := acked_front ackno (unacked x) ++ acked_front ackno (unsent x).

(** TCP: an acknowledgment of new data takes the segments that it covers as a
    whole from the front of the queues, and no others; the length of the queues is
    counted down by their buffers, the space of the send buffer grows by their
    bytes, the oldest unacknowledged byte is that of the acknowledgment, and no
    assertion fails. *)
Theorem ack_frees_exactly s :
  queues_ok (t s) -> recv_acked (ins s) = 0 ->
  let ackno := in_ackno (ins s) in
  exists s', ack_new s = Some s' /\ queues_ok (t s') /\
    unacked (t s) = acked_front ackno (unacked (t s)) ++ unacked (t s') /\
    unsent (t s) = acked_front ackno (unsent (t s)) ++ unsent (t s') /\
    Forall (fun seg => TCP_SEQ_LEQ (seg_seqno seg + TCP_TCPLEN seg) ackno = true) (taken_by ackno (t s)) /\
    snd_queuelen (t s') = snd_queuelen (t s) - pbufs (taken_by ackno (t s)) /\
    snd_buf (t s') = tcpwnd (snd_buf (t s) + count_bytes (taken_by ackno (t s)) 0) /\ lastack (t s') = ackno.
Proof.
  intros Hq Hz ackno. destruct (ack_new_at s Hq) as (s' & E & _ & Hq' & Ea & Eu & El & Er & Eb).
  exists s'. rewrite Hz in Er. split_and!; try done.
  - by rewrite Ea, acked_split.
  - by rewrite Eu, acked_split.
  - apply Forall_app. split; apply acked_front_all.
  - rewrite (qo_len _ Hq'), (qo_len _ Hq), Ea, Eu. unfold taken_by. rewrite pbufs_app.
    rewrite <- (acked_split ackno (unacked (t s))) at 2. rewrite <- (acked_split ackno (unsent (t s))) at 2.
    rewrite !pbufs_app. fold ackno. lia.
  - by rewrite Eb, Er.
Qed.

(** ** Writing *)

(** The data of a queue. *)
Definition queued (l : list tcp_seg) : list Z := concat ((fun seg => concat (seg_p seg)) <$> l).

Definition has_chain (seg : tcp_seg) : Prop := seg_p seg <> [].

Lemma queued_app l1 l2 : queued (l1 ++ l2) = queued l1 ++ queued l2.
Proof. unfold queued. by rewrite fmap_app, concat_app. Qed.

Lemma on_last_snoc {A} (f : A -> A) l x : on_last f (l ++ [x]) = l ++ [f x].
Proof. induction l as [|y l IH]; [done|]. destruct l as [|z l]; [done|]. cbn [app on_last] in *. by rewrite IH. Qed.

Lemma on_last_queued f l : (forall seg, seg_p (f seg) = seg_p seg) -> queued (on_last f l) = queued l.
Proof.
  intros Hf. destruct l as [|x l _] using rev_ind; [done|]. rewrite on_last_snoc, !queued_app.
  unfold queued. cbn. by rewrite Hf.
Qed.

(** Every new segment makes the queue longer, so that the loop ends. *)
Lemma write_segments_at copy max_len optflags : forall fuel data pos q queue s,
  0 <= q -> (data <> [] -> q <= 0xfffd) -> (Z.to_nat (Z.min TCP_SND_QUEUELEN 0xfffc - q + 1) < fuel)%nat ->
  exists r s', write_segments fuel copy max_len optflags data pos q queue s = Some (r, s') /\
    pcb s' = pcb s /\
    match r with
    | Some (l, q') => exists new, l = queue ++ new /\ queued new = data /\ Forall has_chain new /\ (new = [] -> q' = q)
    | None => True
    end.
Proof.
  induction fuel as [|fuel IH]; intros data pos q queue s Hq0 Hq Hf; [lia|].
  cbn [write_segments]. destruct data as [|b data]; [eexists _, s; split_and!; [done|done|]; exists []; by rewrite app_nil_r|].
  specialize (Hq ltac:(done)). set (seglen := Z.min _ max_len). set (bytes := take (Z.to_nat seglen) (b :: data)). cbn [call].
  destruct (_ || _); [eexists None, _; by split_and!|].
  set (p := if copy then [bytes] else pbuf_cat [[]] [bytes]).
  assert (Hp : concat p = bytes /\ 1 <= pbuf_clen p <= 2 /\ p <> []).
  { unfold p. destruct copy; [cbn; by rewrite app_nil_r|]. rewrite cat_chain. cbn. by rewrite app_nil_r. }
  destruct Hp as (Hpc & Hpl & Hpn). rewrite (u16_small (q + _)) by lia.
  destruct (_ <? _) eqn:El; [eexists None, _; by split_and!|].
  unfold tcp_create_segment. cbn [call]. destruct (negb _ || negb _); [eexists None, _; by split_and!|].
  match goal with |- context[write_segments fuel _ _ _ _ _ _ ?qu ?st] => set (queue' := qu); set (s1 := st) end.
  destruct (IH (drop (Z.to_nat seglen) (b :: data)) (pos + seglen) (q + pbuf_clen p) queue' s1) as (r & s' & E & Ep & Hr); [lia|lia|lia|].
  exists r, s'. split_and!; [exact E|by rewrite Ep|]. destruct r as [[l q']|]; [|done].
  destruct Hr as (new & -> & Hn & Hc & Hq'). eexists. unfold queue'. rewrite <- app_assoc. split; [done|]. split_and!.
  - cbn [app]. unfold queued in *. cbn. rewrite Hn, Hpc. unfold bytes. apply take_drop.
  - by constructor.
  - done.
Qed.

(** The queue with [seglen] bytes behind its last segment. *)
Lemma extend_queued x p seglen data :
  (forall seg, last (unsent x) = Some seg -> concat p = concat (seg_p seg) ++ data) -> unsent x <> [] ->
  queued (on_last (fun seg => set_seg_len (u16 (seg_len seg + seglen)) (set_seg_p p seg)) (unsent x)) = queued (unsent x) ++ data.
Proof.
  destruct (unsent x) as [|seg l _] using rev_ind; [done|]. intros H _. specialize (H seg). rewrite last_snoc in H.
  rewrite on_last_snoc, !queued_app, <- app_assoc. f_equal. unfold queued. cbn. rewrite !app_nil_r. by apply H.
Qed.

Lemma write_concat_at copy data p s :
  p <> [] -> exists r s', write_concat copy data p s = (r, s') /\ pcb s' = pcb s /\
    match r with Some (p', grown) => concat p' = concat p ++ data /\ 0 <= grown <= 1 | None => True end.
Proof.
  intros Hp. unfold write_concat. cbn [call].
  assert (Hcat : concat (pbuf_cat p [data]) = concat p ++ data) by (rewrite cat_chain, concat_app; cbn; by rewrite app_nil_r).
  destruct copy; [|destruct (rom_contiguous _)]; try (destruct (pbuf_alloc_ok _)); eexists _, _; split_and!; try done.
  destruct p as [|b p _] using rev_ind; [done|]. unfold extend_last. rewrite on_last_snoc, !concat_app. cbn.
  by rewrite !app_nil_r, app_assoc.
Qed.

Lemma commit_queued len seglen p more queue q x data :
  (0 < seglen -> unsent x <> [] /\ forall seg, last (unsent x) = Some seg -> concat p = concat (seg_p seg) ++ data) ->
  (seglen <= 0 -> data = []) ->
  queued (unsent (write_commit len seglen p more queue q x)) = queued (unsent x) ++ data ++ queued queue.
Proof.
  intros H1 H2. unfold write_commit. cbn [unsent set_snd_queuelen set_snd_buf set_snd_lbb set_unsent].
  set (old := if 0 <? seglen then _ else unsent x).
  assert (Ho : queued old = queued (unsent x) ++ data).
  { unfold old. destruct (0 <? seglen) eqn:E; [apply extend_queued; apply H1; lia|]. by rewrite H2, app_nil_r by lia. }
  rewrite app_assoc, <- Ho, <- queued_app. destruct (_ && _); [|done]. by apply on_last_queued.
Qed.

Lemma pbufs_chain l : Forall has_chain l -> pbufs l = 0 -> l = [].
Proof.
  intros H E. destruct l as [|seg l]; [done|]. apply Forall_cons in H as [Hs _]. cbn [pbufs] in E. pose proof (pbufs_nonneg l).
  unfold pbuf_clen, has_chain in *. destruct (seg_p seg); [done|]. cbn [length] in E. lia.
Qed.

(** The queues are well formed: counted, and made of chains. *)
Record write_ok (s : tcp) : Prop := {
  wo_queues : queues_ok (t s);
  wo_chains : Forall has_chain (unacked (t s)) /\ Forall has_chain (unsent (t s));
  wo_last : forall seg, last (unsent (t s)) = Some seg -> seg_used seg <= write_mss (pcb s)
}.

Lemma queue_empty_iff s : write_ok s -> queue_not_empty s = negb (snd_queuelen (t s) =? 0).
Proof.
  intros [[Hlen _ _ _] [Ha Hu] _]. unfold queue_not_empty.
  pose proof (pbufs_nonneg (unacked (t s))). pose proof (pbufs_nonneg (unsent (t s))).
  assert (Hz : (snd_queuelen (t s) =? 0) = bool_decide (unacked (t s) = []) && bool_decide (unsent (t s) = [])).
  { apply eq_bool_prop_intro. rewrite andb_True, !bool_decide_spec, Is_true_true, Z.eqb_eq. split.
    - intros E. split; apply pbufs_chain; done || lia.
    - intros [E1 E2]. rewrite Hlen, E1, E2. done. }
  rewrite Hz. by destruct (bool_decide _), (bool_decide _).
Qed.

Lemma write_memerr_at s : write_ok s -> write_memerr s = Some (ERR_MEM, on_pcb (tcp_set_flags TF_NAGLEMEMERR) s).
Proof. intros H. unfold write_memerr. rewrite (queue_empty_iff s H). by destruct (_ =? 0). Qed.

(** Nothing but the flags changed. *)
Definition rejected (err : Z) (s s' : tcp) : Prop :=
  err <> ERR_OK /\ tx (pcb s') = tx (pcb s) /\ rx (pcb s') = rx (pcb s) /\ state (pcb s') = state (pcb s).

Lemma memerr_rejected s s1 :
  write_ok s -> pcb s1 = pcb s -> exists s', write_memerr s1 = Some (ERR_MEM, s') /\ rejected ERR_MEM s s'.
Proof.
  intros H E. assert (H1 : write_ok s1) by (destruct H; split; by rewrite E).
  rewrite (write_memerr_at s1 H1). eexists. split; [done|]. split; [done|]. cbn. by rewrite E.
Qed.

Lemma queue_not_empty_intro s : unacked (t s) <> [] \/ unsent (t s) <> [] -> queue_not_empty s = true.
Proof. intros [H|H]; unfold queue_not_empty; rewrite (bool_decide_eq_false_2 _ H); cbn; by rewrite ?orb_true_r. Qed.

Lemma on_last_nonempty {A} (f : A -> A) l : l <> [] -> on_last f l <> [].
Proof. destruct l as [|x [|y l]]; done. Qed.

Lemma commit_nonempty len seglen p more queue q x :
  unsent x <> [] \/ queue <> [] -> unsent (write_commit len seglen p more queue q x) <> [].
Proof.
  intros H. unfold write_commit. cbn [unsent set_snd_queuelen set_snd_buf set_snd_lbb set_unsent].
  set (old := if 0 <? seglen then _ else unsent x).
  assert (Ho : old ++ queue <> []).
  { intros E. apply app_eq_nil in E as [E1 ->]. destruct H as [H|H]; [|done]. unfold old in E1.
    destruct (0 <? seglen); [by apply on_last_nonempty in E1|done]. }
  destruct (_ && _); [by apply on_last_nonempty|done].
Qed.

Lemma write_checks_at len s :
  write_ok s -> exists err s', tcp_write_checks len s = Some (err, s') /\
    (rejected err s s' \/ err = ERR_OK /\ s' = s /\ (len <> 0 -> snd_queuelen (t s) < 0xfffd)).
Proof.
  intros Hw. unfold tcp_write_checks.
  destruct (negb (bool_decide _)); [eexists _, s; split; [done|by left]|].
  destruct (len =? 0) eqn:Ez; [eexists _, s; split; [done|]; right; split_and!; [done|done|lia]|].
  destruct (_ <? len); [eexists _, _; split; [done|by left]|].
  destruct (_ <=? _) eqn:El; [eexists _, _; split; [done|by left]|].
  rewrite (queue_empty_iff s Hw), Bool.eqb_reflx. cbn [lwip_assert mbind option_bind].
  exists ERR_OK, s. split; [done|]. right. split_and!; [done|done|lia].
Qed.

Lemma write_room_at len s :
  write_ok s -> 0 <= len -> exists n, write_room len (pcb s) = Some n /\ 0 <= n <= len /\ (0 < n -> unsent (t s) <> []).
Proof.
  intros [_ _ Hl] Hlen. unfold write_room. destruct (last (unsent (t s))) as [seg|] eqn:E.
  - specialize (Hl seg eq_refl). replace (_ <=? _) with true by lia. cbn [lwip_assert mbind option_bind].
    eexists. split; [done|]. split; [|intros _ E1; by rewrite E1 in E].
    destruct (_ && _) eqn:Eb; [|lia]. apply andb_true_iff in Eb as [Eb _]. lia.
  - exists 0. split; [done|]. lia.
Qed.

(** C38. TCP: [tcp_write] accepts the data as a whole or not at all, and fails no
    assertion: when the result is ERR_OK the data follows that of the queue of
    unsent segments, in order, and the counters of the buffer and of the
    sequence are advanced by its length; with any other result the queues, the
    counters and the state are what they were, however many segments had been
    made when memory or the queue ran out. Conditions ([write_ok]): the queues
    are consistent with their counters, every queued segment has a buffer, and
    the last unsent segment is no longer than a segment may be now, the
    smaller one of the segment size and half of the largest window. The last
    one is needed: an MSS option that arrives later can make it false, and then
    LWIP_ASSERT("mss_local is too small") fails. *)
Theorem tcp_write_all_or_nothing arg apiflags s :
  write_ok s ->
  exists err s', tcp_write arg apiflags s = Some (err, s') /\
    (rejected err s s' \/
     err = ERR_OK /\ queued (unsent (t s')) = queued (unsent (t s)) ++ arg /\ unacked (t s') = unacked (t s) /\
     snd_lbb (t s') = u32 (snd_lbb (t s) + size arg) /\ snd_buf (t s') = tcpwnd (snd_buf (t s) - size arg)).
Proof.
  intros Hw. pose proof Hw as [Hq [Hca Hcu] _]. pose proof (size_nonneg arg). unfold tcp_write.
  destruct (write_checks_at (size arg) s Hw) as (err & s0 & -> & [Hrej|(-> & -> & Hql)]); cbn [mbind option_bind].
  { destruct Hrej as [Herr Hrej]. replace (negb (err =? ERR_OK)) with true by (symmetry; apply negb_true_iff; lia).
    eexists _, _. split; [done|]. by left. }
  cbn [negb Z.eqb]. destruct (write_room_at (size arg) s Hw) as (n & -> & Hn & Hne); [done|]. cbn [mbind option_bind].
  set (last_p := match last (unsent (t s)) with Some seg => seg_p seg | None => [] end).
  set (part := if 0 <? n then write_concat _ _ _ s else _).
  assert (Hpart : exists res s1, part = (res, s1) /\ pcb s1 = pcb s /\
    match res with
    | Some (p, grown) => 0 <= grown <= 1 /\ (n <= 0 -> grown = 0) /\ (0 < n -> concat p = concat last_p ++ take (Z.to_nat n) arg)
    | None => True
    end).
  { unfold part. destruct (0 <? n) eqn:E; [|exists (Some (last_p, 0)), s; split_and!; try done; lia].
    destruct (write_concat_at (has 1 apiflags) (take (Z.to_nat n) arg) last_p s) as (res & s1 & Ec & Ep & Hr).
    { unfold last_p. specialize (Hne ltac:(lia)). destruct (unsent (t s)) as [|x l _] using rev_ind; [done|].
      rewrite last_snoc. apply Forall_app in Hcu as [_ Hx]. by apply Forall_cons in Hx as [Hx _]. }
    exists res, s1. split_and!; try done. destruct res as [[p g]|]; [|done]. destruct Hr. split_and!; auto; lia. }
  destruct Hpart as (res & s1 & -> & Ep1 & Hres). destruct res as [[p grown]|]; cycle 1.
  { destruct (memerr_rejected s s1 Hw Ep1) as (s' & -> & Hr). eexists _, s'. split; [done|by left]. }
  destruct Hres as (Hg & Hg0 & Hpd). pose proof (pbufs_nonneg (unacked (t s))). pose proof (pbufs_nonneg (unsent (t s))).
  pose proof (qo_len _ Hq) as Hlen. pose proof (qo_max _ Hq).
  assert (Hsz : size arg = 0 \/ snd_queuelen (t s) < 65533) by (destruct (decide (size arg = 0)); auto).
  rewrite (u16_small (snd_queuelen (t s) + grown)) by (destruct (decide (n <= 0)) as [Hn0|Hn0]; [specialize (Hg0 Hn0)|]; lia).
  set (rest := drop (Z.to_nat n) arg).
  assert (Hrest : rest <> [] -> size arg <> 0).
  { intros Hr E. apply Hr. unfold rest. destruct arg; [by rewrite drop_nil|rewrite size_cons in E; pose proof (size_nonneg arg); lia]. }
  destruct (write_segments_at (has 1 apiflags) (u16 (write_mss (pcb s) - LWIP_TCP_OPT_LENGTH (if write_ts (pcb s) then 2 else 0)))
    (if write_ts (pcb s) then 2 else 0) (S (S (S (Z.to_nat TCP_SND_QUEUELEN)))) rest n (snd_queuelen (t s) + grown) [] s1)
    as (r & s2 & -> & Ep2 & Hr); [lia|intros Hr; specialize (Hrest Hr); lia|lia|].
  cbn [mbind option_bind]. destruct r as [[queue q]|]; cycle 1.
  { destruct (memerr_rejected s s2 Hw ltac:(by rewrite Ep2)) as (s' & -> & Hr'). eexists _, s'. split; [done|by left]. }
  destruct Hr as (new & -> & Hnew & Hcn & Hq'). cbn [app].
  set (s3 := on_pcb (in_tx (write_commit (size arg) n p (has 2 apiflags) new q)) s2).
  assert (Et3 : t s3 = write_commit (size arg) n p (has 2 apiflags) new q (t s)) by (unfold s3; cbn [pcb on_pcb in_tx tx set_tx]; by rewrite Ep2, Ep1).
  assert (Hqd : queued (unsent (t s3)) = queued (unsent (t s)) ++ arg).
  { rewrite Et3, (commit_queued _ _ _ _ _ _ _ (take (Z.to_nat n) arg)), Hnew.
    - f_equal. apply take_drop.
    - intros Hp. split; [by apply Hne|]. intros seg El. rewrite Hpd by done. unfold last_p. by rewrite El.
    - intros Hp. by replace (Z.to_nat n) with 0%nat by lia. }
  assert (Hassert : (q =? 0) || queue_not_empty s3 = true).
  { apply orb_true_iff. destruct (q =? 0) eqn:Eq; [by left|right]. apply (queue_not_empty_intro s3).
    destruct (decide (new = [])) as [En|En]; [|right; rewrite Et3; apply commit_nonempty; by right].
    specialize (Hq' En). destruct (decide (0 < n)) as [Hp|Hp]; [right; rewrite Et3; apply commit_nonempty; left; by apply Hne|].
    destruct (decide (unsent (t s) = [])) as [Eu|Eu]; [|right; rewrite Et3; apply commit_nonempty; by left].
    left. rewrite Et3. change (unacked (t s) <> []). intros Ea. rewrite Ea, Eu in Hlen. cbn in Hlen. lia. }
  rewrite Hassert. cbn [lwip_assert mbind option_bind]. exists ERR_OK, s3. split; [done|]. right. rewrite Et3 in *. split_and!; done.
Qed.
End Flow.

(** ** Witnesses *)

#[local] Existing Instances sample_options sample_pbuf sample_order.

(** Three segments of four bytes; the window takes two of them. *)
Definition out_seg (seqno : Z) (data : list Z) : tcp_seg := mkSeg [data] (size data) 0 seqno TCP_ACK.
Definition three_segs : list tcp_seg := [out_seg 1000 [1; 2; 3; 4]; out_seg 1004 [5; 6; 7; 8]; out_seg 1008 [9; 10; 11; 12]].

Definition narrow (s : tcp) : tcp := on_pcb (fun p => in_cc (set_cwnd 9) (tcp_set_flags TF_NODELAY p)) s.

Ltac queues_by := split; [by vm_compute|by vm_compute|repeat constructor; by vm_compute|repeat constructor; by vm_compute].

Lemma tcp_output_in_window_witness :
  let _ := sample_world in
  exists err s', tcp_output (narrow (sample_tcp ESTABLISHED 77 three_segs [])) = Some (err, s') /\ o_data <$> sent s' = [[1; 2; 3; 4]; [5; 6; 7; 8]] /\
    emitted 9 1000 three_segs (narrow (sample_tcp ESTABLISHED 77 three_segs [])) s'.
Proof.
  intros W. set (s := narrow _).
  destruct (tcp_output s) as [[err s']|] eqn:E; [|vm_compute in E; discriminate]. exists err, s'. split; [done|]. split.
  - assert (Ec : (fun r => o_data <$> sent r.2) <$> tcp_output s = Some [[1; 2; 3; 4]; [5; 6; 7; 8]]) by by vm_compute.
    rewrite E in Ec. by injection Ec.
  - apply (tcp_output_in_window s err s'); [queues_by|done].
Defined.

(** Bytes 1000 to 1007 are acknowledged. *)
Lemma ack_frees_exactly_witness :
  let _ := sample_world in
  let s := on_ins (fun a => mkArrival no_seg 77 1008 TCP_ACK 4096 0 [] (fun _ => 0) None 0 0) (sample_tcp ESTABLISHED 77 [] three_segs) in
  exists s', ack_new s = Some s' /\ unacked (tx (pcb s')) = [out_seg 1008 [9; 10; 11; 12]] /\ lastack (tx (pcb s')) = 1008.
Proof.
  intros W s. destruct (ack_frees_exactly s) as (s' & E & _ & Ea & _ & _ & _ & _ & El); [queues_by|done|].
  exists s'. split_and!; [done| |done]. apply (app_inv_head _ _ _ (eq_sym Ea)).
Defined.

(** The third buffer is not allocated. *)
Lemma tcp_write_all_or_nothing_witness :
  let _ := tight_world in
  exists err s', tcp_write [1; 2; 3; 4; 5; 6; 7; 8; 9; 10; 11; 12] 1 (sample_tcp ESTABLISHED 77 [] three_segs) = Some (err, s') /\
    err = ERR_MEM /\ unsent (tx (pcb s')) = [].
Proof.
  intros W. set (s := sample_tcp _ _ _ _).
  destruct (tcp_write_all_or_nothing [1; 2; 3; 4; 5; 6; 7; 8; 9; 10; 11; 12] 1 s) as (err & s' & E & H).
  { split; [queues_by|split; repeat constructor; done|done]. }
  exists err, s'. split; [done|].
  assert (Ec : fst <$> tcp_write [1; 2; 3; 4; 5; 6; 7; 8; 9; 10; 11; 12] 1 s = Some ERR_MEM) by by vm_compute.
  rewrite E in Ec. injection Ec as ->. split; [done|]. destruct H as [(_ & Et & _)|[H _]]; [by rewrite Et|done].
Defined.
End TcpFlow.
