(* ===== verification/TcpStates.v ===== *)
(** The state machine of the TCP of lwIP: the transitions of [tcp_process], the
    resets that it accepts, and what the header and options of a segment may
    contain. *)

From S2P Require Export TcpFlow.
From S2P Require Import TcpSample.
Export TcpFlow.
Import TcpSample.
Open Scope Z_scope.

Module TcpStates.
Section States.
Context {Opt : TcpOptions} {Wd : TcpWorld} {Pb : PbufLib} {N : NetworkOrder} {App : TcpApp tcp chain}.

#[local] Abbreviation t s := (tx (pcb s)).

(** ** Options *)

(** The queues and the state are not the business of options. *)
Record options_only (p q : tcp_pcb) : Prop := {
  oo_state : state q = state p;
  oo_place : place q = place p;
  oo_queues : unacked (tx q) = unacked (tx p) /\ unsent (tx q) = unsent (tx p) /\ snd_queuelen (tx q) = snd_queuelen (tx p);
  oo_numbers : snd_nxt (tx q) = snd_nxt (tx p) /\ lastack (tx q) = lastack (tx p) /\ rcv_nxt (rx q) = rcv_nxt (rx p)
}.

Lemma options_refl p : options_only p p.
Proof. by split. Qed.

Lemma options_trans a b c : options_only a b -> options_only b c -> options_only a c.
Proof. intros [? ? (? & ? & ?) (? & ? & ?)] [? ? (? & ? & ?) (? & ? & ?)]. split; try congruence; split_and!; congruence. Qed.

Lemma opt_ws_only a i p q : opt_ws a i p = Some q -> options_only p q.
Proof.
  unfold opt_ws. intros H. destruct (has TCP_SYN (in_flags a) && _); [|injection H as <-; apply options_refl].
  unfold lwip_assert in H. repeat case_match; simplify_option_eq; by split.
Qed.

Lemma opt_ts_only a i p : options_only p (opt_ts a i p).
Proof. unfold opt_ts. destruct (has TCP_SYN _); [by split|]. destruct (TCP_SEQ_BETWEEN _ _ _); by split. Qed.

Lemma parse_options_only a fuel : forall i p q, parse_options fuel a i p = Some q -> options_only p q.
Proof.
  induction fuel as [|fuel IH]; intros i p q H; cbn [parse_options] in H;
    (destruct (_ <=? i); [injection H as <-; apply options_refl|]); [done|].
  destruct (optbyte a i =? 0); [injection H as <-; apply options_refl|].
  destruct (optbyte a i =? 1); [by apply IH in H|].
  destruct (optbyte a i =? 2).
  { destruct (opt_len_ok a i 4); [|injection H as <-; apply options_refl]. apply IH in H. eapply options_trans; [|exact H]. by split. }
  destruct (LWIP_WND_SCALE && _).
  { destruct (opt_len_ok a i 3); [|injection H as <-; apply options_refl].
    destruct (opt_ws a i p) as [p1|] eqn:E; [|done]. cbn [mbind option_bind] in H. apply opt_ws_only in E. apply IH in H.
    by eapply options_trans. }
  destruct (LWIP_TCP_TIMESTAMPS && _).
  { destruct (opt_len_ok a i 10); [|injection H as <-; apply options_refl]. apply IH in H.
    eapply options_trans; [apply opt_ts_only|exact H]. }
  destruct (LWIP_TCP_SACK_OUT && _).
  { destruct (opt_len_ok a i 2); [|injection H as <-; apply options_refl]. apply IH in H.
    eapply options_trans; [|exact H]. destruct (has TCP_SYN _); by split. }
  destruct (optbyte a (i + 1) <? 2); [injection H as <-; apply options_refl|by apply IH in H].
Qed.

Lemma only_queues p q : options_only p q -> queues_ok (tx p) -> queues_ok (tx q).
Proof. intros [_ _ (E1 & E2 & E3) _] []. split; rewrite ?E1, ?E2, ?E3; done. Qed.

(** The window scale option finds the window that a new connection has, or was
    processed before. *)
Definition window_default (p : tcp_pcb) : Prop :=
  has TF_WND_SCALE (flags p) = true \/
  (rcv_wnd (rx p) = TCPWND_MIN16 TCP_WND /\ rcv_ann_wnd (rx p) = TCPWND_MIN16 TCP_WND).

Record option_bounds (a : arrival) (p : tcp_pcb) : Prop := {
  ob_mss : 0 < mss (tx p) <= TCP_MSS;
  ob_scale : 0 <= snd_scale (tx p) <= 14;
  ob_wnd : has TCP_SYN (in_flags a) = true -> window_default p
}.

Lemma has_own_flag f p : Z.land f 0xffff = f -> f <> 0 -> has f (flags (tcp_set_flags f p)) = true.
Proof.
  intros H1 H2. unfold has, tcp_set_flags. cbn [flags set_flags]. apply negb_true_iff, Z.eqb_neq. intros E. apply H2.
  unfold u16 in E. change 65536 with (2 ^ 16) in E. rewrite <- Z.land_ones in E by lia. change (Z.ones 16) with 0xffff in E.
  apply Z.bits_inj'. intros i Hi. apply (f_equal (fun x => Z.testbit x i)) in H1, E. revert H1 E.
  rewrite !Z.land_spec, Z.lor_spec, !Z.bits_0. destruct (Z.testbit f i), (Z.testbit 65535 i), (Z.testbit (flags p) i); done.
Qed.

Lemma default_flags f p : Z.land f TF_WND_SCALE = 0 -> window_default p -> window_default (tcp_set_flags f p).
Proof. intros Hf [H|H]; [left|right; done]. by rewrite has_set_flags. Qed.

(** Bytes, also what lies behind the options. *)
Definition opt_bytes (a : arrival) : Prop := Forall is_byte (optbytes a) /\ forall i, is_byte (optbehind a i).

Lemma optbyte_range a i : opt_bytes a -> is_byte (optbyte a i).
Proof.
  intros [H1 H2]. unfold optbyte. destruct (optbytes a !! Z.to_nat i) as [b|] eqn:E; [|done].
  rewrite Forall_lookup in H1. by eapply H1.
Qed.

Lemma opt_mss_bounds a i p : opt_bytes a -> option_bounds a p -> option_bounds a (opt_mss a i p).
Proof.
  intros Hb [H1 H2 H3]. pose proof mss_ok. split; [|done|done]. unfold opt_mss. cbn [tx in_tx set_tx mss set_mss].
  set (m := Z.lor _ _). destruct ((TCP_MSS <? m) || (m =? 0)) eqn:E; [lia|].
  assert (0 <= m).
  { unfold m. apply Z.lor_nonneg. pose proof (optbyte_range a (i + 3) Hb). unfold is_byte in *.
    split; [unfold u16; apply Z.mod_pos_bound|]; lia. }
  lia.
Qed.

Lemma opt_ws_bounds a i p : opt_bytes a -> option_bounds a p -> exists q, opt_ws a i p = Some q /\ option_bounds a q.
Proof.
  intros Hb H. pose proof H as [H1 H2 H3]. unfold opt_ws. destruct (has TCP_SYN (in_flags a) && _) eqn:E; [|by eexists].
  apply andb_true_iff in E as [Es Ef]. destruct (H3 Es) as [Hf|[Hw1 Hw2]]; [by rewrite Hf in Ef|].
  cbn [rx tcp_set_flags set_flags in_rx set_rx rcv_wnd rcv_ann_wnd set_rcv_scale in_tx set_tx]. rewrite Hw1, Hw2, Z.eqb_refl.
  cbn [lwip_assert mbind option_bind]. eexists. split; [done|].
  pose proof (optbyte_range a (i + 2) Hb). unfold is_byte in *. split; [done|cbn; lia|].
  intros _. left. apply (has_own_flag TF_WND_SCALE (in_rx (set_rcv_scale TCP_RCV_SCALE) (in_tx (set_snd_scale (Z.min (optbyte a (i + 2)) 14)) p))); done.
Qed.

Lemma bounds_flags a f p : Z.land f TF_WND_SCALE = 0 -> option_bounds a p -> option_bounds a (tcp_set_flags f p).
Proof. intros Hf [H1 H2 H3]. split; [done|done|]. intros Hs. by apply default_flags, H3. Qed.

Lemma opt_ts_bounds a i p : option_bounds a p -> option_bounds a (opt_ts a i p).
Proof.
  intros H. unfold opt_ts. destruct (has TCP_SYN _).
  - apply bounds_flags; [done|]. by destruct H.
  - destruct (TCP_SEQ_BETWEEN _ _ _); [by destruct H|done].
Qed.

Lemma parse_options_bounds a : opt_bytes a -> forall fuel i p,
  size (optbytes a) - i <= Z.of_nat fuel -> option_bounds a p ->
  exists q, parse_options fuel a i p = Some q /\ option_bounds a q.
Proof.
  intros Hb. induction fuel as [|fuel IH]; intros i p Hi H; cbn [parse_options].
  { replace (_ <=? i) with true by lia. by eexists. }
  destruct (_ <=? i); [by eexists|].
  destruct (_ =? _); [by eexists|]. destruct (_ =? _); [apply IH; [lia|done]|].
  destruct (_ =? _); [destruct (opt_len_ok a i 4); [apply IH; [lia|by apply opt_mss_bounds]|by eexists]|].
  destruct (LWIP_WND_SCALE && _).
  { destruct (opt_len_ok a i 3); [|by eexists]. destruct (opt_ws_bounds a i p Hb H) as (q & -> & Hq). cbn [mbind option_bind].
    apply IH; [lia|done]. }
  destruct (LWIP_TCP_TIMESTAMPS && _); [destruct (opt_len_ok a i 10); [apply IH; [lia|by apply opt_ts_bounds]|by eexists]|].
  destruct (LWIP_TCP_SACK_OUT && _).
  { destruct (opt_len_ok a i 2); [|by eexists]. apply IH; [lia|]. destruct (has TCP_SYN _); [by apply bounds_flags|done]. }
  destruct (_ <? 2) eqn:E; [by eexists|]. apply IH; [lia|done].
Qed.

(** TCP: [tcp_parseopt] ends and fails no assertion for any options, also when
    it reads behind their end: the segment size stays between 1 and TCP_MSS, so
    that nothing divides by zero, the window scale of the other side is at most
    14, a repeated window scale option is ignored, and neither the queues nor the
    state nor the sequence numbers are touched. *)
Theorem tcp_parseopt_bounds s :
  opt_bytes (ins s) -> option_bounds (ins s) (pcb s) ->
  exists s', tcp_parseopt s = Some s' /\ 0 < mss (t s') <= TCP_MSS /\ 0 <= snd_scale (t s') <= 14 /\
    options_only (pcb s) (pcb s').
Proof.
  intros Hb H. unfold tcp_parseopt.
  destruct (parse_options_bounds (ins s) Hb (length (optbytes (ins s))) 0 (pcb s)) as (q & E & [H1 H2 _]); [unfold size; lia|done|].
  rewrite E. cbn [mbind option_bind]. eexists. split_and!; try done; try apply H1; try apply H2.
  by apply parse_options_only in E.
Qed.

(** ** Synchronized states *)

Ltac in_list := first [apply list_elem_of_here | apply list_elem_of_further, list_elem_of_here].

(** The states that may follow when a segment arrives; [fin]: the FIN of the other
    side was received. *)
Definition next_states (st : tcp_state) (fin : bool) : list tcp_state :=
  match st, fin with
  | ESTABLISHED, false => [ESTABLISHED]
  | ESTABLISHED, true => [CLOSE_WAIT]
  | FIN_WAIT_1, false => [FIN_WAIT_1; FIN_WAIT_2]
  | FIN_WAIT_1, true => [CLOSING; TIME_WAIT]
  | FIN_WAIT_2, false => [FIN_WAIT_2]
  | FIN_WAIT_2, true => [TIME_WAIT]
  | CLOSING, _ => [CLOSING; TIME_WAIT]
  | st, _ => [st]
  end.

(** Our FIN is acknowledged on the way to these states. *)
Definition needs_ack (a b : tcp_state) : bool :=
  match a, b with
  | FIN_WAIT_1, (FIN_WAIT_2 | TIME_WAIT) | CLOSING, TIME_WAIT => true
  | _, _ => false
  end.

(** A segment is acknowledged as a whole. *)
Definition covered_by (ackno : Z) (seg : tcp_seg) : Prop := TCP_SEQ_LEQ (seg_seqno seg + TCP_TCPLEN seg) ackno = true.

Lemma front_acked ackno l : unacked_rest ackno l = [] -> Forall (covered_by ackno) l.
Proof.
  induction l as [|seg l IH]; intros H; [by constructor|]. cbn [unacked_rest] in H. destruct (acked ackno seg) eqn:E; [|done].
  constructor; [exact E|auto].
Qed.

Lemma insert_nonempty seg l : insert_sorted seg l <> [].
Proof. intros H. pose proof (insert_sorted_perm seg l) as Hp. rewrite H in Hp. by apply Permutation_nil_cons in Hp. Qed.

(** A segment that is sent again is put back to the segments that are not sent. *)
Lemma dup_unsent edge s : ins (ack_dup edge s) = ins s /\ (unsent (t (ack_dup edge s)) = [] -> unsent (t s) = []).
Proof.
  unfold ack_dup. destruct (is_dupack edge s); [|done]. set (s1 := on_pcb (in_cc _) s).
  set (s2 := if 3 <? dupacks (cc (pcb s1)) then _ else s1).
  assert (E : ins s2 = ins s /\ t s2 = t s) by (unfold s2; by destruct (_ <? _)). destruct E as [<- <-].
  destruct (_ <=? _); [|done]. unfold tcp_rexmit_fast, tcp_rexmit. destruct (_ && _); [|done].
  destruct (unacked (t s2)); [done|]. cbn [call]. destruct (segment_busy _); [done|]. cbn. split; [done|].
  intros H. by apply insert_nonempty in H.
Qed.

Lemma ack_new_ackno s s' : ack_new s = Some s' -> in_ackno (ins s') = in_ackno (ins s) /\ in_flags (ins s') = in_flags (ins s).
Proof.
  unfold ack_new. intros H. destruct (tcp_free_acked_segments _ _ _ _ _) as [[[l1 q1] n1]|]; [|done]. cbn [mbind option_bind] in H.
  destruct (tcp_free_acked_segments _ _ _ _ _) as [[[l2 q2] n2]|]; [|done]. cbn [mbind option_bind] in H.
  injection H as <-. destruct (_ && _); cbn; by destruct (_ <=? _).
Qed.

(** No segment is left to send: then all of them are acknowledged. *)
Lemma receive_ack_frees s s' : queues_ok (t s) -> receive_ack s = Some s' ->
  in_ackno (ins s') = in_ackno (ins s) /\ in_flags (ins s') = in_flags (ins s) /\ (unsent (t s') = [] -> Forall (covered_by (in_ackno (ins s))) (unsent (t s))).
Proof.
  intros Hq. unfold receive_ack. destruct (has TCP_ACK _).
  2: { intros [= <-]. split_and!; [done..|]. intros ->. by constructor. }
  set (s1 := on_pcb (ack_window (ins s)) s).
  assert (E1 : ins s1 = ins s /\ unsent (t s1) = unsent (t s)) by (unfold s1, ack_window; cbn [pcb on_pcb]; by destruct (_ || _)).
  assert (Hq1 : queues_ok (t s1)) by (unfold s1, ack_window; cbn [pcb on_pcb]; destruct (_ || _); [destruct Hq; by split|done]).
  destruct E1 as [<- <-]. set (o := if TCP_SEQ_LEQ _ _ then _ else _).
  assert (Ho : forall s2, o = Some s2 -> in_ackno (ins s2) = in_ackno (ins s1) /\ in_flags (ins s2) = in_flags (ins s1) /\ (unsent (t s2) = [] -> Forall (covered_by (in_ackno (ins s1))) (unsent (t s1)))).
  { intros s2 E. unfold o in E. destruct (TCP_SEQ_LEQ _ _).
    - injection E as <-. destruct (dup_unsent (u32 (snd_wnd (tx (pcb s)) + snd_wl2 (tx (pcb s)))) s1) as [-> H]. split_and!; [done..|].
      intros Hn. rewrite (H Hn). by constructor.
    - destruct (TCP_SEQ_BETWEEN _ _ _).
      + destruct (ack_new_at s1 Hq1) as (s3 & E3 & _ & _ & _ & Eu & _). rewrite E in E3. injection E3 as <-.
        apply ack_new_ackno in E as [-> ->]. split_and!; [done..|]. rewrite Eu. apply front_acked.
      + injection E as <-. destruct (send_empty_ack_same s1) as [Et _ _ [-> ->]]. split_and!; [done..|]. rewrite Et. intros ->. by constructor. }
  destruct o as [s2|]; [|done]. cbn [mbind option_bind]. intros [= <-]. specialize (Ho s2 eq_refl). by destruct (_ && _).
Qed.

Lemma tcp_receive_same s s' :
  queues_ok (t s) -> tcp_receive s = Some s' ->
  (state (pcb s') = state (pcb s) \/ (state (pcb s) = ESTABLISHED /\ state (pcb s') = CLOSE_WAIT /\ got_fin s' = true)) /\
  queues_ok (t s') /\ 4 <= state_num (state (pcb s)) /\
  in_ackno (ins s') = in_ackno (ins s) /\ in_flags (ins s') = in_flags (ins s) /\
  (unsent (t s') = [] -> Forall (covered_by (in_ackno (ins s))) (unsent (t s))).
Proof.
  intros Hq H. unfold tcp_receive in H. change (state_num ESTABLISHED) with 4 in H. destruct (4 <=? _) eqn:E; [|done].
  cbn [lwip_assert mbind option_bind] in H. destruct (receive_ack_at s Hq) as (s1 & E1 & K & Hq1). rewrite E1 in H.
  cbn [mbind option_bind] in H. apply receive_data_same in H as [Et Hs Hf [Hi Hj]]. rewrite (kp_state _ _ K) in Hs.
  destruct (receive_ack_frees s s1 Hq E1) as (Ej & Ei & Hu). rewrite Hi, Hj, Et. by split_and!; [| |lia|..].
Qed.

Lemma purge_empty p : state p <> CLOSED -> state p <> TIME_WAIT -> state p <> LISTEN ->
  unsent (tx (tcp_pcb_purge p)) = [] /\ unacked (tx (tcp_pcb_purge p)) = [] /\ ooseq (rx (tcp_pcb_purge p)) = [] /\
  snd_nxt (tx (tcp_pcb_purge p)) = snd_nxt (tx p).
Proof.
  intros H1 H2 H3. unfold tcp_pcb_purge. rewrite bool_decide_eq_false_2 by (rewrite !elem_of_cons, elem_of_nil; tauto).
  unfold tcp_free_ooseq. cbn [rx in_rx set_rx ooseq set_refused_data]. case_bool_decide as E; [by rewrite <- E|].
  by destruct LWIP_TCP_SACK_OUT.
Qed.

(** TIME_WAIT is entered. *)
Lemma enter_time_wait_at s :
  state (pcb s) <> CLOSED -> state (pcb s) <> TIME_WAIT -> state (pcb s) <> LISTEN ->
  let s' := on_pcb enter_time_wait s in
  ins s' = ins s /\ state (pcb s') = TIME_WAIT /\ snd_nxt (t s') = snd_nxt (t s) /\
  place (pcb s') = TimeWait /\ unsent (t s') = [] /\ unacked (t s') = [] /\ ooseq (rx (pcb s')) = [].
Proof.
  intros H1 H2 H3 s'. destruct (purge_empty (pcb s) H1 H2 H3) as (E1 & E2 & E3 & E4). by split_and!.
Qed.

(** What a segment makes of a connection in a synchronized state; [s] is the
    state behind [tcp_receive]. *)
Definition after_receive (st : tcp_state) (s : tcp) : tcp :=
  match st with
  | CLOSE_WAIT | ESTABLISHED => passive_close s
  | FIN_WAIT_1 => if got_fin s then on_pcb (if all_acked s then enter_time_wait else set_state CLOSING) (on_pcb tcp_ack_now s)
                  else if all_acked s then on_pcb (set_state FIN_WAIT_2) s else s
  | FIN_WAIT_2 => if got_fin s then on_pcb enter_time_wait (on_pcb tcp_ack_now s) else s
  | CLOSING => if all_acked s then on_pcb enter_time_wait s else s
  | LAST_ACK => if all_acked s then on_ins (add_recv_flags TF_CLOSED) s else s
  | _ => s
  end.

Lemma process_state_sync s :
  4 <= state_num (state (pcb s)) -> state (pcb s) <> TIME_WAIT ->
  process_state s = (s' ← tcp_receive s; Some (ERR_OK, after_receive (state (pcb s)) s')).
Proof.
  intros H1 H2. unfold process_state, process_fin_wait_1, after_receive. destruct (state (pcb s)); cbn in H1; try lia; try done.
  by destruct (tcp_receive s).
Qed.

Lemma has_closed f : has TF_GOT_FIN (Z.lor f TF_CLOSED) = has TF_GOT_FIN f.
Proof. unfold has. rewrite Z.land_lor_distr_l. change (Z.land TF_CLOSED TF_GOT_FIN) with 0. by rewrite Z.lor_0_r. Qed.

Lemma after_receive_at st s :
  4 <= state_num st -> st <> TIME_WAIT ->
  (state (pcb s) = st \/ (st = ESTABLISHED /\ state (pcb s) = CLOSE_WAIT /\ got_fin s = true)) ->
  let s' := after_receive st s in
  state (pcb s') ∈ next_states st (got_fin s') /\
  (needs_ack st (state (pcb s')) = true ->
     has TCP_ACK (in_flags (ins s)) = true /\ in_ackno (ins s) = snd_nxt (t s') /\ unsent (t s) = []) /\
  (state (pcb s') = TIME_WAIT -> place (pcb s') = TimeWait /\ unsent (t s') = [] /\ unacked (t s') = [] /\ ooseq (rx (pcb s')) = []).
Proof.
  intros Hst Htw Hs s'.
  assert (Hack : all_acked s = true -> has TCP_ACK (in_flags (ins s)) = true /\ in_ackno (ins s) = snd_nxt (t s) /\ unsent (t s) = []).
  { unfold all_acked. intros H. apply andb_true_iff in H as [H H3]. apply andb_true_iff in H as [H1 H2].
    apply bool_decide_eq_true in H3. split_and!; [done|lia|done]. }
  assert (Htwn : forall s1, ins s1 = ins s -> state (pcb s1) = st -> t s1 = t s ->
    let s2 := on_pcb enter_time_wait s1 in ins s2 = ins s /\ state (pcb s2) = TIME_WAIT /\ snd_nxt (t s2) = snd_nxt (t s) /\
      place (pcb s2) = TimeWait /\ unsent (t s2) = [] /\ unacked (t s2) = [] /\ ooseq (rx (pcb s2)) = []).
  { intros s1 E1 E2 E3. rewrite <- E1, <- E3. apply enter_time_wait_at; rewrite E2; [|done|]; intros ->; cbn in Hst; lia. }
  destruct st; cbn in Hst; try lia; try done; cbn [after_receive] in s'.
  - (* ESTABLISHED *) unfold s', passive_close. destruct (got_fin s) eqn:Ef.
    + change (got_fin _) with (got_fin s). rewrite Ef. cbn. split_and!; [in_list|done|done].
    + destruct Hs as [Hs|(_ & _ & Hs)]; [|done]. rewrite Ef, Hs. cbn. split_and!; [in_list|done|done].
  - (* FIN_WAIT_1 *) destruct Hs as [Hs|(? & _)]; [|done]. unfold s'. destruct (got_fin s) eqn:Ef.
    + destruct (all_acked s) eqn:Ea.
      * destruct (Htwn (on_pcb tcp_ack_now s)) as (Ei & -> & En & Hp); try done. unfold got_fin. rewrite Ei.
        fold (got_fin s). rewrite Ef, En. cbn. split_and!; [in_list|auto|by intros _].
      * change (got_fin _) with (got_fin s). rewrite Ef. cbn. split_and!; [in_list|done|done].
    + destruct (all_acked s) eqn:Ea.
      * change (got_fin _) with (got_fin s). rewrite Ef. cbn. split_and!; [in_list|auto|done].
      * rewrite Ef, Hs. cbn. split_and!; [in_list|done|done].
  - (* FIN_WAIT_2 *) destruct Hs as [Hs|(? & _)]; [|done]. unfold s'. destruct (got_fin s) eqn:Ef.
    + destruct (Htwn (on_pcb tcp_ack_now s)) as (Ei & -> & En & Hp); try done. unfold got_fin. rewrite Ei.
      fold (got_fin s). rewrite Ef. cbn. split_and!; [in_list|done|by intros _].
    + rewrite Ef, Hs. cbn. split_and!; [in_list|done|done].
  - (* CLOSE_WAIT *) destruct Hs as [Hs|(? & _)]; [|done]. unfold s', passive_close. destruct (got_fin s) eqn:Ef.
    + cbn. split_and!; [destruct (got_fin _); in_list|done|done].
    + rewrite Hs. cbn. split_and!; [destruct (got_fin _); in_list|done|done].
  - (* CLOSING *) destruct Hs as [Hs|(? & _)]; [|done]. unfold s'. destruct (all_acked s) eqn:Ea.
    + destruct (Htwn s) as (Ei & -> & En & Hp); try done. rewrite En. cbn. split_and!; [in_list|auto|by intros _].
    + rewrite Hs. cbn. split_and!; [in_list|done|done].
  - (* LAST_ACK *) destruct Hs as [Hs|(? & _)]; [|done]. unfold s'. destruct (all_acked s).
    + cbn. rewrite Hs. split_and!; [in_list|done|done].
    + rewrite Hs. cbn. split_and!; [in_list|done|done].
Qed.

(** C39. TCP: when a segment without RST and SYN arrives in a synchronized state,
    the connection goes to a state that RFC 793 has next, with the FIN of the other
    side exactly where that is what the step is for; it leaves FIN_WAIT_1 for
    FIN_WAIT_2 or TIME_WAIT, and CLOSING for TIME_WAIT, only when the segment
    acknowledges everything up to the next number to send, and every segment that was
    still on the queue to be sent, so that our FIN, sent or queued, is acknowledged; and
    in TIME_WAIT it is on the list of that state, with empty queues. *)
Theorem tcp_process_transitions s err s' :
  queues_ok (t s) -> 4 <= state_num (state (pcb s)) -> state (pcb s) <> TIME_WAIT -> got_fin s = false ->
  has TCP_RST (in_flags (ins s)) = false -> has TCP_SYN (in_flags (ins s)) = false ->
  tcp_process s = Some (err, s') ->
  err = ERR_OK /\ state (pcb s') ∈ next_states (state (pcb s)) (got_fin s') /\
  (needs_ack (state (pcb s)) (state (pcb s')) = true ->
     has TCP_ACK (in_flags (ins s)) = true /\ in_ackno (ins s) = snd_nxt (t s') /\
     Forall (covered_by (in_ackno (ins s))) (unsent (t s))) /\
  (state (pcb s') = TIME_WAIT ->
     place (pcb s') = TimeWait /\ unsent (t s') = [] /\ unacked (t s') = [] /\ ooseq (rx (pcb s')) = []).
Proof.
  intros Hq Hst Htw Hf Hrst Hsyn. unfold tcp_process. rewrite Hrst, Hsyn. cbn [andb].
  set (s1 := on_pcb (in_tim (fun t => set_persist_probe 0 (set_keep_cnt_sent 0 t))) _).
  assert (E1 : state (pcb s1) = state (pcb s) /\ t s1 = t s /\ ins s1 = ins s) by (unfold s1; by destruct (has TF_RXCLOSED _)).
  destruct E1 as (Es1 & Et1 & Ei1). unfold tcp_parseopt.
  destruct (parse_options _ _ _ _) as [p|] eqn:Ep; [|done]. cbn [mbind option_bind].
  apply parse_options_only in Ep. set (s2 := on_pcb (fun _ => p) s1).
  assert (Es2 : state (pcb s2) = state (pcb s)) by (rewrite <- Es1; apply (oo_state _ _ Ep)).
  assert (Hq2 : queues_ok (t s2)) by (apply (only_queues _ _ Ep); by rewrite Et1).
  rewrite process_state_sync by (by rewrite Es2). rewrite Es2.
  destruct (tcp_receive s2) as [s3|] eqn:E3; [|done]. cbn [mbind option_bind]. intros [= <- <-].
  apply tcp_receive_same in E3 as (Hs3 & _ & _ & Ej & Ei & Hu); [|done]. rewrite Es2 in Hs3. split; [done|].
  destruct (after_receive_at (state (pcb s)) s3 Hst Htw Hs3) as (Hn & Ha & Hw). split; [done|]. split; [|done].
  intros Hneed. destruct (Ha Hneed) as (H1 & H2 & H3). change (ins s2) with (ins s1) in *. rewrite Ei1 in *.
  rewrite <- Ei, <- Ej. split_and!; [done..|]. rewrite Ej. destruct (oo_queues _ _ Ep) as (E4 & E5 & E6).
  rewrite <- Et1, <- E5. auto.
Qed.

(** ** The header *)

Lemma byte_at_range b i : Forall is_byte b -> is_byte (byte_at b i).
Proof.
  intros H. unfold byte_at. destruct (nth_in_or_default i b 0) as [Hin|E]; [|by rewrite E].
  rewrite Forall_forall in H. by apply H, list_elem_of_In.
Qed.

Lemma rd16_range b i : Forall is_byte b -> 0 <= rd16 b i < 2 ^ 16.
Proof.
  intros H. unfold rd16. pose proof (byte_at_range b i H). pose proof (byte_at_range b (i + 1) H). unfold is_byte in *. lia.
Qed.

Lemma rd32_range b i : Forall is_byte b -> 0 <= rd32 b i < 2 ^ 32.
Proof. intros H. unfold rd32. pose proof (rd16_range b i H). pose proof (rd16_range b (i + 2) H). lia. Qed.

(** Options and payload are the bytes behind the fixed header, wherever the
    buffers are divided. *)
Lemma split_options_at hdrlen b rest :
  TCP_HLEN <= size b -> TCP_HLEN <= hdrlen <= tot_len (b :: rest) ->
  exists r, split_options hdrlen (b :: rest) = Some r /\
    forall opts q, r = Some (opts, q) ->
      opts = take (Z.to_nat (hdrlen - TCP_HLEN)) (drop 20 (concat (b :: rest))) /\ concat q = drop (Z.to_nat hdrlen) (concat (b :: rest)).
Proof.
  intros Hb Hh. unfold split_options. unfold tot_len in Hh. cbn [concat] in *. rewrite size_app in Hh. destruct (hdrlen <=? size b) eqn:E.
  - eexists. split; [done|]. intros opts q [= <- <-]. rewrite remove_header_data by lia. cbn [concat].
    rewrite drop_app_le by (unfold size in *; lia). split.
    + rewrite take_app_le; [done|]. rewrite length_drop. unfold size in *. lia.
    + rewrite drop_app_le by (unfold size in *; lia). done.
  - rewrite remove_header_data by lia. change (Z.to_nat 20) with 20%nat.
    assert (Hd : size (drop 20 b) = size b - 20) by (unfold size in *; rewrite length_drop; lia).
    destruct rest as [|b2 rest]; [cbn in Hh; unfold size at 2 in Hh; cbn in Hh; lia|].
    destruct (size b2 <? _) eqn:E2; [by eexists|]. eexists. split; [done|]. intros opts q [= <- <-].
    rewrite Hd. rewrite !remove_header_data by (rewrite ?Hd; lia). rewrite (drop_ge (drop 20 b)) by (unfold size in *; lia). cbn [concat app].
    rewrite (drop_app_le b) by (unfold size in *; lia). split.
    + rewrite take_app_ge by (unfold size in *; lia). f_equal. rewrite length_drop. rewrite take_app_le by (unfold size in *; lia).
      f_equal. unfold size in *. lia.
    + rewrite (drop_app_ge b) by (unfold size in *; lia). rewrite drop_app_le by (unfold size in *; lia). do 2 f_equal. unfold size in *. lia.
Qed.

(** The types of the variables of an arrival: the widths of the fields, and what
    the rest of the code relies on. *)
Record arrival_ok (a : arrival) : Prop := {
  ao_seqno : 0 <= in_seqno a < 2 ^ 32 /\ seg_seqno (inseg a) = in_seqno a;
  ao_ackno : 0 <= in_ackno a < 2 ^ 32;
  ao_wnd : 0 <= in_wnd a < 2 ^ 16;
  ao_flags : TCPH_FLAGS (inseg a) = in_flags a;
  ao_tcplen : tcplen a = TCP_TCPLEN (inseg a) /\ 0 <= tcplen a < 2 ^ 16;
  ao_len : seg_len (inseg a) = tot_len (seg_p (inseg a));
  ao_opts : size (optbytes a) <= TCP_MAX_OPTION_BYTES /\ Forall is_byte (optbytes a);
  ao_new : recv_data a = None /\ recv_flags a = 0 /\ recv_acked a = 0
}.

(** C40. TCP: [input_header] takes any packet of at least one buffer without a
    failed assertion: it drops it, or it leaves the variables of the arrival in
    their ranges, with [tcplen] the length of the segment in the sequence, the
    options of at most 40 bytes and the payload those bytes of the packet that the
    header says, even when the options are divided between two buffers. *)
Theorem input_header_typed unicast chksum behind b rest :
  Forall (Forall is_byte) (b :: rest) -> tot_len (b :: rest) < 2 ^ 16 ->
  exists r, input_header unicast chksum behind (b :: rest) = Some r /\
    match r with
    | None => True
    | Some h =>
        let hdrlen := 4 * Z.shiftr (byte_at b 12) 4 in
        let a := h_arrival h in
        unicast = true /\ chksum = 0 /\ 0 <= h_src h < 2 ^ 16 /\ 0 <= h_dest h < 2 ^ 16 /\ arrival_ok a /\
        optbytes a = take (Z.to_nat (hdrlen - 20)) (drop 20 (concat (b :: rest))) /\
        concat (seg_p (inseg a)) = drop (Z.to_nat hdrlen) (concat (b :: rest))
    end.
Proof.
  intros Hb Htot. pose proof Hb as Hb0. apply Forall_cons in Hb0 as [Hb0 _]. unfold input_header. set (hdrlen := 4 * Z.shiftr (byte_at b 12) 4).
  destruct (size b <? TCP_HLEN) eqn:E1; [by eexists|]. destruct (negb unicast || negb (chksum =? 0)) eqn:E2; [by eexists|].
  destruct ((hdrlen <? TCP_HLEN) || (tot_len (b :: rest) <? hdrlen)) eqn:E3; [by eexists|].
  destruct (split_options_at hdrlen b rest) as (r & -> & Hr); [lia|lia|]. cbn [mbind option_bind].
  destruct r as [[opts q]|]; [|by eexists]. destruct (Hr opts q eq_refl) as [Ho Hq].
  set (f := Z.land (byte_at b 13) TCP_FLAGS). set (len' := if has (Z.lor TCP_FIN TCP_SYN) f then _ else _).
  destruct (len' <? tot_len q) eqn:E4; [by eexists|]. eexists. split; [done|]. cbn [h_arrival h_src h_dest].
  assert (Hlq : 0 <= tot_len q < 2 ^ 16).
  { unfold tot_len in *. rewrite Hq. pose proof (size_nonneg (drop (Z.to_nat hdrlen) (concat (b :: rest)))). split; [done|].
    unfold size in *. rewrite length_drop. lia. }
  assert (Hf : TCPH_FLAGS (mkSeg q (tot_len q) 0 (rd32 b 4) (rd16 b 12)) = f).
  { unfold TCPH_FLAGS, f. cbn [seg_hflags]. unfold rd16. cbn [Nat.add]. rewrite Z.add_comm. change TCP_FLAGS with (Z.ones 6).
    rewrite !Z.land_ones by lia. replace (byte_at b 12 * 2 ^ 8) with (byte_at b 12 * 2 ^ 2 * 2 ^ 6) by lia. apply Z.mod_add. lia. }
  assert (Hlen' : len' = tot_len q + (if has (Z.lor TCP_FIN TCP_SYN) f then 1 else 0) /\ 0 <= len' < 2 ^ 16).
  { unfold len' in *. destruct (has _ f); [|lia]. assert (0 <= u16 (tot_len q + 1) < 2 ^ 16) by (unfold u16; apply Z.mod_pos_bound; lia).
    split; [|done]. destruct (decide (tot_len q + 1 < 2 ^ 16)); [rewrite u16_small; lia|].
    replace (tot_len q + 1) with 65536 in E4 by lia. unfold u16 in E4. rewrite Z.mod_same in E4 by lia. lia. }
  assert (Hall : Forall is_byte (concat (b :: rest))) by (by apply Forall_concat).
  assert (Hh : 0 <= byte_at b 12 < 256) by (by apply byte_at_range).
  assert (Hhl : hdrlen <= 60) by (unfold hdrlen; rewrite Z.shiftr_div_pow2 by lia; pose proof (Z.div_lt_upper_bound (byte_at b 12) (2 ^ 4) 16); lia).
  apply orb_false_iff in E2 as [E2 E2']. split_and!; try done; try (by apply rd16_range); try lia.
  - split; cbn [inseg in_seqno in_ackno in_wnd in_flags tcplen optbytes recv_data recv_flags recv_acked]; try done.
    + split; [by apply rd32_range|done].
    + by apply rd32_range.
    + by apply rd16_range.
    + unfold TCP_TCPLEN. rewrite Hf. cbn [seg_len]. destruct Hlen'. split; [done|lia].
    + rewrite Ho. split; [|by apply Forall_take, Forall_drop]. unfold size. rewrite length_take. lia.
Qed.
End States.

(** ** Witnesses *)

#[local] Existing Instances sample_options sample_world sample_pbuf sample_order quiet_app.

(** A segment size of 2, the window scale and a timestamp, which is cut off. *)
Lemma tcp_parseopt_bounds_witness :
  let a := mkArrival no_seg 77 0 TCP_SYN 4096 1 [2; 4; 0; 2; 1; 3; 3; 7; 8; 10; 1] (fun _ => 255) None 0 0 in
  exists s', tcp_parseopt (on_ins (fun _ => a) (sample_tcp SYN_SENT 77 [] [])) = Some s' /\ 0 < mss (tx (pcb s')) <= 4.
Proof.
  intros a. destruct (tcp_parseopt_bounds (on_ins (fun _ => a) (sample_tcp SYN_SENT 77 [] []))) as (s' & E & H & _).
  - split; [repeat constructor; by vm_compute|done].
  - split; [by vm_compute|by vm_compute|]. intros _. right. by vm_compute.
  - by exists s'.
Defined.

(** Both sides close: the FIN of the other side brings the acknowledgment of ours. *)
Lemma tcp_process_transitions_witness :
  exists s', tcp_process (on_ins (fun _ => data_arrival 77 true [1]) (sample_tcp FIN_WAIT_1 77 [] [])) = Some (ERR_OK, s') /\
    state (pcb s') = TIME_WAIT /\ place (pcb s') = TimeWait /\ got_fin s' = true.
Proof.
  set (s := on_ins _ _). destruct (tcp_process s) as [[err s']|] eqn:E; [|vm_compute in E; discriminate].
  destruct (tcp_process_transitions s err s') as (-> & _ & _ & H); [split; repeat constructor|by vm_compute|done..|exact E|].
  assert (Ec : (fun r => (state (pcb r.2), got_fin r.2)) <$> tcp_process s = Some (TIME_WAIT, true)) by by vm_compute.
  rewrite E in Ec. injection Ec as Es Ef. exists s'. split_and!; try done. by apply H.
Defined.

(** A header with four bytes of options, which are divided between two buffers. *)
Lemma input_header_typed_witness :
  let b := [16; 1; 0; 80; 0; 0; 0; 7; 0; 0; 3; 232; 0x60; 0x18; 16; 0; 0; 0; 0; 0; 2; 4] in
  exists h, input_header true 0 (fun _ => 0) [b; [0; 4; 65; 66]] = Some (Some h) /\
    optbytes (h_arrival h) = [2; 4; 0; 4] /\ concat (seg_p (inseg (h_arrival h))) = [65; 66].
Proof.
  intros b. destruct (input_header_typed true 0 (fun _ => 0) b [[0; 4; 65; 66]]) as (r & E & H).
  - repeat constructor; by vm_compute.
  - by vm_compute.
  - destruct r as [h|]; [|vm_compute in E; discriminate].
    exists h. split; [done|]. destruct H as (_ & _ & _ & _ & _ & -> & ->). by vm_compute.
Defined.
End TcpStates.
