(* ===== verification/NetBytes.v ===== *)
(** Numbers of 16 and 32 bits on the wire, the most significant byte first. *)

From S2P Require Export Memory.
Export Memory.
Open Scope Z_scope.

Module NetBytes.

Definition be16 (v : Z) : list Z := [Z.shiftr (Z.land v 0xff00) 8; Z.land v 0x00ff].
Definition be32 (v : Z) : list Z :=
  [Z.shiftr (Z.land v 0xff000000) 24; Z.shiftr (Z.land v 0x00ff0000) 16;
   Z.shiftr (Z.land v 0x0000ff00) 8; Z.land v 0x000000ff].
Definition of_be (bs : list Z) : Z := foldl (fun a b => 256 * a + b) 0 bs.

Lemma be16_bytes v : 0 <= v < 2 ^ 16 -> be16 v = [v / 256; v mod 256].
Proof.
  intros Hv. unfold be16. f_equal; [|f_equal].
  - rewrite Z.shiftr_land, Z.shiftr_div_pow2 by lia. change (Z.shiftr 0xff00 8) with (Z.ones 8).
    rewrite Z.land_ones by lia. apply Z.mod_small. change (2 ^ 8) with 256. lia_mod.
  - change 0x00ff with (Z.ones 8). by rewrite Z.land_ones by lia.
Qed.

Lemma be32_split v : 0 <= v < 2 ^ 32 ->
  be32 v = [v / 2 ^ 24; v / 2 ^ 16 mod 256; v / 2 ^ 8 mod 256; v mod 256].
Proof.
  intros Hv. unfold be32. rewrite !Z.shiftr_land, !Z.shiftr_div_pow2 by lia.
  change (0xff000000 / 2 ^ 24) with (Z.ones 8). change (0x00ff0000 / 2 ^ 16) with (Z.ones 8).
  change (0x0000ff00 / 2 ^ 8) with (Z.ones 8). change 0x000000ff with (Z.ones 8).
  rewrite !Z.land_ones by lia. change (2 ^ 8) with 256. f_equal.
  apply Z.mod_small. change (2 ^ 24) with 16777216. lia_mod.
Qed.

Lemma be32_size v : size (be32 v) = 4.
Proof. done. Qed.

Lemma be16_size v : size (be16 v) = 2.
Proof. done. Qed.

Lemma of_be_be32 v : 0 <= v < 2 ^ 32 -> of_be (be32 v) = v.
Proof.
  intros Hv. rewrite be32_split by done. unfold of_be. cbn [foldl].
  change (2 ^ 24) with 16777216. change (2 ^ 16) with 65536. change (2 ^ 8) with 256. lia_mod.
Qed.

Lemma be32_is_bytes v : 0 <= v < 2 ^ 32 -> Forall is_byte (be32 v).
Proof.
  intros Hv. rewrite be32_split by done. change (2 ^ 24) with 16777216. change (2 ^ 16) with 65536. change (2 ^ 8) with 256.
  repeat (apply Forall_cons; split); try apply Forall_nil; unfold is_byte; try done; lia_mod.
Qed.

Lemma be16_is_bytes v : 0 <= v < 2 ^ 16 -> Forall is_byte (be16 v).
Proof.
  intros Hv. rewrite be16_bytes by done.
  repeat (apply Forall_cons; split); try apply Forall_nil; unfold is_byte; try done; lia_mod.
Qed.

(** Four bytes are a number of 32 bits. *)
Lemma of_be_range bs : Forall is_byte bs -> 0 <= of_be bs < 256 ^ size bs.
Proof.
  intros Hb. unfold of_be. cut (forall a, 0 <= a -> 0 <= foldl (fun a b => 256 * a + b) a bs < (a + 1) * 256 ^ size bs).
  { intros Hc. specialize (Hc 0 ltac:(done)). lia. }
  induction Hb as [|b bs Hb _ IH]; intros a Ha; [change (256 ^ size []) with 1; cbn [foldl]; lia|].
  cbn [foldl]. unfold is_byte in Hb. specialize (IH (256 * a + b) ltac:(lia)).
  rewrite size_cons, Z.pow_add_r by (pose proof (size_nonneg bs); lia). change (256 ^ 1) with 256.
  assert (0 < 256 ^ size bs) by (apply Z.pow_pos_nonneg; [lia|apply size_nonneg]).
  assert ((256 * a + b + 1) * 256 ^ size bs <= 256 * (a + 1) * 256 ^ size bs) by (apply Z.mul_le_mono_nonneg_r; lia). lia.
Qed.

Lemma of_be_32 bs : Forall is_byte bs -> size bs <= 4 -> 0 <= of_be bs < 2 ^ 32.
Proof.
  intros Hb Hs. pose proof (of_be_range bs Hb) as [H0 H1]. split; [done|]. eapply Z.lt_le_trans; [exact H1|].
  change (2 ^ 32) with (256 ^ 4). apply Z.pow_le_mono_r; lia.
Qed.

Lemma of_be_be16 v : 0 <= v < 2 ^ 16 -> of_be (be16 v) = v.
Proof. intros Hv. rewrite be16_bytes by done. unfold of_be. cbn [foldl]. lia_mod. Qed.
End NetBytes.
