(* ===== verification/DhcpMsg.v ===== *)
(** The DHCP client of lwIP (src/dhcp/src/upstream/src): the message and how it
    is written.

    Sources: core/ipv4/dhcp.c from [dhcp_option] to [dhcp_option_hostname],
    [dhcp_create_msg] and [dhcp_option_trailer], include/lwip/prot/dhcp.h.

    The options that select code are the class [DhcpOptions]. LWIP_DHCP_BOOTP_FILE,
    DHCP_GLOBAL_XID and the hooks are off. Fields and addresses are kept in host
    order, as the numbers that their bytes on the wire denote. A result [None] is a
    failed LWIP_ASSERT, the use of a NULL pointer or an access outside of an object. *)

From stdpp Require Import gmap.
From S2P Require Export NetBytes.
Export NetBytes.
Open Scope Z_scope.

(** ** Options and the outside *)

Class DhcpOptions := {
  DHCP_OPTIONS_LEN : Z;
  NETIF_MAX_HWADDR_LEN : Z;
  DHCP_DOES_ARP_CHECK : bool;
  LWIP_DNS : bool;
  LWIP_DHCP_MAX_DNS_SERVERS : Z;
  DNS_MAX_SERVERS : Z;
  LWIP_DHCP_GET_NTP_SRV : bool;
  LWIP_DHCP_MAX_NTP_SERVERS : Z;
  LWIP_DHCP_AUTOIP_COOP : bool;
  LWIP_DHCP_AUTOIP_COOP_TRIES : Z;
  LWIP_NETIF_HOSTNAME : bool;
  DHCP_CREATE_RAND_XID : bool;
  options_len_ok : 68 <= DHCP_OPTIONS_LEN < 0xff00;
  hwaddr_len_ok : 6 <= NETIF_MAX_HWADDR_LEN < 256;
  dns_servers_ok : 0 <= LWIP_DHCP_MAX_DNS_SERVERS < 256 /\ 0 <= DNS_MAX_SERVERS < 256;
  ntp_servers_ok : 0 <= LWIP_DHCP_MAX_NTP_SERVERS < 256
}.

(** The functions of pbuf.c that are used: [pbuf_copy_partial] copies at most
    [len] bytes at [offset] of a chain, [pbuf_realloc] cuts a buffer to a length. *)
Class DhcpPbufs := {
  pbuf_copy_partial : list (list Z) -> Z -> Z -> list Z;
  pbuf_realloc : list Z -> Z -> list Z;
  copy_partial_data : forall p len offset, 0 <= len -> 0 <= offset ->
    pbuf_copy_partial p len offset = take (Z.to_nat len) (drop (Z.to_nat offset) (concat p));
  realloc_data : forall b n, 0 <= n <= size b -> pbuf_realloc b n = take (Z.to_nat n) b
}.

(** What is outside of the repository: allocations, the transmission, random numbers. *)
Class DhcpWorld := {
  mem_malloc_ok : nat -> bool;
  udp_new_ok : nat -> bool;
  pbuf_alloc_ok : nat -> bool;
  udp_sendto_result : nat -> Z;
  LWIP_RAND : nat -> Z
}.

Module Dhcp.

Abbreviation DHCP_CHADDR_LEN := 16.
Abbreviation DHCP_SNAME_OFS := 44.
Abbreviation DHCP_SNAME_LEN := 64.
Abbreviation DHCP_FILE_OFS := 108.
Abbreviation DHCP_FILE_LEN := 128.
Abbreviation DHCP_OPTIONS_OFS := 240.
Abbreviation DHCP_MIN_OPTIONS_LEN := 68.
Abbreviation DHCP_MAX_MSG_LEN_MIN_REQUIRED := 576.
Abbreviation DHCP_MIN_REPLY_LEN := 44.
Abbreviation REBOOT_TRIES := 2.

Abbreviation DHCP_BOOTREQUEST := 1.
Abbreviation DHCP_BOOTREPLY := 2.
Abbreviation LWIP_IANA_HWTYPE_ETHERNET := 1.
Abbreviation DHCP_MAGIC_COOKIE := 0x63825363.

Abbreviation DHCP_DISCOVER := 1.
Abbreviation DHCP_OFFER := 2.
Abbreviation DHCP_REQUEST := 3.
Abbreviation DHCP_DECLINE := 4.
Abbreviation DHCP_ACK := 5.
Abbreviation DHCP_NAK := 6.
Abbreviation DHCP_RELEASE := 7.
Abbreviation DHCP_INFORM := 8.

Abbreviation DHCP_OPTION_PAD := 0.
Abbreviation DHCP_OPTION_SUBNET_MASK := 1.
Abbreviation DHCP_OPTION_ROUTER := 3.
Abbreviation DHCP_OPTION_DNS_SERVER := 6.
Abbreviation DHCP_OPTION_HOSTNAME := 12.
Abbreviation DHCP_OPTION_BROADCAST := 28.
Abbreviation DHCP_OPTION_NTP := 42.
Abbreviation DHCP_OPTION_REQUESTED_IP := 50.
Abbreviation DHCP_OPTION_LEASE_TIME := 51.
Abbreviation DHCP_OPTION_OVERLOAD := 52.
Abbreviation DHCP_OPTION_MESSAGE_TYPE := 53.
Abbreviation DHCP_OPTION_MESSAGE_TYPE_LEN := 1.
Abbreviation DHCP_OPTION_SERVER_ID := 54.
Abbreviation DHCP_OPTION_PARAMETER_REQUEST_LIST := 55.
Abbreviation DHCP_OPTION_MAX_MSG_SIZE := 57.
Abbreviation DHCP_OPTION_MAX_MSG_SIZE_LEN := 2.
Abbreviation DHCP_OPTION_T1 := 58.
Abbreviation DHCP_OPTION_T2 := 59.
Abbreviation DHCP_OPTION_END := 255.

Abbreviation ERR_OK := 0.
Abbreviation ERR_MEM := (-1).
Abbreviation ERR_BUF := (-2).
Abbreviation ERR_VAL := (-6).
Abbreviation ERR_ARG := (-16).

(** [struct dhcp_msg] *)
Record dhcp_msg := mkMsg {
  op : Z; htype : Z; hlen : Z; hops : Z; msg_xid : Z; secs : Z; flags : Z; ciaddr : Z; yiaddr : Z; siaddr : Z;
  giaddr : Z; chaddr : list Z; sname : list Z; file : list Z; cookie : Z; options : list Z
}.

(** Its bytes. *)
Definition msg_bytes (m : dhcp_msg) : list Z :=
  [op m; htype m; hlen m; hops m] ++ be32 (msg_xid m) ++ be16 (secs m) ++ be16 (flags m) ++ be32 (ciaddr m)
  ++ be32 (yiaddr m) ++ be32 (siaddr m) ++ be32 (giaddr m) ++ chaddr m ++ sname m ++ file m ++ be32 (cookie m)
  ++ options m.

Definition set_options (v : list Z) (m : dhcp_msg) : dhcp_msg :=
  mkMsg (op m) (htype m) (hlen m) (hops m) (msg_xid m) (secs m) (flags m) (ciaddr m) (yiaddr m) (siaddr m) (giaddr m)
    (chaddr m) (sname m) (file m) (cookie m) v.

(** ** The states, the client, the interface *)

Inductive dhcp_state :=
  | DHCP_STATE_OFF | DHCP_STATE_REQUESTING | DHCP_STATE_INIT | DHCP_STATE_REBOOTING | DHCP_STATE_REBINDING
  | DHCP_STATE_RENEWING | DHCP_STATE_SELECTING | DHCP_STATE_INFORMING | DHCP_STATE_CHECKING | DHCP_STATE_PERMANENT
  | DHCP_STATE_BOUND | DHCP_STATE_RELEASING | DHCP_STATE_BACKING_OFF.

#[global] Instance dhcp_state_eq : EqDecision dhcp_state.
Proof. solve_decision. Defined.

(** The timers of [struct dhcp]; the fine one runs in half seconds, the others in minutes. *)
Record timers := mkTimers {
  request_timeout : Z; t1_timeout : Z; t2_timeout : Z; t1_renew_time : Z; t2_rebind_time : Z; lease_used : Z;
  t0_timeout : Z
}.

Ltac up_tim proj v r :=
  set_field (fun x : timers => mkTimers (request_timeout x) (t1_timeout x) (t2_timeout x) (t1_renew_time x)
     (t2_rebind_time x) (lease_used x) (t0_timeout x)) proj v r.

Definition set_request_timeout (v : Z) (r : timers) : timers := ltac:(up_tim request_timeout v r).
Definition set_t1_timeout (v : Z) (r : timers) : timers := ltac:(up_tim t1_timeout v r).
Definition set_t2_timeout (v : Z) (r : timers) : timers := ltac:(up_tim t2_timeout v r).
Definition set_t1_renew_time (v : Z) (r : timers) : timers := ltac:(up_tim t1_renew_time v r).
Definition set_t2_rebind_time (v : Z) (r : timers) : timers := ltac:(up_tim t2_rebind_time v r).
Definition set_lease_used (v : Z) (r : timers) : timers := ltac:(up_tim lease_used v r).
Definition set_t0_timeout (v : Z) (r : timers) : timers := ltac:(up_tim t0_timeout v r).

(** The offer in [struct dhcp]. *)
Record offer := mkOffer {
  server_ip_addr : Z; offered_ip_addr : Z; offered_sn_mask : Z; offered_gw_addr : Z; offered_t0_lease : Z;
  offered_t1_renew : Z; offered_t2_rebind : Z
}.

Ltac up_off proj v r :=
  set_field (fun x : offer => mkOffer (server_ip_addr x) (offered_ip_addr x) (offered_sn_mask x) (offered_gw_addr x)
     (offered_t0_lease x) (offered_t1_renew x) (offered_t2_rebind x)) proj v r.

Definition set_server_ip_addr (v : Z) (r : offer) : offer := ltac:(up_off server_ip_addr v r).
Definition set_offered_ip_addr (v : Z) (r : offer) : offer := ltac:(up_off offered_ip_addr v r).
Definition set_offered_sn_mask (v : Z) (r : offer) : offer := ltac:(up_off offered_sn_mask v r).
Definition set_offered_gw_addr (v : Z) (r : offer) : offer := ltac:(up_off offered_gw_addr v r).
Definition set_offered_t0_lease (v : Z) (r : offer) : offer := ltac:(up_off offered_t0_lease v r).
Definition set_offered_t1_renew (v : Z) (r : offer) : offer := ltac:(up_off offered_t1_renew v r).
Definition set_offered_t2_rebind (v : Z) (r : offer) : offer := ltac:(up_off offered_t2_rebind v r).

(** [struct dhcp] *)
Record dhcp := mkDhcp {
  d_xid : Z; pcb_allocated : bool; state : dhcp_state; tries : Z; autoip_coop_on : bool; subnet_mask_given : bool;
  tim : timers; off : offer
}.

Ltac up_dhcp proj v r :=
  set_field (fun x : dhcp => mkDhcp (d_xid x) (pcb_allocated x) (state x) (tries x) (autoip_coop_on x)
     (subnet_mask_given x) (tim x) (off x)) proj v r.

Definition set_d_xid (v : Z) (r : dhcp) : dhcp := ltac:(up_dhcp d_xid v r).
Definition set_pcb_allocated (v : bool) (r : dhcp) : dhcp := ltac:(up_dhcp pcb_allocated v r).
Definition set_state (v : dhcp_state) (r : dhcp) : dhcp := ltac:(up_dhcp state v r).
Definition set_tries (v : Z) (r : dhcp) : dhcp := ltac:(up_dhcp tries v r).
Definition set_autoip_coop_on (v : bool) (r : dhcp) : dhcp := ltac:(up_dhcp autoip_coop_on v r).
Definition set_subnet_mask_given (v : bool) (r : dhcp) : dhcp := ltac:(up_dhcp subnet_mask_given v r).
Definition set_tim (v : timers) (r : dhcp) : dhcp := ltac:(up_dhcp tim v r).
Definition set_off (v : offer) (r : dhcp) : dhcp := ltac:(up_dhcp off v r).

Definition in_tim (f : timers -> timers) (d : dhcp) : dhcp := set_tim (f (tim d)) d.
Definition in_off (f : offer -> offer) (d : dhcp) : dhcp := set_off (f (off d)) d.

(** [memset (dhcp, 0, sizeof (struct dhcp))] *)
Definition dhcp_zero : dhcp :=
  mkDhcp 0 false DHCP_STATE_OFF 0 false false (mkTimers 0 0 0 0 0 0 0) (mkOffer 0 0 0 0 0 0 0).

(** What is used of [struct netif]. *)
Record netif := mkNetif {
  hwaddr : list Z; hwaddr_len : Z; mtu : Z; is_up : bool; is_link_up : bool; flag_etharp : bool;
  hostname : option (list Z); ip_addr : Z; netmask : Z; gw : Z
}.

(** What the client does to the outside. *)
Inductive event :=
  | Sent (dst : Z) (src_any : bool) (msg : list Z)
  | ArpQuery (addr : Z)
  | SetAddr (ip mask gw : Z)
  | DnsServer (n : Z) (addr : Z)
  | NtpServers (addrs : list Z)
  | AutoipStart
  | AutoipStop.

(** The variables of the file: the options of the last reply ([dhcp_rx_options_val]
    at the indices with [dhcp_rx_options_given]), [dhcp_pcb] (or NULL),
    [dhcp_pcb_refcount], [xid]; with the number of external calls and what was done. *)
Record glob := mkGlob {
  rx_options : gmap Z Z; dhcp_pcb : bool; dhcp_pcb_refcount : Z; xid : Z; calls : nat; events : list event
}.

Ltac up_glob proj v r :=
  set_field (fun x : glob => mkGlob (rx_options x) (dhcp_pcb x) (dhcp_pcb_refcount x) (xid x) (calls x) (events x)) proj v r.

Definition set_rx_options (v : gmap Z Z) (r : glob) : glob := ltac:(up_glob rx_options v r).
Definition set_dhcp_pcb (v : bool) (r : glob) : glob := ltac:(up_glob dhcp_pcb v r).
Definition set_dhcp_pcb_refcount (v : Z) (r : glob) : glob := ltac:(up_glob dhcp_pcb_refcount v r).
Definition set_xid (v : Z) (r : glob) : glob := ltac:(up_glob xid v r).
Definition set_calls (v : nat) (r : glob) : glob := ltac:(up_glob calls v r).
Definition set_events (v : list event) (r : glob) : glob := ltac:(up_glob events v r).

Definition log (e : event) (g : glob) : glob := set_events (events g ++ [e]) g.

(** The number of an external call. *)
Definition call (g : glob) : nat * glob := (calls g, set_calls (S (calls g)) g).

(** ** Writing options *)

Section Write.
Context {Opt : DhcpOptions}.

(** The options of a message that is written: [options_out_len] and the array. *)
Abbreviation obuf := (Z * list Z)%type.

(** [options[options_out_len++] = value] *)
Definition put (value : Z) (b : obuf) : option obuf :=
  options ← store b.2 b.1 (u8 value); Some (u16 (b.1 + 1), options).

Definition dhcp_option (option_type option_len : Z) (b : obuf) : option obuf :=
  _ ← lwip_assert (b.1 + 2 + option_len <=? DHCP_OPTIONS_LEN);
  b ← put option_type b;
  put option_len b.

Definition dhcp_option_byte (value : Z) (b : obuf) : option obuf :=
  _ ← lwip_assert (b.1 <? DHCP_OPTIONS_LEN);
  put value b.

Definition dhcp_option_short (value : Z) (b : obuf) : option obuf :=
  _ ← lwip_assert (b.1 + 2 <=? DHCP_OPTIONS_LEN);
  b ← put (Z.shiftr (Z.land value 0xff00) 8) b;
  put (Z.land value 0x00ff) b.

Definition dhcp_option_long (value : Z) (b : obuf) : option obuf :=
  _ ← lwip_assert (b.1 + 4 <=? DHCP_OPTIONS_LEN);
  b ← put (Z.shiftr (Z.land value 0xff000000) 24) b;
  b ← put (Z.shiftr (Z.land value 0x00ff0000) 16) b;
  b ← put (Z.shiftr (Z.land value 0x0000ff00) 8) b;
  put (Z.land value 0x000000ff) b.

(** A loop of [dhcp_option_byte] over an array. *)
Fixpoint dhcp_option_bytes (values : list Z) (b : obuf) : option obuf :=
  match values with
  | [] => Some b
  | value :: values => b ← dhcp_option_byte value b; dhcp_option_bytes values b
  end.

Definition dhcp_option_hostname (n : netif) (b : obuf) : option obuf :=
  match hostname n with
  | None => Some b
  | Some name =>
      let namelen := size name in
      if 0 <? namelen then
        let available := u64 (DHCP_OPTIONS_LEN - b.1 - 3) in
        _ ← lwip_assert (namelen <=? available);
        let len := Z.min namelen available in
        _ ← lwip_assert (len <=? 0xff);
        b ← dhcp_option DHCP_OPTION_HOSTNAME (u8 len) b;
        dhcp_option_bytes (take (Z.to_nat len) name) b
      else Some b
  end.

Definition LWIP_DHCP_PROVIDE_DNS_SERVERS : Z :=
  if LWIP_DNS && negb (LWIP_DHCP_MAX_DNS_SERVERS =? 0) then
    if LWIP_DHCP_MAX_DNS_SERVERS <? DNS_MAX_SERVERS then LWIP_DHCP_MAX_DNS_SERVERS else DNS_MAX_SERVERS
  else 0.

Definition dhcp_discover_request_options : list Z :=
  [DHCP_OPTION_SUBNET_MASK; DHCP_OPTION_ROUTER; DHCP_OPTION_BROADCAST]
  ++ (if 0 <? LWIP_DHCP_PROVIDE_DNS_SERVERS then [DHCP_OPTION_DNS_SERVER] else [])
  ++ (if LWIP_DHCP_GET_NTP_SRV then [DHCP_OPTION_NTP] else []).

(** The loop of [dhcp_option_trailer]; [fuel] bounds the bytes that are left. *)
Fixpoint pad_options (fuel : nat) (b : obuf) : option obuf :=
  match fuel with
  | O => None
  | S fuel =>
      if ((b.1 <? DHCP_MIN_OPTIONS_LEN) || negb (Z.land b.1 3 =? 0)) && (b.1 <? DHCP_OPTIONS_LEN)
      then b ← put 0 b; pad_options fuel b
      else Some b
  end.

Context {Pbufs : DhcpPbufs}.

(** The message is finished: what is left of the buffer. *)
Definition dhcp_option_trailer (m : dhcp_msg) (b : obuf) : option (list Z) :=
  b ← put DHCP_OPTION_END b;
  b ← pad_options (S (Z.to_nat DHCP_OPTIONS_LEN)) b;
  let bytes := msg_bytes (set_options b.2 m) in
  Some (pbuf_realloc bytes (u16 (size bytes - DHCP_OPTIONS_LEN + b.1))).

Context {World : DhcpWorld}.

Definition is_request (message_type : Z) : bool := message_type =? DHCP_REQUEST.

(** [!(message_type == DHCP_REQUEST) || state == DHCP_STATE_REBOOTING]: a transaction
    begins or goes on that is not the one of an offer. *)
Definition takes_xid (message_type : Z) (s : dhcp_state) : bool :=
  negb (is_request message_type) || bool_decide (s = DHCP_STATE_REBOOTING).

(** The messages that carry the address of the interface. *)
Definition sends_ciaddr (message_type : Z) (s : dhcp_state) : bool :=
  (message_type =? DHCP_INFORM) || (message_type =? DHCP_DECLINE) || (message_type =? DHCP_RELEASE)
  || (is_request message_type && (bool_decide (s = DHCP_STATE_RENEWING) || bool_decide (s = DHCP_STATE_REBINDING))).

(** [LWIP_MIN (DHCP_CHADDR_LEN, NETIF_MAX_HWADDR_LEN)] *)
Definition chaddr_len : nat := Z.to_nat (Z.min DHCP_CHADDR_LEN NETIF_MAX_HWADDR_LEN).

(** The header: all zero but for these fields. *)
Definition msg_header (n : netif) (d : dhcp) (message_type : Z) : dhcp_msg :=
  mkMsg DHCP_BOOTREQUEST LWIP_IANA_HWTYPE_ETHERNET (hwaddr_len n) 0 (d_xid d) 0 0
    (if sends_ciaddr message_type (state d) then ip_addr n else 0) 0 0 0
    (take chaddr_len (hwaddr n) ++ replicate (16 - chaddr_len) 0) (replicate 64 0) (replicate 128 0)
    DHCP_MAGIC_COOKIE (replicate (Z.to_nat DHCP_OPTIONS_LEN) 0).

(** The identifier of a new transaction. *)
Definition new_xid (g : glob) : glob :=
  if DHCP_CREATE_RAND_XID then let (n, g) := call g in set_xid (u32 (LWIP_RAND n)) g
  else set_xid (u32 (xid g + 1)) g.

(** [inl]: no memory; otherwise the message and its options. *)
Definition dhcp_create_msg (n : netif) (d : dhcp) (message_type : Z) (g : glob) :
    option (dhcp * glob * option (dhcp_msg * obuf)) :=
  let (k, g) := call g in
  if negb (pbuf_alloc_ok k) then Some (d, g, None)
  else
    let (d, g) :=
      if takes_xid message_type (state d) then
        let g := if tries d =? 0 then new_xid g else g in
        (set_d_xid (xid g) d, g)
      else (d, g) in
    let m := msg_header n d message_type in
    b ← dhcp_option DHCP_OPTION_MESSAGE_TYPE DHCP_OPTION_MESSAGE_TYPE_LEN (0, options m);
    b ← dhcp_option_byte message_type b;
    Some (d, g, Some (m, b)).
End Write.
End Dhcp.
