(* ===== verification/DhcpReply.v ===== *)
(** The DHCP client of lwIP: how the options of a reply are read,
    [dhcp_parse_reply] of core/ipv4/dhcp.c.

    The reply is a chain of buffers. [offset] and [offset_max] count from the first
    byte of the current buffer and have 16 bits. A result [None] is an access behind
    the end of a buffer, or a failed assertion. *)

From stdpp Require Import gmap.
From S2P Require Export DhcpMsg.
Export Dhcp.
Open Scope Z_scope.

Module DhcpReply.

Abbreviation chain := (list (list Z)).

(** [p->tot_len] *)
Definition tot_len (p : chain) : Z := size (concat p).

(** The indices of [dhcp_rx_options_val], [enum dhcp_option_idx]. *)
Abbreviation DHCP_OPTION_IDX_OVERLOAD := 0.
Abbreviation DHCP_OPTION_IDX_MSG_TYPE := 1.
Abbreviation DHCP_OPTION_IDX_SERVER_ID := 2.
Abbreviation DHCP_OPTION_IDX_LEASE_TIME := 3.
Abbreviation DHCP_OPTION_IDX_T1 := 4.
Abbreviation DHCP_OPTION_IDX_T2 := 5.
Abbreviation DHCP_OPTION_IDX_SUBNET_MASK := 6.
Abbreviation DHCP_OPTION_IDX_ROUTER := 7.
Abbreviation DHCP_OPTION_IDX_DNS_SERVER := 8.

Section Reply.
Context {Opt : DhcpOptions} {Pbufs : DhcpPbufs}.

Definition DHCP_OPTION_IDX_NTP_SERVER : Z := 8 + LWIP_DHCP_PROVIDE_DNS_SERVERS.
Definition DHCP_OPTION_IDX_MAX : Z :=
  DHCP_OPTION_IDX_NTP_SERVER + (if LWIP_DHCP_GET_NTP_SRV then LWIP_DHCP_MAX_NTP_SERVERS else 0).

Definition dhcp_option_given (idx : Z) (o : gmap Z Z) : bool := bool_decide (is_Some (o !! idx)).

(** What the switch on the option decides: an error, or how long the option is,
    how many of its bytes are a value, and for which index. *)
Inductive decision := Reject (err : Z) | Decode (len decode_len decode_idx : Z).

(** LWIP_DHCP_INPUT_ERROR *)
Definition input_check (b : bool) (d : decision) : decision := if b then d else Reject ERR_VAL.

Definition option_switch (op len options_offset : Z) : decision :=
  if op =? DHCP_OPTION_PAD then Decode 0 0 (-1)
  else if op =? DHCP_OPTION_SUBNET_MASK then input_check (len =? 4) (Decode len len DHCP_OPTION_IDX_SUBNET_MASK)
  else if op =? DHCP_OPTION_ROUTER then input_check (4 <=? len) (Decode len 4 DHCP_OPTION_IDX_ROUTER)
  else if (0 <? LWIP_DHCP_PROVIDE_DNS_SERVERS) && (op =? DHCP_OPTION_DNS_SERVER) then
    let decode_len := u8 (Z.min len (4 * DNS_MAX_SERVERS)) in
    input_check (len mod 4 =? 0) (input_check (decode_len <=? len) (Decode len decode_len DHCP_OPTION_IDX_DNS_SERVER))
  else if op =? DHCP_OPTION_LEASE_TIME then input_check (len =? 4) (Decode len len DHCP_OPTION_IDX_LEASE_TIME)
  else if LWIP_DHCP_GET_NTP_SRV && (op =? DHCP_OPTION_NTP) then
    let decode_len := u8 (Z.min len (4 * LWIP_DHCP_MAX_NTP_SERVERS)) in
    input_check (len mod 4 =? 0) (input_check (decode_len <=? len) (Decode len decode_len DHCP_OPTION_IDX_NTP_SERVER))
  else if op =? DHCP_OPTION_OVERLOAD then
    input_check (len =? 1) (input_check (options_offset =? DHCP_OPTIONS_OFS) (Decode len len DHCP_OPTION_IDX_OVERLOAD))
  else if op =? DHCP_OPTION_MESSAGE_TYPE then input_check (len =? 1) (Decode len len DHCP_OPTION_IDX_MSG_TYPE)
  else if op =? DHCP_OPTION_SERVER_ID then input_check (len =? 4) (Decode len len DHCP_OPTION_IDX_SERVER_ID)
  else if op =? DHCP_OPTION_T1 then input_check (len =? 4) (Decode len len DHCP_OPTION_IDX_T1)
  else if op =? DHCP_OPTION_T2 then input_check (len =? 4) (Decode len len DHCP_OPTION_IDX_T2)
  else Decode len 0 (-1).

(** The values of an option, four bytes after four bytes, from the label
    [decode_next]; the error and the options. *)
Fixpoint decode_next (fuel : nat) (q : chain) (decode_len decode_idx val_offset : Z) (o : gmap Z Z) :
    option (Z * gmap Z Z) :=
  match fuel with
  | O => None
  | S fuel =>
      _ ← lwip_assert ((0 <=? decode_idx) && (decode_idx <? DHCP_OPTION_IDX_MAX));
      if dhcp_option_given decode_idx o then Some (ERR_OK, o)
      else
        let copy_len := Z.min decode_len 4 in
        let value := pbuf_copy_partial q copy_len val_offset in
        if negb (size value =? copy_len) then Some (ERR_BUF, o)
        else if 4 <? decode_len then
          if negb (decode_len mod 4 =? 0) then Some (ERR_VAL, o)
          else
            let o := <[decode_idx := of_be value]> o in
            let next_val_offset := u16 (val_offset + 4) in
            if next_val_offset <? val_offset then Some (ERR_BUF, o)
            else decode_next fuel q (decode_len - 4) (decode_idx + 1) next_val_offset o
        else if decode_len =? 4 then Some (ERR_OK, <[decode_idx := of_be value]> o)
        else if negb (decode_len =? 1) then Some (ERR_VAL, o)
        else Some (ERR_OK, <[decode_idx := hd 0 value]> o)
  end.

(** One option at [offset] of the buffer [b], which is [op]: the error, where the
    next option is, and the options. *)
Definition read_option (b : list Z) (next : chain) (op offset options_offset : Z) (o : gmap Z Z) :
    option (Z * Z * gmap Z Z) :=
  let val_offset := u16 (offset + 2) in
  if val_offset <? offset then Some (ERR_BUF, offset, o)
  else
    len ← (if offset + 1 <? size b then load b (offset + 1)
           else match next with [] => Some 0 | b' :: _ => load b' 0 end);
    match option_switch op len options_offset with
    | Reject err => Some (err, offset, o)
    | Decode len decode_len decode_idx =>
        if op =? DHCP_OPTION_PAD then Some (ERR_OK, u16 (offset + 1), o)
        else if 0xffff <? offset + len + 2 then Some (ERR_BUF, offset, o)
        else
          let offset := u16 (offset + len + 2) in
          if 0 <? decode_len then
            '(err, o) ← decode_next 64 (b :: next) decode_len decode_idx val_offset o;
            Some (err, offset, o)
          else Some (ERR_OK, offset, o)
    end.

(** The loop over the options. *)
Fixpoint parse_options (fuel : nat) (q : chain) (offset offset_max options_offset : Z) (o : gmap Z Z) :
    option (Z * gmap Z Z) :=
  match fuel, q with
  | O, _ => None
  | _, [] => Some (ERR_OK, o)
  | S fuel, b :: next =>
      if negb (offset <? offset_max) then Some (ERR_OK, o)
      else
        op ← load b offset;
        if op =? DHCP_OPTION_END then Some (ERR_OK, o)
        else
          '(err, offset, o) ← read_option b next op offset options_offset o;
          if negb (err =? ERR_OK) then Some (err, o)
          else if size b <=? offset then
            let offset := u16 (offset - size b) in
            let offset_max := u16 (offset_max - size b) in
            if offset <? offset_max then
              match next with
              | [] => Some (ERR_VAL, o)
              | _ => parse_options fuel next offset offset_max options_offset o
              end
            else Some (ERR_BUF, o)
          else parse_options fuel q offset offset_max options_offset o
  end.

(** The buffer that holds the byte [options_idx] of the chain. *)
Fixpoint find_buffer (q : chain) (options_idx options_idx_max : Z) : chain * Z * Z :=
  match q with
  | [] => ([], options_idx, options_idx_max)
  | b :: next =>
      if size b <=? options_idx then find_buffer next (u16 (options_idx - size b)) (u16 (options_idx_max - size b))
      else (q, options_idx, options_idx_max)
  end.

(** From the label [again] to the end of the loop. *)
Definition parse_area (p : chain) (options_idx options_idx_max : Z) (o : gmap Z Z) : option (Z * gmap Z Z) :=
  let '(q, offset, offset_max) := find_buffer p options_idx options_idx_max in
  match q with
  | [] => Some (ERR_BUF, o)
  | _ => parse_options (S (length (concat p))) q offset offset_max options_idx o
  end.

(** The fields that the option OVERLOAD selects, file and sname. *)
Definition overloaded (overload : Z) : bool * bool :=
  if overload =? 1 then (true, false)
  else if overload =? 2 then (false, true)
  else if overload =? 3 then (true, true)
  else (false, false).

(** The areas one after the other: [goto again]. *)
Fixpoint parse_areas (fuel : nat) (p : chain) (options_idx options_idx_max : Z) (parse_file parse_sname : bool)
    (o : gmap Z Z) : option (Z * gmap Z Z) :=
  match fuel with
  | O => None
  | S fuel =>
      '(err, o) ← parse_area p options_idx options_idx_max o;
      if negb (err =? ERR_OK) then Some (err, o)
      else
        let '(parse_file, parse_sname, o) :=
          match o !! DHCP_OPTION_IDX_OVERLOAD with
          | Some overload =>
              let (f, s) := overloaded overload in
              (parse_file || f, parse_sname || s, delete DHCP_OPTION_IDX_OVERLOAD o)
          | None => (parse_file, parse_sname, o)
          end in
        if parse_file then
          parse_areas fuel p DHCP_FILE_OFS (DHCP_FILE_OFS + DHCP_FILE_LEN) false parse_sname o
        else if parse_sname then
          parse_areas fuel p DHCP_SNAME_OFS (DHCP_SNAME_OFS + DHCP_SNAME_LEN) parse_file false o
        else Some (ERR_OK, o)
  end.

Definition dhcp_parse_reply (p : chain) : option (Z * gmap Z Z) :=
  match p with
  | [] => None
  | b :: _ =>
      if size b <? DHCP_SNAME_OFS then Some (ERR_BUF, ∅)
      else parse_areas 3 p DHCP_OPTIONS_OFS (u16 (tot_len p)) false false ∅
  end.

End Reply.
End DhcpReply.
