(* ===== verification/DhcpClient.v ===== *)
(** The DHCP client of lwIP: the state machine, core/ipv4/dhcp.c.

    A [client] is an interface with its [struct dhcp], if it has one, and the
    variables of the file. Interfaces share the variables ([system]). *)

From stdpp Require Import gmap.
From S2P Require Export DhcpReply.
Export DhcpReply.
Open Scope Z_scope.

Module DhcpClient.

Abbreviation IP_ADDR_BROADCAST := 0xffffffff.
Abbreviation IP4_ADDR_ANY := 0.
Abbreviation DHCP_FINE_TIMER_MSECS := 500.
Abbreviation DHCP_COARSE_TIMER_SECS := 60.

Record client := mkClient { nif : netif; data : option dhcp; glb : glob }.

Definition set_nif (v : netif) (s : client) : client := mkClient v (data s) (glb s).
Definition set_data (v : option dhcp) (s : client) : client := mkClient (nif s) v (glb s).
Definition set_glb (v : glob) (s : client) : client := mkClient (nif s) (data s) v.

Section Client.
Context {Opt : DhcpOptions} {Pbufs : DhcpPbufs} {World : DhcpWorld}.

(** ** The UDP control block *)

Definition dhcp_inc_pcb_refcount (g : glob) : option (Z * glob) :=
  if dhcp_pcb_refcount g =? 0 then
    _ ← lwip_assert (negb (dhcp_pcb g));
    let (k, g) := call g in
    if udp_new_ok k then Some (ERR_OK, set_dhcp_pcb_refcount (u8 (dhcp_pcb_refcount g + 1)) (set_dhcp_pcb true g))
    else Some (ERR_MEM, set_dhcp_pcb false g)
  else Some (ERR_OK, set_dhcp_pcb_refcount (u8 (dhcp_pcb_refcount g + 1)) g).

Definition dhcp_dec_pcb_refcount (g : glob) : option glob :=
  _ ← lwip_assert (0 <? dhcp_pcb_refcount g);
  let g := set_dhcp_pcb_refcount (u8 (dhcp_pcb_refcount g - 1)) g in
  Some (if dhcp_pcb_refcount g =? 0 then set_dhcp_pcb false g else g).

(** A message is handed to UDP ([udp_sendto_if] and [udp_sendto_if_src] of core/udp.c),
    which refuses it without a control block; what becomes of it is outside. *)
Definition udp_sendto (dst : Z) (src_any : bool) (p : list Z) (g : glob) : Z * glob :=
  if dhcp_pcb g then let (k, g) := call g in (udp_sendto_result k, log (Sent dst src_any p) g)
  else (ERR_ARG, g).

(** ** Parts of the messages *)

Definition dhcp_set_state (new_state : dhcp_state) (d : dhcp) : dhcp :=
  if bool_decide (new_state = state d) then d
  else in_tim (set_request_timeout 0) (set_tries 0 (set_state new_state d)).

Definition write_max_msg_size (v : Z) (b : Z * list Z) : option (Z * list Z) :=
  b ← dhcp_option DHCP_OPTION_MAX_MSG_SIZE DHCP_OPTION_MAX_MSG_SIZE_LEN b;
  dhcp_option_short v b.

Definition write_addr (option_type v : Z) (b : Z * list Z) : option (Z * list Z) :=
  b ← dhcp_option option_type 4 b;
  dhcp_option_long v b.

Definition write_request_list (b : Z * list Z) : option (Z * list Z) :=
  b ← dhcp_option DHCP_OPTION_PARAMETER_REQUEST_LIST (u8 (size dhcp_discover_request_options)) b;
  dhcp_option_bytes dhcp_discover_request_options b.

Definition write_hostname (n : netif) (b : Z * list Z) : option (Z * list Z) :=
  if LWIP_NETIF_HOSTNAME then dhcp_option_hostname n b else Some b.

(** What follows [dhcp_create_msg]: the options are written and the message is sent. *)
Definition send_msg (p_out : option (dhcp_msg * (Z * list Z))) (write : Z * list Z -> option (Z * list Z))
    (dst : Z) (src_any : bool) (g : glob) : option (Z * glob) :=
  match p_out with
  | Some (msg_out, b) =>
      b ← write b;
      p ← dhcp_option_trailer msg_out b;
      Some (udp_sendto dst src_any p g)
  | None => Some (ERR_MEM, g)
  end.

(** [if (dhcp->tries < 255) dhcp->tries++] *)
Definition count_try (d : dhcp) : dhcp := if tries d <? 255 then set_tries (tries d + 1) d else d.

Definition set_request_msecs (msecs : Z) (d : dhcp) : dhcp :=
  in_tim (set_request_timeout (u16 ((msecs + DHCP_FINE_TIMER_MSECS - 1) / DHCP_FINE_TIMER_MSECS))) d.

(** ** Requests *)

Definition dhcp_select (s : client) : option (Z * client) :=
  match data s with
  | None => Some (ERR_VAL, s)
  | Some d =>
      let n := nif s in
      let d := dhcp_set_state DHCP_STATE_REQUESTING d in
      '(d, g, p_out) ← dhcp_create_msg n d DHCP_REQUEST (glb s);
      '(result, g) ← send_msg p_out
        (fun b =>
           b ← write_max_msg_size (mtu n) b;
           b ← write_addr DHCP_OPTION_REQUESTED_IP (offered_ip_addr (off d)) b;
           b ← write_addr DHCP_OPTION_SERVER_ID (server_ip_addr (off d)) b;
           b ← write_request_list b;
           write_hostname n b)
        IP_ADDR_BROADCAST true g;
      let d := count_try d in
      let msecs := u16 ((if tries d <? 6 then Z.shiftl 1 (tries d) else 60) * 1000) in
      Some (result, mkClient n (Some (set_request_msecs msecs d)) g)
  end.

Definition dhcp_discover (s : client) : option (Z * client) :=
  d ← data s;
  let n := nif s in
  let d := dhcp_set_state DHCP_STATE_SELECTING (in_off (set_offered_ip_addr 0) d) in
  '(d, g, p_out) ← dhcp_create_msg n d DHCP_DISCOVER (glb s);
  '(_, g) ← send_msg p_out (fun b => b ← write_max_msg_size (mtu n) b; write_request_list b) IP_ADDR_BROADCAST true g;
  let d := count_try d in
  let (d, g) :=
    if LWIP_DHCP_AUTOIP_COOP && (LWIP_DHCP_AUTOIP_COOP_TRIES <=? tries d) && negb (autoip_coop_on d)
    then (set_autoip_coop_on true d, log AutoipStart g) else (d, g) in
  let msecs := u16 ((if tries d <? 6 then Z.shiftl 1 (tries d) else 60) * 1000) in
  Some (ERR_OK, mkClient n (Some (set_request_msecs msecs d)) g).

Definition dhcp_renew (s : client) : option (Z * client) :=
  d ← data s;
  let n := nif s in
  let d := dhcp_set_state DHCP_STATE_RENEWING d in
  '(d, g, p_out) ← dhcp_create_msg n d DHCP_REQUEST (glb s);
  '(result, g) ← send_msg p_out
    (fun b => b ← write_max_msg_size (mtu n) b; b ← write_request_list b; write_hostname n b)
    (server_ip_addr (off d)) false g;
  let d := count_try d in
  let msecs := u16 (if tries d <? 10 then tries d * 2000 else 20 * 1000) in
  Some (result, mkClient n (Some (set_request_msecs msecs d)) g).

Definition dhcp_rebind (s : client) : option (Z * client) :=
  d ← data s;
  let n := nif s in
  let d := dhcp_set_state DHCP_STATE_REBINDING d in
  '(d, g, p_out) ← dhcp_create_msg n d DHCP_REQUEST (glb s);
  '(result, g) ← send_msg p_out
    (fun b => b ← write_max_msg_size (mtu n) b; b ← write_request_list b; write_hostname n b)
    IP_ADDR_BROADCAST false g;
  let d := count_try d in
  let msecs := u16 (if tries d <? 10 then tries d * 1000 else 10 * 1000) in
  Some (result, mkClient n (Some (set_request_msecs msecs d)) g).

Definition dhcp_reboot (s : client) : option (Z * client) :=
  d ← data s;
  let n := nif s in
  let d := dhcp_set_state DHCP_STATE_REBOOTING d in
  '(d, g, p_out) ← dhcp_create_msg n d DHCP_REQUEST (glb s);
  '(result, g) ← send_msg p_out
    (fun b =>
       b ← write_max_msg_size DHCP_MAX_MSG_LEN_MIN_REQUIRED b;
       b ← write_addr DHCP_OPTION_REQUESTED_IP (offered_ip_addr (off d)) b;
       b ← write_request_list b;
       write_hostname n b)
    IP_ADDR_BROADCAST false g;
  let d := count_try d in
  let msecs := u16 (if tries d <? 10 then tries d * 1000 else 10 * 1000) in
  Some (result, mkClient n (Some (set_request_msecs msecs d)) g).

Definition dhcp_decline (s : client) : option (Z * client) :=
  d ← data s;
  let n := nif s in
  let d := dhcp_set_state DHCP_STATE_BACKING_OFF d in
  '(d, g, p_out) ← dhcp_create_msg n d DHCP_DECLINE (glb s);
  '(result, g) ← send_msg p_out (write_addr DHCP_OPTION_REQUESTED_IP (offered_ip_addr (off d))) IP_ADDR_BROADCAST true g;
  let d := count_try d in
  Some (result, mkClient n (Some (set_request_msecs (10 * 1000) d)) g).

(** The address is asked for with ARP; the result of [etharp_query] is only logged. *)
Definition dhcp_check (s : client) : option client :=
  d ← data s;
  let d := dhcp_set_state DHCP_STATE_CHECKING d in
  let g := log (ArpQuery (offered_ip_addr (off d))) (glb s) in
  Some (mkClient (nif s) (Some (set_request_msecs 500 (count_try d))) g).

(** ** The address *)

(** [netif_set_addr] of core/netif.c: the three addresses are set. The callbacks of the
    application, the reports to other hosts and the notice to TCP and UDP are outside. *)
Definition netif_set_addr (ip mask gateway : Z) (s : client) : client :=
  let n := nif s in
  mkClient
    (mkNetif (hwaddr n) (hwaddr_len n) (mtu n) (is_up n) (is_link_up n) (flag_etharp n) (hostname n) ip mask gateway)
    (data s) (log (SetAddr ip mask gateway) (glb s)).

Definition dhcp_supplied_address (s : client) : bool :=
  match data s with
  | Some d => bool_decide (state d = DHCP_STATE_BOUND) || bool_decide (state d = DHCP_STATE_RENEWING)
              || bool_decide (state d = DHCP_STATE_REBINDING)
  | None => false
  end.

(** Automatic addresses are no longer needed. *)
Definition stop_autoip (d : dhcp) (g : glob) : dhcp * glob :=
  if LWIP_DHCP_AUTOIP_COOP && autoip_coop_on d then (set_autoip_coop_on false d, log AutoipStop g) else (d, g).

(** Seconds in minutes, at least one and at most 65535. *)
Definition lease_ticks (seconds : Z) : Z :=
  let timeout := u32 (seconds + DHCP_COARSE_TIMER_SECS / 2) / DHCP_COARSE_TIMER_SECS in
  let timeout := if 0xffff <? timeout then 0xffff else timeout in
  if u16 timeout =? 0 then 1 else u16 timeout.

(** The mask of the class of an address. *)
Definition class_mask (ip : Z) : Z :=
  let first_octet := Z.land (Z.shiftr ip 24) 0xff in
  if first_octet <=? 127 then 0xff000000
  else if 192 <=? first_octet then 0xffffff00
  else 0xffff0000.

(** The timers of a lease, lines 1056 to 1105. *)
Definition lease_timers (o : offer) (t : timers) : timers :=
  let t := set_lease_used 0 t in
  let t := if offered_t0_lease o =? 0xffffffff then t else set_t0_timeout (lease_ticks (offered_t0_lease o)) t in
  let t := if offered_t1_renew o =? 0xffffffff then t
           else let t := set_t1_timeout (lease_ticks (offered_t1_renew o)) t in set_t1_renew_time (t1_timeout t) t in
  let t := if offered_t2_rebind o =? 0xffffffff then t
           else let t := set_t2_timeout (lease_ticks (offered_t2_rebind o)) t in set_t2_rebind_time (t2_timeout t) t in
  if (t2_timeout t <=? t1_timeout t) && (0 <? t2_timeout t) then set_t1_timeout 0 t else t.

Definition dhcp_bind (s : client) : client :=
  match data s with
  | None => s
  | Some d =>
      let d := in_tim (lease_timers (off d)) d in
      let sn_mask := if subnet_mask_given d then offered_sn_mask (off d) else class_mask (offered_ip_addr (off d)) in
      let gw_addr := offered_gw_addr (off d) in
      let (d, g) := stop_autoip d (glb s) in
      let d := dhcp_set_state DHCP_STATE_BOUND d in
      netif_set_addr (offered_ip_addr (off d)) sn_mask gw_addr (mkClient (nif s) (Some d) g)
  end.

(** ** Start and stop *)

Definition dhcp_release_and_stop (s : client) : option client :=
  match data s with
  | None => Some s
  | Some d =>
      if bool_decide (state d = DHCP_STATE_OFF) then Some s
      else
        let server := server_ip_addr (off d) in
        let supplied := dhcp_supplied_address s in
        let d := set_off (mkOffer 0 0 0 0 0 0 0) d in
        let d := in_tim (fun t => set_t1_renew_time 0 (set_t2_rebind_time 0 (set_lease_used 0 (set_t0_timeout 0 t)))) d in
        s ← (if supplied then
               let d := dhcp_set_state DHCP_STATE_OFF d in
               '(d, g, p_out) ← dhcp_create_msg (nif s) d DHCP_RELEASE (glb s);
               '(_, g) ← send_msg p_out (write_addr DHCP_OPTION_SERVER_ID server) server false g;
               Some (netif_set_addr IP4_ADDR_ANY IP4_ADDR_ANY IP4_ADDR_ANY (mkClient (nif s) (Some d) g))
             else Some (mkClient (nif s) (Some (dhcp_set_state DHCP_STATE_OFF d)) (glb s)));
        d ← data s;
        let (d, g) := stop_autoip d (glb s) in
        if pcb_allocated d then
          g ← dhcp_dec_pcb_refcount g;
          Some (mkClient (nif s) (Some (set_pcb_allocated false d)) g)
        else Some (mkClient (nif s) (Some d) g)
  end.

(** [dhcp_release]; [dhcp_stop] is the same without a result. *)
Definition dhcp_release (s : client) : option (Z * client) := s ← dhcp_release_and_stop s; Some (ERR_OK, s).
Definition dhcp_stop (s : client) : option client := dhcp_release_and_stop s.

(** The memory for [struct dhcp] and its control block, lines 759 to 790; the error. *)
Definition dhcp_attach (s : client) : option (Z * client) :=
  '(ok, g) ← match data s with
             | None => let (k, g) := call (glb s) in Some (mem_malloc_ok k, g)
             | Some d =>
                 if pcb_allocated d then g ← dhcp_dec_pcb_refcount (glb s); Some (true, g)
                 else Some (true, glb s)
             end;
  if negb ok then Some (ERR_MEM, set_glb g s)
  else
    '(err, g) ← dhcp_inc_pcb_refcount g;
    if negb (err =? ERR_OK) then Some (ERR_MEM, mkClient (nif s) (Some dhcp_zero) g)
    else Some (ERR_OK, mkClient (nif s) (Some (set_pcb_allocated true dhcp_zero)) g).

Definition dhcp_start (s : client) : option (Z * client) :=
  if negb (is_up (nif s)) then Some (ERR_ARG, s)
  else if mtu (nif s) <? DHCP_MAX_MSG_LEN_MIN_REQUIRED then Some (ERR_MEM, s)
  else
    '(err, s) ← dhcp_attach s;
    if negb (err =? ERR_OK) then Some (err, s)
    else if negb (is_link_up (nif s)) then
      Some (ERR_OK, set_data (dhcp_set_state DHCP_STATE_INIT <$> data s) s)
    else
      '(result, s) ← dhcp_discover s;
      if negb (result =? ERR_OK) then s ← dhcp_release_and_stop s; Some (ERR_MEM, s)
      else Some (result, s).

(** A message INFORM, with a [struct dhcp] of its own. *)
Definition dhcp_inform (s : client) : option client :=
  '(err, g) ← dhcp_inc_pcb_refcount (glb s);
  if negb (err =? ERR_OK) then Some (set_glb g s)
  else
    let d := dhcp_set_state DHCP_STATE_INFORMING dhcp_zero in
    '(_, g, p_out) ← dhcp_create_msg (nif s) d DHCP_INFORM g;
    '(_, g) ← send_msg p_out (write_max_msg_size (mtu (nif s))) IP_ADDR_BROADCAST false g;
    g ← dhcp_dec_pcb_refcount g;
    Some (set_glb g s).

Definition dhcp_set_struct (s : client) : option client :=
  _ ← lwip_assert (bool_decide (data s = None));
  Some (set_data (Some dhcp_zero) s).

(** The memory is given back, or the structure is only taken from the interface. *)
Definition dhcp_cleanup (s : client) : client := set_data None s.
Definition dhcp_remove_struct (s : client) : client := set_data None s.

(** ** Events of the link and of ARP *)

Definition dhcp_network_changed (s : client) : option client :=
  match data s with
  | None => Some s
  | Some d =>
      match state d with
      | DHCP_STATE_REBINDING | DHCP_STATE_RENEWING | DHCP_STATE_BOUND | DHCP_STATE_REBOOTING =>
          '(_, s) ← dhcp_reboot (set_data (Some (set_tries 0 d)) s); Some s
      | DHCP_STATE_OFF => Some s
      | _ =>
          let (d, g) := stop_autoip d (glb s) in
          '(_, s) ← dhcp_discover (mkClient (nif s) (Some (set_tries 0 d)) g); Some s
      end
  end.

Definition dhcp_arp_reply (addr : Z) (s : client) : option client :=
  match data s with
  | None => Some s
  | Some d =>
      if bool_decide (state d = DHCP_STATE_CHECKING) then
        if addr =? offered_ip_addr (off d) then '(_, s) ← dhcp_decline s; Some s else Some s
      else Some s
  end.

(** ** Replies *)

Definition dhcp_handle_nak (s : client) : option client :=
  d ← data s;
  let s := set_data (Some (dhcp_set_state DHCP_STATE_BACKING_OFF d)) s in
  '(_, s) ← dhcp_discover (netif_set_addr IP4_ADDR_ANY IP4_ADDR_ANY IP4_ADDR_ANY s);
  Some s.

Definition dhcp_handle_offer (yiaddr : Z) (s : client) : option client :=
  d ← data s;
  match rx_options (glb s) !! DHCP_OPTION_IDX_SERVER_ID with
  | Some server =>
      let d := in_tim (set_request_timeout 0) d in
      let d := in_off (fun o => set_offered_ip_addr yiaddr (set_server_ip_addr server o)) d in
      '(_, s) ← dhcp_select (set_data (Some d) s);
      Some s
  | None => Some s
  end.

(** The values at the indices from [idx] on that are given, at most [n]. *)
Fixpoint given_values (n : nat) (idx : Z) (o : gmap Z Z) : list Z :=
  match n with
  | O => []
  | S n => match o !! idx with Some v => v :: given_values n (idx + 1) o | None => [] end
  end.

(** [dns_setserver] for the servers, from number [n] on. *)
Fixpoint dns_setservers (n : Z) (addrs : list Z) (g : glob) : glob :=
  match addrs with
  | [] => g
  | addr :: addrs => dns_setservers (n + 1) addrs (log (DnsServer n addr) g)
  end.

(** What is remembered of an acknowledgment, lines 616 to 666. *)
Definition remember_ack (o : gmap Z Z) (yiaddr : Z) (d : dhcp) : dhcp :=
  let f := off d in
  let t0 := default (offered_t0_lease f) (o !! DHCP_OPTION_IDX_LEASE_TIME) in
  let t1 := default (t0 / 2) (o !! DHCP_OPTION_IDX_T1) in
  let t2 := default (u32 (t0 * 7) / 8) (o !! DHCP_OPTION_IDX_T2) in
  set_subnet_mask_given (dhcp_option_given DHCP_OPTION_IDX_SUBNET_MASK o)
    (set_off (mkOffer (server_ip_addr f) yiaddr (default 0 (o !! DHCP_OPTION_IDX_SUBNET_MASK))
                (default 0 (o !! DHCP_OPTION_IDX_ROUTER)) t0 t1 t2) d).

Definition dhcp_handle_ack (yiaddr : Z) (s : client) : option client :=
  d ← data s;
  let g := glb s in
  let o := rx_options g in
  let d := remember_ack o yiaddr d in
  let g :=
    if LWIP_DHCP_GET_NTP_SRV
    then log (NtpServers (given_values (Z.to_nat LWIP_DHCP_MAX_NTP_SERVERS) DHCP_OPTION_IDX_NTP_SERVER o)) g else g in
  let g := dns_setservers 0 (given_values (Z.to_nat LWIP_DHCP_PROVIDE_DNS_SERVERS) DHCP_OPTION_IDX_DNS_SERVER o) g in
  Some (mkClient (nif s) (Some d) g).

(** The first [min (hwaddr_len, DHCP_CHADDR_LEN, NETIF_MAX_HWADDR_LEN)] bytes of the address are ours. *)
Definition same_chaddr (n : netif) (b : list Z) : bool :=
  let k := Z.to_nat (Z.min (hwaddr_len n) (Z.min DHCP_CHADDR_LEN NETIF_MAX_HWADDR_LEN)) in
  bool_decide (take k (hwaddr n) = take k (drop 28 b)).

(** A message with its options, by type and state. *)
Definition dhcp_handle_reply (msg_type yiaddr : Z) (s : client) : option client :=
  d ← data s;
  if msg_type =? DHCP_ACK then
    match state d with
    | DHCP_STATE_REQUESTING =>
        s ← dhcp_handle_ack yiaddr s;
        if DHCP_DOES_ARP_CHECK && flag_etharp (nif s) then dhcp_check s else Some (dhcp_bind s)
    | DHCP_STATE_REBOOTING | DHCP_STATE_REBINDING | DHCP_STATE_RENEWING =>
        s ← dhcp_handle_ack yiaddr s; Some (dhcp_bind s)
    | _ => Some s
    end
  else if (msg_type =? DHCP_NAK)
          && bool_decide (state d ∈ [DHCP_STATE_REBOOTING; DHCP_STATE_REQUESTING; DHCP_STATE_REBINDING; DHCP_STATE_RENEWING])
  then dhcp_handle_nak s
  else if (msg_type =? DHCP_OFFER) && bool_decide (state d = DHCP_STATE_SELECTING) then dhcp_handle_offer yiaddr s
  else Some s.

(** A message that arrives on the interface, in the buffers [p]. *)
Definition dhcp_recv (p : chain) (s : client) : option client :=
  match data s with
  | None => Some s
  | Some d =>
      if negb (pcb_allocated d) then Some s
      else
        b ← head p;
        if size b <? DHCP_MIN_REPLY_LEN then Some s
        else
          op ← load b 0;
          if negb (op =? DHCP_BOOTREPLY) then Some s
          else if negb (same_chaddr (nif s) b) then Some s
          else
            xid ← fetch b 4 4;
            if negb (of_be xid =? d_xid d) then Some s
            else
              '(err, o) ← dhcp_parse_reply p;
              let s := set_glb (set_rx_options o (glb s)) s in
              if negb (err =? ERR_OK) then Some s
              else
                match o !! DHCP_OPTION_IDX_MSG_TYPE with
                | None => Some s
                | Some v => yiaddr ← fetch b 16 4; dhcp_handle_reply (u8 v) (of_be yiaddr) s
                end
  end.

(** ** Timers *)

(** [(60 + DHCP_COARSE_TIMER_SECS / 2) / DHCP_COARSE_TIMER_SECS] is 1. *)
Definition half_left (timeout used : Z) : Z := Z.quot (timeout - used) 2.

Definition dhcp_t1_timeout (s : client) : option client :=
  d ← data s;
  if bool_decide (state d ∈ [DHCP_STATE_REQUESTING; DHCP_STATE_BOUND; DHCP_STATE_RENEWING]) then
    '(_, s) ← dhcp_renew s;
    d ← data s;
    let half := half_left (t2_timeout (tim d)) (lease_used (tim d)) in
    if 1 <=? half then Some (set_data (Some (in_tim (set_t1_renew_time (u16 half)) d)) s) else Some s
  else Some s.

Definition dhcp_t2_timeout (s : client) : option client :=
  d ← data s;
  if bool_decide (state d ∈ [DHCP_STATE_REQUESTING; DHCP_STATE_BOUND; DHCP_STATE_RENEWING; DHCP_STATE_REBINDING]) then
    '(_, s) ← dhcp_rebind s;
    d ← data s;
    let half := half_left (t0_timeout (tim d)) (lease_used (tim d)) in
    if 1 <=? half then Some (set_data (Some (in_tim (set_t2_rebind_time (u16 half)) d)) s) else Some s
  else Some s.

(** The body of the loop of [dhcp_coarse_tmr]. *)
Definition coarse_tick (s : client) : option client :=
  match data s with
  | None => Some s
  | Some d =>
      if bool_decide (state d = DHCP_STATE_OFF) then Some s
      else
        let t := tim d in
        let t := if t0_timeout t =? 0 then t else set_lease_used (u16 (lease_used t + 1)) t in
        if negb (t0_timeout t =? 0) && (lease_used t =? t0_timeout t) then
          s ← dhcp_release_and_stop (set_data (Some (set_tim t d)) s);
          '(_, s) ← dhcp_start s;
          Some s
        else
          let rebind := t2_rebind_time t in
          let t := if rebind =? 0 then t else set_t2_rebind_time (rebind - 1) t in
          if rebind =? 1 then dhcp_t2_timeout (set_data (Some (set_tim t d)) s)
          else
            let renew := t1_renew_time t in
            let t := if renew =? 0 then t else set_t1_renew_time (renew - 1) t in
            let s := set_data (Some (set_tim t d)) s in
            if renew =? 1 then dhcp_t1_timeout s else Some s
  end.

Definition dhcp_timeout (s : client) : option client :=
  d ← data s;
  match state d with
  | DHCP_STATE_BACKING_OFF | DHCP_STATE_SELECTING => '(_, s) ← dhcp_discover s; Some s
  | DHCP_STATE_REQUESTING =>
      if tries d <=? 5 then '(_, s) ← dhcp_select s; Some s
      else s ← dhcp_release_and_stop s; '(_, s) ← dhcp_start s; Some s
  | DHCP_STATE_CHECKING =>
      if negb DHCP_DOES_ARP_CHECK then Some s
      else if tries d <=? 1 then dhcp_check s
      else Some (dhcp_bind s)
  | DHCP_STATE_REBOOTING =>
      if tries d <? REBOOT_TRIES then '(_, s) ← dhcp_reboot s; Some s
      else '(_, s) ← dhcp_discover s; Some s
  | _ => Some s
  end.

(** The body of the loop of [dhcp_fine_tmr]. *)
Definition fine_tick (s : client) : option client :=
  match data s with
  | None => Some s
  | Some d =>
      let timeout := request_timeout (tim d) in
      let s' := set_data (Some (in_tim (set_request_timeout (timeout - 1)) d)) s in
      if 1 <? timeout then Some s'
      else if timeout =? 1 then dhcp_timeout s'
      else Some s
  end.

(** ** All interfaces *)

(** The list of interfaces, [netif_list], and the variables of the file. *)
Record system := mkSystem { netifs : list (netif * option dhcp); globals : glob }.

Definition client_at (i : nat) (y : system) : option client :=
  '(n, d) ← netifs y !! i; Some (mkClient n d (globals y)).

Definition put_client (i : nat) (s : client) (y : system) : system :=
  mkSystem (<[i := (nif s, data s)]> (netifs y)) (glb s).

(** An operation on the interface [i]. *)
Definition on_netif (i : nat) (f : client -> option client) (y : system) : option system :=
  s ← client_at i y;
  s ← f s;
  Some (put_client i s y).

(** NETIF_FOREACH *)
Fixpoint on_netifs (ids : list nat) (f : client -> option client) (y : system) : option system :=
  match ids with
  | [] => Some y
  | i :: ids => y ← on_netif i f y; on_netifs ids f y
  end.

Definition all_netifs (y : system) : list nat := seq 0 (length (netifs y)).
Definition dhcp_coarse_tmr (y : system) : option system := on_netifs (all_netifs y) coarse_tick y.
Definition dhcp_fine_tmr (y : system) : option system := on_netifs (all_netifs y) fine_tick y.
End Client.
End DhcpClient.
