(* ===== verification/DhcpWire.v ===== *)
(** The DHCP client of lwIP: options on the wire. Lists of options and their bytes,
    and the bytes that the functions of DhcpMsg write. *)

From stdpp Require Import gmap.
From S2P Require Export DhcpClient.
Export DhcpClient.
Open Scope Z_scope.

Module DhcpWire.

(** ** Options and their bytes (RFC 2132) *)

Inductive item := Pad | Item (code : Z) (value : list Z).

Definition item_bytes (it : item) : list Z :=
  match it with Pad => [DHCP_OPTION_PAD] | Item code value => code :: size value :: value end.

Definition items_bytes (its : list item) : list Z := concat (item_bytes <$> its).

Definition wf_item (it : item) : Prop :=
  match it with
  | Pad => True
  | Item code value => 0 < code < 255 /\ size value <= 255 /\ Forall is_byte value
  end.

Lemma items_bytes_app a b : items_bytes (a ++ b) = items_bytes a ++ items_bytes b.
Proof. unfold items_bytes. by rewrite fmap_app, concat_app. Qed.

Lemma items_bytes_cons it its : items_bytes (it :: its) = item_bytes it ++ items_bytes its.
Proof. done. Qed.

Section Write.
Context {Opt : DhcpOptions}.

(** The buffer with the bytes [w] written. *)
Definition buf (w : list Z) : Z * list Z := (size w, w ++ replicate (Z.to_nat (DHCP_OPTIONS_LEN - size w)) 0).

Lemma buf_nil : (0, replicate (Z.to_nat DHCP_OPTIONS_LEN) 0) = buf [].
Proof. unfold buf. change (size []) with 0. by rewrite Z.sub_0_r. Qed.

Lemma put_buf v w : is_byte v -> size w < DHCP_OPTIONS_LEN -> put v (buf w) = Some (buf (w ++ [v])).
Proof.
  intros Hv Hw. pose proof options_len_ok as Ho. pose proof (size_nonneg w) as H0. unfold put, buf, store. cbn [fst snd].
  rewrite length_app, length_replicate. replace ((size w <? 0) || _) with false by (unfold size in *; lia).
  cbn [mbind option_bind]. f_equal. unfold u16, u8. unfold is_byte in Hv. rewrite size_app. cbn [size length].
  rewrite !Z.mod_small by lia. change (size [v]) with 1. f_equal.
  replace (Z.to_nat (DHCP_OPTIONS_LEN - size w)) with (S (Z.to_nat (DHCP_OPTIONS_LEN - (size w + 1)))) by lia.
  cbn [replicate]. rewrite to_nat_size, insert_app_r_alt, Nat.sub_diag by done. cbn [insert list_insert]. by rewrite <- app_assoc.
Qed.

Lemma put_bytes_buf v w :
  Forall is_byte v -> size w + size v <= DHCP_OPTIONS_LEN -> dhcp_option_bytes v (buf w) = Some (buf (w ++ v)).
Proof.
  intros Hv. revert w. induction Hv as [|x v Hx _ IH]; intros w Hw; cbn [dhcp_option_bytes].
  { by rewrite app_nil_r. }
  rewrite size_cons in Hw. pose proof (size_nonneg v). unfold dhcp_option_byte.
  rewrite lwip_assert_true by (cbn [fst buf]; lia). cbn [mbind option_bind].
  rewrite put_buf by (done || lia). cbn [mbind option_bind].
  rewrite IH by (rewrite size_app; change (size [x]) with 1; lia). by rewrite <- app_assoc.
Qed.

Lemma dhcp_option_byte_buf v w :
  is_byte v -> size w < DHCP_OPTIONS_LEN -> dhcp_option_byte v (buf w) = Some (buf (w ++ [v])).
Proof.
  intros Hv Hw. unfold dhcp_option_byte. rewrite lwip_assert_true by (cbn [fst buf]; lia).
  cbn [mbind option_bind]. by apply put_buf.
Qed.

Lemma dhcp_option_buf t l w :
  is_byte t -> is_byte l -> size w + 2 + l <= DHCP_OPTIONS_LEN ->
  dhcp_option t l (buf w) = Some (buf (w ++ [t; l])).
Proof.
  intros Ht Hl Hw. unfold is_byte in Hl. unfold dhcp_option. rewrite lwip_assert_true by (cbn [fst buf]; lia).
  cbn [mbind option_bind]. rewrite put_buf by (done || lia). cbn [mbind option_bind].
  rewrite put_buf by (done || (rewrite size_app; change (size [t]) with 1; lia)). by rewrite <- app_assoc.
Qed.

Lemma dhcp_option_short_buf v w :
  0 <= v < 2 ^ 16 -> size w + 2 <= DHCP_OPTIONS_LEN -> dhcp_option_short v (buf w) = Some (buf (w ++ be16 v)).
Proof.
  intros Hv Hw. unfold dhcp_option_short. rewrite lwip_assert_true by (cbn [fst buf]; lia). cbn [mbind option_bind].
  pose proof (be16_is_bytes v Hv) as Hb. unfold be16 in *. decompose_Forall_hyps.
  rewrite put_buf by (done || lia). cbn [mbind option_bind].
  rewrite put_buf by (done || (rewrite size_app; change (size [_]) with 1; lia)). by rewrite <- app_assoc.
Qed.

Lemma dhcp_option_long_buf v w :
  0 <= v < 2 ^ 32 -> size w + 4 <= DHCP_OPTIONS_LEN -> dhcp_option_long v (buf w) = Some (buf (w ++ be32 v)).
Proof.
  intros Hv Hw. unfold dhcp_option_long. rewrite lwip_assert_true by (cbn [fst buf]; lia). cbn [mbind option_bind].
  pose proof (be32_is_bytes v Hv) as Hb. unfold be32 in *. decompose_Forall_hyps.
  do 3 (rewrite put_buf by (done || (rewrite ?size_app; change (size [_]) with 1; lia)); cbn [mbind option_bind]).
  rewrite put_buf by (done || (rewrite ?size_app; change (size [_]) with 1; lia)). by rewrite <- !app_assoc.
Qed.

(** What is left of the array behind [w]. *)
Definition left_of (w : list Z) : Z := DHCP_OPTIONS_LEN - size w.

(** A writer appends the options [its], when there is room for them and for END. *)
Definition appends (write : Z * list Z -> option (Z * list Z)) (its : list item) : Prop :=
  forall w, size (items_bytes its) < left_of w -> write (buf w) = Some (buf (w ++ items_bytes its)).

Lemma appends_nil : appends Some [].
Proof. intros w _. by rewrite app_nil_r. Qed.

Lemma appends_seq f g a b :
  appends f a -> appends g b -> appends (fun x => x ← f x; g x) (a ++ b).
Proof.
  intros Hf Hg w Hw. rewrite items_bytes_app, size_app in Hw. pose proof (size_nonneg (items_bytes b)).
  rewrite Hf by lia. cbn [mbind option_bind]. rewrite Hg by (unfold left_of in *; rewrite size_app; lia).
  by rewrite items_bytes_app, app_assoc.
Qed.

(** A number in two bytes, an address in four. *)
Lemma appends_max_msg_size v :
  0 <= v < 2 ^ 16 -> appends (write_max_msg_size v) [Item DHCP_OPTION_MAX_MSG_SIZE (be16 v)].
Proof.
  intros Hv w Hw. change (size (items_bytes _)) with 4 in Hw. unfold left_of in Hw. unfold write_max_msg_size.
  rewrite dhcp_option_buf by (done || lia). cbn [mbind option_bind].
  rewrite dhcp_option_short_buf by (done || (rewrite size_app; change (size [_; _]) with 2; lia)).
  by rewrite <- app_assoc.
Qed.

Lemma appends_addr t v :
  is_byte t -> 0 <= v < 2 ^ 32 -> appends (write_addr t v) [Item t (be32 v)].
Proof.
  intros Ht Hv w Hw. change (size (items_bytes _)) with 6 in Hw. unfold left_of in Hw. unfold write_addr.
  rewrite dhcp_option_buf by (done || lia). cbn [mbind option_bind].
  rewrite dhcp_option_long_buf by (done || (rewrite size_app; change (size [_; _]) with 2; lia)).
  by rewrite <- app_assoc.
Qed.

(** A writer that begins an option and writes its bytes. *)
Lemma appends_option t v :
  is_byte t -> size v <= 255 -> Forall is_byte v ->
  appends (fun x => x ← dhcp_option t (size v) x; dhcp_option_bytes v x) [Item t v].
Proof.
  intros Ht Hv Hb w Hw. assert (size (items_bytes [Item t v]) = 2 + size v) as Hs.
  { unfold items_bytes. cbn [fmap list_fmap concat item_bytes]. rewrite app_nil_r, !size_cons. lia. }
  rewrite Hs in Hw. unfold left_of in Hw. pose proof (size_nonneg v).
  rewrite dhcp_option_buf by (done || lia || (unfold is_byte; lia)). cbn [mbind option_bind].
  rewrite put_bytes_buf by (done || (rewrite size_app; change (size [_; _]) with 2; lia)).
  unfold items_bytes. cbn [fmap list_fmap concat item_bytes]. by rewrite app_nil_r, <- app_assoc.
Qed.

Definition request_item : item := Item DHCP_OPTION_PARAMETER_REQUEST_LIST dhcp_discover_request_options.

Lemma request_options_size : 3 <= size dhcp_discover_request_options <= 5.
Proof.
  unfold dhcp_discover_request_options. rewrite !size_app.
  destruct (0 <? _), LWIP_DHCP_GET_NTP_SRV; by vm_compute.
Qed.

Lemma request_options_bytes : Forall is_byte dhcp_discover_request_options.
Proof.
  unfold dhcp_discover_request_options, is_byte.
  destruct (0 <? _), LWIP_DHCP_GET_NTP_SRV; repeat (apply Forall_cons; split); (done || apply Forall_nil).
Qed.

Lemma appends_request_list : appends write_request_list [request_item].
Proof.
  pose proof request_options_size as Hr. intros w Hw. unfold write_request_list. rewrite u8_small by lia.
  apply (appends_option DHCP_OPTION_PARAMETER_REQUEST_LIST); [done|lia|apply request_options_bytes|done].
Qed.

(** The name of the host, when it is sent. *)
Definition hostname_items (n : netif) : list item :=
  match hostname n with
  | Some name => if LWIP_NETIF_HOSTNAME && (0 <? size name) then [Item DHCP_OPTION_HOSTNAME name] else []
  | None => []
  end.

(** An address of the interface of a length that the code can use; room for the
    name behind the longest other options, which are 26 bytes and END. *)
Definition wf_netif (n : netif) : Prop :=
  size (hwaddr n) = NETIF_MAX_HWADDR_LEN /\ Forall is_byte (hwaddr n) /\ 0 <= hwaddr_len n < 256 /\
  0 <= mtu n < 2 ^ 16 /\ 0 <= ip_addr n < 2 ^ 32 /\
  match hostname n with
  | Some name => Forall is_byte name /\ size name <= Z.min 255 (DHCP_OPTIONS_LEN - 29)
  | None => True
  end.

Lemma appends_hostname n : wf_netif n -> appends (write_hostname n) (hostname_items n).
Proof.
  intros (_ & _ & _ & _ & _ & Hn) w Hw. unfold write_hostname, dhcp_option_hostname, hostname_items in *.
  destruct LWIP_NETIF_HOSTNAME; [|destruct (hostname n); by rewrite app_nil_r].
  destruct (hostname n) as [name|]; [|by rewrite app_nil_r]. destruct Hn as [Hb Hl].
  destruct (0 <? size name) eqn:E; cbn [andb] in *; [|by rewrite app_nil_r]. pose proof options_len_ok as Ho.
  assert (size (items_bytes [Item DHCP_OPTION_HOSTNAME name]) = 2 + size name) as Hs.
  { unfold items_bytes. cbn [fmap list_fmap concat item_bytes]. rewrite app_nil_r, !size_cons. lia. }
  rewrite Hs in Hw. unfold left_of in Hw. pose proof (size_nonneg w). change ((buf w).1) with (size w).
  assert (u64 (DHCP_OPTIONS_LEN - size w - 3) = DHCP_OPTIONS_LEN - size w - 3) as -> by (apply Z.mod_small; lia).
  rewrite lwip_assert_true by lia. cbn [mbind option_bind]. rewrite Z.min_l by lia.
  rewrite lwip_assert_true by lia. cbn [mbind option_bind]. rewrite u8_small, to_nat_size, take_ge by lia.
  apply (appends_option DHCP_OPTION_HOSTNAME); [done|lia|done|]. rewrite Hs. unfold left_of. lia.
Qed.

(** ** The end of a message *)

Lemma pad_options_buf fuel w :
  size w <= DHCP_OPTIONS_LEN -> left_of w < Z.of_nat fuel ->
  exists k, pad_options fuel (buf w) = Some (buf (w ++ replicate k 0)) /\
    let n := size (w ++ replicate k 0) in
    n <= DHCP_OPTIONS_LEN /\ (n = DHCP_OPTIONS_LEN \/ DHCP_MIN_OPTIONS_LEN <= n /\ n mod 4 = 0).
Proof.
  pose proof options_len_ok as Ho. unfold left_of. revert w.
  induction fuel as [|fuel IH]; intros w Hw Hf; [lia|]. cbn [pad_options]. change ((buf w).1) with (size w).
  change 3 with (Z.ones 2). rewrite Z.land_ones by lia. change (2 ^ 2) with 4.
  destruct (((size w <? 68) || negb (size w mod 4 =? 0)) && (size w <? DHCP_OPTIONS_LEN)) eqn:E.
  - rewrite put_buf by (done || lia). cbn [mbind option_bind].
    destruct (IH (w ++ [0])) as (k & Hk & Hn); [rewrite size_app; change (size [0]) with 1; lia..|].
    exists (S k). cbn [replicate]. replace (w ++ 0 :: replicate k 0) with ((w ++ [0]) ++ replicate k 0); [done|].
    by rewrite <- app_assoc.
  - exists 0%nat. cbn [replicate]. rewrite app_nil_r. split; [done|]. lia.
Qed.

(** The bytes before the options. *)
Definition msg_head (m : dhcp_msg) : list Z := msg_bytes (set_options [] m).

Lemma msg_bytes_head m o : msg_bytes (set_options o m) = msg_head m ++ o.
Proof. unfold msg_head, msg_bytes. rewrite <- !app_assoc. by rewrite app_nil_l. Qed.

(** A finished message. *)
Definition message (m : dhcp_msg) (its : list item) (k : nat) : list Z :=
  msg_head m ++ items_bytes its ++ [DHCP_OPTION_END] ++ replicate k 0.

(** It has the length of a BOOTP message, or fills the buffer. *)
Definition msg_size_ok (msg : list Z) : Prop :=
  size msg <= 240 + DHCP_OPTIONS_LEN /\ (size msg = 240 + DHCP_OPTIONS_LEN \/ 308 <= size msg /\ size msg mod 4 = 0).

Context {Pbufs : DhcpPbufs}.

Lemma trailer_buf m its :
  size (msg_head m) = 240 -> size (items_bytes its) < DHCP_OPTIONS_LEN ->
  exists k, dhcp_option_trailer m (buf (items_bytes its)) = Some (message m its k) /\ msg_size_ok (message m its k).
Proof.
  intros Hm Hw. pose proof options_len_ok as Ho. unfold dhcp_option_trailer.
  rewrite put_buf by done. cbn [mbind option_bind].
  destruct (pad_options_buf (S (Z.to_nat DHCP_OPTIONS_LEN)) (items_bytes its ++ [DHCP_OPTION_END])) as (k & Hk & Hn).
  { rewrite size_app. change (size [_]) with 1. lia. }
  { unfold left_of. pose proof (size_nonneg (items_bytes its ++ [DHCP_OPTION_END])). lia. }
  rewrite Hk. cbn [mbind option_bind]. set (w := (items_bytes its ++ [DHCP_OPTION_END]) ++ replicate k 0) in *.
  assert (message m its k = msg_head m ++ w) as Hmw by (unfold message, w; by rewrite <- !app_assoc).
  exists k. rewrite Hmw. cbv zeta in Hn. unfold buf. cbn [fst snd]. rewrite msg_bytes_head.
  pose proof (size_nonneg w) as Hw0. pose proof (to_nat_size (replicate (Z.to_nat (DHCP_OPTIONS_LEN - size w)) 0)) as Hr.
  rewrite length_replicate in Hr.
  assert (size (msg_head m ++ w ++ replicate (Z.to_nat (DHCP_OPTIONS_LEN - size w)) 0) = 240 + DHCP_OPTIONS_LEN) as Hs.
  { rewrite !size_app, Hm. unfold size at 2. rewrite length_replicate. lia. }
  rewrite Hs. replace (240 + DHCP_OPTIONS_LEN - DHCP_OPTIONS_LEN + size w) with (240 + size w) by lia.
  rewrite u16_small by lia. rewrite realloc_data by (rewrite Hs; lia). split.
  - f_equal. rewrite app_assoc. rewrite take_app_le by (rewrite length_app; unfold size in *; lia).
    apply take_ge. rewrite length_app. unfold size in *. lia.
  - unfold msg_size_ok. rewrite size_app, Hm. lia_mod.
Qed.

Context {World : DhcpWorld}.

Lemma msg_head_size n d message_type : wf_netif n -> size (msg_head (msg_header n d message_type)) = 240.
Proof.
  intros (Hh & _). pose proof hwaddr_len_ok as Hl. unfold msg_head, msg_bytes, msg_header, set_options.
  cbn [op htype hlen hops msg_xid secs flags ciaddr yiaddr siaddr giaddr chaddr sname file cookie options].
  rewrite !size_app, !be32_size, !be16_size. unfold size in *. rewrite length_take, !length_replicate.
  unfold chaddr_len. cbn [length]. lia.
Qed.

(** What a step that does not touch the control block leaves as it is. *)
Definition same_pcb (g g' : glob) : Prop :=
  dhcp_pcb g' = dhcp_pcb g /\ dhcp_pcb_refcount g' = dhcp_pcb_refcount g /\ rx_options g' = rx_options g.

(** The options that every message begins with. *)
Definition type_item (message_type : Z) : item := Item DHCP_OPTION_MESSAGE_TYPE [message_type].

(** A message is begun, or there is no memory for it. *)
Lemma create_msg_spec n d message_type g :
  is_byte message_type -> 0 <= xid g < 2 ^ 32 ->
  exists d' g' p, dhcp_create_msg n d message_type g = Some (d', g', p) /\
    (d' = d \/ takes_xid message_type (state d) = true /\ exists x, d' = set_d_xid x d /\ 0 <= x < 2 ^ 32) /\
    same_pcb g g' /\ events g' = events g /\ 0 <= xid g' < 2 ^ 32 /\
    (pbuf_alloc_ok (calls g) = true -> p <> None) /\
    (p = None \/ p = Some (msg_header n d' message_type, buf (items_bytes [type_item message_type]))).
Proof.
  intros Ht Hx. pose proof options_len_ok as Ho. unfold dhcp_create_msg, call. destruct (negb (pbuf_alloc_ok _)) eqn:Ea.
  { exists d, (set_calls (S (calls g)) g), None. split_and!; try done; [by left|apply Hx..|intros E; by rewrite E in Ea|by left]. }
  set (g1 := set_calls (S (calls g)) g).
  set (dg := if takes_xid message_type (state d) then _ else (d, g1)).
  assert (Hdg : (dg.1 = d \/ takes_xid message_type (state d) = true /\ exists x, dg.1 = set_d_xid x d /\ 0 <= x < 2 ^ 32) /\ same_pcb g dg.2 /\
    events dg.2 = events g /\ 0 <= xid dg.2 < 2 ^ 32).
  { subst dg. destruct (takes_xid _ _); [|split_and!; try done; [by left|apply Hx..]]. cbn [fst snd].
    assert (Hn : same_pcb g (if tries d =? 0 then new_xid g1 else g1) /\
      events (if tries d =? 0 then new_xid g1 else g1) = events g /\ 0 <= xid (if tries d =? 0 then new_xid g1 else g1) < 2 ^ 32).
    { destruct (tries d =? 0); [|split_and!; try done; apply Hx]. unfold new_xid, call. destruct DHCP_CREATE_RAND_XID; split_and!; try done;
        by apply Z.mod_pos_bound. }
    destruct Hn as (? & ? & ?). split_and!; try done; [|tauto..]. right. split; [done|]. eexists. done. }
  destruct dg as [d' g']. cbn [fst snd] in Hdg. destruct Hdg as (Hd & Hp & He & Hxx).
  change (0, options (msg_header n d' message_type)) with (0, replicate (Z.to_nat DHCP_OPTIONS_LEN) 0). rewrite buf_nil.
  rewrite dhcp_option_buf by (done || (change (size []) with 0; lia)). cbn [mbind option_bind].
  rewrite dhcp_option_byte_buf by (done || (change (size _) with 2; lia)).
  exists d', g', (Some (msg_header n d' message_type, buf (items_bytes [type_item message_type]))).
  split_and!; try done; [apply Hxx..|by right].
Qed.
End Write.
End DhcpWire.
