(* ===== verification/DhcpInv.v ===== *)
(** The DHCP client of lwIP: its invariant. Every operation keeps the client well
    formed, counts the users of the control block, leaves a timer running in the
    states that wait, and sends legal messages only. *)

From stdpp Require Import gmap.
From S2P Require Export DhcpWire.
Export DhcpWire.
Open Scope Z_scope.

(** The addresses that were acknowledged by a server, or are none. *)
Class Acknowledged := {
  acked : Z -> Prop;
  acked_any : acked 0
}.

Module DhcpInv.

Abbreviation max_item v := (Item DHCP_OPTION_MAX_MSG_SIZE (be16 v)).
Abbreviation addr_item t v := (Item t (be32 v)).

Section Inv.
Context {Opt : DhcpOptions} {Pbufs : DhcpPbufs} {World : DhcpWorld} {Ack : Acknowledged}.

(** ** Legal messages *)

(** What may be sent (RFC 2131, table 5): the type, the options behind the type, the
    destination, and whether the source address is 0. *)
Inductive legal (n : netif) (d : dhcp) : Z -> list item -> Z -> bool -> Prop :=
  | legal_discover : state d = DHCP_STATE_SELECTING ->
      legal n d DHCP_DISCOVER [max_item (mtu n); request_item] IP_ADDR_BROADCAST true
  | legal_select : state d = DHCP_STATE_REQUESTING ->
      legal n d DHCP_REQUEST
        ([max_item (mtu n); addr_item DHCP_OPTION_REQUESTED_IP (offered_ip_addr (off d));
          addr_item DHCP_OPTION_SERVER_ID (server_ip_addr (off d)); request_item] ++ hostname_items n)
        IP_ADDR_BROADCAST true
  | legal_renew : state d = DHCP_STATE_RENEWING ->
      legal n d DHCP_REQUEST ([max_item (mtu n); request_item] ++ hostname_items n) (server_ip_addr (off d)) false
  | legal_rebind : state d = DHCP_STATE_REBINDING ->
      legal n d DHCP_REQUEST ([max_item (mtu n); request_item] ++ hostname_items n) IP_ADDR_BROADCAST false
  | legal_reboot : state d = DHCP_STATE_REBOOTING ->
      legal n d DHCP_REQUEST
        ([max_item DHCP_MAX_MSG_LEN_MIN_REQUIRED; addr_item DHCP_OPTION_REQUESTED_IP (offered_ip_addr (off d));
          request_item] ++ hostname_items n)
        IP_ADDR_BROADCAST false
  | legal_decline : state d = DHCP_STATE_BACKING_OFF ->
      legal n d DHCP_DECLINE [addr_item DHCP_OPTION_REQUESTED_IP (offered_ip_addr (off d))] IP_ADDR_BROADCAST true
  | legal_release server : state d = DHCP_STATE_OFF -> 0 <= server < 2 ^ 32 ->
      legal n d DHCP_RELEASE [addr_item DHCP_OPTION_SERVER_ID server] server false
  | legal_inform : state d = DHCP_STATE_INFORMING ->
      legal n d DHCP_INFORM [max_item (mtu n)] IP_ADDR_BROADCAST false.

(** ** Well-formed clients *)

Record wf_timers (t : timers) : Prop := {
  request_range : 0 <= request_timeout t <= 120;
  t1_range : 0 <= t1_timeout t < 2 ^ 16;
  t2_range : 0 <= t2_timeout t < 2 ^ 16;
  renew_range : 0 <= t1_renew_time t < 2 ^ 16;
  rebind_range : 0 <= t2_rebind_time t < 2 ^ 16;
  t0_range : 0 <= t0_timeout t < 2 ^ 16;
  used_range : 0 <= lease_used t /\ (lease_used t = 0 \/ lease_used t < t0_timeout t)
}.

Record wf_offer (o : offer) : Prop := {
  server_range : 0 <= server_ip_addr o < 2 ^ 32;
  ip_range : 0 <= offered_ip_addr o < 2 ^ 32;
  mask_range : 0 <= offered_sn_mask o < 2 ^ 32;
  gw_range : 0 <= offered_gw_addr o < 2 ^ 32;
  lease_range : 0 <= offered_t0_lease o < 2 ^ 32;
  t1_lease_range : 0 <= offered_t1_renew o < 2 ^ 32;
  t2_lease_range : 0 <= offered_t2_rebind o < 2 ^ 32
}.

Record wf_dhcp (d : dhcp) : Prop := {
  xid_range : 0 <= d_xid d < 2 ^ 32;
  tries_range : 0 <= tries d <= 255;
  timers_wf : wf_timers (tim d);
  offer_wf : wf_offer (off d)
}.

(** The states in which the client waits for the fine timer. *)
Definition waits (st : dhcp_state) : bool :=
  bool_decide (st ∈ [DHCP_STATE_SELECTING; DHCP_STATE_REQUESTING; DHCP_STATE_REBOOTING; DHCP_STATE_BACKING_OFF])
  || DHCP_DOES_ARP_CHECK && bool_decide (st = DHCP_STATE_CHECKING).

Lemma waits_off : waits DHCP_STATE_OFF = false.
Proof. unfold waits. by rewrite andb_false_r. Qed.

Lemma waits_bound : waits DHCP_STATE_BOUND = false.
Proof. unfold waits. by rewrite andb_false_r. Qed.

Definition timer_runs (d : dhcp) : Prop := waits (state d) = true -> 1 <= request_timeout (tim d).

(** A client that is not off holds the control block. *)
Definition holds_pcb (d : dhcp) : Prop := pcb_allocated d = negb (bool_decide (state d = DHCP_STATE_OFF)).

(** The address that is probed was acknowledged. *)
Definition checks_acked (d : dhcp) : Prop := state d = DHCP_STATE_CHECKING -> acked (offered_ip_addr (off d)).

Definition legal_event (e : event) : Prop :=
  match e with
  | Sent dst src_any msg =>
      exists n d message_type its k, wf_netif n /\ wf_dhcp d /\ legal n d message_type its dst src_any /\
        msg = message (msg_header n d message_type) (type_item message_type :: its) k /\ msg_size_ok msg
  | _ => True
  end.

(** The variables of the file, with [users] clients that hold the control block. *)
Record wf_glob (users : Z) (g : glob) : Prop := {
  users_counted : dhcp_pcb_refcount g = users;
  pcb_used : dhcp_pcb g = (0 <? users);
  next_xid_range : 0 <= xid g < 2 ^ 32;
  events_legal : Forall legal_event (events g)
}.

Definition users_of (d : option dhcp) : Z :=
  match d with Some d => if pcb_allocated d then 1 else 0 | None => 0 end.

(** A client in the middle of an operation, when others hold the control block [r] times. *)
Record running (r : Z) (s : client) (d : dhcp) : Prop := {
  run_data : data s = Some d;
  run_netif : wf_netif (nif s);
  run_dhcp : wf_dhcp d;
  run_glob : wf_glob (r + users_of (Some d)) (glb s);
  run_others : 0 <= r < 254;
  run_addr : acked (ip_addr (nif s))
}.

(** A client whose request timer may have run out. *)
Record settled (r : Z) (s : client) : Prop := {
  settled_netif : wf_netif (nif s);
  settled_glob : wf_glob (r + users_of (data s)) (glb s);
  settled_others : 0 <= r < 254;
  settled_addr : acked (ip_addr (nif s));
  settled_dhcp : forall d, data s = Some d -> wf_dhcp d /\ holds_pcb d
}.

(** A client between operations. *)
Record good (r : Z) (s : client) : Prop := {
  good_netif : wf_netif (nif s);
  good_glob : wf_glob (r + users_of (data s)) (glb s);
  good_others : 0 <= r < 254;
  good_addr : acked (ip_addr (nif s));
  good_dhcp : forall d, data s = Some d -> wf_dhcp d /\ timer_runs d /\ holds_pcb d /\ checks_acked d
}.

Lemma good_running r s d : good r s -> data s = Some d -> running r s d.
Proof. intros [Hn Hg Hr Ha Hd] Hs. rewrite Hs in Hg. split; try done. by apply Hd. Qed.

Lemma running_good r s d : running r s d -> timer_runs d -> holds_pcb d -> checks_acked d -> good r s.
Proof.
  intros [Hs Hn Hd Hg Hr Ha] Ht Hp Hc. split; try done; rewrite Hs; [done|]. by intros ? [= <-].
Qed.

Lemma running_settled r s d : running r s d -> holds_pcb d -> settled r s.
Proof. intros [Hs Hn Hd Hg Hr Ha] Hp. split; try done; rewrite Hs; [done|]. by intros ? [= <-]. Qed.

Lemma good_settled r s : good r s -> settled r s.
Proof. intros [Hn Hg Hr Ha Hd]. split; try done. intros d Hs. by destruct (Hd d Hs) as (? & ? & ? & ?). Qed.

Lemma running_set_data r s d d' :
  running r s d -> wf_dhcp d' -> pcb_allocated d' = pcb_allocated d -> running r (set_data (Some d') s) d'.
Proof. intros [Hs Hn Hd Hg Hr Ha] Hw Hp. split; try done. cbn [users_of] in *. by rewrite Hp. Qed.

(** ** A request *)

(** What became of a message: it was given to UDP, or there was no memory or no
    control block for it. *)
Definition transmitted (n : netif) (d : dhcp) (message_type : Z) (its : list item) (dst : Z) (src_any : bool)
    (g g' : glob) : Prop :=
  same_pcb g g' /\ 0 <= xid g' < 2 ^ 32 /\
  (pbuf_alloc_ok (calls g) && dhcp_pcb g = true -> events g' <> events g) /\
  (events g' = events g \/ exists k,
     let msg := message (msg_header n d message_type) (type_item message_type :: its) k in
     events g' = events g ++ [Sent dst src_any msg] /\ msg_size_ok msg).

(** The lengths of all lists of options leave room for END. *)
Lemma legal_room n d message_type its dst src_any :
  wf_netif n -> legal n d message_type its dst src_any ->
  size (items_bytes (type_item message_type :: its)) < DHCP_OPTIONS_LEN.
Proof.
  intros (_ & _ & _ & _ & _ & Hn) Hl. pose proof options_len_ok as Ho. pose proof request_options_size as Hr.
  assert (size (items_bytes (hostname_items n)) <= DHCP_OPTIONS_LEN - 27) as Hh.
  { unfold hostname_items. destruct (hostname n) as [name|]; [|change (size (items_bytes [])) with 0; lia].
    destruct (LWIP_NETIF_HOSTNAME && _); [|change (size (items_bytes [])) with 0; lia].
    unfold items_bytes. cbn [fmap list_fmap concat item_bytes]. rewrite app_nil_r, !size_cons. lia. }
  assert (Hreq : size (item_bytes request_item) = 2 + size dhcp_discover_request_options).
  { unfold request_item. cbn [item_bytes]. rewrite !size_cons. lia. }
  rewrite items_bytes_cons, size_app. change (size (item_bytes (type_item message_type))) with 3.
  destruct Hl; rewrite ?items_bytes_app, ?size_app, ?items_bytes_cons, ?size_app, ?Hreq;
    change (size (items_bytes [])) with 0; change (size (item_bytes (max_item _))) with 4;
    change (size (item_bytes (addr_item _ _))) with 6; lia.
Qed.

Lemma transmit n d message_type g (write : dhcp -> Z * list Z -> option (Z * list Z)) its dst src_any :
  wf_netif n -> is_byte message_type -> 0 <= xid g < 2 ^ 32 -> 0 <= d_xid d < 2 ^ 32 ->
  (forall x, appends (write (set_d_xid x d)) its) ->
  size (items_bytes (type_item message_type :: its)) < DHCP_OPTIONS_LEN ->
  exists x g1 p res g', dhcp_create_msg n d message_type g = Some (set_d_xid x d, g1, p) /\
    0 <= x < 2 ^ 32 /\ (takes_xid message_type (state d) = false -> x = d_xid d) /\
    send_msg p (write (set_d_xid x d)) dst src_any g1 = Some (res, g') /\
    transmitted n (set_d_xid x d) message_type its dst src_any g g'.
Proof.
  intros Hn Ht Hx Hdx Hw Hroom. unfold transmitted, same_pcb.
  destruct (create_msg_spec n d message_type g Ht Hx) as (d' & g1 & p & Ec & Hd & (Hp1 & Hp2 & Hp3) & He & Hx1 & Hok & Hp).
  assert (exists x, d' = set_d_xid x d /\ 0 <= x < 2 ^ 32 /\ (takes_xid message_type (state d) = false -> x = d_xid d))
    as (x & -> & Hxr & Hkeep).
  { destruct Hd as [->|(Htake & x & Hd & Hxr)]; [exists (d_xid d); by destruct d|]. exists x. by rewrite Htake. }
  exists x, g1, p. destruct Hp as [-> | ->].
  { exists ERR_MEM, g1. split_and!; try done; try lia; try (by left).
    intros Hok'%andb_true_iff. destruct Hok' as [Hok' _]. by apply Hok in Hok'. }
  cbn [send_msg]. pose proof Hroom as Hroom'. rewrite items_bytes_cons, size_app in Hroom'.
  change (size (item_bytes (type_item message_type))) with 3 in Hroom'.
  rewrite (Hw x) by (unfold left_of; change (size (items_bytes [type_item message_type])) with 3; lia).
  cbn [mbind option_bind]. rewrite <- items_bytes_app.
  destruct (trailer_buf (msg_header n (set_d_xid x d) message_type) (type_item message_type :: its)) as (k & Ek & Hk).
  { by apply msg_head_size. }
  { done. }
  change ([type_item message_type] ++ its) with (type_item message_type :: its). rewrite Ek. cbn [mbind option_bind].
  unfold udp_sendto, call. rewrite Hp1. destruct (dhcp_pcb g) eqn:Epcb.
  - eexists _, _. split_and!; try done; try lia; try apply Hx1.
    + intros _ Hc. apply (f_equal length) in Hc.
      cbn [log set_events events set_calls] in Hc. rewrite He in Hc.       rewrite length_app in Hc. cbn in Hc. lia.
    + right. exists k. cbn [log set_events events set_calls]. by rewrite He.
  - eexists _, _. split_and!; try done; try lia; try (by left); try (by rewrite Epcb); by rewrite Epcb, andb_false_r.
Qed.

Lemma wf_glob_transmitted u n d message_type its dst src_any g g' :
  wf_glob u g -> wf_netif n -> wf_dhcp d -> legal n d message_type its dst src_any ->
  transmitted n d message_type its dst src_any g g' -> wf_glob u g'.
Proof.
  intros [Hu Hp Hx He] Hn Hd Hl ((Hp1 & Hp2 & _) & Hx' & _ & Hev). split; [congruence..|done|].
  destruct Hev as [->|(k & -> & Hk)]; [done|]. apply Forall_app. split; [done|]. apply Forall_singleton.
  exists n, d, message_type, its, k. by split_and!.
Qed.

Lemma wf_glob_log u e g : legal_event e -> wf_glob u g -> wf_glob u (log e g).
Proof. intros He [Hu Hp Hx Hl]. split; try done. apply Forall_app. split; [done|by apply Forall_singleton]. Qed.

(** ** Changes of the structure *)

Lemma wf_set_state st d : wf_dhcp d -> wf_dhcp (dhcp_set_state st d).
Proof.
  intros [Hx Ht [] Ho]. unfold dhcp_set_state. by case_bool_decide; split.
Qed.

Lemma set_state_state st d : state (dhcp_set_state st d) = st.
Proof. unfold dhcp_set_state. by case_bool_decide. Qed.

Lemma set_state_off st d : off (dhcp_set_state st d) = off d.
Proof. unfold dhcp_set_state. by case_bool_decide. Qed.

Lemma set_state_pcb st d : pcb_allocated (dhcp_set_state st d) = pcb_allocated d.
Proof. unfold dhcp_set_state. by case_bool_decide. Qed.

Lemma set_state_xid st d : d_xid (dhcp_set_state st d) = d_xid d.
Proof. unfold dhcp_set_state. by case_bool_decide. Qed.

(** Only the request timer is touched. *)
Definition same_lease (t t' : timers) : Prop :=
  exists v, t' = set_request_timeout v t.

Lemma same_lease_refl t : same_lease t t.
Proof. exists (request_timeout t). by destruct t. Qed.

Lemma set_state_lease st d : same_lease (tim d) (tim (dhcp_set_state st d)).
Proof. unfold dhcp_set_state. case_bool_decide; [apply same_lease_refl|by exists 0]. Qed.

(** What a request makes of the structure: [msecs] is the timeout for a number of tries. *)
Definition after_request (st : dhcp_state) (x : Z) (msecs : Z -> Z) (d : dhcp) : dhcp :=
  let d := count_try (set_d_xid x (dhcp_set_state st d)) in set_request_msecs (msecs (tries d)) d.

(** The timeouts that are used: exponential or linear back-off, in milliseconds. *)
Definition backoff (t : Z) : Z := u16 ((if t <? 6 then Z.shiftl 1 t else 60) * 1000).
Definition linear (step : Z) (t : Z) : Z := u16 (if t <? 10 then t * step else step * 10).

Definition timeout_ok (msecs : Z -> Z) : Prop := forall t, 1 <= t <= 255 -> 1000 <= msecs t <= 60000.

Lemma backoff_ok : timeout_ok backoff.
Proof.
  intros t Ht. unfold backoff. destruct (t <? 6) eqn:E; [|by vm_compute].
  assert (t = 1 \/ t = 2 \/ t = 3 \/ t = 4 \/ t = 5) as [->|[->|[->|[->| ->]]]] by lia; by vm_compute.
Qed.

Lemma linear_ok step : 1000 <= step <= 6000 -> timeout_ok (linear step).
Proof. intros Hs t Ht. unfold linear. destruct (t <? 10) eqn:E; rewrite u16_small; nia. Qed.

Lemma request_ticks m : 1 <= m <= 60000 ->
  u16 ((m + DHCP_FINE_TIMER_MSECS - 1) / DHCP_FINE_TIMER_MSECS) = (m + 499) / 500 /\ 1 <= (m + 499) / 500 <= 120.
Proof. intros Hm. rewrite u16_small; [|lia_mod]. split; [f_equal; lia|lia_mod]. Qed.

Lemma wf_request_msecs m d :
  wf_dhcp d -> 1 <= m <= 60000 ->
  wf_dhcp (set_request_msecs m d) /\ 1 <= request_timeout (tim (set_request_msecs m d)).
Proof.
  intros [Hx Ht [] Ho] Hm. destruct (request_ticks m Hm) as [E Hr]. unfold set_request_msecs. rewrite E.
  split; [|by apply Hr]. split; try done. split; try done. change (0 <= (m + 499) / 500 <= 120). lia.
Qed.

Lemma wf_count_try d : wf_dhcp d -> wf_dhcp (count_try d) /\ 1 <= tries (count_try d) <= 255.
Proof.
  intros [Hx Ht Htm Ho]. unfold count_try. destruct (tries d <? 255) eqn:E; [|split; [done|lia]].
  split; [|change (1 <= tries d + 1 <= 255); lia]. split; try done. change (0 <= tries d + 1 <= 255). lia.
Qed.

Lemma wf_set_xid x d : 0 <= x < 2 ^ 32 -> wf_dhcp d -> wf_dhcp (set_d_xid x d).
Proof. intros Hx []. by split. Qed.

Lemma after_request_ok st x msecs d :
  wf_dhcp d -> 0 <= x < 2 ^ 32 -> timeout_ok msecs ->
  wf_dhcp (after_request st x msecs d) /\ 1 <= request_timeout (tim (after_request st x msecs d)).
Proof.
  intros Hd Hx Hm. unfold after_request.
  destruct (wf_count_try (set_d_xid x (dhcp_set_state st d))) as [Hc Ht]; [by apply wf_set_xid, wf_set_state|].
  apply wf_request_msecs; [done|]. specialize (Hm _ Ht). lia.
Qed.

Lemma after_request_facts st x msecs d :
  let d' := after_request st x msecs d in
  state d' = st /\ off d' = off d /\ pcb_allocated d' = pcb_allocated d /\ d_xid d' = x /\ same_lease (tim d) (tim d').
Proof.
  unfold after_request, count_try, dhcp_set_state.
  case_bool_decide; destruct (tries _ <? 255); split_and!; try done; by eexists.
Qed.
End Inv.
End DhcpInv.
