(* ===== verification/DhcpSteps.v ===== *)
(** The DHCP client of lwIP: what each operation does, and that it keeps the
    invariant of DhcpInv. *)

From stdpp Require Import gmap.
From S2P Require Export DhcpInv.
Export DhcpInv.
Open Scope Z_scope.

Module DhcpSteps.

Section Steps.
Context {Opt : DhcpOptions} {Pbufs : DhcpPbufs} {World : DhcpWorld} {Ack : Acknowledged}.

(** ** Requests *)

Section Requests.
Variables (r : Z) (s : client) (d : dhcp).
Hypothesis Hrun : running r s d.

Abbreviation in_state st x := (set_d_xid x (dhcp_set_state st d)).

(** The state after a request that left the client in state [st]. *)
Definition asked (st : dhcp_state) (msecs : Z -> Z) (x : Z) (g : glob) : client :=
  mkClient (nif s) (Some (after_request st x msecs d)) g.

(** What a request sends. *)
Definition sends (st : dhcp_state) (x message_type : Z) (dst : Z) (src_any : bool) (g : glob) : Prop :=
  exists its, legal (nif s) (in_state st x) message_type its dst src_any /\
    transmitted (nif s) (in_state st x) message_type its dst src_any (glb s) g.

Lemma asked_good st msecs x message_type dst src_any g :
  pcb_allocated d = true -> st <> DHCP_STATE_OFF /\ st <> DHCP_STATE_CHECKING -> 0 <= x < 2 ^ 32 -> timeout_ok msecs ->
  sends st x message_type dst src_any g -> good r (asked st msecs x g).
Proof.
  intros Hpcb [Hst Hst2] Hx Hm (its & Hl & Ht). destruct Hrun as [Hs Hn Hd Hg Hr Ha].
  destruct (after_request_ok st x msecs d Hd Hx Hm) as [Hw Hpos].
  destruct (after_request_facts st x msecs d) as (Hstate & _ & Hal & _).
  apply (running_good _ _ (after_request st x msecs d)).
  - split; try done. cbn [users_of]. rewrite Hal. eapply wf_glob_transmitted; [apply Hg|done| |done..].
    by apply wf_set_xid, wf_set_state.
  - by intros _.
  - unfold holds_pcb. rewrite Hstate, Hal, Hpcb. by rewrite bool_decide_false.
  - intros Hc. by rewrite Hstate in Hc.
Qed.

Lemma request_spec st message_type (write : dhcp -> Z * list Z -> option (Z * list Z)) its dst src_any :
  is_byte message_type -> (forall x, legal (nif s) (in_state st x) message_type its dst src_any) ->
  (forall x, appends (write (in_state st x)) its) ->
  exists x g1 p res g, dhcp_create_msg (nif s) (dhcp_set_state st d) message_type (glb s) = Some (in_state st x, g1, p) /\
    send_msg p (write (in_state st x)) dst src_any g1 = Some (res, g) /\
    0 <= x < 2 ^ 32 /\ (takes_xid message_type st = false -> x = d_xid d) /\ sends st x message_type dst src_any g.
Proof.
  intros Ht Hl Hw. destruct Hrun as [Hs Hn Hd Hg Hr Ha].
  destruct (transmit (nif s) (dhcp_set_state st d) message_type (glb s) write its dst src_any) as
    (x & g1 & p & res & g' & Ec & Hx & Hkeep & Es & Htr); try done.
  - by apply (next_xid_range _ _ Hg).
  - rewrite set_state_xid. apply xid_range, Hd.
  - by apply (legal_room (nif s) (in_state st 0) _ _ dst src_any).
  - exists x, g1, p, res, g'. split_and!; try done; [lia..| |].
    + intros Hk. rewrite set_state_state, set_state_xid in Hkeep. by apply Hkeep.
    + exists its. split; [apply Hl|done].
Qed.

(** What is written lies in the range of its type. *)
Let Hoff : wf_offer (off d) := offer_wf _ (run_dhcp _ _ _ Hrun).
Let Hnif : wf_netif (nif s) := run_netif _ _ _ Hrun.

Definition select_items (f : offer) : list item :=
  [max_item (mtu (nif s)); addr_item DHCP_OPTION_REQUESTED_IP (offered_ip_addr f);
   addr_item DHCP_OPTION_SERVER_ID (server_ip_addr f); request_item] ++ hostname_items (nif s).

Definition reboot_items (f : offer) : list item :=
  [max_item DHCP_MAX_MSG_LEN_MIN_REQUIRED; addr_item DHCP_OPTION_REQUESTED_IP (offered_ip_addr f); request_item]
  ++ hostname_items (nif s).

Lemma legal_select_items x :
  legal (nif s) (in_state DHCP_STATE_REQUESTING x) DHCP_REQUEST (select_items (off d)) IP_ADDR_BROADCAST true.
Proof. rewrite <- (set_state_off DHCP_STATE_REQUESTING d). exact (legal_select (nif s) (in_state DHCP_STATE_REQUESTING x) (set_state_state _ d)). Qed.

Lemma legal_reboot_items x :
  legal (nif s) (in_state DHCP_STATE_REBOOTING x) DHCP_REQUEST (reboot_items (off d)) IP_ADDR_BROADCAST false.
Proof. rewrite <- (set_state_off DHCP_STATE_REBOOTING d). exact (legal_reboot (nif s) (in_state DHCP_STATE_REBOOTING x) (set_state_state _ d)). Qed.

Lemma legal_decline_items x :
  legal (nif s) (in_state DHCP_STATE_BACKING_OFF x) DHCP_DECLINE
    [addr_item DHCP_OPTION_REQUESTED_IP (offered_ip_addr (off d))] IP_ADDR_BROADCAST true.
Proof. rewrite <- (set_state_off DHCP_STATE_BACKING_OFF d). exact (legal_decline (nif s) (in_state DHCP_STATE_BACKING_OFF x) (set_state_state _ d)). Qed.

Lemma appends_select x :
  let f := off (in_state DHCP_STATE_REQUESTING x) in
  appends (fun b => b ← write_max_msg_size (mtu (nif s)) b;
           b ← write_addr DHCP_OPTION_REQUESTED_IP (offered_ip_addr f) b;
           b ← write_addr DHCP_OPTION_SERVER_ID (server_ip_addr f) b;
           b ← write_request_list b;
           write_hostname (nif s) b)
    (select_items (off d)).
Proof.
  cbv zeta. change (off (set_d_xid x ?e)) with (off e). rewrite set_state_off.
  apply (appends_seq _ _ [_]); [apply appends_max_msg_size, Hnif|].
  apply (appends_seq _ _ [_]); [apply appends_addr; [done|apply Hoff]|].
  apply (appends_seq _ _ [_]); [apply appends_addr; [done|apply Hoff]|].
  apply (appends_seq _ _ [_]); [apply appends_request_list|by apply appends_hostname].
Qed.

Lemma appends_extend :
  appends (fun b => b ← write_max_msg_size (mtu (nif s)) b; b ← write_request_list b; write_hostname (nif s) b)
    ([max_item (mtu (nif s)); request_item] ++ hostname_items (nif s)).
Proof.
  apply (appends_seq _ _ [_]); [apply appends_max_msg_size, Hnif|].
  apply (appends_seq _ _ [_]); [apply appends_request_list|by apply appends_hostname].
Qed.

Lemma appends_reboot x :
  let f := off (in_state DHCP_STATE_REBOOTING x) in
  appends (fun b => b ← write_max_msg_size DHCP_MAX_MSG_LEN_MIN_REQUIRED b;
           b ← write_addr DHCP_OPTION_REQUESTED_IP (offered_ip_addr f) b;
           b ← write_request_list b;
           write_hostname (nif s) b)
    (reboot_items (off d)).
Proof.
  cbv zeta. change (off (set_d_xid x ?e)) with (off e). rewrite set_state_off.
  apply (appends_seq _ _ [_]); [by apply appends_max_msg_size|].
  apply (appends_seq _ _ [_]); [apply appends_addr; [done|apply Hoff]|].
  apply (appends_seq _ _ [_]); [apply appends_request_list|by apply appends_hostname].
Qed.

Lemma appends_discover :
  appends (fun b => b ← write_max_msg_size (mtu (nif s)) b; write_request_list b) [max_item (mtu (nif s)); request_item].
Proof. apply (appends_seq _ _ [_]); [apply appends_max_msg_size, Hnif|apply appends_request_list]. Qed.

Lemma select_spec :
  exists res x g, dhcp_select s = Some (res, asked DHCP_STATE_REQUESTING backoff x g) /\ x = d_xid d /\ 0 <= x < 2 ^ 32 /\
    sends DHCP_STATE_REQUESTING x DHCP_REQUEST IP_ADDR_BROADCAST true g.
Proof.
  destruct (request_spec DHCP_STATE_REQUESTING DHCP_REQUEST
    (fun d b => b ← write_max_msg_size (mtu (nif s)) b;
           b ← write_addr DHCP_OPTION_REQUESTED_IP (offered_ip_addr (off d)) b;
           b ← write_addr DHCP_OPTION_SERVER_ID (server_ip_addr (off d)) b;
           b ← write_request_list b;
           write_hostname (nif s) b) _ IP_ADDR_BROADCAST true ltac:(done)
    legal_select_items appends_select)
    as (x & g1 & p & res & g & Ec & Es & Hx & Hkeep & Ht).
  exists res, x, g. split; [|split; [by apply Hkeep|done]].
  unfold dhcp_select. rewrite (run_data _ _ _ Hrun), Ec. cbn [mbind option_bind]. by rewrite Es.
Qed.

Lemma renew_spec :
  exists res x g, dhcp_renew s = Some (res, asked DHCP_STATE_RENEWING (linear 2000) x g) /\ 0 <= x < 2 ^ 32 /\
    sends DHCP_STATE_RENEWING x DHCP_REQUEST (server_ip_addr (off d)) false g.
Proof.
  assert (Hl : forall x, legal (nif s) (in_state DHCP_STATE_RENEWING x) DHCP_REQUEST
    ([max_item (mtu (nif s)); request_item] ++ hostname_items (nif s)) (server_ip_addr (off d)) false).
  { intros x. rewrite <- (set_state_off DHCP_STATE_RENEWING d). exact (legal_renew (nif s) (in_state DHCP_STATE_RENEWING x) (set_state_state _ d)). }
  destruct (request_spec DHCP_STATE_RENEWING DHCP_REQUEST
    (fun _ b => b ← write_max_msg_size (mtu (nif s)) b; b ← write_request_list b; write_hostname (nif s) b) _ _ _
    ltac:(done) Hl (fun _ => appends_extend)) as (x & g1 & p & res & g & Ec & Es & Hx & Hkeep & Ht).
  exists res, x, g. split; [|done].
  unfold dhcp_renew. rewrite (run_data _ _ _ Hrun). cbn [mbind option_bind]. rewrite Ec. cbn [mbind option_bind].
  change (off (set_d_xid x ?e)) with (off e). rewrite set_state_off. by rewrite Es.
Qed.

Lemma rebind_spec :
  exists res x g, dhcp_rebind s = Some (res, asked DHCP_STATE_REBINDING (linear 1000) x g) /\ 0 <= x < 2 ^ 32 /\
    sends DHCP_STATE_REBINDING x DHCP_REQUEST IP_ADDR_BROADCAST false g.
Proof.
  destruct (request_spec DHCP_STATE_REBINDING DHCP_REQUEST
    (fun _ b => b ← write_max_msg_size (mtu (nif s)) b; b ← write_request_list b; write_hostname (nif s) b) _ _ _
    ltac:(done) (fun x => legal_rebind (nif s) (in_state DHCP_STATE_REBINDING x) (set_state_state _ _))
    (fun _ => appends_extend)) as (x & g1 & p & res & g & Ec & Es & Hx & Hkeep & Ht).
  exists res, x, g. split; [|done].
  unfold dhcp_rebind. rewrite (run_data _ _ _ Hrun). cbn [mbind option_bind]. rewrite Ec. cbn [mbind option_bind]. by rewrite Es.
Qed.

Lemma reboot_spec :
  exists res x g, dhcp_reboot s = Some (res, asked DHCP_STATE_REBOOTING (linear 1000) x g) /\ 0 <= x < 2 ^ 32 /\
    sends DHCP_STATE_REBOOTING x DHCP_REQUEST IP_ADDR_BROADCAST false g.
Proof.
  destruct (request_spec DHCP_STATE_REBOOTING DHCP_REQUEST
    (fun d b => b ← write_max_msg_size DHCP_MAX_MSG_LEN_MIN_REQUIRED b;
           b ← write_addr DHCP_OPTION_REQUESTED_IP (offered_ip_addr (off d)) b;
           b ← write_request_list b;
           write_hostname (nif s) b) _ _ _
    ltac:(done) legal_reboot_items appends_reboot) as (x & g1 & p & res & g & Ec & Es & Hx & Hkeep & Ht).
  exists res, x, g. split; [|done].
  unfold dhcp_reboot. rewrite (run_data _ _ _ Hrun). cbn [mbind option_bind]. rewrite Ec. cbn [mbind option_bind]. by rewrite Es.
Qed.

Lemma decline_spec :
  exists res x g, dhcp_decline s = Some (res, asked DHCP_STATE_BACKING_OFF (fun _ => 10 * 1000) x g) /\ 0 <= x < 2 ^ 32 /\
    sends DHCP_STATE_BACKING_OFF x DHCP_DECLINE IP_ADDR_BROADCAST true g.
Proof.
  destruct (request_spec DHCP_STATE_BACKING_OFF DHCP_DECLINE
    (fun d => write_addr DHCP_OPTION_REQUESTED_IP (offered_ip_addr (off d))) _ _ _
    ltac:(done) legal_decline_items)
    as (x & g1 & p & res & g & Ec & Es & Hx & Hkeep & Ht).
  { intros x. cbv beta. change (off (set_d_xid x ?e)) with (off e). rewrite set_state_off. apply appends_addr; [done|apply Hoff]. }
  exists res, x, g. split; [|done].
  unfold dhcp_decline. rewrite (run_data _ _ _ Hrun). cbn [mbind option_bind]. rewrite Ec. cbn [mbind option_bind]. by rewrite Es.
Qed.

End Requests.

(** ** Discovery *)

(** No lease is timed. *)
Definition no_timers (t : timers) : Prop := t0_timeout t = 0 /\ t2_rebind_time t = 0 /\ t1_renew_time t = 0.

Lemma same_lease_no_timers t t' : same_lease t t' -> no_timers t -> no_timers t'.
Proof. by intros [v ->]. Qed.

(** A client that has no lease and waits for none. *)
Definition idle (s : client) : Prop :=
  forall d, data s = Some d ->
    (state d = DHCP_STATE_OFF \/ state d = DHCP_STATE_INIT \/ state d = DHCP_STATE_SELECTING) /\ no_timers (tim d).

(** The address of an offer is forgotten. *)
Definition forget (d : dhcp) : dhcp := in_off (set_offered_ip_addr 0) d.

Lemma wf_forget d : wf_dhcp d -> wf_dhcp (forget d).
Proof. intros [Hx Ht Htm []]. by split. Qed.

Lemma discover_spec r s d :
  running r s d ->
  exists x g g1 a, dhcp_discover s =
      Some (ERR_OK, mkClient (nif s) (Some (set_autoip_coop_on a (after_request DHCP_STATE_SELECTING x backoff (forget d)))) g) /\
    0 <= x < 2 ^ 32 /\ sends s (forget d) DHCP_STATE_SELECTING x DHCP_DISCOVER IP_ADDR_BROADCAST true g1 /\
    (g = g1 \/ g = log AutoipStart g1).
Proof.
  intros Hrun. pose proof (running_set_data r s d (forget d) Hrun (wf_forget d (run_dhcp _ _ _ Hrun)) eq_refl) as Hf.
  destruct (request_spec r _ (forget d) Hf DHCP_STATE_SELECTING DHCP_DISCOVER
    (fun _ b => b ← write_max_msg_size (mtu (nif s)) b; write_request_list b) _ _ _
    ltac:(done) (fun x => legal_discover (nif s) (set_d_xid x (dhcp_set_state DHCP_STATE_SELECTING (forget d))) (set_state_state _ _))
    (fun _ => appends_discover r _ _ Hf)) as (x & g1 & p & res & g & Ec & Es & Hx & Hkeep & Ht).
  change (glb (set_data _ s)) with (glb s) in Ec. change (nif (set_data _ s)) with (nif s) in *.
  unfold dhcp_discover. rewrite (run_data _ _ _ Hrun). cbn [mbind option_bind]. fold (forget d). rewrite Ec. cbn [mbind option_bind].
  rewrite Es. cbn [mbind option_bind].
  destruct (LWIP_DHCP_AUTOIP_COOP && _ && _).
  - exists x, (log AutoipStart g), g, true. split; [done|]. split; [done|]. split; [exact Ht|by right].
  - exists x, g, g, (autoip_coop_on (count_try (set_d_xid x (dhcp_set_state DHCP_STATE_SELECTING (forget d))))).
    split; [|split; [done|split; [exact Ht|by left]]]. unfold after_request. cbv zeta. by destruct (count_try _).
Qed.

Lemma discover_good r s d :
  running r s d -> pcb_allocated d = true ->
  exists s' d', dhcp_discover s = Some (ERR_OK, s') /\ good r s' /\ nif s' = nif s /\ data s' = Some d' /\
    state d' = DHCP_STATE_SELECTING /\ offered_ip_addr (off d') = 0 /\ (no_timers (tim d) -> no_timers (tim d')).
Proof.
  intros Hrun Hp. destruct (discover_spec r s d Hrun) as (x & g & g1 & a & E & Hx & Hsends & Hg).
  pose proof (running_set_data r s d (forget d) Hrun (wf_forget d (run_dhcp _ _ _ Hrun)) eq_refl) as Hf.
  pose proof (asked_good r _ (forget d) Hf DHCP_STATE_SELECTING backoff x _ _ _ g1 Hp ltac:(by split) Hx backoff_ok Hsends) as Hgood.
  destruct (after_request_facts DHCP_STATE_SELECTING x backoff (forget d)) as (Hst & Hoff & _ & _ & Hl).
  eexists _, _. split; [exact E|]. split; [|split; [reflexivity|split; [reflexivity|split; [exact Hst|split]]]].
  - destruct Hgood as [Hn Hgl Hr Ha Hd]. destruct (Hd _ eq_refl) as ([] & Htm & Hh & Hc).
    split; [done| |done|done|by intros ? [= <-]]. cbn [nif data glb users_of] in *.
    change (pcb_allocated (set_autoip_coop_on a ?e)) with (pcb_allocated e).
    destruct Hg as [-> | ->]; [done|by apply wf_glob_log].
  - change (off (set_autoip_coop_on a ?e)) with (off e). by rewrite Hoff.
  - exact (same_lease_no_timers _ _ Hl).
Qed.

(** ** The address *)

Lemma lease_ticks_range t : 1 <= lease_ticks t < 2 ^ 16.
Proof.
  unfold lease_ticks. cbv zeta. set (v := if _ <? _ then _ else _). unfold u16.
  pose proof (Z.mod_pos_bound v 65536 ltac:(lia)). destruct (v mod 65536 =? 0) eqn:E; lia.
Qed.

Lemma wf_lease_timers o t : wf_timers t -> wf_timers (lease_timers o t).
Proof.
  intros []. pose proof (lease_ticks_range (offered_t0_lease o)). pose proof (lease_ticks_range (offered_t1_renew o)).
  pose proof (lease_ticks_range (offered_t2_rebind o)). unfold lease_timers.
  destruct (offered_t0_lease o =? _), (offered_t1_renew o =? _), (offered_t2_rebind o =? _); cbv zeta;
    destruct (_ && _); split; try done; cbn; lia.
Qed.

Lemma lease_timers_request o t : request_timeout (lease_timers o t) = request_timeout t.
Proof.
  unfold lease_timers.
  destruct (offered_t0_lease o =? _), (offered_t1_renew o =? _), (offered_t2_rebind o =? _); cbv zeta; by destruct (_ && _).
Qed.

Lemma stop_autoip_spec d g :
  exists a g', stop_autoip d g = (set_autoip_coop_on a d, g') /\ (g' = g \/ g' = log AutoipStop g).
Proof.
  unfold stop_autoip. destruct (_ && _); [by eexists _, _; split; [done|right]|].
  exists (autoip_coop_on d), g. split; [by destruct d|by left].
Qed.

(** The interface with an address. *)
Definition with_addr (n : netif) (ip mask gateway : Z) : netif :=
  mkNetif (hwaddr n) (hwaddr_len n) (mtu n) (is_up n) (is_link_up n) (flag_etharp n) (hostname n) ip mask gateway.

Lemma wf_set_addr n ip mask gateway : wf_netif n -> 0 <= ip < 2 ^ 32 -> wf_netif (with_addr n ip mask gateway).
Proof. by intros (? & ? & ? & ? & ? & ?). Qed.

(** The lease of the acknowledgment is taken. *)
Lemma bind_spec r s d :
  running r s d -> pcb_allocated d = true -> acked (offered_ip_addr (off d)) ->
  good r (dhcp_bind s) /\ exists d', data (dhcp_bind s) = Some d' /\ state d' = DHCP_STATE_BOUND /\ off d' = off d /\
    d_xid d' = d_xid d /\ same_lease (lease_timers (off d) (tim d)) (tim d') /\
    nif (dhcp_bind s) = with_addr (nif s) (offered_ip_addr (off d))
      (if subnet_mask_given d then offered_sn_mask (off d) else class_mask (offered_ip_addr (off d))) (offered_gw_addr (off d)).
Proof.
  intros [Hs Hn Hd Hg Hr Ha] Hp Hack. destruct Hd as [Hx Ht Htm Ho]. unfold dhcp_bind. rewrite Hs. cbv zeta.
  set (d0 := in_tim (lease_timers (off d)) d).
  destruct (stop_autoip_spec d0 (glb s)) as (a & g & Ea & Hga). rewrite Ea.
  set (d1 := set_autoip_coop_on a d0). set (d2 := dhcp_set_state DHCP_STATE_BOUND d1).
  assert (Hw : wf_dhcp d2).
  { apply wf_set_state. split; try done. by apply wf_lease_timers. }
  assert (Hst : state d2 = DHCP_STATE_BOUND) by apply set_state_state.
  assert (Hoff2 : off d2 = off d) by exact (set_state_off DHCP_STATE_BOUND d1).
  assert (Hp2 : pcb_allocated d2 = pcb_allocated d) by exact (set_state_pcb DHCP_STATE_BOUND d1).
  split; [|exists d2; cbn [netif_set_addr data nif]; split_and!; try done].
  - apply (running_good _ _ d2).
    + split; try done; cbn [netif_set_addr nif glb users_of ip_addr].
      * apply wf_set_addr; [done|]. rewrite Hoff2. apply Ho.
      * rewrite Hp2. apply wf_glob_log; [done|]. destruct Hga as [-> | ->]; [done|by apply wf_glob_log].
      * by rewrite Hoff2.
    + intros Hwait. by rewrite Hst, waits_bound in Hwait.
    + unfold holds_pcb. by rewrite Hp2, Hst, Hp.
    + intros Hc. by rewrite Hst in Hc.
  - exact (set_state_xid DHCP_STATE_BOUND d1).
  - exact (set_state_lease DHCP_STATE_BOUND d1).
  - rewrite Hoff2. done.
Qed.

Lemma check_spec r s d :
  running r s d -> pcb_allocated d = true -> acked (offered_ip_addr (off d)) ->
  exists s' d', dhcp_check s = Some s' /\ good r s' /\ nif s' = nif s /\ data s' = Some d' /\
    state d' = DHCP_STATE_CHECKING /\ off d' = off d /\ d_xid d' = d_xid d /\ same_lease (tim d) (tim d') /\
    subnet_mask_given d' = subnet_mask_given d /\ request_timeout (tim d') = 1 /\
    (tries d' = if bool_decide (state d = DHCP_STATE_CHECKING) then Z.min (tries d + 1) 255 else 1).
Proof.
  intros [Hs Hn Hd Hg Hr Ha] Hp Hack. unfold dhcp_check. rewrite Hs. cbn [mbind option_bind].
  pose proof (wf_set_state DHCP_STATE_CHECKING d Hd) as Hw. destruct (wf_count_try _ Hw) as [Hc _].
  destruct (wf_request_msecs 500 _ Hc ltac:(lia)) as [Hm Hpos].
  set (d' := set_request_msecs _ _) in *.
  assert (Hf : state d' = DHCP_STATE_CHECKING /\ off d' = off d /\ pcb_allocated d' = pcb_allocated d /\ d_xid d' = d_xid d /\
    same_lease (tim d) (tim d') /\ subnet_mask_given d' = subnet_mask_given d /\ request_timeout (tim d') = 1 /\
    (tries d' = if bool_decide (state d = DHCP_STATE_CHECKING) then Z.min (tries d + 1) 255 else 1)).
  { destruct Hd as [_ Htr _ _]. subst d'. unfold count_try, dhcp_set_state. case_bool_decide as E.
    - rewrite (bool_decide_true (state d = _)) by done. destruct (tries d <? 255) eqn:Et; split_and!; try done; (by eexists) || (cbn; lia).
    - rewrite (bool_decide_false (state d = _)) by congruence. split_and!; try done; by eexists. }
  destruct Hf as (Hst & Hoff & Hpc & Hxid & Hl & Hmask & Hto & Htries). eexists _, d'. split; [done|]. split; [|by split_and!].
  apply (running_good _ _ d').
  - split; try done. cbn [users_of glb]. rewrite Hpc. by apply wf_glob_log.
  - by intros _.
  - unfold holds_pcb. by rewrite Hpc, Hst, Hp.
  - intros _. by rewrite Hoff.
Qed.

(** ** The control block *)

Lemma dec_pcb_spec u g :
  wf_glob (u + 1) g -> 0 <= u < 255 -> exists g', dhcp_dec_pcb_refcount g = Some g' /\ wf_glob u g' /\ events g' = events g.
Proof.
  intros [Hu Hp Hx He] Hr. unfold dhcp_dec_pcb_refcount. rewrite lwip_assert_true by lia. cbn [mbind option_bind].
  cbn [set_dhcp_pcb_refcount dhcp_pcb_refcount]. rewrite Hu, u8_small by lia. replace (u + 1 - 1) with u by lia.
  eexists. split; [done|]. destruct (u =? 0) eqn:E; (split; [split; try done|done]).
  - cbn. lia.
  - cbn. rewrite Hp. lia.
Qed.

Lemma inc_pcb_spec u g :
  wf_glob u g -> 0 <= u < 255 -> exists err g', dhcp_inc_pcb_refcount g = Some (err, g') /\ events g' = events g /\
    (err = ERR_OK /\ wf_glob (u + 1) g' \/ err = ERR_MEM /\ wf_glob u g' /\ udp_new_ok (calls g) = false).
Proof.
  intros [Hu Hp Hx He] Hr. unfold dhcp_inc_pcb_refcount. rewrite Hu. destruct (u =? 0) eqn:E.
  - rewrite Hp. replace (0 <? u) with false by lia. cbn [negb lwip_assert mbind option_bind call].
    destruct (udp_new_ok (calls g)) eqn:En; eexists _, _; (split; [done|split; [done|]]).
    + left. split; [done|]. split; try done; cbn [set_dhcp_pcb_refcount set_dhcp_pcb set_calls dhcp_pcb_refcount dhcp_pcb].
      * rewrite Hu, u8_small; lia.
      * lia.
    + right. split; [done|]. split; [|done]. split; try done. cbn. lia.
  - eexists _, _. split; [done|]. split; [done|]. left. split; [done|].
    split; try done; cbn [set_dhcp_pcb_refcount set_dhcp_pcb dhcp_pcb_refcount dhcp_pcb].
    + rewrite u8_small; lia.
    + rewrite Hp. lia.
Qed.

(** ** Stop *)

(** The lease is forgotten. *)
Definition no_lease (d : dhcp) : dhcp :=
  in_tim (fun t => set_t1_renew_time 0 (set_t2_rebind_time 0 (set_lease_used 0 (set_t0_timeout 0 t))))
    (set_off (mkOffer 0 0 0 0 0 0 0) d).

Lemma wf_no_lease d : wf_dhcp d -> wf_dhcp (no_lease d).
Proof. intros [Hx Ht [] _]. split; try done; split; cbn; lia. Qed.

(** The interface but for its address. *)
Definition same_netif (n n' : netif) : Prop :=
  mtu n' = mtu n /\ is_up n' = is_up n /\ is_link_up n' = is_link_up n /\ flag_etharp n' = flag_etharp n.

Lemma stop_spec r s d :
  running r s d -> holds_pcb d ->
  exists s', dhcp_release_and_stop s = Some s' /\ good r s' /\ same_netif (nif s) (nif s') /\
    (exists d', data s' = Some d' /\ state d' = DHCP_STATE_OFF /\ (state d <> DHCP_STATE_OFF -> no_timers (tim d'))) /\
    (ip_addr (nif s') = if dhcp_supplied_address s then 0 else ip_addr (nif s)).
Proof.
  intros Hrun Hh. pose proof Hrun as [Hs Hn Hd Hg Hr Ha]. unfold dhcp_release_and_stop, dhcp_supplied_address. rewrite Hs.
  case_bool_decide as Hst.
  { exists s. split; [done|]. split; [|split_and!; try done; [by exists d|by rewrite Hst]].
    apply (running_good _ _ d); [done| |done|]; intros Hw; [by rewrite Hst, waits_off in Hw|by rewrite Hst in Hw]. }
  set (supplied := bool_decide (state d = DHCP_STATE_BOUND) || _ || _). set (server := server_ip_addr (off d)). cbv zeta. fold (no_lease d).
  pose proof (wf_no_lease d Hd) as Hnl. unfold holds_pcb in Hh. rewrite bool_decide_false in Hh by done. cbn [negb] in Hh.
  assert (Hmid : exists x n' g', (if supplied
      then '(d, g, p_out) ← dhcp_create_msg (nif s) (dhcp_set_state DHCP_STATE_OFF (no_lease d)) DHCP_RELEASE (glb s);
           '(_, g) ← send_msg p_out (write_addr DHCP_OPTION_SERVER_ID (server)) (server) false g;
           Some (netif_set_addr IP4_ADDR_ANY IP4_ADDR_ANY IP4_ADDR_ANY (mkClient (nif s) (Some d) g))
      else Some (mkClient (nif s) (Some (dhcp_set_state DHCP_STATE_OFF (no_lease d))) (glb s))) =
      Some (mkClient n' (Some (set_d_xid x (dhcp_set_state DHCP_STATE_OFF (no_lease d)))) g') /\
    0 <= x < 2 ^ 32 /\ wf_glob (r + 1) g' /\ wf_netif n' /\ same_netif (nif s) n' /\
    ip_addr n' = if supplied then 0 else ip_addr (nif s)).
  { cbn [users_of] in Hg. rewrite Hh in Hg. destruct supplied.
    - pose proof (running_set_data r s d (no_lease d) Hrun Hnl eq_refl) as Hf.
      assert (Hserver : 0 <= server < 2 ^ 32) by apply Hd.
      destruct (request_spec r _ (no_lease d) Hf DHCP_STATE_OFF DHCP_RELEASE
        (fun _ => write_addr DHCP_OPTION_SERVER_ID (server)) _ _ _ ltac:(done)
        (fun x => legal_release (nif s) (set_d_xid x (dhcp_set_state DHCP_STATE_OFF (no_lease d))) _ (set_state_state _ _) Hserver)
        (fun _ => appends_addr DHCP_OPTION_SERVER_ID _ ltac:(done) Hserver)) as (x & g1 & p & res & g & Ec & Es & Hx & _ & (its & Hl & Ht)).
      change (glb (set_data _ s)) with (glb s) in *. change (nif (set_data _ s)) with (nif s) in *.
      rewrite Ec. cbn [mbind option_bind]. cbv beta in Es. rewrite Es. cbn [mbind option_bind].
      eexists x, _, _. split; [reflexivity|]. split; [done|]. split; [|split; [by apply wf_set_addr|done]].
      apply wf_glob_log; [done|]. eapply wf_glob_transmitted; [exact Hg|done| |exact Hl|exact Ht].
      by apply wf_set_xid, wf_set_state.
    - exists (d_xid d), (nif s), (glb s). split; [|split_and!; try done; apply Hd].
      rewrite <- (set_state_xid DHCP_STATE_OFF (no_lease d) : _ = d_xid d). by destruct (dhcp_set_state _ _). }
  destruct Hmid as (x & n' & g' & -> & Hx & Hg' & Hn' & Hsame & Hip). cbn [mbind option_bind data].
  set (d1 := set_d_xid x _).
  destruct (stop_autoip_spec d1 g') as (a & g2 & Ea & Hga). cbn [glb nif]. rewrite Ea.
  assert (Hg2 : wf_glob (r + 1) g2) by (destruct Hga as [-> | ->]; [done|by apply wf_glob_log]).
  change (pcb_allocated (set_autoip_coop_on a d1)) with (pcb_allocated (dhcp_set_state DHCP_STATE_OFF (no_lease d))).
  rewrite set_state_pcb. change (pcb_allocated (no_lease d)) with (pcb_allocated d). rewrite Hh.
  destruct (dec_pcb_spec r g2 Hg2 ltac:(lia)) as (g3 & -> & Hg3 & _). cbn [mbind option_bind].
  set (d3 := set_pcb_allocated false _). assert (Hst3 : state d3 = DHCP_STATE_OFF) by exact (set_state_state DHCP_STATE_OFF (no_lease d)).
  assert (Htm3 : no_timers (tim d3)).
  { apply (same_lease_no_timers (tim (no_lease d))); [exact (set_state_lease DHCP_STATE_OFF (no_lease d))|done]. }
  eexists. split; [done|]. split; [|split; [done|split; [by exists d3|done]]].
  apply (running_good _ _ d3).
  - split; try done; [|cbn [users_of glb]; by rewrite Z.add_0_r|cbn [nif]; rewrite Hip; by destruct supplied; [apply acked_any|]].
    destruct (wf_set_xid x _ Hx (wf_set_state DHCP_STATE_OFF (no_lease d) Hnl)). by split.
  - intros Hw. by rewrite Hst3, waits_off in Hw.
  - unfold holds_pcb. by rewrite Hst3.
  - intros Hc. by rewrite Hst3 in Hc.
Qed.

(** ** Start *)

Lemma wf_zero p : wf_dhcp (set_pcb_allocated p dhcp_zero).
Proof. split; try done; split; cbn; lia. Qed.

Lemma good_off r s d :
  running r s d -> state d = DHCP_STATE_OFF -> pcb_allocated d = false -> good r s.
Proof.
  intros Hrun Hst Hp. apply (running_good _ _ d); [done| | |].
  - intros Hw. by rewrite Hst, waits_off in Hw.
  - unfold holds_pcb. by rewrite Hst, Hp.
  - intros Hc. by rewrite Hst in Hc.
Qed.

Lemma wf_glob_call u g : wf_glob u g -> wf_glob u (set_calls (S (calls g)) g).
Proof. by intros []. Qed.

Lemma attach_spec r s :
  settled r s ->
  exists err s', dhcp_attach s = Some (err, s') /\ nif s' = nif s /\
    (err = ERR_OK /\ running r s' (set_pcb_allocated true dhcp_zero) \/
     err = ERR_MEM /\ good r s' /\ idle s' /\ (data s = None -> mem_malloc_ok (calls (glb s)) = true ->
                                    udp_new_ok (S (calls (glb s))) = true -> False)).
Proof.
  intros Hset. pose proof Hset as [Hn Hg Hr Ha Hd]. unfold dhcp_attach.
  assert (Hmem : exists ok g, match data s with
             | None => let (k, g) := call (glb s) in Some (mem_malloc_ok k, g)
             | Some d =>
                 if pcb_allocated d then g ← dhcp_dec_pcb_refcount (glb s); Some (true, g)
                 else Some (true, glb s)
             end = Some (ok, g) /\ wf_glob r g /\
             (ok = false -> data s = None /\ mem_malloc_ok (calls (glb s)) = false) /\
             (data s = None -> calls g = S (calls (glb s)))).
  { destruct (data s) as [d|]; cbn [users_of] in Hg.
    - destruct (pcb_allocated d) eqn:Hp; [|rewrite Z.add_0_r in Hg; by exists true, (glb s)].
      destruct (dec_pcb_spec r (glb s) Hg ltac:(lia)) as (g & -> & Hg' & _). cbn [mbind option_bind]. by exists true, g.
    - rewrite Z.add_0_r in Hg. eexists _, _. split; [reflexivity|]. split; [by apply wf_glob_call|done]. }
  destruct Hmem as (ok & g & -> & Hg' & Hok & Hcalls). cbn [mbind option_bind]. destruct ok; cbn [negb].
  - destruct (inc_pcb_spec r g Hg' ltac:(lia)) as (err & g' & -> & _ & [[-> Hi]|(-> & Hi & Hudp)]); cbn [mbind option_bind].
    + eexists _, _. split; [done|]. split; [done|]. left. split; [done|]. split; try done. apply wf_zero.
    + eexists _, _. split; [done|]. split; [done|]. right. split; [done|]. split.
      * apply (good_off _ _ dhcp_zero); [|done..]. split; try done; [apply (wf_zero false)|].
        cbn [users_of dhcp_zero pcb_allocated glb]. by rewrite Z.add_0_r.
      * split; [intros ? [= <-]; split; [by left|done]|].
        intros Hnone _ Hu. by rewrite (Hcalls Hnone), Hu in Hudp.
  - destruct (Hok eq_refl) as [Hnone Hm]. eexists _, _. split; [done|]. split; [done|]. right. split; [done|]. split.
    + split; try done; cbn [set_glb data glb]; rewrite Hnone; [by rewrite Z.add_0_r|done].
    + split; [intros d; cbn [set_glb data]; by rewrite Hnone|by rewrite Hm].
Qed.

Lemma start_spec r s :
  good r s ->
  exists err s', dhcp_start s = Some (err, s') /\ good r s' /\ nif s' = nif s /\
    (err = ERR_OK -> exists d', data s' = Some d' /\
       state d' = if is_link_up (nif s) then DHCP_STATE_SELECTING else DHCP_STATE_INIT) /\
    (idle s -> idle s').
Proof.
  intros Hgood. unfold dhcp_start. pose proof (good_settled r s Hgood) as Hset.
  destruct (negb (is_up (nif s))); [eexists _, _; split; [done|]; by split|].
  destruct (mtu (nif s) <? _); [eexists _, _; split; [done|]; by split|].
  destruct (attach_spec r s Hset) as (err & s1 & -> & Hn1 & [[-> Hrun]|(-> & Hg1 & Hid & _)]); cbn [mbind option_bind].
  2: { eexists _, _. split; [done|]. split; [done|]. by split. }
  change (negb (ERR_OK =? ERR_OK)) with false. cbv iota. rewrite Hn1. destruct (is_link_up (nif s)) eqn:El; cbn [negb].
  - destruct (discover_good r s1 _ Hrun eq_refl) as (s' & d' & -> & Hg & Hn & Hs & Hst & _ & Hnt). cbn [mbind option_bind].
    exists ERR_OK, s'. split; [done|]. split; [done|]. split; [congruence|]. split; [intros _; by exists d'|].
    intros _ d2 Hd2. rewrite Hs in Hd2. injection Hd2 as <-. split; [by right; right|by apply Hnt].
  - rewrite (run_data _ _ _ Hrun). cbn [fmap option_fmap option_map].
    set (d' := dhcp_set_state DHCP_STATE_INIT _). eexists _, _. split; [done|]. split; [|split; [done|split; [by exists d'|]]].
    2: { intros _ d2 [= <-]. split; [by right; left|done]. }
    apply (running_good _ _ d'); [|intros Hw; unfold waits in Hw; by rewrite andb_false_r in Hw|done|done].
    apply (running_set_data r s1 _ d' Hrun); [|done]. apply wf_set_state, wf_zero.
Qed.

(** A client that was stopped starts again. *)
Lemma restart_spec r s d :
  running r s d -> holds_pcb d ->
  exists s1 err s', dhcp_release_and_stop s = Some s1 /\ dhcp_start s1 = Some (err, s') /\ good r s' /\
    ip_addr (nif s') = (if dhcp_supplied_address s then 0 else ip_addr (nif s)) /\ same_netif (nif s) (nif s') /\
    (state d <> DHCP_STATE_OFF -> idle s').
Proof.
  intros Hrun Hh. destruct (stop_spec r s d Hrun Hh) as (s1 & E1 & Hg1 & Hsame & (d1 & Hs1 & Hst1 & Hnt) & Hip).
  destruct (start_spec r s1 Hg1) as (err & s' & E2 & Hg & Hn & _ & Hid).
  exists s1, err, s'. split; [done|]. split; [done|]. split; [done|]. rewrite Hn. split; [done|]. split; [done|].
  intros Hst. apply Hid. intros d2 Hd2. rewrite Hs1 in Hd2. injection Hd2 as <-. split; [by left|by apply Hnt].
Qed.

(** ** Other calls *)

Lemma inform_good r s :
  good r s -> exists s', dhcp_inform s = Some s' /\ good r s' /\ nif s' = nif s /\ data s' = data s.
Proof.
  intros [Hn Hg Hr Ha Hd]. unfold dhcp_inform. assert (Hu : 0 <= r + users_of (data s) < 255).
  { unfold users_of. destruct (data s) as [d|]; [destruct (pcb_allocated d)|]; lia. }
  destruct (inc_pcb_spec _ _ Hg Hu) as (err & g & -> & _ & [[-> Hi]|(-> & Hi & _)]); cbn [mbind option_bind].
  2: { eexists. split; [done|]. by split. }
  change (negb (ERR_OK =? ERR_OK)) with false. cbv iota.
  set (d0 := dhcp_set_state DHCP_STATE_INFORMING dhcp_zero).
  assert (Hl : forall x, legal (nif s) (set_d_xid x d0) DHCP_INFORM [max_item (mtu (nif s))] IP_ADDR_BROADCAST false).
  { intros x. by apply legal_inform. }
  destruct (transmit (nif s) d0 DHCP_INFORM g (fun _ => write_max_msg_size (mtu (nif s))) [max_item (mtu (nif s))]
    IP_ADDR_BROADCAST false) as (x & g1 & p & res & g2 & Ec & Hx & _ & Es & Ht); try done.
  - by apply (next_xid_range _ _ Hi).
  - intros _. apply appends_max_msg_size, Hn.
  - apply (legal_room (nif s) (set_d_xid 0 d0) _ _ IP_ADDR_BROADCAST false); [done|apply Hl].
  - rewrite Ec. cbn [mbind option_bind]. rewrite Es. cbn [mbind option_bind].
    assert (Hg2 : wf_glob (r + users_of (data s) + 1) g2).
    { eapply wf_glob_transmitted; [exact Hi|done| |apply (Hl x)|exact Ht]. apply wf_set_xid; [lia|]. apply wf_set_state, (wf_zero false). }
    destruct (dec_pcb_spec _ _ Hg2 Hu) as (g3 & -> & Hg3 & _). cbn [mbind option_bind].
    eexists. split; [done|]. by split.
Qed.

Lemma network_changed_good r s :
  good r s -> exists s', dhcp_network_changed s = Some s' /\ good r s' /\ nif s' = nif s.
Proof.
  intros Hgood. unfold dhcp_network_changed. destruct (data s) as [d|] eqn:Hs; [|by exists s].
  pose proof (good_running r s d Hgood Hs) as Hrun. destruct (good_dhcp _ _ Hgood d Hs) as (Hd & _ & Hh & _).
  assert (Hreboot : state d <> DHCP_STATE_OFF -> exists s', ('(_, s) ← dhcp_reboot (set_data (Some (set_tries 0 d)) s); Some s) = Some s' /\
    good r s' /\ nif s' = nif s).
  { intros Hst. unfold holds_pcb in Hh. rewrite bool_decide_false in Hh by done.
    assert (Hw : wf_dhcp (set_tries 0 d)) by (destruct Hd; by split).
    pose proof (running_set_data r s d (set_tries 0 d) Hrun Hw eq_refl) as Hrun'.
    destruct (reboot_spec r _ _ Hrun') as (res & x & g & -> & Hx & Hsends). cbn [mbind option_bind].
    eexists. split; [done|]. split; [|done].
    by apply (asked_good r _ _ Hrun' DHCP_STATE_REBOOTING _ x _ _ _ g Hh ltac:(by split) Hx (linear_ok 1000 ltac:(lia)) Hsends). }
  assert (Hdiscover : state d <> DHCP_STATE_OFF -> exists s', (let (d, g) := stop_autoip d (glb s) in
    '(_, s) ← dhcp_discover (mkClient (nif s) (Some (set_tries 0 d)) g); Some s) = Some s' /\ good r s' /\ nif s' = nif s).
  { intros Hst. unfold holds_pcb in Hh. rewrite bool_decide_false in Hh by done.
    destruct (stop_autoip_spec d (glb s)) as (a & g & -> & Hga).
    assert (Hrun' : running r (mkClient (nif s) (Some (set_tries 0 (set_autoip_coop_on a d))) g) (set_tries 0 (set_autoip_coop_on a d))).
    { destruct Hrun as [_ Hn _ Hg Hr Ha]. split; try done; [destruct Hd; by split|].
      destruct Hga as [-> | ->]; [done|by apply wf_glob_log]. }
    destruct (discover_good r _ _ Hrun' Hh) as (s' & d' & -> & Hg & Hn & _). cbn [mbind option_bind]. by exists s'. }
  destruct (state d) eqn:Est; (by apply Hreboot) || (by apply Hdiscover) || by exists s.
Qed.

Lemma arp_reply_good r s addr :
  good r s -> exists s', dhcp_arp_reply addr s = Some s' /\ good r s' /\ nif s' = nif s.
Proof.
  intros Hgood. unfold dhcp_arp_reply. destruct (data s) as [d|] eqn:Hs; [|by exists s].
  case_bool_decide as Hst; [|by exists s]. destruct (addr =? _); [|by exists s].
  pose proof (good_running r s d Hgood Hs) as Hrun. destruct (good_dhcp _ _ Hgood d Hs) as (Hd & _ & Hh & _).
  unfold holds_pcb in Hh. rewrite Hst in Hh.
  destruct (decline_spec r s d Hrun) as (res & x & g & -> & Hx & Hsends). cbn [mbind option_bind].
  eexists. split; [done|]. split; [|done].
  eapply (asked_good r s d Hrun DHCP_STATE_BACKING_OFF (fun _ => 10 * 1000)); [exact Hh|done|done| |exact Hsends]. intros t _. lia.
Qed.
End Steps.
End DhcpSteps.
