(* ===== verification/DhcpParse.v ===== *)
(** The DHCP client of lwIP: reading a reply is total and stays inside of the
    buffers, and what is read is what the server wrote. *)

From stdpp Require Import gmap.
From S2P Require Export DhcpWire.
Export DhcpWire.
Open Scope Z_scope.

Module DhcpParse.

(** The options are numbers of 32 bits. *)
Definition wf_options (o : gmap Z Z) : Prop := map_Forall (fun _ v => 0 <= v < 2 ^ 32) o.

(** A reply in buffers: every option that begins in a buffer ends in it or in the next one. *)
Record wf_chain (p : chain) : Prop := {
  chain_bytes : Forall is_byte (concat p);
  chain_room : Forall (fun b => 257 <= size b) (tail p);
  chain_size : size (concat p) < 65536;
  chain_nonempty : p <> []
}.

Section Parse.
Context {Opt : DhcpOptions} {Pbufs : DhcpPbufs}.

(** There is a slot for every DNS server that is decoded. *)
Hypothesis dns_slots : DNS_MAX_SERVERS <= LWIP_DHCP_MAX_DNS_SERVERS.

Lemma provide_dns : 0 < LWIP_DHCP_PROVIDE_DNS_SERVERS -> LWIP_DHCP_PROVIDE_DNS_SERVERS = DNS_MAX_SERVERS.
Proof. unfold LWIP_DHCP_PROVIDE_DNS_SERVERS. destruct (_ && _); [|lia]. destruct (_ <? _) eqn:E; lia. Qed.

Lemma provide_dns_range : 0 <= LWIP_DHCP_PROVIDE_DNS_SERVERS < 256.
Proof.
  pose proof dns_servers_ok as []. unfold LWIP_DHCP_PROVIDE_DNS_SERVERS. destruct (_ && _); [|lia]. destruct (_ <? _); lia.
Qed.

Lemma idx_max_range : DHCP_OPTION_IDX_NTP_SERVER <= DHCP_OPTION_IDX_MAX /\ 8 <= DHCP_OPTION_IDX_NTP_SERVER.
Proof.
  pose proof provide_dns_range. pose proof ntp_servers_ok. unfold DHCP_OPTION_IDX_MAX, DHCP_OPTION_IDX_NTP_SERVER.
  destruct LWIP_DHCP_GET_NTP_SRV; lia.
Qed.

(** What the switch allows: a value inside of the option, for indices that exist. *)
Lemma option_switch_range op len options_offset len' decode_len decode_idx :
  is_byte len -> option_switch op len options_offset = Decode len' decode_len decode_idx ->
  op = DHCP_OPTION_PAD /\ len' = 0 /\ decode_len = 0 \/
  len' = len /\ 0 <= decode_len <= len /\
    (0 < decode_len -> 0 <= decode_idx /\ decode_idx + (decode_len + 3) / 4 <= DHCP_OPTION_IDX_MAX /\
       (decode_idx = 0 -> options_offset = DHCP_OPTIONS_OFS)).
Proof.
  intros Hb. pose proof idx_max_range as Hm. pose proof provide_dns as Hpd. unfold is_byte in Hb. unfold option_switch.
  assert (Hone : forall idx, 0 < idx < 8 -> len = 4 \/ len = 1 -> len = len /\ 0 <= len <= len /\
    (0 < len -> 0 <= idx /\ idx + (len + 3) / 4 <= DHCP_OPTION_IDX_MAX /\ (idx = 0 -> options_offset = DHCP_OPTIONS_OFS))).
  { intros idx Hi Hl. split_and!; try done; try lia. intros _. assert ((len + 3) / 4 = 1) by (destruct Hl; subst; done). lia. }
  destruct (op =? DHCP_OPTION_PAD) eqn:E0; [intros [= <- <- <-]; left; split_and!; [lia|done|done]|].
  destruct (op =? DHCP_OPTION_SUBNET_MASK); [unfold input_check; destruct (len =? 4) eqn:El; [|done]; intros [= <- <- <-]; right; apply Hone; lia|].
  destruct (op =? DHCP_OPTION_ROUTER).
  { unfold input_check. destruct (4 <=? len) eqn:El; [|done]. intros [= <- <- <-]. right. split; [done|]. split; [lia|].
    intros _. change ((4 + 3) / 4) with 1. lia. }
  destruct ((0 <? LWIP_DHCP_PROVIDE_DNS_SERVERS) && (op =? DHCP_OPTION_DNS_SERVER)) eqn:Ed.
  { unfold input_check. destruct (len mod 4 =? 0); [|done]. destruct (_ <=? len) eqn:El; [|done]. intros [= <- <- <-]. right.
    rewrite u8_small in * by (pose proof dns_servers_ok as []; lia).
    split; [done|]. split; [pose proof dns_servers_ok as []; lia|]. intros Hpos.
    unfold DHCP_OPTION_IDX_MAX, DHCP_OPTION_IDX_NTP_SERVER in *. pose proof ntp_servers_ok.
    assert ((Z.min len (4 * DNS_MAX_SERVERS) + 3) / 4 <= DNS_MAX_SERVERS) by lia_mod. destruct LWIP_DHCP_GET_NTP_SRV; lia. }
  destruct (op =? DHCP_OPTION_LEASE_TIME); [unfold input_check; destruct (len =? 4) eqn:El; [|done]; intros [= <- <- <-]; right; apply Hone; lia|].
  destruct (LWIP_DHCP_GET_NTP_SRV && (op =? DHCP_OPTION_NTP)) eqn:En.
  { unfold input_check. destruct (len mod 4 =? 0); [|done]. destruct (_ <=? len) eqn:El; [|done]. intros [= <- <- <-]. right.
    pose proof ntp_servers_ok as Hn. rewrite u8_small in * by lia.
    split; [done|]. split; [lia|]. intros Hpos.
    assert ((Z.min len (4 * LWIP_DHCP_MAX_NTP_SERVERS) + 3) / 4 <= LWIP_DHCP_MAX_NTP_SERVERS) by lia_mod.
    unfold DHCP_OPTION_IDX_MAX in *. destruct LWIP_DHCP_GET_NTP_SRV; [lia|done]. }
  destruct (op =? DHCP_OPTION_OVERLOAD).
  { unfold input_check. destruct (len =? 1) eqn:El; [|done]. destruct (options_offset =? _) eqn:Eo; [|done].
    intros [= <- <- <-]. right. split; [done|]. split; [lia|]. intros _.
    replace ((len + 3) / 4) with 1 by (replace len with 1 by lia; done). lia. }
  destruct (op =? DHCP_OPTION_MESSAGE_TYPE); [unfold input_check; destruct (len =? _) eqn:El; [|done]; intros [= <- <- <-]; right; apply Hone; lia|].
  destruct (op =? DHCP_OPTION_SERVER_ID); [unfold input_check; destruct (len =? _) eqn:El; [|done]; intros [= <- <- <-]; right; apply Hone; lia|].
  destruct (op =? DHCP_OPTION_T1); [unfold input_check; destruct (len =? _) eqn:El; [|done]; intros [= <- <- <-]; right; apply Hone; lia|].
  destruct (op =? DHCP_OPTION_T2); [unfold input_check; destruct (len =? _) eqn:El; [|done]; intros [= <- <- <-]; right; apply Hone; lia|].
  intros [= <- <- <-]. right. split; [done|]. lia.
Qed.

(** ** Values *)

Lemma copied_bytes q n off :
  Forall is_byte (concat q) -> 0 <= n -> 0 <= off ->
  Forall is_byte (pbuf_copy_partial q n off) /\ size (pbuf_copy_partial q n off) <= n.
Proof.
  intros Hb Hn Ho. rewrite copy_partial_data by done. split; [by apply Forall_take, Forall_drop|].
  unfold size. rewrite length_take. lia.
Qed.

Lemma wf_options_insert idx v o : wf_options o -> 0 <= v < 2 ^ 32 -> wf_options (<[idx := v]> o).
Proof. intros Ho Hv. by apply map_Forall_insert_2. Qed.

(** The overload is read from the options area only. *)
Definition keeps_overload (idx : Z) (o o' : gmap Z Z) : Prop := idx <> 0 -> o' !! 0 = o !! 0.

Lemma decode_next_total q fuel : Forall is_byte (concat q) -> forall decode_len decode_idx val_offset o,
  0 < decode_len <= 255 -> 0 <= decode_idx -> decode_idx + (decode_len + 3) / 4 <= DHCP_OPTION_IDX_MAX ->
  0 <= val_offset -> decode_len <= 4 * Z.of_nat fuel -> wf_options o ->
  exists err o', decode_next fuel q decode_len decode_idx val_offset o = Some (err, o') /\ wf_options o' /\
    keeps_overload decode_idx o o'.
Proof.
  intros Hb. induction fuel as [|fuel IH]; intros dl idx vo o Hdl Hidx Hmax Hvo Hf Ho; [lia|]. cbn [decode_next].
  assert (1 <= (dl + 3) / 4) by lia_mod. rewrite lwip_assert_true by lia. cbn [mbind option_bind].
  destruct (dhcp_option_given idx o); [by eexists _, _|].
  destruct (copied_bytes q (Z.min dl 4) vo Hb ltac:(lia) Hvo) as [Hv Hs].
  set (value := pbuf_copy_partial _ _ _) in *. pose proof (of_be_32 value Hv ltac:(lia)) as Hr.
  assert (Hk : forall v, keeps_overload idx o (<[idx := v]> o)) by (intros v Hne; by apply lookup_insert_ne).
  destruct (negb (size value =? _)); [by eexists _, _|].
  destruct (4 <? dl) eqn:E4.
  - destruct (negb (dl mod 4 =? 0)); [by eexists _, _|].
    pose proof (wf_options_insert idx _ o Ho Hr). destruct (_ <? vo); [by eexists _, _|].
    destruct (IH (dl - 4) (idx + 1) (u16 (vo + 4)) (<[idx := of_be value]> o)) as (err & o' & -> & Ho' & Hk'); try done; try lia.
    + lia_mod.
    + unfold u16. pose proof (Z.mod_pos_bound (vo + 4) 65536). lia.
    + eexists _, _. split; [done|]. split; [done|]. intros Hne. rewrite Hk' by lia. by apply Hk.
  - destruct (dl =? 4); [eexists _, _; split; [done|]; split; [by apply wf_options_insert|apply Hk]|].
    destruct (negb (dl =? 1)); [by eexists _, _|].
    eexists _, _. split; [done|]. split; [|apply Hk]. apply wf_options_insert; [done|].
    destruct Hv as [|x ? Hx]; [cbn; lia|]. unfold is_byte in Hx. cbn. lia.
Qed.

(** ** One option *)

Lemma load_is_byte b i : Forall is_byte b -> 0 <= i < size b -> exists c, load b i = Some c /\ is_byte c.
Proof.
  intros Hb Hi. unfold load. destruct (i <? 0) eqn:E; [lia|].
  destruct (lookup_lt_is_Some_2 b (Z.to_nat i)) as [c Hc]; [unfold size in Hi; lia|].
  exists c. split; [done|]. by eapply Forall_lookup_1.
Qed.

Lemma read_option_total b next op offset options_offset o :
  Forall is_byte (concat (b :: next)) -> Forall (fun b => 257 <= size b) next -> 0 <= offset < size b -> size b < 65536 ->
  wf_options o ->
  exists err offset' o', read_option b next op offset options_offset o = Some (err, offset', o') /\ wf_options o' /\
    (err = ERR_OK -> offset < offset' <= offset + 257 /\ offset' < 65536) /\
    (options_offset <> DHCP_OPTIONS_OFS -> o' !! 0 = o !! 0).
Proof.
  intros Hb Hroom Hoff Hsz Ho. unfold read_option. destruct (_ <? offset); [by eexists _, _, _|].
  pose proof Hb as Hb2. cbn [concat] in Hb2. apply Forall_app in Hb2 as [Hb1 Hb2].
  assert (exists len, (if offset + 1 <? size b then load b (offset + 1)
           else match next with [] => Some 0 | b' :: _ => load b' 0 end) = Some len /\ is_byte len) as (len & -> & Hlen).
  { destruct (offset + 1 <? size b) eqn:E; [apply load_is_byte; [done|lia]|].
    destruct next as [|b' next]; [by exists 0|]. apply Forall_cons in Hroom as [Hr _].
    cbn [concat] in Hb2. apply Forall_app in Hb2 as [Hb2 _]. apply load_is_byte; [done|lia]. }
  cbn [mbind option_bind]. destruct (option_switch op len options_offset) as [err|len' dl idx] eqn:Es.
  { eexists _, _, _. split; [done|]. split; [done|]. split; [|done]. intros ->. exfalso. clear -Es.
    unfold option_switch, input_check in Es. repeat (destruct (_ && _) || destruct (_ =? _) || destruct (_ <=? _); try done). }
  destruct (op =? DHCP_OPTION_PAD) eqn:Epad.
  { eexists _, _, _. split; [done|]. split; [done|]. split; [|done]. intros _. rewrite u16_small; lia. }
  pose proof (option_switch_range _ _ _ _ _ _ Hlen Es) as [Hp|(-> & Hdl & Hidx)]; [lia|]. unfold is_byte in Hlen.
  destruct (0xffff <? _) eqn:E; [by eexists _, _, _|]. rewrite (u16_small (offset + len + 2)) by lia.
  destruct (0 <? dl) eqn:Ed.
  - specialize (Hidx ltac:(lia)) as (Hi0 & Hi1 & Hi2).
    destruct (decode_next_total (b :: next) 64 Hb dl idx (u16 (offset + 2)) o) as (err & o' & -> & Ho' & Hk); try done; try lia.
    { unfold u16. pose proof (Z.mod_pos_bound (offset + 2) 65536). lia. }
    cbn [mbind option_bind]. eexists _, _, _. split; [done|]. split; [done|]. split; [lia|]. intros Hne. apply Hk. intros ->.
    by apply Hne, Hi2.
  - eexists _, _, _. split; [done|]. split; [done|]. split; [lia|done].
Qed.

(** ** All options *)

Lemma parse_options_total fuel : forall q offset offset_max options_offset o,
  Forall is_byte (concat q) -> Forall (fun b => 257 <= size b) (tail q) -> size (concat q) < 65536 ->
  match q with [] => True | b :: _ => 0 <= offset < size b end ->
  size (concat q) - offset < Z.of_nat fuel -> q <> [] -> wf_options o ->
  exists err o', parse_options fuel q offset offset_max options_offset o = Some (err, o') /\ wf_options o' /\
    (options_offset <> DHCP_OPTIONS_OFS -> o' !! 0 = o !! 0).
Proof.
  induction fuel as [|fuel IH]; intros q offset offset_max oo o Hb Hroom Hsz Hoff Hf Hq Ho.
  { destruct q as [|b next]; [done|]. cbn [concat] in Hf. rewrite size_app in Hf. pose proof (size_nonneg (concat next)). lia. }
  destruct q as [|b next]; [done|]. cbn [parse_options]. cbn [tail] in Hroom.
  destruct (negb _); [by eexists _, _|]. pose proof Hb as Hb2. pose proof Hsz as Hsz2. cbn [concat] in Hb2, Hsz2, Hf.
  rewrite size_app in Hsz2, Hf. apply Forall_app in Hb2 as [Hb1 Hb2]. pose proof (size_nonneg (concat next)) as Hn.
  destruct (load_is_byte b offset Hb1 Hoff) as (op & -> & _). cbn [mbind option_bind].
  destruct (op =? DHCP_OPTION_END); [by eexists _, _|].
  destruct (read_option_total b next op offset oo o Hb Hroom Hoff ltac:(lia) Ho) as (err & off' & o' & -> & Ho' & Hstep & Hk).
  cbn [mbind option_bind]. destruct (err =? ERR_OK) eqn:Ee; cbn [negb]; [|by eexists _, _]. specialize (Hstep ltac:(lia)).
  destruct (size b <=? off') eqn:Eb.
  - destruct (_ <? _); [|by eexists _, _]. destruct next as [|b2 next]; [by eexists _, _|].
    rewrite u16_small by lia. apply Forall_cons in Hroom as [Hr Hroom].
    destruct (IH (b2 :: next) (off' - size b) (u16 (offset_max - size b)) oo o') as (err2 & o2 & -> & Ho2 & Hk2); try done; try lia.
    eexists _, _. split; [done|]. split; [done|]. intros Hne. by rewrite Hk2, Hk.
  - destruct (IH (b :: next) off' offset_max oo o') as (err2 & o2 & -> & Ho2 & Hk2); try done; try lia.
    { cbn [concat]. rewrite size_app. lia. }
    eexists _, _. split; [done|]. split; [done|]. intros Hne. by rewrite Hk2, Hk.
Qed.

(** The buffer that is found is a part of the chain, and holds the byte. *)
Lemma find_buffer_spec p : forall idx idx_max,
  0 <= idx < 65536 -> 
  match find_buffer p idx idx_max with
  | ([], _, _) => True
  | (q, offset, _) => exists pre, p = pre ++ q /\ offset = idx - size (concat pre) /\ 
      match q with [] => True | b :: _ => 0 <= offset < size b end
  end.
Proof.
  induction p as [|b next IH]; intros idx idx_max Hi; [done|]. cbn [find_buffer]. destruct (size b <=? idx) eqn:E.
  - pose proof (size_nonneg b). rewrite u16_small by lia. specialize (IH (idx - size b) (u16 (idx_max - size b)) ltac:(lia)).
    destruct (find_buffer next _ _) as [[[|b2 q] offset] mx]; [done|]. destruct IH as (pre & -> & -> & Ho).
    exists (b :: pre). split; [done|]. cbn [concat]. rewrite size_app. split; lia.
  - exists []. split; [done|]. change (size (concat [])) with 0. lia.
Qed.

Lemma chain_suffix pre q : wf_chain (pre ++ q) -> q <> [] -> wf_chain q.
Proof.
  intros [Hb Hr Hs Hn] Hq. rewrite concat_app in *. rewrite size_app in Hs. apply Forall_app in Hb as [_ Hb].
  pose proof (size_nonneg (concat pre)). split; [done| |lia|done].
  destruct pre as [|b pre]; [done|]. cbn [app tail] in Hr. apply Forall_app in Hr as [_ Hr].
  destruct q as [|c q]; [done|]. by apply Forall_cons in Hr as [_ Hr].
Qed.

Lemma parse_area_total p idx idx_max o :
  wf_chain p -> 0 <= idx < 65536 -> wf_options o ->
  exists err o', parse_area p idx idx_max o = Some (err, o') /\ wf_options o' /\
    (idx <> DHCP_OPTIONS_OFS -> o' !! 0 = o !! 0).
Proof.
  intros Hp Hi Ho. unfold parse_area. pose proof (find_buffer_spec p idx idx_max Hi) as Hf.
  destruct (find_buffer p idx idx_max) as [[q offset] mx]. destruct q as [|b next]; [by eexists _, _|].
  destruct Hf as (pre & -> & Hoff & Hb). pose proof (chain_suffix pre (b :: next) Hp ltac:(done)) as [Hb' Hr Hs _].
  apply parse_options_total; try done. rewrite concat_app, length_app. unfold size in *. lia.
Qed.

Lemma overload_cleared p (o : gmap Z Z) : o !! 0 = None -> wf_options o -> forall idx idx_max,
  wf_chain p -> 0 <= idx < 65536 -> idx <> DHCP_OPTIONS_OFS ->
  exists err o', parse_area p idx idx_max o = Some (err, o') /\ wf_options o' /\ o' !! 0 = None.
Proof.
  intros H0 Ho idx idx_max Hp Hi Hne. destruct (parse_area_total p idx idx_max o Hp Hi Ho) as (err & o' & E & Ho' & Hk).
  exists err, o'. by rewrite Hk.
Qed.

(** Reading a reply ends without an access outside of its buffers. *)
Lemma parse_reply_total p :
  wf_chain p -> exists err o, dhcp_parse_reply p = Some (err, o) /\ wf_options o.
Proof.
  intros Hp. assert (exists b, dhcp_parse_reply p = if size b <? DHCP_SNAME_OFS then Some (ERR_BUF, ∅)
    else parse_areas 3 p DHCP_OPTIONS_OFS (u16 (tot_len p)) false false ∅) as (b & ->).
  { destruct Hp as [_ _ _ Hn]. destruct p as [|b next]; [done|by exists b]. }
  destruct (size b <? _); [by exists ERR_BUF, ∅|]. cbn [parse_areas].
  destruct (parse_area_total p DHCP_OPTIONS_OFS (u16 (tot_len p)) ∅ Hp ltac:(lia) ltac:(done)) as (e1 & o1 & -> & Ho1 & _).
  cbn [mbind option_bind]. destruct (negb (e1 =? ERR_OK)); [by eexists _, _|].
  assert (exists f s o2, match o1 !! 0 with
      | Some overload => let (f, s) := overloaded overload in (false || f, false || s, delete 0 o1)
      | None => (false, false, o1) end = (f, s, o2) /\ wf_options o2 /\ o2 !! 0 = None) as (f & sn & o2 & -> & Ho2 & H2).
  { destruct (o1 !! 0) as [ov|] eqn:E0; [|by eexists _, _, _]. destruct (overloaded ov) as [f sn].
    eexists _, _, _. split; [done|]. split; [by apply map_Forall_delete|apply lookup_delete_eq]. }
  assert (Hsname : forall o, wf_options o -> o !! 0 = None -> exists err o', (
    '(err, o) ← parse_area p DHCP_SNAME_OFS (DHCP_SNAME_OFS + DHCP_SNAME_LEN) o;
     if negb (err =? ERR_OK) then Some (err, o)
     else
       let '(parse_file, parse_sname, o) :=
         match o !! 0 with
         | Some overload => let (f, s) := overloaded overload in (false || f, false || s, delete 0 o)
         | None => (false, false, o) end in
       if parse_file then parse_areas 0 p DHCP_FILE_OFS (DHCP_FILE_OFS + DHCP_FILE_LEN) false parse_sname o
       else if parse_sname then parse_areas 0 p DHCP_SNAME_OFS (DHCP_SNAME_OFS + DHCP_SNAME_LEN) parse_file false o
       else Some (ERR_OK, o)) = Some (err, o') /\ wf_options o').
  { intros o Ho H0. destruct (overload_cleared p o H0 Ho DHCP_SNAME_OFS (DHCP_SNAME_OFS + DHCP_SNAME_LEN) Hp) as (e3 & o3 & -> & Ho3 & H3); [lia..|].
    cbn [mbind option_bind]. destruct (negb _); [by eexists _, _|]. rewrite H3. by eexists _, _. }
  destruct f.
  - destruct (overload_cleared p o2 H2 Ho2 DHCP_FILE_OFS (DHCP_FILE_OFS + DHCP_FILE_LEN) Hp) as (e3 & o3 & -> & Ho3 & H3); [lia..|].
    cbn [mbind option_bind]. destruct (negb _); [by eexists _, _|]. rewrite H3. destruct sn; [by apply Hsname|by eexists _, _].
  - destruct sn; [|by eexists _, _].
    destruct (overload_cleared p o2 H2 Ho2 DHCP_SNAME_OFS (DHCP_SNAME_OFS + DHCP_SNAME_LEN) Hp) as (e3 & o3 & -> & Ho3 & H3); [lia..|].
    cbn [mbind option_bind]. destruct (negb _); [by eexists _, _|]. rewrite H3. by eexists _, _.
Qed.
End Parse.
End DhcpParse.
