(* ===== verification/DhcpRun.v ===== *)
(** The DHCP client of lwIP: replies and timers keep the invariant of DhcpInv. *)

From stdpp Require Import gmap.
From S2P Require Export DhcpSteps DhcpParse.
Export DhcpSteps DhcpParse.
Open Scope Z_scope.

Module DhcpRun.

Section Run.
Context {Opt : DhcpOptions} {Pbufs : DhcpPbufs} {World : DhcpWorld} {Ack : Acknowledged}.

(** ** Replies *)

Lemma wf_option_default o idx d : wf_options o -> 0 <= d < 2 ^ 32 -> 0 <= default d (o !! idx) < 2 ^ 32.
Proof. intros Ho Hd. destruct (o !! idx) as [v|] eqn:E; [|done]. by apply (Ho _ _ E). Qed.

Lemma wf_remember o yiaddr d :
  wf_options o -> 0 <= yiaddr < 2 ^ 32 -> wf_dhcp d -> wf_dhcp (remember_ack o yiaddr d).
Proof.
  intros Ho Hy [Hx Ht Htm Hf]. split; try done. pose proof (lease_range _ Hf) as Hl. unfold remember_ack. cbv zeta.
  pose proof (wf_option_default o DHCP_OPTION_IDX_LEASE_TIME (offered_t0_lease (off d)) Ho Hl) as H0.
  split; cbn [off set_subnet_mask_given set_off server_ip_addr offered_ip_addr offered_sn_mask offered_gw_addr offered_t0_lease
    offered_t1_renew offered_t2_rebind]; try (apply wf_option_default; done || lia_mod); try done; [apply Hf|].
  apply wf_option_default; [done|]. unfold u32. lia_mod.
Qed.

(** The events of the servers of the acknowledgment. *)
Lemma wf_dns_setservers u addrs : forall n g, wf_glob u g -> wf_glob u (dns_setservers n addrs g).
Proof. induction addrs as [|a addrs IH]; intros n g Hg; [done|]. cbn [dns_setservers]. by apply IH, wf_glob_log. Qed.

(** A client that holds the control block in a state of its own. *)
Lemma good_alloc r s d : good r s -> data s = Some d -> state d <> DHCP_STATE_OFF -> pcb_allocated d = true.
Proof. intros Hg Hs Hst. destruct (good_dhcp _ _ Hg d Hs) as (_ & _ & Hh & _). unfold holds_pcb in Hh. by rewrite bool_decide_false in Hh. Qed.

Lemma handle_ack_spec r s d yiaddr :
  running r s d -> wf_options (rx_options (glb s)) -> 0 <= yiaddr < 2 ^ 32 ->
  exists s', dhcp_handle_ack yiaddr s = Some s' /\ nif s' = nif s /\
    running r s' (remember_ack (rx_options (glb s)) yiaddr d).
Proof.
  intros [Hs Hn Hd Hg Hr Ha] Ho Hy. unfold dhcp_handle_ack. rewrite Hs. cbn [mbind option_bind].
  eexists. split; [done|]. split; [done|]. split; try done; [by apply wf_remember|]. cbn [glb users_of].
  apply wf_dns_setservers. destruct LWIP_DHCP_GET_NTP_SRV; [by apply wf_glob_log|done].
Qed.

Lemma handle_nak_good r s d :
  good r s -> data s = Some d -> pcb_allocated d = true ->
  exists s', dhcp_handle_nak s = Some s' /\ good r s'.
Proof.
  intros Hgood Hs Hp. destruct (good_running r s d Hgood Hs) as [_ Hn Hd Hg Hr Ha].
  unfold dhcp_handle_nak. rewrite Hs. cbn [mbind option_bind].
  set (d1 := dhcp_set_state DHCP_STATE_BACKING_OFF d). set (s1 := netif_set_addr _ _ _ _).
  assert (Hp1 : pcb_allocated d1 = pcb_allocated d) by exact (set_state_pcb DHCP_STATE_BACKING_OFF d).
  assert (Hrun : running r s1 d1).
  { split; try done; cbn [nif glb netif_set_addr set_data s1 users_of].
    - by apply wf_set_addr.
    - by apply wf_set_state.
    - rewrite Hp1. by apply wf_glob_log.
    - apply acked_any. }
  destruct (discover_good r s1 d1 Hrun) as (s' & d' & -> & Hg' & _); [by rewrite Hp1|]. cbn [mbind option_bind]. by exists s'.
Qed.

Lemma handle_offer_good r s d yiaddr :
  good r s -> data s = Some d -> pcb_allocated d = true -> wf_options (rx_options (glb s)) -> 0 <= yiaddr < 2 ^ 32 ->
  exists s', dhcp_handle_offer yiaddr s = Some s' /\ good r s'.
Proof.
  intros Hgood Hs Hp Ho Hy. pose proof (good_running r s d Hgood Hs) as Hrun. unfold dhcp_handle_offer. rewrite Hs.
  cbn [mbind option_bind]. destruct (rx_options (glb s) !! _) as [server|] eqn:Ev; [|by exists s].
  set (d1 := in_off _ _). assert (Hw : wf_dhcp d1).
  { destruct Hrun as [_ _ [Hx Ht [] []] _ _ _]. pose proof (Ho _ _ Ev). split; try done. }
  pose proof (running_set_data r s d d1 Hrun Hw eq_refl) as Hrun1.
  destruct (select_spec r _ d1 Hrun1) as (res & x & g & -> & _ & Hx & Hsends). cbn [mbind option_bind].
  eexists. split; [done|].
  exact (asked_good r _ d1 Hrun1 DHCP_STATE_REQUESTING backoff x _ _ _ g Hp ltac:(by split) Hx backoff_ok Hsends).
Qed.

(** An acknowledgment that is taken at once. *)
Lemma ack_bind_good r s d yiaddr :
  good r s -> data s = Some d -> pcb_allocated d = true -> wf_options (rx_options (glb s)) -> 0 <= yiaddr < 2 ^ 32 ->
  acked yiaddr ->
  exists s', (s ← dhcp_handle_ack yiaddr s; Some (dhcp_bind s)) = Some s' /\ good r s'.
Proof.
  intros Hgood Hs Hp Ho Hy Hack. pose proof (good_running r s d Hgood Hs) as Hrun.
  destruct (handle_ack_spec r s d yiaddr Hrun Ho Hy) as (s1 & -> & _ & Hrun1). cbn [mbind option_bind].
  destruct (bind_spec r s1 _ Hrun1 Hp Hack) as [Hg _]. by eexists.
Qed.

Lemma handle_reply_good r s d message_type yiaddr :
  good r s -> data s = Some d -> pcb_allocated d = true -> wf_options (rx_options (glb s)) -> 0 <= yiaddr < 2 ^ 32 ->
  (message_type = DHCP_ACK -> acked yiaddr) ->
  exists s', dhcp_handle_reply message_type yiaddr s = Some s' /\ good r s'.
Proof.
  intros Hgood Hs Hp Ho Hy Hack. pose proof (good_running r s d Hgood Hs) as Hrun. unfold dhcp_handle_reply. rewrite Hs.
  cbn [mbind option_bind]. destruct (message_type =? DHCP_ACK) eqn:Em.
  - specialize (Hack ltac:(lia)). pose proof (ack_bind_good r s d yiaddr Hgood Hs Hp Ho Hy Hack) as Hbind.
    destruct (state d) eqn:Est; try (by exists s); try exact Hbind.
    destruct (handle_ack_spec r s d yiaddr Hrun Ho Hy) as (s1 & E1 & _ & Hrun1). rewrite E1 in *. cbn [mbind option_bind] in *.
    destruct (_ && _); [|exact Hbind].
    destruct (check_spec r s1 _ Hrun1 Hp Hack) as (s' & d' & -> & Hg & _). by exists s'.
  - destruct (_ && bool_decide (_ ∈ _)); [by apply (handle_nak_good r s d)|].
    destruct (_ && _); [by apply (handle_offer_good r s d)|by exists s].
Qed.

(** There is a slot for every DNS server that is decoded. *)
Hypothesis dns_slots : DNS_MAX_SERVERS <= LWIP_DHCP_MAX_DNS_SERVERS.

Lemma fetch_number b off : Forall is_byte b -> 0 <= off -> off + 4 <= size b ->
  exists bs, fetch b off 4 = Some bs /\ 0 <= of_be bs < 2 ^ 32.
Proof.
  intros Hb Ho Hs. unfold fetch. replace (_ || _ || _) with false by lia. eexists. split; [done|]. apply of_be_32.
  - unfold slice. by apply Forall_take, Forall_drop.
  - unfold size in *. rewrite slice_length by lia. lia.
Qed.

(** The message [p] is an acknowledgment of the address [addr]. *)
Definition acknowledges (p : chain) (addr : Z) : Prop :=
  exists b ys o v, head p = Some b /\ fetch b 16 4 = Some ys /\ of_be ys = addr /\
    dhcp_parse_reply p = Some (ERR_OK, o) /\ o !! DHCP_OPTION_IDX_MSG_TYPE = Some v /\ u8 v = DHCP_ACK.

Lemma recv_good r s p :
  good r s -> wf_chain p -> (forall addr, acknowledges p addr -> acked addr) -> exists s', dhcp_recv p s = Some s' /\ good r s'.
Proof.
  intros Hgood Hp Hack. unfold dhcp_recv. destruct (data s) as [d|] eqn:Hs; [|by exists s].
  destruct (pcb_allocated d) eqn:Hpcb; cbn [negb]; [|by exists s].
  destruct (parse_reply_total dns_slots p Hp) as (err & o & Eparse & Ho).
  pose proof Hp as [Hb _ _ Hne]. destruct p as [|b next]; [done|]. cbn [head mbind option_bind].
  cbn [concat] in Hb. apply Forall_app in Hb as [Hb _].
  destruct (size b <? DHCP_MIN_REPLY_LEN) eqn:Eb; [by exists s|].
  destruct (load_is_byte b 0 Hb ltac:(lia)) as (op & -> & _). cbn [mbind option_bind].
  destruct (negb (op =? _)); [by exists s|]. destruct (negb (same_chaddr _ _)); [by exists s|].
  destruct (fetch_number b 4 Hb ltac:(lia) ltac:(lia)) as (bs & -> & _). cbn [mbind option_bind].
  destruct (negb (of_be bs =? _)); [by exists s|]. rewrite Eparse. cbn [mbind option_bind].
  set (s1 := set_glb _ s). assert (Hg1 : good r s1).
  { destruct Hgood as [Hn Hg Hr Ha Hd]. split; try done. by destruct Hg. }
  destruct (negb (err =? ERR_OK)) eqn:Eerr; [by exists s1|]. destruct (o !! DHCP_OPTION_IDX_MSG_TYPE) as [v|] eqn:Ev; [|by exists s1].
  destruct (fetch_number b 16 Hb ltac:(lia) ltac:(lia)) as (ys & Ey & Hy). rewrite Ey. cbn [mbind option_bind].
  apply (handle_reply_good r s1 d); try done. intros Hv. apply Hack. exists b, ys, o, v. split_and!; try done.
  by replace ERR_OK with err by lia.
Qed.

(** ** Timers *)

(** A change of the timers of the lease. *)
Lemma good_set_tim r s d t :
  good r s -> data s = Some d -> wf_timers t -> request_timeout t = request_timeout (tim d) ->
  good r (set_data (Some (set_tim t d)) s).
Proof.
  intros Hgood Hs Ht Hreq. pose proof (good_running r s d Hgood Hs) as Hrun.
  destruct (good_dhcp _ _ Hgood d Hs) as (Hd & Htm & Hh & Hck).
  apply (running_good _ _ (set_tim t d)); [|intros Hw; cbn [tim set_tim]; rewrite Hreq; by apply Htm|done|done].
  apply (running_set_data r s d); [done| |done]. destruct Hd. by split.
Qed.

Lemma wf_set_renew t v : wf_timers t -> wf_timers (set_t1_renew_time (u16 v) t).
Proof. intros []. split; try done. cbn. unfold u16. lia_mod. Qed.

Lemma wf_set_rebind t v : wf_timers t -> wf_timers (set_t2_rebind_time (u16 v) t).
Proof. intros []. split; try done. cbn. unfold u16. lia_mod. Qed.

Lemma t1_timeout_good r s d :
  good r s -> data s = Some d -> state d <> DHCP_STATE_OFF -> exists s', dhcp_t1_timeout s = Some s' /\ good r s'.
Proof.
  intros Hgood Hs Hst. unfold dhcp_t1_timeout. rewrite Hs. cbn [mbind option_bind].
  destruct (bool_decide _); [|by exists s]. pose proof (good_running r s d Hgood Hs) as Hrun.
  pose proof (good_alloc r s d Hgood Hs Hst) as Hp.
  destruct (renew_spec r s d Hrun) as (res & x & g & -> & Hx & Hsends). cbn [mbind option_bind data asked].
  pose proof (asked_good r s d Hrun DHCP_STATE_RENEWING _ x _ _ _ g Hp ltac:(by split) Hx (linear_ok 2000 ltac:(lia)) Hsends) as Hg.
  destruct (1 <=? _); eexists; (split; [done|]); [|exact Hg].
  apply good_set_tim; [done..| |done]. apply wf_set_renew. by apply (good_dhcp _ _ Hg).
Qed.

Lemma t2_timeout_good r s d :
  good r s -> data s = Some d -> state d <> DHCP_STATE_OFF -> exists s', dhcp_t2_timeout s = Some s' /\ good r s'.
Proof.
  intros Hgood Hs Hst. unfold dhcp_t2_timeout. rewrite Hs. cbn [mbind option_bind].
  destruct (bool_decide _); [|by exists s]. pose proof (good_running r s d Hgood Hs) as Hrun.
  pose proof (good_alloc r s d Hgood Hs Hst) as Hp.
  destruct (rebind_spec r s d Hrun) as (res & x & g & -> & Hx & Hsends). cbn [mbind option_bind data asked].
  pose proof (asked_good r s d Hrun DHCP_STATE_REBINDING _ x _ _ _ g Hp ltac:(by split) Hx (linear_ok 1000 ltac:(lia)) Hsends) as Hg.
  destruct (1 <=? _); eexists; (split; [done|]); [|exact Hg].
  apply good_set_tim; [done..| |done]. apply wf_set_rebind. by apply (good_dhcp _ _ Hg).
Qed.

(** Stopping does not depend on how much of the lease is used. *)
Lemma stop_any_use s d v :
  data s = Some d -> state d <> DHCP_STATE_OFF ->
  dhcp_release_and_stop (set_data (Some (in_tim (set_lease_used v) d)) s) = dhcp_release_and_stop s.
Proof.
  intros Hs Hst. unfold dhcp_release_and_stop, dhcp_supplied_address. rewrite Hs.
  cbn [data set_data state in_tim set_tim]. by rewrite bool_decide_false.
Qed.

(** One minute of a lease. *)
Definition tick_lease (t : timers) : timers :=
  if t0_timeout t =? 0 then t else set_lease_used (u16 (lease_used t + 1)) t.

Lemma tick_lease_wf t :
  wf_timers t -> negb (t0_timeout t =? 0) && (lease_used (tick_lease t) =? t0_timeout t) = false -> wf_timers (tick_lease t).
Proof.
  intros []. unfold tick_lease. destruct (t0_timeout t =? 0) eqn:E; [done|]. cbn [lease_used set_lease_used].
  rewrite u16_small by lia. intros Hne. split; try done. cbn. lia.
Qed.

Lemma tick_lease_t0 t : t0_timeout (tick_lease t) = t0_timeout t.
Proof. unfold tick_lease. by destruct (_ =? 0). Qed.

Lemma tick_lease_request t : request_timeout (tick_lease t) = request_timeout t.
Proof. unfold tick_lease. by destruct (_ =? 0). Qed.

(** One minute of a client that is not off: its lease ends, or the timers run and one of
    them may run out. *)
Lemma coarse_tick_cases r s d :
  good r s -> data s = Some d -> state d <> DHCP_STATE_OFF ->
  (t0_timeout (tim d) <> 0 /\ lease_used (tim d) + 1 = t0_timeout (tim d) /\
     coarse_tick s = (s ← dhcp_release_and_stop s; '(_, s) ← dhcp_start s; Some s)) \/
  exists t, let s' := set_data (Some (set_tim t d)) s in
    good r s' /\ t0_timeout t = t0_timeout (tim d) /\
    lease_used t = (if t0_timeout (tim d) =? 0 then lease_used (tim d) else lease_used (tim d) + 1) /\
    (t2_rebind_time (tim d) = 0 -> t1_renew_time (tim d) = 0 -> t2_rebind_time t = 0 /\ t1_renew_time t = 0 /\ coarse_tick s = Some s') /\
    (coarse_tick s = dhcp_t2_timeout s' \/ coarse_tick s = dhcp_t1_timeout s' \/ coarse_tick s = Some s').
Proof.
  intros Hgood Hs Hst. destruct (good_dhcp _ _ Hgood d Hs) as (Hd & _ & Hh & _). pose proof (timers_wf d Hd) as Ht.
  assert (Hu : t0_timeout (tim d) <> 0 -> u16 (lease_used (tim d) + 1) = lease_used (tim d) + 1).
  { destruct Ht as [_ _ _ _ _ Ht0 Hused]. intros H0. rewrite u16_small; lia. }
  unfold coarse_tick. rewrite Hs, bool_decide_false by done. fold (tick_lease (tim d)). cbv zeta. rewrite tick_lease_t0.
  assert (Hclock : lease_used (tick_lease (tim d)) = if t0_timeout (tim d) =? 0 then lease_used (tim d) else lease_used (tim d) + 1).
  { unfold tick_lease. destruct (t0_timeout (tim d) =? 0) eqn:E; [done|]. apply Hu. lia. }
  assert (Hsame : t2_rebind_time (tick_lease (tim d)) = t2_rebind_time (tim d) /\ t1_renew_time (tick_lease (tim d)) = t1_renew_time (tim d)).
  { unfold tick_lease. by destruct (_ =? 0). }
  destruct (negb (t0_timeout (tim d) =? 0) && _) eqn:E0; [left|right].
  - assert (t0_timeout (tim d) <> 0) as H0 by lia. split; [done|]. rewrite (proj2 (Z.eqb_neq _ 0) H0) in *. split; [lia|].
    assert (E : set_tim (tick_lease (tim d)) d = in_tim (set_lease_used (u16 (lease_used (tim d) + 1))) d).
    { unfold tick_lease. by rewrite (proj2 (Z.eqb_neq _ 0) H0). }
    by rewrite E, (stop_any_use s d _ Hs Hst).
  - pose proof (tick_lease_wf _ Ht E0) as Hw. pose proof (tick_lease_request (tim d)) as Hreq. pose proof (tick_lease_t0 (tim d)) as H0.
    set (t := tick_lease (tim d)) in *. destruct Hsame as [Hs2 Hs1].
    set (t1 := if t2_rebind_time t =? 0 then t else set_t2_rebind_time (t2_rebind_time t - 1) t).
    assert (H1 : wf_timers t1 /\ request_timeout t1 = request_timeout t /\ t0_timeout t1 = t0_timeout t /\ lease_used t1 = lease_used t /\
      t1_renew_time t1 = t1_renew_time t).
    { subst t1. destruct (t2_rebind_time t =? 0) eqn:E; [done|]. split; [|done]. destruct Hw. split; try done. cbn. lia. }
    destruct H1 as (Hw1 & Hr1 & Ht1 & Hu1 & Hn1). destruct (t2_rebind_time t =? 1) eqn:E2.
    { exists t1. cbv zeta. split; [apply good_set_tim; done || congruence|]. split; [congruence|]. split; [congruence|]. split; [intros Hz2; exfalso; lia|by left]. }
    set (t2 := if t1_renew_time t1 =? 0 then t1 else set_t1_renew_time (t1_renew_time t1 - 1) t1).
    assert (H2 : wf_timers t2 /\ request_timeout t2 = request_timeout t1 /\ t0_timeout t2 = t0_timeout t1 /\ lease_used t2 = lease_used t1).
    { subst t2. destruct (t1_renew_time t1 =? 0) eqn:E; [done|]. split; [|done]. destruct Hw1. split; try done. cbn. lia. }
    destruct H2 as (Hw2 & Hr2 & Ht2 & Hu2). exists t2. cbv zeta. split; [apply good_set_tim; done || congruence|]. split; [congruence|]. split; [congruence|]. split.
    + intros Hz2 Hz1. assert (E1 : t1 = t) by (subst t1; by rewrite Hs2, Hz2).
      assert (Et : t2 = t) by (subst t2; by rewrite E1, Hs1, Hz1). rewrite Et, E1, Hs1, Hz1. split; [congruence|]. by split.
    + destruct (t1_renew_time t1 =? 1); [by right; left|by right; right].
Qed.

(** One minute. *)
Lemma coarse_tick_good r s : good r s -> exists s', coarse_tick s = Some s' /\ good r s'.
Proof.
  intros Hgood. destruct (data s) as [d|] eqn:Hs; [|exists s; split; [by unfold coarse_tick; rewrite Hs|done]].
  destruct (decide (state d = DHCP_STATE_OFF)) as [Hst|Hst].
  { exists s. split; [|done]. unfold coarse_tick. by rewrite Hs, bool_decide_true. }
  destruct (good_dhcp _ _ Hgood d Hs) as (_ & _ & Hh & _).
  destruct (coarse_tick_cases r s d Hgood Hs Hst) as [(_ & _ & ->)|(t & Hg & _ & _ & _ & Hcase)].
  - destruct (restart_spec r s d (good_running r s d Hgood Hs) Hh) as (s1 & err & s' & -> & E2 & Hg & _).
    cbn [mbind option_bind]. rewrite E2. by exists s'.
  - destruct Hcase as [->|[->| ->]]; [by apply (t2_timeout_good r _ (set_tim t d))|by apply (t1_timeout_good r _ (set_tim t d))|by eexists].
Qed.

(** The request timer runs out. *)
Lemma timeout_good r s d :
  running r s d -> holds_pcb d -> checks_acked d -> exists s', dhcp_timeout s = Some s' /\ good r s'.
Proof.
  intros Hrun Hh Hck. unfold dhcp_timeout. rewrite (run_data _ _ _ Hrun). cbn [mbind option_bind].
  assert (Hp : state d <> DHCP_STATE_OFF -> pcb_allocated d = true).
  { intros Hst. unfold holds_pcb in Hh. by rewrite bool_decide_false in Hh. }
  assert (Hquiet : waits (state d) = false -> exists s', Some s = Some s' /\ good r s').
  { intros Hw. exists s. split; [done|]. apply (running_good _ _ d); [done| |done|done]. intros Hw'. by rewrite Hw in Hw'. }
  assert (Hdisc : state d <> DHCP_STATE_OFF -> exists s', ('(_, s) ← dhcp_discover s; Some s) = Some s' /\ good r s').
  { intros Hst. destruct (discover_good r s d Hrun (Hp Hst)) as (s' & d' & -> & Hg & _). cbn [mbind option_bind]. by exists s'. }
  destruct (state d) eqn:Est; try (apply Hquiet; unfold waits; by rewrite andb_false_r); try (by apply Hdisc).
  - destruct (tries d <=? 5).
    + destruct (select_spec r s d Hrun) as (res & x & g & -> & _ & Hx & Hsends). cbn [mbind option_bind].
      eexists. split; [done|].
      exact (asked_good r s d Hrun DHCP_STATE_REQUESTING backoff x _ _ _ g (Hp ltac:(done)) ltac:(by split) Hx backoff_ok Hsends).
    + destruct (restart_spec r s d Hrun Hh) as (s1 & err & s' & -> & E2 & Hg & _).
      cbn [mbind option_bind]. rewrite E2. cbn [mbind option_bind]. by exists s'.
  - destruct (tries d <? REBOOT_TRIES); [|by apply Hdisc].
    destruct (reboot_spec r s d Hrun) as (res & x & g & -> & Hx & Hsends). cbn [mbind option_bind].
    eexists. split; [done|].
    exact (asked_good r s d Hrun DHCP_STATE_REBOOTING _ x _ _ _ g (Hp ltac:(done)) ltac:(by split) Hx (linear_ok 1000 ltac:(lia)) Hsends).
  - destruct DHCP_DOES_ARP_CHECK eqn:Earp; cbn [negb]; [|apply Hquiet; unfold waits; by rewrite Earp].
    destruct (tries d <=? 1).
    + destruct (check_spec r s d Hrun (Hp ltac:(done)) (Hck Est)) as (s' & d' & -> & Hg & _). by exists s'.
    + destruct (bind_spec r s d Hrun (Hp ltac:(done)) (Hck Est)) as [Hg _]. by eexists.
Qed.

(** Half a second. *)
Lemma fine_tick_good r s : good r s -> exists s', fine_tick s = Some s' /\ good r s'.
Proof.
  intros Hgood. unfold fine_tick. destruct (data s) as [d|] eqn:Hs; [|by exists s].
  destruct (good_dhcp _ _ Hgood d Hs) as (Hd & Htm & Hh & Hck). pose proof (good_running r s d Hgood Hs) as Hrun. cbv zeta.
  assert (Hw : 1 <= request_timeout (tim d) -> wf_dhcp (in_tim (set_request_timeout (request_timeout (tim d) - 1)) d)).
  { intros H1. destruct Hd as [Hx Ht [] Ho]. split; try done. split; try done. cbn. lia. }
  destruct (1 <? request_timeout (tim d)) eqn:E.
  - eexists. split; [done|]. apply (running_good _ _ (in_tim (set_request_timeout (request_timeout (tim d) - 1)) d)); [|intros _; cbn; lia|done|done].
    apply (running_set_data r s d); [done|apply Hw; lia|done].
  - destruct (request_timeout (tim d) =? 1) eqn:E1; [|by exists s].
    apply (timeout_good r _ (in_tim (set_request_timeout (request_timeout (tim d) - 1)) d)); [|done|done].
    apply (running_set_data r s d); [done|apply Hw; lia|done].
Qed.
End Run.
End DhcpRun.
