(* ===== verification/DhcpTicks.v ===== *)
(** The DHCP client of lwIP: what the passing of time does. A lease that is not renewed
    ends when its time is over, and a client that waits for an answer asks again. *)

From stdpp Require Import gmap.
From S2P Require Export DhcpRun.
Export DhcpRun.
Open Scope Z_scope.

Module DhcpTicks.

Section Ticks.
Context {Opt : DhcpOptions} {Pbufs : DhcpPbufs} {World : DhcpWorld} {Ack : Acknowledged}.

(** One tick of a timer: the coarse one, or the fine one. *)
Definition tick (coarse : bool) (s : client) : option client := if coarse then coarse_tick s else fine_tick s.

Fixpoint ticks (ts : list bool) (s : client) : option client :=
  match ts with
  | [] => Some s
  | t :: ts => s ← tick t s; ticks ts s
  end.

(** The number of coarse ticks. *)
Fixpoint minutes (ts : list bool) : Z :=
  match ts with
  | [] => 0
  | t :: ts => (if t then 1 else 0) + minutes ts
  end.

Lemma ticks_app a b s : ticks (a ++ b) s = (s ← ticks a s; ticks b s).
Proof. revert s. induction a as [|t a IH]; intros s; [done|]. cbn [app ticks]. destruct (tick t s); [apply IH|done]. Qed.

(** ** Without a lease *)

Lemma idle_fine r s : good r s -> idle s ->
  exists s', fine_tick s = Some s' /\ good r s' /\ idle s' /\ ip_addr (nif s') = ip_addr (nif s).
Proof.
  intros Hgood Hid. destruct (fine_tick_good r s Hgood) as (s' & E & Hg'). exists s'. split; [done|]. split; [done|].
  unfold fine_tick in E. destruct (data s) as [d|] eqn:Hs; [|by injection E as <-].
  destruct (Hid d Hs) as [Hst Hnt]. destruct (good_dhcp _ _ Hgood d Hs) as (Hd & _ & Hh & _). cbv zeta in E.
  set (d1 := in_tim _ d) in E.
  assert (Hid1 : idle (set_data (Some d1) s)) by (by intros ? [= <-]).
  destruct (1 <? request_timeout (tim d)) eqn:E0; [injection E as <-; by split|].
  destruct (request_timeout (tim d) =? 1) eqn:E1; [|by injection E as <-].
  unfold dhcp_timeout in E. cbn [set_data data mbind option_bind] in E. change (state d1) with (state d) in E.
  destruct Hst as [Hst|[Hst|Hst]]; rewrite Hst in E; [injection E as <-; by split..|].
  unfold holds_pcb in Hh. rewrite Hst in Hh.
  assert (Hrun : running r (mkClient (nif s) (Some d1) (glb s)) d1).
  { apply (running_set_data r s d d1); [by apply good_running|split; try apply Hd|done].
    destruct Hd as [_ _ [] _]. split; try done. cbn. lia. }
  destruct (discover_good r _ d1 Hrun Hh) as (s2 & d2 & E2 & _ & Hn2 & Hd2 & Hst2 & _ & Hnt2). unfold set_data in E. rewrite E2 in E.
  cbn [mbind option_bind] in E. injection E as <-. split; [|by rewrite Hn2]. intros d3 Hd3. rewrite Hd2 in Hd3. injection Hd3 as <-.
  split; [by right; right|by apply Hnt2].
Qed.

Lemma idle_coarse r s : good r s -> idle s ->
  exists s', coarse_tick s = Some s' /\ good r s' /\ idle s' /\ ip_addr (nif s') = ip_addr (nif s).
Proof.
  intros Hgood Hid. destruct (data s) as [d|] eqn:Hs; [|exists s; split; [by unfold coarse_tick; rewrite Hs|done]].
  destruct (decide (state d = DHCP_STATE_OFF)) as [Hst|Hst].
  { exists s. split; [|done]. unfold coarse_tick. by rewrite Hs, bool_decide_true. }
  destruct (Hid d Hs) as [Hst' (H0 & H2 & H1)].
  destruct (coarse_tick_cases r s d Hgood Hs Hst) as [(H0' & _)|(t & Hg & Ht & _ & Hquiet & _)]; [done|].
  destruct (Hquiet H2 H1) as (E2 & E1 & ->). eexists. split; [done|]. split; [exact Hg|]. split; [|done].
  intros ? [= <-]. split; [done|]. change (no_timers t). split; [congruence|]. by split.
Qed.

Lemma idle_ticks r ts : forall s, good r s -> idle s ->
  exists s', ticks ts s = Some s' /\ good r s' /\ ip_addr (nif s') = ip_addr (nif s).
Proof.
  induction ts as [|t ts IH]; intros s Hg Hid; [by exists s|]. cbn [ticks].
  assert (exists s1, tick t s = Some s1 /\ good r s1 /\ idle s1 /\ ip_addr (nif s1) = ip_addr (nif s)) as (s1 & -> & Hg1 & Hid1 & Hip).
  { destruct t; [by apply idle_coarse|by apply idle_fine]. }
  cbn [mbind option_bind]. destruct (IH s1 Hg1 Hid1) as (s' & -> & Hg' & Hip'). exists s'. by rewrite Hip', Hip.
Qed.

(** ** With a lease *)

(** The states in which the client has the address of a lease that ends. *)
Definition supplies (st : dhcp_state) : bool :=
  bool_decide (st = DHCP_STATE_BOUND) || bool_decide (st = DHCP_STATE_RENEWING) || bool_decide (st = DHCP_STATE_REBINDING).

Definition leased (d : dhcp) : Prop := supplies (state d) = true /\ t0_timeout (tim d) <> 0.

(** The clock of the lease is the same. *)
Definition same_clock (t t' : timers) : Prop := t0_timeout t' = t0_timeout t /\ lease_used t' = lease_used t.

Lemma same_lease_clock t t' : same_lease t t' -> same_clock t t'.
Proof. by intros [v ->]. Qed.

Lemma supplies_cases st : supplies st = true -> st = DHCP_STATE_BOUND \/ st = DHCP_STATE_RENEWING \/ st = DHCP_STATE_REBINDING.
Proof. by destruct st; auto. Qed.

Lemma supplies_on st : supplies st = true -> st <> DHCP_STATE_OFF.
Proof. by destruct st. Qed.

(** The answer of the server to a renewal is not waited for. *)
Lemma t1_timeout_lease s s' d r :
  good r s -> data s = Some d -> leased d -> dhcp_t1_timeout s = Some s' ->
  exists d', data s' = Some d' /\ leased d' /\ same_clock (tim d) (tim d').
Proof.
  intros Hgood Hs [Hl H0]. unfold dhcp_t1_timeout. rewrite Hs. cbn [mbind option_bind].
  destruct (bool_decide _); [|intros [= <-]; by exists d].
  destruct (renew_spec r s d (good_running r s d Hgood Hs)) as (res & x & g & -> & _). cbn [mbind option_bind data asked].
  destruct (after_request_facts DHCP_STATE_RENEWING x (linear 2000) d) as (Hst & _ & _ & _ & Hlease).
  destruct (same_lease_clock _ _ Hlease) as [Ht Hu].
  destruct (1 <=? _); intros [= <-]; (eexists; split; [reflexivity|]); unfold leased.
  - change (state (in_tim _ ?e)) with (state e). rewrite Hst. by split; [rewrite <- Ht in H0|].
  - rewrite Hst. by split; [rewrite <- Ht in H0|].
Qed.

Lemma t2_timeout_lease s s' d r :
  good r s -> data s = Some d -> leased d -> dhcp_t2_timeout s = Some s' ->
  exists d', data s' = Some d' /\ leased d' /\ same_clock (tim d) (tim d').
Proof.
  intros Hgood Hs [Hl H0]. unfold dhcp_t2_timeout. rewrite Hs. cbn [mbind option_bind].
  destruct (bool_decide _); [|intros [= <-]; by exists d].
  destruct (rebind_spec r s d (good_running r s d Hgood Hs)) as (res & x & g & -> & _). cbn [mbind option_bind data asked].
  destruct (after_request_facts DHCP_STATE_REBINDING x (linear 1000) d) as (Hst & _ & _ & _ & Hlease).
  destruct (same_lease_clock _ _ Hlease) as [Ht Hu].
  destruct (1 <=? _); intros [= <-]; (eexists; split; [reflexivity|]); unfold leased.
  - change (state (in_tim _ ?e)) with (state e). rewrite Hst. by split; [rewrite <- Ht in H0|].
  - rewrite Hst. by split; [rewrite <- Ht in H0|].
Qed.

Lemma lease_fine r s d : good r s -> data s = Some d -> leased d ->
  exists s' d', fine_tick s = Some s' /\ good r s' /\ data s' = Some d' /\ leased d' /\ same_clock (tim d) (tim d').
Proof.
  intros Hgood Hs Hl. destruct (fine_tick_good r s Hgood) as (s' & E & Hg').
  enough (exists d', data s' = Some d' /\ leased d' /\ same_clock (tim d) (tim d')) as (d' & ? & ? & ?) by (exists s', d'; by split_and!).
  unfold fine_tick in E. rewrite Hs in E. cbv zeta in E. destruct (1 <? _); [injection E as <-; by eexists|].
  destruct (_ =? 1); [|injection E as <-; by exists d].
  unfold dhcp_timeout in E. cbn [set_data data mbind option_bind] in E. change (state (in_tim _ d)) with (state d) in E.
  destruct (supplies_cases _ (proj1 Hl)) as [Hst|[Hst|Hst]]; rewrite Hst in E; injection E as <-; by eexists.
Qed.

(** One minute more is used, or the lease ends and its address is given up. *)
Lemma lease_coarse r s d : good r s -> data s = Some d -> leased d ->
  exists s', coarse_tick s = Some s' /\ good r s' /\
    ((exists d', data s' = Some d' /\ leased d' /\ t0_timeout (tim d') = t0_timeout (tim d) /\
        lease_used (tim d') = lease_used (tim d) + 1) \/
     lease_used (tim d) + 1 = t0_timeout (tim d) /\ ip_addr (nif s') = 0 /\ idle s').
Proof.
  intros Hgood Hs Hl. pose proof Hl as [Hsup H0]. pose proof (supplies_on _ Hsup) as Hst.
  destruct (coarse_tick_good r s Hgood) as (s' & E & Hg'). exists s'. split; [done|]. split; [done|].
  destruct (coarse_tick_cases r s d Hgood Hs Hst) as [(_ & Hend & E')|(t & Hg & Ht & Hu & _ & Hcase)]; [right|left].
  - destruct (good_dhcp _ _ Hgood d Hs) as (_ & _ & Hh & _).
    destruct (restart_spec r s d (good_running r s d Hgood Hs) Hh) as (s1 & err & s2 & E1 & E2 & _ & Hip & _ & Hid).
    rewrite E', E1 in E. cbn [mbind option_bind] in E. rewrite E2 in E. injection E as <-. split; [done|]. split; [|by apply Hid].
    rewrite Hip. unfold dhcp_supplied_address. rewrite Hs. fold (supplies (state d)). by rewrite Hsup.
  - rewrite (proj2 (Z.eqb_neq _ 0) H0) in Hu.
    assert (Hl' : leased (set_tim t d)) by (split; [done|]; cbn [tim set_tim]; by rewrite Ht).
    assert (exists d', data s' = Some d' /\ leased d' /\ same_clock t (tim d')) as (d' & Hs' & Hl2 & Ha & Hb).
    { destruct Hcase as [E'|[E'|E']]; rewrite E' in E;
        [exact (t2_timeout_lease _ s' (set_tim t d) r Hg eq_refl Hl' E)|exact (t1_timeout_lease _ s' (set_tim t d) r Hg eq_refl Hl' E)|].
      injection E as <-. by exists (set_tim t d). }
    exists d'. split_and!; try done; congruence.
Qed.

(** A lease that is not renewed ends. *)
Lemma lease_ends r ts : forall s d, good r s -> data s = Some d -> leased d ->
  t0_timeout (tim d) - lease_used (tim d) <= minutes ts ->
  exists s', ticks ts s = Some s' /\ good r s' /\ ip_addr (nif s') = 0.
Proof.
  induction ts as [|t ts IH]; intros s d Hg Hs Hl Hm; cbn [minutes] in Hm.
  { destruct (good_dhcp _ _ Hg d Hs) as (Hd & _). destruct (timers_wf d Hd) as [_ _ _ _ _ Ht0 Hused]. pose proof (proj2 Hl). lia. }
  cbn [ticks]. destruct t; cbn [tick].
  - destruct (lease_coarse r s d Hg Hs Hl) as (s1 & -> & Hg1 & [(d1 & Hs1 & Hl1 & Ht & Hu)|(_ & Hip & Hid)]); cbn [mbind option_bind].
    + apply (IH s1 d1); try done. lia.
    + destruct (idle_ticks r ts s1 Hg1 Hid) as (s' & -> & Hg' & Hip'). exists s'. by rewrite Hip'.
  - destruct (lease_fine r s d Hg Hs Hl) as (s1 & d1 & -> & Hg1 & Hs1 & Hl1 & [Ht Hu]). cbn [mbind option_bind].
    apply (IH s1 d1); try done. lia.
Qed.

(** ** Without an answer *)

(** A message DISCOVER of the interface [n]. *)
Definition discover_message (n : netif) (msg : list Z) : Prop :=
  exists d k, msg = message (msg_header n d DHCP_DISCOVER) [type_item DHCP_DISCOVER; max_item (mtu n); request_item] k.

(** The client has sent [m] messages DISCOVER between two points of time, and has asked
    for an automatic address at most. *)
Inductive discovered (n : netif) : nat -> list event -> list event -> Prop :=
  | discovered_0 es : discovered n 0 es es
  | discovered_S m es msg more es' : discover_message n msg -> more = [] \/ more = [AutoipStart] ->
      discovered n m (es ++ [Sent IP_ADDR_BROADCAST true msg] ++ more) es' ->
      discovered n (S m) es es'.

(** The request timer runs. *)
Lemma fine_counts s d k : data s = Some d -> 1 < request_timeout (tim d) -> request_timeout (tim d) = 1 + Z.of_nat k ->
  ticks (replicate k false) s = Some (set_data (Some (in_tim (set_request_timeout 1) d)) s).
Proof.
  revert s d. induction k as [|k IH]; intros s d Hs H1 Hk; [lia|]. cbn [replicate ticks tick]. unfold fine_tick. rewrite Hs. cbv zeta.
  rewrite (proj2 (Z.ltb_lt 1 _)) by done. cbn [mbind option_bind]. destruct (decide (k = 0%nat)) as [->|Hne].
  - cbn [replicate ticks]. by replace (request_timeout (tim d) - 1) with 1 by lia.
  - rewrite (IH _ (in_tim (set_request_timeout (request_timeout (tim d) - 1)) d)); [done|done| |]; cbn; lia.
Qed.

(** There is always memory for a message. *)
Hypothesis memory : forall k, pbuf_alloc_ok k = true.

(** The message is sent when the timer runs out. *)
Lemma discover_again r s d :
  good r s -> data s = Some d -> state d = DHCP_STATE_SELECTING \/ state d = DHCP_STATE_BACKING_OFF ->
  exists k s' d' msg, (1 <= k <= 120)%nat /\ ticks (replicate k false) s = Some s' /\ good r s' /\ nif s' = nif s /\
    data s' = Some d' /\ state d' = DHCP_STATE_SELECTING /\ discover_message (nif s) msg /\
    exists more, (more = [] \/ more = [AutoipStart]) /\ events (glb s') = events (glb s) ++ [Sent IP_ADDR_BROADCAST true msg] ++ more.
Proof.
  intros Hgood Hs Hst. destruct (good_dhcp _ _ Hgood d Hs) as (Hd & Ht & Hh & _).
  assert (Hw : waits (state d) = true) by (unfold waits; by destruct Hst as [-> | ->]).
  specialize (Ht Hw). pose proof (request_range _ (timers_wf d Hd)) as Hrange.
  assert (Hp : pcb_allocated d = true) by (unfold holds_pcb in Hh; by destruct Hst as [E|E]; rewrite E in Hh).
  set (d1 := in_tim (set_request_timeout 1) d). set (s1 := set_data (Some d1) s).
  assert (E1 : ticks (replicate (Z.to_nat (request_timeout (tim d) - 1)) false) s = Some s1).
  { destruct (decide (request_timeout (tim d) = 1)) as [E|E].
    - rewrite E. cbn [replicate Z.sub Z.to_nat Z.add Z.opp Z.pos_sub ticks]. do 2 f_equal. subst s1 d1. rewrite <- E. destruct s as [n dt g]. cbn in Hs. subst dt.
      by destruct d as [? ? ? ? ? ? [] ?].
    - apply fine_counts; [done|lia|lia]. }
  set (d2 := in_tim (set_request_timeout 0) d). set (s2 := set_data (Some d2) s).
  assert (Hrun : running r s2 d2).
  { apply (running_set_data r s d); [by apply good_running| |done]. destruct Hd as [? ? [] ?]. by split. }
  destruct (discover_spec r s2 d2 Hrun) as (x & g & g1 & a & E2 & Hx & Hsends & Hg).
  destruct (discover_good r s2 d2 Hrun Hp) as (s' & d' & E2' & Hg' & Hn' & Hd' & Hst' & _).
  rewrite E2 in E2'. injection E2' as <-.
  assert (Hmsg : exists msg, discover_message (nif s) msg /\ events g1 = events (glb s) ++ [Sent IP_ADDR_BROADCAST true msg]).
  { destruct Hsends as (its & Hl & (_ & _ & Hok & [Hev|(k & Hev & _)])).
    - exfalso. apply Hok; [|done]. change (glb s2) with (glb s). rewrite memory.
      rewrite (pcb_used _ _ (good_glob _ _ Hgood)), Hs. cbn [users_of andb]. rewrite Hp. pose proof (good_others _ _ Hgood). lia.
    - eexists. split; [|exact Hev]. inversion Hl; subst. eexists _, k. done. }
  destruct Hmsg as (msg & Hmsg & Hev).
  exists (Z.to_nat (request_timeout (tim d) - 1) + 1)%nat. eexists _, d', msg. split; [lia|]. split; [|split; [exact Hg'|]].
  { rewrite replicate_add, ticks_app, E1. cbn [mbind option_bind replicate ticks tick]. unfold fine_tick. cbn [s1 set_data data]. cbv zeta.
    cbn [d1 in_tim set_tim tim set_request_timeout request_timeout Z.ltb Z.compare Pos.compare Pos.compare_cont Z.eqb Pos.eqb].
    change (set_data _ _) with s2. unfold dhcp_timeout. change (data s2) with (Some d2). cbn [mbind option_bind].
    change (state d2) with (state d). destruct Hst as [-> | ->]; rewrite E2; reflexivity. }
  split; [done|]. split; [exact Hd'|]. split; [done|]. split; [done|]. cbn [glb].
  destruct Hg as [-> | ->]; [exists []|exists [AutoipStart]]; (split; [by auto|]).
  - by rewrite Hev.
  - cbn [log set_events events]. by rewrite Hev, <- app_assoc.
Qed.

(** A client without an answer asks again and again. *)
Lemma discover_forever r m : forall s d,
  good r s -> data s = Some d -> state d = DHCP_STATE_SELECTING \/ state d = DHCP_STATE_BACKING_OFF ->
  exists k s', (m <= k <= 120 * m)%nat /\ ticks (replicate k false) s = Some s' /\ good r s' /\
    discovered (nif s) m (events (glb s)) (events (glb s')).
Proof.
  induction m as [|m IH]; intros s d Hg Hs Hst; [exists 0%nat, s; split; [lia|]; split; [done|]; split; [done|constructor]|].
  destruct (discover_again r s d Hg Hs Hst) as (k1 & s1 & d1 & msg & Hk1 & E1 & Hg1 & Hn1 & Hs1 & Hst1 & Hmsg & more & Hmore & Hev).
  destruct (IH s1 d1 Hg1 Hs1 (or_introl Hst1)) as (k2 & s2 & Hk2 & E2 & Hg2 & Hm). rewrite Hn1 in Hm.
  exists (k1 + k2)%nat, s2. split; [lia|]. rewrite replicate_add, ticks_app, E1. cbn [mbind option_bind]. split; [done|]. split; [done|].
  apply (discovered_S _ m _ msg more); [done|done|]. by rewrite <- Hev.
Qed.
End Ticks.
End DhcpTicks.
