(* ===== verification/DhcpSystem.v ===== *)
(** The DHCP client of lwIP: all interfaces over any history of calls. *)

From stdpp Require Import gmap.
From S2P Require Export DhcpRun.
Export DhcpRun.
Open Scope Z_scope.

Module DhcpSystem.

(** What happens to the module: calls of the application, of ARP, of UDP and of the
    timers, on the interface with a number, and changes of an interface. *)
Inductive happening :=
  | Start (i : nat)
  | Stop (i : nat)
  | Renew (i : nat)
  | Inform (i : nat)
  | NetworkChanged (i : nat)
  | ArpReply (i : nat) (addr : Z)
  | Recv (i : nat) (p : chain)
  | CoarseTmr
  | FineTmr
  | SetStruct (i : nat)
  | Cleanup (i : nat)
  | Netif (i : nat) (up link_up : bool) (new_mtu : Z).

Section System.
Context {Opt : DhcpOptions} {Pbufs : DhcpPbufs} {World : DhcpWorld}.

(** A call whose result is not looked at. *)
Definition ignore {A} (f : client -> option (A * client)) (s : client) : option client := '(_, s) ← f s; Some s.

Definition set_link (up link_up : bool) (new_mtu : Z) (s : client) : client :=
  let n := nif s in
  set_nif (mkNetif (hwaddr n) (hwaddr_len n) new_mtu up link_up (flag_etharp n) (hostname n) (ip_addr n) (netmask n) (gw n)) s.

Definition step (e : happening) (y : system) : option system :=
  match e with
  | Start i => on_netif i (ignore dhcp_start) y
  | Stop i => on_netif i dhcp_stop y
  | Renew i => on_netif i (ignore dhcp_renew) y
  | Inform i => on_netif i dhcp_inform y
  | NetworkChanged i => on_netif i dhcp_network_changed y
  | ArpReply i addr => on_netif i (dhcp_arp_reply addr) y
  | Recv i p => on_netif i (dhcp_recv p) y
  | CoarseTmr => dhcp_coarse_tmr y
  | FineTmr => dhcp_fine_tmr y
  | SetStruct i => on_netif i dhcp_set_struct y
  | Cleanup i => on_netif i (fun s => Some (dhcp_cleanup s)) y
  | Netif i up link_up new_mtu => on_netif i (fun s => Some (set_link up link_up new_mtu s)) y
  end.

Fixpoint run (es : list happening) (y : system) : option system :=
  match es with
  | [] => Some y
  | e :: es => y ← step e y; run es y
  end.

(** What a call expects: a lease is renewed by a client that was started, a structure
    is set where there is none and removed after the client was stopped, messages come
    in buffers as [wf_chain] says. *)
Definition expects (e : happening) (s : client) : Prop :=
  match e with
  | Renew _ => exists d, data s = Some d /\ state d <> DHCP_STATE_OFF
  | Recv _ p => wf_chain p
  | SetStruct _ => data s = None
  | Cleanup _ => users_of (data s) = 0
  | Netif _ _ _ new_mtu => 0 <= new_mtu < 2 ^ 16
  | _ => True
  end.

Definition on_interface (e : happening) : option nat :=
  match e with
  | Start i | Stop i | Renew i | Inform i | NetworkChanged i | ArpReply i _ | Recv i _ | SetStruct i | Cleanup i
  | Netif i _ _ _ => Some i
  | CoarseTmr | FineTmr => None
  end.

Definition allowed (e : happening) (y : system) : Prop :=
  match on_interface e with
  | Some i => exists s, client_at i y = Some s /\ expects e s
  | None => True
  end.

Inductive history : list happening -> system -> Prop :=
  | history_nil y : history [] y
  | history_cons e es y : allowed e y -> (forall y', step e y = Some y' -> history es y') -> history (e :: es) y.

(** ** The invariant of all interfaces *)

(** The addresses that messages which arrived on an interface acknowledged. *)
Definition acked_by (h : list happening) (i : nat) : Acknowledged :=
  {| acked a := a = 0 \/ exists p, Recv i p ∈ h /\ acknowledges p a; acked_any := or_introl eq_refl |}.

Fixpoint total (l : list (netif * option dhcp)) : Z :=
  match l with [] => 0 | x :: l => users_of x.2 + total l end.

Record wf_system (h : list happening) (y : system) : Prop := {
  few_netifs : (length (netifs y) < 255)%nat;
  clients_good : forall i s, client_at i y = Some s -> good (Ack := acked_by h i) (total (netifs y) - users_of (data s)) s;
  globals_wf : wf_glob (total (netifs y)) (globals y)
}.

Lemma users_range d : 0 <= users_of d <= 1.
Proof. destruct d as [d|]; cbn; [destruct (pcb_allocated d)|]; lia. Qed.

Lemma total_range l : 0 <= total l <= Z.of_nat (length l).
Proof. induction l as [|x l IH]; cbn [total length]; [lia|]. pose proof (users_range x.2). lia. Qed.

Lemma total_insert l i x x' : l !! i = Some x -> total (<[i := x']> l) = total l - users_of x.2 + users_of x'.2.
Proof.
  revert i. induction l as [|z l IH]; intros [|i] Hi; cbn [lookup list_lookup] in Hi; try done.
  - injection Hi as ->. cbn [insert list_insert total]. lia.
  - change (total (<[S i := x']> (z :: l))) with (users_of z.2 + total (<[i := x']> l)). rewrite (IH i Hi).
    cbn [total]. lia.
Qed.

Lemma total_others l i x : l !! i = Some x -> 0 <= total l - users_of x.2 <= Z.of_nat (length l) - 1.
Proof.
  revert i. induction l as [|z l IH]; intros [|i] Hi; cbn [lookup list_lookup] in Hi; try done; cbn [total length].
  - injection Hi as ->. pose proof (total_range l). lia.
  - specialize (IH i Hi). pose proof (users_range z.2). lia.
Qed.

Lemma good_mono (A B : Acknowledged) r s : (forall a, acked (Acknowledged := A) a -> acked (Acknowledged := B) a) ->
  good (Ack := A) r s -> good (Ack := B) r s.
Proof.
  intros HAB [Hn Hg Hr Ha Hd]. split; try done; [by apply HAB|]. intros d Hs.
  destruct (Hd d Hs) as (? & ? & ? & Hc). split_and!; try done. intros Hst. by apply HAB, Hc.
Qed.

Lemma acked_grow h h' i a : h ⊆ h' -> acked (Acknowledged := acked_by h i) a -> acked (Acknowledged := acked_by h' i) a.
Proof. intros Hh [Ha|(p & Hp & Ha)]; [by left|right; exists p; split; [by apply Hh|done]]. Qed.

Lemma client_netif i y s : client_at i y = Some s -> netifs y !! i = Some (nif s, data s) /\ glb s = globals y.
Proof. unfold client_at. destruct (netifs y !! i) as [[n d]|]; [|done]. by intros [= <-]. Qed.

Lemma wf_system_grow h h' y : h ⊆ h' -> wf_system h y -> wf_system h' y.
Proof.
  intros Hh [Hl Hc Hg]. split; try done. intros i s Hi. eapply good_mono; [|by apply Hc]. intros a. by apply acked_grow.
Qed.

(** An operation on one interface that keeps its client good. *)
Lemma on_netif_good h i s f y :
  wf_system h y -> client_at i y = Some s ->
  (good (Ack := acked_by h i) (total (netifs y) - users_of (data s)) s ->
   exists s', f s = Some s' /\ good (Ack := acked_by h i) (total (netifs y) - users_of (data s)) s') ->
  exists y', on_netif i f y = Some y' /\ wf_system h y' /\ length (netifs y') = length (netifs y).
Proof.
  intros Hy Hi Hf. pose proof Hy as [Hl Hc Hg]. destruct (Hf (Hc i s Hi)) as (s' & E & Hs').
  destruct (client_netif i y s Hi) as [Hn _]. unfold on_netif. rewrite Hi. cbn [mbind option_bind]. rewrite E. cbn [mbind option_bind].
  eexists. split; [done|]. split; [|by apply length_insert].
  pose proof (total_insert _ _ _ (nif s', data s') Hn) as Ht. cbn [snd] in Ht.
  assert (Htot : total (netifs y) - users_of (data s) + users_of (data s') = total (<[i := (nif s', data s')]> (netifs y))) by lia.
  pose proof (good_glob _ _ Hs') as Hg'. rewrite Htot in Hg'.
  assert (Hil : (i < length (netifs y))%nat) by (by eapply lookup_lt_Some).
  split; cbn [put_client netifs globals].
  - by rewrite length_insert.
  - intros j sj Hj. destruct (client_netif j _ sj Hj) as [Hnj Hgj]. cbn [put_client netifs globals] in Hnj, Hgj.
    pose proof (total_others _ _ _ Hnj) as Hoj. rewrite length_insert in Hoj. cbn [snd] in Hoj.
    destruct (decide (j = i)) as [->|Hne].
    + rewrite list_lookup_insert_eq in Hnj by done. injection Hnj as E1 E2.
      assert (sj = s') as -> by (destruct sj, s'; cbn in *; congruence). rewrite Ht.
      replace (_ - _ + _ - _) with (total (netifs y) - users_of (data s)) by lia. done.
    + rewrite list_lookup_insert_ne in Hnj by done.
      assert (Hold : client_at j y = Some (mkClient (nif sj) (data sj) (globals y))) by (unfold client_at; by rewrite Hnj).
      destruct (Hc j _ Hold) as [Hwn _ _ Ha Hd]. split; try done; [|lia].
      replace (_ - _ + _) with (total (<[i := (nif s', data s')]> (netifs y))) by lia. by rewrite Hgj.
  - done.
Qed.

Lemma on_netifs_good h f : (forall i r s, good (Ack := acked_by h i) r s -> exists s', f s = Some s' /\ good (Ack := acked_by h i) r s') ->
  forall ids y, wf_system h y -> Forall (fun i => (i < length (netifs y))%nat) ids ->
  exists y', on_netifs ids f y = Some y' /\ wf_system h y'.
Proof.
  intros Hf ids. induction ids as [|i ids IH]; intros y Hy Hids; [by exists y|]. apply Forall_cons in Hids as [Hi Hids].
  destruct (lookup_lt_is_Some_2 _ _ Hi) as [[n d] Hn]. cbn [on_netifs].
  destruct (on_netif_good h i (mkClient n d (globals y)) f y Hy) as (y1 & -> & Hy1 & Hl).
  { unfold client_at. by rewrite Hn. }
  { apply Hf. }
  cbn [mbind option_bind]. apply IH; [done|]. by rewrite Hl.
Qed.

Lemma all_netifs_in y : Forall (fun i => (i < length (netifs y))%nat) (all_netifs y).
Proof. apply Forall_forall. intros i Hi. apply elem_of_seq in Hi. lia. Qed.

(** There is a slot for every DNS server that is decoded. *)
Hypothesis dns_slots : DNS_MAX_SERVERS <= LWIP_DHCP_MAX_DNS_SERVERS.

(** Every call that is made as expected keeps its client good. *)
Lemma expected_good {Ack : Acknowledged} e i s r :
  on_interface e = Some i -> expects e s -> good r s ->
  (forall p a, e = Recv i p -> acknowledges p a -> acked a) ->
  exists f s', (forall y, step e y = on_netif i f y) /\ f s = Some s' /\ good r s'.
Proof.
  intros Hi He Hg Hack. destruct e; cbn in Hi; try done; injection Hi as ->; cbn [expects] in He.
  - destruct (start_spec r s Hg) as (err & s' & E & Hg' & _). exists (ignore dhcp_start), s'.
    split; [done|]. unfold ignore. by rewrite E.
  - exists dhcp_stop. unfold dhcp_stop. destruct (data s) as [d|] eqn:Hs.
    + destruct (good_dhcp _ _ Hg d Hs) as (_ & _ & Hh & _).
      destruct (stop_spec r s d (good_running r s d Hg Hs) Hh) as (s' & E & Hg' & _). by exists s'.
    + exists s. unfold dhcp_release_and_stop. by rewrite Hs.
  - destruct He as (d & Hs & Hst). pose proof (good_running r s d Hg Hs) as Hrun.
    destruct (renew_spec r s d Hrun) as (res & x & g & E & Hx & Hsends). exists (ignore dhcp_renew). eexists.
    split; [done|]. unfold ignore. rewrite E. cbn [mbind option_bind]. split; [done|].
    exact (asked_good r s d Hrun DHCP_STATE_RENEWING _ x _ _ _ g (good_alloc r s d Hg Hs Hst) ltac:(by split) Hx (linear_ok 2000 ltac:(lia)) Hsends).
  - destruct (inform_good r s Hg) as (s' & E & Hg' & _). by exists dhcp_inform, s'.
  - destruct (network_changed_good r s Hg) as (s' & E & Hg' & _). by exists dhcp_network_changed, s'.
  - destruct (arp_reply_good r s addr Hg) as (s' & E & Hg' & _). by exists (dhcp_arp_reply addr), s'.
  - destruct (recv_good dns_slots r s p Hg He) as (s' & E & Hg'); [by intros a; apply Hack|]. by exists (dhcp_recv p), s'.
  - exists dhcp_set_struct. eexists. split; [done|]. unfold dhcp_set_struct. rewrite He, bool_decide_true by done.
    split; [reflexivity|]. destruct Hg as [Hn Hg Hr Ha Hd]. rewrite He in Hg.
    apply (good_off _ _ dhcp_zero); [|done..]. split; try done. apply (wf_zero false).
  - exists (fun s => Some (dhcp_cleanup s)). eexists. split; [done|]. split; [done|].
    destruct Hg as [Hn Hg Hr Ha Hd]. rewrite He in Hg. by split.
  - eexists (fun s => Some (set_link up link_up new_mtu s)), _. split; [done|]. split; [done|].
    destruct Hg as [Hn Hg Hr Ha Hd]. split; try done. by destruct Hn as (? & ? & ? & ? & ? & ?).
Qed.

Lemma call_good h e y :
  wf_system h y -> allowed e y -> exists y', step e y = Some y' /\ wf_system (h ++ [e]) y'.
Proof.
  intros Hy He. assert (Hy' : wf_system (h ++ [e]) y) by (apply (wf_system_grow h); [intros x Hx; apply elem_of_app; by left|done]).
  unfold allowed in He. destruct (on_interface e) as [i|] eqn:Ei.
  - destruct He as (s & Hs & He).
    destruct (expected_good (Ack := acked_by (h ++ [e]) i) e i s (total (netifs y) - users_of (data s)) Ei He)
      as (f & s' & Hstep & Ef & Hg).
    { by apply (clients_good _ _ Hy'). }
    { intros p a -> Ha. right. exists p. split; [|done]. apply elem_of_app. right. apply list_elem_of_here. }
    destruct (on_netif_good (h ++ [e]) i s f y Hy' Hs) as (y2 & E & Hy2 & _); [by intros _; exists s'|].
    exists y2. by rewrite Hstep.
  - destruct e; try done; cbn [step].
    + apply on_netifs_good; [|done|apply all_netifs_in]. intros i r s. apply coarse_tick_good.
    + apply on_netifs_good; [|done|apply all_netifs_in]. intros i r s. apply fine_tick_good.
Qed.

Lemma run_good es : forall h y,
  wf_system h y -> history es y -> exists y', run es y = Some y' /\ wf_system (h ++ es) y'.
Proof.
  induction es as [|e es IH]; intros h y Hy Hes; [exists y; by rewrite app_nil_r|].
  inversion Hes as [|? ? ? He Hrest]; subst. destruct (call_good h e y Hy He) as (y1 & E & Hy1). cbn [run]. rewrite E.
  cbn [mbind option_bind]. destruct (IH (h ++ [e]) y1 Hy1 (Hrest y1 E)) as (y' & -> & Hy'). exists y'.
  by rewrite <- app_assoc in Hy'.
Qed.

(** The module before its first call: interfaces without an address and without a client. *)
Definition boot (ns : list netif) (x : Z) : system :=
  mkSystem ((fun n => (n, None)) <$> ns) (mkGlob ∅ false 0 x 0 []).

Lemma total_boot ns : total ((fun n => (n, None)) <$> ns) = 0.
Proof. induction ns as [|n ns IH]; [done|]. cbn [fmap list_fmap total snd users_of]. exact IH. Qed.

Lemma boot_good ns x :
  (length ns < 255)%nat -> Forall (fun n => wf_netif n /\ ip_addr n = 0) ns -> 0 <= x < 2 ^ 32 -> wf_system [] (boot ns x).
Proof.
  intros Hl Hns Hx. assert (Hg : wf_glob 0 (mkGlob ∅ false 0 x 0 [])) by (by split).
  split; cbn [boot netifs globals]; rewrite ?total_boot; [by rewrite length_fmap| |done].
  intros i s Hs. destruct (client_netif i _ s Hs) as [Hn Hgl]. cbn [boot netifs globals] in *.
  rewrite list_lookup_fmap in Hn. destruct (ns !! i) as [n|] eqn:E; [|done]. injection Hn as En Ed.
  destruct (Forall_lookup_1 _ _ _ _ Hns E) as [Hw Hip]. rewrite <- Ed. split; rewrite <- ?Ed, <- ?En, ?Hgl; try done.
  by left.
Qed.
End System.
End DhcpSystem.
