(* ===== verification/DhcpSent.v ===== *)
(** The DHCP client of lwIP: who sends a message. Every message is that of one client,
    from the interface it has and for the state that the call leaves it in. *)

From stdpp Require Import gmap.
From S2P Require Export DhcpSystem.
Export DhcpSystem.
Open Scope Z_scope.

Module DhcpSent.

Section Sent.
Context {Opt : DhcpOptions} {Pbufs : DhcpPbufs} {World : DhcpWorld}.

(** A call finds a client as [s] and leaves it as [s']. The message that it sends to
    [dst] is written from an interface and a structure: those that the call leaves, for
    what the client asks for from then on; for a message RELEASE the interface that
    still has its address and the server of the lease that ends; for a message INFORM
    a structure of its own. *)
Inductive sender (s s' : client) (n : netif) : dhcp -> Z -> Z -> Prop :=
  | sender_request d message_type dst :
      data s' = Some d -> n = nif s' -> message_type <> DHCP_RELEASE -> sender s s' n d message_type dst
  | sender_release d x :
      data s = Some d -> dhcp_supplied_address s = true -> n = nif s -> 0 <= x < 2 ^ 32 ->
      sender s s' n (set_d_xid x (dhcp_set_state DHCP_STATE_OFF d)) DHCP_RELEASE (server_ip_addr (off d))
  | sender_inform x dst :
      n = nif s -> 0 <= x < 2 ^ 32 ->
      sender s s' n (set_d_xid x (dhcp_set_state DHCP_STATE_INFORMING dhcp_zero)) DHCP_INFORM dst.

Definition sent_by (s s' : client) (e : event) : Prop :=
  match e with
  | Sent dst src_any msg =>
      exists n d message_type its k, sender s s' n d message_type dst /\ legal n d message_type its dst src_any /\
        msg = message (msg_header n d message_type) (type_item message_type :: its) k /\ msg_size_ok msg
  | _ => True
  end.

(** Only events with [P] are added. *)
Definition adds (P : event -> Prop) (g g' : glob) : Prop := exists new, events g' = events g ++ new /\ Forall P new.

Lemma adds_same P g g' : events g' = events g -> adds P g g'.
Proof. intros E. exists []. by rewrite app_nil_r. Qed.

Lemma adds_log P e g g' : adds P g g' -> P e -> adds P g (log e g').
Proof.
  intros (new & E & H) He. exists (new ++ [e]). cbn [log set_events events]. rewrite E, app_assoc.
  split; [done|]. apply Forall_app. split; [done|by apply Forall_singleton].
Qed.

Lemma adds_trans P a b c : adds P a b -> adds P b c -> adds P a c.
Proof.
  intros (n1 & E1 & H1) (n2 & E2 & H2). exists (n1 ++ n2). rewrite E2, E1, app_assoc. split; [done|by apply Forall_app].
Qed.

Lemma adds_mono (P Q : event -> Prop) a b : (forall e, P e -> Q e) -> adds P a b -> adds Q a b.
Proof. intros H (new & E & Hn). exists new. split; [done|]. by eapply Forall_impl. Qed.

(** The structure matters by its state, its transaction and its offer. *)
Lemma legal_like n d d' message_type its dst any :
  state d' = state d -> off d' = off d -> legal n d message_type its dst any -> legal n d' message_type its dst any.
Proof. intros Es Eo Hl. destruct Hl; rewrite <- ?Eo; econstructor; congruence. Qed.

Lemma header_like n d d' message_type :
  state d' = state d -> d_xid d' = d_xid d -> msg_header n d' message_type = msg_header n d message_type.
Proof. intros Es Ex. unfold msg_header. by rewrite Es, Ex. Qed.

Lemma sent_by_earlier s1 s s' e d1 d :
  nif s = nif s1 -> data s1 = Some d1 -> data s = Some d -> state d1 = state d -> off d1 = off d ->
  sent_by s1 s' e -> sent_by s s' e.
Proof.
  intros En E1 E Est Eoff. destruct e; try done. intros (n & dd & mt & its & k & Hs & Hl & -> & Hk).
  destruct Hs as [dd mt dst Hd Hn Hne|dd x Hd Hsup Hn Hx|x dst Hn Hx].
  - exists n, dd, mt, its, k. split; [by apply sender_request|done].
  - rewrite E1 in Hd. injection Hd as <-.
    assert (Hst : state (set_d_xid x (dhcp_set_state DHCP_STATE_OFF d)) = state (set_d_xid x (dhcp_set_state DHCP_STATE_OFF d1))).
    { change (state (dhcp_set_state DHCP_STATE_OFF d) = state (dhcp_set_state DHCP_STATE_OFF d1)). by rewrite !set_state_state. }
    assert (Hof : off (set_d_xid x (dhcp_set_state DHCP_STATE_OFF d)) = off (set_d_xid x (dhcp_set_state DHCP_STATE_OFF d1))).
    { change (off (dhcp_set_state DHCP_STATE_OFF d) = off (dhcp_set_state DHCP_STATE_OFF d1)). by rewrite !set_state_off. }
    exists n, (set_d_xid x (dhcp_set_state DHCP_STATE_OFF d)), DHCP_RELEASE, its, k.
    rewrite (header_like n (set_d_xid x (dhcp_set_state DHCP_STATE_OFF d1)) (set_d_xid x (dhcp_set_state DHCP_STATE_OFF d))) by done.
    split; [|split; [by eapply legal_like|done]].
    rewrite Eoff. apply sender_release; [done| |congruence|done].
    revert Hsup. unfold dhcp_supplied_address. by rewrite E1, E, Est.
  - eexists n, _, _, its, k. split; [apply sender_inform; [congruence|exact Hx]|done].
Qed.

Section Ops.
Context {Ack : Acknowledged}.

(** A request leaves the structure that it was written from. *)
Lemma asked_adds s0 s d st x message_type dst any g s' d' :
  sends s d st x message_type dst any g -> message_type <> DHCP_RELEASE ->
  nif s' = nif s -> data s' = Some d' -> state d' = st -> off d' = off d -> d_xid d' = x ->
  adds (sent_by s0 s') (glb s) g.
Proof.
  intros (its & Hl & _ & _ & _ & [E|(k & E & Hk)]) Hne Hn Hd Hst Hoff Hx; [by apply adds_same|].
  exists [Sent dst any (message (msg_header (nif s) (set_d_xid x (dhcp_set_state st d)) message_type) (type_item message_type :: its) k)].
  split; [done|]. apply Forall_singleton.
  assert (Es : state d' = state (set_d_xid x (dhcp_set_state st d))) by (rewrite Hst; symmetry; exact (set_state_state st d)).
  assert (Eo : off d' = off (set_d_xid x (dhcp_set_state st d))) by (rewrite Hoff; symmetry; exact (set_state_off st d)).
  exists (nif s), d', message_type, its, k. rewrite (header_like _ (set_d_xid x (dhcp_set_state st d)) d') by done.
  split; [by apply sender_request|]. split; [by eapply legal_like|done].
Qed.

Lemma asked_by s0 s d st msecs x message_type dst any g :
  sends s d st x message_type dst any g -> message_type <> DHCP_RELEASE ->
  adds (sent_by s0 (asked s d st msecs x g)) (glb s) g.
Proof.
  intros Hs Hne. destruct (after_request_facts st x msecs d) as (? & ? & ? & ? & ?).
  by eapply (asked_adds s0 s d st x _ _ _ g).
Qed.

Lemma select_adds r s0 s d res s' : running r s d -> dhcp_select s = Some (res, s') -> adds (sent_by s0 s') (glb s) (glb s').
Proof.
  intros Hrun E. destruct (select_spec r s d Hrun) as (res' & x & g & E' & _ & _ & Hs). rewrite E in E'. injection E' as -> ->.
  by eapply asked_by.
Qed.

Lemma renew_adds r s0 s d res s' : running r s d -> dhcp_renew s = Some (res, s') -> adds (sent_by s0 s') (glb s) (glb s').
Proof.
  intros Hrun E. destruct (renew_spec r s d Hrun) as (res' & x & g & E' & _ & Hs). rewrite E in E'. injection E' as -> ->.
  by eapply asked_by.
Qed.

Lemma rebind_adds r s0 s d res s' : running r s d -> dhcp_rebind s = Some (res, s') -> adds (sent_by s0 s') (glb s) (glb s').
Proof.
  intros Hrun E. destruct (rebind_spec r s d Hrun) as (res' & x & g & E' & _ & Hs). rewrite E in E'. injection E' as -> ->.
  by eapply asked_by.
Qed.

Lemma reboot_adds r s0 s d res s' : running r s d -> dhcp_reboot s = Some (res, s') -> adds (sent_by s0 s') (glb s) (glb s').
Proof.
  intros Hrun E. destruct (reboot_spec r s d Hrun) as (res' & x & g & E' & _ & Hs). rewrite E in E'. injection E' as -> ->.
  by eapply asked_by.
Qed.

Lemma decline_adds r s0 s d res s' : running r s d -> dhcp_decline s = Some (res, s') -> adds (sent_by s0 s') (glb s) (glb s').
Proof.
  intros Hrun E. destruct (decline_spec r s d Hrun) as (res' & x & g & E' & _ & Hs). rewrite E in E'. injection E' as -> ->.
  by eapply asked_by.
Qed.

Lemma discover_adds r s0 s d res s' : running r s d -> dhcp_discover s = Some (res, s') -> adds (sent_by s0 s') (glb s) (glb s').
Proof.
  intros Hrun E. destruct (discover_spec r s d Hrun) as (x & g & g1 & a & E' & _ & Hs & Hg). rewrite E in E'. injection E' as -> ->.
  destruct (after_request_facts DHCP_STATE_SELECTING x backoff (forget d)) as (? & ? & ? & ? & ?). cbn [glb].
  assert (Ha : adds (sent_by s0 (mkClient (nif s) (Some (set_autoip_coop_on a (after_request DHCP_STATE_SELECTING x backoff (forget d)))) g)) (glb s) g1)
    by by eapply (asked_adds s0 s (forget d) DHCP_STATE_SELECTING x).
  destruct Hg as [-> | ->]; [done|by apply adds_log].
Qed.
(** ** Stop and start *)

Lemma dec_events g g' : dhcp_dec_pcb_refcount g = Some g' -> events g' = events g.
Proof.
  unfold dhcp_dec_pcb_refcount. destruct (lwip_assert _); [|done]. cbn [mbind option_bind]. intros [= <-]. by destruct (_ =? 0).
Qed.

Lemma inc_events g err g' : dhcp_inc_pcb_refcount g = Some (err, g') -> events g' = events g.
Proof.
  unfold dhcp_inc_pcb_refcount. destruct (_ =? 0); [|by intros [= _ <-]]. destruct (lwip_assert _); [|done].
  cbn [mbind option_bind call]. destruct (udp_new_ok _); by intros [= _ <-].
Qed.

Lemma autoip_adds (P : event -> Prop) d g d' g' : P AutoipStop -> stop_autoip d g = (d', g') -> adds P g g'.
Proof.
  intros HP E. destruct (stop_autoip_spec d g) as (a & g1 & E1 & Hg). rewrite E in E1. injection E1 as _ ->.
  destruct Hg as [-> | ->]; [by apply adds_same|by apply adds_log; [apply adds_same|]].
Qed.

(** A message RELEASE names the server of the lease and comes from its address. *)
Lemma release_adds r s s' d x g1 p res g :
  running r s d -> dhcp_supplied_address s = true ->
  dhcp_create_msg (nif s) (dhcp_set_state DHCP_STATE_OFF (no_lease d)) DHCP_RELEASE (glb s) =
    Some (set_d_xid x (dhcp_set_state DHCP_STATE_OFF (no_lease d)), g1, p) ->
  send_msg p (write_addr DHCP_OPTION_SERVER_ID (server_ip_addr (off d))) (server_ip_addr (off d)) false g1 = Some (res, g) ->
  adds (sent_by s s') (glb s) g.
Proof.
  intros Hrun Hsup Ec Es. pose proof (run_dhcp _ _ _ Hrun) as Hd.
  pose proof (running_set_data r s d (no_lease d) Hrun (wf_no_lease d Hd) eq_refl) as Hf.
  assert (Hserver : 0 <= server_ip_addr (off d) < 2 ^ 32) by apply Hd.
  destruct (request_spec r _ (no_lease d) Hf DHCP_STATE_OFF DHCP_RELEASE
    (fun _ => write_addr DHCP_OPTION_SERVER_ID (server_ip_addr (off d))) _ _ _ ltac:(done)
    (fun x => legal_release (nif s) (set_d_xid x (dhcp_set_state DHCP_STATE_OFF (no_lease d))) _ (set_state_state _ _) Hserver)
    (fun _ => appends_addr DHCP_OPTION_SERVER_ID _ ltac:(done) Hserver)) as (x' & g1' & p' & res' & g' & Ec' & Es' & Hx & _ & (its & Hl & Ht)).
  change (glb (set_data _ s)) with (glb s) in *. change (nif (set_data _ s)) with (nif s) in *.
  rewrite Ec in Ec'. injection Ec' as Ed <- <-. cbv beta in Es'. rewrite Es in Es'. injection Es' as <- <-.
  subst x'.
  destruct Ht as (_ & _ & _ & [E|(k & E & Hk)]); [by apply adds_same|]. eexists [_]. split; [exact E|]. apply Forall_singleton.
  assert (Hst : state (set_d_xid x (dhcp_set_state DHCP_STATE_OFF d)) = state (set_d_xid x (dhcp_set_state DHCP_STATE_OFF (no_lease d)))).
  { change (state (dhcp_set_state DHCP_STATE_OFF d) = state (dhcp_set_state DHCP_STATE_OFF (no_lease d))). by rewrite !set_state_state. }
  exists (nif s), (set_d_xid x (dhcp_set_state DHCP_STATE_OFF d)), DHCP_RELEASE, its, k.
  rewrite (header_like _ (set_d_xid x (dhcp_set_state DHCP_STATE_OFF (no_lease d))) (set_d_xid x (dhcp_set_state DHCP_STATE_OFF d))) by done.
  split; [apply sender_release; [exact (run_data _ _ _ Hrun)|done..]|]. split; [|done].
  inversion Hl; subst; apply legal_release; [exact (set_state_state DHCP_STATE_OFF d)|done].
Qed.

Lemma stop_adds r s s0 d s' :
  running r s d -> dhcp_release_and_stop s = Some s' -> adds (sent_by s s0) (glb s) (glb s').
Proof.
  intros Hrun E. pose proof (run_data _ _ _ Hrun) as Hs. pose proof Hrun as [_ Hn Hd Hg Hr Ha]. unfold dhcp_release_and_stop in E.
  rewrite Hs in E. destruct (bool_decide _); [injection E as <-; by apply adds_same|]. cbv zeta in E. fold (no_lease d) in E.
  set (mid := if dhcp_supplied_address s then _ else _) in E.
  assert (Hmid : forall s1, mid = Some s1 -> adds (sent_by s s0) (glb s) (glb s1)).
  { intros s1 E1. unfold mid in E1. destruct (dhcp_supplied_address s) eqn:Hsup; [|injection E1 as <-; by apply adds_same].
    destruct (dhcp_create_msg _ _ _ _) as [[[d1 g1] p]|] eqn:Ec; [|done]. cbn [mbind option_bind] in E1.
    destruct (send_msg _ _ _ _ _) as [[res g]|] eqn:Es; [|done]. cbn [mbind option_bind] in E1. injection E1 as <-.
    cbn [netif_set_addr glb]. apply adds_log; [|done].
    assert (Hd1 : exists x, d1 = set_d_xid x (dhcp_set_state DHCP_STATE_OFF (no_lease d))).
    { destruct (create_msg_spec (nif s) (dhcp_set_state DHCP_STATE_OFF (no_lease d)) DHCP_RELEASE (glb s) ltac:(done) (next_xid_range _ _ Hg))
        as (d' & g' & p' & Ec' & Hx & _). rewrite Ec in Ec'. injection Ec' as -> _ _.
      destruct Hx as [->|(_ & x & -> & _)]; [|by exists x]. exists (d_xid (dhcp_set_state DHCP_STATE_OFF (no_lease d))). by destruct (dhcp_set_state _ _). }
    destruct Hd1 as [x ->]. by eapply release_adds. }
  destruct mid as [s1|]; [|done]. cbn [mbind option_bind] in E. specialize (Hmid s1 eq_refl).
  destruct (data s1) as [d1|]; [|done]. cbn [mbind option_bind] in E. destruct (stop_autoip d1 (glb s1)) as [d2 g2] eqn:Ea.
  pose proof (autoip_adds (sent_by s s0) _ _ _ _ I Ea) as H2. destruct (pcb_allocated d2).
  - destruct (dhcp_dec_pcb_refcount g2) as [g3|] eqn:Edec; [|done]. cbn [mbind option_bind] in E. injection E as <-. cbn [glb].
    eapply adds_trans; [exact Hmid|]. eapply adds_trans; [exact H2|]. by apply adds_same, dec_events.
  - injection E as <-. by eapply adds_trans.
Qed.

Lemma attach_events s err s' : dhcp_attach s = Some (err, s') -> events (glb s') = events (glb s).
Proof.
  unfold dhcp_attach. set (m := match data s with None => _ | Some _ => _ end).
  assert (Hm : forall ok g, m = Some (ok, g) -> events g = events (glb s)).
  { intros ok g E. unfold m in E. destruct (data s) as [d|]; [|by injection E as _ <-]. destruct (pcb_allocated d); [|by injection E as _ <-].
    destruct (dhcp_dec_pcb_refcount (glb s)) as [g1|] eqn:Ed; [|done]. injection E as _ <-. by apply dec_events. }
  destruct m as [[ok g]|]; [|done]. cbn [mbind option_bind]. specialize (Hm ok g eq_refl).
  destruct (negb ok); [by intros [= _ <-]|]. destruct (dhcp_inc_pcb_refcount g) as [[e g2]|] eqn:Ei; [|done]. cbn [mbind option_bind].
  apply inc_events in Ei. destruct (negb _); intros [= _ <-]; cbn [glb]; congruence.
Qed.

Lemma start_adds r s s0 err s' : good r s -> dhcp_start s = Some (err, s') -> adds (sent_by s0 s') (glb s) (glb s').
Proof.
  intros Hgood. unfold dhcp_start. pose proof (good_settled r s Hgood) as Hset.
  destruct (negb _); [intros [= _ <-]; by apply adds_same|]. destruct (_ <? _); [intros [= _ <-]; by apply adds_same|].
  destruct (attach_spec r s Hset) as (e & s1 & Ea & Hn1 & Hcase). rewrite Ea. cbn [mbind option_bind].
  apply attach_events in Ea. destruct Hcase as [[-> Hrun]|(-> & _)].
  2: { intros [= _ <-]. by apply adds_same. }
  change (negb (ERR_OK =? ERR_OK)) with false. cbv iota. destruct (negb (is_link_up _)).
  { intros [= _ <-]. by apply adds_same. }
  destruct (discover_good r s1 _ Hrun eq_refl) as (s2 & d' & E2 & _). rewrite E2. cbn [mbind option_bind].
  change (negb (ERR_OK =? ERR_OK)) with false. cbv iota. intros [= _ <-].
  eapply adds_trans; [apply adds_same, Ea|]. by eapply discover_adds.
Qed.

Lemma restart_adds r s d s' :
  running r s d -> holds_pcb d -> (s ← dhcp_release_and_stop s; '(_, s) ← dhcp_start s; Some s) = Some s' ->
  adds (sent_by s s') (glb s) (glb s').
Proof.
  intros Hrun Hh E. destruct (stop_spec r s d Hrun Hh) as (s1 & E1 & Hg1 & _). rewrite E1 in E. cbn [mbind option_bind] in E.
  destruct (dhcp_start s1) as [[err s2]|] eqn:E2; [|done]. injection E as <-.
  eapply adds_trans; [by eapply stop_adds|by eapply start_adds].
Qed.

(** ** Other calls *)

Lemma inform_adds r s s0 s' : good r s -> dhcp_inform s = Some s' -> adds (sent_by s s0) (glb s) (glb s').
Proof.
  intros [Hn Hg Hr Ha Hd]. unfold dhcp_inform. assert (Hu : 0 <= r + users_of (data s) < 255).
  { unfold users_of. destruct (data s) as [d|]; [destruct (pcb_allocated d)|]; lia. }
  destruct (inc_pcb_spec _ _ Hg Hu) as (err & g & -> & Eg & [[-> Hi]|(-> & Hi & _)]); cbn [mbind option_bind].
  2: { intros [= <-]. by apply adds_same. }
  change (negb (ERR_OK =? ERR_OK)) with false. cbv iota.
  set (d0 := dhcp_set_state DHCP_STATE_INFORMING dhcp_zero).
  assert (Hl : forall x, legal (nif s) (set_d_xid x d0) DHCP_INFORM [max_item (mtu (nif s))] IP_ADDR_BROADCAST false).
  { intros x. by apply legal_inform. }
  destruct (transmit (nif s) d0 DHCP_INFORM g (fun _ => write_max_msg_size (mtu (nif s))) [max_item (mtu (nif s))]
    IP_ADDR_BROADCAST false) as (x & g1 & p & res & g2 & Ec & Hx & _ & Es & Ht); try done.
  - by apply (next_xid_range _ _ Hi).
  - intros _. apply appends_max_msg_size, Hn.
  - apply (legal_room (nif s) (set_d_xid 0 d0) _ _ IP_ADDR_BROADCAST false); [done|apply Hl].
  - rewrite Ec. cbn [mbind option_bind]. rewrite Es. cbn [mbind option_bind].
    destruct (dhcp_dec_pcb_refcount g2) as [g3|] eqn:Ed; [|done]. cbn [mbind option_bind]. intros [= <-]. apply dec_events in Ed. cbn [glb set_glb].
    eapply adds_trans; [apply adds_same, Eg|]. eapply adds_trans; [|apply adds_same, Ed].
    destruct Ht as (_ & _ & _ & [E|(k & E & Hk)]); [by apply adds_same|]. eexists [_]. split; [exact E|]. apply Forall_singleton.
    eexists (nif s), _, _, _, k. split; [by apply (sender_inform s s0 (nif s) x)|]. split; [apply Hl|done].
Qed.

Lemma network_changed_adds r s s' :
  good r s -> dhcp_network_changed s = Some s' -> adds (sent_by s s') (glb s) (glb s').
Proof.
  intros Hgood. unfold dhcp_network_changed. destruct (data s) as [d|] eqn:Hs; [|intros [= <-]; by apply adds_same].
  pose proof (good_running r s d Hgood Hs) as Hrun. destruct (good_dhcp _ _ Hgood d Hs) as (Hd & _ & Hh & _).
  assert (Hreboot : ('(_, s) ← dhcp_reboot (set_data (Some (set_tries 0 d)) s); Some s) = Some s' -> adds (sent_by s s') (glb s) (glb s')).
  { assert (Hw : wf_dhcp (set_tries 0 d)) by (destruct Hd; by split).
    pose proof (running_set_data r s d (set_tries 0 d) Hrun Hw eq_refl) as Hrun'.
    destruct (dhcp_reboot _) as [[res s1]|] eqn:E; [|done]. intros [= <-]. exact (reboot_adds r s _ _ _ _ Hrun' E). }
  assert (Hdiscover : (let (d, g) := stop_autoip d (glb s) in
    '(_, s) ← dhcp_discover (mkClient (nif s) (Some (set_tries 0 d)) g); Some s) = Some s' -> adds (sent_by s s') (glb s) (glb s')).
  { destruct (stop_autoip_spec d (glb s)) as (a & g & Ea & Hga). pose proof (autoip_adds (sent_by s s') _ _ _ _ I Ea) as H1. rewrite Ea.
    assert (Hrun' : running r (mkClient (nif s) (Some (set_tries 0 (set_autoip_coop_on a d))) g) (set_tries 0 (set_autoip_coop_on a d))).
    { destruct Hrun as [_ Hn _ Hg Hr Ha]. split; try done; [destruct Hd; by split|].
      destruct Hga as [-> | ->]; [done|by apply wf_glob_log]. }
    destruct (dhcp_discover _) as [[res s1]|] eqn:E; [|done]. intros [= <-].
    eapply adds_trans; [exact H1|]. exact (discover_adds r s _ _ _ _ Hrun' E). }
  destruct (state d); try exact Hreboot; try exact Hdiscover. intros [= <-]. by apply adds_same.
Qed.

Lemma arp_reply_adds r s addr s' : good r s -> dhcp_arp_reply addr s = Some s' -> adds (sent_by s s') (glb s) (glb s').
Proof.
  intros Hgood. unfold dhcp_arp_reply. destruct (data s) as [d|] eqn:Hs; [|intros [= <-]; by apply adds_same].
  pose proof (good_running r s d Hgood Hs) as Hrun. case_bool_decide; [|intros [= <-]; by apply adds_same].
  destruct (addr =? _); [|intros [= <-]; by apply adds_same]. destruct (dhcp_decline s) as [[res s1]|] eqn:E; [|done]. intros [= <-].
  by eapply decline_adds.
Qed.
(** ** Replies *)

Lemma dns_adds s s' addrs : forall n g, adds (sent_by s s') g (dns_setservers n addrs g).
Proof.
  induction addrs as [|a addrs IH]; intros n g; cbn [dns_setservers]; [by apply adds_same|].
  eapply adds_trans; [|apply IH]. by apply adds_log; [apply adds_same|].
Qed.

Lemma handle_ack_adds s0 s' s yiaddr s1 : dhcp_handle_ack yiaddr s = Some s1 -> adds (sent_by s0 s') (glb s) (glb s1).
Proof.
  unfold dhcp_handle_ack. destruct (data s) as [d|]; [|done]. cbn [mbind option_bind]. intros [= <-]. cbn [glb].
  eapply adds_trans; [|apply dns_adds]. destruct LWIP_DHCP_GET_NTP_SRV; [by apply adds_log; [apply adds_same|]|by apply adds_same].
Qed.

Lemma bind_adds s0 s' s : adds (sent_by s0 s') (glb s) (glb (dhcp_bind s)).
Proof.
  unfold dhcp_bind. destruct (data s) as [d|]; [|by apply adds_same]. cbv zeta.
  destruct (stop_autoip (in_tim (lease_timers (off d)) d) (glb s)) as [d1 g] eqn:E. cbn [netif_set_addr glb].
  apply adds_log; [|done]. by eapply autoip_adds.
Qed.

Lemma check_adds s0 s' s s1 : dhcp_check s = Some s1 -> adds (sent_by s0 s') (glb s) (glb s1).
Proof.
  unfold dhcp_check. destruct (data s) as [d|]; [|done]. cbn [mbind option_bind]. intros [= <-]. by apply adds_log; [apply adds_same|].
Qed.

Lemma handle_reply_adds r s0 s d message_type yiaddr s' :
  good r s -> data s = Some d -> wf_options (rx_options (glb s)) -> 0 <= yiaddr < 2 ^ 32 ->
  dhcp_handle_reply message_type yiaddr s = Some s' -> adds (sent_by s0 s') (glb s) (glb s').
Proof.
  intros Hgood Hs Ho Hy. pose proof (good_running r s d Hgood Hs) as Hrun. unfold dhcp_handle_reply. rewrite Hs.
  cbn [mbind option_bind].
  assert (Hack : forall s1, dhcp_handle_ack yiaddr s = Some s1 -> adds (sent_by s0 s') (glb s) (glb s1)) by (intros s1; apply handle_ack_adds).
  destruct (message_type =? DHCP_ACK).
  - assert (Hbind : (s ← dhcp_handle_ack yiaddr s; Some (dhcp_bind s)) = Some s' -> adds (sent_by s0 s') (glb s) (glb s')).
    { destruct (dhcp_handle_ack yiaddr s) as [s1|]; [|done]. cbn [mbind option_bind]. intros E. injection E as <-.
      eapply adds_trans; [by apply Hack|apply bind_adds]. }
    destruct (state d); try exact Hbind; try (intros [= <-]; by apply adds_same).
    revert Hbind. destruct (dhcp_handle_ack yiaddr s) as [s1|]; [|done]. cbn [mbind option_bind]. intros Hbind.
    destruct (_ && _); [|exact Hbind]. intros E. eapply adds_trans; [by apply Hack|by eapply check_adds].
  - destruct (_ && bool_decide (_ ∈ _)).
    { unfold dhcp_handle_nak. rewrite Hs. cbn [mbind option_bind]. set (s1 := netif_set_addr _ _ _ _).
      destruct (dhcp_discover s1) as [[res s2]|] eqn:E; [|done]. intros [= <-].
      destruct Hrun as [_ Hn Hd Hg Hr Ha]. set (d1 := dhcp_set_state DHCP_STATE_BACKING_OFF d) in *.
      assert (Hp1 : pcb_allocated d1 = pcb_allocated d) by exact (set_state_pcb DHCP_STATE_BACKING_OFF d).
      assert (Hrun : running r s1 d1).
      { split; try done; cbn [nif glb netif_set_addr set_data s1 users_of].
        - by apply wf_set_addr.
        - by apply wf_set_state.
        - rewrite Hp1. by apply wf_glob_log.
        - apply acked_any. }
      eapply adds_trans; [|by eapply discover_adds]. by apply adds_log; [apply adds_same|]. }
    destruct (_ && _); [|intros [= <-]; by apply adds_same]. unfold dhcp_handle_offer. rewrite Hs. cbn [mbind option_bind].
    destruct (rx_options (glb s) !! _) as [server|] eqn:Ev; [|intros [= <-]; by apply adds_same].
    set (d1 := in_off _ _). assert (Hw : wf_dhcp d1).
    { destruct Hrun as [_ _ [Hx Ht [] []] _ _ _]. pose proof (Ho _ _ Ev). split; try done. }
    pose proof (running_set_data r s d d1 Hrun Hw eq_refl) as Hrun1.
    destruct (dhcp_select _) as [[res s1]|] eqn:E; [|done]. intros [= <-]. exact (select_adds r s0 _ _ _ _ Hrun1 E).
Qed.

(** There is a slot for every DNS server that is decoded. *)
Hypothesis dns_slots : DNS_MAX_SERVERS <= LWIP_DHCP_MAX_DNS_SERVERS.

Lemma recv_adds r s p s' :
  good r s -> wf_chain p -> dhcp_recv p s = Some s' -> adds (sent_by s s') (glb s) (glb s').
Proof.
  intros Hgood Hp. assert (Hsame : Some s = Some s' -> adds (sent_by s s') (glb s) (glb s')) by (intros [= <-]; by apply adds_same).
  unfold dhcp_recv. destruct (data s) as [d|] eqn:Hs; [|exact Hsame].
  destruct (negb (pcb_allocated d)); [exact Hsame|].
  destruct (parse_reply_total dns_slots p Hp) as (err & o & Eparse & Ho).
  pose proof Hp as [Hb _ _ Hne]. destruct p as [|b next]; [done|]. cbn [head mbind option_bind].
  cbn [concat] in Hb. apply Forall_app in Hb as [Hb _].
  destruct (size b <? DHCP_MIN_REPLY_LEN) eqn:Eb; [exact Hsame|].
  destruct (load b 0) as [op|]; [|done]. cbn [mbind option_bind].
  destruct (negb (op =? _)); [exact Hsame|]. destruct (negb (same_chaddr _ _)); [exact Hsame|].
  destruct (fetch b 4 4) as [bs|]; [|done]. cbn [mbind option_bind].
  destruct (negb (of_be bs =? _)); [exact Hsame|]. rewrite Eparse. cbn [mbind option_bind].
  set (s1 := set_glb _ s). assert (Hg1 : good r s1).
  { destruct Hgood as [Hn Hg Hr Ha Hd]. split; try done. by destruct Hg. }
  assert (Hsame1 : Some s1 = Some s' -> adds (sent_by s s') (glb s) (glb s')) by (intros [= <-]; by apply adds_same).
  destruct (negb (err =? ERR_OK)); [exact Hsame1|]. destruct (o !! DHCP_OPTION_IDX_MSG_TYPE) as [v|]; [|exact Hsame1].
  destruct (fetch_number b 16 Hb ltac:(lia) ltac:(lia)) as (ys & Ey & Hy). rewrite Ey. cbn [mbind option_bind].
  intros E. apply (handle_reply_adds r s s1 d (u8 v) (of_be ys) s'); done.
Qed.

(** ** Timers *)

Lemma set_tim_sent s0 s1 d t e : data s1 = Some d -> sent_by s0 s1 e -> sent_by s0 (set_data (Some (set_tim t d)) s1) e.
Proof.
  intros Hs. destruct e; try done. intros (n & dd & mt & its & k & Hsend & Hl & -> & Hk).
  destruct Hsend as [dd mt dst Hd Hn Hne|dd x Hd Hsup Hn Hx|x dst Hn Hx].
  - rewrite Hs in Hd. injection Hd as <-. exists n, (set_tim t d), mt, its, k.
    rewrite (header_like _ d (set_tim t d)) by done. split; [by apply sender_request|]. split; [by apply (legal_like n d)|done].
  - eexists n, _, _, its, k. split; [by apply sender_release|done].
  - eexists n, _, _, its, k. split; [by apply (sender_inform _ _ _ x)|done].
Qed.

Lemma t1_adds r s0 s d s' : running r s d -> dhcp_t1_timeout s = Some s' -> adds (sent_by s0 s') (glb s) (glb s').
Proof.
  intros Hrun. unfold dhcp_t1_timeout. rewrite (run_data _ _ _ Hrun). cbn [mbind option_bind].
  destruct (bool_decide _); [|intros [= <-]; by apply adds_same].
  destruct (dhcp_renew s) as [[res s1]|] eqn:E; [|done]. cbn [mbind option_bind].
  destruct (data s1) as [d1|] eqn:Hd1; [|done]. cbn [mbind option_bind]. pose proof (renew_adds r s0 s d res s1 Hrun E) as H1.
  destruct (1 <=? _); intros [= <-]; [|done]. cbn [glb set_data]. eapply adds_mono; [|exact H1]. intros e. by apply set_tim_sent.
Qed.

Lemma t2_adds r s0 s d s' : running r s d -> dhcp_t2_timeout s = Some s' -> adds (sent_by s0 s') (glb s) (glb s').
Proof.
  intros Hrun. unfold dhcp_t2_timeout. rewrite (run_data _ _ _ Hrun). cbn [mbind option_bind].
  destruct (bool_decide _); [|intros [= <-]; by apply adds_same].
  destruct (dhcp_rebind s) as [[res s1]|] eqn:E; [|done]. cbn [mbind option_bind].
  destruct (data s1) as [d1|] eqn:Hd1; [|done]. cbn [mbind option_bind]. pose proof (rebind_adds r s0 s d res s1 Hrun E) as H1.
  destruct (1 <=? _); intros [= <-]; [|done]. cbn [glb set_data]. eapply adds_mono; [|exact H1]. intros e. by apply set_tim_sent.
Qed.

Lemma coarse_tick_adds r s s' : good r s -> coarse_tick s = Some s' -> adds (sent_by s s') (glb s) (glb s').
Proof.
  intros Hgood E. destruct (data s) as [d|] eqn:Hs.
  2: { unfold coarse_tick in E. rewrite Hs in E. injection E as <-. by apply adds_same. }
  destruct (decide (state d = DHCP_STATE_OFF)) as [Hst|Hst].
  { unfold coarse_tick in E. rewrite Hs, bool_decide_true in E by done. injection E as <-. by apply adds_same. }
  destruct (good_dhcp _ _ Hgood d Hs) as (_ & _ & Hh & _). pose proof (good_running r s d Hgood Hs) as Hrun.
  destruct (coarse_tick_cases r s d Hgood Hs Hst) as [(_ & _ & Ec)|(t & Hg & _ & _ & _ & Hcase)].
  - rewrite Ec in E. by eapply restart_adds.
  - pose proof (good_running r _ (set_tim t d) Hg eq_refl) as Hrun1.
    destruct Hcase as [Ec|[Ec|Ec]]; rewrite Ec in E; [exact (t2_adds r s _ _ _ Hrun1 E)|exact (t1_adds r s _ _ _ Hrun1 E)|].
    injection E as <-. by apply adds_same.
Qed.

Lemma timeout_adds r s d s' :
  running r s d -> holds_pcb d -> dhcp_timeout s = Some s' -> adds (sent_by s s') (glb s) (glb s').
Proof.
  intros Hrun Hh. unfold dhcp_timeout. rewrite (run_data _ _ _ Hrun). cbn [mbind option_bind].
  assert (Hsame : Some s = Some s' -> adds (sent_by s s') (glb s) (glb s')) by (intros [= <-]; by apply adds_same).
  assert (Hdisc : ('(_, s) ← dhcp_discover s; Some s) = Some s' -> adds (sent_by s s') (glb s) (glb s')).
  { destruct (dhcp_discover s) as [[res s1]|] eqn:E; [|done]. intros [= <-]. by eapply discover_adds. }
  destruct (state d); try exact Hsame; try exact Hdisc.
  - destruct (tries d <=? 5); [|by apply restart_adds with (r := r) (d := d)].
    destruct (dhcp_select s) as [[res s1]|] eqn:E; [|done]. intros [= <-]. by eapply select_adds.
  - destruct (tries d <? REBOOT_TRIES); [|exact Hdisc].
    destruct (dhcp_reboot s) as [[res s1]|] eqn:E; [|done]. intros [= <-]. by eapply reboot_adds.
  - destruct (negb DHCP_DOES_ARP_CHECK); [exact Hsame|]. destruct (tries d <=? 1); [apply check_adds|].
    intros [= <-]. apply bind_adds.
Qed.

Lemma fine_tick_adds r s s' : good r s -> fine_tick s = Some s' -> adds (sent_by s s') (glb s) (glb s').
Proof.
  intros Hgood. unfold fine_tick. destruct (data s) as [d|] eqn:Hs; [|intros [= <-]; by apply adds_same].
  destruct (good_dhcp _ _ Hgood d Hs) as (Hd & Htm & Hh & Hck). pose proof (good_running r s d Hgood Hs) as Hrun. cbv zeta.
  destruct (1 <? _); [intros [= <-]; by apply adds_same|].
  destruct (request_timeout (tim d) =? 1) eqn:E1; [|intros [= <-]; by apply adds_same]. intros E.
  set (d1 := in_tim (set_request_timeout (request_timeout (tim d) - 1)) d) in *.
  assert (Hw : wf_dhcp d1).
  { destruct Hd as [Hx Ht [] Ho]. split; try done. split; try done. cbn. lia. }
  pose proof (running_set_data r s d d1 Hrun Hw eq_refl) as Hrun1.
  eapply adds_mono; [|exact (timeout_adds r _ d1 s' Hrun1 Hh E)].
  intros e. by apply (sent_by_earlier (set_data (Some d1) s) s s' e d1 d).
Qed.
End Ops.

(** ** All interfaces *)

(** Some client sent it in a call that makes [y'] of [y]. *)
Definition sent_in (y y' : system) (e : event) : Prop :=
  exists i s s', client_at i y = Some s /\ client_at i y' = Some s' /\ sent_by s s' e.

Lemma sent_by_same s s' s1 s1' e :
  nif s1 = nif s -> data s1 = data s -> nif s1' = nif s' -> data s1' = data s' -> sent_by s s' e -> sent_by s1 s1' e.
Proof.
  intros En Ed En' Ed'. destruct e; try done. intros (n & d & mt & its & k & Hs & H). exists n, d, mt, its, k. split; [|done].
  destruct Hs as [d mt dst Hd Hn Hne|d x Hd Hsup Hn Hx|x dst Hn Hx].
  - apply sender_request; [congruence..|done].
  - apply sender_release; [congruence| |congruence|done]. revert Hsup. unfold dhcp_supplied_address. by rewrite Ed.
  - apply sender_inform; [congruence|done].
Qed.

(** The same for the interfaces [ids]. *)
Definition sent_among (ids : list nat) (y y' : system) (e : event) : Prop :=
  exists i s s', i ∈ ids /\ client_at i y = Some s /\ client_at i y' = Some s' /\ sent_by s s' e.

Lemma among_in ids y y' e : sent_among ids y y' e -> sent_in y y' e.
Proof. intros (i & s & s' & _ & H). by exists i, s, s'. Qed.

Lemma client_put i s s' y : client_at i y = Some s -> client_at i (put_client i s' y) = Some s'.
Proof.
  intros Hi. destruct (client_netif i y s Hi) as [Hn _]. unfold client_at, put_client. cbn [netifs globals].
  rewrite list_lookup_insert_eq by (by eapply lookup_lt_Some). by destruct s'.
Qed.

Lemma on_netif_adds i s f y y' :
  client_at i y = Some s -> (forall s', f s = Some s' -> adds (sent_by s s') (glb s) (glb s')) ->
  on_netif i f y = Some y' ->
  adds (sent_among [i] y y') (globals y) (globals y') /\ (forall j, j <> i -> netifs y' !! j = netifs y !! j).
Proof.
  intros Hi Hf. destruct (client_netif i y s Hi) as [Hn Hg]. unfold on_netif. rewrite Hi. cbn [mbind option_bind].
  destruct (f s) as [s'|] eqn:E; [|done]. cbn [mbind option_bind]. intros [= <-]. split.
  - rewrite <- Hg. eapply adds_mono; [|by apply Hf]. intros e He. exists i, s, s'. split; [by left|]. split; [done|].
    split; [by eapply client_put|done].
  - intros j Hj. cbn [put_client netifs]. by rewrite list_lookup_insert_ne.
Qed.

Lemma client_again i y y' s : client_at i y = Some s -> netifs y' !! i = netifs y !! i ->
  client_at i y' = Some (mkClient (nif s) (data s) (globals y')).
Proof. intros Hi E. destruct (client_netif i y s Hi) as [Hn _]. unfold client_at. by rewrite E, Hn. Qed.

Lemma on_netifs_adds h f :
  (forall i r s, good (Ack := acked_by h i) r s -> exists s', f s = Some s' /\ good (Ack := acked_by h i) r s') ->
  (forall i r s s', good (Ack := acked_by h i) r s -> f s = Some s' -> adds (sent_by s s') (glb s) (glb s')) ->
  forall ids y y', NoDup ids -> wf_system h y -> Forall (fun i => (i < length (netifs y))%nat) ids ->
  on_netifs ids f y = Some y' ->
  adds (sent_among ids y y') (globals y) (globals y') /\ (forall j, j ∉ ids -> netifs y' !! j = netifs y !! j).
Proof.
  intros Hgood Hf ids. induction ids as [|i ids IH]; intros y y' Hnd Hy Hids E; cbn [on_netifs] in E.
  { injection E as <-. split; [by apply adds_same|done]. }
  apply NoDup_cons in Hnd as [Hni Hnd]. apply Forall_cons in Hids as [Hi Hids].
  destruct (lookup_lt_is_Some_2 _ _ Hi) as [[n d] Hn]. set (s := mkClient n d (globals y)).
  assert (Hs : client_at i y = Some s) by (unfold client_at; by rewrite Hn).
  destruct (on_netif_good h i s f y Hy Hs) as (y1 & E1 & Hy1 & Hl); [apply Hgood|]. rewrite E1 in E. cbn [mbind option_bind] in E.
  destruct (on_netif_adds i s f y y1 Hs) as [Ha Hk]; [|exact E1|].
  { intros s' Es. eapply (Hf i); [|exact Es]. by apply (clients_good _ _ Hy). }
  destruct (IH y1 y' Hnd Hy1) as [Ha' Hk']; [by rewrite Hl|exact E|]. split.
  - eapply adds_trans; (eapply adds_mono; [|eassumption]).
    + intros e (j & s1 & s2 & Hj & H1 & H2 & He). apply list_elem_of_singleton in Hj as ->.
      exists i, s1, (mkClient (nif s2) (data s2) (globals y')). split; [by left|]. split; [done|].
      split; [apply (client_again i y1 y'); [done|by apply Hk']|]. by apply (sent_by_same s1 s2).
    + intros e (j & s1 & s2 & Hj & H1 & H2 & He). assert (j <> i) as Hji by (intros ->; done).
      exists j, (mkClient (nif s1) (data s1) (globals y)), s2. split; [by right|].
      split; [apply (client_again j y1 y); [done|by rewrite Hk]|]. split; [done|]. by apply (sent_by_same s1 s2).
  - intros j Hj. rewrite not_elem_of_cons in Hj. destruct Hj as [Hji Hj]. by rewrite Hk', Hk.
Qed.

(** There is a slot for every DNS server that is decoded. *)
Hypothesis dns_slots : DNS_MAX_SERVERS <= LWIP_DHCP_MAX_DNS_SERVERS.

Lemma call_adds h e y y' :
  wf_system h y -> allowed e y -> step e y = Some y' -> adds (sent_in y y') (globals y) (globals y').
Proof.
  intros Hy He E. unfold allowed in He. destruct (on_interface e) as [i|] eqn:Ei.
  - destruct He as (s & Hs & He). pose proof (clients_good _ _ Hy i s Hs) as Hg.
    assert (Hone : forall f, step e y = on_netif i f y -> (forall s', f s = Some s' -> adds (sent_by s s') (glb s) (glb s')) ->
      adds (sent_in y y') (globals y) (globals y')).
    { intros f Ef Hf. rewrite E in Ef. destruct (on_netif_adds i s f y y' Hs Hf (eq_sym Ef)) as [Ha _].
      eapply adds_mono; [|exact Ha]. intros ev. apply among_in. }
    set (A := acked_by h i) in *.
    destruct e; cbn in Ei; try done; injection Ei as ->; cbn [expects] in He; (eapply Hone; [reflexivity|]); intros s' Es.
    + unfold ignore in Es. destruct (dhcp_start s) as [[err s1]|] eqn:E1; [|done]. injection Es as <-. by eapply start_adds.
    + unfold dhcp_stop in Es. destruct (data s) as [d|] eqn:Hd.
      * exact (stop_adds _ s _ d _ (good_running _ s d Hg Hd) Es).
      * unfold dhcp_release_and_stop in Es. rewrite Hd in Es. injection Es as <-. by apply adds_same.
    + destruct He as (d & Hd & _). unfold ignore in Es. destruct (dhcp_renew s) as [[err s1]|] eqn:E1; [|done]. injection Es as <-.
      exact (renew_adds _ s s d _ _ (good_running _ s d Hg Hd) E1).
    + by eapply inform_adds.
    + by eapply network_changed_adds.
    + by eapply arp_reply_adds.
    + by eapply (recv_adds dns_slots).
    + unfold dhcp_set_struct in Es. destruct (lwip_assert _); [|done]. injection Es as <-. by apply adds_same.
    + injection Es as <-. by apply adds_same.
    + injection Es as <-. by apply adds_same.
  - destruct e; try done; cbn [step] in E.
    + destruct (on_netifs_adds h coarse_tick) with (ids := all_netifs y) (y := y) (y' := y') as [Ha _]; try done.
      * intros i r s. apply coarse_tick_good.
      * intros i r s s'. apply coarse_tick_adds.
      * apply NoDup_seq.
      * apply all_netifs_in.
      * eapply adds_mono; [|exact Ha]. intros ev. apply among_in.
    + destruct (on_netifs_adds h fine_tick) with (ids := all_netifs y) (y := y) (y' := y') as [Ha _]; try done.
      * intros i r s. apply fine_tick_good.
      * intros i r s s'. apply fine_tick_adds.
      * apply NoDup_seq.
      * apply all_netifs_in.
      * eapply adds_mono; [|exact Ha]. intros ev. apply among_in.
Qed.

(** What a message is written from is well formed. *)
Lemma sender_wf h1 h2 y1 y2 i s s' n d message_type dst :
  wf_system h1 y1 -> wf_system h2 y2 -> client_at i y1 = Some s -> client_at i y2 = Some s' ->
  sender s s' n d message_type dst -> wf_netif n /\ wf_dhcp d.
Proof.
  intros Hy1 Hy2 Hs Hs' Hsend. pose proof (clients_good _ _ Hy1 i s Hs) as [Hn _ _ _ Hd].
  pose proof (clients_good _ _ Hy2 i s' Hs') as [Hn' _ _ _ Hd'].
  destruct Hsend as [d mt dst E -> _|d x E _ -> Hx|x dst -> Hx]; (split; [done|]).
  - by apply Hd'.
  - apply wf_set_xid, wf_set_state; [done|]. by apply Hd.
  - apply wf_set_xid, wf_set_state; [done|]. apply (wf_zero false).
Qed.

(** What was done in a history was done in one of its calls. *)
Lemma run_sent es : forall h y y' ev,
  wf_system h y -> history es y -> run es y = Some y' -> ev ∈ events (globals y') ->
  ev ∈ events (globals y) \/
  exists es1 e es2 y1 y2 h1 h2, es = es1 ++ e :: es2 /\ run es1 y = Some y1 /\ step e y1 = Some y2 /\
    wf_system h1 y1 /\ wf_system h2 y2 /\ sent_in y1 y2 ev.
Proof.
  induction es as [|e es IH]; intros h y y' ev Hy Hes E Hev; cbn [run] in E; [injection E as <-; by left|].
  inversion Hes as [|? ? ? He Hrest]; subst. destruct (call_good dns_slots h e y Hy He) as (y1 & E1 & Hy1). rewrite E1 in E.
  cbn [mbind option_bind] in E. destruct (IH _ _ _ ev Hy1 (Hrest y1 E1) E Hev) as [Hin|(es1 & e1 & es2 & y2 & y3 & h2 & h3 & -> & R & S & H)].
  - destruct (call_adds h e y y1 Hy He E1) as (new & En & Hn). rewrite En, elem_of_app in Hin. destruct Hin as [Hin|Hin]; [by left|].
    right. rewrite Forall_forall in Hn. exists [], e, es, y, y1, h, (h ++ [e]). split_and!; try done. by apply Hn.
  - right. exists (e :: es1), e1, es2, y2, y3, h2, h3. split; [done|]. cbn [run]. rewrite E1. by split.
Qed.
End Sent.
End DhcpSent.
