(* ===== verification/DhcpTold.v ===== *)
(** The DHCP client of lwIP: what a reply says. The options that are read from the
    buffers of a reply are those that the server wrote, in whatever buffers they arrive
    and whether they are in the options field or in the fields file and sname. *)

From stdpp Require Import gmap.
From S2P Require Export DhcpParse.
Export DhcpParse.
Open Scope Z_scope.

Module DhcpTold.

Section Told.
Context {Opt : DhcpOptions} {Pbufs : DhcpPbufs}.

(** ** The meaning of a list of options *)

(** The first option with a code counts. *)
Fixpoint first_value (code : Z) (its : list item) : option (list Z) :=
  match its with
  | [] => None
  | Pad :: its => first_value code its
  | Item c v :: its => if c =? code then Some v else first_value code its
  end.

(** The option that an index stands for, and which of its values. *)
Definition index_option (idx : Z) : option (Z * Z) :=
  if idx =? DHCP_OPTION_IDX_OVERLOAD then Some (DHCP_OPTION_OVERLOAD, 0)
  else if idx =? DHCP_OPTION_IDX_MSG_TYPE then Some (DHCP_OPTION_MESSAGE_TYPE, 0)
  else if idx =? DHCP_OPTION_IDX_SERVER_ID then Some (DHCP_OPTION_SERVER_ID, 0)
  else if idx =? DHCP_OPTION_IDX_LEASE_TIME then Some (DHCP_OPTION_LEASE_TIME, 0)
  else if idx =? DHCP_OPTION_IDX_T1 then Some (DHCP_OPTION_T1, 0)
  else if idx =? DHCP_OPTION_IDX_T2 then Some (DHCP_OPTION_T2, 0)
  else if idx =? DHCP_OPTION_IDX_SUBNET_MASK then Some (DHCP_OPTION_SUBNET_MASK, 0)
  else if idx =? DHCP_OPTION_IDX_ROUTER then Some (DHCP_OPTION_ROUTER, 0)
  else if (DHCP_OPTION_IDX_DNS_SERVER <=? idx) && (idx <? DHCP_OPTION_IDX_NTP_SERVER)
  then Some (DHCP_OPTION_DNS_SERVER, idx - DHCP_OPTION_IDX_DNS_SERVER)
  else if (DHCP_OPTION_IDX_NTP_SERVER <=? idx) && (idx <? DHCP_OPTION_IDX_MAX)
  then Some (DHCP_OPTION_NTP, idx - DHCP_OPTION_IDX_NTP_SERVER)
  else None.

(** The [k]-th number of an option: four bytes, or the only one. *)
Definition number_at (k : Z) (v : list Z) : option Z :=
  match slice v (4 * k) (4 * k + 4) with [] => None | w => Some (of_be w) end.

(** What the options say for an index. *)
Definition told (its : list item) (idx : Z) : option Z :=
  '(code, k) ← index_option idx; v ← first_value code its; number_at k v.

(** The lengths of RFC 2132. *)
Definition rfc_length (code n : Z) : Prop :=
  if bool_decide (code ∈ [DHCP_OPTION_SUBNET_MASK; DHCP_OPTION_LEASE_TIME; DHCP_OPTION_SERVER_ID; DHCP_OPTION_T1; DHCP_OPTION_T2])
  then n = 4
  else if bool_decide (code ∈ [DHCP_OPTION_ROUTER; DHCP_OPTION_DNS_SERVER; DHCP_OPTION_NTP]) then 4 <= n /\ n mod 4 = 0
  else if bool_decide (code ∈ [DHCP_OPTION_OVERLOAD; DHCP_OPTION_MESSAGE_TYPE]) then n = 1
  else True.

Lemma rfc_length_cases code n : rfc_length code n ->
  (code ∈ [DHCP_OPTION_SUBNET_MASK; DHCP_OPTION_LEASE_TIME; DHCP_OPTION_SERVER_ID; DHCP_OPTION_T1; DHCP_OPTION_T2] -> n = 4) /\
  (code ∈ [DHCP_OPTION_ROUTER; DHCP_OPTION_DNS_SERVER; DHCP_OPTION_NTP] -> 4 <= n /\ n mod 4 = 0) /\
  (code ∈ [DHCP_OPTION_OVERLOAD; DHCP_OPTION_MESSAGE_TYPE] -> n = 1).
Proof.
  intros H. split_and!; intros Hin; repeat (apply elem_of_cons in Hin as [-> | Hin]; [exact H|]); by apply elem_of_nil in Hin.
Qed.

(** An option that a server may write, in the options field or elsewhere. *)
Definition rfc_item (options_field : bool) (it : item) : Prop :=
  wf_item it /\
  match it with
  | Pad => True
  | Item code v => rfc_length code (size v) /\ (code = DHCP_OPTION_OVERLOAD -> options_field = true)
  end.

(** The options that were read say what [its] says; the overload may be [gone]. *)
Definition reads (gone : bool) (its : list item) (o : gmap Z Z) : Prop :=
  forall idx, o !! idx = if gone && (idx =? DHCP_OPTION_IDX_OVERLOAD) then None else told its idx.

Lemma first_value_app code a b :
  first_value code (a ++ b) = match first_value code a with Some v => Some v | None => first_value code b end.
Proof. induction a as [|[|c v] a IH]; cbn; [done..|]. by destruct (c =? code). Qed.

Lemma reads_nil gone : reads gone [] ∅.
Proof.
  intros idx. rewrite lookup_empty. destruct (_ && _); [done|]. unfold told. by destruct (index_option idx) as [[c k]|].
Qed.

Lemma told_pad its idx : told (its ++ [Pad]) idx = told its idx.
Proof.
  unfold told. destruct (index_option idx) as [[c k]|]; [|done]. cbn [mbind option_bind]. rewrite first_value_app.
  by destruct (first_value c its).
Qed.

Lemma reads_pad gone its o : reads gone its o -> reads gone (its ++ [Pad]) o.
Proof. intros H idx. by rewrite told_pad. Qed.

(** ** The numbers of one option *)

Lemma number_at_behind k v : 0 <= k -> size v <= 4 * k -> number_at k v = None.
Proof.
  intros Hk Hv. unfold number_at, slice. rewrite drop_ge by (unfold size in Hv; lia). by rewrite take_nil.
Qed.

Lemma number_at_word k v : 0 <= k -> 4 * k < size v -> number_at k v = Some (of_be (take 4 (drop (Z.to_nat (4 * k)) v))).
Proof.
  intros Hk Hv. unfold number_at, slice. replace (Z.to_nat (4 * k + 4 - 4 * k)) with 4%nat by lia.
  destruct (take 4 _) eqn:E; [|done]. apply (f_equal length) in E. rewrite length_take, length_drop in E.
  unfold size in Hv. change (length []) with 0%nat in E. lia.
Qed.

(** The numbers of [v] from number [k] on are stored, as far as there are [n] of them. *)
Lemma decode_numbers q pre v post n : concat q = pre ++ v ++ post -> size (concat q) < 65536 ->
  forall fuel k idx o,
  0 <= k -> (0 < n)%nat -> 4 * (k + Z.of_nat n) <= size v -> (n <= fuel)%nat ->
  0 <= idx -> idx + Z.of_nat n <= DHCP_OPTION_IDX_MAX ->
  (forall i, idx <= i < idx + Z.of_nat n -> o !! i = None) ->
  exists o', decode_next fuel q (4 * Z.of_nat n) idx (size pre + 4 * k) o = Some (ERR_OK, o') /\
    forall i, o' !! i = if (idx <=? i) && (i <? idx + Z.of_nat n) then number_at (k + (i - idx)) v else o !! i.
Proof.
  intros Hq Hsz. induction n as [|n IH]; intros fuel k idx o Hk Hn Hv Hf Hidx Hmax Hfree; [lia|].
  destruct fuel as [|fuel]; [lia|]. cbn [decode_next]. pose proof (size_nonneg pre) as Hpre. pose proof (size_nonneg post) as Hpost.
  assert (Hs : size (concat q) = size pre + size v + size post) by (rewrite Hq, !size_app; lia).
  rewrite lwip_assert_true by lia. cbn [mbind option_bind]. unfold dhcp_option_given.
  rewrite bool_decide_false by (rewrite Hfree by lia; by intros [? ?]). rewrite Z.min_r by lia.
  assert (Hw : pbuf_copy_partial q 4 (size pre + 4 * k) = take 4 (drop (Z.to_nat (4 * k)) v)).
  { rewrite copy_partial_data by lia. rewrite Hq. change (Z.to_nat 4) with 4%nat.
    replace (Z.to_nat (size pre + 4 * k)) with (length pre + Z.to_nat (4 * k))%nat by (unfold size; lia).
    rewrite drop_app_add. rewrite drop_app_le by (unfold size in *; lia).
    apply take_app_le. rewrite length_drop. unfold size in *. lia. }
  rewrite Hw. set (w := take 4 _) in *.
  assert (size w = 4) as -> by (unfold size, w; rewrite length_take, length_drop; unfold size in *; lia).
  change (negb (4 =? 4)) with false. cbv iota.
  pose proof (number_at_word k v Hk ltac:(lia)) as Hnum. fold w in Hnum.
  destruct (4 <? 4 * Z.of_nat (S n)) eqn:E4.
  - replace (negb (4 * Z.of_nat (S n) mod 4 =? 0)) with false by (rewrite Z.mul_comm, Z.mod_mul by lia; done).
    cbn [negb]. rewrite u16_small by lia. replace (_ <? size pre + 4 * k) with false by lia.
    destruct (IH fuel (k + 1) (idx + 1) (<[idx := of_be w]> o)) as (o' & E & Ho'); try lia.
    { intros i Hi. rewrite lookup_insert_ne by lia. apply Hfree. lia. }
    replace (4 * Z.of_nat (S n) - 4) with (4 * Z.of_nat n) by lia. replace (size pre + 4 * k + 4) with (size pre + 4 * (k + 1)) by lia.
    exists o'. split; [exact E|]. intros i. rewrite Ho'. destruct (decide (i = idx)) as [->|Hne].
    + rewrite lookup_insert_eq. replace ((idx + 1 <=? idx) && _) with false by lia. replace ((idx <=? idx) && _) with true by lia.
      rewrite Z.sub_diag, Z.add_0_r. by rewrite Hnum.
    + rewrite lookup_insert_ne by done. destruct ((idx + 1 <=? i) && _) eqn:Ei.
      * replace ((idx <=? i) && _) with true by lia. f_equal. lia.
      * replace ((idx <=? i) && _) with false by lia. done.
  - assert (n = 0%nat) as -> by lia. change (4 * Z.of_nat 1) with 4. cbn [Z.eqb Pos.eqb].
    exists (<[idx := of_be w]> o). split; [done|]. intros i. destruct (decide (i = idx)) as [->|Hne].
    + rewrite lookup_insert_eq. replace ((idx <=? idx) && _) with true by lia. rewrite Z.sub_diag, Z.add_0_r. by rewrite Hnum.
    + rewrite lookup_insert_ne by done. replace ((idx <=? i) && _) with false by lia. done.
Qed.

(** The only byte of an option. *)
Lemma decode_byte fuel q pre x post idx o :
  concat q = pre ++ [x] ++ post -> 0 <= idx < DHCP_OPTION_IDX_MAX -> o !! idx = None ->
  decode_next (S fuel) q 1 idx (size pre) o = Some (ERR_OK, <[idx := x]> o).
Proof.
  intros Hq Hidx Hfree. cbn [decode_next]. rewrite lwip_assert_true by lia. cbn [mbind option_bind]. unfold dhcp_option_given.
  rewrite bool_decide_false by (rewrite Hfree; by intros [? ?]). change (Z.min 1 4) with 1.
  rewrite copy_partial_data by (pose proof (size_nonneg pre); lia). rewrite Hq, to_nat_size, drop_app_length. done.
Qed.

(** An option whose first number is already there is skipped. *)
Lemma decode_given fuel q dl idx vo o v :
  0 <= idx < DHCP_OPTION_IDX_MAX -> o !! idx = Some v -> decode_next (S fuel) q dl idx vo o = Some (ERR_OK, o).
Proof.
  intros Hidx Hv. cbn [decode_next]. rewrite lwip_assert_true by lia. cbn [mbind option_bind]. unfold dhcp_option_given.
  by rewrite bool_decide_true by (by eexists).
Qed.

(** ** What the switch decides about an option of a server *)

Hypothesis dns_slots : DNS_MAX_SERVERS <= LWIP_DHCP_MAX_DNS_SERVERS.

(** The first [n] numbers of the option are for the indices from [idx] on, and there are no others. *)
Record stands_for (code : Z) (v : list Z) (dl idx n : Z) : Prop := {
  stands_pos : 0 < n;
  stands_len : dl = 4 * n /\ 4 * n <= size v \/ n = 1 /\ dl = 1 /\ size v = 1;
  stands_idx : 0 <= idx /\ idx + n <= DHCP_OPTION_IDX_MAX;
  stands_in : forall i, idx <= i < idx + n -> index_option i = Some (code, i - idx);
  stands_out : forall i k, index_option i = Some (code, k) -> ~ (idx <= i < idx + n) -> 0 <= k /\ size v <= 4 * k
}.

Lemma index_single code idx i k :
  0 <= idx < 8 -> index_option idx = Some (code, 0) ->
  code <> DHCP_OPTION_DNS_SERVER -> code <> DHCP_OPTION_NTP -> index_option i = Some (code, k) -> i = idx /\ k = 0.
Proof.
  intros Hi Hidx Hd Hn. assert (idx = 0 \/ idx = 1 \/ idx = 2 \/ idx = 3 \/ idx = 4 \/ idx = 5 \/ idx = 6 \/ idx = 7) as Hc by lia.
  destruct_or! Hc; subst idx; cbn in Hidx; injection Hidx as <-; unfold index_option; intros H; step_cases; lia.
Qed.

Lemma stands_single code v dl idx :
  0 <= idx < 8 -> index_option idx = Some (code, 0) -> code <> DHCP_OPTION_DNS_SERVER -> code <> DHCP_OPTION_NTP ->
  dl = 4 /\ 4 <= size v \/ dl = 1 /\ size v = 1 -> stands_for code v dl idx 1.
Proof.
  intros Hi Hidx Hd Hn Hl. pose proof (idx_max_range). split; [lia|lia|lia| |].
  - intros i Hr. assert (i = idx) as -> by lia. by rewrite Z.sub_diag.
  - intros i k H' Hout. destruct (index_single code idx i k Hi Hidx Hd Hn H'). lia.
Qed.

Lemma index_dns i k : index_option i = Some (DHCP_OPTION_DNS_SERVER, k) ->
  k = i - DHCP_OPTION_IDX_DNS_SERVER /\ DHCP_OPTION_IDX_DNS_SERVER <= i < DHCP_OPTION_IDX_NTP_SERVER.
Proof. unfold index_option. intros H. step_cases. lia. Qed.

Lemma index_ntp i k : index_option i = Some (DHCP_OPTION_NTP, k) ->
  k = i - DHCP_OPTION_IDX_NTP_SERVER /\ DHCP_OPTION_IDX_NTP_SERVER <= i < DHCP_OPTION_IDX_MAX.
Proof. unfold index_option. intros H. step_cases. lia. Qed.

Lemma index_dns_in i : DHCP_OPTION_IDX_DNS_SERVER <= i < DHCP_OPTION_IDX_NTP_SERVER ->
  index_option i = Some (DHCP_OPTION_DNS_SERVER, i - DHCP_OPTION_IDX_DNS_SERVER).
Proof. intros Hi. unfold index_option. rewrite 8!(proj2 (Z.eqb_neq i _)) by lia.
  by rewrite (proj2 (Z.leb_le _ _)), (proj2 (Z.ltb_lt _ _)) by lia. Qed.

Lemma index_ntp_in i : DHCP_OPTION_IDX_NTP_SERVER <= i < DHCP_OPTION_IDX_MAX ->
  index_option i = Some (DHCP_OPTION_NTP, i - DHCP_OPTION_IDX_NTP_SERVER).
Proof.
  intros Hi. pose proof idx_max_range as [_ H8]. unfold index_option. rewrite 8!(proj2 (Z.eqb_neq i _)) by lia.
  rewrite (proj2 (Z.ltb_ge i DHCP_OPTION_IDX_NTP_SERVER)), andb_false_r by lia.
  rewrite (proj2 (Z.leb_le _ _)), (proj2 (Z.ltb_lt _ _)) by lia. done.
Qed.

(** An option with several numbers. *)
Lemma stands_several code v dl idx lim most :
  (forall i k, index_option i = Some (code, k) -> k = i - idx /\ idx <= i < idx + lim) ->
  (forall i, idx <= i < idx + lim -> index_option i = Some (code, i - idx)) ->
  dl = Z.min (size v) (4 * most) -> lim = most -> 0 < lim -> 4 <= size v -> size v mod 4 = 0 -> 0 <= idx ->
  idx + lim <= DHCP_OPTION_IDX_MAX ->
  stands_for code v dl idx (dl / 4).
Proof.
  intros Hin Hout -> -> Hlim H4 Hm Hi Hmax. assert (Z.min (size v) (4 * most) / 4 = Z.min (size v / 4) most) as -> by lia_mod.
  split; [lia_mod|left; lia_mod|lia_mod| |].
  - intros i Hr. apply Hout. lia.
  - intros i k H' Hno. destruct (Hin i k H') as [-> Hr]. split; [lia|lia_mod].
Qed.

#[local] Ltac elem := repeat first [apply list_elem_of_here | apply list_elem_of_further].

Lemma switch_spec code v options_offset :
  wf_item (Item code v) -> rfc_length code (size v) -> (code = DHCP_OPTION_OVERLOAD -> options_offset = DHCP_OPTIONS_OFS) ->
  exists dl idx, option_switch code (size v) options_offset = Decode (size v) dl idx /\
    (dl = 0 /\ (forall i k, index_option i <> Some (code, k)) \/ exists n, stands_for code v dl idx n).
Proof.
  intros (Hc & Hs & _) (Hf4 & Hm4 & H1)%rfc_length_cases Hov. pose proof (size_nonneg v) as Hv0. unfold option_switch.
  rewrite (proj2 (Z.eqb_neq code DHCP_OPTION_PAD)) by lia.
  assert (Hsingle : forall dl idx, 0 <= idx < 8 -> index_option idx = Some (code, 0) -> code <> DHCP_OPTION_DNS_SERVER ->
    code <> DHCP_OPTION_NTP -> dl = 4 /\ 4 <= size v \/ dl = 1 /\ size v = 1 ->
    exists dl' idx', Decode (size v) dl idx = Decode (size v) dl' idx' /\
      (dl' = 0 /\ (forall i k, index_option i <> Some (code, k)) \/ exists n, stands_for code v dl' idx' n)).
  { intros dl idx ? ? ? ? ?. exists dl, idx. split; [done|]. right. exists 1. by apply stands_single. }
  pose proof idx_max_range as [Hmax H8]. unfold input_check.
  destruct (code =? DHCP_OPTION_SUBNET_MASK) eqn:E1; [apply Z.eqb_eq in E1 as ->; pose proof (Hf4 ltac:(elem)) as Hl; rewrite (proj2 (Z.eqb_eq _ _) Hl); apply Hsingle; (done || lia)|].
  destruct (code =? DHCP_OPTION_ROUTER) eqn:E2.
  { apply Z.eqb_eq in E2 as ->. destruct (Hm4 ltac:(elem)). rewrite (proj2 (Z.leb_le 4 _)) by done. apply Hsingle; (done || lia). }
  destruct ((0 <? LWIP_DHCP_PROVIDE_DNS_SERVERS) && (code =? DHCP_OPTION_DNS_SERVER)) eqn:E3.
  { apply andb_true_iff in E3 as [Hp E3]. apply Z.eqb_eq in E3 as ->. destruct (Hm4 ltac:(elem)) as [H4 Hm].
    pose proof (provide_dns dns_slots ltac:(lia)) as Hpd. pose proof dns_servers_ok as [_ Hds].
    rewrite u8_small by lia. rewrite Hm. cbn [Z.eqb]. rewrite (proj2 (Z.leb_le _ (size v))) by lia.
    eexists _, _. split; [done|]. right. eexists. apply (stands_several _ _ _ _ LWIP_DHCP_PROVIDE_DNS_SERVERS DNS_MAX_SERVERS); try done; try lia.
    - intros i k H'. apply index_dns in H'. unfold DHCP_OPTION_IDX_NTP_SERVER in H'. lia.
    - intros i Hi. apply index_dns_in. unfold DHCP_OPTION_IDX_NTP_SERVER. lia. }
  destruct (code =? DHCP_OPTION_LEASE_TIME) eqn:E4; [apply Z.eqb_eq in E4 as ->; pose proof (Hf4 ltac:(elem)) as Hl; rewrite (proj2 (Z.eqb_eq _ _) Hl); apply Hsingle; (done || lia)|].
  destruct (LWIP_DHCP_GET_NTP_SRV && (code =? DHCP_OPTION_NTP)) eqn:E5.
  { apply andb_true_iff in E5 as [Hg E5]. apply Z.eqb_eq in E5 as ->. destruct (Hm4 ltac:(elem)) as [H4 Hm].
    pose proof ntp_servers_ok as Hns. assert (Hmx : DHCP_OPTION_IDX_MAX = DHCP_OPTION_IDX_NTP_SERVER + LWIP_DHCP_MAX_NTP_SERVERS).
    { unfold DHCP_OPTION_IDX_MAX. by rewrite Hg. }
    rewrite u8_small by lia. rewrite Hm. cbn [Z.eqb]. rewrite (proj2 (Z.leb_le _ (size v))) by lia.
    eexists _, _. split; [done|]. destruct (decide (LWIP_DHCP_MAX_NTP_SERVERS = 0)) as [H0|H0].
    - left. split; [lia|]. intros i k H'%index_ntp. lia.
    - right. eexists. apply (stands_several _ _ _ _ LWIP_DHCP_MAX_NTP_SERVERS LWIP_DHCP_MAX_NTP_SERVERS); try done; try lia.
      + intros i k H'%index_ntp. lia.
      + intros i Hi. apply index_ntp_in. lia. }
  destruct (code =? DHCP_OPTION_OVERLOAD) eqn:E6.
  { apply Z.eqb_eq in E6 as ->. pose proof (H1 ltac:(elem)) as Hl. rewrite (Hov eq_refl), (proj2 (Z.eqb_eq _ _) Hl). apply Hsingle; (done || lia). }
  destruct (code =? DHCP_OPTION_MESSAGE_TYPE) eqn:E7; [apply Z.eqb_eq in E7 as ->; pose proof (H1 ltac:(elem)) as Hl; rewrite (proj2 (Z.eqb_eq _ _) Hl); apply Hsingle; (done || lia)|].
  destruct (code =? DHCP_OPTION_SERVER_ID) eqn:E8; [apply Z.eqb_eq in E8 as ->; pose proof (Hf4 ltac:(elem)) as Hl; rewrite (proj2 (Z.eqb_eq _ _) Hl); apply Hsingle; (done || lia)|].
  destruct (code =? DHCP_OPTION_T1) eqn:E9; [apply Z.eqb_eq in E9 as ->; pose proof (Hf4 ltac:(elem)) as Hl; rewrite (proj2 (Z.eqb_eq _ _) Hl); apply Hsingle; (done || lia)|].
  destruct (code =? DHCP_OPTION_T2) eqn:E10; [apply Z.eqb_eq in E10 as ->; pose proof (Hf4 ltac:(elem)) as Hl; rewrite (proj2 (Z.eqb_eq _ _) Hl); apply Hsingle; (done || lia)|].
  exists 0, (-1). split; [done|]. left. split; [done|]. intros i k H'. unfold index_option in H'.
  unfold DHCP_OPTION_IDX_MAX, DHCP_OPTION_IDX_NTP_SERVER in *.
  step_cases; destruct LWIP_DHCP_GET_NTP_SRV; lia.
Qed.

(** ** Reading one option *)

Lemma first_value_rfc its code v :
  Forall (fun it => exists f, rfc_item f it) its -> first_value code its = Some v -> rfc_length code (size v).
Proof.
  induction 1 as [|[|c w] its (f & Hw & Hr) _ IH]; cbn [first_value]; [done..|].
  destruct (c =? code) eqn:E; [|done]. intros [= <-]. apply Z.eqb_eq in E as <-. apply Hr.
Qed.

Lemma rfc_nonempty i code k n : index_option i = Some (code, k) -> rfc_length code n -> 0 < n.
Proof.
  unfold index_option. intros Hi (H4 & Hm & H1)%rfc_length_cases.
  step_cases; first [rewrite H1 by elem; lia | rewrite H4 by elem; lia | destruct (Hm ltac:(elem)); lia].
Qed.

(** An option that came before says what it said. *)
Lemma told_known its code v w i :
  first_value code its = Some w -> told (its ++ [Item code v]) i = told its i.
Proof.
  intros Hw. unfold told. destruct (index_option i) as [[c k]|]; [|done]. cbn [mbind option_bind]. rewrite first_value_app.
  destruct (first_value c its) as [u|] eqn:Eu; [done|]. cbn [first_value]. destruct (code =? c) eqn:E; [|done].
  apply Z.eqb_eq in E as <-. congruence.
Qed.

(** An option that is new says its numbers. *)
Lemma told_new its code v i :
  first_value code its = None ->
  told (its ++ [Item code v]) i =
    match index_option i with
    | Some (c, k) => if code =? c then number_at k v else told its i
    | None => None
    end.
Proof.
  intros Hw. unfold told. destruct (index_option i) as [[c k]|]; [|done]. cbn [mbind option_bind]. rewrite first_value_app.
  cbn [first_value]. destruct (code =? c) eqn:E; [|by destruct (first_value c its)].
  apply Z.eqb_eq in E as <-. by rewrite Hw.
Qed.

(** The numbers of an option are stored. *)
Lemma decode_value gone q pre v post its code dl idx n o :
  concat q = pre ++ v ++ post -> size (concat q) < 65536 -> size v <= 255 -> stands_for code v dl idx n ->
  Forall (fun it => exists f, rfc_item f it) its -> reads gone its o -> (gone = true -> code <> DHCP_OPTION_OVERLOAD) ->
  exists o', decode_next 64 q dl idx (size pre) o = Some (ERR_OK, o') /\ reads gone (its ++ [Item code v]) o'.
Proof.
  intros Hq Hsz Hv [Hn Hlen Hidx Hin Hout] Hits Ho Hgone. change 64%nat with (S 63).
  assert (Hidx0 : index_option idx = Some (code, 0)) by (rewrite Hin by lia; do 2 f_equal; lia).
  assert (Hz : forall i, idx <= i < idx + n -> gone && (i =? DHCP_OPTION_IDX_OVERLOAD) = false).
  { intros i Hi. apply andb_false_iff. destruct gone; [right|by left]. apply Z.eqb_neq. intros ->.
    specialize (Hin _ Hi). apply (Hgone eq_refl). by injection Hin. }
  destruct (first_value code its) as [w|] eqn:Ew.
  - (* it is not the first *)
    pose proof (rfc_nonempty _ _ _ _ Hidx0 (first_value_rfc _ _ _ Hits Ew)) as Hpos.
    exists o. split; [|intros i; by rewrite (told_known its code v w)].
    apply (decode_given _ _ _ _ _ _ (of_be (take 4 (drop (Z.to_nat (4 * 0)) w)))); [lia|].
    rewrite Ho, Hz by lia. unfold told. rewrite Hidx0. cbn [mbind option_bind]. rewrite Ew. cbn [mbind option_bind]. apply number_at_word; lia.
  - assert (Hfree : forall i, idx <= i < idx + n -> o !! i = None).
    { intros i Hi. rewrite Ho, Hz by done. unfold told. rewrite (Hin i Hi). cbn [mbind option_bind]. by rewrite Ew. }
    assert (Hnew : exists o', decode_next (S 63) q dl idx (size pre) o = Some (ERR_OK, o') /\
      forall i, o' !! i = if (idx <=? i) && (i <? idx + n) then number_at (i - idx) v else o !! i).
    { destruct Hlen as [[-> Hl]|(-> & -> & Hl)].
      - destruct (decode_numbers q pre v post (Z.to_nat n) Hq Hsz 64 0 idx o) as (o' & E & Ho'); try lia.
        { intros i Hi. apply Hfree. lia. }
        exists o'. rewrite Z2Nat.id in * by lia. rewrite Z.mul_0_r, Z.add_0_r in E. split; [exact E|].
        intros i. rewrite Ho'. by rewrite Z.add_0_l.
      - destruct v as [|x [|y v]]; [done| |unfold size in Hl; cbn in Hl; lia].
        exists (<[idx := x]> o). split; [apply (decode_byte 63 q pre x post); [done|lia|apply Hfree; lia]|].
        intros i. destruct (decide (i = idx)) as [->|Hne].
        + rewrite lookup_insert_eq. rewrite (proj2 (Z.leb_le idx idx)), (proj2 (Z.ltb_lt idx (idx + 1))) by lia. cbn [andb].
          rewrite Z.sub_diag. done.
        + rewrite lookup_insert_ne by done. by replace ((idx <=? i) && _) with false by lia. }
    destruct Hnew as (o' & E & Ho'). exists o'. split; [done|]. intros i. rewrite (told_new its code v i Ew), Ho'.
    destruct ((idx <=? i) && (i <? idx + n)) eqn:Er.
    + rewrite Hz, (Hin i) by lia. by rewrite Z.eqb_refl.
    + rewrite Ho. destruct (gone && _); [done|]. unfold told at 1. destruct (index_option i) as [[c k]|] eqn:Ei; [|done]. cbn [mbind option_bind].
      destruct (code =? c) eqn:Ec; [|unfold told; by rewrite Ei]. apply Z.eqb_eq in Ec as <-. rewrite Ew. cbn [mbind option_bind].
      destruct (Hout i k Ei) as [Hk Hv']; [lia|]. by rewrite number_at_behind.
Qed.

(** The length that stands behind the code, in this buffer or the next one. *)
Lemma length_byte b next pre code len post offset :
  concat (b :: next) = pre ++ [code; len] ++ post -> offset = size pre -> offset < size b ->
  Forall (fun c => 0 < size c) next ->
  (if offset + 1 <? size b then load b (offset + 1)
   else match next with [] => Some 0 | b' :: _ => load b' 0 end) = Some len.
Proof.
  intros Hc -> Ho Hne. cbn [concat] in Hc. pose proof (size_nonneg pre) as Hp.
  assert (Hl : (b ++ concat next) !! (length pre + 1)%nat = Some len).
  { rewrite Hc. rewrite lookup_app_r by lia. by replace (length pre + 1 - length pre)%nat with 1%nat by lia. }
  destruct (size pre + 1 <? size b) eqn:E.
  - unfold load. replace (size pre + 1 <? 0) with false by lia. rewrite lookup_app_l in Hl by (unfold size in *; lia).
    rewrite <- Hl. f_equal. unfold size. lia.
  - rewrite lookup_app_r in Hl by (unfold size in *; lia). replace (length pre + 1 - length b)%nat with 0%nat in Hl by (unfold size in *; lia).
    destruct next as [|b' next]; [done|]. apply Forall_cons in Hne as [Hb' _]. cbn [concat] in Hl.
    rewrite lookup_app_l in Hl by (unfold size in Hb'; lia). exact Hl.
Qed.

(** One option is read: the next one follows it, and it is among what was read. *)
Lemma read_item gone b next pre it post its offset options_offset o options_field :
  concat (b :: next) = pre ++ item_bytes it ++ post -> offset = size pre -> offset < size b ->
  Forall (fun c => 0 < size c) next -> size (concat (b :: next)) < 65536 ->
  rfc_item options_field it -> (options_field = true -> options_offset = DHCP_OPTIONS_OFS) ->
  Forall (fun it => exists f, rfc_item f it) its -> reads gone its o -> (gone = true -> options_field = false) -> 0 < size post ->
  exists o', read_option b next (hd 0 (item_bytes it)) offset options_offset o =
      Some (ERR_OK, offset + size (item_bytes it), o') /\ reads gone (its ++ [it]) o'.
Proof.
  intros Hc Hoff Hb Hne Hsz [Hwf Hrfc] Hof Hits Ho Hgone Hpost. pose proof (size_nonneg pre) as Hp.
  assert (Hs : size (concat (b :: next)) = offset + size (item_bytes it) + size post) by (rewrite Hc, !size_app; lia).
  unfold read_option. destruct it as [|code v]; cbn [item_bytes hd] in *.
  - destruct post as [|x post]; [done|]. change (size [DHCP_OPTION_PAD]) with 1 in *. rewrite size_cons in Hs.
    pose proof (size_nonneg post). rewrite u16_small by lia. replace (_ <? offset) with false by lia.
    rewrite (length_byte b next pre DHCP_OPTION_PAD x post) by done. cbn [mbind option_bind].
    change (option_switch DHCP_OPTION_PAD x options_offset) with (Decode 0 0 (-1)). cbv iota.
    change (DHCP_OPTION_PAD =? DHCP_OPTION_PAD) with true. cbv iota. rewrite u16_small by lia.
    exists o. split; [done|]. by apply reads_pad.
  - destruct Hrfc as [Hr Hov]. destruct Hwf as (Hcode & Hv & Hvb). rewrite !size_cons in Hs. pose proof (size_nonneg v) as Hv0.
    rewrite u16_small by lia. replace (_ <? offset) with false by lia.
    rewrite (length_byte b next pre code (size v) (v ++ post)) by done. cbn [mbind option_bind].
    destruct (switch_spec code v options_offset) as (dl & idx & -> & Hst); [exact (conj Hcode (conj Hv Hvb))|done|auto|].
    rewrite (proj2 (Z.eqb_neq code DHCP_OPTION_PAD)) by lia. replace (0xffff <? _) with false by lia.
    rewrite u16_small by lia. rewrite !size_cons.
    replace (offset + (1 + (1 + size v))) with (offset + size v + 2) by lia.
    destruct Hst as [(-> & Hno)|(n & Hst)].
    + cbn [Z.ltb Z.compare]. exists o. split; [done|]. intros i. rewrite Ho. destruct (gone && _); [done|]. unfold told.
      destruct (index_option i) as [[c k]|] eqn:Ei; [|done]. cbn [mbind option_bind]. rewrite first_value_app.
      destruct (first_value c its); [done|]. cbn [first_value]. destruct (code =? c) eqn:E; [|done].
      apply Z.eqb_eq in E as <-. by destruct (Hno i k).
    + assert (0 < dl) by (destruct Hst as [? [|] ? ? ?]; lia). rewrite (proj2 (Z.ltb_lt 0 dl)) by done.
      replace (offset + 2) with (size (pre ++ [code; size v])) by (rewrite size_app; change (size [code; size v]) with 2; lia).
      destruct (decode_value gone (b :: next) (pre ++ [code; size v]) v post its code dl idx n o) as (o' & E & Ho'); try done.
      { rewrite Hc. by rewrite <- app_assoc. }
      { intros Hg He. specialize (Hov He). by rewrite Hgone in Hov. }
      rewrite E. cbn [mbind option_bind]. by exists o'.
Qed.

(** ** Reading an area *)

(** Buffers in the middle of a reply hold a whole option. *)
Fixpoint middle_room (q : chain) : Prop :=
  match q with
  | [] => True
  | b :: q' => (q' = [] \/ 257 <= size b) /\ 0 < size b /\ middle_room q'
  end.

Lemma middle_room_pos q : middle_room q -> Forall (fun c => 0 < size c) q.
Proof. induction q as [|b q IH]; [done|]. intros (_ & Hb & Hq). apply Forall_cons. split; [done|by apply IH]. Qed.

Lemma middle_room_app a q : middle_room (a ++ q) -> middle_room q.
Proof. induction a as [|b a IH]; [done|]. intros (_ & _ & Hq). by apply IH. Qed.

(** What is behind the first bytes of a concatenation. *)
Lemma split_behind {A} (b c pre rest : list A) :
  b ++ c = pre ++ rest -> (length b <= length pre)%nat -> exists pre', pre = b ++ pre' /\ c = pre' ++ rest.
Proof.
  intros H Hl. exists (drop (length b) pre). assert (E : b = take (length b) pre).
  { apply (f_equal (take (length b))) in H. by rewrite take_app_length, take_app_le in H by done. }
  split; [rewrite E at 1; by rewrite take_drop|].
  apply (f_equal (drop (length b))) in H. by rewrite drop_app_length, drop_app_le in H by done.
Qed.

Lemma load_at m pre c post : m = pre ++ c :: post -> load m (size pre) = Some c.
Proof.
  intros ->. unfold load. pose proof (size_nonneg pre). replace (_ <? 0) with false by lia.
  rewrite to_nat_size. by rewrite list_lookup_middle.
Qed.

Lemma load_front b next pre c post :
  concat (b :: next) = pre ++ c :: post -> size pre < size b -> load b (size pre) = Some c.
Proof.
  intros Hc Hb. rewrite <- (load_at _ pre c post Hc). unfold load. cbn [concat].
  destruct (size pre <? 0); [done|]. rewrite lookup_app_l; [done|]. pose proof (size_nonneg pre). unfold size in *. lia.
Qed.

Lemma parse_items gone its : forall fuel q pre post done offset offset_max options_offset o options_field,
  concat q = pre ++ items_bytes its ++ [DHCP_OPTION_END] ++ post -> offset = size pre ->
  match q with [] => False | b :: next => offset < size b /\ middle_room next end ->
  size (concat q) < 65536 -> offset + size (items_bytes its) < offset_max < 65536 ->
  (length its < fuel)%nat ->
  Forall (rfc_item options_field) its -> (options_field = true -> options_offset = DHCP_OPTIONS_OFS) ->
  Forall (fun it => exists f, rfc_item f it) done -> reads gone done o -> (gone = true -> options_field = false) ->
  exists o', parse_options fuel q offset offset_max options_offset o = Some (ERR_OK, o') /\ reads gone (done ++ its) o'.
Proof.
  induction its as [|it its IH]; intros fuel q pre post dn offset mx oo o opt Hc Hoff Hq Hsz Hmx Hf Hits Hopt Hdn Ho Hgone;
    destruct fuel as [|fuel]; [cbn in Hf; lia| |cbn in Hf; lia|]; (destruct q as [|b next]; [done|]); destruct Hq as [Hb Hroom];
    cbn [parse_options]; rewrite items_bytes_cons || idtac; pose proof (size_nonneg pre) as Hp.
  - change (items_bytes []) with (@nil Z) in *. cbn [app] in Hc. change (size []) with 0 in Hmx.
    replace (offset <? mx) with true by lia. cbn [negb]. subst offset. rewrite (load_front b next pre _ _ Hc) by done.
    cbn [mbind option_bind]. change (DHCP_OPTION_END =? DHCP_OPTION_END) with true. cbv iota.
    exists o. by rewrite app_nil_r.
  - rewrite items_bytes_cons in Hc, Hmx. rewrite size_app in Hmx. pose proof (size_nonneg (items_bytes its)) as Hi0.
    pose proof (size_nonneg (item_bytes it)) as Hi1. rewrite <- app_assoc in Hc.
    apply Forall_cons in Hits as [Hit Hits].
    replace (offset <? mx) with true by lia. cbn [negb].
    assert (exists c r, item_bytes it = c :: r /\ c <> DHCP_OPTION_END) as (c & rst & Eit & Hend).
    { destruct it as [|code v]; [by eexists _, _|]. destruct Hit as [(? & _) _]. eexists _, _. split; [done|]. lia. }
    subst offset. rewrite (load_front b next pre c (rst ++ items_bytes its ++ [DHCP_OPTION_END] ++ post)) by first [lia | by rewrite Hc, Eit].
    cbn [mbind option_bind]. rewrite (proj2 (Z.eqb_neq _ _) Hend).
    destruct (read_item gone b next pre it (items_bytes its ++ [DHCP_OPTION_END] ++ post) dn (size pre) oo o opt) as (o' & Er & Ho'); try done.
    { by apply middle_room_pos. }
    { rewrite !size_app. change (size [DHCP_OPTION_END]) with 1. pose proof (size_nonneg post). lia. }
    rewrite Eit in Er. cbn [hd] in Er. rewrite Er. rewrite <- Eit. cbn [mbind option_bind].
    change (negb (ERR_OK =? ERR_OK)) with false. cbv iota.
    assert (Hdn' : Forall (fun it => exists f, rfc_item f it) (dn ++ [it])) by (apply Forall_app; split; [done|apply Forall_singleton; by exists opt]).
    destruct (size b <=? size pre + size (item_bytes it)) eqn:Eb.
    + assert (Hbpre : (length b <= length (pre ++ item_bytes it))%nat) by (rewrite length_app; unfold size in *; lia).
      cbn [concat] in Hc, Hsz. rewrite app_assoc in Hc. destruct (split_behind _ _ _ _ Hc Hbpre) as (pre' & Epre & Hnext).
      assert (Hsp : size pre' = size pre + size (item_bytes it) - size b).
      { apply (f_equal size) in Epre. rewrite !size_app in Epre. lia. }
      assert (Hsn : size (concat next) = size pre' + size (items_bytes its) + 1 + size post).
      { rewrite Hnext, !size_app. change (size [DHCP_OPTION_END]) with 1. lia. }
      pose proof (size_nonneg b). pose proof (size_nonneg post). rewrite size_app in Hsz. rewrite !u16_small by lia.
      replace (_ <? mx - size b) with true by lia.
      destruct next as [|b2 next2]; [change (size (concat [])) with 0 in Hsn; pose proof (size_nonneg pre'); lia|].
      destruct Hroom as (Hbig & Hb2 & Hroom).
      destruct (IH fuel (b2 :: next2) pre' post (dn ++ [it]) (size pre + size (item_bytes it) - size b) (mx - size b) oo o' opt)
        as (o2 & E2 & Ho2); try done; try lia.
      * split; [|done]. destruct Hbig as [->|Hbig].
        { cbn [concat] in Hsn. rewrite app_nil_r in Hsn. lia. }
        assert (size (item_bytes it) <= 257); [|lia]. destruct it as [|code v]; [by vm_compute|].
        destruct Hit as [(_ & Hv & _) _]. cbn [item_bytes]. rewrite !size_cons. lia.
      * cbn [length] in Hf. lia.
      * exists o2. split; [exact E2|]. by rewrite <- app_assoc in Ho2.
    + destruct (IH fuel (b :: next) (pre ++ item_bytes it) post (dn ++ [it]) (size pre + size (item_bytes it)) mx oo o' opt)
        as (o2 & E2 & Ho2); try done; try lia.
      * by rewrite <- app_assoc.
      * rewrite size_app. lia.
      * split; [lia|done].
      * cbn [length] in Hf. lia.
      * exists o2. split; [exact E2|]. by rewrite <- app_assoc in Ho2.
Qed.

Lemma find_buffer_in p : forall idx idx_max,
  0 <= idx < size (concat p) -> idx <= idx_max < 65536 ->
  exists pre b next, find_buffer p idx idx_max = (b :: next, idx - size (concat pre), idx_max - size (concat pre)) /\
    p = pre ++ b :: next /\ 0 <= idx - size (concat pre) < size b.
Proof.
  induction p as [|b next IH]; intros idx mx Hi Hm; [change (size (concat [])) with 0 in Hi; lia|]. cbn [find_buffer].
  cbn [concat] in Hi. rewrite size_app in Hi. pose proof (size_nonneg b). destruct (size b <=? idx) eqn:E.
  - rewrite !u16_small by lia. destruct (IH (idx - size b) (mx - size b)) as (pre & c & n & -> & -> & Hr); [lia..|].
    exists (b :: pre), c, n. cbn [concat]. rewrite size_app in *. split_and!; try lia; [|done]. f_equal; [f_equal|]; lia.
  - exists [], b, next. change (size (concat [])) with 0. rewrite !Z.sub_0_r. split_and!; try done; lia.
Qed.

Lemma items_length its : (length its <= length (items_bytes its))%nat.
Proof.
  induction its as [|it its IH]; [done|]. rewrite items_bytes_cons, length_app. destruct it; cbn [length item_bytes]; lia.
Qed.

(** An area of the reply with the options [its]. *)
Lemma parse_area_items gone p pre its post idx idx_max dn o options_field :
  concat p = pre ++ items_bytes its ++ [DHCP_OPTION_END] ++ post -> idx = size pre -> middle_room (tail p) -> p <> [] ->
  size (concat p) < 65536 -> idx + size (items_bytes its) < idx_max < 65536 ->
  Forall (rfc_item options_field) its -> (options_field = true -> idx = DHCP_OPTIONS_OFS) ->
  Forall (fun it => exists f, rfc_item f it) dn -> reads gone dn o -> (gone = true -> options_field = false) ->
  exists o', parse_area p idx idx_max o = Some (ERR_OK, o') /\ reads gone (dn ++ its) o'.
Proof.
  intros Hc Hidx Hroom Hne Hsz Hmx Hits Hopt Hdn Ho Hgone. unfold parse_area. pose proof (size_nonneg pre).
  pose proof (size_nonneg (items_bytes its)). pose proof (size_nonneg post).
  assert (Hs : size (concat p) = size pre + size (items_bytes its) + 1 + size post).
  { rewrite Hc, !size_app. change (size [DHCP_OPTION_END]) with 1. lia. }
  destruct (find_buffer_in p idx idx_max) as (skip & b & next & -> & Ep & Hr); [lia..|].
  assert (Hlen : (length its <= length (concat p))%nat) by (rewrite Hc, !length_app; pose proof (items_length its); lia).
  rewrite Ep, concat_app in Hc. rewrite Ep, concat_app, size_app in Hsz, Hs. pose proof (size_nonneg (concat skip)).
  destruct (split_behind _ _ _ _ Hc) as (x & Ex & Hq); [unfold size in *; lia|].
  assert (Hx : size x = idx - size (concat skip)) by (rewrite Hidx, Ex, size_app; lia).
  destruct (parse_items gone its (S (length (concat p))) (b :: next) x post dn (idx - size (concat skip))
    (idx_max - size (concat skip)) idx o options_field) as (o' & E & Ho'); try done; try lia.
  - split; [lia|]. rewrite Ep in Hroom. destruct skip as [|c skip]; [done|]. cbn [app tail] in Hroom.
    apply middle_room_app in Hroom. apply Hroom.
  - by exists o'.
Qed.

(** ** A reply *)

(** The fields sname and file hold text, or options when the option OVERLOAD says so. *)
Inductive field := Text (bs : list Z) | Options (its : list item) (fill : list Z).

Definition field_bytes (f : field) : list Z :=
  match f with Text bs => bs | Options its fill => items_bytes its ++ [DHCP_OPTION_END] ++ fill end.
Definition field_items (f : field) : list item := match f with Text _ => [] | Options its _ => its end.

(** A reply as a server writes it; [r_head] are the fields before sname. *)
Record reply := mkReply {
  r_head : list Z; r_sname : field; r_file : field; r_cookie : list Z; r_options : list item; r_rest : list Z
}.

Definition reply_bytes (r : reply) : list Z :=
  r_head r ++ field_bytes (r_sname r) ++ field_bytes (r_file r) ++ r_cookie r
  ++ items_bytes (r_options r) ++ [DHCP_OPTION_END] ++ r_rest r.

(** All options, in the order of RFC 2131. *)
Definition reply_items (r : reply) : list item := r_options r ++ field_items (r_file r) ++ field_items (r_sname r).

Definition overload_number (file sname : field) : option Z :=
  match file, sname with
  | Text _, Text _ => None
  | Options _ _, Text _ => Some 1
  | Text _, Options _ _ => Some 2
  | Options _ _, Options _ _ => Some 3
  end.

Record wf_reply (r : reply) : Prop := {
  head_size : size (r_head r) = DHCP_SNAME_OFS;
  sname_size : size (field_bytes (r_sname r)) = DHCP_SNAME_LEN;
  file_size : size (field_bytes (r_file r)) = DHCP_FILE_LEN;
  cookie_size : size (r_cookie r) = 4;
  reply_size : size (reply_bytes r) < 65536;
  options_rfc : Forall (rfc_item true) (r_options r);
  sname_rfc : Forall (rfc_item false) (field_items (r_sname r));
  file_rfc : Forall (rfc_item false) (field_items (r_file r));
  overload_told : told (r_options r) DHCP_OPTION_IDX_OVERLOAD = overload_number (r_file r) (r_sname r)
}.

Lemma rfc_exists f its : Forall (rfc_item f) its -> Forall (fun it => exists f, rfc_item f it) its.
Proof. intros H. eapply Forall_impl; [exact H|]. intros it Hit. by exists f. Qed.

Section Reply.
Variables (r : reply) (p : chain).
Hypotheses (Hr : wf_reply r) (Hp : concat p = reply_bytes r) (Hroom : middle_room (tail p)).
Hypothesis (Hfirst : match p with [] => False | b :: _ => DHCP_SNAME_OFS <= size b end).

Let Hne : p <> [].
Proof. by destruct p. Qed.

Let Hsz : size (concat p) < 65536.
Proof. rewrite Hp. apply Hr. Qed.

Lemma parse_options_field :
  exists o, parse_area p DHCP_OPTIONS_OFS (u16 (tot_len p)) ∅ = Some (ERR_OK, o) /\ reads false (r_options r) o.
Proof.
  destruct Hr as [Hh Hs Hf Hc Hb Ho _ _ _]. unfold tot_len. pose proof (size_nonneg (concat p)). rewrite u16_small by lia.
  pose proof (size_nonneg (r_rest r)). unfold reply_bytes in Hp.
  apply (parse_area_items false p (r_head r ++ field_bytes (r_sname r) ++ field_bytes (r_file r) ++ r_cookie r)
    (r_options r) (r_rest r) _ _ [] ∅ true); try done.
  - rewrite Hp. by rewrite <- !app_assoc.
  - rewrite !size_app. lia.
  - rewrite Hp in *. rewrite !size_app in *. change (size [DHCP_OPTION_END]) with 1 in *. lia.
  - apply reads_nil.
Qed.

Lemma parse_file_field its fill dn o :
  r_file r = Options its fill -> Forall (fun it => exists f, rfc_item f it) dn -> reads true dn o ->
  exists o', parse_area p DHCP_FILE_OFS (DHCP_FILE_OFS + DHCP_FILE_LEN) o = Some (ERR_OK, o') /\ reads true (dn ++ its) o'.
Proof.
  intros Ef Hdn Ho. destruct Hr as [Hh Hs Hf Hc Hb _ _ Hfr _]. rewrite Ef in *. cbn [field_bytes field_items] in *.
  unfold reply_bytes in Hp. rewrite Ef in Hp. cbn [field_bytes] in Hp. rewrite !size_app in Hf.
  change (size [DHCP_OPTION_END]) with 1 in Hf. pose proof (size_nonneg fill).
  eapply (parse_area_items true p (r_head r ++ field_bytes (r_sname r)) its); try done.
  - rewrite Hp. rewrite <- !app_assoc. reflexivity.
  - rewrite !size_app. lia.
  - lia.
Qed.

Lemma parse_sname_field its fill dn o :
  r_sname r = Options its fill -> Forall (fun it => exists f, rfc_item f it) dn -> reads true dn o ->
  exists o', parse_area p DHCP_SNAME_OFS (DHCP_SNAME_OFS + DHCP_SNAME_LEN) o = Some (ERR_OK, o') /\ reads true (dn ++ its) o'.
Proof.
  intros Es Hdn Ho. destruct Hr as [Hh Hs Hf Hc Hb _ Hsr _ _]. rewrite Es in *. cbn [field_bytes field_items] in *.
  unfold reply_bytes in Hp. rewrite Es in Hp. cbn [field_bytes] in Hp. rewrite !size_app in Hs.
  change (size [DHCP_OPTION_END]) with 1 in Hs. pose proof (size_nonneg fill).
  eapply (parse_area_items true p (r_head r) its); try done.
  - rewrite Hp. rewrite <- !app_assoc. reflexivity.
  - lia.
Qed.


(** Without the overload, the map is what was read. *)
Lemma reads_gone its o : reads false its o -> reads true its (delete DHCP_OPTION_IDX_OVERLOAD o).
Proof.
  intros Ho idx. destruct (idx =? DHCP_OPTION_IDX_OVERLOAD) eqn:E; cbn [andb].
  - apply Z.eqb_eq in E as ->. apply lookup_delete_eq.
  - rewrite lookup_delete_ne by lia. apply Ho.
Qed.

Lemma gone_none its o : reads true its o -> o !! DHCP_OPTION_IDX_OVERLOAD = None.
Proof. intros Ho. by rewrite Ho. Qed.

(** All that the reply says is read, except for the overload. *)
Lemma reply_is_read : exists o, dhcp_parse_reply p = Some (ERR_OK, o) /\ reads true (reply_items r) o.
Proof.
  assert (dhcp_parse_reply p = parse_areas 3 p DHCP_OPTIONS_OFS (u16 (tot_len p)) false false ∅) as ->.
  { unfold dhcp_parse_reply. destruct p as [|b next]; [done|]. by replace (size b <? _) with false by lia. }
  destruct parse_options_field as (o1 & E1 & Ho1). unfold parse_areas. rewrite E1. cbn [mbind option_bind].
  change (negb (ERR_OK =? ERR_OK)) with false. cbv iota.
  assert (Hov : o1 !! DHCP_OPTION_IDX_OVERLOAD = overload_number (r_file r) (r_sname r)).
  { rewrite Ho1. apply Hr. }
  pose proof (rfc_exists _ _ (options_rfc r Hr)) as Hdn. unfold reply_items. rewrite Hov.
  destruct (r_file r) as [ft|fits ffill] eqn:Ef, (r_sname r) as [st|sits sfill] eqn:Es; cbn [overload_number field_items].
  - exists o1. split; [done|]. rewrite app_nil_r. intros idx. rewrite Ho1. cbn [andb].
    destruct (idx =? DHCP_OPTION_IDX_OVERLOAD) eqn:E; [|done]. apply Z.eqb_eq in E as ->.
    pose proof (overload_told r Hr) as H0. by rewrite Ef, Es in H0.
  - change (overloaded 2) with (false, true). cbn [orb]. cbv iota.
    destruct (parse_sname_field sits sfill _ _ Es Hdn (reads_gone _ _ Ho1)) as (o2 & -> & Ho2). cbn [mbind option_bind].
    change (negb (ERR_OK =? ERR_OK)) with false. cbv iota. rewrite (gone_none _ _ Ho2). by exists o2.
  - change (overloaded 1) with (true, false). cbn [orb]. cbv iota.
    destruct (parse_file_field fits ffill _ _ Ef Hdn (reads_gone _ _ Ho1)) as (o2 & -> & Ho2). cbn [mbind option_bind].
    change (negb (ERR_OK =? ERR_OK)) with false. cbv iota. rewrite (gone_none _ _ Ho2), app_nil_r. by exists o2.
  - change (overloaded 3) with (true, true). cbn [orb]. cbv iota.
    destruct (parse_file_field fits ffill _ _ Ef Hdn (reads_gone _ _ Ho1)) as (o2 & -> & Ho2). cbn [mbind option_bind].
    change (negb (ERR_OK =? ERR_OK)) with false. cbv iota. rewrite (gone_none _ _ Ho2). cbv iota.
    assert (Hfr : Forall (fun it => exists f, rfc_item f it) (r_options r ++ fits)).
    { apply Forall_app. split; [done|]. apply (rfc_exists false). pose proof (file_rfc r Hr) as Hx. by rewrite Ef in Hx. }
    destruct (parse_sname_field sits sfill _ _ Es Hfr Ho2) as (o3 & -> & Ho3). cbn [mbind option_bind].
    change (negb (ERR_OK =? ERR_OK)) with false. cbv iota. rewrite (gone_none _ _ Ho3). exists o3. by rewrite <- app_assoc in Ho3.
Qed.
End Reply.
End Told.
End DhcpTold.
