(* ===== verification/DhcpLease.v ===== *)
(** The DHCP client of lwIP: how a lease is got, and how it ends. *)

From stdpp Require Import gmap.
From S2P Require Export DhcpSystem DhcpTicks DhcpTold.
Export DhcpSystem DhcpTicks DhcpTold.
Open Scope Z_scope.

Module DhcpLease.

Section Lease.
Context {Opt : DhcpOptions} {Pbufs : DhcpPbufs} {World : DhcpWorld}.

(** ** What is sent can be read *)

Lemma legal_rfc n d message_type its dst any :
  wf_netif n -> wf_dhcp d -> legal n d message_type its dst any ->
  Forall (rfc_item true) (type_item message_type :: its) /\ first_value DHCP_OPTION_OVERLOAD its = None.
Proof.
  intros (_ & _ & _ & Hmtu & _ & Hhost) Hd Hl. pose proof (offer_wf d Hd) as Hf.
  assert (Hmax : forall v, 0 <= v < 2 ^ 16 -> rfc_item true (max_item v)).
  { intros v Hv. split; [split_and!; try done; by apply be16_is_bytes|]. by split. }
  assert (Hreq : rfc_item true request_item).
  { pose proof request_options_size. split; [split_and!; try done; [lia|apply request_options_bytes]|].
    by split. }
  assert (Hip : forall v, 0 <= v < 2 ^ 32 -> rfc_item true (addr_item DHCP_OPTION_REQUESTED_IP v)).
  { intros v Hv. split; [split_and!; try done; by apply be32_is_bytes|]. by split. }
  assert (Hid : forall v, 0 <= v < 2 ^ 32 -> rfc_item true (addr_item DHCP_OPTION_SERVER_ID v)).
  { intros v Hv. split; [split_and!; try done; by apply be32_is_bytes|]. by split. }
  assert (Hh : Forall (rfc_item true) (hostname_items n) /\ first_value DHCP_OPTION_OVERLOAD (hostname_items n) = None).
  { unfold hostname_items. destruct (hostname n) as [name|]; [|done]. destruct (_ && _); [|done]. destruct Hhost as [Hb Hs].
    split; [|done]. apply Forall_singleton. split; [split_and!; try done; lia|]. by split. }
  assert (Ht : is_byte message_type -> rfc_item true (type_item message_type)).
  { intros Hb. split; [split_and!; try done; by apply Forall_singleton|]. by split. }
  destruct Hh as [Hh1 Hh2].
  destruct Hl; (split; [|first [exact Hh2 | reflexivity]]); cbn [app]; repeat apply Forall_cons_2; try exact Hh1;
    match goal with
    | |- Forall _ [] => apply Forall_nil; exact I
    | |- rfc_item _ (Item DHCP_OPTION_REQUESTED_IP _) => apply Hip, Hf
    | |- rfc_item _ (Item DHCP_OPTION_SERVER_ID _) => first [apply Hid, Hf | apply Hid; assumption]
    | |- rfc_item _ (Item DHCP_OPTION_MAX_MSG_SIZE _) => apply Hmax; lia
    | _ => first [exact Hreq | apply Ht; lia || done]
    end.
Qed.

(** There is a slot for every DNS server that is decoded. *)
Hypothesis dns_slots : DNS_MAX_SERVERS <= LWIP_DHCP_MAX_DNS_SERVERS.

(** The fields of a message before sname. *)
Definition head_bytes (m : dhcp_msg) : list Z :=
  [op m; htype m; hlen m; hops m] ++ be32 (msg_xid m) ++ be16 (secs m) ++ be16 (flags m) ++ be32 (ciaddr m)
  ++ be32 (yiaddr m) ++ be32 (siaddr m) ++ be32 (giaddr m) ++ chaddr m.

Lemma msg_head_parts m : msg_head m = head_bytes m ++ sname m ++ file m ++ be32 (cookie m).
Proof. unfold msg_head, msg_bytes, head_bytes. cbn [set_options options op htype hlen hops msg_xid secs flags ciaddr yiaddr
  siaddr giaddr chaddr sname file cookie]. rewrite <- !app_assoc. by rewrite app_nil_r. Qed.

(** A message of the client is read by its own reader. *)
Lemma message_read n d message_type its k dst any :
  wf_netif n -> wf_dhcp d -> legal n d message_type its dst any ->
  msg_size_ok (message (msg_header n d message_type) (type_item message_type :: its) k) ->
  exists o, dhcp_parse_reply [message (msg_header n d message_type) (type_item message_type :: its) k] = Some (ERR_OK, o) /\
    reads true (type_item message_type :: its) o.
Proof.
  intros Hn Hd Hl Hk. pose proof options_len_ok as Hlen. set (m := msg_header n d message_type).
  pose proof (msg_head_size n d message_type Hn) as Hm. fold m in Hm.
  destruct (legal_rfc n d message_type its dst any Hn Hd Hl) as [Hrfc Hov].
  set (r := mkReply (head_bytes m) (Text (sname m)) (Text (file m)) (be32 (cookie m)) (type_item message_type :: its) (replicate k 0)).
  assert (Hbytes : message m (type_item message_type :: its) k = reply_bytes r).
  { unfold message, reply_bytes, r. cbn [r_head r_sname r_file r_cookie r_options r_rest field_bytes].
    rewrite msg_head_parts. by rewrite <- !app_assoc. }
  assert (size (sname m) = 64) as E1 by done. assert (size (file m) = 128) as E2 by done.
  assert (Hhead : size (head_bytes m) = 44) by (rewrite msg_head_parts, !size_app, be32_size, E1, E2 in Hm; lia).
  destruct Hk as [Hk _]. fold m in Hk. rewrite Hbytes in *.
  assert (Hr : wf_reply r).
  { split; [exact Hhead|exact E1|exact E2|apply be32_size| |exact Hrfc|constructor|constructor|].
    - lia.
    - unfold told. change (index_option DHCP_OPTION_IDX_OVERLOAD) with (Some (DHCP_OPTION_OVERLOAD, 0)). cbn [mbind option_bind r r_options first_value type_item].
      change (DHCP_OPTION_MESSAGE_TYPE =? DHCP_OPTION_OVERLOAD) with false. cbv iota. by rewrite Hov. }
  destruct (reply_is_read dns_slots r [reply_bytes r] Hr) as (o & E & Ho).
  - cbn [concat]. by rewrite app_nil_r.
  - done.
  - unfold reply_bytes. rewrite size_app. cbn [r r_head]. rewrite Hhead.
    match goal with |- _ <= _ + size ?x => pose proof (size_nonneg x) end. lia.
  - exists o. split; [done|]. unfold reply_items, r in Ho. cbn [r_options r_file r_sname field_items] in Ho. by rewrite app_nil_r in Ho.
Qed.

(** ** The answers of a server *)

(** A reply in buffers, to the transaction [x] of the interface [n]: its type, the
    address in it, and its options. *)
Record answer (n : netif) (x message_type addr : Z) (its : list item) (p : chain) : Prop := {
  answer_chain : wf_chain p;
  answer_reply : exists r other1 other2 other3 hw,
    wf_reply r /\ concat p = reply_bytes r /\ reply_items r = its /\
    r_head r = [DHCP_BOOTREPLY] ++ other1 ++ be32 x ++ other2 ++ be32 addr ++ other3 ++ hw /\
    size other1 = 3 /\ size other2 = 8 /\ size other3 = 8 /\
    (let k := Z.to_nat (Z.min (hwaddr_len n) (Z.min DHCP_CHADDR_LEN NETIF_MAX_HWADDR_LEN)) in
     take k hw = take k (hwaddr n) /\ size hw = 16);
  answer_first : match p with [] => False | b :: _ => DHCP_SNAME_OFS <= size b end;
  answer_type : told its DHCP_OPTION_IDX_MSG_TYPE = Some message_type;
  answer_byte : is_byte message_type;
  answer_addr : 0 <= addr < 2 ^ 32
}.

Lemma chain_middle p : wf_chain p -> middle_room (tail p).
Proof.
  intros [_ Hr _ _]. induction Hr as [|b q Hb _ IH]; [done|]. cbn [middle_room]. split; [by right|]. split; [lia|done].
Qed.

(** An answer to the transaction of the client is handled by its type. *)
Lemma recv_answer s d message_type addr its p :
  data s = Some d -> pcb_allocated d = true -> 0 <= d_xid d < 2 ^ 32 -> wf_netif (nif s) ->
  answer (nif s) (d_xid d) message_type addr its p ->
  exists o, reads true its o /\ wf_options o /\
    dhcp_recv p s = dhcp_handle_reply message_type addr (set_glb (set_rx_options o (glb s)) s).
Proof.
  intros Hs Hp Hx Hn [Hchain (r & o1 & o2 & o3 & hw & Hr & Hc & <- & Hhead & H1 & H2 & H3 & Hk & Hw) Hfirst Ht Hb Ha].
  destruct (reply_is_read dns_slots r p Hr Hc (chain_middle p Hchain) Hfirst) as (o & Eparse & Ho).
  destruct (parse_reply_total dns_slots p Hchain) as (e' & o' & Eparse' & Hwf).
  rewrite Eparse in Eparse'. injection Eparse' as <- <-.
  exists o. split; [done|]. split; [done|]. unfold dhcp_recv. rewrite Hs, Hp. cbn [negb].
  destruct p as [|b next] eqn:Ep; [done|]. cbn [head mbind option_bind]. rewrite <- Ep in *.
  assert (exists b2, b = r_head r ++ b2) as (b2 & Eb).
  { rewrite Ep in Hc. cbn [concat] in Hc. unfold reply_bytes in Hc.
    destruct (split_behind (r_head r) _ b (concat next) (eq_sym Hc)) as (b2 & -> & _); [|by exists b2].
    pose proof (head_size r Hr). unfold size in *. lia. }
  replace (size b <? DHCP_MIN_REPLY_LEN) with false by lia. rewrite Hhead in Eb.
  assert (Hop : load b 0 = Some DHCP_BOOTREPLY) by (by rewrite Eb). rewrite Hop. cbn [mbind option_bind].
  change (negb (DHCP_BOOTREPLY =? DHCP_BOOTREPLY)) with false. cbv iota.
  assert (Hsame : same_chaddr (nif s) b = true).
  { unfold same_chaddr. cbv zeta. apply bool_decide_eq_true. rewrite <- Hk. rewrite Eb.
    replace (([DHCP_BOOTREPLY] ++ o1 ++ be32 (d_xid d) ++ o2 ++ be32 addr ++ o3 ++ hw) ++ b2)
      with (([DHCP_BOOTREPLY] ++ o1 ++ be32 (d_xid d) ++ o2 ++ be32 addr ++ o3) ++ hw ++ b2) by (by rewrite <- !app_assoc).
    rewrite drop_app_length'.
    - rewrite take_app_le; [done|]. unfold size in Hw. lia.
    - rewrite !length_app. unfold size in *. cbn [length be32]. lia. }
  rewrite Hsame. cbn [negb].
  assert (Hxid : fetch b 4 4 = Some (be32 (d_xid d))).
  { rewrite Eb. replace (([DHCP_BOOTREPLY] ++ o1 ++ be32 (d_xid d) ++ o2 ++ be32 addr ++ o3 ++ hw) ++ b2)
      with (([DHCP_BOOTREPLY] ++ o1) ++ be32 (d_xid d) ++ (o2 ++ be32 addr ++ o3 ++ hw ++ b2)) by (by rewrite <- !app_assoc).
    apply fetch_mid; [rewrite size_app; change (size [_]) with 1; lia|done]. }
  rewrite Hxid. cbn [mbind option_bind]. rewrite of_be_be32 by done. rewrite Z.eqb_refl. cbn [negb].
  rewrite Eparse. cbn [mbind option_bind]. change (negb (ERR_OK =? ERR_OK)) with false. cbv iota.
  rewrite Ho. cbn [andb]. change (DHCP_OPTION_IDX_MSG_TYPE =? DHCP_OPTION_IDX_OVERLOAD) with false. cbv iota. rewrite Ht.
  assert (Hyi : fetch b 16 4 = Some (be32 addr)).
  { rewrite Eb. replace (([DHCP_BOOTREPLY] ++ o1 ++ be32 (d_xid d) ++ o2 ++ be32 addr ++ o3 ++ hw) ++ b2)
      with (([DHCP_BOOTREPLY] ++ o1 ++ be32 (d_xid d) ++ o2) ++ be32 addr ++ (o3 ++ hw ++ b2)) by (by rewrite <- !app_assoc).
    apply fetch_mid; [rewrite !size_app, be32_size; change (size [_]) with 1; lia|done]. }
  rewrite Hyi. cbn [mbind option_bind]. rewrite of_be_be32, u8_small by done. done.
Qed.

(** ** From the offer to the lease *)

Context {Ack : Acknowledged}.

Lemma good_rx r s o : good r s -> good r (set_glb (set_rx_options o (glb s)) s).
Proof. intros [Hn Hg Hr Ha Hd]. split; try done. by destruct Hg. Qed.

(** The message that asks for the address of an offer. *)
Definition request_items (n : netif) (addr server : Z) : list item :=
  [max_item (mtu n); addr_item DHCP_OPTION_REQUESTED_IP addr; addr_item DHCP_OPTION_SERVER_ID server; request_item] ++ hostname_items n.

(** An offer is taken: the client asks its server for its address. *)
Lemma offer_taken r s d addr its p server :
  good r s -> data s = Some d -> state d = DHCP_STATE_SELECTING -> answer (nif s) (d_xid d) DHCP_OFFER addr its p ->
  told its DHCP_OPTION_IDX_SERVER_ID = Some server ->
  exists s1 d1, dhcp_recv p s = Some s1 /\ good r s1 /\ nif s1 = nif s /\ data s1 = Some d1 /\
    state d1 = DHCP_STATE_REQUESTING /\ d_xid d1 = d_xid d /\ offered_ip_addr (off d1) = addr /\ server_ip_addr (off d1) = server /\
    (pbuf_alloc_ok (calls (glb s)) = true -> exists d' k, d_xid d' = d_xid d /\ events (glb s1) = events (glb s) ++
       [Sent IP_ADDR_BROADCAST true
          (message (msg_header (nif s) d' DHCP_REQUEST) (type_item DHCP_REQUEST :: request_items (nif s) addr server) k)]).
Proof.
  intros Hgood Hs Hst Hans Hserver. pose proof (good_alloc r s d Hgood Hs ltac:(by rewrite Hst)) as Hp.
  destruct (good_dhcp _ _ Hgood d Hs) as (Hd & _).
  destruct (recv_answer s d DHCP_OFFER addr its p Hs Hp (xid_range d Hd) (good_netif _ _ Hgood) Hans) as (o & Ho & Hwo & E).
  pose proof (good_rx r s o Hgood) as Hg0. set (s0 := set_glb _ s) in *.
  assert (Ev : rx_options (glb s0) !! DHCP_OPTION_IDX_SERVER_ID = Some server) by exact (eq_trans (Ho DHCP_OPTION_IDX_SERVER_ID) Hserver).
  set (d1 := in_off (fun f => set_offered_ip_addr addr (set_server_ip_addr server f)) (in_tim (set_request_timeout 0) d)).
  assert (Hw : wf_dhcp d1).
  { destruct Hd as [Hx Ht [] []]. pose proof (Hwo _ _ Ev). pose proof (answer_addr _ _ _ _ _ _ Hans). split; try done. }
  pose proof (running_set_data r s0 d d1 (good_running r s0 d Hg0 Hs) Hw eq_refl) as Hrun1.
  destruct (select_spec r _ d1 Hrun1) as (res & x & g & Esel & -> & Hx & Hsends).
  destruct (after_request_facts DHCP_STATE_REQUESTING (d_xid d1) backoff d1) as (Hst' & Hoff' & _ & Hxid' & _).
  eexists _, _. split.
  { rewrite E. unfold dhcp_handle_reply. change (data s0) with (data s). rewrite Hs. cbn [mbind option_bind]. rewrite Hst.
    change (DHCP_OFFER =? DHCP_ACK) with false. change (DHCP_OFFER =? DHCP_NAK) with false. change (DHCP_OFFER =? DHCP_OFFER) with true.
    rewrite (bool_decide_true (DHCP_STATE_SELECTING = _)) by done. cbn [andb]. cbv iota. unfold dhcp_handle_offer.
    change (data s0) with (data s). rewrite Hs. cbn [mbind option_bind]. rewrite Ev. fold d1. rewrite Esel. reflexivity. }
  split; [exact (asked_good r _ d1 Hrun1 DHCP_STATE_REQUESTING backoff _ _ _ _ g Hp ltac:(by split) Hx backoff_ok Hsends)|].
  split; [done|]. split; [reflexivity|]. split; [exact Hst'|]. split; [exact Hxid'|]. rewrite Hoff'. split; [done|]. split; [done|].
  intros Hmem. destruct Hsends as (its' & Hl & (_ & _ & Hok & [Hev|(k & Hev & _)])).
  - exfalso. apply Hok; [|done]. cbn [glb set_data s0 set_glb calls set_rx_options dhcp_pcb]. rewrite Hmem.
    rewrite (pcb_used _ _ (good_glob _ _ Hgood)), Hs. cbn [users_of andb]. rewrite Hp. pose proof (good_others _ _ Hgood). lia.
  - exists (set_d_xid (d_xid d1) (dhcp_set_state DHCP_STATE_REQUESTING d1)), k. split; [done|]. cbn [glb asked]. rewrite Hev.
    pose proof (set_state_state DHCP_STATE_REQUESTING d1 : state (set_d_xid (d_xid d1) (dhcp_set_state DHCP_STATE_REQUESTING d1)) = _) as Hst2.
    assert (its' = request_items (nif s) addr server) as ->; [|done].
    pose proof (set_state_off DHCP_STATE_REQUESTING d1 : off (set_d_xid (d_xid d1) (dhcp_set_state DHCP_STATE_REQUESTING d1)) = _) as Hoff2.
    inversion Hl as [| | H0 | H0 | H0 | | |]; subst; try (rewrite Hst2 in H0; done). unfold request_items. rewrite Hoff2. done.
Qed.

(** The timers of a lease that ends. *)
Lemma lease_timers_facts o t :
  (offered_t0_lease o <> 0xffffffff -> t0_timeout (lease_timers o t) = lease_ticks (offered_t0_lease o)) /\
  (offered_t1_renew o <> 0xffffffff -> t1_renew_time (lease_timers o t) = lease_ticks (offered_t1_renew o)) /\
  (offered_t2_rebind o <> 0xffffffff -> t2_rebind_time (lease_timers o t) = lease_ticks (offered_t2_rebind o)) /\
  lease_used (lease_timers o t) = 0.
Proof.
  unfold lease_timers.
  destruct (Z.eqb_spec (offered_t0_lease o) 0xffffffff), (Z.eqb_spec (offered_t1_renew o) 0xffffffff),
    (Z.eqb_spec (offered_t2_rebind o) 0xffffffff); cbv zeta; destruct (_ && _); split_and!; done.
Qed.

(** What the client has when the acknowledgment of [addr] says [its]. *)
Definition takes_lease (n : netif) (addr : Z) (its : list item) (s : client) : Prop :=
  nif s = with_addr n addr (default (class_mask addr) (told its DHCP_OPTION_IDX_SUBNET_MASK))
            (default 0 (told its DHCP_OPTION_IDX_ROUTER)) /\
  exists d, data s = Some d /\ state d = DHCP_STATE_BOUND /\ offered_ip_addr (off d) = addr /\ lease_used (tim d) = 0 /\
    forall t0, told its DHCP_OPTION_IDX_LEASE_TIME = Some t0 ->
      let t1 := default (t0 / 2) (told its DHCP_OPTION_IDX_T1) in
      let t2 := default (u32 (t0 * 7) / 8) (told its DHCP_OPTION_IDX_T2) in
      (t0 <> 0xffffffff -> t0_timeout (tim d) = lease_ticks t0) /\
      (t1 <> 0xffffffff -> t1_renew_time (tim d) = lease_ticks t1) /\
      (t2 <> 0xffffffff -> t2_rebind_time (tim d) = lease_ticks t2).

Lemma bind_takes r s d n addr its o t :
  running r s d -> pcb_allocated d = true -> acked addr -> nif s = n -> reads true its o ->
  off d = off (remember_ack o addr t) -> subnet_mask_given d = subnet_mask_given (remember_ack o addr t) ->
  good r (dhcp_bind s) /\ takes_lease n addr its (dhcp_bind s).
Proof.
  intros Hrun Hp Hack <- Ho Hoff Hmask. destruct (bind_spec r s d Hrun Hp) as [Hg (d' & Hs' & Hst & Hoff' & _ & [v Htim] & Hnif)]; [by rewrite Hoff|].
  split; [done|].
  assert (Hread : forall idx, idx <> DHCP_OPTION_IDX_OVERLOAD -> o !! idx = told its idx).
  { intros idx Hne. rewrite Ho, (proj2 (Z.eqb_neq idx _)) by done. by rewrite andb_false_r. }
  split.
  - rewrite Hnif, Hmask, Hoff. unfold remember_ack. cbv zeta.
    cbn [off set_subnet_mask_given set_off subnet_mask_given offered_ip_addr offered_sn_mask offered_gw_addr].
    unfold dhcp_option_given. rewrite !Hread by done. by destruct (told its DHCP_OPTION_IDX_SUBNET_MASK).
  - exists d'. split; [done|]. split; [done|]. rewrite Hoff', Htim.
    destruct (lease_timers_facts (off d) (tim d)) as (H0 & H1 & H2 & Hu). split; [by rewrite Hoff|]. split; [exact Hu|].
    intros t0 Ht0. cbv zeta. revert H0 H1 H2. rewrite Hoff. unfold remember_ack. cbv zeta.
    cbn [off set_subnet_mask_given set_off offered_t0_lease offered_t1_renew offered_t2_rebind]. rewrite !Hread by done.
    rewrite Ht0. cbn [default from_option]. unfold id. intros H0 H1 H2. by split_and!.
Qed.

(** The number of fine ticks that the probes of an address take. *)
Definition probe_ticks (n : netif) : nat := if DHCP_DOES_ARP_CHECK && flag_etharp n then 2 else 0.

(** The fine timer in a client that probes. *)
Lemma check_tick s d : data s = Some d -> request_timeout (tim d) = 1 -> state d = DHCP_STATE_CHECKING -> DHCP_DOES_ARP_CHECK = true ->
  let s0 := set_data (Some (in_tim (set_request_timeout 0) d)) s in
  fine_tick s = if tries d <=? 1 then dhcp_check s0 else Some (dhcp_bind s0).
Proof.
  intros Hs H1 Hst Harp. cbv zeta. unfold fine_tick. rewrite Hs. cbv zeta. rewrite H1. change (1 <? 1) with false. change (1 =? 1) with true. cbv iota.
  unfold dhcp_timeout. change (1 - 1) with 0. cbn [set_data data mbind option_bind]. change (state (in_tim _ d)) with (state d). by rewrite Hst, Harp.
Qed.

(** The probes of an address that nobody answers to. *)
Lemma probes_done r s d n addr its o t :
  running r s d -> pcb_allocated d = true -> acked addr -> nif s = n -> reads true its o -> DHCP_DOES_ARP_CHECK = true ->
  state d <> DHCP_STATE_CHECKING ->
  off d = off (remember_ack o addr t) -> subnet_mask_given d = subnet_mask_given (remember_ack o addr t) ->
  exists s2 s3, dhcp_check s = Some s2 /\ good r s2 /\ ticks [false; false] s2 = Some s3 /\ good r s3 /\ takes_lease n addr its s3.
Proof.
  intros Hrun Hp Hack Hn Ho Harp Hst Hoff Hmask. assert (Hack' : acked (offered_ip_addr (off d))) by (by rewrite Hoff).
  destruct (check_spec r s d Hrun Hp Hack') as (s2 & d2 & E2 & Hg2 & Hn2 & Hs2 & Hst2 & Hoff2 & _ & _ & Hm2 & Ht2 & Htr2).
  rewrite bool_decide_false in Htr2 by done. pose proof (good_alloc r s2 d2 Hg2 Hs2 ltac:(by rewrite Hst2)) as Hp2.
  assert (Hzero : forall s d, good r s -> data s = Some d -> running r (set_data (Some (in_tim (set_request_timeout 0) d)) s) (in_tim (set_request_timeout 0) d)).
  { intros s' d' Hg Hs. apply (running_set_data r s' d'); [by apply good_running| |done].
    destruct (good_dhcp _ _ Hg d' Hs) as ([? ? [] ?] & _). by split. }
  destruct (check_spec r _ _ (Hzero s2 d2 Hg2 Hs2) Hp2 ltac:(by rewrite <- Hoff2 in Hack')) as
    (s3 & d3 & E3 & Hg3 & Hn3 & Hs3 & Hst3 & Hoff3 & _ & _ & Hm3 & Ht3 & Htr3).
  change (state (in_tim _ d2)) with (state d2) in Htr3. change (tries (in_tim _ d2)) with (tries d2) in Htr3.
  rewrite bool_decide_true, Htr2 in Htr3 by done. pose proof (good_alloc r s3 d3 Hg3 Hs3 ltac:(by rewrite Hst3)) as Hp3.
  change (off (in_tim _ d2)) with (off d2) in Hoff3. change (subnet_mask_given (in_tim _ d2)) with (subnet_mask_given d2) in Hm3.
  change (nif (set_data _ s2)) with (nif s2) in Hn3.
  destruct (bind_takes r _ _ n addr its o t (Hzero s3 d3 Hg3 Hs3) Hp3 Hack) as [Hg4 Ht4]; try done.
  - change (nif (set_data _ s3)) with (nif s3). congruence.
  - change (off (in_tim _ d3)) with (off d3). congruence.
  - change (subnet_mask_given (in_tim _ d3)) with (subnet_mask_given d3). congruence.
  - eexists s2, _. split; [done|]. split; [done|]. split; [|split; [exact Hg4|exact Ht4]]. cbn [ticks tick].
    rewrite (check_tick s2 d2) by done. rewrite Htr2. change (1 <=? 1) with true. cbv iota. rewrite E3. cbn [mbind option_bind].
    rewrite (check_tick s3 d3) by done. rewrite Htr3. change (Z.min (1 + 1) 255 <=? 1) with false. reflexivity.
Qed.

(** An acknowledgment is taken: the interface has the address and the lease is timed,
    after the probes. *)
Lemma ack_taken r s d addr its p :
  good r s -> data s = Some d -> state d = DHCP_STATE_REQUESTING -> answer (nif s) (d_xid d) DHCP_ACK addr its p -> acked addr ->
  exists s2 s3, dhcp_recv p s = Some s2 /\ good r s2 /\ ticks (replicate (probe_ticks (nif s)) false) s2 = Some s3 /\ good r s3 /\
    takes_lease (nif s) addr its s3.
Proof.
  intros Hgood Hs Hst Hans Hack. pose proof (good_alloc r s d Hgood Hs ltac:(by rewrite Hst)) as Hp.
  destruct (good_dhcp _ _ Hgood d Hs) as (Hd & _).
  destruct (recv_answer s d DHCP_ACK addr its p Hs Hp (xid_range d Hd) (good_netif _ _ Hgood) Hans) as (o & Ho & Hwo & E).
  pose proof (good_rx r s o Hgood) as Hg0. set (s0 := set_glb _ s) in *.
  destruct (handle_ack_spec r s0 d addr (good_running r s0 d Hg0 Hs) Hwo (answer_addr _ _ _ _ _ _ Hans)) as (s1 & E1 & Hn1 & Hrun1).
  change (rx_options (glb s0)) with o in Hrun1. rewrite E. unfold dhcp_handle_reply. change (data s0) with (data s). rewrite Hs. cbn [mbind option_bind].
  change (DHCP_ACK =? DHCP_ACK) with true. cbv iota. rewrite Hst, E1. cbn [mbind option_bind]. rewrite Hn1. change (nif s0) with (nif s) in *.
  unfold probe_ticks. destruct (DHCP_DOES_ARP_CHECK && flag_etharp (nif s)) eqn:Earp.
  - apply andb_true_iff in Earp as [Earp _].
    by apply (probes_done r s1 (remember_ack o addr d) (nif s) addr its o d); try done; change (state (remember_ack o addr d)) with (state d); rewrite Hst.
  - destruct (bind_takes r s1 (remember_ack o addr d) (nif s) addr its o d) as [Hg2 Ht2]; try done. by eexists _, _.
Qed.
End Lease.
End DhcpLease.
