(* ===== verification/DhcpSample.v ===== *)
(** The DHCP client of lwIP: an instance of its options and of the outside, with an
    interface, and the messages of a server. *)

From stdpp Require Import gmap.
From S2P Require Export DhcpLease.
Export DhcpLease.
Open Scope Z_scope.

Module DhcpSample.

Definition sample_options : DhcpOptions.
Proof.
  refine {| DHCP_OPTIONS_LEN := 68; NETIF_MAX_HWADDR_LEN := 6; DHCP_DOES_ARP_CHECK := true; LWIP_DNS := true;
    LWIP_DHCP_MAX_DNS_SERVERS := 2; DNS_MAX_SERVERS := 2; LWIP_DHCP_GET_NTP_SRV := false; LWIP_DHCP_MAX_NTP_SERVERS := 0;
    LWIP_DHCP_AUTOIP_COOP := false; LWIP_DHCP_AUTOIP_COOP_TRIES := 9; LWIP_NETIF_HOSTNAME := false;
    DHCP_CREATE_RAND_XID := true |}; lia.
Defined.

Definition sample_pbufs : DhcpPbufs.
Proof.
  refine {| pbuf_copy_partial p len offset := take (Z.to_nat len) (drop (Z.to_nat offset) (concat p));
            pbuf_realloc b n := take (Z.to_nat n) b |}; done.
Defined.

Definition sample_world : DhcpWorld :=
  {| mem_malloc_ok _ := true; udp_new_ok _ := true; pbuf_alloc_ok _ := true; udp_sendto_result _ := 0;
     LWIP_RAND n := 0x12345678 + Z.of_nat n |}.

#[export] Existing Instance sample_options.
#[export] Existing Instance sample_pbufs.
#[export] Existing Instance sample_world.

(** Any address may be taken. *)
Definition any_address : Acknowledged := {| acked _ := True; acked_any := I |}.
#[export] Existing Instance any_address.

(** An Ethernet interface, before and after [dhcp_start]. *)
Definition eth0 : netif := mkNetif [2; 0; 0; 0; 0; 1] 6 1500 true true true None 0 0 0.
Definition before : client := mkClient eth0 None (mkGlob ∅ false 0 0 0 []).
Definition started : client := match dhcp_start before with Some (_, s) => s | None => before end.
Definition started_dhcp : dhcp := default dhcp_zero (data started).
Definition sample_xid : Z := d_xid started_dhcp.

(** Messages of the server 10.0.0.1 for 10.0.0.7, with a lease of an hour. *)
Definition sample_head : list Z :=
  [DHCP_BOOTREPLY] ++ [1; 6; 0] ++ be32 sample_xid ++ replicate 8 0 ++ be32 0x0a000007 ++ replicate 8 0 ++ (hwaddr eth0 ++ replicate 10 0).
Definition sample_items (message_type : Z) : list item :=
  [type_item message_type; Item DHCP_OPTION_SERVER_ID (be32 0x0a000001); Item DHCP_OPTION_LEASE_TIME (be32 3600); Pad;
   Item DHCP_OPTION_SUBNET_MASK (be32 0xffffff00); Item DHCP_OPTION_ROUTER (be32 0x0a000001)].
Definition sample_reply (message_type : Z) : reply :=
  mkReply sample_head (Text (replicate 64 0)) (Text (replicate 128 0)) (be32 DHCP_MAGIC_COOKIE) (sample_items message_type) [].
Definition sample_message (message_type : Z) : chain := [reply_bytes (sample_reply message_type)].

(** An acknowledgment with options in the field file, in two buffers. *)
Definition overloaded_reply : reply :=
  mkReply sample_head (Text (replicate 64 0))
    (Options [Item DHCP_OPTION_ROUTER (be32 0x0a000001); Item DHCP_OPTION_SUBNET_MASK (be32 0xff000000)] (replicate 115 0))
    (be32 DHCP_MAGIC_COOKIE)
    [type_item DHCP_ACK; Item DHCP_OPTION_OVERLOAD [1]; Item DHCP_OPTION_SUBNET_MASK (be32 0xffffff00)] [0].
Definition overloaded_message : chain := [take 244 (reply_bytes overloaded_reply); drop 244 (reply_bytes overloaded_reply)].

(** The calls that get a lease, and one minute. *)
Definition sample_calls : list happening :=
  [Start 0; Recv 0 (sample_message DHCP_OFFER); Recv 0 (sample_message DHCP_ACK); FineTmr; FineTmr; CoarseTmr].
Definition sample_system : system :=
  match run sample_calls (boot [eth0] 0) with Some y => y | None => boot [eth0] 0 end.

(** The first message of these calls. *)
Definition first_sent : list Z :=
  match events (globals sample_system) with Sent _ _ msg :: _ => msg | _ => [] end.

(** The client with the lease. *)
Definition bound : client :=
  match (s ← dhcp_recv (sample_message DHCP_OFFER) started; s ← dhcp_recv (sample_message DHCP_ACK) s; ticks [false; false] s) with
  | Some s => s
  | None => started
  end.

Definition bound_dhcp : dhcp := default dhcp_zero (data bound).

Lemma started_nif : nif started = eth0.
Proof. by vm_compute. Qed.

Lemma started_data : data started = Some started_dhcp.
Proof. by vm_compute. Qed.

Lemma bound_data : data bound = Some bound_dhcp.
Proof. by vm_compute. Qed.

Lemma sample_dns : DNS_MAX_SERVERS <= LWIP_DHCP_MAX_DNS_SERVERS.
Proof. done. Qed.

Lemma eth0_wf : wf_netif eth0.
Proof. unfold wf_netif, is_byte. split_and!; try done. repeat constructor; done. Qed.

Lemma bytes_check l : forallb (fun b => (0 <=? b) && (b <? 256)) l = true -> Forall is_byte l.
Proof. intros H. apply Forall_forall. intros b Hb. unfold is_byte. rewrite forallb_forall in H. apply list_elem_of_In in Hb. specialize (H b Hb). lia. Qed.

(** The bytes of a message but for its type. *)
Lemma sample_bytes message_type : is_byte message_type -> Forall is_byte (reply_bytes (sample_reply message_type)).
Proof.
  intros Ht. change (reply_bytes (sample_reply message_type)) with
    ((sample_head ++ replicate 64 0 ++ replicate 128 0 ++ be32 DHCP_MAGIC_COOKIE) ++ [DHCP_OPTION_MESSAGE_TYPE; 1; message_type]
     ++ items_bytes (tail (sample_items message_type)) ++ [DHCP_OPTION_END]).
  apply Forall_app; split; [by apply bytes_check; vm_compute|]. apply Forall_app; split; [|by apply bytes_check; vm_compute].
  repeat (apply Forall_cons_2; [done|]). by apply Forall_nil.
Qed.

Lemma sample_chain message_type : is_byte message_type -> wf_chain (sample_message message_type).
Proof.
  intros Ht. split; [|constructor| |done].
  - unfold sample_message. cbn [concat]. rewrite app_nil_r. by apply sample_bytes.
  - by vm_compute.
Qed.

Lemma number_rfc f code v :
  1 <= code < 255 -> 0 <= v < 2 ^ 32 -> rfc_length code 4 -> code <> DHCP_OPTION_OVERLOAD -> rfc_item f (Item code (be32 v)).
Proof. intros Hc Hv Hl Hne. split; [|by split]. split_and!; try done; try lia. by apply be32_is_bytes. Qed.

Lemma type_rfc message_type : is_byte message_type -> rfc_item true (type_item message_type).
Proof. intros Ht. split; [|by split]. split_and!; try done. by apply Forall_singleton. Qed.

Lemma sample_rfc message_type : is_byte message_type -> Forall (rfc_item true) (sample_items message_type).
Proof.
  intros Ht. apply Forall_cons_2; [by apply type_rfc|]. do 2 (apply Forall_cons_2; [by apply number_rfc|]).
  apply Forall_cons_2; [by split|]. do 2 (apply Forall_cons_2; [by apply number_rfc|]). by apply Forall_nil.
Qed.

Lemma sample_reply_wf message_type : is_byte message_type -> wf_reply (sample_reply message_type).
Proof. intros Ht. split; try done; [by apply sample_rfc|constructor..]. Qed.

Lemma sample_answer message_type : is_byte message_type ->
  answer eth0 sample_xid message_type 0x0a000007 (sample_items message_type) (sample_message message_type).
Proof.
  intros Ht. split; [by apply sample_chain| | | |done|done].
  - eexists (sample_reply message_type), [1; 6; 0], (replicate 8 0), (replicate 8 0), _.
    split; [by apply sample_reply_wf|]. split; [by unfold sample_message; cbn [concat]; rewrite app_nil_r|].
    split; [by unfold reply_items; cbn [field_items sample_reply r_file r_sname r_options]; rewrite !app_nil_r|]. split; [reflexivity|]. done.
  - done.
  - unfold told. cbn. reflexivity.
Qed.

Lemma ack_byte : is_byte DHCP_ACK.
Proof. done. Qed.

Lemma offer_byte : is_byte DHCP_OFFER.
Proof. done. Qed.

Lemma started_good : good 0 started.
Proof.
  destruct (start_spec 0 before) as (err & s' & E & Hg & _); [|unfold started; by rewrite E].
  split; try done. apply eth0_wf.
Qed.

Lemma bound_good : good 0 bound.
Proof.
  unfold bound. destruct (recv_good sample_dns 0 started _ started_good (sample_chain DHCP_OFFER ltac:(done))) as (s1 & -> & Hg1); [done|].
  cbn [mbind option_bind]. destruct (recv_good sample_dns 0 s1 _ Hg1 (sample_chain DHCP_ACK ltac:(done))) as (s2 & -> & Hg2); [done|].
  cbn [mbind option_bind ticks tick]. destruct (fine_tick_good 0 s2 Hg2) as (s3 & -> & Hg3). cbn [mbind option_bind].
  destruct (fine_tick_good 0 s3 Hg3) as (s4 & -> & Hg4). exact Hg4.
Qed.
End DhcpSample.
