(* ===== verification/DhcpSpec.v ===== *)
(** The DHCP client of lwIP: what it promises. *)

From stdpp Require Import gmap.
From S2P Require Export DhcpLease DhcpSent.
From S2P Require Import DhcpSample.
Export DhcpLease DhcpSent.
Import DhcpSample.
Open Scope Z_scope.

Module DhcpSpec.

Section Spec.
Context {Opt : DhcpOptions} {Pbufs : DhcpPbufs} {World : DhcpWorld}.

(** There is a slot for every DNS server that is decoded. *)
Definition dns_slots : Prop := DNS_MAX_SERVERS <= LWIP_DHCP_MAX_DNS_SERVERS.

(** The module as it is linked: fewer than 255 interfaces, which are well formed and
    have no address yet. *)
Record linked (ns : list netif) (x : Z) : Prop := {
  linked_few : (length ns < 255)%nat;
  linked_netifs : Forall (fun n => wf_netif n /\ ip_addr n = 0) ns;
  linked_xid : 0 <= x < 2 ^ 32;
  linked_dns : dns_slots
}.

(** Calls that bring the module, from its start, to [y]. *)
Definition reaches (ns : list netif) (x : Z) (es : list happening) (y : system) : Prop :=
  linked ns x /\ history es (boot ns x) /\ run es (boot ns x) = Some y.

Lemma reaches_wf ns x es y : reaches ns x es y -> wf_system es y.
Proof.
  intros ([Hl Hn Hx Hd] & Hh & E). destruct (run_good Hd es [] (boot ns x) (boot_good ns x Hl Hn Hx) Hh) as (y' & E' & Hy).
  rewrite E in E'. by injection E' as <-.
Qed.

(** A reply in buffers: the first one holds the fields before sname, an option is spread
    over two buffers at most. *)
Definition arrives (r : reply) (p : chain) : Prop :=
  concat p = reply_bytes r /\ middle_room (tail p) /\ match p with [] => False | b :: _ => DHCP_SNAME_OFS <= size b end.

(** The messages that carry the address of their sender: those of a client that uses it,
    and DECLINE. *)
Definition carries_address (message_type : Z) (st : dhcp_state) : Prop :=
  message_type ∈ [DHCP_RELEASE; DHCP_INFORM; DHCP_DECLINE] \/
  message_type = DHCP_REQUEST /\ (st = DHCP_STATE_RENEWING \/ st = DHCP_STATE_REBINDING).

(** The header of a message says which transaction it belongs to and which address its
    sender uses. *)
Definition header_says (n : netif) (d : dhcp) (message_type : Z) (msg : list Z) : Prop :=
  slice msg 4 8 = be32 (d_xid d) /\
  (carries_address message_type (state d) -> slice msg 12 16 = be32 (ip_addr n)) /\
  (~ carries_address message_type (state d) -> slice msg 12 16 = be32 0).

Lemma header_slices m its k :
  slice (message m its k) 4 8 = be32 (msg_xid m) /\ slice (message m its k) 12 16 = be32 (ciaddr m).
Proof. unfold message. rewrite msg_head_parts. by split. Qed.

Lemma sends_carries message_type st : sends_ciaddr message_type st = true <-> carries_address message_type st.
Proof.
  unfold sends_ciaddr, is_request, carries_address.
  rewrite !orb_true_iff, andb_true_iff, orb_true_iff, !Z.eqb_eq, !bool_decide_eq_true, !elem_of_cons, elem_of_nil. tauto.
Qed.

Lemma header_written n d message_type items k : header_says n d message_type (message (msg_header n d message_type) items k).
Proof.
  unfold header_says. destruct (header_slices (msg_header n d message_type) items k) as [-> ->]. split; [done|].
  unfold msg_header. cbn [ciaddr]. rewrite <- sends_carries. by destruct (sends_ciaddr _ _).
Qed.

(** The minutes that are left of a lease. *)
Definition minutes_left (d : dhcp) : Z := t0_timeout (tim d) - lease_used (tim d).

(** There is always memory for a message. *)
Definition memory_for_messages : Prop := forall k, pbuf_alloc_ok k = true.

(** One call of a history, with the system it leads to. *)
Lemma history_step e es y y1 : allowed e y -> step e y = Some y1 -> history es y1 -> history (e :: es) y.
Proof. intros Ha E Hh. apply history_cons; [done|]. intros y' E'. rewrite E in E'. by injection E' as <-. Qed.

(** C23. Over any history of calls, messages and timer ticks that keeps to the rules below,
    no assertion of the client fails and no access leaves a buffer; every interface stays
    well formed, its timers stay in their ranges, a client that waits has a running timer,
    and the number of users of the UDP control block is the number of started clients.
    The rules: there is a slot for every DNS server that is decoded (DNS_MAX_SERVERS <=
    LWIP_DHCP_MAX_DNS_SERVERS; a slot is overwritten otherwise); fewer than 255 interfaces,
    with addresses and host names in range and that fit into the options; every buffer of a
    message but the first holds 257 bytes (an option is read outside of a shorter one); a
    client is stopped before its structure is removed (dhcp_cleanup loses a user otherwise),
    a structure is set where there is none, and only a started client is renewed. *)
Theorem dhcp_invariant ns x es :
  linked ns x -> history es (boot ns x) -> exists y, run es (boot ns x) = Some y /\ wf_system es y.
Proof.
  intros [Hl Hn Hx Hd] Hh. exact (run_good Hd es [] (boot ns x) (boot_good ns x Hl Hn Hx) Hh).
Qed.

(** C24. An interface has no address but one that a message DHCPACK acknowledged which
    arrived on this interface. *)
Theorem dhcp_addresses_acknowledged ns x es y i s :
  reaches ns x es y -> client_at i y = Some s -> ip_addr (nif s) <> 0 ->
  exists p, Recv i p ∈ es /\ acknowledges p (ip_addr (nif s)).
Proof.
  intros Hr Hi Hip. destruct (good_addr _ _ (clients_good _ _ (reaches_wf _ _ _ _ Hr) i s Hi)) as [H|H]; [done|exact H].
Qed.

(** C26. Every message that is sent, in any history, is sent in one of its calls by one
    client ([sender]): it is written from the interface and the structure that the call
    leaves, and its type, options and destination are those that the state of the client
    then asks for, with the address and the server of the offer it holds ([legal]: DISCOVER
    when SELECTING, REQUEST to all in REQUESTING, REBOOTING and REBINDING and to the server
    in RENEWING, DECLINE when BACKING_OFF); or it is a RELEASE from the interface before its
    address is taken away, to the server of the lease; or an INFORM. Its header says the
    transaction, and the address of the interface in RENEWING and REBINDING, in RELEASE,
    INFORM and DECLINE only ([header_says]). It has the length of a BOOTP message, and the
    reader of replies finds all of its options. The conditions of the history are those of
    dhcp_invariant. *)
Theorem dhcp_messages_readable ns x es y dst any msg :
  reaches ns x es y -> Sent dst any msg ∈ events (globals y) ->
  exists es1 e es2 y1 y2 i s s', es = es1 ++ e :: es2 /\ run es1 (boot ns x) = Some y1 /\ step e y1 = Some y2 /\
    client_at i y1 = Some s /\ client_at i y2 = Some s' /\
    exists n d message_type its k o,
      sender s s' n d message_type dst /\ legal n d message_type its dst any /\
      msg = message (msg_header n d message_type) (type_item message_type :: its) k /\ header_says n d message_type msg /\
      msg_size_ok msg /\ dhcp_parse_reply [msg] = Some (ERR_OK, o) /\ reads true (type_item message_type :: its) o.
Proof.
  intros ([Hl Hn Hx Hdns] & Hh & E) Hin.
  destruct (run_sent Hdns es [] _ y _ (boot_good ns x Hl Hn Hx) Hh E Hin) as [Hin0|Hsent]; [by apply not_elem_of_nil in Hin0|].
  destruct Hsent as (es1 & e & es2 & y1 & y2 & h1 & h2 & -> & E1 & E2 & Hy1 & Hy2 & i & s & s' & Hs & Hs' & n & d & mt & its & k & Hsend & Hleg & -> & Hk).
  exists es1, e, es2, y1, y2, i, s, s'. do 5 (split; [done|]).
  destruct (sender_wf h1 h2 y1 y2 i s s' n d mt dst Hy1 Hy2 Hs Hs' Hsend) as [Hwn Hwd].
  destruct (message_read Hdns n d mt its k dst any Hwn Hwd Hleg Hk) as (o & Eo & Ho).
  exists n, d, mt, its, k, o. split_and!; try done. apply header_written.
Qed.

(** C27. What is read of a reply is what its server wrote: for every index the first
    option with its code, in the order options, file, sname, however the reply is cut into
    buffers and whether or not the fields file and sname hold options. Conditions: the
    first buffer reaches to sname (44 bytes), each one between it and the last has at least
    257 bytes (the parser reads outside of a shorter one), the options have the lengths
    that the RFC gives them, and there is a slot for every DNS server that is decoded
    (DNS_MAX_SERVERS <= LWIP_DHCP_MAX_DNS_SERVERS). *)
Theorem dhcp_reply_read r p :
  dns_slots -> wf_reply r -> arrives r p ->
  exists o, dhcp_parse_reply p = Some (ERR_OK, o) /\ reads true (reply_items r) o.
Proof. intros Hd Hr (Hp & Hroom & Hfirst). exact (reply_is_read Hd r p Hr Hp Hroom Hfirst). Qed.

(** Any message at all, in buffers of which all but the first have room for an
    option, is read to an end without an access outside of a buffer or of the array of
    options, and all values are numbers of 32 bits. *)
Theorem dhcp_parse_safe p :
  dns_slots -> wf_chain p ->
  exists err o, dhcp_parse_reply p = Some (err, o) /\ wf_options o.
Proof. intros Hd Hp. exact (parse_reply_total Hd p Hp). Qed.

Context {Ack : Acknowledged}.

(** C25. The exchange: an offer that answers the client makes it ask the server of the
    offer for the address of the offer; the acknowledgment that answers this, and two
    ticks of the fine timer when the address is probed with ARP, give the interface the
    address, mask and gateway of the acknowledgment and start the timers of the lease. *)
Theorem dhcp_exchange r s d addr its p server :
  dns_slots ->
  good r s -> data s = Some d -> state d = DHCP_STATE_SELECTING ->
  answer (nif s) (d_xid d) DHCP_OFFER addr its p -> told its DHCP_OPTION_IDX_SERVER_ID = Some server ->
  exists s1 d1, dhcp_recv p s = Some s1 /\ good r s1 /\ nif s1 = nif s /\ data s1 = Some d1 /\ d_xid d1 = d_xid d /\
    (pbuf_alloc_ok (calls (glb s)) = true -> exists d' k, d_xid d' = d_xid d /\ events (glb s1) = events (glb s) ++
       [Sent IP_ADDR_BROADCAST true
          (message (msg_header (nif s) d' DHCP_REQUEST) (type_item DHCP_REQUEST :: request_items (nif s) addr server) k)]) /\
    forall addr2 its2 p2, answer (nif s) (d_xid d) DHCP_ACK addr2 its2 p2 -> acked addr2 ->
      exists s2 s3, dhcp_recv p2 s1 = Some s2 /\ ticks (replicate (probe_ticks (nif s)) false) s2 = Some s3 /\ good r s3 /\
        takes_lease (nif s) addr2 its2 s3.
Proof.
  intros Hdns Hg Hs Hst Hans Hserver.
  destruct (offer_taken Hdns r s d addr its p server Hg Hs Hst Hans Hserver) as (s1 & d1 & E1 & Hg1 & Hn1 & Hs1 & Hst1 & Hx1 & _ & _ & Hsent).
  exists s1, d1. do 6 (split; [done|]). intros addr2 its2 p2 Hans2 Hack.
  rewrite <- Hx1, <- Hn1 in Hans2. destruct (ack_taken Hdns r s1 d1 addr2 its2 p2 Hg1 Hs1 Hst1 Hans2 Hack) as (s2 & s3 & E2 & _ & E3 & Hg3 & Ht).
  rewrite Hn1 in E3, Ht. by exists s2, s3.
Qed.

(** C28. A lease that no server renews ends: when a client in BOUND, RENEWING or REBINDING
    (dhcp_supplied_address) has a finite lease (t0_timeout is not 0), and the coarse timer has
    run for the rest of its time, with any number of ticks of the fine timer between, the
    interface has no address any more. (In other states the code does not take the address
    away: after dhcp_network_changed, or a reboot without an answer, the old address stays
    on the interface when its lease ends.) *)
Theorem dhcp_lease_expires r s d ts :
  good r s -> data s = Some d -> dhcp_supplied_address s = true -> t0_timeout (tim d) <> 0 ->
  minutes_left d <= minutes ts ->
  exists s', ticks ts s = Some s' /\ good r s' /\ ip_addr (nif s') = 0.
Proof.
  intros Hg Hs Hsup H0 Hm. apply (lease_ends r ts s d); try done. unfold dhcp_supplied_address in Hsup. rewrite Hs in Hsup.
  by split.
Qed.

(** A client without an answer never stops asking: [m] messages DISCOVER are sent
    within [120 * m] ticks of the fine timer, one minute each, as long as there is memory. *)
Theorem dhcp_asks_again r s d m :
  memory_for_messages -> good r s -> data s = Some d ->
  state d = DHCP_STATE_SELECTING \/ state d = DHCP_STATE_BACKING_OFF ->
  exists k s', (m <= k <= 120 * m)%nat /\ ticks (replicate k false) s = Some s' /\ good r s' /\
    discovered (nif s) m (events (glb s)) (events (glb s')).
Proof. intros Hmem Hg Hs Hst. exact (discover_forever Hmem r m s d Hg Hs Hst). Qed.
End Spec.

(** ** Instances *)

Lemma sample_linked : linked [eth0] 0.
Proof. split; try done; [cbn; lia|]. apply Forall_singleton. split; [apply eth0_wf|done]. Qed.

#[local] Ltac call := eapply history_step; [eexists; split; [vm_compute; reflexivity|] | vm_compute; reflexivity | ].

Lemma sample_history : history sample_calls (boot [eth0] 0).
Proof.
  unfold sample_calls. call; [exact I|]. call; [by apply sample_chain|]. call; [by apply sample_chain|].
  do 3 (eapply history_step; [exact I | vm_compute; reflexivity | ]). apply history_nil.
Qed.

Lemma sample_reaches : reaches [eth0] 0 sample_calls sample_system.
Proof. split; [apply sample_linked|]. split; [apply sample_history|by vm_compute]. Qed.

Lemma dhcp_invariant_witness :
  linked [eth0] 0 /\ history sample_calls (boot [eth0] 0) /\
  exists y, run sample_calls (boot [eth0] 0) = Some y /\ wf_system sample_calls y.
Proof.
  split; [exact sample_linked|]. split; [exact sample_history|].
  apply (dhcp_invariant [eth0] 0 sample_calls); [exact sample_linked|exact sample_history].
Defined.

(** The address of the acknowledgment is on the interface. *)
Lemma dhcp_addresses_acknowledged_witness :
  exists s, client_at 0 sample_system = Some s /\ ip_addr (nif s) = 0x0a000007 /\
  exists p, Recv 0 p ∈ sample_calls /\ acknowledges p (ip_addr (nif s)).
Proof.
  eexists. split; [vm_compute; reflexivity|]. split; [reflexivity|].
  apply (dhcp_addresses_acknowledged [eth0] 0 sample_calls sample_system 0); [exact sample_reaches|by vm_compute|done].
Defined.

(** The first message of the sample history. *)
Lemma dhcp_messages_readable_witness :
  Sent IP_ADDR_BROADCAST true first_sent ∈ events (globals sample_system) /\
  exists es1 e es2 y1 y2 i s s', sample_calls = es1 ++ e :: es2 /\ run es1 (boot [eth0] 0) = Some y1 /\ step e y1 = Some y2 /\
    client_at i y1 = Some s /\ client_at i y2 = Some s' /\
    exists n d message_type its k o,
      sender s s' n d message_type IP_ADDR_BROADCAST /\ legal n d message_type its IP_ADDR_BROADCAST true /\
      first_sent = message (msg_header n d message_type) (type_item message_type :: its) k /\ header_says n d message_type first_sent /\
      msg_size_ok first_sent /\ dhcp_parse_reply [first_sent] = Some (ERR_OK, o) /\ reads true (type_item message_type :: its) o.
Proof.
  assert (Hin : Sent IP_ADDR_BROADCAST true first_sent ∈ events (globals sample_system)) by (vm_compute; apply list_elem_of_here).
  split; [exact Hin|]. exact (dhcp_messages_readable [eth0] 0 sample_calls sample_system _ _ _ sample_reaches Hin).
Defined.

(** Options in two buffers and in the field file; the router is told there, the mask in
    both places. *)
Lemma dhcp_reply_read_witness :
  told (reply_items overloaded_reply) DHCP_OPTION_IDX_SUBNET_MASK = Some 0xffffff00 /\
  told (reply_items overloaded_reply) DHCP_OPTION_IDX_ROUTER = Some 0x0a000001 /\
  exists o, dhcp_parse_reply overloaded_message = Some (ERR_OK, o) /\ reads true (reply_items overloaded_reply) o.
Proof.
  split; [by vm_compute|]. split; [by vm_compute|]. apply (dhcp_reply_read overloaded_reply overloaded_message).
  - exact sample_dns.
  - split; try done.
    + apply Forall_cons_2; [by apply type_rfc|]. apply Forall_cons_2; [|apply Forall_cons_2; [by apply number_rfc|by apply Forall_nil]].
      split; [|by split]. split_and!; try done. by apply Forall_singleton.
    + do 2 (apply Forall_cons_2; [by apply number_rfc|]). by apply Forall_nil.
  - split; [by vm_compute|]. split; [|by vm_compute]. split_and!; [by left|by vm_compute|exact I].
Defined.

Lemma dhcp_parse_safe_witness :
  wf_chain (sample_message DHCP_ACK) /\ exists err o, dhcp_parse_reply (sample_message DHCP_ACK) = Some (err, o) /\ wf_options o.
Proof.
  split; [by apply sample_chain|]. apply (dhcp_parse_safe (sample_message DHCP_ACK)); [exact sample_dns|by apply sample_chain].
Defined.

(** From the offer of 10.0.0.7 to the lease, with two probes. *)
Lemma dhcp_exchange_witness :
  exists s1 s2 s3, dhcp_recv (sample_message DHCP_OFFER) started = Some s1 /\ dhcp_recv (sample_message DHCP_ACK) s1 = Some s2 /\
    ticks [false; false] s2 = Some s3 /\ takes_lease eth0 0x0a000007 (sample_items DHCP_ACK) s3.
Proof.
  destruct (dhcp_exchange 0 started started_dhcp
    0x0a000007 (sample_items DHCP_OFFER) (sample_message DHCP_OFFER) 0x0a000001) as (s1 & d1 & E1 & _ & Hn1 & _ & _ & _ & Hack).
  - exact sample_dns.
  - exact started_good.
  - exact started_data.
  - by vm_compute.
  - rewrite started_nif. exact (sample_answer DHCP_OFFER offer_byte).
  - by vm_compute.
  - rewrite started_nif in Hack. pose proof (sample_answer DHCP_ACK ack_byte) as Hans.
    destruct (Hack 0x0a000007 _ _ Hans I) as (s2 & s3 & E2 & E3 & _ & Ht).
    exists s1, s2, s3. split; [exact E1|]. split; [exact E2|]. split; [exact E3|exact Ht].
Defined.

(** The lease of an hour ends after 60 ticks, with fine ticks between. *)
Lemma dhcp_lease_expires_witness :
  ip_addr (nif bound) = 0x0a000007 /\
  exists s', ticks (concat (replicate 60 [false; true])) bound = Some s' /\ good 0 s' /\ ip_addr (nif s') = 0.
Proof.
  split; [by vm_compute|].
  apply (dhcp_lease_expires 0 bound bound_dhcp).
  - exact bound_good.
  - exact bound_data.
  - by vm_compute.
  - vm_compute. discriminate.
  - by vm_compute.
Defined.

Lemma dhcp_asks_again_witness :
  exists k s', (3 <= k <= 360)%nat /\ ticks (replicate k false) started = Some s' /\ good 0 s' /\
    discovered eth0 3 (events (glb started)) (events (glb s')).
Proof.
  rewrite <- started_nif. apply (dhcp_asks_again 0 started started_dhcp 3).
  - done.
  - exact started_good.
  - exact started_data.
  - left. by vm_compute.
Defined.
End DhcpSpec.
