(* ===== verification/DnsBase.v ===== *)
(** The DNS resolver of lwIP (src/dhcp/src/upstream/src/core/dns.c): options, the
    outside, and the data.

    A string is a list of characters that are not 0; the array [name] of an entry is
    kept with what stands behind the terminator. Callbacks of the application are
    events: they do not call the resolver. The local host list is the dynamic one
    (DNS_LOCAL_HOSTLIST_IS_DYNAMIC); DNS_SERVER_ADDRESS and DNS_LOOKUP_LOCAL_EXTERN
    are not defined. *)

From stdpp Require Import gmap.
From S2P Require Export NetBytes.
Export NetBytes.
Open Scope Z_scope.

(** ** Options and the outside *)

Inductive ip_addr := V4 (a : Z) | V6 (a : list Z).

Class DnsOptions := {
  DNS_TABLE_SIZE : Z;
  DNS_MAX_REQUESTS : Z;
  DNS_MAX_SOURCE_PORTS : Z;
  DNS_MAX_SERVERS : Z;
  DNS_MAX_NAME_LENGTH : Z;
  DNS_MAX_RETRIES : Z;
  DNS_MAX_TTL : Z;
  SECURE_RAND_XID : bool;
  SECURE_NO_MULTIPLE_OUTSTANDING : bool;
  SECURE_RAND_SRC_PORT : bool;
  LWIP_IPV4 : bool;
  LWIP_IPV6 : bool;
  LWIP_DNS_SUPPORT_MDNS_QUERIES : bool;
  LWIP_HAVE_LOOPIF : bool;
  DNS_LOCAL_HOSTLIST : bool;
  DNS_LOCAL_HOSTLIST_INIT : list (list Z * ip_addr);
  DNS_LOCAL_HOSTLIST_MAX_NAMELEN : Z;
  LWIP_DNS_ADDRTYPE_DEFAULT : Z;
  table_size_ok : 1 <= DNS_TABLE_SIZE <= 255;
  requests_ok : 1 <= DNS_MAX_REQUESTS <= 255;
  one_request_per_entry : SECURE_NO_MULTIPLE_OUTSTANDING = false -> DNS_MAX_REQUESTS = DNS_TABLE_SIZE;
  ports_ok : 1 <= DNS_MAX_SOURCE_PORTS <= 255;
  one_port : SECURE_RAND_SRC_PORT = false -> DNS_MAX_SOURCE_PORTS = 1;
  servers_ok : 1 <= DNS_MAX_SERVERS <= 255;
  name_length_ok : 2 <= DNS_MAX_NAME_LENGTH <= 256;
  retries_ok : 1 <= DNS_MAX_RETRIES <= 255;
  ttl_ok : 0 <= DNS_MAX_TTL < 2 ^ 31;
  some_ip : LWIP_IPV4 || LWIP_IPV6 = true
}.

(** pbuf.c: reading a chain of buffers ([pbuf_try_get_at] is -1 behind the end), and
    writing a single one. *)
Class DnsPbufs := {
  pbuf_try_get_at : list (list Z) -> Z -> Z;
  pbuf_copy_partial : list (list Z) -> Z -> Z -> list Z;
  pbuf_put_at : list Z -> Z -> Z -> list Z;
  pbuf_take_at : list Z -> list Z -> Z -> list Z;
  try_get_at_data : forall p i, 0 <= i -> pbuf_try_get_at p i = default (-1) (concat p !! Z.to_nat i);
  copy_partial_data : forall p len offset, 0 <= len -> 0 <= offset ->
    pbuf_copy_partial p len offset = take (Z.to_nat len) (drop (Z.to_nat offset) (concat p));
  put_at_data : forall b i v, 0 <= i < size b -> pbuf_put_at b i v = <[Z.to_nat i := v]> b;
  take_at_data : forall b bs i b', poke b i bs = Some b' -> pbuf_take_at b bs i = b'
}.

(** Characters and strings: lwIP's macro for lower case, its comparisons ([true] for
    equal), and the reading of an address, ip.c. *)
Class DnsText := {
  lwip_tolower : Z -> Z;
  lwip_stricmp : list Z -> list Z -> bool;
  lwip_strnicmp : list Z -> list Z -> Z -> bool;
  ipaddr_aton : list Z -> option ip_addr;
  stricmp_eq : forall a b, lwip_stricmp a b = true <-> lwip_tolower <$> a = lwip_tolower <$> b;
  strnicmp_eq : forall a b n, 0 <= n ->
    lwip_strnicmp a b n = true <-> lwip_tolower <$> take (Z.to_nat n) a = lwip_tolower <$> take (Z.to_nat n) b
}.

(** Allocation, UDP and random numbers. A random identifier that is not one of a few is
    found after [rand_fuel] attempts, and so is a port that can be bound. *)
Class DnsWorld := {
  udp_new_ok : nat -> bool;
  udp_bind_result : nat -> Z -> Z;
  udp_sendto_result : nat -> Z;
  pbuf_alloc : nat -> Z -> option (list Z);
  memp_malloc_ok : nat -> bool;
  LWIP_RAND : nat -> Z;
  rand_fuel : nat;
  alloc_size : forall k n b, pbuf_alloc k n = Some b -> 0 <= n -> size b = n
}.

Module Dns.

Abbreviation ERR_OK := 0.
Abbreviation ERR_MEM := (-1).
Abbreviation ERR_INPROGRESS := (-5).
Abbreviation ERR_VAL := (-6).
Abbreviation ERR_USE := (-8).
Abbreviation ERR_ARG := (-16).

(** RFC 1035. *)
Abbreviation SIZEOF_DNS_HDR := 12.
Abbreviation SIZEOF_DNS_QUERY := 4.
Abbreviation SIZEOF_DNS_ANSWER := 10.
Abbreviation DNS_RRTYPE_A := 1.
Abbreviation DNS_RRTYPE_AAAA := 28.
Abbreviation DNS_RRCLASS_IN := 1.
Abbreviation DNS_FLAG1_RESPONSE := 0x80.
Abbreviation DNS_FLAG1_RD := 0x01.
Abbreviation DNS_FLAG2_ERR_MASK := 0x0f.
Abbreviation DNS_SERVER_PORT := 53.
Abbreviation DNS_MQUERY_PORT := 5353.

Abbreviation LWIP_DNS_ADDRTYPE_IPV4 := 0.
Abbreviation LWIP_DNS_ADDRTYPE_IPV6 := 1.
Abbreviation LWIP_DNS_ADDRTYPE_IPV4_IPV6 := 2.
Abbreviation LWIP_DNS_ADDRTYPE_IPV6_IPV4 := 3.

#[global] Instance ip_addr_eq : EqDecision ip_addr.
Proof. solve_decision. Defined.

(** The address without a value, of both families. *)
Definition ip_addr_isany (a : ip_addr) : bool :=
  match a with V4 a => a =? 0 | V6 a => forallb (fun w => w =? 0) a end.

(** The groups of mDNS, 224.0.0.251 and ff02::fb. *)
Definition dns_mquery_v4group : ip_addr := V4 0xe00000fb.
Definition dns_mquery_v6group : ip_addr := V6 [0xff; 0x02; 0; 0; 0; 0; 0; 0; 0; 0; 0; 0; 0; 0; 0; 0xfb].

Inductive dns_state := DNS_STATE_UNUSED | DNS_STATE_NEW | DNS_STATE_ASKING | DNS_STATE_DONE.

#[global] Instance dns_state_eq : EqDecision dns_state.
Proof. solve_decision. Defined.

(** [struct dns_table_entry] *)
Record dns_table_entry := mkEntry {
  ttl : Z; ipaddr : ip_addr; txid : Z; state : dns_state; server_idx : Z; tmr : Z; retries : Z; seqno : Z; pcb_idx : Z;
  name : list Z; reqaddrtype : Z; is_mdns : bool
}.

Ltac up_entry proj v r :=
  set_field (fun x : dns_table_entry => mkEntry (ttl x) (ipaddr x) (txid x) (state x) (server_idx x) (tmr x) (retries x) (seqno x)
     (pcb_idx x) (name x) (reqaddrtype x) (is_mdns x)) proj v r.

Definition set_ttl (v : Z) (r : dns_table_entry) : dns_table_entry := ltac:(up_entry ttl v r).
Definition set_ipaddr (v : ip_addr) (r : dns_table_entry) : dns_table_entry := ltac:(up_entry ipaddr v r).
Definition set_txid (v : Z) (r : dns_table_entry) : dns_table_entry := ltac:(up_entry txid v r).
Definition set_state (v : dns_state) (r : dns_table_entry) : dns_table_entry := ltac:(up_entry state v r).
Definition set_server_idx (v : Z) (r : dns_table_entry) : dns_table_entry := ltac:(up_entry server_idx v r).
Definition set_tmr (v : Z) (r : dns_table_entry) : dns_table_entry := ltac:(up_entry tmr v r).
Definition set_retries (v : Z) (r : dns_table_entry) : dns_table_entry := ltac:(up_entry retries v r).
Definition set_seqno (v : Z) (r : dns_table_entry) : dns_table_entry := ltac:(up_entry seqno v r).
Definition set_pcb_idx (v : Z) (r : dns_table_entry) : dns_table_entry := ltac:(up_entry pcb_idx v r).
Definition set_name (v : list Z) (r : dns_table_entry) : dns_table_entry := ltac:(up_entry name v r).
Definition set_reqaddrtype (v : Z) (r : dns_table_entry) : dns_table_entry := ltac:(up_entry reqaddrtype v r).
Definition set_is_mdns (v : bool) (r : dns_table_entry) : dns_table_entry := ltac:(up_entry is_mdns v r).

(** [struct dns_req_entry]; a callback with its argument is a number. *)
Record dns_req_entry := mkReq { found : option Z; dns_table_idx : Z; req_addrtype : Z }.

(** What the resolver does to the outside: a message to a server, and a callback. *)
Inductive event :=
  | Sent (pcb : Z) (dst : ip_addr) (dst_port : Z) (msg : list Z)
  | Found (callback : Z) (hostname : list Z) (addr : option ip_addr).

(** The variables of the file; [dns_pcbs] says which pointers are not NULL. [calls]
    and [rands] number the calls of the outside. *)
Record dns := mkDns {
  dns_pcbs : list bool; dns_last_pcb_idx : Z; dns_seqno : Z; dns_table : list dns_table_entry;
  dns_requests : list dns_req_entry; dns_servers : list ip_addr; local_hostlist_dynamic : list (list Z * ip_addr);
  dns_txid : Z; calls : nat; rands : nat; events : list event
}.

Ltac up_dns proj v r :=
  set_field (fun x : dns => mkDns (dns_pcbs x) (dns_last_pcb_idx x) (dns_seqno x) (dns_table x) (dns_requests x) (dns_servers x)
     (local_hostlist_dynamic x) (dns_txid x) (calls x) (rands x) (events x)) proj v r.

Definition set_dns_pcbs (v : list bool) (r : dns) : dns := ltac:(up_dns dns_pcbs v r).
Definition set_dns_last_pcb_idx (v : Z) (r : dns) : dns := ltac:(up_dns dns_last_pcb_idx v r).
Definition set_dns_seqno (v : Z) (r : dns) : dns := ltac:(up_dns dns_seqno v r).
Definition set_dns_table (v : list dns_table_entry) (r : dns) : dns := ltac:(up_dns dns_table v r).
Definition set_dns_requests (v : list dns_req_entry) (r : dns) : dns := ltac:(up_dns dns_requests v r).
Definition set_dns_servers (v : list ip_addr) (r : dns) : dns := ltac:(up_dns dns_servers v r).
Definition set_local_hostlist (v : list (list Z * ip_addr)) (r : dns) : dns := ltac:(up_dns local_hostlist_dynamic v r).
Definition set_dns_txid (v : Z) (r : dns) : dns := ltac:(up_dns dns_txid v r).
Definition set_calls (v : nat) (r : dns) : dns := ltac:(up_dns calls v r).
Definition set_rands (v : nat) (r : dns) : dns := ltac:(up_dns rands v r).
Definition set_events (v : list event) (r : dns) : dns := ltac:(up_dns events v r).

(** The number of an external call. *)
Definition call (s : dns) : nat * dns := (calls s, set_calls (S (calls s)) s).
Definition log (e : event) (s : dns) : dns := set_events (events s ++ [e]) s.

(** [dns_table[i]]; [None] outside of the array. *)
Definition entry (i : Z) (s : dns) : option dns_table_entry := if i <? 0 then None else dns_table s !! Z.to_nat i.
Definition put_entry (i : Z) (e : dns_table_entry) (s : dns) : dns := set_dns_table (<[Z.to_nat i := e]> (dns_table s)) s.

Definition asking (e : dns_table_entry) : bool := bool_decide (state e = DNS_STATE_ASKING).

Section Base.
Context {Opt : DnsOptions}.

(** LWIP_IPV4 && LWIP_IPV6 *)
Definition both_ip : bool := LWIP_IPV4 && LWIP_IPV6.

Definition LWIP_DNS_ADDRTYPE_IS_IPV6 (t : Z) : bool :=
  if both_ip then (t =? LWIP_DNS_ADDRTYPE_IPV6_IPV4) || (t =? LWIP_DNS_ADDRTYPE_IPV6) else LWIP_IPV6.

Definition is_v6 (a : ip_addr) : bool := match a with V4 _ => false | V6 _ => true end.

Definition LWIP_DNS_ADDRTYPE_MATCH_IP (t : Z) (a : ip_addr) : bool :=
  if both_ip then (if is_v6 a then LWIP_DNS_ADDRTYPE_IS_IPV6 t else negb (LWIP_DNS_ADDRTYPE_IS_IPV6 t)) else true.

(** IP_ADDR_ANY *)
Definition IP_ADDR_ANY : ip_addr := if LWIP_IPV4 then V4 0 else V6 (replicate 16 0).

(** All variables are zero. *)
Definition zero_entry : dns_table_entry :=
  mkEntry 0 IP_ADDR_ANY 0 DNS_STATE_UNUSED 0 0 0 0 0 (replicate (Z.to_nat DNS_MAX_NAME_LENGTH) 0) 0 false.
Definition zero_dns : dns :=
  mkDns (replicate (Z.to_nat DNS_MAX_SOURCE_PORTS) false) 0 0 (replicate (Z.to_nat DNS_TABLE_SIZE) zero_entry)
    (replicate (Z.to_nat DNS_MAX_REQUESTS) (mkReq None 0 0)) (replicate (Z.to_nat DNS_MAX_SERVERS) IP_ADDR_ANY) [] 0 0 0 [].
End Base.
End Dns.
