(* ===== verification/DnsName.v ===== *)
(** The DNS resolver of lwIP: names in messages, [dns_compare_name], [dns_skip_name] and
    the loop of [dns_send] that writes a name. *)

From stdpp Require Import gmap.
From S2P Require Export DnsBase.
Export Dns.
Open Scope Z_scope.

Module DnsName.

Abbreviation chain := (list (list Z)).
Definition tot_len (p : chain) : Z := size (concat p).

(** The string in an array of characters; [None] without a terminator. *)
Fixpoint c_str (m : list Z) : option (list Z) :=
  match m with
  | [] => None
  | c :: m => if c =? 0 then Some [] else s ← c_str m; Some (c :: s)
  end.

Section Name.
Context {Opt : DnsOptions} {Pbufs : DnsPbufs} {Text : DnsText} {World : DnsWorld}.

(** The character at [query]; [None]: the array ends before it. *)
Definition query_at (q : list Z) (query : nat) : option Z := q !! query.

(** The inner loop: [n] characters of a label are compared. [None]: an access outside of
    the array; [Some None]: they differ. *)
Fixpoint compare_label (n : nat) (q : list Z) (query : nat) (p : chain) (response_offset : Z) : option (option (nat * Z)) :=
  match n with
  | O => Some (Some (query, response_offset))
  | S n =>
      let c := pbuf_try_get_at p response_offset in
      if c <? 0 then Some None
      else
        qc ← query_at q query;
        if negb (lwip_tolower qc =? lwip_tolower (u8 c)) then Some None
        else if response_offset =? 0xffff then Some None
        else compare_label n q (S query) p (response_offset + 1)
  end.

(** The outer loop; [fuel] bounds the labels. [None]: an access outside of the array. *)
Fixpoint compare_labels (fuel : nat) (q : list Z) (query : nat) (p : chain) (response_offset : Z) : option Z :=
  match fuel with
  | O => None
  | S fuel =>
      let n := pbuf_try_get_at p response_offset in
      if (n <? 0) || (response_offset =? 0xffff) then Some 0xffff
      else
        let response_offset := response_offset + 1 in
        if Z.land n 0xc0 =? 0xc0 then Some 0xffff
        else
          label ← compare_label (Z.to_nat n) q query p response_offset;
          match label with
          | None => Some 0xffff
          | Some (query, response_offset) =>
              let query := S query in
              let n := pbuf_try_get_at p response_offset in
              if n <? 0 then Some 0xffff
              else if negb (n =? 0) then compare_labels fuel q query p response_offset
              else if response_offset =? 0xffff then Some 0xffff
              else Some (response_offset + 1)
          end
  end.

Definition dns_compare_name (query : list Z) (p : chain) (start_offset : Z) : option Z :=
  compare_labels (S (length (concat p))) query 0 p start_offset.

(** [fuel] bounds the labels. *)
Fixpoint skip_labels (fuel : nat) (p : chain) (offset : Z) : option Z :=
  match fuel with
  | O => None
  | S fuel =>
      let n := pbuf_try_get_at p offset in
      let offset := u16 (offset + 1) in
      let done offset := Some (if offset =? 0xffff then 0xffff else offset + 1) in
      if (n <? 0) || (offset =? 0) then Some 0xffff
      else if Z.land n 0xc0 =? 0xc0 then done offset
      else if tot_len p <=? offset + n then Some 0xffff
      else
        let offset := u16 (offset + n) in
        let n := pbuf_try_get_at p offset in
        if n <? 0 then Some 0xffff
        else if negb (n =? 0) then skip_labels fuel p offset
        else done offset
  end.

Definition dns_skip_name (p : chain) (query_idx : Z) : option Z := skip_labels (S (length (concat p))) p query_idx.

(** The characters up to a dot or the end. *)
Fixpoint label_of (s : list Z) : list Z :=
  match s with
  | [] => []
  | c :: s => if c =? 46 then [] else c :: label_of s
  end.

(** The labels of the host name [s] are written; [None] for the fuel, otherwise the
    index behind them, or no index when it would overflow. *)
Fixpoint put_labels (fuel : nat) (s : list Z) (p : list Z) (query_idx : Z) : option (option (list Z * Z)) :=
  match fuel with
  | O => None
  | S fuel =>
      let part := label_of s in
      let n := u8 (size part) in
      let copy_len := u16 (size part) in
      if 0xffff <? query_idx + n + 1 then Some None
      else
        let p := pbuf_put_at p query_idx n in
        let p := pbuf_take_at p (take (Z.to_nat copy_len) part) (u16 (query_idx + 1)) in
        let query_idx := u16 (query_idx + n + 1) in
        match drop (length part) s with
        | [] => Some (Some (p, query_idx))
        | _ :: s => put_labels fuel s p query_idx
        end
  end.
End Name.
End DnsName.
