(* ===== verification/DnsClient.v ===== *)
(** The DNS resolver of lwIP: its operations, core/dns.c. A result [None] is a failed
    LWIP_ASSERT or an access outside of an array. *)

From stdpp Require Import gmap.
From S2P Require Export DnsName.
Export DnsName.
Open Scope Z_scope.

Module DnsClient.

Section Client.
Context {Opt : DnsOptions} {Pbufs : DnsPbufs} {Text : DnsText} {World : DnsWorld}.

(** ** Random numbers *)

(** [DNS_RAND_TXID ()], cut to 16 bits *)
Definition DNS_RAND_TXID (s : dns) : Z * dns :=
  if SECURE_RAND_XID then (u16 (LWIP_RAND (rands s)), set_rands (S (rands s)) s)
  else let txid := u16 (dns_txid s + 1) in (txid, set_dns_txid txid s).

Definition DNS_PORT_ALLOWED (port : Z) : bool := 1024 <=? port.

(** The loop of [dns_alloc_random_port]: the error of the last [udp_bind]. *)
Fixpoint bind_loop (fuel : nat) (s : dns) : option (Z * dns) :=
  match fuel with
  | O => None
  | S fuel =>
      let (port, s) := DNS_RAND_TXID s in
      let (err, s) := if DNS_PORT_ALLOWED port then let (k, s) := call s in (udp_bind_result k port, s) else (ERR_USE, s) in
      if err =? ERR_USE then bind_loop fuel s else Some (err, s)
  end.

(** [dns_alloc_random_port]: is there a pcb? *)
Definition dns_alloc_random_port (s : dns) : option (bool * dns) :=
  let (k, s) := call s in
  if negb (udp_new_ok k) then Some (false, s)
  else '(err, s) ← bind_loop rand_fuel s; Some (err =? ERR_OK, s).

(** The first index from [i] on at which [f] holds, or the length. *)
Fixpoint first_index {A} (f : A -> bool) (l : list A) : nat :=
  match l with
  | [] => O
  | x :: l => if f x then O else S (first_index f l)
  end.

(** The second loop of [dns_alloc_pcb]: [n] pcbs from [idx] on, cyclically. *)
Fixpoint next_pcb (n : nat) (idx : Z) (s : dns) : option (option Z) :=
  match n with
  | O => Some None
  | S n =>
      let idx := if DNS_MAX_SOURCE_PORTS <=? idx then 0 else idx in
      used ← dns_pcbs s !! Z.to_nat idx;
      if (used : bool) then Some (Some idx) else next_pcb n (u8 (idx + 1)) s
  end.

Definition dns_alloc_pcb (s : dns) : option (Z * dns) :=
  let i := Z.of_nat (first_index negb (dns_pcbs s)) in
  '(ok, s) ← (if i <? DNS_MAX_SOURCE_PORTS then
                '(ok, s) ← dns_alloc_random_port s;
                Some (ok, set_dns_pcbs (<[Z.to_nat i := ok]> (dns_pcbs s)) s)
              else Some (false, s));
  if (ok : bool) then Some (i, set_dns_last_pcb_idx i s)
  else
    next ← next_pcb (Z.to_nat DNS_MAX_SOURCE_PORTS) (u8 (dns_last_pcb_idx s + 1)) s;
    match next with
    | Some idx => Some (idx, set_dns_last_pcb_idx idx s)
    | None => Some (DNS_MAX_SOURCE_PORTS, s)
    end.

(** [fuel] bounds the attempts. *)
Fixpoint create_txid (fuel : nat) (s : dns) : option (Z * dns) :=
  match fuel with
  | O => None
  | S fuel =>
      let (txid', s) := DNS_RAND_TXID s in
      if existsb (fun e => asking e && (txid e =? txid')) (dns_table s) then create_txid fuel s else Some (txid', s)
  end.

Definition dns_create_txid (s : dns) : option (Z * dns) := create_txid (if SECURE_RAND_XID then rand_fuel else 256) s.

(** ** Local hosts *)

(** [dns_lookup_local], [dns_local_lookup] *)
Fixpoint lookup_hosts (hosts : list (list Z * ip_addr)) (hostname : list Z) (dns_addrtype : Z) : option ip_addr :=
  match hosts with
  | [] => None
  | (n, a) :: hosts =>
      if lwip_stricmp n hostname && LWIP_DNS_ADDRTYPE_MATCH_IP dns_addrtype a then Some a
      else lookup_hosts hosts hostname dns_addrtype
  end.

Definition dns_lookup_local (hostname : list Z) (dns_addrtype : Z) (s : dns) : option ip_addr :=
  lookup_hosts (local_hostlist_dynamic s) hostname dns_addrtype.

Definition dns_local_lookup (hostname : list Z) (dns_addrtype : Z) (s : dns) : option ip_addr :=
  dns_lookup_local hostname dns_addrtype s.

(** The names and addresses that the iterator function is given, and their number. *)
Definition dns_local_iterate (s : dns) : list (list Z * ip_addr) * Z :=
  (local_hostlist_dynamic s, Z.of_nat (length (local_hostlist_dynamic s))).

(** Does an entry go? NULL stands for any name, or any address. *)
Definition goes (hostname : option (list Z)) (addr : option ip_addr) (h : list Z * ip_addr) : bool :=
  match hostname with Some n => lwip_stricmp h.1 n | None => true end
  && match addr with Some a => bool_decide (h.2 = a) | None => true end.

(** The loop of [dns_local_removehost]: the list that stays and the number that goes. *)
Fixpoint remove_hosts (hosts : list (list Z * ip_addr)) (hostname : option (list Z)) (addr : option ip_addr) :
    list (list Z * ip_addr) * Z :=
  match hosts with
  | [] => ([], 0)
  | h :: hosts =>
      let (l, removed) := remove_hosts hosts hostname addr in
      if goes hostname addr h then (l, removed + 1) else (h :: l, removed)
  end.

Definition dns_local_removehost (hostname : option (list Z)) (addr : option ip_addr) (s : dns) : Z * dns :=
  let (l, removed) := remove_hosts (local_hostlist_dynamic s) hostname addr in (removed, set_local_hostlist l s).

Definition dns_local_addhost (hostname : list Z) (addr : ip_addr) (s : dns) : option (Z * dns) :=
  _ ← lwip_assert (size hostname <=? DNS_LOCAL_HOSTLIST_MAX_NAMELEN);
  let (k, s) := call s in
  if negb (memp_malloc_ok k) then Some (ERR_MEM, s)
  else Some (ERR_OK, set_local_hostlist ((hostname, addr) :: local_hostlist_dynamic s) s).

(** [dns_init_local]: the assertions fail without memory. *)
Fixpoint init_hosts (hosts : list (list Z * ip_addr)) (s : dns) : option dns :=
  match hosts with
  | [] => Some s
  | (n, a) :: hosts =>
      _ ← lwip_assert (size n <=? DNS_LOCAL_HOSTLIST_MAX_NAMELEN);
      let (k, s) := call s in
      _ ← lwip_assert (memp_malloc_ok k);
      init_hosts hosts (set_local_hostlist ((n, a) :: local_hostlist_dynamic s) s)
  end.

Definition dns_init_local (s : dns) : option dns := init_hosts DNS_LOCAL_HOSTLIST_INIT s.

(** ** Servers *)

(** [dns_setserver]; a NULL address is [None]. *)
Definition dns_setserver (numdns : Z) (dnsserver : option ip_addr) (s : dns) : dns :=
  if numdns <? DNS_MAX_SERVERS then set_dns_servers (<[Z.to_nat numdns := default IP_ADDR_ANY dnsserver]> (dns_servers s)) s else s.

Definition dns_getserver (numdns : Z) (s : dns) : option ip_addr :=
  if numdns <? DNS_MAX_SERVERS then dns_servers s !! Z.to_nat numdns else Some IP_ADDR_ANY.

(** The control block of all queries, when they do not have their own. *)
Definition init_pcb (s : dns) : option dns :=
  if SECURE_RAND_SRC_PORT then Some s
  else
    used ← dns_pcbs s !! 0%nat;
    if (used : bool) then Some s
    else
      let (k, s) := call s in
      _ ← lwip_assert (udp_new_ok k);
      let (_, s) := call s in
      Some (set_dns_pcbs (<[0%nat := true]> (dns_pcbs s)) s).

Definition dns_init (s : dns) : option dns :=
  s ← init_pcb s;
  if DNS_LOCAL_HOSTLIST then dns_init_local s else Some s.

(** ** Lookup *)

(** The loop of [dns_lookup]. *)
Fixpoint lookup_table (t : list dns_table_entry) (hostname : list Z) (dns_addrtype : Z) : option (option ip_addr) :=
  match t with
  | [] => Some None
  | e :: t =>
      if bool_decide (state e = DNS_STATE_DONE) then
        n ← c_str (name e);
        if lwip_strnicmp hostname n DNS_MAX_NAME_LENGTH && LWIP_DNS_ADDRTYPE_MATCH_IP dns_addrtype (ipaddr e)
        then Some (Some (ipaddr e))
        else lookup_table t hostname dns_addrtype
      else lookup_table t hostname dns_addrtype
  end.

(** [dns_lookup]: the address, if there is one. *)
Definition dns_lookup (hostname : list Z) (dns_addrtype : Z) (s : dns) : option (option ip_addr) :=
  match (if DNS_LOCAL_HOSTLIST then dns_lookup_local hostname dns_addrtype s else None) with
  | Some a => Some (Some a)
  | None => lookup_table (dns_table s) hostname dns_addrtype
  end.

(** ** Answers *)

(** The requests of an entry are answered. *)
Fixpoint call_requests (rs : list dns_req_entry) (idx : Z) (hostname : list Z) (addr : option ip_addr) :
    list dns_req_entry * list event :=
  match rs with
  | [] => ([], [])
  | r :: rs =>
      let (rs', es) := call_requests rs idx hostname addr in
      match found r with
      | Some f =>
          if dns_table_idx r =? idx then (mkReq None (dns_table_idx r) (req_addrtype r) :: rs', Found f hostname addr :: es)
          else (r :: rs', es)
      | None => (r :: rs', es)
      end
  end.

(** Does another entry among the first DNS_MAX_REQUESTS ask from the same port? *)
Fixpoint port_shared (ids : list nat) (idx : Z) (port : Z) (s : dns) : option bool :=
  match ids with
  | [] => Some false
  | i :: ids =>
      if Z.of_nat i =? idx then port_shared ids idx port s
      else
        e ← dns_table s !! i;
        if asking e && (pcb_idx e =? port) then Some true else port_shared ids idx port s
  end.

(** The port of an entry is closed, unless another one uses it. *)
Definition release_port (idx : Z) (s : dns) : option dns :=
  e ← entry idx s;
  shared ← port_shared (seq 0 (Z.to_nat DNS_MAX_REQUESTS)) idx (pcb_idx e) s;
  let port := if (shared : bool) then DNS_MAX_SOURCE_PORTS else pcb_idx e in
  let s := put_entry idx (set_pcb_idx port e) s in
  if port <? DNS_MAX_SOURCE_PORTS then
    used ← dns_pcbs s !! Z.to_nat port;
    let s := set_dns_pcbs (<[Z.to_nat port := false]> (dns_pcbs s)) s in
    Some (put_entry idx (set_pcb_idx DNS_MAX_SOURCE_PORTS e) s)
  else Some s.

(** The address type of an entry that has an answer. *)
Definition answered_type (a : ip_addr) (e : dns_table_entry) : option dns_table_entry :=
  if is_v6 a then
    _ ← lwip_assert (LWIP_DNS_ADDRTYPE_IS_IPV6 (reqaddrtype e)); Some (set_reqaddrtype LWIP_DNS_ADDRTYPE_IPV6 e)
  else
    _ ← lwip_assert (negb (LWIP_DNS_ADDRTYPE_IS_IPV6 (reqaddrtype e))); Some (set_reqaddrtype LWIP_DNS_ADDRTYPE_IPV4 e).

(** The callbacks of the requests for an entry are called. *)
Definition call_callbacks (idx : Z) (hostname : list Z) (addr : option ip_addr) (s : dns) : option dns :=
  if SECURE_NO_MULTIPLE_OUTSTANDING then
    let (rs, es) := call_requests (dns_requests s) idx hostname addr in
    Some (set_events (events s ++ es) (set_dns_requests rs s))
  else
    r ← dns_requests s !! Z.to_nat idx;
    let s := match found r with Some f => log (Found f hostname addr) s | None => s end in
    Some (set_dns_requests (<[Z.to_nat idx := mkReq None (dns_table_idx r) (req_addrtype r)]> (dns_requests s)) s).

Definition dns_call_found (idx : Z) (addr : option ip_addr) (s : dns) : option dns :=
  e ← entry idx s;
  e ← (if both_ip then match addr with Some a => answered_type a e | None => Some e end else Some e);
  let s := put_entry idx e s in
  hostname ← c_str (name e);
  s ← call_callbacks idx hostname addr s;
  if SECURE_RAND_SRC_PORT then release_port idx s else Some s.

(** An entry is given up: the requests are told that there is no address. *)
Definition drop_query (idx : Z) (s : dns) : option dns :=
  s ← dns_call_found idx None s;
  e ← entry idx s;
  Some (put_entry idx (set_state DNS_STATE_UNUSED e) s).

(** ** Queries *)

(** The header of a query. *)
Definition query_header (id : Z) : list Z := be16 id ++ [DNS_FLAG1_RD; 0] ++ be16 1 ++ be16 0 ++ be16 0 ++ be16 0.

Definition query_type (e : dns_table_entry) : Z :=
  if LWIP_DNS_ADDRTYPE_IS_IPV6 (reqaddrtype e) then DNS_RRTYPE_AAAA else DNS_RRTYPE_A.

(** The message is written into [p]; [None] inside for an overflow. *)
Definition write_query (e : dns_table_entry) (hostname : list Z) (p : list Z) : option (option (list Z)) :=
  let p := pbuf_take_at p (query_header (txid e)) 0 in
  r ← put_labels (S (length hostname)) hostname p SIZEOF_DNS_HDR;
  match r with
  | None => Some None
  | Some (p, query_idx) =>
      let p := pbuf_put_at p query_idx 0 in
      let query_idx := u16 (query_idx + 1) in
      Some (Some (pbuf_take_at p (be16 (query_type e) ++ be16 DNS_RRCLASS_IN) query_idx))
  end.

(** Where a query goes. *)
Definition destination (e : dns_table_entry) (server : ip_addr) : ip_addr * Z :=
  if LWIP_DNS_SUPPORT_MDNS_QUERIES && is_mdns e then
    (if LWIP_DNS_ADDRTYPE_IS_IPV6 (reqaddrtype e) then dns_mquery_v6group else dns_mquery_v4group, DNS_MQUERY_PORT)
  else (server, DNS_SERVER_PORT).

Definition dns_send (idx : Z) (s : dns) : option (Z * dns) :=
  e ← entry idx s;
  _ ← lwip_assert (server_idx e <? DNS_MAX_SERVERS);
  server ← dns_servers s !! Z.to_nat (server_idx e);
  if ip_addr_isany server && negb (LWIP_DNS_SUPPORT_MDNS_QUERIES && is_mdns e) then
    s ← drop_query idx s; Some (ERR_OK, s)
  else
    hostname ← c_str (name e);
    let (k, s) := call s in
    match pbuf_alloc k (u16 (SIZEOF_DNS_HDR + size hostname + 2 + SIZEOF_DNS_QUERY)) with
    | None => Some (ERR_MEM, s)
    | Some p =>
        r ← write_query e hostname p;
        match r with
        | None => Some (ERR_VAL, s)
        | Some p =>
            let i := if SECURE_RAND_SRC_PORT then pcb_idx e else 0 in
            used ← dns_pcbs s !! Z.to_nat i;
            let (dst, dst_port) := destination e server in
            if (used : bool) then let (k, s) := call s in Some (udp_sendto_result k, log (Sent i dst dst_port p) s)
            else Some (ERR_ARG, s)
        end
    end.

(** ** Time *)

Definition dns_backupserver_available (e : dns_table_entry) (s : dns) : option bool :=
  if server_idx e + 1 <? DNS_MAX_SERVERS then
    server ← dns_servers s !! Z.to_nat (server_idx e + 1); Some (negb (ip_addr_isany server))
  else Some false.

(** The query is sent; its error is only logged. *)
Definition send_query (i : Z) (e : dns_table_entry) (s : dns) : option dns :=
  '(_, s) ← dns_send i (put_entry i e s); Some s.

(** The timer of a query ran out. *)
Definition retry (i : Z) (e : dns_table_entry) (s : dns) : option dns :=
  let e := set_retries (u8 (retries e + 1)) e in
  if retries e =? DNS_MAX_RETRIES then
    backup ← dns_backupserver_available e s;
    if (backup : bool) && negb (LWIP_DNS_SUPPORT_MDNS_QUERIES && is_mdns e)
    then send_query i (set_retries 0 (set_tmr 1 (set_server_idx (u8 (server_idx e + 1)) e))) s
    else drop_query i (put_entry i e s)
  else send_query i (set_tmr (retries e) e) s.

Definition dns_check_entry (i : Z) (s : dns) : option dns :=
  _ ← lwip_assert (i <? DNS_TABLE_SIZE);
  e ← entry i s;
  match state e with
  | DNS_STATE_NEW =>
      '(id, s) ← dns_create_txid s;
      send_query i (set_retries 0 (set_tmr 1 (set_server_idx 0 (set_state DNS_STATE_ASKING (set_txid id e))))) s
  | DNS_STATE_ASKING =>
      let e := set_tmr (u8 (tmr e - 1)) e in
      if tmr e =? 0 then retry i e s else Some (put_entry i e s)
  | DNS_STATE_DONE =>
      if ttl e =? 0 then Some (put_entry i (set_state DNS_STATE_UNUSED e) s)
      else
        let e := set_ttl (ttl e - 1) e in
        Some (put_entry i (if ttl e =? 0 then set_state DNS_STATE_UNUSED e else e) s)
  | DNS_STATE_UNUSED => Some s
  end.

Fixpoint check_entries (ids : list nat) (s : dns) : option dns :=
  match ids with
  | [] => Some s
  | i :: ids => s ← dns_check_entry (Z.of_nat i) s; check_entries ids s
  end.

Definition dns_check_entries (s : dns) : option dns := check_entries (seq 0 (Z.to_nat DNS_TABLE_SIZE)) s.
Definition dns_tmr (s : dns) : option dns := dns_check_entries s.

(** ** Messages *)

Definition dns_correct_response (idx : Z) (answer_ttl : Z) (s : dns) : option dns :=
  e ← entry idx s;
  let e := set_ttl (if DNS_MAX_TTL <? answer_ttl then DNS_MAX_TTL else answer_ttl) (set_state DNS_STATE_DONE e) in
  s ← dns_call_found idx (Some (ipaddr e)) (put_entry idx e s);
  e ← entry idx s;
  if (ttl e =? 0) && bool_decide (state e = DNS_STATE_DONE) then Some (put_entry idx (set_state DNS_STATE_UNUSED e) s) else Some s.

(** What the answers say: nothing to go by, an address with its TTL, or no address. *)
Inductive verdict := Ignore | Answer (addr : ip_addr) (answer_ttl : Z) | NoAnswer.

(** An address of [len] bytes behind the record at [res_idx]. *)
Definition read_addr (p : chain) (res_idx len : Z) : option (list Z) :=
  let bs := pbuf_copy_partial p len res_idx in if size bs =? len then Some bs else None.

(** Does a record of this type hold the address that the entry asks for? *)
Definition holds_v4 (e : dns_table_entry) (type len : Z) : bool :=
  LWIP_IPV4 && (type =? DNS_RRTYPE_A) && (len =? 4) && negb (both_ip && LWIP_DNS_ADDRTYPE_IS_IPV6 (reqaddrtype e)).
Definition holds_v6 (e : dns_table_entry) (type len : Z) : bool :=
  LWIP_IPV6 && (type =? DNS_RRTYPE_AAAA) && (len =? 16) && (negb both_ip || LWIP_DNS_ADDRTYPE_IS_IPV6 (reqaddrtype e)).

(** The loop over the answers. *)
Fixpoint read_answers (fuel : nat) (e : dns_table_entry) (p : chain) (nanswers res_idx : Z) : option verdict :=
  match fuel with
  | O => None
  | S fuel =>
      if (0 <? nanswers) && (res_idx <? tot_len p) then
        res_idx ← dns_skip_name p res_idx;
        if res_idx =? 0xffff then Some Ignore
        else
          let ans := pbuf_copy_partial p SIZEOF_DNS_ANSWER res_idx in
          if negb (size ans =? SIZEOF_DNS_ANSWER) then Some Ignore
          else if 0xffff <? res_idx + SIZEOF_DNS_ANSWER then Some Ignore
          else
            let res_idx := u16 (res_idx + SIZEOF_DNS_ANSWER) in
            let type := of_be (slice ans 0 2) in
            let cls := of_be (slice ans 2 4) in
            let answer_ttl := of_be (slice ans 4 8) in
            let len := of_be (slice ans 8 10) in
            if (cls =? DNS_RRCLASS_IN) && holds_v4 e type len then
              match read_addr p res_idx 4 with
              | None => Some Ignore
              | Some bs => Some (Answer (V4 (of_be bs)) answer_ttl)
              end
            else if (cls =? DNS_RRCLASS_IN) && holds_v6 e type len then
              match read_addr p res_idx 16 with
              | None => Some Ignore
              | Some bs => Some (Answer (V6 bs) answer_ttl)
              end
            else if 0xffff <? res_idx + len then Some Ignore
            else read_answers fuel e p (nanswers - 1) (u16 (res_idx + len))
      else Some NoAnswer
  end.

(** The question of a reply to [e]: the index behind it, if it is our question. *)
Definition our_question (e : dns_table_entry) (p : chain) : option (option Z) :=
  res_idx ← dns_compare_name (name e) p SIZEOF_DNS_HDR;
  if res_idx =? 0xffff then Some None
  else
    let qry := pbuf_copy_partial p SIZEOF_DNS_QUERY res_idx in
    if negb (size qry =? SIZEOF_DNS_QUERY) then Some None
    else
      let type := of_be (slice qry 0 2) in
      let cls := of_be (slice qry 2 4) in
      if negb (cls =? DNS_RRCLASS_IN)
         || (LWIP_DNS_ADDRTYPE_IS_IPV6 (reqaddrtype e) && negb (type =? DNS_RRTYPE_AAAA))
         || (negb (LWIP_DNS_ADDRTYPE_IS_IPV6 (reqaddrtype e)) && negb (type =? DNS_RRTYPE_A)) then Some None
      else if 0xffff <? res_idx + SIZEOF_DNS_QUERY then Some None
      else Some (Some (u16 (res_idx + SIZEOF_DNS_QUERY))).

(** Does the sender count as the server of the entry? *)
Definition from_server (e : dns_table_entry) (addr : ip_addr) (s : dns) : option bool :=
  if LWIP_DNS_SUPPORT_MDNS_QUERIES && is_mdns e then Some true
  else server ← dns_servers s !! Z.to_nat (server_idx e); Some (bool_decide (addr = server)).

(** No answer to this type: the other one is asked for, or the requests get no address. *)
Definition no_answer (i : Z) (e : dns_table_entry) (s : dns) : option dns :=
  if both_ip && ((reqaddrtype e =? LWIP_DNS_ADDRTYPE_IPV4_IPV6) || (reqaddrtype e =? LWIP_DNS_ADDRTYPE_IPV6_IPV4)) then
    let t := if reqaddrtype e =? LWIP_DNS_ADDRTYPE_IPV4_IPV6 then LWIP_DNS_ADDRTYPE_IPV6 else LWIP_DNS_ADDRTYPE_IPV4 in
    dns_check_entry i (put_entry i (set_state DNS_STATE_NEW (set_reqaddrtype t e)) s)
  else drop_query i s.

(** A reply to the entry [i]. *)
Definition recv_reply (i : Z) (e : dns_table_entry) (hdr : list Z) (p : chain) (addr : ip_addr) (s : dns) : option dns :=
  flags1 ← load hdr 2;
  flags2 ← load hdr 3;
  if Z.land flags1 DNS_FLAG1_RESPONSE =? 0 then Some s
  else if negb (of_be (slice hdr 4 6) =? 1) then Some s
  else
    ok ← from_server e addr s;
    if negb ok then Some s
    else
      question ← our_question e p;
      match question with
      | None => Some s
      | Some res_idx =>
          if negb (Z.land flags2 DNS_FLAG2_ERR_MASK =? 0) then
            backup ← dns_backupserver_available e s;
            if (backup : bool) then dns_check_entry i (put_entry i (set_tmr 1 (set_retries (u8 (DNS_MAX_RETRIES - 1)) e)) s)
            else drop_query i s
          else
            let nanswers := of_be (slice hdr 6 8) in
            v ← read_answers (S (Z.to_nat nanswers)) e p nanswers res_idx;
            match v with
            | Ignore => Some s
            | Answer a answer_ttl => dns_correct_response i answer_ttl (put_entry i (set_ipaddr a e) s)
            | NoAnswer => no_answer i e s
            end
      end.

(** A message from [addr], in the buffers [p]. *)
Definition dns_recv (p : chain) (addr : ip_addr) (s : dns) : option dns :=
  if tot_len p <? SIZEOF_DNS_HDR + SIZEOF_DNS_QUERY then Some s
  else
    let hdr := pbuf_copy_partial p SIZEOF_DNS_HDR 0 in
    if negb (size hdr =? SIZEOF_DNS_HDR) then Some s
    else
      let id := of_be (slice hdr 0 2) in
      let i := Z.of_nat (first_index (fun e => asking e && (txid e =? id)) (dns_table s)) in
      match entry i s with
      | Some e => recv_reply i e hdr p addr s
      | None => Some s
      end.

(** ** Requests *)

(** The request joins a query for the same name: the requests with it, if there is room. *)
Definition join_query (i : Z) (callback : option Z) (dns_addrtype : Z) (s : dns) : option dns :=
  let r := first_index (fun r => bool_decide (found r = None)) (dns_requests s) in
  _ ← dns_requests s !! r;
  Some (set_dns_requests (<[r := mkReq callback i dns_addrtype]> (dns_requests s)) s).

(** The loop over the queries that are under way; [None] inside: none was joined. *)
Fixpoint join_any (i : nat) (t : list dns_table_entry) (hostname : list Z) (callback : option Z) (dns_addrtype : Z) (s : dns) :
    option (option dns) :=
  match t with
  | [] => Some None
  | e :: t =>
      same ← (if asking e then n ← c_str (name e); Some (lwip_strnicmp hostname n DNS_MAX_NAME_LENGTH) else Some false);
      if (same : bool) && negb (both_ip && negb (reqaddrtype e =? dns_addrtype)) then
        match join_query (Z.of_nat i) callback dns_addrtype s with
        | Some s => Some (Some s)
        | None => join_any (S i) t hostname callback dns_addrtype s
        end
      else join_any (S i) t hostname callback dns_addrtype s
  end.

(** The loop for a place: the first unused entry, and the oldest answer so far. *)
Fixpoint find_place (i : Z) (t : list dns_table_entry) (lseq lseqi seq : Z) : Z * Z :=
  match t with
  | [] => (i, lseqi)
  | e :: t =>
      match state e with
      | DNS_STATE_UNUSED => (i, lseqi)
      | DNS_STATE_DONE =>
          let age := u8 (seq - seqno e) in
          if lseq <? age then find_place (i + 1) t age i seq else find_place (i + 1) t lseq lseqi seq
      | _ => find_place (i + 1) t lseq lseqi seq
      end
  end.

(** The array [name] with a host name. *)
Definition copy_name (hostname old : list Z) : list Z :=
  let namelen := Z.min (size hostname) (DNS_MAX_NAME_LENGTH - 1) in
  take (Z.to_nat namelen) hostname ++ [0] ++ drop (Z.to_nat (namelen + 1)) old.

(** A new query in the entry [i] for the request [r]. *)
Definition new_query (i : Z) (r : nat) (hostname : list Z) (callback : option Z) (dns_addrtype : Z) (mdns : bool) (s : dns) :
    option (Z * dns) :=
  e ← entry i s;
  let t e := if both_ip then set_reqaddrtype dns_addrtype e else e in
  let e := t (set_seqno (dns_seqno s) (set_state DNS_STATE_NEW e)) in
  let e := set_name (copy_name hostname (name e)) e in
  let req := mkReq callback i (if both_ip then dns_addrtype else 0) in
  let s := put_entry i e (set_dns_requests (<[r := req]> (dns_requests s)) s) in
  '(port, s) ← (if SECURE_RAND_SRC_PORT then dns_alloc_pcb s else Some (pcb_idx e, s));
  let e := set_pcb_idx port e in
  if SECURE_RAND_SRC_PORT && (DNS_MAX_SOURCE_PORTS <=? port) then
    Some (ERR_MEM, put_entry i (set_state DNS_STATE_UNUSED e)
                     (set_dns_requests (<[r := mkReq None i (req_addrtype req)]> (dns_requests s)) s))
  else
    let e := if LWIP_DNS_SUPPORT_MDNS_QUERIES then set_is_mdns mdns e else e in
    s ← dns_check_entry i (set_dns_seqno (u8 (dns_seqno s + 1)) (put_entry i e s));
    Some (ERR_INPROGRESS, s).

Definition dns_enqueue (hostname : list Z) (callback : option Z) (dns_addrtype : Z) (mdns : bool) (s : dns) : option (Z * dns) :=
  joined ← (if SECURE_NO_MULTIPLE_OUTSTANDING then join_any 0 (dns_table s) hostname callback dns_addrtype s else Some None);
  match joined with
  | Some s => Some (ERR_INPROGRESS, s)
  | None =>
      let (i, lseqi) := find_place 0 (dns_table s) 0 DNS_TABLE_SIZE (dns_seqno s) in
      i ← (if i =? DNS_TABLE_SIZE then
             if DNS_TABLE_SIZE <=? lseqi then Some None
             else e ← entry lseqi s; Some (if bool_decide (state e = DNS_STATE_DONE) then Some lseqi else None)
           else Some (Some i));
      match i with
      | None => Some (ERR_MEM, s)
      | Some i =>
          if SECURE_NO_MULTIPLE_OUTSTANDING then
            let r := first_index (fun r => bool_decide (found r = None)) (dns_requests s) in
            if Z.of_nat r <? DNS_MAX_REQUESTS then new_query i r hostname callback dns_addrtype mdns s else Some (ERR_MEM, s)
          else new_query i (Z.to_nat i) hostname callback dns_addrtype mdns s
      end
  end.

(** ".local", and is this where it is found first? [strstr] *)
Definition dot_local : list Z := [46; 108; 111; 99; 97; 108].
Definition localhost : list Z := [108; 111; 99; 97; 108; 104; 111; 115; 116].

Fixpoint strstr (s pattern : list Z) : option Z :=
  if bool_decide (pattern = take (length pattern) s) then Some 0
  else match s with [] => None | _ :: s => i ← strstr s pattern; Some (i + 1) end.

Definition mdns_name (hostname : list Z) : bool :=
  LWIP_DNS_SUPPORT_MDNS_QUERIES
  && match strstr hostname dot_local with Some i => i =? size hostname - 6 | None => false end.

(** [ip_addr_set_loopback] *)
Definition loopback (v6 : bool) : ip_addr := if v6 then V6 (replicate 15 0 ++ [1]) else V4 0x7f000001.

(** An address that needs no query. *)
Definition known_address (hostname : list Z) (dns_addrtype : Z) (s : dns) : option (option ip_addr) :=
  if LWIP_HAVE_LOOPIF && bool_decide (hostname = localhost) then Some (Some (loopback (LWIP_DNS_ADDRTYPE_IS_IPV6 dns_addrtype)))
  else
    match ipaddr_aton hostname with
    | Some a =>
        if negb both_ip || (is_v6 a && negb (dns_addrtype =? LWIP_DNS_ADDRTYPE_IPV4))
           || (negb (is_v6 a) && negb (dns_addrtype =? LWIP_DNS_ADDRTYPE_IPV6)) then Some (Some a)
        else dns_lookup hostname dns_addrtype s
    | None => dns_lookup hostname dns_addrtype s
    end.

(** The other type, when there is one. *)
Definition fallback_lookup (hostname : list Z) (dns_addrtype : Z) (s : dns) : option (option ip_addr) :=
  if both_ip && ((dns_addrtype =? LWIP_DNS_ADDRTYPE_IPV4_IPV6) || (dns_addrtype =? LWIP_DNS_ADDRTYPE_IPV6_IPV4)) then
    dns_lookup hostname (if dns_addrtype =? LWIP_DNS_ADDRTYPE_IPV4_IPV6 then LWIP_DNS_ADDRTYPE_IPV6 else LWIP_DNS_ADDRTYPE_IPV4) s
  else Some None.

(** The error, the address when there is one at once, and the state. [hostname] may be NULL;
    [addr], where the address is written, is not. *)
Definition dns_gethostbyname_addrtype (hostname : option (list Z)) (callback : option Z) (dns_addrtype : Z) (s : dns) :
    option (Z * option ip_addr * dns) :=
  match hostname with
  | None | Some [] => Some (ERR_ARG, None, s)
  | Some hostname =>
      used ← (if negb SECURE_RAND_SRC_PORT then dns_pcbs s !! 0%nat else Some true);
      if negb (used : bool) then Some (ERR_ARG, None, s)
      else if DNS_MAX_NAME_LENGTH <=? size hostname then Some (ERR_ARG, None, s)
      else
        known ← known_address hostname dns_addrtype s;
        known ← match known with Some a => Some (Some a) | None => fallback_lookup hostname dns_addrtype s end;
        match known with
        | Some a => Some (ERR_OK, Some a, s)
        | None =>
            let mdns := mdns_name hostname in
            server ← dns_servers s !! 0%nat;
            if negb mdns && ip_addr_isany server then Some (ERR_VAL, None, s)
            else '(err, s) ← dns_enqueue hostname callback dns_addrtype mdns s; Some (err, None, s)
        end
  end.

Definition dns_gethostbyname (hostname : option (list Z)) (callback : option Z) (s : dns) : option (Z * option ip_addr * dns) :=
  dns_gethostbyname_addrtype hostname callback LWIP_DNS_ADDRTYPE_DEFAULT s.
End Client.
End DnsClient.
