(* ===== verification/DnsParse.v ===== *)
(** The DNS resolver of lwIP: names and answers are read to an end, whatever the message
    holds. *)

From stdpp Require Import gmap.
From S2P Require Export DnsClient.
Export DnsClient.
Open Scope Z_scope.

Module DnsParse.

(** A message in buffers: bytes, and a length of 16 bits. *)
Record wf_chain (p : chain) : Prop := {
  chain_bytes : Forall is_byte (concat p);
  chain_size : tot_len p < 65536
}.

Lemma tot_len_nonneg p : 0 <= tot_len p.
Proof. apply size_nonneg. Qed.

Lemma tot_len_length p : tot_len p = Z.of_nat (length (concat p)).
Proof. done. Qed.

Section Parse.
Context {Opt : DnsOptions} {Pbufs : DnsPbufs} {Text : DnsText} {World : DnsWorld}.

(** A byte of the message, or -1 behind its end. *)
Lemma get_at p i : wf_chain p -> 0 <= i ->
  (pbuf_try_get_at p i = -1 /\ tot_len p <= i) \/ (is_byte (pbuf_try_get_at p i) /\ i < tot_len p).
Proof.
  intros [Hb _] Hi. rewrite try_get_at_data by done. rewrite tot_len_length.
  destruct (concat p !! Z.to_nat i) as [c|] eqn:E; cbn [default from_option id].
  - right. split; [by apply (Forall_lookup_1 _ _ _ _ Hb E)|]. apply lookup_lt_Some in E. lia.
  - left. apply lookup_ge_None in E. split; [done|lia].
Qed.

Lemma copied p len i : 0 <= len -> 0 <= i -> size (pbuf_copy_partial p len i) = Z.max 0 (Z.min len (tot_len p - i)).
Proof.
  intros Hl Hi. rewrite copy_partial_data by done. unfold size, tot_len, size. rewrite length_take, length_drop. lia.
Qed.

Lemma copy_bytes p len i : wf_chain p -> 0 <= len -> 0 <= i -> Forall is_byte (pbuf_copy_partial p len i).
Proof. intros [Hb _] Hl Hi. rewrite copy_partial_data by done. by apply Forall_take, Forall_drop. Qed.

Lemma slice_number bs a b : Forall is_byte bs -> 0 <= a <= b -> b - a <= 4 -> 0 <= of_be (slice bs a b) < 2 ^ 32.
Proof.
  intros Hb Ha Hl. apply of_be_32; [by apply Forall_take, Forall_drop|]. unfold slice, size. rewrite length_take. lia.
Qed.

(** ** Names *)

(** The labels of a name at the front of [bs], and what is there of one that is broken
    off, take at most [room] characters, one between two labels included. *)
Fixpoint name_within (fuel : nat) (bs : list Z) (room : nat) : bool :=
  match fuel, bs with
  | S fuel, n :: bs =>
      if Z.land n 0xc0 =? 0xc0 then true
      else
        let k := Nat.min (Z.to_nat n) (length bs) in
        (k <=? room)%nat && match drop k bs with c :: _ => (c =? 0) || name_within fuel (drop k bs) (room - S k) | [] => true end
  | _, _ => true
  end.

(** The question of a message is no longer than the array that its name is compared with. *)
Definition question_within (p : chain) : bool :=
  name_within (S (length (concat p))) (drop 12 (concat p)) (Z.to_nat DNS_MAX_NAME_LENGTH).

Lemma get_at_drop p i : wf_chain p -> 0 <= i < tot_len p ->
  drop (Z.to_nat i) (concat p) = pbuf_try_get_at p i :: drop (Z.to_nat (i + 1)) (concat p).
Proof.
  intros Hp Hi. rewrite try_get_at_data by lia. rewrite tot_len_length in Hi.
  destruct (lookup_lt_is_Some_2 (concat p) (Z.to_nat i)) as [c E]; [lia|]. rewrite E. cbn [default from_option id].
  replace (Z.to_nat (i + 1)) with (S (Z.to_nat i)) by lia. by apply drop_S.
Qed.

Lemma compare_label_range n : forall q query p off query' off',
  wf_chain p -> 0 <= off -> compare_label n q query p off = Some (Some (query', off')) ->
  query' = (query + n)%nat /\ off' = off + Z.of_nat n /\ (n = 0%nat \/ off' <= tot_len p).
Proof.
  induction n as [|n IH]; intros q query p off query' off' Hp Ho E; cbn [compare_label] in E.
  { injection E as <- <-. split_and!; try lia; by left. }
  destruct (get_at p off Hp Ho) as [[Hc _]|[Hc Hlt]]; [by rewrite Hc in E|]. unfold is_byte in Hc.
  destruct (_ <? 0); [done|]. destruct (query_at q query) as [qc|]; [|done]. cbn [mbind option_bind] in E.
  destruct (negb _); [done|]. destruct (off =? 0xffff); [done|].
  destruct (IH q (S query) p (off + 1) query' off' Hp ltac:(lia) E) as (-> & -> & Hr).
  split_and!; [lia..|right]. destruct Hr as [->|Hr]; lia.
Qed.

(** The array is not left when the bytes of the label that are there fit. *)
Lemma compare_label_inside n : forall q query p off,
  wf_chain p -> 0 <= off -> (Nat.min n (Z.to_nat (tot_len p - off)) <= length q - query)%nat ->
  exists r, compare_label n q query p off = Some r.
Proof.
  induction n as [|n IH]; intros q query p off Hp Ho Hq; cbn [compare_label]; [by eexists|].
  destruct (get_at p off Hp Ho) as [[-> _]|[Hc Hlt]]; [by eexists|]. unfold is_byte in Hc.
  replace (_ <? 0) with false by lia. destruct (lookup_lt_is_Some_2 q query) as [qc E]; [lia|].
  unfold query_at. rewrite E. cbn [mbind option_bind].
  destruct (negb _); [by eexists|]. destruct (off =? 0xffff); [by eexists|]. apply IH; [done|lia|lia].
Qed.

Lemma compare_labels_range fuel : forall q query p off r,
  wf_chain p -> 0 <= off -> compare_labels fuel q query p off = Some r -> r = 0xffff \/ off + 1 < r <= tot_len p.
Proof.
  induction fuel as [|fuel IH]; intros q query p off r Hp Ho E; [done|].
  cbn [compare_labels] in E. destruct (_ || _) eqn:E0; [injection E as <-; by left|].
  destruct (get_at p off Hp Ho) as [[E1 _]|[Hc Hlt]]; [rewrite E1 in E0; lia|]. cbv zeta in E.
  destruct (Z.land _ _ =? _); [injection E as <-; by left|].
  destruct (compare_label _ _ _ _ _) as [[[query' off']|]|] eqn:El; [|injection E as <-; by left|done]. cbn [mbind option_bind] in E.
  destruct (compare_label_range _ q query p (off + 1) _ _ Hp ltac:(lia) El) as (_ & -> & Hl). clear El.
  unfold is_byte in Hc. set (off' := off + 1 + _) in *.
  destruct (get_at p off' Hp ltac:(lia)) as [[E1 _]|[Hc' Hlt']]; [rewrite E1 in E; injection E as <-; by left|]. unfold is_byte in Hc'.
  replace (_ <? 0) with false in E by lia. destruct (negb _).
  - apply IH in E; [|done|lia]. lia.
  - destruct (off' =? 0xffff); [injection E as <-; by left|]. injection E as <-. lia.
Qed.

(** Comparing ends inside of the array when the name in the message fits. *)
Lemma compare_labels_total fuel : forall q query p off,
  wf_chain p -> 0 <= off -> Z.max 0 (tot_len p - off) < Z.of_nat fuel ->
  name_within fuel (drop (Z.to_nat off) (concat p)) (length q - query) = true -> exists r, compare_labels fuel q query p off = Some r.
Proof.
  induction fuel as [|fuel IH]; intros q query p off Hp Ho Hf Hn; [lia|].
  cbn [compare_labels]. destruct ((pbuf_try_get_at p off <? 0) || (off =? 0xffff)) eqn:E0; [by eexists|].
  destruct (get_at p off Hp Ho) as [[E _]|[Hc Hlt]]; [rewrite E in E0; lia|]. cbv zeta. unfold is_byte in Hc.
  rewrite (get_at_drop p off Hp ltac:(lia)) in Hn. cbn [name_within] in Hn.
  destruct (Z.land _ _ =? _); [by eexists|]. cbv zeta in Hn. apply andb_true_iff in Hn as [Hk Hn]. apply Nat.leb_le in Hk.
  rewrite length_drop in Hk, Hn. rewrite tot_len_length in *.
  destruct (compare_label_inside (Z.to_nat (pbuf_try_get_at p off)) q query p (off + 1) Hp ltac:(lia)) as [r El].
  { rewrite tot_len_length. lia. }
  rewrite El. cbn [mbind option_bind]. destruct r as [[query' off']|]; [|by eexists].
  destruct (compare_label_range _ q query p (off + 1) _ _ Hp ltac:(lia) El) as (-> & -> & Hl). clear El. rewrite tot_len_length in Hl.
  set (off' := off + 1 + _) in *.
  destruct (get_at p off' Hp ltac:(lia)) as [[-> _]|[Hc' Hlt']]; [by eexists|]. unfold is_byte in Hc'. rewrite tot_len_length in Hlt'.
  replace (_ <? 0) with false by lia. destruct (negb _) eqn:Ez; [|destruct (off' =? 0xffff); by eexists].
  rewrite Nat.min_l in Hn by lia. rewrite drop_drop in Hn. replace (_ + _)%nat with (Z.to_nat off') in Hn by lia.
  rewrite (get_at_drop p off' Hp) in Hn by (rewrite tot_len_length; lia). apply orb_true_iff in Hn as [Hn|Hn]; [lia|].
  rewrite <- (get_at_drop p off' Hp) in Hn by (rewrite tot_len_length; lia).
  apply IH; [done|lia|rewrite tot_len_length; lia|]. by replace (length q - S (query + _))%nat with (length q - query - S (Z.to_nat (pbuf_try_get_at p off)))%nat by lia.
Qed.

Lemma compare_name_range q p start r : wf_chain p -> 0 <= start -> dns_compare_name q p start = Some r -> r = 0xffff \/ start + 1 < r <= tot_len p.
Proof. intros Hp Hs. by apply compare_labels_range. Qed.

(** Comparing the array of a name with the question of a message ends, inside of the array. *)
Lemma compare_name_total q p : wf_chain p -> size q = DNS_MAX_NAME_LENGTH -> question_within p = true ->
  exists r, dns_compare_name q p 12 = Some r.
Proof.
  intros Hp Hq Hw. apply compare_labels_total; [done|lia| |].
  - rewrite tot_len_length. lia.
  - unfold question_within in Hw. rewrite Nat.sub_0_r. change (Z.to_nat 12) with 12%nat. by rewrite <- Hq, to_nat_size in Hw.
Qed.

Lemma skip_labels_total fuel : forall p off,
  wf_chain p -> 0 <= off < 65536 -> Z.max 0 (tot_len p - off) < Z.of_nat fuel ->
  exists r, skip_labels fuel p off = Some r /\ (r = 0xffff \/ off < r < 0xffff).
Proof.
  induction fuel as [|fuel IH]; intros p off Hp Ho Hf; [lia|].
  cbn [skip_labels]. pose proof (chain_size p Hp) as Hsz.
  destruct (get_at p off Hp ltac:(lia)) as [[-> _]|[Hc Hlt]]; [exists 0xffff; by split; [|left]|]. unfold is_byte in Hc. cbv zeta.
  rewrite (u16_small (off + 1)) by lia. destruct (_ || _); [exists 0xffff; by split; [|left]|].
  assert (Hdone : forall o, off < o < 65536 -> exists r, Some (if o =? 0xffff then 0xffff else o + 1) = Some r /\ (r = 0xffff \/ off < r < 0xffff)).
  { intros o Hr. destruct (o =? 0xffff) eqn:E; eexists; (split; [done|]); lia. }
  destruct (Z.land _ _ =? _); [apply Hdone; lia|].
  destruct (tot_len p <=? _) eqn:El; [exists 0xffff; by split; [|left]|].
  rewrite u16_small by lia. set (off' := off + 1 + _) in *.
  destruct (get_at p off' Hp ltac:(lia)) as [[-> _]|[Hc' Hlt']]; [exists 0xffff; by split; [|left]|]. unfold is_byte in Hc'.
  replace (_ <? 0) with false by lia. destruct (negb _); [|apply Hdone; lia].
  destruct (IH p off' Hp ltac:(lia) ltac:(lia)) as (r & -> & Hr). exists r. split; [done|]. lia.
Qed.

Lemma skip_name_total p off : wf_chain p -> 0 <= off < 65536 ->
  exists r, dns_skip_name p off = Some r /\ (r = 0xffff \/ off < r < 0xffff).
Proof. intros Hp Ho. apply skip_labels_total; [done..|]. pose proof (tot_len_nonneg p). rewrite tot_len_length in *. lia. Qed.

(** ** Answers *)

(** An address of the kind that is asked for. *)
Definition asked_kind (e : dns_table_entry) (a : ip_addr) : Prop :=
  both_ip = true -> is_v6 a = LWIP_DNS_ADDRTYPE_IS_IPV6 (reqaddrtype e).

Lemma read_answers_total fuel : forall e p nanswers idx,
  wf_chain p -> 0 <= idx < 65536 -> 0 <= nanswers < Z.of_nat fuel ->
  exists v, read_answers fuel e p nanswers idx = Some v /\
    match v with Answer a t => asked_kind e a /\ 0 <= t < 2 ^ 32 | _ => True end.
Proof.
  induction fuel as [|fuel IH]; intros e p nanswers idx Hp Hi Hf; [lia|]. cbn [read_answers].
  destruct ((0 <? nanswers) && _) eqn:E0; [|by exists NoAnswer].
  destruct (skip_name_total p idx Hp Hi) as (r & -> & Hr). cbn [mbind option_bind].
  destruct (r =? 0xffff) eqn:Er; [by exists Ignore|]. destruct Hr as [Hr|Hr]; [lia|].
  set (ans := pbuf_copy_partial _ _ _). pose proof (copy_bytes p 10 r Hp ltac:(lia) ltac:(lia)) as Hb. fold ans in Hb. cbv zeta.
  destruct (negb (size ans =? _)); [by exists Ignore|]. destruct (0xffff <? r + 10) eqn:E1; [by exists Ignore|].
  rewrite (u16_small (r + 10)) by lia.
  pose proof (slice_number ans 4 8 Hb ltac:(lia) ltac:(lia)) as Httl.
  pose proof (slice_number ans 8 10 Hb ltac:(lia) ltac:(lia)) as Hlen.
  destruct ((_ =? DNS_RRCLASS_IN) && holds_v4 e _ _) eqn:E4.
  { destruct (read_addr p (r + 10) 4) as [bs|]; [|by exists Ignore]. eexists. split; [done|]. split; [|done].
    intros Hboth. unfold holds_v4 in E4. rewrite Hboth in E4. cbn [is_v6 andb] in *. symmetry. apply negb_true_iff.
    rewrite !andb_true_iff in E4. tauto. }
  destruct ((_ =? DNS_RRCLASS_IN) && holds_v6 e _ _) eqn:E6.
  { destruct (read_addr p (r + 10) 16) as [bs|]; [|by exists Ignore]. eexists. split; [done|]. split; [|done].
    intros Hboth. unfold holds_v6 in E6. rewrite Hboth in E6. cbn [is_v6 negb orb] in *. symmetry.
    rewrite !andb_true_iff in E6. tauto. }
  destruct (0xffff <? r + 10 + _) eqn:E2; [by exists Ignore|]. rewrite u16_small by lia. apply IH; [done|lia|lia].
Qed.

Lemma our_question_range e p i : wf_chain p -> our_question e p = Some (Some i) -> 12 < i < 65536.
Proof.
  intros Hp E. unfold our_question in E. destruct (dns_compare_name _ _ _) as [r|] eqn:Er; [|done]. cbn [mbind option_bind] in E.
  apply compare_name_range in Er; [|done|lia]. destruct (r =? 0xffff) eqn:E0; [done|]. destruct Er as [Er|Er]; [lia|]. cbv zeta in E.
  destruct (negb (size _ =? _)); [done|]. destruct (_ || _); [done|]. destruct (0xffff <? r + 4) eqn:E4; [done|].
  injection E as <-. rewrite u16_small by lia. lia.
Qed.

(** The question of a message is compared to an end. *)
Lemma our_question_total e p : wf_chain p -> size (name e) = DNS_MAX_NAME_LENGTH -> question_within p = true ->
  exists q, our_question e p = Some q.
Proof.
  intros Hp Hn Hw. unfold our_question. destruct (compare_name_total (name e) p Hp Hn Hw) as (r & ->). cbn [mbind option_bind].
  destruct (r =? 0xffff); [by exists None|]. cbv zeta.
  destruct (negb (size _ =? _)); [by exists None|]. destruct (_ || _); [by exists None|].
  destruct (0xffff <? r + 4); by eexists.
Qed.
End Parse.
End DnsParse.
