(* ===== verification/DnsNames.v ===== *)
(** The DNS resolver of lwIP: host names and names in messages. A host name is written
    as its labels; comparing and skipping accept exactly the names described here. *)

From stdpp Require Import gmap.
From S2P Require Export DnsParse.
Export DnsParse.
Open Scope Z_scope.

Module DnsNames.

(** The labels of a host name, between its dots. *)
Fixpoint labels (s : list Z) : list (list Z) :=
  match s with
  | [] => [[]]
  | c :: s => if c =? 46 then [] :: labels s else match labels s with l :: ls => (c :: l) :: ls | [] => [[c]] end
  end.

Definition blocks (ls : list (list Z)) : list Z := concat ((fun l => size l :: l) <$> ls).
Definition encode (ls : list (list Z)) : list Z := blocks ls ++ [0].

(** The byte before a label that is none, but a pointer to another name. *)
Definition pointer (n : Z) : bool := Z.land n 0xc0 =? 0xc0.

(** A name that [dns_skip_name] takes for one: labels up to an empty one, which is not
    the first, or to a pointer. *)
Inductive skipped : list Z -> Prop :=
  | skipped_pointer b1 b2 : pointer b1 = true -> skipped [b1; b2]
  | skipped_last l : pointer (size l) = false -> skipped (size l :: l ++ [0])
  | skipped_more l nm : pointer (size l) = false -> skipped nm -> default 0 (head nm) <> 0 -> skipped (size l :: l ++ nm).

(** Labels that [dns_compare_name] reads: the ones behind the first are not empty. *)
Definition labels_ok (ls : list (list Z)) : Prop :=
  ls <> [] /\ Forall (fun l => pointer (size l) = false) ls /\ Forall (fun l => l <> []) (tail ls).

(** A host name with labels that RFC 1035 allows, in an array of [n] characters. *)
Record wf_hostname (s : list Z) : Prop := {
  hostname_chars : Forall (fun c => is_byte c /\ c <> 0) s;
  hostname_labels : Forall (fun l => 1 <= size l <= 63) (labels s);
  hostname_size : size s < 256
}.

Lemma labels_nonempty s : labels s <> [].
Proof. destruct s as [|c s]; [done|]. cbn [labels]. case_match; [done|]. by destruct (labels s). Qed.

(** The first label is the one that is cut off, and behind its dot the others follow. *)
Lemma labels_cut s :
  labels s = match drop (length (label_of s)) s with [] => [label_of s] | _ :: rest => label_of s :: labels rest end.
Proof.
  induction s as [|c s IH]; [done|]. cbn [labels label_of]. destruct (c =? 46); [by destruct s|].
  cbn [length drop]. rewrite IH. by destruct (drop _ s).
Qed.

Lemma label_of_prefix s : exists rest, s = label_of s ++ rest /\ drop (length (label_of s)) s = rest.
Proof.
  induction s as [|c s (rest & E & Hd)]; [by exists []|]. cbn [label_of]. destruct (c =? 46); [by exists (c :: s)|].
  exists rest. cbn [app length drop]. split; [by f_equal|done].
Qed.

Lemma blocks_cons l ls : blocks (l :: ls) = (size l :: l) ++ blocks ls.
Proof. done. Qed.

(** The labels with their lengths take one byte more than the host name. *)
Lemma blocks_size s : size (blocks (labels s)) = size s + 1.
Proof.
  induction s as [|c s IH]; [done|]. cbn [labels]. destruct (c =? 46).
  - rewrite blocks_cons, size_app, IH, !size_cons. change (size []) with 0. lia.
  - destruct (labels s) as [|l ls] eqn:E; [by destruct (labels_nonempty s)|].
    rewrite blocks_cons, size_app, size_cons in IH. rewrite blocks_cons, size_app, !size_cons. lia.
Qed.

Lemma encode_size s : size (encode (labels s)) = size s + 2.
Proof. unfold encode. rewrite size_app, blocks_size. change (size [0]) with 1. lia. Qed.

Lemma wf_hostname_labels s : wf_hostname s -> labels_ok (labels s).
Proof.
  intros [_ Hl _]. split; [apply labels_nonempty|]. split.
  - eapply Forall_impl; [exact Hl|]. intros l Hr. cbv beta in Hr. unfold pointer. change 0xc0 with (Z.shiftl 3 6) at 1.
    apply Z.eqb_neq. intros E.
    assert (H : Z.testbit (Z.land (size l) (Z.shiftl 3 6)) 7 = true) by (by rewrite E). rewrite Z.land_spec in H.
    apply andb_true_iff in H as [H _]. rewrite <- (Z.mod_small (size l) (2 ^ 7)) in H by (change (2 ^ 7) with 128; lia).
    by rewrite Z.mod_pow2_bits_high in H by lia.
  - destruct (labels s) as [|l ls]; [done|]. apply Forall_cons in Hl as [_ Hl]. eapply Forall_impl; [exact Hl|].
    intros m Hr ->. by destruct Hr.
Qed.

Section Names.
Context {Opt : DnsOptions} {Pbufs : DnsPbufs} {Text : DnsText} {World : DnsWorld}.

(** ** Writing *)

Lemma put_at_mid pre x post i v : i = size pre -> pbuf_put_at (pre ++ x :: post) i v = pre ++ v :: post.
Proof.
  intros ->. rewrite put_at_data.
  - rewrite to_nat_size, insert_app_r_alt by done. by rewrite Nat.sub_diag.
  - rewrite size_app, size_cons. pose proof (size_nonneg pre). pose proof (size_nonneg post). lia.
Qed.

Lemma take_at_mid pre mid post bs i : i = size pre -> size bs = size mid -> pbuf_take_at (pre ++ mid ++ post) bs i = pre ++ bs ++ post.
Proof. intros Hi Hs. apply take_at_data. by apply poke_mid. Qed.

(** The labels of a host name are written. *)
Lemma put_labels_exact fuel : forall s pre mid post,
  (length s < fuel)%nat -> size s < 256 -> size mid = size s + 1 -> size pre + size s + 1 < 65536 ->
  put_labels fuel s (pre ++ mid ++ post) (size pre) = Some (Some (pre ++ blocks (labels s) ++ post, size pre + size s + 1)).
Proof.
  induction fuel as [|fuel IH]; intros s pre mid post Hf Hs Hm Hp; [lia|]. cbn [put_labels].
  destruct (label_of_prefix s) as (rest & E & Hd). rewrite labels_cut, Hd. set (l := label_of s) in *. clearbody l. subst s.
  rewrite length_app in Hf. rewrite size_app in Hs, Hm, Hp |- *.
  pose proof (size_nonneg l) as Hl. pose proof (size_nonneg rest). pose proof (size_nonneg pre). cbv zeta.
  rewrite (u8_small (size l)), (u16_small (size l)) by lia. replace (0xffff <? _) with false by lia.
  destruct mid as [|m mid]; [change (size []) with 0 in Hm; lia|]. rewrite size_cons in Hm.
  rewrite (u16_small (size pre + 1)), (u16_small (size pre + size l + 1)) by lia.
  cbn [app]. rewrite (put_at_mid pre m (mid ++ post)) by done. rewrite to_nat_size, take_ge by done.
  destruct (split_front mid (size l)) as (a & b & -> & Ha); [lia|]. rewrite size_app in Hm.
  assert (E1 : pbuf_take_at (pre ++ size l :: (a ++ b) ++ post) l (size pre + 1) = (pre ++ size l :: l) ++ b ++ post).
  { replace (pre ++ size l :: (a ++ b) ++ post) with ((pre ++ [size l]) ++ a ++ b ++ post) by (by rewrite <- !app_assoc).
    rewrite take_at_mid; [by rewrite <- !app_assoc|rewrite size_app; by change (size [size l]) with 1|done]. }
  rewrite E1.
  destruct rest as [|c rest].
  - destruct b as [|]; [|rewrite size_cons in Hm; change (size []) with 0 in Hm; pose proof (size_nonneg b); lia].
    rewrite blocks_cons. change (blocks []) with (@nil Z). change (size []) with 0. rewrite !app_nil_r. cbn [app].
    rewrite <- !app_assoc. cbn [app]. do 3 f_equal. lia.
  - rewrite size_cons in *. cbn [length] in Hf. pose proof (size_nonneg rest).
    replace (size pre + size l + 1) with (size (pre ++ size l :: l)) by (rewrite size_app, size_cons; lia).
    rewrite IH; [|lia|lia|lia|rewrite size_app, size_cons; lia].
    rewrite blocks_cons, <- !app_assoc. cbn [app]. do 3 f_equal. rewrite size_app, size_cons. lia.
Qed.
End Names.
End DnsNames.
