(* ===== verification/DnsMatch.v ===== *)
(** The DNS resolver of lwIP: what is accepted as the name of a question, and what is
    skipped as the name of a record. *)

From stdpp Require Import gmap.
From S2P Require Export DnsNames.
Export DnsNames.
Open Scope Z_scope.

Module DnsMatch.

Section Match.
Context {Opt : DnsOptions} {Pbufs : DnsPbufs} {Text : DnsText} {World : DnsWorld}.

(** The characters of a label are those of the array [q] at [query], in upper or lower
    case; the array has them all. *)
Fixpoint agrees (q : list Z) (query : nat) (l : list Z) : Prop :=
  match l with
  | [] => True
  | c :: l => (exists c', q !! query = Some c' /\ lwip_tolower c' = lwip_tolower c) /\ agrees q (S query) l
  end.

(** The labels agree, one behind the other; what stands between them is not looked at. *)
Fixpoint matches (q : list Z) (query : nat) (ls : list (list Z)) : Prop :=
  match ls with
  | [] => True
  | l :: ls => agrees q query l /\ matches q (S (query + length l)) ls
  end.

(** ** Messages with a known part *)

Lemma get_mid p pre c post i : concat p = pre ++ c :: post -> i = size pre -> pbuf_try_get_at p i = c.
Proof.
  intros Hp ->. rewrite try_get_at_data by apply size_nonneg. rewrite Hp, to_nat_size, lookup_app_r by done. by rewrite Nat.sub_diag.
Qed.

Lemma get_drop p i c : 0 <= i -> pbuf_try_get_at p i = c -> 0 <= c -> drop (Z.to_nat i) (concat p) = c :: drop (Z.to_nat (i + 1)) (concat p).
Proof.
  intros Hi Hc H0. rewrite try_get_at_data in Hc by done. destruct (_ !! _) as [x|] eqn:E; cbn in Hc; [subst x|lia].
  replace (Z.to_nat (i + 1)) with (S (Z.to_nat i)) by lia. by apply drop_S.
Qed.

(** ** Comparing *)

Lemma compare_label_agrees p n : forall q query off query' off',
  wf_chain p -> 0 <= off -> compare_label n q query p off = Some (Some (query', off')) ->
  exists l, length l = n /\ agrees q query l /\ query' = (query + n)%nat /\ off' = off + Z.of_nat n /\
    drop (Z.to_nat off) (concat p) = l ++ drop (Z.to_nat off') (concat p).
Proof.
  induction n as [|n IH]; intros q query off query' off' Hp Ho E; cbn [compare_label] in E.
  { injection E as <- <-. exists []. split_and!; (done || lia). }
  destruct (get_at p off Hp Ho) as [[Hc _]|[Hc Hlt]]; [by rewrite Hc in E|]. unfold is_byte in Hc.
  destruct (_ <? 0) eqn:E0; [done|]. rewrite u8_small in E by lia. unfold query_at in E.
  destruct (q !! query) as [c'|] eqn:Eq; [|done]. cbn [mbind option_bind] in E. destruct (negb _) eqn:E1; [done|]. destruct (off =? 0xffff); [done|].
  destruct (IH q (S query) (off + 1) query' off' Hp ltac:(lia) E) as (l & Hl & Ha & -> & -> & Hd).
  exists (pbuf_try_get_at p off :: l). cbn [length agrees app]. split_and!; try lia; try done.
  { exists c'. split; [done|lia]. }
  rewrite (get_drop p off _ Ho eq_refl) by lia. f_equal. by rewrite Hd.
Qed.

(** Whatever is accepted is a name in labels that agree. *)
Lemma compare_labels_sound fuel : forall q query p off r,
  wf_chain p -> 0 <= off -> compare_labels fuel q query p off = Some r -> r <> 0xffff ->
  exists ls, labels_ok ls /\ matches q query ls /\ drop (Z.to_nat off) (concat p) = encode ls ++ drop (Z.to_nat r) (concat p).
Proof.
  induction fuel as [|fuel IH]; intros q query p off r Hp Ho E Hr; [done|]. cbn [compare_labels] in E.
  destruct (_ || _) eqn:E0; [by injection E as <-|].
  destruct (get_at p off Hp Ho) as [[Hc _]|[Hc Hlt]]; [rewrite Hc in E0; lia|]. unfold is_byte in Hc. cbv zeta in E.
  destruct (Z.land _ _ =? _) eqn:Ept; [by injection E as <-|].
  destruct (compare_label _ _ _ _ _) as [[[query' off']|]|] eqn:El; [|by injection E as <-|done]. cbn [mbind option_bind] in E.
  destruct (compare_label_agrees p _ q query (off + 1) _ _ Hp ltac:(lia) El) as (l & Hl & Ha & -> & -> & Hd).
  assert (Hn : pbuf_try_get_at p off = size l) by (unfold size; lia).
  set (off' := off + 1 + _) in *. destruct (pbuf_try_get_at p off' <? 0) eqn:E1; [by injection E as <-|].
  assert (Hfirst : drop (Z.to_nat off) (concat p) = (size l :: l) ++ drop (Z.to_nat off') (concat p)).
  { rewrite (get_drop p off _ Ho Hn) by (apply size_nonneg). cbn [app]. by rewrite Hd. }
  assert (Hlp : pointer (size l) = false) by (unfold pointer; by rewrite <- Hn).
  destruct (negb (pbuf_try_get_at p off' =? 0)) eqn:E2.
  - destruct (IH q _ p off' r Hp ltac:(lia) E Hr) as (ls & (Hne & Hps & Htl) & Hm & Hds).
    destruct ls as [|l2 ls]; [done|]. exists (l :: l2 :: ls).
    assert (l2 <> []) as Hl2.
    { intros ->. unfold encode in Hds. rewrite blocks_cons in Hds. cbn [app] in Hds.
      rewrite (get_drop p off' _ ltac:(lia) eq_refl) in Hds by lia. injection Hds as Hz _. change (size []) with 0 in Hz. lia. }
    split; [|split; [split; [done|by rewrite Hl]|]].
    + split; [done|]. split; [by apply Forall_cons_2|by apply Forall_cons_2].
    + rewrite Hfirst, Hds. unfold encode. by rewrite !blocks_cons, <- !app_assoc.
  - destruct (off' =? 0xffff) eqn:E3; [by injection E as <-|]. injection E as <-. exists [l].
    split; [by split; [|split; [apply Forall_singleton|]]|]. split; [done|].
    rewrite Hfirst. unfold encode. rewrite blocks_cons. change (blocks []) with (@nil Z). rewrite app_nil_r, <- app_assoc. f_equal. cbn [app].
    rewrite (get_drop p off' 0) by lia. done.
Qed.

Lemma compare_label_complete p l : forall pre post q query,
  Forall is_byte l -> concat p = pre ++ l ++ post -> agrees q query l -> size pre + size l < 0xffff ->
  compare_label (length l) q query p (size pre) = Some (Some ((query + length l)%nat, size pre + size l)).
Proof.
  induction l as [|c l IH]; intros pre post q query Hb Hp Ha Hs; cbn [compare_label length].
  { change (size []) with 0. do 2 f_equal. f_equal; lia. }
  apply Forall_cons in Hb as [Hc Hb]. unfold is_byte in Hc. destruct Ha as [(c' & Eq & Hq) Ha]. rewrite size_cons in Hs.
  pose proof (size_nonneg l). cbn [app] in Hp. rewrite (get_mid p pre c _ _ Hp eq_refl). cbv zeta.
  replace (c <? 0) with false by lia. unfold query_at. rewrite Eq. cbn [mbind option_bind]. rewrite u8_small, Hq, Z.eqb_refl by lia. cbn [negb].
  replace (size pre =? 0xffff) with false by lia.
  replace (size pre + 1) with (size (pre ++ [c])) by (rewrite size_app; by change (size [c]) with 1).
  rewrite (IH (pre ++ [c]) post); [|done|by rewrite <- app_assoc|done|rewrite size_app; change (size [c]) with 1; lia].
  rewrite size_app, !size_cons. change (size []) with 0. do 2 f_equal. f_equal; lia.
Qed.

(** Every name whose labels agree is accepted. *)
Lemma compare_labels_complete p ls : forall fuel pre post q query,
  wf_chain p -> concat p = pre ++ encode ls ++ post -> labels_ok ls -> matches q query ls ->
  size pre + size (encode ls) < 0xffff -> (length ls <= fuel)%nat ->
  compare_labels fuel q query p (size pre) = Some (size pre + size (encode ls)).
Proof.
  induction ls as [|l ls IH]; intros fuel pre post q query Hw Hp (Hne & Hpt & Htl) Hm Hs Hf; [done|].
  destruct fuel as [|fuel]; cbn [length] in Hf; [lia|]. cbn [compare_labels].
  unfold encode in Hp, Hs |- *. rewrite blocks_cons in Hp, Hs |- *. rewrite <- !app_assoc in Hp. cbn [app] in Hp.
  rewrite !size_app, size_cons in Hs |- *. pose proof (size_nonneg l). pose proof (size_nonneg pre). pose proof (size_nonneg (blocks ls)).
  change (size [0]) with 1 in Hs |- *. apply Forall_cons in Hpt as [Hpt Hpts]. destruct Hm as [Ha Hm].
  pose proof (chain_bytes p Hw) as Hb. rewrite Hp in Hb. apply Forall_app in Hb as [_ Hb]. apply Forall_cons in Hb as [_ Hb].
  apply Forall_app in Hb as [Hb _].
  rewrite (get_mid p pre _ _ _ Hp eq_refl). replace (size l <? 0) with false by lia.
  replace (size pre =? 0xffff) with false by lia. cbn [orb]. cbv zeta. unfold pointer in Hpt. rewrite Hpt.
  replace (size pre + 1) with (size (pre ++ [size l])) by (rewrite size_app; by change (size [size l]) with 1).
  rewrite to_nat_size, (compare_label_complete p l (pre ++ [size l]) (blocks ls ++ [0] ++ post)); [|done|by rewrite Hp, <- app_assoc|done|].
  2:{ rewrite size_app. change (size [size l]) with 1. lia. }
  cbn [mbind option_bind].
  assert (Hat : concat p = ((pre ++ [size l]) ++ l) ++ blocks ls ++ [0] ++ post) by (by rewrite Hp, <- !app_assoc).
  replace (size (pre ++ [size l]) + size l) with (size ((pre ++ [size l]) ++ l)) by (by rewrite size_app).
  assert (Hsz : size ((pre ++ [size l]) ++ l) = size pre + 1 + size l) by (rewrite !size_app; by change (size [size l]) with 1).
  destruct ls as [|l2 ls].
  - change (blocks []) with (@nil Z) in *. cbn [app] in Hat. rewrite (get_mid p _ 0 _ _ Hat eq_refl).
    change (size []) with 0. cbn [Z.ltb Z.compare Z.eqb negb]. rewrite Hsz. replace (_ =? 0xffff) with false by lia. f_equal. lia.
  - assert (Hat2 : concat p = ((pre ++ [size l]) ++ l) ++ size l2 :: (l2 ++ blocks ls) ++ [0] ++ post) by exact Hat.
    rewrite (get_mid p _ (size l2) _ _ Hat2 eq_refl).
    cbn [tail] in Htl. apply Forall_cons in Htl as [Hl2 Htl]. assert (Hsz2 : 1 <= size l2).
    { destruct l2 as [|c2 l2]; [done|]. rewrite size_cons. pose proof (size_nonneg l2). lia. }
    replace (size l2 <? 0) with false by lia. replace (size l2 =? 0) with false by lia. cbn [negb].
    rewrite (IH fuel _ post); [|done|by rewrite Hat; unfold encode; rewrite <- (app_assoc (blocks (l2 :: ls)))|by split; [|split]|done| |cbn [length] in *; lia].
    + rewrite Hsz. unfold encode. rewrite size_app. change (size [0]) with 1. f_equal. lia.
    + rewrite Hsz. unfold encode. rewrite size_app. change (size [0]) with 1. lia.
Qed.

Lemma blocks_length ls : (length ls <= length (blocks ls))%nat.
Proof. induction ls as [|l ls IH]; [done|]. rewrite blocks_cons, length_app. cbn [length]. lia. Qed.

Lemma compare_name_sound q p off r : wf_chain p -> 0 <= off -> dns_compare_name q p off = Some r -> r <> 0xffff ->
  exists ls, labels_ok ls /\ matches q 0 ls /\ drop (Z.to_nat off) (concat p) = encode ls ++ drop (Z.to_nat r) (concat p).
Proof. intros Hp Ho E Hr. by eapply compare_labels_sound. Qed.

Lemma compare_name_complete q p pre ls post : wf_chain p -> concat p = pre ++ encode ls ++ post -> labels_ok ls -> matches q 0 ls ->
  size pre + size (encode ls) < 0xffff -> dns_compare_name q p (size pre) = Some (size pre + size (encode ls)).
Proof.
  intros Hw Hp Hl Hm Hs. unfold dns_compare_name. eapply compare_labels_complete; try done. rewrite Hp. unfold encode.
  rewrite !length_app. pose proof (blocks_length ls). lia.
Qed.

(** ** Skipping *)

Lemma skip_labels_sound fuel : forall p off r,
  wf_chain p -> 0 <= off < 65536 -> skip_labels fuel p off = Some r -> r <> 0xffff -> r <= tot_len p ->
  exists nm, skipped nm /\ drop (Z.to_nat off) (concat p) = nm ++ drop (Z.to_nat r) (concat p).
Proof.
  induction fuel as [|fuel IH]; intros p off r Hp Ho E Hr Hrt; [done|]. cbn [skip_labels] in E. cbv zeta in E.
  pose proof (chain_size p Hp) as Hsz.
  destruct (get_at p off Hp ltac:(lia)) as [[Hc _]|[Hc Hlt]]; [rewrite Hc in E; by injection E as <-|]. unfold is_byte in Hc.
  rewrite (u16_small (off + 1)) in E by lia.
  destruct ((pbuf_try_get_at p off <? 0) || (off + 1 =? 0)) eqn:E0; [by injection E as <-|].
  pose proof (get_drop p off _ ltac:(lia) eq_refl ltac:(lia)) as Hfirst.
  destruct (Z.land _ _ =? _) eqn:Ept.
  { destruct (off + 1 =? 0xffff) eqn:E1; [by injection E as <-|]. injection E as <-.
    destruct (get_at p (off + 1) Hp ltac:(lia)) as [[_ Hc2]|[Hc2 _]]; [lia|]. unfold is_byte in Hc2.
    exists [pbuf_try_get_at p off; pbuf_try_get_at p (off + 1)]. split; [by constructor|]. rewrite Hfirst. cbn [app]. f_equal.
    by rewrite (get_drop p (off + 1) _ ltac:(lia) eq_refl) by lia. }
  destruct (tot_len p <=? _) eqn:El; [by injection E as <-|]. rewrite u16_small in E by lia.
  set (off' := off + 1 + _) in *.
  set (l := take (Z.to_nat (pbuf_try_get_at p off)) (drop (Z.to_nat (off + 1)) (concat p))).
  assert (Hl : size l = pbuf_try_get_at p off).
  { unfold l, size. rewrite length_take, length_drop. rewrite tot_len_length in *. lia. }
  assert (Hd : drop (Z.to_nat off) (concat p) = (size l :: l) ++ drop (Z.to_nat off') (concat p)).
  { rewrite Hfirst, Hl. cbn [app]. f_equal. replace (Z.to_nat off') with (Z.to_nat (off + 1) + Z.to_nat (pbuf_try_get_at p off))%nat by lia.
    rewrite <- drop_drop. unfold l. by rewrite take_drop. }
  assert (Hlp : pointer (size l) = false) by (unfold pointer; by rewrite Hl).
  destruct (get_at p off' Hp ltac:(lia)) as [[Hc' _]|[Hc' Hlt']]; [rewrite Hc' in E; by injection E as <-|]. unfold is_byte in Hc'.
  destruct (pbuf_try_get_at p off' <? 0) eqn:E2; [lia|]. pose proof (get_drop p off' _ ltac:(lia) eq_refl ltac:(lia)) as Hnext.
  destruct (negb (pbuf_try_get_at p off' =? 0)) eqn:E3.
  - destruct (IH p off' r Hp ltac:(lia) E Hr Hrt) as (nm & Hnm & Hdn). exists (size l :: l ++ nm). split.
    + constructor; [done..|]. destruct nm as [|n nm]; [by inversion Hnm|]. rewrite Hnext in Hdn. cbn [app] in Hdn.
      injection Hdn as <- _. cbn. lia.
    + by rewrite Hd, Hdn, app_assoc.
  - destruct (off' =? 0xffff) eqn:E4; [by injection E as <-|]. injection E as <-. exists (size l :: l ++ [0]).
    split; [by constructor|]. rewrite Hd, Hnext. replace (pbuf_try_get_at p off') with 0 by lia. cbn [app]. f_equal. by rewrite <- app_assoc.
Qed.

Lemma skip_labels_complete p nm : skipped nm -> forall fuel pre post,
  wf_chain p -> concat p = pre ++ nm ++ post -> size pre + size nm < 0xffff -> (length nm <= fuel)%nat ->
  skip_labels fuel p (size pre) = Some (size pre + size nm).
Proof.
  induction 1 as [b1 b2 Hpt|l Hpt|l nm Hpt Hnm IH Hhd]; intros [|fuel] pre post Hw Hp Hs Hf; cbn [length] in Hf; try lia;
    cbn [skip_labels app] in *; rewrite !size_cons in Hs |- *; pose proof (size_nonneg pre); cbv zeta;
    (assert (Htot : tot_len p = size (concat p)) by done); rewrite Hp, !size_app, size_cons in Htot; pose proof (size_nonneg post).
  - change (size []) with 0 in *. pose proof (chain_bytes p Hw) as Hb. rewrite Hp in Hb. apply Forall_app in Hb as [_ Hb].
    apply Forall_cons in Hb as [Hb1 _]. unfold is_byte in Hb1.
    rewrite (get_mid p pre b1 _ _ Hp eq_refl), u16_small by lia.
    replace (b1 <? 0) with false by lia. replace (size pre + 1 =? 0) with false by lia. cbn [orb].
    unfold pointer in Hpt. rewrite Hpt. replace (_ =? 0xffff) with false by lia. f_equal. lia.
  - rewrite !size_app in Hs |- *; rewrite ?size_app in Htot. change (size [0]) with 1 in *. pose proof (size_nonneg l).
    rewrite (get_mid p pre (size l) _ _ Hp eq_refl), u16_small by lia.
    replace (size l <? 0) with false by lia. replace (size pre + 1 =? 0) with false by lia. cbn [orb].
    unfold pointer in Hpt. rewrite Hpt. replace (tot_len p <=? _) with false by lia. rewrite u16_small by lia.
    rewrite (get_mid p (pre ++ size l :: l) 0 post); [|by rewrite Hp, <- !app_assoc|rewrite size_app, size_cons; lia].
    cbn [Z.ltb Z.compare Z.eqb negb]. replace (_ =? 0xffff) with false by lia. f_equal. lia.
  - rewrite !size_app in Hs |- *; rewrite ?size_app in Htot. pose proof (size_nonneg l). pose proof (size_nonneg nm).
    destruct nm as [|n nm]; [by inversion Hnm|]. cbn [head default from_option id] in Hhd.
    rewrite (get_mid p pre (size l) _ _ Hp eq_refl), u16_small by lia.
    replace (size l <? 0) with false by lia. replace (size pre + 1 =? 0) with false by lia. cbn [orb].
    rewrite size_cons in *. pose proof (size_nonneg nm).
    unfold pointer in Hpt. rewrite Hpt. replace (tot_len p <=? _) with false by lia. rewrite u16_small by lia.
    assert (Hp2 : concat p = (pre ++ size l :: l) ++ (n :: nm) ++ post) by (by rewrite Hp, <- !app_assoc).
    assert (Hsz : size pre + 1 + size l = size (pre ++ size l :: l)) by (rewrite size_app, size_cons; lia).
    rewrite Hsz. rewrite (get_mid p _ n _ _ Hp2 eq_refl).
    pose proof (chain_bytes p Hw) as Hb. rewrite Hp2 in Hb. apply Forall_app in Hb as [_ Hb].
    apply Forall_cons in Hb as [Hb1 _]. unfold is_byte in Hb1. replace (n <? 0) with false by lia. replace (n =? 0) with false by lia. cbn [negb].
    rewrite (IH fuel _ post); [|done|done|rewrite <- Hsz; lia|cbn [length] in *; rewrite length_app in Hf; cbn [length] in Hf; lia].
    rewrite <- Hsz. f_equal. lia.
Qed.

Lemma skip_name_sound p off r : wf_chain p -> 0 <= off < 65536 -> dns_skip_name p off = Some r -> r <> 0xffff -> r <= tot_len p ->
  exists nm, skipped nm /\ drop (Z.to_nat off) (concat p) = nm ++ drop (Z.to_nat r) (concat p).
Proof. apply skip_labels_sound. Qed.

Lemma skip_name_complete p pre nm post : wf_chain p -> concat p = pre ++ nm ++ post -> skipped nm -> size pre + size nm < 0xffff ->
  dns_skip_name p (size pre) = Some (size pre + size nm).
Proof.
  intros Hw Hp Hnm Hs. eapply skip_labels_complete; try done. rewrite Hp, !length_app. lia.
Qed.
End Match.
End DnsMatch.
