(* ===== verification/DnsRecords.v ===== *)
(** The DNS resolver of lwIP: the messages. What is read of a reply is what its question
    and its records say, and what is not of their form is not taken for an answer. *)

From stdpp Require Import gmap.
From S2P Require Export DnsMatch.
Export DnsMatch.
Open Scope Z_scope.

Module DnsRecords.

(** A resource record, with its name as it is written. *)
Record rr := mkRR { rr_name : list Z; rr_type : Z; rr_cls : Z; rr_ttl : Z; rr_data : list Z }.

Definition rr_head (r : rr) : list Z := be16 (rr_type r) ++ be16 (rr_cls r) ++ be32 (rr_ttl r) ++ be16 (size (rr_data r)).
Definition rr_bytes (r : rr) : list Z := rr_name r ++ rr_head r ++ rr_data r.

Record wf_rr (r : rr) : Prop := {
  rr_skipped : skipped (rr_name r);
  rr_type_ok : 0 <= rr_type r < 2 ^ 16;
  rr_cls_ok : 0 <= rr_cls r < 2 ^ 16;
  rr_ttl_ok : 0 <= rr_ttl r < 2 ^ 32;
  rr_data_ok : size (rr_data r) < 2 ^ 16
}.

Lemma be16_of_be bs : Forall is_byte bs -> length bs = 2%nat -> be16 (of_be bs) = bs.
Proof.
  intros Hb Hl. destruct bs as [|a [|b [|]]]; try done. rewrite !Forall_cons in Hb. destruct Hb as (Ha & Hb & _). unfold is_byte in *.
  rewrite be16_bytes; unfold of_be; cbn [foldl]; [|change (2 ^ 16) with 65536; lia]. f_equal; [|f_equal]; lia_mod.
Qed.

Lemma be32_of_be bs : Forall is_byte bs -> length bs = 4%nat -> be32 (of_be bs) = bs.
Proof.
  intros Hb Hl. destruct bs as [|a [|b [|c [|d [|]]]]]; try done. rewrite !Forall_cons in Hb. destruct Hb as (Ha & Hb & Hc & Hd & _).
  unfold is_byte in *. rewrite be32_split; unfold of_be; cbn [foldl]; [|change (2 ^ 32) with 4294967296; lia].
  change (2 ^ 24) with 16777216. change (2 ^ 16) with 65536. change (2 ^ 8) with 256.
  f_equal; [|f_equal; [|f_equal; [|f_equal]]]; lia_mod.
Qed.

(** Two numbers of 16 bits in a list of bytes. *)
Lemma of_be_two bs : Forall is_byte bs -> length bs = 2%nat -> 0 <= of_be bs < 2 ^ 16.
Proof. intros Hb Hl. pose proof (of_be_range bs Hb) as H. unfold size in H. rewrite Hl in H. exact H. Qed.

Lemma rr_head_size r : size (rr_head r) = 10.
Proof. done. Qed.

(** What the head of a record says. *)
Lemma rr_head_fields r : wf_rr r ->
  of_be (slice (rr_head r) 0 2) = rr_type r /\ of_be (slice (rr_head r) 2 4) = rr_cls r /\
  of_be (slice (rr_head r) 4 8) = rr_ttl r /\ of_be (slice (rr_head r) 8 10) = size (rr_data r).
Proof.
  intros [_ Ht Hc Hl Hd]. pose proof (size_nonneg (rr_data r)). split_and!.
  - change (slice (rr_head r) 0 2) with (be16 (rr_type r)). by apply of_be_be16.
  - change (slice (rr_head r) 2 4) with (be16 (rr_cls r)). by apply of_be_be16.
  - change (slice (rr_head r) 4 8) with (be32 (rr_ttl r)). by apply of_be_be32.
  - change (slice (rr_head r) 8 10) with (be16 (size (rr_data r))). by apply of_be_be16.
Qed.

(** Ten bytes are the head of a record. *)
Lemma head_of_bytes ans nm data : Forall is_byte ans -> size ans = 10 -> size data = of_be (slice ans 8 10) -> skipped nm ->
  let r := mkRR nm (of_be (slice ans 0 2)) (of_be (slice ans 2 4)) (of_be (slice ans 4 8)) data in
  rr_head r = ans /\ wf_rr r.
Proof.
  intros Hb Hs Hd Hnm r.
  assert (Hsl : forall a b, 0 <= a <= b -> b <= 10 -> Forall is_byte (slice ans a b) /\ length (slice ans a b) = Z.to_nat (b - a)).
  { intros a b Ha Hab. split; [by apply Forall_take, Forall_drop|]. unfold slice. rewrite length_take, length_drop. unfold size in Hs. lia. }
  destruct (Hsl 0 2 ltac:(lia) ltac:(lia)) as [B0 L0]. destruct (Hsl 2 4 ltac:(lia) ltac:(lia)) as [B2 L2].
  destruct (Hsl 4 8 ltac:(lia) ltac:(lia)) as [B4 L4]. destruct (Hsl 8 10 ltac:(lia) ltac:(lia)) as [B8 L8].
  split.
  - unfold rr_head, r. cbn [rr_type rr_cls rr_ttl rr_data]. rewrite Hd, !be16_of_be, be32_of_be by done.
    unfold size in Hs. do 10 (destruct ans as [|? ans]; [done|]). destruct ans; [done|]. cbn [length] in Hs. lia.
  - split; cbn [r rr_name rr_type rr_cls rr_ttl rr_data]; [done|exact (of_be_two _ B0 L0)|exact (of_be_two _ B2 L2)| |].
    + pose proof (of_be_32 _ B4) as H. apply H. unfold size. rewrite L4. lia.
    + rewrite Hd. exact (proj2 (of_be_two _ B8 L8)).
Qed.

Section Records.
Context {Opt : DnsOptions} {Pbufs : DnsPbufs} {Text : DnsText} {World : DnsWorld}.

(** The address that a record gives to the query of an entry. *)
Definition address_of (e : dns_table_entry) (r : rr) : option ip_addr :=
  if (rr_cls r =? DNS_RRCLASS_IN) && holds_v4 e (rr_type r) (size (rr_data r)) then Some (V4 (of_be (rr_data r)))
  else if (rr_cls r =? DNS_RRCLASS_IN) && holds_v6 e (rr_type r) (size (rr_data r)) then Some (V6 (rr_data r))
  else None.

(** The first record with an address. *)
Fixpoint first_answer (e : dns_table_entry) (rs : list rr) : verdict :=
  match rs with
  | [] => NoAnswer
  | r :: rs => match address_of e r with Some a => Answer a (rr_ttl r) | None => first_answer e rs end
  end.

Lemma copy_mid p pre mid post i n : concat p = pre ++ mid ++ post -> i = size pre -> n = size mid -> pbuf_copy_partial p n i = mid.
Proof.
  intros Hp -> ->. rewrite copy_partial_data by apply size_nonneg. rewrite Hp, !to_nat_size, drop_app_length, take_app_length. done.
Qed.

Lemma copy_drop p n i : 0 <= n -> 0 <= i -> size (pbuf_copy_partial p n i) = n ->
  drop (Z.to_nat i) (concat p) = pbuf_copy_partial p n i ++ drop (Z.to_nat (i + n)) (concat p) /\ (n = 0 \/ i + n <= tot_len p).
Proof.
  intros Hn Hi Hs. pose proof (copied p n i Hn Hi) as Hc. rewrite copy_partial_data by done.
  replace (Z.to_nat (i + n)) with (Z.to_nat i + Z.to_nat n)%nat by lia. rewrite <- drop_drop, take_drop. split; [done|lia].
Qed.

(** The records of a message are read. *)
Lemma read_answers_complete e rs : forall fuel p pre post,
  wf_chain p -> concat p = pre ++ concat (rr_bytes <$> rs) ++ post -> Forall wf_rr rs -> (length rs < fuel)%nat ->
  read_answers fuel e p (Z.of_nat (length rs)) (size pre) = Some (first_answer e rs).
Proof.
  induction rs as [|r rs IH]; intros [|fuel] p pre post Hw Hp Hrs Hf; cbn [length] in Hf; try lia; cbn [read_answers]; [done|].
  apply Forall_cons in Hrs as [Hr Hrs]. cbn [fmap list_fmap concat length] in *. unfold rr_bytes in Hp at 1. rewrite <- !app_assoc in Hp.
  pose proof (chain_size p Hw) as Htot. pose proof (size_nonneg pre). unfold tot_len in Htot. rewrite Hp, !size_app in Htot.
  pose proof (size_nonneg (rr_name r)). pose proof (size_nonneg (rr_data r)). pose proof (size_nonneg post).
  pose proof (size_nonneg (concat (rr_bytes <$> rs))). pose proof (rr_head_size r) as Hhd.
  assert (Hlt : size pre < tot_len p) by (unfold tot_len; rewrite Hp, !size_app; lia).
  replace (0 <? _) with true by lia. replace (size pre <? _) with true by lia. cbn [andb].
  rewrite (skip_name_complete p pre (rr_name r) _ Hw Hp (rr_skipped r Hr)) by lia. cbn [mbind option_bind].
  replace (_ =? 0xffff) with false by lia. cbv zeta.
  assert (Hp1 : concat p = (pre ++ rr_name r) ++ rr_head r ++ rr_data r ++ concat (rr_bytes <$> rs) ++ post) by (by rewrite Hp, <- !app_assoc).
  assert (Hp2 : concat p = ((pre ++ rr_name r) ++ rr_head r) ++ rr_data r ++ concat (rr_bytes <$> rs) ++ post) by (by rewrite Hp, <- !app_assoc).
  rewrite (copy_mid p _ (rr_head r) _ (size pre + size (rr_name r)) SIZEOF_DNS_ANSWER Hp1) by (rewrite ?Hhd, ?size_app; lia).
  rewrite Hhd. cbn [Z.eqb Pos.eqb negb]. replace (0xffff <? _) with false by lia.
  destruct (rr_head_fields r Hr) as (-> & -> & -> & ->). rewrite u16_small by (change (2 ^ 16) with 65536; lia).
  assert (Hdata : forall n, n = size (rr_data r) -> read_addr p (size pre + size (rr_name r) + 10) n = Some (rr_data r)).
  { intros n ->. unfold read_addr. rewrite (copy_mid p _ (rr_data r) _ _ _ Hp2) by (rewrite ?size_app; lia). by rewrite Z.eqb_refl. }
  cbn [first_answer]. unfold address_of.
  destruct (_ && holds_v4 e _ _) eqn:E4; [rewrite Hdata; [done|unfold holds_v4 in E4; lia]|].
  destruct (_ && holds_v6 e _ _) eqn:E6; [rewrite Hdata; [done|unfold holds_v6 in E6; lia]|].
  replace (0xffff <? _) with false by lia. rewrite u16_small by (change (2 ^ 16) with 65536; lia).
  replace (Z.of_nat (S (length rs)) - 1) with (Z.of_nat (length rs)) by lia.
  replace (size pre + size (rr_name r) + 10 + size (rr_data r)) with (size (((pre ++ rr_name r) ++ rr_head r) ++ rr_data r)) by (rewrite !size_app; lia).
  apply (IH fuel p _ post); [done|by rewrite Hp, <- !app_assoc|done|lia].
Qed.

Lemma read_addr_sound p i n bs : 0 <= i -> 0 < n -> read_addr p i n = Some bs ->
  size bs = n /\ drop (Z.to_nat i) (concat p) = bs ++ drop (Z.to_nat (i + n)) (concat p) /\ i + n <= tot_len p.
Proof.
  intros Hi Hn E. unfold read_addr in E. destruct (size _ =? n) eqn:Es; [|done]. injection E as <-.
  destruct (copy_drop p n i ltac:(lia) Hi ltac:(lia)) as [Hd Hr]. split_and!; [lia|done|lia].
Qed.

(** An answer of any message is that of its first record with an address. *)
Lemma read_answers_sound e fuel : forall p n off a t,
  wf_chain p -> 0 <= off < 65536 -> read_answers fuel e p n off = Some (Answer a t) ->
  exists rs r rest, Forall wf_rr rs /\ Forall (fun r => address_of e r = None) rs /\ wf_rr r /\ address_of e r = Some a /\ rr_ttl r = t /\
    Z.of_nat (length rs) < n /\ drop (Z.to_nat off) (concat p) = concat (rr_bytes <$> rs) ++ rr_bytes r ++ rest.
Proof.
  induction fuel as [|fuel IH]; intros p n off a t Hw Ho E; [done|]. cbn [read_answers] in E.
  destruct ((0 <? n) && _) eqn:E0; [|done]. pose proof (chain_size p Hw) as Htot.
  destruct (skip_name_total p off Hw Ho) as (i & Ei & Hir). rewrite Ei in E. cbn [mbind option_bind] in E.
  destruct (i =? 0xffff) eqn:Ef; [done|]. cbv zeta in E. destruct (negb (_ =? _)) eqn:Es; [done|].
  destruct (0xffff <? i + 10) eqn:E1; [done|]. rewrite u16_small in E by (change (2 ^ 16) with 65536; lia).
  destruct (copy_drop p 10 i ltac:(lia) ltac:(lia) ltac:(lia)) as [Hd [|Hi10]]; [done|].
  destruct (skip_name_sound p off i Hw Ho Ei ltac:(lia) ltac:(lia)) as (nm & Hnm & Hoff).
  pose proof (copy_bytes p 10 i Hw ltac:(lia) ltac:(lia)) as Hb. set (ans := pbuf_copy_partial p 10 i) in *.
  rewrite Hd in Hoff. clear Hd.
  assert (Hrec : forall data rest, size data = of_be (slice ans 8 10) -> drop (Z.to_nat (i + 10)) (concat p) = data ++ rest ->
    exists r, wf_rr r /\ rr_type r = of_be (slice ans 0 2) /\ rr_cls r = of_be (slice ans 2 4) /\ rr_ttl r = of_be (slice ans 4 8) /\
      rr_data r = data /\ drop (Z.to_nat off) (concat p) = rr_bytes r ++ rest).
  { intros data rest Hs Hrest. destruct (head_of_bytes ans nm data Hb ltac:(lia) Hs Hnm) as [Hh Hr]. eexists. split; [exact Hr|].
    split_and!; try done. unfold rr_bytes. rewrite Hh, Hoff, Hrest. cbn [rr_name rr_data]. by rewrite <- !app_assoc. }
  assert (Hfound : forall r rest, wf_rr r -> address_of e r = Some a -> rr_ttl r = t ->
    drop (Z.to_nat off) (concat p) = rr_bytes r ++ rest ->
    exists rs r rest, Forall wf_rr rs /\ Forall (fun r => address_of e r = None) rs /\ wf_rr r /\ address_of e r = Some a /\ rr_ttl r = t /\
      Z.of_nat (length rs) < n /\ drop (Z.to_nat off) (concat p) = concat (rr_bytes <$> rs) ++ rr_bytes r ++ rest).
  { intros r rest Hr Ha Ht Hdr. exists [], r, rest. split_and!; try done. cbn [length]. lia. }
  destruct ((of_be (slice ans 2 4) =? _) && holds_v4 e _ _) eqn:E4.
  { destruct (read_addr p _ 4) as [bs|] eqn:Er; [|done]. destruct (read_addr_sound p (i + 10) 4 bs ltac:(lia) ltac:(lia) Er) as (Hs & Hd & _).
    assert (H4 : of_be (slice ans 8 10) = 4) by (unfold holds_v4 in E4; lia).
    destruct (Hrec bs _ ltac:(lia) Hd) as (r & Hr & Hty & Hcl & Htt & Hda & Hdr). injection E as <- <-.
    eapply (Hfound r); [exact Hr| |exact Htt|exact Hdr]. unfold address_of. rewrite Hty, Hcl, Hda, Hs. rewrite H4 in E4. by rewrite E4. }
  destruct ((of_be (slice ans 2 4) =? _) && holds_v6 e _ _) eqn:E6.
  { destruct (read_addr p _ 16) as [bs|] eqn:Er; [|done]. destruct (read_addr_sound p (i + 10) 16 bs ltac:(lia) ltac:(lia) Er) as (Hs & Hd & _).
    assert (H6 : of_be (slice ans 8 10) = 16) by (unfold holds_v6 in E6; lia).
    destruct (Hrec bs _ ltac:(lia) Hd) as (r & Hr & Hty & Hcl & Htt & Hda & Hdr). injection E as <- <-.
    eapply (Hfound r); [exact Hr| |exact Htt|exact Hdr]. unfold address_of. rewrite Hty, Hcl, Hda, Hs. rewrite H6 in E4, E6. by rewrite E4, E6. }
  destruct (0xffff <? i + 10 + of_be (slice ans 8 10)) eqn:E2; [done|].
  pose proof (slice_number ans 8 10 Hb ltac:(lia) ltac:(lia)) as Hlen.
  rewrite u16_small in E by (change (2 ^ 16) with 65536; lia).
  set (len := of_be (slice ans 8 10)) in *.
  assert (Hin : i + 10 + len < tot_len p).
  { destruct fuel as [|f]; [done|]. cbn [read_answers] in E. destruct ((0 <? n - 1) && _) eqn:E3; [lia|done]. }
  destruct (IH p (n - 1) (i + 10 + len) a t Hw ltac:(lia) E) as (rs & r & rest & Hrs & Hno & Hr & Ha & Ht & Hn & Hd).
  set (data := take (Z.to_nat len) (drop (Z.to_nat (i + 10)) (concat p))).
  assert (Hsz : size data = len).
  { unfold data, size. rewrite length_take, length_drop. rewrite tot_len_length in Hin. lia. }
  destruct (Hrec data (drop (Z.to_nat (i + 10 + len)) (concat p)) Hsz) as (r0 & Hr0 & Hty & Hcl & _ & Hda & Hdr).
  { replace (Z.to_nat (i + 10 + len)) with (Z.to_nat (i + 10) + Z.to_nat len)%nat by lia. rewrite <- drop_drop. unfold data.
    by rewrite take_drop. }
  exists (r0 :: rs), r, rest. split_and!; try done.
  - by apply Forall_cons_2.
  - apply Forall_cons_2; [|done]. unfold address_of. by rewrite Hty, Hcl, Hda, Hsz, E4, E6.
  - cbn [length]. lia.
  - rewrite Hdr, Hd. cbn [fmap list_fmap concat]. by rewrite <- !app_assoc.
Qed.
End Records.
End DnsRecords.
