(* ===== verification/DnsReply.v ===== *)
(** The DNS resolver of lwIP: a reply as a whole, and the query it repeats. *)

From stdpp Require Import gmap.
From S2P Require Export DnsRecords.
Export DnsRecords.
Open Scope Z_scope.

Module DnsReply.

(** A reply with one question: its identifier and flags, the number of answers that it
    claims, the other two numbers, the question, answers, and what follows. *)
Record reply := mkReply {
  r_id : Z; r_flags1 : Z; r_flags2 : Z; r_count : Z; r_other : list Z; r_labels : list (list Z); r_type : Z;
  r_answers : list rr; r_rest : list Z
}.

Definition reply_head (r : reply) : list Z :=
  be16 (r_id r) ++ [r_flags1 r; r_flags2 r] ++ be16 1 ++ be16 (r_count r) ++ r_other r.
Definition question_bytes (ls : list (list Z)) (type : Z) : list Z := encode ls ++ be16 type ++ be16 DNS_RRCLASS_IN.
Definition reply_bytes (r : reply) : list Z :=
  reply_head r ++ question_bytes (r_labels r) (r_type r) ++ concat (rr_bytes <$> r_answers r) ++ r_rest r.

(** The fields of the header have their sizes, and the question a name. *)
Record wf_reply (r : reply) : Prop := {
  reply_id : 0 <= r_id r < 2 ^ 16;
  reply_flags : is_byte (r_flags1 r) /\ is_byte (r_flags2 r);
  reply_count : 0 <= r_count r < 2 ^ 16;
  reply_other : size (r_other r) = 4;
  reply_labels : labels_ok (r_labels r);
  reply_answers : Forall wf_rr (r_answers r)
}.

Definition is_response (r : reply) : Prop := Z.land (r_flags1 r) DNS_FLAG1_RESPONSE <> 0.
Definition is_error (r : reply) : Prop := Z.land (r_flags2 r) DNS_FLAG2_ERR_MASK <> 0.

(** The type of an address, and its bytes. *)
Definition rrtype (a : ip_addr) : Z := if is_v6 a then DNS_RRTYPE_AAAA else DNS_RRTYPE_A.
Definition addr_bytes (a : ip_addr) : list Z := match a with V4 x => be32 x | V6 l => l end.
Definition wf_addr (a : ip_addr) : Prop :=
  match a with V4 x => 0 <= x < 2 ^ 32 | V6 l => size l = 16 /\ Forall is_byte l end.

(** A record that gives an address. *)
Definition gives (r : rr) (a : ip_addr) : Prop := rr_cls r = DNS_RRCLASS_IN /\ rr_type r = rrtype a /\ rr_data r = addr_bytes a /\ wf_addr a.

Lemma addr_bytes_size a : wf_addr a -> size (addr_bytes a) = if is_v6 a then 16 else 4.
Proof. destruct a as [x|l]; [done|]. by intros [Hs _]. Qed.

Lemma reply_head_size r : wf_reply r -> size (reply_head r) = 12.
Proof. intros Hr. unfold reply_head. rewrite !size_app, (reply_other r Hr). done. Qed.

Section Reply.
Context {Opt : DnsOptions} {Pbufs : DnsPbufs} {Text : DnsText} {World : DnsWorld}.

(** A reply says that the host name in the array [q] has the address [a]. *)
Definition says (p : chain) (q : list Z) (id : Z) (a : ip_addr) : Prop :=
  exists r rs last, concat p = reply_bytes r /\ wf_reply r /\ is_response r /\ ~ is_error r /\ r_id r = id /\
    matches q 0 (r_labels r) /\ r_type r = rrtype a /\ r_answers r = rs ++ [last] /\ gives last a /\ Z.of_nat (length rs) < r_count r.

(** ** The header *)

Lemma reply_header p r : concat p = reply_bytes r -> wf_reply r ->
  exists hdr, pbuf_copy_partial p SIZEOF_DNS_HDR 0 = hdr /\ size hdr = 12 /\ of_be (slice hdr 0 2) = r_id r /\
    load hdr 2 = Some (r_flags1 r) /\ load hdr 3 = Some (r_flags2 r) /\ of_be (slice hdr 4 6) = 1 /\ of_be (slice hdr 6 8) = r_count r.
Proof.
  intros Hp Hr. exists (reply_head r).
  rewrite (copy_mid p [] (reply_head r) (question_bytes (r_labels r) (r_type r) ++ concat (rr_bytes <$> r_answers r) ++ r_rest r));
    [|done|done|by rewrite reply_head_size].
  split; [done|]. split; [by apply reply_head_size|]. destruct Hr as [Hid _ Hc _ _ _].
  change (slice (reply_head r) 0 2) with (be16 (r_id r)). change (slice (reply_head r) 4 6) with (be16 1).
  change (slice (reply_head r) 6 8) with (be16 (r_count r)). by rewrite !of_be_be16.
Qed.

(** Any twelve bytes are a header. *)
Lemma header_bytes hdr : Forall is_byte hdr -> size hdr = 12 ->
  exists f1 f2, load hdr 2 = Some f1 /\ load hdr 3 = Some f2 /\ is_byte f1 /\ is_byte f2 /\ size (slice hdr 8 12) = 4 /\
    hdr = be16 (of_be (slice hdr 0 2)) ++ [f1; f2] ++ be16 (of_be (slice hdr 4 6)) ++ be16 (of_be (slice hdr 6 8)) ++ slice hdr 8 12.
Proof.
  intros Hb Hs. unfold size in Hs. do 12 (destruct hdr as [|? hdr]; [done|]). destruct hdr; [|cbn [length] in Hs; lia].
  rewrite !Forall_cons in Hb. destruct_and!. eexists _, _. do 2 (split; [reflexivity|]). split_and!; try done.
  repeat match goal with |- context [slice ?l ?a ?b] => let v := eval cbv in (slice l a b) in change (slice l a b) with v end.
  rewrite !be16_of_be; done || (by repeat apply Forall_cons_2).
Qed.

(** ** The question *)

Lemma of_be_small_type (b : bool) : of_be (be16 (if b then DNS_RRTYPE_AAAA else DNS_RRTYPE_A)) = if b then DNS_RRTYPE_AAAA else DNS_RRTYPE_A.
Proof. by destruct b. Qed.

Lemma our_question_complete e p pre ls post : wf_chain p -> size pre = 12 ->
  concat p = pre ++ question_bytes ls (query_type e) ++ post -> labels_ok ls -> matches (name e) 0 ls ->
  our_question e p = Some (Some (size (pre ++ question_bytes ls (query_type e)))).
Proof.
  intros Hw Hpre Hp Hls Hm. unfold our_question. unfold question_bytes in Hp |- *. rewrite <- !app_assoc in Hp.
  pose proof (chain_size p Hw) as Htot. unfold tot_len in Htot. rewrite Hp, !size_app, Hpre in Htot.
  change (size (be16 (query_type e))) with 2 in *. change (size (be16 1)) with 2 in *.
  pose proof (size_nonneg post). pose proof (size_nonneg (encode ls)).
  pose proof (compare_name_complete (name e) p pre ls _ Hw Hp Hls Hm ltac:(lia)) as Ec. rewrite Hpre in Ec. rewrite Ec.
  cbn [mbind option_bind]. replace (_ =? 0xffff) with false by lia. cbv zeta.
  rewrite (copy_mid p (pre ++ encode ls) (be16 (query_type e) ++ be16 1) post); [|by rewrite Hp, <- !app_assoc|rewrite size_app; lia|done].
  change (slice (be16 (query_type e) ++ be16 1) 0 2) with (be16 (query_type e)).
  change (slice (be16 (query_type e) ++ be16 1) 2 4) with (be16 1). change (of_be (be16 1)) with 1. unfold query_type. rewrite of_be_small_type.
  cbn [Z.eqb Pos.eqb negb orb size length app Z.of_nat Pos.of_succ_nat Pos.succ].
  replace (_ || _) with false by (by destruct (LWIP_DNS_ADDRTYPE_IS_IPV6 (reqaddrtype e))).
  replace (0xffff <? _) with false by lia. rewrite u16_small by (change (2 ^ 16) with 65536; lia). do 2 f_equal.
  rewrite !size_app, Hpre. change (size (be16 1)) with 2. change (size (be16 _)) with 2. lia.
Qed.

Lemma our_question_sound e p i : wf_chain p -> our_question e p = Some (Some i) ->
  exists ls, labels_ok ls /\ matches (name e) 0 ls /\ 12 <= i <= tot_len p /\
    drop 12 (concat p) = question_bytes ls (query_type e) ++ drop (Z.to_nat i) (concat p).
Proof.
  intros Hw E. unfold our_question in E. destruct (dns_compare_name (name e) p 12) as [j|] eqn:Ej; [|done].
  pose proof (compare_name_range _ p 12 j Hw ltac:(lia) Ej) as Hj.
  cbn [mbind option_bind] in E. destruct (j =? 0xffff) eqn:Ef; [done|]. cbv zeta in E.
  destruct (negb (size _ =? _)) eqn:Es; [done|]. destruct (_ || _) eqn:Et; [done|]. destruct (0xffff <? j + 4) eqn:E1; [done|].
  rewrite u16_small in E by (change (2 ^ 16) with 65536; lia). injection E as <-.
  destruct (copy_drop p 4 j ltac:(lia) ltac:(lia) ltac:(lia)) as [Hd [|Hi]]; [done|].
  destruct (compare_name_sound _ p 12 j Hw ltac:(lia) Ej ltac:(lia)) as (ls & Hls & Hm & Hdn). exists ls. split_and!; try done; [lia|].
  change (drop 12 (concat p)) with (drop (Z.to_nat 12) (concat p)). rewrite Hdn, Hd. unfold question_bytes. rewrite <- !app_assoc. f_equal.
  pose proof (copy_bytes p 4 j Hw ltac:(lia) ltac:(lia)) as Hb. rewrite app_assoc. f_equal.
  set (qry := pbuf_copy_partial p 4 j) in *. unfold size in Es.
  do 4 (destruct qry as [|? qry]; [done|]). destruct qry; [|cbn [length] in Es; lia]. rewrite !Forall_cons in Hb. destruct_and!.
  repeat match type of Et with context [slice ?l ?a ?b] => let v := eval cbv in (slice l a b) in change (slice l a b) with v in Et end.
  change [z; z0; z1; z2] with ([z; z0] ++ [z1; z2]). unfold query_type.
  rewrite <- (be16_of_be [z1; z2]), <- (be16_of_be [z; z0]); try done; try (by repeat apply Forall_cons_2).
  f_equal; f_equal; destruct (LWIP_DNS_ADDRTYPE_IS_IPV6 (reqaddrtype e)); cbn [andb negb] in Et; lia.
Qed.

(** ** Answers *)

Lemma address_gives e r a : Forall is_byte (rr_data r) -> address_of e r = Some a -> gives r a /\ query_type e = rrtype a /\ asked_kind e a.
Proof.
  intros Hb E. unfold address_of in E. destruct (_ && holds_v4 e _ _) eqn:E4.
  - injection E as <-. apply andb_true_iff in E4 as [Ec E4]. unfold holds_v4, both_ip in E4. rewrite !andb_true_iff, negb_true_iff in E4.
    destruct E4 as [[[H4 Ht] Hl] H6].
    assert (Hv : LWIP_DNS_ADDRTYPE_IS_IPV6 (reqaddrtype e) = false).
    { unfold LWIP_DNS_ADDRTYPE_IS_IPV6, both_ip in *. rewrite H4 in *. by destruct LWIP_IPV6. }
    unfold gives, query_type, asked_kind. rewrite Hv. cbn [rrtype is_v6 addr_bytes wf_addr]. split_and!; try done; try lia.
    + rewrite be32_of_be; [done|done|]. unfold size in Hl. lia.
    + apply of_be_32; [done|lia].
    + apply of_be_32; [done|lia].
  - destruct (_ && holds_v6 e _ _) eqn:E6; [|done].
    injection E as <-. apply andb_true_iff in E6 as [Ec E6]. unfold holds_v6, both_ip in E6. rewrite !andb_true_iff, orb_true_iff, negb_true_iff in E6.
    destruct E6 as [[[H6 Ht] Hl] H4].
    assert (Hv : LWIP_DNS_ADDRTYPE_IS_IPV6 (reqaddrtype e) = true).
    { unfold LWIP_DNS_ADDRTYPE_IS_IPV6, both_ip in *. rewrite H6 in *. destruct LWIP_IPV4; [|done]. by destruct H4. }
    unfold gives, query_type, asked_kind. rewrite Hv. cbn [rrtype is_v6 addr_bytes wf_addr]. split_and!; try done; lia.
Qed.

Lemma gives_address e r a : gives r a -> query_type e = rrtype a -> (if is_v6 a then LWIP_IPV6 else LWIP_IPV4) = true -> address_of e r = Some a.
Proof.
  intros (Hc & Ht & Hd & Ha) Hq Hip. unfold address_of, holds_v4, holds_v6, both_ip. rewrite Hc, Ht, Hd, addr_bytes_size by done.
  unfold query_type in Hq. destruct a as [x|l]; cbn [rrtype is_v6 addr_bytes] in *; rewrite Hip; cbn [Z.eqb Pos.eqb andb].
  - destruct (LWIP_DNS_ADDRTYPE_IS_IPV6 _); [done|]. rewrite andb_false_r. cbn [negb]. by rewrite of_be_be32.
  - destruct (LWIP_DNS_ADDRTYPE_IS_IPV6 _); [|done]. rewrite orb_true_r, andb_false_r. done.
Qed.

(** The address of an answer is what the message says. *)
Lemma answer_says e p hdr a t i : wf_chain p -> pbuf_copy_partial p SIZEOF_DNS_HDR 0 = hdr -> size hdr = 12 ->
  (forall f, load hdr 2 = Some f -> Z.land f DNS_FLAG1_RESPONSE <> 0) ->
  (forall f, load hdr 3 = Some f -> Z.land f DNS_FLAG2_ERR_MASK = 0) -> of_be (slice hdr 4 6) = 1 ->
  our_question e p = Some (Some i) ->
  read_answers (S (Z.to_nat (of_be (slice hdr 6 8)))) e p (of_be (slice hdr 6 8)) i = Some (Answer a t) ->
  says p (name e) (of_be (slice hdr 0 2)) a /\ asked_kind e a.
Proof.
  intros Hw Eh Hs Hf1 Hf2 Hq Eq Ea. pose proof (copy_bytes p 12 0 Hw ltac:(lia) ltac:(lia)) as Hb.
  destruct (copy_drop p 12 0 ltac:(lia) ltac:(lia) ltac:(by rewrite Eh)) as [Hd _]. rewrite Eh in Hb, Hd. rewrite drop_0 in Hd.
  destruct (header_bytes hdr Hb Hs) as (f1 & f2 & El1 & El2 & Hbf1 & Hbf2 & Hother & Hhdr).
  destruct (our_question_sound e p i Hw Eq) as (ls & Hls & Hm & Hi & Hdq). pose proof (chain_size p Hw) as Htot.
  destruct (read_answers_sound e _ p _ i a t Hw ltac:(lia) Ea) as (rs & r & rest & Hrs & _ & Hr & Har & _ & Hn & Hda).
  assert (Hbytes : Forall is_byte (rr_data r)).
  { pose proof (chain_bytes p Hw) as Hc. apply (Forall_drop _ (Z.to_nat i)) in Hc. rewrite Hda in Hc.
    apply Forall_app in Hc as [_ Hc]. apply Forall_app in Hc as [Hc _]. unfold rr_bytes in Hc. rewrite !Forall_app in Hc. tauto. }
  destruct (address_gives e r a Hbytes Har) as (Hg & Hqt & Hk). split; [|done].
  assert (H16 : forall a b, 0 <= a -> b = a + 2 -> b <= 12 -> 0 <= of_be (slice hdr a b) < 2 ^ 16).
  { intros x y Hx -> Hy. apply of_be_two; [by apply Forall_take, Forall_drop|]. unfold slice, size in *. rewrite length_take, length_drop. lia. }
  exists (mkReply (of_be (slice hdr 0 2)) f1 f2 (of_be (slice hdr 6 8)) (slice hdr 8 12) ls (query_type e) (rs ++ [r]) rest), rs, r.
  cbn [r_id r_flags1 r_flags2 r_count r_other r_labels r_type r_answers r_rest]. split; [|split_and!; try done].
  - unfold reply_bytes, reply_head. cbn [r_id r_flags1 r_flags2 r_count r_other r_labels r_type r_answers r_rest].
    rewrite <- Hq, <- Hhdr, Hd at 1. f_equal. change (Z.to_nat (0 + 12)) with 12%nat. rewrite Hdq, Hda. f_equal.
    rewrite fmap_app, concat_app. cbn [fmap list_fmap concat]. by rewrite app_nil_r, <- !app_assoc.
  - split; cbn [r_id r_flags1 r_flags2 r_count r_other r_labels r_answers]; try done; try (by apply H16). apply Forall_app. by rewrite Forall_singleton.
  - by apply Hf1.
  - unfold is_error. cbn [r_flags2]. intros Hne. by apply Hne, Hf2.
Qed.
End Reply.
End DnsReply.
