(* ===== verification/DnsQuery.v ===== *)
(** The DNS resolver of lwIP: the query that is written, and that a reply which repeats
    it is taken. *)

From stdpp Require Import gmap.
From S2P Require Export DnsReply.
Export DnsReply.
Open Scope Z_scope.

Module DnsQuery.

(** A query: recursion is desired, and there is one question. *)
Definition query_bytes (id : Z) (ls : list (list Z)) (type : Z) : list Z := query_header id ++ question_bytes ls type.

Lemma query_header_size id : size (query_header id) = 12.
Proof. done. Qed.

Section Query.
Context {Opt : DnsOptions} {Pbufs : DnsPbufs} {Text : DnsText} {World : DnsWorld}.

(** The same name, in upper or lower case. *)
Definition same_name (ls ls' : list (list Z)) : Prop := Forall2 (fun l l' => lwip_tolower <$> l = lwip_tolower <$> l') ls ls'.

Lemma same_name_refl ls : same_name ls ls.
Proof. by apply Forall_Forall2_diag, Forall_true. Qed.

Lemma write_query_exact e hostname p : size hostname < 256 -> size p = 12 + size hostname + 2 + 4 ->
  write_query e hostname p = Some (Some (query_bytes (txid e) (labels hostname) (query_type e))).
Proof.
  intros Hs Hp. unfold write_query. pose proof (size_nonneg hostname).
  destruct (split_front p 12) as (h & rest & -> & Hh); [lia|]. rewrite size_app in Hp.
  destruct (split_front rest (size hostname + 1)) as (mid & rest2 & -> & Hm); [lia|]. rewrite size_app in Hp.
  destruct (split_front rest2 1) as (z & q & -> & Hz); [lia|]. rewrite size_app in Hp.
  rewrite (take_at_mid [] h (mid ++ z ++ q) (query_header (txid e)) 0) by (rewrite ?query_header_size; done). cbn [app].
  pose proof (query_header_size (txid e)) as Hqh. rewrite <- Hqh at 1.
  rewrite put_labels_exact by (rewrite ?Hqh; lia). cbn [mbind option_bind].
  destruct z as [|z [|]]; try done; [|unfold size in Hz; cbn [length] in Hz; lia]. cbn [app].
  pose proof (blocks_size hostname) as Hbl.
  rewrite (app_assoc (query_header (txid e))), put_at_mid by (rewrite size_app; lia).
  rewrite u16_small by (rewrite Hqh; change (2 ^ 16) with 65536; lia). rewrite Hqh.
  replace (12 + size hostname + 1 + 1) with (size ((query_header (txid e) ++ blocks (labels hostname)) ++ [0])) by (rewrite !size_app; change (size [0]) with 1; lia).
  replace ((query_header (txid e) ++ blocks (labels hostname)) ++ 0 :: q) with (((query_header (txid e) ++ blocks (labels hostname)) ++ [0]) ++ q ++ [])
    by (by rewrite app_nil_r, <- !app_assoc).
  rewrite take_at_mid; [|done|]. 2:{ change (size (be16 (query_type e) ++ be16 1)) with 4. change (size [z]) with 1 in Hp. lia. }
  reflexivity.
Qed.

(** ** A host name agrees with its labels *)

Lemma agrees_label pre l : forall l' post, lwip_tolower <$> l = lwip_tolower <$> l' -> agrees (pre ++ l ++ post) (length pre) l'.
Proof.
  revert pre. induction l as [|c l IH]; intros pre [|c' l'] post E; try done. cbn [fmap list_fmap] in E. injection E as Hc E.
  cbn [agrees]. rewrite lookup_app_r, Nat.sub_diag by done. split; [by exists c|].
  specialize (IH (pre ++ [c]) l' post E). rewrite length_app, Nat.add_1_r, <- app_assoc in IH. exact IH.
Qed.

Lemma same_length l l' : lwip_tolower <$> l = lwip_tolower <$> l' -> length l = length l'.
Proof. intros E. by rewrite <- (length_fmap lwip_tolower l), E, length_fmap. Qed.

Lemma labels_match_from n : forall s pre post ls, (length s < n)%nat -> same_name (labels s) ls -> matches (pre ++ s ++ 0 :: post) (length pre) ls.
Proof.
  induction n as [|n IH]; intros s pre post ls Hn Hs; [lia|]. rewrite labels_cut in Hs.
  destruct (label_of_prefix s) as (rest & E & Hd). rewrite Hd in Hs. set (l := label_of s) in *. clearbody l. subst s.
  rewrite length_app in Hn. destruct rest as [|c rest].
  - apply Forall2_cons_inv_l in Hs as (l' & ls' & El & Hs & ->). apply Forall2_nil_inv_l in Hs as ->. cbn [matches]. split; [|done].
    rewrite app_nil_r. by apply agrees_label.
  - apply Forall2_cons_inv_l in Hs as (l' & ls' & El & Hs & ->). cbn [matches]. rewrite <- app_assoc. split; [by apply agrees_label|].
    rewrite <- (same_length _ _ El). specialize (IH rest (pre ++ l ++ [c]) post ls'). cbn [length] in Hn.
    rewrite !length_app in IH. cbn [length] in IH. replace (S (length pre + length l)) with (length pre + (length l + 1))%nat by lia.
    replace (pre ++ l ++ (c :: rest) ++ 0 :: post) with ((pre ++ l ++ [c]) ++ rest ++ 0 :: post) by (by rewrite <- !app_assoc).
    apply IH; [lia|done].
Qed.

(** A host name in its array matches its labels, in any case. *)
Lemma labels_match s post ls : same_name (labels s) ls -> matches (s ++ 0 :: post) 0 ls.
Proof. intros Hs. apply (labels_match_from (S (length s)) s [] post ls); [lia|done]. Qed.

Lemma same_labels_ok s ls : wf_hostname s -> same_name (labels s) ls -> labels_ok ls.
Proof.
  intros Hw Hs. destruct (wf_hostname_labels s Hw) as (Hne & Hp & Ht). unfold same_name in Hs.
  assert (Hlen : Forall2 (fun l l' : list Z => length l = length l') (labels s) ls) by (eapply Forall2_impl; [exact Hs|]; apply same_length).
  split; [|split].
  - intros ->. by apply Forall2_nil_inv_r in Hs.
  - eapply Forall2_Forall_r; [exact Hlen|]. eapply Forall_impl; [exact Hp|]. intros l Hl l' E. unfold size in *. by rewrite <- E.
  - destruct Hlen as [|l l' ls1 ls2 _ Hlen]; [done|]. cbn [tail] in *. eapply Forall2_Forall_r; [exact Hlen|].
    eapply Forall_impl; [exact Ht|]. intros x Hx y E ->. by destruct x.
Qed.

(** ** A reply to a query *)

(** The question of a reply is that of the entry. *)
Definition repeats (e : dns_table_entry) (r : reply) : Prop := matches (name e) 0 (r_labels r) /\ r_type r = query_type e.

(** Its answers are counted. *)
Definition counted (r : reply) : Prop := r_count r = Z.of_nat (length (r_answers r)).

Lemma reply_read e p r : wf_chain p -> concat p = reply_bytes r -> wf_reply r -> repeats e r -> counted r ->
  exists i, our_question e p = Some (Some i) /\
    read_answers (S (Z.to_nat (r_count r))) e p (r_count r) i = Some (first_answer e (r_answers r)).
Proof.
  intros Hw Hp Hr [Hm Ht] Hc. unfold reply_bytes in Hp. rewrite Ht in Hp.
  pose proof (our_question_complete e p (reply_head r) (r_labels r) _ Hw (reply_head_size r Hr) Hp (reply_labels r Hr) Hm) as Eq.
  eexists. split; [exact Eq|]. rewrite Hc.
  eapply read_answers_complete; [done|by rewrite Hp, <- app_assoc|by apply reply_answers|lia].
Qed.
End Query.
End DnsQuery.
