(* ===== verification/DnsInv.v ===== *)
(** The DNS resolver of lwIP: its invariant, and the changes that its operations are
    made of. *)

From stdpp Require Import gmap.
From S2P Require Export DnsQuery.
Export DnsQuery.
Open Scope Z_scope.

Module DnsInv.

(** What is known of the outside: the addresses that replies gave to host names, and the
    servers that were configured. *)
Class Known := {
  vouched : list Z -> ip_addr -> Prop;
  configured : ip_addr -> Prop
}.

(** Random numbers are good enough for the loops that draw them: an identifier that is not
    among fewer than 256 others is found, and a port that UDP does not refuse, be it at
    random or by counting. *)
Class DnsRandom `{Opt : DnsOptions} `{World : DnsWorld} := {
  random_id : forall k used, (length used < 256)%nat -> exists j, (j < rand_fuel)%nat /\ u16 (LWIP_RAND (k + j)) ∉ used;
  random_port : forall k, exists j, (j < rand_fuel)%nat /\ 1024 <= u16 (LWIP_RAND (k + j)) /\
    forall c, udp_bind_result c (u16 (LWIP_RAND (k + j))) <> ERR_USE;
  counted_port : forall x, exists j, (j < rand_fuel)%nat /\ 1024 <= u16 (x + Z.of_nat j) /\
    forall c, udp_bind_result c (u16 (x + Z.of_nat j)) <> ERR_USE
}.

(** The query of an entry is under way. *)
Definition busy (e : dns_table_entry) : Prop := state e = DNS_STATE_NEW \/ state e = DNS_STATE_ASKING.

#[global] Instance busy_dec e : Decision (busy e).
Proof. unfold busy. apply _. Defined.

Lemma asking_true e : asking e = true <-> state e = DNS_STATE_ASKING.
Proof. apply bool_decide_eq_true. Qed.

(** The servers that are configured, and what the requests are about, are kept by the
    numbers of the outside. *)
Definition drift (c r : nat) (x : Z) (s : dns) : dns := set_calls c (set_rands r (set_dns_txid x s)).

Section Inv.
Context {Opt : DnsOptions} {Pbufs : DnsPbufs} {Text : DnsText} {World : DnsWorld} {Kn : Known}.

(** ** Entries *)

(** A name in its array; a query that goes to the group of mDNS is for a name of mDNS. *)
Record wf_entry (e : dns_table_entry) : Prop := {
  entry_size : size (name e) = DNS_MAX_NAME_LENGTH;
  entry_name : is_Some (c_str (name e));
  entry_txid : 0 <= txid e < 2 ^ 16;
  entry_mdns : busy e -> is_mdns e = true -> LWIP_DNS_SUPPORT_MDNS_QUERIES = true ->
    forall n, c_str (name e) = Some n -> mdns_name n = true
}.

(** A query has a running timer, tries that are left and a server; an answer has time to
    live, and somebody vouched for it. *)
Definition settled (e : dns_table_entry) : Prop :=
  match state e with
  | DNS_STATE_ASKING => 1 <= tmr e <= Z.max 1 (retries e) /\ 0 <= retries e < DNS_MAX_RETRIES /\ 0 <= server_idx e < DNS_MAX_SERVERS
  | DNS_STATE_DONE => 0 < ttl e <= DNS_MAX_TTL /\ asked_kind e (ipaddr e) /\ forall n, c_str (name e) = Some n -> vouched n (ipaddr e)
  | DNS_STATE_NEW | DNS_STATE_UNUSED => True
  end.

(** ** Time that is left *)

(** The seconds of the tries after the [k]th: the next one is waited for [k + 1] seconds,
    the last one for [DNS_MAX_RETRIES - 1]. *)
Definition later_tries (k : Z) : Z := (DNS_MAX_RETRIES * (DNS_MAX_RETRIES - 1) - k * (k + 1)) / 2.

(** A server is given up after this many seconds. *)
Definition server_time : Z := 1 + later_tries 0.
Definition query_time : Z := DNS_MAX_SERVERS * server_time.

(** There may be a second query, of the other type. *)
Definition second_type (e : dns_table_entry) : Z :=
  if both_ip && ((reqaddrtype e =? LWIP_DNS_ADDRTYPE_IPV4_IPV6) || (reqaddrtype e =? LWIP_DNS_ADDRTYPE_IPV6_IPV4)) then query_time else 0.

(** The seconds until an entry is answered at the latest. *)
Definition budget (e : dns_table_entry) : Z :=
  second_type e +
  match state e with
  | DNS_STATE_NEW => query_time
  | DNS_STATE_ASKING => (DNS_MAX_SERVERS - 1 - server_idx e) * server_time + tmr e + later_tries (retries e)
  | _ => 0
  end.

(** ** The invariant *)

(** A query with labels and a type, to a server that is configured or to the group of mDNS. *)
Definition event_ok (ev : event) : Prop :=
  match ev with
  | Found _ hostname (Some a) => vouched hostname a
  | Found _ _ None => True
  | Sent _ dst port msg =>
      (exists id hostname type, 0 <= id < 2 ^ 16 /\ msg = query_bytes id (labels hostname) type /\ (type = DNS_RRTYPE_A \/ type = DNS_RRTYPE_AAAA)) /\
      (port = DNS_SERVER_PORT /\ configured dst /\ ip_addr_isany dst = false \/ port = DNS_MQUERY_PORT /\ (dst = dns_mquery_v4group \/ dst = dns_mquery_v6group))
  end.

Record inv (s : dns) : Prop := {
  pcbs_size : length (dns_pcbs s) = Z.to_nat DNS_MAX_SOURCE_PORTS;
  table_length : length (dns_table s) = Z.to_nat DNS_TABLE_SIZE;
  requests_length : length (dns_requests s) = Z.to_nat DNS_MAX_REQUESTS;
  servers_length : length (dns_servers s) = Z.to_nat DNS_MAX_SERVERS;
  servers_configured : Forall configured (dns_servers s);
  entries_ok : forall i e, dns_table s !! i = Some e -> wf_entry e /\ settled e;
  txids_differ : forall i j e e', dns_table s !! i = Some e -> dns_table s !! j = Some e' -> i <> j ->
    state e = DNS_STATE_ASKING -> state e' = DNS_STATE_ASKING -> txid e <> txid e';
  requests_wait : forall r q c, dns_requests s !! r = Some q -> found q = Some c ->
    exists i e, dns_table_idx q = Z.of_nat i /\ dns_table s !! i = Some e /\ busy e /\
      (SECURE_NO_MULTIPLE_OUTSTANDING = false -> i = r);
  ports_open : SECURE_RAND_SRC_PORT = true -> forall i e, dns_table s !! i = Some e -> busy e ->
    exists p, pcb_idx e = Z.of_nat p /\ dns_pcbs s !! p = Some true;
  ports_used : SECURE_RAND_SRC_PORT = true -> forall p, dns_pcbs s !! p = Some true ->
    exists i e, dns_table s !! i = Some e /\ busy e /\ pcb_idx e = Z.of_nat p;
  numbers_ok : 0 <= dns_txid s < 2 ^ 16 /\ 0 <= dns_seqno s < 256 /\ 0 <= dns_last_pcb_idx s < DNS_MAX_SOURCE_PORTS;
  events_ok : Forall event_ok (events s)
}.

(** No entry is about to be asked for. *)
Definition quiet (s : dns) : Prop := forall i e, dns_table s !! i = Some e -> state e <> DNS_STATE_NEW.
Definition quiet_but (i : nat) (s : dns) : Prop := forall j e, dns_table s !! j = Some e -> j <> i -> state e <> DNS_STATE_NEW.

(** ** Changes *)

(** The answer to the requests of an entry. *)
Definition is_for (i : Z) (q : dns_req_entry) : bool := bool_decide (is_Some (found q)) && (dns_table_idx q =? i).
Definition clear (i : Z) (q : dns_req_entry) : dns_req_entry := if is_for i q then mkReq None (dns_table_idx q) (req_addrtype q) else q.
Definition answers_to (i : Z) (hostname : list Z) (addr : option ip_addr) (q : dns_req_entry) : list event :=
  match found q with Some c => if dns_table_idx q =? i then [Found c hostname addr] else [] | None => [] end.

Definition answer (i : nat) (e' : dns_table_entry) (hostname : list Z) (addr : option ip_addr) (pcbs : list bool) (s : dns) : dns :=
  set_events (events s ++ concat (answers_to (Z.of_nat i) hostname addr <$> dns_requests s))
    (set_dns_requests (clear (Z.of_nat i) <$> dns_requests s) (set_dns_pcbs pcbs (put_entry (Z.of_nat i) e' s))).

(** The port of an entry is closed, unless another one uses it. *)
Definition freed (i : nat) (e : dns_table_entry) (s : dns) (pcbs : list bool) : Prop :=
  (pcbs = dns_pcbs s /\
    (SECURE_RAND_SRC_PORT = true -> exists j e', j <> i /\ dns_table s !! j = Some e' /\ busy e' /\ pcb_idx e' = pcb_idx e)) \/
  (SECURE_RAND_SRC_PORT = true /\ (forall j e', j <> i -> dns_table s !! j = Some e' -> busy e' -> pcb_idx e' <> pcb_idx e) /\
    exists p, pcb_idx e = Z.of_nat p /\ pcbs = <[p := false]> (dns_pcbs s)).

Definition txid_free (i : nat) (e' : dns_table_entry) (s : dns) : Prop :=
  forall j e, j <> i -> dns_table s !! j = Some e -> state e = DNS_STATE_ASKING -> txid e <> txid e'.

Inductive change (s : dns) : dns -> Prop :=
  | change_numbers c r x : 0 <= x < 2 ^ 16 -> change s (drift c r x s)
  | change_sent pcb dst port msg : event_ok (Sent pcb dst port msg) -> change s (log (Sent pcb dst port msg) s)
  | change_query i e e' : dns_table s !! i = Some e -> busy e -> busy e' -> wf_entry e' -> settled e' ->
      name e' = name e -> pcb_idx e' = pcb_idx e -> budget e' <= budget e ->
      (state e' = DNS_STATE_ASKING -> txid_free i e' s) -> change s (put_entry (Z.of_nat i) e' s)
  | change_cache i e e' : dns_table s !! i = Some e -> ~ busy e -> ~ busy e' -> wf_entry e' -> settled e' ->
      change s (put_entry (Z.of_nat i) e' s)
  | change_answer i e e' hostname addr pcbs : dns_table s !! i = Some e -> busy e -> ~ busy e' -> wf_entry e' -> settled e' ->
      c_str (name e) = Some hostname -> match addr with Some a => vouched hostname a | None => True end ->
      freed i e s pcbs -> change s (answer i e' hostname addr pcbs s)
  | change_slot r q req : dns_requests s !! r = Some q -> found q = None -> found req = None ->
      change s (set_dns_requests (<[r := req]> (dns_requests s)) s)
  | change_servers n a : configured a -> change s (set_dns_servers (<[n := a]> (dns_servers s)) s)
  | change_hosts l : change s (set_local_hostlist l s).

(** A request is taken: a new query, or one that is under way. *)
Inductive accept (hostname : list Z) (callback : option Z) (s : dns) : dns -> Prop :=
  | accept_new i r e q e' req last seqno pcbs : dns_table s !! i = Some e -> ~ busy e -> dns_requests s !! r = Some q -> found q = None ->
      (SECURE_NO_MULTIPLE_OUTSTANDING = false -> i = r) -> state e' = DNS_STATE_NEW -> wf_entry e' -> c_str (name e') = Some hostname -> budget e' <= 2 * query_time ->
      found req = callback -> dns_table_idx req = Z.of_nat i ->
      0 <= last < DNS_MAX_SOURCE_PORTS -> 0 <= seqno < 256 -> length pcbs = length (dns_pcbs s) ->
      (SECURE_RAND_SRC_PORT = true -> exists p, pcb_idx e' = Z.of_nat p /\ (p < length pcbs)%nat /\ pcbs = <[p := true]> (dns_pcbs s)) ->
      accept hostname callback s (set_dns_seqno seqno (set_dns_last_pcb_idx last (set_dns_pcbs pcbs
        (put_entry (Z.of_nat i) e' (set_dns_requests (<[r := req]> (dns_requests s)) s)))))
  | accept_join i r e q req n : dns_table s !! i = Some e -> state e = DNS_STATE_ASKING -> c_str (name e) = Some n ->
      lwip_strnicmp hostname n DNS_MAX_NAME_LENGTH = true -> dns_requests s !! r = Some q -> found q = None ->
      SECURE_NO_MULTIPLE_OUTSTANDING = true -> found req = callback -> dns_table_idx req = Z.of_nat i ->
      accept hostname callback s (set_dns_requests (<[r := req]> (dns_requests s)) s).

Definition moves : dns -> dns -> Prop := rtc change.
End Inv.
End DnsInv.
