(* ===== verification/DnsChange.v ===== *)
(** The DNS resolver of lwIP: the changes keep the invariant, and what they do with the
    requests. *)

From stdpp Require Import gmap.
From S2P Require Export DnsInv.
Export DnsInv.
Open Scope Z_scope.

Module DnsChange.

Section Change.
Context {Opt : DnsOptions} {Pbufs : DnsPbufs} {Text : DnsText} {World : DnsWorld} {Kn : Known}.

Lemma lookup_put i e e' s j : dns_table s !! i = Some e ->
  dns_table (put_entry (Z.of_nat i) e' s) !! j = if decide (j = i) then Some e' else dns_table s !! j.
Proof.
  intros Hi. unfold put_entry. cbn [dns_table]. rewrite Nat2Z.id. apply lookup_lt_Some in Hi.
  destruct (decide (j = i)) as [->|Hj]; [by apply list_lookup_insert_eq|by apply list_lookup_insert_ne].
Qed.

Lemma put_length i e' s : length (dns_table (put_entry i e' s)) = length (dns_table s).
Proof. apply length_insert. Qed.

(** ** The table *)

(** One entry is replaced: what is left of the invariant of the table. *)
Lemma entries_put s i e e' : inv s -> dns_table s !! i = Some e -> wf_entry e' -> settled e' ->
  forall j e2, dns_table (put_entry (Z.of_nat i) e' s) !! j = Some e2 -> wf_entry e2 /\ settled e2.
Proof.
  intros Hs Hi Hw He j e2. rewrite (lookup_put i e) by done. destruct (decide (j = i)); [by intros [= <-]|by apply entries_ok].
Qed.

Lemma txids_put s i e e' : inv s -> dns_table s !! i = Some e -> (state e' = DNS_STATE_ASKING -> txid_free i e' s) ->
  forall j k e1 e2, dns_table (put_entry (Z.of_nat i) e' s) !! j = Some e1 -> dns_table (put_entry (Z.of_nat i) e' s) !! k = Some e2 ->
    j <> k -> state e1 = DNS_STATE_ASKING -> state e2 = DNS_STATE_ASKING -> txid e1 <> txid e2.
Proof.
  intros Hs Hi Hfree j k e1 e2. rewrite !(lookup_put i e) by done. destruct (decide (j = i)) as [->|Hj], (decide (k = i)) as [->|Hk]; try done.
  - intros [= <-] H2 _ H1' H2'. apply not_eq_sym. by apply (Hfree H1' k).
  - intros H1 [= <-] _ H1' H2'. by apply (Hfree H2' j).
  - by apply txids_differ.
Qed.

(** ** Requests that are answered *)

Lemma is_for_true i q : is_for i q = true <-> is_Some (found q) /\ dns_table_idx q = i.
Proof. unfold is_for. rewrite andb_true_iff, bool_decide_eq_true, Z.eqb_eq. done. Qed.

Lemma cleared i q c : found (clear i q) = Some c -> clear i q = q /\ found q = Some c /\ dns_table_idx q <> i.
Proof.
  unfold clear. destruct (is_for i q) eqn:E; [done|]. intros Hc. split_and!; try done. intros Hi.
  enough (is_for i q = true) by congruence. apply is_for_true. by split; [exists c|].
Qed.

Lemma answers_events i hostname addr qs : (forall a, addr = Some a -> vouched hostname a) ->
  Forall event_ok (concat (answers_to i hostname addr <$> qs)).
Proof.
  intros Ha. apply Forall_concat, Forall_fmap, Forall_true. intros q. cbn. unfold answers_to. destruct (found q); [|apply Forall_nil; done].
  destruct (_ =? _); [|by apply Forall_nil]. apply Forall_singleton. cbn. destruct addr; [by apply Ha|done].
Qed.

(** ** Changes keep the invariant *)

Lemma inv_query s i e e' : inv s -> dns_table s !! i = Some e -> busy e -> busy e' -> wf_entry e' -> settled e' ->
  pcb_idx e' = pcb_idx e -> (state e' = DNS_STATE_ASKING -> txid_free i e' s) -> inv (put_entry (Z.of_nat i) e' s).
Proof.
  intros Hs Hi Hb Hb' Hw He Hp Hf. split; try by apply Hs.
  - rewrite put_length. by apply table_length.
  - by apply (entries_put s i e).
  - by apply (txids_put s i e).
  - intros r q c Hr Hc. destruct (requests_wait s Hs r q c Hr Hc) as (j & e2 & Hq & Hj & Hj' & Hm). exists j.
    rewrite (lookup_put i e) by done. destruct (decide (j = i)) as [->|Hji]; [by exists e'|by exists e2].
  - intros Hsec j e2. rewrite (lookup_put i e) by done. destruct (decide (j = i)) as [->|Hj]; [|by apply (ports_open s Hs Hsec j)].
    intros [= <-] _. rewrite Hp. by apply (ports_open s Hs Hsec i).
  - intros Hsec p Hu. destruct (ports_used s Hs Hsec p Hu) as (j & e2 & Hj & Hj' & Hpc). exists j.
    rewrite (lookup_put i e) by done. destruct (decide (j = i)) as [->|Hji]; [|by exists e2].
    exists e'. split_and!; try done. by simplify_eq; rewrite Hp.
Qed.

Lemma inv_cache s i e e' : inv s -> dns_table s !! i = Some e -> ~ busy e -> ~ busy e' -> wf_entry e' -> settled e' ->
  inv (put_entry (Z.of_nat i) e' s).
Proof.
  intros Hs Hi Hb Hb' Hw He. split; try by apply Hs.
  - rewrite put_length. by apply table_length.
  - by apply (entries_put s i e).
  - apply (txids_put s i e); [done..|]. intros Ha. destruct Hb'. by right.
  - intros r q c Hr Hc. destruct (requests_wait s Hs r q c Hr Hc) as (j & e2 & Hq & Hj & Hj' & Hm). exists j, e2.
    rewrite (lookup_put i e) by done. destruct (decide (j = i)) as [->|Hji]; [by simplify_eq|done].
  - intros Hsec j e2. rewrite (lookup_put i e) by done. destruct (decide (j = i)) as [->|Hj]; [|by apply (ports_open s Hs Hsec j)].
    by intros [= <-].
  - intros Hsec p Hu. destruct (ports_used s Hs Hsec p Hu) as (j & e2 & Hj & Hj' & Hpc). exists j, e2.
    rewrite (lookup_put i e) by done. destruct (decide (j = i)) as [->|Hji]; [by simplify_eq|done].
Qed.

Lemma freed_length i e s pcbs : freed i e s pcbs -> length pcbs = length (dns_pcbs s).
Proof. intros [[-> _]|(_ & _ & p & _ & ->)]; [done|apply length_insert]. Qed.

(** A port that stays open is used by another entry. *)
Lemma freed_used s i e pcbs p : inv s -> dns_table s !! i = Some e -> busy e -> SECURE_RAND_SRC_PORT = true -> freed i e s pcbs ->
  pcbs !! p = Some true -> exists j e2, j <> i /\ dns_table s !! j = Some e2 /\ busy e2 /\ pcb_idx e2 = Z.of_nat p.
Proof.
  intros Hs Hi Hb Hsec Hf Hp.
  assert (Ho : dns_pcbs s !! p = Some true).
  { destruct Hf as [[-> _]|(_ & _ & p' & _ & ->)]; [done|]. by apply list_lookup_insert_Some in Hp as [(_ & ? & _)|[_ Ho]]. }
  destruct (ports_used s Hs Hsec p Ho) as (j & e2 & Hj & Hbj & Hpj). destruct (decide (j = i)) as [->|Hne]; [|by exists j, e2]. simplify_eq.
  destruct Hf as [[_ Hsh]|(_ & Hno & p' & Hp' & ->)].
  - destruct (Hsh Hsec) as (k & e3 & Hk & Hk' & Hbk & Hpk). exists k, e3. by rewrite Hpk.
  - assert (p' = p) as -> by lia. by apply list_lookup_insert_Some in Hp as [(_ & ? & _)|[Hx _]].
Qed.

Lemma answer_table i e' hostname addr pcbs s : dns_table (answer i e' hostname addr pcbs s) = dns_table (put_entry (Z.of_nat i) e' s).
Proof. done. Qed.

Lemma answer_requests i e' hostname addr pcbs s : dns_requests (answer i e' hostname addr pcbs s) = clear (Z.of_nat i) <$> dns_requests s.
Proof. done. Qed.

Lemma answer_events i e' hostname addr pcbs s :
  events (answer i e' hostname addr pcbs s) = events s ++ concat (answers_to (Z.of_nat i) hostname addr <$> dns_requests s).
Proof. done. Qed.

Lemma answer_pcbs i e' hostname addr pcbs s : dns_pcbs (answer i e' hostname addr pcbs s) = pcbs.
Proof. done. Qed.

Lemma inv_answer s i e e' hostname addr pcbs : inv s -> dns_table s !! i = Some e -> busy e -> ~ busy e' -> wf_entry e' -> settled e' ->
  match addr with Some a => vouched hostname a | None => True end -> freed i e s pcbs -> inv (answer i e' hostname addr pcbs s).
Proof.
  intros Hs Hi Hb Hb' Hw He Ha Hf.
  split; rewrite ?answer_table, ?answer_requests, ?answer_pcbs, ?answer_events; try by apply Hs.
  - rewrite (freed_length i e s) by done. by apply pcbs_size.
  - rewrite put_length. by apply table_length.
  - rewrite length_fmap. by apply requests_length.
  - by apply (entries_put s i e).
  - apply (txids_put s i e); [done..|]. intros Hx. destruct Hb'. by right.
  - intros r q' c Hr Hc. apply list_lookup_fmap_Some_1 in Hr as (q & -> & Hr). destruct (cleared _ _ _ Hc) as (-> & Hq & Hne).
    destruct (requests_wait s Hs r q c Hr Hq) as (j & e2 & Hj & Hj' & Hbj & Hm). exists j, e2.
    rewrite (lookup_put i e) by done. by destruct (decide (j = i)) as [->|].
  - intros Hsec j e2. rewrite (lookup_put i e) by done. destruct (decide (j = i)) as [->|Hne]; [by intros [= ->]|]. intros Hj Hbj.
    destruct (ports_open s Hs Hsec j e2 Hj Hbj) as (p & Hp & Ho). exists p. split; [done|].
    destruct Hf as [[-> _]|(_ & Hno & p' & Hp' & ->)]; [done|]. rewrite list_lookup_insert_ne; [done|]. intros ->.
    by apply (Hno j e2 Hne Hj Hbj); rewrite Hp, Hp'.
  - intros Hsec p Hp. destruct (freed_used s i e pcbs p Hs Hi Hb Hsec Hf Hp) as (j & e2 & Hne & Hj & Hbj & Hpj). exists j, e2.
    rewrite (lookup_put i e) by done. by rewrite decide_False.
  - apply Forall_app. split; [by apply events_ok|]. apply answers_events. by intros a ->.
Qed.

Lemma inv_change s s' : inv s -> change s s' -> inv s'.
Proof.
  intros Hs H. destruct H as [c r x Hx|pcb dst port msg He|i e e' Hi Hb Hb' Hw He Hn Hp Hbu Hf|i e e' Hi Hb Hb' Hw He|
    i e e' hostname addr pcbs Hi Hb Hb' Hw He Hn Ha Hf|r q req Hr Hq Hreq|n a Ha|l].
  - split; try by apply Hs. destruct (numbers_ok s Hs) as (_ & ? & ?). done.
  - split; try by apply Hs. apply Forall_app. split; [by apply events_ok|by apply Forall_singleton].
  - by apply (inv_query s i e).
  - by apply (inv_cache s i e).
  - by apply (inv_answer s i e).
  - split; try by apply Hs.
    + etransitivity; [apply length_insert|by apply requests_length].
    + intros r2 q2 c Hr2 Hc. apply list_lookup_insert_Some in Hr2 as [(<- & <- & _)|[_ Hr2]]; [congruence|].
      exact (requests_wait s Hs r2 q2 c Hr2 Hc).
  - split; try by apply Hs.
    + etransitivity; [apply length_insert|by apply servers_length].
    + apply Forall_insert; [by apply servers_configured|done].
  - split; try by apply Hs.
Qed.

Lemma inv_moves s s' : inv s -> moves s s' -> inv s'.
Proof. intros Hs H. induction H as [|s s1 s2 H _ IH]; [done|]. by apply IH, (inv_change s). Qed.

(** ** Requests that are taken *)

Lemma idle_other s i e j e2 : dns_table s !! i = Some e -> ~ busy e -> dns_table s !! j = Some e2 -> busy e2 -> j <> i.
Proof. intros Hi Hb Hj Hb2 ->. by simplify_eq. Qed.

Lemma inv_accept hostname callback s s' : inv s -> accept hostname callback s s' -> inv s'.
Proof.
  intros Hs H. destruct H as [i r e q e' req last seqno pcbs Hi Hb Hr Hq Hm Hn Hw _ _ Hreq Hidx Hl Hsq Hpl Hp|i r e q req n Hi Hb _ _ Hr Hq Hm Hreq Hidx].
  - set (s1 := put_entry _ _ _).
    assert (Ht : forall j, dns_table s1 !! j = if decide (j = i) then Some e' else dns_table s !! j).
    { intros j. unfold s1. rewrite (lookup_put i e) by done. done. }
    assert (Hbusy : busy e') by by left.
    split; try by apply Hs.
    + etransitivity; [exact Hpl|by apply pcbs_size].
    + etransitivity; [apply put_length|exact (table_length s Hs)].
    + etransitivity; [apply length_insert|by apply requests_length].
    + intros j e2 Hj. change (dns_table s1 !! j = Some e2) in Hj. rewrite Ht in Hj. destruct (decide (j = i)); [|by apply (entries_ok s Hs j)].
      injection Hj as <-. split; [done|]. unfold settled. by rewrite Hn.
    + intros j k e1 e2 Hj Hk Hjk H1 H2. change (dns_table s1 !! j = Some e1) in Hj. change (dns_table s1 !! k = Some e2) in Hk. rewrite Ht in Hj, Hk.
      destruct (decide (j = i)), (decide (k = i)); simplify_eq; [by rewrite Hn in H1|by rewrite Hn in H2|]. by apply (txids_differ s Hs j k).
    + intros r2 q2 c Hr2 Hc. apply list_lookup_insert_Some in Hr2 as [(<- & <- & _)|[Hne Hr2]].
      * exists i, e'. change (dns_table _ !! i) with (dns_table s1 !! i). rewrite Ht, decide_True by done. done.
      * destruct (requests_wait s Hs r2 q2 c Hr2 Hc) as (j & e2 & Hj & Hj' & Hbj & Hmj). exists j, e2.
        change (dns_table _ !! j) with (dns_table s1 !! j). rewrite Ht. rewrite decide_False; [done|]. by eapply idle_other.
    + intros Hsec j e2 Hj Hbj. destruct (Hp Hsec) as (p & Hpe & Hpn & Hpc). change (dns_table s1 !! j = Some e2) in Hj. rewrite Ht in Hj.
      destruct (decide (j = i)) as [->|Hne].
      * injection Hj as <-. exists p. split; [done|]. change (pcbs !! p = Some true). rewrite Hpc. apply list_lookup_insert_eq. by rewrite <- Hpl.
      * destruct (ports_open s Hs Hsec j e2 Hj Hbj) as (p2 & Hp2 & Ho). exists p2. split; [done|]. change (pcbs !! p2 = Some true). rewrite Hpc.
        destruct (decide (p2 = p)) as [->|Hpp]; [apply list_lookup_insert_eq; by rewrite <- Hpl|by rewrite list_lookup_insert_ne].
    + intros Hsec p2 Ho. change (pcbs !! p2 = Some true) in Ho. destruct (Hp Hsec) as (p & Hpe & Hpn & Hpc). rewrite Hpc in Ho.
      apply list_lookup_insert_Some in Ho as [(<- & _ & _)|[Hne Ho]].
      * exists i, e'. change (dns_table _ !! i) with (dns_table s1 !! i). by rewrite Ht, decide_True by done.
      * destruct (ports_used s Hs Hsec p2 Ho) as (j & e2 & Hj & Hbj & Hpj). exists j, e2.
        change (dns_table _ !! j) with (dns_table s1 !! j). rewrite Ht. rewrite decide_False; [done|]. by eapply idle_other.
    + destruct (numbers_ok s Hs) as (? & _ & _). done.
  - split; try by apply Hs.
    + etransitivity; [apply length_insert|by apply requests_length].
    + intros r2 q2 c Hr2 Hc. apply list_lookup_insert_Some in Hr2 as [(<- & <- & _)|[Hne Hr2]]; [|exact (requests_wait s Hs r2 q2 c Hr2 Hc)].
      exists i, e. split_and!; try done; [by right|by rewrite Hm].
Qed.

(** ** Every request is pending or answered *)

Definition callback_of (ev : event) : option Z := match ev with Found c _ _ => Some c | Sent _ _ _ _ => None end.

(** How many requests wait for this callback, and how often it was called. *)
Definition waiting (c : Z) (qs : list dns_req_entry) : nat := length (filter (fun q => found q = Some c) qs).
Definition called (c : Z) (es : list event) : nat := length (filter (fun ev => callback_of ev = Some c) es).
Definition owed (c : Z) (s : dns) : nat := (waiting c (dns_requests s) + called c (events s))%nat.

Lemma waiting_cons c q qs : waiting c (q :: qs) = ((if decide (found q = Some c) then 1 else 0) + waiting c qs)%nat.
Proof. unfold waiting. rewrite filter_cons. by destruct (decide _). Qed.

Lemma called_app c es es' : called c (es ++ es') = (called c es + called c es')%nat.
Proof. unfold called. by rewrite filter_app, length_app. Qed.

Lemma waiting_cleared c i hostname addr qs :
  waiting c qs = (waiting c (clear i <$> qs) + called c (concat (answers_to i hostname addr <$> qs)))%nat.
Proof.
  induction qs as [|q qs IH]; [done|]. cbn [fmap list_fmap concat]. rewrite !waiting_cons, called_app, IH.
  enough ((if decide (found q = Some c) then 1 else 0) =
    (if decide (found (clear i q) = Some c) then 1 else 0) + called c (answers_to i hostname addr q))%nat by lia.
  unfold clear, is_for, answers_to. destruct (found q) as [c'|] eqn:E.
  2:{ rewrite bool_decide_eq_false_2 by (by intros [? ?]). cbn [andb]. by rewrite E. }
  rewrite bool_decide_eq_true_2 by done. cbn [andb]. destruct (dns_table_idx q =? i); [|rewrite E; cbn; lia].
  cbn [found]. unfold called. rewrite filter_cons. cbn [callback_of]. by destruct (decide (Some c' = Some c)).
Qed.

Lemma waiting_insert c r q q' qs : qs !! r = Some q -> found q = None ->
  waiting c (<[r := q']> qs) = (waiting c qs + if decide (found q' = Some c) then 1 else 0)%nat.
Proof.
  revert r. induction qs as [|q2 qs IH]; intros [|r] Hr Hq; try done.
  - injection Hr as ->. change (<[0%nat := q']> (q :: qs)) with (q' :: qs). rewrite !waiting_cons, Hq. rewrite (decide_False (P := None = Some c)) by done. lia.
  - change (<[S r := q']> (q2 :: qs)) with (q2 :: <[r := q']> qs). rewrite !waiting_cons, (IH r Hr Hq). lia.
Qed.

Lemma owed_change c s s' : change s s' -> owed c s' = owed c s.
Proof.
  intros H. destruct H; try done.
  - unfold owed. change (dns_requests (log _ _)) with (dns_requests s). change (events (log _ _)) with (events s ++ [Sent pcb dst port msg]). rewrite called_app. replace (called c [Sent pcb dst port msg]) with 0%nat by done. lia.
  - unfold owed. rewrite answer_requests, answer_events, called_app. rewrite (waiting_cleared c (Z.of_nat i) hostname addr (dns_requests s)). lia.
  - unfold owed. change (dns_requests (set_dns_requests ?l _)) with l. change (events (set_dns_requests _ _)) with (events s).
    rewrite (waiting_insert c r q) by done. rewrite decide_False by congruence. lia.
Qed.

Lemma owed_moves c s s' : moves s s' -> owed c s' = owed c s.
Proof. induction 1 as [|s s1 s2 H _ IH]; [done|]. by rewrite IH, (owed_change c s). Qed.

Lemma owed_accept c hostname callback s s' : accept hostname callback s s' -> owed c s' = (owed c s + if decide (callback = Some c) then 1 else 0)%nat.
Proof.
  intros H. unfold owed. destruct H as [i r e q e' req last seqno pcbs Hi Hb Hr Hq _ _ _ _ _ <- _ _ _ _ _|i r e q req n Hi Hb _ _ Hr Hq _ <- _].
  - change (dns_requests _) with (<[r := req]> (dns_requests s)) at 1. rewrite (waiting_insert c r q) by done.
    change (events (set_dns_seqno _ _)) with (events s). lia.
  - change (dns_requests (set_dns_requests ?l _)) with l. rewrite (waiting_insert c r q) by done. change (events (set_dns_requests _ _)) with (events s). lia.
Qed.
End Change.
End DnsChange.
