(* ===== verification/DnsDraw.v ===== *)
(** The DNS resolver of lwIP: drawing identifiers and ports ends, and gives fresh ones. *)

From stdpp Require Import gmap.
From S2P Require Export DnsChange.
Export DnsChange.
Open Scope Z_scope.

Module DnsDraw.

Lemma u16_range x : 0 <= u16 x < 2 ^ 16.
Proof. by apply Z.mod_pos_bound. Qed.

Section Draw.
Context {Opt : DnsOptions} {Pbufs : DnsPbufs} {Text : DnsText} {World : DnsWorld} {Kn : Known} {Rnd : DnsRandom}.

(** The [j]th number that is drawn from now on. *)
Definition draw (j : nat) (s : dns) : Z := if SECURE_RAND_XID then u16 (LWIP_RAND (rands s + j)) else u16 (dns_txid s + 1 + Z.of_nat j).

Lemma draw_first s : 0 <= dns_txid s < 2 ^ 16 -> exists r x, DNS_RAND_TXID s = (draw 0 s, drift (calls s) r x s) /\ 0 <= x < 2 ^ 16.
Proof.
  intros Hs. unfold DNS_RAND_TXID, draw. destruct SECURE_RAND_XID.
  - exists (S (rands s)), (dns_txid s). rewrite Nat.add_0_r. by destruct s.
  - exists (rands s), (u16 (dns_txid s + 1)). rewrite Z.add_0_r. split; [by destruct s|apply u16_range].
Qed.

Lemma draw_next s : 0 <= dns_txid s < 2 ^ 16 -> exists r x, 0 <= x < 2 ^ 16 /\ DNS_RAND_TXID s = (draw 0 s, drift (calls s) r x s) /\
  forall c j, draw j (drift c r x s) = draw (S j) s.
Proof.
  intros Hs. unfold DNS_RAND_TXID, draw. destruct SECURE_RAND_XID.
  - exists (S (rands s)), (dns_txid s). rewrite Nat.add_0_r. split; [done|]. split; [by destruct s|]. intros c j. cbn. by rewrite Nat.add_succ_r.
  - exists (rands s), (u16 (dns_txid s + 1)). rewrite Z.add_0_r. split; [apply u16_range|]. split; [by destruct s|]. intros c j. cbn.
    unfold u16. rewrite <- Z.add_assoc, Zplus_mod_idemp_l. f_equal. lia.
Qed.

Lemma drift_drift c r x c' r' x' s : drift c r x (drift c' r' x' s) = drift c r x s.
Proof. done. Qed.

(** ** Identifiers *)

Definition taken (s : dns) : list Z := txid <$> filter (fun e => state e = DNS_STATE_ASKING) (dns_table s).

Lemma taken_spec s id : existsb (fun e => asking e && (txid e =? id)) (dns_table s) = true <-> id ∈ taken s.
Proof.
  rewrite existsb_exists. unfold taken. rewrite list_elem_of_fmap. split.
  - intros (e & He & Ha). apply andb_true_iff in Ha as [Ha Ht]. exists e. rewrite list_elem_of_filter.
    apply asking_true in Ha. apply list_elem_of_In in He. split; [lia|done].
  - intros (e & -> & He). apply list_elem_of_filter in He as [Ha He]. exists e. split; [by apply list_elem_of_In|].
    rewrite Z.eqb_refl, andb_true_r. by apply asking_true.
Qed.

Lemma create_txid_loop fuel : forall s, 0 <= dns_txid s < 2 ^ 16 -> (exists j, (j < fuel)%nat /\ draw j s ∉ taken s) ->
  exists id r x, create_txid fuel s = Some (id, drift (calls s) r x s) /\ 0 <= x < 2 ^ 16 /\ (id ∉ taken s) /\ 0 <= id < 2 ^ 16.
Proof.
  induction fuel as [|fuel IH]; intros s Hs (j & Hj & Hd); [lia|]. cbn [create_txid].
  destruct (draw_next s Hs) as (r & x & Hx & -> & Hn). change (dns_table (drift _ r x s)) with (dns_table s).
  destruct (existsb _ _) eqn:E.
  - destruct j as [|j]; [by apply taken_spec in E|].
    destruct (IH (drift (calls s) r x s) Hx) as (id & r' & x' & -> & Hx' & Hid & Hr).
    { exists j. split; [lia|]. by rewrite Hn. }
    exists id, r', x'. by rewrite drift_drift.
  - exists (draw 0 s), r, x. split_and!; try done; try lia.
    + rewrite <- taken_spec. by rewrite E.
    + unfold draw. destruct SECURE_RAND_XID; apply u16_range.
    + unfold draw. destruct SECURE_RAND_XID; apply u16_range.
Qed.

(** 256 numbers in a row are not all taken. *)
Lemma counted_id x used : (length used < 256)%nat -> exists j, (j < 256)%nat /\ u16 (x + Z.of_nat j) ∉ used.
Proof.
  intros Hl. destruct (decide (Exists (fun j => u16 (x + Z.of_nat j) ∉ used) (seq 0 256))) as [H|H].
  - apply Exists_exists in H as (j & Hj & H). apply elem_of_seq in Hj. exists j. split; [lia|done].
  - exfalso. enough (length ((fun j => u16 (x + Z.of_nat j)) <$> seq 0 256) <= length used)%nat as Hle by (rewrite length_fmap, length_seq in Hle; lia).
    apply submseteq_length, NoDup_submseteq.
    + apply NoDup_fmap_2_strong; [|apply NoDup_seq]. intros a b Ha Hb E. apply elem_of_seq in Ha, Hb. unfold u16 in E. lia_mod.
    + intros v Hv. apply list_elem_of_fmap in Hv as (j & -> & Hj). destruct (decide (u16 (x + Z.of_nat j) ∈ used)); [done|].
      destruct H. apply Exists_exists. by exists j.
Qed.

Lemma taken_length s : inv s -> (length (taken s) < 256)%nat.
Proof.
  intros Hs. unfold taken. rewrite length_fmap. pose proof (length_filter (fun e => state e = DNS_STATE_ASKING) (dns_table s)) as Hf.
  rewrite (table_length s Hs) in Hf. pose proof table_size_ok. lia.
Qed.

(** An identifier is created, and no query has it. *)
Lemma create_txid_fresh s : inv s ->
  exists id r x, dns_create_txid s = Some (id, drift (calls s) r x s) /\ 0 <= x < 2 ^ 16 /\ 0 <= id < 2 ^ 16 /\
    forall j e, dns_table s !! j = Some e -> state e = DNS_STATE_ASKING -> txid e <> id.
Proof.
  intros Hs. pose proof (taken_length s Hs) as Hl. destruct (numbers_ok s Hs) as (Hx & _).
  destruct (create_txid_loop (if SECURE_RAND_XID then rand_fuel else 256) s Hx) as (id & r & x & E & Hx' & Hid & Hr).
  { unfold draw. destruct SECURE_RAND_XID; [by apply random_id|by apply counted_id]. }
  exists id, r, x. split_and!; try done; try lia. intros j e Hj He <-. apply Hid. unfold taken. apply list_elem_of_fmap. exists e. split; [done|].
  apply list_elem_of_filter. split; [done|]. by apply list_elem_of_lookup_2 in Hj.
Qed.

(** ** Ports *)

Lemma bind_loop_ends fuel : forall s, 0 <= dns_txid s < 2 ^ 16 ->
  (exists j, (j < fuel)%nat /\ 1024 <= draw j s /\ forall c, udp_bind_result c (draw j s) <> ERR_USE) ->
  exists err c r x, bind_loop fuel s = Some (err, drift c r x s) /\ 0 <= x < 2 ^ 16.
Proof.
  induction fuel as [|fuel IH]; intros s Hs (j & Hj & Hd & Hb); [lia|]. cbn [bind_loop].
  destruct (draw_next s Hs) as (r & x & Hx & -> & Hn).
  assert (Hnext : forall c, j <> 0%nat -> exists err c' r' x', bind_loop fuel (drift c r x s) = Some (err, drift c' r' x' s) /\ 0 <= x' < 2 ^ 16).
  { intros c Hne. destruct j as [|j]; [done|]. destruct (IH (drift c r x s) Hx) as (err & c' & r' & x' & -> & Hx').
    - exists j. split; [lia|]. by rewrite Hn.
    - by exists err, c', r', x'. }
  unfold DNS_PORT_ALLOWED. destruct (1024 <=? draw 0 s) eqn:E1.
  - unfold call. cbn [calls drift set_calls set_rands set_dns_txid]. change (set_calls ?k (drift _ r x s)) with (drift k r x s).
    destruct (_ =? ERR_USE) eqn:E2; [|by eexists _, _, r, x].
    apply (Hnext (S (calls s))). destruct j; [|done]. exfalso. apply (Hb (calls s)). lia.
  - cbn [Z.eqb Pos.eqb]. apply (Hnext (calls s)). destruct j; [lia|done].
Qed.

Lemma random_port_found s : 0 <= dns_txid s < 2 ^ 16 ->
  exists j, (j < rand_fuel)%nat /\ 1024 <= draw j s /\ forall c, udp_bind_result c (draw j s) <> ERR_USE.
Proof.
  intros Hs. unfold draw. destruct SECURE_RAND_XID; [apply random_port|apply counted_port].
Qed.

Lemma alloc_random_port_total s : 0 <= dns_txid s < 2 ^ 16 ->
  exists ok c r x, dns_alloc_random_port s = Some (ok, drift c r x s) /\ 0 <= x < 2 ^ 16.
Proof.
  intros Hs. unfold dns_alloc_random_port, call. destruct (negb (udp_new_ok _)).
  - exists false, (S (calls s)), (rands s), (dns_txid s). by destruct s.
  - destruct (bind_loop_ends rand_fuel (set_calls (S (calls s)) s) Hs) as (err & c & r & x & -> & Hx); [by apply random_port_found|].
    exists (err =? ERR_OK), c, r, x. by destruct s.
Qed.
End Draw.
End DnsDraw.
