(* ===== verification/DnsSteps.v ===== *)
(** The DNS resolver of lwIP: answers, queries and time as changes. *)

From stdpp Require Import gmap.
From S2P Require Export DnsDraw.
Export DnsDraw.
Open Scope Z_scope.

Module DnsSteps.

(** The table and the requests have the same size, as dns.c expects when it closes ports. *)
Class DnsSizes `{Opt : DnsOptions} : Prop := same_sizes : DNS_MAX_REQUESTS = DNS_TABLE_SIZE.

Section Steps.
Context {Opt : DnsOptions} {Pbufs : DnsPbufs} {Text : DnsText} {World : DnsWorld} {Kn : Known} {Rnd : DnsRandom} {Sizes : DnsSizes}.

Lemma entry_nat i s : entry (Z.of_nat i) s = dns_table s !! i.
Proof. unfold entry. rewrite Nat2Z.id. by replace (Z.of_nat i <? 0) with false by lia. Qed.

Lemma entry_put i e e' s : dns_table s !! i = Some e -> entry (Z.of_nat i) (put_entry (Z.of_nat i) e' s) = Some e'.
Proof. intros Hi. by rewrite entry_nat, (lookup_put i e), decide_True by done. Qed.

Lemma put_put i e e' s : put_entry (Z.of_nat i) e' (put_entry (Z.of_nat i) e s) = put_entry (Z.of_nat i) e' s.
Proof.
  transitivity (set_dns_table (<[Z.to_nat (Z.of_nat i) := e']> (<[Z.to_nat (Z.of_nat i) := e]> (dns_table s))) s); [done|].
  by rewrite list_insert_insert_eq.
Qed.

Lemma answer_put i e e' hostname addr pcbs s : put_entry (Z.of_nat i) e' (answer i e hostname addr pcbs s) = answer i e' hostname addr pcbs s.
Proof.
  unfold answer. rewrite <- (put_put i e e' s). reflexivity.
Qed.

Lemma call_requests_exact i hostname addr qs :
  call_requests qs i hostname addr = (clear i <$> qs, concat (answers_to i hostname addr <$> qs)).
Proof.
  induction qs as [|q qs IH]; [done|]. cbn [call_requests fmap list_fmap concat]. rewrite IH. clear IH.
  set (l := clear i <$> qs). set (es := concat _). unfold clear, is_for, answers_to.
  destruct (found q) as [c|]; [|by rewrite bool_decide_eq_false_2 by (by intros [? ?])].
  rewrite bool_decide_eq_true_2 by done. cbn [andb]. by destruct (_ =? i).
Qed.

(** ** Ports *)

Lemma port_shared_spec ids idx port s : (forall i, i ∈ ids -> (i < length (dns_table s))%nat) ->
  exists b, port_shared ids idx port s = Some b /\
    (b = true <-> exists j e, j ∈ ids /\ Z.of_nat j <> idx /\ dns_table s !! j = Some e /\ state e = DNS_STATE_ASKING /\ pcb_idx e = port).
Proof.
  induction ids as [|i ids IH]; intros Hids; cbn [port_shared].
  { exists false. split; [done|]. split; [done|]. intros (j & e & Hj & _). by apply elem_of_nil in Hj. }
  destruct IH as (b & Eb & Hb); [intros k Hk; apply Hids; by right|].
  assert (Hmore : forall e, dns_table s !! i = Some e -> Z.of_nat i = idx \/ asking e && (pcb_idx e =? port) = false ->
    b = true <-> exists j e, j ∈ i :: ids /\ Z.of_nat j <> idx /\ dns_table s !! j = Some e /\ state e = DNS_STATE_ASKING /\ pcb_idx e = port).
  { intros e He Hno. rewrite Hb. split; intros (j & e2 & Hj & Hne & Hj' & Ha & Hp); exists j, e2; split_and!; try done; [by right|].
    apply elem_of_cons in Hj as [->|Hj]; [|done]. exfalso. simplify_eq. destruct Hno as [?|Hno]; [done|].
    apply asking_true in Ha. rewrite Ha, Z.eqb_refl in Hno. done. }
  destruct (lookup_lt_is_Some_2 (dns_table s) i) as [e He]; [apply Hids; by left|].
  destruct (Z.of_nat i =? idx) eqn:Ei; [exists b; split; [done|]; apply (Hmore e He); left; lia|].
  rewrite He. cbn [mbind option_bind]. destruct (asking e && _) eqn:E; [|exists b; split; [done|]; by apply (Hmore e He); right].
  exists true. split; [done|]. split; [intros _|done]. exists i, e. apply andb_true_iff in E as [Ea Ep]. apply asking_true in Ea.
  split_and!; try done; [by left|lia|lia].
Qed.

(** What [dns_call_found] leaves of an entry. *)
Record same_answer (e e' : dns_table_entry) : Prop := {
  same_state : state e' = state e;
  same_ttl : ttl e' = ttl e;
  same_addr : ipaddr e' = ipaddr e;
  same_name_array : name e' = name e;
  same_txid : txid e' = txid e
}.

(** The port of a query that is answered. *)
Lemma release_port_freed s i e e1 : inv s -> dns_table s !! i = Some e -> busy e -> pcb_idx e1 = pcb_idx e -> quiet_but i s ->
  forall s1, SECURE_RAND_SRC_PORT = true -> dns_table s1 = <[i := e1]> (dns_table s) -> dns_pcbs s1 = dns_pcbs s ->
  exists pcbs, release_port (Z.of_nat i) s1 = Some (set_dns_pcbs pcbs (put_entry (Z.of_nat i) (set_pcb_idx DNS_MAX_SOURCE_PORTS e1) s1)) /\
    freed i e s pcbs.
Proof.
  intros Hs Hi Hb Hp Hq s1 Hsec Ht Hpc. pose proof (lookup_lt_Some _ _ _ Hi) as Hlt.
  assert (Hl : forall j, dns_table s1 !! j = if decide (j = i) then Some e1 else dns_table s !! j).
  { intros j. rewrite Ht. destruct (decide (j = i)) as [->|]; [by apply list_lookup_insert_eq|by apply list_lookup_insert_ne]. }
  unfold release_port. rewrite entry_nat, Hl, decide_True by done. cbn [mbind option_bind].
  destruct (port_shared_spec (seq 0 (Z.to_nat DNS_MAX_REQUESTS)) (Z.of_nat i) (pcb_idx e1) s1) as (b & -> & Hbs).
  { intros j Hj. apply elem_of_seq in Hj. rewrite Ht, length_insert, (table_length s Hs), <- same_sizes. lia. }
  cbn [mbind option_bind]. destruct b.
  - replace (DNS_MAX_SOURCE_PORTS <? DNS_MAX_SOURCE_PORTS) with false by lia. exists (dns_pcbs s1). split; [by destruct s1|]. left. split; [done|].
    intros _. destruct Hbs as [Hbs _]. destruct (Hbs eq_refl) as (j & e2 & _ & Hne & Hj & Ha & Hpj). exists j, e2. rewrite Hl in Hj.
    destruct (decide (j = i)) as [->|Hji]; [done|]. split_and!; try done; [by right|congruence].
  - destruct (ports_open s Hs Hsec i e Hi Hb) as (p & Hpe & Ho).
    assert (Hpm : Z.of_nat p < DNS_MAX_SOURCE_PORTS).
    { apply lookup_lt_Some in Ho. rewrite (pcbs_size s Hs) in Ho. lia. }
    rewrite Hp, Hpe. replace (Z.of_nat p <? DNS_MAX_SOURCE_PORTS) with true by lia. rewrite Nat2Z.id.
    change (dns_pcbs (put_entry _ _ _)) with (dns_pcbs s1). rewrite Hpc, Ho. cbn [mbind option_bind].
    exists (<[p := false]> (dns_pcbs s)). split.
    + f_equal. rewrite <- (put_put i (set_pcb_idx (Z.of_nat p) e1) (set_pcb_idx DNS_MAX_SOURCE_PORTS e1) s1). reflexivity.
    + right. split; [done|]. split; [|by exists p]. intros j e2 Hne Hj Hbj Hpj. destruct Hbs as [_ Hbs]. discriminate Hbs. exists j, e2. rewrite Hl.
      rewrite decide_False by done. split_and!; try done; [|lia| |congruence].
      * apply elem_of_seq. apply lookup_lt_Some in Hj. rewrite (table_length s Hs), <- same_sizes in Hj. lia.
      * destruct Hbj as [Hn|]; [|done]. by destruct (Hq j e2 Hj Hne).
Qed.

(** ** Answers *)

Lemma type_answered e a : asked_kind e a -> both_ip = true ->
  exists e', answered_type a e = Some e' /\ same_answer e e' /\ pcb_idx e' = pcb_idx e /\ asked_kind e' a.
Proof.
  intros Hk Hb. specialize (Hk Hb). unfold answered_type. rewrite <- Hk. destruct (is_v6 a) eqn:E.
  - rewrite lwip_assert_true by done. cbn [mbind option_bind]. eexists. split; [reflexivity|]. split; [done|]. split; [done|]. intros _. rewrite E.
    cbn [reqaddrtype set_reqaddrtype]. unfold LWIP_DNS_ADDRTYPE_IS_IPV6. by rewrite Hb.
  - rewrite lwip_assert_true by done. cbn [mbind option_bind]. eexists. split; [reflexivity|]. split; [done|]. split; [done|]. intros _. rewrite E.
    cbn [reqaddrtype set_reqaddrtype]. unfold LWIP_DNS_ADDRTYPE_IS_IPV6. by rewrite Hb.
Qed.

Lemma found_slot s i q : inv s -> SECURE_NO_MULTIPLE_OUTSTANDING = false -> dns_requests s !! i = Some q ->
  clear (Z.of_nat i) <$> dns_requests s = <[i := mkReq None (dns_table_idx q) (req_addrtype q)]> (dns_requests s) /\
  forall hostname addr, concat (answers_to (Z.of_nat i) hostname addr <$> dns_requests s) =
    match found q with Some c => [Found c hostname addr] | None => [] end.
Proof.
  intros Hs Hm Hq.
  assert (Hidx : forall r q c, dns_requests s !! r = Some q -> found q = Some c -> dns_table_idx q = Z.of_nat r).
  { intros r q2 c Hr Hc. destruct (requests_wait s Hs r q2 c Hr Hc) as (j & _ & -> & _ & _ & Hj). by rewrite Hj. }
  split.
  - apply list_eq. intros r. rewrite list_lookup_fmap. destruct (decide (r = i)) as [->|Hne].
    + rewrite Hq, list_lookup_insert_eq by (by apply lookup_lt_Some in Hq). cbn. f_equal. unfold clear.
      destruct (is_for (Z.of_nat i) q) eqn:E; [done|]. destruct (found q) as [c|] eqn:Ec; [|by destruct q; cbn in *; subst].
      enough (is_for (Z.of_nat i) q = true) by congruence. apply is_for_true. split; [by rewrite Ec|]. by apply (Hidx i q c).
    + rewrite list_lookup_insert_ne by done. destruct (dns_requests s !! r) as [q2|] eqn:E; [|done]. cbn. f_equal. unfold clear.
      destruct (is_for (Z.of_nat i) q2) eqn:E2; [|done]. apply is_for_true in E2 as [[c Hc] Hi]. rewrite (Hidx r q2 c E Hc) in Hi. lia.
  - intros hostname addr. destruct (list_elem_of_split_length _ _ _ Hq) as (l1 & l2 & El & Hl).
    assert (Hno : forall k l, (forall m q, l !! m = Some q -> dns_requests s !! (k + m)%nat = Some q /\ (k + m)%nat <> i) ->
      concat (answers_to (Z.of_nat i) hostname addr <$> l) = []).
    { intros k l Hl'. revert k Hl'. induction l as [|q2 l IH]; intros k Hl'; [done|]. cbn [fmap list_fmap concat].
      rewrite (IH (S k)); [|intros m q3 Hq3; destruct (Hl' (S m) q3 Hq3) as [H1 H2]; rewrite Nat.add_succ_r in H1, H2; done].
      destruct (Hl' 0%nat q2 eq_refl) as [H1 H2]. rewrite Nat.add_0_r in H1, H2. unfold answers_to. destruct (found q2) as [c|] eqn:Ec; [|done].
      rewrite (Hidx k q2 c H1 Ec). by replace (_ =? _) with false by lia. }
    rewrite El, fmap_app, concat_app. cbn [fmap list_fmap concat]. rewrite (Hno 0%nat l1), (Hno (S i) l2).
    + rewrite app_nil_r. cbn [app]. unfold answers_to. destruct (found q) as [c|] eqn:Ec; [|done]. rewrite (Hidx i q c Hq Ec). by rewrite Z.eqb_refl.
    + intros m q2 Hq2. rewrite El. split; [|lia]. rewrite lookup_app_r by lia. by replace (S i + m - length l1)%nat with (S m) by lia.
    + intros m q2 Hq2. rewrite El. pose proof (lookup_lt_Some _ _ _ Hq2). split; [|lia]. by rewrite lookup_app_l.
Qed.

(** [dns_call_found] on the query of an entry [e], whose other fields may have been set to
    those of [e1]. *)
Lemma call_found_answer s i e e1 addr hostname : inv s -> dns_table s !! i = Some e -> busy e -> quiet_but i s ->
  name e1 = name e -> pcb_idx e1 = pcb_idx e -> c_str (name e) = Some hostname -> (forall a, addr = Some a -> asked_kind e1 a) ->
  exists e2 pcbs, dns_call_found (Z.of_nat i) addr (put_entry (Z.of_nat i) e1 s) = Some (answer i e2 hostname addr pcbs s) /\
    freed i e s pcbs /\ same_answer e1 e2 /\ forall a, addr = Some a -> asked_kind e2 a.
Proof.
  intros Hs Hi Hb Hq Hn Hp Hh Hk. unfold dns_call_found. rewrite (entry_put i e) by done. cbn [mbind option_bind].
  assert (Ht : exists e2, (if both_ip then match addr with Some a => answered_type a e1 | None => Some e1 end else Some e1) = Some e2 /\
    same_answer e1 e2 /\ pcb_idx e2 = pcb_idx e1 /\ forall a, addr = Some a -> asked_kind e2 a).
  { destruct both_ip eqn:Eb; [|by exists e1]. destruct addr as [a|]; [|by exists e1].
    destruct (type_answered e1 a (Hk a eq_refl) Eb) as (e2 & -> & Hse & Hpe & Hke). exists e2. split_and!; try done. by intros a' [= <-]. }
  destruct Ht as (e2 & -> & Hse & Hpe & Hke). cbn [mbind option_bind]. rewrite (same_name_array _ _ Hse), Hn, Hh, put_put. cbn [mbind option_bind].
  set (s1 := put_entry (Z.of_nat i) e2 s).
  set (s2 := set_events (events s ++ concat (answers_to (Z.of_nat i) hostname addr <$> dns_requests s))
    (set_dns_requests (clear (Z.of_nat i) <$> dns_requests s) s1)).
  assert (Hreq : call_callbacks (Z.of_nat i) hostname addr s1 = Some s2).
  { unfold call_callbacks. destruct SECURE_NO_MULTIPLE_OUTSTANDING eqn:Em; [by rewrite call_requests_exact|]. rewrite Nat2Z.id.
    destruct (lookup_lt_is_Some_2 (dns_requests s) i) as [q Hr].
    { rewrite (requests_length s Hs), same_sizes, <- (table_length s Hs). by apply lookup_lt_Some in Hi. }
    change (dns_requests s1) with (dns_requests s). rewrite Hr. cbn [mbind option_bind]. f_equal.
    destruct (found_slot s i q Hs Em Hr) as [Hc He]. unfold s2. rewrite Hc, He. destruct (found q); [done|]. by rewrite app_nil_r. }
  rewrite Hreq. cbn [mbind option_bind]. destruct SECURE_RAND_SRC_PORT eqn:Esec.
  - destruct (release_port_freed s i e e2 Hs Hi Hb ltac:(congruence) Hq s2 Esec) as (pcbs & -> & Hf); [|done|].
    { unfold s2, s1. cbn. by rewrite Nat2Z.id. }
    exists (set_pcb_idx DNS_MAX_SOURCE_PORTS e2), pcbs. split_and!; try done.
    + f_equal. unfold answer. rewrite <- (put_put i e2 _ s). reflexivity.
    + by destruct Hse.
  - exists e2, (dns_pcbs s). split; [reflexivity|]. split; [|done]. left. split; [done|]. intros Hx. congruence.
Qed.

(** An entry is given up. *)
Lemma drop_query_answer s i e e1 : inv s -> dns_table s !! i = Some e -> busy e -> quiet_but i s ->
  wf_entry e1 -> name e1 = name e -> pcb_idx e1 = pcb_idx e ->
  exists e' hostname pcbs s', drop_query (Z.of_nat i) (put_entry (Z.of_nat i) e1 s) = Some s' /\ s' = answer i e' hostname None pcbs s /\
    state e' = DNS_STATE_UNUSED /\ c_str (name e) = Some hostname /\ change s s'.
Proof.
  intros Hs Hi Hb Hq Hw Hn Hp. destruct (entry_name e1 Hw) as [hostname Hh]. rewrite Hn in Hh.
  destruct (call_found_answer s i e e1 None hostname Hs Hi Hb Hq Hn Hp Hh) as (e2 & pcbs & E & Hf & Hse & _); [done|].
  unfold drop_query. rewrite E. cbn [mbind option_bind]. rewrite entry_nat, answer_table, (lookup_put i e), decide_True by done. cbn [mbind option_bind].
  rewrite answer_put. exists (set_state DNS_STATE_UNUSED e2), hostname, pcbs. eexists. split; [reflexivity|]. split; [done|]. split_and!; try done.
  apply (change_answer s i e); try done.
  - by intros [|].
  - destruct Hw, Hse as [_ _ _ Hna Htx]. split; cbn [name txid set_state]; rewrite ?Hna, ?Htx; try done. by intros [|].
Qed.

(** An answer is taken. *)
Lemma correct_response_answer s i e a t hostname : inv s -> dns_table s !! i = Some e -> busy e -> quiet_but i s ->
  c_str (name e) = Some hostname -> vouched hostname a -> asked_kind e a -> 0 <= t ->
  exists e' pcbs s', dns_correct_response (Z.of_nat i) t (put_entry (Z.of_nat i) (set_ipaddr a e) s) = Some s' /\
    s' = answer i e' hostname (Some a) pcbs s /\ change s s' /\ name e' = name e /\ ipaddr e' = a /\ asked_kind e' a /\
    (state e' = DNS_STATE_DONE /\ ttl e' = Z.min t DNS_MAX_TTL /\ 0 < Z.min t DNS_MAX_TTL \/ state e' = DNS_STATE_UNUSED /\ Z.min t DNS_MAX_TTL = 0).
Proof.
  intros Hs Hi Hb Hq Hh Hv Hk Ht. pose proof ttl_ok as Hmax. unfold dns_correct_response. rewrite (entry_put i e) by done. cbn [mbind option_bind]. rewrite put_put.
  set (e1 := set_ttl _ _). cbn [set_ttl set_state set_ipaddr ipaddr].
  assert (Hm : ttl e1 = Z.min t DNS_MAX_TTL) by (unfold e1; cbn; destruct (DNS_MAX_TTL <? t) eqn:E; lia).
  destruct (call_found_answer s i e e1 (Some a) hostname Hs Hi Hb Hq eq_refl eq_refl Hh) as (e2 & pcbs & E & Hf & Hse & Hke); [by intros a' [= <-]|].
  change (ipaddr e1) with a. rewrite E. cbn [mbind option_bind]. rewrite entry_nat, answer_table, (lookup_put i e), decide_True by done. cbn [mbind option_bind].
  destruct (entries_ok s Hs i e Hi) as [[Hsz Hnm Htx _] _]. destruct Hse as [H1 H2 H3 H4 H5]. specialize (Hke a eq_refl).
  change (state e1) with DNS_STATE_DONE in H1. change (ipaddr e1) with a in H3. change (name e1) with (name e) in H4. change (txid e1) with (txid e) in H5.
  rewrite H1, bool_decide_eq_true_2, andb_true_r, H2, Hm by done.
  assert (Hwf : wf_entry e2) by (split; rewrite ?H4, ?H5; try done; intros [Hx|Hx]; congruence).
  destruct (Z.min t DNS_MAX_TTL =? 0) eqn:E0.
  - rewrite answer_put. exists (set_state DNS_STATE_UNUSED e2), pcbs. eexists. split; [reflexivity|]. split; [done|].
    split; [|split_and!; try done; right; split; [done|lia]].
    apply (change_answer s i e); try done; [by intros [|]|]. destruct Hwf. split; try done. by intros [|].
  - exists e2, pcbs. eexists. split; [reflexivity|]. split; [done|]. split; [|split_and!; try done; left; split; [done|split; [congruence|lia]]].
    apply (change_answer s i e); try done; [intros [Hx|Hx]; congruence|].
    unfold settled. rewrite H1, H2, H3, H4, Hm. split; [lia|]. split; [done|]. intros n Hn. by simplify_eq.
Qed.
End Steps.
End DnsSteps.
