(* ===== verification/DnsRun.v ===== *)
(** The DNS resolver of lwIP: every operation succeeds and is made of changes. *)

From stdpp Require Import gmap.
From S2P Require Export DnsSteps.
Export DnsSteps.
Open Scope Z_scope.

Module DnsRun.

Section Run.
Context {Opt : DnsOptions} {Pbufs : DnsPbufs} {Text : DnsText} {World : DnsWorld} {Kn : Known} {Rnd : DnsRandom} {Sizes : DnsSizes}.

(** ** Time that is left *)

Lemma later_step k : later_tries k = (k + 1) + later_tries (k + 1).
Proof.
  unfold later_tries. set (n := DNS_MAX_RETRIES * _).
  replace (n - k * (k + 1)) with ((n - (k + 1) * (k + 1 + 1)) + (k + 1) * 2) by ring. rewrite Z.div_add by done. lia.
Qed.

Lemma later_last : later_tries (DNS_MAX_RETRIES - 1) = 0.
Proof. unfold later_tries. replace (_ - _) with 0 by ring. done. Qed.

Lemma later_nonneg k : 0 <= k < DNS_MAX_RETRIES -> 0 <= later_tries k.
Proof. intros Hk. apply Z.div_pos; [|done]. nia. Qed.

Lemma server_time_pos : 1 <= server_time.
Proof. unfold server_time. pose proof (later_nonneg 0) as H. pose proof retries_ok. lia. Qed.

Lemma query_time_pos : 1 <= query_time.
Proof. unfold query_time. pose proof server_time_pos. pose proof servers_ok. nia. Qed.

Lemma second_type_range e : 0 <= second_type e <= query_time.
Proof. unfold second_type. pose proof query_time_pos. destruct (_ && _); lia. Qed.

Lemma budget_asking e : state e = DNS_STATE_ASKING ->
  budget e = second_type e + ((DNS_MAX_SERVERS - 1 - server_idx e) * server_time + tmr e + later_tries (retries e)).
Proof. intros H. unfold budget. by rewrite H. Qed.

Lemma budget_new e : state e = DNS_STATE_NEW -> budget e = second_type e + query_time.
Proof. intros H. unfold budget. by rewrite H. Qed.

Lemma budget_positive e : state e = DNS_STATE_ASKING -> settled e -> second_type e + 1 <= budget e.
Proof.
  intros H Hs. rewrite budget_asking by done. unfold settled in Hs. rewrite H in Hs. pose proof (later_nonneg (retries e)).
  pose proof server_time_pos. nia.
Qed.

(** ** What an operation does *)

Lemma quiet_weaken i s : quiet s -> quiet_but i s.
Proof. intros Hq j e Hj _. by apply (Hq j). Qed.

Lemma quiet_put i e e' s : dns_table s !! i = Some e -> quiet_but i s -> state e' <> DNS_STATE_NEW -> quiet (put_entry (Z.of_nat i) e' s).
Proof.
  intros Hi Hq He j e2. rewrite (lookup_put i e) by done. destruct (decide (j = i)) as [->|Hne]; [by intros [= <-]|].
  intros Hj. by apply (Hq j).
Qed.

(** Only the entry [i] is touched. *)
Definition only (i : nat) (s s' : dns) : Prop := forall j, j <> i -> dns_table s' !! j = dns_table s !! j.

Lemma only_put i e' s : only i s (put_entry (Z.of_nat i) e' s).
Proof. intros j Hj. unfold put_entry. cbn. rewrite Nat2Z.id. by apply list_lookup_insert_ne. Qed.

Lemma only_trans i s1 s2 s3 : only i s1 s2 -> only i s2 s3 -> only i s1 s3.
Proof. intros H1 H2 j Hj. by rewrite H2, H1. Qed.

(** A call of the outside. *)
Lemma called_outside s : inv s -> change s (set_calls (S (calls s)) s).
Proof.
  intros Hs. assert (set_calls (S (calls s)) s = drift (S (calls s)) (rands s) (dns_txid s) s) as -> by (by destruct s).
  apply change_numbers. by apply (numbers_ok s Hs).
Qed.

(** ** Queries *)

Lemma c_str_size m h : c_str m = Some h -> size h < size m.
Proof.
  revert h. induction m as [|c m IH]; intros h E; [done|]. cbn [c_str] in E. destruct (c =? 0).
  - injection E as <-. rewrite size_cons. pose proof (size_nonneg m). change (size []) with 0. lia.
  - destruct (c_str m) as [h'|] eqn:Eh; [|done]. injection E as <-. rewrite !size_cons. specialize (IH h' eq_refl). lia.
Qed.

Lemma entry_server s e : inv s -> 0 <= server_idx e < DNS_MAX_SERVERS ->
  exists server, dns_servers s !! Z.to_nat (server_idx e) = Some server /\ configured server.
Proof.
  intros Hs He. destruct (lookup_lt_is_Some_2 (dns_servers s) (Z.to_nat (server_idx e))) as [a Ha].
  { rewrite (servers_length s Hs). lia. }
  exists a. split; [done|]. exact (Forall_lookup_1 _ _ _ _ (servers_configured s Hs) Ha).
Qed.

(** The control block of a query. *)
Lemma entry_pcb s i e : inv s -> dns_table s !! i = Some e -> busy e ->
  exists used, dns_pcbs s !! Z.to_nat (if SECURE_RAND_SRC_PORT then pcb_idx e else 0) = Some used.
Proof.
  intros Hs Hi Hb. destruct SECURE_RAND_SRC_PORT eqn:E.
  - destruct (ports_open s Hs E i e Hi Hb) as (p & -> & Hp). rewrite Nat2Z.id. by exists true.
  - apply lookup_lt_is_Some_2. rewrite (pcbs_size s Hs). pose proof ports_ok. lia.
Qed.

Lemma destination_ok e server id hostname : configured server -> ip_addr_isany server && negb (LWIP_DNS_SUPPORT_MDNS_QUERIES && is_mdns e) = false ->
  0 <= id < 2 ^ 16 ->
  event_ok (Sent (if SECURE_RAND_SRC_PORT then pcb_idx e else 0) (destination e server).1 (destination e server).2
    (query_bytes id (labels hostname) (query_type e))).
Proof.
  intros Hc Hany Hid. split.
  - exists id, hostname, (query_type e). split_and!; try done; try lia. unfold query_type. destruct (LWIP_DNS_ADDRTYPE_IS_IPV6 _); [by right|by left].
  - unfold destination. destruct (_ && is_mdns e); [|rewrite andb_true_r in Hany; by left]. right. split; [done|]. cbn. destruct (LWIP_DNS_ADDRTYPE_IS_IPV6 _); [by right|by left].
Qed.

Lemma send_moves s i e : inv s -> quiet s -> dns_table s !! i = Some e -> state e = DNS_STATE_ASKING ->
  exists err s', dns_send (Z.of_nat i) s = Some (err, s') /\ moves s s' /\ quiet s' /\ only i s s'.
Proof.
  intros Hs Hq Hi Ha. assert (Hb : busy e) by by right. destruct (entries_ok s Hs i e Hi) as [Hw He]. unfold settled in He. rewrite Ha in He.
  destruct (entry_server s e Hs ltac:(lia)) as (server & Esv & Hcfg). destruct (entry_pcb s i e Hs Hi Hb) as (used & Eu).
  unfold dns_send. rewrite entry_nat, Hi. cbn [mbind option_bind]. rewrite lwip_assert_true by lia. cbn [mbind option_bind].
  rewrite Esv. cbn [mbind option_bind]. destruct (ip_addr_isany server && _) eqn:Eany.
  - assert (Hpe : put_entry (Z.of_nat i) e s = s).
    { unfold put_entry. rewrite Nat2Z.id, list_insert_id by done. by destruct s. }
    destruct (drop_query_answer s i e e Hs Hi Hb (quiet_weaken i s Hq) Hw eq_refl eq_refl) as (e' & h & pcbs & s' & E & -> & Hst & _ & Hc).
    rewrite Hpe in E. rewrite E. cbn [mbind option_bind]. eexists _, _. split; [reflexivity|]. split; [by apply rtc_once|].
    split; [|apply (only_put i e' s)]. intros j e2. rewrite answer_table. apply (quiet_put i e e' s Hi (quiet_weaken i s Hq)). by rewrite Hst.
  - destruct (entry_name e Hw) as [h Hh]. rewrite Hh. cbn [mbind option_bind call].
    pose proof (called_outside s Hs) as Hc1. set (s1 := set_calls (S (calls s)) s) in *.
    assert (Hthen : quiet s1 /\ only i s s1) by done.
    destruct (pbuf_alloc (calls s) _) as [b|] eqn:Ealloc.
    2:{ eexists _, s1. split; [reflexivity|]. split; [by apply rtc_once|done]. }
    pose proof (c_str_size _ _ Hh) as Hsz. rewrite (entry_size e Hw) in Hsz. pose proof name_length_ok. pose proof (size_nonneg h).
    rewrite u16_small in Ealloc by (change (2 ^ 16) with 65536; lia). apply alloc_size in Ealloc; [|lia].
    rewrite write_query_exact by lia. cbn [mbind option_bind].
    change (dns_pcbs s1) with (dns_pcbs s). rewrite Eu. cbn [mbind option_bind].
    pose proof (destination_ok e server (txid e) h Hcfg Eany (entry_txid e Hw)) as Hev. destruct (destination e server) as [dst port].
    destruct used.
    + eexists _, _. split; [reflexivity|]. split; [|done]. eapply rtc_l; [exact Hc1|]. eapply rtc_l; [apply (called_outside s1); by apply (inv_change s)|].
      apply rtc_once. by apply change_sent.
    + eexists _, s1. split; [reflexivity|]. split; [by apply rtc_once|done].
Qed.

Lemma send_query_moves s i e0 e : inv (put_entry (Z.of_nat i) e s) -> dns_table s !! i = Some e0 -> quiet_but i s -> state e = DNS_STATE_ASKING ->
  exists s', send_query (Z.of_nat i) e s = Some s' /\ moves (put_entry (Z.of_nat i) e s) s' /\ quiet s' /\ only i s s'.
Proof.
  intros Hs Hi Hq Ha. unfold send_query.
  destruct (send_moves (put_entry (Z.of_nat i) e s) i e Hs) as (err & s' & E & Hm & Hq' & Ho); [|by rewrite (lookup_put i e0), decide_True|done|].
  { apply (quiet_put i e0); [done..|]. by rewrite Ha. }
  rewrite E. cbn [mbind option_bind]. exists s'. split_and!; try done. eapply only_trans; [apply only_put|done].
Qed.

(** ** Time *)

(** A second of a query: its time gets less, or it is given up. *)
Definition ticked (i : nat) (e : dns_table_entry) (s s' : dns) : Prop :=
  (exists e', dns_table (put_entry (Z.of_nat i) e' s) !! i = Some e' /\ state e' = DNS_STATE_ASKING /\ budget e' < budget e /\
     change s (put_entry (Z.of_nat i) e' s) /\ moves (put_entry (Z.of_nat i) e' s) s') \/
  (exists e' hostname pcbs, s' = answer i e' hostname None pcbs s /\ c_str (name e) = Some hostname /\ change s s').

Lemma ticked_moves i e s s' : ticked i e s s' -> moves s s'.
Proof. intros [(e' & _ & _ & _ & Hc & Hm)|(e' & h & pcbs & _ & _ & Hc)]; [by eapply rtc_l|by apply rtc_once]. Qed.

(** The query of an entry is changed. *)
Lemma query_changes s i e e' : inv s -> dns_table s !! i = Some e -> state e = DNS_STATE_ASKING -> state e' = DNS_STATE_ASKING ->
  name e' = name e -> txid e' = txid e -> pcb_idx e' = pcb_idx e -> is_mdns e' = is_mdns e -> settled e' -> budget e' <= budget e ->
  change s (put_entry (Z.of_nat i) e' s).
Proof.
  intros Hs Hi Ha Ha' Hn Ht Hp Hm He Hb. destruct (entries_ok s Hs i e Hi) as [[Hw1 Hw2 Hw3 Hw4] _].
  apply (change_query s i e); try done; [by right|by right|split; rewrite ?Hn, ?Ht, ?Hm; try done; intros _; apply Hw4; by right|].
  intros _ j e2 Hj Hj' Ha2. rewrite Ht. by apply (txids_differ s Hs j i).
Qed.

Lemma backup_server s e : inv s -> 0 <= server_idx e < DNS_MAX_SERVERS ->
  exists b, dns_backupserver_available e s = Some b /\ (b = true -> server_idx e + 1 < DNS_MAX_SERVERS).
Proof.
  intros Hs He. unfold dns_backupserver_available. destruct (_ <? _) eqn:E; [|by exists false].
  destruct (lookup_lt_is_Some_2 (dns_servers s) (Z.to_nat (server_idx e + 1))) as [a ->].
  { rewrite (servers_length s Hs). lia. }
  eexists. split; [reflexivity|]. intros _. lia.
Qed.

Lemma asking_ticks s i e : inv s -> quiet s -> dns_table s !! i = Some e -> state e = DNS_STATE_ASKING ->
  exists s', dns_check_entry (Z.of_nat i) s = Some s' /\ ticked i e s s' /\ quiet s' /\ only i s s'.
Proof.
  intros Hs Hq Hi Ha. destruct (entries_ok s Hs i e Hi) as [Hw He]. pose proof He as He0. unfold settled in He0. rewrite Ha in He0.
  pose proof table_size_ok. pose proof retries_ok. pose proof servers_ok. pose proof (lookup_lt_Some _ _ _ Hi) as Hlt. rewrite (table_length s Hs) in Hlt.
  unfold dns_check_entry. rewrite lwip_assert_true, entry_nat, Hi by lia. cbn [mbind option_bind]. rewrite Ha.
  pose proof (quiet_weaken i s Hq) as Hqb. rewrite (u8_small (tmr e - 1)) by lia. cbv zeta. cbn [tmr set_tmr].
  assert (Hsend : forall e', state e' = DNS_STATE_ASKING -> name e' = name e -> txid e' = txid e -> pcb_idx e' = pcb_idx e ->
    is_mdns e' = is_mdns e -> settled e' -> budget e' < budget e -> exists s', send_query (Z.of_nat i) e' s = Some s' /\ ticked i e s s' /\ quiet s' /\ only i s s').
  { intros e' A1 A2 A3 A4 A5 A6 A7. pose proof (query_changes s i e e' Hs Hi Ha A1 A2 A3 A4 A5 A6 ltac:(lia)) as Hc.
    destruct (send_query_moves s i e e' (inv_change _ _ Hs Hc) Hi Hqb A1) as (s' & E & Hm & Hq' & Ho). exists s'. split_and!; try done.
    left. exists e'. split_and!; try done. by rewrite (lookup_put i e), decide_True. }
  destruct (tmr e - 1 =? 0) eqn:E0.
  - unfold retry. cbn [retries set_retries set_tmr]. rewrite u8_small by lia. destruct (retries e + 1 =? DNS_MAX_RETRIES) eqn:E1.
    + match goal with |- context [dns_backupserver_available ?x s] => destruct (backup_server s x Hs ltac:(cbn; lia)) as (b & -> & Hb) end.
      cbn [mbind option_bind]. cbn [server_idx set_retries set_tmr] in Hb |- *.
      destruct (b && _) eqn:E2.
      * apply andb_true_iff in E2 as [-> _]. specialize (Hb eq_refl). rewrite u8_small by lia. apply Hsend; try done.
        { unfold settled. cbn. rewrite Ha. lia. }
        rewrite !budget_asking by done. cbn [set_retries set_tmr set_server_idx server_idx tmr retries].
        change (second_type _) with (second_type e) at 1. unfold server_time. replace (retries e) with (DNS_MAX_RETRIES - 1) by lia. rewrite later_last. nia.
      * match goal with |- context [put_entry _ ?e1 s] =>
          destruct (drop_query_answer s i e e1 Hs Hi (or_intror Ha) Hqb) as (e' & h & pcbs & s' & -> & -> & Hst & Hh & Hc); [by destruct Hw|done|done|] end.
        eexists. split; [reflexivity|]. split; [right; by exists e', h, pcbs|]. split; [|apply (only_put i e' s)].
        intros j e2. rewrite answer_table. apply (quiet_put i e e' s Hi Hqb). by rewrite Hst.
    + apply Hsend; try done.
      { unfold settled. cbn. rewrite Ha. lia. }
      rewrite !budget_asking by done. cbn [set_retries set_tmr set_server_idx server_idx tmr retries].
      change (second_type _) with (second_type e) at 1. rewrite (later_step (retries e)). lia.
  - assert (change s (put_entry (Z.of_nat i) (set_tmr (tmr e - 1) e) s) /\ budget (set_tmr (tmr e - 1) e) < budget e) as [Hc Hbu].
    { assert (budget (set_tmr (tmr e - 1) e) < budget e).
      { rewrite !budget_asking by done. cbn [set_tmr server_idx tmr retries]. change (second_type _) with (second_type e) at 1. lia. }
      split; [|done]. apply (query_changes s i e); try done; [|lia]. unfold settled. cbn. rewrite Ha. lia. }
    eexists. split; [reflexivity|]. split.
    { left. exists (set_tmr (tmr e - 1) e). split; [by rewrite (lookup_put i e), decide_True|]. split; [exact Ha|]. split; [exact Hbu|]. split; [exact Hc|]. apply rtc_refl. }
    split; [|apply only_put]. apply (quiet_put i e); [done..|]. cbn. by rewrite Ha.
Qed.

Lemma new_asks s i e : inv s -> quiet_but i s -> dns_table s !! i = Some e -> state e = DNS_STATE_NEW ->
  exists s', dns_check_entry (Z.of_nat i) s = Some s' /\ moves s s' /\ quiet s' /\ only i s s'.
Proof.
  intros Hs Hq Hi Ha. destruct (entries_ok s Hs i e Hi) as [[Hw1 Hw2 _ Hw4] _]. pose proof table_size_ok. pose proof retries_ok. pose proof servers_ok.
  pose proof (lookup_lt_Some _ _ _ Hi) as Hlt. rewrite (table_length s Hs) in Hlt.
  unfold dns_check_entry. rewrite lwip_assert_true, entry_nat, Hi by lia. cbn [mbind option_bind]. rewrite Ha.
  destruct (create_txid_fresh s Hs) as (id & r & x & -> & Hx & Hid & Hfree). cbn [mbind option_bind]. set (s1 := drift _ r x s).
  assert (Hc1 : change s s1) by by apply change_numbers. set (e1 := set_retries 0 _).
  assert (Hc2 : change s1 (put_entry (Z.of_nat i) e1 s1)).
  { apply (change_query s1 i e); try done; [by left|by right| | | |].
    - split; try done. intros _. apply Hw4. by left.
    - unfold settled, e1. cbn. lia.
    - rewrite (budget_new e), (budget_asking e1) by done. cbn [e1 set_retries set_tmr set_server_idx server_idx tmr retries].
      change (second_type e1) with (second_type e). unfold query_time, server_time. nia.
    - intros _ j e2 _ Hj Hj2. by apply (Hfree j). }
  destruct (send_query_moves s1 i e e1 (inv_change _ _ (inv_change _ _ Hs Hc1) Hc2) Hi Hq eq_refl) as (s' & -> & Hm & Hq' & Ho).
  exists s'. split; [done|]. split; [|done]. eapply rtc_l; [exact Hc1|]. by eapply rtc_l; [exact Hc2|].
Qed.

(** An answer in the table gets older. *)
Definition aged (e : dns_table_entry) : dns_table_entry :=
  let e' := set_ttl (ttl e - 1) e in if ttl e - 1 =? 0 then set_state DNS_STATE_UNUSED e' else e'.

Lemma done_ages s i e : inv s -> quiet s -> dns_table s !! i = Some e -> state e = DNS_STATE_DONE ->
  dns_check_entry (Z.of_nat i) s = Some (put_entry (Z.of_nat i) (aged e) s) /\ change s (put_entry (Z.of_nat i) (aged e) s) /\
  quiet (put_entry (Z.of_nat i) (aged e) s).
Proof.
  intros Hs Hq Hi Ha. destruct (entries_ok s Hs i e Hi) as [[Hw1 Hw2 Hw3 Hw4] He]. unfold settled in He. rewrite Ha in He. destruct He as (Ht & Hk & Hv).
  pose proof table_size_ok. pose proof (lookup_lt_Some _ _ _ Hi) as Hlt. rewrite (table_length s Hs) in Hlt.
  unfold dns_check_entry. rewrite lwip_assert_true, entry_nat, Hi by lia. cbn [mbind option_bind]. rewrite Ha. replace (ttl e =? 0) with false by lia.
  split; [done|]. unfold aged. cbn [ttl set_ttl]. destruct (ttl e - 1 =? 0) eqn:E.
  - split; [|apply (quiet_put i e); [done|by apply quiet_weaken|done]]. apply (change_cache s i e); try done; [|by intros [|]|].
    + intros [Hx|Hx]; congruence.
    + split; try done. by intros [|].
  - split; [|apply (quiet_put i e); [done|by apply quiet_weaken|cbn; congruence]]. apply (change_cache s i e); try done.
    + intros [Hx|Hx]; congruence.
    + intros [Hx|Hx]; cbn in Hx; congruence.
    + unfold settled. cbn. rewrite Ha. split; [lia|]. by split.
Qed.

Lemma check_entry_moves s i : inv s -> quiet s -> (i < length (dns_table s))%nat ->
  exists s', dns_check_entry (Z.of_nat i) s = Some s' /\ moves s s' /\ quiet s' /\ only i s s'.
Proof.
  intros Hs Hq Hlt. destruct (lookup_lt_is_Some_2 _ _ Hlt) as [e Hi]. destruct (state e) eqn:Ha.
  - exists s. pose proof table_size_ok. rewrite (table_length s Hs) in Hlt.
    unfold dns_check_entry. rewrite lwip_assert_true, entry_nat, Hi by lia. cbn [mbind option_bind]. rewrite Ha. by split_and!.
  - by destruct (Hq i e Hi).
  - destruct (asking_ticks s i e Hs Hq Hi Ha) as (s' & E & Ht & Hq' & Ho). exists s'. split_and!; try done. by eapply ticked_moves.
  - destruct (done_ages s i e Hs Hq Hi Ha) as (E & Hc & Hq'). eexists. split; [exact E|]. split; [by apply rtc_once|]. split; [done|apply only_put].
Qed.
End Run.
End DnsRun.
