(* ===== verification/DnsCalls.v ===== *)
(** The DNS resolver of lwIP: the timer, messages and requests as changes. *)

From stdpp Require Import gmap.
From S2P Require Export DnsRun.
Export DnsRun.
Open Scope Z_scope.

Module DnsCalls.

Section Calls.
Context {Opt : DnsOptions} {Pbufs : DnsPbufs} {Text : DnsText} {World : DnsWorld} {Kn : Known} {Rnd : DnsRandom} {Sizes : DnsSizes}.

(** ** The timer *)

Lemma check_entries_moves ids : forall s, inv s -> quiet s -> (forall i, i ∈ ids -> (i < length (dns_table s))%nat) ->
  exists s', check_entries ids s = Some s' /\ moves s s' /\ quiet s' /\ forall j, j ∉ ids -> dns_table s' !! j = dns_table s !! j.
Proof.
  induction ids as [|i ids IH]; intros s Hs Hq Hids; [by exists s|]. cbn [check_entries].
  destruct (check_entry_moves s i Hs Hq) as (s1 & -> & Hm & Hq1 & Ho); [apply Hids; by left|]. cbn [mbind option_bind].
  pose proof (inv_moves _ _ Hs Hm) as Hs1.
  destruct (IH s1 Hs1 Hq1) as (s' & E & Hm' & Hq' & Ho').
  { intros j Hj. rewrite (table_length s1 Hs1), <- (table_length s Hs). apply Hids. by right. }
  exists s'. split_and!; try done; [by etransitivity|]. intros j Hj. apply not_elem_of_cons in Hj as [Hji Hj]. by rewrite Ho', Ho.
Qed.

Lemma tmr_moves s : inv s -> quiet s -> exists s', dns_tmr s = Some s' /\ moves s s' /\ quiet s'.
Proof.
  intros Hs Hq. destruct (check_entries_moves (seq 0 (Z.to_nat DNS_TABLE_SIZE)) s Hs Hq) as (s' & E & Hm & Hq' & _).
  { intros i Hi. apply elem_of_seq in Hi. rewrite (table_length s Hs). lia. }
  by exists s'.
Qed.

(** ** Messages *)

(** The sender of an answer: a server that is configured, or anybody for a name of mDNS. *)
Definition trusted (hostname : list Z) (addr : ip_addr) : Prop := configured addr \/ mdns_name hostname = true.

(** The message speaks for its addresses. *)
Definition vouches (p : chain) (addr : ip_addr) : Prop :=
  forall q id hostname a, trusted hostname addr -> c_str q = Some hostname -> says p q id a -> vouched hostname a.

Lemma from_server_trusted s e hostname addr : inv s -> wf_entry e -> busy e -> c_str (name e) = Some hostname -> 0 <= server_idx e < DNS_MAX_SERVERS ->
  exists b, from_server e addr s = Some b /\ (b = true -> trusted hostname addr).
Proof.
  intros Hs Hw Hb Hn He. unfold from_server. destruct (_ && is_mdns e) eqn:E.
  - exists true. split; [done|]. intros _. right. apply andb_true_iff in E as [E1 E2]. by apply (entry_mdns e Hw Hb E2 E1).
  - destruct (entry_server s e Hs He) as (a & -> & Ha). cbn [mbind option_bind]. eexists. split; [reflexivity|].
    intros ->%bool_decide_eq_true. by left.
Qed.

Lemma drop_query_moves s i e : inv s -> quiet s -> dns_table s !! i = Some e -> state e = DNS_STATE_ASKING ->
  exists s', drop_query (Z.of_nat i) s = Some s' /\ moves s s' /\ quiet s'.
Proof.
  intros Hs Hq Hi Ha. destruct (entries_ok s Hs i e Hi) as [Hw _].
  destruct (drop_query_answer s i e e Hs Hi (or_intror Ha) (quiet_weaken i s Hq) Hw eq_refl eq_refl) as (e' & h & pcbs & s' & E & -> & Hst & _ & Hc).
  assert (Hpe : put_entry (Z.of_nat i) e s = s).
  { unfold put_entry. rewrite Nat2Z.id, list_insert_id by done. by destruct s. }
  rewrite Hpe in E. eexists. split; [exact E|]. split; [by apply rtc_once|].
  intros j e2. rewrite answer_table. apply (quiet_put i e e' s Hi (quiet_weaken i s Hq)). by rewrite Hst.
Qed.

Lemma no_answer_moves s i e : inv s -> quiet s -> dns_table s !! i = Some e -> state e = DNS_STATE_ASKING ->
  exists s', no_answer (Z.of_nat i) e s = Some s' /\ moves s s' /\ quiet s'.
Proof.
  intros Hs Hq Hi Ha. unfold no_answer. destruct (both_ip && _) eqn:E; [|by apply (drop_query_moves s i e)].
  cbv zeta. set (e1 := set_state _ _). destruct (entries_ok s Hs i e Hi) as [Hw He].
  assert (Hc : change s (put_entry (Z.of_nat i) e1 s)).
  { apply (change_query s i e); try done; [by right|by left| |].
    { destruct Hw as [? ? ? Hmd]. split; try done. intros _. apply Hmd. by right. }
    pose proof (budget_positive e Ha He) as Hb. rewrite (budget_new e1) by done. unfold second_type in Hb at 1. rewrite E in Hb.
    assert (second_type e1 = 0) as ->; [|lia]. unfold second_type, e1. cbn [reqaddrtype set_state set_reqaddrtype].
    destruct (reqaddrtype e =? LWIP_DNS_ADDRTYPE_IPV4_IPV6); by destruct both_ip. }
  destruct (new_asks (put_entry (Z.of_nat i) e1 s) i e1 (inv_change _ _ Hs Hc)) as (s' & -> & Hm & Hq' & _); [|by rewrite (lookup_put i e), decide_True|done|].
  { intros j e2 Hj Hji. rewrite (lookup_put i e), decide_False in Hj by done. by apply (Hq j). }
  exists s'. split_and!; try done. by eapply rtc_l.
Qed.

(** A reply to the query of an entry. *)
Lemma recv_reply_moves s i e hdr p addr : inv s -> quiet s -> dns_table s !! i = Some e -> state e = DNS_STATE_ASKING ->
  wf_chain p -> question_within p = true -> pbuf_copy_partial p SIZEOF_DNS_HDR 0 = hdr -> size hdr = 12 -> vouches p addr ->
  exists s', recv_reply (Z.of_nat i) e hdr p addr s = Some s' /\ moves s s' /\ quiet s'.
Proof.
  intros Hs Hq Hi Ha Hw Hqw Eh Hh Hv. destruct (entries_ok s Hs i e Hi) as [Hwe He]. pose proof He as He0. unfold settled in He0. rewrite Ha in He0.
  assert (Hsame : exists s', Some s = Some s' /\ moves s s' /\ quiet s') by (exists s; split_and!; [done|apply rtc_refl|done]).
  pose proof (copy_bytes p 12 0 Hw ltac:(lia) ltac:(lia)) as Hb. rewrite Eh in Hb.
  destruct (header_bytes hdr Hb Hh) as (f1 & f2 & El1 & El2 & Hb1 & Hb2 & _ & Ehd).
  unfold recv_reply. rewrite El1, El2. cbn [mbind option_bind]. destruct (Z.land f1 _ =? 0) eqn:E1; [done|]. destruct (negb (of_be (slice hdr 4 6) =? 1)) eqn:E2; [done|].
  destruct (entry_name e Hwe) as [h Hname].
  destruct (from_server_trusted s e h addr Hs Hwe (or_intror Ha) Hname ltac:(lia)) as (b & -> & Htr). cbn [mbind option_bind]. destruct b; cbn [negb]; [|done].
  destruct (our_question_total e p Hw (entry_size e Hwe) Hqw) as (question & Eq). rewrite Eq. cbn [mbind option_bind]. destruct question as [idx|]; [|done].
  pose proof (our_question_range e p idx Hw Eq) as Hqr.
  destruct (negb (Z.land f2 _ =? 0)) eqn:E3.
  - destruct (backup_server s e Hs ltac:(lia)) as (b & -> & _). cbn [mbind option_bind]. destruct b; [|by apply (drop_query_moves s i e)].
    pose proof retries_ok. rewrite u8_small by lia. set (e1 := set_tmr 1 _).
    assert (Hc : change s (put_entry (Z.of_nat i) e1 s)).
    { apply (query_changes s i e); try done.
      - unfold settled, e1. cbn. rewrite Ha. lia.
      - rewrite !budget_asking by done. unfold e1. cbn [set_tmr set_retries server_idx tmr retries]. change (second_type e1) with (second_type e).
        rewrite later_last. pose proof (later_nonneg (retries e)). unfold second_type. cbn [reqaddrtype set_tmr set_retries]. lia. }
    destruct (check_entry_moves (put_entry (Z.of_nat i) e1 s) i (inv_change _ _ Hs Hc)) as (s' & -> & Hm & Hq' & _).
    { apply (quiet_put i e); [done|by apply quiet_weaken|]. cbn. by rewrite Ha. }
    { rewrite put_length. by apply lookup_lt_Some in Hi. }
    exists s'. split_and!; try done. by eapply rtc_l.
  - assert (Hn : 0 <= of_be (slice hdr 6 8) < 2 ^ 32) by (apply slice_number; [done|lia|lia]).
    destruct (read_answers_total (S (Z.to_nat (of_be (slice hdr 6 8)))) e p (of_be (slice hdr 6 8)) idx Hw ltac:(lia) ltac:(lia)) as (v & Ev & Hvr).
    rewrite Ev. cbn [mbind option_bind]. destruct v as [|a t|]; [done| |by apply no_answer_moves].
    destruct (answer_says e p hdr a t idx Hw Eh Hh) as [Hsays Hkind]; try done; try lia.
    { intros f Ef. rewrite El1 in Ef. injection Ef as <-. lia. }
    { intros f Ef. rewrite El2 in Ef. injection Ef as <-. lia. }
    pose proof (Hv _ _ h a (Htr eq_refl) Hname Hsays) as Hvouch.
    destruct (correct_response_answer s i e a t h Hs Hi (or_intror Ha) (quiet_weaken i s Hq) Hname Hvouch Hkind ltac:(lia))
      as (e' & pcbs & s' & -> & -> & Hc & _ & _ & _ & Hst).
    eexists. split; [reflexivity|]. split; [by apply rtc_once|]. intros j e2. rewrite answer_table.
    apply (quiet_put i e e' s Hi (quiet_weaken i s Hq)). destruct Hst as [(-> & _)|(-> & _)]; done.
Qed.

Lemma first_index_spec {A} (f : A -> bool) l x : l !! first_index f l = Some x -> f x = true.
Proof. induction l as [|y l IH]; [done|]. cbn [first_index]. destruct (f y) eqn:E; [by intros [= <-]|]. exact IH. Qed.

Lemma recv_moves s p addr : inv s -> quiet s -> wf_chain p -> question_within p = true -> vouches p addr ->
  exists s', dns_recv p addr s = Some s' /\ moves s s' /\ quiet s'.
Proof.
  intros Hs Hq Hw Hqw Hv. assert (Hsame : exists s', Some s = Some s' /\ moves s s' /\ quiet s') by (exists s; split_and!; [done|apply rtc_refl|done]).
  unfold dns_recv. destruct (tot_len p <? _); [done|]. destruct (negb (size _ =? SIZEOF_DNS_HDR)) eqn:E; [done|].
  rewrite entry_nat. destruct (dns_table s !! _) as [e|] eqn:Hi; [|done]. pose proof (first_index_spec _ _ _ Hi) as Hf.
  apply andb_true_iff in Hf as [Hf _]. apply asking_true in Hf. apply recv_reply_moves; try done. lia.
Qed.
End Calls.
End DnsCalls.
