(* ===== verification/DnsRequests.v ===== *)
(** The DNS resolver of lwIP: requests. Every request is taken, refused, or answered at
    once; a request that is taken is a new query or joins one. *)

From stdpp Require Import gmap.
From S2P Require Export DnsCalls.
Export DnsCalls.
Open Scope Z_scope.

Module DnsRequests.

Section Requests.
Context {Opt : DnsOptions} {Pbufs : DnsPbufs} {Text : DnsText} {World : DnsWorld} {Kn : Known} {Rnd : DnsRandom} {Sizes : DnsSizes}.

(** ** Control blocks *)

Lemma next_pcb_total n : forall idx s, length (dns_pcbs s) = Z.to_nat DNS_MAX_SOURCE_PORTS -> 0 <= idx <= DNS_MAX_SOURCE_PORTS ->
  exists r, next_pcb n idx s = Some r /\ match r with Some i => 0 <= i < DNS_MAX_SOURCE_PORTS /\ dns_pcbs s !! Z.to_nat i = Some true | None => True end.
Proof.
  pose proof ports_ok. induction n as [|n IH]; intros idx s Hl Hi; [by exists None|]. cbn [next_pcb]. cbv zeta.
  set (i := if _ <=? idx then 0 else idx). assert (Hr : 0 <= i < DNS_MAX_SOURCE_PORTS) by (unfold i; destruct (_ <=? idx) eqn:E; lia).
  destruct (lookup_lt_is_Some_2 (dns_pcbs s) (Z.to_nat i)) as [b Hb]; [lia|]. rewrite Hb. cbn [mbind option_bind]. destruct b.
  - by exists (Some i).
  - apply IH; [done|]. rewrite u8_small by lia. lia.
Qed.

(** A control block is opened or shared, or there is none; nothing else changes. *)
Lemma alloc_pcb_total s : length (dns_pcbs s) = Z.to_nat DNS_MAX_SOURCE_PORTS -> 0 <= dns_txid s < 2 ^ 16 ->
  0 <= dns_last_pcb_idx s < DNS_MAX_SOURCE_PORTS ->
  exists i c r x last pcbs, dns_alloc_pcb s = Some (i, set_dns_last_pcb_idx last (set_dns_pcbs pcbs (drift c r x s))) /\
    0 <= x < 2 ^ 16 /\ 0 <= last < DNS_MAX_SOURCE_PORTS /\ length pcbs = length (dns_pcbs s) /\
    (i = DNS_MAX_SOURCE_PORTS /\ pcbs = dns_pcbs s /\ last = dns_last_pcb_idx s \/
     exists p, i = Z.of_nat p /\ (p < length pcbs)%nat /\ pcbs = <[p := true]> (dns_pcbs s)).
Proof.
  intros Hl Hx Hlast. pose proof ports_ok. unfold dns_alloc_pcb. set (n := first_index negb (dns_pcbs s)).
  assert (H1 : exists ok c r x, (if Z.of_nat n <? DNS_MAX_SOURCE_PORTS then
                '(ok, s) ← dns_alloc_random_port s; Some (ok, set_dns_pcbs (<[Z.to_nat (Z.of_nat n):=ok]> (dns_pcbs s)) s)
              else Some (false, s)) = Some (ok, set_dns_pcbs (<[n := ok]> (dns_pcbs s)) (drift c r x s)) /\ 0 <= x < 2 ^ 16 /\
              (ok = true -> (n < length (dns_pcbs s))%nat)).
  { destruct (_ <? _) eqn:E.
    - destruct (alloc_random_port_total s Hx) as (ok & c & r & x & -> & Hx'). cbn [mbind option_bind]. exists ok, c, r, x. rewrite Nat2Z.id.
      split; [done|]. split; [done|]. intros _. lia.
    - exists false, (calls s), (rands s), (dns_txid s). split; [|done]. rewrite list_insert_ge by lia. by destruct s. }
  destruct H1 as (ok & c & r & x & -> & Hx' & Hok). cbn [mbind option_bind]. destruct ok.
  - specialize (Hok eq_refl). exists (Z.of_nat n), c, r, x, (Z.of_nat n), (<[n := true]> (dns_pcbs s)). split; [done|]. split; [done|].
    split; [lia|]. rewrite length_insert. split; [done|]. right. by exists n.
  - assert (Hsame : <[n := false]> (dns_pcbs s) = dns_pcbs s).
    { destruct (dns_pcbs s !! n) as [b|] eqn:E; [|apply list_insert_ge; by apply lookup_ge_None in E].
      apply list_insert_id. pose proof (first_index_spec negb (dns_pcbs s) b E) as Hb. by destruct b. }
    rewrite Hsame. set (s1 := set_dns_pcbs _ _).
    destruct (next_pcb_total (Z.to_nat DNS_MAX_SOURCE_PORTS) (u8 (dns_last_pcb_idx s + 1)) s1) as (v & E & Hv); [done|rewrite u8_small by lia; lia|].
    change (dns_last_pcb_idx s1) with (dns_last_pcb_idx s). rewrite E. cbn [mbind option_bind]. destruct v as [i|].
    + destruct Hv as [Hi Hu]. exists i, c, r, x, i, (dns_pcbs s). split; [done|]. split; [done|]. split; [done|]. split; [done|]. right.
      exists (Z.to_nat i). split; [lia|]. split; [lia|]. symmetry. by apply list_insert_id.
    + exists DNS_MAX_SOURCE_PORTS, c, r, x, (dns_last_pcb_idx s), (dns_pcbs s). split; [by unfold s1; destruct s|]. split_and!; try done; try lia. by left.
Qed.

(** ** Joining a query *)

Lemma join_any_total t : forall i hostname callback dns_addrtype s, inv s -> (forall j e, t !! j = Some e -> dns_table s !! (i + j)%nat = Some e) ->
  exists r, join_any i t hostname callback dns_addrtype s = Some r /\
    match r with Some s' => SECURE_NO_MULTIPLE_OUTSTANDING = true -> accept hostname callback s s' /\ dns_table s' = dns_table s | None => True end.
Proof.
  induction t as [|e t IH]; intros i hostname callback dns_addrtype s Hs Ht; [by exists None|]. cbn [join_any].
  pose proof (Ht 0%nat e eq_refl) as Hi. rewrite Nat.add_0_r in Hi.
  assert (Hrec : exists r, join_any (S i) t hostname callback dns_addrtype s = Some r /\
    match r with Some s' => SECURE_NO_MULTIPLE_OUTSTANDING = true -> accept hostname callback s s' /\ dns_table s' = dns_table s | None => True end).
  { apply IH; [done|]. intros j e2 Hj. specialize (Ht (S j) e2 Hj). by rewrite Nat.add_succ_r in Ht. }
  assert (Hsame : exists same, (if asking e then n ← c_str (name e); Some (lwip_strnicmp hostname n DNS_MAX_NAME_LENGTH) else Some false) = Some same /\
    (same = true -> state e = DNS_STATE_ASKING /\ exists n, c_str (name e) = Some n /\ lwip_strnicmp hostname n DNS_MAX_NAME_LENGTH = true)).
  { destruct (asking e) eqn:Ea; [|by exists false]. destruct (entries_ok s Hs i e Hi) as [[_ [n Hn] _] _]. rewrite Hn. cbn [mbind option_bind].
    eexists. split; [done|]. intros Hsame. split; [by apply asking_true|]. by exists n. }
  destruct Hsame as (same & -> & Hask). cbn [mbind option_bind]. destruct (same && _) eqn:E; [|done]. apply andb_true_iff in E as [-> _].
  unfold join_query. destruct (dns_requests s !! _) as [q|] eqn:Hq; [|done]. cbn [mbind option_bind]. eexists. split; [reflexivity|].
  intros Hm. split; [|done]. pose proof (first_index_spec _ _ _ Hq) as Hf. apply bool_decide_eq_true in Hf.
  destruct (Hask eq_refl) as (Ha & n & Hn & Hsame). by apply (accept_join hostname callback s i _ e q _ n).
Qed.

(** ** A place in the table *)

Lemma find_place_spec t : forall k lseq lseqi sq, let '(i, l) := find_place (Z.of_nat k) t lseq lseqi sq in
  (i = Z.of_nat (k + length t) \/ exists j e, t !! j = Some e /\ state e = DNS_STATE_UNUSED /\ i = Z.of_nat (k + j)) /\
  (l = lseqi \/ exists j e, t !! j = Some e /\ state e = DNS_STATE_DONE /\ l = Z.of_nat (k + j)).
Proof.
  induction t as [|e t IH]; intros k lseq lseqi sq; cbn [find_place]; [split; [left; cbn; lia|by left]|].
  assert (Hrec : forall lseq' lseqi', let '(i, l) := find_place (Z.of_nat k + 1) t lseq' lseqi' sq in
    (i = Z.of_nat (k + length (e :: t)) \/ exists j e', (e :: t) !! j = Some e' /\ state e' = DNS_STATE_UNUSED /\ i = Z.of_nat (k + j)) /\
    (l = lseqi' \/ exists j e', (e :: t) !! j = Some e' /\ state e' = DNS_STATE_DONE /\ l = Z.of_nat (k + j))).
  { intros lseq' lseqi'. specialize (IH (S k) lseq' lseqi' sq). replace (Z.of_nat (S k)) with (Z.of_nat k + 1) in IH by lia.
    destruct (find_place _ t lseq' lseqi' sq) as [i l]. destruct IH as [H1 H2]. split.
    - destruct H1 as [->|(j & e' & Hj & Hst & ->)]; [left; cbn [length]; lia|right]. exists (S j), e'. split_and!; [done|done|lia].
    - destruct H2 as [->|(j & e' & Hj & Hst & ->)]; [by left|right]. exists (S j), e'. split_and!; [done|done|lia]. }
  destruct (state e) eqn:Est; [|apply Hrec| |].
  - split; [right; exists 0%nat, e; by rewrite Nat.add_0_r|by left].
  - apply Hrec.
  - destruct (lseq <? _); [|apply Hrec]. specialize (Hrec (u8 (sq - seqno e)) (Z.of_nat k)). destruct (find_place _ t _ _ sq) as [i l].
    destruct Hrec as [H1 H2]. split; [done|]. right. destruct H2 as [->|H2]; [|done]. exists 0%nat, e. by rewrite Nat.add_0_r.
Qed.

(** ** New queries *)

Lemma c_str_app h rest : Forall (fun c => c <> 0) h -> c_str (h ++ 0 :: rest) = Some h.
Proof.
  induction 1 as [|c h Hc _ IH]; [done|]. cbn [app c_str]. replace (c =? 0) with false by lia. by rewrite IH.
Qed.

(** A string that fits into the array of a name. *)
Record fits (hostname : list Z) : Prop := {
  fits_string : Forall (fun c => c <> 0) hostname;
  fits_size : size hostname < DNS_MAX_NAME_LENGTH
}.

Lemma copy_name_exact hostname old : fits hostname -> size old = DNS_MAX_NAME_LENGTH ->
  exists rest, copy_name hostname old = hostname ++ 0 :: rest /\ size (copy_name hostname old) = DNS_MAX_NAME_LENGTH /\ c_str (copy_name hostname old) = Some hostname.
Proof.
  intros [Hc Hs] Ho. unfold copy_name. rewrite Z.min_l by lia. rewrite to_nat_size, take_ge by done. pose proof (size_nonneg hostname).
  exists (drop (Z.to_nat (size hostname + 1)) old). split; [done|]. split; [|by apply c_str_app].
  unfold size in *. rewrite !length_app, length_drop. cbn [length]. lia.
Qed.

(** The control block of a new query. *)
Lemma query_port s1 port : length (dns_pcbs s1) = Z.to_nat DNS_MAX_SOURCE_PORTS -> 0 <= dns_txid s1 < 2 ^ 16 ->
  0 <= dns_last_pcb_idx s1 < DNS_MAX_SOURCE_PORTS ->
  exists i c r x last pcbs, (if SECURE_RAND_SRC_PORT then dns_alloc_pcb s1 else Some (port, s1)) =
      Some (i, set_dns_last_pcb_idx last (set_dns_pcbs pcbs (drift c r x s1))) /\
    0 <= x < 2 ^ 16 /\ 0 <= last < DNS_MAX_SOURCE_PORTS /\ length pcbs = length (dns_pcbs s1) /\
    if SECURE_RAND_SRC_PORT && (DNS_MAX_SOURCE_PORTS <=? i) then pcbs = dns_pcbs s1 /\ last = dns_last_pcb_idx s1
    else SECURE_RAND_SRC_PORT = true -> exists p, i = Z.of_nat p /\ (p < length pcbs)%nat /\ pcbs = <[p := true]> (dns_pcbs s1).
Proof.
  intros Hl Hx Hlast. destruct SECURE_RAND_SRC_PORT.
  - destruct (alloc_pcb_total s1 Hl Hx Hlast) as (i & c & r & x & last & pcbs & E & Hx' & Hl' & Hp & Hi). exists i, c, r, x, last, pcbs.
    split_and!; try done; try lia. cbn [andb]. destruct (_ <=? i) eqn:Ei.
    + destruct Hi as [(_ & Hp' & Hl'')|(p & -> & Hlt & _)]; [done|]. lia.
    + intros _. destruct Hi as [(-> & _)|Hi]; [lia|done].
  - exists port, (calls s1), (rands s1), (dns_txid s1), (dns_last_pcb_idx s1), (dns_pcbs s1). split; [by destruct s1|]. split; [exact Hx|]. split; [exact Hlast|]. split; [done|]. by cbn.
Qed.

(** A request is taken, or nothing comes of it. *)
Definition taken_or_not (hostname : list Z) (callback : option Z) (err : Z) (s s' : dns) : Prop :=
  (err = ERR_INPROGRESS /\ exists s1 s2, moves s s1 /\ inv s1 /\ accept hostname callback s1 s2 /\ moves s2 s') \/ (err <> ERR_INPROGRESS /\ moves s s').

Lemma new_query_taken s i r hostname callback dns_addrtype e q : inv s -> quiet s -> fits hostname ->
  dns_table s !! i = Some e -> ~ busy e -> dns_requests s !! r = Some q -> found q = None -> (SECURE_NO_MULTIPLE_OUTSTANDING = false -> i = r) ->
  exists err s', new_query (Z.of_nat i) r hostname callback dns_addrtype (mdns_name hostname) s = Some (err, s') /\ err <> ERR_OK /\ quiet s' /\ taken_or_not hostname callback err s s'.
Proof.
  intros Hs Hq Hfit Hi Hb Hr Hfq Hm. destruct (entries_ok s Hs i e Hi) as [[Hw1 Hw2 Hw3 _] _]. destruct (numbers_ok s Hs) as (Hx & Hsq & Hlast).
  unfold new_query. rewrite entry_nat, Hi. cbn [mbind option_bind]. cbv zeta.
  set (t e := if both_ip then set_reqaddrtype dns_addrtype e else e).
  set (req := mkReq callback _ _). set (e0 := set_name _ _).
  destruct (copy_name_exact hostname (name e) Hfit Hw1) as (rest & _ & Hns & Hnc).
  assert (He0 : state e0 = DNS_STATE_NEW /\ name e0 = copy_name hostname (name e) /\ txid e0 = txid e).
  { unfold e0, t. destruct both_ip; cbn; (split; [done|split; done]). }
  destruct He0 as (Hst & Hna & Htx). clearbody e0. clear t.
  set (s1 := put_entry (Z.of_nat i) e0 _).
  destruct (query_port s1 (pcb_idx e0) (pcbs_size s Hs) Hx Hlast) as (port & c & rn & x & last & pcbs & -> & Hx' & Hlast' & Hpl & Hport).
  cbn [mbind option_bind]. set (e1 := set_pcb_idx port e0).
  assert (Hc1 : change s (drift c rn x s)) by by apply change_numbers. pose proof (inv_change _ _ Hs Hc1) as Hs1.
  destruct (SECURE_RAND_SRC_PORT && _) eqn:Esec.
  - destruct Hport as [Hpc Hla]. eexists _, _. split; [reflexivity|].
    set (e2 := set_state DNS_STATE_UNUSED e1). set (req2 := mkReq None _ _).
    assert (Heq : put_entry (Z.of_nat i) e2 (set_dns_requests (<[r := req2]> (dns_requests (set_dns_last_pcb_idx last (set_dns_pcbs pcbs (drift c rn x s1)))))
      (set_dns_last_pcb_idx last (set_dns_pcbs pcbs (drift c rn x s1)))) =
      put_entry (Z.of_nat i) e2 (set_dns_requests (<[r := req2]> (dns_requests s)) (drift c rn x s))).
    { transitivity (put_entry (Z.of_nat i) e2 (put_entry (Z.of_nat i) e0 (set_dns_requests (<[r := req2]> (<[r := req]> (dns_requests s)))
        (set_dns_last_pcb_idx last (set_dns_pcbs pcbs (drift c rn x s)))))); [reflexivity|].
      rewrite put_put, list_insert_insert_eq, Hpc, Hla. unfold s1. clear. by destruct s. }
    rewrite Heq. split; [done|]. split.
    + apply (quiet_put i e); [done|by apply quiet_weaken|done].
    + right. split; [done|]. eapply rtc_l; [exact Hc1|]. eapply rtc_l; [by apply (change_slot (drift c rn x s) r q req2)|]. apply rtc_once.
      apply (change_cache (set_dns_requests (<[r := req2]> (dns_requests s)) (drift c rn x s)) i e e2); try done; [by intros [|]|].
      split; [change (name e2) with (name e0); by rewrite Hna|change (name e2) with (name e0); rewrite Hna; by eexists|change (txid e2) with (txid e0); by rewrite Htx|by intros [|]].
  - set (e2 := if LWIP_DNS_SUPPORT_MDNS_QUERIES then set_is_mdns (mdns_name hostname) e1 else e1).
    assert (He2 : state e2 = DNS_STATE_NEW /\ name e2 = copy_name hostname (name e) /\ txid e2 = txid e /\ pcb_idx e2 = port /\
      (LWIP_DNS_SUPPORT_MDNS_QUERIES = true -> is_mdns e2 = mdns_name hostname)).
    { unfold e2, e1. destruct LWIP_DNS_SUPPORT_MDNS_QUERIES; cbn; by rewrite Hst, Hna, Htx. }
    destruct He2 as (Hst2 & Hna2 & Htx2 & Hpc2 & Hmd2). clearbody e2.
    set (s3 := set_dns_seqno _ _).
    assert (Hs3 : s3 = set_dns_seqno (u8 (dns_seqno s + 1)) (set_dns_last_pcb_idx last (set_dns_pcbs pcbs
      (put_entry (Z.of_nat i) e2 (set_dns_requests (<[r := req]> (dns_requests s)) (drift c rn x s)))))).
    { unfold s3, s1. rewrite <- (put_put i e0 e2 (set_dns_requests _ (drift c rn x s))). reflexivity. }
    assert (Hacc : accept hostname callback (drift c rn x s) s3).
    { rewrite Hs3. apply (accept_new hostname callback (drift c rn x s) i r e q e2 req last (u8 (dns_seqno s + 1)) pcbs); try done.
      - split; [by rewrite Hna2|rewrite Hna2; by eexists|by rewrite Htx2|].
        intros _ Hmd Hsup n. rewrite Hna2, Hnc. intros [= <-]. by rewrite <- Hmd2.
      - by rewrite Hna2.
      - rewrite budget_new by done. pose proof (second_type_range e2). lia.
      - by apply Z.mod_pos_bound.
      - intros Hsec. destruct (Hport Hsec) as (p & -> & Hlt & Hpc). exists p. by split_and!. }
    pose proof (inv_accept _ _ _ _ Hs1 Hacc) as Hi3.
    assert (Ht3 : forall j, dns_table s3 !! j = if decide (j = i) then Some e2 else dns_table s !! j).
    { intros j. rewrite Hs3. apply (lookup_put i e e2 (set_dns_requests (<[r := req]> (dns_requests s)) (drift c rn x s)) j Hi). }
    destruct (new_asks s3 i e2 Hi3) as (s' & E & Hmv & Hq' & _); [|by rewrite Ht3, decide_True|done|].
    { intros j e3 Hj Hne. rewrite Ht3, decide_False in Hj by done. by apply (Hq j). }
    rewrite E. cbn [mbind option_bind]. exists ERR_INPROGRESS, s'. split; [done|]. split; [done|]. split; [done|]. left. split; [done|].
    exists (drift c rn x s), s3. split_and!; try done. by apply rtc_once.
Qed.

(** The entry of a new query, when there is one. *)
Lemma place_found s : inv s -> exists i, (let (i, lseqi) := find_place 0 (dns_table s) 0 DNS_TABLE_SIZE (dns_seqno s) in
      if i =? DNS_TABLE_SIZE then
        if DNS_TABLE_SIZE <=? lseqi then Some None
        else e ← entry lseqi s; Some (if bool_decide (state e = DNS_STATE_DONE) then Some lseqi else None)
      else Some (Some i)) = Some i /\
    match i with Some i => exists k e, i = Z.of_nat k /\ dns_table s !! k = Some e /\ ~ busy e | None => True end.
Proof.
  intros Hs. pose proof table_size_ok. pose proof (find_place_spec (dns_table s) 0 0 DNS_TABLE_SIZE (dns_seqno s)) as Hf.
  change (Z.of_nat 0) with 0 in Hf. destruct (find_place _ _ _ _ _) as [i l]. destruct Hf as [Hi Hl]. rewrite (table_length s Hs) in Hi.
  assert (Hidle : forall e, state e = DNS_STATE_UNUSED \/ state e = DNS_STATE_DONE -> ~ busy e) by (intros e [E|E] [Hb|Hb]; congruence).
  destruct (i =? DNS_TABLE_SIZE) eqn:Ei.
  - destruct (DNS_TABLE_SIZE <=? l) eqn:El; [by exists None|]. destruct Hl as [->|(j & e & Hj & Hst & ->)]; [lia|].
    cbn [Nat.add]. rewrite entry_nat, Hj. cbn [mbind option_bind]. rewrite bool_decide_eq_true_2 by done. eexists. split; [reflexivity|].
    exists j, e. split_and!; try done. apply Hidle. by right.
  - eexists. split; [reflexivity|]. destruct Hi as [->|(j & e & Hj & Hst & ->)]; [lia|]. exists j, e. split_and!; try done. apply Hidle. by left.
Qed.

Lemma idle_request s i e : inv s -> SECURE_NO_MULTIPLE_OUTSTANDING = false -> dns_table s !! i = Some e -> ~ busy e ->
  exists q, dns_requests s !! i = Some q /\ found q = None.
Proof.
  intros Hs Hm Hi Hb. destruct (lookup_lt_is_Some_2 (dns_requests s) i) as [q Hq].
  { rewrite (requests_length s Hs), same_sizes, <- (table_length s Hs). by apply lookup_lt_Some in Hi. }
  exists q. split; [done|]. destruct (found q) as [c|] eqn:E; [|done]. exfalso.
  destruct (requests_wait s Hs i q c Hq E) as (j & e2 & _ & Hj & Hbj & Hji). specialize (Hji Hm) as ->. by simplify_eq.
Qed.

Lemma enqueue_taken s hostname callback dns_addrtype : inv s -> quiet s -> fits hostname ->
  exists err s', dns_enqueue hostname callback dns_addrtype (mdns_name hostname) s = Some (err, s') /\ err <> ERR_OK /\ quiet s' /\ taken_or_not hostname callback err s s'.
Proof.
  intros Hs Hq Hfit. unfold dns_enqueue.
  assert (Hj : exists joined, (if SECURE_NO_MULTIPLE_OUTSTANDING then join_any 0 (dns_table s) hostname callback dns_addrtype s else Some None) = Some joined /\
    match joined with Some s' => accept hostname callback s s' /\ dns_table s' = dns_table s | None => True end).
  { destruct SECURE_NO_MULTIPLE_OUTSTANDING eqn:E; [|by exists None].
    destruct (join_any_total (dns_table s) 0 hostname callback dns_addrtype s Hs) as (r & -> & Hr); [done|]. exists r. split; [done|].
    destruct r; [by apply Hr|done]. }
  destruct Hj as (joined & -> & Hjoin). cbn [mbind option_bind]. destruct joined as [s'|].
  { destruct Hjoin as [Ha Ht]. exists ERR_INPROGRESS, s'. split; [done|]. split; [done|]. split; [intros j e; rewrite Ht; apply Hq|]. left. split; [done|].
    exists s, s'. split_and!; try done; apply rtc_refl. }
  destruct (place_found s Hs) as (i & Ei & Hi). destruct (find_place _ _ _ _ _) as [i' l]. rewrite Ei. cbn [mbind option_bind].
  assert (Hmem : exists err s', Some (ERR_MEM, s) = Some (err, s') /\ err <> ERR_OK /\ quiet s' /\ taken_or_not hostname callback err s s').
  { exists ERR_MEM, s. split; [done|]. split; [done|]. split; [done|]. right. split; [done|apply rtc_refl]. }
  destruct i as [i|]; [|done]. destruct Hi as (k & e & -> & Hk & Hb).
  destruct SECURE_NO_MULTIPLE_OUTSTANDING eqn:Em.
  - cbv zeta. destruct (_ <? DNS_MAX_REQUESTS) eqn:E; [|done]. pose proof requests_ok.
    destruct (lookup_lt_is_Some_2 (dns_requests s) (first_index (fun r => bool_decide (found r = None)) (dns_requests s))) as [q Hr].
    { rewrite (requests_length s Hs). lia. }
    pose proof (first_index_spec _ _ _ Hr) as Hf. apply bool_decide_eq_true in Hf.
    apply (new_query_taken s k _ hostname callback dns_addrtype e q); try done. congruence.
  - rewrite Nat2Z.id. destruct (idle_request s k e Hs Em Hk Hb) as (q & Hr & Hf).
    by apply (new_query_taken s k k hostname callback dns_addrtype e q).
Qed.

(** ** Lookups *)

(** An address in the table is one of an answer for this name. *)
Definition cached (hostname : list Z) (dns_addrtype : Z) (a : ip_addr) (s : dns) : Prop :=
  exists i e n, dns_table s !! i = Some e /\ state e = DNS_STATE_DONE /\ c_str (name e) = Some n /\ ipaddr e = a /\ vouched n a /\
    lwip_strnicmp hostname n DNS_MAX_NAME_LENGTH = true /\ LWIP_DNS_ADDRTYPE_MATCH_IP dns_addrtype a = true.

Lemma lookup_table_total s t hostname dns_addrtype : inv s -> (forall e, e ∈ t -> e ∈ dns_table s) ->
  exists r, lookup_table t hostname dns_addrtype = Some r /\ match r with Some a => cached hostname dns_addrtype a s | None => True end.
Proof.
  intros Hs. induction t as [|e t IH]; intros Ht; [by exists None|]. cbn [lookup_table].
  destruct IH as (r & Er & Hr); [intros e' He'; apply Ht; by right|].
  destruct (bool_decide _) eqn:Ed; [|by exists r]. apply bool_decide_eq_true in Ed.
  destruct (list_elem_of_lookup_1 _ _ (Ht e ltac:(by left))) as [i Hi]. destruct (entries_ok s Hs i e Hi) as [[_ [n Hn] _] He].
  unfold settled in He. rewrite Ed in He. destruct He as (_ & _ & Hv). rewrite Hn. cbn [mbind option_bind].
  destruct (_ && _) eqn:E; [|by exists r]. apply andb_true_iff in E as [E1 E2]. eexists. split; [reflexivity|]. exists i, e, n. split_and!; try done. by apply Hv.
Qed.

(** An address of the local host list. *)
Definition is_local (hostname : list Z) (dns_addrtype : Z) (a : ip_addr) (s : dns) : Prop :=
  exists n, (n, a) ∈ local_hostlist_dynamic s /\ lwip_stricmp n hostname = true /\ LWIP_DNS_ADDRTYPE_MATCH_IP dns_addrtype a = true.

Lemma lookup_hosts_spec hosts hostname dns_addrtype a : lookup_hosts hosts hostname dns_addrtype = Some a ->
  exists n, (n, a) ∈ hosts /\ lwip_stricmp n hostname = true /\ LWIP_DNS_ADDRTYPE_MATCH_IP dns_addrtype a = true.
Proof.
  induction hosts as [|[n a2] hosts IH]; [done|]. cbn [lookup_hosts]. destruct (_ && _) eqn:E.
  - intros [= ->]. apply andb_true_iff in E as [E1 E2]. exists n. split; [by left|done].
  - intros H. destruct (IH H) as (n' & Hn & ?). exists n'. split; [by right|done].
Qed.

Lemma dns_lookup_total s hostname dns_addrtype : inv s ->
  exists r, dns_lookup hostname dns_addrtype s = Some r /\
    match r with Some a => is_local hostname dns_addrtype a s \/ cached hostname dns_addrtype a s | None => True end.
Proof.
  intros Hs. unfold dns_lookup. destruct (if DNS_LOCAL_HOSTLIST then _ else None) as [a|] eqn:E.
  - exists (Some a). split; [done|]. left. destruct DNS_LOCAL_HOSTLIST; [|done]. by apply lookup_hosts_spec.
  - destruct (lookup_table_total s (dns_table s) hostname dns_addrtype Hs) as (r & -> & Hr); [done|]. exists r. split; [done|]. destruct r; [by right|done].
Qed.

(** What may be given at once for a name: the address of the loop interface, one that is
    written out, one of the local list, and one of an answer. *)
Definition known_for (hostname : list Z) (a : ip_addr) (s : dns) : Prop :=
  (hostname = localhost /\ a = loopback (is_v6 a)) \/ ipaddr_aton hostname = Some a \/
  exists t, is_local hostname t a s \/ cached hostname t a s.

Lemma known_total s hostname dns_addrtype : inv s ->
  exists r, (known ← known_address hostname dns_addrtype s;
      match known with Some a => Some (Some a) | None => fallback_lookup hostname dns_addrtype s end) = Some r /\
    match r with Some a => known_for hostname a s | None => True end.
Proof.
  intros Hs. destruct (dns_lookup_total s hostname dns_addrtype Hs) as (r1 & E1 & H1).
  assert (Hfb : exists r, fallback_lookup hostname dns_addrtype s = Some r /\ match r with Some a => known_for hostname a s | None => True end).
  { unfold fallback_lookup. destruct (both_ip && _); [|by exists None].
    destruct (dns_lookup_total s hostname (if dns_addrtype =? LWIP_DNS_ADDRTYPE_IPV4_IPV6 then LWIP_DNS_ADDRTYPE_IPV6 else LWIP_DNS_ADDRTYPE_IPV4) Hs)
      as (r & -> & Hr). exists r. split; [done|]. destruct r; [|done]. right. right. by eexists. }
  assert (Hlook : exists r, (known ← dns_lookup hostname dns_addrtype s;
      match known with Some a => Some (Some a) | None => fallback_lookup hostname dns_addrtype s end) = Some r /\
    match r with Some a => known_for hostname a s | None => True end).
  { rewrite E1. cbn [mbind option_bind]. destruct r1 as [a|]; [|done]. exists (Some a). split; [done|]. right. right. by exists dns_addrtype. }
  unfold known_address. destruct (LWIP_HAVE_LOOPIF && _) eqn:El.
  { eexists. split; [reflexivity|]. left. apply andb_true_iff in El as [_ El%bool_decide_eq_true]. split; [done|].
    by destruct (LWIP_DNS_ADDRTYPE_IS_IPV6 dns_addrtype). }
  destruct (ipaddr_aton hostname) as [a|] eqn:Ea; [|exact Hlook]. destruct (_ || _); [|exact Hlook].
  exists (Some a). split; [done|]. right. by left.
Qed.

(** What a request returns. *)
Lemma request_taken s hostname callback dns_addrtype : inv s -> quiet s ->
  match hostname with Some h => Forall (fun c => c <> 0) h | None => True end ->
  exists err addr s', dns_gethostbyname_addrtype hostname callback dns_addrtype s = Some (err, addr, s') /\ quiet s' /\ taken_or_not (default [] hostname) callback err s s' /\
    match addr with Some a => err = ERR_OK /\ s' = s /\ exists h, hostname = Some h /\ known_for h a s | None => err <> ERR_OK end.
Proof.
  intros Hs Hq Hc.
  assert (Hno : forall err, err <> ERR_INPROGRESS -> err <> ERR_OK -> exists err' addr s', Some (err, @None ip_addr, s) = Some (err', addr, s') /\ quiet s' /\
    taken_or_not (default [] hostname) callback err' s s' /\ match addr with Some a => err' = ERR_OK /\ s' = s /\ exists h, hostname = Some h /\ known_for h a s | None => err' <> ERR_OK end).
  { intros err He He0. exists err, None, s. split; [done|]. split; [done|]. split; [right; split; [done|apply rtc_refl]|done]. }
  unfold dns_gethostbyname_addrtype. destruct hostname as [h|]; [|by apply Hno]. destruct h as [|c h]; [by apply Hno|]. set (hostname := c :: h) in *.
  assert (Hu : exists used, (if negb SECURE_RAND_SRC_PORT then dns_pcbs s !! 0%nat else Some true) = Some used).
  { destruct SECURE_RAND_SRC_PORT; [by exists true|]. apply lookup_lt_is_Some_2. rewrite (pcbs_size s Hs). pose proof ports_ok. lia. }
  destruct Hu as [used ->]. cbn [mbind option_bind]. destruct (negb used); [by apply Hno|]. destruct (DNS_MAX_NAME_LENGTH <=? _) eqn:El; [by apply Hno|].
  destruct (known_total s hostname dns_addrtype Hs) as (r & Er & Hr). destruct (known_address _ _ _) as [known|]; [|done]. cbn [mbind option_bind] in Er |- *.
  rewrite Er. cbn [mbind option_bind]. destruct r as [a|].
  { exists ERR_OK, (Some a), s. split; [done|]. split; [done|]. split; [right; split; [done|apply rtc_refl]|]. split; [done|]. split; [done|]. by exists hostname. }
  destruct (lookup_lt_is_Some_2 (dns_servers s) 0) as [server ->].
  { rewrite (servers_length s Hs). pose proof servers_ok. lia. }
  cbn [mbind option_bind]. cbv zeta. destruct (_ && _); [by apply Hno|].
  destruct (enqueue_taken s hostname callback dns_addrtype Hs Hq) as (err & s' & -> & He & Hq' & Ht); [by split; [|lia]|].
  cbn [mbind option_bind]. exists err, None, s'. split; [done|]. split; [done|]. by split.
Qed.
End Requests.
End DnsRequests.
