(* ===== verification/DnsWait.v ===== *)
(** The DNS resolver of lwIP: a request that waits is told in time. *)

From stdpp Require Import gmap.
From S2P Require Export DnsRequests.
Export DnsRequests.
Open Scope Z_scope.

Module DnsWait.

Section Wait.
Context {Opt : DnsOptions} {Pbufs : DnsPbufs} {Text : DnsText} {World : DnsWorld} {Kn : Known} {Rnd : DnsRandom} {Sizes : DnsSizes}.

(** The request in the slot [r] waits, with the callback [c], for the entry [i], which asks
    for the host name [n] and is done in [b] seconds at the latest. *)
Definition waits (i : nat) (n : list Z) (c : Z) (r : nat) (b : Z) (s : dns) : Prop :=
  exists q e, dns_requests s !! r = Some q /\ found q = Some c /\ dns_table_idx q = Z.of_nat i /\
    dns_table s !! i = Some e /\ busy e /\ c_str (name e) = Some n /\ budget e <= b.

(** Between two states the callback was called. *)
Definition told (n : list Z) (c : Z) (s s' : dns) : Prop :=
  exists es a, events s' = events s ++ es /\ Found c n a ∈ es.

Definition grows (s s' : dns) : Prop := exists es, events s' = events s ++ es.

#[global] Instance grows_preorder : PreOrder grows.
Proof.
  split; [by intros s; exists []; rewrite app_nil_r|]. intros s1 s2 s3 [es1 E1] [es2 E2]. exists (es1 ++ es2). by rewrite E2, E1, app_assoc.
Qed.

Lemma told_later n c s s1 s2 : told n c s s1 -> grows s1 s2 -> told n c s s2.
Proof.
  intros (es & a & E & Hin) [es2 E2]. exists (es ++ es2), a. split; [by rewrite E2, E, app_assoc|]. apply elem_of_app. by left.
Qed.

Lemma told_earlier n c s s1 s2 : grows s s1 -> told n c s1 s2 -> told n c s s2.
Proof.
  intros [es1 E1] (es & a & E & Hin). exists (es1 ++ es), a. split; [by rewrite E, E1, app_assoc|]. apply elem_of_app. by right.
Qed.

Lemma grows_change s s' : change s s' -> grows s s'.
Proof. intros H. destruct H; try (exists []; by rewrite app_nil_r); by eexists. Qed.

Lemma grows_moves s s' : moves s s' -> grows s s'.
Proof. induction 1 as [|s s1 s2 H _ IH]; [done|]. etransitivity; [by apply grows_change|done]. Qed.

Lemma grows_accept hostname callback s s' : accept hostname callback s s' -> grows s s'.
Proof. intros H. destruct H; exists []; by rewrite app_nil_r. Qed.

Lemma waits_later i n c r b b' s : waits i n c r b s -> b <= b' -> waits i n c r b' s.
Proof. intros (q & e & ? & ? & ? & ? & ? & ? & ?) Hb. exists q, e. split_and!; try done. lia. Qed.

(** The answer to an entry tells the requests that wait for it. *)
Lemma answer_in i addr n c r b s : waits i n c r b s -> Found c n addr ∈ concat (answers_to (Z.of_nat i) n addr <$> dns_requests s).
Proof.
  intros (q & e & Hr & Hc & Hi & _). apply list_elem_of_In, in_concat. exists (answers_to (Z.of_nat i) n addr q). split.
  - apply list_elem_of_In, list_elem_of_fmap. exists q. split; [done|]. by apply list_elem_of_lookup_2 in Hr.
  - apply list_elem_of_In. unfold answers_to. rewrite Hc, Hi, Z.eqb_refl. by left.
Qed.

Lemma answer_tells i e' addr pcbs n c r b s : waits i n c r b s -> told n c s (answer i e' n addr pcbs s).
Proof. intros Hw. eexists _, addr. split; [apply answer_events|]. by eapply answer_in. Qed.

Lemma waits_change i n c r b s s' : change s s' -> waits i n c r b s -> waits i n c r b s' \/ told n c s s'.
Proof.
  intros H Hw. pose proof Hw as (q & e & Hr & Hc & Hidx & Hi & Hb & Hn & Hbu).
  destruct H as [c' r' x Hx|pcb dst port msg He|j e1 e' Hj Hb1 Hb' Hw' He Hna Hp Hbd Hf|j e1 e' Hj Hb1 Hb' Hw' He|
    j e1 e' hostname addr pcbs Hj Hb1 Hb' Hw' He Hna Ha Hf|r' q' req Hr' Hq' Hreq|m a Ha|l].
  - left. by exists q, e.
  - left. by exists q, e.
  - left. destruct (decide (i = j)) as [->|Hne].
    + assert (e1 = e) as -> by congruence. exists q, e'. rewrite (lookup_put j e), decide_True by done. split_and!; try done; [by rewrite Hna|lia].
    + exists q, e. by rewrite (lookup_put j e1), decide_False by done.
  - left. destruct (decide (i = j)) as [->|Hne]; [by simplify_eq|]. exists q, e. by rewrite (lookup_put j e1), decide_False by done.
  - destruct (decide (i = j)) as [->|Hne].
    + right. assert (hostname = n) as -> by congruence. by apply (answer_tells j e' addr pcbs n c r b).
    + left. exists q, e. rewrite answer_requests, answer_table, (lookup_put j e1), decide_False, list_lookup_fmap, Hr by done. split_and!; try done. cbn. f_equal.
      unfold clear. replace (is_for (Z.of_nat j) q) with false; [done|]. unfold is_for. rewrite Hidx. replace (Z.of_nat i =? Z.of_nat j) with false by lia.
      by rewrite andb_false_r.
  - left. exists q, e. split_and!; try done. change (<[r' := req]> (dns_requests s) !! r = Some q). rewrite list_lookup_insert_ne; [done|]. intros ->. congruence.
  - left. by exists q, e.
  - left. by exists q, e.
Qed.

Lemma waits_moves i n c r b s s' : moves s s' -> waits i n c r b s -> waits i n c r b s' \/ told n c s s'.
Proof.
  induction 1 as [|s s1 s2 H Hm IH]; [by left|]. intros Hw. destruct (waits_change _ _ _ _ _ _ _ H Hw) as [Hw1|Ht].
  - destruct (IH Hw1) as [|Ht]; [by left|right]. eapply told_earlier; [by apply grows_change|done].
  - right. eapply told_later; [done|by apply grows_moves].
Qed.

Lemma waits_accept i n c r b hostname callback s s' : accept hostname callback s s' -> waits i n c r b s -> waits i n c r b s'.
Proof.
  intros H (q & e & Hr & Hc & Hidx & Hi & Hb & Hn & Hbu).
  destruct H as [j r' e1 q' e' req last seqno pcbs Hj Hb1 Hr' Hq' _ _ _ _ _ _ _ _ _ _ _|j r' e1 q' req n' Hj _ _ _ Hr' Hq' _ _ _].
  - exists q, e. split_and!; try done.
    + change (<[r' := req]> (dns_requests s) !! r = Some q). rewrite list_lookup_insert_ne; [done|]. intros ->. congruence.
    + set (s1 := set_dns_requests _ s). change (dns_table (put_entry (Z.of_nat j) e' s1) !! i = Some e).
      rewrite (lookup_put j e1), decide_False by (done || by intros ->; simplify_eq). done.
  - exists q, e. split_and!; try done. change (<[r' := req]> (dns_requests s) !! r = Some q). rewrite list_lookup_insert_ne; [done|]. intros ->. congruence.
Qed.

Lemma first_try k t : 0 <= k -> t <= Z.max 1 k -> t + later_tries k <= 1 + later_tries 0.
Proof.
  intros Hk Ht. assert (Hmono : forall j, 0 <= j -> later_tries j <= later_tries 0).
  { intros j Hj. apply Z.div_le_mono; [done|]. nia. }
  destruct (decide (k = 0)) as [->|Hne]; [lia|]. pose proof (later_step (k - 1)) as Hs. replace (k - 1 + 1) with k in Hs by lia.
  specialize (Hmono (k - 1) ltac:(lia)). lia.
Qed.

(** The time of a query that is under way. *)
Lemma budget_bound e : settled e -> state e = DNS_STATE_ASKING -> budget e <= 2 * query_time.
Proof.
  intros He Ha. unfold settled in He. rewrite Ha in He. rewrite budget_asking by done. pose proof (second_type_range e). unfold query_time in *.
  pose proof server_time_pos. unfold server_time in *. pose proof (first_try (retries e) (tmr e) ltac:(lia) ltac:(lia)). nia.
Qed.

(** What a request waits for when it is taken. *)
Lemma accepted_waits hostname c s s' : inv s -> accept hostname (Some c) s s' -> exists i n r, waits i n c r (2 * query_time) s' /\
  lwip_strnicmp hostname n DNS_MAX_NAME_LENGTH = true.
Proof.
  intros Hs H. destruct H as [j r' e1 q' e' req last seqno pcbs Hj Hb1 Hr' Hq' _ Hst _ Hn Hbu Hreq Hidx _ _ _ _|j r' e1 q' req n' Hj Ha Hn Hsame Hr' Hq' _ Hreq Hidx].
  - exists j, hostname, r'. split.
    + exists req, e'. split_and!; try done.
      * change (<[r' := req]> (dns_requests s) !! r' = Some req). apply list_lookup_insert_eq. by apply lookup_lt_Some in Hr'.
      * set (s1 := set_dns_requests _ s). change (dns_table (put_entry (Z.of_nat j) e' s1) !! j = Some e'). by rewrite (lookup_put j e1), decide_True.
      * by left.
    + apply strnicmp_eq; [|done]. pose proof name_length_ok. lia.
  - exists j, n', r'. split; [|done]. exists req, e1. split_and!; try done.
    + change (<[r' := req]> (dns_requests s) !! r' = Some req). apply list_lookup_insert_eq. by apply lookup_lt_Some in Hr'.
    + by right.
    + apply budget_bound; [by apply (entries_ok s Hs j)|done].
Qed.

(** ** A second *)

Lemma waits_positive i n c r b s : inv s -> quiet s -> waits i n c r b s -> 1 <= b.
Proof.
  intros Hs Hq (q & e & _ & _ & _ & Hi & [Hst|Hst] & _ & Hb); [by destruct (Hq i e Hi)|].
  pose proof (budget_positive e Hst (proj2 (entries_ok s Hs i e Hi))). pose proof (second_type_range e). lia.
Qed.

Lemma waits_ticked i n c r b s s' e : dns_table s !! i = Some e -> ticked i e s s' -> waits i n c r b s -> waits i n c r (b - 1) s' \/ told n c s s'.
Proof.
  intros Hi Ht Hw. pose proof Hw as (q & e2 & Hr & Hc & Hidx & Hi2 & Hb & Hn & Hbu). assert (e2 = e) as -> by congruence.
  destruct Ht as [(e' & Hi' & Ha & Hlt & Hch & Hm)|(e' & h & pcbs & -> & Hh & Hch)].
  - destruct (waits_change i n c r b _ _ Hch Hw) as [(q' & e3 & Hr' & Hc' & Hidx' & Hi3 & Hb' & Hn' & Hbu')|Ht].
    + assert (e3 = e') as -> by congruence. destruct (waits_moves i n c r (b - 1) _ _ Hm) as [|Ht]; [|by left|right].
      * exists q', e'. split_and!; try done. lia.
      * eapply told_earlier; [by apply grows_change|done].
    + right. eapply told_later; [done|by apply grows_moves].
  - right. assert (h = n) as -> by congruence. by apply (answer_tells i e' None pcbs n c r b).
Qed.

Lemma check_entries_waits ids : forall s i n c r b, inv s -> quiet s -> (forall j, j ∈ ids -> (j < length (dns_table s))%nat) -> waits i n c r b s ->
  exists s', check_entries ids s = Some s' /\ moves s s' /\ quiet s' /\ (waits i n c r (if decide (i ∈ ids) then b - 1 else b) s' \/ told n c s s').
Proof.
  induction ids as [|j ids IH]; intros s i n c r b Hs Hq Hids Hw.
  { exists s. split; [done|]. split; [apply rtc_refl|]. split; [done|]. left. by rewrite decide_False by apply not_elem_of_nil. }
  cbn [check_entries].
  assert (Hone : exists s1, dns_check_entry (Z.of_nat j) s = Some s1 /\ moves s s1 /\ quiet s1 /\ (waits i n c r (if decide (i = j) then b - 1 else b) s1 \/ told n c s s1)).
  { destruct (decide (i = j)) as [->|Hne].
    - pose proof Hw as (q & e & _ & _ & _ & Hj & [Hst|Hst] & _); [by destruct (Hq j e Hj)|].
      destruct (asking_ticks s j e Hs Hq Hj Hst) as (s1 & E & Ht & Hq1 & _). exists s1. split_and!; try done; [by eapply ticked_moves|].
      by apply (waits_ticked j n c r b s s1 e).
    - destruct (check_entry_moves s j Hs Hq) as (s1 & E & Hm & Hq1 & _); [apply Hids; by left|]. exists s1. split_and!; try done. by apply (waits_moves i n c r b s s1). }
  destruct Hone as (s1 & -> & Hm & Hq1 & Hw1). cbn [mbind option_bind]. pose proof (inv_moves _ _ Hs Hm) as Hs1.
  assert (Hids1 : forall k, k ∈ ids -> (k < length (dns_table s1))%nat).
  { intros k Hk. rewrite (table_length s1 Hs1), <- (table_length s Hs). apply Hids. by right. }
  destruct Hw1 as [Hw1|Ht].
  - destruct (IH s1 i n c r _ Hs1 Hq1 Hids1 Hw1) as (s' & E & Hm' & Hq' & Hw'). exists s'. split; [done|]. split; [by etransitivity|]. split; [done|].
    destruct Hw' as [Hw'|Ht]; [left|right; eapply told_earlier; [by apply grows_moves|done]].
    eapply waits_later; [exact Hw'|]. destruct (decide (i = j)) as [->|Hne].
    + rewrite (decide_True (P := j ∈ j :: ids)) by by left. destruct (decide (j ∈ ids)); lia.
    + destruct (decide (i ∈ j :: ids)) as [H1|H1], (decide (i ∈ ids)) as [H2|H2]; try lia; exfalso; rewrite elem_of_cons in H1; tauto.
  - destruct (check_entries_moves ids s1 Hs1 Hq1 Hids1) as (s' & E & Hm' & Hq' & _). exists s'. split; [done|]. split; [by etransitivity|]. split; [done|].
    right. eapply told_later; [done|by apply grows_moves].
Qed.

(** A second brings the answer of a request nearer. *)
Lemma tmr_waits s i n c r b : inv s -> quiet s -> waits i n c r b s ->
  exists s', dns_tmr s = Some s' /\ moves s s' /\ quiet s' /\ (waits i n c r (b - 1) s' \/ told n c s s').
Proof.
  intros Hs Hq Hw. destruct (check_entries_waits (seq 0 (Z.to_nat DNS_TABLE_SIZE)) s i n c r b Hs Hq) as (s' & E & Hm & Hq' & Hw'); [|done|].
  { intros j Hj. apply elem_of_seq in Hj. rewrite (table_length s Hs). lia. }
  exists s'. split_and!; try done. rewrite decide_True in Hw'; [done|]. apply elem_of_seq.
  destruct Hw as (q & e & _ & _ & _ & Hi & _). apply lookup_lt_Some in Hi. rewrite (table_length s Hs) in Hi. lia.
Qed.
End Wait.
End DnsWait.
