(* ===== verification/DnsSystem.v ===== *)
(** The DNS resolver of lwIP: any history of calls, messages and ticks. *)

From stdpp Require Import gmap.
From S2P Require Export DnsWait.
Export DnsWait.
Open Scope Z_scope.

Module DnsSystem.

(** What happens to the resolver. *)
Inductive happening :=
  | Tmr
  | Recv (p : chain) (from : ip_addr)
  | GetHostByName (hostname : option (list Z)) (callback : option Z) (dns_addrtype : Z)
  | SetServer (numdns : Z) (server : option ip_addr)
  | AddHost (hostname : list Z) (addr : ip_addr)
  | RemoveHost (hostname : option (list Z)) (addr : option ip_addr).

Section System.
Context {Opt : DnsOptions} {Pbufs : DnsPbufs} {Text : DnsText} {World : DnsWorld}.

(** The error of a call and the address that it returns, and the state. *)
Definition step (e : happening) (s : dns) : option (Z * option ip_addr * dns) :=
  match e with
  | Tmr => s ← dns_tmr s; Some (ERR_OK, None, s)
  | Recv p from => s ← dns_recv p from s; Some (ERR_OK, None, s)
  | GetHostByName hostname callback dns_addrtype => dns_gethostbyname_addrtype hostname callback dns_addrtype s
  | SetServer numdns server => Some (ERR_OK, None, dns_setserver numdns server s)
  | AddHost hostname addr => '(err, s) ← dns_local_addhost hostname addr s; Some (err, None, s)
  | RemoveHost hostname addr => let (_, s) := dns_local_removehost hostname addr s in Some (ERR_OK, None, s)
  end.

Fixpoint run (es : list happening) (s : dns) : option (list (Z * option ip_addr) * dns) :=
  match es with
  | [] => Some ([], s)
  | e :: es => '(o, s) ← step e s; '(os, s) ← run es s; Some (o :: os, s)
  end.

(** What a call expects: messages come in buffers, and their question is no longer than the
    array of a name; names are strings, and a name of the local list fits. *)
Definition expects (e : happening) : Prop :=
  match e with
  | Recv p _ => wf_chain p /\ question_within p = true
  | GetHostByName (Some hostname) _ _ => Forall (fun c => c <> 0) hostname
  | AddHost hostname _ => size hostname <= DNS_LOCAL_HOSTLIST_MAX_NAMELEN
  | SetServer numdns _ => 0 <= numdns
  | _ => True
  end.

(** What a history lets be known. *)
Definition configured_by (es : list happening) (a : ip_addr) : Prop := a = IP_ADDR_ANY \/ exists n, SetServer n (Some a) ∈ es.

(** A reply arrived, which says that the host has the address: from a server that was
    configured, or from anybody when the name is one of mDNS. *)
Definition replied (es : list happening) (hostname : list Z) (a : ip_addr) : Prop :=
  exists p from q id, Recv p from ∈ es /\ (configured_by es from \/ mdns_name hostname = true) /\
    c_str q = Some hostname /\ says p q id a.

Definition known_from (es : list happening) : Known := {| vouched := replied es; configured := configured_by es |}.

(** ** The invariant over a history *)

Section History.
Context {Rnd : DnsRandom} {Sizes : DnsSizes}.

Definition good (es : list happening) (s : dns) : Prop := inv (Kn := known_from es) s /\ quiet s.

(** A longer history lets more be known. *)
Lemma known_mono es es' s : es ⊆ es' -> good es s -> good es' s.
Proof.
  intros Hin [Hs Hq]. split; [|done]. destruct Hs as [H1 H2 H3 H4 H5 H6 H7 H8 H9 H10 H11 H12].
  assert (Hc : forall a, configured_by es a -> configured_by es' a) by (intros a [->|(n & Hn)]; [by left|right; exists n; by apply Hin]).
  assert (Hv : forall h a, replied es h a -> replied es' h a).
  { intros h a (p & from & q & id & Hp & Hf & Hh & Hsays). exists p, from, q, id. split_and!; try done; [by apply Hin|].
    destruct Hf as [Hf|Hf]; [left; by apply Hc|by right]. }
  split; try done.
  - eapply Forall_impl; [exact H5|exact Hc].
  - intros i e Hi. destruct (H6 i e Hi) as [Hw He]. split; [done|]. unfold settled in *. destruct (state e); try done.
    destruct He as (Ht & Hk & Hx). split; [exact Ht|]. split; [exact Hk|]. intros n Hn. by apply Hv, Hx.
  - eapply Forall_impl; [exact H12|]. intros [pcb dst port msg|c n [a|]]; cbn; try done; [|by apply Hv].
    intros (Hm & [(Hp & Hd & Ha)|Hd]); split; try done; [left|by right]. split_and!; try done. by apply Hc.
Qed.

(** One step: the invariant, and what it does with requests. *)
Lemma happening_good all e s : good all s -> e ∈ all -> expects e ->
  exists o s', step e s = Some (o, s') /\ good all s' /\
    match e with
    | GetHostByName hostname callback _ => taken_or_not (Kn := known_from all) (default [] hostname) callback o.1 s s' /\
        match o.2 with Some a => o.1 = ERR_OK /\ s' = s /\ exists h, hostname = Some h /\ known_for (Kn := known_from all) h a s | None => o.1 <> ERR_OK end
    | _ => moves (Kn := known_from all) s s'
    end.
Proof.
  intros [Hs Hq] Hin He. set (Kn := known_from all) in *.
  assert (Hmoves : forall (o : Z * option ip_addr) s1 s', Some (o, s1) = Some (o, s') -> moves (Kn := Kn) s s1 -> quiet s1 ->
    s1 = s' /\ good all s1 /\ moves (Kn := Kn) s s1).
  { intros o s1 s' [= ->] Hm Hq1. split; [done|]. split; [|done]. split; [|done]. by apply (inv_moves (Kn := Kn) s). }
  destruct e as [|p from|hostname callback dns_addrtype|numdns server|hostname addr|hostname addr]; cbn [step].
  - destruct (tmr_moves (Kn := Kn) s Hs Hq) as (s' & -> & Hm & Hq'). cbn [mbind option_bind]. eexists _, s'. split; [done|].
    by apply (Hmoves (ERR_OK, None) s' s').
  - destruct (recv_moves (Kn := Kn) s p from Hs Hq (proj1 He) (proj2 He)) as (s' & -> & Hm & Hq').
    { intros q id h a Ht Hh Hsays. exists p, from, q, id. split_and!; try done. }
    cbn [mbind option_bind]. eexists _, s'. split; [done|]. by apply (Hmoves (ERR_OK, None) s' s').
  - destruct (request_taken (Kn := Kn) s hostname callback dns_addrtype Hs Hq) as (err & addr & s' & E & Hq' & Ht & Ha); [by destruct hostname|].
    exists (err, addr), s'. split; [exact E|]. split; [|by split]. split; [|done].
    destruct Ht as [(_ & s1 & s2 & Hm1 & Hs1 & Hacc & Hm2)|[_ Hm]]; [|by apply (inv_moves (Kn := Kn) s)].
    apply (inv_moves (Kn := Kn) s2); [|done]. by eapply (inv_accept (Kn := Kn)).
  - eexists _, _. split; [reflexivity|]. unfold dns_setserver. destruct (_ <? _).
    + apply (Hmoves (ERR_OK, None) _ _ eq_refl); [|done]. apply rtc_once, change_servers. destruct server as [a|]; [right|by left].
      exists numdns. done.
    + apply (Hmoves (ERR_OK, None) _ _ eq_refl); [apply rtc_refl|done].
  - unfold dns_local_addhost. cbn in He. rewrite lwip_assert_true by lia. cbn [mbind option_bind call].
    pose proof (called_outside (Kn := Kn) s Hs) as Hc. destruct (negb (memp_malloc_ok _)).
    + cbn [mbind option_bind]. eexists _, _. split; [reflexivity|]. apply (Hmoves (ERR_MEM, None) _ _ eq_refl); [by apply rtc_once|done].
    + cbn [mbind option_bind]. eexists _, _. split; [reflexivity|]. apply (Hmoves (ERR_OK, None) _ _ eq_refl); [|done].
      eapply rtc_l; [exact Hc|]. by apply rtc_once, change_hosts.
  - unfold dns_local_removehost. destruct (remove_hosts _ _ _) as [l removed]. eexists _, _. split; [reflexivity|].
    apply (Hmoves (ERR_OK, None) _ _ eq_refl); [|done]. by apply rtc_once, change_hosts.
Qed.

Lemma history_good all es : forall s, good all s -> es ⊆ all -> Forall expects es -> exists os s', run es s = Some (os, s') /\ good all s' /\ length os = length es.
Proof.
  induction es as [|e es IH]; intros s Hs Hin He; [by exists [], s|]. apply Forall_cons in He as [He Hes]. cbn [run].
  destruct (happening_good all e s Hs) as (o & s1 & -> & Hs1 & _); [apply Hin; by left|done|]. cbn [mbind option_bind].
  destruct (IH s1 Hs1) as (os & s' & -> & Hs' & Hl); [intros x Hx; apply Hin; by right|done|]. cbn [mbind option_bind].
  exists (o :: os), s'. split_and!; try done. cbn [length]. lia.
Qed.

(** ** Requests over a history *)

(** How many requests with this callback were taken. *)
Fixpoint taken_requests (c : Z) (es : list happening) (os : list (Z * option ip_addr)) : nat :=
  match es, os with
  | GetHostByName _ callback _ :: es, o :: os =>
      ((if decide (callback = Some c) then if (o.1 =? ERR_INPROGRESS)%Z then 1 else 0 else 0) + taken_requests c es os)%nat
  | _ :: es, _ :: os => taken_requests c es os
  | _, _ => 0%nat
  end.

Lemma run_owed all c es : forall s os s', good all s -> es ⊆ all -> Forall expects es -> run es s = Some (os, s') ->
  owed c s' = (owed c s + taken_requests c es os)%nat.
Proof.
  induction es as [|e es IH]; intros s os s' Hs Hin He E; cbn [run] in E.
  { injection E as <- <-. cbn. lia. }
  apply Forall_cons in He as [He Hes]. destruct (happening_good all e s Hs) as (o & s1 & Es & Hs1 & Hdo); [apply Hin; by left|done|].
  rewrite Es in E. cbn [mbind option_bind] in E. destruct (run es s1) as [[os' s2]|] eqn:Er; [|done]. injection E as <- <-.
  rewrite (IH s1 os' s2 Hs1); [|intros x Hx; apply Hin; by right|done|done].
  destruct e as [| |hostname callback t| | |]; cbn [taken_requests]; try (by rewrite (owed_moves (Kn := known_from all) c s s1)).
  destruct Hdo as [Ht _]. destruct Ht as [(Herr & s3 & s4 & Hm1 & _ & Hacc & Hm2)|[Herr Hm]].
  - rewrite (owed_moves (Kn := known_from all) c s4 s1) by done. rewrite (owed_accept c _ _ s3 s4 Hacc).
    rewrite (owed_moves (Kn := known_from all) c s s3) by done. rewrite Herr. destruct (decide _); cbn; lia.
  - rewrite (owed_moves (Kn := known_from all) c s s1) by done. destruct (decide _); [|lia]. replace (o.1 =? ERR_INPROGRESS) with false by lia. lia.
Qed.

(** The seconds of a history. *)
Fixpoint ticks (es : list happening) : Z :=
  match es with
  | [] => 0
  | Tmr :: es => 1 + ticks es
  | _ :: es => ticks es
  end.

(** What a step does with a request that waits. *)
Lemma step_waits all e s o s' i n c r b : good all s -> e ∈ all -> expects e -> step e s = Some (o, s') ->
  waits i n c r b s -> waits i n c r (b - ticks [e]) s' \/ told n c s s'.
Proof.
  intros Hs Hin He E Hw. destruct (happening_good all e s Hs Hin He) as (o' & s2 & E2 & _ & Hdo). rewrite E in E2. injection E2 as <- <-.
  destruct Hs as [Hs Hq].
  assert (Hm : moves (Kn := known_from all) s s' -> waits i n c r (b - 0) s' \/ told n c s s').
  { intros Hm. rewrite Z.sub_0_r. by apply (waits_moves (Kn := known_from all) i n c r b s s'). }
  destruct e as [|p from|hostname callback t|numdns server|hostname addr|hostname addr]; try by apply Hm.
  - destruct (tmr_waits (Kn := known_from all) s i n c r b Hs Hq Hw) as (s2 & Et & _ & _ & Hw2). cbn [step] in E. rewrite Et in E.
    injection E as <- <-. exact Hw2.
  - destruct Hdo as [[(_ & s3 & s4 & Hm1 & _ & Hacc & Hm2)|[_ Hm']] _]; [|by apply Hm]. cbn [ticks]. rewrite Z.sub_0_r.
    destruct (waits_moves (Kn := known_from all) i n c r b s s3 Hm1 Hw) as [Hw3|Ht].
    + pose proof (waits_accept i n c r b _ _ s3 s4 Hacc Hw3) as Hw4.
      destruct (waits_moves (Kn := known_from all) i n c r b s4 s' Hm2 Hw4) as [|Ht]; [by left|right].
      eapply told_earlier; [|done]. etransitivity; [by apply (grows_moves (Kn := known_from all))|by eapply (grows_accept)].
    + right. eapply told_later; [done|]. etransitivity; [by eapply (grows_accept)|by apply (grows_moves (Kn := known_from all))].
Qed.

Lemma step_grows all e s o s' : good all s -> e ∈ all -> expects e -> step e s = Some (o, s') -> grows s s'.
Proof.
  intros Hs Hin He E. destruct (happening_good all e s Hs Hin He) as (o' & s2 & E2 & _ & Hdo). rewrite E in E2. injection E2 as <- <-.
  destruct e as [|p from|hostname callback t|numdns server|hostname addr|hostname addr]; try by apply (grows_moves (Kn := known_from all)).
  destruct Hdo as [[(_ & s3 & s4 & Hm1 & _ & Hacc & Hm2)|[_ Hm']] _]; [|by apply (grows_moves (Kn := known_from all))].
  etransitivity; [by apply (grows_moves (Kn := known_from all))|]. etransitivity; [by eapply (grows_accept)|].
  by apply (grows_moves (Kn := known_from all)).
Qed.

Lemma run_grows all es : forall s os s', good all s -> es ⊆ all -> Forall expects es -> run es s = Some (os, s') -> grows s s'.
Proof.
  induction es as [|e es IH]; intros s os s' Hs Hin He E; cbn [run] in E; [by injection E as <- <-|].
  apply Forall_cons in He as [He Hes]. destruct (happening_good all e s Hs) as (o & s1 & Es & Hs1 & _); [apply Hin; by left|done|].
  rewrite Es in E. cbn [mbind option_bind] in E. destruct (run es s1) as [[os' s2]|] eqn:Er; [|done]. injection E as <- <-.
  etransitivity; [by eapply (step_grows all e s); [|apply Hin; left| |]|]. eapply IH; [done|intros x Hx; apply Hin; by right|done|done].
Qed.

(** A request that waits is told when its time is over. *)
Lemma run_waits all es i n c r : forall b s os s', good all s -> es ⊆ all -> Forall expects es -> run es s = Some (os, s') ->
  waits i n c r b s -> waits i n c r (b - ticks es) s' \/ told n c s s'.
Proof.
  induction es as [|e es IH]; intros b s os s' Hs Hin He E Hw; cbn [run] in E.
  { injection E as <- <-. left. cbn [ticks]. by rewrite Z.sub_0_r. }
  apply Forall_cons in He as [He Hes]. destruct (happening_good all e s Hs) as (o & s1 & Es & Hs1 & _); [apply Hin; by left|done|].
  rewrite Es in E. cbn [mbind option_bind] in E. destruct (run es s1) as [[os' s2]|] eqn:Er; [|done]. injection E as <- <-.
  assert (Hin' : es ⊆ all) by (intros x Hx; apply Hin; by right).
  destruct (step_waits all e s o s1 i n c r b Hs) as [Hw1|Ht]; try done; [apply Hin; by left| |].
  - assert (Htk : ticks (e :: es) = ticks [e] + ticks es) by (by destruct e). rewrite Htk, Z.sub_add_distr.
    destruct (IH _ s1 os' s2 Hs1 Hin' Hes Er Hw1) as [|Ht]; [by left|right].
    eapply told_earlier; [|done]. eapply (step_grows all e s); try done. apply Hin. by left.
  - right. eapply told_later; [done|]. by eapply (run_grows all es s1).
Qed.
End History.
End System.
End DnsSystem.
