(* ===== verification/DnsExchange.v ===== *)
(** The DNS resolver of lwIP: a reply to a query, and how long its answer is kept. *)

From stdpp Require Import gmap.
From S2P Require Export DnsSystem.
Export DnsSystem.
Open Scope Z_scope.

Module DnsExchange.

Section Exchange.
Context {Opt : DnsOptions} {Pbufs : DnsPbufs} {Text : DnsText} {World : DnsWorld} {Rnd : DnsRandom} {Sizes : DnsSizes}.

Lemma first_index_found {A} (f : A -> bool) l i x : l !! i = Some x -> f x = true -> exists y, l !! first_index f l = Some y.
Proof.
  revert i. induction l as [|y l IH]; intros [|i] Hi Hf; try done; cbn [first_index].
  - injection Hi as ->. rewrite Hf. by exists x.
  - destruct (f y); [by exists y|]. by apply (IH i).
Qed.

(** A message goes to the query with its identifier. *)
Lemma recv_finds all s i e r : good all s -> dns_table s !! i = Some e -> state e = DNS_STATE_ASKING -> r_id r = txid e ->
  first_index (fun x => asking x && (txid x =? r_id r)) (dns_table s) = i.
Proof.
  intros [Hs _] Hi Ha Hid. set (f := fun x => _). assert (Hf : f e = true).
  { unfold f. rewrite Hid, Z.eqb_refl, andb_true_r. by apply asking_true. }
  destruct (first_index_found f _ i e Hi Hf) as [y Hy]. pose proof (first_index_spec f _ _ Hy) as Hfy. unfold f in Hfy. apply andb_true_iff in Hfy as [Hay Hty].
  apply asking_true in Hay. destruct (decide (first_index f (dns_table s) = i)) as [|Hne]; [done|].
  exfalso. apply (txids_differ (Kn := known_from all) s Hs _ i y e Hy Hi Hne Hay Ha). lia.
Qed.

(** A reply that answers a query. *)
Record answers (e : dns_table_entry) (r : reply) (a : ip_addr) (t : Z) : Prop := {
  answers_wf : wf_reply r;
  answers_response : is_response r;
  answers_no_error : ~ is_error r;
  answers_id : r_id r = txid e;
  answers_question : repeats e r;
  answers_counted : counted r;
  answers_first : first_answer e (r_answers r) = Answer a t
}.

Lemma reply_long p r : concat p = reply_bytes r -> wf_reply r -> 16 <= tot_len p.
Proof.
  intros Hp Hr. unfold tot_len. rewrite Hp. unfold reply_bytes, question_bytes, encode. rewrite !size_app, (reply_head_size r Hr).
  change (size (be16 (r_type r))) with 2. change (size (be16 1)) with 2. change (size [0]) with 1.
  pose proof (size_nonneg (blocks (r_labels r))). pose proof (size_nonneg (concat (rr_bytes <$> r_answers r))). pose proof (size_nonneg (r_rest r)). lia.
Qed.

Lemma reply_taken all s i e p from r a t n : good all s -> Recv p from ∈ all -> dns_table s !! i = Some e -> state e = DNS_STATE_ASKING ->
  c_str (name e) = Some n -> from_server e from s = Some true -> wf_chain p -> concat p = reply_bytes r -> answers e r a t ->
  exists e' pcbs s', dns_recv p from s = Some s' /\ s' = answer i e' n (Some a) pcbs s /\ good all s' /\
    name e' = name e /\ ipaddr e' = a /\ asked_kind e' a /\
    (state e' = DNS_STATE_DONE /\ ttl e' = Z.min t DNS_MAX_TTL \/ state e' = DNS_STATE_UNUSED /\ Z.min t DNS_MAX_TTL = 0).
Proof.
  intros Hg Hin Hi Ha Hn Hfrom Hw Hp [Hr Hresp Herr Hid Hq Hcnt Hfirst]. destruct Hg as [Hs Hquiet]. set (Kn := known_from all) in *.
  destruct (reply_header p r Hp Hr) as (hdr & Eh & Hsz & E1 & E2 & E3 & E4 & E5).
  destruct (reply_read e p r Hw Hp Hr Hq Hcnt) as (idx & Eq & Ea). rewrite Hfirst in Ea.
  assert (Hb : Forall is_byte hdr) by (rewrite <- Eh; apply copy_bytes; [done|lia|lia]).
  destruct (answer_says e p hdr a t idx Hw Eh Hsz) as [Hsays Hkind]; try done.
  { intros f Ef. rewrite E2 in Ef. by injection Ef as <-. }
  { intros f Ef. rewrite E3 in Ef. injection Ef as <-. unfold is_error in Herr. destruct (decide (Z.land (r_flags2 r) DNS_FLAG2_ERR_MASK = 0)); [done|]. by destruct Herr. }
  { by rewrite E5. }
  assert (Ht : 0 <= t).
  { pose proof (our_question_range e p idx Hw Eq) as Hqr.
    destruct (read_answers_total (S (Z.to_nat (r_count r))) e p (r_count r) idx Hw) as (v & Ev & Hv); [lia|destruct (reply_count r Hr); lia|].
    rewrite Ea in Ev. injection Ev as <-. lia. }
  destruct (entries_ok (Kn := Kn) s Hs i e Hi) as [Hwe He]. unfold settled in He. rewrite Ha in He.
  destruct (from_server_trusted (Kn := Kn) s e n from Hs Hwe (or_intror Ha) Hn ltac:(lia)) as (b & Eb & Htr). rewrite Hfrom in Eb. injection Eb as <-.
  assert (Hv : replied all n a) by (exists p, from, (name e), (of_be (slice hdr 0 2)); split_and!; try done; by apply Htr).
  destruct (correct_response_answer (Kn := Kn) s i e a t n Hs Hi (or_intror Ha) (quiet_weaken i s Hquiet) Hn Hv Hkind Ht)
    as (e' & pcbs & s' & Ec & Es' & Hc & Hna & Hip & Hk' & Hst).
  exists e', pcbs, s'. split; [|split; [done|split; [split|]]].
  - unfold dns_recv. pose proof (reply_long p r Hp Hr). replace (tot_len p <? _) with false by lia.
    rewrite Eh, Hsz. cbn [Z.eqb Pos.eqb negb]. rewrite E1. rewrite (recv_finds all s i e r) by done. rewrite entry_nat, Hi.
    unfold recv_reply. rewrite E2, E3. cbn [mbind option_bind]. unfold is_response in Hresp. replace (Z.land (r_flags1 r) _ =? 0) with false by lia.
    rewrite E4. cbn [Z.eqb Pos.eqb negb]. rewrite Hfrom. cbn [mbind option_bind negb]. rewrite Eq. cbn [mbind option_bind].
    unfold is_error in Herr. replace (Z.land (r_flags2 r) _ =? 0) with true by (symmetry; apply Z.eqb_eq; lia). cbn [negb]. rewrite E5, Ea.
    cbn [mbind option_bind]. exact Ec.
  - by apply (inv_change (Kn := Kn) s).
  - rewrite Es'. intros j e2. rewrite answer_table. apply (quiet_put i e e' s Hi (quiet_weaken i s Hquiet)). destruct Hst as [(-> & _)|(-> & _)]; done.
  - split_and!; try done. destruct Hst as [(? & ? & _)|?]; [by left|by right].
Qed.

(** ** How long an answer is kept *)

Lemma check_entries_ages all ids : forall s i e, good all s -> NoDup ids -> (forall j, j ∈ ids -> (j < length (dns_table s))%nat) ->
  dns_table s !! i = Some e -> state e = DNS_STATE_DONE -> i ∈ ids ->
  exists s', check_entries ids s = Some s' /\ good all s' /\ dns_table s' !! i = Some (aged e).
Proof.
  set (Kn := known_from all). induction ids as [|j ids IH]; intros s i e [Hs Hq] Hnd Hids Hi Hst Hin; [by apply elem_of_nil in Hin|].
  apply NoDup_cons in Hnd as [Hj Hnd]. cbn [check_entries]. destruct (decide (i = j)) as [->|Hne].
  - destruct (done_ages (Kn := Kn) s j e Hs Hq Hi Hst) as (-> & Hc & Hq1). cbn [mbind option_bind]. pose proof (inv_change (Kn := Kn) _ _ Hs Hc) as Hs1.
    destruct (check_entries_moves (Kn := Kn) ids _ Hs1 Hq1) as (s' & E & Hm & Hq' & Ho).
    { intros k Hk. rewrite put_length. apply Hids. by right. }
    exists s'. split; [done|]. split; [split; [by eapply (inv_moves (Kn := Kn))|done]|]. rewrite Ho by done. by rewrite (lookup_put j e), decide_True.
  - apply elem_of_cons in Hin as [|Hin]; [done|].
    destruct (check_entry_moves (Kn := Kn) s j Hs Hq) as (s1 & -> & Hm & Hq1 & Ho); [apply Hids; by left|]. cbn [mbind option_bind].
    pose proof (inv_moves (Kn := Kn) _ _ Hs Hm) as Hs1. apply (IH s1 i e); try done.
    + intros k Hk. rewrite (table_length (Kn := Kn) s1 Hs1), <- (table_length (Kn := Kn) s Hs). apply Hids. by right.
    + by rewrite Ho.
Qed.

Lemma tmr_ages all s i e : good all s -> dns_table s !! i = Some e -> state e = DNS_STATE_DONE ->
  exists s', dns_tmr s = Some s' /\ good all s' /\ dns_table s' !! i = Some (aged e).
Proof.
  intros Hg Hi Hst. apply check_entries_ages; try done.
  - apply NoDup_seq.
  - intros j Hj. apply elem_of_seq in Hj. rewrite (table_length (Kn := known_from all) s (proj1 Hg)). lia.
  - apply elem_of_seq. apply lookup_lt_Some in Hi. rewrite (table_length (Kn := known_from all) s (proj1 Hg)) in Hi. lia.
Qed.

(** The same answer, so much later. *)
Record kept (e e' : dns_table_entry) (k : Z) : Prop := {
  kept_state : state e' = DNS_STATE_DONE;
  kept_ttl : ttl e' = ttl e - k;
  kept_name : name e' = name e;
  kept_addr : ipaddr e' = ipaddr e
}.

Lemma answer_kept all k : forall s i e, good all s -> dns_table s !! i = Some e -> state e = DNS_STATE_DONE -> Z.of_nat k < ttl e ->
  exists os s' e', run (replicate k Tmr) s = Some (os, s') /\ good all s' /\ dns_table s' !! i = Some e' /\ kept e e' (Z.of_nat k).
Proof.
  induction k as [|k IH]; intros s i e Hg Hi Hst Hk.
  { exists [], s, e. split; [done|]. split; [done|]. split; [done|]. split; try done. lia. }
  destruct (tmr_ages all s i e Hg Hi Hst) as (s1 & E & Hg1 & Hi1). unfold aged in Hi1. replace (ttl e - 1 =? 0) with false in Hi1 by lia.
  destruct (IH s1 i (set_ttl (ttl e - 1) e) Hg1 Hi1 Hst) as (os & s' & e' & Er & Hg' & Hi' & [H1 H2 H3 H4]); [cbn; lia|].
  exists ((ERR_OK, None) :: os), s', e'. split; [cbn [replicate run step]; rewrite E; cbn [mbind option_bind]; by rewrite Er|].
  split; [done|]. split; [done|]. split; try done. rewrite H2. cbn. lia.
Qed.

Lemma answer_expires all s i e : good all s -> dns_table s !! i = Some e -> state e = DNS_STATE_DONE ->
  exists os s' e', run (replicate (Z.to_nat (ttl e)) Tmr) s = Some (os, s') /\ good all s' /\ dns_table s' !! i = Some e' /\ state e' = DNS_STATE_UNUSED.
Proof.
  intros Hg Hi Hst. destruct (entries_ok (Kn := known_from all) s (proj1 Hg) i e Hi) as [_ He]. unfold settled in He. rewrite Hst in He.
  destruct (answer_kept all (Z.to_nat (ttl e - 1)) s i e Hg Hi Hst ltac:(lia)) as (os & s1 & e1 & Er & Hg1 & Hi1 & [H1 H2 _ _]).
  destruct (tmr_ages all s1 i e1 Hg1 Hi1 H1) as (s' & E & Hg' & Hi').
  replace (Z.to_nat (ttl e)) with (Z.to_nat (ttl e - 1) + 1)%nat by lia. rewrite replicate_add.
  assert (Happ : forall es1 es2 s os s1, run es1 s = Some (os, s1) -> run (es1 ++ es2) s = '(os2, s2) ← run es2 s1; Some (os ++ os2, s2)).
  { intros es1 es2. induction es1 as [|x es1 IH]; intros s0 os0 s2 E0; cbn [run app] in *.
    - injection E0 as <- <-. by destruct (run es2 s0) as [[]|].
    - destruct (step x s0) as [[o s3]|]; [|done]. cbn [mbind option_bind] in *. destruct (run es1 s3) as [[os3 s4]|] eqn:E3; [|done]. injection E0 as <- <-.
      rewrite (IH s3 os3 s4 E3). by destruct (run es2 s4) as [[]|]. }
  rewrite (Happ _ (replicate 1 Tmr) s os s1 Er). cbn [replicate run step]. rewrite E. cbn [mbind option_bind]. eexists _, s', (aged e1). split; [reflexivity|].
  split; [done|]. split; [done|]. unfold aged. by replace (ttl e1 - 1 =? 0) with true by lia.
Qed.

(** An answer that is kept is found. *)
Lemma lookup_hits t hostname dns_addrtype : (forall e, e ∈ t -> is_Some (c_str (name e))) -> forall i e n, t !! i = Some e -> state e = DNS_STATE_DONE ->
  c_str (name e) = Some n -> lwip_strnicmp hostname n DNS_MAX_NAME_LENGTH = true -> LWIP_DNS_ADDRTYPE_MATCH_IP dns_addrtype (ipaddr e) = true ->
  exists a, lookup_table t hostname dns_addrtype = Some (Some a).
Proof.
  intros Hn i e n Hi Hst He Hm Ht. revert i Hi. induction t as [|x t IH]; intros i Hi; [done|]. cbn [lookup_table].
  destruct i as [|i].
  - injection Hi as ->. rewrite bool_decide_eq_true_2, He by done. cbn [mbind option_bind]. rewrite Hm, Ht. by eexists.
  - destruct (IH ltac:(intros y Hy; apply Hn; by right) i Hi) as [a Ea]. destruct (bool_decide _); [|by exists a].
    destruct (Hn x ltac:(by left)) as [nx ->]. cbn [mbind option_bind]. destruct (_ && _); [by eexists|by exists a].
Qed.
End Exchange.
End DnsExchange.
