(* ===== verification/DnsSample.v ===== *)
(** The DNS resolver of lwIP: a configuration for examples. Two servers, four entries, all
    the checks that the options offer; memory never fails, and random numbers count. *)

From stdpp Require Import gmap.
From S2P Require Export DnsExchange.
Export DnsExchange.
Open Scope Z_scope.

Module DnsSample.

(** "www.example.com" and "www". *)
Definition www : list Z := [119; 119; 119].
Definition host : list Z := www ++ [46; 101; 120; 97; 109; 112; 108; 101; 46; 99; 111; 109].
Definition router : list Z := [114; 111; 117; 116; 101; 114].

#[export] Instance sample_options : DnsOptions.
Proof.
  refine {| DNS_TABLE_SIZE := 4; DNS_MAX_REQUESTS := 4; DNS_MAX_SOURCE_PORTS := 4; DNS_MAX_SERVERS := 2;
    DNS_MAX_NAME_LENGTH := 64; DNS_MAX_RETRIES := 4; DNS_MAX_TTL := 604800; SECURE_RAND_XID := true;
    SECURE_NO_MULTIPLE_OUTSTANDING := true; SECURE_RAND_SRC_PORT := true; LWIP_IPV4 := true; LWIP_IPV6 := true;
    LWIP_DNS_SUPPORT_MDNS_QUERIES := false; LWIP_HAVE_LOOPIF := true; DNS_LOCAL_HOSTLIST := true;
    DNS_LOCAL_HOSTLIST_INIT := [(router, V4 0x0a000001)]; DNS_LOCAL_HOSTLIST_MAX_NAMELEN := 64;
    LWIP_DNS_ADDRTYPE_DEFAULT := 2 |}; done.
Defined.

#[export] Instance sample_sizes : DnsSizes.
Proof. reflexivity. Defined.

#[export] Instance sample_pbufs : DnsPbufs.
Proof.
  refine {| pbuf_try_get_at := fun p i => if i <? 0 then -1 else default (-1) (concat p !! Z.to_nat i);
    pbuf_copy_partial := fun p len i => take (Z.to_nat len) (drop (Z.to_nat i) (concat p));
    pbuf_put_at := fun b i v => <[Z.to_nat i := v]> b;
    pbuf_take_at := fun b bs i => default b (poke b i bs) |}; try done.
  - intros p i Hi. by replace (i <? 0) with false by lia.
  - by intros b bs i b' ->.
Defined.

Definition lower (c : Z) : Z := if (65 <=? c) && (c <=? 90) then c + 32 else c.

#[export] Instance sample_text : DnsText.
Proof.
  refine {| lwip_tolower := lower; lwip_stricmp := fun a b => bool_decide (lower <$> a = lower <$> b);
    lwip_strnicmp := fun a b n => bool_decide (lower <$> take (Z.to_nat n) a = lower <$> take (Z.to_nat n) b);
    ipaddr_aton := fun _ => None |}.
  - intros a b. apply bool_decide_eq_true.
  - intros a b n _. apply bool_decide_eq_true.
Defined.

#[export] Instance sample_world : DnsWorld.
Proof.
  refine {| udp_new_ok := fun _ => true; udp_bind_result := fun _ _ => ERR_OK; udp_sendto_result := fun _ => ERR_OK;
    pbuf_alloc := fun _ n => Some (replicate (Z.to_nat n) 0); memp_malloc_ok := fun _ => true;
    LWIP_RAND := fun k => Z.of_nat k; rand_fuel := 2000 |}.
  intros k n b [= <-] Hn. unfold size. rewrite length_replicate. lia.
Defined.

(** Counting reaches a port above 1023. *)
Lemma high_port x : exists j, (j < 2000)%nat /\ 1024 <= u16 (x + Z.of_nat j).
Proof.
  destruct (decide (1024 <= u16 x)) as [H|H].
  - exists 0%nat. rewrite Z.add_0_r. split; [lia|done].
  - exists (Z.to_nat (1024 - u16 x)). unfold u16 in *. lia_mod.
Qed.

#[export] Instance sample_random : DnsRandom.
Proof.
  split.
  - intros k used Hl. destruct (counted_id (Z.of_nat k) used Hl) as (j & Hj & Hu). exists j. split; [exact (Nat.lt_trans j 256 2000 Hj ltac:(lia))|].
    cbn. by rewrite Nat2Z.inj_add.
  - intros k. destruct (high_port (Z.of_nat k)) as (j & Hj & Hu). exists j. split; [exact Hj|]. split; [|done]. cbn. by rewrite Nat2Z.inj_add.
  - intros x. destruct (high_port x) as (j & Hj & Hu). exists j. by split.
Qed.

(** ** A history *)

Definition server : ip_addr := V4 0x08080808.

(** The answer of the server: an alias, and the address 93.184.216.34 for an hour. *)
Definition alias : rr := mkRR [0xc0; 0x0c] 5 1 3600 [1; 97; 0xc0; 0x10].
Definition address : rr := mkRR [1; 97; 0xc0; 0x10] 1 1 3600 [93; 184; 216; 34].
Definition host_answer (id : Z) : reply := mkReply id 0x81 0x80 2 [0; 0; 0; 0] (labels host) 1 [alias; address] [].

Lemma host_answer_wf id : 0 <= id < 2 ^ 16 -> wf_reply (host_answer id).
Proof.
  intros Hid. split; cbn [host_answer r_id r_flags1 r_flags2 r_count r_other r_labels r_answers]; try done.
  - split; [done|]. split; repeat (apply Forall_cons_2; [done|]); apply Forall_nil; done.
  - apply Forall_cons_2; [|apply Forall_cons_2; [|by apply Forall_nil]]; split; cbn [alias address rr_name rr_type rr_cls rr_ttl rr_data]; try done.
    + by apply skipped_pointer.
    + change [1; 97; 192; 16] with (size [97] :: [97] ++ [192; 16]). apply skipped_more; [done|by apply skipped_pointer|done].
Qed.

(** In two buffers, the first of which ends in the question. *)
Definition host_message (id : Z) : chain := [take 20 (reply_bytes (host_answer id)); drop 20 (reply_bytes (host_answer id))].

Definition asked : list happening := [SetServer 0 (Some server); GetHostByName (Some host) (Some 7) 0].
Definition sample_calls : list happening := asked ++ [Recv (host_message 1025) server; GetHostByName (Some host) (Some 8) 0; Tmr].

Definition started : dns := Eval vm_compute in default zero_dns (dns_init zero_dns).
Definition waiting_state : dns := Eval vm_compute in default zero_dns (o ← run asked started; Some o.2).
Definition answered_state : dns := Eval vm_compute in default zero_dns (o ← run sample_calls started; Some o.2).
Definition sample_results : list (Z * option ip_addr) := Eval vm_compute in default [] (o ← run sample_calls started; Some o.1).
End DnsSample.
