(* ===== verification/DnsSpec.v ===== *)
(** The DNS resolver of lwIP: what it promises. *)

From stdpp Require Import gmap.
From S2P Require Export DnsExchange.
From S2P Require Import DnsSample.
Export DnsExchange.
Import DnsSample.
Open Scope Z_scope.

Module DnsSpec.

Section Spec.
Context {Opt : DnsOptions} {Pbufs : DnsPbufs} {Text : DnsText} {World : DnsWorld} {Rnd : DnsRandom} {Sizes : DnsSizes}.

(** The resolver is started, and calls bring it to [s]; [os] is what they return. *)
Definition reaches (es : list happening) (os : list (Z * option ip_addr)) (s : dns) : Prop :=
  exists s0, dns_init zero_dns = Some s0 /\ Forall expects es /\ run es s0 = Some (os, s).

Lemma zero_name n : (0 < n)%nat -> c_str (replicate n 0) = Some [].
Proof. destruct n; [lia|done]. Qed.

Lemma zero_good all : good all zero_dns.
Proof.
  pose proof table_size_ok. pose proof requests_ok. pose proof servers_ok. pose proof ports_ok. pose proof name_length_ok.
  assert (Ht : forall i e, dns_table zero_dns !! i = Some e -> e = zero_entry) by (intros i e He; by apply lookup_replicate in He as [-> _]).
  split; [|by intros i e ->%Ht]. split; cbn [zero_dns dns_pcbs dns_requests dns_servers dns_txid dns_seqno dns_last_pcb_idx events].
  - apply length_replicate.
  - apply length_replicate.
  - apply length_replicate.
  - apply length_replicate.
  - apply Forall_replicate. by left.
  - intros i e ->%Ht. split; [|done]. split; cbn [zero_entry name txid]; [|rewrite zero_name by lia; by exists []|done|by intros [|]].
    unfold size. rewrite length_replicate. lia.
  - by intros i j e e' ->%Ht ->%Ht.
  - intros r q c Hr Hc. apply lookup_replicate in Hr as [-> _]. done.
  - intros _ i e ->%Ht [Hx|Hx]; done.
  - intros _ p Hp. by apply lookup_replicate in Hp as [? _].
  - split_and!; lia.
  - by apply Forall_nil.
Qed.

(** Starting it changes nothing but the control block and the local hosts. *)
Lemma init_hosts_same hosts : forall s s', init_hosts hosts s = Some s' ->
  exists c l, s' = set_local_hostlist l (set_calls c s).
Proof.
  induction hosts as [|[n a] hosts IH]; intros s s' E; cbn [init_hosts] in E.
  - injection E as <-. exists (calls s), (local_hostlist_dynamic s). by destruct s.
  - destruct (lwip_assert _); [|done]. cbn [mbind option_bind call] in E. destruct (lwip_assert (memp_malloc_ok _)); [|done].
    destruct (IH _ _ E) as (c & l & ->). by exists c, l.
Qed.

(** The state at the start. *)
Lemma init_shape s0 : dns_init zero_dns = Some s0 -> exists pcbs c l, s0 = set_local_hostlist l (set_calls c (set_dns_pcbs pcbs zero_dns)) /\
  (SECURE_RAND_SRC_PORT = true -> pcbs = dns_pcbs zero_dns) /\ length pcbs = length (dns_pcbs zero_dns).
Proof.
  intros E. unfold dns_init in E.
  assert (H1 : forall s, init_pcb zero_dns = Some s -> exists pcbs c, s = set_calls c (set_dns_pcbs pcbs zero_dns) /\
    (SECURE_RAND_SRC_PORT = true -> pcbs = dns_pcbs zero_dns) /\ length pcbs = length (dns_pcbs zero_dns)).
  { intros s Es. unfold init_pcb in Es. destruct SECURE_RAND_SRC_PORT; [injection Es as <-; by exists (dns_pcbs zero_dns), 0%nat|].
    destruct (dns_pcbs zero_dns !! 0%nat) as [[]|]; cbn [mbind option_bind call] in Es; [injection Es as <-; by exists (dns_pcbs zero_dns), 0%nat| |done].
    destruct (lwip_assert _); [|done]. injection Es as <-. exists (<[0%nat := true]> (dns_pcbs zero_dns)), 2%nat. split; [done|]. split; [done|]. apply length_insert. }
  destruct (init_pcb zero_dns) as [s1|]; [|done]. cbn [mbind option_bind] in E. destruct (H1 s1 eq_refl) as (pcbs & c & -> & Hp & Hl).
  destruct DNS_LOCAL_HOSTLIST.
  - destruct (init_hosts_same _ _ _ E) as (c' & l & ->). by exists pcbs, c', l.
  - injection E as <-. by exists pcbs, c, [].
Qed.

Lemma init_good all s0 : dns_init zero_dns = Some s0 -> good all s0.
Proof.
  intros E. destruct (init_shape s0 E) as (pcbs & c & l & -> & Hp & Hl). destruct (zero_good all) as [Hs Hq]. split; [|exact Hq].
  destruct Hs as [H1 H2 H3 H4 H5 H6 H7 H8 H9 H10 H11 H12]. split; try done; [by rewrite <- H1| |].
  - intros Hsec i e Hi Hb. destruct (H9 Hsec i e Hi Hb) as (p & Hpc & Ho). exists p. split; [done|]. change (pcbs !! p = Some true). by rewrite Hp.
  - intros Hsec p Ho. change (pcbs !! p = Some true) in Ho. rewrite Hp in Ho by done. by apply H10.
Qed.

Lemma init_owed c s0 : dns_init zero_dns = Some s0 -> owed c s0 = 0%nat.
Proof.
  intros E. destruct (init_shape s0 E) as (pcbs & k & l & -> & _). unfold owed. cbn. rewrite Nat.add_0_r.
  unfold waiting. by induction (Z.to_nat DNS_MAX_REQUESTS) as [|n IH].
Qed.

Lemma reaches_good es os s : reaches es os s -> good es s.
Proof.
  intros (s0 & E0 & He & E). destruct (history_good es es s0 (init_good es s0 E0)) as (os' & s' & E' & Hg & _); [done..|].
  rewrite E in E'. by injection E' as <- <-.
Qed.

(** C29. Over any sequence of calls, messages and seconds no assertion of the resolver fails
    and no access leaves an array or a message; the entries, requests and control blocks stay
    consistent: identifiers of queries differ, a request waits only for a query that is
    under way, a query has a running timer, a server and an open control block, and no
    control block stays open without a query. Conditions: the question of a message is no
    longer than the array that its name is compared with (dns_compare_name leaves the array
    otherwise, see dns_compare_leaves); the table and the requests have the same size
    (dns_call_found leaves the table otherwise); random numbers hit a free identifier and a
    free port within the fuel; names of requests are strings, those of added local hosts
    fit; callbacks do not call the resolver themselves. *)
Theorem dns_invariant es s0 :
  dns_init zero_dns = Some s0 -> Forall expects es ->
  exists os s, run es s0 = Some (os, s) /\ inv (Kn := known_from es) s /\ quiet s.
Proof.
  intros E0 He. destruct (history_good es es s0 (init_good es s0 E0)) as (os & s & E & [Hs Hq] & _); [done..|]. by exists os, s.
Qed.

(** C30. Every request is answered once: at any time the callback of the requests that were
    taken was called, or is still waited for, as often as they were taken. This holds for
    callbacks that do not call the resolver themselves: a request that is made in a callback
    can be lost, see the header. The calls and messages, the sizes of the tables and the
    random numbers are as in dns_invariant. *)
Theorem dns_answered_once es os s c :
  reaches es os s -> taken_requests c es os = (waiting c (dns_requests s) + called c (events s))%nat.
Proof.
  intros (s0 & E0 & He & E). pose proof (run_owed es c es s0 os s (init_good es s0 E0) ltac:(done) He E) as H. rewrite (init_owed c s0 E0) in H.
  unfold owed in H. lia.
Qed.

(** C31. No request that was taken waits for ever: whatever is called and arrives meanwhile,
    its callback is called within twice the time that all tries at all servers take. This
    holds for callbacks that do not call the resolver themselves: a request that is made in
    a callback can be lost, see the header. The calls and messages, the sizes of the tables
    and the random numbers are as in dns_invariant. *)
Theorem dns_told_in_time es os s r q c es2 os2 s2 :
  reaches es os s -> dns_requests s !! r = Some q -> found q = Some c ->
  Forall expects es2 -> run es2 s = Some (os2, s2) ->
  2 * (DNS_MAX_SERVERS * (1 + DNS_MAX_RETRIES * (DNS_MAX_RETRIES - 1) / 2)) <= ticks es2 ->
  exists hostname addr new, events s2 = events s ++ new /\ Found c hostname addr ∈ new.
Proof.
  intros (s0 & E0 & He & E) Hr Hc He2 E2 Hticks. set (all := es ++ es2). set (Kn := known_from all).
  destruct (history_good all es s0 (init_good all s0 E0)) as (os' & s' & E' & Hg & _); [intros x Hx; apply elem_of_app; by left|done|].
  rewrite E in E'. injection E' as <- <-. destruct Hg as [Hs Hq].
  assert (Hw : exists i n, waits i n c r (2 * query_time) s).
  { destruct (requests_wait (Kn := Kn) s Hs r q c Hr Hc) as (i & e & Hidx & Hi & Hb & _). destruct (entries_ok (Kn := Kn) s Hs i e Hi) as [Hwf He'].
    destruct (entry_name e Hwf) as [n Hn]. exists i, n, q, e. split_and!; try done. destruct Hb as [Hst|Hst]; [by destruct (Hq i e Hi)|].
    by apply (budget_bound (Kn := Kn)). }
  destruct Hw as (i & n & Hw).
  assert (Hin : es2 ⊆ all) by (intros x Hx; apply elem_of_app; by right).
  destruct (run_waits all es2 i n c r _ s os2 s2 (conj Hs Hq) Hin He2 E2 Hw) as [Hw2|(new & a & Enew & Hin2)]; [|by exists n, a, new].
  exfalso. destruct (history_good all es2 s (conj Hs Hq) Hin He2) as (os3 & s3 & E3 & [Hs3 Hq3] & _). rewrite E2 in E3. injection E3 as <- <-.
  pose proof (waits_positive (Kn := Kn) _ _ _ _ _ _ Hs3 Hq3 Hw2). unfold query_time, server_time, later_tries in *. rewrite Z.mul_0_l, Z.sub_0_r in *. lia.
Qed.


(** Every message that is sent is a query with one question of type A or AAAA, to a
    server that was configured, or to a group of mDNS. *)
Theorem dns_queries es os s pcb dst port msg :
  reaches es os s -> Sent pcb dst port msg ∈ events s ->
  (exists id hostname type, 0 <= id < 2 ^ 16 /\ msg = query_bytes id (labels hostname) type /\ (type = DNS_RRTYPE_A \/ type = DNS_RRTYPE_AAAA)) /\
  (port = DNS_SERVER_PORT /\ configured_by es dst /\ ip_addr_isany dst = false \/
   port = DNS_MQUERY_PORT /\ (dst = dns_mquery_v4group \/ dst = dns_mquery_v6group)).
Proof.
  intros Hr Hin. pose proof (events_ok (Kn := known_from es) s (proj1 (reaches_good es os s Hr))) as Hev. rewrite Forall_forall in Hev. exact (Hev _ Hin).
Qed.

(** C33. The exchange: a request that is taken has been told already, or it waits for a
    query of its name; and any reply to that query, from the server that it was sent to,
    gives the first address of the right type to the callback. *)
Theorem dns_exchange es os s hostname c t s1 :
  reaches es os s -> Forall (fun x => x <> 0) hostname ->
  dns_gethostbyname_addrtype (Some hostname) (Some c) t s = Some (ERR_INPROGRESS, None, s1) ->
  (exists n, told n c s s1) \/
  exists i e n, dns_table s1 !! i = Some e /\ state e = DNS_STATE_ASKING /\ c_str (name e) = Some n /\
    lwip_strnicmp hostname n DNS_MAX_NAME_LENGTH = true /\
    forall p from r a ttl, from_server e from s1 = Some true -> wf_chain p -> concat p = reply_bytes r -> answers e r a ttl ->
      exists s2 e', dns_recv p from s1 = Some s2 /\ (exists new, events s2 = events s1 ++ new /\ Found c n (Some a) ∈ new) /\
        dns_table s2 !! i = Some e' /\ name e' = name e /\ ipaddr e' = a /\
        (state e' = DNS_STATE_DONE /\ DnsBase.Dns.ttl e' = Z.min ttl DNS_MAX_TTL \/ state e' = DNS_STATE_UNUSED /\ Z.min ttl DNS_MAX_TTL = 0).
Proof.
  intros Hr Hc E. pose proof (reaches_good es os s Hr) as [Hs Hq]. set (Kn := known_from es) in *.
  destruct (request_taken (Kn := Kn) s (Some hostname) (Some c) t Hs Hq Hc) as (err & addr & s2 & E2 & Hq1 & Ht & _). rewrite E in E2.
  injection E2 as <- <- <-. destruct Ht as [(_ & s3 & s4 & Hm1 & Hs3 & Hacc & Hm2)|[? _]]; [|done].
  destruct (accepted_waits (Kn := Kn) hostname c s3 s4 Hs3 Hacc) as (i & n & r & Hw & Hsame).
  pose proof (inv_moves (Kn := Kn) _ _ (inv_accept (Kn := Kn) _ _ _ _ Hs3 Hacc) Hm2) as Hs1.
  destruct (waits_moves (Kn := Kn) _ _ _ _ _ _ _ Hm2 Hw) as [Hw1|Ht].
  2:{ left. exists n. eapply told_earlier; [|exact Ht]. etransitivity; [by eapply (grows_moves (Kn := Kn))|by eapply grows_accept]. }
  right. pose proof Hw1 as (q & e & _ & _ & _ & Hi & [Hst|Hst] & Hn & _); [by destruct (Hq1 i e Hi)|].
  exists i, e, n. do 4 (split; [done|]). intros p from rep a ttl Hfrom Hwf Hp Hans.
  destruct (reply_taken (Recv p from :: es) s1 i e p from rep a ttl n) as (e' & pcbs & s2 & E2 & -> & _ & Hna & Hip & _ & Hstate); try done.
  { apply (known_mono es); [intros x Hx; by right|by split]. }
  { by left. }
  exists (answer i e' n (Some a) pcbs s1), e'. split; [done|]. split; [|by rewrite answer_table, (lookup_put i e), decide_True].
  eexists. split; [apply answer_events|]. by eapply answer_in.
Qed.

(** An answer is kept for its time, at most DNS_MAX_TTL seconds, and every lookup of its
    name finds an address; then its entry is free. *)
Theorem dns_answer_kept es os s i e n :
  reaches es os s -> dns_table s !! i = Some e -> state e = DNS_STATE_DONE -> c_str (name e) = Some n ->
  DnsBase.Dns.ttl e <= DNS_MAX_TTL /\
  (forall k hostname t, Z.of_nat k < DnsBase.Dns.ttl e ->
     lwip_strnicmp hostname n DNS_MAX_NAME_LENGTH = true -> LWIP_DNS_ADDRTYPE_MATCH_IP t (ipaddr e) = true ->
     exists os' s' e' a, run (replicate k Tmr) s = Some (os', s') /\ dns_table s' !! i = Some e' /\ kept e e' (Z.of_nat k) /\
       dns_lookup hostname t s' = Some (Some a)) /\
  exists os' s' e', run (replicate (Z.to_nat (DnsBase.Dns.ttl e)) Tmr) s = Some (os', s') /\ dns_table s' !! i = Some e' /\ state e' = DNS_STATE_UNUSED.
Proof.
  intros Hr Hi Hst Hn. pose proof (reaches_good es os s Hr) as Hg. split; [|split].
  - destruct (entries_ok (Kn := known_from es) s (proj1 Hg) i e Hi) as [_ He]. unfold settled in He. rewrite Hst in He. lia.
  - intros k hostname t Hk Hm Ht. destruct (answer_kept es k s i e Hg Hi Hst Hk) as (os' & s' & e' & E & Hg' & Hi' & Hkept).
    pose proof Hkept as [H1 _ H3 H4]. rewrite <- H3 in Hn. rewrite <- H4 in Ht.
    assert (Hl : exists a, dns_lookup hostname t s' = Some (Some a)).
    { unfold dns_lookup. destruct (if DNS_LOCAL_HOSTLIST then _ else None) as [a|]; [by exists a|].
      apply (lookup_hits (dns_table s') hostname t) with (i := i) (e := e') (n := n); try done.
      intros x Hx. apply list_elem_of_lookup_1 in Hx as [j Hj]. apply (entry_name x), (entries_ok (Kn := known_from es) s' (proj1 Hg') j x Hj). }
    destruct Hl as [a Ha]. by exists os', s', e', a.
  - destruct (answer_expires es s i e Hg Hi Hst) as (os' & s' & e' & E & _ & Hi' & Hst'). by exists os', s', e'.
Qed.

(** C34. A message is taken for a reply to a query exactly when its question has the class
    and the type of the query and labels that agree with the array of its name, position
    by position; what stands at the dots, and whether the name ends, is not looked at. *)
Theorem dns_question_exact e p :
  wf_chain p ->
  (exists i, our_question e p = Some (Some i)) <->
  (exists ls rest, labels_ok ls /\ matches (name e) 0 ls /\ drop 12 (concat p) = question_bytes ls (query_type e) ++ rest).
Proof.
  intros Hw. split.
  - intros [i E]. destruct (our_question_sound e p i Hw E) as (ls & Hls & Hm & _ & Hd). by exists ls, (drop (Z.to_nat i) (concat p)).
  - intros (ls & rest & Hls & Hm & Hd). eexists. apply (our_question_complete e p (take 12 (concat p)) ls rest); try done.
    + unfold size. rewrite length_take.
      assert (length (drop 12 (concat p)) <> 0%nat) as Hl; [|rewrite length_drop in Hl; lia].
      rewrite Hd. unfold question_bytes. rewrite !length_app. change (length (be16 (query_type e))) with 2%nat. lia.
    + by rewrite <- Hd, take_drop.
Qed.

(** C35. The query that is written for a host name is a header and its question, and any
    message that repeats the question, in upper or lower case, is taken for a reply to it. *)
Theorem dns_query_echoed e hostname behind b :
  wf_hostname hostname -> name e = hostname ++ 0 :: behind -> size b = SIZEOF_DNS_HDR + size hostname + 2 + SIZEOF_DNS_QUERY ->
  exists msg, write_query e hostname b = Some (Some msg) /\ msg = query_header (txid e) ++ question_bytes (labels hostname) (query_type e) /\
    size msg = size b /\
    forall p ls head rest, wf_chain p -> same_name (labels hostname) ls -> size head = SIZEOF_DNS_HDR ->
      concat p = head ++ question_bytes ls (query_type e) ++ rest -> our_question e p = Some (Some (size msg)).
Proof.
  intros Hh Hn Hb. exists (query_bytes (txid e) (labels hostname) (query_type e)).
  pose proof (hostname_size hostname Hh) as Hsz.
  assert (Hmsg : forall ls, same_name (labels hostname) ls -> size (question_bytes ls (query_type e)) = size hostname + 2 + 4).
  { intros ls Hs. unfold question_bytes. rewrite !size_app. change (size (be16 (query_type e))) with 2. change (size (be16 1)) with 2.
    rewrite <- (encode_size hostname). unfold encode. rewrite !size_app. enough (size (blocks ls) = size (blocks (labels hostname))) by lia.
    induction Hs as [|l l' ls1 ls2 El _ IH]; [done|]. rewrite !blocks_cons, !size_app, !size_cons, IH. unfold size. by rewrite (same_length l l' El). }
  split; [by apply write_query_exact|]. split; [done|]. split.
  - unfold query_bytes. rewrite size_app, (Hmsg (labels hostname)) by apply same_name_refl. rewrite query_header_size. lia.
  - intros p ls head rest Hw Hs Hhd Hp.
    rewrite (our_question_complete e p head ls rest Hw Hhd Hp (same_labels_ok hostname ls Hh Hs)) by (rewrite Hn; by apply labels_match).
    unfold query_bytes. rewrite !size_app, (Hmsg ls Hs), (Hmsg (labels hostname)) by apply same_name_refl. by rewrite Hhd, query_header_size.
Qed.
End Spec.

(** ** Instances *)

Lemma sample_started : dns_init zero_dns = Some started.
Proof. by vm_compute. Qed.

Lemma message_chain : wf_chain (host_message 1025).
Proof. split; [|by vm_compute]. apply (bool_decide_unpack (Forall is_byte (concat (host_message 1025)))). by vm_compute. Qed.

Lemma host_string : Forall (fun c => c <> 0) host.
Proof. apply (bool_decide_unpack (Forall (fun c => c <> 0) host)). by vm_compute. Qed.

Lemma sample_expects : Forall expects sample_calls.
Proof.
  unfold sample_calls, asked. apply Forall_cons_2; [done|]. apply Forall_cons_2; [apply host_string|]. apply Forall_cons_2; [split; [exact message_chain|by vm_compute]|].
  apply Forall_cons_2; [apply host_string|]. apply Forall_cons_2; [done|]. by apply Forall_nil.
Qed.

Lemma asked_expects : Forall expects asked.
Proof. apply Forall_cons_2; [done|]. apply Forall_cons_2; [apply host_string|]. by apply Forall_nil. Qed.

Lemma asked_reaches : reaches asked [(0, None); (ERR_INPROGRESS, None)] waiting_state.
Proof. exists started. split; [exact sample_started|]. split; [exact asked_expects|]. by vm_compute. Qed.

Lemma calls_reach : reaches sample_calls sample_results answered_state.
Proof. exists started. split; [exact sample_started|]. split; [exact sample_expects|]. by vm_compute. Qed.

Definition host_addr : ip_addr := V4 0x5db8d822.

Lemma dns_invariant_witness :
  dns_init zero_dns = Some started /\ Forall expects sample_calls /\
  exists os s, run sample_calls started = Some (os, s) /\ inv (Kn := known_from sample_calls) s /\ quiet s.
Proof.
  split; [exact sample_started|]. split; [exact sample_expects|].
  apply (dns_invariant sample_calls started); [exact sample_started|exact sample_expects].
Defined.

(** The request with the callback 7 is answered, the second one needs no query. *)
Lemma dns_answered_once_witness :
  called 7 (events answered_state) = 1%nat /\
  taken_requests 7 sample_calls sample_results = (waiting 7 (dns_requests answered_state) + called 7 (events answered_state))%nat.
Proof. split; [by vm_compute|]. exact (dns_answered_once sample_calls sample_results answered_state 7 calls_reach). Defined.

(** Without an answer it takes 14 seconds at most. *)
Lemma dns_told_in_time_witness :
  exists os2 s2, run (replicate 28 Tmr) waiting_state = Some (os2, s2) /\
  exists hostname addr new, events s2 = events waiting_state ++ new /\ Found 7 hostname addr ∈ new.
Proof.
  eexists _, _. split; [vm_compute; reflexivity|].
  eapply (dns_told_in_time asked _ waiting_state 0 (mkReq (Some 7) 0 0) 7 (replicate 28 Tmr)).
  - exact asked_reaches.
  - by vm_compute.
  - reflexivity.
  - by apply Forall_replicate.
  - vm_compute. reflexivity.
  - vm_compute. discriminate.
Defined.


(** A question that is longer than the array: its second label is compared with what lies
    behind the array. *)
Lemma dns_compare_leaves :
  dns_compare_name (replicate 63 97 ++ [0]) [replicate 12 0 ++ 63 :: replicate 63 97 ++ [1; 97; 0]] 12 = None.
Proof. by vm_compute. Qed.

Lemma dns_queries_witness :
  Sent 0 server 53 (query_bytes 1025 (labels host) 1) ∈ events answered_state /\
  (exists id hostname type, 0 <= id < 2 ^ 16 /\ query_bytes 1025 (labels host) 1 = query_bytes id (labels hostname) type /\
     (type = DNS_RRTYPE_A \/ type = DNS_RRTYPE_AAAA)) /\
  (53 = DNS_SERVER_PORT /\ configured_by sample_calls server /\ ip_addr_isany server = false \/
   53 = DNS_MQUERY_PORT /\ (server = dns_mquery_v4group \/ server = dns_mquery_v6group)).
Proof.
  assert (Hin : Sent 0 server 53 (query_bytes 1025 (labels host) 1) ∈ events answered_state) by (vm_compute; left).
  split; [exact Hin|]. exact (dns_queries sample_calls sample_results answered_state _ _ _ _ calls_reach Hin).
Defined.

(** The entry of the query. *)
Definition asking_entry : dns_table_entry := Eval vm_compute in default zero_entry (dns_table waiting_state !! 0%nat).

Lemma sample_answers : answers asking_entry (host_answer 1025) host_addr 3600.
Proof.
  split; [by apply host_answer_wf|by vm_compute|intros H; apply H; by vm_compute|by vm_compute| |by vm_compute|by vm_compute].
  split; [|by vm_compute]. exact (labels_match host (replicate 48 0) _ (same_name_refl _)).
Qed.

(** The request after the server is set; the query of the entry 0 is answered by the sample
    message. *)
Lemma dns_exchange_witness :
  exists s0 s1, reaches [SetServer 0 (Some server)] [(0, None)] s0 /\
    dns_gethostbyname_addrtype (Some host) (Some 7) 0 s0 = Some (ERR_INPROGRESS, None, s1) /\
    (exists e, dns_table s1 !! 0%nat = Some e /\ from_server e server s1 = Some true /\ answers e (host_answer 1025) host_addr 3600) /\
    ((exists n, told n 7 s0 s1) \/
     exists i e n, dns_table s1 !! i = Some e /\ state e = DNS_STATE_ASKING /\ c_str (name e) = Some n /\
       lwip_strnicmp host n DNS_MAX_NAME_LENGTH = true /\
       forall p from r a ttl, from_server e from s1 = Some true -> wf_chain p -> concat p = reply_bytes r -> answers e r a ttl ->
         exists s2 e', dns_recv p from s1 = Some s2 /\ (exists new, events s2 = events s1 ++ new /\ Found 7 n (Some a) ∈ new) /\
           dns_table s2 !! i = Some e' /\ name e' = name e /\ ipaddr e' = a /\
           (state e' = DNS_STATE_DONE /\ DnsBase.Dns.ttl e' = Z.min ttl DNS_MAX_TTL \/ state e' = DNS_STATE_UNUSED /\ Z.min ttl DNS_MAX_TTL = 0)).
Proof.
  eexists _, waiting_state.
  assert (Hr : reaches [SetServer 0 (Some server)] [(0, None)] (dns_setserver 0 (Some server) started)).
  { exists started. split; [exact sample_started|]. split; [by apply Forall_singleton|]. reflexivity. }
  assert (E : dns_gethostbyname_addrtype (Some host) (Some 7) 0 (dns_setserver 0 (Some server) started) = Some (ERR_INPROGRESS, None, waiting_state)) by by vm_compute.
  split; [exact Hr|]. split; [exact E|]. split.
  - exists asking_entry. split; [by vm_compute|]. split; [by vm_compute|exact sample_answers].
  - exact (dns_exchange _ _ _ host 7 0 waiting_state Hr host_string E).
Defined.

(** The answer of the sample is kept for an hour. *)
Lemma dns_answer_kept_witness :
  exists e, dns_table answered_state !! 0%nat = Some e /\ DnsBase.Dns.ttl e = 3599 /\ DnsBase.Dns.ttl e <= DNS_MAX_TTL /\
  (forall k hostname t, Z.of_nat k < DnsBase.Dns.ttl e ->
     lwip_strnicmp hostname host DNS_MAX_NAME_LENGTH = true -> LWIP_DNS_ADDRTYPE_MATCH_IP t (ipaddr e) = true ->
     exists os' s' e' a, run (replicate k Tmr) answered_state = Some (os', s') /\ dns_table s' !! 0%nat = Some e' /\ kept e e' (Z.of_nat k) /\
       dns_lookup hostname t s' = Some (Some a)) /\
  exists os' s' e', run (replicate (Z.to_nat (DnsBase.Dns.ttl e)) Tmr) answered_state = Some (os', s') /\ dns_table s' !! 0%nat = Some e' /\ state e' = DNS_STATE_UNUSED.
Proof.
  destruct (dns_table answered_state !! 0%nat) as [e|] eqn:Hi; [|by vm_compute in Hi]. exists e.
  assert (He : DnsBase.Dns.ttl e = 3599 /\ state e = DNS_STATE_DONE /\ c_str (name e) = Some host).
  { vm_compute in Hi. injection Hi as <-. by vm_compute. }
  destruct He as (Ht & Hst & Hn). split; [done|]. split; [done|].
  exact (dns_answer_kept sample_calls sample_results answered_state 0 e host calls_reach Hi Hst Hn).
Defined.

(** The query asks for "www.example.com"; a message that asks for "www" only, which is
    another name, is taken for a reply to it. *)
Definition short_message : chain := [replicate 12 0 ++ question_bytes [www] 1].

Lemma dns_question_exact_witness :
  wf_chain short_message /\ our_question asking_entry short_message = Some (Some 21) /\
  ((exists i, our_question asking_entry short_message = Some (Some i)) <->
   (exists ls rest, labels_ok ls /\ matches (name asking_entry) 0 ls /\
      drop 12 (concat short_message) = question_bytes ls (query_type asking_entry) ++ rest)).
Proof.
  assert (Hw : wf_chain short_message).
  { split; [|by vm_compute]. apply (bool_decide_unpack (Forall is_byte (concat short_message))). by vm_compute. }
  split; [exact Hw|]. split; [by vm_compute|]. exact (dns_question_exact asking_entry short_message Hw).
Defined.

Lemma host_wf : wf_hostname host.
Proof.
  split; [|apply (bool_decide_unpack (Forall (fun l => 1 <= size l <= 63) (labels host))); by vm_compute|by vm_compute].
  apply (bool_decide_unpack (Forall (fun c => (0 <= c < 256) /\ c <> 0) host)). by vm_compute.
Qed.

Lemma dns_query_echoed_witness :
  wf_hostname host /\
  exists msg, write_query asking_entry host (replicate 33 0) = Some (Some msg) /\ msg = query_header 1025 ++ question_bytes (labels host) 1 /\
    size msg = 33 /\
    forall p ls head rest, wf_chain p -> same_name (labels host) ls -> size head = SIZEOF_DNS_HDR ->
      concat p = head ++ question_bytes ls 1 ++ rest -> our_question asking_entry p = Some (Some (size msg)).
Proof.
  split; [exact host_wf|].
  exact (dns_query_echoed asking_entry host (replicate 48 0) (replicate 33 0) host_wf eq_refl eq_refl).
Defined.
End DnsSpec.
